(* ===== verification/_CoqProject ===== *)
-Q . S2P
Prelude.v
Bytes.v
Errors.v
Reader.v
Object.v
Container.v
Checkpoint.v
Walk.v
BTree.v
NodeLayout.v
Omap.v
ApfsContainer.v
FsRecord.v
Volume.v
Encryption.v
Ber.v
Keybag.v
Unlock.v
Inode.v
Dir.v
Spaceman.v
Reaper.v
Sealed.v
Extent.v
Xattr.v
Compression.v
Decmpfs.v
Snapshot.v
Source.v
DemoVolume.v
View.v
Locked.v
History.v
Format.v
TestKit.v
Fixture.v
FixtureData.v
FixtureContent.v
Report.v
Analyzer.v
Fuzz.v
Utf8.v
Vfs.v
VfsSpec.v
DemoMount.v
VfsPaths.v
UnlockCheck.v
TestsKeybag.v
TestsUnlock.v
TestsSpace.v
TestsSnapshot.v
TestsVfs.v
TestsForensic.v
TestsContainer.v
TestsTree.v
TestsRecords.v
TestsCompression.v
TestsContent.v
TestsMount.v
StoredTree.v
