(* ===== verification/Prelude.v ===== *)
(** * A verified model of apfs-forensic

    apfs-forensic reads APFS images: a container of checksummed blocks, the volumes in it, and the directories, files,
    attributes and snapshots of a volume.  Its promise is that of a forensic tool: never trust a block
    before its checksum, never read outside a buffer, never loop on a cyclic structure, and never
    return fabricated or partial content: what cannot be read is a named error.  This library
    models the reader (the crate under core/src), the analyzer on top of it (forensic/src), the password checker
    (core/examples), the fuzz targets (fuzz/fuzz_targets) and the unit and integration tests with the images they build and the
    committed images they read (tests/data), function by function, and proves the parts of that promise, and of the meaning of each operation, that the code keeps.

    ** Parts, files and correspondence

    The files follow the source modules, in dependency order.

    - [Prelude]: the development's vocabulary.  [outcome] is a Rust [Result] with a third case, [Panic]; machine arithmetic is on [Z]
      with [checked_], [saturating_] and profile-dependent unchecked operations written out ([add_u64]: a build that traps on
      overflow, or one that wraps); [get_range] is [slice::get]; [sort_by_key] is the stable sort.
    - [Bytes] (bytes.rs): [le_u16], [le_u32], [le_u64], [arr]; reads past the end give zeros, as in the code.
    - [Errors] (lib.rs): [ApfsError], [result], and [String::from_utf8_lossy].
    - [Reader]: the [Read + Seek] bound as a class [ReadSeek], with the in-memory cursor as its instance (a read of
      no bytes succeeds wherever the cursor stands, as in std).  Every function that reads is proved for any instance unless it speaks of image bytes.
    - [Object] (object.rs): object headers and the Fletcher-64 checksum.
    - [Container] (container.rs, fusion.rs): the container superblock and the Fusion gate.
    - [Checkpoint] (checkpoint.rs): the scan of the descriptor ring for the live superblock, and its checkpoint maps.
    - [Walk]: the shape three tree walks of the code share: a visited set, a depth budget, a visitor with captured state that survives
      an early error return.  [gwalk] is that shape; [tree], [repr] and [walkable] say what it walks.
    - [BTree], [NodeLayout] (btree.rs): nodes, the full walk [descend], the point descent [find_leaf]; an encoder of
      nodes, of variable-size and of fixed-size entries, used by the round trips and by the concrete images.
    - [Omap] (omap.rs): object maps and [omap_resolve].
    - [ApfsContainer] (lib.rs): [ApfsContainer_open], the ephemeral lookups, [volume_superblock_addrs].
    - [FsRecord] (fsrecord.rs): record keys and extended fields.
    - [Volume] (volume.rs), [Inode] (inode.rs): the two parsers and the operations on their results.
    - [Encryption], [Ber], [Keybag], [Unlock] (encryption.rs): [decrypt_volume_area] over the class [XtsCipher], the interface of the external AES-XTS
      crates; the BER objects of a key; keybags and their entries; the unlock chain over the class [KeyCrypto] (AES key wrap, PBKDF2).
    - [Dir] (dir.rs): the walk of a volume's file-system tree keyed to one object id, listings, lookups, paths.
    - [Spaceman] (spaceman.rs): [is_block_free] and [free_block_runs].
    - [Reaper] (reaper.rs), [Sealed] (sealed.rs): queued deletions and the integrity metadata.
    - [Extent] (extent.rs), [Xattr] (xattr.rs), [Compression] (compression.rs and [read_data] of extent.rs): the bytes of files and
      attributes.  The classes [DecmpfsFormat] and [Codecs] stand for the constants of forensicnomicon and for the
      zlib, LZVN and LZFSE codecs, each of which may decode, refuse or panic; [CodecsReturn] is the assumption, made only by the theorems that say so,
      that they do not panic.  [Decmpfs]: every stored form of a compressed file, from the writer's side ([stores]), and its reading back; the class
      [DocumentedFormat] has the documented values of the constants.
    - [Snapshot] (snapshot.rs): the snapshot-metadata tree, name resolution, mounting.
    - [Source]: two sources, of any two types, that answer seeks and reads alike ([same_source]), and what is read of them.
    - [DemoVolume]: a small volume and a small snapshot tree, byte for byte, on which the theorems about volumes are instantiated.
    - [View]: what two readers of a volume must have in common for every operation to agree on them ([views_reads_agree]), the interface of the next two.
      [Locked]: a volume behind its key, and without it.  [History]: a snapshot before and after later writes.
    - [Format], [Utf8]: the text [format!] and [Display] write, with lemmas to read numbers back out of it; the strict UTF-8 decoder.
    - [Report] (forensic/src/lib.rs): the anomalies with their codes, grades and notes.
    - [Analyzer] (forensic/src): each audit module as the definition named after it, and the drivers [audit_volume] and [audit_container].
    - [Vfs] (vfs.rs): the mounted volume [ApfsFs] behind its mutex and every method of the trait it implements; [call] is one call with the poisoning of
      the mutex by a panic, [session] a sequence of calls.  The class [ForensicVfs] stands for what the adapter takes from the external crate
      forensic-vfs without looking inside.  [VfsSpec] and [VfsPaths] have its theorems and [DemoMount] a mounted image on which they are instantiated.
    - [Fuzz] (fuzz/fuzz_targets): each target as the function of the bytes it is fed.
    - [UnlockCheck] (examples/unlock_check.rs): the password checker, its output and exit codes as values; [Sha256] is the crate sha2.
    - [TestKit], and the files named [Tests] (the [mod tests] of the source files): the builders of test images and each test as the boolean of
      whether it passes.  [TestsKeybag], [TestsUnlock] (encryption.rs), [TestsSpace] (spaceman.rs, reaper.rs, sealed.rs,
      bytes.rs, fusion.rs), [TestsSnapshot] (snapshot.rs), [TestsVfs] (dir.rs, vfs.rs), [TestsForensic] (forensic/src).
    - [Fixture], [FixtureData], [FixtureContent]: the four committed images ([HEAD], [CHAIN], [FSTREE], [CONTENT]) as tables of blocks in
      hexadecimal, runs of zero bytes left out, and the reader over such a table ([disk], an instance of [ReadSeek]).
    - [TestsContainer] (core/tests: object.rs, container.rs, checkpoint.rs, container_open.rs, omap.rs, btree.rs, btree_descend.rs, volume_resolve.rs,
      reaper.rs, spaceman.rs; forensic/tests/audit.rs), [TestsTree] (volume.rs, dir.rs, inode.rs, fsrecord.rs), [TestsRecords] (the images that
      extent.rs, xattr.rs and dir.rs write), [TestsCompression] (compression.rs), [TestsContent] (extent.rs, xattr.rs, snapshot.rs,
      forensic/tests/analyzers.rs over [CONTENT]), [TestsMount] (vfs_apfs.rs, and the unit tests that take [CONTENT]).
    - [StoredTree]: an abstract tree of objects, its image by the builders of [TestsRecords], and the reading back.

    How the parts meet: [ApfsContainer_open] composes [NxSuperblock_parse], [resolve_live_checkpoint] and a second parse; volumes are
    found through [omap_resolve]; every operation on a volume is a visitor run by [walk_fs_tree] or [descend_snap], whose nodes are
    fetched through [omap_resolve], decrypted by [decrypt_volume_area] and checksummed; [read_data] composes
    [decmpfs_header] (attributes), [read_stream] (extents) and [decompress_decmpfs].  The adapter's methods are these operations under the
    lock, with errors translated by [map_err]; [audit_container] opens a container and runs the audits over what the core finds; the
    checker runs the unlock chain over areas it reads itself.

    ** What the theorems show

    - Trust: a stamped block verifies, damage to one word is always seen (but for 0 against 0xffffffff), a superblock parses exactly when its gates
      hold, an opened container's superblock is in every field the live one of the ring, and a ring with a live checkpoint opens ([ApfsContainer_open_live]).
    - Memory and termination: entries of a node and extended fields are slices of their block whatever the bytes; the walks and [open]
      never panic; the reap-list chain ends.  Recursion is structural on the source's own caps: the
      depth budget of the tree walks is [MAX_BTREE_DEPTH], [MAX_FSTREE_DEPTH] or [MAX_SNAP_TREE_DEPTH] (64 each, reaching zero is the source's
      [CycleGuard]), and [reap_rounds] is one more than [MAX_REAP_LISTS], proved never to be used up.
    - Meaning: a walk succeeds exactly on a root that unfolds to a finite tree of distinct addresses within the budget, and visits its leaf entries
      once from left to right; every node of the full walk is verified, but for a number whose byte offset does not fit 64 bits, which the code passes over.  On trees in key order the point lookup and the keyed walk agree with the
      full walk; hence [omap_resolve] is the newest mapping not after a transaction, and listings, name lookups, paths, attributes
      and extents are the records of the whole tree.  A mounted snapshot is the frozen superblock, field by field, over the live object map.  Free runs are the blocks the query calls free, in
      maximal runs.  File content has the declared length and the extents' bytes.  Snapshots list in transaction order and mount at theirs.
    - Formats: record keys, extended fields, inodes, directory names, nodes (variable-size and fixed-size) and every compressed form ([decmpfs_decodes]) decode what the format encodes.
    - Whole images: a tree of files and directories written into an image reads back as that tree, by every path ([stored_tree_reads]), and nothing
      that is read depends on the source but through its answers to seeks and reads ([source_reads]).
    - Keys: the password a volume was locked with recovers its key and a refused one never gives a key; a volume's records come from its own entries
      alone; the chain never panics and always ends (the fuel of [kek_loop] and [ber_find_from] is the length of the data, of which every round
      consumes at least two bytes; [kek_loop_fuel]).
    - The mount: with codecs that return, no sequence of calls on a mounted volume panics or changes it ([mounted_session_safe]); windows hold the image's bytes and reading window by window ends with the whole file (the fuel of
      [read_to_end] need only exceed the file's length); lookups search the listing; metadata is the stored inode's, field by field ([vfs_meta_stored]); a mount at a transaction is that
      snapshot; the unallocated runs are the free blocks.
    - Composition: with its key a locked volume reads, errors included, as its plaintext does ([decryption_transparent]), without the right one every read is
      the checksum error of its root node ([locked_volume_refused]); a snapshot reads the same after any writes that keep what it needs
      ([snapshot_unchanged]); resolving a path component by component through the mount is [open_path] ([vfs_path_is_open_path]).
    - Crashes: in a build that traps, the fuzz target over whole images panics exactly on the images whose descriptor ring passes the end of the address
      space, in a build that wraps never; the parser targets never panic ([fuzz_crash_inputs]).
    - Tests: the builders and the reader are inverse: [snapshot_volume_roundtrip] for the snapshot images of any size that fits, [builder_entries] for
      keybags, [spaceman_image_fields] for the space manager.  The suites that run on built images pass, by evaluation.  Over the committed
      images the suites pass too ([stored_image_suite]): the tree of each is decoded once and the tests follow from the theorems about trees.
      The unit tests over an image that unlocks are functions of the image; where what they check holds of every such image, that is the theorem.
    - The analyzer: what [audit_container] finds is stated over the image: the ids the live checkpoint map gives two blocks in the order they first
      appear, the lost names and disordered times of each volume's snapshot tree, the reaper's objects; it fails exactly when one of these structures cannot
      be read, a volume superblock that does not parse excepted, which it passes over.  A finding's code and note determine the anomaly.
    - The checker: it goes through every volume the keybag names, its verdicts agree with [unlock_volume] and its three counters are exact.
    - Divergences: theorems exhibit inputs on which the code does not do what its documentation says: an unchecked
      addition in the ring scan that can panic, block zero verified over 4096 bytes whatever the block size, a live block size that
      [open] does not check, a Fusion bit that [open] looks for in block zero but not in the live superblock ([live_fusion_unchecked_at_open]),
      a subtree passed over in silence because the number of its node is too large ([overflowing_child_skipped]), two readings of bits past a bitmap, a visited set that mixes two kinds of number,
      an unlock that tries only the first user's key object, volumes that do not parse passed over in silence by the audit, a keybag tag cut to
      a byte, identities whose transaction stamp is never looked at, compressed files listed as empty, stream ids that run out, a volume's flags
      read from the word of its modification time ([fs_flags_is_a_time]),
      and a checker that panics on blocks that are not whole sectors and blames the password when there is no key object.

    The hypotheses of order ([ordered], [oid_ordered]) are what the source documents of the stored trees (separators are the smallest
    key of their child); each such theorem is applied to a concrete image.

    ** What is not modelled

    The accessors that only return a field are the projections of the records.  Of the tests: those of published vectors (RFC 3394, RFC 7914, zero
    iterations), which speak of external crates alone; the integration tests over gzipped images or images that an environment variable names, and
    those whose subject is a stream only an external codec can decode.  Digests are a parameter: a test that compares SHA-256 digests assumes the recorded
    digests of the three contents, which the theorem gives byte for byte ([recorded_digests]).
    External code (AES-XTS, AES key wrap, PBKDF2, SHA-256, the codecs, chrono's calendar, the types of forensic-vfs, the [forensicnomicon] constants)
    appears only through the classes above.  Threads are modelled as the order in which their calls take the lock, which is all the mutex lets them see.
    Allocation is not modelled: [Vec::with_capacity] hints and buffer sizes have no effect on results.  [usize] is 64 bits wide. *)

From Stdlib Require Export ZArith Lia.
From Stdlib Require Export Strings.Byte.
From stdpp Require Export base tactics list numbers option strings gmap sorting.

Declare Scope apfs_scope.
Delimit Scope apfs_scope with apfs.
Global Open Scope apfs_scope.
Global Open Scope Z_scope.

Create HintDb apfs discriminated.
Create Rewrite HintDb apfs.

(** ** Outcomes: a value, an error, or an unwinding panic *)

(** What a Rust call can do: return [Ok], return [Err], or panic (arithmetic
    overflow in a build with overflow checks, a slice index out of range). *)
Inductive outcome (E A : Type) : Type :=
| Ok (a : A)
| Err (e : E)
| Panic.
Arguments Ok {E A} a.
Arguments Err {E A} e.
Arguments Panic {E A}.

#[global] Instance outcome_ret {E} : MRet (outcome E) := fun A a => Ok a.

(** [?]: stop at the first error, let a panic through. *)
#[global] Instance outcome_bind {E} : MBind (outcome E) := fun A B k m =>
  match m with
  | Ok a => k a
  | Err e => Err e
  | Panic => Panic
  end.

#[global] Instance outcome_fmap {E} : FMap (outcome E) := fun A B f m =>
  match m with
  | Ok a => Ok (f a)
  | Err e => Err e
  | Panic => Panic
  end.

(** [Option::ok_or]. *)
Definition ok_or {E A} (o : option A) (e : E) : outcome E A :=
  match o with
  | Some a => Ok a
  | None => Err e
  end.

(** A [for] loop over [l] whose body may fail, with its mutable state. *)
Fixpoint fold_res {E S A} (f : S -> A -> outcome E S) (s : S) (l : list A) : outcome E S :=
  match l with
  | [] => Ok s
  | x :: l => s' ← f s x; fold_res f s' l
  end.

(** A [for] loop that collects into a vector and may [break] or [continue]. *)
Inductive loop (A : Type) : Type :=
| Break
| Continue
| Push (a : A).
Arguments Break {A}.
Arguments Continue {A}.
Arguments Push {A} a.

Fixpoint collect {I A} (f : I -> loop A) (l : list I) : list A :=
  match l with
  | [] => []
  | i :: l =>
      match f i with
      | Break => []
      | Continue => collect f l
      | Push a => a :: collect f l
      end
  end.

Lemma elem_of_collect {I A} (f : I -> loop A) l a :
  a ∈ collect f l -> exists i, i ∈ l /\ f i = Push a.
Proof.
  induction l as [|i l IH]; cbn; [by intros ?%not_elem_of_nil|].
  destruct (f i) eqn:Hi; [by intros ?%not_elem_of_nil| |].
  - intros (j & ? & ?)%IH. exists j. split; [by right|done].
  - intros [->|(j & ? & ?)%IH]%elem_of_cons; [exists i; split; [by left|done]|].
    exists j. split; [by right|done].
Qed.

Lemma length_collect {I A} (f : I -> loop A) l : (length (collect f l) <= length l)%nat.
Proof. induction l as [|i l IH]; cbn; [done|]. destruct (f i); cbn; lia. Qed.

(** A loop that pushes on every index. *)
Lemma collect_push {I A} (f : I -> loop A) g l :
  (forall i, i ∈ l -> f i = Push (g i)) -> collect f l = g <$> l.
Proof.
  induction l as [|i l IH]; intros Hf; cbn; [done|].
  rewrite Hf by by left. rewrite IH; [done|]. intros. apply Hf. by right.
Qed.

Section Outcome.
Context {E : Type}.

Lemma bind_Ok_iff {A B} (m : outcome E A) (k : A -> outcome E B) v :
  (m ≫= k) = Ok v <-> exists a, m = Ok a /\ k a = Ok v.
Proof. destruct m; cbn; naive_solver. Qed.

Lemma bind_Panic_iff {A B} (m : outcome E A) (k : A -> outcome E B) :
  (m ≫= k) = Panic <-> m = Panic \/ exists a, m = Ok a /\ k a = Panic.
Proof. destruct m; cbn; naive_solver. Qed.

Lemma ok_or_Ok_iff {A} (o : option A) (e : E) v : ok_or o e = Ok v <-> o = Some v.
Proof. destruct o; cbn; naive_solver. Qed.

Lemma ok_or_not_Panic {A} (o : option A) (e : E) : ok_or o e <> Panic.
Proof. by destruct o. Qed.

Lemma bind_not_Panic {A B} (m : outcome E A) (k : A -> outcome E B) :
  m <> Panic -> (forall a, m = Ok a -> k a <> Panic) -> (m ≫= k) <> Panic.
Proof. rewrite bind_Panic_iff. intros Hm Hk [?|(a & Ha & Hp)]; [done|]. by eapply Hk. Qed.

Lemma fold_res_app {S A} (f : S -> A -> outcome E S) s l1 l2 :
  fold_res f s (l1 ++ l2) = (s' ← fold_res f s l1; fold_res f s' l2).
Proof.
  revert s; induction l1 as [|x l1 IH]; intros s; cbn; [done|].
  destruct (f s x); cbn; [apply IH|done|done].
Qed.

Lemma fmap_not_Panic {A B} (f : A -> B) (m : outcome E A) : m <> Panic -> f <$> m <> Panic.
Proof. by destruct m. Qed.

(** Invariant rule of a fallible loop. *)
Lemma fold_res_inv {S A} (I : S -> Prop) (f : S -> A -> outcome E S) l s s' :
  (forall s x s', x ∈ l -> I s -> f s x = Ok s' -> I s') ->
  I s -> fold_res f s l = Ok s' -> I s'.
Proof.
  revert s; induction l as [|x l IH]; intros s Hstep Hs Hf; cbn in Hf.
  - by simplify_eq.
  - apply bind_Ok_iff in Hf as (s1 & H1 & H2).
    eapply IH; [| |exact H2].
    + intros ????. apply Hstep. set_solver.
    + eapply Hstep; [|exact Hs|exact H1]. set_solver.
Qed.

Lemma fold_res_not_Panic {S A} (f : S -> A -> outcome E S) l s :
  (forall s x, x ∈ l -> f s x <> Panic) -> fold_res f s l <> Panic.
Proof.
  revert s; induction l as [|x l IH]; intros s Hf; cbn; [done|].
  rewrite bind_Panic_iff. intros [Hp|(s1 & _ & Hp)].
  - eapply Hf; [|exact Hp]. set_solver.
  - eapply IH; [|exact Hp]. intros ???. apply Hf. set_solver.
Qed.

(** A loop whose every step succeeds completes. *)
Lemma fold_res_total {S A} (f : S -> A -> outcome E S) l s :
  (forall s x, x ∈ l -> exists s', f s x = Ok s') -> exists s', fold_res f s l = Ok s'.
Proof.
  revert s; induction l as [|x l IH]; intros s Hf; cbn; [eauto|].
  destruct (Hf s x) as [s1 ->]; [set_solver|]. cbn. apply IH. set_solver.
Qed.
End Outcome.

(** [ok_inv]: open every [_ = Ok _] hypothesis built from [?] and [ok_or]. *)
Ltac ok_inv :=
  repeat match goal with
  | H : (_ ≫= _) = Ok _ |- _ =>
      let a := fresh "a" in let Ha := fresh "Ha" in
      apply bind_Ok_iff in H as (a & Ha & H)
  | H : ok_or _ _ = Ok _ |- _ => apply ok_or_Ok_iff in H
  | H : Ok _ = Ok _ |- _ => injection H as H; try subst
  | H : mret _ = Ok _ |- _ => injection H as H; try subst
  | H : Err _ = Ok _ |- _ => discriminate H
  | H : Panic = Ok _ |- _ => discriminate H
  end.

#[export] Hint Resolve ok_or_not_Panic : apfs.

(** [no_panic]: a composition of [?] panics only where a part does; the database [apfs] has the parts that do not. *)
Ltac no_panic :=
  repeat match goal with
  | |- Ok _ <> Panic => discriminate
  | |- Err _ <> Panic => discriminate
  | |- mret _ <> Panic => discriminate
  | |- (_ ≫= _) <> Panic => apply bind_not_Panic; [|intros ? ?]
  | |- (_ <$> _) <> Panic => apply fmap_not_Panic
  | |- ?m <> Panic => solve [eauto with apfs]
  | |- context [match ?x with _ => _ end] => destruct x eqn:?
  end.

(** [vm_refl]: an equation of closed terms, by evaluation; the kernel evaluates both sides and never sees the value written out. *)
Ltac vm_refl := match goal with |- _ = ?b => vm_cast_no_check (eq_refl b) end.

(** [bool_cases]: reflect the boolean tests a definition branches on. *)
Ltac bool_cases :=
  repeat match goal with
  | H : _ && _ = true |- _ => apply andb_true_iff in H as [? ?]
  | H : _ && _ = false |- _ => apply andb_false_iff in H
  | H : _ || _ = true |- _ => apply orb_true_iff in H
  | H : _ || _ = false |- _ => apply orb_false_iff in H as [? ?]
  | H : negb _ = true |- _ => apply negb_true_iff in H
  | H : negb _ = false |- _ => apply negb_false_iff in H
  | H : (_ =? _) = true |- _ => apply Z.eqb_eq in H
  | H : (_ =? _) = false |- _ => apply Z.eqb_neq in H
  | H : (_ <=? _) = true |- _ => apply Z.leb_le in H
  | H : (_ <=? _) = false |- _ => apply Z.leb_gt in H
  | H : (_ <? _) = true |- _ => apply Z.ltb_lt in H
  | H : (_ <? _) = false |- _ => apply Z.ltb_ge in H
  end.

(** ** Machine integers *)

(** [uN] values are [Z] in [0, 2^N); [usize] is 64 bits wide. *)
Definition u64_limit : Z := 2 ^ 64.
Definition u64_max : Z := u64_limit - 1.

(** Whether the build traps on overflow ([cargo test], fuzzing) or wraps
    ([--release]); every definition that adds unchecked takes it. *)
Inductive profile := OverflowTraps | OverflowWraps.
#[global] Instance profile_eq_dec : EqDecision profile.
Proof. solve_decision. Defined.

(** Plain [a + b] on [u64]/[usize]. *)
Definition add_u64 {E} (p : profile) (a b : Z) : outcome E Z :=
  if a + b <? u64_limit then Ok (a + b)
  else match p with
       | OverflowTraps => Panic
       | OverflowWraps => Ok ((a + b) mod u64_limit)
       end.

Definition checked_add (a b : Z) : option Z :=
  if a + b <? u64_limit then Some (a + b) else None.
Definition checked_sub (a b : Z) : option Z :=
  if b <=? a then Some (a - b) else None.
Definition checked_mul (a b : Z) : option Z :=
  if a * b <? u64_limit then Some (a * b) else None.
Definition saturating_add (a b : Z) : Z := Z.min u64_max (a + b).
Definition saturating_sub (a b : Z) : Z := Z.max 0 (a - b).
Definition saturating_mul (a b : Z) : Z := Z.min u64_max (a * b).

Lemma add_u64_Ok {E} p a b :
  a + b < u64_limit -> add_u64 (E := E) p a b = Ok (a + b).
Proof. intros. unfold add_u64. by rewrite (proj2 (Z.ltb_lt _ _)). Qed.

Lemma checked_mul_Some a b v :
  checked_mul a b = Some v <-> v = a * b /\ a * b < u64_limit.
Proof. unfold checked_mul. destruct (Z.ltb_spec (a * b) u64_limit); naive_solver lia. Qed.

Lemma checked_add_Some a b v :
  checked_add a b = Some v <-> v = a + b /\ a + b < u64_limit.
Proof. unfold checked_add. destruct (Z.ltb_spec (a + b) u64_limit); naive_solver lia. Qed.

Lemma saturating_mul_exact a b : a * b < u64_limit -> saturating_mul a b = a * b.
Proof. unfold saturating_mul, u64_max. lia. Qed.

Lemma saturating_add_exact a b : a + b < u64_limit -> saturating_add a b = a + b.
Proof. unfold saturating_add, u64_max. lia. Qed.

#[export] Hint Rewrite saturating_mul_exact saturating_add_exact
  using (unfold u64_limit in *; lia) : apfs.

(** [x & (1 << n)] tests bit [n]. *)
Lemma land_pow2 x n : 0 <= n -> Z.land x (2 ^ n) = if Z.testbit x n then 2 ^ n else 0.
Proof.
  intros Hn. apply Z.bits_inj'. intros m Hm. rewrite Z.land_spec, Z.pow2_bits_eqb by done.
  destruct (Z.eqb_spec n m) as [->|].
  - destruct (Z.testbit x m) eqn:Hx; cbn; [by rewrite Z.pow2_bits_true|by rewrite Z.bits_0].
  - rewrite andb_false_r. destruct (Z.testbit x n); [by rewrite Z.pow2_bits_false|by rewrite Z.bits_0].
Qed.

Lemma flag_testbit x n : 0 <= n -> negb (Z.land x (2 ^ n) =? 0) = Z.testbit x n.
Proof.
  intros Hn. rewrite land_pow2 by done. destruct (Z.testbit x n); [|done].
  assert (2 ^ n <> 0) as Hp by (apply Z.pow_nonzero; lia). by apply Z.eqb_neq in Hp as ->.
Qed.

(** ** Bytes and slices *)

#[global] Instance byte_eq_dec : EqDecision byte := Byte.byte_eq_dec.

Abbreviation bytes := (list byte).

Definition b2z (b : byte) : Z := Z.of_N (Byte.to_N b).
Definition z2b (z : Z) : byte :=
  match Byte.of_N (Z.to_N (z mod 256)) with
  | Some b => b
  | None => x00
  end.

(** [slice.len()]. *)
Definition blen {A} (d : list A) : Z := Z.of_nat (length d).

(** [slice.get(a..b)]: [None] when [a > b] or [b > len]. *)
Definition get_range {A} (d : list A) (a b : Z) : option (list A) :=
  if (0 <=? a) && (a <=? b) && (b <=? blen d)
  then Some (take (Z.to_nat (b - a)) (drop (Z.to_nat a) d))
  else None.

(** [slice.get(i)]. *)
Definition get_index {A} (d : list A) (i : Z) : option A :=
  if 0 <=? i then d !! Z.to_nat i else None.

(** The indices [0..n] of a Rust range loop. *)
Definition range (n : Z) : list Z := seqZ 0 n.

Lemma b2z_bound b : 0 <= b2z b < 256.
Proof. unfold b2z. pose proof (Byte.to_N_bounded b). lia. Qed.

Lemma b2z_z2b z : b2z (z2b z) = z mod 256.
Proof.
  unfold b2z, z2b. pose proof (Z.mod_pos_bound z 256).
  destruct (Byte.of_N (Z.to_N (z mod 256))) as [b|] eqn:Hb.
  - apply Byte.to_of_N in Hb. rewrite Hb. lia.
  - apply Byte.of_N_None_iff in Hb. lia.
Qed.

Lemma z2b_b2z b : z2b (b2z b) = b.
Proof.
  unfold z2b. rewrite Z.mod_small by apply b2z_bound.
  unfold b2z. by rewrite N2Z.id, Byte.of_to_N.
Qed.

#[export] Instance b2z_inj : Inj (=) (=) b2z.
Proof. intros a b Hab. by rewrite <-(z2b_b2z a), <-(z2b_b2z b), Hab. Qed.

Lemma blen_nonneg {A} (d : list A) : 0 <= blen d.
Proof. unfold blen. lia. Qed.

Lemma blen_app {A} (d1 d2 : list A) : blen (d1 ++ d2) = blen d1 + blen d2.
Proof. unfold blen. rewrite length_app. lia. Qed.

Lemma blen_cons {A} x (d : list A) : blen (x :: d) = 1 + blen d.
Proof. unfold blen. cbn [length]. lia. Qed.

Lemma blen_nil {A} : blen ([] : list A) = 0.
Proof. done. Qed.

Lemma blen_replicate {A} n (x : A) : blen (replicate n x) = Z.of_nat n.
Proof. unfold blen. by rewrite length_replicate. Qed.

#[export] Hint Rewrite @blen_app @blen_cons @blen_nil @blen_replicate : apfs.

Lemma get_range_Some {A} (d : list A) a b s :
  get_range d a b = Some s <->
  0 <= a <= b /\ b <= blen d /\ s = take (Z.to_nat (b - a)) (drop (Z.to_nat a) d).
Proof.
  unfold get_range. destruct ((0 <=? a) && (a <=? b) && (b <=? blen d)) eqn:Hb.
  - bool_cases. naive_solver lia.
  - split; [done|]. intros ([] & ? & ?). exfalso.
    assert ((0 <=? a) && (a <=? b) && (b <=? blen d) = true); [|congruence].
    rewrite !andb_true_iff, !Z.leb_le. lia.
Qed.

Lemma get_range_None {A} (d : list A) a b :
  0 <= a <= b -> get_range d a b = None <-> blen d < b.
Proof.
  intros. unfold get_range. rewrite !(proj2 (Z.leb_le _ _)) by lia. cbn.
  destruct (Z.leb_spec b (blen d)); naive_solver lia.
Qed.

Lemma get_range_oob {A} (d : list A) a b :
  0 <= a <= b -> blen d < b -> get_range d a b = None.
Proof. intros. by apply get_range_None. Qed.

Lemma get_range_len {A} (d : list A) a b s : get_range d a b = Some s -> blen s = b - a.
Proof.
  rewrite get_range_Some. intros ([] & Hb & ->). unfold blen in *.
  rewrite length_take, length_drop. lia.
Qed.

(** A slice is a contiguous part of what it was taken from. *)
Lemma get_range_split {A} (d : list A) a b s :
  get_range d a b = Some s ->
  exists p q, d = p ++ s ++ q /\ blen p = a.
Proof.
  rewrite get_range_Some. intros ([] & Hb & ->). unfold blen in *.
  exists (take (Z.to_nat a) d), (drop (Z.to_nat (b - a)) (drop (Z.to_nat a) d)).
  rewrite take_drop, take_drop. split; [done|]. rewrite length_take. lia.
Qed.

Lemma get_range_app {A} (p s q : list A) a b :
  a = blen p -> b = blen p + blen s -> get_range (p ++ s ++ q) a b = Some s.
Proof.
  intros -> ->. apply get_range_Some. autorewrite with apfs.
  unfold blen. split_and!; [lia..|].
  replace (Z.to_nat (Z.of_nat (length p))) with (length p) by lia.
  rewrite drop_app_length.
  replace (Z.to_nat _) with (length s) by lia.
  by rewrite take_app_length.
Qed.

Lemma get_range_app_l {A} (d q : list A) a b :
  b <= blen d -> 0 <= a <= b -> get_range (d ++ q) a b = get_range d a b.
Proof.
  intros. symmetry. destruct (get_range d a b) as [s|] eqn:Hs.
  - apply get_range_split in Hs as Hp. destruct Hp as (p & q' & -> & Hp).
    apply get_range_len in Hs. rewrite <-!app_assoc.
    by rewrite get_range_app by lia.
  - apply get_range_None in Hs; lia.
Qed.

Lemma get_range_app_r {A} (p d : list A) a b :
  blen p <= a -> a <= b -> get_range (p ++ d) a b = get_range d (a - blen p) (b - blen p).
Proof.
  intros. pose proof (blen_nonneg p). destruct (get_range d _ _) as [s|] eqn:Hs.
  - apply get_range_split in Hs as Hp. destruct Hp as (p' & q' & -> & Hp).
    apply get_range_len in Hs. rewrite (app_assoc p p').
    apply get_range_app; rewrite ?blen_app; lia.
  - apply get_range_None in Hs; [|lia]. apply get_range_None; rewrite ?blen_app; lia.
Qed.

Lemma get_range_join {A} (d : list A) a b c s1 s2 :
  get_range d a b = Some s1 -> get_range d b c = Some s2 -> get_range d a c = Some (s1 ++ s2).
Proof.
  rewrite !get_range_Some. intros ([] & ? & ->) ([] & ? & ->). split; [lia|]. split; [lia|].
  replace (drop (Z.to_nat b) d) with (drop (Z.to_nat (b - a)) (drop (Z.to_nat a) d)) by (rewrite drop_drop; f_equal; lia).
  replace (Z.to_nat (c - a)) with (Z.to_nat (b - a) + Z.to_nat (c - b))%nat by lia.
  by rewrite take_take_drop.
Qed.

Lemma get_range_within {A} (d : list A) a b a' b' s :
  get_range d a b = Some s -> a <= a' <= b' -> b' <= b -> get_range d a' b' = Some (take (Z.to_nat (b' - a')) (drop (Z.to_nat (a' - a)) s)).
Proof.
  rewrite !get_range_Some. intros ([] & ? & ->) Ha Hb. split; [lia|]. split; [lia|].
  rewrite skipn_firstn_comm, drop_drop, take_take. f_equal; [lia|]. f_equal. lia.
Qed.

Lemma get_range_prefix {A} (d : list A) a b b' s :
  get_range d a b = Some s -> a <= b' <= b -> get_range d a b' = Some (take (Z.to_nat (b' - a)) s).
Proof.
  rewrite !get_range_Some. intros ([] & ? & ->) Hb. split; [lia|]. split; [lia|].
  rewrite take_take. f_equal. lia.
Qed.

Lemma get_index_range {A} (d : list A) i x :
  get_index d i = Some x <-> get_range d i (i + 1) = Some [x].
Proof.
  unfold get_index. destruct (Z.leb_spec 0 i).
  - rewrite get_range_Some. replace (i + 1 - i) with 1 by lia. split.
    + intros Hx. pose proof (lookup_lt_Some _ _ _ Hx). unfold blen. split_and!; [lia..|].
      by rewrite (drop_S _ _ _ Hx).
    + intros (? & ? & Ht). apply (f_equal (.!! 0%nat)) in Ht. symmetry in Ht.
      change (Z.to_nat 1) with 1%nat in Ht.
      rewrite lookup_take_lt, lookup_drop, Nat.add_0_r in Ht by lia. done.
  - split; [done|]. rewrite get_range_Some. lia.
Qed.

Lemma get_range_index {A} (d : list A) a b s i :
  get_range d a b = Some s -> 0 <= i < b - a -> get_index s i = get_index d (a + i).
Proof.
  rewrite get_range_Some. intros ([] & ? & ->) Hi. unfold get_index.
  rewrite !(proj2 (Z.leb_le _ _)) by lia. rewrite lookup_take_lt, lookup_drop by lia. f_equal. lia.
Qed.

Lemma get_range_range {A} (d : list A) a b s i j :
  get_range d a b = Some s -> 0 <= i <= j -> j <= b - a -> get_range s i j = get_range d (a + i) (a + j).
Proof.
  intros Hs Hi Hj. apply get_range_len in Hs as Hl. apply get_range_split in Hs as (p & q & -> & Hp).
  rewrite get_range_app_r by lia. rewrite get_range_app_l by lia. f_equal; lia.
Qed.

Lemma get_index_app_l {A} (d1 d2 : list A) i : i < blen d1 -> get_index (d1 ++ d2) i = get_index d1 i.
Proof. intros Hi. unfold get_index. destruct (Z.leb_spec 0 i); [|done]. apply lookup_app_l. unfold blen in Hi. lia. Qed.

Lemma get_index_app_r {A} (d1 d2 : list A) i : blen d1 <= i -> get_index (d1 ++ d2) i = get_index d2 (i - blen d1).
Proof.
  intros Hi. pose proof (blen_nonneg d1). unfold get_index. rewrite !(proj2 (Z.leb_le _ _)) by lia.
  rewrite lookup_app_r by (unfold blen in *; lia). f_equal. unfold blen in *. lia.
Qed.

Lemma get_index_lt {A} (d : list A) i : 0 <= i < blen d -> is_Some (get_index d i).
Proof.
  intros. unfold get_index. rewrite (proj2 (Z.leb_le _ _)) by lia.
  apply lookup_lt_is_Some_2. unfold blen in *. lia.
Qed.

Lemma elem_of_range n i : i ∈ range n <-> 0 <= i < n.
Proof. unfold range. rewrite elem_of_seqZ. lia. Qed.

Lemma NoDup_range n : NoDup (range n).
Proof. apply NoDup_seqZ. Qed.

Lemma length_range n : length (range n) = Z.to_nat n.
Proof. apply length_seqZ. Qed.

Lemma range_succ n : 0 <= n -> range (n + 1) = range n ++ [n].
Proof. intros. unfold range. rewrite seqZ_app by lia. by rewrite Z.add_0_l. Qed.

(** Induction for a loop over [range n]. *)
Lemma range_ind (P : Z -> Prop) n :
  P 0 -> (forall i, 0 <= i < n -> P i -> P (i + 1)) -> 0 <= n -> P n.
Proof.
  intros H0 Hs Hn. assert (forall i, 0 <= i -> i <= n -> P i) as Hi; [|by apply Hi].
  apply (natlike_ind (fun i => i <= n -> P i)); [done|].
  intros i Hi IH Hle. apply Hs; [lia|]. apply IH. lia.
Qed.

(** ** [slice::sort_by_key], stable *)

Fixpoint insert_by_key {A} (k : A -> Z) (x : A) (l : list A) : list A :=
  match l with
  | [] => [x]
  | y :: l' => if k x <=? k y then x :: l else y :: insert_by_key k x l'
  end.
Definition sort_by_key {A} (k : A -> Z) (l : list A) : list A := foldr (insert_by_key k) [] l.

Section SortByKey.
Context {A : Type} (k : A -> Z).

Lemma insert_by_key_perm x l : insert_by_key k x l ≡ₚ x :: l.
Proof.
  induction l as [|y l IH]; cbn [insert_by_key]; [done|]. destruct (k x <=? k y); [done|].
  by rewrite IH, Permutation_swap.
Qed.

Lemma sort_by_key_perm l : sort_by_key k l ≡ₚ l.
Proof. induction l as [|x l IH]; cbn; [done|]. by rewrite insert_by_key_perm, IH. Qed.

Lemma insert_by_key_sorted x l :
  StronglySorted (fun a b => k a <= k b) l -> StronglySorted (fun a b => k a <= k b) (insert_by_key k x l).
Proof.
  induction 1 as [|y l Hl IH Hy]; cbn [insert_by_key]; [repeat constructor|].
  destruct (Z.leb_spec (k x) (k y)).
  - constructor; [by constructor|]. constructor; [done|]. eapply Forall_impl; [exact Hy|]. cbn. lia.
  - constructor; [done|]. rewrite insert_by_key_perm. constructor; [lia|done].
Qed.

Lemma sort_by_key_sorted l : StronglySorted (fun a b => k a <= k b) (sort_by_key k l).
Proof. induction l as [|x l IH]; cbn; [constructor|]. by apply insert_by_key_sorted. Qed.

(** Stability: elements of one key keep their order. *)
Lemma insert_by_key_filter x l v :
  filter (fun y => k y = v) (insert_by_key k x l) =
    if decide (k x = v) then x :: filter (fun y => k y = v) l else filter (fun y => k y = v) l.
Proof.
  induction l as [|y l IH]; cbn [insert_by_key]; [by rewrite filter_cons|].
  destruct (Z.leb_spec (k x) (k y)); [by rewrite filter_cons|].
  rewrite !filter_cons, IH. destruct (decide (k y = v)), (decide (k x = v)); [lia|done..].
Qed.

Lemma sort_by_key_stable l v :
  filter (fun y => k y = v) (sort_by_key k l) = filter (fun y => k y = v) l.
Proof.
  induction l as [|x l IH]; [done|]. cbn [sort_by_key foldr]. fold (sort_by_key k l).
  by rewrite insert_by_key_filter, filter_cons, IH.
Qed.

Lemma sorted_head_min x l y :
  StronglySorted (fun a b => k a <= k b) (x :: l) -> y ∈ x :: l -> k x <= k y.
Proof.
  intros Hs Hy. apply StronglySorted_inv in Hs as [_ Hs]. rewrite Forall_forall in Hs.
  apply elem_of_cons in Hy as [->|Hy]; [lia|by apply Hs].
Qed.

(** A sorted list is determined by its elements of each key, in order. *)
Lemma sorted_stable_unique l1 : forall l2,
  StronglySorted (fun a b => k a <= k b) l1 -> StronglySorted (fun a b => k a <= k b) l2 ->
  (forall v, filter (fun y => k y = v) l1 = filter (fun y => k y = v) l2) -> l1 = l2.
Proof.
  assert (forall (l l' : list A) x, (forall v, filter (fun y => k y = v) l = filter (fun y => k y = v) l') -> x ∈ l -> x ∈ l')
    as Hin.
  { intros l l' x Hf Hx. apply (list_elem_of_filter (fun y => k y = k x)). rewrite <-Hf. by apply list_elem_of_filter. }
  induction l1 as [|x l1 IH]; intros [|y l2] H1 H2 Hf; [done| | |].
  - pose proof (Hin _ _ y (fun v => eq_sym (Hf v)) ltac:(by left)) as []%not_elem_of_nil.
  - pose proof (Hin _ _ x Hf ltac:(by left)) as []%not_elem_of_nil.
  - assert (k x = k y) as Hk.
    { pose proof (sorted_head_min y l2 x H2 (Hin _ _ x Hf ltac:(by left))).
      pose proof (sorted_head_min x l1 y H1 (Hin _ _ y (fun v => eq_sym (Hf v)) ltac:(by left))). lia. }
    pose proof (Hf (k x)) as Hx. rewrite !filter_cons, !decide_True in Hx by done. injection Hx as <- _.
    f_equal. apply StronglySorted_inv in H1 as [H1 _], H2 as [H2 _]. apply IH; [done|done|].
    intros v. specialize (Hf v). rewrite !filter_cons in Hf. destruct (decide _); congruence.
Qed.
End SortByKey.
