(* ===== verification/Bytes.v ===== *)
(** Bounds-checked little-endian reads over an untrusted buffer
    (core/src/bytes.rs), with the inverse encoders that fixtures and round-trip
    theorems use.

    [le_u16], [le_u32], [le_u64] and [arr] are the four helpers of bytes.rs: a
    window that does not fit the buffer reads as zeros.  [offset + N] is the
    exact sum; for offsets within eight of [usize::MAX] a wrapping build computes
    an empty (reversed) window and also reads zeros. *)

From S2P Require Import Prelude.

(** [uN::from_le_bytes]. *)
Fixpoint from_le_bytes (s : bytes) : Z :=
  match s with
  | [] => 0
  | b :: s => b2z b + 256 * from_le_bytes s
  end.

(** [uN::to_le_bytes], [n] bytes wide. *)
Fixpoint to_le_bytes (n : nat) (z : Z) : bytes :=
  match n with
  | O => []
  | S n => z2b z :: to_le_bytes n (z / 256)
  end.

(** [uN::from_be_bytes]. *)
Definition from_be_bytes (s : bytes) : Z := from_le_bytes (reverse s).

(** Copy the [n]-byte array at [offset]; zero-filled when it runs past [data]. *)
Definition arr (n : nat) (data : bytes) (offset : Z) : bytes :=
  match get_range data offset (offset + Z.of_nat n) with
  | Some s => s
  | None => replicate n x00
  end.

Definition le_u16 (data : bytes) (offset : Z) : Z := from_le_bytes (arr 2 data offset).
Definition le_u32 (data : bytes) (offset : Z) : Z := from_le_bytes (arr 4 data offset).
Definition le_u64 (data : bytes) (offset : Z) : Z := from_le_bytes (arr 8 data offset).

(** [data[offset .. offset + s.len()].copy_from_slice(s)]. *)
Definition put (data : bytes) (offset : Z) (s : bytes) : bytes :=
  take (Z.to_nat offset) data ++ s ++ drop (Z.to_nat (offset + blen s)) data.

(** ** Encoding lemmas *)

Lemma length_to_le_bytes n z : length (to_le_bytes n z) = n.
Proof. revert z; induction n; intros; cbn; auto. Qed.

Lemma blen_to_le_bytes n z : blen (to_le_bytes n z) = Z.of_nat n.
Proof. unfold blen. by rewrite length_to_le_bytes. Qed.

Lemma from_le_bytes_bound s : 0 <= from_le_bytes s < 256 ^ blen s.
Proof.
  induction s as [|b s IH]; cbn [from_le_bytes]; autorewrite with apfs; [lia|].
  pose proof (b2z_bound b). pose proof (blen_nonneg s).
  rewrite Z.pow_add_r, Z.pow_1_r by lia. nia.
Qed.

Lemma from_to_le_bytes n z : from_le_bytes (to_le_bytes n z) = z mod 256 ^ Z.of_nat n.
Proof.
  revert z; induction n as [|n IH]; intros z; cbn [to_le_bytes from_le_bytes].
  - by rewrite Z.mod_1_r.
  - rewrite IH, b2z_z2b, Nat2Z.inj_succ, Z.pow_succ_r by lia.
    rewrite Z.rem_mul_r by lia. lia.
Qed.

Lemma to_from_le_bytes s : to_le_bytes (length s) (from_le_bytes s) = s.
Proof.
  induction s as [|b s IH]; cbn [length to_le_bytes from_le_bytes]; [done|].
  pose proof (b2z_bound b). f_equal.
  - apply (inj b2z). rewrite b2z_z2b, (Z.mul_comm 256), Z.mod_add, Z.mod_small by lia. done.
  - rewrite (Z.mul_comm 256), Z.div_add, Z.div_small, Z.add_0_l by lia. done.
Qed.

Lemma from_le_bytes_zeros n : from_le_bytes (replicate n x00) = 0.
Proof. induction n as [|n IH]; cbn [replicate from_le_bytes]; [done|]. rewrite IH. done. Qed.

Lemma from_le_bytes_app s1 s2 :
  from_le_bytes (s1 ++ s2) = from_le_bytes s1 + 256 ^ blen s1 * from_le_bytes s2.
Proof.
  induction s1 as [|b s1 IH]; cbn [app from_le_bytes]; [unfold blen; cbn [length]; lia|].
  rewrite IH, blen_cons, Z.pow_add_r by (try apply blen_nonneg; lia). lia.
Qed.

Lemma from_le_bytes_inj s1 s2 :
  length s1 = length s2 -> from_le_bytes s1 = from_le_bytes s2 -> s1 = s2.
Proof.
  intros Hl He. rewrite <-(to_from_le_bytes s1), <-(to_from_le_bytes s2). congruence.
Qed.

(** ** Reads *)

Section Reads.
Context (n : nat) (data : bytes) (offset : Z).

Lemma length_arr : length (arr n data offset) = n.
Proof.
  unfold arr. destruct (get_range _ _ _) eqn:Hr.
  - apply get_range_len in Hr. unfold blen in Hr. lia.
  - apply length_replicate.
Qed.

Lemma arr_in s : get_range data offset (offset + Z.of_nat n) = Some s -> arr n data offset = s.
Proof. unfold arr. by intros ->. Qed.

Lemma arr_oob : 0 <= offset -> blen data < offset + Z.of_nat n ->
  arr n data offset = replicate n x00.
Proof. intros. unfold arr. by rewrite get_range_oob by lia. Qed.

Lemma from_le_arr_bound : 0 <= from_le_bytes (arr n data offset) < 256 ^ Z.of_nat n.
Proof.
  pose proof (from_le_bytes_bound (arr n data offset)) as Hb.
  unfold blen in Hb. by rewrite length_arr in Hb.
Qed.

Lemma from_le_arr_oob : 0 <= offset -> blen data < offset + Z.of_nat n ->
  from_le_bytes (arr n data offset) = 0.
Proof. intros. rewrite arr_oob by done. apply from_le_bytes_zeros. Qed.
End Reads.

Lemma le_u16_bound data off : 0 <= le_u16 data off < 2 ^ 16.
Proof. apply (from_le_arr_bound 2). Qed.
Lemma le_u32_bound data off : 0 <= le_u32 data off < 2 ^ 32.
Proof. apply (from_le_arr_bound 4). Qed.
Lemma le_u64_bound data off : 0 <= le_u64 data off < 2 ^ 64.
Proof. apply (from_le_arr_bound 8). Qed.

#[export] Hint Resolve le_u16_bound le_u32_bound le_u64_bound blen_nonneg : apfs.

(** [le_bounds]: put the range of every field read of the context in scope for [lia]. *)
Ltac le_bounds :=
  repeat match goal with
  | |- context [le_u16 ?d ?o] => lazymatch goal with
      | _ : 0 <= le_u16 d o < 2 ^ 16 |- _ => fail | _ => pose proof (le_u16_bound d o) end
  | |- context [le_u32 ?d ?o] => lazymatch goal with
      | _ : 0 <= le_u32 d o < 2 ^ 32 |- _ => fail | _ => pose proof (le_u32_bound d o) end
  | |- context [le_u64 ?d ?o] => lazymatch goal with
      | _ : 0 <= le_u64 d o < 2 ^ 64 |- _ => fail | _ => pose proof (le_u64_bound d o) end
  | _ : context [le_u16 ?d ?o] |- _ => lazymatch goal with
      | _ : 0 <= le_u16 d o < 2 ^ 16 |- _ => fail | _ => pose proof (le_u16_bound d o) end
  | _ : context [le_u32 ?d ?o] |- _ => lazymatch goal with
      | _ : 0 <= le_u32 d o < 2 ^ 32 |- _ => fail | _ => pose proof (le_u32_bound d o) end
  | _ : context [le_u64 ?d ?o] |- _ => lazymatch goal with
      | _ : 0 <= le_u64 d o < 2 ^ 64 |- _ => fail | _ => pose proof (le_u64_bound d o) end
  end.

(** ** Writes, and reads of what was written *)

Section Put.
Context (data s : bytes) (offset : Z).
Context (Hoff : 0 <= offset) (Hfit : offset + blen s <= blen data).

Lemma blen_put_prefix : blen (take (Z.to_nat offset) data) = offset.
Proof. unfold blen in *. rewrite length_take. lia. Qed.

Lemma blen_put : blen (put data offset s) = blen data.
Proof.
  unfold put. rewrite !blen_app. unfold blen in *.
  rewrite length_take, length_drop. lia.
Qed.

Lemma get_range_put : get_range (put data offset s) offset (offset + blen s) = Some s.
Proof. unfold put. apply get_range_app; rewrite blen_put_prefix; lia. Qed.

Lemma get_range_put_other a b :
  0 <= a <= b -> b <= offset \/ offset + blen s <= a ->
  get_range (put data offset s) a b = get_range data a b.
Proof.
  intros Hab [Hb|Ha]; unfold put.
  - pose proof blen_put_prefix as Hp.
    rewrite get_range_app_l by lia.
    rewrite <-(take_drop (Z.to_nat offset) data) at 2.
    rewrite get_range_app_l by lia. done.
  - rewrite app_assoc. set (l := _ ++ s).
    assert (blen l = offset + blen s) as Hl.
    { unfold l. rewrite blen_app. pose proof blen_put_prefix as Hp. lia. }
    rewrite get_range_app_r by lia. rewrite Hl.
    rewrite <-(take_drop (Z.to_nat (offset + blen s)) data) at 2.
    rewrite get_range_app_r; [|unfold blen in *; rewrite length_take; lia|lia].
    f_equal; unfold blen in *; rewrite length_take; lia.
Qed.

Lemma get_index_put p :
  0 <= p ->
  get_index (put data offset s) p =
    if decide (offset <= p < offset + blen s) then get_index s (p - offset) else get_index data p.
Proof.
  intros Hp. pose proof blen_put_prefix as Hpre. unfold get_index, put.
  rewrite (proj2 (Z.leb_le _ _)) by lia. unfold blen in *.
  destruct (decide _) as [Hin|Hout].
  - rewrite (proj2 (Z.leb_le _ _)) by lia. rewrite lookup_app_r by lia.
    rewrite lookup_app_l by lia. f_equal. lia.
  - destruct (decide (p < offset)).
    + rewrite lookup_app_l by lia. by rewrite lookup_take_lt by lia.
    + rewrite lookup_app_r by lia. rewrite lookup_app_r by lia. rewrite lookup_drop. f_equal. lia.
Qed.

Lemma arr_put n : blen s = Z.of_nat n -> arr n (put data offset s) offset = s.
Proof. intros Hn. apply arr_in. rewrite <-Hn. apply get_range_put. Qed.

Lemma arr_put_other n a :
  0 <= a -> a + Z.of_nat n <= offset \/ offset + blen s <= a ->
  arr n (put data offset s) a = arr n data a.
Proof. intros ? ?. unfold arr. rewrite get_range_put_other by lia. done. Qed.
End Put.

(** Reads of an encoded field between other bytes. *)
Lemma arr_app n (p s q : bytes) off :
  off = blen p -> blen s = Z.of_nat n -> arr n (p ++ s ++ q) off = s.
Proof. intros -> Hs. apply arr_in. apply get_range_app; lia. Qed.

Lemma le_u16_app (p q : bytes) off v :
  off = blen p -> 0 <= v < 2 ^ 16 -> le_u16 (p ++ to_le_bytes 2 v ++ q) off = v.
Proof.
  intros. unfold le_u16. rewrite arr_app, from_to_le_bytes; [|done|apply blen_to_le_bytes].
  by apply Z.mod_small.
Qed.

Lemma le_u32_app (p q : bytes) off v :
  off = blen p -> 0 <= v < 2 ^ 32 -> le_u32 (p ++ to_le_bytes 4 v ++ q) off = v.
Proof.
  intros. unfold le_u32. rewrite arr_app, from_to_le_bytes; [|done|apply blen_to_le_bytes].
  by apply Z.mod_small.
Qed.

Lemma le_u64_app (p q : bytes) off v :
  off = blen p -> 0 <= v < 2 ^ 64 -> le_u64 (p ++ to_le_bytes 8 v ++ q) off = v.
Proof.
  intros. unfold le_u64. rewrite arr_app, from_to_le_bytes; [|done|apply blen_to_le_bytes].
  by apply Z.mod_small.
Qed.

#[export] Hint Rewrite blen_to_le_bytes : apfs.

(** [read_field lem]: move the bytes before the field at hand to the left until [lem]
    ([le_u16_app], [le_u32_app] or [le_u64_app]) reads it. *)
Ltac read_field lem :=
  first
    [ rewrite lem; [ | solve [autorewrite with apfs; unfold blen; cbn [length]; lia] | lia ]
    | match goal with
      | |- context [_ (?p ++ ?y ++ ?z) _] => rewrite (app_assoc p y z); read_field lem
      end ].

(** A 64-bit little-endian field written into a buffer that holds its
    eight bytes is what [le_u64] reads back at that offset, and every field that
    does not overlap those bytes keeps its value. *)
Theorem le_u64_put_roundtrip (data : bytes) (offset other v : Z) :
  0 <= v < 2 ^ 64 -> 0 <= offset -> offset + 8 <= blen data ->
  le_u64 (put data offset (to_le_bytes 8 v)) offset = v /\
  (0 <= other -> other + 8 <= offset \/ offset + 8 <= other ->
   le_u64 (put data offset (to_le_bytes 8 v)) other = le_u64 data other).
Proof.
  intros Hv Ho Hfit. pose proof (blen_to_le_bytes 8 v) as Hl. unfold le_u64. split.
  - rewrite arr_put by lia. rewrite from_to_le_bytes. by apply Z.mod_small.
  - intros. rewrite arr_put_other by lia. done.
Qed.

Lemma le_u64_put_roundtrip_witness :
  le_u64 (put (replicate 24 xff) 8 (to_le_bytes 8 0x0123456789abcdef)) 8 = 0x0123456789abcdef
  /\ le_u64 (put (replicate 24 xff) 8 (to_le_bytes 8 0x0123456789abcdef)) 16 = le_u64 (replicate 24 xff) 16.
Proof.
  pose proof (le_u64_put_roundtrip (replicate 24 xff) 8 16 0x0123456789abcdef) as H.
  destruct H as [H1 H2]; [lia|lia|vm_compute; discriminate|].
  split; [exact H1|apply H2; lia].
Defined.

Example le_u32_test : le_u32 [x01; x02; x03; x04; x05; x06; x07; x08] 0 = 0x04030201.
Proof. reflexivity. Qed.
Example arr_test : arr 4 [x01; x02; x03; x04; x05; x06; x07; x08] 2 = [x03; x04; x05; x06].
Proof. reflexivity. Qed.
Example le_u32_short : le_u32 [xaa; xaa; xaa] 0 = 0.
Proof. reflexivity. Qed.
