(* ===== verification/Errors.v ===== *)
(** The reader's error vocabulary (core/src/lib.rs, [ApfsError] and [Result]) and
    the strings its records carry.

    [ApfsError] has the source's variants with their payloads; [result] is the
    crate's [Result<T>] with panics made visible.  [decode_cstr] is the
    NUL-terminated, lossily decoded name form shared by inode.rs, dir.rs, xattr.rs
    and snapshot.rs; a Rust [String] is the list of its UTF-8 bytes. *)

From S2P Require Import Prelude Bytes.

(** What a [Read + Seek] source can report: the two cases the reader tells apart. *)
Inductive io_error :=
| UnexpectedEof
| OtherIo (code : Z).
#[global] Instance io_error_eq_dec : EqDecision io_error.
Proof. solve_decision. Defined.

Inductive ApfsError :=
| Io (e : io_error)
| NoValidSuperblock (checked last_magic : Z)
| ChecksumMismatch (block stored computed : Z)
| OmapUnresolved (oid xid : Z)
| UnexpectedObjectType (structure : string) (expected found : Z)
| UnsupportedFusion
| UnsupportedSpacemanCab (count : Z)
| FieldOutOfRange (structure field : string) (value cap : Z)
| CycleGuard (cap : Z)
| CheckpointTreeUnsupported (area : string)
| SnapshotNotFound (xid : Z)
| Decmpfs (msg : string).
#[global] Instance ApfsError_eq_dec : EqDecision ApfsError.
Proof. solve_decision. Defined.

Abbreviation result := (outcome ApfsError).

(** ** [String::from_utf8_lossy] *)

Definition in_range (lo hi : Z) (b : byte) : bool := (lo <=? b2z b) && (b2z b <=? hi).
Definition is_cont (b : byte) : bool := in_range 0x80 0xbf b.

(** The head of the input as the standard library's decoder sees it: [inl n] when the
    first [n] bytes are one well-formed scalar, [inr n] when the first [n] bytes are a
    maximal ill-formed part. *)
Definition utf8_head (s : bytes) : nat + nat :=
  match s with
  | [] => inr 0%nat
  | b :: r =>
      let second_ok lo hi := match r with c :: _ => in_range lo hi c | [] => false end in
      let cont k := match r !! k with Some c => is_cont c | None => false end in
      let three lo hi :=
        if second_ok lo hi then (if cont 1%nat then inl 3%nat else inr 2%nat) else inr 1%nat in
      let four lo hi :=
        if second_ok lo hi then
          if cont 1%nat then (if cont 2%nat then inl 4%nat else inr 3%nat) else inr 2%nat
        else inr 1%nat in
      if b2z b <? 0x80 then inl 1%nat
      else if in_range 0xc2 0xdf b then (if cont 0%nat then inl 2%nat else inr 1%nat)
      else if b2z b =? 0xe0 then three 0xa0 0xbf
      else if in_range 0xe1 0xec b then three 0x80 0xbf
      else if b2z b =? 0xed then three 0x80 0x9f
      else if in_range 0xee 0xef b then three 0x80 0xbf
      else if b2z b =? 0xf0 then four 0x90 0xbf
      else if in_range 0xf1 0xf3 b then four 0x80 0xbf
      else if b2z b =? 0xf4 then four 0x80 0x8f
      else inr 1%nat
  end.

Definition replacement_character : bytes := [xef; xbf; xbd].

(** Each head consumes at least one byte, so the length of the input is enough fuel. *)
Fixpoint utf8_lossy (fuel : nat) (s : bytes) : bytes :=
  match fuel, s with
  | O, _ | _, [] => []
  | S fuel, _ =>
      match utf8_head s with
      | inl n => take n s ++ utf8_lossy fuel (drop n s)
      | inr n => replacement_character ++ utf8_lossy fuel (drop n s)
      end
  end.
Definition from_utf8_lossy (s : bytes) : bytes := utf8_lossy (length s) s.

(** The bytes before the first NUL: [position(|b| b == 0)] then [..end]. *)
Fixpoint until_nul (s : bytes) : bytes :=
  match s with
  | [] => []
  | b :: s => if decide (b = x00) then [] else b :: until_nul s
  end.

Definition decode_cstr (data : bytes) : bytes := from_utf8_lossy (until_nul data).

Definition ascii_byte (b : byte) : Prop := 0 < b2z b < 128.

Lemma utf8_lossy_ascii fuel s :
  Forall (fun b => b2z b < 128) s -> (length s <= fuel)%nat -> utf8_lossy fuel s = s.
Proof.
  revert s; induction fuel as [|fuel IH]; intros [|b s] Hs Hf; cbn in Hf; [done|lia|done|].
  inversion_clear Hs as [|?? Hb Hs']. cbn [utf8_lossy utf8_head].
  rewrite (proj2 (Z.ltb_lt _ _)) by lia. cbn. f_equal. rewrite drop_0. apply IH; [done|lia].
Qed.

Lemma until_nul_app s rest : Forall ascii_byte s -> until_nul (s ++ x00 :: rest) = s.
Proof.
  induction 1 as [|b s Hb _ IH]; cbn; [done|].
  destruct (decide (b = x00)) as [->|]; [unfold ascii_byte in Hb; cbn in Hb; lia|by rewrite IH].
Qed.

(** An ASCII name followed by its NUL and any padding decodes to itself. *)
Lemma decode_cstr_ascii s rest :
  Forall ascii_byte s -> decode_cstr (s ++ x00 :: rest) = s.
Proof.
  intros Hs. unfold decode_cstr, from_utf8_lossy. rewrite until_nul_app by done.
  apply utf8_lossy_ascii; [|lia]. eapply Forall_impl; [exact Hs|]. intros b []; lia.
Qed.

Example lossy_truncated : from_utf8_lossy [x61; xe2; x82; x62] = [x61; xef; xbf; xbd; x62].
Proof. reflexivity. Qed.
Example lossy_surrogate :
  from_utf8_lossy [xed; xa0; x80] = [xef; xbf; xbd; xef; xbf; xbd; xef; xbf; xbd].
Proof. reflexivity. Qed.
Example lossy_euro : from_utf8_lossy [xe2; x82; xac] = [xe2; x82; xac].
Proof. reflexivity. Qed.
