(* ===== verification/Reader.v ===== *)
(** The [Read + Seek] source every parser reads through.

    Every access of the crate is an absolute [seek(SeekFrom::Start(off))] followed by exactly
    one [read_exact], so the position a previous access left behind is never observed and the
    parsers below pass the source itself along.  [ReadSeek] is the interface they are written
    against: the two operations and the documented fact that a successful [read_exact]
    fills its buffer.  [cursor] is the in-memory source ([std::io::Cursor], the reader of the
    test suite and of the fuzz targets). *)

From S2P Require Import Prelude Bytes Errors.

Class ReadSeek (R : Type) := {
  (** [seek(SeekFrom::Start(off))]: the source positioned at [off], or an error. *)
  seek_start : R -> Z -> io_error + R;
  (** [read_exact] into a buffer of [n] bytes, from the current position. *)
  read_exact : R -> Z -> io_error + bytes;
  read_exact_len : forall r n bs, 0 <= n -> read_exact r n = inr bs -> blen bs = n;
}.

(** [reader.seek(SeekFrom::Start(off))?; reader.read_exact(&mut buf)?] with a buffer of [n] bytes. *)
Definition read_at {R} `{ReadSeek R} (r : R) (off n : Z) : result bytes :=
  match seek_start r off with
  | inl e => Err (Io e)
  | inr r' =>
      match read_exact r' n with
      | inl e => Err (Io e)
      | inr bs => Ok bs
      end
  end.

Section ReadAt.
Context {R} `{ReadSeek R}.

Lemma read_at_len (r : R) off n bs : 0 <= n -> read_at r off n = Ok bs -> blen bs = n.
Proof.
  unfold read_at. intros Hn Hr. destruct (seek_start r off); [done|].
  destruct (read_exact _ n) eqn:Hs; [done|]. ok_inv. by eapply read_exact_len.
Qed.

Lemma read_at_not_Panic (r : R) off n : read_at r off n <> Panic.
Proof. unfold read_at. destruct (seek_start r off); [done|]. by destruct (read_exact _ n). Qed.
End ReadAt.

#[export] Hint Resolve read_at_not_Panic : apfs.

(** ** The in-memory source *)

Record cursor := Cursor { cur_buf : bytes; cur_pos : Z }.

(** An empty buffer is filled wherever the cursor stands, past the end too. *)
#[export] Program Instance cursor_ReadSeek : ReadSeek cursor := {|
  seek_start c off := inr (Cursor (cur_buf c) off);
  read_exact c n :=
    if n =? 0 then inr [] else
    match get_range (cur_buf c) (cur_pos c) (cur_pos c + n) with
    | Some bs => inr bs
    | None => inl UnexpectedEof
    end
|}.
Next Obligation.
  intros c n bs Hn Hr. cbn in Hr. destruct (Z.eqb_spec n 0) as [->|_]; [by simplify_eq|]. destruct (get_range _ _ _) eqn:Hg; [|done].
  simplify_eq. apply get_range_len in Hg. lia.
Qed.

(** A cursor at the start of an image. *)
Definition image (img : bytes) : cursor := Cursor img 0.

(** An access through a cursor is a function of the image alone. *)
Lemma read_at_cursor c off n :
  n <> 0 ->
  read_at c off n =
    match get_range (cur_buf c) off (off + n) with
    | Some bs => Ok bs
    | None => Err (Io UnexpectedEof)
    end.
Proof. intros Hn. unfold read_at; cbn. apply Z.eqb_neq in Hn as ->. by destruct (get_range _ _ _). Qed.

Lemma read_at_cursor_0 c off : read_at c off 0 = Ok [].
Proof. done. Qed.

(** What a read returns is the range it names. *)
Lemma read_at_cursor_Ok c off n bs :
  0 <= n -> read_at c off n = Ok bs ->
  blen bs = n /\ (0 < n -> get_range (cur_buf c) off (off + n) = Some bs).
Proof.
  intros Hn Hr. split; [by eapply read_at_len|]. intros Hp. rewrite read_at_cursor in Hr by lia.
  destruct (get_range _ _ _); [|done]. by ok_inv.
Qed.
