(* ===== verification/Object.v ===== *)
(** Object headers and the Fletcher-64 object checksum (core/src/object.rs).

    [fletcher64_checksum] is the two-sum loop of the source.  The theorems give
    its closed form, show that stamping a block makes it verify, and that damage confined to one
    32-bit word is always caught. *)

From S2P Require Import Prelude Bytes.

Definition OBJ_PHYS_LEN : Z := 32.

Definition fletcher64_stored (block : bytes) : Z := le_u64 block 0.

Record ObjPhys := {
  o_cksum : Z;
  o_oid : Z;
  o_xid : Z;
  o_type_raw : Z;
  o_subtype : Z;
}.

Definition ObjPhys_parse (block : bytes) : option ObjPhys :=
  if blen block <? OBJ_PHYS_LEN then None
  else Some {|
    o_cksum := le_u64 block 0;
    o_oid := le_u64 block 8;
    o_xid := le_u64 block 16;
    o_type_raw := le_u32 block 24;
    o_subtype := le_u32 block 28;
  |}.

Definition obj_type (h : ObjPhys) : Z := Z.land (o_type_raw h) 0x0000ffff.

Definition MOD : Z := 0xffffffff.

(** [block.chunks_exact(4)]: a trailing partial word is dropped. *)
Fixpoint chunks_exact_4 (block : bytes) : list bytes :=
  match block with
  | a :: b :: c :: d :: rest => [a; b; c; d] :: chunks_exact_4 rest
  | _ => []
  end.

(** One round of the loop: word [i] (zero for the [o_cksum] field) into both sums. *)
Definition fletcher_step (sums : Z * Z) (iw : nat * bytes) : Z * Z :=
  let v := if Nat.ltb iw.1 2 then 0 else from_le_bytes iw.2 in
  let sum_lo := (sums.1 + v) mod MOD in
  let sum_hi := (sums.2 + sum_lo) mod MOD in
  (sum_lo, sum_hi).

Definition fletcher_fold (ws : list (nat * bytes)) (sums : Z * Z) : Z * Z :=
  foldl fletcher_step sums ws.

(** The final folding of the two sums into the checksum word. *)
Definition fletcher_fin (sums : Z * Z) : Z :=
  let check_lo := MOD - ((sums.1 + sums.2) mod MOD) in
  let check_hi := MOD - ((sums.1 + check_lo) mod MOD) in
  Z.lor (Z.shiftl check_hi 32) check_lo.

Definition fletcher64_checksum (block : bytes) : Z :=
  fletcher_fin (fletcher_fold (imap pair (chunks_exact_4 block)) (0, 0)).

(** The test every parser makes: [stored == computed]. *)
Definition cksum_ok (block : bytes) : bool :=
  fletcher64_stored block =? fletcher64_checksum block.

(** Write the computed checksum into the header, as the writer of an object does. *)
Definition stamp (block : bytes) : bytes :=
  put block 0 (to_le_bytes 8 (fletcher64_checksum block)).

(** ** Closed form of the two sums *)

Definition wval (iw : nat * bytes) : Z :=
  if Nat.ltb iw.1 2 then 0 else from_le_bytes iw.2.

(** The 32-bit words of a block as the loop sees them. *)
Definition fwords (block : bytes) : list Z := wval <$> imap pair (chunks_exact_4 block).

(** Plain and position-weighted sums: the last word has weight one. *)
Fixpoint sumZ (l : list Z) : Z := match l with [] => 0 | v :: l => v + sumZ l end.
Fixpoint wsum (l : list Z) : Z :=
  match l with [] => 0 | v :: l => (1 + blen l) * v + wsum l end.

Lemma sumZ_app l1 l2 : sumZ (l1 ++ l2) = sumZ l1 + sumZ l2.
Proof. induction l1 as [|v l1 IH]; cbn [app sumZ]; [done|]. rewrite IH. ring. Qed.

Lemma wsum_app l1 l2 : wsum (l1 ++ l2) = wsum l1 + blen l2 * sumZ l1 + wsum l2.
Proof. induction l1 as [|v l1 IH]; cbn [app wsum sumZ]; [lia|]. rewrite IH, blen_app. ring. Qed.

Lemma fletcher_fold_closed ws lo hi :
  0 <= lo < MOD -> 0 <= hi < MOD ->
  fletcher_fold ws (lo, hi) =
    ((lo + sumZ (wval <$> ws)) mod MOD,
     (hi + blen ws * lo + wsum (wval <$> ws)) mod MOD).
Proof.
  unfold fletcher_fold. revert lo hi; induction ws as [|iw ws IH]; intros lo hi Hlo Hhi;
    cbn [foldl fmap list_fmap sumZ wsum].
  - unfold blen; cbn [fmap list_fmap sumZ wsum length].
    f_equal; symmetry; rewrite Z.mod_small; lia.
  - unfold fletcher_step; cbn [fst snd]. fold (wval iw).
    rewrite IH by (apply Z.mod_pos_bound; done). rewrite blen_cons.
    replace (blen (wval <$> ws)) with (blen ws) by (unfold blen; by rewrite length_fmap).
    rewrite Z.add_mod_idemp_l by done. f_equal; [f_equal; lia|].
    set (v := wval iw). set (n := blen ws). set (W := wsum _).
    pose proof (Z.div_mod (lo + v) MOD ltac:(done)) as H1.
    pose proof (Z.div_mod (hi + (lo + v) mod MOD) MOD ltac:(done)) as H2.
    set (q1 := (lo + v) / MOD) in *. set (x := (lo + v) mod MOD) in *.
    set (q2 := (hi + x) / MOD) in *. set (r := (hi + x) mod MOD) in *.
    replace (hi + (1 + n) * lo + ((1 + n) * v + W))
      with (r + n * x + W + (q2 + q1 + n * q1) * MOD) by nia.
    by rewrite Z.mod_add by done.
Qed.

Lemma fletcher64_closed block :
  fletcher64_checksum block =
    fletcher_fin (sumZ (fwords block) mod MOD, wsum (fwords block) mod MOD).
Proof.
  unfold fletcher64_checksum. rewrite fletcher_fold_closed by (unfold MOD; lia).
  f_equal; f_equal; f_equal; unfold fwords; lia.
Qed.

(** ** The folded word *)

Lemma lor_shiftl_32 hi lo : 0 <= lo < 2 ^ 32 -> Z.lor (Z.shiftl hi 32) lo = hi * 2 ^ 32 + lo.
Proof.
  intros Hlo. rewrite <-(Z.shiftl_mul_pow2 _ 32) by lia.
  symmetry. apply Z.add_nocarry_lor. apply Z.bits_inj'. intros n Hn.
  rewrite Z.land_spec, Z.bits_0. destruct (Z.lt_ge_cases n 32).
  - by rewrite Z.shiftl_spec_low by lia.
  - replace lo with (lo mod 2 ^ 32) by (apply Z.mod_small; lia).
    rewrite Z.mod_pow2_bits_high by lia. apply andb_false_r.
Qed.

Lemma fletcher_fin_eq lo hi :
  fletcher_fin (lo, hi) =
    (MOD - (lo + (MOD - (lo + hi) mod MOD)) mod MOD) * 2 ^ 32 + (MOD - (lo + hi) mod MOD).
Proof.
  unfold fletcher_fin; cbn [fst snd]. apply lor_shiftl_32.
  pose proof (Z.mod_pos_bound (lo + hi) MOD). unfold MOD in *. lia.
Qed.

Lemma fletcher64_bound block : 0 <= fletcher64_checksum block < 2 ^ 64.
Proof.
  rewrite fletcher64_closed, fletcher_fin_eq.
  set (lo := sumZ _ mod MOD). set (hi := wsum _ mod MOD).
  pose proof (Z.mod_pos_bound (lo + hi) MOD).
  pose proof (Z.mod_pos_bound (lo + (MOD - (lo + hi) mod MOD)) MOD).
  unfold MOD in *. lia.
Qed.

(** The checksum word determines both sums. *)
Lemma fletcher_fin_inj lo hi lo' hi' :
  0 <= lo < MOD -> 0 <= hi < MOD -> 0 <= lo' < MOD -> 0 <= hi' < MOD ->
  fletcher_fin (lo, hi) = fletcher_fin (lo', hi') -> lo = lo' /\ hi = hi'.
Proof.
  intros ? ? ? ?. rewrite !fletcher_fin_eq. unfold MOD in *.
  Z.div_mod_to_equations. lia.
Qed.

(** ** Header independence and stamping *)

Lemma chunks_exact_4_app p r k :
  length p = (4 * k)%nat -> chunks_exact_4 (p ++ r) = chunks_exact_4 p ++ chunks_exact_4 r.
Proof.
  revert p; induction k as [|k IH]; intros p Hp.
  - apply length_zero_iff_nil in Hp as ->. done.
  - destruct p as [|a [|b [|c [|d p]]]]; cbn in Hp; try lia.
    cbn. f_equal. apply IH. lia.
Qed.

Lemma length_chunks_exact_4 p k : length p = (4 * k)%nat -> length (chunks_exact_4 p) = k.
Proof.
  revert p; induction k as [|k IH]; intros p Hp.
  - by apply length_zero_iff_nil in Hp as ->.
  - destruct p as [|a [|b [|c [|d p]]]]; cbn in Hp; try lia. cbn. f_equal. apply IH. lia.
Qed.

Lemma fwords_header p p' r :
  length p = 8%nat -> length p' = 8%nat -> fwords (p ++ r) = fwords (p' ++ r).
Proof.
  intros Hp Hp'.
  destruct p as [|a [|b [|c [|d [|e [|f [|g [|h [|]]]]]]]]]; cbn in Hp; try lia.
  destruct p' as [|a' [|b' [|c' [|d' [|e' [|f' [|g' [|h' [|]]]]]]]]]; cbn in Hp'; try lia.
  done.
Qed.

Lemma fletcher64_header p p' r :
  length p = 8%nat -> length p' = 8%nat ->
  fletcher64_checksum (p ++ r) = fletcher64_checksum (p' ++ r).
Proof. intros. rewrite !fletcher64_closed. by rewrite (fwords_header p p'). Qed.

Lemma stamp_split block :
  8 <= blen block ->
  stamp block = to_le_bytes 8 (fletcher64_checksum block) ++ drop 8 block.
Proof. intros. unfold stamp, put. rewrite blen_to_le_bytes. done. Qed.

Lemma fletcher64_stamp block :
  8 <= blen block -> fletcher64_checksum (stamp block) = fletcher64_checksum block.
Proof.
  intros Hb. rewrite stamp_split by done. rewrite <-(take_drop 8 block) at 3.
  apply fletcher64_header; [apply length_to_le_bytes|].
  rewrite length_take. unfold blen in Hb. lia.
Qed.

Lemma cksum_ok_stamp block : 8 <= blen block -> cksum_ok (stamp block) = true.
Proof.
  intros Hb. pose proof (blen_to_le_bytes 8 (fletcher64_checksum block)) as Hl.
  unfold cksum_ok. rewrite fletcher64_stamp by done. apply Z.eqb_eq.
  unfold fletcher64_stored, le_u64, stamp. rewrite arr_put by lia.
  rewrite from_to_le_bytes. apply Z.mod_small, fletcher64_bound.
Qed.

(** Fields after the checksum are read through the stamp. *)
Lemma arr_stamp n block off :
  8 <= blen block -> 8 <= off -> arr n (stamp block) off = arr n block off.
Proof.
  intros Hb Ho. unfold stamp. apply arr_put_other; rewrite ?blen_to_le_bytes; lia.
Qed.

Lemma le_u32_stamp block off : 8 <= blen block -> 8 <= off -> le_u32 (stamp block) off = le_u32 block off.
Proof. intros. unfold le_u32. by rewrite arr_stamp. Qed.
Lemma le_u64_stamp block off : 8 <= blen block -> 8 <= off -> le_u64 (stamp block) off = le_u64 block off.
Proof. intros. unfold le_u64. by rewrite arr_stamp. Qed.

(** Writing the computed Fletcher-64 into the first eight bytes of any block of at least
    eight bytes makes the block verify, and changes nothing after those bytes: the checksum
    excludes its own field. *)
Theorem stamp_verifies (block : bytes) :
  8 <= blen block ->
  cksum_ok (stamp block) = true /\ drop 8 (stamp block) = drop 8 block /\
  blen (stamp block) = blen block.
Proof.
  intros Hb. pose proof (blen_to_le_bytes 8 (fletcher64_checksum block)) as Hl. split_and!.
  - by apply cksum_ok_stamp.
  - rewrite stamp_split by done. by rewrite drop_app_length' by (by rewrite length_to_le_bytes).
  - unfold stamp. apply blen_put; lia.
Qed.

Lemma stamp_verifies_witness :
  cksum_ok (stamp (replicate 40 x07)) = true /\
  drop 8 (stamp (replicate 40 x07)) = drop 8 (replicate 40 x07) /\
  blen (stamp (replicate 40 x07)) = blen (replicate 40 x07).
Proof. apply (stamp_verifies (replicate 40 x07)). vm_compute. discriminate. Defined.

(** ** Damage to one word *)

Lemma fwords_word (p q : bytes) k :
  length p = (4 * k)%nat -> (2 <= k)%nat ->
  exists A B, (forall w' : bytes, length w' = 4%nat -> fwords (p ++ w' ++ q) = A ++ from_le_bytes w' :: B).
Proof.
  intros Hp Hk.
  exists (wval <$> imap pair (chunks_exact_4 p)),
         (wval <$> imap (fun i => pair (k + S i)%nat) (chunks_exact_4 q)).
  intros w' Hw'. unfold fwords. rewrite (chunks_exact_4_app p _ k) by done.
  rewrite (chunks_exact_4_app w' q 1) by lia.
  destruct w' as [|a [|b [|c [|d [|]]]]]; cbn in Hw'; try lia.
  rewrite imap_app, fmap_app, (length_chunks_exact_4 p k) by done.
  cbn [chunks_exact_4 app imap fmap list_fmap]. f_equal. f_equal.
  unfold wval; cbn [fst snd]. rewrite (proj2 (Nat.ltb_ge _ _)) by lia. done.
Qed.

(** Congruent words stay congruent under any integer weight. *)
Lemma mod_shift v v' x y :
  v mod MOD = v' mod MOD -> (exists c, x - y = c * (v - v')) -> x mod MOD = y mod MOD.
Proof.
  intros Hv [c Hc].
  pose proof (Z.div_mod v MOD ltac:(done)). pose proof (Z.div_mod v' MOD ltac:(done)).
  replace x with (y + (c * (v / MOD - v' / MOD)) * MOD) by nia.
  by rewrite Z.mod_add by done.
Qed.

Lemma fletcher64_word_iff (p w w' q : bytes) k :
  length p = (4 * k)%nat -> (2 <= k)%nat -> length w = 4%nat -> length w' = 4%nat ->
  fletcher64_checksum (p ++ w ++ q) = fletcher64_checksum (p ++ w' ++ q) <->
  from_le_bytes w mod MOD = from_le_bytes w' mod MOD.
Proof.
  intros Hp Hk Hw Hw'. destruct (fwords_word p q k) as (A & B & HAB); [done..|].
  rewrite !fletcher64_closed, (HAB w), (HAB w') by done.
  rewrite !sumZ_app, !wsum_app; cbn [sumZ wsum]. rewrite !blen_cons.
  set (v := from_le_bytes w). set (v' := from_le_bytes w'). split.
  - intros He. apply fletcher_fin_inj in He as [Hlo _]; [|apply Z.mod_pos_bound; done..].
    assert ((v - v') mod MOD = 0) as Hd.
    { apply (f_equal (fun z => (z - (sumZ A + sumZ B + v')) mod MOD)) in Hlo.
      rewrite !Zminus_mod_idemp_l in Hlo. etransitivity; [etransitivity; [|exact Hlo]|];
      [f_equal; lia|]. replace (_ - _) with 0 by lia. done. }
    unfold MOD in *. Z.div_mod_to_equations. lia.
  - intros Hv. f_equal. f_equal.
    + apply (mod_shift v v'); [done|]. by exists 1; lia.
    + apply (mod_shift v v'); [done|]. by exists (1 + blen B); lia.
Qed.

(** C20 (safety): a block that verifies stops verifying when any one aligned 32-bit word after
    the header checksum is replaced by a word that is not congruent to it modulo
    0xffffffff, that is by any other word except for the pair 0 and 0xffffffff. *)
Theorem single_word_damage_detected (p w w' q : bytes) (k : nat) :
  length p = (4 * k)%nat -> (2 <= k)%nat -> length w = 4%nat -> length w' = 4%nat ->
  w <> w' -> ~ (from_le_bytes w = 0 /\ from_le_bytes w' = MOD) ->
  ~ (from_le_bytes w = MOD /\ from_le_bytes w' = 0) ->
  cksum_ok (p ++ w ++ q) = true -> cksum_ok (p ++ w' ++ q) = false.
Proof.
  intros Hp Hk Hw Hw' Hne H0 H1 Hok. unfold cksum_ok in *.
  assert (fletcher64_stored (p ++ w' ++ q) = fletcher64_stored (p ++ w ++ q)) as Hst.
  { unfold fletcher64_stored, le_u64, arr.
    rewrite !get_range_app_l; [done|unfold blen; lia..]. }
  apply Z.eqb_eq in Hok. apply Z.eqb_neq. rewrite Hst, Hok.
  rewrite (fletcher64_word_iff p w w' q k) by done.
  pose proof (from_le_bytes_bound w) as Hb. pose proof (from_le_bytes_bound w') as Hb'.
  unfold blen in Hb, Hb'. rewrite Hw in Hb. rewrite Hw' in Hb'.
  assert (from_le_bytes w <> from_le_bytes w').
  { intros He. apply Hne, from_le_bytes_inj; [congruence|done]. }
  unfold MOD in *. Z.div_mod_to_equations. lia.
Qed.

Lemma single_word_damage_detected_witness :
  cksum_ok (take 16 (stamp (replicate 40 x07)) ++ [x07; x07; x07; x07] ++ replicate 20 x07) = true /\
  cksum_ok (take 16 (stamp (replicate 40 x07)) ++ [x07; x07; x07; x08] ++ replicate 20 x07) = false.
Proof.
  assert (cksum_ok (take 16 (stamp (replicate 40 x07)) ++ [x07; x07; x07; x07] ++ replicate 20 x07)
          = true) as Hok by (vm_compute; reflexivity).
  split; [exact Hok|].
  apply (single_word_damage_detected _ [x07; x07; x07; x07] [x07; x07; x07; x08] _ 4);
    try (vm_compute; reflexivity); try lia; try discriminate; try exact Hok;
    vm_compute; intros []; discriminate.
Defined.
