(* ===== verification/Container.v ===== *)
(** The container superblock [nx_superblock_t] (core/src/container.rs) and the Fusion gate
    (core/src/fusion.rs).

    [NxSuperblock_parse] has the source's three stages: length and magic, then the
    Fletcher-64 checksum, then the geometry fields. *)

From S2P Require Import Prelude Bytes Errors Object.

Definition NX_MAGIC : Z := 0x4253584E.
Definition NX_INCOMPAT_FUSION : Z := 0x100.
Definition NX_MINIMUM_BLOCK_SIZE : Z := 4096.
Definition NX_MAXIMUM_BLOCK_SIZE : Z := 65536.
Definition NX_MAX_FILE_SYSTEMS : Z := 100.
Definition XP_BLOCKS_TREE_FLAG : Z := 0x80000000.

Definition OFF_MAGIC : Z := 32.
Definition OFF_BLOCK_SIZE : Z := 36.
Definition OFF_BLOCK_COUNT : Z := 40.
Definition OFF_INCOMPAT_FEATURES : Z := 64.
Definition OFF_UUID : Z := 72.
Definition OFF_SPACEMAN_OID : Z := 152.
Definition OFF_REAPER_OID : Z := 168.
Definition OFF_XP_DESC_BLOCKS : Z := 104.
Definition OFF_XP_DATA_BLOCKS : Z := 108.
Definition OFF_XP_DESC_BASE : Z := 112.
Definition OFF_XP_DATA_BASE : Z := 120.
Definition OFF_OMAP_OID : Z := 160.
Definition OFF_MAX_FILE_SYSTEMS : Z := 180.
Definition OFF_FS_OID : Z := 184.

Record NxSuperblock := {
  nx_xid : Z;
  nx_uuid : bytes;
  nx_block_size : Z;
  nx_block_count : Z;
  nx_incompatible_features : Z;
  xp_desc_base : Z;
  xp_desc_blocks : Z;
  xp_data_base : Z;
  xp_data_blocks : Z;
  nx_omap_oid : Z;
  nx_spaceman_oid : Z;
  nx_reaper_oid : Z;
  nx_fs_oids : list Z;
  desc_is_tree : bool;
  data_is_tree : bool;
}.

Definition xp_desc_is_tree (sb : NxSuperblock) : bool := desc_is_tree sb.
Definition xp_data_is_tree (sb : NxSuperblock) : bool := data_is_tree sb.

(** [x & !XP_BLOCKS_TREE_FLAG] on a [u32]. *)
Definition mask_tree_flag (x : Z) : Z := Z.land x (0xffffffff - XP_BLOCKS_TREE_FLAG).
Definition has_tree_flag (x : Z) : bool := negb (Z.land x XP_BLOCKS_TREE_FLAG =? 0).

(** The non-zero entries of [nx_fs_oid[0..max_fs]]. *)
Definition read_fs_oids (block : bytes) (max_fs : Z) : list Z :=
  filter (fun oid => oid <> 0) ((fun i => le_u64 block (OFF_FS_OID + i * 8)) <$> range max_fs).

Definition NxSuperblock_parse (block : bytes) : result NxSuperblock :=
  if blen block <? OFF_MAGIC + 4 then Err (NoValidSuperblock 1 0)
  else
    let magic := le_u32 block OFF_MAGIC in
    if negb (magic =? NX_MAGIC) then Err (NoValidSuperblock 1 magic)
    else
      let stored := fletcher64_stored block in
      let computed := fletcher64_checksum block in
      if negb (stored =? computed) then
        Err (ChecksumMismatch (le_u64 block 8) stored computed)
      else
        let desc_blocks_raw := le_u32 block OFF_XP_DESC_BLOCKS in
        let data_blocks_raw := le_u32 block OFF_XP_DATA_BLOCKS in
        let max_fs := Z.min (le_u32 block OFF_MAX_FILE_SYSTEMS) NX_MAX_FILE_SYSTEMS in
        Ok {|
          nx_xid := le_u64 block 16;
          nx_uuid := arr 16 block OFF_UUID;
          nx_block_size := le_u32 block OFF_BLOCK_SIZE;
          nx_block_count := le_u64 block OFF_BLOCK_COUNT;
          nx_incompatible_features := le_u64 block OFF_INCOMPAT_FEATURES;
          xp_desc_base := le_u64 block OFF_XP_DESC_BASE;
          xp_desc_blocks := mask_tree_flag desc_blocks_raw;
          xp_data_base := le_u64 block OFF_XP_DATA_BASE;
          xp_data_blocks := mask_tree_flag data_blocks_raw;
          nx_omap_oid := le_u64 block OFF_OMAP_OID;
          nx_spaceman_oid := le_u64 block OFF_SPACEMAN_OID;
          nx_reaper_oid := le_u64 block OFF_REAPER_OID;
          nx_fs_oids := read_fs_oids block max_fs;
          desc_is_tree := has_tree_flag desc_blocks_raw;
          data_is_tree := has_tree_flag data_blocks_raw;
        |}.

(** ** Fusion (core/src/fusion.rs) *)

Definition is_fusion (sb : NxSuperblock) : bool :=
  negb (Z.land (nx_incompatible_features sb) NX_INCOMPAT_FUSION =? 0).

Definition translate_address (paddr : Z) : result Z := Err UnsupportedFusion.

(** ** Well-formedness of a parsed superblock *)

(** Every field within the width of its on-disk type, the block counts free of the flag
    bit, at most [NX_MAX_FILE_SYSTEMS] volumes and none of them zero. *)
Record NxSuperblock_wf (sb : NxSuperblock) : Prop := {
  wf_xid : 0 <= nx_xid sb < 2 ^ 64;
  wf_uuid : length (nx_uuid sb) = 16%nat;
  wf_block_size : 0 <= nx_block_size sb < 2 ^ 32;
  wf_desc_base : 0 <= xp_desc_base sb < 2 ^ 64;
  wf_desc_blocks : 0 <= xp_desc_blocks sb < 2 ^ 31;
  wf_data_blocks : 0 <= xp_data_blocks sb < 2 ^ 31;
  wf_omap_oid : 0 <= nx_omap_oid sb < 2 ^ 64;
  wf_fs_count : (length (nx_fs_oids sb) <= 100)%nat;
  wf_fs_oids : Forall (fun oid => 0 < oid < 2 ^ 64) (nx_fs_oids sb);
}.

Lemma mask_tree_flag_mod x : mask_tree_flag x = x mod 2 ^ 31.
Proof.
  unfold mask_tree_flag. change (0xffffffff - XP_BLOCKS_TREE_FLAG) with (Z.ones 31).
  apply Z.land_ones. lia.
Qed.

Lemma read_fs_oids_spec block max_fs :
  Forall (fun oid => 0 < oid < 2 ^ 64) (read_fs_oids block max_fs) /\
  (length (read_fs_oids block max_fs) <= Z.to_nat max_fs)%nat.
Proof.
  unfold read_fs_oids. split.
  - apply Forall_forall. intros oid. rewrite list_elem_of_filter, list_elem_of_fmap.
    intros (Hne & i & -> & _). pose proof (le_u64_bound block (OFF_FS_OID + i * 8)). lia.
  - etransitivity; [apply length_filter|]. by rewrite length_fmap, length_range.
Qed.

Lemma NxSuperblock_parse_wf block sb : NxSuperblock_parse block = Ok sb -> NxSuperblock_wf sb.
Proof.
  unfold NxSuperblock_parse. intros Hp.
  destruct (_ <? _); [done|]. destruct (negb _); [done|]. destruct (negb _); [done|]. ok_inv.
  destruct (read_fs_oids_spec block (Z.min (le_u32 block OFF_MAX_FILE_SYSTEMS) NX_MAX_FILE_SYSTEMS)).
  constructor; cbn -[Z.pow]; rewrite ?mask_tree_flag_mod; auto with apfs; try apply length_arr;
    try (apply Z.mod_pos_bound; lia).
  unfold NX_MAX_FILE_SYSTEMS in *. lia.
Qed.

Lemma NxSuperblock_parse_not_Panic block : NxSuperblock_parse block <> Panic.
Proof.
  unfold NxSuperblock_parse. destruct (_ <? _); [done|]. destruct (negb _); [done|].
  by destruct (negb _).
Qed.

(** [NxSuperblock::parse] accepts a block exactly when it holds the magic field, the magic is
    NXSB and the stored Fletcher-64 matches; what it accepts has every field inside
    its width, the tree flag split off both block counts, and at most 100 volume oids, all non-zero. *)
Theorem NxSuperblock_parse_spec (block : bytes) :
  ((exists sb, NxSuperblock_parse block = Ok sb) <->
     36 <= blen block /\ le_u32 block 32 = NX_MAGIC /\ cksum_ok block = true) /\
  (forall sb, NxSuperblock_parse block = Ok sb ->
     NxSuperblock_wf sb /\
     le_u32 block OFF_XP_DESC_BLOCKS =
       xp_desc_blocks sb + (if desc_is_tree sb then 2 ^ 31 else 0)).
Proof.
  split.
  - unfold NxSuperblock_parse, cksum_ok, OFF_MAGIC.
    destruct (Z.ltb_spec (blen block) (32 + 4)); cbn.
    { split; [naive_solver|lia]. }
    destruct (Z.eqb_spec (le_u32 block 32) NX_MAGIC); cbn; [|naive_solver].
    destruct (fletcher64_stored block =? fletcher64_checksum block); cbn; naive_solver lia.
  - intros sb Hp. split; [by eapply NxSuperblock_parse_wf|]. revert Hp.
    unfold NxSuperblock_parse.
    destruct (_ <? _); [done|]. destruct (negb _); [done|]. destruct (negb _); [done|].
    intros Hp. ok_inv. cbn -[Z.pow]. rewrite mask_tree_flag_mod.
    pose proof (le_u32_bound block OFF_XP_DESC_BLOCKS) as Hb.
    set (x := le_u32 block OFF_XP_DESC_BLOCKS) in *. unfold has_tree_flag.
    change XP_BLOCKS_TREE_FLAG with (2 ^ 31).
    rewrite flag_testbit by lia. pose proof (Z.testbit_spec' x 31 ltac:(lia)) as Ht.
    destruct (Z.testbit x 31); cbn [Z.b2z] in Ht; Z.div_mod_to_equations; lia.
Qed.
