(* ===== verification/Checkpoint.v ===== *)
(** The checkpoint descriptor ring and the live superblock (core/src/checkpoint.rs).

    [resolve_live_checkpoint] is the source's two passes over the descriptor area: the scan
    for the checksum-valid NXSB with the highest transaction id, then the collection of the
    checkpoint-map entries of that transaction.  The build profile decides what
    [desc_base + i] does on overflow. *)

From S2P Require Import Prelude Bytes Errors Reader Object Container.

Definition OBJECT_TYPE_NX_SUPERBLOCK : Z := 0x1.
Definition OBJECT_TYPE_CHECKPOINT_MAP : Z := 0xc.
Definition CPM_COUNT_OFF : Z := 36.
Definition CPM_MAP_OFF : Z := 40.
Definition CHECKPOINT_MAPPING_LEN : Z := 40.
Definition MAX_CPM_COUNT : Z := 4096.

Record CheckpointMapping := {
  cpm_oid : Z;
  cpm_paddr : Z;
  cpm_type : Z;
  cpm_subtype : Z;
}.

Record LiveCheckpoint := {
  superblock_paddr : Z;
  live_xid : Z;
  mappings : list CheckpointMapping;
}.

Section Checkpoint.
Context {R} `{ReadSeek R} (prof : profile) (reader : R).

(** [read_block]: the filled buffer, or [None] when the block lies past the end. *)
Definition read_block (paddr block_size : Z) : result (option bytes) :=
  match checked_mul paddr block_size with
  | None => Ok None
  | Some offset =>
      match seek_start reader offset with
      | inl e => Err (Io e)
      | inr r =>
          match read_exact r block_size with
          | inr buf => Ok (Some buf)
          | inl UnexpectedEof => Ok None
          | inl e => Err (Io e)
          end
      end
  end.

(** The state of the first pass: [best] as (xid, paddr), [checked], [last_magic]. *)
Record scan := Scan { best : option (Z * Z); checked : Z; last_magic : Z }.

Definition scan_step (desc_base block_size : Z) (st : scan) (i : Z) : result scan :=
  paddr ← add_u64 prof desc_base i;
  blk ← read_block paddr block_size;
  match blk with
  | None => Ok st
  | Some buf =>
      let st := Scan (best st) (checked st + 1) (last_magic st) in
      match ObjPhys_parse buf with
      | None => Ok st
      | Some hdr =>
          if negb (obj_type hdr =? OBJECT_TYPE_NX_SUPERBLOCK) then Ok st
          else
            let magic := le_u32 buf 32 in
            let st := Scan (best st) (checked st) magic in
            if negb (magic =? NX_MAGIC) then Ok st
            else if negb (fletcher64_stored buf =? fletcher64_checksum buf) then Ok st
            else if match best st with None => true | Some (bx, _) => bx <? o_xid hdr end
                 then Ok (Scan (Some (o_xid hdr, paddr)) (checked st) magic)
                 else Ok st
      end
  end.

(** Entry [m] of a checkpoint-map block. *)
Definition read_mapping (buf : bytes) (m : Z) : CheckpointMapping :=
  let off := CPM_MAP_OFF + m * CHECKPOINT_MAPPING_LEN in
  {| cpm_type := le_u32 buf off;
     cpm_subtype := le_u32 buf (off + 4);
     cpm_oid := le_u64 buf (off + 24);
     cpm_paddr := le_u64 buf (off + 32) |}.

Definition map_step (desc_base block_size xid : Z) (acc : list CheckpointMapping) (i : Z)
  : result (list CheckpointMapping) :=
  paddr ← add_u64 prof desc_base i;
  blk ← read_block paddr block_size;
  match blk with
  | None => Ok acc
  | Some buf =>
      match ObjPhys_parse buf with
      | None => Ok acc
      | Some hdr =>
          if negb (obj_type hdr =? OBJECT_TYPE_CHECKPOINT_MAP) || negb (o_xid hdr =? xid)
          then Ok acc
          else if negb (fletcher64_stored buf =? fletcher64_checksum buf) then Ok acc
          else
            let count := Z.min (le_u32 buf CPM_COUNT_OFF) MAX_CPM_COUNT in
            Ok (acc ++ (read_mapping buf <$> range count))
      end
  end.

Definition resolve_live_checkpoint (bootstrap : NxSuperblock) : result LiveCheckpoint :=
  if xp_desc_is_tree bootstrap then Err (CheckpointTreeUnsupported "descriptor")
  else
    let block_size := nx_block_size bootstrap in
    if negb ((NX_MINIMUM_BLOCK_SIZE <=? block_size) && (block_size <=? NX_MAXIMUM_BLOCK_SIZE))
    then Err (FieldOutOfRange "nx_superblock" "nx_block_size" block_size NX_MAXIMUM_BLOCK_SIZE)
    else
      let desc_base := xp_desc_base bootstrap in
      let desc_blocks := xp_desc_blocks bootstrap in
      st ← fold_res (scan_step desc_base block_size) (Scan None 0 0) (range desc_blocks);
      match best st with
      | None => Err (NoValidSuperblock (checked st) (last_magic st))
      | Some (xid, paddr) =>
          maps ← fold_res (map_step desc_base block_size xid) [] (range desc_blocks);
          Ok {| superblock_paddr := paddr; live_xid := xid; mappings := maps |}
      end.

(** ** What the scan looks for *)

(** The transaction id of the block at [paddr], when it is a readable, correctly typed,
    magicked and checksummed container superblock. *)
Definition nxsb_at (block_size paddr : Z) : option Z :=
  match read_block paddr block_size with
  | Ok (Some buf) =>
      hdr ← ObjPhys_parse buf;
      if (obj_type hdr =? OBJECT_TYPE_NX_SUPERBLOCK) && (le_u32 buf 32 =? NX_MAGIC)
         && cksum_ok buf
      then Some (o_xid hdr) else None
  | _ => None
  end.

(** Descriptor slot [i] is at [paddr] and holds a superblock of transaction [x]. *)
Definition candidate (base block_size i paddr x : Z) : Prop :=
  add_u64 (E := ApfsError) prof base i = Ok paddr /\ nxsb_at block_size paddr = Some x.

Lemma read_block_not_Panic paddr bs : read_block paddr bs <> Panic.
Proof.
  unfold read_block. destruct (checked_mul paddr bs); [|done].
  destruct (seek_start reader _); [done|]. by destruct (read_exact _ bs) as [[]|].
Qed.

(** One scan step in terms of [nxsb_at]: it keeps the best pair unless the slot holds a superblock
    with a strictly larger transaction id. *)
Lemma scan_step_best base bs st i st' :
  scan_step base bs st i = Ok st' ->
  exists paddr, add_u64 (E := ApfsError) prof base i = Ok paddr /\
    best st' = match nxsb_at bs paddr, best st with
               | None, b => b
               | Some x, None => Some (x, paddr)
               | Some x, Some (bx, bp) => if bx <? x then Some (x, paddr) else Some (bx, bp)
               end.
Proof.
  unfold scan_step, nxsb_at, cksum_ok. intros Hs. ok_inv. rename a into paddr.
  exists paddr. split; [done|]. rewrite Ha0.
  destruct a0 as [buf|]; [|by ok_inv].
  destruct (ObjPhys_parse buf) as [hdr|]; cbn in *; [|by ok_inv].
  destruct (obj_type hdr =? _); cbn in *; [|by ok_inv].
  destruct (le_u32 buf 32 =? NX_MAGIC); cbn in *; [|by ok_inv].
  destruct (fletcher64_stored buf =? fletcher64_checksum buf); cbn in *; [|by ok_inv].
  destruct (best st) as [[bx bp]|]; cbn in *; [|by ok_inv].
  destruct (bx <? o_xid hdr); by ok_inv.
Qed.

(** [b] is the best candidate among the slots [l]: a candidate of maximal transaction id, the
    first of its kind; [None] when there is no candidate. *)
Definition is_best (base bs : Z) (l : list Z) (b : option (Z * Z)) : Prop :=
  match b with
  | None => forall i paddr x, i ∈ l -> ~ candidate base bs i paddr x
  | Some (bx, bp) =>
      exists l1 i l2, l = l1 ++ i :: l2 /\ candidate base bs i bp bx /\
        (forall j paddr x, j ∈ l1 -> candidate base bs j paddr x -> x < bx) /\
        (forall j paddr x, j ∈ l2 -> candidate base bs j paddr x -> x <= bx)
  end.

Lemma candidate_fun base bs i p p' x x' :
  candidate base bs i p x -> candidate base bs i p' x' -> p = p' /\ x = x'.
Proof.
  intros [H1 H2] [H3 H4]. assert (p = p') as <- by congruence. split; congruence.
Qed.

Lemma is_best_snoc base bs l b i paddr :
  add_u64 (E := ApfsError) prof base i = Ok paddr ->
  is_best base bs l b ->
  is_best base bs (l ++ [i])
    (match nxsb_at bs paddr, b with
     | None, b => b
     | Some x, None => Some (x, paddr)
     | Some x, Some (bx, bp) => if bx <? x then Some (x, paddr) else Some (bx, bp)
     end).
Proof.
  intros Hadd Hb. destruct (nxsb_at bs paddr) as [x|] eqn:Hx.
  - assert (candidate base bs i paddr x) as Hc by done.
    destruct b as [[bx bp]|]; cbn in Hb.
    + destruct Hb as (l1 & k & l2 & -> & Hk & H1 & H2). destruct (Z.ltb_spec bx x).
      * exists (l1 ++ k :: l2), i, []. split_and!; [done|done| |set_solver].
        intros j p' x' Hj Hc'. apply elem_of_app in Hj as [Hj|Hj].
        { specialize (H1 _ _ _ Hj Hc'). lia. }
        apply elem_of_cons in Hj as [->|Hj].
        { destruct (candidate_fun _ _ _ _ _ _ _ Hk Hc'). lia. }
        specialize (H2 _ _ _ Hj Hc'). lia.
      * exists l1, k, (l2 ++ [i]). split_and!; [by rewrite <-app_assoc|done|done|].
        intros j p' x' Hj Hc'. apply elem_of_app in Hj as [Hj|Hj]; [by eapply H2|].
        apply list_elem_of_singleton in Hj as ->.
        destruct (candidate_fun _ _ _ _ _ _ _ Hc Hc'). lia.
    + exists l, i, []. split_and!; [done|done| |set_solver].
      intros j p' x' Hj Hc'. by destruct (Hb _ _ _ Hj Hc').
  - assert (forall p' x', ~ candidate base bs i p' x') as Hno.
    { intros p' x' [Ha Hn]. assert (p' = paddr) as -> by congruence. congruence. }
    destruct b as [[bx bp]|]; cbn in Hb |- *.
    + destruct Hb as (l1 & k & l2 & -> & Hk & H1 & H2).
      exists l1, k, (l2 ++ [i]). split_and!; [by rewrite <-app_assoc|done|done|].
      intros j p' x' Hj Hc'. apply elem_of_app in Hj as [Hj|Hj]; [by eapply H2|].
      apply list_elem_of_singleton in Hj as ->. by destruct (Hno _ _ Hc').
    + intros j p' x' Hj Hc'. apply elem_of_app in Hj as [Hj|Hj]; [by eapply Hb|].
      apply list_elem_of_singleton in Hj as ->. by destruct (Hno _ _ Hc').
Qed.

Lemma scan_is_best base bs l st :
  fold_res (scan_step base bs) (Scan None 0 0) l = Ok st -> is_best base bs l (best st).
Proof.
  revert st. induction l as [|i l IH] using rev_ind; intros st Hf.
  - cbn in Hf. ok_inv. cbn. set_solver.
  - rewrite fold_res_app in Hf. apply bind_Ok_iff in Hf as (s1 & H1 & H2). cbn in H2.
    apply bind_Ok_iff in H2 as (s2 & H2 & H3). ok_inv.
    apply scan_step_best in H2 as (paddr & Hadd & ->).
    apply is_best_snoc; [done|]. by apply IH.
Qed.

(** ** The mapping pass *)

(** The entries of the block at [paddr], when it is a readable checkpoint map of transaction
    [xid] with a valid checksum; none otherwise. *)
Definition cpm_at (block_size xid paddr : Z) : list CheckpointMapping :=
  match read_block paddr block_size with
  | Ok (Some buf) =>
      match ObjPhys_parse buf with
      | Some hdr =>
          if (obj_type hdr =? OBJECT_TYPE_CHECKPOINT_MAP) && (o_xid hdr =? xid) && cksum_ok buf
          then read_mapping buf <$> range (Z.min (le_u32 buf CPM_COUNT_OFF) MAX_CPM_COUNT)
          else []
      | None => []
      end
  | _ => []
  end.

Lemma map_step_spec base bs xid acc i acc' :
  map_step base bs xid acc i = Ok acc' ->
  exists paddr, add_u64 (E := ApfsError) prof base i = Ok paddr /\
    acc' = acc ++ cpm_at bs xid paddr.
Proof.
  unfold map_step, cpm_at, cksum_ok. intros Hs. ok_inv. exists a. split; [done|].
  rewrite Ha0. destruct a0 as [buf|]; [|ok_inv; by rewrite app_nil_r].
  destruct (ObjPhys_parse buf) as [hdr|]; [|ok_inv; by rewrite app_nil_r].
  destruct (obj_type hdr =? _); cbn [negb orb andb] in *; [|ok_inv; by rewrite app_nil_r].
  destruct (o_xid hdr =? _); cbn [negb orb andb] in *; [|ok_inv; by rewrite app_nil_r].
  destruct (_ =? _); cbn [negb] in *; ok_inv; by rewrite ?app_nil_r.
Qed.

Lemma map_pass_spec base bs xid l acc maps m :
  fold_res (map_step base bs xid) acc l = Ok maps ->
  m ∈ maps <-> m ∈ acc \/ exists i paddr, i ∈ l /\
    add_u64 (E := ApfsError) prof base i = Ok paddr /\ m ∈ cpm_at bs xid paddr.
Proof.
  revert acc; induction l as [|i l IH]; intros acc Hf; cbn [fold_res] in Hf.
  - ok_inv. set_solver.
  - apply bind_Ok_iff in Hf as (acc' & H1 & H2).
    apply map_step_spec in H1 as (paddr & Hadd & ->). rewrite (IH _ H2), elem_of_app.
    split.
    + intros [[?|?]|(j & p & ? & ? & ?)]; [by left| |]; right; [exists i, paddr|exists j, p];
        set_solver.
    + intros [?|(j & p & Hj & Hp & ?)]; [by left; left|].
      apply elem_of_cons in Hj as [->|Hj]; [|right; by exists j, p].
      left; right. by assert (p = paddr) as -> by congruence.
Qed.

(** ** When the scan completes *)

(** The source reports nothing but end-of-file on this block size. *)
Definition soft_reads (block_size : Z) : Prop :=
  forall paddr, exists o, read_block paddr block_size = Ok o.

Lemma scan_step_total base bs st i :
  soft_reads bs ->
  (exists st', scan_step base bs st i = Ok st') \/
  (add_u64 (E := ApfsError) prof base i = Panic /\ scan_step base bs st i = Panic).
Proof.
  intros Hsoft. unfold scan_step. destruct (add_u64 prof base i) as [paddr|e|] eqn:Ha;
    [|exfalso|by right]; cycle 1.
  { revert Ha. unfold add_u64. destruct (_ <? _); [done|]. by destruct prof. }
  left. cbn. destruct (Hsoft paddr) as [o ->]; cbn. destruct o as [buf|]; [|eauto].
  destruct (ObjPhys_parse buf); [|eauto]. repeat case_match; eauto.
Qed.

Lemma map_step_total base bs xid acc i paddr :
  soft_reads bs -> add_u64 (E := ApfsError) prof base i = Ok paddr ->
  exists acc', map_step base bs xid acc i = Ok acc'.
Proof.
  intros Hsoft Ha. unfold map_step. rewrite Ha; cbn. destruct (Hsoft paddr) as [o ->]; cbn.
  destruct o as [buf|]; [|eauto]. destruct (ObjPhys_parse buf); [|eauto].
  repeat case_match; eauto.
Qed.

Lemma scan_pass_total base bs l st :
  soft_reads bs ->
  (exists st', fold_res (scan_step base bs) st l = Ok st' /\
     forall i, i ∈ l -> exists paddr, add_u64 (E := ApfsError) prof base i = Ok paddr) \/
  (fold_res (scan_step base bs) st l = Panic /\
     exists i, i ∈ l /\ add_u64 (E := ApfsError) prof base i = Panic).
Proof.
  intros Hsoft. revert st; induction l as [|i l IH]; intros st; cbn [fold_res].
  { left. eexists. split; [done|]. set_solver. }
  destruct (scan_step_total base bs st i Hsoft) as [[st' Hs]|[Ha Hs]]; rewrite Hs; cbn.
  - apply scan_step_best in Hs as (paddr & Ha & _).
    destruct (IH st') as [(st'' & ? & Hl)|(? & j & ? & ?)]; [left|right; set_solver].
    exists st''. split; [done|]. intros j Hj. apply elem_of_cons in Hj as [->|Hj]; eauto.
  - right. split; [done|]. exists i. set_solver.
Qed.

(** The body of the function past its two guards. *)
Lemma resolve_guarded sb :
  xp_desc_is_tree sb = false ->
  NX_MINIMUM_BLOCK_SIZE <= nx_block_size sb <= NX_MAXIMUM_BLOCK_SIZE ->
  resolve_live_checkpoint sb =
    (st ← fold_res (scan_step (xp_desc_base sb) (nx_block_size sb)) (Scan None 0 0)
            (range (xp_desc_blocks sb));
     match best st with
     | None => Err (NoValidSuperblock (checked st) (last_magic st))
     | Some (xid, paddr) =>
         maps ← fold_res (map_step (xp_desc_base sb) (nx_block_size sb) xid) []
                  (range (xp_desc_blocks sb));
         Ok {| superblock_paddr := paddr; live_xid := xid; mappings := maps |}
     end).
Proof.
  intros Ht Hb. unfold resolve_live_checkpoint. rewrite Ht.
  by rewrite !(proj2 (Z.leb_le _ _)) by lia.
Qed.

Lemma resolve_Ok_guards sb lc :
  resolve_live_checkpoint sb = Ok lc ->
  xp_desc_is_tree sb = false /\
  NX_MINIMUM_BLOCK_SIZE <= nx_block_size sb <= NX_MAXIMUM_BLOCK_SIZE.
Proof.
  unfold resolve_live_checkpoint. destruct (xp_desc_is_tree sb); [done|].
  destruct (negb _) eqn:Hn; [done|]. by bool_cases.
Qed.

(** What the scan and the second pass leave. *)
Lemma live_checkpoint_parts (sb : NxSuperblock) (lc : LiveCheckpoint) :
  resolve_live_checkpoint sb = Ok lc ->
  is_best (xp_desc_base sb) (nx_block_size sb) (range (xp_desc_blocks sb))
    (Some (live_xid lc, superblock_paddr lc)) /\
  (forall m, m ∈ mappings lc <->
     exists i paddr, 0 <= i < xp_desc_blocks sb /\
       add_u64 (E := ApfsError) prof (xp_desc_base sb) i = Ok paddr /\
       m ∈ cpm_at (nx_block_size sb) (live_xid lc) paddr).
Proof.
  intros Hr. destruct (resolve_Ok_guards _ _ Hr) as [Ht Hb].
  rewrite resolve_guarded in Hr by done.
  apply bind_Ok_iff in Hr as (st & Hscan & Hr). apply scan_is_best in Hscan.
  destruct (best st) as [[xid paddr]|]; [|done].
  apply bind_Ok_iff in Hr as (maps & Hmaps & Hr). ok_inv. split; [done|].
  intros m. cbn [mappings live_xid]. rewrite (map_pass_spec _ _ _ _ _ _ _ Hmaps).
  setoid_rewrite elem_of_range. set_solver.
Qed.

(** C4 (functional): the checkpoint [resolve_live_checkpoint] returns is a checksum-valid,
    NXSB-typed and NXSB-magicked descriptor block whose transaction id is the largest in the ring, the first
    such block when several share it; its mappings are exactly the entries of the checksum-valid
    checkpoint-map blocks of that same transaction. *)
Theorem live_checkpoint_spec (sb : NxSuperblock) (lc : LiveCheckpoint) :
  resolve_live_checkpoint sb = Ok lc ->
  is_best (xp_desc_base sb) (nx_block_size sb) (range (xp_desc_blocks sb))
    (Some (live_xid lc, superblock_paddr lc)) /\
  (forall m, m ∈ mappings lc <->
     exists i paddr, 0 <= i < xp_desc_blocks sb /\
       add_u64 (E := ApfsError) prof (xp_desc_base sb) i = Ok paddr /\
       m ∈ cpm_at (nx_block_size sb) (live_xid lc) paddr).
Proof. apply live_checkpoint_parts. Qed.

(** C37 (liveness): on a source that reports nothing worse than end-of-file, with a linear
    descriptor area that fits the address space and a block size in range, the
    scan always comes to an answer: the live checkpoint when some slot holds a valid
    superblock, the loud [NoValidSuperblock] when none does; in particular it does not panic. *)
Theorem live_checkpoint_total (sb : NxSuperblock) :
  desc_is_tree sb = false ->
  NX_MINIMUM_BLOCK_SIZE <= nx_block_size sb <= NX_MAXIMUM_BLOCK_SIZE ->
  xp_desc_base sb + xp_desc_blocks sb <= u64_limit ->
  soft_reads (nx_block_size sb) ->
  ((exists i paddr x, 0 <= i < xp_desc_blocks sb /\
      candidate (xp_desc_base sb) (nx_block_size sb) i paddr x) ->
   exists lc, resolve_live_checkpoint sb = Ok lc) /\
  ((forall i paddr x, 0 <= i < xp_desc_blocks sb ->
      ~ candidate (xp_desc_base sb) (nx_block_size sb) i paddr x) ->
   exists checked magic, resolve_live_checkpoint sb = Err (NoValidSuperblock checked magic)).
Proof.
  intros Ht Hb Hfit Hsoft. rewrite resolve_guarded by done.
  destruct (scan_pass_total (xp_desc_base sb) (nx_block_size sb) (range (xp_desc_blocks sb))
              (Scan None 0 0) Hsoft) as [(st & Hs & Hadd)|(_ & i & Hi & Hp)]; cycle 1.
  { apply elem_of_range in Hi. rewrite add_u64_Ok in Hp by lia. done. }
  apply scan_is_best in Hs as Hbest. rewrite Hs; cbn [mbind outcome_bind].
  unfold is_best in Hbest. destruct (best st) as [[xid paddr]|]; split.
  - intros _. edestruct (fold_res_total (map_step (xp_desc_base sb) (nx_block_size sb) xid))
      as [maps Hm]; [|rewrite Hm; cbn; eauto].
    intros acc i Hi. destruct (Hadd i Hi) as [p Hp]. by eapply map_step_total.
  - intros Hno. exfalso. destruct Hbest as (l1 & i & l2 & Hl & Hc & _).
    eapply Hno; [|exact Hc]. apply elem_of_range. rewrite Hl. set_solver.
  - intros (i & p & x & Hi & Hc). exfalso. eapply Hbest; [|exact Hc]. by apply elem_of_range.
  - intros _. eauto.
Qed.

(** In a build that traps on overflow, a descriptor area whose block addresses leave
    the 64-bit address space makes the scan panic instead of reporting an error, whatever the image holds. *)
Theorem live_checkpoint_overflow_panics (sb : NxSuperblock) :
  prof = OverflowTraps ->
  desc_is_tree sb = false ->
  NX_MINIMUM_BLOCK_SIZE <= nx_block_size sb <= NX_MAXIMUM_BLOCK_SIZE ->
  0 <= xp_desc_base sb < u64_limit -> u64_limit < xp_desc_base sb + xp_desc_blocks sb ->
  soft_reads (nx_block_size sb) ->
  resolve_live_checkpoint sb = Panic.
Proof.
  intros Hprof Ht Hb Hbase Hover Hsoft. rewrite resolve_guarded by done.
  destruct (scan_pass_total (xp_desc_base sb) (nx_block_size sb) (range (xp_desc_blocks sb))
              (Scan None 0 0) Hsoft) as [(st & _ & Hadd)|[-> _]]; [|done].
  destruct (Hadd (u64_limit - xp_desc_base sb)) as [p Hp].
  { apply elem_of_range. lia. }
  exfalso. revert Hp. unfold add_u64. rewrite Hprof.
  by rewrite (proj2 (Z.ltb_ge _ _)) by lia.
Qed.
End Checkpoint.

(** ** A three-slot descriptor ring *)

(** Reads of an in-memory image can only fail with end-of-file. *)
Lemma cursor_soft_reads (c : cursor) bs : soft_reads c bs.
Proof.
  intros paddr. unfold read_block. destruct (checked_mul paddr bs); [|eauto]. cbn.
  destruct (bs =? 0); [eauto|]. destruct (get_range _ _ _); eauto.
Qed.

Definition demo_nxsb (xid : Z) : bytes :=
  stamp (put (put (put (replicate 4096 x00) 16 (to_le_bytes 8 xid)) 24 (to_le_bytes 4 1))
           32 (to_le_bytes 4 NX_MAGIC)).

Definition demo_ring : cursor := image (demo_nxsb 5 ++ demo_nxsb 7).

Definition demo_bootstrap (base blocks : Z) : NxSuperblock :=
  {| nx_xid := 0; nx_uuid := replicate 16 x00; nx_block_size := 4096; nx_block_count := 3;
     nx_incompatible_features := 0; xp_desc_base := base; xp_desc_blocks := blocks;
     xp_data_base := 0; xp_data_blocks := 0; nx_omap_oid := 0; nx_spaceman_oid := 0;
     nx_reaper_oid := 0; nx_fs_oids := []; desc_is_tree := false; data_is_tree := false |}.

Lemma demo_ring_live :
  resolve_live_checkpoint OverflowTraps demo_ring (demo_bootstrap 0 3) =
    Ok {| superblock_paddr := 1; live_xid := 7; mappings := [] |}.
Proof. vm_compute. reflexivity. Qed.

Lemma demo_ring_candidate : candidate OverflowTraps demo_ring 0 4096 1 1 7.
Proof. split; vm_compute; reflexivity. Qed.

Lemma live_checkpoint_spec_witness :
  is_best OverflowTraps demo_ring 0 4096 (range 3) (Some (7, 1)).
Proof. exact (proj1 (live_checkpoint_spec OverflowTraps demo_ring (demo_bootstrap 0 3) _ demo_ring_live)). Defined.

Lemma live_checkpoint_total_witness :
  exists lc, resolve_live_checkpoint OverflowTraps demo_ring (demo_bootstrap 0 3) = Ok lc.
Proof.
  apply (live_checkpoint_total OverflowTraps demo_ring (demo_bootstrap 0 3)).
  - reflexivity.
  - split; vm_compute; discriminate.
  - vm_compute; discriminate.
  - apply cursor_soft_reads.
  - exists 1, 1, 7. split; [cbn; lia|exact demo_ring_candidate].
Defined.

Lemma live_checkpoint_overflow_panics_witness :
  resolve_live_checkpoint OverflowTraps demo_ring (demo_bootstrap u64_max 2) = Panic.
Proof.
  apply (live_checkpoint_overflow_panics OverflowTraps demo_ring (demo_bootstrap u64_max 2)).
  - reflexivity.
  - reflexivity.
  - split; vm_compute; discriminate.
  - split; [vm_compute; discriminate|reflexivity].
  - reflexivity.
  - apply cursor_soft_reads.
Defined.
