(* ===== verification/Walk.v ===== *)
(** Cycle-guarded tree walks, the shape shared by btree.rs [descend], dir.rs
    [descend_virtual] and snapshot.rs [descend_snap].

    [stm] is the effect of those functions: mutable state that survives an early error return
    (the visited set and whatever the visitor closure captures), with [Result] on top.  [gwalk] is
    the common shape over an abstract [fetch]; each component proves its own function equal to an
    instance of it.  [tree] is the finite unfolding of what [fetch] reaches.  The walk
    succeeds exactly on a root that unfolds to a tree of distinct addresses
    within the depth budget, and then shows the visitor every leaf entry once, left to right. *)

From S2P Require Import Prelude Bytes Errors.

Set Warnings "-register-all".

(** ** State that survives errors *)

Definition stm (S A : Type) : Type := S -> S * result A.

#[global] Instance stm_ret {S} : MRet (stm S) := fun A a s => (s, Ok a).
#[global] Instance stm_bind {S} : MBind (stm S) := fun A B k m s =>
  match m s with
  | (s', Ok a) => k a s'
  | (s', Err e) => (s', Err e)
  | (s', Panic) => (s', Panic)
  end.

Definition throw {S A} (e : ApfsError) : stm S A := fun s => (s, Err e).
Definition lift {S A} (r : result A) : stm S A := fun s => (s, r).
Definition modify {S} (f : S -> S) : stm S unit := fun s => (f s, Ok tt).

(** [for x in l { f(x)?; }] *)
Definition for_each {S A} (f : A -> stm S unit) : list A -> stm S unit :=
  fix go l :=
    match l with
    | [] => mret tt
    | x :: l => _ ← f x; go l
    end.

(** A key/value pair yielded by a node walk. *)
Record Entry := { key : bytes; value : bytes }.

(** The captured state of a walk: the visited set and the visitor's own variables. *)
Abbreviation wstate St := (gset Z * St)%type.

(** [visited.insert(a)]: whether [a] was new. *)
Definition visit_once {St} (a : Z) : stm (wstate St) bool :=
  fun s => if decide (a ∈ s.1) then (s, Ok false) else (({[a]} ∪ s.1, s.2), Ok true).

(** [for e in entries { visit(e.key, e.value); }] *)
Definition visit_all {St} (visit : bytes -> bytes -> St -> St) (es : list Entry)
  : stm (wstate St) unit :=
  modify (fun s => (s.1, foldl (fun st e => visit (key e) (value e) st) s.2 es)).

Lemma for_each_ext {S A} (f g : A -> stm S unit) l s :
  (forall x s, f x s = g x s) -> for_each f l s = for_each g l s.
Proof.
  intros Hfg. revert s; induction l as [|x l IH]; intros s; cbn; [done|].
  unfold mbind, stm_bind. rewrite Hfg. destruct (g x s) as [s' [| |]]; [apply IH|done|done].
Qed.

(** ** The common shape *)

Inductive node := NLeaf (es : list Entry) | NIndex (es : list Entry).

Section Walk.
Context {St : Type}.
(** The node at an address ([Ok None]: nothing to see there, carry on), the children of an index node to
    descend, the visitor, and the error of a tripped guard. *)
Context (fetch : Z -> result (option node)) (select : list Entry -> list Z).
Context (visit : bytes -> bytes -> St -> St) (guard : ApfsError).

Fixpoint gwalk (budget : nat) (a : Z) : stm (wstate St) unit :=
  match budget with
  | O => throw guard
  | S budget =>
      fresh ← visit_once a;
      if negb fresh then throw guard
      else
        n ← lift (fetch a);
        match n with
        | None => mret tt
        | Some (NLeaf es) => visit_all visit es
        | Some (NIndex es) => for_each (gwalk budget) (select es)
        end
  end.
End Walk.

(** ** Finite unfoldings *)

Inductive tree :=
| TSkip (a : Z)
| TLeaf (a : Z) (es : list Entry)
| TNode (a : Z) (es : list Entry) (ts : list tree).

Section TreeInd.
Context (P : tree -> Prop).
Context (Hskip : forall a, P (TSkip a)) (Hleaf : forall a es, P (TLeaf a es)).
Context (Hnode : forall a es ts, Forall P ts -> P (TNode a es ts)).

Fixpoint tree_rect' (t : tree) : P t :=
  match t with
  | TSkip a => Hskip a
  | TLeaf a es => Hleaf a es
  | TNode a es ts =>
      Hnode a es ts
        ((fix go (ts : list tree) : Forall P ts :=
            match ts with
            | [] => Forall_nil_2 P
            | t :: ts => Forall_cons_2 P t ts (tree_rect' t) (go ts)
            end) ts)
  end.
End TreeInd.

Definition addr (t : tree) : Z :=
  match t with TSkip a | TLeaf a _ | TNode a _ _ => a end.

(** Addresses in the order they are read. *)
Fixpoint addrs (t : tree) : list Z :=
  match t with
  | TSkip a | TLeaf a _ => [a]
  | TNode a _ ts => a :: concat (map addrs ts)
  end.

(** Leaf entries from left to right. *)
Fixpoint leaf_entries (t : tree) : list Entry :=
  match t with
  | TSkip _ => []
  | TLeaf _ es => es
  | TNode _ _ ts => concat (map leaf_entries ts)
  end.

Fixpoint height (t : tree) : nat :=
  match t with
  | TSkip _ | TLeaf _ _ => 1
  | TNode _ _ ts => S (foldr (fun t h => Nat.max (height t) h) O ts)
  end.

Definition visited_by {St} (visit : bytes -> bytes -> St -> St) (s : wstate St) (ads : list Z)
    (es : list Entry) : wstate St :=
  (list_to_set ads ∪ s.1, foldl (fun st e => visit (key e) (value e) st) s.2 es).

Section Unfolding.
Context (fetch : Z -> result (option node)) (select : list Entry -> list Z).

(** [t] is what [fetch] and [select] reach from its root address. *)
Inductive repr : tree -> Prop :=
| repr_skip a : fetch a = Ok None -> repr (TSkip a)
| repr_leaf a es : fetch a = Ok (Some (NLeaf es)) -> repr (TLeaf a es)
| repr_node a es ts :
    fetch a = Ok (Some (NIndex es)) -> map addr ts = select es -> Forall repr ts ->
    repr (TNode a es ts).

(** [t] can be walked within [budget] levels starting from the visited set [seen]. *)
Record walkable (budget : nat) (seen : gset Z) (t : tree) : Prop := {
  walkable_repr : repr t;
  walkable_height : (height t <= budget)%nat;
  walkable_NoDup : NoDup (addrs t);
  walkable_fresh : forall x, x ∈ addrs t -> x ∉ seen;
}.
End Unfolding.

Lemma addr_addrs t : exists l, addrs t = addr t :: l.
Proof. destruct t; cbn; eauto. Qed.

Lemma height_node_le a es ts b :
  (height (TNode a es ts) <= S b)%nat <-> Forall (fun t => (height t <= b)%nat) ts.
Proof.
  cbn. rewrite <-Nat.succ_le_mono. induction ts as [|t ts IH]; cbn.
  - split; [constructor|lia].
  - rewrite Forall_cons, <-IH. lia.
Qed.

Section VisitedBy.
Context {St : Type} (visit : bytes -> bytes -> St -> St).
Implicit Types s : wstate St.

Lemma visited_by_nil s : visited_by visit s [] [] = s.
Proof. destruct s as [V st]. unfold visited_by; cbn. f_equal. set_solver. Qed.

Lemma visited_by_app s a1 e1 a2 e2 :
  visited_by visit (visited_by visit s a1 e1) a2 e2 = visited_by visit s (a1 ++ a2) (e1 ++ e2).
Proof. unfold visited_by; cbn. rewrite foldl_app. f_equal. set_solver. Qed.
End VisitedBy.

Section Correct.
Context {St : Type}.
Context (fetch : Z -> result (option node)) (select : list Entry -> list Z).
Context (visit : bytes -> bytes -> St -> St) (guard : ApfsError).
Implicit Types s : wstate St.

Local Abbreviation gw := (gwalk fetch select visit guard).
Local Abbreviation after := (visited_by visit).

(** A forest under one index node: addresses of the children in order. *)
Record forest (budget : nat) (seen : gset Z) (ts : list tree) : Prop := {
  forest_repr : Forall (repr fetch select) ts;
  forest_height : Forall (fun t => (height t <= budget)%nat) ts;
  forest_NoDup : NoDup (concat (map addrs ts));
  forest_fresh : forall x, x ∈ concat (map addrs ts) -> x ∉ seen;
}.

Lemma walkable_node b seen a es ts :
  walkable fetch select (S b) seen (TNode a es ts) <->
  fetch a = Ok (Some (NIndex es)) /\ map addr ts = select es /\ (a ∉ seen) /\
  forest b ({[a]} ∪ seen) ts.
Proof.
  split.
  - intros [Hr Hh Hnd Hf]. inversion_clear Hr. apply height_node_le in Hh.
    cbn in Hnd, Hf. apply NoDup_cons in Hnd as [Ha Hnd].
    split_and!; [done|done|apply Hf; by left|]. split; [done|done|done|].
    intros x Hx Hin. apply elem_of_union in Hin as [Hin|Hin].
    + apply elem_of_singleton in Hin as ->. done.
    + eapply Hf; [right; exact Hx|exact Hin].
  - intros (Hfe & Hm & Ha & [Hr Hh Hnd Hf]). split.
    + by constructor.
    + by apply height_node_le.
    + cbn. apply NoDup_cons. split; [|done]. intros Hin. apply Hf in Hin. set_solver.
    + cbn. intros x Hx. apply elem_of_cons in Hx as [->|Hx]; [done|].
      apply Hf in Hx. set_solver.
Qed.

Lemma forest_cons b seen t ts :
  forest b seen (t :: ts) <->
  walkable fetch select b seen t /\ forest b (list_to_set (addrs t) ∪ seen) ts.
Proof.
  split.
  - intros [Hr Hh Hnd Hf]. cbn in Hnd, Hf. apply Forall_cons in Hr as [? ?], Hh as [? ?].
    apply NoDup_app in Hnd as (? & Hd & ?).
    split; split; try done; intros x Hx; [apply Hf, elem_of_app; by left|].
    intros [Hin|Hin]%elem_of_union; [|eapply Hf; [apply elem_of_app; by right|exact Hin]].
    apply elem_of_list_to_set in Hin. by eapply Hd.
  - intros [[? ? ? Hf1] [? ? ? Hf]]. split; [by constructor|by constructor| |]; cbn.
    + apply NoDup_app. split_and!; [done| |done]. intros x Hx Hx'.
      apply Hf in Hx'. apply Hx', elem_of_union_l, elem_of_list_to_set, Hx.
    + intros x [Hx|Hx]%elem_of_app; [by apply Hf1|]. intros Hin.
      eapply Hf; [exact Hx|]. by apply elem_of_union_r.
Qed.

Lemma forest_elem b seen ts1 t ts2 :
  forest b seen (ts1 ++ t :: ts2) -> walkable fetch select b seen t.
Proof.
  revert seen; induction ts1 as [|t1 ts1 IH]; intros seen; cbn [app]; rewrite forest_cons.
  - by intros [? _].
  - intros [_ [Hr Hh Hn Hf]%IH]. split; try done.
    intros x Hx Hin. eapply Hf; [exact Hx|]. by apply elem_of_union_r.
Qed.

(** One level of the walk, its guards resolved. *)
Lemma gwalk_S b a s :
  gw (S b) a s =
    if decide (a ∈ s.1) then (s, Err guard)
    else
      let s1 := after s [a] [] in
      match fetch a with
      | Ok None => (s1, Ok tt)
      | Ok (Some (NLeaf es)) => (after s [a] es, Ok tt)
      | Ok (Some (NIndex es)) => for_each (gw b) (select es) s1
      | Err e => (s1, Err e)
      | Panic => (s1, Panic)
      end.
Proof.
  cbn [gwalk]. unfold mbind at 1, stm_bind at 1, visit_once.
  destruct (decide (a ∈ s.1)); cbn [negb]; [done|].
  unfold mbind, stm_bind, lift, visited_by; cbn. rewrite (right_id_L ∅ (∪)).
  by destruct (fetch a) as [[[]|]| |].
Qed.

Lemma for_each_cons {A} (f : A -> stm (wstate St) unit) x l s :
  for_each f (x :: l) s =
    match f x s with
    | (s', Ok _) => for_each f l s'
    | (s', Err e) => (s', Err e)
    | (s', Panic) => (s', Panic)
    end.
Proof. done. Qed.

Lemma for_each_forest b l s s' :
  (forall a s s', gw b a s = (s', Ok tt) ->
     exists t, walkable fetch select b s.1 t /\ addr t = a /\
       s' = after s (addrs t) (leaf_entries t)) ->
  for_each (gw b) l s = (s', Ok tt) ->
  exists ts, forest b s.1 ts /\ map addr ts = l /\
    s' = after s (concat (map addrs ts)) (concat (map leaf_entries ts)).
Proof.
  intros IHb. revert s; induction l as [|a l IH]; intros s Hw.
  - cbn in Hw. injection Hw as <-. exists []. cbn. rewrite visited_by_nil.
    split_and!; [|done|done]. split; cbn; [constructor|constructor|constructor|].
    intros x Hx. by apply not_elem_of_nil in Hx.
  - rewrite for_each_cons in Hw. destruct (gw b a s) as [s1 [[]| |]] eqn:Ha; [|done|done].
    apply IHb in Ha as (t & Ht & <- & ->). apply IH in Hw as (ts & Hts & <- & ->).
    exists (t :: ts). cbn. rewrite visited_by_app. split_and!; [|done|done].
    by apply forest_cons.
Qed.

(** A walk that returns [Ok] was a walk of a tree. *)
Lemma gwalk_sound b a s s' :
  gw b a s = (s', Ok tt) ->
  exists t, walkable fetch select b s.1 t /\ addr t = a /\
    s' = after s (addrs t) (leaf_entries t).
Proof.
  revert a s s'; induction b as [|b IH]; intros a s s' Hw; [done|].
  rewrite gwalk_S in Hw. destruct (decide (a ∈ s.1)) as [|Ha]; [done|].
  assert (forall x, x ∈ [a] -> x ∉ s.1) as Hfresh.
  { intros x Hx. apply list_elem_of_singleton in Hx as ->. done. }
  destruct (fetch a) as [[[es|es]|]|e|] eqn:Hf; [| | |done|done].
  - injection Hw as <-. exists (TLeaf a es). split_and!; [|done|done].
    split; cbn; [by constructor|lia|apply NoDup_singleton|done].
  - apply for_each_forest in Hw as (ts & Hts & Hm & ->); [|exact IH].
    exists (TNode a es ts). rewrite visited_by_app. split_and!; [|done|done].
    apply walkable_node. split_and!; [done|done|done|].
    cbn in Hts. by rewrite (right_id_L ∅ (∪)) in Hts.
  - injection Hw as <-. exists (TSkip a). split_and!; [|done|done].
    split; cbn; [by constructor|lia|apply NoDup_singleton|done].
Qed.

(** Every tree of distinct addresses within the budget is walked to the end. *)
Lemma gwalk_complete t : forall b s,
  walkable fetch select b s.1 t ->
  gw b (addr t) s = (after s (addrs t) (leaf_entries t), Ok tt).
Proof.
  induction t as [a|a es|a es ts IH] using tree_rect'; intros b s Hw;
    (destruct b as [|b]; [pose proof (walkable_height _ _ _ _ _ Hw) as Hh; cbn in Hh; lia|]).
  1,2: pose proof (walkable_fresh _ _ _ _ _ Hw a ltac:(by left)) as Ha;
       pose proof (walkable_repr _ _ _ _ _ Hw) as Hr; inversion_clear Hr as [? Hf|? ? Hf|];
       cbn [addr]; rewrite gwalk_S, decide_False, Hf by done; done.
  apply walkable_node in Hw as (Hf & Hm & Ha & Hts).
  cbn [addr addrs leaf_entries]. rewrite gwalk_S, decide_False, Hf, <-Hm by done. clear Hf Hm.
  change (a :: concat (map addrs ts)) with ([a] ++ concat (map addrs ts)).
  change (concat (map leaf_entries ts)) with ([] ++ concat (map leaf_entries ts)).
  rewrite <-visited_by_app. cbn zeta.
  replace ({[a]} ∪ s.1) with (after s [a] []).1 in Hts by (cbn; set_solver).
  generalize (after s [a] []) as s1, Hts. clear Ha Hts s.
  induction IH as [|t ts Ht _ IHts]; intros s Hts.
  - cbn. by rewrite visited_by_nil.
  - apply forest_cons in Hts as [Hw Hts]. cbn [map]. rewrite for_each_cons, Ht by done.
    rewrite IHts by done. cbn [concat]. by rewrite visited_by_app.
Qed.

(** The walk panics only if a fetch does. *)
Lemma gwalk_not_Panic b a s :
  (forall a, fetch a <> Panic) -> (gw b a s).2 <> Panic.
Proof.
  intros Hf. revert a s; induction b as [|b IH]; intros a s; [done|].
  rewrite gwalk_S. destruct (decide (a ∈ s.1)); [done|].
  specialize (Hf a). destruct (fetch a) as [[[es|es]|]|e|] eqn:Hfe; try done.
  generalize (after s [a] []). induction (select es) as [|c l IHl]; intros s1; [done|].
  rewrite for_each_cons. specialize (IH c s1). destruct (gw b c s1) as [s2 [| |]]; done.
Qed.
End Correct.

(** Two trees over the same nodes have the same shape when the children agree. *)
Lemma repr_fun fetch select t1 : forall t2,
  repr fetch select t1 -> repr fetch select t2 -> addr t1 = addr t2 -> t1 = t2.
Proof.
  induction t1 as [a|a es|a es ts IH] using tree_rect'; intros t2 H1 H2 Ha;
    inversion H1 as [? Hf1|? ? Hf1|? ? ? Hf1 Hm1 HF1]; subst;
    inversion H2 as [? Hf2|? ? Hf2|? es2 ts2 Hf2 Hm2 HF2]; subst; cbn in Ha; subst; try congruence.
  assert (es2 = es) as -> by congruence. f_equal.
  assert (map addr ts = map addr ts2) as Hm by congruence.
  clear -IH Hm HF1 HF2. revert ts2 Hm HF2.
  induction IH as [|t ts Ht _ IHts]; intros [|t2 ts2] Hm HF2; cbn in Hm; try done.
  apply Forall_cons in HF1 as [? ?], HF2 as [? ?].
  injection Hm as Hm0 Hm. f_equal; [by apply Ht|by apply IHts].
Qed.
