(* ===== verification/BTree.v ===== *)
(** B-tree nodes and their two walks (core/src/btree.rs).

    [node_entries] decodes the table of contents of one node; [descend] and
    [for_each_leaf_entry] are the full walk, [find_leaf] the keyed descent, both over physical
    block numbers and both behind the checksum gate of [read_verified_node]. *)

From S2P Require Import Prelude Bytes Errors Reader Object Walk.

Definition BTNODE_FIXED_KV_SIZE : Z := 0x4.
Definition BTNODE_ROOT : Z := 0x1.
Definition BTNODE_LEAF : Z := 0x2.
Definition OFF_BTN_FLAGS : Z := 32.
Definition OFF_BTN_LEVEL : Z := 34.
Definition OFF_BTN_NKEYS : Z := 36.
Definition OFF_BTN_TABLE_SPACE : Z := 40.
Definition BTN_DATA_OFF : Z := 56.
Definition BTREE_NODE_MIN_LEN : Z := BTN_DATA_OFF.
Definition BTREE_INFO_LEN : Z := 40.
Definition TOC_FIXED_LEN : Z := 4.
Definition TOC_VAR_LEN : Z := 8.
Definition MAX_BTN_NKEYS : Z := Z.shiftl 1 20.
Definition MAX_BTREE_DEPTH : nat := 64.

Inductive BTreeSubtype := SubtypeOmap | SubtypeFsTree.
#[global] Instance BTreeSubtype_eq_dec : EqDecision BTreeSubtype.
Proof. solve_decision. Defined.

Definition fixed_key_len (s : BTreeSubtype) : Z :=
  match s with SubtypeOmap => 16 | SubtypeFsTree => 0 end.
Definition fixed_leaf_val_len (s : BTreeSubtype) : Z :=
  match s with SubtypeOmap => 16 | SubtypeFsTree => 0 end.
Definition fixed_branch_val_len (s : BTreeSubtype) : Z :=
  match s with SubtypeOmap | SubtypeFsTree => 8 end.

Record BTreeNodeHeader := { btn_flags : Z; btn_level : Z; btn_nkeys : Z }.

Definition is_leaf (h : BTreeNodeHeader) : bool :=
  negb (Z.land (btn_flags h) BTNODE_LEAF =? 0) || (btn_level h =? 0).
Definition is_root (h : BTreeNodeHeader) : bool :=
  negb (Z.land (btn_flags h) BTNODE_ROOT =? 0).
Definition is_fixed_kv (h : BTreeNodeHeader) : bool :=
  negb (Z.land (btn_flags h) BTNODE_FIXED_KV_SIZE =? 0).

Definition parse_node_header (block : bytes) : option BTreeNodeHeader :=
  if blen block <? BTREE_NODE_MIN_LEN then None
  else Some {|
    btn_flags := le_u16 block OFF_BTN_FLAGS;
    btn_level := le_u16 block OFF_BTN_LEVEL;
    btn_nkeys := le_u32 block OFF_BTN_NKEYS;
  |}.

(** ** One node *)

Section NodeEntries.
Context (block : bytes) (subtype : BTreeSubtype) (hdr : BTreeNodeHeader).

Definition toc_start : Z := BTN_DATA_OFF + le_u16 block OFF_BTN_TABLE_SPACE.
Definition key_area : Z := toc_start + le_u16 block (OFF_BTN_TABLE_SPACE + 2).
Definition val_base : Z :=
  if is_root hdr then saturating_sub (blen block) BTREE_INFO_LEN else blen block.
Definition toc_entry_len : Z := if is_fixed_kv hdr then TOC_FIXED_LEN else TOC_VAR_LEN.

(** (value offset, key length, value length) of the table entry at [e]. *)
Definition toc_lens (e : Z) : Z * Z * Z :=
  if is_fixed_kv hdr then
    (le_u16 block (e + 2), fixed_key_len subtype,
     if is_leaf hdr then fixed_leaf_val_len subtype else fixed_branch_val_len subtype)
  else (le_u16 block (e + 4), le_u16 block (e + 2), le_u16 block (e + 6)).

(** The body of the loop for table entry [i]. *)
Definition toc_entry (i : Z) : loop Entry :=
  let e := toc_start + i * toc_entry_len in
  if (key_area <? e + toc_entry_len) || (blen block <? e + toc_entry_len) then Break
  else
    let koff := le_u16 block e in
    let '(voff, this_key_len, this_val_len) := toc_lens e in
    let kstart := key_area + koff in
    let kend := kstart + this_key_len in
    match checked_sub val_base voff with
    | None => Continue
    | Some vstart =>
        match get_range block kstart kend, get_range block vstart (vstart + this_val_len) with
        | Some k, Some v => Push {| key := k; value := v |}
        | _, _ => Continue
        end
    end.
End NodeEntries.

Definition node_entries (block : bytes) (subtype : BTreeSubtype) : list Entry :=
  match parse_node_header block with
  | None => []
  | Some hdr =>
      let nkeys := Z.min (btn_nkeys hdr) MAX_BTN_NKEYS in
      if nkeys =? 0 then [] else collect (toc_entry block subtype hdr) (range nkeys)
  end.

(** ** Walks *)

Section BTree.
Context {R} `{ReadSeek R} (reader : R) (block_size : Z).

Definition read_verified_node (paddr : Z) : result (option bytes) :=
  match checked_mul paddr block_size with
  | None => Ok None
  | Some offset =>
      buf ← read_at reader offset block_size;
      let stored := fletcher64_stored buf in
      let computed := fletcher64_checksum buf in
      if negb (stored =? computed) then
        let block := match ObjPhys_parse buf with Some h => o_oid h | None => paddr end in
        Err (ChecksumMismatch block stored computed)
      else Ok (Some buf)
  end.

Context {St : Type} (subtype : BTreeSubtype) (visit : bytes -> bytes -> St -> St).

Definition btree_cycle : ApfsError := CycleGuard (Z.of_nat MAX_BTREE_DEPTH).

(** [descend] at depth [MAX_BTREE_DEPTH - budget]. *)
Fixpoint descend (budget : nat) (paddr : Z) : stm (wstate St) unit :=
  match budget with
  | O => throw btree_cycle
  | S budget =>
      fresh ← visit_once paddr;
      if negb fresh then throw btree_cycle
      else
        node ← lift (read_verified_node paddr);
        match node with
        | None => mret tt
        | Some buf =>
            match parse_node_header buf with
            | None => mret tt
            | Some hdr =>
                if is_leaf hdr then visit_all visit (node_entries buf subtype)
                else
                  let children := (fun e => le_u64 (value e) 0) <$> node_entries buf subtype in
                  for_each (descend budget) children
            end
        end
  end.

Definition for_each_leaf_entry (root_paddr : Z) (st : St) : St * result unit :=
  let '((_, st'), res) := descend MAX_BTREE_DEPTH root_paddr (∅, st) in (st', res).

Context (cmp : bytes -> comparison).

(** The child of the last entry not greater than the target, scanning from the front. *)
Fixpoint follow (child : Z) (entries : list Entry) : Z :=
  match entries with
  | [] => child
  | e :: entries =>
      match cmp (key e) with
      | Gt => child
      | _ => follow (le_u64 (value e) 0) entries
      end
  end.

Fixpoint find_leaf_from (rounds : nat) (paddr : Z) : stm (wstate St) unit :=
  match rounds with
  | O => throw btree_cycle
  | S rounds =>
      fresh ← visit_once paddr;
      if negb fresh then throw btree_cycle
      else
        node ← lift (read_verified_node paddr);
        match node with
        | None => mret tt
        | Some buf =>
            match parse_node_header buf with
            | None => mret tt
            | Some hdr =>
                if is_leaf hdr then visit_all visit (node_entries buf subtype)
                else
                  match node_entries buf subtype with
                  | [] => mret tt
                  | (first :: _) as entries =>
                      find_leaf_from rounds (follow (le_u64 (value first) 0) entries)
                  end
            end
        end
  end.

Definition find_leaf (root_paddr : Z) (st : St) : St * result unit :=
  let '((_, st'), res) := find_leaf_from MAX_BTREE_DEPTH root_paddr (∅, st) in (st', res).
End BTree.

(** ** Bounds of a decoded node *)

(** [s] lies inside [block]. *)
Definition slice_of (s block : bytes) : Prop := exists a, get_range block a (a + blen s) = Some s.

Lemma slice_of_get_range block a b s : get_range block a b = Some s -> slice_of s block.
Proof.
  intros Hg. exists a. pose proof (get_range_len _ _ _ _ Hg).
  by replace (a + blen s) with b by lia.
Qed.

Lemma toc_entry_Push block subtype hdr i e :
  toc_entry block subtype hdr i = Push e ->
  slice_of (key e) block /\ slice_of (value e) block /\
  toc_start block + (i + 1) * toc_entry_len hdr <= Z.min (key_area block) (blen block).
Proof.
  unfold toc_entry. destruct (_ || _) eqn:Hb; [done|]. bool_cases.
  destruct (toc_lens _ _ _ _) as [[voff kl] vl]. destruct (checked_sub _ _) as [vs|]; [|done].
  destruct (get_range block _ (_ + kl)) eqn:Hk; [|done].
  destruct (get_range block vs _) eqn:Hv; [|done].
  intros [= <-]. cbn. apply slice_of_get_range in Hk, Hv. split_and!; [done|done|lia].
Qed.

Lemma toc_start_nonneg block : 56 <= toc_start block.
Proof. unfold toc_start, BTN_DATA_OFF. le_bounds. lia. Qed.

Lemma toc_entry_len_bound hdr : 4 <= toc_entry_len hdr <= 8.
Proof. unfold toc_entry_len, TOC_FIXED_LEN, TOC_VAR_LEN. destruct (is_fixed_kv hdr); lia. Qed.

(** A break at table entry [i] stops every later one: the entries that fit are a prefix. *)
Lemma collect_toc_count block subtype hdr n i :
  0 <= i -> toc_start block + i * toc_entry_len hdr <= Z.max (toc_start block) (blen block) ->
  Z.of_nat (length (collect (toc_entry block subtype hdr) (seqZ i (Z.of_nat n)))) = 0 \/
  toc_start block + (i + Z.of_nat (length (collect (toc_entry block subtype hdr)
    (seqZ i (Z.of_nat n))))) * toc_entry_len hdr <= blen block.
Proof.
  pose proof (toc_entry_len_bound hdr) as Hlen.
  revert i; induction n as [|n IH]; intros i Hi Hfit; [by left|].
  rewrite Nat2Z.inj_succ, seqZ_cons by lia. cbn [collect]. rewrite Z.pred_succ.
  destruct (toc_entry block subtype hdr i) as [| |e] eqn:He; [by left| |].
  - assert (toc_start block + (i + 1) * toc_entry_len hdr <= blen block) as Hb.
    { revert He. unfold toc_entry. destruct (_ || _) eqn:Hb; [done|]. bool_cases. lia. }
    destruct (IH (Z.succ i)) as [?|Hc]; [lia|lia|by left|]. right.
    set (n' := Z.of_nat (length _)) in *. clearbody n'. nia.
  - apply toc_entry_Push in He as (_ & _ & Hb). right. cbn [length].
    rewrite Nat2Z.inj_succ. destruct (IH (Z.succ i)) as [->|Hc]; [lia|lia|lia|].
    set (n' := Z.of_nat (length _)) in *. clearbody n'. nia.
Qed.

(** C13 (bounds): whatever the block holds, every entry [node_entries] yields is a pair of slices of
    that block, the number of entries is at most [btn_nkeys] and at most what the table of contents
    can hold inside the block: a hostile count, offset or length reads nothing outside
    the node and yields no more than the node has room for. *)
Theorem node_entries_in_bounds (block : bytes) (subtype : BTreeSubtype) :
  Forall (fun e => slice_of (key e) block /\ slice_of (value e) block)
    (node_entries block subtype) /\
  blen (node_entries block subtype) <= le_u32 block OFF_BTN_NKEYS /\
  (node_entries block subtype <> [] -> 56 + 4 * blen (node_entries block subtype) <= blen block).
Proof.
  unfold node_entries. destruct (parse_node_header block) as [hdr|] eqn:Hh; cycle 1.
  { unfold blen at 1; cbn. le_bounds. split_and!; [constructor|lia|done]. }
  assert (btn_nkeys hdr = le_u32 block OFF_BTN_NKEYS) as Hn.
  { revert Hh. unfold parse_node_header. destruct (_ <? _); [done|]. by intros [= <-]. }
  rewrite Hn. pose proof (le_u32_bound block OFF_BTN_NKEYS) as Hb.
  set (n := Z.min _ _). assert (0 <= n <= le_u32 block OFF_BTN_NKEYS) as Hn'.
  { unfold n. assert (0 <= MAX_BTN_NKEYS) by done. lia. }
  destruct (n =? 0) eqn:Hz; [unfold blen at 1; cbn; split_and!; [constructor|lia|done]|].
  split_and!.
  - apply Forall_forall. intros e (i & _ & Hi)%elem_of_collect.
    apply toc_entry_Push in Hi as (? & ? & _). done.
  - pose proof (length_collect (toc_entry block subtype hdr) (range n)) as Hl.
    rewrite length_range in Hl. unfold blen. lia.
  - intros Hne. pose proof (toc_start_nonneg block).
    pose proof (toc_entry_len_bound hdr) as Hlen.
    destruct (collect_toc_count block subtype hdr (Z.to_nat n) 0) as [H0|Hc]; [lia|lia| |].
    + rewrite Z2Nat.id in H0 by lia. unfold range in Hne. destruct (collect _ _); [done|cbn in H0; lia].
    + rewrite Z2Nat.id in Hc by lia. unfold blen, range in *. nia.
Qed.

(** ** The full walk is a walk of a tree *)

(** A verified block as a tree node. *)
Definition classify (subtype : BTreeSubtype) (buf : bytes) : option node :=
  match parse_node_header buf with
  | None => None
  | Some hdr =>
      Some (if is_leaf hdr then NLeaf (node_entries buf subtype)
            else NIndex (node_entries buf subtype))
  end.

(** The children of an index node, all of them. *)
Definition child_addrs (es : list Entry) : list Z := (fun e => le_u64 (value e) 0) <$> es.

Section Trees.
Context {R} `{ReadSeek R} (reader : R) (block_size : Z) (subtype : BTreeSubtype).

(** The node at a physical address: readable, checksum verified. *)
Definition phys_node (paddr : Z) : result (option node) :=
  buf ← read_verified_node reader block_size paddr;
  Ok (buf ≫= classify subtype).

Lemma read_verified_node_not_Panic paddr : read_verified_node reader block_size paddr <> Panic.
Proof.
  unfold read_verified_node. destruct (checked_mul _ _); [|done].
  intros [Hp|(buf & _ & Hp)]%bind_Panic_iff; [by eapply read_at_not_Panic|].
  by destruct (negb _).
Qed.

Lemma phys_node_not_Panic paddr : phys_node paddr <> Panic.
Proof.
  intros [Hp|(buf & _ & Hp)]%bind_Panic_iff; [by eapply read_verified_node_not_Panic|done].
Qed.

(** Nothing is read out of a block whose checksum fails. *)
Lemma read_verified_node_ok paddr buf :
  read_verified_node reader block_size paddr = Ok (Some buf) -> cksum_ok buf = true.
Proof.
  unfold read_verified_node, cksum_ok. destruct (checked_mul _ _); [|done].
  intros Hr. ok_inv. destruct (_ =? _) eqn:Hc; cbn in Hr; [ok_inv; done|done].
Qed.

Context {St : Type} (visit : bytes -> bytes -> St -> St).

Lemma descend_gwalk b a s :
  descend reader block_size subtype visit b a s =
  gwalk phys_node child_addrs visit btree_cycle b a s.
Proof.
  revert a s; induction b as [|b IH]; intros a s; [done|].
  cbn [descend gwalk]. unfold mbind, stm_bind.
  destruct (visit_once a s) as [s1 [[]| |]]; cbn [negb]; try done.
  unfold lift, phys_node. destruct (read_verified_node reader block_size a) as [[buf|]| |]; try done.
  cbn [mbind outcome_bind option_bind]. unfold classify.
  destruct (parse_node_header buf) as [hdr|]; [|done].
  destruct (is_leaf hdr); [done|]. by apply for_each_ext.
Qed.

(** A tree stored under the root, sound for both walks. *)
Abbreviation stored t := (walkable phys_node child_addrs MAX_BTREE_DEPTH ∅ t).

(** A block that can be read and whose checksum holds. *)
Definition verified (paddr : Z) (buf : bytes) : Prop :=
  read_at reader (paddr * block_size) block_size = Ok buf /\ cksum_ok buf = true.
(** A block number whose byte offset is past the 64-bit range: the walk passes it over. *)
Definition unaddressable (paddr : Z) : Prop := u64_limit <= paddr * block_size.

Lemma phys_node_verified paddr n :
  phys_node paddr = Ok n ->
  (n = None /\ unaddressable paddr) \/ exists buf, verified paddr buf /\ n = classify subtype buf.
Proof.
  unfold phys_node. intros (o & Hr & [= <-])%bind_Ok_iff.
  destruct o as [buf|]; cbn [mbind option_bind].
  - right. exists buf. split; [|done]. split; [|by eapply read_verified_node_ok].
    revert Hr. unfold read_verified_node. destruct (checked_mul _ _) as [off|] eqn:Ho; [|done].
    apply checked_mul_Some in Ho as [-> _]. intros (b & Hb & Hr)%bind_Ok_iff. destruct (negb _); [done|]. by injection Hr as ->.
  - left. split; [done|]. revert Hr. unfold read_verified_node, unaddressable, checked_mul.
    destruct (Z.ltb_spec (paddr * block_size) u64_limit); [|done]. intros (b & _ & Hr)%bind_Ok_iff. by destruct (negb _).
Qed.

(** Every address of an unfolded tree is a verified block or cannot be addressed, and every leaf entry is one of a verified block of the tree. *)
Lemma repr_verified t :
  repr phys_node child_addrs t ->
  Forall (fun a => (exists buf, verified a buf) \/ unaddressable a) (addrs t) /\
  Forall (fun e => exists a buf, a ∈ addrs t /\ verified a buf /\ e ∈ node_entries buf subtype) (leaf_entries t).
Proof.
  assert (forall a n, phys_node a = Ok n -> (exists buf, verified a buf) \/ unaddressable a) as Hv.
  { intros a n [[_ ?]|(buf & ? & _)]%phys_node_verified; [by right|left; eauto]. }
  induction t as [a|a es|a es ts IH] using tree_rect'; intros Hr; inversion Hr as [a' Hf|a' es' Hf|a' es' ts' Hf Hm Hts]; subst; cbn [addrs leaf_entries].
  - split; constructor; eauto.
  - split; [constructor; eauto|]. apply Forall_forall. intros e He.
    apply phys_node_verified in Hf as [[? _]|(buf & Hb & Hn)]; [done|]. exists a, buf. split_and!; [set_solver|done|].
    revert Hn. unfold classify. destruct (parse_node_header buf) as [h|]; [|done]. destruct (is_leaf h); [|done]. by intros [= ->].
  - assert (Forall (fun t => Forall (fun a => (exists buf, verified a buf) \/ unaddressable a) (addrs t) /\
      Forall (fun e => exists a buf, a ∈ addrs t /\ verified a buf /\ e ∈ node_entries buf subtype) (leaf_entries t)) ts) as Hall.
    { rewrite Forall_forall in IH, Hts |- *. intros t Ht. by apply IH, Hts. }
    split; [constructor; [eauto|]|].
    + apply Forall_concat, Forall_fmap. eapply Forall_impl; [exact Hall|]. by intros t [? _].
    + apply Forall_concat, Forall_fmap. rewrite Forall_forall in Hall |- *. intros t Ht. destruct (Hall t Ht) as [_ He].
      eapply Forall_impl; [exact He|]. intros e (a' & buf & Ha & Hb). exists a', buf. split; [|done]. right.
      apply list_elem_of_In, in_concat. exists (addrs t). split; [by apply in_map, list_elem_of_In|by apply list_elem_of_In].
Qed.

(** C12 (functional): the full walk from a root block returns [Ok] exactly when the block numbers reachable
    from it form a tree of pairwise distinct numbers, at most 64 levels high, each of them
    a block that can be read and whose checksum holds, or else a number whose byte offset does not fit 64 bits, which is passed over and has
    nothing under it; the visitor is then called on every leaf entry of that tree exactly once, from left to right, and every one of
    these entries is an entry of a verified block of the tree. *)
Theorem for_each_leaf_entry_spec (root : Z) (st st' : St) :
  for_each_leaf_entry reader block_size subtype visit root st = (st', Ok tt) <->
  exists t, stored t /\ addr t = root /\
    st' = foldl (fun st e => visit (key e) (value e) st) st (leaf_entries t) /\
    Forall (fun a => (exists buf, verified a buf) \/ unaddressable a) (addrs t) /\
    Forall (fun e => exists a buf, a ∈ addrs t /\ verified a buf /\ e ∈ node_entries buf subtype) (leaf_entries t).
Proof.
  unfold for_each_leaf_entry.
  destruct (descend reader block_size subtype visit MAX_BTREE_DEPTH root (∅, st))
    as [[V st1] r] eqn:Hd. rewrite descend_gwalk in Hd. split.
  - intros [= -> ->]. apply gwalk_sound in Hd as (t & Ht & <- & [= _ ->]). exists t.
    split; [done|]. split; [done|]. split; [done|]. exact (repr_verified t (walkable_repr _ _ _ _ _ Ht)).
  - intros (t & Ht & <- & -> & _). rewrite (gwalk_complete _ _ _ _ t) in Hd by done.
    injection Hd as <- <- <-. done.
Qed.

Lemma find_leaf_not_Panic (cmp : bytes -> comparison) (root : Z) (st : St) :
  (find_leaf reader block_size subtype visit cmp root st).2 <> Panic.
Proof.
  unfold find_leaf. generalize MAX_BTREE_DEPTH as n. intros n.
  assert (forall n a s, (find_leaf_from reader block_size subtype visit cmp n a s).2 <> Panic) as Hp;
    [|specialize (Hp n root (∅, st)); by destruct (find_leaf_from _ _ _ _ _ _ _ _) as [[? ?] ?]].
  clear. induction n as [|n IH]; intros a s; [done|]. cbn [find_leaf_from].
  unfold mbind, stm_bind, visit_once, lift. destruct (decide _); cbn [negb]; [done|].
  pose proof (read_verified_node_not_Panic a) as Hr.
  destruct (read_verified_node reader block_size a) as [[buf|]| |]; try done.
  destruct (parse_node_header buf) as [hdr|]; [|done]. destruct (is_leaf hdr); [done|].
  by destruct (node_entries buf subtype).
Qed.

(** Neither walk panics: on any source and any image the full walk and the
    keyed descent return, with [Ok] or an error. *)
Theorem btree_walks_never_panic (cmp : bytes -> comparison) (root : Z) (st : St) :
  (for_each_leaf_entry reader block_size subtype visit root st).2 <> Panic /\
  (find_leaf reader block_size subtype visit cmp root st).2 <> Panic.
Proof.
  split; [|apply find_leaf_not_Panic]. unfold for_each_leaf_entry.
  pose proof (gwalk_not_Panic phys_node child_addrs visit btree_cycle MAX_BTREE_DEPTH root (∅, st)
                phys_node_not_Panic) as Hp. rewrite <-descend_gwalk in Hp.
  destruct (descend _ _ _ _ _ _ _) as [[V st1] r]. done.
Qed.
End Trees.
