(* ===== verification/NodeLayout.v ===== *)
(** A writer for B-tree nodes, of fixed or variable entry size, the inverse of [node_entries].

    [encode_node] lays a node out the way the format documents it (btree.rs, module comment): the header,
    the table of contents, the keys growing up, free space, the values growing down from
    the end of the node or from the 40-byte footer of a root.  The flag of fixed-size entries decides the table of contents: with it, the two offsets of
    an entry; without it, the two lengths as well.  Decoding gives the entries back. *)

From S2P Require Import Prelude Bytes Errors Walk BTree.

Definition fixed_kv (flags : Z) : bool := negb (Z.land flags BTNODE_FIXED_KV_SIZE =? 0).
Definition toc_size (fixed : bool) : Z := if fixed then TOC_FIXED_LEN else TOC_VAR_LEN.

(** The table entry of [e], whose key starts at [koff] and whose value ends [voff] before the end of the values. *)
Definition toc_fields (fixed : bool) (koff voff : Z) (e : Entry) : bytes :=
  to_le_bytes 2 koff ++
  (if fixed then to_le_bytes 2 (voff + blen (value e))
   else to_le_bytes 2 (blen (key e)) ++ to_le_bytes 2 (voff + blen (value e)) ++ to_le_bytes 2 (blen (value e))).

Fixpoint toc (fixed : bool) (koff voff : Z) (es : list Entry) : bytes :=
  match es with
  | [] => []
  | e :: es => toc_fields fixed koff voff e ++ toc fixed (koff + blen (key e)) (voff + blen (value e)) es
  end.

Definition keys_area (es : list Entry) : bytes := concat (map key es).

Fixpoint vals_area (es : list Entry) : bytes :=
  match es with
  | [] => []
  | e :: es => vals_area es ++ value e
  end.

Definition encode_header (obj : bytes) (flags level : Z) (es : list Entry) : bytes :=
  obj ++ to_le_bytes 2 flags ++ to_le_bytes 2 level ++ to_le_bytes 4 (blen es) ++
  to_le_bytes 2 0 ++ to_le_bytes 2 (toc_size (fixed_kv flags) * blen es) ++ replicate 12 x00.

Definition encode_node (obj : bytes) (flags level : Z) (es : list Entry) (free : nat)
    (footer : bytes) : bytes :=
  encode_header obj flags level es ++ toc (fixed_kv flags) 0 0 es ++ keys_area es ++ replicate free x00 ++
  vals_area es ++ footer.

(** The sizes a fixed-size node of a tree gives its keys and values. *)
Definition fixed_shape (subtype : BTreeSubtype) (leaf : bool) (e : Entry) : Prop :=
  blen (key e) = fixed_key_len subtype /\
  blen (value e) = if leaf then fixed_leaf_val_len subtype else fixed_branch_val_len subtype.

(** What fits a node: 16-bit offsets and lengths, the footer of a root, and in a node of fixed-size entries the sizes of the tree's subtype. *)
Record encodable (subtype : BTreeSubtype) (obj : bytes) (flags level : Z) (es : list Entry) (footer : bytes) : Prop := {
  enc_obj : blen obj = 32;
  enc_flags : 0 <= flags < 2 ^ 16;
  enc_level : 0 <= level < 2 ^ 16;
  enc_shape : fixed_kv flags = true ->
    Forall (fixed_shape subtype (is_leaf {| btn_flags := flags; btn_level := level; btn_nkeys := blen es |})) es;
  enc_footer : blen footer = if negb (Z.land flags BTNODE_ROOT =? 0) then BTREE_INFO_LEN else 0;
  enc_toc : toc_size (fixed_kv flags) * blen es < 2 ^ 16;
  enc_keys : blen (keys_area es) < 2 ^ 16;
  enc_vals : blen (vals_area es) < 2 ^ 16;
}.

Lemma toc_size_bound fixed : 4 <= toc_size fixed <= 8.
Proof. by destruct fixed. Qed.

Lemma blen_toc fixed koff voff es : blen (toc fixed koff voff es) = toc_size fixed * blen es.
Proof.
  revert koff voff; induction es as [|e es IH]; intros; cbn [toc]; [by rewrite Z.mul_0_r|].
  unfold toc_fields. destruct fixed; autorewrite with apfs; rewrite IH; unfold toc_size, TOC_FIXED_LEN, TOC_VAR_LEN; lia.
Qed.

Lemma toc_app fixed koff voff es1 es2 :
  toc fixed koff voff (es1 ++ es2) =
  toc fixed koff voff es1 ++ toc fixed (koff + blen (keys_area es1)) (voff + blen (vals_area es1)) es2.
Proof.
  revert koff voff; induction es1 as [|e es1 IH]; intros; cbn [toc app].
  - unfold keys_area; cbn. unfold blen; cbn. by rewrite !Z.add_0_r.
  - rewrite IH, <-!app_assoc. unfold keys_area; cbn. rewrite !blen_app.
    by rewrite (Z.add_comm (blen (vals_area es1))), !Z.add_assoc.
Qed.

Lemma keys_area_app es1 es2 : keys_area (es1 ++ es2) = keys_area es1 ++ keys_area es2.
Proof. unfold keys_area. by rewrite map_app, concat_app. Qed.

Lemma vals_area_app es1 es2 : vals_area (es1 ++ es2) = vals_area es2 ++ vals_area es1.
Proof.
  induction es1 as [|e es1 IH]; cbn; [by rewrite app_nil_r|]. by rewrite IH, app_assoc.
Qed.

Section Decode.
Context (subtype : BTreeSubtype) (obj : bytes) (flags level : Z) (es : list Entry) (free : nat) (footer : bytes).
Context (Henc : encodable subtype obj flags level es footer).

Local Abbreviation block := (encode_node obj flags level es free footer).
Local Abbreviation head := (encode_header obj flags level es).
Local Abbreviation tl := (toc_size (fixed_kv flags)).
Local Abbreviation table := (toc (fixed_kv flags) 0 0).

Lemma blen_head : blen head = 56.
Proof. unfold encode_header. autorewrite with apfs. rewrite (enc_obj _ _ _ _ _ _ Henc). lia. Qed.

Definition enc_hdr : BTreeNodeHeader :=
  {| btn_flags := flags; btn_level := level; btn_nkeys := blen es |}.

Lemma parse_encoded : parse_node_header block = Some enc_hdr.
Proof.
  destruct Henc. unfold parse_node_header. destruct (Z.ltb_spec (blen block) BTREE_NODE_MIN_LEN).
  { exfalso. revert H. unfold encode_node. rewrite blen_app, blen_head.
    pose proof (blen_nonneg (table es ++ keys_area es ++ replicate free x00 ++ vals_area es ++ footer)).
    unfold BTREE_NODE_MIN_LEN, BTN_DATA_OFF. lia. }
  unfold enc_hdr. pose proof (blen_nonneg es). pose proof (toc_size_bound (fixed_kv flags)). unfold encode_node, encode_header.
  do 2 f_equal; rewrite <-!app_assoc.
  - rewrite le_u16_app; [done| |done]. unfold OFF_BTN_FLAGS. lia.
  - rewrite (app_assoc obj). rewrite le_u16_app; [done| |done].
    autorewrite with apfs. unfold OFF_BTN_LEVEL. lia.
  - rewrite (app_assoc obj), (app_assoc (obj ++ _)). rewrite le_u32_app; [done| |nia].
    autorewrite with apfs. unfold OFF_BTN_NKEYS. lia.
Qed.

Lemma encoded_toc_start : toc_start block = 56.
Proof.
  destruct Henc. unfold toc_start, encode_node, encode_header. rewrite <-!app_assoc.
  rewrite (app_assoc obj), (app_assoc (obj ++ _)), (app_assoc ((obj ++ _) ++ _)).
  rewrite le_u16_app; [done| |lia]. autorewrite with apfs. unfold OFF_BTN_TABLE_SPACE. lia.
Qed.

Lemma encoded_key_area : key_area block = 56 + tl * blen es.
Proof.
  destruct Henc. unfold key_area. rewrite encoded_toc_start. pose proof (blen_nonneg es). pose proof (toc_size_bound (fixed_kv flags)).
  unfold encode_node, encode_header. rewrite <-!app_assoc.
  rewrite (app_assoc obj), (app_assoc (obj ++ _)), (app_assoc ((obj ++ _) ++ _)),
    (app_assoc (((obj ++ _) ++ _) ++ _)).
  rewrite le_u16_app; [done| |nia]. autorewrite with apfs. unfold OFF_BTN_TABLE_SPACE. lia.
Qed.

Lemma blen_block :
  blen block = 56 + tl * blen es + blen (keys_area es) + Z.of_nat free + blen (vals_area es) + blen footer.
Proof. unfold encode_node. autorewrite with apfs. rewrite blen_head, blen_toc. lia. Qed.

Lemma encoded_val_base : val_base block enc_hdr = blen block - blen footer.
Proof.
  destruct Henc. unfold val_base, is_root, enc_hdr; cbn [btn_flags].
  rewrite enc_footer0. destruct (negb _); [|lia]. unfold saturating_sub.
  pose proof blen_block. pose proof (blen_nonneg es). pose proof (blen_nonneg (keys_area es)).
  pose proof (blen_nonneg (vals_area es)). pose proof (toc_size_bound (fixed_kv flags)). unfold BTREE_INFO_LEN in *. nia.
Qed.

(** The offsets of table entry [blen es1], and the lengths the decoder takes for it. *)
Lemma encoded_toc_fields es1 e es2 :
  es = es1 ++ e :: es2 ->
  let o := 56 + tl * blen es1 in
  le_u16 block o = blen (keys_area es1) /\
  toc_lens block subtype enc_hdr o = (blen (vals_area es1) + blen (value e), blen (key e), blen (value e)).
Proof.
  intros He o. destruct Henc as [_ _ _ Hshape _ _ Hk Hv].
  assert (blen (keys_area es1) + blen (key e) < 2 ^ 16 /\
          blen (vals_area es1) + blen (value e) < 2 ^ 16) as [Hk' Hv'].
  { rewrite He, keys_area_app in Hk. rewrite He, vals_area_app in Hv. cbn in Hk, Hv.
    unfold keys_area in *. cbn in Hk. rewrite !blen_app in Hk, Hv.
    pose proof (blen_nonneg (concat (map key es2))). pose proof (blen_nonneg (vals_area es2)). lia. }
  pose proof (blen_nonneg (keys_area es1)). pose proof (blen_nonneg (vals_area es1)).
  pose proof (blen_nonneg (key e)). pose proof (blen_nonneg (value e)).
  assert (blen (head ++ table es1) = o) as Ho by (rewrite blen_app, blen_head, blen_toc; done).
  unfold toc_lens, is_fixed_kv, enc_hdr; cbn [btn_flags]. fold (fixed_kv flags). fold enc_hdr.
  assert (exists rest, block = (head ++ table es1) ++ toc_fields (fixed_kv flags) (blen (keys_area es1)) (blen (vals_area es1)) e ++ rest) as [rest ->].
  { eexists. unfold encode_node. rewrite He at 2. rewrite toc_app. cbn [toc]. rewrite !Z.add_0_l, <-!app_assoc. reflexivity. }
  unfold toc_fields. set (pre := head ++ table es1) in *. clearbody pre. subst o.
  split; [rewrite <-app_assoc; apply le_u16_app; lia|]. destruct (fixed_kv flags) eqn:Hf.
  - specialize (Hshape eq_refl). rewrite He in Hshape. apply Forall_app in Hshape as [_ Hshape]. inversion_clear Hshape as [|? ? [Hke Hve] _].
    rewrite <-He in Hve. fold enc_hdr in Hve. rewrite Hke, <-Hve. do 2 f_equal. rewrite <-!app_assoc, app_assoc.
    apply le_u16_app; [autorewrite with apfs; lia|lia].
  - rewrite <-!app_assoc. repeat f_equal.
    + rewrite (app_assoc pre), (app_assoc (pre ++ _)). apply le_u16_app; [autorewrite with apfs; lia|lia].
    + rewrite (app_assoc pre). apply le_u16_app; [autorewrite with apfs; lia|lia].
    + rewrite (app_assoc pre), (app_assoc (pre ++ _)), (app_assoc ((pre ++ _) ++ _)). apply le_u16_app; [autorewrite with apfs; lia|lia].
Qed.

Lemma encoded_key es1 e es2 :
  es = es1 ++ e :: es2 ->
  let a := 56 + tl * blen es + blen (keys_area es1) in
  get_range block a (a + blen (key e)) = Some (key e).
Proof.
  intros He a. set (q := keys_area es2 ++ replicate free x00 ++ vals_area es ++ footer).
  assert (block = (head ++ table es ++ keys_area es1) ++ key e ++ q) as ->.
  { unfold encode_node, q. rewrite He at 3. rewrite keys_area_app.
    unfold keys_area; cbn [map concat]. by rewrite <-!app_assoc. }
  apply get_range_app; rewrite !blen_app, blen_head, blen_toc; lia.
Qed.

Lemma encoded_value es1 e es2 :
  es = es1 ++ e :: es2 ->
  let a := blen block - blen footer - (blen (vals_area es1) + blen (value e)) in
  0 <= a /\ get_range block a (a + blen (value e)) = Some (value e).
Proof.
  intros He a.
  set (p := head ++ table es ++ keys_area es ++ replicate free x00 ++ vals_area es2).
  assert (block = p ++ value e ++ (vals_area es1 ++ footer)) as Hb.
  { unfold encode_node, p. rewrite He at 4. rewrite vals_area_app.
    cbn [vals_area]. by rewrite <-!app_assoc. }
  assert (a = blen p) as ->; [|split; [apply blen_nonneg|]].
  { unfold a. rewrite Hb, !blen_app. lia. }
  rewrite Hb. by apply get_range_app.
Qed.

Lemma toc_entry_encoded es1 e es2 :
  es = es1 ++ e :: es2 -> toc_entry block subtype enc_hdr (blen es1) = Push e.
Proof.
  intros He. pose proof (encoded_toc_fields _ _ _ He) as (Hko & Hl).
  assert (toc_entry_len enc_hdr = tl) as Htl by done.
  unfold toc_entry. rewrite Htl, encoded_toc_start, encoded_key_area, (Z.mul_comm (blen es1)).
  assert (blen es = blen es1 + 1 + blen es2) as Hn by (rewrite He, blen_app, blen_cons; lia).
  pose proof (blen_nonneg es1). pose proof (blen_nonneg es2). pose proof blen_block. pose proof (toc_size_bound (fixed_kv flags)).
  pose proof (blen_nonneg (keys_area es)). pose proof (blen_nonneg (vals_area es)).
  pose proof (blen_nonneg footer).
  rewrite !(proj2 (Z.ltb_ge _ _)) by nia. cbn [orb].
  rewrite Hko, Hl, encoded_val_base, (encoded_key _ _ _ He).
  destruct (encoded_value _ _ _ He) as [Hnn Hv]. unfold checked_sub.
  rewrite (proj2 (Z.leb_le _ _)) by lia. rewrite Hv. by destruct e.
Qed.

Lemma collect_encoded es2 : forall es1,
  es = es1 ++ es2 ->
  collect (toc_entry block subtype enc_hdr) (seqZ (blen es1) (blen es2)) = es2.
Proof.
  induction es2 as [|e es2 IH]; intros es1 He; [done|].
  pose proof (blen_nonneg es2). rewrite blen_cons, seqZ_cons by lia. cbn [collect].
  rewrite (toc_entry_encoded _ _ _ He). f_equal.
  replace (Z.succ (blen es1)) with (blen (es1 ++ [e]))
    by (rewrite blen_app; unfold blen; cbn [length]; lia).
  replace (Z.pred (1 + blen es2)) with (blen es2) by lia.
  apply IH. by rewrite <-app_assoc.
Qed.

Lemma node_entries_encoded : node_entries block subtype = es.
Proof.
  unfold node_entries. rewrite parse_encoded. cbn [btn_nkeys enc_hdr].
  pose proof (enc_toc _ _ _ _ _ _ Henc). pose proof (blen_nonneg es). pose proof (toc_size_bound (fixed_kv flags)).
  assert (Z.min (blen es) MAX_BTN_NKEYS = blen es) as ->.
  { assert (2 ^ 16 <= MAX_BTN_NKEYS) by (vm_compute; discriminate). nia. }
  destruct (Z.eqb_spec (blen es) 0) as [Hz|_].
  { unfold blen in Hz. destruct es; [done|cbn in Hz; lia]. }
  by apply (collect_encoded es []).
Qed.

(** The node as the walks see it. *)
Lemma classify_encoded :
  classify subtype block = Some (if is_leaf enc_hdr then NLeaf es else NIndex es).
Proof. unfold classify. by rewrite parse_encoded, node_entries_encoded. Qed.
End Decode.

(** C34 (round trip): a node written in the documented layout, of variable-size entries or of the fixed sizes its tree has, leaf or index,
    root or not, with any object header, free space and footer, decodes to exactly its entries in order. *)
Theorem node_entries_encode_roundtrip (obj : bytes) (flags level : Z) (es : list Entry) (free : nat)
    (footer : bytes) (subtype : BTreeSubtype) :
  encodable subtype obj flags level es footer ->
  node_entries (encode_node obj flags level es free footer) subtype = es.
Proof. intros Henc. by apply node_entries_encoded. Qed.

Definition demo_entries : list Entry :=
  [ {| key := [x01; x02]; value := [x0a] |}; {| key := [x03]; value := [x0b; x0c; x0d] |} ].
(** Mappings of an object map, and the children of one of its index nodes. *)
Definition demo_mappings : list Entry :=
  [ {| key := replicate 16 x01; value := replicate 16 x0a |}; {| key := replicate 16 x02; value := replicate 16 x0b |} ].
Definition demo_children : list Entry :=
  [ {| key := replicate 16 x01; value := replicate 8 x0a |}; {| key := replicate 16 x02; value := replicate 8 x0b |} ].

(** A root leaf of variable-size entries; a root leaf and an index node of fixed-size ones. *)
Lemma node_entries_encode_roundtrip_witness :
  node_entries (encode_node (replicate 32 x00) 0x3 0 demo_entries 5 (replicate 40 xee)) SubtypeFsTree = demo_entries /\
  node_entries (encode_node (replicate 32 x00) 0x7 0 demo_mappings 5 (replicate 40 xee)) SubtypeOmap = demo_mappings /\
  node_entries (encode_node (replicate 32 x00) 0x4 1 demo_children 7 []) SubtypeOmap = demo_children.
Proof.
  split; [|split]; apply node_entries_encode_roundtrip; split;
    try (vm_compute; repeat split; discriminate); try done; intros _; repeat constructor.
Defined.
