(* ===== verification/Omap.v ===== *)
(** Object maps (core/src/omap.rs): the header and virtual-oid resolution.

    [omap_resolve] reads one root-to-leaf path.  The main theorem compares it with the promise of its
    documentation, stated over the whole tree: the mapping of the oid with the largest
    transaction id not after the requested one.  What the proof asks of the tree is what [find_leaf]
    documents: the separator of a child is the smallest key of its subtree, and
    siblings are in key order. *)

From S2P Require Import Prelude Bytes Errors Reader Object Walk BTree NodeLayout.

Set Warnings "-register-all".

Definition OBJECT_TYPE_OMAP : Z := 0xb.
Definition OFF_OM_FLAGS : Z := 32.
Definition OFF_OM_TREE_TYPE : Z := 40.
Definition OFF_OM_TREE_OID : Z := 48.
Definition OFF_OM_SNAPSHOT_TREE_OID : Z := 56.
Definition OMAP_PHYS_MIN_LEN : Z := OFF_OM_TREE_OID + 8.

Record OmapEntry := {
  oe_oid : Z;
  oe_xid : Z;
  oe_paddr : Z;
  oe_size : Z;
  oe_flags : Z;
}.

Definition unexpected_omap_type (found : Z) : ApfsError :=
  UnexpectedObjectType "omap_phys" OBJECT_TYPE_OMAP found.

Record ObjectMap := {
  om_flags : Z;
  om_tree_type : Z;
  om_tree_oid : Z;
  om_snapshot_tree_oid : Z;
}.

Definition ObjectMap_parse (block : bytes) : result ObjectMap :=
  if blen block <? OMAP_PHYS_MIN_LEN then Err (unexpected_omap_type 0)
  else
    match ObjPhys_parse block with
    | None => Err (unexpected_omap_type 0)
    | Some hdr =>
        if negb (obj_type hdr =? OBJECT_TYPE_OMAP) then Err (unexpected_omap_type (o_type_raw hdr))
        else
          let stored := fletcher64_stored block in
          let computed := fletcher64_checksum block in
          if negb (stored =? computed) then Err (ChecksumMismatch (o_oid hdr) stored computed)
          else Ok {|
            om_flags := le_u32 block OFF_OM_FLAGS;
            om_tree_type := le_u32 block OFF_OM_TREE_TYPE;
            om_tree_oid := le_u64 block OFF_OM_TREE_OID;
            om_snapshot_tree_oid := le_u64 block OFF_OM_SNAPSHOT_TREE_OID;
          |}
    end.

(** [(k_oid, k_xid).cmp(&(oid, xid))] on tuples: lexicographic. *)
Definition omap_cmp (oid xid : Z) (k : bytes) : comparison :=
  match le_u64 k 0 ?= oid with
  | Eq => le_u64 k 8 ?= xid
  | c => c
  end.

Definition omap_entry_of (k v : bytes) : OmapEntry :=
  {| oe_oid := le_u64 k 0; oe_xid := le_u64 k 8;
     oe_flags := le_u32 v 0; oe_size := le_u32 v 4; oe_paddr := le_u64 v 8 |}.

(** The visitor of [resolve]; its captured variable is [best]. *)
Definition omap_visit (oid xid : Z) (k v : bytes) (best : option OmapEntry) : option OmapEntry :=
  let k_oid := le_u64 k 0 in
  let k_xid := le_u64 k 8 in
  if negb (k_oid =? oid) || (xid <? k_xid) then best
  else if match best with None => true | Some b => oe_xid b <? k_xid end
       then Some (omap_entry_of k v) else best.

Definition omap_resolve {R} `{ReadSeek R} (om : ObjectMap) (reader : R) (oid xid block_size : Z)
  : result OmapEntry :=
  let '(best, res) :=
    find_leaf reader block_size SubtypeOmap (omap_visit oid xid) (omap_cmp oid xid)
      (om_tree_oid om) None in
  _ ← res;
  ok_or best (OmapUnresolved oid xid).

Lemma ObjectMap_parse_not_Panic block : ObjectMap_parse block <> Panic.
Proof. unfold ObjectMap_parse. repeat case_match; done. Qed.

#[export] Hint Resolve ObjectMap_parse_not_Panic : apfs.

Lemma omap_resolve_not_Panic {R} `{ReadSeek R} om (reader : R) oid xid bs : omap_resolve om reader oid xid bs <> Panic.
Proof.
  unfold omap_resolve. pose proof (find_leaf_not_Panic reader bs SubtypeOmap (omap_visit oid xid) (omap_cmp oid xid)
    (om_tree_oid om) None) as Hp.
  destruct (find_leaf _ _ _ _ _ _ _) as [best res]. apply bind_not_Panic; [exact Hp|]. intros _ _. apply ok_or_not_Panic.
Qed.
#[export] Hint Resolve omap_resolve_not_Panic : apfs.

Lemma ObjectMap_parse_ok block om : ObjectMap_parse block = Ok om -> cksum_ok block = true.
Proof.
  unfold ObjectMap_parse, cksum_ok. destruct (_ <? _); [done|].
  destruct (ObjPhys_parse block); [|done]. destruct (negb _); [done|].
  by destruct (_ =? _).
Qed.

(** ** Keys and their order *)

Definition okey (e : Entry) : Z * Z := (le_u64 (key e) 0, le_u64 (key e) 8).
Definition klt (a b : Z * Z) : Prop := a.1 < b.1 \/ (a.1 = b.1 /\ a.2 < b.2).
Definition kle (a b : Z * Z) : Prop := klt a b \/ a = b.

(** [kord]: key-order goals as linear arithmetic on the two components. *)
Ltac kord :=
  unfold kle, klt, okey in *; rewrite ?pair_equal_spec in *; cbn [fst snd] in *; lia.

Lemma omap_cmp_Gt oid xid k : omap_cmp oid xid k = Gt <-> klt (oid, xid) (le_u64 k 0, le_u64 k 8).
Proof.
  unfold omap_cmp, klt; cbn [fst snd].
  destruct (Z.compare_spec (le_u64 k 0) oid) as [->|?|?]; [|split; [done|lia]|split; [lia|done]].
  rewrite Z.compare_gt_iff. lia.
Qed.

Lemma klt_le_dec a b : {klt a b} + {kle b a}.
Proof.
  destruct a as [a1 a2], b as [b1 b2]. unfold kle, klt; cbn.
  destruct (decide (a1 < b1)); [left; lia|]. destruct (decide (a1 = b1 /\ a2 < b2)); [left; lia|].
  right. destruct (decide (b1 = a1 /\ b2 = a2)) as [[-> ->]|]; [by right|left; lia].
Defined.

(** ** Ordered trees *)

(** Child [t] of separator [e]: [e] is the smallest key of [t], and all of [t] lies before
    every later separator. *)
Fixpoint separated (es : list Entry) (ts : list tree) : Prop :=
  match es, ts with
  | [], [] => True
  | e :: es, t :: ts =>
      (exists m, m ∈ leaf_entries t /\ okey m = okey e) /\
      Forall (fun m => kle (okey e) (okey m)) (leaf_entries t) /\
      Forall (fun e' => Forall (fun m => klt (okey m) (okey e')) (leaf_entries t)) es /\
      separated es ts
  | _, _ => False
  end.

Inductive ordered : tree -> Prop :=
| ordered_skip a : ordered (TSkip a)
| ordered_leaf a es : ordered (TLeaf a es)
| ordered_node a es ts : separated es ts -> Forall ordered ts -> ordered (TNode a es ts).

(** A child picked out of its siblings. *)
Lemma separated_split es1 e es2 ts :
  separated (es1 ++ e :: es2) ts ->
  exists ts1 t ts2, ts = ts1 ++ t :: ts2 /\ length ts1 = length es1 /\
    (forall m, m ∈ concat (map leaf_entries ts1) -> klt (okey m) (okey e)) /\
    (exists m, m ∈ leaf_entries t /\ okey m = okey e) /\
    (forall m, m ∈ concat (map leaf_entries ts2) -> exists e', e' ∈ es2 /\ kle (okey e') (okey m)) /\
    (forall e', e' ∈ es2 -> klt (okey e) (okey e')).
Proof.
  revert ts; induction es1 as [|e1 es1 IH]; intros [|t1 ts] Hs; cbn in Hs; try done.
  - destruct Hs as (Hm & _ & Hlt & Hs). exists [], t1, ts. split_and!; try done.
    + intros m Hm'. by apply not_elem_of_nil in Hm'.
    + clear -Hs. revert ts Hs. induction es2 as [|e2 es2 IH]; intros [|t2 ts] Hs m Hm; cbn in Hs; try done.
      { by apply not_elem_of_nil in Hm. }
      destruct Hs as (_ & Hge & _ & Hs). cbn in Hm. apply elem_of_app in Hm as [Hm|Hm].
      * exists e2. split; [by left|]. rewrite Forall_forall in Hge. by apply Hge.
      * destruct (IH _ Hs _ Hm) as (e' & ? & ?). exists e'. split; [by right|done].
    + intros e' He'. destruct Hm as (m & Hm & <-). rewrite Forall_forall in Hlt.
      specialize (Hlt _ He'). rewrite Forall_forall in Hlt. by apply Hlt.
  - destruct Hs as (_ & _ & Hlt & Hs). apply IH in Hs as (ts1 & t & ts2 & -> & Hl & H1 & H2 & H3 & H4).
    exists (t1 :: ts1), t, ts2. split_and!; [done|cbn; by f_equal| |done..].
    intros m Hm. cbn in Hm. apply elem_of_app in Hm as [Hm|Hm]; [|by apply H1].
    rewrite Forall_forall in Hlt. specialize (Hlt e). rewrite Forall_forall in Hlt.
    apply Hlt; [|done]. apply elem_of_app. right. by left.
Qed.

(** Where [follow] stops: after a prefix of entries not greater than the target. *)
Lemma follow_spec cmp c es :
  exists es1 es2, es = es1 ++ es2 /\
    Forall (fun e => cmp (key e) <> Gt) es1 /\
    (forall e es', es2 = e :: es' -> cmp (key e) = Gt) /\
    follow cmp c es = default c (last ((fun e => le_u64 (value e) 0) <$> es1)).
Proof.
  revert c; induction es as [|e es IH]; intros c.
  { exists [], []. split_and!; [done|constructor|done|done]. }
  cbn [follow]. destruct (cmp (key e)) eqn:He; cycle 2.
  { exists [], (e :: es). split_and!; [done|constructor|naive_solver|done]. }
  all: destruct (IH (le_u64 (value e) 0)) as (es1 & es2 & -> & H1 & H2 & ->);
    exists (e :: es1), es2; split_and!; [done|constructor; [congruence|done]|done|];
    destruct es1 as [|e1 es1] using rev_ind; [done|];
    by rewrite app_comm_cons, !fmap_last, !last_snoc.
Qed.

Section Resolve.
Context {R} `{ReadSeek R} (reader : R) (block_size oid xid : Z).

Local Abbreviation walk_ok := (walkable (phys_node reader block_size SubtypeOmap) child_addrs).
Local Abbreviation find :=
  (find_leaf_from reader block_size SubtypeOmap (omap_visit oid xid) (omap_cmp oid xid)).
Local Abbreviation after := (visited_by (omap_visit oid xid)).

(** [m] maps the oid at or before the transaction. *)
Definition matching (m : Entry) : Prop := (okey m).1 = oid /\ (okey m).2 <= xid.

#[export] Instance matching_dec m : Decision (matching m).
Proof. unfold matching. apply _. Defined.

(** One round of the descent, its guards resolved. *)
Lemma find_leaf_S n a s :
  find (S n) a s =
    if decide (a ∈ s.1) then (s, Err btree_cycle)
    else
      let s1 := after s [a] [] in
      match phys_node reader block_size SubtypeOmap a with
      | Ok None => (s1, Ok tt)
      | Ok (Some (NLeaf es)) => (after s [a] es, Ok tt)
      | Ok (Some (NIndex [])) => (s1, Ok tt)
      | Ok (Some (NIndex ((first :: _) as es))) =>
          find n (follow (omap_cmp oid xid) (le_u64 (value first) 0) es) s1
      | Err e => (s1, Err e)
      | Panic => (s1, Panic)
      end.
Proof.
  cbn [find_leaf_from]. unfold mbind, stm_bind, visit_once.
  destruct (decide (a ∈ s.1)); cbn [negb]; [done|].
  unfold lift, phys_node, visited_by; cbn. rewrite (right_id_L ∅ (∪)).
  destruct (read_verified_node reader block_size a) as [[buf|]| |]; try done.
  cbn [mbind outcome_bind option_bind]. unfold classify.
  destruct (parse_node_header buf) as [hdr|]; [|done]. destruct (is_leaf hdr); [done|].
  by destruct (node_entries buf SubtypeOmap).
Qed.

(** [l = A ++ L ++ B] where [L] decides: what [B] holds is after the target, and a match in [A]
    is beaten by a match in [L]. *)
Definition decisive (l L : list Entry) : Prop :=
  exists A B, l = A ++ L ++ B /\
    (forall m, m ∈ B -> klt (oid, xid) (okey m)) /\
    (forall m, m ∈ A -> matching m -> exists m', m' ∈ L /\ matching m' /\ klt (okey m) (okey m')).

Lemma decisive_refl L : decisive L L.
Proof.
  exists [], []. rewrite app_nil_r. split_and!; [done| |]; intros m Hm; by apply not_elem_of_nil in Hm.
Qed.

(** The entry [follow] picks: what stands before it is not after the target, what stands after it is. *)
Lemma followed_entry es ts e0 :
  separated es ts -> head es = Some e0 ->
  exists l e r, es = l ++ e :: r /\ follow (omap_cmp oid xid) (le_u64 (value e0) 0) es = le_u64 (value e) 0 /\
    (l = [] \/ kle (okey e) (oid, xid)) /\ (forall e', e' ∈ r -> klt (oid, xid) (okey e')).
Proof.
  intros Hsep Hhd.
  destruct (follow_spec (omap_cmp oid xid) (le_u64 (value e0) 0) es) as (es1 & es2 & He & Hle & Hgt & ->).
  destruct es1 as [|e es1 _] using rev_ind.
  - cbn in He. subst es2. destruct es as [|e es]; [done|]. injection Hhd as ->.
    specialize (Hgt _ _ eq_refl). apply omap_cmp_Gt in Hgt.
    exists [], e0, es. split_and!; [done|done|by left|]. intros e' He'.
    destruct (separated_split [] e0 es ts Hsep) as (? & ? & ? & _ & _ & _ & _ & _ & Hlt).
    specialize (Hlt _ He'). change (klt (oid, xid) (okey e0)) in Hgt. kord.
  - exists es1, e, es2. rewrite <-app_assoc in He. split_and!; [done| | |].
    + by rewrite fmap_last, last_snoc.
    + right. apply Forall_app in Hle as [_ Hle]. inversion_clear Hle as [|? ? Hne _].
      rewrite omap_cmp_Gt in Hne. destruct (klt_le_dec (oid, xid) (okey e)); done.
    + intros e' He'. destruct es2 as [|e2 es2]; [by apply not_elem_of_nil in He'|].
      specialize (Hgt _ _ eq_refl). apply omap_cmp_Gt in Hgt.
      change (klt (oid, xid) (okey e2)) in Hgt. apply elem_of_cons in He' as [->|He']; [done|].
      rewrite He, (app_assoc es1 [e] (e2 :: es2)) in Hsep.
      destruct (separated_split (es1 ++ [e]) e2 es2 ts Hsep) as (? & ? & ? & _ & _ & _ & _ & _ & Hlt).
      specialize (Hlt _ He'). kord.
Qed.

(** The child [follow] picks decides for its parent. *)
Lemma decisive_child es ts e0 :
  separated es ts -> map addr ts = child_addrs es -> head es = Some e0 ->
  exists ts1 t ts2, ts = ts1 ++ t :: ts2 /\
    addr t = follow (omap_cmp oid xid) (le_u64 (value e0) 0) es /\
    (forall L, decisive (leaf_entries t) L -> decisive (concat (map leaf_entries ts)) L).
Proof.
  intros Hsep Hm Hhd. destruct (followed_entry es ts e0 Hsep Hhd) as (l & e & r & Hes & -> & Hle' & Hr).
  rewrite Hes in Hsep.
  destruct (separated_split l e r ts Hsep) as (ts1 & t & ts2 & -> & Hlen & Hbefore & (w & Hw & Hwk) & Hafter & _).
  exists ts1, t, ts2. split_and!; [done| |].
  - rewrite Hes in Hm. unfold child_addrs in Hm. rewrite map_app, fmap_app in Hm.
    apply app_inj_1 in Hm as [_ Hm]; [|by rewrite length_map, length_fmap]. by injection Hm.
  - intros L (A & B & Hl & HB & HA). exists (concat (map leaf_entries ts1) ++ A),
      (B ++ concat (map leaf_entries ts2)). split_and!.
    + rewrite map_app, concat_app. cbn. rewrite Hl, <-!app_assoc. done.
    + intros m [Hm'|Hm']%elem_of_app; [by apply HB|].
      destruct (Hafter _ Hm') as (e' & He' & Hk). specialize (Hr _ He'). kord.
    + intros m [Hm'|Hm']%elem_of_app Hma; [|by apply HA].
      destruct Hle' as [->|Hle'].
      { destruct ts1; [|done]. by apply not_elem_of_nil in Hm'. }
      specialize (Hbefore _ Hm').
      assert (matching w) as Hwm.
      { unfold matching in *. rewrite Hwk. kord. }
      rewrite Hl in Hw. apply elem_of_app in Hw as [Hw|Hw].
      * destruct (HA _ Hw Hwm) as (m' & ? & ? & Hk). exists m'. split_and!; [done|done|].
        rewrite Hwk in Hk. kord.
      * apply elem_of_app in Hw as [Hw|Hw].
        { exists w. rewrite Hwk. done. }
        specialize (HB _ Hw). exfalso. rewrite Hwk in HB. kord.
Qed.

(** The descent over a stored, ordered tree ends in a leaf that decides. *)
Lemma find_leaf_decisive t : forall b s,
  ordered t -> walk_ok b s.1 t ->
  exists path L, find b (addr t) s = (after s path L, Ok tt) /\ decisive (leaf_entries t) L.
Proof.
  induction t as [a|a es|a es ts IH] using tree_rect'; intros b s Hord Hw;
    (destruct b as [|b]; [pose proof (walkable_height _ _ _ _ _ Hw) as Hh; cbn in Hh; lia|]).
  1,2: pose proof (walkable_fresh _ _ _ _ _ Hw a ltac:(by left)) as Ha;
       pose proof (walkable_repr _ _ _ _ _ Hw) as Hr; inversion_clear Hr as [? Hf|? ? Hf|];
       cbn [addr leaf_entries]; rewrite find_leaf_S, decide_False, Hf by done;
       do 2 eexists; (split; [reflexivity|apply decisive_refl]).
  apply walkable_node in Hw as (Hf & Hm & Ha & Hts).
  inversion_clear Hord as [| |? ? ? Hsep Hord'].
  cbn [addr leaf_entries]. rewrite find_leaf_S, decide_False, Hf by done. cbn zeta.
  destruct es as [|e0 es].
  { destruct ts as [|? ?]; [|done]. do 2 eexists. split; [reflexivity|apply decisive_refl]. }
  destruct (decisive_child _ _ e0 Hsep Hm eq_refl) as (ts1 & t & ts2 & -> & Hat & Hdec).
  rewrite <-Hat. rewrite Forall_app, Forall_cons in IH, Hord'. destruct IH as (_ & IH & _), Hord' as (_ & Hord & _).
  apply forest_elem in Hts.
  destruct (IH b (after s [a] [])) as (path & L & -> & HL); [done| |].
  { unfold visited_by; cbn [fst]. by rewrite list_to_set_cons, list_to_set_nil, (right_id_L ∅ (∪)). }
  rewrite visited_by_app. do 2 eexists. split; [reflexivity|]. by apply Hdec.
Qed.

(** ** The visitor *)

Local Abbreviation pick := (foldl (fun st e => omap_visit oid xid (key e) (value e) st)).

Definition entry_of (m : Entry) : OmapEntry := omap_entry_of (key m) (value m).

Lemma omap_visit_eq m b :
  omap_visit oid xid (key m) (value m) b =
    if decide (matching m) then
      match b with
      | None => Some (entry_of m)
      | Some x => if oe_xid x <? (okey m).2 then Some (entry_of m) else b
      end
    else b.
Proof.
  unfold omap_visit, matching, okey; cbn [fst snd].
  destruct (Z.eqb_spec (le_u64 (key m) 0) oid), (Z.ltb_spec xid (le_u64 (key m) 8)); cbn [negb orb].
  1,3,4: by rewrite decide_False by lia.
  rewrite decide_True by lia. destruct b as [x|]; [|done]. by destruct (_ <? _).
Qed.

Definition below (b : option OmapEntry) (m : Entry) : Prop :=
  match b with None => True | Some x => oe_xid x < (okey m).2 end.

(** Two starting points make no difference once a larger match is to come. *)
Lemma pick_irrel L m b b' :
  m ∈ L -> matching m -> below b m -> below b' m -> pick b L = pick b' L.
Proof.
  revert b b'; induction L as [|h L IH]; intros b b' Hm Hma Hb Hb';
    [by apply not_elem_of_nil in Hm|]. cbn [foldl]. rewrite !omap_visit_eq.
  destruct (decide (matching h)) as [Hh|Hh]; cycle 1.
  { apply elem_of_cons in Hm as [->|Hm]; [done|]. by apply IH. }
  assert (forall b, below b m -> (okey m).2 <= (okey h).2 ->
    match b with
    | None => Some (entry_of h)
    | Some x => if oe_xid x <? (okey h).2 then Some (entry_of h) else b
    end = Some (entry_of h)) as Htake.
  { intros [x|] Hx Hle; [|done]. unfold below in Hx. by rewrite (proj2 (Z.ltb_lt _ _)) by lia. }
  destruct (decide ((okey m).2 <= (okey h).2)) as [Hle|Hgt]; [by rewrite !Htake|].
  apply elem_of_cons in Hm as [->|Hm]; [lia|].
  assert (below (Some (entry_of h)) m) as Hhm by (unfold below; change ((okey h).2 < (okey m).2); lia).
  apply IH; [done|done| |]; [destruct b as [x|]|destruct b' as [x'|]]; try done;
    by destruct (_ <? _).
Qed.

Lemma pick_none B b : (forall m, m ∈ B -> ~ matching m) -> pick b B = b.
Proof.
  revert b; induction B as [|m B IH]; intros b HB; [done|]. cbn [foldl].
  rewrite omap_visit_eq, decide_False by (apply HB; by left).
  apply IH. intros m' Hm'. apply HB. by right.
Qed.

Lemma pick_spec l :
  match pick None l with
  | None => forall m, m ∈ l -> ~ matching m
  | Some x => exists m, m ∈ l /\ matching m /\ x = entry_of m /\
                forall m', m' ∈ l -> matching m' -> (okey m').2 <= (okey m).2
  end.
Proof.
  induction l as [|m l IH] using rev_ind; [intros m Hm; by apply not_elem_of_nil in Hm|].
  rewrite foldl_app. cbn [foldl]. rewrite omap_visit_eq.
  destruct (pick None l) as [x|] eqn:Hp.
  - destruct IH as (w & Hw & Hwm & -> & Hmax). change (oe_xid (entry_of w)) with ((okey w).2).
    destruct (decide (matching m)) as [Hm|Hm]; [destruct (Z.ltb_spec ((okey w).2) ((okey m).2))|].
    + exists m. split_and!; [apply elem_of_app; right; by left|done|done|].
      intros m' [Hm'| ->%list_elem_of_singleton]%elem_of_app Hma; [|lia].
      specialize (Hmax _ Hm' Hma). lia.
    + exists w. split_and!; [apply elem_of_app; by left|done|done|].
      intros m' [Hm'| ->%list_elem_of_singleton]%elem_of_app Hma; [by apply Hmax|lia].
    + exists w. split_and!; [apply elem_of_app; by left|done|done|].
      intros m' [Hm'| ->%list_elem_of_singleton]%elem_of_app Hma; [by apply Hmax|done].
  - destruct (decide (matching m)) as [Hm|Hm].
    + exists m. split_and!; [apply elem_of_app; right; by left|done|done|].
      intros m' [Hm'| ->%list_elem_of_singleton]%elem_of_app Hma; [|lia].
      by apply IH in Hm'.
    + intros m' [Hm'| ->%list_elem_of_singleton]%elem_of_app; [by apply IH|done].
Qed.

(** The deciding leaf gives what the whole tree gives. *)
Lemma pick_decisive l L : decisive l L -> pick None L = pick None l.
Proof.
  intros (A & B & -> & HB & HA). rewrite !foldl_app, (pick_none B).
  2: { intros m Hm [H1 H2]. specialize (HB _ Hm). destruct (okey m) as [k1 k2].
       unfold klt in HB; cbn in *. lia. }
  pose proof (pick_spec A) as HpA. destruct (pick None A) as [x|]; [|done].
  destruct HpA as (a & Ha & Ham & -> & _). destruct (HA _ Ha Ham) as (m & Hm & Hmm & Hk).
  apply (pick_irrel L m); [done|done|done|]. cbn.
  unfold matching in Ham, Hmm. change ((okey a).2 < (okey m).2). unfold klt in Hk. lia.
Qed.

(** [omap_resolve] on a stored, ordered tree, by its scan of the whole tree. *)
Lemma omap_resolve_tree om t :
  walk_ok MAX_BTREE_DEPTH ∅ t -> ordered t -> addr t = om_tree_oid om ->
  omap_resolve om reader oid xid block_size =
    ok_or (pick None (leaf_entries t)) (OmapUnresolved oid xid).
Proof.
  intros Hw Hord Ha. unfold omap_resolve, find_leaf. rewrite <-Ha.
  destruct (find_leaf_decisive t MAX_BTREE_DEPTH (∅, None) Hord Hw) as (path & L & -> & HL).
  unfold visited_by. cbn [fst snd mbind outcome_bind]. by rewrite (pick_decisive _ _ HL).
Qed.
End Resolve.

(** [resolve] on a stored, ordered tree is the best mapping of the whole tree. *)
Lemma omap_resolve_best {R} `{ReadSeek R} (reader : R) (block_size oid xid : Z) (om : ObjectMap) (t : tree) :
  walkable (phys_node reader block_size SubtypeOmap) child_addrs MAX_BTREE_DEPTH ∅ t ->
  addr t = om_tree_oid om -> ordered t ->
  match omap_resolve om reader oid xid block_size with
  | Ok e => exists m, m ∈ leaf_entries t /\ e = omap_entry_of (key m) (value m) /\
              oe_oid e = oid /\ oe_xid e <= xid /\
              (forall m', m' ∈ leaf_entries t -> le_u64 (key m') 0 = oid -> le_u64 (key m') 8 <= xid ->
                 le_u64 (key m') 8 <= oe_xid e)
  | Err err => err = OmapUnresolved oid xid /\
      (forall m, m ∈ leaf_entries t -> le_u64 (key m) 0 = oid -> xid < le_u64 (key m) 8)
  | Panic => False
  end.
Proof.
  intros Hw Ha Hord. rewrite (omap_resolve_tree _ _ _ _ _ t) by done.
  pose proof (pick_spec oid xid (leaf_entries t)) as Hp.
  destruct (foldl _ None (leaf_entries t)) as [e|]; cbn [ok_or].
  - destruct Hp as (m & Hm & [Ho Hx] & -> & Hmax). exists m. split_and!; [done|done|exact Ho|exact Hx|].
    intros m' Hm' Ho' Hx'. by apply (Hmax m').
  - split; [done|]. intros m Hm Ho. destruct (decide (le_u64 (key m) 8 <= xid)) as [Hx|]; [|lia].
    by destruct (Hp m Hm).
Qed.

(** C1 (refinement): on a stored tree in key order, [resolve] keeps the promise of its
    documentation over the whole tree: it returns the mapping of [oid] with the largest transaction id not after
    [xid], and [OmapUnresolved] exactly when the tree maps [oid] at no such transaction. *)
Theorem omap_resolve_spec {R} `{ReadSeek R} (reader : R) (block_size oid xid : Z) (om : ObjectMap) (t : tree) :
  walkable (phys_node reader block_size SubtypeOmap) child_addrs MAX_BTREE_DEPTH ∅ t ->
  addr t = om_tree_oid om -> ordered t ->
  match omap_resolve om reader oid xid block_size with
  | Ok e => exists m, m ∈ leaf_entries t /\ e = omap_entry_of (key m) (value m) /\
              oe_oid e = oid /\ oe_xid e <= xid /\
              (forall m', m' ∈ leaf_entries t -> le_u64 (key m') 0 = oid -> le_u64 (key m') 8 <= xid ->
                 le_u64 (key m') 8 <= oe_xid e)
  | Err err => err = OmapUnresolved oid xid /\
      (forall m, m ∈ leaf_entries t -> le_u64 (key m) 0 = oid -> xid < le_u64 (key m) 8)
  | Panic => False
  end.
Proof. apply omap_resolve_best. Qed.

(** The keyed point lookup agrees with the exhaustive one: walking every node of the tree
    with the same visitor succeeds, and [resolve] answers with its result. *)
Theorem omap_resolve_full_walk {R} `{ReadSeek R} (reader : R) (block_size oid xid : Z) (om : ObjectMap) (t : tree) :
  walkable (phys_node reader block_size SubtypeOmap) child_addrs MAX_BTREE_DEPTH ∅ t ->
  addr t = om_tree_oid om -> ordered t ->
  exists best,
    for_each_leaf_entry reader block_size SubtypeOmap (omap_visit oid xid) (om_tree_oid om) None
      = (best, Ok tt) /\
    omap_resolve om reader oid xid block_size = ok_or best (OmapUnresolved oid xid).
Proof.
  intros Hw Ha Hord. eexists. split; [|by apply omap_resolve_tree].
  unfold for_each_leaf_entry. rewrite descend_gwalk, <-Ha, gwalk_complete by done. done.
Qed.

(** ** A two-level object map *)

Definition omap_kv (oid xid flags size paddr : Z) : Entry :=
  {| key := to_le_bytes 8 oid ++ to_le_bytes 8 xid;
     value := to_le_bytes 4 flags ++ to_le_bytes 4 size ++ to_le_bytes 8 paddr |}.
Definition omap_sep (oid xid child : Z) : Entry :=
  {| key := to_le_bytes 8 oid ++ to_le_bytes 8 xid; value := to_le_bytes 8 child |}.

Definition demo_leaf1 : list Entry := [omap_kv 10 3 0 4096 100; omap_kv 11 2 0 4096 101].
Definition demo_leaf2 : list Entry := [omap_kv 11 5 0 4096 102; omap_kv 11 8 0 4096 103].
Definition demo_seps : list Entry := [omap_sep 10 3 1; omap_sep 11 5 2].

(** Blocks of 192 bytes, of fixed-size entries: the root at 0, the leaves at 1 and 2. *)
Definition demo_omap_image : bytes :=
  stamp (encode_node (replicate 32 x00) 5 1 demo_seps 40 (replicate 40 x00)) ++
  stamp (encode_node (replicate 32 x00) 6 0 demo_leaf1 64 []) ++
  stamp (encode_node (replicate 32 x00) 6 0 demo_leaf2 64 []).

Definition demo_omap_tree : tree :=
  TNode 0 demo_seps [TLeaf 1 demo_leaf1; TLeaf 2 demo_leaf2].

Definition demo_omap : ObjectMap :=
  {| om_flags := 0; om_tree_type := 0x40000002; om_tree_oid := 0; om_snapshot_tree_oid := 0 |}.

Lemma demo_omap_walkable :
  walkable (phys_node (image demo_omap_image) 192 SubtypeOmap) child_addrs MAX_BTREE_DEPTH ∅ demo_omap_tree.
Proof.
  split.
  - apply repr_node; [vm_compute; reflexivity|vm_compute; reflexivity|].
    repeat constructor; vm_compute; reflexivity.
  - cbn. unfold MAX_BTREE_DEPTH. lia.
  - apply (bool_decide_unpack _). vm_compute. exact I.
  - intros x _. apply not_elem_of_empty.
Qed.

Lemma demo_omap_ordered : ordered demo_omap_tree.
Proof.
  apply ordered_node; [|repeat constructor].
  cbn [separated demo_seps demo_leaf1 demo_leaf2 leaf_entries]. split_and!; try done.
  - eexists. split; [by left|reflexivity].
  - repeat constructor; unfold kle, klt; vm_compute; intuition congruence.
  - repeat constructor; unfold kle, klt; vm_compute; intuition congruence.
  - eexists. split; [by left|reflexivity].
  - repeat constructor; unfold kle, klt; vm_compute; intuition congruence.
Qed.

(** The oid 11 at transaction 6: the mapping of transaction 5, not those of 2 and 8. *)
Example demo_resolve :
  omap_resolve demo_omap (image demo_omap_image) 11 6 192 = Ok (omap_entry_of (key (omap_kv 11 5 0 4096 102)) (value (omap_kv 11 5 0 4096 102))).
Proof. vm_compute. reflexivity. Qed.

Lemma omap_resolve_spec_witness :
  exists m, m ∈ leaf_entries demo_omap_tree /\ le_u64 (key m) 8 <= 6.
Proof.
  pose proof (omap_resolve_spec (image demo_omap_image) 192 11 6 demo_omap demo_omap_tree
                demo_omap_walkable eq_refl demo_omap_ordered) as Hs.
  rewrite demo_resolve in Hs. destruct Hs as (m & Hm & He & _ & Hx & _). exists m.
  split; [exact Hm|]. rewrite He in Hx. exact Hx.
Defined.

Lemma omap_resolve_full_walk_witness :
  exists best, omap_resolve demo_omap (image demo_omap_image) 11 6 192 = ok_or best (OmapUnresolved 11 6).
Proof.
  destruct (omap_resolve_full_walk (image demo_omap_image) 192 11 6 demo_omap demo_omap_tree
              demo_omap_walkable eq_refl demo_omap_ordered) as (best & _ & Hb).
  exists best. exact Hb.
Defined.

(** A child number whose byte offset does not fit 64 bits is passed over: a root whose second child is such a number is walked to the end with
    success, showing the first child's mappings alone, and what the second child maps is reported as not mapped. *)
Definition overflowing_image : bytes :=
  stamp (encode_node (replicate 32 x00) 5 1 [omap_sep 10 3 1; omap_sep 11 5 (2 ^ 64 - 1)] 40 (replicate 40 x00)) ++
  stamp (encode_node (replicate 32 x00) 6 0 demo_leaf1 64 []).
Definition note_oid (k v : bytes) (oids : list Z) : list Z := oids ++ [le_u64 k 0].

Theorem overflowing_child_skipped :
  for_each_leaf_entry (image overflowing_image) 192 SubtypeOmap note_oid 0 [] = ([10; 11], Ok tt) /\
  omap_resolve demo_omap (image overflowing_image) 11 5 192 = Err (OmapUnresolved 11 5).
Proof. split; vm_compute; reflexivity. Qed.
