(* ===== verification/ApfsContainer.v ===== *)
(** The open container (core/src/lib.rs, [ApfsContainer]): bootstrap and the volume table.

    [ApfsContainer_open] composes the block-zero read, [NxSuperblock_parse], the Fusion gate,
    [resolve_live_checkpoint] and the re-read of the chosen superblock;
    [volume_superblock_addrs] composes the container object map with one [omap_resolve] per
    volume. *)

From S2P Require Import Prelude Bytes Errors Reader Object Container Checkpoint Walk BTree NodeLayout Omap.

Record ApfsContainer (R : Type) := {
  ac_reader : R;
  ac_superblock : NxSuperblock;
  ac_live_superblock_paddr : Z;
  ac_checkpoint_mappings : list CheckpointMapping;
}.
Arguments ac_reader {R}.
Arguments ac_superblock {R}.
Arguments ac_live_superblock_paddr {R}.
Arguments ac_checkpoint_mappings {R}.
Arguments Build_ApfsContainer {R}.

Section Container.
Context {R} `{ReadSeek R}.

(** The block-zero read: a short source is the loud bootstrap failure. *)
Definition read_block0 (reader : R) : result bytes :=
  match seek_start reader 0 with
  | inl e => Err (Io e)
  | inr r =>
      match read_exact r NX_MINIMUM_BLOCK_SIZE with
      | inr block0 => Ok block0
      | inl UnexpectedEof => Err (NoValidSuperblock 0 0)
      | inl e => Err (Io e)
      end
  end.

Definition ApfsContainer_open (prof : profile) (reader : R) : result (ApfsContainer R) :=
  block0 ← read_block0 reader;
  bootstrap ← NxSuperblock_parse block0;
  if is_fusion bootstrap then Err UnsupportedFusion
  else
    live ← resolve_live_checkpoint prof reader bootstrap;
    let block_size := nx_block_size bootstrap in
    buf ← read_at reader (saturating_mul (superblock_paddr live) block_size) block_size;
    superblock ← NxSuperblock_parse buf;
    Ok {| ac_reader := reader;
          ac_superblock := superblock;
          ac_live_superblock_paddr := superblock_paddr live;
          ac_checkpoint_mappings := mappings live |}.

(** [iter().find(|m| m.oid == oid).map(|m| m.paddr)] *)
Definition resolve_ephemeral (c : ApfsContainer R) (oid : Z) : option Z :=
  (fun im => cpm_paddr im.2) <$> list_find (fun m => cpm_oid m = oid) (ac_checkpoint_mappings c).

Definition spaceman_paddr (c : ApfsContainer R) : option Z :=
  resolve_ephemeral c (nx_spaceman_oid (ac_superblock c)).
Definition reaper_paddr (c : ApfsContainer R) : option Z :=
  resolve_ephemeral c (nx_reaper_oid (ac_superblock c)).

Definition volume_superblock_addrs (c : ApfsContainer R) : result (list Z) :=
  let block_size := nx_block_size (ac_superblock c) in
  if negb ((NX_MINIMUM_BLOCK_SIZE <=? block_size) && (block_size <=? NX_MAXIMUM_BLOCK_SIZE))
  then Err (FieldOutOfRange "nx_superblock" "nx_block_size" block_size NX_MAXIMUM_BLOCK_SIZE)
  else
    buf ← read_at (ac_reader c) (saturating_mul (nx_omap_oid (ac_superblock c)) block_size) block_size;
    omap ← ObjectMap_parse buf;
    let xid := nx_xid (ac_superblock c) in
    fold_res (fun addrs fs_oid =>
                entry ← omap_resolve omap (ac_reader c) fs_oid xid block_size;
                Ok (addrs ++ [oe_paddr entry]))
      [] (nx_fs_oids (ac_superblock c)).

(** ** Bootstrap *)

Lemma read_block0_len reader b : read_block0 reader = Ok b -> blen b = NX_MINIMUM_BLOCK_SIZE.
Proof.
  unfold read_block0. destruct (seek_start reader 0) as [|r]; [done|].
  destruct (read_exact r NX_MINIMUM_BLOCK_SIZE) as [[]|] eqn:Hr; [done|done|].
  intros Hb. ok_inv. by apply read_exact_len in Hr.
Qed.

(** The block the scan accepted is the block [open] re-reads, and it parses. *)
Lemma reread_candidate (reader : R) block_size paddr x :
  nxsb_at reader block_size paddr = Some x ->
  exists buf sb, read_at reader (paddr * block_size) block_size = Ok buf /\ saturating_mul paddr block_size = paddr * block_size /\
    cksum_ok buf = true /\ NxSuperblock_parse buf = Ok sb /\ nx_xid sb = x.
Proof.
  unfold nxsb_at, read_block. destruct (checked_mul paddr block_size) as [off|] eqn:Hoff; [|done].
  apply checked_mul_Some in Hoff as [-> Hlt]. rewrite saturating_mul_exact by done.
  unfold read_at. destruct (seek_start reader _) as [|r]; [done|].
  destruct (read_exact r block_size) as [[]|b]; [done|done|].
  unfold ObjPhys_parse. destruct (_ <? _); [done|]. cbn [mbind option_bind].
  destruct (_ && cksum_ok b) eqn:Hg; [|done]. intros [= <-]. apply andb_true_iff in Hg as [[_ Hm]%andb_true_iff Hc]. exists b.
  destruct (Z.ltb_spec (blen b) (OFF_MAGIC + 4)) as [Hs|Hs].
  { exfalso. revert Hm. unfold le_u32. by rewrite from_le_arr_oob by (unfold OFF_MAGIC in Hs; lia). }
  unfold NxSuperblock_parse. rewrite (proj2 (Z.ltb_ge _ _) Hs). unfold OFF_MAGIC. rewrite Hm. pose proof Hc as Hc'.
  unfold cksum_ok in Hc'. rewrite Hc'. cbn [negb]. eexists. split_and!; try reflexivity. done.
Qed.

(** Opening, once block zero parses, is the resolution of the live checkpoint: the second read never fails. *)
Lemma open_resolves prof (reader : R) block0 bootstrap lc :
  read_block0 reader = Ok block0 -> NxSuperblock_parse block0 = Ok bootstrap -> is_fusion bootstrap = false ->
  resolve_live_checkpoint prof reader bootstrap = Ok lc ->
  exists buf sb, read_at reader (superblock_paddr lc * nx_block_size bootstrap) (nx_block_size bootstrap) = Ok buf /\
    cksum_ok buf = true /\ NxSuperblock_parse buf = Ok sb /\ nx_xid sb = live_xid lc /\
    ApfsContainer_open prof reader = Ok {| ac_reader := reader; ac_superblock := sb;
      ac_live_superblock_paddr := superblock_paddr lc; ac_checkpoint_mappings := mappings lc |}.
Proof.
  intros H0 H1 Hf Hr. pose proof (live_checkpoint_parts _ _ _ _ Hr) as [(l1 & i & l2 & _ & [_ Hc] & _) _].
  destruct (reread_candidate _ _ _ _ Hc) as (buf & sb & Hb & Hs & Hk & Hp & Hx). exists buf, sb. split_and!; try done.
  unfold ApfsContainer_open. rewrite H0. cbn [mbind outcome_bind]. rewrite H1. cbn [mbind outcome_bind]. rewrite Hf, Hr.
  cbn [mbind outcome_bind]. rewrite Hs, Hb. cbn [mbind outcome_bind]. by rewrite Hp.
Qed.

(** C5 (functional): a container that opens came from a checksum-valid block zero without the Fusion bit, and its state is that of the live checkpoint: its
    superblock is, in every field, the parse of the checksum-valid block at the recorded address, the slot of the descriptor ring with the largest
    transaction id and the first of them on a tie; its mappings are those of the checkpoint maps of that transaction; its source is the one given.
    And it does open whenever block zero parses, has no Fusion bit and the ring has a live checkpoint: reading the superblock again cannot fail. *)
Theorem ApfsContainer_open_live (prof : profile) (reader : R) :
  (forall c, ApfsContainer_open prof reader = Ok c ->
     exists block0 bootstrap buf,
       read_block0 reader = Ok block0 /\ NxSuperblock_parse block0 = Ok bootstrap /\ is_fusion bootstrap = false /\
       let base := xp_desc_base bootstrap in
       let bs := nx_block_size bootstrap in
       let xid := nx_xid (ac_superblock c) in
       is_best prof reader base bs (range (xp_desc_blocks bootstrap)) (Some (xid, ac_live_superblock_paddr c)) /\
       read_at reader (ac_live_superblock_paddr c * bs) bs = Ok buf /\ cksum_ok buf = true /\
       NxSuperblock_parse buf = Ok (ac_superblock c) /\
       (forall m, m ∈ ac_checkpoint_mappings c <->
          exists i paddr, 0 <= i < xp_desc_blocks bootstrap /\ add_u64 (E := ApfsError) prof base i = Ok paddr /\
            m ∈ cpm_at reader bs xid paddr) /\
       ac_reader c = reader) /\
  (forall block0 bootstrap lc,
     read_block0 reader = Ok block0 -> NxSuperblock_parse block0 = Ok bootstrap -> is_fusion bootstrap = false ->
     resolve_live_checkpoint prof reader bootstrap = Ok lc -> exists c, ApfsContainer_open prof reader = Ok c).
Proof.
  split.
  - intros c Ho. pose proof Ho as Ho'. unfold ApfsContainer_open in Ho'. apply bind_Ok_iff in Ho' as (block0 & H0 & Ho').
    apply bind_Ok_iff in Ho' as (bootstrap & H1 & Ho'). destruct (is_fusion bootstrap) eqn:Hfu; [done|].
    apply bind_Ok_iff in Ho' as (live & H2 & _). destruct (live_checkpoint_parts _ _ _ _ H2) as [Hbest Hmaps].
    destruct (open_resolves _ _ _ _ _ H0 H1 Hfu H2) as (buf & sb & Hb & Hk & Hp & Hx & Heq).
    rewrite Heq in Ho. ok_inv. exists block0, bootstrap, buf. do 3 (split; [done|]). cbn zeta.
    cbn [ac_superblock ac_live_superblock_paddr ac_checkpoint_mappings ac_reader]. rewrite Hx. by split_and!.
  - intros block0 bootstrap lc H0 H1 Hf Hr. destruct (open_resolves _ _ _ _ _ H0 H1 Hf Hr) as (buf & sb & _ & _ & _ & _ & ->). eauto.
Qed.

(** The scan and the collection of mappings panic only where a slot's address does. *)
Lemma resolve_not_Panic prof (reader : R) sb :
  (forall i, i ∈ range (xp_desc_blocks sb) -> add_u64 (E := ApfsError) prof (xp_desc_base sb) i <> Panic) ->
  resolve_live_checkpoint prof reader sb <> Panic.
Proof.
  intros Hadd. unfold resolve_live_checkpoint. destruct (xp_desc_is_tree sb); [done|].
  destruct (negb _); [done|]. apply bind_not_Panic; [|intros st _; destruct (best st) as [[xid paddr]|]; [apply bind_not_Panic|]; try done].
  all: apply fold_res_not_Panic; intros s i Hi; unfold scan_step, map_step; apply bind_not_Panic; [by apply Hadd|intros p _];
    apply bind_not_Panic; [apply read_block_not_Panic|intros o _]; repeat case_match; done.
Qed.

(** Bootstrap panics only in the scan. *)
Lemma open_Panic prof (reader : R) :
  ApfsContainer_open prof reader = Panic ->
  exists block0 sb, read_block0 reader = Ok block0 /\ NxSuperblock_parse block0 = Ok sb /\ is_fusion sb = false /\
    resolve_live_checkpoint prof reader sb = Panic.
Proof.
  unfold ApfsContainer_open. intros [Hp|(b0 & H0 & [Hp|(sb & H1 & Hp)]%bind_Panic_iff)]%bind_Panic_iff.
  - exfalso. revert Hp. unfold read_block0. destruct (seek_start reader 0) as [|r]; [done|].
    by destruct (read_exact r _) as [[]|].
  - by apply NxSuperblock_parse_not_Panic in Hp.
  - destruct (is_fusion sb) eqn:Hf; [done|]. exists b0, sb. do 3 (split; [done|]).
    apply bind_Panic_iff in Hp as [Hp|(lc & _ & Hp)]; [done|exfalso].
    apply bind_Panic_iff in Hp as [Hp|(buf & _ & Hp)]; [by eapply read_at_not_Panic|].
    apply bind_Panic_iff in Hp as [Hp|(s & _ & Hp)]; [by eapply NxSuperblock_parse_not_Panic|done].
Qed.

(** Bootstrap does not panic in a build that wraps. *)
Lemma ApfsContainer_open_not_Panic (reader : R) : ApfsContainer_open OverflowWraps reader <> Panic.
Proof.
  intros (b0 & sb & _ & _ & _ & Hp)%open_Panic. apply resolve_not_Panic in Hp; [done|].
  intros i _. unfold add_u64. by destruct (_ <? _).
Qed.

(** In a build that wraps, opening a container never panics, whatever the source. *)
Theorem ApfsContainer_open_no_panic (reader : R) :
  ApfsContainer_open OverflowWraps reader <> Panic.
Proof. apply ApfsContainer_open_not_Panic. Qed.

(** ** The volume table *)

(** [a] is where the tree [t] maps [oid] as of [xid]. *)
Definition mapped_at (t : tree) (oid xid a : Z) : Prop :=
  exists m, m ∈ leaf_entries t /\ le_u64 (key m) 0 = oid /\ le_u64 (key m) 8 <= xid /\
    a = le_u64 (value m) 8 /\
    (forall m', m' ∈ leaf_entries t -> le_u64 (key m') 0 = oid -> le_u64 (key m') 8 <= xid ->
       le_u64 (key m') 8 <= le_u64 (key m) 8).

Lemma resolve_mapped_at (reader : R) bs oid xid om t e :
  walkable (phys_node reader bs SubtypeOmap) child_addrs MAX_BTREE_DEPTH ∅ t ->
  addr t = om_tree_oid om -> ordered t ->
  omap_resolve om reader oid xid bs = Ok e -> mapped_at t oid xid (oe_paddr e).
Proof.
  intros Hw Ha Hord He. pose proof (omap_resolve_best reader bs oid xid om t Hw Ha Hord) as Hs.
  rewrite He in Hs. destruct Hs as (m & Hm & -> & Ho & Hx & Hmax). by exists m.
Qed.

Lemma volume_superblock_addrs_not_Panic (c : ApfsContainer R) : volume_superblock_addrs c <> Panic.
Proof.
  unfold volume_superblock_addrs. no_panic. apply fold_res_not_Panic. intros s oid _. no_panic.
Qed.

Lemma resolve_all_Forall2 (f : Z -> result OmapEntry) oids acc addrs :
  fold_res (fun addrs oid => entry ← f oid; Ok (addrs ++ [oe_paddr entry])) acc oids = Ok addrs ->
  exists l, addrs = acc ++ l /\ Forall2 (fun oid a => exists e, f oid = Ok e /\ oe_paddr e = a) oids l.
Proof.
  revert acc; induction oids as [|oid oids IH]; intros acc Hf; cbn [fold_res] in Hf.
  - ok_inv. exists []. by rewrite app_nil_r.
  - apply bind_Ok_iff in Hf as (acc' & H1 & H2). apply bind_Ok_iff in H1 as (e & He & H1). ok_inv.
    apply IH in H2 as (l & -> & Hl). exists (oe_paddr e :: l). rewrite <-app_assoc.
    split; [done|]. constructor; [by exists e|done].
Qed.

(** The volume table has one address per volume oid of the superblock, in order. When
    the container object map's tree is stored and in key order, each is the address of the volume superblock as of the
    container's transaction: the mapping with the largest transaction id not after it. *)
Theorem volume_superblock_addrs_spec (c : ApfsContainer R) (addrs : list Z) :
  volume_superblock_addrs c = Ok addrs ->
  let sb := ac_superblock c in
  exists buf om,
    read_at (ac_reader c) (saturating_mul (nx_omap_oid sb) (nx_block_size sb)) (nx_block_size sb) = Ok buf /\
    ObjectMap_parse buf = Ok om /\
    length addrs = length (nx_fs_oids sb) /\
    (forall t, walkable (phys_node (ac_reader c) (nx_block_size sb) SubtypeOmap) child_addrs MAX_BTREE_DEPTH ∅ t ->
       addr t = om_tree_oid om -> ordered t ->
       Forall2 (fun oid a => mapped_at t oid (nx_xid sb) a) (nx_fs_oids sb) addrs).
Proof.
  intros Hv sb. unfold volume_superblock_addrs in Hv. destruct (negb _); [done|].
  apply bind_Ok_iff in Hv as (buf & Hbuf & Hv). apply bind_Ok_iff in Hv as (om & Hom & Hv).
  apply resolve_all_Forall2 in Hv as (l & -> & Hl). exists buf, om. split_and!; [done|done| |].
  - symmetry. by eapply Forall2_length.
  - intros t Hw Ha Hord. eapply Forall2_impl; [exact Hl|].
    intros oid a (e & He & <-). by eapply resolve_mapped_at.
Qed.
End Container.

(** ** A container of six blocks *)

Definition demo_nx (xid block_size : Z) : bytes :=
  let p off n v b := put b off (to_le_bytes n v) in
  stamp (p 16 8%nat xid (p 24 4%nat 1 (p OFF_MAGIC 4%nat NX_MAGIC (p OFF_BLOCK_SIZE 4%nat block_size
    (p OFF_XP_DESC_BASE 8%nat 1 (p OFF_XP_DESC_BLOCKS 4%nat 1 (p OFF_OMAP_OID 8%nat 2
    (p OFF_MAX_FILE_SYSTEMS 4%nat 1 (p OFF_FS_OID 8%nat 11 (replicate 4096 x00)))))))))).

Definition demo_omap_phys : bytes :=
  stamp (put (put (replicate 4096 x00) 24 (to_le_bytes 4 OBJECT_TYPE_OMAP)) OFF_OM_TREE_OID (to_le_bytes 8 3)).

(** Block zero, the descriptor ring of one block, the object map and its one-leaf tree. *)
Definition demo_container (live_block_size : Z) : cursor :=
  image (demo_nx 6 4096 ++ demo_nx 6 live_block_size ++ demo_omap_phys ++
         stamp (encode_node (replicate 32 x00) 6 0 demo_leaf2 3968 [])).

(** The live superblock as [open] finds it. *)
Definition demo_sb (block_size : Z) : NxSuperblock :=
  {| nx_xid := 6; nx_uuid := replicate 16 x00; nx_block_size := block_size; nx_block_count := 0;
     nx_incompatible_features := 0; xp_desc_base := 1; xp_desc_blocks := 1; xp_data_base := 0;
     xp_data_blocks := 0; nx_omap_oid := 2; nx_spaceman_oid := 0; nx_reaper_oid := 0; nx_fs_oids := [11];
     desc_is_tree := false; data_is_tree := false |}.

Definition demo_opened (block_size : Z) : ApfsContainer cursor :=
  {| ac_reader := demo_container block_size; ac_superblock := demo_sb block_size;
     ac_live_superblock_paddr := 1; ac_checkpoint_mappings := [] |}.

Lemma demo_open : ApfsContainer_open OverflowTraps (demo_container 4096) = Ok (demo_opened 4096).
Proof. vm_compute. reflexivity. Qed.

Lemma demo_volumes : volume_superblock_addrs (demo_opened 4096) = Ok [102].
Proof. vm_compute. reflexivity. Qed.

(** The live superblock of the small container is what block 1 parses to. *)
Lemma ApfsContainer_open_live_witness :
  exists buf, read_at (demo_container 4096) 4096 4096 = Ok buf /\ cksum_ok buf = true /\ NxSuperblock_parse buf = Ok (demo_sb 4096).
Proof.
  destruct (proj1 (ApfsContainer_open_live OverflowTraps (demo_container 4096)) (demo_opened 4096) demo_open)
    as (block0 & sb & buf & H0 & H1 & _ & _ & Hb & Hk & Hp & _).
  assert (nx_block_size sb = 4096) as Hbs.
  { vm_compute in H0. injection H0 as <-. apply (f_equal (fun r => match r with Ok s => nx_block_size s | _ => 0 end)) in H1.
    rewrite <-H1. vm_compute. reflexivity. }
  rewrite Hbs in Hb. exists buf. split; [exact Hb|]. split; [exact Hk|exact Hp].
Defined.

Lemma volume_superblock_addrs_spec_witness : length [102] = length (nx_fs_oids (demo_sb 4096)).
Proof.
  destruct (volume_superblock_addrs_spec (demo_opened 4096) [102] demo_volumes) as (_ & _ & _ & _ & Hl & _).
  exact Hl.
Defined.

(** [open] checks the block size of block zero, not that of the live superblock it
    returns: a container opens with a live superblock whose block size is zero, and [volume_superblock_addrs]
    then rejects the field. *)
Theorem live_block_size_unchecked_at_open :
  exists c, ApfsContainer_open OverflowTraps (demo_container 0) = Ok c /\
    nx_block_size (ac_superblock c) = 0 /\
    volume_superblock_addrs c = Err (FieldOutOfRange "nx_superblock" "nx_block_size" 0 65536).
Proof. exists (demo_opened 0). split_and!; vm_compute; reflexivity. Qed.

(** The Fusion gate looks at block zero, not at the live superblock [open] returns: a container whose live superblock alone has the
    bit opens. *)
Definition demo_live_fusion : cursor :=
  image (demo_nx 6 4096 ++ stamp (put (demo_nx 6 4096) OFF_INCOMPAT_FEATURES (to_le_bytes 8 NX_INCOMPAT_FUSION))).
Theorem live_fusion_unchecked_at_open :
  match ApfsContainer_open OverflowTraps demo_live_fusion with Ok c => is_fusion (ac_superblock c) | _ => false end = true.
Proof. vm_compute. reflexivity. Qed.

(** ** Blocks larger than 4 KiB *)

(** Fields of a block of which only a prefix was read. *)
Lemma arr_take n (b : bytes) k off :
  0 <= off -> off + Z.of_nat n <= Z.of_nat k <= blen b -> arr n (take k b) off = arr n b off.
Proof.
  intros Ho Hk. rewrite <-(take_drop k b) at 2. unfold arr. rewrite get_range_app_l; [done| |lia].
  unfold blen in *. rewrite length_take. lia.
Qed.

(** Parsing a prefix of a valid superblock that does not verify on its own. *)
Lemma NxSuperblock_parse_prefix k block sb :
  36 <= Z.of_nat k <= blen block -> NxSuperblock_parse block = Ok sb -> cksum_ok (take k block) = false ->
  NxSuperblock_parse (take k block) =
    Err (ChecksumMismatch (le_u64 block 8) (fletcher64_stored block) (fletcher64_checksum (take k block))).
Proof.
  intros Hk Hp Hc. unfold NxSuperblock_parse in *.
  assert (blen (take k block) = Z.of_nat k) as -> by (unfold blen in *; rewrite length_take; lia).
  unfold OFF_MAGIC in *. rewrite (proj2 (Z.ltb_ge _ _)) by lia. destruct (blen block <? 32 + 4); [done|].
  unfold cksum_ok, fletcher64_stored, le_u32, le_u64 in *. rewrite !arr_take in * by lia.
  destruct (negb (from_le_bytes (arr 4 block 32) =? NX_MAGIC)); [done|]. by rewrite Hc.
Qed.

Lemma open_bad_block0 {R} `{ReadSeek R} prof (reader : R) block0 e :
  read_block0 reader = Ok block0 -> NxSuperblock_parse block0 = Err e -> ApfsContainer_open prof reader = Err e.
Proof. unfold ApfsContainer_open. intros ->. cbn [mbind outcome_bind]. by intros ->. Qed.

Lemma read_block0_image block0 rest :
  NX_MINIMUM_BLOCK_SIZE <= blen block0 ->
  read_block0 (image (block0 ++ rest)) = Ok (take (Z.to_nat NX_MINIMUM_BLOCK_SIZE) block0).
Proof.
  intros Hlen. unfold read_block0. cbn [seek_start read_exact cursor_ReadSeek image cur_buf cur_pos].
  rewrite Z.add_0_l, get_range_app_l by (done || (unfold NX_MINIMUM_BLOCK_SIZE; lia)).
  rewrite (proj2 (get_range_Some block0 0 NX_MINIMUM_BLOCK_SIZE (take (Z.to_nat NX_MINIMUM_BLOCK_SIZE) block0))); [reflexivity|].
  rewrite Z.sub_0_r. split_and!; [done|done|done|reflexivity].
Qed.

(** C39 (error): [open] reads and verifies 4096 bytes of block zero whatever its block size. A container whose block zero is a
    valid superblock, checksummed over its whole block as every object is, is refused with
    [ChecksumMismatch] as soon as the first 4096 bytes do not also verify on their own. *)
Theorem open_verifies_4096_bytes_only (prof : profile) (block0 rest : bytes) (sb : NxSuperblock) :
  NX_MINIMUM_BLOCK_SIZE <= blen block0 -> NxSuperblock_parse block0 = Ok sb ->
  cksum_ok (take (Z.to_nat NX_MINIMUM_BLOCK_SIZE) block0) = false ->
  ApfsContainer_open prof (image (block0 ++ rest)) =
    Err (ChecksumMismatch (le_u64 block0 8) (fletcher64_stored block0)
           (fletcher64_checksum (take (Z.to_nat NX_MINIMUM_BLOCK_SIZE) block0))).
Proof.
  intros Hlen Hp Hc. apply (open_bad_block0 prof _ _ _ (read_block0_image block0 rest Hlen)).
  apply (NxSuperblock_parse_prefix _ _ sb); [|exact Hp|exact Hc]. rewrite Z2Nat.id by done. by split.
Qed.

(** A block zero of 8192 bytes. *)
Definition demo_nx_8k : bytes :=
  stamp (put (put (put (replicate (Z.to_nat 8192) x00) 24 (to_le_bytes 4 1)) OFF_MAGIC (to_le_bytes 4 NX_MAGIC))
    OFF_BLOCK_SIZE (to_le_bytes 4 8192)).

Lemma open_verifies_4096_bytes_only_witness :
  exists sb, NxSuperblock_parse demo_nx_8k = Ok sb /\ nx_block_size sb = 8192 /\
    exists stored computed, ApfsContainer_open OverflowTraps (image (demo_nx_8k ++ [])) =
      Err (ChecksumMismatch 0 stored computed).
Proof.
  assert (exists sb, NxSuperblock_parse demo_nx_8k = Ok sb /\ nx_block_size sb = 8192) as (sb & Hp & Hs)
    by (eexists; split; [vm_compute; reflexivity|reflexivity]).
  exists sb. split; [exact Hp|]. split; [exact Hs|]. do 2 eexists.
  apply (open_verifies_4096_bytes_only OverflowTraps demo_nx_8k [] sb).
  - vm_compute. discriminate.
  - exact Hp.
  - vm_compute. reflexivity.
Defined.
