(* ===== verification/FsRecord.v ===== *)
(** File-system record keys and extended fields (core/src/fsrecord.rs). *)

From S2P Require Import Prelude Bytes Errors Walk BTree.

Inductive RecordType :=
| SnapMetadata | Extent | Inode | Xattr | SiblingLink | DstreamId | CryptoState
| FileExtent | DirRec | DirStats | SnapName | SiblingMap | FileInfo.
#[global] Instance RecordType_eq_dec : EqDecision RecordType.
Proof. solve_decision. Defined.

Definition from_u4 (v : Z) : option RecordType :=
  match v with
  | 1 => Some SnapMetadata
  | 2 => Some Extent
  | 3 => Some Inode
  | 4 => Some Xattr
  | 5 => Some SiblingLink
  | 6 => Some DstreamId
  | 7 => Some CryptoState
  | 8 => Some FileExtent
  | 9 => Some DirRec
  | 10 => Some DirStats
  | 11 => Some SnapName
  | 12 => Some SiblingMap
  | 13 => Some FileInfo
  | _ => None
  end.

Definition OBJ_TYPE_SHIFT : Z := 60.
Definition OBJ_ID_MASK : Z := 0x0fffffffffffffff.

Definition decode_jkey (obj_id_and_type : Z) : Z * option RecordType :=
  let oid := Z.land obj_id_and_type OBJ_ID_MASK in
  let ty := Z.land (Z.shiftr obj_id_and_type OBJ_TYPE_SHIFT) 0xf in
  (oid, from_u4 ty).

(** The writer of a key word: [(ty << 60) | oid]. *)
Definition encode_jkey (ty oid : Z) : Z := Z.lor (Z.shiftl ty OBJ_TYPE_SHIFT) oid.

Definition OFF_XF_NUM_EXTS : Z := 0.
Definition XF_DESC_OFF : Z := 4.
Definition XF_DESC_LEN : Z := 4.
Definition MAX_XF_NUM_EXTS : Z := 4096.

(** [(x_size + 7) & !7] on [usize]. *)
Definition align8 (x_size : Z) : Z := Z.land (x_size + 7) (u64_max - 7).

(** The descriptor loop; [data[d]] panics out of bounds. *)
Fixpoint xfields_loop (data : bytes) (idx : list Z) (value_off : Z) : result (list (Z * bytes)) :=
  match idx with
  | [] => Ok []
  | i :: idx =>
      let d := XF_DESC_OFF + i * XF_DESC_LEN in
      match get_index data d with
      | None => Panic
      | Some x_type =>
          let x_size := le_u16 data (d + 2) in
          match checked_add value_off x_size with
          | None => Ok []
          | Some end_ =>
              match get_range data value_off end_ with
              | None => Ok []
              | Some v =>
                  match checked_add value_off (align8 x_size) with
                  | None => Ok [(b2z x_type, v)]
                  | Some next =>
                      rest ← xfields_loop data idx next;
                      Ok ((b2z x_type, v) :: rest)
                  end
              end
          end
      end
  end.

Definition parse_xfields (data : bytes) : result (list (Z * bytes)) :=
  if blen data <? XF_DESC_OFF then Ok []
  else
    let num := Z.min (le_u16 data OFF_XF_NUM_EXTS) MAX_XF_NUM_EXTS in
    match checked_mul num XF_DESC_LEN ≫= fun t => checked_add t XF_DESC_OFF with
    | None => Ok []
    | Some desc_end =>
        if blen data <? desc_end then Ok []
        else xfields_loop data (range num) desc_end
    end.

(** ** Keys *)

Lemma encode_jkey_sum ty oid :
  0 <= oid < 2 ^ 60 -> encode_jkey ty oid = ty * 2 ^ 60 + oid.
Proof.
  intros Ho. unfold encode_jkey, OBJ_TYPE_SHIFT. rewrite Z.shiftl_mul_pow2 by lia.
  symmetry. rewrite <-Z.shiftl_mul_pow2 by lia. apply Z.add_nocarry_lor. apply Z.bits_inj'.
  intros n Hn. rewrite Z.land_spec, Z.bits_0. destruct (Z.lt_ge_cases n 60).
  - by rewrite Z.shiftl_spec_low by lia.
  - replace oid with (oid mod 2 ^ 60) by (apply Z.mod_small; lia).
    rewrite Z.mod_pow2_bits_high by lia. apply andb_false_r.
Qed.

Lemma decode_jkey_divmod w :
  decode_jkey w = (w mod 2 ^ 60, from_u4 ((w / 2 ^ 60) mod 2 ^ 4)).
Proof.
  unfold decode_jkey, OBJ_TYPE_SHIFT. change OBJ_ID_MASK with (Z.ones 60).
  change 0xf with (Z.ones 4). rewrite !Z.land_ones by lia. by rewrite Z.shiftr_div_pow2 by lia.
Qed.

Lemma decode_encode_jkey ty oid :
  0 <= ty < 16 -> 0 <= oid < 2 ^ 60 -> decode_jkey (encode_jkey ty oid) = (oid, from_u4 ty).
Proof.
  intros Ht Ho. rewrite encode_jkey_sum, decode_jkey_divmod by done. f_equal; [|f_equal].
  - by rewrite Z.add_comm, Z.mod_add, Z.mod_small by lia.
  - rewrite Z.add_comm, Z.div_add, Z.div_small by lia. by apply Z.mod_small.
Qed.

(** A key word built from a 4-bit type and a 60-bit object id decodes to both, and
    every 64-bit word is such a word: nothing of the key is lost by decoding. *)
Theorem jkey_roundtrip :
  (forall ty oid, 0 <= ty < 16 -> 0 <= oid < 2 ^ 60 ->
     0 <= encode_jkey ty oid < 2 ^ 64 /\ decode_jkey (encode_jkey ty oid) = (oid, from_u4 ty)) /\
  (forall w, 0 <= w < 2 ^ 64 -> exists ty, 0 <= ty < 16 /\
     encode_jkey ty (decode_jkey w).1 = w /\ (decode_jkey w).2 = from_u4 ty).
Proof.
  split.
  - intros ty oid Ht Ho. split; [rewrite encode_jkey_sum by done; lia|by apply decode_encode_jkey].
  - intros w Hw. rewrite decode_jkey_divmod. cbn [fst snd]. exists ((w / 2 ^ 60) mod 2 ^ 4).
    assert (0 <= w mod 2 ^ 60 < 2 ^ 60) by (apply Z.mod_pos_bound; lia).
    split; [apply (Z.mod_pos_bound _ (2 ^ 4)); lia|]. split; [|done].
    rewrite encode_jkey_sum by done. rewrite (Z.mod_small _ (2 ^ 4)).
    + rewrite (Z.div_mod w (2 ^ 60)) at 3 by lia. lia.
    + split; [apply Z.div_pos; lia|]. apply Z.div_lt_upper_bound; lia.
Qed.

(** ** Extended fields *)

Lemma align8_spec n :
  0 <= n < 2 ^ 32 -> n <= align8 n < n + 8 /\ align8 n mod 8 = 0 /\ align8 n = (n + 7) / 8 * 8.
Proof.
  intros Hn.
  assert (align8 n = (n + 7) / 8 * 8) as ->.
  { unfold align8. change (u64_max - 7) with (Z.shiftl (Z.ones 61) 3).
    apply Z.bits_inj'. intros m Hm. change 8 with (2 ^ 3). rewrite <-Z.shiftr_div_pow2, <-Z.shiftl_mul_pow2 by lia.
    rewrite Z.land_spec. destruct (Z.lt_ge_cases m 3).
    - rewrite !Z.shiftl_spec_low by lia. apply andb_false_r.
    - rewrite !Z.shiftl_spec_high, Z.shiftr_spec by lia. replace (m - 3 + 3) with m by lia.
      destruct (Z.lt_ge_cases (m - 3) 61).
      + by rewrite Z.ones_spec_low, andb_true_r by lia.
      + rewrite Z.ones_spec_high, andb_false_r by lia. symmetry.
        replace (n + 7) with ((n + 7) mod 2 ^ 33) by (apply Z.mod_small; lia).
        apply Z.mod_pow2_bits_high. lia. }
  split_and!; [| |apply Z.mod_mul; lia|done]; Z.div_mod_to_equations; lia.
Qed.

Lemma xfields_loop_total data idx off :
  Forall (fun i => 0 <= i /\ XF_DESC_OFF + (i + 1) * XF_DESC_LEN <= blen data) idx -> 0 <= off ->
  exists l, xfields_loop data idx off = Ok l /\ (length l <= length idx)%nat /\
    Forall (fun f => slice_of f.2 data) l.
Proof.
  intros Hi. revert off; induction Hi as [|i idx [Hi Hd] _ IH]; intros off Hoff; cbn [xfields_loop].
  { exists []. split_and!; [done|done|constructor]. }
  destruct (get_index_lt data (XF_DESC_OFF + i * XF_DESC_LEN)) as [b Hb].
  { unfold XF_DESC_OFF, XF_DESC_LEN in *. lia. }
  rewrite Hb. set (x := le_u16 data _).
  assert (exists l, (Ok [] : result (list (Z * bytes))) = Ok l /\ (length l <= S (length idx))%nat /\
    Forall (fun f => slice_of f.2 data) l) as Hnil by (exists []; split_and!; [done|cbn; lia|constructor]).
  destruct (checked_add off x) as [e|]; [|done].
  destruct (get_range data off e) as [v|] eqn:Hv; [|done].
  apply slice_of_get_range in Hv. destruct (checked_add off (align8 x)) as [next|] eqn:Hn.
  - destruct (IH next) as (l & -> & Hl & Hs).
    { revert Hn. unfold checked_add. destruct (_ <? _); [|done]. intros [= <-].
      pose proof (le_u16_bound data (XF_DESC_OFF + i * XF_DESC_LEN + 2)) as Hx.
      destruct (align8_spec x); [unfold x; lia|]. fold x in Hx. lia. }
    cbn. eexists. split_and!; [done|cbn; lia|by constructor].
  - eexists. split_and!; [done|cbn; lia|by constructor].
Qed.

Lemma parse_xfields_total (data : bytes) :
  exists l, parse_xfields data = Ok l /\ (length l <= 4096)%nat /\ Forall (fun f => slice_of f.2 data) l.
Proof.
  unfold parse_xfields. destruct (_ <? _); [exists []; split_and!; [done|cbn; lia|constructor]|].
  pose proof (le_u16_bound data OFF_XF_NUM_EXTS) as Hb. set (num := Z.min _ _).
  assert (0 <= num <= 4096) as Hn by (unfold num, MAX_XF_NUM_EXTS; lia).
  destruct (checked_mul num XF_DESC_LEN ≫= _) as [de|] eqn:Hde; [|exists []; split_and!; [done|cbn; lia|constructor]].
  assert (de = num * 4 + 4) as ->.
  { revert Hde. unfold checked_mul, checked_add, XF_DESC_LEN, XF_DESC_OFF. destruct (_ <? _); [|done]. cbn.
    destruct (_ <? _); [|done]. by intros [= <-]. }
  destruct (Z.ltb_spec (blen data) (num * 4 + 4)); [exists []; split_and!; [done|cbn; lia|constructor]|].
  destruct (xfields_loop_total data (range num) (num * 4 + 4)) as (l & Hl & Hlen & Hs); [|lia|].
  - apply Forall_forall. intros i Hi. apply elem_of_range in Hi. unfold XF_DESC_OFF, XF_DESC_LEN. lia.
  - exists l. rewrite length_range in Hlen. split_and!; [done|lia|done].
Qed.

(** Walking an extended-field blob never panics, yields at most 4096 fields, and every value
    is a slice of the blob, whatever the counts and sizes in it. *)
Theorem parse_xfields_safe (data : bytes) :
  exists l, parse_xfields data = Ok l /\ (length l <= 4096)%nat /\ Forall (fun f => slice_of f.2 data) l.
Proof. apply parse_xfields_total. Qed.

(** ** Writing a blob *)

Definition xf_desc (f : Z * bytes) : bytes := [z2b f.1; x00] ++ to_le_bytes 2 (blen f.2).
Definition xf_value (f : Z * bytes) : bytes :=
  f.2 ++ replicate (Z.to_nat (align8 (blen f.2) - blen f.2)) x00.

(** Header, descriptors, then each value padded to eight bytes. *)
Definition encode_xfields (used : Z) (fs : list (Z * bytes)) : bytes :=
  (to_le_bytes 2 (blen fs) ++ to_le_bytes 2 used) ++
  concat (map xf_desc fs) ++ concat (map xf_value fs).

Definition xf_ok (f : Z * bytes) : Prop := 0 <= f.1 < 256 /\ blen f.2 < 2 ^ 16.

Lemma blen_xf_descs fs : blen (concat (map xf_desc fs)) = 4 * blen fs.
Proof.
  induction fs as [|f fs IH]; cbn [map concat]; [done|]. rewrite blen_app, IH, blen_cons.
  unfold xf_desc. rewrite blen_app, blen_to_le_bytes. unfold blen; cbn [length]. lia.
Qed.

Lemma blen_xf_value f : xf_ok f -> blen (xf_value f) = align8 (blen f.2).
Proof.
  intros [_ Hf]. unfold xf_value. autorewrite with apfs. pose proof (blen_nonneg f.2).
  destruct (align8_spec (blen f.2)); lia.
Qed.

Section Xfields.
Context (used : Z) (fs : list (Z * bytes)).
Context (Hok : Forall xf_ok fs) (Hn : blen fs <= 4096).
Context (Hfit : blen (encode_xfields used fs) < u64_limit).

Local Abbreviation data := (encode_xfields used fs).
Local Abbreviation hd4 := (to_le_bytes 2 (blen fs) ++ to_le_bytes 2 used).

Lemma xf_desc_fields fs1 f fs2 :
  fs = fs1 ++ f :: fs2 ->
  get_index data (4 + blen fs1 * 4) = Some (z2b f.1) /\
  le_u16 data (4 + blen fs1 * 4 + 2) = blen f.2.
Proof.
  intros He. assert (xf_ok f) as [_ Hf].
  { rewrite Forall_forall in Hok. apply Hok. rewrite He. apply elem_of_app. right. by left. }
  set (q := concat (map xf_desc fs2) ++ concat (map xf_value fs)).
  assert (data = (hd4 ++ concat (map xf_desc fs1)) ++ xf_desc f ++ q) as ->.
  { unfold encode_xfields, q. rewrite He at 2. rewrite map_app, concat_app. cbn [map concat].
    by rewrite <-!app_assoc. }
  assert (blen (hd4 ++ concat (map xf_desc fs1)) = 4 + blen fs1 * 4) as Hp
    by (autorewrite with apfs; rewrite blen_xf_descs; lia).
  generalize dependent (hd4 ++ concat (map xf_desc fs1)). intros p Hp.
  unfold xf_desc. rewrite <-!app_assoc. split.
  - apply get_index_range. apply (get_range_app p [z2b f.1] (x00 :: to_le_bytes 2 (blen f.2) ++ q)); [lia|].
    change (blen [z2b f.1]) with 1. lia.
  - rewrite (app_assoc p). pose proof (blen_nonneg f.2).
    apply le_u16_app; [|lia]. rewrite blen_app, Hp. change (blen [z2b f.1; x00]) with 2. lia.
Qed.

Lemma xf_loop_encoded fs2 : forall fs1,
  fs = fs1 ++ fs2 ->
  xfields_loop data (seqZ (blen fs1) (blen fs2)) (4 + 4 * blen fs + blen (concat (map xf_value fs1)))
  = Ok fs2.
Proof.
  induction fs2 as [|f fs2 IH]; intros fs1 He; [done|].
  pose proof (blen_nonneg fs2). rewrite blen_cons, seqZ_cons by lia. cbn [xfields_loop].
  destruct (xf_desc_fields _ _ _ He) as [Hty Hsz]. unfold XF_DESC_OFF, XF_DESC_LEN.
  rewrite Hty, Hsz. assert (xf_ok f) as Hf.
  { rewrite Forall_forall in Hok. apply Hok. rewrite He. apply elem_of_app. right. by left. }
  set (off := 4 + _ + _).
  set (pad := replicate (Z.to_nat (align8 (blen f.2) - blen f.2)) x00).
  assert (data = (hd4 ++ concat (map xf_desc fs) ++ concat (map xf_value fs1)) ++ f.2 ++
                 (pad ++ concat (map xf_value fs2))) as Hd.
  { unfold encode_xfields. rewrite He at 3. rewrite map_app, concat_app. cbn [map concat].
    unfold xf_value at 2, pad. by rewrite <-!app_assoc. }
  assert (blen (hd4 ++ concat (map xf_desc fs) ++ concat (map xf_value fs1)) = off) as Hoff
    by (autorewrite with apfs; rewrite blen_xf_descs; unfold off; lia).
  pose proof (blen_nonneg f.2) as Hv0. destruct Hf as [Ht Hv].
  destruct (align8_spec (blen f.2)) as [Ha _]; [lia|].
  assert (off + align8 (blen f.2) <= blen data) as Hle.
  { rewrite Hd, blen_app, Hoff, !blen_app. unfold pad. rewrite blen_replicate.
    pose proof (blen_nonneg (concat (map xf_value fs2))). lia. }
  unfold checked_add. rewrite !(proj2 (Z.ltb_lt _ _)) by lia.
  rewrite Hd at 1. rewrite get_range_app by (rewrite ?Hoff; done).
  replace (Z.pred (1 + blen fs2)) with (blen fs2) by lia.
  replace (Z.succ (blen fs1)) with (blen (fs1 ++ [f])) by (rewrite blen_app; unfold blen; cbn [length]; lia).
  replace (off + align8 (blen f.2)) with (4 + 4 * blen fs + blen (concat (map xf_value (fs1 ++ [f])))).
  { rewrite IH by (by rewrite <-app_assoc). cbn. rewrite b2z_z2b, Z.mod_small by done. by destruct f. }
  rewrite map_app, concat_app, blen_app. cbn [map concat]. rewrite app_nil_r, blen_xf_value by done.
  unfold off. lia.
Qed.
End Xfields.

Lemma parse_encode_xfields (used : Z) (fs : list (Z * bytes)) :
  Forall xf_ok fs -> blen fs <= 4096 -> blen (encode_xfields used fs) < u64_limit ->
  parse_xfields (encode_xfields used fs) = Ok fs.
Proof.
  intros Hok Hn Hfit. pose proof (blen_nonneg fs) as H0.
  assert (blen (encode_xfields used fs) = 4 + 4 * blen fs + blen (concat (map xf_value fs))) as Hlen.
  { unfold encode_xfields. autorewrite with apfs. rewrite blen_xf_descs. lia. }
  pose proof (blen_nonneg (concat (map xf_value fs))).
  unfold parse_xfields. rewrite (proj2 (Z.ltb_ge _ _)) by (unfold XF_DESC_OFF; lia).
  assert (le_u16 (encode_xfields used fs) OFF_XF_NUM_EXTS = blen fs) as ->.
  { unfold encode_xfields. rewrite <-!app_assoc. apply (le_u16_app []); [done|lia]. }
  unfold MAX_XF_NUM_EXTS. rewrite Z.min_l by lia.
  unfold checked_mul, checked_add, XF_DESC_LEN, XF_DESC_OFF. rewrite (proj2 (Z.ltb_lt _ _)) by (unfold u64_limit; lia).
  cbn [mbind option_bind]. rewrite (proj2 (Z.ltb_lt _ _)) by (unfold u64_limit; lia).
  rewrite (proj2 (Z.ltb_ge _ _)) by lia.
  replace (blen fs * 4 + 4) with (4 + 4 * blen fs + blen (concat (map xf_value []))) by (cbn; unfold blen at 2; cbn; lia).
  by apply (xf_loop_encoded used fs Hok Hfit fs []).
Qed.

(** A blob written with its fields' descriptors and 8-byte aligned values walks back to
    exactly those fields, types and values, in order. *)
Theorem xfields_roundtrip (used : Z) (fs : list (Z * bytes)) :
  Forall xf_ok fs -> blen fs <= 4096 -> blen (encode_xfields used fs) < u64_limit ->
  parse_xfields (encode_xfields used fs) = Ok fs.
Proof. apply parse_encode_xfields. Qed.

Lemma xfields_roundtrip_witness :
  parse_xfields (encode_xfields 16 [(4, [x61; x62; x00]); (8, replicate 40 x07)])
  = Ok [(4, [x61; x62; x00]); (8, replicate 40 x07)].
Proof.
  apply (xfields_roundtrip 16 [(4, [x61; x62; x00]); (8, replicate 40 x07)]).
  - repeat constructor; vm_compute; congruence.
  - vm_compute; discriminate.
  - vm_compute; reflexivity.
Defined.
