(* ===== verification/Volume.v ===== *)
(** Volume superblocks (core/src/volume.rs). *)

From S2P Require Import Prelude Bytes Errors Object.

Definition APFS_MAGIC : Z := 0x42535041.
Definition OBJECT_TYPE_FS : Z := 0xd.

(** [apfs_superblock_t] field offsets (the source's [OFF_*], prefixed by the structure). *)
Definition APSB_OFF_MAGIC : Z := 32.
Definition APSB_OFF_FS_INDEX : Z := 36.
Definition APSB_OFF_FEATURES : Z := 40.
Definition APSB_OFF_RO_COMPAT_FEATURES : Z := 48.
Definition APSB_OFF_INCOMPAT_FEATURES : Z := 56.
Definition APSB_OFF_ROOT_TREE_TYPE : Z := 116.
Definition APSB_OFF_OMAP_OID : Z := 128.
Definition APSB_OFF_ROOT_TREE_OID : Z := 136.
Definition APSB_OFF_EXTENTREF_TREE_OID : Z := 144.
Definition APSB_OFF_SNAP_META_TREE_OID : Z := 152.
Definition APSB_OFF_VOL_UUID : Z := 240.
Definition APSB_OFF_FS_FLAGS : Z := 256.
Definition APSB_OFF_VOLNAME : Z := 704.
Definition VOLNAME_LEN : Z := 256.
Definition APSB_MIN_LEN : Z := APSB_OFF_VOLNAME + VOLNAME_LEN.

Definition apsb_bad_type (expected found : Z) : ApfsError :=
  UnexpectedObjectType "apfs_superblock" expected found.

Record ApfsVolume := {
  vol_oid : Z;
  vol_xid : Z;
  vol_fs_index : Z;
  vol_features : Z;
  vol_readonly_compatible_features : Z;
  vol_incompatible_features : Z;
  vol_root_tree_type : Z;
  vol_omap_oid : Z;
  vol_root_tree_oid : Z;
  vol_extentref_tree_oid : Z;
  vol_snap_meta_tree_oid : Z;
  vol_uuid : bytes;
  vol_fs_flags : Z;
  vol_name : bytes;
  vol_vek : option bytes;
}.

Definition decode_volname (block : bytes) (offset len : Z) : bytes :=
  match get_range block offset (offset + len) with
  | None => []
  | Some field => from_utf8_lossy (until_nul field)
  end.

Definition ApfsVolume_parse (block : bytes) : result ApfsVolume :=
  if blen block <? APSB_MIN_LEN then Err (apsb_bad_type APFS_MAGIC 0)
  else
    match ObjPhys_parse block with
    | None => Err (apsb_bad_type APFS_MAGIC 0)
    | Some hdr =>
        if negb (obj_type hdr =? OBJECT_TYPE_FS) then Err (apsb_bad_type OBJECT_TYPE_FS (o_type_raw hdr))
        else
          let magic := le_u32 block APSB_OFF_MAGIC in
          if negb (magic =? APFS_MAGIC) then Err (apsb_bad_type APFS_MAGIC magic)
          else
            let stored := fletcher64_stored block in
            let computed := fletcher64_checksum block in
            if negb (stored =? computed) then Err (ChecksumMismatch (o_oid hdr) stored computed)
            else Ok {|
              vol_oid := o_oid hdr;
              vol_xid := o_xid hdr;
              vol_fs_index := le_u32 block APSB_OFF_FS_INDEX;
              vol_features := le_u64 block APSB_OFF_FEATURES;
              vol_readonly_compatible_features := le_u64 block APSB_OFF_RO_COMPAT_FEATURES;
              vol_incompatible_features := le_u64 block APSB_OFF_INCOMPAT_FEATURES;
              vol_root_tree_type := le_u32 block APSB_OFF_ROOT_TREE_TYPE;
              vol_omap_oid := le_u64 block APSB_OFF_OMAP_OID;
              vol_root_tree_oid := le_u64 block APSB_OFF_ROOT_TREE_OID;
              vol_extentref_tree_oid := le_u64 block APSB_OFF_EXTENTREF_TREE_OID;
              vol_snap_meta_tree_oid := le_u64 block APSB_OFF_SNAP_META_TREE_OID;
              vol_uuid := arr 16 block APSB_OFF_VOL_UUID;
              vol_fs_flags := le_u64 block APSB_OFF_FS_FLAGS;
              vol_name := decode_volname block APSB_OFF_VOLNAME VOLNAME_LEN;
              vol_vek := None;
            |}
    end.

Definition set_vek (v : ApfsVolume) (vek : bytes) : ApfsVolume :=
  {| vol_oid := vol_oid v; vol_xid := vol_xid v; vol_fs_index := vol_fs_index v;
     vol_features := vol_features v;
     vol_readonly_compatible_features := vol_readonly_compatible_features v;
     vol_incompatible_features := vol_incompatible_features v;
     vol_root_tree_type := vol_root_tree_type v; vol_omap_oid := vol_omap_oid v;
     vol_root_tree_oid := vol_root_tree_oid v; vol_extentref_tree_oid := vol_extentref_tree_oid v;
     vol_snap_meta_tree_oid := vol_snap_meta_tree_oid v; vol_uuid := vol_uuid v;
     vol_fs_flags := vol_fs_flags v; vol_name := vol_name v; vol_vek := Some vek |}.

Definition with_omap_oid (v : ApfsVolume) (omap_oid : Z) : ApfsVolume :=
  {| vol_oid := vol_oid v; vol_xid := vol_xid v; vol_fs_index := vol_fs_index v;
     vol_features := vol_features v;
     vol_readonly_compatible_features := vol_readonly_compatible_features v;
     vol_incompatible_features := vol_incompatible_features v;
     vol_root_tree_type := vol_root_tree_type v; vol_omap_oid := omap_oid;
     vol_root_tree_oid := vol_root_tree_oid v; vol_extentref_tree_oid := vol_extentref_tree_oid v;
     vol_snap_meta_tree_oid := vol_snap_meta_tree_oid v; vol_uuid := vol_uuid v;
     vol_fs_flags := vol_fs_flags v; vol_name := vol_name v; vol_vek := vol_vek v |}.

Lemma ApfsVolume_parse_not_Panic block : ApfsVolume_parse block <> Panic.
Proof. unfold ApfsVolume_parse. repeat case_match; done. Qed.
#[export] Hint Resolve ApfsVolume_parse_not_Panic : apfs.

(** What an accepted block satisfies: every gate of the parser. *)
Lemma ApfsVolume_parse_gates block v :
  ApfsVolume_parse block = Ok v ->
  APSB_MIN_LEN <= blen block /\ le_u32 block APSB_OFF_MAGIC = APFS_MAGIC /\
  Z.land (le_u32 block 24) 0xffff = OBJECT_TYPE_FS /\ cksum_ok block = true /\
  vol_xid v = le_u64 block 16 /\ vol_vek v = None /\
  vol_root_tree_oid v = le_u64 block APSB_OFF_ROOT_TREE_OID.
Proof.
  unfold ApfsVolume_parse, cksum_ok, ObjPhys_parse. intros Hp.
  destruct (Z.ltb_spec (blen block) APSB_MIN_LEN); [done|].
  destruct (_ <? _); [done|]. destruct (obj_type _ =? _) eqn:Ht; [|done]. cbn [negb] in Hp.
  destruct (le_u32 _ _ =? _) eqn:Hm; [|done]. cbn [negb] in Hp.
  destruct (_ =? fletcher64_checksum block) eqn:Hc; [|done]. cbn [negb] in Hp. ok_inv.
  bool_cases. by split_and!.
Qed.

(** Every field of an accepted block. *)
Lemma ApfsVolume_parse_fields block v :
  ApfsVolume_parse block = Ok v ->
  v = {| vol_oid := le_u64 block 8; vol_xid := le_u64 block 16; vol_fs_index := le_u32 block APSB_OFF_FS_INDEX;
         vol_features := le_u64 block APSB_OFF_FEATURES; vol_readonly_compatible_features := le_u64 block APSB_OFF_RO_COMPAT_FEATURES;
         vol_incompatible_features := le_u64 block APSB_OFF_INCOMPAT_FEATURES; vol_root_tree_type := le_u32 block APSB_OFF_ROOT_TREE_TYPE;
         vol_omap_oid := le_u64 block APSB_OFF_OMAP_OID; vol_root_tree_oid := le_u64 block APSB_OFF_ROOT_TREE_OID;
         vol_extentref_tree_oid := le_u64 block APSB_OFF_EXTENTREF_TREE_OID; vol_snap_meta_tree_oid := le_u64 block APSB_OFF_SNAP_META_TREE_OID;
         vol_uuid := arr 16 block APSB_OFF_VOL_UUID; vol_fs_flags := le_u64 block APSB_OFF_FS_FLAGS;
         vol_name := decode_volname block APSB_OFF_VOLNAME VOLNAME_LEN; vol_vek := None |}.
Proof.
  unfold ApfsVolume_parse, ObjPhys_parse. intros Hp. destruct (_ <? _); [done|]. destruct (_ <? _); [done|].
  destruct (negb _); [done|]. destruct (negb _); [done|]. destruct (negb _); [done|]. by ok_inv.
Qed.
