(* ===== verification/Encryption.v ===== *)
(** Decryption of volume areas (core/src/encryption.rs, [decrypt_volume_area]).

    AES-XTS is the crates aes and xts-mode, outside this repository: [XtsCipher] is their
    interface. *)

From S2P Require Import Prelude Bytes Errors.

Definition OMAP_VAL_ENCRYPTED : Z := 0x00000004.
Definition APFS_CRYPTO_SECTOR : Z := 0x200.

(** [Xts128::new(Aes128::new(k1), Aes128::new(k2)).decrypt_area(data, 512, sector, get_tweak_default)].
    The documentation of xts-mode: in place, and a panic when the last sector is shorter
    than one cipher block; hence a result on whole sectors. *)
Class XtsCipher := {
  xts_decrypt_area : bytes -> bytes -> Z -> bytes -> result bytes;
  xts_whole_sectors : forall k1 k2 sector data,
    blen data mod APFS_CRYPTO_SECTOR = 0 ->
    exists out, xts_decrypt_area k1 k2 sector data = Ok out /\ blen out = blen data;
  xts_length : forall k1 k2 sector data out,
    xts_decrypt_area k1 k2 sector data = Ok out -> blen out = blen data;
  xts_no_error : forall k1 k2 sector data e, xts_decrypt_area k1 k2 sector data <> Err e;
}.

(** The cipher whose every key is the identity: enough for volumes without encryption. *)
#[export] Program Instance identity_cipher : XtsCipher := {|
  xts_decrypt_area _ _ _ data := Ok data
|}.
Next Obligation. naive_solver. Qed.
Next Obligation. naive_solver. Qed.
Next Obligation. naive_solver. Qed.

Section Encryption.
Context `{XtsCipher}.

Definition decrypt_volume_area (data vek : bytes) (tweak_block block_size : Z) : result bytes :=
  if (tweak_block =? 0) || (block_size <? APFS_CRYPTO_SECTOR) then Ok data
  else
    let k1 := take 16 vek in
    let k2 := drop 16 vek in
    let sectors_per_block := block_size / APFS_CRYPTO_SECTOR in
    let first_sector := saturating_mul tweak_block sectors_per_block in
    xts_decrypt_area k1 k2 first_sector data.

Lemma decrypt_volume_area_len data vek tweak bs out :
  decrypt_volume_area data vek tweak bs = Ok out -> blen out = blen data.
Proof.
  unfold decrypt_volume_area. destruct (_ || _); [by intros [= <-]|]. apply xts_length.
Qed.

Lemma decrypt_volume_area_whole data vek tweak bs :
  blen data mod APFS_CRYPTO_SECTOR = 0 -> exists out, decrypt_volume_area data vek tweak bs = Ok out.
Proof.
  intros Hm. unfold decrypt_volume_area. destruct (_ || _); [eauto|].
  destruct (xts_whole_sectors (take 16 vek) (drop 16 vek)
    (saturating_mul tweak (bs / APFS_CRYPTO_SECTOR)) data Hm) as (out & -> & _). eauto.
Qed.

(** No key, or blocks of whole sectors: the volumes whose areas always decrypt. *)
Definition decryptable (vek : option bytes) (block_size : Z) : Prop :=
  vek = None \/ (0 <= block_size /\ block_size mod APFS_CRYPTO_SECTOR = 0).

Lemma decrypt_volume_area_not_Panic data vek tweak bs :
  decryptable (Some vek) bs -> blen data = bs -> decrypt_volume_area data vek tweak bs <> Panic.
Proof.
  intros [?|[_ Hm]] Hl; [done|]. rewrite <-Hl in Hm.
  destruct (decrypt_volume_area_whole data vek tweak bs Hm) as [out ->]. done.
Qed.
End Encryption.
