(* ===== verification/Ber.v ===== *)
(** BER objects (core/src/encryption.rs): the tag-length-value form of the key material inside keybag entries, and the wrapped-KEK object.

    [parse_wrapped_kek] reports what it cannot read, [ber_find] gives up; both walk the same form, which [encode_tlvs] writes. *)

From S2P Require Import Prelude Bytes Errors.

(** ** Reading *)

Record WrappedKek := {
  wk_wrapped_key : bytes;
  wk_iterations : Z;
  wk_salt : bytes;
}.

Definition TAG_WRAPPED_KEK : byte := x83.
Definition TAG_ITERATIONS : byte := x84.
Definition TAG_SALT : byte := x85.
Definition WRAPPED_KEK_LEN : Z := 40.
Definition SALT_LEN : Z := 16.

Definition kek_bad (field : string) (value cap : Z) : ApfsError :=
  FieldOutOfRange "wrapped_kek_object" field value cap.

(** The length octets at [off], the first of them given: the length and where the value starts. *)
Definition kek_length (data : bytes) (first : byte) (off : Z) : result (Z * Z) :=
  if Z.land (b2z first) 0x80 =? 0 then Ok (b2z first, off)
  else if b2z first =? 0x81 then
    b ← ok_or (get_index data off) (kek_bad "length_1byte" off (blen data));
    Ok (b2z b, off + 1)
  else if b2z first =? 0x82 then
    hi ← ok_or (get_index data off) (kek_bad "length_2byte" off (blen data));
    lo ← ok_or (get_index data (off + 1)) (kek_bad "length_2byte" off (blen data));
    Ok (Z.lor (Z.shiftl (b2z hi) 8) (b2z lo), off + 2)
  else Err (kek_bad "ber_length_form" (b2z first) 0x82).

(** The fields seen so far. *)
Abbreviation kek_state := (option bytes * option Z * option bytes)%type.

Definition kek_field (st : kek_state) (tag : byte) (value : bytes) : result kek_state :=
  let '(wrapped_key, iterations, salt) := st in
  if bool_decide (tag = TAG_WRAPPED_KEK) then
    if negb (blen value =? WRAPPED_KEK_LEN) then Err (kek_bad "wrapped_kek_len" (blen value) WRAPPED_KEK_LEN)
    else Ok (Some value, iterations, salt)
  else if bool_decide (tag = TAG_ITERATIONS) then
    if (blen value =? 0) || (8 <? blen value) then Err (kek_bad "iterations_len" (blen value) 8)
    else
      let n := foldl (fun n b => Z.lor (Z.shiftl n 8) (b2z b)) 0 value in
      Ok (wrapped_key, Some (if n <? 2 ^ 32 then n else 2 ^ 32 - 1), salt)
  else if bool_decide (tag = TAG_SALT) then
    if negb (blen value =? SALT_LEN) then Err (kek_bad "salt_len" (blen value) SALT_LEN)
    else Ok (wrapped_key, iterations, Some value)
  else Ok st.

(** The [while off < data.len()] loop; every round consumes at least two bytes, so the length of the data outlasts it. *)
Fixpoint kek_loop (fuel : nat) (data : bytes) (off : Z) (st : kek_state) : result kek_state :=
  if off <? blen data then
    match fuel with
    | O => Panic
    | S fuel =>
        tag ← ok_or (get_index data off) (kek_bad "tag" off (blen data));
        first ← ok_or (get_index data (off + 1)) (kek_bad "length" (off + 1) (blen data));
        '(len, off) ← kek_length data first (off + 2);
        end_ ← ok_or (checked_add off len) (kek_bad "value_length" len (blen data));
        value ← ok_or (get_range data off end_) (kek_bad "value_end" end_ (blen data));
        st ← kek_field st tag value;
        kek_loop fuel data end_ st
    end
  else Ok st.

Definition parse_wrapped_kek (data : bytes) : result WrappedKek :=
  '(wrapped_key, iterations, salt) ← kek_loop (length data) data 0 (None, None, None);
  w ← ok_or wrapped_key (kek_bad "wrapped_kek_tag_0x83" 0 1);
  n ← ok_or iterations (kek_bad "iterations_tag_0x84" 0 1);
  s ← ok_or salt (kek_bad "salt_tag_0x85" 0 1);
  Ok {| wk_wrapped_key := w; wk_iterations := n; wk_salt := s |}.

(** The same octets with [?] on options. *)
Definition ber_length (data : bytes) (first : byte) (off : Z) : option (Z * Z) :=
  if Z.land (b2z first) 0x80 =? 0 then Some (b2z first, off)
  else if b2z first =? 0x81 then b ← get_index data off; Some (b2z b, off + 1)
  else if b2z first =? 0x82 then
    hi ← get_index data off;
    lo ← get_index data (off + 1);
    Some (Z.lor (Z.shiftl (b2z hi) 8) (b2z lo), off + 2)
  else None.

Fixpoint ber_find_from (fuel : nat) (data : bytes) (want_tag : byte) (off : Z) : option bytes :=
  match fuel with
  | O => None
  | S fuel =>
      if off + 2 <=? blen data then
        tag ← get_index data off;
        first ← get_index data (off + 1);
        '(len, off) ← ber_length data first (off + 2);
        end_ ← checked_add off len;
        value ← get_range data off end_;
        if bool_decide (tag = want_tag) then Some value else ber_find_from fuel data want_tag end_
      else None
  end.

Definition ber_find (data : bytes) (want_tag : byte) : option bytes :=
  ber_find_from (length data) data want_tag 0.

(** ** BER as a format *)

(** The shortest length octets, and one element. *)
Definition encode_ber_len (n : Z) : bytes :=
  if n <? 128 then [z2b n] else if n <? 256 then [x81; z2b n] else [x82; z2b (n / 256); z2b (n mod 256)].
Definition encode_tlv (tv : byte * bytes) : bytes := tv.1 :: encode_ber_len (blen tv.2) ++ tv.2.
Definition encode_tlvs (l : list (byte * bytes)) : bytes := concat (map encode_tlv l).

(** The two-octet form bounds a value. *)
Definition tlv_ok (tv : byte * bytes) : Prop := blen tv.2 < 65536.

Lemma blen_ber_len n : 1 <= blen (encode_ber_len n).
Proof. unfold encode_ber_len. destruct (n <? 128), (n <? 256); unfold blen; cbn [length]; lia. Qed.

Lemma get_index_app (p q : bytes) (b : byte) i : i = blen p -> get_index (p ++ b :: q) i = Some b.
Proof. intros ->. apply get_index_range. by apply (get_range_app p [b] q). Qed.

Lemma lor_shiftl_8 hi lo : 0 <= lo < 256 -> Z.lor (Z.shiftl hi 8) lo = hi * 256 + lo.
Proof.
  intros Hlo. rewrite Z.shiftl_mul_pow2 by lia. change (2 ^ 8) with 256. symmetry. apply Z.add_nocarry_lor.
  apply Z.bits_inj'. intros n Hn. rewrite Z.land_spec, Z.bits_0. destruct (Z.lt_ge_cases n 8).
  - change 256 with (2 ^ 8). by rewrite Z.mul_pow2_bits_low.
  - replace lo with (lo mod 2 ^ 8) by (apply Z.mod_small; lia).
    rewrite Z.mod_pow2_bits_high by lia. apply andb_false_r.
Qed.

Lemma short_form n : 0 <= n < 128 -> Z.land n 0x80 = 0.
Proof.
  intros Hn. change 0x80 with (2 ^ 7). rewrite land_pow2 by lia.
  replace n with (n mod 2 ^ 7) by (apply Z.mod_small; lia). by rewrite Z.mod_pow2_bits_high.
Qed.

(** The octets of a length, read back. *)
Lemma ber_length_encoded p n q :
  0 <= n < 65536 ->
  let data := p ++ encode_ber_len n ++ q in
  exists first, get_index data (blen p) = Some first /\
    ber_length data first (blen p + 1) = Some (n, blen p + blen (encode_ber_len n)).
Proof.
  intros Hn data. unfold data, encode_ber_len. destruct (Z.ltb_spec n 128); [|destruct (Z.ltb_spec n 256)].
  - exists (z2b n). split; [by apply get_index_app|]. unfold ber_length.
    rewrite b2z_z2b, (Z.mod_small n) by lia. by rewrite short_form by lia.
  - exists x81. split; [by apply get_index_app|]. unfold ber_length. cbn [app]. change (_ =? 0) with false.
    cbn [b2z]. change (b2z x81 =? 0x81) with true. cbn iota.
    change (x81 :: z2b n :: q) with ([x81] ++ z2b n :: q).
    rewrite app_assoc, get_index_app by (rewrite blen_app; done).
    cbn [mbind option_bind]. rewrite b2z_z2b, Z.mod_small by lia. unfold blen; cbn [length]. f_equal. f_equal. lia.
  - exists x82. split; [by apply get_index_app|]. unfold ber_length. cbn [app]. change (_ =? 0) with false.
    change (b2z x82 =? 0x81) with false. change (b2z x82 =? 0x82) with true. cbn iota.
    set (hi := z2b (n / 256)). set (lo := z2b (n mod 256)).
    change (x82 :: hi :: lo :: q) with ([x82] ++ hi :: lo :: q).
    rewrite app_assoc, (get_index_app (p ++ [x82]) (lo :: q) hi (blen p + 1)) by (rewrite blen_app; done).
    cbn [mbind option_bind]. change (hi :: lo :: q) with ([hi] ++ lo :: q). rewrite app_assoc, get_index_app
      by (rewrite !blen_app; unfold blen; cbn [length]; lia).
    cbn [mbind option_bind]. unfold hi, lo. rewrite !b2z_z2b, Z.mod_mod by lia.
    rewrite lor_shiftl_8 by (apply Z.mod_pos_bound; lia). rewrite (Z.mod_small (n / 256)) by (Z.div_mod_to_equations; lia).
    unfold blen; cbn [length]. f_equal. f_equal; [Z.div_mod_to_equations; lia|lia].
Qed.

(** Both readers agree on the octets. *)
Lemma kek_length_ber data first off r : ber_length data first off = Some r -> kek_length data first off = Ok r.
Proof.
  unfold ber_length, kek_length. destruct (_ =? 0); [by intros [= ->]|].
  destruct (_ =? 0x81); [by destruct (get_index data off); intros [= <-]|].
  destruct (_ =? 0x82); [|done].
  destruct (get_index data off); [|done]. by destruct (get_index data (off + 1)); intros [= <-].
Qed.

(** What a reader at [off] finds: tag, value, and where the next element starts. *)
Definition tlv_at (data : bytes) (off : Z) (tv : byte * bytes) (next : Z) : Prop :=
  exists first voff, get_index data off = Some tv.1 /\ get_index data (off + 1) = Some first /\
    ber_length data first (off + 2) = Some (blen tv.2, voff) /\ next = voff + blen tv.2 /\
    checked_add voff (blen tv.2) = Some next /\ get_range data voff next = Some tv.2 /\
    off + 2 <= blen data.

Lemma tlv_at_encoded p tv q :
  tlv_ok tv -> blen (p ++ encode_tlv tv ++ q) < u64_limit ->
  tlv_at (p ++ encode_tlv tv ++ q) (blen p) tv (blen p + blen (encode_tlv tv)).
Proof.
  destruct tv as [t v]. unfold tlv_ok, encode_tlv; cbn [fst snd]. intros Hv Hlen.
  destruct (ber_length_encoded (p ++ [t]) (blen v) (v ++ q)) as (first & Hf & Hl);
    [pose proof (blen_nonneg v); lia|].
  assert (blen (p ++ [t]) = blen p + 1) as Hpt by (rewrite blen_app; done). rewrite Hpt in *.
  set (o := encode_ber_len (blen v)) in *.
  assert (p ++ (t :: o ++ v) ++ q = (p ++ [t]) ++ o ++ v ++ q) as Heq by (cbn [app]; rewrite <-!app_assoc; done).
  rewrite Heq in *. pose proof (blen_nonneg q). pose proof (blen_nonneg v). pose proof (blen_nonneg p).
  assert (1 <= blen o) as Ho by apply blen_ber_len.
  rewrite (blen_app (p ++ [t])), Hpt, !blen_app in Hlen. exists first, (blen p + 1 + blen o). cbn [fst snd].
  rewrite blen_cons, blen_app. split_and!.
  - rewrite <-app_assoc. by apply get_index_app.
  - exact Hf.
  - by replace (blen p + 2) with (blen p + 1 + 1) by lia.
  - lia.
  - unfold checked_add. rewrite (proj2 (Z.ltb_lt _ _)) by lia. f_equal. lia.
  - rewrite (app_assoc (p ++ [t])). apply get_range_app; rewrite blen_app, Hpt; lia.
  - rewrite (blen_app (p ++ [t])), Hpt, !blen_app. lia.
Qed.

Lemma encode_tlvs_cons tv l : encode_tlvs (tv :: l) = encode_tlv tv ++ encode_tlvs l.
Proof. done. Qed.

Lemma blen_encode_tlv tv : 2 <= blen (encode_tlv tv).
Proof.
  unfold encode_tlv. rewrite blen_cons, blen_app. pose proof (blen_nonneg tv.2).
  pose proof (blen_ber_len (blen tv.2)). lia.
Qed.

Lemma length_encode_tlvs l : (length l <= length (encode_tlvs l))%nat.
Proof.
  induction l as [|tv l IH]; [done|]. rewrite encode_tlvs_cons, length_app. cbn [length].
  pose proof (blen_encode_tlv tv). unfold blen in *. lia.
Qed.

(** The values carried under a tag, in order. *)
Definition tlv_values (want : byte) (l : list (byte * bytes)) : list bytes :=
  omap (fun tv => if decide (tv.1 = want) then Some tv.2 else None) l.

Lemma tlv_values_snoc want l tv :
  tlv_values want (l ++ [tv]) = tlv_values want l ++ (if decide (tv.1 = want) then [tv.2] else []).
Proof. unfold tlv_values. rewrite omap_app. f_equal. cbn. by destruct (decide _). Qed.

Lemma kek_loop_step fuel data off tv next st :
  tlv_at data off tv next ->
  kek_loop (S fuel) data off st = (st ← kek_field st tv.1 tv.2; kek_loop fuel data next st).
Proof.
  intros (first & voff & H1 & H2 & H3 & _ & H5 & H6 & H7). cbn [kek_loop].
  rewrite (proj2 (Z.ltb_lt _ _)), H1 by lia. cbn [ok_or mbind outcome_bind]. rewrite H2. cbn [ok_or mbind outcome_bind].
  rewrite (kek_length_ber _ _ _ _ H3). cbn [mbind outcome_bind]. rewrite H5. cbn [ok_or mbind outcome_bind].
  by rewrite H6.
Qed.

Lemma kek_loop_encoded l : forall p fuel st,
  Forall tlv_ok l -> blen (p ++ encode_tlvs l) < u64_limit -> (length l <= fuel)%nat ->
  kek_loop fuel (p ++ encode_tlvs l) (blen p) st = fold_res (fun st tv => kek_field st tv.1 tv.2) st l.
Proof.
  induction l as [|tv l IH]; intros p fuel st Hok Hlen Hfuel.
  - unfold encode_tlvs. cbn [map concat fold_res]. rewrite app_nil_r. destruct fuel; cbn [kek_loop]; by rewrite Z.ltb_irrefl.
  - apply Forall_cons in Hok as [Htv Hok]. destruct fuel as [|fuel]; [cbn in Hfuel; lia|].
    rewrite encode_tlvs_cons in *. rewrite (kek_loop_step _ _ _ tv (blen p + blen (encode_tlv tv)))
      by by apply tlv_at_encoded.
    cbn [fold_res]. destruct (kek_field st tv.1 tv.2) as [st'| |]; [|done|done]. cbn [mbind outcome_bind].
    rewrite <-blen_app. rewrite app_assoc in *. apply IH; [done|done|cbn in Hfuel; lia].
Qed.

Lemma ber_find_from_encoded want l : forall p fuel,
  Forall tlv_ok l -> blen (p ++ encode_tlvs l) < u64_limit -> (length l <= fuel)%nat ->
  ber_find_from fuel (p ++ encode_tlvs l) want (blen p) = head (tlv_values want l).
Proof.
  induction l as [|tv l IH]; intros p fuel Hok Hlen Hfuel.
  - unfold encode_tlvs. cbn [map concat]. rewrite app_nil_r. destruct fuel; [done|]. cbn [ber_find_from].
    by rewrite (proj2 (Z.leb_gt _ _)) by lia.
  - apply Forall_cons in Hok as [Htv Hok]. destruct fuel as [|fuel]; [cbn in Hfuel; lia|].
    rewrite encode_tlvs_cons in *.
    destruct (tlv_at_encoded p tv (encode_tlvs l) Htv Hlen) as (first & voff & H1 & H2 & H3 & _ & H5 & H6 & H7).
    cbn [ber_find_from]. rewrite (proj2 (Z.leb_le _ _)), H1 by done. cbn [mbind option_bind]. rewrite H2.
    cbn [mbind option_bind]. rewrite H3. cbn [mbind option_bind]. rewrite H5. cbn [mbind option_bind]. rewrite H6.
    cbn [mbind option_bind]. unfold tlv_values. cbn [omap list_omap]. destruct (decide (tv.1 = want)) as [Heq|Hne].
    + by rewrite bool_decide_true.
    + rewrite bool_decide_false, <-blen_app by done. rewrite app_assoc in *. apply IH; [done|done|cbn in Hfuel; lia].
Qed.

(** Looking a tag up in an encoding finds its first value. *)
Lemma ber_find_encoded want l :
  Forall tlv_ok l -> blen (encode_tlvs l) < u64_limit -> ber_find (encode_tlvs l) want = head (tlv_values want l).
Proof. intros Hok Hlen. apply (ber_find_from_encoded want l []); [done|done|apply length_encode_tlvs]. Qed.

(** ** Wrapped-KEK objects *)

Lemma iterations_be v : foldl (fun n b => Z.lor (Z.shiftl n 8) (b2z b)) 0 v = from_be_bytes v.
Proof.
  induction v as [|b v IH] using rev_ind; [done|]. rewrite foldl_app. cbn [foldl]. rewrite IH.
  unfold from_be_bytes. rewrite reverse_app, lor_shiftl_8 by apply b2z_bound. cbn. lia.
Qed.

Definition iterations_of (v : bytes) : Z := Z.min (from_be_bytes v) (2 ^ 32 - 1).

(** Every field of the three kinds has a size its kind permits. *)
Definition kek_sizes (l : list (byte * bytes)) : Prop :=
  Forall (fun v => blen v = WRAPPED_KEK_LEN) (tlv_values TAG_WRAPPED_KEK l) /\
  Forall (fun v => 0 < blen v <= 8) (tlv_values TAG_ITERATIONS l) /\
  Forall (fun v => blen v = SALT_LEN) (tlv_values TAG_SALT l).

Definition kek_last (l : list (byte * bytes)) : kek_state :=
  (last (tlv_values TAG_WRAPPED_KEK l), iterations_of <$> last (tlv_values TAG_ITERATIONS l),
   last (tlv_values TAG_SALT l)).

Lemma kek_field_spec st tag value st' :
  kek_field st tag value = Ok st' <->
  kek_sizes [(tag, value)] /\
  st' = (if decide (tag = TAG_WRAPPED_KEK) then Some value else st.1.1,
         if decide (tag = TAG_ITERATIONS) then Some (iterations_of value) else st.1.2,
         if decide (tag = TAG_SALT) then Some value else st.2).
Proof.
  destruct st as [[w n] s]. unfold kek_field, kek_sizes, tlv_values. cbn [omap list_omap fst snd].
  rewrite iterations_be. repeat case_bool_decide; subst; repeat first [rewrite decide_True by done | rewrite decide_False by done];
    rewrite ?Forall_cons, ?Forall_nil.
  - destruct (Z.eqb_spec (blen value) WRAPPED_KEK_LEN); cbn [negb]; naive_solver.
  - unfold iterations_of. pose proof (blen_nonneg value).
    destruct (Z.eqb_spec (blen value) 0), (Z.ltb_spec 8 (blen value)); cbn [orb];
      [split; [done|intros; destruct_and?; lia]..|].
    assert ((if from_be_bytes value <? 2 ^ 32 then from_be_bytes value else 2 ^ 32 - 1)
              = Z.min (from_be_bytes value) (2 ^ 32 - 1)) as -> by (destruct (Z.ltb_spec (from_be_bytes value) (2 ^ 32)); lia).
    naive_solver lia.
  - destruct (Z.eqb_spec (blen value) SALT_LEN); cbn [negb]; naive_solver.
  - naive_solver.
Qed.

Lemma kek_sizes_snoc l tv : kek_sizes (l ++ [tv]) <-> kek_sizes l /\ kek_sizes [tv].
Proof. unfold kek_sizes, tlv_values. rewrite !omap_app, !Forall_app. naive_solver. Qed.

Lemma kek_fold_spec l st :
  fold_res (fun st tv => kek_field st tv.1 tv.2) (None, None, None) l = Ok st <-> kek_sizes l /\ st = kek_last l.
Proof.
  revert st. induction l as [|[t v] l IH] using rev_ind; intros st.
  - cbn. unfold kek_sizes, kek_last. cbn. split; [intros [= <-]; split_and!; constructor|by intros [_ ->]].
  - rewrite fold_res_app, bind_Ok_iff. setoid_rewrite IH. rewrite kek_sizes_snoc.
    assert (kek_last (l ++ [(t, v)]) =
      (if decide (t = TAG_WRAPPED_KEK) then Some v else (kek_last l).1.1,
       if decide (t = TAG_ITERATIONS) then Some (iterations_of v) else (kek_last l).1.2,
       if decide (t = TAG_SALT) then Some v else (kek_last l).2)) as ->.
    { unfold kek_last. rewrite !tlv_values_snoc. cbn [fst snd].
      repeat case_decide; rewrite ?app_nil_r, ?last_snoc; done. }
    cbn [fold_res]. setoid_rewrite bind_Ok_iff. split.
    + intros (a & [Hs ->] & b & Hb & [= <-]). apply kek_field_spec in Hb as [Hv ->]. done.
    + intros [[Hs Hv] ->]. eexists. split; [done|]. eexists. split; [|reflexivity]. apply kek_field_spec. done.
Qed.

(** On an encoding of any elements, [parse_wrapped_kek] succeeds exactly when every wrapped key is 40 bytes, every
    iteration count 1 to 8 bytes, every salt 16 bytes, and each of the three is present; it then returns the last of each,
    whatever other elements there are, an iteration count beyond 32 bits saturated and never made smaller. *)
Theorem parse_wrapped_kek_spec (l : list (byte * bytes)) (k : WrappedKek) :
  Forall tlv_ok l -> blen (encode_tlvs l) < u64_limit ->
  parse_wrapped_kek (encode_tlvs l) = Ok k <->
  kek_sizes l /\ last (tlv_values TAG_WRAPPED_KEK l) = Some (wk_wrapped_key k) /\
  (exists v, last (tlv_values TAG_ITERATIONS l) = Some v /\ wk_iterations k = Z.min (from_be_bytes v) (2 ^ 32 - 1)) /\
  last (tlv_values TAG_SALT l) = Some (wk_salt k).
Proof.
  intros Hok Hlen. unfold parse_wrapped_kek.
  pose proof (kek_loop_encoded l [] (length (encode_tlvs l)) (None, None, None) Hok Hlen (length_encode_tlvs l)) as Hloop.
  cbn [app] in Hloop. rewrite bind_Ok_iff. change 0 with (blen ([] : bytes)) at 1. rewrite Hloop. setoid_rewrite kek_fold_spec.
  unfold kek_last. split.
  - intros (st & [Hs ->] & Hk). destruct (last (tlv_values TAG_WRAPPED_KEK l)) as [w|], (last (tlv_values TAG_ITERATIONS l)) as [v|],
      (last (tlv_values TAG_SALT l)) as [s|]; try done. injection Hk as <-. split_and!; [done|done| |done]. by exists v.
  - intros (Hs & Hw & (v & Hv & Hn) & Hsalt). eexists. split; [done|]. rewrite Hw, Hv, Hsalt. cbn.
    destruct k. cbn in *. by subst.
Qed.

(** ** Termination and safety *)

(** A successful length read moves forward and stays within the data. *)
Lemma kek_length_bound data first off len off' :
  kek_length data first off = Ok (len, off') -> 0 <= len /\ off <= off'.
Proof.
  unfold kek_length. pose proof (b2z_bound first). destruct (_ =? 0); [intros [= <- <-]; lia|].
  destruct (_ =? 0x81).
  { destruct (get_index data off) as [b|]; [|done]. cbn. intros [= <- <-]. pose proof (b2z_bound b). lia. }
  destruct (_ =? 0x82); [|done].
  destruct (get_index data off) as [hi|]; [|done]. cbn [ok_or mbind outcome_bind].
  destruct (get_index data (off + 1)) as [lo|]; [|done]. cbn [ok_or mbind outcome_bind]. intros [= <- <-].
  pose proof (b2z_bound hi). pose proof (b2z_bound lo). rewrite lor_shiftl_8 by done. lia.
Qed.

Lemma kek_length_not_Panic data first off : kek_length data first off <> Panic.
Proof.
  unfold kek_length. destruct (_ =? 0); [done|]. destruct (_ =? 0x81); [by destruct (get_index data off)|].
  destruct (_ =? 0x82); [|done]. destruct (get_index data off); [|done]. by destruct (get_index data (off + 1)).
Qed.

Lemma kek_field_not_Panic st tag value : kek_field st tag value <> Panic.
Proof. unfold kek_field. destruct st as [[w n] s]. repeat case_match; done. Qed.

(** The fuel is never used up: every round moves at least two bytes on. *)
Lemma kek_loop_fuel fuel : forall data off st,
  0 <= off -> blen data - off <= Z.of_nat fuel -> kek_loop fuel data off st <> Panic.
Proof.
  induction fuel as [|fuel IH]; intros data off st Hoff Hfuel; cbn [kek_loop];
    (destruct (Z.ltb_spec off (blen data)); [|done]); [lia|].
  destruct (get_index data off) as [tag|]; [|done]. cbn [ok_or mbind outcome_bind].
  destruct (get_index data (off + 1)) as [first|]; [|done]. cbn [ok_or mbind outcome_bind].
  pose proof (kek_length_not_Panic data first (off + 2)) as Hnp.
  destruct (kek_length data first (off + 2)) as [[len off']| |] eqn:Hl; [|done|done]. cbn [mbind outcome_bind].
  apply kek_length_bound in Hl. unfold checked_add. destruct (_ <? _); [|done]. cbn [ok_or mbind outcome_bind].
  destruct (get_range data off' (off' + len)) as [value|]; [|done]. cbn [ok_or mbind outcome_bind].
  pose proof (kek_field_not_Panic st tag value) as Hf. destruct (kek_field st tag value); [|done|done].
  cbn [mbind outcome_bind]. apply IH; lia.
Qed.

Lemma parse_wrapped_kek_not_Panic data : parse_wrapped_kek data <> Panic.
Proof.
  unfold parse_wrapped_kek. pose proof (kek_loop_fuel (length data) data 0 (None, None, None)) as Hl.
  destruct (kek_loop _ _ _ _) as [[[[w|] [n|]] [s|]]| |]; try done. intros _. apply Hl; [done|unfold blen; lia|done].
Qed.
