(* ===== verification/Keybag.v ===== *)
(** Keybags (core/src/encryption.rs).

    A keybag is a counted array of tagged entries, each with the UUID it belongs to; the key material inside an entry is a BER
    object.  Three functions walk the same array with the same stride ([read_keybag],
    [volume_records], [find_kek_object]); [keybag_entries] is what they all see.  [usize] is 64 bits, so the offsets here, at most
    4096 entries of at most 65560 bytes, never overflow. *)

From S2P Require Import Prelude Bytes Errors Ber.

Set Warnings "-register-all".

(** ** Tags and state *)

Inductive KeybagTag :=
| Unknown
| WrappingKey
| VolumeKey
| VolumeUnlockRecords
| VolumePassphraseHint
| UserPayload.
#[global] Instance KeybagTag_eq_dec : EqDecision KeybagTag.
Proof. solve_decision. Defined.

Definition from_u16 (tag : Z) : KeybagTag :=
  if tag =? 0x01 then WrappingKey
  else if tag =? 0x02 then VolumeKey
  else if tag =? 0x03 then VolumeUnlockRecords
  else if tag =? 0x04 then VolumePassphraseHint
  else if tag =? 0xf8 then UserPayload
  else Unknown.

Record EncryptionState := {
  es_encrypted : bool;
  es_tags_present : list KeybagTag;
  es_has_passphrase_hint : bool;
  es_unknown_tags : list (Z * Z);
}.

Definition KB_OBJ_PHYS_LEN : Z := 32.
Definition KL_NKEYS : Z := KB_OBJ_PHYS_LEN + 2.
Definition KL_ENTRIES_OFF : Z := KB_OBJ_PHYS_LEN + 16.
Definition KE_TAG : Z := 16.
Definition KE_KEYLEN : Z := 18.
Definition KE_HEADER_LEN : Z := 24.
Definition MAX_KEYBAG_ENTRIES : Z := 4096.

(** [kl_nkeys], capped. *)
Definition nkeys (data : bytes) : nat := Z.to_nat (Z.min (le_u16 data KL_NKEYS) MAX_KEYBAG_ENTRIES).

(** The stride: [off += ((KE_HEADER_LEN + keylen + 15) & !15).max(16)]. *)
Definition next_entry (off keylen : Z) : Z :=
  off + Z.max (Z.land (KE_HEADER_LEN + keylen + 15) (Z.lnot 15)) 16.

Fixpoint read_keybag_loop (n : nat) (data : bytes) (off : Z) (tags : list KeybagTag) (unknown : list (Z * Z))
  : list KeybagTag * list (Z * Z) :=
  match n with
  | O => (tags, unknown)
  | S n =>
      if blen data <? off + KE_HEADER_LEN then (tags, unknown)
      else
        let raw_tag := le_u16 data (off + KE_TAG) in
        let tag := from_u16 raw_tag in
        let keylen := le_u16 data (off + KE_KEYLEN) in
        let unknown := if bool_decide (tag = Unknown) then unknown ++ [(raw_tag, off)] else unknown in
        let tags := if bool_decide (tag ∈ tags) then tags else tags ++ [tag] in
        read_keybag_loop n data (next_entry off keylen) tags unknown
  end.

Definition is_key_material (t : KeybagTag) : bool :=
  match t with WrappingKey | VolumeKey | VolumeUnlockRecords => true | _ => false end.

Definition read_keybag (data : bytes) : result EncryptionState :=
  let '(tags, unknown) := read_keybag_loop (nkeys data) data KL_ENTRIES_OFF [] [] in
  Ok {| es_encrypted := existsb is_key_material tags;
        es_tags_present := tags;
        es_has_passphrase_hint := bool_decide (VolumePassphraseHint ∈ tags);
        es_unknown_tags := unknown |}.

(** ** The records of a volume in the container keybag *)

Record VolumeRecords := {
  vr_wrapped_vek : bytes;
  vr_volume_keybag_block : Z;
  vr_volume_keybag_blocks : Z;
}.

Definition WRAPPED_VEK_LEN : Z := 40.
Definition PRANGE_LEN : Z := 16.
Definition TAG_SEQUENCE : byte := x30.
Definition TAG_NESTED_OBJECT : byte := xa3.
Definition TAG_WRAPPED_KEY : byte := x83.

Definition records_bad (field : string) (value cap : Z) : ApfsError :=
  FieldOutOfRange "container_keybag" field value cap.

(** What the loop keeps: the wrapped key and the extent. *)
Abbreviation records_state := (option bytes * option (Z * Z))%type.

(** The body of the loop for an entry of the volume. *)
Definition records_entry (st : records_state) (raw_tag : Z) (data : bytes) : result records_state :=
  match from_u16 raw_tag with
  | VolumeKey =>
      let seq := default data (ber_find data TAG_SEQUENCE) in
      obj ← ok_or (ber_find seq TAG_NESTED_OBJECT) (records_bad "volume_key_missing_0xa3" (blen data) 0xa3);
      inner ← ok_or (ber_find obj TAG_WRAPPED_KEY) (records_bad "volume_key_missing_0x83" (blen obj) 0x83);
      if negb (blen inner =? WRAPPED_VEK_LEN)
      then Err (records_bad "wrapped_vek_len" (blen inner) WRAPPED_VEK_LEN)
      else Ok (Some inner, st.2)
  | VolumeUnlockRecords =>
      if blen data <? PRANGE_LEN then Err (records_bad "unlock_records_len" (blen data) PRANGE_LEN)
      else Ok (st.1, Some (le_u64 data 0, le_u64 data 8))
  | _ => Ok st
  end.

Fixpoint records_loop (n : nat) (keybag volume_uuid : bytes) (off : Z) (st : records_state) : result records_state :=
  match n with
  | O => Ok st
  | S n =>
      if blen keybag <? off + KE_HEADER_LEN then Ok st
      else
        let entry_uuid := default [] (get_range keybag off (off + 16)) in
        let raw_tag := le_u16 keybag (off + KE_TAG) in
        let keylen := le_u16 keybag (off + KE_KEYLEN) in
        let data_off := off + KE_HEADER_LEN in
        let data := default [] (get_range keybag data_off (data_off + keylen)) in
        st ← (if bool_decide (entry_uuid = volume_uuid) then records_entry st raw_tag data else Ok st);
        records_loop n keybag volume_uuid (next_entry off keylen) st
  end.

Definition volume_records (keybag volume_uuid : bytes) : result VolumeRecords :=
  '(wrapped_vek, extent) ← records_loop (nkeys keybag) keybag volume_uuid KL_ENTRIES_OFF (None, None);
  '(blk, cnt) ← ok_or extent (records_bad "volume_unlock_records_absent" 0 1);
  w ← ok_or wrapped_vek (records_bad "volume_key_absent" 0 1);
  Ok {| vr_wrapped_vek := w; vr_volume_keybag_block := blk; vr_volume_keybag_blocks := cnt |}.

(** ** The volume keybag *)

Fixpoint find_kek_loop (n : nat) (keybag : bytes) (off : Z) : option bytes :=
  match n with
  | O => None
  | S n =>
      if blen keybag <? off + KE_HEADER_LEN then None
      else
        let raw_tag := le_u16 keybag (off + KE_TAG) in
        let keylen := le_u16 keybag (off + KE_KEYLEN) in
        let data_off := off + KE_HEADER_LEN in
        let tag := from_u16 raw_tag in
        let found :=
          if bool_decide (tag = WrappingKey) || bool_decide (tag = VolumeUnlockRecords) then
            data ← get_range keybag data_off (data_off + keylen);
            ber_find (default data (ber_find data TAG_SEQUENCE)) TAG_NESTED_OBJECT
          else None in
        match found with
        | Some obj => Some obj
        | None => find_kek_loop n keybag (next_entry off keylen)
        end
  end.

Definition find_kek_object (keybag : bytes) : option bytes := find_kek_loop (nkeys keybag) keybag KL_ENTRIES_OFF.

(** ** The entries the loops see *)

Record KeyEntry := {
  ke_off : Z;
  ke_uuid : bytes;
  ke_tag : Z;
  ke_data : option bytes;
}.

Fixpoint keybag_entries_from (n : nat) (data : bytes) (off : Z) : list KeyEntry :=
  match n with
  | O => []
  | S n =>
      if blen data <? off + KE_HEADER_LEN then []
      else
        let keylen := le_u16 data (off + KE_KEYLEN) in
        let data_off := off + KE_HEADER_LEN in
        {| ke_off := off;
           ke_uuid := default [] (get_range data off (off + 16));
           ke_tag := le_u16 data (off + KE_TAG);
           ke_data := get_range data data_off (data_off + keylen) |}
          :: keybag_entries_from n data (next_entry off keylen)
  end.

Definition keybag_entries (data : bytes) : list KeyEntry := keybag_entries_from (nkeys data) data KL_ENTRIES_OFF.

(** Entries lie inside the keybag, and there are no more than the cap. *)
Lemma keybag_entries_in_bounds data :
  Forall (fun e => 0 <= ke_off e /\ ke_off e + KE_HEADER_LEN <= blen data) (keybag_entries data) /\
  blen (keybag_entries data) <= MAX_KEYBAG_ENTRIES.
Proof.
  split.
  - unfold keybag_entries. assert (0 <= KL_ENTRIES_OFF) as H by done. revert H. generalize KL_ENTRIES_OFF as off.
    induction (nkeys data) as [|n IH]; intros off Hoff; cbn [keybag_entries_from]; [constructor|].
    destruct (Z.ltb_spec (blen data) (off + KE_HEADER_LEN)); constructor; cbn [ke_off]; [lia|].
    apply IH. unfold next_entry. lia.
  - assert (forall n off, (length (keybag_entries_from n data off) <= n)%nat) as Hl.
    { induction n as [|n IH]; intros off; cbn [keybag_entries_from]; [done|].
      destruct (_ <? _); cbn [length]; [lia|]. specialize (IH (next_entry off (le_u16 data (off + KE_KEYLEN)))). lia. }
    specialize (Hl (nkeys data) KL_ENTRIES_OFF). unfold keybag_entries, blen. unfold nkeys, MAX_KEYBAG_ENTRIES in *. lia.
Qed.

Definition add_tag (tags : list KeybagTag) (e : KeyEntry) : list KeybagTag :=
  let tag := from_u16 (ke_tag e) in if bool_decide (tag ∈ tags) then tags else tags ++ [tag].
Definition unknown_of (e : KeyEntry) : option (Z * Z) :=
  if decide (from_u16 (ke_tag e) = Unknown) then Some (ke_tag e, ke_off e) else None.

Lemma read_keybag_loop_entries n data off tags unknown :
  read_keybag_loop n data off tags unknown =
    (foldl add_tag tags (keybag_entries_from n data off),
     unknown ++ omap unknown_of (keybag_entries_from n data off)).
Proof.
  revert off tags unknown; induction n as [|n IH]; intros off tags unknown; cbn [read_keybag_loop keybag_entries_from].
  { cbn. by rewrite app_nil_r. }
  destruct (_ <? _); [cbn; by rewrite app_nil_r|]. rewrite IH. cbn [foldl omap list_omap].
  destruct (decide (from_u16 (le_u16 data (off + KE_TAG)) = Unknown)) as [Hu|Hu];
    [rewrite (bool_decide_true (_ = Unknown)) by done|rewrite (bool_decide_false (_ = Unknown)) by done]; unfold unknown_of at 2; cbn [ke_tag ke_off];
    [rewrite decide_True by done; by rewrite <-app_assoc|by rewrite decide_False by done].
Qed.

Lemma add_tags_spec es tags :
  NoDup tags ->
  NoDup (foldl add_tag tags es) /\
  forall t, t ∈ foldl add_tag tags es <-> t ∈ tags \/ exists e, e ∈ es /\ from_u16 (ke_tag e) = t.
Proof.
  revert tags; induction es as [|e es IH]; intros tags Hnd; cbn [foldl]; [set_solver|].
  assert (NoDup (add_tag tags e) /\ forall t, t ∈ add_tag tags e <-> t ∈ tags \/ from_u16 (ke_tag e) = t) as [Hnd' Hin].
  { unfold add_tag. case_bool_decide as Hb; [split; [done|set_solver]|].
    split; [|set_solver]. apply NoDup_app. split_and!; [done|set_solver|apply NoDup_singleton]. }
  destruct (IH _ Hnd') as [H1 H2]. split; [done|]. intros t. rewrite H2, Hin. set_solver.
Qed.

(** The observed state of any keybag is exactly what its entries say, read inside the blob and no more than 4096 of them:
    each tag that occurs once, key material present exactly when an entry carries some, a hint exactly when there is one, and every
    unrecognised tag with its raw value and offset, in order. *)
Theorem read_keybag_spec (data : bytes) :
  exists st, read_keybag data = Ok st /\
    Forall (fun e => 0 <= ke_off e /\ ke_off e + 24 <= blen data) (keybag_entries data) /\
    blen (keybag_entries data) <= 4096 /\
    NoDup (es_tags_present st) /\
    (forall t, t ∈ es_tags_present st <-> exists e, e ∈ keybag_entries data /\ from_u16 (ke_tag e) = t) /\
    (es_encrypted st = true <->
       exists e, e ∈ keybag_entries data /\ ke_tag e ∈ [0x01; 0x02; 0x03]) /\
    (es_has_passphrase_hint st = true <-> exists e, e ∈ keybag_entries data /\ ke_tag e = 0x04) /\
    es_unknown_tags st = omap unknown_of (keybag_entries data).
Proof.
  unfold read_keybag. rewrite read_keybag_loop_entries. fold (keybag_entries data). cbn [app].
  destruct (keybag_entries_in_bounds data) as [Hb Hn].
  destruct (add_tags_spec (keybag_entries data) [] NoDup_nil_2) as [Hnd Hin].
  set (tags := foldl add_tag [] (keybag_entries data)) in *.
  assert (forall t, t ∈ tags <-> exists e, e ∈ keybag_entries data /\ from_u16 (ke_tag e) = t) as Hin'
    by (intros t; rewrite Hin; set_solver).
  eexists. split; [reflexivity|]. cbn [es_encrypted es_tags_present es_has_passphrase_hint es_unknown_tags].
  split_and!; [exact Hb|exact Hn|done|done| | |done].
  - rewrite existsb_exists. setoid_rewrite <-list_elem_of_In. setoid_rewrite Hin'. split.
    + intros (t & (e & He & <-) & Hk). exists e. split; [done|]. revert Hk. unfold from_u16.
      repeat (case_match; bool_cases; [set_solver|]). done.
    + intros (e & He & Ht). exists (from_u16 (ke_tag e)). split; [by exists e|].
      by repeat (apply elem_of_cons in Ht as [->|Ht]; [done|]); apply not_elem_of_nil in Ht.
  - rewrite bool_decide_eq_true, Hin'. split; intros (e & He & Ht); exists e; (split; [done|]).
    + revert Ht. unfold from_u16. repeat (case_match; bool_cases; [done|]). done.
    + by rewrite Ht.
Qed.

(** ** Records of one volume *)

Definition of_volume (uuid : bytes) (es : list KeyEntry) : list KeyEntry := filter (fun e => ke_uuid e = uuid) es.

Lemma records_loop_entries n keybag uuid off st :
  records_loop n keybag uuid off st =
    fold_res (fun st e => records_entry st (ke_tag e) (default [] (ke_data e))) st
      (of_volume uuid (keybag_entries_from n keybag off)).
Proof.
  unfold of_volume. revert off st; induction n as [|n IH]; intros off st; cbn [records_loop keybag_entries_from]; [done|].
  destruct (_ <? _); [done|]. rewrite filter_cons. cbn [ke_uuid].
  case_bool_decide as Hu; [rewrite decide_True by done|rewrite decide_False by done; cbn [mbind outcome_bind]; apply IH].
  cbn [fold_res ke_tag ke_data]. destruct (records_entry _ _ _); cbn [mbind outcome_bind]; [apply IH|done|done].
Qed.

(** What an entry says, wherever it is. *)
Definition entry_content (e : KeyEntry) : Z * bytes := (ke_tag e, default [] (ke_data e)).

(** The records found for a volume are a function of the entries that carry its UUID alone: two container keybags
    that agree on those give the same answer, so no other volume's key material is ever handed out; and a keybag without an entry of the
    volume is refused. *)
Theorem volume_records_isolated (kb1 kb2 uuid : bytes) :
  (map entry_content (of_volume uuid (keybag_entries kb1)) = map entry_content (of_volume uuid (keybag_entries kb2)) ->
   volume_records kb1 uuid = volume_records kb2 uuid) /\
  (of_volume uuid (keybag_entries kb1) = [] ->
   volume_records kb1 uuid = Err (FieldOutOfRange "container_keybag" "volume_unlock_records_absent" 0 1)).
Proof.
  unfold volume_records. rewrite !records_loop_entries. fold (keybag_entries kb1) (keybag_entries kb2).
  assert (forall es st, fold_res (fun st e => records_entry st (ke_tag e) (default [] (ke_data e))) st es =
    fold_res (fun st c => records_entry st c.1 c.2) st (map entry_content es)) as Hc.
  { induction es as [|e es IH]; intros st; [done|]. cbn [map fold_res entry_content fst snd].
    destruct (records_entry _ _ _); cbn [mbind outcome_bind]; [apply IH|done|done]. }
  split; [|by intros ->]. intros Heq. by rewrite !Hc, Heq.
Qed.

(** The key object of an entry of a volume keybag. *)
Definition kek_of (e : KeyEntry) : option bytes :=
  if bool_decide (from_u16 (ke_tag e) = WrappingKey) || bool_decide (from_u16 (ke_tag e) = VolumeUnlockRecords) then
    data ← ke_data e; ber_find (default data (ber_find data TAG_SEQUENCE)) TAG_NESTED_OBJECT
  else None.

Lemma find_kek_entries keybag : find_kek_object keybag = head (omap kek_of (keybag_entries keybag)).
Proof.
  unfold find_kek_object, keybag_entries. generalize KL_ENTRIES_OFF as off.
  induction (nkeys keybag) as [|n IH]; intros off; cbn [find_kek_loop keybag_entries_from]; [done|].
  destruct (_ <? _); [done|]. cbn [omap list_omap]. unfold kek_of at 1. cbn [ke_tag ke_data].
  destruct (if _ || _ then _ else None); [done|apply IH].
Qed.

(** ** Safety *)

Lemma records_entry_not_Panic st tag data : records_entry st tag data <> Panic.
Proof.
  unfold records_entry. destruct (from_u16 tag); try done; [|by destruct (_ <? _)].
  destruct (ber_find (default _ _) _) as [obj|]; [|done]. cbn [ok_or mbind outcome_bind].
  destruct (ber_find obj _) as [inner|]; [|done]. cbn [ok_or mbind outcome_bind]. by destruct (negb _).
Qed.

Lemma volume_records_not_Panic keybag uuid : volume_records keybag uuid <> Panic.
Proof.
  unfold volume_records. rewrite records_loop_entries.
  match goal with |- context [fold_res ?f ?s ?l] => pose proof (fold_res_not_Panic f l s) as Hf; destruct (fold_res f s l) as [[[w|] [[b c]|]]| |] end;
    try done. intros _. apply Hf; [|done]. intros. apply records_entry_not_Panic.
Qed.
