(* ===== verification/Unlock.v ===== *)
(** The unlock chain (core/src/encryption.rs): the container keybag, the volume keybag, the key-encryption key and the volume key.

    AES key wrap and PBKDF2 are external crates: [KeyCrypto] is their interface. *)

From S2P Require Import Prelude Bytes Errors Encryption Ber Keybag.

Set Warnings "-register-all".

(** ** The container keybag *)

Definition NX_BLOCK_SIZE : Z := 0x024.
Definition NX_CONTAINER_UUID : Z := 0x048.
Definition NX_KEYBAG_BLOCK : Z := 0x510.
Definition NX_KEYBAG_BLOCKS : Z := 0x518.
Definition KEYBAG_SECTOR : Z := 512.
Definition NXSB_MAGIC : bytes := [x4e; x58; x53; x42].

Definition keylocker_bad (field : string) (value cap : Z) : ApfsError :=
  FieldOutOfRange "nx_keylocker" field value cap.

Section Decrypt.
Context `{XtsCipher}.

(** The module's own [xts_decrypt_area]: the UUID is both XTS keys. *)
Definition keybag_xts_decrypt_area (ct uuid : bytes) (first_sector : Z) : result bytes :=
  xts_decrypt_area uuid uuid first_sector ct.

Definition decrypt_keybag_area (ct uuid : bytes) (first_sector : Z) : result bytes :=
  keybag_xts_decrypt_area ct uuid first_sector.

Definition decrypt_container_keybag_with_uuid (image uuid : bytes) : result bytes :=
  if negb (bool_decide (get_range image 32 36 = Some NXSB_MAGIC)) then Err (keylocker_bad "magic" 0 1)
  else
    let block_size := le_u32 image NX_BLOCK_SIZE in
    if (block_size =? 0) || negb (block_size mod KEYBAG_SECTOR =? 0)
    then Err (keylocker_bad "block_size" block_size KEYBAG_SECTOR)
    else
      let paddr := le_u64 image NX_KEYBAG_BLOCK in
      let blocks := le_u64 image NX_KEYBAG_BLOCKS in
      if (paddr =? 0) || (blocks =? 0) then Err (keylocker_bad "keylocker_extent" paddr blocks)
      else
        start ← ok_or (checked_mul paddr block_size) (keylocker_bad "keybag_offset" paddr block_size);
        len ← ok_or (checked_mul blocks block_size) (keylocker_bad "keybag_length" blocks block_size);
        end_ ← ok_or (checked_add start len) (keylocker_bad "keybag_end" start len);
        ct ← ok_or (get_range image start end_) (keylocker_bad "keybag_past_image" end_ (blen image));
        decrypt_keybag_area ct uuid (start / KEYBAG_SECTOR).

Definition decrypt_container_keybag (image : bytes) : result bytes :=
  uuid ← ok_or (get_range image NX_CONTAINER_UUID (NX_CONTAINER_UUID + 16))
           (FieldOutOfRange "nx_superblock" "container_uuid" (blen image) (NX_CONTAINER_UUID + 16));
  decrypt_container_keybag_with_uuid image uuid.
End Decrypt.

(** ** Unlocking *)

(** The crates aes-kw and pbkdf2: unwrapping refuses ([None]) when the integrity check fails, and gives eight bytes less than it was
    given; derivation fails only on an output length it cannot fill. *)
Class KeyCrypto := {
  aes_kw_unwrap : bytes -> bytes -> option bytes;
  pbkdf2_hmac_sha256 : bytes -> bytes -> Z -> Z -> option bytes;
  aes_kw_unwrap_len : forall kek w k, aes_kw_unwrap kek w = Some k -> blen k + 8 = blen w;
  pbkdf2_len : forall pw salt n len k, pbkdf2_hmac_sha256 pw salt n len = Some k -> blen k = len;
}.

Record UnlockedVolume := { uv_vek : bytes }.

Section Unlock.
Context `{XtsCipher} `{KeyCrypto}.

Definition aes_key_unwrap (kek wrapped : bytes) : result bytes :=
  ok_or (aes_kw_unwrap kek wrapped) (FieldOutOfRange "aes_key_wrap" "integrity_check" 0 1).

Definition derive_key_from_password (password salt : bytes) (iterations out_len : Z) : bytes :=
  default [] (pbkdf2_hmac_sha256 password salt (Z.max iterations 1) out_len).

Definition vkb_bad (field : string) (value cap : Z) : ApfsError :=
  FieldOutOfRange "unlock_with_volume_keybag" field value cap.

(** [slice.try_into()] to an array of [n] bytes. *)
Definition to_array (n : Z) (s : bytes) (field : string) : result bytes :=
  if blen s =? n then Ok s else Err (vkb_bad field (blen s) n).

Definition unlock_with_volume_keybag (volume_keybag : bytes) (records : VolumeRecords) (password : bytes)
  : result UnlockedVolume :=
  obj ← ok_or (find_kek_object volume_keybag) (vkb_bad "kek_object_absent" (blen volume_keybag) 1);
  kek_info ← parse_wrapped_kek obj;
  derived ← to_array 32 (derive_key_from_password password (wk_salt kek_info) (wk_iterations kek_info) 32)
              "derived_key_len";
  wrapped_kek ← to_array 40 (wk_wrapped_key kek_info) "wrapped_kek_len";
  kek_v ← aes_key_unwrap derived wrapped_kek;
  kek ← to_array 32 kek_v "kek_len";
  wrapped_vek ← to_array 40 (vr_wrapped_vek records) "wrapped_vek_len";
  vek ← aes_key_unwrap kek wrapped_vek;
  Ok {| uv_vek := vek |}.

Definition unlock_bad (field : string) (value cap : Z) : ApfsError :=
  FieldOutOfRange "unlock_volume" field value cap.

Definition unlock_volume (image volume_uuid password : bytes) : result UnlockedVolume :=
  container_kb ← decrypt_container_keybag image;
  rec ← volume_records container_kb volume_uuid;
  let block_size := le_u32 image NX_BLOCK_SIZE in
  start ← ok_or (checked_mul (vr_volume_keybag_block rec) block_size)
            (unlock_bad "vkb_offset" (vr_volume_keybag_block rec) block_size);
  len ← ok_or (checked_mul (vr_volume_keybag_blocks rec) block_size)
          (unlock_bad "vkb_length" (vr_volume_keybag_blocks rec) block_size);
  end_ ← ok_or (checked_add start len) (unlock_bad "vkb_end" start len);
  ct ← ok_or (get_range image start end_) (unlock_bad "vkb_past_image" end_ (blen image));
  volume_kb ← decrypt_keybag_area ct volume_uuid (start / KEYBAG_SECTOR);
  unlock_with_volume_keybag volume_kb rec password.
End Unlock.

(** ** Safety *)

Section Safety.
Context `{XtsCipher} `{KeyCrypto}.

(** An extent of whole blocks read out of the image decrypts without a panic. *)
Lemma extent_decrypts (image uuid : bytes) (block_size paddr blocks start len end_ sector : Z) (ct : bytes) (e1 e2 e3 e4 : ApfsError) :
  block_size mod KEYBAG_SECTOR = 0 ->
  ok_or (checked_mul paddr block_size) e1 = Ok start -> ok_or (checked_mul blocks block_size) e2 = Ok len ->
  ok_or (checked_add start len) e3 = Ok end_ -> ok_or (get_range image start end_) e4 = Ok ct ->
  decrypt_keybag_area ct uuid sector <> Panic.
Proof.
  intros Hm Hs Hl He Hct. apply ok_or_Ok_iff in Hl, He, Hct. apply checked_mul_Some in Hl as [-> _].
  apply checked_add_Some in He as [-> _]. apply get_range_len in Hct.
  unfold decrypt_keybag_area, keybag_xts_decrypt_area.
  destruct (xts_whole_sectors uuid uuid sector ct) as (out & -> & _); [|done].
  replace (blen ct) with (blocks * block_size) by lia. unfold KEYBAG_SECTOR in Hm.
  change APFS_CRYPTO_SECTOR with 512. by rewrite Z.mul_mod, Hm, Z.mul_0_r by lia.
Qed.

Lemma to_array_not_Panic n s field : to_array n s field <> Panic.
Proof. unfold to_array. by destruct (_ =? _). Qed.

Lemma unlock_with_not_Panic vkb rec pw : unlock_with_volume_keybag vkb rec pw <> Panic.
Proof.
  unfold unlock_with_volume_keybag, aes_key_unwrap. intros Hp.
  repeat match goal with
  | H : _ ≫= _ = Panic |- _ =>
      apply bind_Panic_iff in H as [H|(? & _ & H)];
        [by apply ok_or_not_Panic in H || apply parse_wrapped_kek_not_Panic in H || apply to_array_not_Panic in H|]
  end. done.
Qed.

(** [bind_panic]: split a panic of a chain of [?] into the step it is from. *)
Ltac bind_panic H x Hx := apply bind_Panic_iff in H as [H|(x & Hx & H)]; [by apply ok_or_not_Panic in H|].

Lemma decrypt_container_not_Panic image : decrypt_container_keybag image <> Panic.
Proof.
  unfold decrypt_container_keybag, decrypt_container_keybag_with_uuid. intros Hp. bind_panic Hp cu Hcu.
  destruct (negb (bool_decide _)); [done|]. cbv zeta in Hp. destruct (_ || negb _) eqn:Hb; [done|].
  destruct ((le_u64 _ _ =? 0) || _); [done|].
  bind_panic Hp start Hs. bind_panic Hp len Hl. bind_panic Hp end_ He. bind_panic Hp ct Hct.
  eapply extent_decrypts; [|exact Hs|exact Hl|exact He|exact Hct|exact Hp]. by bool_cases.
Qed.

Lemma decrypt_container_gates image kb :
  decrypt_container_keybag image = Ok kb -> le_u32 image NX_BLOCK_SIZE mod KEYBAG_SECTOR = 0.
Proof.
  unfold decrypt_container_keybag, decrypt_container_keybag_with_uuid. intros (cu & _ & Hp)%bind_Ok_iff.
  destruct (negb (bool_decide _)); [done|]. cbv zeta in Hp. destruct (_ || negb _) eqn:Hb; [done|]. by bool_cases.
Qed.

(** C33 (safety): recovering a volume key from any image, any UUID and any password returns, with a key or a named error: no keybag,
    element length, extent or block size makes it panic, read outside the image or fail to end. *)
Theorem unlock_volume_never_panics (image volume_uuid password : bytes) :
  unlock_volume image volume_uuid password <> Panic.
Proof.
  unfold unlock_volume. intros [Hp|(ckb & Hc & Hp)]%bind_Panic_iff; [by eapply decrypt_container_not_Panic|].
  apply decrypt_container_gates in Hc as Hm. apply bind_Panic_iff in Hp as [Hp|(rec & _ & Hp)]; [by eapply volume_records_not_Panic|].
  cbv zeta in Hp. bind_panic Hp start Hs. bind_panic Hp len Hl. bind_panic Hp end_ He. bind_panic Hp ct Hct.
  apply bind_Panic_iff in Hp as [Hp|(vkb & _ & Hp)]; [|by eapply unlock_with_not_Panic].
  eapply extent_decrypts; [exact Hm|exact Hs|exact Hl|exact He|exact Hct|exact Hp].
Qed.
End Safety.

(** ** The chain, end to end *)

(** What the writer of a locked volume chose: the container's UUID, the two keybags in plain, the volume's records, its key object and the keys. *)
Record chain := {
  ch_container_uuid : bytes;
  ch_container_keybag : bytes;
  ch_records : VolumeRecords;
  ch_volume_keybag : bytes;
  ch_object : bytes;
  ch_info : WrappedKek;
  ch_kek : bytes;
  ch_vek : bytes;
}.

Section Chain.
Context `{XtsCipher} `{KeyCrypto}.

(** The inverses such a writer uses: XTS encryption of whole sectors, RFC 3394 wrapping of 32-byte keys. *)
Context (xts_encrypt_area : bytes -> bytes -> Z -> bytes -> bytes) (aes_kw_wrap : bytes -> bytes -> bytes).
Hypothesis xts_inverse : forall k1 k2 sector data,
  blen data mod 512 = 0 -> xts_decrypt_area k1 k2 sector (xts_encrypt_area k1 k2 sector data) = Ok data.
Hypothesis kw_inverse : forall kek k,
  blen kek = 32 -> blen k = 32 -> blen (aes_kw_wrap kek k) = 40 /\ aes_kw_unwrap kek (aes_kw_wrap kek k) = Some k.

(** A keybag stored over [blocks] blocks at [paddr], encrypted under [uuid] from its own first sector. *)
Record keybag_at (image : bytes) (block_size paddr blocks : Z) (uuid kb : bytes) : Prop := {
  kba_pos : 0 <= paddr /\ 0 <= blocks;
  kba_len : blen kb = blocks * block_size;
  kba_end : paddr * block_size + blocks * block_size < u64_limit;
  kba_stored : get_range image (paddr * block_size) (paddr * block_size + blocks * block_size) =
                 Some (xts_encrypt_area uuid uuid (paddr * block_size / 512) kb);
}.

(** The key a password stretches to, with the salt and count of a key object. *)
Definition stretched (info : WrappedKek) (password : bytes) : option bytes :=
  pbkdf2_hmac_sha256 password (wk_salt info) (Z.max (wk_iterations info) 1) 32.

(** The image holds the chain for volume [vu], locked with [password]. *)
Record locked (image vu password : bytes) (c : chain) : Prop := {
  lk_magic : get_range image 32 36 = Some NXSB_MAGIC;
  lk_block_size : 0 < le_u32 image NX_BLOCK_SIZE /\ le_u32 image NX_BLOCK_SIZE mod 512 = 0;
  lk_uuid : get_range image NX_CONTAINER_UUID (NX_CONTAINER_UUID + 16) = Some (ch_container_uuid c);
  lk_extent : le_u64 image NX_KEYBAG_BLOCK <> 0 /\ le_u64 image NX_KEYBAG_BLOCKS <> 0;
  lk_container : keybag_at image (le_u32 image NX_BLOCK_SIZE) (le_u64 image NX_KEYBAG_BLOCK)
                   (le_u64 image NX_KEYBAG_BLOCKS) (ch_container_uuid c) (ch_container_keybag c);
  lk_records : volume_records (ch_container_keybag c) vu = Ok (ch_records c);
  lk_volume : keybag_at image (le_u32 image NX_BLOCK_SIZE) (vr_volume_keybag_block (ch_records c))
                (vr_volume_keybag_blocks (ch_records c)) vu (ch_volume_keybag c);
  lk_object : find_kek_object (ch_volume_keybag c) = Some (ch_object c);
  lk_info : parse_wrapped_kek (ch_object c) = Ok (ch_info c);
  lk_kek : exists derived, stretched (ch_info c) password = Some derived /\
             wk_wrapped_key (ch_info c) = aes_kw_wrap derived (ch_kek c);
  lk_vek : vr_wrapped_vek (ch_records c) = aes_kw_wrap (ch_kek c) (ch_vek c);
  lk_lens : blen (ch_kek c) = 32 /\ blen (ch_vek c) = 32;
}.

(** From an extent to its ciphertext. *)
Lemma keybag_at_reads {A} image bs paddr blocks uuid kb (e1 e2 : ApfsError) (e3 : Z -> Z -> ApfsError) (e4 : Z -> ApfsError)
    (k : Z -> bytes -> result A) :
  keybag_at image bs paddr blocks uuid kb ->
  (start ← ok_or (checked_mul paddr bs) e1;
   len ← ok_or (checked_mul blocks bs) e2;
   end_ ← ok_or (checked_add start len) (e3 start len);
   ct ← ok_or (get_range image start end_) (e4 end_);
   k start ct) = k (paddr * bs) (xts_encrypt_area uuid uuid (paddr * bs / 512) kb).
Proof.
  intros [[Hp Hb] Hl He Hst]. apply get_range_Some in Hst as Hr. destruct Hr as ([Hr0 Hr1] & _).
  rewrite (proj2 (checked_mul_Some paddr bs _)) by (split; [reflexivity|lia]). cbn [ok_or mbind outcome_bind].
  rewrite (proj2 (checked_mul_Some blocks bs _)) by (split; [reflexivity|lia]). cbn [ok_or mbind outcome_bind].
  rewrite (proj2 (checked_add_Some _ _ _)) by (split; [reflexivity|lia]). cbn [ok_or mbind outcome_bind].
  by rewrite Hst.
Qed.

Lemma keybag_at_decrypts image bs paddr blocks uuid kb :
  bs mod 512 = 0 -> keybag_at image bs paddr blocks uuid kb ->
  decrypt_keybag_area (xts_encrypt_area uuid uuid (paddr * bs / 512) kb) uuid (paddr * bs / KEYBAG_SECTOR) = Ok kb.
Proof.
  intros Hm Hk. unfold decrypt_keybag_area, keybag_xts_decrypt_area, KEYBAG_SECTOR. apply xts_inverse.
  by rewrite (kba_len _ _ _ _ _ _ Hk), Z.mul_mod, Hm, Z.mul_0_r by lia.
Qed.

(** Up to the volume keybag the password plays no part. *)
Lemma locked_unlock image vu password c pw :
  locked image vu password c ->
  unlock_volume image vu pw = unlock_with_volume_keybag (ch_volume_keybag c) (ch_records c) pw.
Proof.
  intros Hl. destruct (lk_block_size _ _ _ _ Hl) as [Hbs Hm]. destruct (lk_extent _ _ _ _ Hl) as [Hp Hb].
  unfold unlock_volume. assert (decrypt_container_keybag image = Ok (ch_container_keybag c)) as ->.
  { unfold decrypt_container_keybag. rewrite (lk_uuid _ _ _ _ Hl). cbn [ok_or mbind outcome_bind].
    unfold decrypt_container_keybag_with_uuid. rewrite bool_decide_true by apply (lk_magic _ _ _ _ Hl). cbn [negb]. cbv zeta.
    rewrite (proj2 (Z.eqb_neq (le_u32 image NX_BLOCK_SIZE) 0)) by lia. cbn [orb]. unfold KEYBAG_SECTOR at 1. rewrite Hm. cbn [Z.eqb negb].
    apply Z.eqb_neq in Hp as ->. apply Z.eqb_neq in Hb as ->. cbn [orb].
    rewrite (keybag_at_reads image _ _ _ _ _ _ _ (keylocker_bad "keybag_end")
      (fun end_ => keylocker_bad "keybag_past_image" end_ (blen image))
      (fun start ct => decrypt_keybag_area ct (ch_container_uuid c) (start / KEYBAG_SECTOR)) (lk_container _ _ _ _ Hl)).
    eapply keybag_at_decrypts; [exact Hm|apply (lk_container _ _ _ _ Hl)]. }
  cbn [mbind outcome_bind]. rewrite (lk_records _ _ _ _ Hl). cbn [mbind outcome_bind]. cbv zeta.
  rewrite (keybag_at_reads image _ _ _ _ _ _ _ (unlock_bad "vkb_end")
    (fun end_ => unlock_bad "vkb_past_image" end_ (blen image))
    (fun start ct => kb ← decrypt_keybag_area ct vu (start / KEYBAG_SECTOR);
                     unlock_with_volume_keybag kb (ch_records c) pw) (lk_volume _ _ _ _ Hl)).
  by rewrite (keybag_at_decrypts _ _ _ _ _ _ Hm (lk_volume _ _ _ _ Hl)).
Qed.

Lemma to_array_ok n s field : blen s = n -> to_array n s field = Ok s.
Proof. intros <-. unfold to_array. by rewrite Z.eqb_refl. Qed.

Lemma unlock_with_stretched vkb rec obj info pw derived :
  find_kek_object vkb = Some obj -> parse_wrapped_kek obj = Ok info ->
  stretched info pw = Some derived -> blen (wk_wrapped_key info) = 40 ->
  unlock_with_volume_keybag vkb rec pw =
    (kek_v ← aes_key_unwrap derived (wk_wrapped_key info);
     kek ← to_array 32 kek_v "kek_len";
     wrapped_vek ← to_array 40 (vr_wrapped_vek rec) "wrapped_vek_len";
     vek ← aes_key_unwrap kek wrapped_vek;
     Ok {| uv_vek := vek |}).
Proof.
  intros Ho Hi Hd Hw. unfold unlock_with_volume_keybag. rewrite Ho. cbn [ok_or mbind outcome_bind]. rewrite Hi.
  cbn [mbind outcome_bind]. unfold derive_key_from_password. unfold stretched in Hd. rewrite Hd. cbn [default].
  apply pbkdf2_len in Hd. rewrite (to_array_ok 32 derived) by done. cbn [mbind outcome_bind].
  by rewrite (to_array_ok 40 (wk_wrapped_key info)).
Qed.

(** C19 (round trip): on an image that holds the chain for a volume, the password it was locked with recovers the volume key, through both keybags, the stretched
    password and both wrapped keys; a password whose stretched key the key-wrap integrity check refuses gives that error and never a key. *)
Theorem unlock_volume_roundtrip (image vu password : bytes) (c : chain) :
  locked image vu password c ->
  unlock_volume image vu password = Ok {| uv_vek := ch_vek c |} /\
  (forall pw derived, stretched (ch_info c) pw = Some derived ->
     aes_kw_unwrap derived (wk_wrapped_key (ch_info c)) = None ->
     unlock_volume image vu pw = Err (FieldOutOfRange "aes_key_wrap" "integrity_check" 0 1)).
Proof.
  intros Hl. destruct (lk_kek _ _ _ _ Hl) as (derived & Hd & Hw). destruct (lk_lens _ _ _ _ Hl) as [Hk Hv].
  assert (blen derived = 32) as Hdl by by eapply pbkdf2_len.
  destruct (kw_inverse derived (ch_kek c) Hdl Hk) as [Hwl Hun]. rewrite <-Hw in Hwl, Hun. split.
  - rewrite (locked_unlock _ _ _ _ password Hl), (unlock_with_stretched _ _ _ _ _ _ (lk_object _ _ _ _ Hl) (lk_info _ _ _ _ Hl) Hd Hwl).
    unfold aes_key_unwrap. rewrite Hun. cbn [ok_or mbind outcome_bind]. rewrite (to_array_ok 32 (ch_kek c)) by done. cbn [mbind outcome_bind].
    destruct (kw_inverse (ch_kek c) (ch_vek c) Hk Hv) as [Hvl Hvu]. rewrite <-(lk_vek _ _ _ _ Hl) in Hvl, Hvu.
    rewrite to_array_ok by done. cbn [mbind outcome_bind]. by rewrite Hvu.
  - intros pw d Hs Hn. rewrite (locked_unlock _ _ _ _ pw Hl), (unlock_with_stretched _ _ _ _ _ _ (lk_object _ _ _ _ Hl) (lk_info _ _ _ _ Hl) Hs Hwl).
    unfold aes_key_unwrap. by rewrite Hn.
Qed.

(** C40 (error): only the first key object of a volume keybag is ever tried: a password that object refuses is refused as wrong, whatever objects
    follow it, one that the password opens included. *)
Theorem later_key_objects_ignored (vkb : bytes) (rec : VolumeRecords) (pw obj derived : bytes) (rest : list bytes) (info : WrappedKek) :
  omap kek_of (keybag_entries vkb) = obj :: rest -> parse_wrapped_kek obj = Ok info -> blen (wk_wrapped_key info) = 40 ->
  stretched info pw = Some derived -> aes_kw_unwrap derived (wk_wrapped_key info) = None ->
  unlock_with_volume_keybag vkb rec pw = Err (FieldOutOfRange "aes_key_wrap" "integrity_check" 0 1).
Proof.
  intros Hes Hi Hw Hd Hn. assert (find_kek_object vkb = Some obj) as Ho by by rewrite find_kek_entries, Hes.
  rewrite (unlock_with_stretched _ _ _ _ _ _ Ho Hi Hd Hw). unfold aes_key_unwrap. by rewrite Hn.
Qed.
End Chain.

(** ** A locked image *)

Definition encode_entry (uuid : bytes) (tag : Z) (data : bytes) : bytes :=
  let body := uuid ++ to_le_bytes 2 tag ++ to_le_bytes 2 (blen data) ++ replicate 4 x00 ++ data in
  body ++ replicate (Z.to_nat ((- blen body) mod 16)) x00.
Definition encode_keybag (size : nat) (entries : list bytes) : bytes :=
  resize size x00 (replicate 32 x00 ++ to_le_bytes 2 2 ++ to_le_bytes 2 (blen entries) ++ replicate 12 x00 ++ concat entries).

(** Key wrap as a check suffix of the key and stretching as padding: enough to run the chain. *)
Definition demo_wrap (kek k : bytes) : bytes := k ++ take 8 kek.
#[export] Program Instance demo_crypto : KeyCrypto := {|
  aes_kw_unwrap kek w :=
    if bool_decide (8 <= length w)%nat && bool_decide (drop (length w - 8) w = take 8 kek)
    then Some (take (length w - 8) w) else None;
  pbkdf2_hmac_sha256 pw salt _ len := if 0 <=? len then Some (resize (Z.to_nat len) x00 (pw ++ salt)) else None
|}.
Next Obligation.
  intros kek w k. cbv beta. case_bool_decide as Hl; [|done]. destruct (bool_decide _); [|done]. cbn [andb]. intros [= <-].
  unfold blen. rewrite length_take. lia.
Qed.
Next Obligation.
  intros pw salt n len k. cbn. destruct (Z.leb_spec 0 len); [|done]. intros [= <-]. unfold blen. rewrite length_resize. lia.
Qed.

Definition demo_password : bytes := replicate 8 x70.
Definition other_password : bytes := replicate 8 x71.
Definition demo_salt : bytes := replicate 16 x53.
Definition demo_kek : bytes := replicate 32 x4b.
Definition demo_vek : bytes := replicate 32 x56.
Definition demo_vu : bytes := replicate 16 xaa.
Definition demo_cu : bytes := replicate 16 xcc.

Definition demo_info (password : bytes) : WrappedKek :=
  {| wk_wrapped_key := demo_wrap (resize 32 x00 (password ++ demo_salt)) demo_kek; wk_iterations := 10000; wk_salt := demo_salt |}.
(** An object with a field of another tag, as real ones have. *)
Definition demo_object (password : bytes) : bytes :=
  encode_tlvs [(x81, replicate 16 x01); (TAG_WRAPPED_KEK, wk_wrapped_key (demo_info password)); (TAG_ITERATIONS, [x27; x10]);
               (TAG_SALT, demo_salt)].
Definition demo_packed (obj : bytes) : bytes := encode_tlvs [(TAG_SEQUENCE, encode_tlvs [(x80, [x00]); (TAG_NESTED_OBJECT, obj)])].
Definition demo_ckb : bytes :=
  encode_keybag 512
    [ encode_entry demo_cu 2 (demo_packed (encode_tlvs [(TAG_WRAPPED_KEY, replicate 40 xee)]));
      encode_entry demo_vu 2 (demo_packed (encode_tlvs [(TAG_WRAPPED_KEY, demo_wrap demo_kek demo_vek)]));
      encode_entry demo_vu 3 (to_le_bytes 8 4 ++ to_le_bytes 8 1) ].
Definition demo_vkb (passwords : list bytes) : bytes :=
  encode_keybag 512 (map (fun pw => encode_entry demo_vu 3 (demo_packed (demo_object pw))) passwords).
Definition demo_locked : bytes :=
  put (put (put (put (put (replicate 1536 x00) 32 NXSB_MAGIC) NX_BLOCK_SIZE (to_le_bytes 4 512)) NX_CONTAINER_UUID demo_cu)
    NX_KEYBAG_BLOCK (to_le_bytes 8 3)) NX_KEYBAG_BLOCKS (to_le_bytes 8 1) ++ demo_ckb ++ demo_vkb [demo_password].
Definition demo_records : VolumeRecords :=
  {| vr_wrapped_vek := demo_wrap demo_kek demo_vek; vr_volume_keybag_block := 4; vr_volume_keybag_blocks := 1 |}.
Definition demo_chain : chain :=
  {| ch_container_uuid := demo_cu; ch_container_keybag := demo_ckb; ch_records := demo_records;
     ch_volume_keybag := demo_vkb [demo_password]; ch_object := demo_object demo_password; ch_info := demo_info demo_password;
     ch_kek := demo_kek; ch_vek := demo_vek |}.

Lemma demo_is_locked : locked (fun _ _ _ data => data) demo_wrap demo_locked demo_vu demo_password demo_chain.
Proof.
  split; try (split; vm_compute; (reflexivity || discriminate)); try (vm_compute; reflexivity).
  - split; try (vm_compute; reflexivity). split; vm_compute; discriminate.
  - split; try (vm_compute; reflexivity). split; vm_compute; discriminate.
  - exists (resize 32 x00 (demo_password ++ demo_salt)). split; vm_compute; reflexivity.
Qed.

Lemma demo_kw_inverse kek k :
  blen kek = 32 -> blen k = 32 -> blen (demo_wrap kek k) = 40 /\ aes_kw_unwrap kek (demo_wrap kek k) = Some k.
Proof.
  intros Hkek Hk. assert (length (take 8 kek) = 8%nat) as Ht by (rewrite length_take; unfold blen in *; lia).
  assert (length (demo_wrap kek k) = 40%nat) as Hl by (unfold demo_wrap; rewrite length_app, Ht; unfold blen in *; lia).
  split; [unfold blen; rewrite Hl; lia|]. cbn [aes_kw_unwrap demo_crypto]. rewrite Hl.
  assert (length k = 32%nat) as Hk' by (unfold blen in *; lia). change (40 - 8)%nat with 32%nat. unfold demo_wrap. rewrite <-Hk', drop_app_length, take_app_length.
  by rewrite !bool_decide_true by (done || lia).
Qed.

Lemma demo_xts_inverse (k1 k2 : bytes) (sector : Z) (data : bytes) :
  blen data mod 512 = 0 -> xts_decrypt_area k1 k2 sector data = Ok data.
Proof. done. Qed.

Lemma unlock_volume_roundtrip_witness :
  unlock_volume demo_locked demo_vu demo_password = Ok {| uv_vek := demo_vek |} /\
  unlock_volume demo_locked demo_vu other_password = Err (FieldOutOfRange "aes_key_wrap" "integrity_check" 0 1).
Proof.
  destruct (unlock_volume_roundtrip (fun _ _ _ data => data) demo_wrap demo_xts_inverse demo_kw_inverse
    demo_locked demo_vu demo_password demo_chain demo_is_locked) as [Hok Hbad].
  split; [exact Hok|]. apply (Hbad other_password (resize 32 x00 (other_password ++ demo_salt))); vm_compute; reflexivity.
Defined.

(** Two users, the second of whom is locked out although the volume keybag holds an object their password opens. *)
Lemma later_key_objects_ignored_witness :
  unlock_with_volume_keybag (demo_vkb [demo_password; other_password]) demo_records other_password =
    Err (FieldOutOfRange "aes_key_wrap" "integrity_check" 0 1) /\
  unlock_with_volume_keybag (demo_vkb [other_password]) demo_records other_password = Ok {| uv_vek := demo_vek |}.
Proof.
  split; [|vm_compute; reflexivity].
  apply (later_key_objects_ignored (demo_vkb [demo_password; other_password]) demo_records other_password
    (demo_object demo_password) (resize 32 x00 (other_password ++ demo_salt)) [demo_object other_password] (demo_info demo_password));
    vm_compute; reflexivity.
Defined.

Lemma volume_records_isolated_witness :
  volume_records demo_ckb demo_vu = volume_records (encode_keybag 512 (drop 1
    [ []; encode_entry demo_vu 2 (demo_packed (encode_tlvs [(TAG_WRAPPED_KEY, demo_wrap demo_kek demo_vek)]));
      encode_entry demo_vu 3 (to_le_bytes 8 4 ++ to_le_bytes 8 1) ])) demo_vu.
Proof. apply (proj1 (volume_records_isolated demo_ckb _ demo_vu)). vm_compute. reflexivity. Defined.

Lemma parse_wrapped_kek_spec_witness : parse_wrapped_kek (demo_object demo_password) = Ok (demo_info demo_password).
Proof.
  apply (proj2 (parse_wrapped_kek_spec
    [(x81, replicate 16 x01); (TAG_WRAPPED_KEK, wk_wrapped_key (demo_info demo_password)); (TAG_ITERATIONS, [x27; x10]);
     (TAG_SALT, demo_salt)] (demo_info demo_password) ltac:(repeat constructor) ltac:(vm_compute; reflexivity))).
  split; [split; [|split]; repeat constructor; vm_compute; discriminate|].
  split; [vm_compute; reflexivity|]. split; [|vm_compute; reflexivity].
  exists [x27; x10]. split; vm_compute; reflexivity.
Defined.

Example demo_read_keybag :
  match read_keybag demo_ckb with
  | Ok st => es_encrypted st = true /\ es_tags_present st = [VolumeKey; VolumeUnlockRecords] /\ es_unknown_tags st = []
  | _ => False
  end.
Proof. vm_compute. auto. Qed.
