(* ===== verification/Inode.v ===== *)
(** Inode records (core/src/inode.rs).

    [DateTime::from_timestamp] is chrono's; [ns_to_datetime] takes it as an argument. *)

From S2P Require Import Prelude Bytes Errors Walk BTree FsRecord.

(** [j_inode_val_t] field offsets (the source's [OFF_*], prefixed by the structure). *)
Definition INO_OFF_PARENT_ID : Z := 0.
Definition INO_OFF_PRIVATE_ID : Z := 8.
Definition INO_OFF_CREATE_TIME : Z := 16.
Definition INO_OFF_MOD_TIME : Z := 24.
Definition INO_OFF_CHANGE_TIME : Z := 32.
Definition INO_OFF_ACCESS_TIME : Z := 40.
Definition INO_OFF_INTERNAL_FLAGS : Z := 48.
Definition INO_OFF_NCHILDREN : Z := 56.
Definition INO_OFF_BSD_FLAGS : Z := 68.
Definition INO_OFF_OWNER : Z := 72.
Definition INO_OFF_GROUP : Z := 76.
Definition INO_OFF_MODE : Z := 80.
Definition INO_OFF_XFIELDS : Z := 92.
Definition INO_EXT_TYPE_NAME : Z := 4.
Definition INO_EXT_TYPE_DSTREAM : Z := 8.
Definition NS_PER_SEC : Z := 1000000000.

Record Inode := {
  ino_oid : Z;
  ino_parent_id : Z;
  ino_private_id : Z;
  ino_create_time : Z;
  ino_mod_time : Z;
  ino_change_time : Z;
  ino_access_time : Z;
  ino_internal_flags : Z;
  ino_nlink_or_nchildren : Z;
  ino_bsd_flags : Z;
  ino_uid : Z;
  ino_gid : Z;
  ino_mode : Z;
  ino_name : option bytes;
  ino_size : option Z;
}.

(** [x as i32] of a [u32]. *)
Definition as_i32 (x : Z) : Z := if x <? 2 ^ 31 then x else x - 2 ^ 32.

(** The xfield loop: the last name and the last data stream win. *)
Definition inode_xfield (st : option bytes * option Z) (f : Z * bytes) : option bytes * option Z :=
  let '(x_type, data) := f in
  if x_type =? INO_EXT_TYPE_NAME then (Some (decode_cstr data), st.2)
  else if x_type =? INO_EXT_TYPE_DSTREAM then (st.1, Some (le_u64 data 0))
  else st.

Definition Inode_parse (oid : Z) (value : bytes) : result Inode :=
  ns ← (if INO_OFF_XFIELDS <? blen value then
          fields ← parse_xfields (drop (Z.to_nat INO_OFF_XFIELDS) value);
          Ok (foldl inode_xfield (None, None) fields)
        else Ok (None, None));
  Ok {|
    ino_oid := oid;
    ino_parent_id := le_u64 value INO_OFF_PARENT_ID;
    ino_private_id := le_u64 value INO_OFF_PRIVATE_ID;
    ino_create_time := le_u64 value INO_OFF_CREATE_TIME;
    ino_mod_time := le_u64 value INO_OFF_MOD_TIME;
    ino_change_time := le_u64 value INO_OFF_CHANGE_TIME;
    ino_access_time := le_u64 value INO_OFF_ACCESS_TIME;
    ino_internal_flags := le_u64 value INO_OFF_INTERNAL_FLAGS;
    ino_nlink_or_nchildren := as_i32 (le_u32 value INO_OFF_NCHILDREN);
    ino_bsd_flags := le_u32 value INO_OFF_BSD_FLAGS;
    ino_uid := le_u32 value INO_OFF_OWNER;
    ino_gid := le_u32 value INO_OFF_GROUP;
    ino_mode := le_u16 value INO_OFF_MODE;
    ino_name := fst ns;
    ino_size := snd ns;
  |}.

Definition ns_to_datetime {DateTime} (from_timestamp : Z -> Z -> option DateTime) (ns : Z)
  : option DateTime :=
  let secs := ns / NS_PER_SEC in
  let nanos := ns mod NS_PER_SEC in
  from_timestamp secs nanos.

Section Moments.
Context {DateTime} (from_timestamp : Z -> Z -> option DateTime).
Definition created (i : Inode) : option DateTime := ns_to_datetime from_timestamp (ino_create_time i).
Definition modified (i : Inode) : option DateTime := ns_to_datetime from_timestamp (ino_mod_time i).
Definition changed (i : Inode) : option DateTime := ns_to_datetime from_timestamp (ino_change_time i).
Definition accessed (i : Inode) : option DateTime := ns_to_datetime from_timestamp (ino_access_time i).
End Moments.

(** ** Totality and the round trip *)

Lemma Inode_parse_total oid value : exists i, Inode_parse oid value = Ok i /\ ino_oid i = oid.
Proof.
  unfold Inode_parse. destruct (_ <? _); [|cbn; eauto].
  destruct (parse_xfields_total (drop (Z.to_nat INO_OFF_XFIELDS) value)) as (l & -> & _). cbn. eauto.
Qed.

Lemma Inode_parse_not_Panic oid value : Inode_parse oid value <> Panic.
Proof. destruct (Inode_parse_total oid value) as (i & -> & _). done. Qed.
#[export] Hint Resolve Inode_parse_not_Panic : apfs.

(** The fields of a parsed inode have the widths of their Rust types. *)
Definition inode_typed (i : Inode) : Prop :=
  Forall (fun z => 0 <= z < 2 ^ 64)
    [ino_parent_id i; ino_private_id i; ino_create_time i; ino_mod_time i; ino_change_time i; ino_access_time i;
     ino_internal_flags i; default 0 (ino_size i)] /\
  Forall (fun z => 0 <= z < 2 ^ 32) [ino_bsd_flags i; ino_uid i; ino_gid i] /\
  0 <= ino_mode i < 2 ^ 16 /\ - 2 ^ 31 <= ino_nlink_or_nchildren i < 2 ^ 31.

Lemma inode_xfields_size fields st :
  0 <= default 0 st.2 < 2 ^ 64 -> 0 <= default 0 (foldl inode_xfield st fields).2 < 2 ^ 64.
Proof.
  revert st; induction fields as [|[ty data] fields IH]; intros st Hs; [done|]. cbn [foldl]. apply IH. unfold inode_xfield.
  destruct (_ =? _); [done|]. destruct (_ =? _); [|done]. apply le_u64_bound.
Qed.

Lemma Inode_parse_typed oid value i : Inode_parse oid value = Ok i -> inode_typed i.
Proof.
  unfold Inode_parse. intros Hp. apply bind_Ok_iff in Hp as (ns & Hns & [= <-]). unfold inode_typed.
  cbn [ino_parent_id ino_private_id ino_create_time ino_mod_time ino_change_time ino_access_time ino_internal_flags ino_size
    ino_bsd_flags ino_uid ino_gid ino_mode ino_nlink_or_nchildren].
  assert (0 <= default 0 (snd ns) < 2 ^ 64) as Hsz.
  { destruct (_ <? _); [|injection Hns as <-; done]. apply bind_Ok_iff in Hns as (fields & _ & [= <-]).
    by apply (inode_xfields_size fields (None, None)). }
  split; [repeat first [apply Forall_nil_2|apply Forall_cons_2; [apply le_u64_bound || exact Hsz|]]|].
  split; [repeat first [apply Forall_nil_2|apply Forall_cons_2; [apply le_u32_bound|]]|].
  split; [apply le_u16_bound|]. unfold as_i32. pose proof (le_u32_bound value INO_OFF_NCHILDREN). destruct (Z.ltb_spec (le_u32 value INO_OFF_NCHILDREN) (2 ^ 31)); lia.
Qed.

(** Every field of an inode within its on-disk width. *)
Record inode_wf (i : Inode) : Prop := {
  iwf_parent : 0 <= ino_parent_id i < 2 ^ 64;
  iwf_private : 0 <= ino_private_id i < 2 ^ 64;
  iwf_create : 0 <= ino_create_time i < 2 ^ 64;
  iwf_mod : 0 <= ino_mod_time i < 2 ^ 64;
  iwf_change : 0 <= ino_change_time i < 2 ^ 64;
  iwf_access : 0 <= ino_access_time i < 2 ^ 64;
  iwf_flags : 0 <= ino_internal_flags i < 2 ^ 64;
  iwf_links : - 2 ^ 31 <= ino_nlink_or_nchildren i < 2 ^ 31;
  iwf_bsd : 0 <= ino_bsd_flags i < 2 ^ 32;
  iwf_uid : 0 <= ino_uid i < 2 ^ 32;
  iwf_gid : 0 <= ino_gid i < 2 ^ 32;
  iwf_mode : 0 <= ino_mode i < 2 ^ 16;
  iwf_name : forall n, ino_name i = Some n -> Forall ascii_byte n /\ blen n < 2 ^ 16 - 1;
  iwf_size : forall z, ino_size i = Some z -> 0 <= z < 2 ^ 64;
}.

(** The extended fields of an inode: its name with a NUL, its data stream with the size first. *)
Definition inode_fields (i : Inode) : list (Z * bytes) :=
  match ino_name i with Some n => [(INO_EXT_TYPE_NAME, n ++ [x00])] | None => [] end ++
  match ino_size i with Some z => [(INO_EXT_TYPE_DSTREAM, to_le_bytes 8 z)] | None => [] end.

Definition encode_inode (i : Inode) : bytes :=
  (to_le_bytes 8 (ino_parent_id i) ++ to_le_bytes 8 (ino_private_id i) ++
   to_le_bytes 8 (ino_create_time i) ++ to_le_bytes 8 (ino_mod_time i) ++
   to_le_bytes 8 (ino_change_time i) ++ to_le_bytes 8 (ino_access_time i) ++
   to_le_bytes 8 (ino_internal_flags i) ++
   to_le_bytes 4 (ino_nlink_or_nchildren i mod 2 ^ 32) ++ replicate 8 x00 ++
   to_le_bytes 4 (ino_bsd_flags i) ++ to_le_bytes 4 (ino_uid i) ++ to_le_bytes 4 (ino_gid i) ++
   to_le_bytes 2 (ino_mode i) ++ replicate 10 x00) ++
  encode_xfields 0 (inode_fields i).

Lemma as_i32_mod x : - 2 ^ 31 <= x < 2 ^ 31 -> as_i32 (x mod 2 ^ 32) = x.
Proof.
  intros Hx. unfold as_i32. destruct (decide (0 <= x)).
  - rewrite Z.mod_small by lia. by rewrite (proj2 (Z.ltb_lt _ _)) by lia.
  - rewrite <-(Z.mod_add x 1 (2 ^ 32)), Z.mod_small by lia. rewrite (proj2 (Z.ltb_ge _ _)) by lia. lia.
Qed.

Lemma inode_fields_ok i : inode_wf i -> Forall xf_ok (inode_fields i) /\ blen (inode_fields i) <= 2.
Proof.
  intros Hw. unfold inode_fields. split.
  - apply Forall_app. split.
    + destruct (ino_name i) as [n|] eqn:Hn; constructor; [|constructor].
      apply (iwf_name _ Hw) in Hn as [_ Hl]. split; cbn [fst snd]; [done|].
      rewrite blen_app. change (blen [x00]) with 1. lia.
    + destruct (ino_size i); constructor; [|constructor]. split; cbn [fst snd]; [done|].
      by rewrite blen_to_le_bytes.
  - by destruct (ino_name i), (ino_size i).
Qed.

(** The xfield loop recovers the name and the size. *)
Lemma inode_fields_fold i :
  inode_wf i -> foldl inode_xfield (None, None) (inode_fields i) = (ino_name i, ino_size i).
Proof.
  intros Hw. unfold inode_fields.
  assert (forall n, ino_name i = Some n -> decode_cstr (n ++ [x00]) = n) as Hn.
  { intros n Hn. apply decode_cstr_ascii. by apply (iwf_name _ Hw) in Hn as [? _]. }
  assert (forall z, ino_size i = Some z -> le_u64 (to_le_bytes 8 z) 0 = z) as Hz.
  { intros z Hz. rewrite <-(app_nil_r (to_le_bytes 8 z)). apply (le_u64_app []); [done|].
    by apply (iwf_size _ Hw). }
  destruct (ino_name i) as [n|], (ino_size i) as [z|]; cbn [app foldl inode_xfield fst snd];
    rewrite ?(Hn n), ?(Hz z) by done; reflexivity.
Qed.

(** The fixed prefix of an encoded inode. *)
Lemma blen_inode_prefix i rest :
  blen (encode_inode i) = 92 + blen (encode_xfields 0 (inode_fields i)) /\
  drop 92 (encode_inode i ++ rest) = encode_xfields 0 (inode_fields i) ++ rest.
Proof.
  unfold encode_inode. split; [autorewrite with apfs; lia|].
  rewrite <-!(app_assoc _ (encode_xfields _ _)). apply drop_app_length'.
  rewrite !length_app, !length_to_le_bytes. done.
Qed.

Lemma parse_encode_inode i :
  inode_wf i -> Inode_parse (ino_oid i) (encode_inode i) = Ok i.
Proof.
  intros Hw. destruct (inode_fields_ok i Hw) as [Hok Hn]. unfold Inode_parse.
  destruct (blen_inode_prefix i []) as [Hlen Hdrop]. rewrite !app_nil_r in Hdrop.
  pose proof (blen_nonneg (encode_xfields 0 (inode_fields i))).
  assert (4 <= blen (encode_xfields 0 (inode_fields i)) < u64_limit) as Hfit.
  { unfold encode_xfields. autorewrite with apfs. rewrite blen_xf_descs.
    assert (forall l, Forall xf_ok l -> 0 <= blen (concat (map xf_value l)) <= blen l * (2 ^ 16 + 8)) as Hv.
    { intros l Hl. induction Hl as [|f l Hf _ IH]; cbn [map concat]; [done|].
      rewrite blen_app, blen_cons, blen_xf_value by done. destruct Hf as [_ Hf].
      pose proof (blen_nonneg f.2). destruct (align8_spec (blen f.2)); lia. }
    specialize (Hv _ Hok). pose proof (blen_nonneg (inode_fields i)). unfold u64_limit. lia. }
  rewrite Hlen. unfold INO_OFF_XFIELDS. rewrite (proj2 (Z.ltb_lt _ _)) by lia.
  change (Z.to_nat 92) with 92%nat. rewrite Hdrop, parse_encode_xfields by (done || lia).
  cbn [mbind outcome_bind]. rewrite inode_fields_fold by done. cbn [fst snd].
  destruct Hw. unfold encode_inode.
  rewrite <-!app_assoc, <-(app_nil_l (to_le_bytes 8 (ino_parent_id i) ++ _)).
  set (x := encode_xfields 0 (inode_fields i)). clearbody x.
  unfold INO_OFF_PARENT_ID, INO_OFF_PRIVATE_ID, INO_OFF_CREATE_TIME, INO_OFF_MOD_TIME, INO_OFF_CHANGE_TIME,
    INO_OFF_ACCESS_TIME, INO_OFF_INTERNAL_FLAGS, INO_OFF_NCHILDREN, INO_OFF_BSD_FLAGS, INO_OFF_OWNER,
    INO_OFF_GROUP, INO_OFF_MODE.
  destruct i; cbn [ino_oid ino_parent_id ino_private_id ino_create_time ino_mod_time ino_change_time
    ino_access_time ino_internal_flags ino_nlink_or_nchildren ino_bsd_flags ino_uid ino_gid ino_mode
    ino_name ino_size] in *.
  f_equal. f_equal.
  1-7: read_field le_u64_app; reflexivity.
  1: pose proof (Z.mod_pos_bound ino_nlink_or_nchildren0 (2 ^ 32) ltac:(lia)).
  1: read_field le_u32_app; by apply as_i32_mod.
  1-3: read_field le_u32_app; reflexivity.
  1: read_field le_u16_app; reflexivity.
Qed.

(** C35 (round trip): an inode value written in the on-disk layout (92-byte prefix, name and data-stream extended
    fields) parses back to the same inode, every field and the sign of the link count included. *)
Theorem inode_roundtrip (i : Inode) :
  inode_wf i -> Inode_parse (ino_oid i) (encode_inode i) = Ok i.
Proof. apply parse_encode_inode. Qed.

Definition demo_inode : Inode :=
  {| ino_oid := 18; ino_parent_id := 2; ino_private_id := 19; ino_create_time := 1; ino_mod_time := 2;
     ino_change_time := 3; ino_access_time := 4; ino_internal_flags := 0x8000; ino_nlink_or_nchildren := -1;
     ino_bsd_flags := 0; ino_uid := 501; ino_gid := 20; ino_mode := 0x81a4;
     ino_name := Some [x61; x2e; x74]; ino_size := Some 4097 |}.

Lemma inode_roundtrip_witness : Inode_parse 18 (encode_inode demo_inode) = Ok demo_inode.
Proof.
  apply (inode_roundtrip demo_inode). split; cbn [demo_inode ino_parent_id ino_private_id ino_create_time ino_mod_time
    ino_change_time ino_access_time ino_internal_flags ino_nlink_or_nchildren ino_bsd_flags ino_uid ino_gid
    ino_mode ino_name ino_size]; try lia.
  - intros n [= <-]. split; [repeat constructor; vm_compute; reflexivity|vm_compute; reflexivity].
  - intros z [= <-]. lia.
Defined.
