(* ===== verification/Dir.v ===== *)
(** The file-system tree: directory records and name-to-inode navigation (core/src/dir.rs).

    [descend_virtual] walks the virtual tree, keyed to one object id or in full; every
    lookup below is a visitor over it.  [volume_tree] is the tree a volume's records form, and
    the theorems relate the keyed lookups to a scan of all its records. *)

From S2P Require Import Prelude Bytes Errors Reader Object Walk BTree Omap FsRecord Encryption Volume Inode.

Definition ROOT_DIR_INO_NUM : Z := 2.
Definition J_DREC_LEN_MASK : Z := 0x000003ff.
Definition OFF_DREC_FILE_ID : Z := 0.
Definition OFF_DREC_DATE_ADDED : Z := 8.
Definition OFF_DREC_FLAGS : Z := 16.
Definition MAX_FSTREE_DEPTH : nat := 64.

Record DirEntry := {
  de_name : bytes;
  de_file_id : Z;
  de_date_added : Z;
  de_flags : Z;
}.

Definition decode_drec_name (k : bytes) : option bytes :=
  let hashed_len := Z.land (le_u32 k 8) J_DREC_LEN_MASK in
  let hashed := if 0 <? hashed_len then get_range k 12 (12 + hashed_len) else None in
  match hashed with
  | Some name => Some (decode_cstr name)
  | None =>
      let unhashed_len := le_u16 k 8 in
      let unhashed := if 0 <? unhashed_len then get_range k 10 (10 + unhashed_len) else None in
      decode_cstr <$> unhashed
  end.

Definition parse_dir_entry (k v : bytes) : option DirEntry :=
  name ← decode_drec_name k;
  Some {|
    de_name := name;
    de_file_id := le_u64 v OFF_DREC_FILE_ID;
    de_date_added := le_u64 v OFF_DREC_DATE_ADDED;
    de_flags := le_u16 v OFF_DREC_FLAGS;
  |}.

(** The [j_key] of a record key. *)
Definition jkey (k : bytes) : Z * option RecordType := decode_jkey (le_u64 k 0).

Definition child_may_contain_oid (sep_oid : Z) (next_sep_oid : option Z) (target : Z) : bool :=
  (sep_oid <=? target) && match next_sep_oid with None => true | Some next => target <=? next end.

(** The children the index loop descends: entry [i] together with entry [i + 1]. *)
Fixpoint selected_children (target_oid : option Z) (entries : list Entry) : list Z :=
  match entries with
  | [] => []
  | e :: rest =>
      let next_sep_oid := (fun e' => (jkey (key e')).1) <$> head rest in
      let skip := match target_oid with
                  | Some target => negb (child_may_contain_oid (jkey (key e)).1 next_sep_oid target)
                  | None => false
                  end in
      if skip then selected_children target_oid rest
      else le_u64 (value e) 0 :: selected_children target_oid rest
  end.

Section Walk.
Context {R} `{ReadSeek R} `{XtsCipher} (reader : R).
Context {St : Type}.

Definition fstree_cycle : ApfsError := CycleGuard (Z.of_nat MAX_FSTREE_DEPTH).

(** The node block of a virtual oid: resolved, read, decrypted when its mapping says so and a key is at hand, and
    only then checked. *)
Definition read_virtual_node (omap : ObjectMap) (vek : option bytes) (node_oid xid block_size : Z)
  : result bytes :=
  entry ← omap_resolve omap reader node_oid xid block_size;
  buf ← read_at reader (saturating_mul (oe_paddr entry) block_size) block_size;
  buf ← (if negb (Z.land (oe_flags entry) OMAP_VAL_ENCRYPTED =? 0) then
           match vek with
           | Some vek => decrypt_volume_area buf vek (oe_paddr entry) block_size
           | None => Ok buf
           end
         else Ok buf);
  let stored := fletcher64_stored buf in
  let computed := fletcher64_checksum buf in
  if negb (stored =? computed) then
    let block := match ObjPhys_parse buf with Some h => o_oid h | None => oe_paddr entry end in
    Err (ChecksumMismatch block stored computed)
  else Ok buf.

(** [descend_virtual] at depth [MAX_FSTREE_DEPTH - budget]. *)
Fixpoint descend_virtual (omap : ObjectMap) (vek : option bytes) (xid block_size : Z)
    (target_oid : option Z) (visit : bytes -> bytes -> St -> St) (budget : nat) (node_oid : Z)
  : stm (wstate St) unit :=
  match budget with
  | O => throw fstree_cycle
  | S budget =>
      fresh ← visit_once node_oid;
      if negb fresh then throw fstree_cycle
      else
        buf ← lift (read_virtual_node omap vek node_oid xid block_size);
        match parse_node_header buf with
        | None => mret tt
        | Some hdr =>
            if is_leaf hdr then visit_all visit (node_entries buf SubtypeFsTree)
            else
              for_each (descend_virtual omap vek xid block_size target_oid visit budget)
                (selected_children target_oid (node_entries buf SubtypeFsTree))
        end
  end.

(** The volume object map, a physical object. *)
Definition read_volume_omap (volume : ApfsVolume) (block_size : Z) : result ObjectMap :=
  buf ← read_at reader (saturating_mul (vol_omap_oid volume) block_size) block_size;
  ObjectMap_parse buf.

Definition walk_fs_tree (volume : ApfsVolume) (block_size : Z) (target_oid : option Z)
    (visit : bytes -> bytes -> St -> St) (st : St) : St * result unit :=
  match read_volume_omap volume block_size with
  | Ok omap =>
      let '((_, st'), res) :=
        descend_virtual omap (vol_vek volume) (vol_xid volume) block_size target_oid visit
          MAX_FSTREE_DEPTH (vol_root_tree_oid volume) (∅, st) in
      (st', res)
  | Err e => (st, Err e)
  | Panic => (st, Panic)
  end.

Definition for_each_fs_record_for_oid (volume : ApfsVolume) (block_size target_oid : Z)
    (visit : bytes -> bytes -> St -> St) (st : St) : St * result unit :=
  walk_fs_tree volume block_size (Some target_oid) visit st.
End Walk.

Section Navigation.
Context {R} `{ReadSeek R} `{XtsCipher} (reader : R).

Definition list_dir_visit (parent_oid : Z) (k v : bytes) (out : list DirEntry) : list DirEntry :=
  let '(oid, ty) := jkey k in
  if negb (bool_decide (ty = Some DirRec)) || negb (oid =? parent_oid) then out
  else match parse_dir_entry k v with
       | None => out
       | Some entry => out ++ [entry]
       end.

Definition list_dir (volume : ApfsVolume) (parent_oid block_size : Z) : result (list DirEntry) :=
  let '(out, res) :=
    for_each_fs_record_for_oid reader volume block_size parent_oid (list_dir_visit parent_oid) [] in
  _ ← res;
  Ok out.

Definition lookup_visit (parent_oid : Z) (name : bytes) (k v : bytes) (found : option Z) : option Z :=
  match found with
  | Some _ => found
  | None =>
      let '(oid, ty) := jkey k in
      if negb (bool_decide (ty = Some DirRec)) || negb (oid =? parent_oid) then found
      else match parse_dir_entry k v with
           | None => found
           | Some entry => if bool_decide (de_name entry = name) then Some (de_file_id entry) else found
           end
  end.

Definition lookup_child (volume : ApfsVolume) (parent_oid : Z) (name : bytes) (block_size : Z)
  : result (option Z) :=
  let '(found, res) :=
    for_each_fs_record_for_oid reader volume block_size parent_oid (lookup_visit parent_oid name) None in
  _ ← res;
  Ok found.

Definition load_visit (target : Z) (k v : bytes) (found : option bytes) : option bytes :=
  match found with
  | Some _ => found
  | None =>
      let '(k_oid, ty) := jkey k in
      if bool_decide (ty = Some FsRecord.Inode) && (k_oid =? target) then Some v else found
  end.

Definition load_inode (volume : ApfsVolume) (oid block_size : Z) : result Inode :=
  let '(found, res) :=
    for_each_fs_record_for_oid reader volume block_size oid (load_visit oid) None in
  _ ← res;
  v ← ok_or found (OmapUnresolved oid (vol_xid volume));
  Inode_parse oid v.

(** [path.split('/')]. *)
Fixpoint split_slash (path : bytes) : list bytes :=
  match path with
  | [] => [[]]
  | b :: path =>
      if decide (b = x2f) then [] :: split_slash path
      else match split_slash path with
           | [] => [[b]]
           | c :: cs => (b :: c) :: cs
           end
  end.

Definition components (path : bytes) : list bytes := filter (fun c => c <> []) (split_slash path).

Definition open_path (volume : ApfsVolume) (path : bytes) (block_size : Z) : result Inode :=
  current ← fold_res (fun current component =>
                child ← lookup_child volume current component block_size;
                match child with
                | Some child => Ok child
                | None => Err (OmapUnresolved current (vol_xid volume))
                end)
              ROOT_DIR_INO_NUM (components path);
  load_inode volume current block_size.
End Navigation.

(** ** The records of a volume as a tree *)

Definition record_oid (e : Entry) : Z := (jkey (key e)).1.

(** Child [t] of separator [e] holds object ids from [e]'s to the next separator's, both included: what
    the order of full keys leaves of the order of object ids. *)
Fixpoint oid_separated (es : list Entry) (ts : list tree) : Prop :=
  match es, ts with
  | [], [] => True
  | e :: es, t :: ts =>
      Forall (fun m => record_oid e <= record_oid m) (leaf_entries t) /\
      (forall e', head es = Some e' -> Forall (fun m => record_oid m <= record_oid e') (leaf_entries t)) /\
      oid_separated es ts
  | _, _ => False
  end.

Fixpoint oid_ordered (t : tree) : Prop :=
  match t with
  | TSkip _ | TLeaf _ _ => True
  | TNode _ es ts => oid_separated es ts /\ foldr (fun t P => oid_ordered t /\ P) True ts
  end.

Section Prune.
Context (target : Z).

Definition keep (e : Entry) (rest : list Entry) : bool :=
  child_may_contain_oid (record_oid e) (record_oid <$> head rest) target.

(** The part of a tree the keyed walk descends. *)
Fixpoint prune (t : tree) : tree :=
  match t with
  | TSkip _ | TLeaf _ _ => t
  | TNode a es ts =>
      TNode a es
        ((fix go (es : list Entry) (ts : list tree) {struct ts} : list tree :=
            match es, ts with
            | e :: es, t :: ts => if keep e es then prune t :: go es ts else go es ts
            | _, _ => []
            end) es ts)
  end.

Fixpoint prune_forest (es : list Entry) (ts : list tree) {struct ts} : list tree :=
  match es, ts with
  | e :: es, t :: ts => if keep e es then prune t :: prune_forest es ts else prune_forest es ts
  | _, _ => []
  end.

Lemma prune_node a es ts : prune (TNode a es ts) = TNode a es (prune_forest es ts).
Proof. done. Qed.

Lemma prune_addr t : addr (prune t) = addr t.
Proof. by destruct t. Qed.

Lemma selected_prune es ts :
  map addr ts = child_addrs es -> map addr (prune_forest es ts) = selected_children (Some target) es.
Proof.
  revert ts; induction es as [|e es IH]; intros [|t ts] Hm; cbn in Hm; try done.
  injection Hm as Ha Hm. cbn [prune_forest selected_children].
  fold (record_oid e). change (fun e' => (jkey (key e')).1) with record_oid. fold (keep e es).
  destruct (keep e es); cbn [negb map]; [rewrite prune_addr, Ha; f_equal|]; by apply IH.
Qed.

Lemma selected_none es : selected_children None es = child_addrs es.
Proof. induction es as [|e es IH]; cbn; [done|]. by rewrite IH. Qed.

Local Abbreviation of_target := (filter (fun m => record_oid m = target)).

(** A child that is skipped holds no record of the target. *)
Lemma skipped_child e es t :
  keep e es = false ->
  Forall (fun m => record_oid e <= record_oid m) (leaf_entries t) ->
  (forall e', head es = Some e' -> Forall (fun m => record_oid m <= record_oid e') (leaf_entries t)) ->
  of_target (leaf_entries t) = [].
Proof.
  unfold keep, child_may_contain_oid. intros Hk Hlo Hhi. apply elem_of_nil_inv.
  intros m. rewrite list_elem_of_filter. intros [Ho Hm]. rewrite Forall_forall in Hlo.
  specialize (Hlo _ Hm). cbn beta in Hlo, Ho.
  apply andb_false_iff in Hk as [Hk|Hk]; [bool_cases; lia|].
  destruct (head es) as [e'|]; [|done]. cbn [fmap option_fmap option_map] in Hk. specialize (Hhi e' eq_refl).
  rewrite Forall_forall in Hhi. specialize (Hhi _ Hm). cbn beta in Hhi. bool_cases. lia.
Qed.

Lemma oid_ordered_Forall ts : foldr (fun t P => oid_ordered t /\ P) True ts <-> Forall oid_ordered ts.
Proof.
  induction ts as [|t ts IH]; cbn; [split; [constructor|done]|]. by rewrite IH, Forall_cons.
Qed.

Context (fetch : Z -> result (option node)).

(** What pruning keeps: a tree for the keyed selection, no new addresses, no new levels, and every record
    of the target. *)
Record pruned (t t' : tree) : Prop := {
  pr_repr : repr fetch (selected_children (Some target)) t';
  pr_addrs : addrs t' `sublist_of` addrs t;
  pr_height : (height t' <= height t)%nat;
  pr_records : of_target (leaf_entries t') = of_target (leaf_entries t);
}.

Lemma prune_spec t : repr fetch child_addrs t -> oid_ordered t -> pruned t (prune t).
Proof.
  induction t as [a|a es|a es ts IH] using tree_rect'; intros Hr Ho.
  1,2: inversion Hr; subst; split; [by constructor|done|done|done].
  inversion_clear Hr as [| |? ? ? Hf Hm Hrs]. destruct Ho as [Hsep Hos].
  apply oid_ordered_Forall in Hos. rewrite prune_node.
  assert (Forall (repr fetch (selected_children (Some target))) (prune_forest es ts) /\
    concat (map addrs (prune_forest es ts)) `sublist_of` concat (map addrs ts) /\
    (foldr (fun t h => Nat.max (height t) h) O (prune_forest es ts)
      <= foldr (fun t h => Nat.max (height t) h) O ts)%nat /\
    of_target (concat (map leaf_entries (prune_forest es ts)))
      = of_target (concat (map leaf_entries ts))) as (H1 & H2 & H3 & H4).
  { clear Hf Hm. revert es Hsep. induction IH as [|t ts Ht _ IHts]; intros [|e es] Hsep; cbn [oid_separated] in Hsep; try done.
    apply Forall_cons in Hrs as [Hr Hrs], Hos as [Ho Hos]. destruct Hsep as (Hlo & Hhi & Hsep).
    destruct (IHts Hos Hrs es Hsep) as (H1 & H2 & H3 & H4). cbn [prune_forest].
    destruct (keep e es) eqn:Hk; cbn [map concat foldr]; rewrite ?filter_app.
    - destruct (Ht Hr Ho) as [P1 P2 P3 P4]. split_and!; [by constructor|by apply sublist_app|lia|by rewrite P4, H4].
    - split_and!; [done|by apply sublist_inserts_l|lia|].
      by rewrite (skipped_child e es t Hk Hlo Hhi), H4. }
  split; cbn [addrs height leaf_entries]; [|by apply sublist_skip|lia|done].
  constructor; [done| |done]. by apply selected_prune.
Qed.

Lemma prune_walkable b seen t :
  oid_ordered t -> walkable fetch child_addrs b seen t ->
  walkable fetch (selected_children (Some target)) b seen (prune t).
Proof.
  intros Ho [Hr Hh Hn Hf]. destruct (prune_spec t Hr Ho) as [P1 P2 P3 _]. split; [done|lia| |].
  - by eapply sublist_NoDup.
  - intros x Hx. apply Hf. by eapply elem_of_sublist.
Qed.
End Prune.

(** ** The walks of a volume *)

(** A visitor that looks only at the records of [target]. *)
Definition keyed_visitor {St} (target : Z) (visit : bytes -> bytes -> St -> St) : Prop :=
  forall k v st, (jkey k).1 <> target -> visit k v st = st.

(** ** Collecting visitors *)

(** What [f] decodes from a record of type [ty] and object [oid]; nothing from any other. *)
Definition record_of {A} (ty : RecordType) (oid : Z) (f : bytes -> bytes -> option A) (e : Entry) : option A :=
  if bool_decide ((jkey (key e)).2 = Some ty) && (record_oid e =? oid) then f (key e) (value e) else None.

(** The visitor pushes what [rec] decodes. *)
Definition collects {A} (visit : bytes -> bytes -> list A -> list A) (rec : Entry -> option A) : Prop :=
  forall e out, visit (key e) (value e) out = match rec e with Some x => out ++ [x] | None => out end.

(** The state a visitor ends in after the records [es]. *)
Definition run_visitor {St} (visit : bytes -> bytes -> St -> St) (st : St) (es : list Entry) : St :=
  foldl (fun st e => visit (key e) (value e) st) st es.

Section Collect.
Context {A : Type} (ty : RecordType) (target : Z) (f : bytes -> bytes -> option A).

Lemma record_of_other e : record_oid e <> target -> record_of ty target f e = None.
Proof. intros Hne. unfold record_of. apply Z.eqb_neq in Hne as ->. by rewrite andb_false_r. Qed.

(** The shape the closures of dir.rs, extent.rs and xattr.rs share. *)
Lemma collects_record_of (visit : bytes -> bytes -> list A -> list A) :
  (forall k v out, visit k v out =
     let '(oid, t) := jkey k in
     if negb (bool_decide (t = Some ty)) || negb (oid =? target) then out
     else match f k v with Some x => out ++ [x] | None => out end) ->
  collects visit (record_of ty target f).
Proof.
  intros Hv e out. rewrite Hv. unfold record_of, record_oid. destruct (jkey (key e)) as [oid t].
  cbn [fst snd]. destruct (bool_decide _); [|done]. by destruct (oid =? target).
Qed.

Lemma keyed_collects visit : collects visit (record_of ty target f) -> keyed_visitor target visit.
Proof.
  intros Hc k v out Hne. rewrite (Hc {| key := k; value := v |}). by rewrite record_of_other.
Qed.

Lemma run_collects visit rec es (out : list A) :
  collects visit rec -> run_visitor visit out es = out ++ omap rec es.
Proof.
  intros Hc. unfold run_visitor. revert out; induction es as [|e es IH]; intros out; cbn [foldl];
    [by rewrite app_nil_r|].
  rewrite Hc, IH. cbn. destruct (rec e); [by rewrite <-app_assoc|done].
Qed.
End Collect.

Section Volume.
Context {R} `{ReadSeek R} `{XtsCipher} (reader : R) (volume : ApfsVolume) (block_size : Z).

Definition virt_node (omap : ObjectMap) (node_oid : Z) : result (option node) :=
  buf ← read_virtual_node reader omap (vol_vek volume) node_oid (vol_xid volume) block_size;
  Ok (classify SubtypeFsTree buf).

(** The records of the volume: what the walk reaches from the root of its file-system tree. *)
Definition volume_tree (t : tree) : Prop :=
  exists omap, read_volume_omap reader volume block_size = Ok omap /\
    walkable (virt_node omap) child_addrs MAX_FSTREE_DEPTH ∅ t /\
    addr t = vol_root_tree_oid volume.

Lemma descend_virtual_gwalk {St} omap target (visit : bytes -> bytes -> St -> St) b a s :
  descend_virtual reader omap (vol_vek volume) (vol_xid volume) block_size target visit b a s =
  gwalk (virt_node omap) (selected_children target) visit fstree_cycle b a s.
Proof.
  revert a s; induction b as [|b IH]; intros a s; [done|].
  cbn [descend_virtual gwalk]. unfold mbind, stm_bind.
  destruct (visit_once a s) as [s1 [[]| |]]; cbn [negb]; try done.
  unfold lift, virt_node.
  destruct (read_virtual_node _ _ _ _ _ _) as [buf| |]; try done.
  cbn [mbind outcome_bind]. unfold classify.
  destruct (parse_node_header buf) as [hdr|]; [|done].
  destruct (is_leaf hdr); [done|]. by apply for_each_ext.
Qed.

Lemma read_virtual_node_not_Panic omap node_oid :
  0 <= block_size -> decryptable (vol_vek volume) block_size ->
  read_virtual_node reader omap (vol_vek volume) node_oid (vol_xid volume) block_size <> Panic.
Proof.
  intros Hbs Hd. unfold read_virtual_node. no_panic. destruct (vol_vek volume) as [vek|]; no_panic.
  apply decrypt_volume_area_not_Panic; [done|]. by eapply read_at_len.
Qed.

Lemma walk_fs_tree_not_Panic {St} target (visit : bytes -> bytes -> St -> St) st :
  0 <= block_size -> decryptable (vol_vek volume) block_size ->
  (walk_fs_tree reader volume block_size target visit st).2 <> Panic.
Proof.
  intros Hbs Hd. unfold walk_fs_tree.
  assert (read_volume_omap reader volume block_size <> Panic) as Ho by (unfold read_volume_omap; no_panic).
  destruct (read_volume_omap _ _ _) as [om| |]; [|done|done]. rewrite descend_virtual_gwalk.
  pose proof (gwalk_not_Panic (virt_node om) (selected_children target) visit fstree_cycle MAX_FSTREE_DEPTH
    (vol_root_tree_oid volume) (∅, st)) as Hg.
  destruct (gwalk _ _ _ _ _ _ _) as [[V s] r]. apply Hg. intros a. unfold virt_node.
  apply bind_not_Panic; [by apply read_virtual_node_not_Panic|done].
Qed.

(** Every read of records, whatever is done with what the walk collected. *)
Lemma walk_then_not_Panic {St A} target (visit : bytes -> bytes -> St -> St) st (k : St -> result A) :
  0 <= block_size -> decryptable (vol_vek volume) block_size -> (forall s, k s <> Panic) ->
  (let '(s, res) := for_each_fs_record_for_oid reader volume block_size target visit st in _ ← res; k s) <> Panic.
Proof.
  intros Hbs Hd Hk. unfold for_each_fs_record_for_oid.
  pose proof (walk_fs_tree_not_Panic (Some target) visit st Hbs Hd) as Hw.
  destruct (walk_fs_tree _ _ _ _ _ _) as [s res]. by apply bind_not_Panic.
Qed.

Lemma list_dir_not_Panic parent :
  0 <= block_size -> decryptable (vol_vek volume) block_size -> list_dir reader volume parent block_size <> Panic.
Proof. intros. by apply walk_then_not_Panic. Qed.

Lemma lookup_child_not_Panic parent name :
  0 <= block_size -> decryptable (vol_vek volume) block_size -> lookup_child reader volume parent name block_size <> Panic.
Proof. intros. by apply walk_then_not_Panic. Qed.

Lemma load_inode_not_Panic oid :
  0 <= block_size -> decryptable (vol_vek volume) block_size -> load_inode reader volume oid block_size <> Panic.
Proof. intros. apply walk_then_not_Panic; [done|done|]. intros s. no_panic. Qed.

Lemma load_inode_typed oid i : load_inode reader volume oid block_size = Ok i -> inode_typed i /\ ino_oid i = oid.
Proof.
  unfold load_inode. destruct (for_each_fs_record_for_oid _ _ _ _ _ _) as [found res]. intros Hl.
  apply bind_Ok_iff in Hl as (_ & _ & Hl). apply bind_Ok_iff in Hl as (v & _ & Hl).
  destruct (Inode_parse_total oid v) as (i' & Hi & Ho). split; [by eapply Inode_parse_typed|]. congruence.
Qed.

Lemma walk_fs_tree_full {St} (visit : bytes -> bytes -> St -> St) st t :
  volume_tree t ->
  walk_fs_tree reader volume block_size None visit st = (run_visitor visit st (leaf_entries t), Ok tt).
Proof.
  intros (omap & Ho & Hw & Ha). unfold walk_fs_tree. rewrite Ho, descend_virtual_gwalk, <-Ha.
  assert (walkable (virt_node omap) (selected_children None) MAX_FSTREE_DEPTH ∅ t) as Hw'.
  { destruct Hw as [Hr ? ? ?]. split; try done. clear -Hr.
    induction t as [a|a es|a es ts IH] using tree_rect'; inversion_clear Hr as [| |? ? ? Hf Hm Hrs];
      [by constructor|by constructor|].
    constructor; [done|by rewrite selected_none|].
    rewrite Forall_forall in IH, Hrs |- *. intros t Ht. by apply IH, Hrs. }
  by rewrite gwalk_complete.
Qed.

Lemma run_filter {St} target (visit : bytes -> bytes -> St -> St) st es :
  keyed_visitor target visit ->
  run_visitor visit st es = run_visitor visit st (filter (fun m => record_oid m = target) es).
Proof.
  intros Hv. unfold run_visitor. revert st; induction es as [|e es IH]; intros st; [done|].
  cbn [foldl]. rewrite filter_cons. destruct (decide (record_oid e = target)) as [|Hne].
  - cbn [foldl]. apply IH.
  - rewrite Hv by exact Hne. apply IH.
Qed.

Lemma walk_fs_tree_keyed {St} target (visit : bytes -> bytes -> St -> St) st t :
  volume_tree t -> oid_ordered t -> keyed_visitor target visit ->
  walk_fs_tree reader volume block_size (Some target) visit st = (run_visitor visit st (leaf_entries t), Ok tt).
Proof.
  intros (omap & Ho & Hw & Ha) Hord Hv. unfold walk_fs_tree.
  rewrite Ho, descend_virtual_gwalk, <-Ha, <-(prune_addr target t).
  rewrite gwalk_complete by by apply prune_walkable.
  unfold visited_by. cbn [fst snd]. change (foldl _ st (leaf_entries (prune target t)))
    with (run_visitor visit st (leaf_entries (prune target t))).
  destruct (prune_spec target _ t (walkable_repr _ _ _ _ _ Hw) Hord) as [_ _ _ Hrec].
  by rewrite (run_filter target visit), Hrec, <-run_filter.
Qed.

(** A walk that returns [Ok] has run the visitor over some list of records. *)
Lemma walk_fs_tree_run {St} target (visit : bytes -> bytes -> St -> St) st st' :
  walk_fs_tree reader volume block_size target visit st = (st', Ok tt) -> exists es, st' = run_visitor visit st es.
Proof.
  unfold walk_fs_tree. destruct (read_volume_omap _ _ _) as [omap| |]; [|done|done].
  destruct (descend_virtual _ _ _ _ _ _ _ _ _ _) as [[V s] r] eqn:Hd. intros [= <- ->].
  rewrite descend_virtual_gwalk in Hd. apply gwalk_sound in Hd as (t & _ & _ & [= _ ->]). by eexists.
Qed.

(** C16 (equivalence): on a volume whose records are in object-id order, the keyed walk, which skips
    every subtree that cannot hold the target, leaves any visitor that looks only at the target's
    records in the state the full walk leaves it in, and succeeds as the full walk does. *)
Theorem keyed_walk_equiv {St} (target : Z) (visit : bytes -> bytes -> St -> St) (st : St) (t : tree) :
  volume_tree t -> oid_ordered t -> keyed_visitor target visit ->
  for_each_fs_record_for_oid reader volume block_size target visit st =
    walk_fs_tree reader volume block_size None visit st /\
  (walk_fs_tree reader volume block_size None visit st).2 = Ok tt.
Proof.
  intros Ht Ho Hv. unfold for_each_fs_record_for_oid.
  by rewrite (walk_fs_tree_keyed _ _ _ t), (walk_fs_tree_full _ _ t).
Qed.

(** ** Lookups by scan *)

(** A collecting visitor over the keyed walk gives what its records hold. *)
Lemma walk_collects {A} ty target (f : bytes -> bytes -> option A) visit t :
  volume_tree t -> oid_ordered t -> collects visit (record_of ty target f) ->
  for_each_fs_record_for_oid reader volume block_size target visit [] =
    (omap (record_of ty target f) (leaf_entries t), Ok tt).
Proof.
  intros Ht Ho Hc. unfold for_each_fs_record_for_oid.
  rewrite (walk_fs_tree_keyed _ _ _ t Ht Ho) by by eapply keyed_collects.
  by rewrite (run_collects _ _ _ _ Hc).
Qed.

(** The directory entry a record gives for [parent]. *)
Definition dir_record (parent : Z) : Entry -> option DirEntry := record_of DirRec parent parse_dir_entry.

Lemma list_dir_collects parent : collects (list_dir_visit parent) (dir_record parent).
Proof. by apply collects_record_of. Qed.

Lemma lookup_visit_eq parent name e found :
  lookup_visit parent name (key e) (value e) found =
    match found, dir_record parent e with
    | None, Some d => if bool_decide (de_name d = name) then Some (de_file_id d) else None
    | _, _ => found
    end.
Proof.
  unfold lookup_visit, dir_record, record_of, record_oid. destruct found; [done|].
  destruct (jkey (key e)) as [oid ty]. cbn [fst snd].
  destruct (bool_decide _); [|done]. destruct (oid =? parent); [|done].
  by destruct (parse_dir_entry _ _).
Qed.

Lemma keyed_lookup parent name : keyed_visitor parent (lookup_visit parent name).
Proof.
  intros k v out Hne. rewrite (lookup_visit_eq parent name {| key := k; value := v |}). unfold dir_record.
  rewrite record_of_other by done.
  by destruct out.
Qed.

Lemma keyed_load target : keyed_visitor target (load_visit target).
Proof.
  intros k v [|] Hne; [done|]. unfold load_visit. destruct (jkey k) as [oid ty]. cbn in Hne.
  apply Z.eqb_neq in Hne as ->. by rewrite andb_false_r.
Qed.

(** The first entry of that name. *)
Definition find_name (name : bytes) (ds : list DirEntry) : option Z :=
  (fun id => de_file_id id.2) <$> list_find (fun d => de_name d = name) ds.

Lemma run_lookup parent name es :
  run_visitor (lookup_visit parent name) None es = find_name name (omap (dir_record parent) es).
Proof.
  unfold run_visitor, find_name. assert (forall es x, foldl (fun st e => lookup_visit parent name (key e) (value e) st) (Some x) es = Some x) as Hs.
  { clear. induction es as [|e es IH]; intros x; [done|]. cbn [foldl]. by rewrite lookup_visit_eq. }
  induction es as [|e es IH]; [done|]. cbn [foldl]. rewrite lookup_visit_eq. cbn.
  destruct (dir_record parent e) as [d|]; [|done]. cbn [list_find].
  case_bool_decide as Hd; [rewrite decide_True by done; by rewrite Hs|].
  rewrite decide_False, IH by done. by destruct (list_find _ _) as [[]|].
Qed.

Lemma list_dir_tree parent t :
  volume_tree t -> oid_ordered t ->
  list_dir reader volume parent block_size = Ok (omap (dir_record parent) (leaf_entries t)).
Proof. intros Ht Ho. unfold list_dir. by rewrite (walk_collects _ _ _ _ t Ht Ho (list_dir_collects parent)). Qed.

(** Listing a directory returns, in tree order, the decoded entry of every directory record of
    that parent and of no other, wherever in the tree they are. *)
Theorem list_dir_spec (parent : Z) (t : tree) :
  volume_tree t -> oid_ordered t ->
  list_dir reader volume parent block_size = Ok (omap (dir_record parent) (leaf_entries t)).
Proof. apply list_dir_tree. Qed.

Lemma lookup_child_tree parent name t :
  volume_tree t -> oid_ordered t ->
  lookup_child reader volume parent name block_size =
    Ok (find_name name (omap (dir_record parent) (leaf_entries t))).
Proof.
  intros Ht Ho. unfold lookup_child, for_each_fs_record_for_oid.
  rewrite (walk_fs_tree_keyed _ _ _ t Ht Ho) by apply keyed_lookup. by rewrite run_lookup.
Qed.

(** Looking a name up is searching the listing: [lookup_child] returns the inode of the first
    entry of [list_dir] with exactly that name, and nothing when no entry has it. *)
Theorem lookup_child_agrees_with_list_dir (parent : Z) (name : bytes) (t : tree) :
  volume_tree t -> oid_ordered t ->
  exists entries, list_dir reader volume parent block_size = Ok entries /\
    lookup_child reader volume parent name block_size = Ok (find_name name entries) /\
    (find_name name entries = None <-> Forall (fun d => de_name d <> name) entries).
Proof.
  intros Ht Ho. exists (omap (dir_record parent) (leaf_entries t)). split_and!.
  - by apply list_dir_tree.
  - by apply lookup_child_tree.
  - unfold find_name. rewrite fmap_None. apply list_find_None.
Qed.

(** ** Paths *)

(** The inode value of [target]: its first inode record. *)
Definition inode_record (target : Z) : Entry -> option bytes :=
  record_of FsRecord.Inode target (fun _ v => Some v).
Definition find_inode (target : Z) (es : list Entry) : option bytes := head (omap (inode_record target) es).

Lemma run_load target es : run_visitor (load_visit target) None es = find_inode target es.
Proof.
  unfold run_visitor, find_inode.
  assert (forall es x, foldl (fun st e => load_visit target (key e) (value e) st) (Some x) es = Some x) as Hs
    by (clear; induction es as [|e es IH]; intros x; [done|apply IH]).
  induction es as [|e es IH]; [done|]. cbn [foldl].
  assert (load_visit target (key e) (value e) None = inode_record target e) as ->.
  { unfold load_visit, inode_record, record_of, record_oid. by destruct (jkey (key e)) as [oid ty]. }
  cbn. destruct (inode_record target e) as [v|]; [by rewrite Hs|done].
Qed.

Lemma load_inode_tree target t :
  volume_tree t -> oid_ordered t ->
  load_inode reader volume target block_size =
    (v ← ok_or (find_inode target (leaf_entries t)) (OmapUnresolved target (vol_xid volume)); Inode_parse target v).
Proof.
  intros Ht Ho. unfold load_inode, for_each_fs_record_for_oid.
  rewrite (walk_fs_tree_keyed _ _ _ t Ht Ho) by apply keyed_load. by rewrite run_load.
Qed.

(** Following names from a directory: [inl] the directory that lacks the next one. *)
Fixpoint resolve_names (es : list Entry) (current : Z) (names : list bytes) : Z + Z :=
  match names with
  | [] => inr current
  | name :: names =>
      match find_name name (omap (dir_record current) es) with
      | Some child => resolve_names es child names
      | None => inl current
      end
  end.

Lemma open_path_tree path t :
  volume_tree t -> oid_ordered t ->
  open_path reader volume path block_size =
    match resolve_names (leaf_entries t) ROOT_DIR_INO_NUM (components path) with
    | inl current => Err (OmapUnresolved current (vol_xid volume))
    | inr oid =>
        match find_inode oid (leaf_entries t) with
        | None => Err (OmapUnresolved oid (vol_xid volume))
        | Some v => Inode_parse oid v
        end
    end.
Proof.
  intros Ht Ho. unfold open_path. generalize ROOT_DIR_INO_NUM as current.
  induction (components path) as [|name names IH]; intros current; cbn [fold_res resolve_names].
  - cbn [mbind outcome_bind]. rewrite (load_inode_tree _ t Ht Ho). by destruct (find_inode current (leaf_entries t)).
  - rewrite (lookup_child_tree _ _ t Ht Ho). cbn [mbind outcome_bind].
    destruct (find_name _ _) as [child|]; [|done]. cbn [mbind outcome_bind]. apply IH.
Qed.

(** C2 (functional): opening a path follows its components from the root directory through the directory records,
    one exact name at a time, and loads the inode record it ends at; the first component that
    no record names, or a missing inode record, is the loud [OmapUnresolved] with the object id it failed at. *)
Theorem open_path_spec (path : bytes) (t : tree) :
  volume_tree t -> oid_ordered t ->
  open_path reader volume path block_size =
    match resolve_names (leaf_entries t) ROOT_DIR_INO_NUM (components path) with
    | inl current => Err (OmapUnresolved current (vol_xid volume))
    | inr oid =>
        match find_inode oid (leaf_entries t) with
        | None => Err (OmapUnresolved oid (vol_xid volume))
        | Some v => Inode_parse oid v
        end
    end.
Proof. apply open_path_tree. Qed.
End Volume.

(** ** Path syntax *)

Lemma split_slash_cons path : exists c cs, split_slash path = c :: cs.
Proof.
  induction path as [|b path (c & cs & IH)]; cbn; [eauto|].
  rewrite IH. destruct (decide (b = x2f)); eauto.
Qed.

Lemma split_slash_app p q : split_slash (p ++ x2f :: q) = split_slash p ++ split_slash q.
Proof.
  induction p as [|b p IH]; cbn [app split_slash]; [by rewrite decide_True|].
  rewrite IH. destruct (decide (b = x2f)); [done|].
  destruct (split_slash_cons p) as (c & cs & ->). done.
Qed.

Lemma split_slash_name c : x2f ∉ c -> split_slash c = [c].
Proof.
  induction c as [|b c IH]; [done|]. rewrite not_elem_of_cons. intros [Hb Hc]. cbn [split_slash].
  rewrite decide_False, IH by done. done.
Qed.

(** The components of a path are its names whatever the slashes around them: a slash
    concatenates the components of both sides, so leading, trailing and doubled slashes add none, and
    a name without a slash is its own only component. *)
Theorem components_spec :
  (forall p q, components (p ++ x2f :: q) = components p ++ components q) /\
  (forall c, (x2f ∉ c) -> c <> [] -> components c = [c]) /\
  components [] = [].
Proof.
  unfold components. split_and!; [| |done].
  - intros p q. by rewrite split_slash_app, filter_app.
  - intros c Hc Hne. rewrite split_slash_name by done. by rewrite filter_cons_True.
Qed.

(** ** Directory-record names *)

Definition hashed_drec_key (jk hash : Z) (name : bytes) : bytes :=
  to_le_bytes 8 jk ++ to_le_bytes 4 (Z.lor (Z.shiftl hash 10) (blen name + 1)) ++ name ++ [x00].
Definition unhashed_drec_key (jk : Z) (name : bytes) : bytes :=
  to_le_bytes 8 jk ++ to_le_bytes 2 (blen name + 1) ++ name ++ [x00].

Lemma hash_word hash len :
  0 <= hash < 2 ^ 22 -> 0 <= len < 2 ^ 10 ->
  0 <= Z.lor (Z.shiftl hash 10) len < 2 ^ 32 /\ Z.land (Z.lor (Z.shiftl hash 10) len) J_DREC_LEN_MASK = len.
Proof.
  intros Hh Hl. assert (Z.lor (Z.shiftl hash 10) len = hash * 2 ^ 10 + len) as ->.
  { rewrite <-(Z.shiftl_mul_pow2 _ 10) by lia. symmetry. apply Z.add_nocarry_lor. apply Z.bits_inj'.
    intros n Hn. rewrite Z.land_spec, Z.bits_0. destruct (Z.lt_ge_cases n 10).
    - by rewrite Z.shiftl_spec_low by lia.
    - replace len with (len mod 2 ^ 10) by (apply Z.mod_small; lia).
      rewrite Z.mod_pow2_bits_high by lia. apply andb_false_r. }
  split; [lia|]. change J_DREC_LEN_MASK with (Z.ones 10). rewrite Z.land_ones by lia.
  by rewrite Z.add_comm, Z.mod_add, Z.mod_small by lia.
Qed.


(** In an unhashed key the low ten bits at the length are those of the length, and the
    hashed reading does not fit: it starts two bytes later. *)
Lemma unhashed_not_hashed jk name :
  blen name + 1 < 2 ^ 10 ->
  let k := unhashed_drec_key jk name in
  let len := Z.land (le_u32 k 8) J_DREC_LEN_MASK in
  (if 0 <? len then get_range k 12 (12 + len) else None) = None.
Proof.
  intros Hl k len. pose proof (blen_nonneg name) as H0.
  assert (blen k = 10 + (blen name + 1)) as Hk.
  { unfold k, unhashed_drec_key. autorewrite with apfs. unfold blen. cbn [length]. lia. }
  destruct (Z.ltb_spec 0 len) as [Hpos|]; [|done]. apply get_range_oob; [lia|].
  assert (len = blen name + 1 \/ len = 0) as [|]; [|lia..].
  unfold len. change J_DREC_LEN_MASK with (Z.ones 10). rewrite Z.land_ones by lia.
  destruct name as [|c name]; [right|left].
  { unfold le_u32. by rewrite from_le_arr_oob by (rewrite ?Hk; unfold blen; cbn; lia). }
  assert (exists c2 r, name ++ [x00] = c2 :: r) as (c2 & r & Hr) by (destruct name; cbn; eauto).
  unfold le_u32. assert (arr 4 k 8 = to_le_bytes 2 (blen (c :: name) + 1) ++ [c; c2]) as ->.
  { unfold k, unhashed_drec_key. cbn [app]. rewrite Hr.
    change (c :: c2 :: r) with ([c; c2] ++ r). rewrite (app_assoc _ [c; c2] r). apply arr_app; done. }
  rewrite from_le_bytes_app, from_to_le_bytes, blen_to_le_bytes.
  change (256 ^ Z.of_nat 2) with (2 ^ 6 * 2 ^ 10). rewrite (Z.mod_small (blen _ + 1)) by lia.
  rewrite <-Z.mul_assoc, (Z.mul_comm (2 ^ 10)), Z.mul_assoc, Z.mod_add by lia.
  apply Z.mod_small. lia.
Qed.

(** A directory-record key in either layout, hashed (10-bit length under a 22-bit hash) or unhashed
    (16-bit length), decodes to its name; the hashed form is never confused with the unhashed one as long as
    the name with its NUL is shorter than 1024 bytes. *)
Theorem drec_name_roundtrip (jk hash : Z) (name : bytes) :
  Forall ascii_byte name -> blen name + 1 < 2 ^ 10 -> 0 <= hash < 2 ^ 22 ->
  decode_drec_name (hashed_drec_key jk hash name) = Some name /\
  decode_drec_name (unhashed_drec_key jk name) = Some name.
Proof.
  intros Ha Hl Hh. pose proof (blen_nonneg name) as H0.
  destruct (hash_word hash (blen name + 1)) as [Hw Hmask]; [done|lia|].
  assert (blen (name ++ [x00]) = blen name + 1) as Hn by (rewrite blen_app; done).
  assert (decode_cstr (name ++ [x00]) = name) as Hd by by apply decode_cstr_ascii.
  split; unfold decode_drec_name.
  - assert (le_u32 (hashed_drec_key jk hash name) 8 = Z.lor (Z.shiftl hash 10) (blen name + 1)) as ->
      by (apply (le_u32_app (to_le_bytes 8 jk)); [by rewrite blen_to_le_bytes|done]).
    rewrite Hmask, (proj2 (Z.ltb_lt _ _)) by lia.
    assert (get_range (hashed_drec_key jk hash name) 12 (12 + (blen name + 1)) = Some (name ++ [x00])) as ->;
      [|by rewrite Hd].
    unfold hashed_drec_key. rewrite (app_assoc (to_le_bytes 8 jk)).
    set (s := name ++ [x00]) in *. rewrite <-(app_nil_r s) at 1.
    apply get_range_app; rewrite blen_app, !blen_to_le_bytes; lia.
  - rewrite unhashed_not_hashed by done.
    assert (le_u16 (unhashed_drec_key jk name) 8 = blen name + 1) as ->
      by (apply (le_u16_app (to_le_bytes 8 jk)); [by rewrite blen_to_le_bytes|lia]).
    rewrite (proj2 (Z.ltb_lt _ _)) by lia.
    assert (get_range (unhashed_drec_key jk name) 10 (10 + (blen name + 1)) = Some (name ++ [x00])) as ->;
      [|cbn; by rewrite Hd].
    unfold unhashed_drec_key. rewrite (app_assoc (to_le_bytes 8 jk)).
    set (s := name ++ [x00]) in *. rewrite <-(app_nil_r s) at 1.
    apply get_range_app; rewrite blen_app, !blen_to_le_bytes; lia.
Qed.

Lemma drec_name_roundtrip_witness :
  decode_drec_name (hashed_drec_key 0x9000000000000002 0x2a5a5 [x61; x2e; x74]) = Some [x61; x2e; x74] /\
  decode_drec_name (unhashed_drec_key 0x9000000000000002 [x61; x2e; x74]) = Some [x61; x2e; x74].
Proof.
  apply (drec_name_roundtrip 0x9000000000000002 0x2a5a5 [x61; x2e; x74]).
  - repeat constructor; vm_compute; reflexivity.
  - vm_compute; reflexivity.
  - lia.
Defined.
