(* ===== verification/Spaceman.v ===== *)
(** The space manager (core/src/spaceman.rs): allocation queries and the enumeration of free space.

    [is_block_free] asks about one block, [free_block_runs] enumerates all of them.  The theorems
    give the meaning of a run list ([covers]), its normal form ([canonical]: non-empty
    runs in ascending order that never touch, hence maximal), and the agreement of the two operations.
    The unchecked additions of the source stay below 2^64 for 32-bit counts, so they are exact. *)

From S2P Require Import Prelude Bytes Errors Reader Object.

Definition SM_BLOCKS_PER_CHUNK : Z := 36.
Definition SM_CHUNKS_PER_CIB : Z := 40.
Definition SM_DEV0 : Z := 48.
Definition DEV_BLOCK_COUNT : Z := 0.
Definition DEV_CHUNK_COUNT : Z := 8.
Definition DEV_CIB_COUNT : Z := 16.
Definition DEV_CAB_COUNT : Z := 20.
Definition DEV_ADDR_OFFSET : Z := 32.
Definition CIB_CHUNK_INFO_COUNT : Z := 36.
Definition CIB_CHUNK_INFO : Z := 40.
Definition CHUNK_INFO_LEN : Z := 32.
Definition CI_BITMAP_ADDR : Z := 24.

(** The fields both operations read out of the spaceman block. *)
Definition blocks_per_chunk (sm : bytes) : Z := le_u32 sm SM_BLOCKS_PER_CHUNK.
Definition chunks_per_cib (sm : bytes) : Z := le_u32 sm SM_CHUNKS_PER_CIB.
Definition block_count (sm : bytes) : Z := le_u64 sm (SM_DEV0 + DEV_BLOCK_COUNT).
Definition chunk_count (sm : bytes) : Z := le_u64 sm (SM_DEV0 + DEV_CHUNK_COUNT).
Definition cib_count (sm : bytes) : Z := le_u32 sm (SM_DEV0 + DEV_CIB_COUNT).
Definition cab_count (sm : bytes) : Z := le_u32 sm (SM_DEV0 + DEV_CAB_COUNT).
Definition addr_offset (sm : bytes) : Z := le_u32 sm (SM_DEV0 + DEV_ADDR_OFFSET).
Definition cib_paddr (sm : bytes) (cib_idx : Z) : Z := le_u64 sm (addr_offset sm + cib_idx * 8).
Definition ci_count (cib : bytes) : Z := le_u32 cib CIB_CHUNK_INFO_COUNT.
Definition bitmap_addr (cib : bytes) (within : Z) : Z :=
  le_u64 cib (CIB_CHUNK_INFO + within * CHUNK_INFO_LEN + CI_BITMAP_ADDR).

Definition sm_range (field : string) (value cap : Z) : ApfsError :=
  FieldOutOfRange "spaceman_phys" field value cap.

(** [byte & (1 << k) != 0]. *)
Definition bit_set (b : byte) (k : Z) : bool := negb (Z.land (b2z b) (Z.shiftl 1 k) =? 0).

(** ** Runs of one bitmap *)

Definition free_runs_step (bitmap : bytes) (free_bit_is_one : bool)
    (st : list (Z * Z) * option Z) (i : Z) : list (Z * Z) * option Z :=
  let '(runs, start) := st in
  let allocated_fill := if free_bit_is_one then x00 else xff in
  let b := default allocated_fill (get_index bitmap (i / 8)) in
  let is_free := Bool.eqb (bit_set b (i mod 8)) free_bit_is_one in
  match is_free, start with
  | true, None => (runs, Some i)
  | false, Some s => (runs ++ [(s, i - s)], None)
  | true, Some _ | false, None => st
  end.

Definition free_runs (bitmap : bytes) (blocks : Z) (free_bit_is_one : bool) : list (Z * Z) :=
  let '(runs, start) := foldl (free_runs_step bitmap free_bit_is_one) ([], None) (range blocks) in
  match start with
  | Some s => runs ++ [(s, saturating_sub blocks s)]
  | None => runs
  end.

Definition push_free_run (runs : list (Z * Z)) (first len : Z) : list (Z * Z) :=
  if len =? 0 then runs
  else
    match last runs with
    | Some lst =>
        if saturating_add lst.1 lst.2 =? first
        then take (length runs - 1) runs ++ [(lst.1, saturating_add lst.2 len)]
        else runs ++ [(first, len)]
    | None => runs ++ [(first, len)]
    end.

Section Spaceman.
Context {R} `{ReadSeek R} (reader : R) (block_size : Z).

Definition read_obj_block (paddr : Z) : result bytes :=
  buf ← read_at reader (saturating_mul paddr block_size) block_size;
  let stored := fletcher64_stored buf in
  let computed := fletcher64_checksum buf in
  if negb (stored =? computed) then Err (ChecksumMismatch (le_u64 buf 8) stored computed)
  else Ok buf.

Definition is_block_free (spaceman_paddr block : Z) : result bool :=
  sm ← read_obj_block spaceman_paddr;
  if (blocks_per_chunk sm =? 0) || (chunks_per_cib sm =? 0)
  then Err (sm_range "sm_blocks_per_chunk/sm_chunks_per_cib" 0 1)
  else if block_count sm <=? block then Err (sm_range "block" block (block_count sm))
  else if negb (cab_count sm =? 0) then Err (UnsupportedSpacemanCab (cab_count sm))
  else
    let chunk_index := block / blocks_per_chunk sm in
    if chunk_count sm <=? chunk_index then Err (sm_range "chunk_index" chunk_index (chunk_count sm))
    else
      let cib_idx := chunk_index / chunks_per_cib sm in
      let within_cib := chunk_index mod chunks_per_cib sm in
      if cib_count sm <=? cib_idx then Err (sm_range "cib_index" cib_idx (cib_count sm))
      else
        cib ← read_obj_block (cib_paddr sm cib_idx);
        if ci_count cib <=? within_cib
        then Err (sm_range "chunk_info_index" within_cib (ci_count cib))
        else if bitmap_addr cib within_cib =? 0 then Ok true
        else
          bitmap ← read_at reader (saturating_mul (bitmap_addr cib within_cib) block_size) block_size;
          let bit := block mod blocks_per_chunk sm in
          let allocated := match get_index bitmap (bit / 8) with
                           | Some b => bit_set b (bit mod 8)
                           | None => false
                           end in
          Ok (negb allocated).

(** The inner loop: the chunks of one chunk-info block. *)
Fixpoint chunk_loop (sm cib : bytes) (cib_idx : Z) (ws : list Z) (runs : list (Z * Z))
  : result (list (Z * Z)) :=
  match ws with
  | [] => Ok runs
  | within :: ws =>
      let chunk_index := saturating_mul cib_idx (chunks_per_cib sm) + within in
      if chunk_count sm <=? chunk_index then Ok runs
      else
        let chunk_base := saturating_mul chunk_index (blocks_per_chunk sm) in
        if block_count sm <=? chunk_base then Ok runs
        else
          let blocks_in_chunk := Z.min (blocks_per_chunk sm) (block_count sm - chunk_base) in
          if bitmap_addr cib within =? 0
          then chunk_loop sm cib cib_idx ws (push_free_run runs chunk_base blocks_in_chunk)
          else
            bitmap ← read_at reader (saturating_mul (bitmap_addr cib within) block_size) block_size;
            chunk_loop sm cib cib_idx ws
              (foldl (fun runs sl => push_free_run runs (chunk_base + sl.1) sl.2) runs
                 (free_runs bitmap blocks_in_chunk false))
  end.

(** The outer loop: one chunk-info block. *)
Definition cib_step (sm : bytes) (runs : list (Z * Z)) (cib_idx : Z) : result (list (Z * Z)) :=
  cib ← read_obj_block (cib_paddr sm cib_idx);
  chunk_loop sm cib cib_idx (range (ci_count cib)) runs.

Definition free_block_runs (spaceman_paddr : Z) : result (list (Z * Z)) :=
  sm ← read_obj_block spaceman_paddr;
  if (blocks_per_chunk sm =? 0) || (chunks_per_cib sm =? 0)
  then Err (sm_range "sm_blocks_per_chunk/sm_chunks_per_cib" 0 1)
  else if negb (cab_count sm =? 0) then Err (UnsupportedSpacemanCab (cab_count sm))
  else fold_res (cib_step sm) [] (range (cib_count sm)).
End Spaceman.

Lemma read_obj_block_not_Panic {R} `{ReadSeek R} (reader : R) (block_size paddr : Z) :
  read_obj_block reader block_size paddr <> Panic.
Proof. unfold read_obj_block. no_panic. Qed.
#[export] Hint Resolve read_obj_block_not_Panic : apfs.

Lemma free_block_runs_not_Panic {R} `{ReadSeek R} (reader : R) (block_size sp : Z) :
  free_block_runs reader block_size sp <> Panic.
Proof.
  unfold free_block_runs. no_panic. apply fold_res_not_Panic. intros runs i _. unfold cib_step. no_panic.
  generalize (range (ci_count a0)) as ws. intros ws. revert runs. induction ws as [|w ws IH]; intros runs; [done|].
  cbn [chunk_loop]. no_panic.
Qed.

(** ** Meaning and normal form of a run list *)

Definition covers (runs : list (Z * Z)) (b : Z) : Prop :=
  exists r, r ∈ runs /\ r.1 <= b < r.1 + r.2.

(** Non-empty runs, ascending, with a gap between any two. *)
Inductive canonical : list (Z * Z) -> Prop :=
| canonical_nil : canonical []
| canonical_snoc runs s l :
    canonical runs -> 0 < l -> Forall (fun r => r.1 + r.2 < s) runs -> canonical (runs ++ [(s, l)]).

(** Every run ends at or before [hi]. *)
Definition upto (hi : Z) (runs : list (Z * Z)) : Prop := Forall (fun r => 0 <= r.1 /\ r.1 + r.2 <= hi) runs.

Lemma canonical_pos runs : canonical runs -> Forall (fun r => 0 < r.2) runs.
Proof. induction 1 as [|runs s l _ IH Hl _]; [constructor|]. apply Forall_app. split; [done|]. by repeat constructor. Qed.

Lemma covers_app l1 l2 b : covers (l1 ++ l2) b <-> covers l1 b \/ covers l2 b.
Proof. unfold covers. setoid_rewrite elem_of_app. naive_solver. Qed.

Lemma covers_singleton s l b : covers [(s, l)] b <-> s <= b < s + l.
Proof.
  unfold covers. split.
  - intros (r & Hr%list_elem_of_singleton & Hb). by subst r.
  - intros Hb. exists (s, l). split; [by apply list_elem_of_singleton|done].
Qed.

Lemma covers_nil b : ~ covers [] b.
Proof. intros (r & Hr & _). by apply not_elem_of_nil in Hr. Qed.

Lemma upto_mono hi hi' runs : hi <= hi' -> upto hi runs -> upto hi' runs.
Proof. intros Hle Hu. eapply Forall_impl; [exact Hu|]. cbn [fst snd]. lia. Qed.

Lemma canonical_app_inv runs s l :
  canonical (runs ++ [(s, l)]) -> canonical runs /\ 0 < l /\ Forall (fun r => r.1 + r.2 < s) runs.
Proof.
  intros Hc. inversion Hc as [Hn|runs' s' l' Hc' Hl Hf He].
  - by destruct runs.
  - apply app_inj_2 in He as [-> He]; [|done]. by injection He as -> ->.
Qed.

(** Appending a run past the end keeps the normal form and adds exactly its blocks. *)
Lemma push_free_run_spec runs hi first len :
  canonical runs -> upto hi runs -> 0 <= hi <= first -> 0 < len -> first + len < u64_limit ->
  canonical (push_free_run runs first len) /\ upto (first + len) (push_free_run runs first len) /\
  forall b, covers (push_free_run runs first len) b <-> covers runs b \/ first <= b < first + len.
Proof.
  intros Hc Hu Hhi Hl Hlim. unfold push_free_run. rewrite (proj2 (Z.eqb_neq len 0)) by lia.
  assert (Forall (fun r => r.1 + r.2 < first) runs ->
    canonical (runs ++ [(first, len)]) /\ upto (first + len) (runs ++ [(first, len)]) /\
    forall b, covers (runs ++ [(first, len)]) b <-> covers runs b \/ first <= b < first + len) as Happ.
  { intros Hgap. split_and!.
    - by constructor.
    - apply Forall_app. split; [eapply upto_mono; [|exact Hu]; lia|]. constructor; [cbn [fst snd]; lia|constructor].
    - intros b. by rewrite covers_app, covers_singleton. }
  destruct runs as [|[s l] runs _] using rev_ind; [apply Happ; constructor|].
  rewrite last_snoc. cbn [fst snd]. apply canonical_app_inv in Hc as (Hc & Hl0 & Hgap).
  apply Forall_app in Hu as [Hu1 Hu2]. inversion_clear Hu2 as [|? ? [Hs Hend] _]. cbn [fst snd] in *.
  rewrite !saturating_add_exact by lia. destruct (Z.eqb_spec (s + l) first) as [Heq|Hne].
  - rewrite length_app, Nat.add_sub. rewrite take_app_length. split_and!.
    + constructor; [done|lia|done].
    + apply Forall_app. split; [eapply upto_mono; [|exact Hu1]; lia|]. constructor; [cbn [fst snd]; lia|constructor].
    + intros b. rewrite !covers_app, !covers_singleton. intuition lia.
  - apply Happ. apply Forall_app. split; [|constructor; [cbn [fst snd]; lia|constructor]].
    eapply Forall_impl; [exact Hgap|]. cbn [fst snd]. lia.
Qed.

Lemma push_free_runs_spec l runs hi base :
  canonical runs -> upto hi runs -> 0 <= hi <= base ->
  canonical l -> Forall (fun r => 0 <= r.1 /\ base + r.1 + r.2 < u64_limit) l ->
  let runs' := foldl (fun runs sl => push_free_run runs (base + sl.1) sl.2) runs l in
  canonical runs' /\ (forall e, hi <= e -> Forall (fun r => base + r.1 + r.2 <= e) l -> upto e runs') /\
  forall b, covers runs' b <-> covers runs b \/ covers l (b - base).
Proof.
  intros Hc Hu Hhi Hl Hlim. induction Hl as [|l s n Hl IH Hn Hgap].
  { cbn. split_and!; [done|intros e He _; by eapply upto_mono|]. intros b.
    split; [by left|intros [?|?%covers_nil]; done]. }
  apply Forall_app in Hlim as [Hlim1 Hlim2]. inversion_clear Hlim2 as [|? ? [Hs Hlim] _]. cbn [fst snd] in *.
  destruct (IH Hlim1) as (IHc & IHu & IHcov). rewrite foldl_app. cbn [foldl fst snd].
  set (runs1 := foldl _ runs l) in *. assert (upto (base + s) runs1) as Hu1.
  { apply IHu; [lia|]. eapply Forall_impl; [exact Hgap|]. cbn [fst snd]. lia. }
  destruct (push_free_run_spec runs1 (base + s) (base + s) n) as (P1 & P2 & P3); [done|done|lia|lia|lia|].
  cbn zeta. split_and!; [done| |].
  - intros e He Hle. apply Forall_app in Hle as [_ Hle]. inversion_clear Hle as [|? ? Hle' _]. cbn in Hle'.
    eapply upto_mono; [|exact P2]. lia.
  - intros b. rewrite P3, IHcov, covers_app, covers_singleton. intuition lia.
Qed.

(** ** One bitmap *)

(** Bit [i] of the bitmap says free, a missing byte says allocated. *)
Definition bit_free (bitmap : bytes) (free_bit_is_one : bool) (i : Z) : bool :=
  match get_index bitmap (i / 8) with
  | Some b => Bool.eqb (bit_set b (i mod 8)) free_bit_is_one
  | None => false
  end.

Lemma free_runs_step_eq bitmap pol st i :
  0 <= i ->
  free_runs_step bitmap pol st i =
    match bit_free bitmap pol i, st.2 with
    | true, None => (st.1, Some i)
    | false, Some s => (st.1 ++ [(s, i - s)], None)
    | _, _ => st
    end.
Proof.
  intros Hi. unfold free_runs_step, bit_free. destruct st as [runs start]. cbn [fst snd].
  destruct (get_index bitmap (i / 8)); cbn [default]; [done|].
  assert (0 <= i mod 8 < 8) as Hm by (apply Z.mod_pos_bound; lia).
  assert (Bool.eqb (bit_set (if pol then x00 else xff) (i mod 8)) pol = false) as ->; [|done].
  assert (i mod 8 = 0 \/ i mod 8 = 1 \/ i mod 8 = 2 \/ i mod 8 = 3 \/ i mod 8 = 4 \/ i mod 8 = 5 \/
          i mod 8 = 6 \/ i mod 8 = 7) as Hcase by lia.
  destruct pol; (repeat destruct Hcase as [->|Hcase]); try rewrite Hcase; reflexivity.
Qed.

(** The loop after the first [n] bits. *)
Record runs_inv (bitmap : bytes) (pol : bool) (n : Z) (st : list (Z * Z) * option Z) : Prop := {
  ri_canonical : canonical st.1;
  ri_nonneg : Forall (fun r => 0 <= r.1) st.1;
  ri_gap : Forall (fun r => r.1 + r.2 < match st.2 with Some s => s | None => n end) st.1;
  ri_start : forall s, st.2 = Some s -> 0 <= s < n;
  ri_covers : forall i, (covers st.1 i \/ exists s, st.2 = Some s /\ s <= i < n) <->
                0 <= i < n /\ bit_free bitmap pol i = true;
}.

Lemma runs_inv_step bitmap pol n st :
  0 <= n -> runs_inv bitmap pol n st -> runs_inv bitmap pol (n + 1) (free_runs_step bitmap pol st n).
Proof.
  intros Hn [Hc Hnn Hg Hs Hcov]. rewrite free_runs_step_eq by done. destruct st as [runs start].
  cbn [fst snd] in *.
  assert (forall i, 0 <= i < n + 1 /\ bit_free bitmap pol i = true <->
    (0 <= i < n /\ bit_free bitmap pol i = true) \/ (i = n /\ bit_free bitmap pol n = true)) as Hsplit.
  { intros i. split.
    - intros [Hi Hb]. destruct (decide (i = n)) as [->|]; [by right|left; split; [lia|done]].
    - intros [[Hi Hb]|[-> Hb]]; (split; [lia|done]). }
  destruct (bit_free bitmap pol n) eqn:Hb, start as [s|]; split; cbn [fst snd]; try done.
  - naive_solver lia.
  - intros i. rewrite Hsplit, <-Hcov. specialize (Hs s eq_refl). split.
    + intros [?|(s' & [= <-] & ?)]; [left; by left|].
      destruct (decide (i = n)) as [->|]; [by right|]. left; right. exists s. split; [done|lia].
    + intros [[?|(s' & [= <-] & ?)]|[-> _]]; [by left|right; exists s; split; [done|lia]|].
      right. exists s. split; [done|lia].
  - intros s [= <-]. lia.
  - intros i. rewrite Hsplit, <-Hcov. split.
    + intros [?|(s' & [= <-] & ?)]; [left; by left|]. right. split; [lia|done].
    + intros [[?|(s' & ? & ?)]|[-> _]]; [by left|done|]. right. exists n. split; [done|lia].
  - constructor; [done|specialize (Hs s eq_refl); lia|done].
  - apply Forall_app. split; [done|]. constructor; [cbn [fst snd]; specialize (Hs s eq_refl); lia|constructor].
  - apply Forall_app. split; [|constructor; [cbn [fst snd]; lia|constructor]]. specialize (Hs s eq_refl).
    eapply Forall_impl; [exact Hg|]. cbn [fst snd]. lia.
  - intros i. rewrite Hsplit, <-Hcov, covers_app, covers_singleton. split.
    + intros [[?|?]|(? & ? & _)]; [left; by left| |done]. left; right. exists s. split; [done|lia].
    + intros [[?|(s' & [= <-] & ?)]|[-> ?]]; [left; by left| |done]. left; right. lia.
  - eapply Forall_impl; [exact Hg|]. cbn [fst snd]. lia.
  - intros i. rewrite Hsplit, <-Hcov. split; [intros [?|(? & ? & _)]; [left; by left|done]|].
    intros [[?|(? & ? & _)]|[_ ?]]; [by left|done|done].
Qed.

Lemma free_runs_spec bitmap blocks pol :
  0 <= blocks ->
  canonical (free_runs bitmap blocks pol) /\
  Forall (fun r => 0 <= r.1 /\ r.1 + r.2 <= blocks) (free_runs bitmap blocks pol) /\
  forall i, covers (free_runs bitmap blocks pol) i <-> 0 <= i < blocks /\ bit_free bitmap pol i = true.
Proof.
  intros Hn. unfold free_runs.
  assert (runs_inv bitmap pol blocks (foldl (free_runs_step bitmap pol) ([], None) (range blocks))) as Hinv.
  { apply (range_ind (fun n => runs_inv bitmap pol n (foldl (free_runs_step bitmap pol) ([], None) (range n))));
      [| |done].
    - split; cbn; [constructor|constructor|constructor|done|]. intros i. split; [|lia].
      intros [?%covers_nil|(? & ? & _)]; done.
    - intros i Hi IH. rewrite range_succ, foldl_app by lia. cbn [foldl]. apply runs_inv_step; [lia|done]. }
  destruct (foldl _ _ _) as [runs start]. destruct Hinv as [Hc Hnn Hg Hs Hcov]. cbn [fst snd] in *.
  assert (Forall (fun r => 0 <= r.1 /\ r.1 + r.2 <= match start with Some s => s | None => blocks end) runs) as Hb.
  { apply Forall_and. split; [done|]. eapply Forall_impl; [exact Hg|]. cbn [fst snd]. lia. }
  destruct start as [s|].
  - specialize (Hs s eq_refl). unfold saturating_sub. rewrite Z.max_r by lia. split_and!.
    + constructor; [done|lia|done].
    + apply Forall_app. split; [eapply Forall_impl; [exact Hb|]; cbn [fst snd]; lia|].
      constructor; [cbn [fst snd]; lia|constructor].
    + intros i. rewrite <-Hcov, covers_app, covers_singleton.
      split; [intros [?|?]; [by left|right; exists s; split; [done|lia]]|].
      intros [?|(s' & [= <-] & ?)]; [by left|right; lia].
  - split_and!; [done|done|]. intros i. rewrite <-Hcov. naive_solver.
Qed.

(** ** The whole device *)

Section Device.
Context {R} `{ReadSeek R} (reader : R) (block_size : Z).

(** Block [b] is in chunk [within] of the chunk-info block [cib] and marked free there. *)
Definition chunk_holds (sm cib : bytes) (cib_idx within b : Z) : Prop :=
  let ci := cib_idx * chunks_per_cib sm + within in
  ci < chunk_count sm /\ ci * blocks_per_chunk sm <= b < (ci + 1) * blocks_per_chunk sm /\
  b < block_count sm /\
  (bitmap_addr cib within = 0 \/
   exists bitmap,
     read_at reader (saturating_mul (bitmap_addr cib within) block_size) block_size = Ok bitmap /\
     bit_free bitmap false (b - ci * blocks_per_chunk sm) = true).

Lemma sm_bounds sm :
  0 <= blocks_per_chunk sm < 2 ^ 32 /\ 0 <= chunks_per_cib sm < 2 ^ 32 /\
  0 <= block_count sm < 2 ^ 64 /\ 0 <= chunk_count sm < 2 ^ 64 /\ 0 <= cib_count sm < 2 ^ 32.
Proof.
  split_and!; (apply le_u32_bound || apply le_u64_bound).
Qed.

(** What one pass of the inner loop appends for chunk [ci]: its free blocks. *)
Lemma chunk_pass sm runs hi ci l :
  0 < blocks_per_chunk sm -> canonical runs -> upto hi runs ->
  let base := ci * blocks_per_chunk sm in
  let n := Z.min (blocks_per_chunk sm) (block_count sm - base) in
  0 <= hi <= base -> base < block_count sm ->
  canonical l -> Forall (fun r => 0 <= r.1 /\ r.1 + r.2 <= n) l ->
  let runs' := foldl (fun runs sl => push_free_run runs (base + sl.1) sl.2) runs l in
  canonical runs' /\ upto (base + blocks_per_chunk sm) runs' /\
  forall b, covers runs' b <-> covers runs b \/ covers l (b - base).
Proof.
  intros Hb Hc Hu base n Hhi Hlt Hl Hle. destruct (sm_bounds sm) as (_ & _ & Hbc & _).
  destruct (push_free_runs_spec l runs hi base) as (P1 & P2 & P3); [done|done|lia|done| |].
  - eapply Forall_impl; [exact Hle|]. cbn [fst snd]. unfold u64_limit, n in *. lia.
  - split_and!; [done| |done]. apply P2; [lia|]. eapply Forall_impl; [exact Hle|].
    cbn [fst snd]. unfold n. lia.
Qed.

(** What the chunks [w .. w + n) of a block have added to the runs. *)
Definition chunks_added sm cib cib_idx w n (runs runs' : list (Z * Z)) : Prop :=
  canonical runs' /\ upto ((cib_idx * chunks_per_cib sm + w + n) * blocks_per_chunk sm) runs' /\
  forall b, covers runs' b <-> covers runs b \/
    exists within, w <= within < w + n /\ chunk_holds sm cib cib_idx within b.

(** Nothing, when the first of them is past an end. *)
Lemma chunks_added_none sm cib cib_idx w n runs hi :
  0 < blocks_per_chunk sm -> 0 <= n -> canonical runs -> upto hi runs ->
  hi <= (cib_idx * chunks_per_cib sm + w) * blocks_per_chunk sm ->
  n = 0 \/ chunk_count sm <= cib_idx * chunks_per_cib sm + w \/
  block_count sm <= (cib_idx * chunks_per_cib sm + w) * blocks_per_chunk sm ->
  chunks_added sm cib cib_idx w n runs runs.
Proof.
  intros Hb Hn Hc Hu Hhi Hend. split_and!; [done|eapply upto_mono; [|exact Hu]; nia|].
  intros b. split; [by left|]. intros [?|(x & Hx & Hh)]; [done|]. exfalso.
  unfold chunk_holds in Hh. cbn zeta in Hh. destruct Hh as (? & ? & ? & _). destruct Hend as [->|Hend]; [lia|nia].
Qed.

(** The first chunk's runs, then those of the others. *)
Lemma chunks_added_cons sm cib cib_idx w n runs hi l runs' :
  let base := (cib_idx * chunks_per_cib sm + w) * blocks_per_chunk sm in
  0 < blocks_per_chunk sm -> 0 <= n -> canonical runs -> upto hi runs -> 0 <= hi <= base -> base < block_count sm -> canonical l ->
  Forall (fun r => 0 <= r.1 /\ r.1 + r.2 <= Z.min (blocks_per_chunk sm) (block_count sm - base)) l ->
  (forall b, covers l (b - base) <-> chunk_holds sm cib cib_idx w b) ->
  let next := foldl (fun runs sl => push_free_run runs (base + sl.1) sl.2) runs l in
  (canonical next -> upto (base + blocks_per_chunk sm) next -> chunks_added sm cib cib_idx (Z.succ w) n next runs') ->
  chunks_added sm cib cib_idx w (Z.succ n) runs runs'.
Proof.
  intros base Hb Hn Hc Hu Hhi Hlt Hl Hle Hcov next Hrest.
  destruct (chunk_pass sm runs hi (cib_idx * chunks_per_cib sm + w) l) as (P1 & P2 & P3); [done|done|done|lia|done|done|done|].
  fold base next in P1, P2, P3. destruct (Hrest P1 P2) as (Q1 & Q2 & Q3). split_and!; [done| |].
  - eapply upto_mono; [|exact Q2]. nia.
  - intros b. rewrite Q3, P3, Hcov. split.
    + intros [[?|?]|(x & Hx & ?)]; [by left|right; exists w; split; [lia|done]|].
      right. exists x. split; [lia|done].
    + intros [?|(x & Hx & ?)]; [by left; left|].
      destruct (decide (x = w)) as [->|]; [by left; right|]. right. exists x. split; [lia|done].
Qed.

Lemma chunk_loop_spec sm cib cib_idx n : forall w runs hi runs',
  0 < blocks_per_chunk sm -> 0 <= cib_idx < 2 ^ 32 -> 0 <= w -> w + Z.of_nat n < 2 ^ 32 ->
  canonical runs -> upto hi runs ->
  0 <= hi <= (cib_idx * chunks_per_cib sm + w) * blocks_per_chunk sm ->
  chunk_loop reader block_size sm cib cib_idx (seqZ w (Z.of_nat n)) runs = Ok runs' ->
  chunks_added sm cib cib_idx w (Z.of_nat n) runs runs'.
Proof.
  induction n as [|n IH]; intros w runs hi runs' Hb Hi Hw Hwn Hc Hu Hhi Hrun.
  { rewrite seqZ_nil in Hrun by lia. cbn [chunk_loop] in Hrun. ok_inv. by eapply chunks_added_none; eauto; lia. }
  destruct (sm_bounds sm) as (Hbpc & Hcpc & Hbc & Hcc & _).
  rewrite Nat2Z.inj_succ, seqZ_cons in Hrun by lia. rewrite Z.pred_succ in Hrun. cbn [chunk_loop] in Hrun.
  rewrite saturating_mul_exact in Hrun by (unfold u64_limit; nia). rewrite Nat2Z.inj_succ.
  set (ci := cib_idx * chunks_per_cib sm + w) in *. set (base := ci * blocks_per_chunk sm) in *.
  destruct (Z.leb_spec (chunk_count sm) ci) as [Hcc'|Hcc'].
  { ok_inv. eapply chunks_added_none; [done|lia|done|exact Hu|fold ci base; lia|]. by right; left. }
  assert (block_count sm <= saturating_mul ci (blocks_per_chunk sm) <-> block_count sm <= base) as Hsat.
  { unfold saturating_mul, u64_max, u64_limit. fold base. lia. }
  destruct (Z.leb_spec (block_count sm) (saturating_mul ci (blocks_per_chunk sm))) as [Hbc'|Hbc'].
  { ok_inv. eapply chunks_added_none; [done|lia|done|exact Hu|fold ci base; lia|]. right; right. fold ci base. lia. }
  assert (base < block_count sm) as Hlt by lia.
  rewrite saturating_mul_exact in Hrun by (fold base; unfold u64_limit; lia). fold base in Hrun.
  assert (forall next, chunk_loop reader block_size sm cib cib_idx (seqZ (Z.succ w) (Z.of_nat n)) next = Ok runs' ->
    canonical next -> upto (base + blocks_per_chunk sm) next -> chunks_added sm cib cib_idx (Z.succ w) (Z.of_nat n) next runs') as Hgo.
  { intros next Hnext Hcn Hun. eapply IH; [done|done|lia|lia|exact Hcn|exact Hun|unfold base, ci in *; nia|exact Hnext]. }
  destruct (Z.eqb_spec (bitmap_addr cib w) 0) as [Hz|Hz].
  - eapply chunks_added_cons with (l := [(0, Z.min (blocks_per_chunk sm) (block_count sm - base))]);
      [done|lia|done|exact Hu|done|done| | | |].
    + apply (canonical_snoc []); [constructor|lia|constructor].
    + constructor; [cbn [fst snd]; fold ci base; lia|constructor].
    + intros b. rewrite covers_singleton. unfold chunk_holds. fold ci base. split; [intros ?|intros (_ & ? & ? & _); lia].
      split_and!; [done|lia|lia|lia|by left].
    + fold ci base. apply Hgo. cbn [foldl fst snd]. by rewrite Z.add_0_r.
  - apply bind_Ok_iff in Hrun as (bitmap & Hbm & Hrest).
    destruct (free_runs_spec bitmap (Z.min (blocks_per_chunk sm) (block_count sm - base)) false) as (F1 & F2 & F3); [lia|].
    eapply chunks_added_cons; [done|lia|done|exact Hu|done|done|exact F1|exact F2| |by apply Hgo].
    intros b. fold ci base. rewrite F3. unfold chunk_holds. fold ci base. split.
    + intros [? ?]. split_and!; [done|lia|lia|lia|]. right. by exists bitmap.
    + intros (_ & ? & ? & [?|(bm & Hbm' & ?)]); [done|].
      assert (bm = bitmap) as -> by congruence. split; [lia|done].
Qed.

(** The bitmap block has a bit for every block of a chunk, and no chunk-info block claims more chunks than
    [sm_chunks_per_cib]: how the format lays a device out. *)
Record geometry_ok (sm : bytes) : Prop := {
  geo_bitmap : blocks_per_chunk sm <= 8 * block_size;
  geo_cib : forall i cib, 0 <= i < cib_count sm ->
    read_obj_block reader block_size (cib_paddr sm i) = Ok cib -> ci_count cib <= chunks_per_cib sm;
}.

Lemma bit_free_in_bitmap bitmap i :
  0 <= i -> blen bitmap = block_size -> i < 8 * block_size ->
  bit_free bitmap false i =
    negb (match get_index bitmap (i / 8) with Some b => bit_set b (i mod 8) | None => false end).
Proof.
  intros Hi Hl Hlt. unfold bit_free. destruct (get_index_lt bitmap (i / 8)) as [b ->].
  { split; [apply Z.div_pos; lia|]. apply Z.div_lt_upper_bound; lia. }
  by destruct (bit_set b (i mod 8)).
Qed.

(** The chunk that holds a block is determined by the two divisions of [is_block_free]. *)
Lemma chunk_holds_index sm cib i w b :
  0 <= w < chunks_per_cib sm -> chunk_holds sm cib i w b ->
  i = b / blocks_per_chunk sm / chunks_per_cib sm /\ w = (b / blocks_per_chunk sm) mod chunks_per_cib sm.
Proof.
  intros Hw Hh. unfold chunk_holds in Hh. cbn zeta in Hh. destruct Hh as (_ & Hr & _).
  assert (i * chunks_per_cib sm + w = b / blocks_per_chunk sm) as <-.
  { apply (Z.div_unique b (blocks_per_chunk sm) _ (b - (i * chunks_per_cib sm + w) * blocks_per_chunk sm)); lia. }
  split; [apply (Z.div_unique _ (chunks_per_cib sm) i w)|apply (Z.mod_unique _ (chunks_per_cib sm) i w)]; lia.
Qed.

(** The same two divisions, read backwards. *)
Lemma block_chunk_split sm b :
  0 < blocks_per_chunk sm -> 0 < chunks_per_cib sm -> 0 <= b ->
  let c := b / blocks_per_chunk sm in
  0 <= c / chunks_per_cib sm /\ 0 <= c mod chunks_per_cib sm < chunks_per_cib sm /\
  c / chunks_per_cib sm * chunks_per_cib sm + c mod chunks_per_cib sm = c /\
  b - c * blocks_per_chunk sm = b mod blocks_per_chunk sm /\
  0 <= b mod blocks_per_chunk sm < blocks_per_chunk sm.
Proof.
  intros H1 H2 Hb c. assert (0 <= c) by (apply Z.div_pos; lia). split_and!.
  - apply Z.div_pos; lia.
  - apply Z.mod_pos_bound; lia.
  - apply Z.mod_pos_bound; lia.
  - rewrite Z.mul_comm. symmetry. apply Z.div_mod. lia.
  - unfold c. rewrite Z.mod_eq by lia. lia.
  - apply Z.mod_pos_bound; lia.
  - apply Z.mod_pos_bound; lia.
Qed.

(** The bit test of [is_block_free] once the chunk is found. *)
Lemma query_bit sm cib q r b :
  0 <= r < ci_count cib -> blocks_per_chunk sm <= 8 * block_size -> 0 <= block_size -> b < block_count sm ->
  let c := q * chunks_per_cib sm + r in
  c < chunk_count sm -> c = b / blocks_per_chunk sm ->
  b - c * blocks_per_chunk sm = b mod blocks_per_chunk sm ->
  0 <= b mod blocks_per_chunk sm < blocks_per_chunk sm ->
  (if bitmap_addr cib r =? 0 then Ok true
   else
     bitmap ← read_at reader (saturating_mul (bitmap_addr cib r) block_size) block_size;
     Ok (negb (match get_index bitmap (b mod blocks_per_chunk sm / 8) with
               | Some y => bit_set y (b mod blocks_per_chunk sm mod 8)
               | None => false
               end)) : result bool) = Ok true <-> chunk_holds sm cib q r b.
Proof.
  intros Hr Hgb Hbs Hb c Hc Hcd Hm Hmb. unfold chunk_holds. fold c. rewrite Hm.
  destruct (Z.eqb_spec (bitmap_addr cib r) 0) as [|Hz].
  { split; [|done]. intros _. split_and!; [done|lia|lia|done|by left]. }
  destruct (read_at reader _ block_size) as [bm| |] eqn:Hbm; cbn [mbind outcome_bind]; cycle 1.
  1,2: split; [done|]; intros (_ & _ & _ & [?|(? & ? & _)]); done.
  apply read_at_len in Hbm as Hlen; [|done]. split.
  - intros [= Hv]. split_and!; [done|lia|lia|done|]. right. exists bm. split; [done|].
    rewrite bit_free_in_bitmap by lia. done.
  - intros (_ & _ & _ & [?|(bm' & [= <-] & Hf)]); [done|].
    rewrite bit_free_in_bitmap in Hf by lia. by rewrite Hf.
Qed.

(** Some chunk of the first [n] chunk-info blocks holds [b] free. *)
Definition held_below (sm : bytes) (n b : Z) : Prop :=
  exists i cib within, 0 <= i < n /\
    read_obj_block reader block_size (cib_paddr sm i) = Ok cib /\
    0 <= within < ci_count cib /\ chunk_holds sm cib i within b.

(** The single query finds the one chunk that can hold the block. *)
Lemma is_block_free_iff sp sm b :
  read_obj_block reader block_size sp = Ok sm -> geometry_ok sm ->
  blocks_per_chunk sm <> 0 -> chunks_per_cib sm <> 0 -> cab_count sm = 0 -> 0 <= b -> 0 <= block_size ->
  is_block_free reader block_size sp b = Ok true <-> held_below sm (cib_count sm) b.
Proof.
  intros Hsm [Hgb Hgc] Hbpc Hcpc Hcab Hb Hbs. destruct (sm_bounds sm) as (Hb1 & Hb2 & _).
  unfold is_block_free. rewrite Hsm. cbn [mbind outcome_bind].
  rewrite (proj2 (Z.eqb_neq _ _) Hbpc), (proj2 (Z.eqb_neq _ _) Hcpc), Hcab. cbn [orb negb Z.eqb].
  destruct (block_chunk_split sm b) as (Hq & Hr & Hc & Hm & Hmb); [lia|lia|done|].
  set (c := b / blocks_per_chunk sm) in *. set (q := c / chunks_per_cib sm) in *.
  set (r := c mod chunks_per_cib sm) in *.
  assert (held_below sm (cib_count sm) b -> b < block_count sm /\ c < chunk_count sm /\ q < cib_count sm /\
    exists cib, read_obj_block reader block_size (cib_paddr sm q) = Ok cib /\
      r < ci_count cib /\ chunk_holds sm cib q r b) as Hex.
  { intros (i & cib & w & Hi & Hcib & Hw & Hh). specialize (Hgc i cib Hi Hcib).
    destruct (chunk_holds_index sm cib i w b) as [Hi' Hw']; [lia|done|]. fold c q r in Hi', Hw'. subst i w.
    pose proof Hh as Hh'. unfold chunk_holds in Hh'. cbn zeta in Hh'. rewrite Hc in Hh'.
    destruct Hh' as (? & ? & ? & _). split_and!; [done|done|lia|]. exists cib. split_and!; [done|lia|done]. }
  destruct (Z.leb_spec (block_count sm) b); [split; [done|intros He%Hex; lia]|].
  destruct (Z.leb_spec (chunk_count sm) c); [split; [done|intros He%Hex; lia]|].
  destruct (Z.leb_spec (cib_count sm) q); [split; [done|intros He%Hex; lia]|].
  destruct (read_obj_block reader block_size (cib_paddr sm q)) as [cib| |] eqn:Hcib; cbn [mbind outcome_bind]; cycle 1.
  1,2: split; [done|intros (_ & _ & _ & cib & ? & _)%Hex; done].
  destruct (Z.leb_spec (ci_count cib) r).
  { split; [done|intros (_ & _ & _ & cib' & [= <-] & ? & _)%Hex; lia]. }
  rewrite (query_bit sm cib q r b) by (rewrite ?Hc; lia || done). split.
  - intros Hh. exists q, cib, r. split_and!; by try lia.
  - intros (_ & _ & _ & cib' & [= <-] & _ & ?)%Hex. done.
Qed.

Lemma cib_step_spec sm n runs runs' :
  geometry_ok sm -> 0 < blocks_per_chunk sm -> 0 <= n < cib_count sm ->
  canonical runs -> upto (n * chunks_per_cib sm * blocks_per_chunk sm) runs ->
  cib_step reader block_size sm runs n = Ok runs' ->
  canonical runs' /\ upto ((n + 1) * chunks_per_cib sm * blocks_per_chunk sm) runs' /\
  forall b, covers runs' b <-> covers runs b \/
    exists cib within, read_obj_block reader block_size (cib_paddr sm n) = Ok cib /\
      0 <= within < ci_count cib /\ chunk_holds sm cib n within b.
Proof.
  intros [_ Hgc] Hbpc Hn Hc Hu Hf. destruct (sm_bounds sm) as (_ & Hcpc & _ & _ & Hcc).
  apply bind_Ok_iff in Hf as (cib & Hcib & Hf). specialize (Hgc n cib Hn Hcib).
  pose proof (le_u32_bound cib CIB_CHUNK_INFO_COUNT) as Hci. fold (ci_count cib) in Hci.
  unfold range in Hf. rewrite <-(Z2Nat.id (ci_count cib)) in Hf by lia.
  apply chunk_loop_spec with (hi := n * chunks_per_cib sm * blocks_per_chunk sm) in Hf as (P1 & P2 & P3);
    [|lia|lia|lia|lia|done|done|nia].
  rewrite Z2Nat.id in P2, P3 by lia. split_and!; [done|eapply upto_mono; [|exact P2]; nia|].
  intros b. rewrite P3. split.
  - intros [?|(w & Hw & ?)]; [by left|]. right. exists cib, w. split_and!; by try lia.
  - intros [?|(c & w & Hc' & Hw & ?)]; [by left|]. right. assert (c = cib) as -> by congruence.
    exists w. split; [lia|done].
Qed.

(** The enumeration visits every chunk. *)
Lemma cib_loop_spec sm n runs :
  geometry_ok sm -> 0 < blocks_per_chunk sm -> 0 <= n -> n <= cib_count sm ->
  fold_res (cib_step reader block_size sm) [] (range n) = Ok runs ->
  canonical runs /\ upto (n * chunks_per_cib sm * blocks_per_chunk sm) runs /\
  forall b, covers runs b <-> held_below sm n b.
Proof.
  intros Hg Hbpc Hn. revert runs. pattern n. apply natlike_ind; [| |done]; clear n Hn.
  - intros runs _ Hf. change (range 0) with (@nil Z) in Hf. cbn [fold_res] in Hf. ok_inv.
    split_and!; [constructor|constructor|]. intros b. split; [by intros ?%covers_nil|].
    intros (i & ? & ? & ? & _). lia.
  - intros n Hn IH runs Hle Hf. rewrite <-Z.add_1_r, range_succ, fold_res_app in Hf by done.
    apply bind_Ok_iff in Hf as (rs0 & H0 & Hf). destruct (IH _ ltac:(lia) H0) as (I1 & I2 & I3).
    cbn [fold_res] in Hf. apply bind_Ok_iff in Hf as (rs1 & Hf & Hok). ok_inv.
    apply cib_step_spec in Hf as (P1 & P2 & P3); [|done|done|lia|done|done].
    rewrite <-Z.add_1_r. split_and!; [done|done|]. intros b. rewrite P3, I3. unfold held_below. split.
    + intros [(i & c & w & ? & ? & ? & ?)|(c & w & ? & ? & ?)]; [exists i, c, w|exists n, c, w]; split_and!; by try lia.
    + intros (i & c & w & Hi & Hc & Hw & ?). destruct (decide (i = n)) as [->|].
      * right. by exists c, w.
      * left. exists i, c, w. split_and!; by try lia.
Qed.

Lemma free_block_runs_covers sp sm runs :
  read_obj_block reader block_size sp = Ok sm -> geometry_ok sm ->
  free_block_runs reader block_size sp = Ok runs ->
  blocks_per_chunk sm <> 0 /\ chunks_per_cib sm <> 0 /\ cab_count sm = 0 /\ canonical runs /\
  forall b, covers runs b <-> held_below sm (cib_count sm) b.
Proof.
  intros Hsm Hg. unfold free_block_runs. rewrite Hsm. cbn [mbind outcome_bind].
  destruct (sm_bounds sm) as (Hb1 & Hb2 & _ & _ & Hcc).
  destruct (_ || _) eqn:Hz; [done|]. bool_cases. destruct (cab_count sm =? 0) eqn:Hcab; [|done].
  cbn [negb]. bool_cases. intros Hrun. do 3 (split; [done|]).
  apply cib_loop_spec in Hrun as (? & _ & ?); [done|done|lia|lia|lia].
Qed.

(** Every run lies on the device. *)
Lemma free_block_runs_bounds sp sm runs :
  read_obj_block reader block_size sp = Ok sm -> geometry_ok sm ->
  free_block_runs reader block_size sp = Ok runs ->
  Forall (fun r => 0 <= r.1 /\ 0 < r.2 /\ r.1 + r.2 <= block_count sm) runs.
Proof.
  intros Hsm Hg Hrun. destruct (free_block_runs_covers sp sm runs Hsm Hg Hrun) as (Hz & _ & _ & Hc & Hcov).
  destruct (sm_bounds sm) as (Hb1 & Hb2 & _ & _ & Hcc).
  assert (upto (cib_count sm * chunks_per_cib sm * blocks_per_chunk sm) runs) as Hu.
  { unfold free_block_runs in Hrun. rewrite Hsm in Hrun. cbn [mbind outcome_bind] in Hrun.
    destruct (_ || _); [done|]. destruct (negb _); [done|]. apply cib_loop_spec in Hrun as (_ & ? & _); [done|done|lia|lia|lia]. }
  apply Forall_forall. intros r Hr. pose proof (canonical_pos runs Hc) as Hp. unfold upto in Hu. rewrite Forall_forall in Hp, Hu.
  specialize (Hp r Hr). specialize (Hu r Hr). split_and!; [lia|done|].
  assert (covers runs (r.1 + r.2 - 1)) as (i & cib & w & _ & _ & _ & Hh)%Hcov by (exists r; split; [done|lia]).
  unfold chunk_holds in Hh. cbn zeta in Hh. lia.
Qed.

(** C17 (equivalence): on a device laid out as the format says, the enumeration of free space is the query block by
    block: a block is in one of the runs exactly when [is_block_free] answers yes for it; the runs are
    non-empty, ascending and never touch, across chunk boundaries too, so each is maximal. *)
Theorem free_block_runs_spec (sp : Z) (sm : bytes) (runs : list (Z * Z)) :
  0 <= block_size -> read_obj_block reader block_size sp = Ok sm -> geometry_ok sm ->
  free_block_runs reader block_size sp = Ok runs ->
  canonical runs /\
  (forall b, 0 <= b -> covers runs b <-> is_block_free reader block_size sp b = Ok true).
Proof.
  intros Hbs Hsm Hg Hrun.
  destruct (free_block_runs_covers sp sm runs Hsm Hg Hrun) as (H1 & H2 & H3 & Hc & Hcov).
  split; [done|]. intros b Hb. by rewrite Hcov, (is_block_free_iff sp sm b).
Qed.
End Device.

(** ** Devices of 128-byte blocks: the space manager, one chunk-info block, one bitmap *)

Definition demo_spaceman (bpc blocks : Z) : bytes :=
  let p off n v b := put b off (to_le_bytes n v) in
  stamp (p SM_BLOCKS_PER_CHUNK 4%nat bpc (p SM_CHUNKS_PER_CIB 4%nat 1 (p 48 8%nat blocks (p 56 8%nat 1
    (p 64 4%nat 1 (p 80 4%nat 96 (p 96 8%nat 1 (replicate 128 x00)))))))).

Definition demo_cib : bytes :=
  stamp (put (put (replicate 128 x00) CIB_CHUNK_INFO_COUNT (to_le_bytes 4 1)) 64 (to_le_bytes 8 2)).

Definition demo_device (bpc blocks : Z) (bitmap : bytes) : cursor :=
  image (demo_spaceman bpc blocks ++ demo_cib ++ bitmap).

(** Twenty blocks; four allocated, twelve free, the rest allocated. *)
Definition demo_bitmap : bytes := [x0f; x00; xff] ++ replicate 125 x00.

Lemma demo_geometry : geometry_ok (demo_device 1024 20 demo_bitmap) 128 (demo_spaceman 1024 20).
Proof.
  split; [vm_compute; discriminate|]. intros i cib Hi Hr.
  assert (i = 0) as -> by (change (cib_count (demo_spaceman 1024 20)) with 1 in Hi; lia).
  assert (read_obj_block (demo_device 1024 20 demo_bitmap) 128 (cib_paddr (demo_spaceman 1024 20) 0) = Ok demo_cib)
    as Hc by (vm_compute; reflexivity).
  assert (cib = demo_cib) as -> by congruence. vm_compute. discriminate.
Qed.

Lemma free_block_runs_spec_witness :
  canonical [(4, 12)] /\
  (forall b, 0 <= b -> covers [(4, 12)] b <-> is_block_free (demo_device 1024 20 demo_bitmap) 128 0 b = Ok true).
Proof.
  apply (free_block_runs_spec (demo_device 1024 20 demo_bitmap) 128 0 (demo_spaceman 1024 20) [(4, 12)]).
  - lia.
  - vm_compute; reflexivity.
  - exact demo_geometry.
  - vm_compute; reflexivity.
Defined.

(** When [sm_blocks_per_chunk] promises more bits than the bitmap block holds, the query and the enumeration part:
    a block past the last bit is reported free by [is_block_free] and left out, as allocated, by
    [free_block_runs]. *)
Theorem free_query_past_bitmap_disagrees :
  exists reader b runs,
    free_block_runs (R := cursor) reader 128 0 = Ok runs /\
    is_block_free reader 128 0 b = Ok true /\ ~ covers runs b.
Proof.
  exists (demo_device 2048 1100 (replicate 128 xff)), 1050, []. split_and!.
  - vm_compute. reflexivity.
  - vm_compute. reflexivity.
  - apply covers_nil.
Qed.
