(* ===== verification/Reaper.v ===== *)
(** The reaper (core/src/reaper.rs): objects queued for lazy deletion.

    [pending_objects] follows a chain of reap lists through the checkpoint mappings.  The source's [while] has no
    bound of its own other than the seen set, so [reap_loop] counts rounds; the set refuses the 4097th
    list, and [reap_loop_rounds] shows that the rounds given are never used up. *)

From S2P Require Import Prelude Bytes Errors Reader Object Checkpoint Spaceman.

Set Warnings "-register-all".

Definition NR_HEAD : Z := 48.
Definition NR_TYPE : Z := 72.
Definition NR_OID : Z := 88.
Definition NRL_NEXT : Z := 32.
Definition NRL_COUNT : Z := 48.
Definition NRL_ENTRIES : Z := 64.
Definition NRLE_LEN : Z := 40.
Definition NRLE_TYPE : Z := 8.
Definition NRLE_OID : Z := 24.
Definition MAX_REAP_LISTS : Z := 4096.

Record ReapPending := {
  rp_oid : Z;
  rp_obj_type : Z;
}.

(** The object whose reaping is in progress, if any. *)
Definition in_progress (reaper : bytes) : list ReapPending :=
  let nr_oid := le_u64 reaper NR_OID in
  if negb (nr_oid =? 0) then [{| rp_oid := nr_oid; rp_obj_type := le_u32 reaper NR_TYPE |}] else [].

(** The entries of one reap list: the stored count, clamped to what the block holds. *)
Definition reap_entries (block_size : Z) (lst : bytes) : list ReapPending :=
  let max_entries := saturating_sub block_size NRL_ENTRIES / NRLE_LEN in
  let count := Z.min (le_u32 lst NRL_COUNT) max_entries in
  collect (fun i =>
      let e := NRL_ENTRIES + i * NRLE_LEN in
      let oid := le_u64 lst (e + NRLE_OID) in
      if negb (oid =? 0) then Push {| rp_oid := oid; rp_obj_type := le_u32 lst (e + NRLE_TYPE) |} else Continue)
    (range count).

(** [mappings.iter().find(|m| m.oid == oid).map(|m| m.paddr)]. *)
Definition find_mapping (ms : list CheckpointMapping) (oid : Z) : option Z :=
  (fun im => cpm_paddr im.2) <$> list_find (fun m => cpm_oid m = oid) ms.

Section Reaper.
Context {R} `{ReadSeek R} (reader : R) (ms : list CheckpointMapping) (block_size : Z).

(** The [while] loop; its variables are [seen], [next_oid] and [out]. *)
Fixpoint reap_loop (rounds : nat) (seen : gset Z) (next_oid : Z) (out : list ReapPending)
  : result (list ReapPending) :=
  match rounds with
  | O => Panic
  | S rounds =>
      if next_oid =? 0 then Ok out
      else
        let seen' := {[next_oid]} ∪ seen in
        if bool_decide (next_oid ∈ seen) || (MAX_REAP_LISTS <? Z.of_nat (size seen'))
        then Err (CycleGuard MAX_REAP_LISTS)
        else
          paddr ← ok_or (find_mapping ms next_oid) (OmapUnresolved next_oid 0);
          lst ← read_obj_block reader block_size paddr;
          reap_loop rounds seen' (le_u64 lst NRL_NEXT) (out ++ reap_entries block_size lst)
  end.

Definition reap_rounds : nat := Z.to_nat (MAX_REAP_LISTS + 1).

Definition pending_objects (reaper_paddr : Z) : result (list ReapPending) :=
  reaper ← read_obj_block reader block_size reaper_paddr;
  reap_loop reap_rounds ∅ (le_u64 reaper NR_HEAD) (in_progress reaper).

(** ** The chain *)

(** The reap lists from [oid] to the end of the chain, with their blocks. *)
Inductive reap_chain : Z -> list (Z * bytes) -> Prop :=
| chain_end : reap_chain 0 []
| chain_list oid paddr lst l :
    oid <> 0 -> find_mapping ms oid = Some paddr -> read_obj_block reader block_size paddr = Ok lst ->
    reap_chain (le_u64 lst NRL_NEXT) l -> reap_chain oid ((oid, lst) :: l).

Lemma reap_chain_fun oid l1 l2 : reap_chain oid l1 -> reap_chain oid l2 -> l1 = l2.
Proof.
  intros H1. revert l2. induction H1 as [|oid p lst l Hz Hp Hl _ IH]; intros l2 H2;
    inversion H2; subst; try done.
  assert (lst0 = lst) as -> by congruence. f_equal. by apply IH.
Qed.

Lemma reap_chain_suffix oid l : reap_chain oid l ->
  forall l1 x l2, l = l1 ++ x :: l2 -> reap_chain x.1 (x :: l2).
Proof.
  induction 1 as [|oid p lst l Hz Hp Hl Hc IH]; intros l1 x l2 He; [by destruct l1|].
  destruct l1 as [|y l1]; cbn in He; injection He; intros; subst; [by econstructor|by eapply IH].
Qed.

(** A chain that ends never repeats a list. *)
Lemma reap_chain_NoDup oid l : reap_chain oid l -> NoDup l.*1.
Proof.
  intros Hc. induction Hc as [|oid p lst l Hz Hp Hl Hc IH]; cbn; [constructor|]. constructor; [|done].
  intros ([oid' lst'] & -> & Hin)%list_elem_of_fmap. cbn [fst] in *.
  apply list_elem_of_split in Hin as (l1 & l2 & ->).
  pose proof (reap_chain_suffix _ _ Hc l1 _ l2 eq_refl) as Hs. cbn [fst] in Hs.
  assert (reap_chain oid' ((oid', lst) :: l1 ++ (oid', lst') :: l2)) as Hs' by by econstructor.
  pose proof (f_equal length (reap_chain_fun _ _ _ Hs Hs')) as Hlen.
  cbn in Hlen. rewrite length_app in Hlen. cbn in Hlen. lia.
Qed.

Definition chain_entries (l : list (Z * bytes)) : list ReapPending :=
  concat (map (fun x => reap_entries block_size x.2) l).

Lemma reap_loop_S rounds seen next out :
  next <> 0 ->
  reap_loop (S rounds) seen next out =
    if bool_decide (next ∈ seen) || (MAX_REAP_LISTS <? Z.of_nat (size ({[next]} ∪ seen)))
    then Err (CycleGuard MAX_REAP_LISTS)
    else
      paddr ← ok_or (find_mapping ms next) (OmapUnresolved next 0);
      lst ← read_obj_block reader block_size paddr;
      reap_loop rounds ({[next]} ∪ seen) (le_u64 lst NRL_NEXT) (out ++ reap_entries block_size lst).
Proof. intros Hz. cbn [reap_loop]. by apply Z.eqb_neq in Hz as ->. Qed.

Lemma size_fresh (x : Z) (s : gset Z) : x ∉ s -> size ({[x]} ∪ s) = S (size s).
Proof. intros Hx. rewrite size_union by set_solver. by rewrite size_singleton. Qed.

(** What a call of the loop may still do: the set is within its cap and the rounds outlast it. *)
Definition rounds_left (rounds : nat) (seen : gset Z) : Prop :=
  Z.of_nat (size seen) <= MAX_REAP_LISTS < Z.of_nat rounds + Z.of_nat (size seen).

Lemma reap_loop_rounds rounds : forall seen next out,
  rounds_left rounds seen -> reap_loop rounds seen next out <> Panic.
Proof.
  unfold rounds_left. induction rounds as [|n IH]; intros seen next out Hb; [lia|].
  destruct (decide (next = 0)) as [->|Hz]; [done|]. rewrite reap_loop_S by done.
  case_bool_decide as Hs; [done|]. cbn [orb]. destruct (Z.ltb_spec MAX_REAP_LISTS (Z.of_nat (size ({[next]} ∪ seen)))); [done|].
  destruct (find_mapping ms next) as [p|]; [|done]. cbn [ok_or mbind outcome_bind].
  pose proof (read_obj_block_not_Panic reader block_size p) as Hr.
  destruct (read_obj_block reader block_size p); [|done|done]. cbn [mbind outcome_bind]. apply IH.
  rewrite size_fresh in * by done. lia.
Qed.

(** The loop against the chain, from any visited set. *)
Lemma reap_loop_iff rounds : forall seen next out res,
  rounds_left rounds seen ->
  reap_loop rounds seen next out = Ok res <->
  exists l, reap_chain next l /\ (forall x, x ∈ l.*1 -> x ∉ seen) /\
    Z.of_nat (size seen + length l) <= MAX_REAP_LISTS /\ res = out ++ chain_entries l.
Proof.
  unfold rounds_left. induction rounds as [|n IH]; intros seen next out res Hb; [lia|].
  destruct (decide (next = 0)) as [->|Hz].
  { cbn [reap_loop Z.eqb]. split.
    - intros [= <-]. exists []. split_and!; [constructor|set_solver|cbn; lia|by rewrite app_nil_r].
    - intros (l & Hc & _ & _ & ->). inversion Hc; subst; [by rewrite app_nil_r|done]. }
  rewrite reap_loop_S by done. split.
  - case_bool_decide as Hs; [done|]. cbn [orb].
    destruct (Z.ltb_spec MAX_REAP_LISTS (Z.of_nat (size ({[next]} ∪ seen)))) as [|Hsz]; [done|].
    rewrite size_fresh in Hsz by done.
    destruct (find_mapping ms next) as [p|] eqn:Hp; [|done]. cbn [ok_or mbind outcome_bind].
    destruct (read_obj_block reader block_size p) as [lst| |] eqn:Hl; [|done|done]. cbn [mbind outcome_bind].
    rewrite IH by (rewrite size_fresh by done; lia). rewrite size_fresh by done.
    intros (l & Hc & Hf & Hlen & ->). exists ((next, lst) :: l). split_and!; [by econstructor| |cbn; lia|].
    + intros x. cbn. intros [->|Hx]%elem_of_cons; [done|]. specialize (Hf x Hx). set_solver.
    + unfold chain_entries. cbn. by rewrite <-app_assoc.
  - intros (l & Hc & Hf & Hlen & ->). inversion Hc as [|? p lst l' _ Hp Hl Hc']; subst; [done|].
    assert (next ∉ seen) as Hs by (apply Hf; by left). rewrite bool_decide_false by done. cbn [orb].
    rewrite size_fresh by done. cbn [length] in Hlen. rewrite (proj2 (Z.ltb_ge _ _)) by lia.
    rewrite Hp. cbn [ok_or mbind outcome_bind]. rewrite Hl. cbn [mbind outcome_bind].
    apply IH; rewrite size_fresh by done; [lia|]. exists l'. split_and!; [done| |lia|].
    + intros x Hx [->%elem_of_singleton|Hin]%elem_of_union; [|by eapply Hf; [right|]].
      apply reap_chain_NoDup in Hc. cbn in Hc. by apply NoDup_cons in Hc as [? _].
    + unfold chain_entries. cbn. by rewrite <-app_assoc.
Qed.

Lemma rounds_left_start : rounds_left reap_rounds ∅.
Proof. unfold rounds_left, reap_rounds, MAX_REAP_LISTS. rewrite size_empty, Z2Nat.id by lia. lia. Qed.

Lemma pending_objects_not_Panic (reaper_paddr : Z) : pending_objects reaper_paddr <> Panic.
Proof.
  unfold pending_objects. apply bind_not_Panic; [apply read_obj_block_not_Panic|]. intros reaper _.
  apply reap_loop_rounds, rounds_left_start.
Qed.

(** The entries of a chain that ends. *)
Lemma pending_objects_iff (reaper_paddr : Z) out :
  pending_objects reaper_paddr = Ok out <->
    exists reaper lists, read_obj_block reader block_size reaper_paddr = Ok reaper /\
      reap_chain (le_u64 reaper NR_HEAD) lists /\ Z.of_nat (length lists) <= MAX_REAP_LISTS /\
      out = in_progress reaper ++ chain_entries lists.
Proof.
  unfold pending_objects.
  destruct (read_obj_block reader block_size reaper_paddr) as [reaper| |]; [|naive_solver..]. cbn [mbind outcome_bind].
  rewrite (reap_loop_iff _ _ _ _ _ rounds_left_start), size_empty. split.
  - intros (l & Hc & _ & Hlen & ->). by exists reaper, l.
  - intros (? & l & [= <-] & Hc & Hlen & ->). exists l. split_and!; [done|set_solver|done|done].
Qed.

(** C32 (functional): reading the pending objects never panics and always ends, and it succeeds exactly when the chain of
    reap lists from the reaper's head ends within 4096 lists; the result is then the object in
    progress followed by the non-empty entries of every list, in chain order.  A cyclic or longer chain is an error. *)
Theorem pending_objects_spec (reaper_paddr : Z) :
  pending_objects reaper_paddr <> Panic /\
  forall out, pending_objects reaper_paddr = Ok out <->
    exists reaper lists, read_obj_block reader block_size reaper_paddr = Ok reaper /\
      reap_chain (le_u64 reaper NR_HEAD) lists /\ Z.of_nat (length lists) <= MAX_REAP_LISTS /\
      out = in_progress reaper ++ chain_entries lists.
Proof. split; [apply pending_objects_not_Panic|]. intros out. apply pending_objects_iff. Qed.
End Reaper.

(** ** A chain of two lists, and a cyclic one *)

Definition demo_reap_list (next : Z) (ty oid : Z) : bytes :=
  stamp (put (put (put (put (replicate 160 x00) NRL_NEXT (to_le_bytes 8 next)) NRL_COUNT (to_le_bytes 4 2))
    (NRL_ENTRIES + NRLE_TYPE) (to_le_bytes 4 ty)) (NRL_ENTRIES + NRLE_OID) (to_le_bytes 8 oid)).
Definition demo_reaper (last_next : Z) : cursor := image (
  stamp (put (put (put (replicate 160 x00) NR_HEAD (to_le_bytes 8 1101)) NR_TYPE (to_le_bytes 4 13)) NR_OID (to_le_bytes 8 77)) ++
  demo_reap_list 1102 2 500 ++ demo_reap_list last_next 2 501).
Definition demo_reap_maps : list CheckpointMapping :=
  [ {| cpm_oid := 1101; cpm_paddr := 1; cpm_type := 0; cpm_subtype := 0 |};
    {| cpm_oid := 1102; cpm_paddr := 2; cpm_type := 0; cpm_subtype := 0 |} ].

Example demo_reap_two_lists :
  pending_objects (demo_reaper 0) demo_reap_maps 160 0 =
    Ok [ {| rp_oid := 77; rp_obj_type := 13 |}; {| rp_oid := 500; rp_obj_type := 2 |};
         {| rp_oid := 501; rp_obj_type := 2 |} ].
Proof. vm_compute. reflexivity. Qed.

Example demo_reap_cycle :
  pending_objects (demo_reaper 1101) demo_reap_maps 160 0 = Err (CycleGuard 4096).
Proof. vm_compute. reflexivity. Qed.
