(* ===== verification/Sealed.v ===== *)
(** Sealed volumes (core/src/sealed.rs): the integrity metadata block. *)

From S2P Require Import Prelude Bytes Errors Object.

Set Warnings "-register-all".

Record IntegrityMeta := {
  im_version : Z;
  im_flags : Z;
  im_hash_type : Z;
  im_broken_xid : Z;
}.

Definition OFF_IM_VERSION : Z := 32.
Definition OFF_IM_FLAGS : Z := 36.
Definition OFF_IM_HASH_TYPE : Z := 40.
Definition OFF_IM_BROKEN_XID : Z := 48.
Definition INTEGRITY_META_MIN_LEN : Z := OFF_IM_BROKEN_XID + 8.

Definition IntegrityMeta_parse (block : bytes) : result IntegrityMeta :=
  if blen block <? INTEGRITY_META_MIN_LEN
  then Err (FieldOutOfRange "integrity_meta_phys" "block.len" (blen block) INTEGRITY_META_MIN_LEN)
  else
    let stored := fletcher64_stored block in
    let computed := fletcher64_checksum block in
    if negb (stored =? computed) then Err (ChecksumMismatch (le_u64 block 8) stored computed)
    else Ok {| im_version := le_u32 block OFF_IM_VERSION; im_flags := le_u32 block OFF_IM_FLAGS;
               im_hash_type := le_u32 block OFF_IM_HASH_TYPE; im_broken_xid := le_u64 block OFF_IM_BROKEN_XID |}.

(** The layout [IntegrityMeta_parse] reads, as a writer would lay it out: an object header and the fields. *)
Definition encode_integrity_meta (header : bytes) (m : IntegrityMeta) (tail : bytes) : bytes :=
  stamp (header ++ to_le_bytes 4 (im_version m) ++ to_le_bytes 4 (im_flags m) ++ to_le_bytes 4 (im_hash_type m) ++
         to_le_bytes 4 0 ++ to_le_bytes 8 (im_broken_xid m) ++ tail).

Record IntegrityMeta_wf (m : IntegrityMeta) : Prop := {
  imwf_version : 0 <= im_version m < 2 ^ 32;
  imwf_flags : 0 <= im_flags m < 2 ^ 32;
  imwf_hash_type : 0 <= im_hash_type m < 2 ^ 32;
  imwf_broken_xid : 0 <= im_broken_xid m < 2 ^ 64;
}.

(** Integrity metadata laid out behind a 32-byte object header and stamped reads back whole; in
    particular a recorded broken seal ([im_broken_xid] non-zero) is never lost. *)
Lemma integrity_meta_roundtrip (header : bytes) (m : IntegrityMeta) (tail : bytes) :
  blen header = 32 -> IntegrityMeta_wf m ->
  IntegrityMeta_parse (encode_integrity_meta header m tail) = Ok m.
Proof.
  intros Hh [? ? ? ?]. unfold encode_integrity_meta. set (block := header ++ _).
  assert (56 <= blen block) as Hb.
  { unfold block. autorewrite with apfs. pose proof (blen_nonneg tail). lia. }
  assert (cksum_ok (stamp block) = true) as Hc by (apply cksum_ok_stamp; lia).
  unfold cksum_ok in Hc. unfold IntegrityMeta_parse.
  assert (blen (stamp block) = blen block) as -> by (unfold stamp; apply blen_put; rewrite ?blen_to_le_bytes; lia).
  change INTEGRITY_META_MIN_LEN with 56. rewrite (proj2 (Z.ltb_ge _ _)), Hc by lia. cbn [negb]. f_equal.
  unfold OFF_IM_VERSION, OFF_IM_FLAGS, OFF_IM_HASH_TYPE, OFF_IM_BROKEN_XID.
  rewrite !le_u32_stamp, le_u64_stamp by lia. unfold block. clear block Hb Hc. unfold blen in Hh.
  destruct m; cbn [im_version im_flags im_hash_type im_broken_xid] in *. f_equal.
  1-3: read_field le_u32_app; reflexivity.
  read_field le_u64_app. reflexivity.
Qed.
