(* ===== verification/Extent.v ===== *)
(** File extents and stream assembly (core/src/extent.rs).

    [read_stream] zero-fills a buffer of the logical size and copies each extent into it, decrypting whole
    blocks when the extent carries a tweak and the volume a key.  [u64::MAX / block_size] in its error
    value is evaluated whether or not the error is raised, so a zero block size panics there. *)

From S2P Require Import Prelude Bytes Errors Reader Object Walk BTree FsRecord Encryption Volume Inode Dir.

Definition J_FILE_EXTENT_LEN_MASK : Z := 0x00ffffffffffffff.
Definition OFF_FEXT_KEY_LOGICAL : Z := 8.
Definition OFF_FEXT_LEN_AND_FLAGS : Z := 0.
Definition OFF_FEXT_PHYS_BLOCK : Z := 8.
Definition OFF_FEXT_CRYPTO_ID : Z := 16.
Definition MAX_FILE_BYTES : Z := Z.shiftl 1 34.

Record FileExtent := {
  fe_logical_offset : Z;
  fe_len : Z;
  fe_phys_block_num : Z;
  fe_crypto_id : Z;
}.

Definition parse_extent (k v : bytes) : FileExtent :=
  {| fe_logical_offset := le_u64 k OFF_FEXT_KEY_LOGICAL;
     fe_len := Z.land (le_u64 v OFF_FEXT_LEN_AND_FLAGS) J_FILE_EXTENT_LEN_MASK;
     fe_phys_block_num := le_u64 v OFF_FEXT_PHYS_BLOCK;
     fe_crypto_id := le_u64 v OFF_FEXT_CRYPTO_ID |}.

Definition extent_visit (stream_oid : Z) (k v : bytes) (out : list FileExtent) : list FileExtent :=
  let '(oid, ty) := jkey k in
  if negb (bool_decide (ty = Some FsRecord.FileExtent)) || negb (oid =? stream_oid) then out
  else out ++ [parse_extent k v].

Section Extent.
Context {R} `{ReadSeek R} `{XtsCipher} (reader : R).

Definition list_extents (volume : ApfsVolume) (stream_oid block_size : Z) : result (list FileExtent) :=
  let '(out, res) :=
    for_each_fs_record_for_oid reader volume block_size stream_oid (extent_visit stream_oid) [] in
  _ ← res;
  Ok (sort_by_key fe_logical_offset out).

(** [tmp.chunks_mut(block_size).enumerate()]: block [i] under the tweak [crypto_id + i]. *)
Fixpoint decrypt_blocks (n : nat) (i : Z) (vek : bytes) (crypto_id block_size : Z) (tmp : bytes)
  : result bytes :=
  match n with
  | O => Ok []
  | S n =>
      blk ← decrypt_volume_area (take (Z.to_nat block_size) tmp) vek (saturating_add crypto_id i) block_size;
      rest ← decrypt_blocks n (i + 1) vek crypto_id block_size (drop (Z.to_nat block_size) tmp);
      Ok (blk ++ rest)
  end.

(** The body of the loop: one extent into the output buffer. *)
Definition fill_extent (vek : option bytes) (size block_size : Z) (out : bytes) (ext : FileExtent)
  : result bytes :=
  let start := fe_logical_offset ext in
  if (size <=? start) || (fe_phys_block_num ext =? 0) then Ok out
  else if block_size =? 0 then Panic
  else
    let avail := size - start in
    let copy_len := Z.min (fe_len ext) avail in
    byte_off ← ok_or (checked_mul (fe_phys_block_num ext) block_size)
                 (FieldOutOfRange "j_file_extent" "phys_block_num" (fe_phys_block_num ext)
                    (u64_max / block_size));
    match vek with
    | Some vek =>
        if negb (fe_crypto_id ext =? 0) then
          let nblocks := (copy_len + block_size - 1) / block_size in
          tmp ← read_at reader byte_off (nblocks * block_size);
          tmp ← decrypt_blocks (Z.to_nat nblocks) 0 vek (fe_crypto_id ext) block_size tmp;
          Ok (put out start (take (Z.to_nat copy_len) tmp))
        else
          data ← read_at reader byte_off copy_len;
          Ok (put out start data)
    | None =>
        data ← read_at reader byte_off copy_len;
        Ok (put out start data)
    end.

Definition read_stream (volume : ApfsVolume) (stream_oid logical_size block_size : Z) : result bytes :=
  if MAX_FILE_BYTES <? logical_size
  then Err (FieldOutOfRange "j_dstream" "size" logical_size MAX_FILE_BYTES)
  else
    extents ← list_extents volume stream_oid block_size;
    fold_res (fill_extent (vol_vek volume) logical_size block_size)
      (replicate (Z.to_nat logical_size) x00) extents.

(** ** Extents of a stream *)

(** The extent record of [stream] in an entry. *)
Definition extent_record (stream : Z) : Entry -> option FileExtent :=
  record_of FsRecord.FileExtent stream (fun k v => Some (parse_extent k v)).

Lemma extent_collects stream : collects (extent_visit stream) (extent_record stream).
Proof. by apply collects_record_of. Qed.

Lemma list_extents_tree volume stream bs t :
  volume_tree reader volume bs t -> oid_ordered t ->
  list_extents volume stream bs =
    Ok (sort_by_key fe_logical_offset (omap (extent_record stream) (leaf_entries t))).
Proof.
  intros Ht Ho. unfold list_extents.
  by rewrite (walk_collects _ _ _ _ _ _ _ t Ht Ho (extent_collects stream)).
Qed.

(** ** No panic *)

Lemma list_extents_not_Panic volume stream bs :
  0 <= bs -> decryptable (vol_vek volume) bs -> list_extents volume stream bs <> Panic.
Proof. intros. by apply walk_then_not_Panic. Qed.

Lemma decrypt_blocks_not_Panic n i vek cid bs tmp :
  decryptable (Some vek) bs -> 0 <= bs -> blen tmp = Z.of_nat n * bs -> decrypt_blocks n i vek cid bs tmp <> Panic.
Proof.
  intros Hd Hbs. revert i tmp; induction n as [|n IH]; intros i tmp Hl; [done|]. cbn [decrypt_blocks].
  apply bind_not_Panic; [|intros blk _; apply bind_not_Panic; [|done]].
  - apply decrypt_volume_area_not_Panic; [done|]. unfold blen in *. rewrite length_take. lia.
  - apply IH. unfold blen in *. rewrite length_drop. lia.
Qed.

Lemma fill_extent_not_Panic vek size bs out ext :
  0 < bs -> decryptable vek bs -> 0 <= fe_len ext -> fill_extent vek size bs out ext <> Panic.
Proof.
  intros Hbs Hd Hlen. unfold fill_extent. destruct (_ || _) eqn:Hg; [done|]. bool_cases.
  destruct (Z.eqb_spec bs 0) as [|_]; [lia|]. set (len := Z.min _ _).
  assert (0 <= (len + bs - 1) / bs) as Hn by (apply Z.div_pos; lia).
  apply bind_not_Panic; [apply ok_or_not_Panic|intros off _].
  destruct vek as [vek|]; [|no_panic]. destruct (negb _); [|no_panic].
  apply bind_not_Panic; [apply read_at_not_Panic|intros tmp Ht].
  apply bind_not_Panic; [|done]. apply read_at_len in Ht; [|nia].
  apply decrypt_blocks_not_Panic; [done|lia|]. rewrite Z2Nat.id; lia.
Qed.

(** ** The buffer keeps its size *)

Lemma decrypt_blocks_len n i vek cid bs tmp out :
  0 <= bs -> blen tmp = Z.of_nat n * bs -> decrypt_blocks n i vek cid bs tmp = Ok out -> blen out = blen tmp.
Proof.
  intros Hbs. revert i tmp out; induction n as [|n IH]; intros i tmp out Hl Hd; cbn [decrypt_blocks] in Hd.
  { ok_inv. unfold blen in *. cbn [length]. lia. }
  apply bind_Ok_iff in Hd as (blk & Hb & Hd). apply bind_Ok_iff in Hd as (rest & Hr & Hd). ok_inv.
  apply decrypt_volume_area_len in Hb. apply IH in Hr; [|unfold blen in *; rewrite length_drop; lia].
  rewrite blen_app, Hb, Hr. unfold blen in *. rewrite length_take, length_drop. lia.
Qed.

Lemma fill_extent_len vek size bs out ext out' :
  blen out = size -> 0 <= bs -> 0 <= fe_len ext -> 0 <= fe_logical_offset ext ->
  fill_extent vek size bs out ext = Ok out' -> blen out' = size.
Proof.
  intros Hl Hbs Hlen Hoff. unfold fill_extent. destruct (_ || _) eqn:Hg; [by intros [= <-]|]. bool_cases.
  destruct (Z.eqb_spec bs 0) as [|Hbs0]; [done|]. intros Hf. apply bind_Ok_iff in Hf as (off & _ & Hf).
  set (n := Z.min _ _) in *.
  assert (forall data, blen data = n -> blen (put out (fe_logical_offset ext) data) = size) as Hput.
  { intros data Hd. rewrite blen_put; lia. }
  assert (forall off, (data ← read_at reader off n; Ok (put out (fe_logical_offset ext) data)) = Ok out' ->
    blen out' = size) as Hplain.
  { intros o Hd. apply bind_Ok_iff in Hd as (data & Hd & Hok). ok_inv. apply Hput. eapply read_at_len; [lia|done]. }
  destruct vek as [vek|]; [|by eapply Hplain].
  destruct (negb _); [|by eapply Hplain].
  apply bind_Ok_iff in Hf as (tmp & Ht & Hf). apply bind_Ok_iff in Hf as (dec & Hd & Hf). ok_inv.
  assert (n <= (n + bs - 1) / bs * bs /\ 0 <= (n + bs - 1) / bs) as [Hn0 Hn1].
  { pose proof (Z.div_mod (n + bs - 1) bs ltac:(lia)). pose proof (Z.mod_pos_bound (n + bs - 1) bs ltac:(lia)).
    split; [lia|]. apply Z.div_pos; lia. }
  apply read_at_len in Ht; [|lia]. apply decrypt_blocks_len in Hd; [|lia|rewrite Z2Nat.id; lia].
  apply Hput. unfold blen in *. rewrite length_take. lia.
Qed.

Definition extent_wf (x : FileExtent) : Prop :=
  0 <= fe_logical_offset x < 2 ^ 64 /\ 0 <= fe_len x < 2 ^ 56 /\ 0 <= fe_phys_block_num x < 2 ^ 64.

Lemma parse_extent_wf k v : extent_wf (parse_extent k v).
Proof.
  unfold extent_wf, parse_extent. cbn [fe_logical_offset fe_len fe_phys_block_num].
  split; [apply le_u64_bound|]. split; [|apply le_u64_bound].
  change J_FILE_EXTENT_LEN_MASK with (Z.ones 56). rewrite Z.land_ones by lia.
  apply Z.mod_pos_bound. lia.
Qed.

Lemma list_extents_wf volume stream bs exts :
  list_extents volume stream bs = Ok exts ->
  Forall extent_wf exts /\ StronglySorted (fun a b => fe_logical_offset a <= fe_logical_offset b) exts.
Proof.
  unfold list_extents, for_each_fs_record_for_oid.
  destruct (walk_fs_tree _ _ _ _ _ _) as [out [[]| |]] eqn:Hw; [|done|done].
  cbn [mbind outcome_bind]. intros Hx. ok_inv. split; [|apply sort_by_key_sorted].
  rewrite sort_by_key_perm. apply walk_fs_tree_run in Hw as [es ->]. rewrite (run_collects _ _ _ _ (extent_collects stream)). cbn [app].
  apply Forall_forall. intros x (e & _ & He)%list_elem_of_omap. revert He. unfold extent_record, record_of.
  destruct (_ && _); [|done]. intros [= <-]. apply parse_extent_wf.
Qed.

Lemma fill_all_len vek size bs exts out out' :
  Forall extent_wf exts -> 0 <= bs -> blen out = size ->
  fold_res (fill_extent vek size bs) out exts = Ok out' -> blen out' = size.
Proof.
  intros Hwf Hbs. revert out; induction Hwf as [|x exts (? & ? & _) _ IH]; intros out Hl Hf;
    cbn [fold_res] in Hf; [by ok_inv|].
  apply bind_Ok_iff in Hf as (out1 & Hf1 & Hf2). eapply IH; [|exact Hf2].
  apply fill_extent_len in Hf1; [done|done|done|lia|lia].
Qed.

Lemma read_stream_not_Panic volume stream size bs :
  0 < bs -> decryptable (vol_vek volume) bs -> read_stream volume stream size bs <> Panic.
Proof.
  intros Hbs Hd. unfold read_stream. destruct (_ <? _); [done|].
  apply bind_not_Panic; [apply list_extents_not_Panic; [lia|done]|].
  intros exts [Hwf _]%list_extents_wf. apply fold_res_not_Panic. intros s x Hx.
  rewrite Forall_forall in Hwf. destruct (Hwf x Hx) as (_ & ? & _). apply fill_extent_not_Panic; [lia|done|lia].
Qed.

Lemma read_stream_blen volume stream size bs out :
  0 <= size -> 0 <= bs -> read_stream volume stream size bs = Ok out -> blen out = size.
Proof.
  intros Hs Hb Hr. unfold read_stream in Hr. destruct (_ <? _); [done|].
  apply bind_Ok_iff in Hr as (exts & Hx & Hr). apply list_extents_wf in Hx as [Hwf _].
  eapply fill_all_len; [exact Hwf|done| |exact Hr]. rewrite blen_replicate. lia.
Qed.

(** Whatever the extents say, an assembled stream is exactly [logical_size] bytes long and no longer than
    16 GiB; a larger size is refused before anything is read or allocated. *)
Theorem read_stream_length (volume : ApfsVolume) (stream_oid logical_size block_size : Z) :
  0 <= logical_size -> 0 <= block_size ->
  (forall out, read_stream volume stream_oid logical_size block_size = Ok out ->
     blen out = logical_size /\ logical_size <= 2 ^ 34) /\
  (2 ^ 34 < logical_size -> read_stream volume stream_oid logical_size block_size =
     Err (FieldOutOfRange "j_dstream" "size" logical_size (2 ^ 34))).
Proof.
  intros Hs Hb. unfold read_stream. change MAX_FILE_BYTES with (2 ^ 34).
  destruct (Z.ltb_spec (2 ^ 34) logical_size); (split; [|done || lia]); [done|].
  intros out Hr. split; [|lia]. apply (read_stream_blen volume stream_oid logical_size block_size); [done|done|].
  unfold read_stream. change MAX_FILE_BYTES with (2 ^ 34). by rewrite (proj2 (Z.ltb_ge _ _)).
Qed.
End Extent.

(** ** Content *)

Section Content.
Context `{XtsCipher} (c : cursor) (vek : option bytes) (size block_size : Z).

(** Byte [j] of the decrypted blocks is byte [j mod block_size] of block [j / block_size], decrypted on its own. *)
Lemma decrypt_blocks_index n : forall i key cid tmp out j,
  0 < block_size -> blen tmp = Z.of_nat n * block_size -> decrypt_blocks n i key cid block_size tmp = Ok out ->
  0 <= j < blen tmp ->
  exists blk d, get_range tmp (j / block_size * block_size) (j / block_size * block_size + block_size) = Some blk /\
    decrypt_volume_area blk key (saturating_add cid (i + j / block_size)) block_size = Ok d /\
    get_index out j = get_index d (j mod block_size).
Proof.
  induction n as [|n IH]; intros i key cid tmp out j Hbs Hl Hd Hj; [lia|].
  cbn [decrypt_blocks] in Hd. apply bind_Ok_iff in Hd as (d & Hb & Hd). apply bind_Ok_iff in Hd as (rest & Hr & Hd).
  injection Hd as <-. set (t1 := take (Z.to_nat block_size) tmp) in *. set (t2 := drop (Z.to_nat block_size) tmp) in *.
  assert (tmp = t1 ++ t2) as Htmp by (symmetry; apply take_drop).
  assert (blen t1 = block_size) as H1 by (unfold t1, blen in *; rewrite length_take; lia).
  apply decrypt_volume_area_len in Hb as Hdl. rewrite H1 in Hdl.
  destruct (Z.lt_ge_cases j block_size) as [Hlt|Hge].
  - rewrite (Z.div_small j), (Z.mod_small j), Z.mul_0_l, Z.add_0_r by lia. exists t1, d. split_and!; [|done|by rewrite get_index_app_l by lia].
    rewrite Htmp. rewrite <-(app_nil_l (t1 ++ t2)). apply get_range_app; [done|by rewrite H1].
  - assert (blen t2 = Z.of_nat n * block_size) as H2 by (unfold t2, blen in *; rewrite length_drop; lia).
    assert (j / block_size = 1 + (j - block_size) / block_size) as Hq.
    { replace j with ((j - block_size) + 1 * block_size) at 1 by lia. rewrite Z.div_add by lia. lia. }
    assert (j mod block_size = (j - block_size) mod block_size) as Hm.
    { replace j with ((j - block_size) + 1 * block_size) at 1 by lia. by rewrite Z.mod_add by lia. }
    destruct (IH (i + 1) key cid t2 rest (j - block_size) Hbs H2 Hr) as (blk & e & Hg & He & Hi); [lia|].
    exists blk, e. rewrite Hm, Hq. split_and!.
    + rewrite Htmp, get_range_app_r by (pose proof (Z.div_pos (j - block_size) block_size); lia).
      rewrite <-Hg, H1. f_equal; lia.
    + by replace (i + (1 + (j - block_size) / block_size)) with (i + 1 + (j - block_size) / block_size) by lia.
    + by rewrite get_index_app_r, Hdl by lia.
Qed.

(** The extent holds data for offset [p]. *)
Definition covering (p : Z) (x : FileExtent) : Prop :=
  fe_phys_block_num x <> 0 /\ fe_logical_offset x <= p < fe_logical_offset x + fe_len x.
#[export] Instance covering_dec p x : Decision (covering p x).
Proof. unfold covering. apply _. Defined.

(** The byte of an extent at offset [q] into it: the image's; on a volume with a key and an extent with a tweak, that of the block it is in,
    decrypted under the tweak of that block. *)
Definition extent_byte (x : FileExtent) (q : Z) : option byte :=
  let base := fe_phys_block_num x * block_size in
  match vek with
  | Some key =>
      if fe_crypto_id x =? 0 then get_index (cur_buf c) (base + q)
      else
        let i := q / block_size in
        match get_range (cur_buf c) (base + i * block_size) (base + i * block_size + block_size) with
        | Some blk =>
            match decrypt_volume_area blk key (saturating_add (fe_crypto_id x) i) block_size with
            | Ok d => get_index d (q mod block_size)
            | _ => None
            end
        | None => None
        end
  | None => get_index (cur_buf c) (base + q)
  end.

(** The byte at [p]: from the last extent that holds it, zero in a hole. *)
Definition stream_byte (exts : list FileExtent) (p : Z) : option byte :=
  match last (filter (covering p) exts) with
  | Some x => extent_byte x (p - fe_logical_offset x)
  | None => Some x00
  end.

(** A buffer with [data] put at the extent's offset, where [data] is the extent's bytes. *)
Lemma put_extent_byte out x data p :
  blen out = size -> extent_wf x -> 0 <= p < size -> fe_phys_block_num x <> 0 -> fe_logical_offset x < size ->
  blen data = Z.min (fe_len x) (size - fe_logical_offset x) ->
  (forall q, 0 <= q < blen data -> get_index data q = extent_byte x q) ->
  get_index (put out (fe_logical_offset x) data) p =
    if decide (covering p x) then extent_byte x (p - fe_logical_offset x) else get_index out p.
Proof.
  intros Hl (Hlo & Hlen & _) Hp Hph Hst Hd Hq. rewrite get_index_put by lia. unfold covering.
  destruct (decide (fe_logical_offset x <= p < fe_logical_offset x + blen data)) as [Hin|Hout].
  - rewrite decide_True by (split; [done|lia]). apply Hq. lia.
  - rewrite decide_False; [done|]. intros [_ ?]. lia.
Qed.

Lemma fill_extent_byte out x out' p :
  0 <= block_size -> blen out = size -> extent_wf x -> 0 <= p < size ->
  fill_extent c vek size block_size out x = Ok out' ->
  get_index out' p =
    if decide (covering p x) then extent_byte x (p - fe_logical_offset x) else get_index out p.
Proof.
  intros Hbs Hl Hwf Hp. unfold fill_extent. pose proof Hwf as (Hlo & Hlen & Hph).
  destruct (_ || _) eqn:Hg.
  { intros [= <-]. unfold covering. rewrite decide_False; [done|]. apply orb_true_iff in Hg as [Hg|Hg]; bool_cases; lia. }
  bool_cases. destruct (Z.eqb_spec block_size 0); [done|]. intros Hf.
  apply bind_Ok_iff in Hf as (off & Ho & Hf). apply ok_or_Ok_iff, checked_mul_Some in Ho as [-> _].
  set (base := fe_phys_block_num x * block_size) in *. set (len := Z.min _ _) in *.
  assert (forall (Hpl : forall q, extent_byte x q = get_index (cur_buf c) (base + q)),
    (data ← read_at c base len; Ok (put out (fe_logical_offset x) data)) = Ok out' ->
    get_index out' p = if decide (covering p x) then extent_byte x (p - fe_logical_offset x) else get_index out p) as Hplain.
  { intros Hpl Hr. apply bind_Ok_iff in Hr as (data & Hr & Hd). injection Hd as <-. apply read_at_cursor_Ok in Hr as [Hdl Hd]; [|lia].
    apply put_extent_byte; [done|done|done|done|lia|lia|].
    intros q Hq. rewrite Hpl. apply (get_range_index _ _ _ _ _ (Hd ltac:(lia))). lia. }
  destruct vek as [key|] eqn:Hvek; [|apply Hplain; [intros q; unfold extent_byte; by rewrite Hvek|done]].
  destruct (Z.eqb_spec (fe_crypto_id x) 0) as [Hc|Hc]; cbn [negb] in Hf.
  { apply Hplain; [|done]. intros q. unfold extent_byte. rewrite Hvek. by rewrite Hc. }
  clear Hplain. set (nb := (len + block_size - 1) / block_size) in *.
  assert (len <= nb * block_size /\ 0 <= nb) as [Hn0 Hn1].
  { unfold nb. pose proof (Z.div_mod (len + block_size - 1) block_size ltac:(lia)).
    pose proof (Z.mod_pos_bound (len + block_size - 1) block_size ltac:(lia)). split; [lia|]. apply Z.div_pos; lia. }
  apply bind_Ok_iff in Hf as (tmp & Ht & Hf). apply read_at_cursor_Ok in Ht as [Htl Ht]; [|nia].
  apply bind_Ok_iff in Hf as (dec & Hd & Hf). injection Hf as <-.
  apply decrypt_blocks_len in Hd as Hdl; [|lia|rewrite Z2Nat.id; lia].
  apply put_extent_byte; [done|done|done|done|lia|unfold blen in *; rewrite length_take; lia|].
  assert (blen (take (Z.to_nat len) dec) = len) as Htk by (unfold blen in *; rewrite length_take; lia).
  intros q Hq. destruct (decrypt_blocks_index (Z.to_nat nb) 0 key (fe_crypto_id x) tmp dec q) as (blk & d & Hb & Hbd & Hi);
    [lia|rewrite Z2Nat.id; lia|done|lia|].
  assert (get_index (take (Z.to_nat len) dec) q = get_index dec q) as ->.
  { rewrite <-(take_drop (Z.to_nat len) dec) at 2. by rewrite get_index_app_l by lia. }
  rewrite Hi. unfold extent_byte. rewrite Hvek. apply Z.eqb_neq in Hc as ->. fold base.
  assert (q / block_size < nb) as Hqn by (apply Z.div_lt_upper_bound; lia).
  assert (0 <= q / block_size) by (apply Z.div_pos; lia).
  rewrite (get_range_range _ _ _ _ _ _ (Ht ltac:(nia))) in Hb; [|nia|nia]. rewrite Z.add_0_l in Hbd.
  replace (base + q / block_size * block_size + block_size) with (base + (q / block_size * block_size + block_size)) by lia.
  by rewrite Hb, Hbd.
Qed.

Lemma fill_all_byte exts out out' p :
  Forall extent_wf exts -> 0 <= block_size -> blen out = size -> 0 <= p < size ->
  get_index out p = Some x00 ->
  fold_res (fill_extent c vek size block_size) out exts = Ok out' ->
  get_index out' p = stream_byte exts p.
Proof.
  intros Hwf Hbs Hl Hp H0. revert out'. induction exts as [|x exts IH] using rev_ind; intros out' Hf.
  - cbn in Hf. by ok_inv.
  - apply Forall_app in Hwf as [Hwf Hx]. inversion_clear Hx as [|? ? Hx' _].
    rewrite fold_res_app in Hf. apply bind_Ok_iff in Hf as (out1 & H1 & H2). cbn [fold_res] in H2.
    apply bind_Ok_iff in H2 as (out2 & H2 & H3). injection H3 as <-.
    apply (fill_extent_byte _ _ _ p) in H2; [|done|by eapply fill_all_len|done|done]. rewrite H2.
    unfold stream_byte. rewrite filter_app, filter_cons, filter_nil.
    destruct (decide (covering p x)); [by rewrite last_snoc|]. rewrite app_nil_r. by apply IH.
Qed.
End Content.

Lemma read_stream_byte `{XtsCipher} (c : cursor) (volume : ApfsVolume) (stream_oid size block_size : Z)
    (exts : list FileExtent) (out : bytes) (p : Z) :
  0 <= size -> 0 <= block_size -> list_extents c volume stream_oid block_size = Ok exts ->
  read_stream c volume stream_oid size block_size = Ok out -> 0 <= p < size ->
  get_index out p = stream_byte c (vol_vek volume) block_size exts p.
Proof.
  intros Hs Hb Hx Hr Hp. unfold read_stream in Hr. destruct (_ <? _); [done|].
  rewrite Hx in Hr. cbn [mbind outcome_bind] in Hr. apply list_extents_wf in Hx as [Hwf _].
  eapply (fill_all_byte c _ size block_size); [exact Hwf|done| |exact Hp| |exact Hr].
  - rewrite blen_replicate. lia.
  - unfold get_index. rewrite (proj2 (Z.leb_le _ _)) by lia. apply lookup_replicate_2. lia.
Qed.

(** C3 (functional): every byte of an assembled stream is the image byte its extent maps it to (block number times block size, plus the offset
    into the extent; the last extent in logical order where two overlap); on an unlocked volume an extent with a tweak gives the byte of its block
    decrypted under the extent's tweak advanced by the block's index; and zero where no extent holds data: a sparse hole or a gap. *)
Theorem read_stream_content `{XtsCipher} (c : cursor) (volume : ApfsVolume)
    (stream_oid size block_size : Z) (exts : list FileExtent) (out : bytes) :
  0 <= size -> 0 <= block_size ->
  list_extents c volume stream_oid block_size = Ok exts ->
  read_stream c volume stream_oid size block_size = Ok out ->
  forall p, 0 <= p < size -> get_index out p = stream_byte c (vol_vek volume) block_size exts p.
Proof. intros Hs Hb Hx Hr p Hp. by apply (read_stream_byte c volume stream_oid size block_size). Qed.
