(* ===== verification/Xattr.v ===== *)
(** Extended attributes (core/src/xattr.rs). *)

From Stdlib Require Import Strings.String.
From S2P Require Import Prelude Bytes Errors Reader Object Walk BTree FsRecord Encryption Volume Inode Dir Extent.

Definition XATTR_DATA_STREAM : Z := 0x0001.
Definition XATTR_DATA_EMBEDDED : Z := 0x0002.
Definition XATTR_NAME_DECMPFS : bytes := list_byte_of_string "com.apple.decmpfs".
Definition XATTR_NAME_RESOURCE_FORK : bytes := list_byte_of_string "com.apple.ResourceFork".
Definition XATTR_NAME_SYMLINK : bytes := list_byte_of_string "com.apple.fs.symlink".
Definition OFF_XATTR_KEY_NAME_LEN : Z := 8.
Definition OFF_XATTR_KEY_NAME : Z := 10.
Definition OFF_XATTR_VAL_FLAGS : Z := 0.
Definition OFF_XATTR_VAL_XDATA_LEN : Z := 2.
Definition OFF_XATTR_VAL_XDATA : Z := 4.
Definition OFF_XDSTREAM_OBJ_ID : Z := 0.
Definition OFF_XDSTREAM_SIZE : Z := 8.

Inductive XattrValue :=
| Embedded (b : bytes)
| Stream (dstream_oid size : Z).

Record Xattr := {
  xa_name : bytes;
  xa_flags : Z;
  xa_value : XattrValue;
}.

Definition parse_xattr (k v : bytes) : option Xattr :=
  let name_len := le_u16 k OFF_XATTR_KEY_NAME_LEN in
  if name_len =? 0 then None
  else
    name_bytes ← get_range k OFF_XATTR_KEY_NAME (OFF_XATTR_KEY_NAME + name_len);
    let name := decode_cstr name_bytes in
    let flags := le_u16 v OFF_XATTR_VAL_FLAGS in
    let xdata_len := le_u16 v OFF_XATTR_VAL_XDATA_LEN in
    let xdata := default [] (get_range v OFF_XATTR_VAL_XDATA (OFF_XATTR_VAL_XDATA + xdata_len)) in
    let xvalue :=
      if negb (Z.land flags XATTR_DATA_STREAM =? 0)
      then Stream (le_u64 xdata OFF_XDSTREAM_OBJ_ID) (le_u64 xdata OFF_XDSTREAM_SIZE)
      else Embedded xdata in
    Some {| xa_name := name; xa_flags := flags; xa_value := xvalue |}.

Definition xattr_visit (inode_oid : Z) (k v : bytes) (out : list Xattr) : list Xattr :=
  let '(oid, ty) := jkey k in
  if negb (bool_decide (ty = Some FsRecord.Xattr)) || negb (oid =? inode_oid) then out
  else match parse_xattr k v with
       | Some x => out ++ [x]
       | None => out
       end.

Section Xattr.
Context {R} `{ReadSeek R} `{XtsCipher} (reader : R) (volume : ApfsVolume).

Definition list_xattrs (inode_oid block_size : Z) : result (list Xattr) :=
  let '(out, res) :=
    for_each_fs_record_for_oid reader volume block_size inode_oid (xattr_visit inode_oid) [] in
  _ ← res;
  Ok out.

(** The first attribute of that name. *)
Definition find_xattr (name : bytes) (xs : list Xattr) : option XattrValue :=
  (fun ix => xa_value ix.2) <$> list_find (fun x => xa_name x = name) xs.

Definition get_xattr (inode_oid : Z) (name : bytes) (block_size : Z) : result (option XattrValue) :=
  xattrs ← list_xattrs inode_oid block_size;
  Ok (find_xattr name xattrs).

Definition decmpfs_header (inode_oid block_size : Z) : result (option bytes) :=
  v ← get_xattr inode_oid XATTR_NAME_DECMPFS block_size;
  match v with
  | Some (Embedded b) => Ok (Some b)
  | Some (Stream _ _) | None => Ok None
  end.

Definition resource_fork (inode_oid block_size : Z) : result (option bytes) :=
  v ← get_xattr inode_oid XATTR_NAME_RESOURCE_FORK block_size;
  match v with
  | Some (Embedded b) => Ok (Some b)
  | Some (Stream dstream_oid size) =>
      b ← read_stream reader volume dstream_oid size block_size;
      Ok (Some b)
  | None => Ok None
  end.

Definition symlink_target (inode_oid block_size : Z) : result (option bytes) :=
  v ← get_xattr inode_oid XATTR_NAME_SYMLINK block_size;
  match v with
  | Some (Embedded b) => Ok (Some (decode_cstr b))
  | Some (Stream _ _) | None => Ok None
  end.

(** ** Attributes by scan *)

Definition xattr_record (inode_oid : Z) : Entry -> option Xattr := record_of FsRecord.Xattr inode_oid parse_xattr.

Lemma xattr_collects o : collects (xattr_visit o) (xattr_record o).
Proof. by apply collects_record_of. Qed.

Lemma list_xattrs_not_Panic inode_oid block_size :
  0 <= block_size -> decryptable (vol_vek volume) block_size -> list_xattrs inode_oid block_size <> Panic.
Proof. intros. by apply walk_then_not_Panic. Qed.

Lemma get_xattr_not_Panic inode_oid name block_size :
  0 <= block_size -> decryptable (vol_vek volume) block_size -> get_xattr inode_oid name block_size <> Panic.
Proof. intros. apply bind_not_Panic; [by apply list_xattrs_not_Panic|done]. Qed.

Lemma decmpfs_header_not_Panic inode_oid block_size :
  0 <= block_size -> decryptable (vol_vek volume) block_size -> decmpfs_header inode_oid block_size <> Panic.
Proof. intros. apply bind_not_Panic; [by apply get_xattr_not_Panic|]. intros a _. no_panic. Qed.

Lemma resource_fork_not_Panic inode_oid block_size :
  0 < block_size -> decryptable (vol_vek volume) block_size -> resource_fork inode_oid block_size <> Panic.
Proof.
  intros. apply bind_not_Panic; [apply get_xattr_not_Panic; [lia|done]|]. intros a _. no_panic.
  by apply read_stream_not_Panic.
Qed.

Lemma list_xattrs_tree inode_oid block_size t :
  volume_tree reader volume block_size t -> oid_ordered t ->
  list_xattrs inode_oid block_size = Ok (omap (xattr_record inode_oid) (leaf_entries t)).
Proof.
  intros Ht Ho. unfold list_xattrs. by rewrite (walk_collects _ _ _ _ _ _ _ t Ht Ho (xattr_collects inode_oid)).
Qed.

(** A named attribute of an inode is the first attribute record of that inode and
    that name in the whole tree: embedded bytes or a stream reference as its flags say, and a symbolic link's target
    is the decoded text of the embedded one. *)
Theorem get_xattr_spec (inode_oid : Z) (name : bytes) (block_size : Z) (t : tree) :
  volume_tree reader volume block_size t -> oid_ordered t ->
  let xs := omap (xattr_record inode_oid) (leaf_entries t) in
  get_xattr inode_oid name block_size = Ok (find_xattr name xs) /\
  symlink_target inode_oid block_size =
    Ok (match find_xattr XATTR_NAME_SYMLINK xs with
        | Some (Embedded b) => Some (decode_cstr b)
        | _ => None
        end).
Proof.
  intros Ht Ho xs.
  assert (forall name, get_xattr inode_oid name block_size = Ok (find_xattr name xs)) as Hg.
  { intros n. unfold get_xattr. by rewrite (list_xattrs_tree _ _ t Ht Ho). }
  split; [apply Hg|]. unfold symlink_target. rewrite Hg. cbn [mbind outcome_bind].
  by destruct (find_xattr _ _) as [[]|].
Qed.
End Xattr.

(** An attribute record as a writer lays it out. *)
Definition xattr_key (jk : Z) (name : bytes) : bytes :=
  to_le_bytes 8 jk ++ to_le_bytes 2 (blen name + 1) ++ name ++ [x00].
Definition xattr_embedded (flags : Z) (data : bytes) : bytes :=
  to_le_bytes 2 flags ++ to_le_bytes 2 (blen data) ++ data.
