(* ===== verification/Compression.v ===== *)
(** Transparent decmpfs decompression (core/src/compression.rs) and whole-file reads (core/src/extent.rs, [read_data]).

    The decmpfs constants and the type table are the crate forensicnomicon's; the codecs are flate2's, lzvn's and
    lzfse_rust's.  [DecmpfsFormat] and [Codecs] are their interfaces; a codec may panic, and [CodecsReturn] is what is assumed where none may. *)

From S2P Require Import Prelude Bytes Errors Reader Object Walk BTree FsRecord Encryption Volume Inode Dir Extent Xattr.

(** [forensicnomicon::decmpfs::Algorithm]: the variants the reader names; the enum is non-exhaustive. *)
Inductive Algorithm := Uncompressed | Zlib | Lzvn | Lzfse | LzBitmap | OtherAlgorithm.
Inductive Storage := Inline | ResourceFork.
#[global] Instance Algorithm_eq_dec : EqDecision Algorithm.
Proof. solve_decision. Defined.
#[global] Instance Storage_eq_dec : EqDecision Storage.
Proof. solve_decision. Defined.

Class DecmpfsFormat := {
  HEADER_LEN : Z;
  DECMPFS_MAGIC : Z;
  COMPRESSION_TYPE_OFFSET : Z;
  UNCOMPRESSED_SIZE_OFFSET : Z;
  CHUNK_SIZE : Z;
  classify_type : Z -> option (Algorithm * Storage);
}.

(** The codecs: the decoded bytes, the rejection of a stream, or a panic of the codec's crate. *)
Class Codecs := {
  zlib_read_to_end : bytes -> outcome unit bytes;
  lzvn_decode_bytes : bytes -> Z -> outcome unit bytes;
  lzfse_decode_bytes : bytes -> outcome unit bytes;
}.

(** What a promise not to panic has to assume of them: on any stream and any announced length, which the inline form takes from the header as it is,
    they return. *)
Class CodecsReturn `{Codecs} : Prop := {
  zlib_returns data : zlib_read_to_end data <> Panic;
  lzvn_returns data len : lzvn_decode_bytes data len <> Panic;
  lzfse_returns data : lzfse_decode_bytes data <> Panic;
}.

(** [map_err(|_| ApfsError::Decmpfs(what))]: any rejection is the one error, a panic goes on. *)
Definition codec_result (r : outcome unit bytes) (what : string) : result bytes :=
  match r with
  | Ok out => Ok out
  | Err _ => Err (Decmpfs what)
  | Panic => Panic
  end.

(** ** Bounds-checked readers *)

Definition read_offset (n : Z) (data : bytes) (offset : Z) : result bytes :=
  end_ ← ok_or (checked_add offset n) (Decmpfs "decmpfs read offset overflow");
  ok_or (get_range data offset end_) (Decmpfs "decmpfs read out of bounds").

Definition cm_le_u32 (data : bytes) (offset : Z) : result Z := from_le_bytes <$> read_offset 4 data offset.
Definition cm_be_u32 (data : bytes) (offset : Z) : result Z := from_be_bytes <$> read_offset 4 data offset.
Definition cm_le_u64 (data : bytes) (offset : Z) : result Z := from_le_bytes <$> read_offset 8 data offset.

Section Compression.
Context `{DecmpfsFormat} `{Codecs}.

Definition inflate (data : bytes) : result bytes :=
  codec_result (zlib_read_to_end data) "decmpfs zlib codec error".
Definition lzvn_decode (chunk : bytes) (uncompressed_len : Z) : result bytes :=
  codec_result (lzvn_decode_bytes chunk uncompressed_len) "decmpfs lzvn codec error".
Definition lzfse_decode (stream : bytes) : result bytes :=
  codec_result (lzfse_decode_bytes stream) "decmpfs lzfse codec error".

Definition unreachable_algorithm : result bytes := Err (Decmpfs "decmpfs unsupported algorithm").

(** [payload.get(1..).unwrap_or(&[]).to_vec()] *)
Definition skip_marker (payload : bytes) : bytes := default [] (get_range payload 1 (blen payload)).

Definition decode_inline (algorithm : Algorithm) (payload : bytes) (uncompressed_size compression_type : Z)
  : result bytes :=
  match algorithm with
  | Uncompressed => if compression_type =? 9 then Ok (skip_marker payload) else Ok payload
  | Zlib =>
      if bool_decide (head payload = Some xff) then Ok (skip_marker payload) else inflate payload
  | Lzvn =>
      if bool_decide (head payload = Some x06) then Ok (skip_marker payload)
      else lzvn_decode payload uncompressed_size
  | Lzfse => lzfse_decode payload
  | _ => unreachable_algorithm
  end.

Definition zlib_block (fork : bytes) (table : Z) (out : bytes) (i : Z) : result bytes :=
  entry ← ok_or (b ← checked_add table 4; i8 ← checked_mul i 8; checked_add b i8)
            (Decmpfs "decmpfs zlib fork entry offset overflow");
  offset ← cm_le_u32 fork entry;
  size ← cm_le_u32 fork (entry + 4);
  start ← ok_or (checked_add table offset) (Decmpfs "decmpfs zlib fork block start overflow");
  end_ ← ok_or (checked_add start size) (Decmpfs "decmpfs zlib fork block end overflow");
  block ← ok_or (get_range fork start end_) (Decmpfs "decmpfs zlib fork block out of bounds");
  plain ← inflate block;
  Ok (out ++ plain).

Definition decode_zlib_resource_fork (fork : bytes) (uncompressed_size : Z) : result bytes :=
  header_size ← cm_be_u32 fork 0;
  table ← ok_or (checked_add header_size 4) (Decmpfs "decmpfs zlib fork table offset overflow");
  num_blocks ← cm_le_u32 fork table;
  fold_res (zlib_block fork table) [] (range num_blocks).

(** One chunk under the algorithm of the fork. *)
Definition decode_chunk (algorithm : Algorithm) (chunk : bytes) (chunk_uncompressed : Z) : result bytes :=
  match algorithm with
  | Lzvn => lzvn_decode chunk chunk_uncompressed
  | Lzfse => lzfse_decode chunk
  | Uncompressed => Ok chunk
  | _ => unreachable_algorithm
  end.

Fixpoint chunk_slots (algorithm : Algorithm) (fork : bytes) (uncompressed_size : Z) (slots : list Z)
    (out : bytes) (src : Z) : result bytes :=
  match slots with
  | [] => Ok out
  | i :: slots =>
      if uncompressed_size <=? blen out then Ok out
      else
        end_ ← cm_le_u32 fork (4 + i * 4);
        if end_ <? src then Err (Decmpfs "decmpfs chunked fork end-offset goes backward")
        else
          chunk ← ok_or (get_range fork src end_) (Decmpfs "decmpfs chunked fork chunk out of bounds");
          left ← ok_or (checked_sub uncompressed_size (blen out)) (Decmpfs "decmpfs chunked fork size underflow");
          decoded ← decode_chunk algorithm chunk (Z.min left CHUNK_SIZE);
          chunk_slots algorithm fork uncompressed_size slots (out ++ decoded) end_
  end.

Definition decode_chunked_resource_fork (algorithm : Algorithm) (fork : bytes) (uncompressed_size : Z)
  : result bytes :=
  header_size ← cm_le_u32 fork 0;
  n_slots ← ok_or (checked_sub (header_size / 4) 1) (Decmpfs "decmpfs chunked fork header too small");
  chunk_slots algorithm fork uncompressed_size (range n_slots) [] header_size.

Definition decode_resource_fork (algorithm : Algorithm) (fork : bytes) (uncompressed_size : Z) : result bytes :=
  match algorithm with
  | Zlib => decode_zlib_resource_fork fork uncompressed_size
  | Lzvn | Lzfse | Uncompressed => decode_chunked_resource_fork algorithm fork uncompressed_size
  | _ => unreachable_algorithm
  end.

Definition decompress_decmpfs (header : bytes) (resource_fork : option bytes) : result bytes :=
  if blen header <? HEADER_LEN then Err (Decmpfs "decmpfs xattr shorter than 16-byte header")
  else
    magic ← cm_le_u32 header 0;
    if negb (magic =? DECMPFS_MAGIC) then Err (Decmpfs "decmpfs bad magic (expected 'cmpf')")
    else
      compression_type ← cm_le_u32 header COMPRESSION_TYPE_OFFSET;
      uncompressed_size ← cm_le_u64 header UNCOMPRESSED_SIZE_OFFSET;
      match classify_type compression_type with
      | None =>
          Err (if compression_type =? 5
               then Decmpfs "decmpfs type 5 (de-dup generation store, no payload)"
               else Decmpfs "decmpfs unknown compression_type")
      | Some (algorithm, storage) =>
          if bool_decide (algorithm = LzBitmap) then Err (Decmpfs "decmpfs LZBitmap (no public spec)")
          else
            out ← match storage with
                  | Inline =>
                      payload ← ok_or (get_range header HEADER_LEN (blen header))
                                  (Decmpfs "decmpfs inline payload truncated");
                      decode_inline algorithm payload uncompressed_size compression_type
                  | ResourceFork =>
                      fork ← ok_or resource_fork
                               (Decmpfs "decmpfs resource-fork type but no fork present");
                      decode_resource_fork algorithm fork uncompressed_size
                  end;
            if negb (blen out =? uncompressed_size)
            then Err (Decmpfs "decmpfs decoded length != uncompressed_size")
            else Ok out
      end.

Context {R} `{ReadSeek R} `{XtsCipher} (reader : R) (volume : ApfsVolume).

Definition read_compressed (inode : Inode) (header : bytes) (block_size : Z) : result bytes :=
  compression_type ← cm_le_u32 header COMPRESSION_TYPE_OFFSET;
  let needs_fork := match classify_type compression_type with
                    | Some (_, storage) => bool_decide (storage = ResourceFork)
                    | None => false
                    end in
  fork ← (if needs_fork : bool then resource_fork reader volume (ino_oid inode) block_size else Ok None);
  decompress_decmpfs header fork.

Definition read_data (inode : Inode) (block_size : Z) : result bytes :=
  header ← decmpfs_header reader volume (ino_oid inode) block_size;
  match header with
  | Some header => read_compressed inode header block_size
  | None => read_stream reader volume (ino_private_id inode) (default 0 (ino_size inode)) block_size
  end.

(** ** Nothing but the whole file *)

Lemma decompress_decmpfs_ok header fork out :
  decompress_decmpfs header fork = Ok out ->
  HEADER_LEN <= blen header /\ cm_le_u32 header 0 = Ok DECMPFS_MAGIC /\
  cm_le_u64 header UNCOMPRESSED_SIZE_OFFSET = Ok (blen out).
Proof.
  unfold decompress_decmpfs. destruct (Z.ltb_spec (blen header) HEADER_LEN); [done|].
  intros Hd. apply bind_Ok_iff in Hd as (magic & Hm & Hd).
  destruct (Z.eqb_spec magic DECMPFS_MAGIC) as [->|]; [|done]. cbn [negb] in Hd.
  apply bind_Ok_iff in Hd as (ty & Ht & Hd). apply bind_Ok_iff in Hd as (size & Hs & Hd).
  destruct (classify_type ty) as [[alg st]|]; [|done]. destruct (bool_decide _); [done|].
  apply bind_Ok_iff in Hd as (o & _ & Hd).
  destruct (Z.eqb_spec (blen o) size) as [<-|]; [|done]. cbn [negb] in Hd. by ok_inv.
Qed.

(** ** No panic *)

Section NoPanic.
Context `{!CodecsReturn}.

Lemma codec_result_not_Panic r what : r <> Panic -> codec_result r what <> Panic.
Proof. by destruct r. Qed.
#[local] Hint Resolve codec_result_not_Panic zlib_returns lzvn_returns lzfse_returns : apfs.

Lemma read_offset_not_Panic n data off : read_offset n data off <> Panic.
Proof. unfold read_offset. no_panic. Qed.
#[local] Hint Resolve read_offset_not_Panic : apfs.

Lemma decode_inline_not_Panic alg payload size ty : decode_inline alg payload size ty <> Panic.
Proof. unfold decode_inline, inflate, lzvn_decode, lzfse_decode, unreachable_algorithm. no_panic. Qed.

Lemma decode_chunk_not_Panic alg chunk len : decode_chunk alg chunk len <> Panic.
Proof. unfold decode_chunk, lzvn_decode, lzfse_decode, unreachable_algorithm. no_panic. Qed.
#[local] Hint Resolve decode_inline_not_Panic decode_chunk_not_Panic : apfs.

Lemma chunk_slots_not_Panic alg fork size slots out src : chunk_slots alg fork size slots out src <> Panic.
Proof.
  revert out src; induction slots as [|i slots IH]; intros out src; [done|]. cbn [chunk_slots]. unfold cm_le_u32. no_panic.
Qed.
#[local] Hint Resolve chunk_slots_not_Panic : apfs.

Lemma decode_resource_fork_not_Panic alg fork size : decode_resource_fork alg fork size <> Panic.
Proof.
  unfold decode_resource_fork, decode_zlib_resource_fork, decode_chunked_resource_fork, unreachable_algorithm,
    cm_le_u32, cm_be_u32. no_panic.
  apply fold_res_not_Panic. intros s i _. unfold zlib_block, cm_le_u32, inflate. no_panic.
Qed.
#[local] Hint Resolve decode_resource_fork_not_Panic : apfs.

Lemma decompress_decmpfs_not_Panic header fork : decompress_decmpfs header fork <> Panic.
Proof. unfold decompress_decmpfs, cm_le_u32, cm_le_u64. no_panic. Qed.
#[local] Hint Resolve decompress_decmpfs_not_Panic : apfs.

Lemma read_data_not_Panic inode block_size :
  0 < block_size -> decryptable (vol_vek volume) block_size -> read_data inode block_size <> Panic.
Proof.
  intros Hb Hd. unfold read_data, read_compressed, cm_le_u32.
  apply bind_not_Panic; [apply decmpfs_header_not_Panic; [lia|done]|]. intros [header|] _; no_panic.
  - by apply resource_fork_not_Panic.
  - by apply read_stream_not_Panic.
Qed.
End NoPanic.

(** C18 (safety): reading a file never yields part of one: the bytes of a compressed file are exactly as many as its
    decmpfs header announces, behind a valid magic; those of any other file exactly as many as its inode
    says (none when it has no data stream). *)
Theorem read_data_whole (inode : Inode) (block_size : Z) (out : bytes) :
  0 <= block_size -> (forall z, ino_size inode = Some z -> 0 <= z) ->
  read_data inode block_size = Ok out ->
  (exists header, decmpfs_header reader volume (ino_oid inode) block_size = Ok (Some header) /\
     cm_le_u32 header 0 = Ok DECMPFS_MAGIC /\
     cm_le_u64 header UNCOMPRESSED_SIZE_OFFSET = Ok (blen out)) \/
  (decmpfs_header reader volume (ino_oid inode) block_size = Ok None /\
   blen out = default 0 (ino_size inode)).
Proof.
  intros Hb Hz Hr. unfold read_data in Hr. apply bind_Ok_iff in Hr as ([header|] & Hh & Hr).
  - left. exists header. split; [done|]. unfold read_compressed in Hr.
    apply bind_Ok_iff in Hr as (ty & _ & Hr). apply bind_Ok_iff in Hr as (fork & _ & Hr).
    by apply decompress_decmpfs_ok in Hr as (_ & ? & ?).
  - right. split; [done|]. eapply read_stream_blen; [|exact Hb|exact Hr].
    destruct (ino_size inode) as [z|]; [by apply Hz|done].
Qed.

(** ** Writing a chunked fork *)

(** End offsets of the chunks that follow [src], each 32 bits. *)
Fixpoint chunk_ends (src : Z) (cs : list bytes) : bytes :=
  match cs with
  | [] => []
  | c :: cs => to_le_bytes 4 (src + blen c) ++ chunk_ends (src + blen c) cs
  end.

(** Header size, end offsets, [pad] unused slots, then the compressed chunks. *)
Definition encode_chunked (cs : list bytes) (pad : nat) : bytes :=
  let header_size := 4 * (1 + blen cs + Z.of_nat pad) in
  to_le_bytes 4 header_size ++ chunk_ends header_size cs ++ replicate (4 * pad) x00 ++ concat cs.

Lemma blen_chunk_ends src cs : blen (chunk_ends src cs) = 4 * blen cs.
Proof.
  revert src; induction cs as [|c cs IH]; intros src; cbn [chunk_ends]; [done|].
  rewrite blen_app, blen_to_le_bytes, IH, blen_cons. lia.
Qed.

Lemma chunk_ends_app src cs1 cs2 :
  chunk_ends src (cs1 ++ cs2) = chunk_ends src cs1 ++ chunk_ends (src + blen (concat cs1)) cs2.
Proof.
  revert src; induction cs1 as [|c cs1 IH]; intros src; cbn [chunk_ends app concat].
  - unfold blen; cbn [length]. by rewrite Z.add_0_r.
  - rewrite IH, <-app_assoc, blen_app. by rewrite Z.add_assoc.
Qed.

Lemma cm_le_u32_app (p q : bytes) off v :
  off = blen p -> 0 <= v < 2 ^ 32 -> off + 4 < u64_limit -> cm_le_u32 (p ++ to_le_bytes 4 v ++ q) off = Ok v.
Proof.
  intros -> Hv Hl. unfold cm_le_u32, read_offset, checked_add. rewrite (proj2 (Z.ltb_lt _ _)) by done.
  cbn [ok_or mbind outcome_bind]. rewrite get_range_app by (rewrite ?blen_to_le_bytes; lia).
  cbn [ok_or fmap outcome_fmap]. by rewrite from_to_le_bytes, Z.mod_small by done.
Qed.

Section ChunkedFork.
Context (alg : Algorithm) (pcs : list (bytes * bytes)) (pad : nat).
(* pairs of a plain and a compressed chunk *)
Local Abbreviation plains := (map fst pcs).
Local Abbreviation comps := (map snd pcs).
Local Abbreviation fork := (encode_chunked comps pad).
Local Abbreviation total := (blen (concat plains)).
Local Abbreviation hsize := (4 * (1 + blen comps + Z.of_nat pad)).

(** Every chunk but the last is a full one, none is empty, and the codec inverts each. *)
Context (Hfull : forall l p c r, pcs = l ++ (p, c) :: r ->
  0 < blen p /\ Z.min (total - blen (concat (map fst l))) CHUNK_SIZE = blen p /\
  decode_chunk alg c (blen p) = Ok p).
Context (Hfit : blen fork < 2 ^ 32).

Lemma blen_fork : blen fork = hsize + blen (concat comps).
Proof.
  unfold encode_chunked. rewrite !blen_app, blen_to_le_bytes, blen_chunk_ends, blen_replicate. lia.
Qed.

Lemma fork_slot l p c r :
  pcs = l ++ (p, c) :: r ->
  let src := hsize + blen (concat (map snd l)) in
  cm_le_u32 fork (4 + blen l * 4) = Ok (src + blen c) /\ get_range fork src (src + blen c) = Some c.
Proof.
  intros He src. pose proof blen_fork as Hl.
  assert (comps = map snd l ++ c :: map snd r) as Hc by (rewrite He, map_app; done).
  assert (blen (concat comps) = blen (concat (map snd l)) + blen c + blen (concat (map snd r))) as Hcc.
  { rewrite Hc, concat_app. cbn [concat]. rewrite !blen_app. lia. }
  pose proof (blen_nonneg (concat (map snd l))). pose proof (blen_nonneg c).
  pose proof (blen_nonneg (concat (map snd r))). pose proof (blen_nonneg comps).
  split.
  - set (rest := replicate (4 * pad) x00 ++ concat comps).
    assert (fork = (to_le_bytes 4 hsize ++ chunk_ends hsize (map snd l)) ++
              to_le_bytes 4 (src + blen c) ++ (chunk_ends (src + blen c) (map snd r) ++ rest)) as ->.
    { unfold encode_chunked, rest. rewrite Hc at 3. rewrite chunk_ends_app. cbn [chunk_ends].
      fold src. by rewrite <-!app_assoc. }
    apply cm_le_u32_app; [|unfold src in *; lia|].
    + rewrite blen_app, blen_to_le_bytes, blen_chunk_ends. unfold blen. rewrite length_map. lia.
    + assert (blen l <= blen comps) by (rewrite Hc, blen_app; pose proof (blen_nonneg (c :: map snd r));
        unfold blen in *; rewrite !length_map in *; lia).
      unfold u64_limit. lia.
  - assert (fork = (to_le_bytes 4 hsize ++ chunk_ends hsize comps ++ replicate (4 * pad) x00 ++
              concat (map snd l)) ++ c ++ concat (map snd r)) as ->.
    { unfold encode_chunked. rewrite Hc at 4. rewrite concat_app. cbn [concat]. by rewrite <-!app_assoc. }
    apply get_range_app; rewrite !blen_app, blen_to_le_bytes, blen_chunk_ends, blen_replicate; unfold src; lia.
Qed.

Lemma chunk_slots_encoded r : forall l k,
  pcs = l ++ r -> 0 <= k ->
  chunk_slots alg fork total (seqZ (blen l) (blen r + k)) (concat (map fst l))
    (hsize + blen (concat (map snd l))) = Ok (concat plains).
Proof.
  induction r as [|[p c] r IH]; intros l k He Hk.
  - rewrite app_nil_r in He. subst l. change (blen []) with 0. rewrite Z.add_0_l.
    destruct (decide (k = 0)) as [->|]; [by rewrite seqZ_nil by lia|].
    rewrite seqZ_cons by lia. cbn [chunk_slots]. by rewrite Z.leb_refl.
  - pose proof (blen_nonneg r). rewrite blen_cons, seqZ_cons by lia. cbn [chunk_slots].
    destruct (Hfull _ _ _ _ He) as (Hp & Hmin & Hdec). destruct (fork_slot _ _ _ _ He) as [He1 He2].
    assert (total = blen (concat (map fst l)) + blen p + blen (concat (map fst r))) as Ht.
    { rewrite He at 1. rewrite map_app, concat_app. cbn [map concat fst]. rewrite !blen_app. lia. }
    pose proof (blen_nonneg (concat (map fst r))). pose proof (blen_nonneg (concat (map fst l))).
    rewrite (proj2 (Z.leb_gt _ _)) by lia. rewrite He1. cbn [mbind outcome_bind].
    pose proof (blen_nonneg c). rewrite (proj2 (Z.ltb_ge _ _)) by lia.
    rewrite He2. cbn [ok_or mbind outcome_bind]. unfold checked_sub. rewrite (proj2 (Z.leb_le _ _)) by lia.
    cbn [ok_or mbind outcome_bind]. rewrite Hmin, Hdec. cbn [mbind outcome_bind].
    specialize (IH (l ++ [(p, c)]) k ltac:(by rewrite <-app_assoc) Hk).
    rewrite !map_app, !concat_app in IH. cbn [map concat fst snd] in IH. rewrite !app_nil_r in IH.
    rewrite <-IH. rewrite (blen_app l), (blen_app (concat (map snd l))).
    f_equal; [f_equal; change (blen [(p, c)]) with 1; lia|lia].
Qed.

(** The whole fork, read back by the decoder of its algorithm. *)
Lemma chunked_fork_inverse :
  decode_chunked_resource_fork alg (encode_chunked (map snd pcs) pad) (blen (concat (map fst pcs))) = Ok (concat (map fst pcs)).
Proof.
  unfold decode_chunked_resource_fork. pose proof blen_fork as Hl.
  pose proof (blen_nonneg (map snd pcs)). pose proof (blen_nonneg (concat (map snd pcs))).
  assert (cm_le_u32 (encode_chunked (map snd pcs) pad) 0 = Ok (4 * (1 + blen (map snd pcs) + Z.of_nat pad))) as ->.
  { apply (cm_le_u32_app []); [done|lia|unfold u64_limit; lia]. }
  cbn [mbind outcome_bind]. rewrite Z.mul_comm, Z.div_mul by lia. unfold checked_sub.
  rewrite (proj2 (Z.leb_le _ _)) by lia. cbn [ok_or mbind outcome_bind].
  pose proof (chunk_slots_encoded pcs [] (Z.of_nat pad) eq_refl ltac:(lia)) as Hs.
  cbn [map concat] in Hs. rewrite <-Hs. change (blen []) with 0. rewrite Z.add_0_r. f_equal; [|lia].
  unfold range. f_equal. unfold blen. rewrite length_map. lia.
Qed.
End ChunkedFork.
End Compression.

(** C36 (round trip): a chunked resource fork written with its end offsets, with or without unused header slots, decodes
    to the concatenation of its chunks, for any codec that inverts each chunk and any chunks that are
    full except the last. *)
Theorem chunked_fork_roundtrip `{DecmpfsFormat} `{Codecs} (alg : Algorithm) (pcs : list (bytes * bytes)) (pad : nat) :
  (forall l p c r, pcs = l ++ (p, c) :: r ->
     0 < blen p /\
     Z.min (blen (concat (map fst pcs)) - blen (concat (map fst l))) CHUNK_SIZE = blen p /\
     decode_chunk alg c (blen p) = Ok p) ->
  blen (encode_chunked (map snd pcs) pad) < 2 ^ 32 ->
  decode_chunked_resource_fork alg (encode_chunked (map snd pcs) pad) (blen (concat (map fst pcs)))
    = Ok (concat (map fst pcs)).
Proof. intros Hfull Hfit. by apply chunked_fork_inverse. Qed.
