(* ===== verification/Decmpfs.v ===== *)
(** Compressed files, stored and decoded.

    [Compression] translates the decoder; here are the forms a compressed file is stored in.  [DocumentedFormat] gives the constants and the type table of the decmpfs
    format as documented, [stores] relates a content to each of its stored forms, and [decmpfs_decodes] shows that the decoder inverts every one of them, for any codecs
    that invert the streams they are given. *)

From S2P Require Import Prelude Bytes Errors Reader Encryption Extent Xattr Compression.

(** The format as documented: the sixteen-byte header and the compression types. *)
Class DocumentedFormat `{DecmpfsFormat} : Prop := {
  df_header : HEADER_LEN = 16;
  df_magic : DECMPFS_MAGIC = 0x636d7066;
  df_type : COMPRESSION_TYPE_OFFSET = 4;
  df_size : UNCOMPRESSED_SIZE_OFFSET = 8;
  df_chunk : CHUNK_SIZE = 65536;
  df_1 : classify_type 1 = Some (Uncompressed, Inline);
  df_3 : classify_type 3 = Some (Zlib, Inline);
  df_4 : classify_type 4 = Some (Zlib, ResourceFork);
  df_5 : classify_type 5 = None;
  df_7 : classify_type 7 = Some (Lzvn, Inline);
  df_8 : classify_type 8 = Some (Lzvn, ResourceFork);
  df_9 : classify_type 9 = Some (Uncompressed, Inline);
  df_10 : classify_type 10 = Some (Uncompressed, ResourceFork);
  df_11 : classify_type 11 = Some (Lzfse, Inline);
  df_12 : classify_type 12 = Some (Lzfse, ResourceFork);
  df_13 : fst <$> classify_type 13 = Some LzBitmap;
  df_99 : classify_type 99 = None;
}.

(** The header of a type and a size. *)
Definition decmpfs_prefix (compression_type uncompressed_size : Z) : bytes :=
  to_le_bytes 4 0x636d7066 ++ to_le_bytes 4 compression_type ++ to_le_bytes 8 uncompressed_size.

(** ** The zlib fork *)

(** The table of blocks that start [src] bytes behind the table. *)
Fixpoint block_table (src : Z) (cs : list bytes) : bytes :=
  match cs with
  | [] => []
  | c :: cs => to_le_bytes 4 src ++ to_le_bytes 4 (blen c) ++ block_table (src + blen c) cs
  end.

(** The resource header, with its own size in front, the size of the data, the table and the blocks. *)
Definition encode_zlib_fork (header total : bytes) (cs : list bytes) : bytes :=
  (header ++ total) ++ to_le_bytes 4 (blen cs) ++ block_table (4 + 8 * blen cs) cs ++ concat cs.

Lemma blen_block_table src cs : blen (block_table src cs) = 8 * blen cs.
Proof.
  revert src; induction cs as [|c cs IH]; intros src; [done|]. cbn [block_table]. rewrite !blen_app, !blen_to_le_bytes, IH, blen_cons. lia.
Qed.
Lemma block_table_app src cs1 cs2 : block_table src (cs1 ++ cs2) = block_table src cs1 ++ block_table (src + blen (concat cs1)) cs2.
Proof.
  revert src; induction cs1 as [|c cs1 IH]; intros src; cbn [block_table app concat].
  - change (blen (@nil byte)) with 0. by rewrite Z.add_0_r.
  - rewrite IH, <-!app_assoc, blen_app. by rewrite Z.add_assoc.
Qed.

Section ZlibFork.
Context `{DecmpfsFormat} `{Codecs} (header total : bytes) (pcs : list (bytes * bytes)).
(* pairs of a plain and a compressed block *)
Local Abbreviation comps := (map snd pcs).
Local Abbreviation fork := (encode_zlib_fork header total comps).
Local Abbreviation table := (blen header + 4).

Context (Hsize : cm_be_u32 header 0 = Ok (blen header)) (Htotal : blen total = 4).
Context (Hcodec : Forall (fun pc => zlib_read_to_end pc.2 = Ok pc.1) pcs).
Context (Hfit : blen fork < 2 ^ 32).

Lemma blen_zlib_fork : blen fork = table + 4 + 8 * blen comps + blen (concat comps).
Proof. unfold encode_zlib_fork. rewrite !blen_app, blen_to_le_bytes, blen_block_table. lia. Qed.

Lemma zlib_slot l p c r out :
  pcs = l ++ (p, c) :: r -> zlib_block fork table out (blen l) = Ok (out ++ p).
Proof.
  intros He. pose proof blen_zlib_fork as Hl.
  assert (comps = map snd l ++ c :: map snd r) as Hc by (rewrite He, map_app; done).
  assert (blen (concat comps) = blen (concat (map snd l)) + blen c + blen (concat (map snd r))) as Hcc.
  { rewrite Hc, concat_app. cbn [concat]. rewrite !blen_app. lia. }
  assert (blen comps = blen l + 1 + blen r) as Hn by (rewrite Hc, blen_app, blen_cons; unfold blen; rewrite !length_map; lia).
  pose proof (blen_nonneg (concat (map snd l))). pose proof (blen_nonneg c). pose proof (blen_nonneg (concat (map snd r))).
  pose proof (blen_nonneg l). pose proof (blen_nonneg r). pose proof (blen_nonneg header).
  set (src := 4 + 8 * blen comps + blen (concat (map snd l))). set (p0 := (header ++ total) ++ to_le_bytes 4 (blen comps)).
  assert (blen p0 = table + 4) as Hp0 by (unfold p0; rewrite !blen_app, blen_to_le_bytes; lia).
  assert (fork = (p0 ++ block_table (4 + 8 * blen comps) (map snd l)) ++ to_le_bytes 4 src ++ to_le_bytes 4 (blen c) ++
            (block_table (src + blen c) (map snd r) ++ concat comps)) as He1.
  { unfold encode_zlib_fork, p0. rewrite Hc at 3. rewrite block_table_app. cbn [block_table]. fold src. by rewrite <-!app_assoc. }
  assert (fork = (p0 ++ block_table (4 + 8 * blen comps) comps ++ concat (map snd l)) ++ c ++ concat (map snd r)) as He2.
  { unfold encode_zlib_fork, p0. rewrite Hc at 4. rewrite concat_app. cbn [concat]. by rewrite <-!app_assoc. }
  assert (blen (block_table (4 + 8 * blen comps) (map snd l)) = 8 * blen l) as Hbl
    by (rewrite blen_block_table; unfold blen; by rewrite length_map).
  unfold zlib_block, checked_mul, checked_add, mbind, option_bind. unfold u64_limit in *.
  repeat (rewrite (proj2 (Z.ltb_lt _ _)) by lia; cbn [ok_or]). cbn [ok_or outcome_bind].
  assert (cm_le_u32 fork (table + 4 + blen l * 8) = Ok src) as ->.
  { rewrite He1. apply cm_le_u32_app; [rewrite blen_app; lia|unfold src; lia|unfold u64_limit; lia]. }
  cbn [outcome_bind].
  assert (cm_le_u32 fork (table + 4 + blen l * 8 + 4) = Ok (blen c)) as ->.
  { rewrite He1, (app_assoc _ (to_le_bytes 4 src)). apply cm_le_u32_app; [rewrite !blen_app, blen_to_le_bytes; lia|lia|unfold u64_limit; lia]. }
  cbn [outcome_bind]. repeat (rewrite (proj2 (Z.ltb_lt _ _)) by (unfold src; lia); cbn [ok_or outcome_bind]).
  assert (get_range fork (table + src) (table + src + blen c) = Some c) as ->.
  { rewrite He2. apply get_range_app; rewrite !blen_app, blen_block_table; unfold src; lia. }
  cbn [ok_or outcome_bind]. unfold inflate. rewrite He in Hcodec. apply Forall_app in Hcodec as [_ Hcodec]. apply Forall_cons in Hcodec as [Hd _].
  cbn [fst snd] in Hd. by rewrite Hd.
Qed.

Lemma zlib_blocks r : forall l, pcs = l ++ r ->
  fold_res (zlib_block fork table) (concat (map fst l)) (seqZ (blen l) (blen r)) = Ok (concat (map fst pcs)).
Proof.
  induction r as [|[p c] r IH]; intros l He.
  - rewrite app_nil_r in He. subst l. change (blen (@nil (bytes * bytes))) with 0. by rewrite seqZ_nil by lia.
  - pose proof (blen_nonneg r). rewrite blen_cons, seqZ_cons by lia. cbn [fold_res]. rewrite (zlib_slot l p c r) by done. cbn [mbind outcome_bind].
    specialize (IH (l ++ [(p, c)]) ltac:(by rewrite <-app_assoc)). rewrite map_app, concat_app in IH. cbn [map concat fst] in IH.
    rewrite app_nil_r in IH. rewrite <-IH. rewrite (blen_app l). f_equal. f_equal; change (blen [(p, c)]) with 1; lia.
Qed.

Lemma zlib_fork_decodes size : decode_zlib_resource_fork fork size = Ok (concat (map fst pcs)).
Proof.
  unfold decode_zlib_resource_fork. pose proof blen_zlib_fork as Hl. pose proof (blen_nonneg header). pose proof (blen_nonneg comps).
  pose proof (blen_nonneg (concat comps)).
  assert (cm_be_u32 fork 0 = Ok (blen header)) as ->.
  { revert Hsize. unfold cm_be_u32, read_offset, encode_zlib_fork. change (checked_add 0 4) with (Some 4). cbn [ok_or mbind outcome_bind].
    destruct (get_range header 0 4) as [s|] eqn:Hg; [|done]. apply get_range_Some in Hg as Hin.
    rewrite <-!app_assoc, get_range_app_l by lia. by rewrite Hg. }
  cbn [mbind outcome_bind]. unfold checked_add, u64_limit in *. rewrite (proj2 (Z.ltb_lt _ _)) by lia. cbn [ok_or mbind outcome_bind].
  assert (cm_le_u32 fork table = Ok (blen comps)) as ->.
  { unfold encode_zlib_fork. apply cm_le_u32_app; [rewrite blen_app; lia|lia|unfold u64_limit; lia]. }
  cbn [mbind outcome_bind]. unfold range. rewrite <-(zlib_blocks pcs [] eq_refl). f_equal. f_equal. unfold blen. by rewrite length_map.
Qed.
End ZlibFork.

(** ** The chunked fork *)

(** Chunks of a content: all full but the last, none empty. *)
Fixpoint chunk_sizes (size : Z) (ps : list bytes) : Prop :=
  match ps with
  | [] => True
  | [p] => 0 < blen p <= size
  | p :: ps => blen p = size /\ chunk_sizes size ps
  end.

Lemma chunk_sizes_at size ps l p r :
  0 < size -> chunk_sizes size ps -> ps = l ++ p :: r -> 0 < blen p /\ Z.min (blen p + blen (concat r)) size = blen p.
Proof.
  intros Hs. revert l; induction ps as [|q ps IH]; intros [|q' l] Hc He; try done; injection He as -> ->.
  - pose proof (blen_nonneg (concat r)). destruct r as [|q r]; cbn in Hc; [change (blen (concat [])) with 0; lia|lia].
  - apply (IH l); [|done]. destruct (l ++ p :: r) as [|x xs] eqn:Hx; [by destruct l|]. apply Hc.
Qed.

Lemma chunked_fork_decodes `{DecmpfsFormat} `{Codecs} alg pcs pad :
  0 < CHUNK_SIZE -> chunk_sizes CHUNK_SIZE (map fst pcs) ->
  Forall (fun pc => decode_chunk alg pc.2 (blen pc.1) = Ok pc.1) pcs -> blen (encode_chunked (map snd pcs) pad) < 2 ^ 32 ->
  decode_chunked_resource_fork alg (encode_chunked (map snd pcs) pad) (blen (concat (map fst pcs))) = Ok (concat (map fst pcs)).
Proof.
  intros Hs Hc Hd Hfit. apply chunked_fork_inverse; [|done]. intros l p c r He.
  assert (map fst pcs = map fst l ++ p :: map fst r) as Hm by (by rewrite He, map_app).
  destruct (chunk_sizes_at _ _ _ _ _ Hs Hc Hm) as [Hp Hmin]. split; [done|]. split.
  - rewrite Hm, concat_app. cbn [concat]. rewrite !blen_app. rewrite <-Hmin at 2. f_equal. lia.
  - rewrite He in Hd. apply Forall_app in Hd as [_ Hd]. by apply Forall_cons in Hd as [? _].
Qed.

(** ** The stored forms *)

(** [stores content type payload fork]: the content is stored under that compression type, with the payload behind the header and the resource fork beside it. *)
Inductive stores `{DecmpfsFormat} `{Codecs} : bytes -> Z -> bytes -> option bytes -> Prop :=
| st_plain d fork : stores d 1 d fork
| st_marked d marker fork : stores d 9 (marker :: d) fork
| st_zlib d c fork : zlib_read_to_end c = Ok d -> head c <> Some xff -> stores d 3 c fork
| st_zlib_raw d fork : stores d 3 (xff :: d) fork
| st_lzvn d c fork : lzvn_decode_bytes c (blen d) = Ok d -> head c <> Some x06 -> stores d 7 c fork
| st_lzvn_raw d fork : stores d 7 (x06 :: d) fork
| st_lzfse d c fork : lzfse_decode_bytes c = Ok d -> stores d 11 c fork
| st_zlib_fork header total pcs payload :
    cm_be_u32 header 0 = Ok (blen header) -> blen total = 4 -> Forall (fun pc => zlib_read_to_end pc.2 = Ok pc.1) pcs ->
    blen (encode_zlib_fork header total (map snd pcs)) < 2 ^ 32 ->
    stores (concat (map fst pcs)) 4 payload (Some (encode_zlib_fork header total (map snd pcs)))
| st_chunked ty alg pcs pad payload :
    (ty, alg) ∈ [(8, Lzvn); (10, Uncompressed); (12, Lzfse)] -> chunk_sizes CHUNK_SIZE (map fst pcs) ->
    Forall (fun pc => decode_chunk alg pc.2 (blen pc.1) = Ok pc.1) pcs -> blen (encode_chunked (map snd pcs) pad) < 2 ^ 32 ->
    stores (concat (map fst pcs)) ty payload (Some (encode_chunked (map snd pcs) pad)).

Section Decodes.
Context `{DocumentedFormat} `{Codecs}.

Lemma cm_le_u64_app (p q : bytes) off v :
  off = blen p -> 0 <= v < 2 ^ 64 -> off + 8 < u64_limit -> cm_le_u64 (p ++ to_le_bytes 8 v ++ q) off = Ok v.
Proof.
  intros -> Hv Hl. unfold cm_le_u64, read_offset, checked_add. rewrite (proj2 (Z.ltb_lt _ _)) by done.
  cbn [ok_or mbind outcome_bind]. rewrite get_range_app by (rewrite ?blen_to_le_bytes; lia).
  cbn [ok_or fmap outcome_fmap]. by rewrite from_to_le_bytes, Z.mod_small by done.
Qed.

(** Behind a good header the decoder is its dispatch on the type. *)
Lemma decode_header ty size payload fork :
  0 <= ty < 2 ^ 32 -> 0 <= size < 2 ^ 64 ->
  decompress_decmpfs (decmpfs_prefix ty size ++ payload) fork =
  match classify_type ty with
  | None => Err (if ty =? 5 then Decmpfs "decmpfs type 5 (de-dup generation store, no payload)" else Decmpfs "decmpfs unknown compression_type")
  | Some (algorithm, storage) =>
      if bool_decide (algorithm = LzBitmap) then Err (Decmpfs "decmpfs LZBitmap (no public spec)")
      else
        out ← match storage with
              | Inline => decode_inline algorithm payload size ty
              | ResourceFork =>
                  fork ← ok_or fork (Decmpfs "decmpfs resource-fork type but no fork present");
                  decode_resource_fork algorithm fork size
              end;
        if negb (blen out =? size) then Err (Decmpfs "decmpfs decoded length != uncompressed_size") else Ok out
  end.
Proof.
  intros Ht Hs. unfold decompress_decmpfs. rewrite df_header, df_magic, df_type, df_size. pose proof (blen_nonneg payload).
  set (h := decmpfs_prefix ty size ++ payload).
  assert (blen (decmpfs_prefix ty size) = 16) as Hp by (unfold decmpfs_prefix; by rewrite !blen_app, !blen_to_le_bytes).
  assert (blen h = 16 + blen payload) as Hh by (unfold h; rewrite blen_app; lia). rewrite Hh, (proj2 (Z.ltb_ge _ _)) by lia.
  assert (cm_le_u32 h 0 = Ok 0x636d7066) as -> by (unfold h, decmpfs_prefix; rewrite <-app_assoc; by apply (cm_le_u32_app [])).
  cbn [mbind outcome_bind]. rewrite Z.eqb_refl. cbn [negb].
  assert (cm_le_u32 h 4 = Ok ty) as -> by (unfold h, decmpfs_prefix; rewrite <-!app_assoc; by apply cm_le_u32_app). cbn [mbind outcome_bind].
  assert (cm_le_u64 h 8 = Ok size) as ->.
  { unfold h, decmpfs_prefix. rewrite <-!app_assoc, (app_assoc (to_le_bytes 4 _)). by apply cm_le_u64_app. }
  cbn [mbind outcome_bind]. assert (get_range h 16 (16 + blen payload) = Some payload) as ->; [|done].
  pose proof (get_range_app (decmpfs_prefix ty size) payload [] 16 (16 + blen payload)) as Hg. rewrite app_nil_r in Hg. apply Hg; lia.
Qed.

Lemma skip_marker_cons m d : skip_marker (m :: d) = d.
Proof.
  unfold skip_marker. pose proof (get_range_app [m] d [] 1 (blen (m :: d)) eq_refl) as Hg. rewrite app_nil_r in Hg. cbn [app] in Hg.
  rewrite Hg; [done|]. rewrite blen_cons. change (blen [m]) with 1. lia.
Qed.

Lemma chunked_types ty alg :
  (ty, alg) ∈ [(8, Lzvn); (10, Uncompressed); (12, Lzfse)] ->
  classify_type ty = Some (alg, ResourceFork) /\ 0 <= ty < 2 ^ 32 /\ alg <> LzBitmap /\
  forall fork n, decode_resource_fork alg fork n = decode_chunked_resource_fork alg fork n.
Proof.
  intros Hin. apply list_elem_of_In in Hin. cbn in Hin.
  destruct Hin as [[= <- <-]|[[= <- <-]|[[= <- <-]|[]]]]; rewrite ?df_8, ?df_10, ?df_12; (split; [done|]; split; [lia|done]).
Qed.

Lemma stores_decodes d ty payload fork :
  stores d ty payload fork -> blen d < 2 ^ 64 -> decompress_decmpfs (decmpfs_prefix ty (blen d) ++ payload) fork = Ok d.
Proof.
  intros Hst Hd. pose proof (blen_nonneg d) as Hd0.
  assert (0 <= ty < 2 ^ 32) as Hty by (destruct Hst as [| | | | | | | |? ? ? ? ? Hin]; try lia; by apply chunked_types in Hin as (_ & ? & _)).
  rewrite decode_header by lia.
  assert (forall r : result bytes, r = Ok d ->
    (out ← r; if negb (blen out =? blen d) then Err (Decmpfs "decmpfs decoded length != uncompressed_size") else Ok out) = Ok d) as Hall.
  { intros r ->. cbn [mbind outcome_bind]. by rewrite Z.eqb_refl. }
  destruct Hst as [d fork|d m fork|d c fork Hc Hm|d fork|d c fork Hc Hm|d fork|d c fork Hc|header total pcs payload Hsz Ht Hc Hf|ty alg pcs pad payload Hin Hc Hk Hf].
  - rewrite df_1. by apply Hall.
  - rewrite df_9. apply Hall. cbn. by rewrite skip_marker_cons.
  - rewrite df_3. apply Hall. cbn [decode_inline]. rewrite bool_decide_eq_false_2 by done. unfold inflate. by rewrite Hc.
  - rewrite df_3. apply Hall. cbn [decode_inline]. rewrite bool_decide_eq_true_2 by done. by rewrite skip_marker_cons.
  - rewrite df_7. apply Hall. cbn [decode_inline]. rewrite bool_decide_eq_false_2 by done. unfold lzvn_decode. by rewrite Hc.
  - rewrite df_7. apply Hall. cbn [decode_inline]. rewrite bool_decide_eq_true_2 by done. by rewrite skip_marker_cons.
  - rewrite df_11. apply Hall. cbn [decode_inline]. unfold lzfse_decode. by rewrite Hc.
  - rewrite df_4. apply Hall. cbn [ok_or mbind outcome_bind decode_resource_fork]. by apply zlib_fork_decodes.
  - assert (0 < CHUNK_SIZE) as Hcs by (rewrite df_chunk; lia). pose proof (chunked_fork_decodes alg pcs pad Hcs Hc Hk Hf) as Hdec.
    destruct (chunked_types _ _ Hin) as (-> & _ & Hne & Hr).
    rewrite bool_decide_eq_false_2 by done. apply Hall. cbn [ok_or mbind outcome_bind]. by rewrite Hr.
Qed.

(** A payload behind the header does not need the fork. *)
Lemma stores_fork d ty payload fork :
  stores d ty payload fork ->
  exists alg storage, classify_type ty = Some (alg, storage) /\ 0 <= ty < 2 ^ 32 /\ (storage = ResourceFork \/ storage = Inline /\ stores d ty payload None).
Proof.
  destruct 1 as [| | | | | | | |ty alg pcs pad payload Hin].
  1-8: rewrite ?df_1, ?df_3, ?df_4, ?df_7, ?df_9, ?df_11; do 2 eexists; split; [done|]; split; [lia|]; first [by left|right; split; [done|by constructor]].
  destruct (chunked_types _ _ Hin) as (-> & ? & _). do 2 eexists. split; [done|]. split; [done|by left].
Qed.

Lemma compressed_read_data {R} `{ReadSeek R} `{XtsCipher} (reader : R) volume inode block_size d ty payload fork :
  stores d ty payload fork -> blen d < 2 ^ 64 ->
  decmpfs_header reader volume (Inode.ino_oid inode) block_size = Ok (Some (decmpfs_prefix ty (blen d) ++ payload)) ->
  resource_fork reader volume (Inode.ino_oid inode) block_size = Ok fork -> read_data reader volume inode block_size = Ok d.
Proof.
  intros Hst Hd Hh Hf. unfold read_data. rewrite Hh. cbn [mbind outcome_bind].
  unfold read_compressed. rewrite df_type. destruct (stores_fork _ _ _ _ Hst) as (alg & storage & Hc & Hty & Hs).
  assert (cm_le_u32 (decmpfs_prefix ty (blen d) ++ payload) 4 = Ok ty) as ->.
  { unfold decmpfs_prefix. rewrite <-!app_assoc. by apply cm_le_u32_app. }
  cbn [mbind outcome_bind]. rewrite Hc. destruct Hs as [->|[-> Hn]].
  - rewrite bool_decide_eq_true_2 by done. rewrite Hf. cbn [mbind outcome_bind]. by apply stores_decodes.
  - rewrite bool_decide_eq_false_2 by done. cbn [mbind outcome_bind]. by apply stores_decodes.
Qed.
End Decodes.

(** Whatever the form a compressed file is stored in (inline verbatim, marked, or under zlib, LZVN or LZFSE; a zlib resource
    fork of any number of blocks; a chunked fork of any number of chunks and unused slots), the decoder returns the content, and reading the file whose
    attribute holds the header does too, fetching the resource fork where the type needs one. *)
Theorem decmpfs_decodes `{DocumentedFormat} `{Codecs} {R} `{ReadSeek R} `{XtsCipher} (reader : R) (volume : Volume.ApfsVolume) (inode : Inode.Inode)
    (block_size : Z) (d : bytes) (ty : Z) (payload : bytes) (fork : option bytes) :
  stores d ty payload fork -> blen d < 2 ^ 64 ->
  decompress_decmpfs (decmpfs_prefix ty (blen d) ++ payload) fork = Ok d /\
  (decmpfs_header reader volume (Inode.ino_oid inode) block_size = Ok (Some (decmpfs_prefix ty (blen d) ++ payload)) ->
   resource_fork reader volume (Inode.ino_oid inode) block_size = Ok fork ->
   read_data reader volume inode block_size = Ok d).
Proof. intros Hst Hd. split; [by apply stores_decodes|by apply compressed_read_data]. Qed.

(** ** The format and codecs, concretely *)

(** The type table as documented; a zlib codec that strips its two-byte header, an LZFSE codec that strips a marker, and an LZVN codec that takes nothing. *)
Definition documented_format : DecmpfsFormat :=
  {| HEADER_LEN := 16; DECMPFS_MAGIC := 0x636d7066; COMPRESSION_TYPE_OFFSET := 4; UNCOMPRESSED_SIZE_OFFSET := 8; CHUNK_SIZE := 65536;
     classify_type ty :=
       if ty =? 1 then Some (Uncompressed, Inline) else if ty =? 3 then Some (Zlib, Inline) else if ty =? 4 then Some (Zlib, ResourceFork)
       else if ty =? 7 then Some (Lzvn, Inline) else if ty =? 8 then Some (Lzvn, ResourceFork) else if ty =? 9 then Some (Uncompressed, Inline)
       else if ty =? 10 then Some (Uncompressed, ResourceFork) else if ty =? 11 then Some (Lzfse, Inline) else if ty =? 12 then Some (Lzfse, ResourceFork)
       else if ty =? 13 then Some (LzBitmap, Inline) else if ty =? 14 then Some (LzBitmap, ResourceFork) else None |}.
Definition sample_codecs : Codecs :=
  {| zlib_read_to_end s := match s with x78 :: x9c :: d => Ok d | _ => Err tt end;
     lzvn_decode_bytes _ _ := Err tt;
     lzfse_decode_bytes s := match s with x62 :: d => Ok d | _ => Err tt end |}.

#[export] Instance documented_is_documented : @DocumentedFormat documented_format.
Proof. split; reflexivity. Qed.
