(* ===== verification/Snapshot.v ===== *)
(** Snapshots (core/src/snapshot.rs).

    The snapshot-metadata tree is walked by [descend_snap]: the root is a block address, every other node a virtual oid, and one
    visited set holds both kinds of number. *)

From S2P Require Import Prelude Bytes Errors Reader Object Walk BTree NodeLayout Omap FsRecord Encryption Volume Inode Dir.

Definition OBJECT_SUBTYPE_SNAPMETATREE : Z := 0x10.
Definition OFF_SNAP_NAME_KEY_LEN : Z := 8.
Definition OFF_SNAP_NAME_KEY_NAME : Z := 10.
Definition OFF_SNAP_EXTENTREF_TREE_OID : Z := 0.
Definition OFF_SNAP_SBLOCK_OID : Z := 8.
Definition OFF_SNAP_CREATE_TIME : Z := 16.
Definition OFF_SNAP_CHANGE_TIME : Z := 24.
Definition OFF_SNAP_INUM : Z := 32.
Definition OFF_SNAP_FLAGS : Z := 44.
Definition OFF_SNAP_NAME_LEN : Z := 48.
Definition OFF_SNAP_NAME : Z := 50.
Definition MAX_SNAP_TREE_DEPTH : nat := 64.
Definition MAX_SNAP_NAME_LEN : Z := 4096.

Record Snapshot := {
  sn_xid : Z;
  sn_name : bytes;
  sn_create_time : Z;
  sn_change_time : Z;
  sn_sblock_oid : Z;
  sn_extentref_tree_oid : Z;
  sn_inum : Z;
  sn_flags : Z;
}.

Definition parse_snap_metadata (xid : Z) (v : bytes) : Snapshot :=
  let name_len := Z.min (le_u16 v OFF_SNAP_NAME_LEN) MAX_SNAP_NAME_LEN in
  let name := match get_range v OFF_SNAP_NAME (OFF_SNAP_NAME + name_len) with
              | Some b => decode_cstr b
              | None => []
              end in
  {| sn_xid := xid;
     sn_name := name;
     sn_create_time := le_u64 v OFF_SNAP_CREATE_TIME;
     sn_change_time := le_u64 v OFF_SNAP_CHANGE_TIME;
     sn_sblock_oid := le_u64 v OFF_SNAP_SBLOCK_OID;
     sn_extentref_tree_oid := le_u64 v OFF_SNAP_EXTENTREF_TREE_OID;
     sn_inum := le_u64 v OFF_SNAP_INUM;
     sn_flags := le_u32 v OFF_SNAP_FLAGS |}.

Definition decode_snap_name_key (k : bytes) : option bytes :=
  let name_len := Z.min (le_u16 k OFF_SNAP_NAME_KEY_LEN) MAX_SNAP_NAME_LEN in
  if name_len =? 0 then None
  else decode_cstr <$> get_range k OFF_SNAP_NAME_KEY_NAME (OFF_SNAP_NAME_KEY_NAME + name_len).

Definition snap_meta_tree_subtype : Z := OBJECT_SUBTYPE_SNAPMETATREE.

Section Snapshot.
Context {R} `{ReadSeek R} (reader : R).

Definition snap_cycle : ApfsError := CycleGuard (Z.of_nat MAX_SNAP_TREE_DEPTH).

(** The checked block of a node: the root by address, the others through the object map. *)
Definition read_snap_node (omap : ObjectMap) (node_oid : Z) (is_root : bool) (xid block_size : Z)
  : result bytes :=
  paddr ← (if is_root then Ok node_oid
           else entry ← omap_resolve omap reader node_oid xid block_size; Ok (oe_paddr entry));
  buf ← read_at reader (saturating_mul paddr block_size) block_size;
  let stored := fletcher64_stored buf in
  let computed := fletcher64_checksum buf in
  if negb (stored =? computed) then
    let block := match ObjPhys_parse buf with Some h => o_oid h | None => paddr end in
    Err (ChecksumMismatch block stored computed)
  else Ok buf.

(** [descend_snap] at depth [MAX_SNAP_TREE_DEPTH - budget]. *)
Fixpoint descend_snap {St} (omap : ObjectMap) (xid block_size : Z) (visit : bytes -> bytes -> St -> St)
    (budget : nat) (is_root : bool) (node_oid : Z) : stm (wstate St) unit :=
  match budget with
  | O => throw snap_cycle
  | S budget =>
      fresh ← visit_once node_oid;
      if negb fresh then throw snap_cycle
      else
        buf ← lift (read_snap_node omap node_oid is_root xid block_size);
        match parse_node_header buf with
        | None => mret tt
        | Some hdr =>
            if is_leaf hdr then visit_all visit (node_entries buf SubtypeFsTree)
            else
              let children := (fun e => le_u64 (value e) 0) <$> node_entries buf SubtypeFsTree in
              for_each (descend_snap omap xid block_size visit budget false) children
        end
  end.

Definition for_each_snap_record {St} (volume : ApfsVolume) (block_size : Z) (visit : bytes -> bytes -> St -> St)
    (st : St) : St * result unit :=
  match read_volume_omap reader volume block_size with
  | Ok omap =>
      let '((_, st'), res) :=
        descend_snap omap (vol_xid volume) block_size visit MAX_SNAP_TREE_DEPTH true
          (vol_snap_meta_tree_oid volume) (∅, st) in
      (st', res)
  | Err e => (st, Err e)
  | Panic => (st, Panic)
  end.

Definition snap_list_visit (k v : bytes) (out : list Snapshot) : list Snapshot :=
  let '(xid, ty) := jkey k in
  if bool_decide (ty = Some SnapMetadata) then out ++ [parse_snap_metadata xid v] else out.

Definition list_snapshots (volume : ApfsVolume) (block_size : Z) : result (list Snapshot) :=
  let '(out, res) := for_each_snap_record volume block_size snap_list_visit [] in
  _ ← res;
  Ok (sort_by_key sn_xid out).

Definition snap_name_visit (name : bytes) (k v : bytes) (found : option Z) : option Z :=
  match found with
  | Some _ => found
  | None =>
      let '(_, ty) := jkey k in
      if negb (bool_decide (ty = Some SnapName)) then found
      else if bool_decide (decode_snap_name_key k = Some name) then Some (le_u64 v 0) else found
  end.

Definition resolve_snapshot_xid (volume : ApfsVolume) (name : bytes) (block_size : Z) : result (option Z) :=
  let '(found, res) := for_each_snap_record volume block_size (snap_name_visit name) None in
  _ ← res;
  Ok found.

Definition mount_snapshot (live_volume : ApfsVolume) (snapshot : Snapshot) (block_size : Z) : result ApfsVolume :=
  buf ← read_at reader (saturating_mul (sn_sblock_oid snapshot) block_size) block_size;
  v ← ApfsVolume_parse buf;
  Ok (with_omap_oid v (vol_omap_oid live_volume)).

(** ** The walk, as the common one *)

(** A node as the walk from [root] sees it. *)
Definition snap_node (omap : ObjectMap) (xid block_size root a : Z) : result (option node) :=
  buf ← read_snap_node omap a (a =? root) xid block_size;
  Ok (classify SubtypeFsTree buf).

Context {St : Type} (omap : ObjectMap) (xid block_size root : Z) (visit : bytes -> bytes -> St -> St).

Local Abbreviation gw := (gwalk (snap_node omap xid block_size root) child_addrs visit snap_cycle).

Lemma descend_snap_step b is_root a s :
  is_root = (a =? root) ->
  (forall l s, root ∈ s.1 -> for_each (descend_snap omap xid block_size visit b false) l s = for_each (gw b) l s) ->
  a = root \/ root ∈ s.1 ->
  descend_snap omap xid block_size visit (S b) is_root a s = gw (S b) a s.
Proof.
  intros -> Hloop Hroot. cbn [descend_snap gwalk]. unfold mbind, stm_bind, visit_once.
  destruct (decide (a ∈ s.1)); cbn [negb]; [done|]. unfold lift, snap_node.
  destruct (read_snap_node omap a (a =? root) xid block_size) as [buf| |]; [|done|done].
  cbn [mbind outcome_bind]. unfold classify. destruct (parse_node_header buf) as [hdr|]; [|done].
  destruct (is_leaf hdr); [done|]. apply Hloop. cbn [fst]. set_solver.
Qed.

Lemma descend_snap_gwalk b : forall a s,
  root ∈ s.1 -> descend_snap omap xid block_size visit b false a s = gw b a s.
Proof.
  induction b as [|b IH]; intros a s Hr; [done|]. destruct (decide (a = root)) as [->|Hne].
  - cbn [descend_snap gwalk]. unfold mbind, stm_bind, visit_once. by rewrite decide_True.
  - apply descend_snap_step; [symmetry; by apply Z.eqb_neq| |by right].
    induction l as [|c l IHl]; intros s1 Hs1; [done|]. rewrite !for_each_cons, IH by done.
    destruct (gw b c s1) as [s2 [[]| |]] eqn:Hc; [|done|done]. apply IHl.
    apply gwalk_sound in Hc as (t & _ & _ & ->). unfold visited_by. cbn [fst]. set_solver.
Qed.

Lemma descend_snap_root b st :
  descend_snap omap xid block_size visit (S b) true root (∅, st) = gw (S b) root (∅, st).
Proof.
  apply descend_snap_step; [by rewrite Z.eqb_refl| |by left].
  induction l as [|c l IHl]; intros s1 Hs1; [done|]. rewrite !for_each_cons, descend_snap_gwalk by done.
  destruct (gw b c s1) as [s2 [[]| |]] eqn:Hc; [|done|done]. apply IHl.
  apply gwalk_sound in Hc as (t & _ & _ & ->). unfold visited_by. cbn [fst]. set_solver.
Qed.
End Snapshot.

(** ** The snapshots of a volume *)

(** The snapshot a record describes. *)
Definition snap_record (e : Entry) : option Snapshot :=
  let '(xid, ty) := jkey (key e) in
  if bool_decide (ty = Some SnapMetadata) then Some (parse_snap_metadata xid (value e)) else None.

(** The transaction a name record gives for [name]. *)
Definition snap_name_record (name : bytes) (e : Entry) : option Z :=
  if bool_decide ((jkey (key e)).2 = Some SnapName) && bool_decide (decode_snap_name_key (key e) = Some name)
  then Some (le_u64 (value e) 0) else None.

Lemma snap_list_collects : collects snap_list_visit snap_record.
Proof. intros e out. unfold snap_list_visit, snap_record. destruct (jkey (key e)). by case_bool_decide. Qed.

Lemma snap_name_visit_eq name e found :
  snap_name_visit name (key e) (value e) found =
    match found with Some _ => found | None => snap_name_record name e end.
Proof.
  unfold snap_name_visit, snap_name_record. destruct found; [done|]. destruct (jkey (key e)) as [oid ty]. cbn [snd].
  by do 2 case_bool_decide.
Qed.

Lemma run_snap_name name es :
  run_visitor (snap_name_visit name) None es = head (omap (snap_name_record name) es).
Proof.
  unfold run_visitor.
  assert (forall es x, foldl (fun st e => snap_name_visit name (key e) (value e) st) (Some x) es = Some x) as Hs
    by (clear; induction es as [|e es IH]; intros x; [done|apply IH]).
  induction es as [|e es IH]; [done|]. cbn [foldl]. rewrite snap_name_visit_eq. cbn.
  destruct (snap_name_record name e); [by rewrite Hs|done].
Qed.

Section SnapshotTree.
Context {R} `{ReadSeek R} (reader : R) (volume : ApfsVolume) (block_size : Z).

Local Abbreviation root := (vol_snap_meta_tree_oid volume).
Local Abbreviation fetch omap := (snap_node reader omap (vol_xid volume) block_size root).

(** The snapshot-metadata tree of the volume. *)
Definition snap_tree (t : tree) : Prop :=
  exists omap, read_volume_omap reader volume block_size = Ok omap /\
    walkable (fetch omap) child_addrs MAX_SNAP_TREE_DEPTH ∅ t /\ addr t = root.

(** The walk succeeds exactly on a tree, and runs the visitor over its leaves. *)
Lemma for_each_snap_record_iff {St} (visit : bytes -> bytes -> St -> St) st st' :
  for_each_snap_record reader volume block_size visit st = (st', Ok tt) <->
  exists t, snap_tree t /\ st' = run_visitor visit st (leaf_entries t).
Proof.
  unfold for_each_snap_record, snap_tree. split.
  - destruct (read_volume_omap _ _ _) as [omap| |]; [|done|done]. unfold MAX_SNAP_TREE_DEPTH.
    rewrite descend_snap_root.
    destruct (gwalk _ _ _ _ _ _ _) as [[V s] r] eqn:Hw. intros [= <- ->].
    apply gwalk_sound in Hw as (t & Ht & Ha & [= _ ->]). exists t. split; [|done]. by exists omap.
  - intros (t & (omap & -> & Hw & Ha) & ->). unfold MAX_SNAP_TREE_DEPTH in *.
    rewrite descend_snap_root. pose proof (gwalk_complete (fetch omap) child_addrs visit snap_cycle t _ (∅, st) Hw) as Hg.
    rewrite Ha in Hg. by rewrite Hg.
Qed.

Lemma for_each_snap_record_not_Panic {St} (visit : bytes -> bytes -> St -> St) st :
  (for_each_snap_record reader volume block_size visit st).2 <> Panic.
Proof.
  unfold for_each_snap_record. assert (read_volume_omap reader volume block_size <> Panic) as Ho by (unfold read_volume_omap; no_panic).
  destruct (read_volume_omap _ _ _) as [om| |]; [|done|done]. unfold MAX_SNAP_TREE_DEPTH. rewrite descend_snap_root.
  pose proof (gwalk_not_Panic (fetch om) child_addrs visit snap_cycle (S 63) root (∅, st)) as Hg.
  destruct (gwalk _ _ _ _ _ _ _) as [[V s] r]. apply Hg. intros a. unfold snap_node, read_snap_node. no_panic.
Qed.

Lemma list_snapshots_not_Panic : list_snapshots reader volume block_size <> Panic.
Proof.
  unfold list_snapshots. pose proof (for_each_snap_record_not_Panic snap_list_visit []) as Hp.
  destruct (for_each_snap_record _ _ _ _ _) as [o r]. by apply bind_not_Panic.
Qed.

Lemma resolve_snapshot_xid_not_Panic name : resolve_snapshot_xid reader volume name block_size <> Panic.
Proof.
  unfold resolve_snapshot_xid. pose proof (for_each_snap_record_not_Panic (snap_name_visit name) None) as Hp.
  destruct (for_each_snap_record _ _ _ _ _) as [o r]. by apply bind_not_Panic.
Qed.

Lemma list_snapshots_tree t :
  snap_tree t -> list_snapshots reader volume block_size = Ok (sort_by_key sn_xid (omap snap_record (leaf_entries t))).
Proof.
  intros Ht. unfold list_snapshots.
  assert (for_each_snap_record reader volume block_size snap_list_visit [] = (omap snap_record (leaf_entries t), Ok tt)) as ->; [|done].
  apply for_each_snap_record_iff. exists t. split; [done|]. by rewrite (run_collects _ _ _ _ snap_list_collects).
Qed.

Lemma list_snapshots_inv out :
  list_snapshots reader volume block_size = Ok out ->
  exists t, snap_tree t /\ out = sort_by_key sn_xid (omap snap_record (leaf_entries t)).
Proof.
  unfold list_snapshots. destruct (for_each_snap_record _ _ _ _ _) as [o [[]| |]] eqn:Hw; [|done|done]. intros [= <-].
  apply for_each_snap_record_iff in Hw as (t & Ht & ->). exists t. by rewrite (run_collects _ _ _ _ snap_list_collects).
Qed.

(** C29 (functional): [list_snapshots] succeeds exactly when the snapshot-metadata tree unfolds to a tree, and
    then returns every metadata record of it once, decoded, in ascending transaction order, records
    of one transaction in tree order. *)
Theorem list_snapshots_spec (out : list Snapshot) :
  list_snapshots reader volume block_size = Ok out <->
  exists t, snap_tree t /\ out ≡ₚ omap snap_record (leaf_entries t) /\
    StronglySorted (fun a b => sn_xid a <= sn_xid b) out /\
    forall xid, filter (fun s => sn_xid s = xid) out =
           filter (fun s => sn_xid s = xid) (omap snap_record (leaf_entries t)).
Proof.
  split.
  - intros (t & Ht & ->)%list_snapshots_inv.
    exists t. split_and!; [done|apply sort_by_key_perm|apply sort_by_key_sorted|apply sort_by_key_stable].
  - intros (t & Ht & Hp & Hs & Hst). rewrite (list_snapshots_tree t Ht). f_equal.
    apply (sorted_stable_unique sn_xid); [apply sort_by_key_sorted|done|].
    intros v. by rewrite sort_by_key_stable.
Qed.

(** Resolving a snapshot name returns the transaction id of the first name record with exactly
    that name, and [None] when no record of the tree carries it. *)
Theorem resolve_snapshot_xid_spec (name : bytes) (t : tree) :
  snap_tree t ->
  resolve_snapshot_xid reader volume name block_size = Ok (head (omap (snap_name_record name) (leaf_entries t))).
Proof.
  intros Ht. unfold resolve_snapshot_xid.
  assert (for_each_snap_record reader volume block_size (snap_name_visit name) None
            = (head (omap (snap_name_record name) (leaf_entries t)), Ok tt)) as ->; [|done].
  apply for_each_snap_record_iff. exists t. split; [done|]. by rewrite run_snap_name.
Qed.

(** The visited set holds the root's block address next to the virtual ids of the other nodes, so an
    index root whose first child has the root's block number as its virtual id is refused as a
    cycle, whatever block the object map gives for that id. *)
Theorem snap_root_address_collides (omap : ObjectMap) (buf : bytes) (es : list Entry) (rest : list Z) :
  read_volume_omap reader volume block_size = Ok omap ->
  read_snap_node reader omap root true (vol_xid volume) block_size = Ok buf ->
  classify SubtypeFsTree buf = Some (NIndex es) -> child_addrs es = root :: rest ->
  list_snapshots reader volume block_size = Err (CycleGuard 64).
Proof.
  intros Ho Hr Hc Hch. unfold list_snapshots, for_each_snap_record. rewrite Ho. unfold MAX_SNAP_TREE_DEPTH.
  rewrite descend_snap_root, gwalk_S, decide_False by (cbn; set_solver).
  unfold snap_node. rewrite Z.eqb_refl, Hr. cbn [mbind outcome_bind]. rewrite Hc, Hch. cbn zeta.
  rewrite for_each_cons, gwalk_S, decide_True; [done|]. unfold visited_by. cbn. set_solver.
Qed.

(** C31 (functional): a mounted snapshot is the frozen superblock read through the live volume's object map: a checksum-valid volume superblock
    stands at the recorded block, every field of the mounted volume (transaction, trees, features, flags, identity, name) is the one that block holds,
    the object map alone is the live one and no key is set.  So every virtual object resolves at the frozen transaction: to the newest mapping not
    after it, and to no mapping made later. *)
Theorem mount_snapshot_spec (live mounted : ApfsVolume) (sn : Snapshot) (om : ObjectMap) (t : tree) :
  mount_snapshot reader live sn block_size = Ok mounted ->
  read_volume_omap reader live block_size = Ok om ->
  walkable (phys_node reader block_size SubtypeOmap) child_addrs MAX_BTREE_DEPTH ∅ t ->
  addr t = om_tree_oid om -> ordered t ->
  exists buf, read_at reader (saturating_mul (sn_sblock_oid sn) block_size) block_size = Ok buf /\
    cksum_ok buf = true /\ le_u32 buf APSB_OFF_MAGIC = APFS_MAGIC /\
    mounted =
      {| vol_oid := le_u64 buf 8; vol_xid := le_u64 buf 16; vol_fs_index := le_u32 buf APSB_OFF_FS_INDEX;
         vol_features := le_u64 buf APSB_OFF_FEATURES; vol_readonly_compatible_features := le_u64 buf APSB_OFF_RO_COMPAT_FEATURES;
         vol_incompatible_features := le_u64 buf APSB_OFF_INCOMPAT_FEATURES; vol_root_tree_type := le_u32 buf APSB_OFF_ROOT_TREE_TYPE;
         vol_omap_oid := vol_omap_oid live; vol_root_tree_oid := le_u64 buf APSB_OFF_ROOT_TREE_OID;
         vol_extentref_tree_oid := le_u64 buf APSB_OFF_EXTENTREF_TREE_OID; vol_snap_meta_tree_oid := le_u64 buf APSB_OFF_SNAP_META_TREE_OID;
         vol_uuid := arr 16 buf APSB_OFF_VOL_UUID; vol_fs_flags := le_u64 buf APSB_OFF_FS_FLAGS;
         vol_name := decode_volname buf APSB_OFF_VOLNAME VOLNAME_LEN; vol_vek := None |} /\
    read_volume_omap reader mounted block_size = Ok om /\
    forall oid e, omap_resolve om reader oid (vol_xid mounted) block_size = Ok e ->
      oe_xid e <= le_u64 buf 16 /\
      forall m, m ∈ leaf_entries t -> le_u64 (key m) 0 = oid -> le_u64 (key m) 8 <= le_u64 buf 16 ->
        le_u64 (key m) 8 <= oe_xid e.
Proof.
  intros Hm Ho Hw Ha Hord. unfold mount_snapshot in Hm.
  destruct (read_at _ _ _) as [buf| |] eqn:Hb; [|done|done]. cbn [mbind outcome_bind] in Hm.
  destruct (ApfsVolume_parse buf) as [v| |] eqn:Hv; [|done|done]. cbn [mbind outcome_bind] in Hm.
  injection Hm as <-. apply ApfsVolume_parse_gates in Hv as Hg. destruct Hg as (_ & Hmag & _ & Hck & Hx & _ & _).
  exists buf. apply ApfsVolume_parse_fields in Hv. split; [done|]. split; [done|]. split; [done|]. split; [by rewrite Hv|]. split; [done|].
  cbn [with_omap_oid vol_xid]. rewrite Hx.
  intros oid e He. pose proof (omap_resolve_best reader block_size oid (le_u64 buf 16) om t Hw Ha Hord) as Hb2.
  rewrite He in Hb2. destruct Hb2 as (m & _ & _ & _ & Hle & Hbest). by split.
Qed.
End SnapshotTree.
