(* ===== verification/Source.v ===== *)
(** Sources with the same reads.

    The reader is generic in its source, and every access goes through [read_at].  So nothing it says of a volume can depend on more of a source than its
    reads: [source_reads] is that theorem for opening a container, paths, listings, attributes, contents and snapshots.  It carries the results over stored
    disks to the cursors over the same files that the tests open. *)

From S2P Require Import Prelude Bytes Errors Reader Object Container Checkpoint Walk BTree Omap ApfsContainer FsRecord Encryption Volume Inode Dir Extent Xattr Compression Snapshot.

Section Same.
Context {R1 R2} `{ReadSeek R1} `{ReadSeek R2} (r1 : R1) (r2 : R2).

(** Two sources that answer alike: a seek fails with the same error on both, or leaves both where every read gives the same. *)
Definition same_source : Prop := forall off,
  match seek_start r1 off, seek_start r2 off with
  | inl e1, inl e2 => e1 = e2
  | inr a, inr b => forall n, read_exact a n = read_exact b n
  | _, _ => False
  end.

Context (Hsource : same_source).

Lemma Hsame off n : read_at r1 off n = read_at r2 off n.
Proof.
  unfold read_at. specialize (Hsource off). destruct (seek_start r1 off), (seek_start r2 off); try done; [by subst|]. by rewrite Hsource.
Qed.

(** ** Opening a container *)

Lemma same_block0 : read_block0 r1 = read_block0 r2.
Proof.
  unfold read_block0. specialize (Hsource 0). destruct (seek_start r1 0), (seek_start r2 0); try done; [by subst|]. by rewrite Hsource.
Qed.

Lemma same_read_block paddr size : read_block r1 paddr size = read_block r2 paddr size.
Proof.
  unfold read_block. destruct (checked_mul paddr size) as [off|]; [|done]. specialize (Hsource off).
  destruct (seek_start r1 off), (seek_start r2 off); try done; [by subst|]. by rewrite Hsource.
Qed.

Lemma same_fold {A B} (f g : A -> B -> result A) l : (forall a b, f a b = g a b) -> forall a, fold_res f a l = fold_res g a l.
Proof. intros Hfg. induction l as [|b l IH]; intros a; [done|]. cbn [fold_res]. rewrite Hfg. destruct (g a b); [apply IH|done|done]. Qed.

Lemma same_checkpoint prof sb : resolve_live_checkpoint prof r1 sb = resolve_live_checkpoint prof r2 sb.
Proof.
  unfold resolve_live_checkpoint. destruct (xp_desc_is_tree sb); [done|]. destruct (negb _); [done|].
  rewrite (same_fold (scan_step prof r1 (xp_desc_base sb) (nx_block_size sb)) (scan_step prof r2 (xp_desc_base sb) (nx_block_size sb))).
  2: { intros st i. unfold scan_step. destruct (add_u64 _ _ _); [|done|done]. cbn [mbind outcome_bind]. by rewrite same_read_block. }
  destruct (fold_res _ _ _) as [st| |]; [|done|done]. cbn [mbind outcome_bind]. destruct (best st) as [[xid paddr]|]; [|done].
  rewrite (same_fold (map_step prof r1 (xp_desc_base sb) (nx_block_size sb) xid) (map_step prof r2 (xp_desc_base sb) (nx_block_size sb) xid)); [done|].
  intros acc i. unfold map_step. destruct (add_u64 _ _ _); [|done|done]. cbn [mbind outcome_bind]. by rewrite same_read_block.
Qed.

(** Two containers that differ in their source only. *)
Definition same_container (c1 : ApfsContainer R1) (c2 : ApfsContainer R2) : Prop :=
  ac_reader c1 = r1 /\ ac_reader c2 = r2 /\ ac_superblock c1 = ac_superblock c2 /\ ac_live_superblock_paddr c1 = ac_live_superblock_paddr c2 /\
  ac_checkpoint_mappings c1 = ac_checkpoint_mappings c2.

Lemma same_open prof :
  match ApfsContainer_open prof r1, ApfsContainer_open prof r2 with
  | Ok c1, Ok c2 => same_container c1 c2
  | Err e1, Err e2 => e1 = e2
  | Panic, Panic => True
  | _, _ => False
  end.
Proof.
  unfold ApfsContainer_open. rewrite same_block0. destruct (read_block0 r2) as [b0| |]; [|done|done]. cbn [mbind outcome_bind].
  destruct (NxSuperblock_parse b0) as [sb| |]; [|done|done]. cbn [mbind outcome_bind]. destruct (is_fusion sb); [done|]. rewrite same_checkpoint.
  destruct (resolve_live_checkpoint prof r2 sb) as [live| |]; [|done|done]. cbn [mbind outcome_bind]. rewrite Hsame.
  destruct (read_at r2 _ _) as [buf| |]; [|done|done]. cbn [mbind outcome_bind]. by destruct (NxSuperblock_parse buf).
Qed.

Context (bs : Z).

(** The walk of a B-tree, and the lookup of an object map. *)
Lemma same_find_leaf_from {St} subtype (visit : bytes -> bytes -> St -> St) cmp n : forall paddr s,
  find_leaf_from r1 bs subtype visit cmp n paddr s = find_leaf_from r2 bs subtype visit cmp n paddr s.
Proof.
  induction n as [|n IH]; intros paddr s; [done|]. cbn [find_leaf_from]. unfold mbind, stm_bind.
  destruct (visit_once paddr s) as [s1 [[]| |]]; cbn [negb]; try done. unfold lift.
  assert (read_verified_node r1 bs paddr = read_verified_node r2 bs paddr) as -> by (unfold read_verified_node; by destruct (checked_mul _ _); rewrite ?Hsame).
  destruct (read_verified_node r2 bs paddr) as [[buf|]| |]; try done. destruct (parse_node_header buf) as [hdr|]; [|done].
  destruct (is_leaf hdr); [done|]. destruct (node_entries buf subtype) as [|e es]; [done|]. apply IH.
Qed.

Lemma same_omap_resolve om oid xid : omap_resolve om r1 oid xid bs = omap_resolve om r2 oid xid bs.
Proof. unfold omap_resolve, find_leaf. by rewrite same_find_leaf_from. Qed.

Lemma same_volume_omap volume : read_volume_omap r1 volume bs = read_volume_omap r2 volume bs.
Proof. unfold read_volume_omap. by rewrite Hsame. Qed.

Section Volume.
Context `{XtsCipher} (volume : ApfsVolume).

Lemma same_virtual_node om vek oid xid : read_virtual_node r1 om vek oid xid bs = read_virtual_node r2 om vek oid xid bs.
Proof.
  unfold read_virtual_node. rewrite same_omap_resolve. destruct (omap_resolve om r2 oid xid bs) as [e| |]; try done.
  cbn [mbind outcome_bind]. by rewrite Hsame.
Qed.

Lemma same_descend {St} om vek xid target (visit : bytes -> bytes -> St -> St) n : forall oid s,
  descend_virtual r1 om vek xid bs target visit n oid s = descend_virtual r2 om vek xid bs target visit n oid s.
Proof.
  induction n as [|n IH]; intros oid s; [done|]. cbn [descend_virtual]. unfold mbind, stm_bind.
  destruct (visit_once oid s) as [s1 [[]| |]]; cbn [negb]; try done. unfold lift. rewrite same_virtual_node.
  destruct (read_virtual_node r2 om vek oid xid bs) as [buf| |]; try done. destruct (parse_node_header buf) as [hdr|]; [|done].
  destruct (is_leaf hdr); [done|]. by apply for_each_ext.
Qed.

Lemma same_walk {St} target (visit : bytes -> bytes -> St -> St) st :
  for_each_fs_record_for_oid r1 volume bs target visit st = for_each_fs_record_for_oid r2 volume bs target visit st.
Proof.
  unfold for_each_fs_record_for_oid, walk_fs_tree. rewrite same_volume_omap. destruct (read_volume_omap r2 volume bs); [|done|done]. by rewrite same_descend.
Qed.

Lemma same_full_walk {St} (visit : bytes -> bytes -> St -> St) st :
  walk_fs_tree r1 volume bs None visit st = walk_fs_tree r2 volume bs None visit st.
Proof. unfold walk_fs_tree. rewrite same_volume_omap. destruct (read_volume_omap r2 volume bs); [|done|done]. by rewrite same_descend. Qed.

Lemma same_list_dir p : list_dir r1 volume p bs = list_dir r2 volume p bs.
Proof. unfold list_dir. by rewrite same_walk. Qed.
Lemma same_lookup_child p name : lookup_child r1 volume p name bs = lookup_child r2 volume p name bs.
Proof. unfold lookup_child. by rewrite same_walk. Qed.
Lemma same_load_inode oid : load_inode r1 volume oid bs = load_inode r2 volume oid bs.
Proof. unfold load_inode. by rewrite same_walk. Qed.

Lemma same_open_path path : open_path r1 volume path bs = open_path r2 volume path bs.
Proof.
  unfold open_path. generalize ROOT_DIR_INO_NUM as current. induction (components path) as [|name names IH]; intros current; cbn [fold_res mbind outcome_bind].
  - apply same_load_inode.
  - rewrite same_lookup_child. destruct (lookup_child r2 volume current name bs) as [[child|]| |]; try done. apply IH.
Qed.

Lemma same_list_extents oid : list_extents r1 volume oid bs = list_extents r2 volume oid bs.
Proof. unfold list_extents. by rewrite same_walk. Qed.

Lemma same_fill_extent vek size out x : fill_extent r1 vek size bs out x = fill_extent r2 vek size bs out x.
Proof.
  unfold fill_extent. destruct (_ || _); [done|]. destruct (bs =? 0); [done|]. destruct (checked_mul _ _) as [off|]; [|done]. cbn [ok_or mbind outcome_bind].
  destruct vek; [destruct (negb _)|]; by rewrite Hsame.
Qed.

Lemma same_read_stream oid size : read_stream r1 volume oid size bs = read_stream r2 volume oid size bs.
Proof.
  unfold read_stream. destruct (_ <? _); [done|]. rewrite same_list_extents. destruct (list_extents r2 volume oid bs) as [exts| |]; try done.
  cbn [mbind outcome_bind]. generalize (replicate (Z.to_nat size) x00) as out. induction exts as [|x exts IH]; intros out; [done|]. cbn [fold_res].
  rewrite same_fill_extent. destruct (fill_extent r2 _ _ _ _ _); [apply IH|done|done].
Qed.

Lemma same_list_xattrs oid : list_xattrs r1 volume oid bs = list_xattrs r2 volume oid bs.
Proof. unfold list_xattrs. by rewrite same_walk. Qed.
Lemma same_get_xattr oid name : get_xattr r1 volume oid name bs = get_xattr r2 volume oid name bs.
Proof. unfold get_xattr. by rewrite same_list_xattrs. Qed.
Lemma same_resource_fork oid : resource_fork r1 volume oid bs = resource_fork r2 volume oid bs.
Proof.
  unfold resource_fork. rewrite same_get_xattr. destruct (get_xattr r2 _ _ _ _) as [[[|]|]| |]; try done. cbn [mbind outcome_bind]. by rewrite same_read_stream.
Qed.

Lemma same_read_data `{DecmpfsFormat} `{Codecs} inode : read_data r1 volume inode bs = read_data r2 volume inode bs.
Proof.
  unfold read_data, decmpfs_header. rewrite same_get_xattr. destruct (get_xattr r2 _ _ _ _) as [[[h|]|]| |]; try done; cbn [mbind outcome_bind];
    [|apply same_read_stream..].
  unfold read_compressed. destruct (cm_le_u32 _ _); try done. cbn [mbind outcome_bind]. by rewrite same_resource_fork.
Qed.
End Volume.

(** *** Snapshots *)

Lemma same_descend_snap {St} om xid (visit : bytes -> bytes -> St -> St) n : forall root oid s,
  descend_snap r1 om xid bs visit n root oid s = descend_snap r2 om xid bs visit n root oid s.
Proof.
  induction n as [|n IH]; intros root oid s; [done|]. cbn [descend_snap]. unfold mbind, stm_bind.
  destruct (visit_once oid s) as [s1 [[]| |]]; cbn [negb]; try done. unfold lift.
  assert (read_snap_node r1 om oid root xid bs = read_snap_node r2 om oid root xid bs) as ->.
  { unfold read_snap_node. rewrite same_omap_resolve. destruct (if root then _ else _) as [p| |]; try done. cbn [mbind outcome_bind]. by rewrite Hsame. }
  destruct (read_snap_node r2 om oid root xid bs) as [buf| |]; try done. destruct (parse_node_header buf) as [hdr|]; [|done].
  destruct (is_leaf hdr); [done|]. by apply for_each_ext.
Qed.

Lemma same_snap_walk {St} volume (visit : bytes -> bytes -> St -> St) st :
  for_each_snap_record r1 volume bs visit st = for_each_snap_record r2 volume bs visit st.
Proof. unfold for_each_snap_record. rewrite same_volume_omap. destruct (read_volume_omap r2 volume bs); [|done|done]. by rewrite same_descend_snap. Qed.
Lemma same_list_snapshots volume : list_snapshots r1 volume bs = list_snapshots r2 volume bs.
Proof. unfold list_snapshots. by rewrite same_snap_walk. Qed.
Lemma same_resolve_snapshot volume name : resolve_snapshot_xid r1 volume name bs = resolve_snapshot_xid r2 volume name bs.
Proof. unfold resolve_snapshot_xid. by rewrite same_snap_walk. Qed.
Lemma same_mount_snapshot live s : mount_snapshot r1 live s bs = mount_snapshot r2 live s bs.
Proof. unfold mount_snapshot. by rewrite Hsame. Qed.
End Same.

Lemma same_addrs {R1 R2} `{ReadSeek R1} `{ReadSeek R2} (r1 : R1) (r2 : R2) c1 c2 :
  same_source r1 r2 -> same_container r1 r2 c1 c2 -> volume_superblock_addrs c1 = volume_superblock_addrs c2.
Proof.
  intros Hs (H1 & H2 & Hsb & _). unfold volume_superblock_addrs. rewrite H1, H2, Hsb. clear H1 H2 Hsb. generalize (ac_superblock c2). intros sb.
  destruct (negb _); [reflexivity|]. rewrite (Hsame r1 r2 Hs). destruct (read_at r2 _ _) as [buf| |]; cbn [mbind outcome_bind]; [|reflexivity..].
  destruct (ObjectMap_parse buf) as [om| |]; cbn [mbind outcome_bind]; [|reflexivity..].
  apply same_fold. intros addrs oid. by rewrite (same_omap_resolve r1 r2 Hs).
Qed.

(** Sources that never refuse a seek and read alike. *)
Lemma seeking_source {R1 R2} `{ReadSeek R1} `{ReadSeek R2} (r1 : R1) (r2 : R2) :
  (forall off, exists a, seek_start r1 off = inr a) -> (forall off, exists b, seek_start r2 off = inr b) ->
  (forall off n, read_at r1 off n = read_at r2 off n) -> same_source r1 r2.
Proof.
  intros H1 H2 Hr off. destruct (H1 off) as [a Ha], (H2 off) as [b Hb]. rewrite Ha, Hb. intros n. specialize (Hr off n).
  unfold read_at in Hr. rewrite Ha, Hb in Hr. destruct (read_exact a n), (read_exact b n); congruence.
Qed.

(** A decoded volume stays decoded. *)
Lemma repr_ext (f g : Z -> result (option node)) select t : (forall a, f a = g a) -> repr f select t -> repr g select t.
Proof.
  intros Hfg. induction t as [a|a es|a es ts IH] using tree_rect'; inversion_clear 1 as [? Hf|? ? Hf|? ? ? Hf Hm Hts]; rewrite Hfg in Hf; constructor; try done.
  rewrite Forall_forall in IH, Hts |- *. intros t Hin. by apply IH, Hts.
Qed.

Lemma same_volume_tree {R1 R2} `{ReadSeek R1} `{ReadSeek R2} `{XtsCipher} (r1 : R1) (r2 : R2) volume bs t :
  same_source r1 r2 -> volume_tree r1 volume bs t -> volume_tree r2 volume bs t.
Proof.
  intros Hs (om & Ho & [Hr Hh Hn Hf] & Ha). exists om. rewrite <-(same_volume_omap r1 r2 Hs). split; [done|]. split; [|done]. split; try done.
  eapply repr_ext; [|exact Hr]. intros a. unfold virt_node. by rewrite (same_virtual_node r1 r2 Hs).
Qed.

(** What the reader says depends on the source through its reads alone.  Over two sources of any kind that answer every seek and read alike, a
    container opens alike, with the same superblock, checkpoint and volume addresses or the same error; and in any volume paths open alike, directories,
    extents and attributes list alike, files and forks read alike, compressed or not, and snapshots list, resolve and mount alike: the same
    values, and the same errors. *)
Theorem source_reads {R1 R2} `{ReadSeek R1} `{ReadSeek R2} `{XtsCipher} `{DecmpfsFormat} `{Codecs} (r1 : R1) (r2 : R2) (volume : ApfsVolume) (block_size : Z) :
  same_source r1 r2 ->
  (forall prof, match ApfsContainer_open prof r1, ApfsContainer_open prof r2 with
                | Ok c1, Ok c2 => same_container r1 r2 c1 c2 /\ volume_superblock_addrs c1 = volume_superblock_addrs c2
                | Err e1, Err e2 => e1 = e2
                | Panic, Panic => True
                | _, _ => False
                end) /\
  (forall path, open_path r1 volume path block_size = open_path r2 volume path block_size) /\
  (forall oid, list_dir r1 volume oid block_size = list_dir r2 volume oid block_size /\
               list_extents r1 volume oid block_size = list_extents r2 volume oid block_size /\
               list_xattrs r1 volume oid block_size = list_xattrs r2 volume oid block_size /\
               resource_fork r1 volume oid block_size = resource_fork r2 volume oid block_size) /\
  (forall inode, read_data r1 volume inode block_size = read_data r2 volume inode block_size) /\
  list_snapshots r1 volume block_size = list_snapshots r2 volume block_size /\
  (forall name, resolve_snapshot_xid r1 volume name block_size = resolve_snapshot_xid r2 volume name block_size) /\
  (forall live s, mount_snapshot r1 live s block_size = mount_snapshot r2 live s block_size).
Proof.
  intros Hs. split_and!.
  - intros prof. pose proof (same_open r1 r2 Hs prof) as Ho.
    destruct (ApfsContainer_open prof r1) as [c1| |], (ApfsContainer_open prof r2) as [c2| |]; try done. split; [done|by apply (same_addrs r1 r2)].
  - by apply same_open_path.
  - intros oid. split_and!; [by apply same_list_dir|by apply same_list_extents|by apply same_list_xattrs|by apply same_resource_fork].
  - by apply same_read_data.
  - by apply same_list_snapshots.
  - by apply same_resolve_snapshot.
  - by apply same_mount_snapshot.
Qed.
