(* ===== verification/DemoVolume.v ===== *)
(** A small volume, on which the theorems about volumes are instantiated: blocks of 320 bytes, an object map of one
    leaf, and a file-system tree of an index node over two leaves that hold the root directory
    with one entry and the inode of that file. *)

From S2P Require Import Prelude Bytes Errors Reader Object Walk BTree NodeLayout Omap FsRecord Encryption Volume Inode Dir Extent Xattr Compression Snapshot.

Definition demo_bs : Z := 320.

(** A checksummed node filled up to the block size. *)
Definition demo_node_of (bs flags level : Z) (es : list Entry) : bytes :=
  let footer := if negb (Z.land flags BTNODE_ROOT =? 0) then replicate 40 x00 else [] in
  let used := length (encode_node (replicate 32 x00) flags level es 0 footer) in
  stamp (encode_node (replicate 32 x00) flags level es (Z.to_nat bs - used) footer).
Definition demo_node : Z -> Z -> list Entry -> bytes := demo_node_of demo_bs.

Definition jkey_bytes (ty oid : Z) : bytes := to_le_bytes 8 (encode_jkey ty oid).

Definition demo_root_inode : Inode :=
  {| ino_oid := 2; ino_parent_id := 1; ino_private_id := 2; ino_create_time := 1; ino_mod_time := 1;
     ino_change_time := 1; ino_access_time := 1; ino_internal_flags := 0; ino_nlink_or_nchildren := 1;
     ino_bsd_flags := 0; ino_uid := 0; ino_gid := 0; ino_mode := 0x41ed; ino_name := None; ino_size := None |}.

Definition demo_name : bytes := [x61; x2e; x74].

Definition rec_root_inode : Entry := {| key := jkey_bytes 3 2; value := encode_inode demo_root_inode |}.
Definition rec_dirent : Entry :=
  {| key := hashed_drec_key (encode_jkey 9 2) 7 demo_name;
     value := to_le_bytes 8 18 ++ to_le_bytes 8 5 ++ to_le_bytes 2 8 |}.
Definition rec_file_inode : Entry := {| key := jkey_bytes 3 18; value := encode_inode demo_inode |}.
Definition rec_extent : Entry :=
  {| key := jkey_bytes 8 19 ++ to_le_bytes 8 0;
     value := to_le_bytes 8 640 ++ to_le_bytes 8 5 ++ to_le_bytes 8 0 |}.

Definition rec_symlink : Entry :=
  {| key := xattr_key (encode_jkey 4 18) XATTR_NAME_SYMLINK; value := xattr_embedded 6 [x62; x2f; x63; x00] |}.

Definition fs_leaf1 : list Entry := [rec_root_inode; rec_dirent].
Definition fs_leaf2 : list Entry := [rec_file_inode; rec_symlink; rec_extent].
Definition fs_seps : list Entry :=
  [ {| key := jkey_bytes 3 2; value := to_le_bytes 8 1025 |};
    {| key := jkey_bytes 3 18; value := to_le_bytes 8 1026 |} ].

Definition demo_volume_omap : bytes :=
  stamp (put (put (replicate 320 x00) 24 (to_le_bytes 4 OBJECT_TYPE_OMAP)) OFF_OM_TREE_OID (to_le_bytes 8 1)).

Definition demo_volume_image : bytes :=
  demo_volume_omap ++
  demo_node 3 0 [omap_kv 1024 4 0 320 2; omap_kv 1025 4 0 320 3; omap_kv 1026 4 0 320 4] ++
  demo_node 1 1 fs_seps ++ demo_node 2 0 fs_leaf1 ++ demo_node 2 0 fs_leaf2 ++
  replicate 640 x5a.

Definition demo_volume : ApfsVolume :=
  {| vol_oid := 0; vol_xid := 9; vol_fs_index := 0; vol_features := 0; vol_readonly_compatible_features := 0;
     vol_incompatible_features := 0; vol_root_tree_type := 2; vol_omap_oid := 0; vol_root_tree_oid := 1024;
     vol_extentref_tree_oid := 0; vol_snap_meta_tree_oid := 0; vol_uuid := replicate 16 x00;
     vol_fs_flags := 0; vol_name := []; vol_vek := None |}.

Definition demo_volume_tree : tree := TNode 1024 fs_seps [TLeaf 1025 fs_leaf1; TLeaf 1026 fs_leaf2].

Definition demo_reader : cursor := image demo_volume_image.

Definition demo_fs_omap : ObjectMap :=
  {| om_flags := 0; om_tree_type := 0; om_tree_oid := 1; om_snapshot_tree_oid := 0 |}.

Lemma demo_is_volume_tree : volume_tree demo_reader demo_volume demo_bs demo_volume_tree.
Proof.
  exists demo_fs_omap. split_and!; [vm_compute; reflexivity| |reflexivity]. split.
  - apply repr_node; [vm_compute; reflexivity|vm_compute; reflexivity|].
    repeat constructor; vm_compute; reflexivity.
  - cbn. unfold MAX_FSTREE_DEPTH. lia.
  - apply (bool_decide_unpack _). vm_compute. exact I.
  - intros x _. apply not_elem_of_empty.
Qed.

Lemma demo_oid_ordered : oid_ordered demo_volume_tree.
Proof.
  split; [|by cbn]. cbn [oid_separated fs_seps leaf_entries head]. split_and!; try done.
  - repeat constructor; vm_compute; discriminate.
  - intros e' [= <-]. repeat constructor; vm_compute; discriminate.
  - repeat constructor; vm_compute; discriminate.
Qed.

Lemma keyed_walk_equiv_witness :
  (walk_fs_tree demo_reader demo_volume demo_bs None (list_dir_visit 2) []).2 = Ok tt.
Proof.
  exact (proj2 (keyed_walk_equiv demo_reader demo_volume demo_bs 2 (list_dir_visit 2) []
    demo_volume_tree demo_is_volume_tree demo_oid_ordered (keyed_collects _ _ _ _ (list_dir_collects 2)))).
Defined.

Lemma list_dir_spec_witness :
  list_dir demo_reader demo_volume 2 demo_bs =
    Ok [{| de_name := demo_name; de_file_id := 18; de_date_added := 5; de_flags := 8 |}].
Proof.
  rewrite (list_dir_spec demo_reader demo_volume demo_bs 2 demo_volume_tree
    demo_is_volume_tree demo_oid_ordered). vm_compute. reflexivity.
Defined.

Lemma lookup_child_agrees_with_list_dir_witness :
  exists entries, lookup_child demo_reader demo_volume 2 demo_name demo_bs = Ok (find_name demo_name entries).
Proof.
  destruct (lookup_child_agrees_with_list_dir demo_reader demo_volume demo_bs 2 demo_name demo_volume_tree
    demo_is_volume_tree demo_oid_ordered) as (entries & _ & Hl & _).
  exists entries. exact Hl.
Defined.

(** [//a.t/]: the file's inode. *)
Lemma open_path_spec_witness :
  open_path demo_reader demo_volume ([x2f; x2f] ++ demo_name ++ [x2f]) demo_bs = Ok demo_inode.
Proof.
  rewrite (open_path_spec demo_reader demo_volume demo_bs ([x2f; x2f] ++ demo_name ++ [x2f]) demo_volume_tree
    demo_is_volume_tree demo_oid_ordered). vm_compute. reflexivity.
Defined.

Definition demo_extents : list FileExtent :=
  [ {| fe_logical_offset := 0; fe_len := 640; fe_phys_block_num := 5; fe_crypto_id := 0 |} ].

Lemma demo_list_extents : list_extents demo_reader demo_volume 19 demo_bs = Ok demo_extents.
Proof.
  rewrite (list_extents_tree demo_reader demo_volume 19 demo_bs demo_volume_tree demo_is_volume_tree demo_oid_ordered).
  vm_compute. reflexivity.
Qed.

Lemma demo_read_stream : read_stream demo_reader demo_volume 19 4 demo_bs = Ok [x5a; x5a; x5a; x5a].
Proof. unfold read_stream. rewrite demo_list_extents. vm_compute. reflexivity. Qed.

Lemma read_stream_length_witness :
  blen [x5a; x5a; x5a; x5a] = 4 /\ 4 <= 2 ^ 34.
Proof.
  exact (proj1 (read_stream_length demo_reader demo_volume 19 4 demo_bs ltac:(lia) ltac:(unfold demo_bs; lia))
           _ demo_read_stream).
Defined.

Lemma read_stream_content_witness :
  get_index [x5a; x5a; x5a; x5a] 3 = stream_byte demo_reader None demo_bs demo_extents 3.
Proof.
  apply (read_stream_content demo_reader demo_volume 19 4 demo_bs demo_extents [x5a; x5a; x5a; x5a]).
  - lia.
  - unfold demo_bs; lia.
  - exact demo_list_extents.
  - exact demo_read_stream.
  - lia.
Defined.

Lemma get_xattr_spec_witness :
  symlink_target demo_reader demo_volume 18 demo_bs = Ok (Some [x62; x2f; x63]).
Proof.
  rewrite (proj2 (get_xattr_spec demo_reader demo_volume 18 XATTR_NAME_SYMLINK demo_bs demo_volume_tree
    demo_is_volume_tree demo_oid_ordered)). vm_compute. reflexivity.
Defined.

(** ** Compression *)

(** The format constants as documented; codecs that accept nothing. *)
Definition demo_format : DecmpfsFormat :=
  {| HEADER_LEN := 16; DECMPFS_MAGIC := 0x636d7066; COMPRESSION_TYPE_OFFSET := 4; UNCOMPRESSED_SIZE_OFFSET := 8;
     CHUNK_SIZE := 65536;
     classify_type ty := if ty =? 1 then Some (Uncompressed, Inline) else if ty =? 10 then Some (Uncompressed, ResourceFork) else None |}.
Definition demo_codecs : Codecs :=
  {| zlib_read_to_end _ := Err tt; lzvn_decode_bytes _ _ := Err tt; lzfse_decode_bytes _ := Err tt |}.
#[export] Instance demo_codecs_return : @CodecsReturn demo_codecs.
Proof. by split. Qed.

Definition demo_content : bytes := replicate 640 x5a ++ replicate 3457 x00.

Lemma demo_read_data :
  @read_data demo_format demo_codecs _ _ _ demo_reader demo_volume demo_inode demo_bs = Ok demo_content.
Proof. vm_compute. reflexivity. Qed.

Lemma read_data_whole_witness :
  decmpfs_header demo_reader demo_volume (ino_oid demo_inode) demo_bs = Ok None /\ blen demo_content = 4097.
Proof.
  destruct (@read_data_whole demo_format demo_codecs _ _ _ demo_reader demo_volume demo_inode demo_bs demo_content
    ltac:(unfold demo_bs; lia) ltac:(intros z [= <-]; lia) demo_read_data) as [(h & Hh & _)|[Hh Hl]].
  - exfalso. vm_compute in Hh. discriminate Hh.
  - split; [exact Hh|exact Hl].
Defined.

Lemma chunked_fork_roundtrip_witness :
  @decode_chunked_resource_fork demo_format demo_codecs Uncompressed
    (encode_chunked (map snd [([x61; x62], [x61; x62])]) 2) 2 = Ok [x61; x62].
Proof.
  apply (@chunked_fork_roundtrip demo_format demo_codecs Uncompressed [([x61; x62], [x61; x62])] 2).
  - intros l p c r He. destruct l as [|? [|]]; [|discriminate He..]. injection He as <- <- <-.
    vm_compute. split; [reflexivity|split; reflexivity].
  - vm_compute. reflexivity.
Defined.

(** ** Snapshots *)

Definition with_snap_root (v : ApfsVolume) (root : Z) : ApfsVolume :=
  {| vol_oid := vol_oid v; vol_xid := vol_xid v; vol_fs_index := vol_fs_index v; vol_features := vol_features v;
     vol_readonly_compatible_features := vol_readonly_compatible_features v;
     vol_incompatible_features := vol_incompatible_features v; vol_root_tree_type := vol_root_tree_type v;
     vol_omap_oid := vol_omap_oid v; vol_root_tree_oid := vol_root_tree_oid v;
     vol_extentref_tree_oid := vol_extentref_tree_oid v; vol_snap_meta_tree_oid := root; vol_uuid := vol_uuid v;
     vol_fs_flags := vol_fs_flags v; vol_name := vol_name v; vol_vek := vol_vek v |}.

Definition rec_snap (xid sblock : Z) (name : bytes) : Entry :=
  {| key := jkey_bytes 1 xid;
     value := to_le_bytes 8 0 ++ to_le_bytes 8 sblock ++ replicate 32 x00 ++ to_le_bytes 2 (blen name + 1) ++ name ++ [x00] |}.
Definition rec_snap_name (xid : Z) (name : bytes) : Entry :=
  {| key := jkey_bytes 11 0x0fffffffffffffff ++ to_le_bytes 2 (blen name + 1) ++ name ++ [x00];
     value := to_le_bytes 8 xid |}.

Definition snap_leaf1 : list Entry := [rec_snap 7 40 [x62]; rec_snap 5 30 [x61]].
Definition snap_leaf2 : list Entry := [rec_snap_name 5 [x61]; rec_snap_name 7 [x62]].
Definition snap_seps : list Entry :=
  [ {| key := jkey_bytes 1 5; value := to_le_bytes 8 1030 |};
    {| key := jkey_bytes 11 0x0fffffffffffffff; value := to_le_bytes 8 1031 |} ].

(** Block 2 is the root of the tree above; block 5 that of one whose only child has the virtual id 5. *)
Definition demo_snap_reader : cursor := image (
  demo_volume_omap ++
  demo_node 3 0 [omap_kv 5 4 0 320 3; omap_kv 1030 4 0 320 3; omap_kv 1031 4 0 320 4] ++
  demo_node 1 1 snap_seps ++ demo_node 2 0 snap_leaf1 ++ demo_node 2 0 snap_leaf2 ++
  demo_node 1 1 [ {| key := jkey_bytes 1 5; value := to_le_bytes 8 5 |} ]).

Definition demo_snap_tree : tree := TNode 2 snap_seps [TLeaf 1030 snap_leaf1; TLeaf 1031 snap_leaf2].

Lemma demo_is_snap_tree : snap_tree demo_snap_reader (with_snap_root demo_volume 2) demo_bs demo_snap_tree.
Proof.
  exists demo_fs_omap. split_and!; [vm_compute; reflexivity| |reflexivity]. split.
  - apply repr_node; [vm_compute; reflexivity|vm_compute; reflexivity|].
    repeat constructor; vm_compute; reflexivity.
  - cbn. unfold MAX_SNAP_TREE_DEPTH. lia.
  - apply (bool_decide_unpack _). vm_compute. exact I.
  - intros x _. apply not_elem_of_empty.
Qed.

(** The two snapshots, in transaction order although the leaf has them in the other. *)
Example demo_list_snapshots :
  match list_snapshots demo_snap_reader (with_snap_root demo_volume 2) demo_bs with
  | Ok l => map sn_xid l = [5; 7]
  | _ => False
  end.
Proof. vm_compute. reflexivity. Qed.

Lemma resolve_snapshot_xid_spec_witness :
  resolve_snapshot_xid demo_snap_reader (with_snap_root demo_volume 2) [x62] demo_bs = Ok (Some 7).
Proof.
  rewrite (resolve_snapshot_xid_spec demo_snap_reader (with_snap_root demo_volume 2) demo_bs [x62] demo_snap_tree
    demo_is_snap_tree). vm_compute. reflexivity.
Defined.

(** The colliding id is one the object map resolves, to a leaf other than the root. *)
Lemma snap_root_address_collides_witness :
  list_snapshots demo_snap_reader (with_snap_root demo_volume 5) demo_bs = Err (CycleGuard 64) /\
  (exists e, omap_resolve demo_fs_omap demo_snap_reader 5 9 demo_bs = Ok e /\ oe_paddr e = 3).
Proof.
  split.
  - apply (snap_root_address_collides demo_snap_reader (with_snap_root demo_volume 5) demo_bs demo_fs_omap
      (demo_node 1 1 [ {| key := jkey_bytes 1 5; value := to_le_bytes 8 5 |} ])
      [ {| key := jkey_bytes 1 5; value := to_le_bytes 8 5 |} ] []); vm_compute; reflexivity.
  - eexists. split; [vm_compute; reflexivity|reflexivity].
Defined.

(** A frozen superblock (transaction 5, root 1024) under an object map with mappings before and after it. *)
Definition frozen_block : bytes :=
  stamp (put (put (put (put (replicate 1024 x00) 16 (to_le_bytes 8 5)) 24 (to_le_bytes 4 OBJECT_TYPE_FS))
    APSB_OFF_MAGIC (to_le_bytes 4 APFS_MAGIC)) APSB_OFF_ROOT_TREE_OID (to_le_bytes 8 1024)).
Definition mount_kvs : list Entry := [omap_kv 1024 4 0 1024 7; omap_kv 1024 6 0 1024 8].
Definition mount_reader : cursor := image (
  stamp (put (put (replicate 1024 x00) 24 (to_le_bytes 4 OBJECT_TYPE_OMAP)) OFF_OM_TREE_OID (to_le_bytes 8 1)) ++
  demo_node_of 1024 3 0 mount_kvs ++ frozen_block).
Definition mount_record : Snapshot :=
  {| sn_xid := 5; sn_name := [x61]; sn_create_time := 0; sn_change_time := 0; sn_sblock_oid := 2;
     sn_extentref_tree_oid := 0; sn_inum := 0; sn_flags := 0 |}.
Definition mounted_volume : ApfsVolume :=
  {| vol_oid := 0; vol_xid := 5; vol_fs_index := 0; vol_features := 0; vol_readonly_compatible_features := 0;
     vol_incompatible_features := 0; vol_root_tree_type := 0; vol_omap_oid := 0; vol_root_tree_oid := 1024;
     vol_extentref_tree_oid := 0; vol_snap_meta_tree_oid := 0; vol_uuid := replicate 16 x00;
     vol_fs_flags := 0; vol_name := []; vol_vek := None |}.

Lemma mount_snapshot_spec_witness :
  mount_snapshot mount_reader demo_volume mount_record 1024 = Ok mounted_volume /\
  read_volume_omap mount_reader mounted_volume 1024 = Ok demo_fs_omap.
Proof.
  assert (mount_snapshot mount_reader demo_volume mount_record 1024 = Ok mounted_volume) as Hm
    by (vm_compute; reflexivity).
  destruct (mount_snapshot_spec mount_reader 1024 demo_volume mounted_volume mount_record demo_fs_omap
    (TLeaf 1 mount_kvs)) as (buf & _ & _ & _ & _ & Ho & _).
  - exact Hm.
  - vm_compute; reflexivity.
  - split; [apply repr_leaf; vm_compute; reflexivity|unfold MAX_BTREE_DEPTH; cbn; lia|apply NoDup_singleton|].
    intros x _. apply not_elem_of_empty.
  - reflexivity.
  - constructor.
  - split; [exact Hm|exact Ho].
Defined.
