(* ===== verification/View.v ===== *)
(** What the reads of a volume depend on.

    Every operation on a volume goes through [walk_fs_tree], and a walk sees a source only through the nodes it fetches.  Two views
    (a source and a volume on it) are equivalent when they fetch the same nodes from the same root, as far as a walk can reach; then every
    listing, lookup, path and attribute is the same, errors included.  File content also depends on the blocks of the
    extents: [same_data].  [Locked] uses this to say that decryption is transparent, [History] that a snapshot is
    not changed by later writes. *)

From S2P Require Import Prelude Bytes Errors Reader Object Walk BTree Omap FsRecord Encryption Volume Inode Dir Extent Xattr Compression.

(** ** Walks over nodes that agree *)

(** What a walk from [root] may come to. *)
Inductive reachable (fetch : Z -> result (option node)) (root : Z) : Z -> Prop :=
| reach_root : reachable fetch root root
| reach_child a es c :
    reachable fetch root a -> fetch a = Ok (Some (NIndex es)) -> c ∈ child_addrs es -> reachable fetch root c.

(** [f1] and [f2] fetch the same node wherever [f1] comes to. *)
Definition fetch_agree (root : Z) (f1 f2 : Z -> result (option node)) : Prop :=
  forall a, reachable f1 root a -> f1 a = f2 a.

Lemma reachable_agree root f1 f2 a : fetch_agree root f1 f2 -> reachable f2 root a -> reachable f1 root a.
Proof.
  intros Hf. induction 1 as [|a es c _ IH He Hc]; [constructor|].
  eapply reach_child; [exact IH| |exact Hc]. by rewrite Hf.
Qed.

#[export] Instance fetch_agree_equivalence root : Equivalence (fetch_agree root).
Proof.
  split.
  - by intros f a _.
  - intros f1 f2 H12 a Ha. symmetry. apply H12. by eapply reachable_agree.
  - intros f1 f2 f3 H12 H23 a Ha. rewrite (H12 a Ha). apply H23.
    clear -Ha H12. induction Ha as [|a es c Ha IH He Hc]; [constructor|].
    eapply reach_child; [exact IH| |exact Hc]. by rewrite <-(H12 _ Ha).
Qed.

(** A root that is a leaf. *)
Lemma leaf_reachable fetch root es a : fetch root = Ok (Some (NLeaf es)) -> reachable fetch root a -> a = root.
Proof. intros Hl. induction 1 as [|a es' c _ -> He _]; [done|congruence]. Qed.

Section Agree.
Context {St : Type} (select : list Entry -> list Z) (visit : bytes -> bytes -> St -> St) (guard : ApfsError).
Context (Hselect : forall es c, c ∈ select es -> c ∈ child_addrs es).

(** A walk is a function of the nodes it can reach. *)
Lemma gwalk_agree root f1 f2 b : forall a s,
  fetch_agree root f1 f2 -> reachable f1 root a ->
  gwalk f1 select visit guard b a s = gwalk f2 select visit guard b a s.
Proof.
  intros a s Hf. revert a s; induction b as [|b IH]; intros a s Ha; [done|].
  rewrite !gwalk_S, <-(Hf a Ha). destruct (decide (a ∈ s.1)); [done|]. cbn zeta.
  destruct (f1 a) as [[[es|es]|]| |] eqn:Hn; try done.
  assert (Forall (reachable f1 root) (select es)) as Hcs.
  { apply Forall_forall. intros c Hc. eapply reach_child; [exact Ha|exact Hn|by apply Hselect]. }
  generalize (visited_by visit s [a] []). induction Hcs as [|c cs Hc _ IHcs]; intros s1; [done|].
  rewrite !for_each_cons, (IH c s1 Hc). by destruct (gwalk f2 _ _ _ b c s1) as [s2 [| |]].
Qed.
End Agree.

Lemma selected_children_subset target es c : c ∈ selected_children target es -> c ∈ child_addrs es.
Proof.
  induction es as [|e es IH]; [done|]. cbn [selected_children]. unfold child_addrs. cbn [fmap list_fmap].
  destruct (match target with Some _ => _ | None => _ end); [intros Hc; right; by apply IH|].
  intros [->|Hc]%elem_of_cons; [by left|right; by apply IH].
Qed.

(** An extent of a listing comes from a record of the tree. *)
Lemma list_extents_record `{XtsCipher} {R} `{ReadSeek R} (reader : R) volume stream bs t exts x :
  volume_tree reader volume bs t -> oid_ordered t -> list_extents reader volume stream bs = Ok exts -> x ∈ exts ->
  exists e, e ∈ leaf_entries t /\ extent_record stream e = Some x.
Proof.
  intros Ht Ho. rewrite (list_extents_tree reader volume stream bs t Ht Ho). generalize (leaf_entries t) as es.
  intros es [= <-]. rewrite sort_by_key_perm. apply list_elem_of_omap.
Qed.

(** ** Views *)

(** A volume, and the source it is read from. *)
Record view (R : Type) := View { vw_reader : R; vw_volume : ApfsVolume }.
Arguments View {R} _ _.
Arguments vw_reader {R} _.
Arguments vw_volume {R} _.

Section Views.
Context {R} `{ReadSeek R} `{XtsCipher} (block_size : Z).
Implicit Types w : view R.

Definition view_omap w : result ObjectMap := read_volume_omap (vw_reader w) (vw_volume w) block_size.
Definition view_node w (omap : ObjectMap) : Z -> result (option node) :=
  virt_node (vw_reader w) (vw_volume w) block_size omap.
Definition view_root w : Z := vol_root_tree_oid (vw_volume w).

(** The object maps are both read, and lead to the same nodes; or neither is, for one reason. *)
Definition same_nodes w1 w2 : Prop :=
  match view_omap w1, view_omap w2 with
  | Ok om1, Ok om2 => fetch_agree (view_root w1) (view_node w1 om1) (view_node w2 om2)
  | Err e1, Err e2 => e1 = e2
  | Panic, Panic => True
  | _, _ => False
  end.

(** The same transaction, the same root and the same nodes. *)
Record view_equiv w1 w2 : Prop := {
  ve_root : view_root w1 = view_root w2;
  ve_xid : vol_xid (vw_volume w1) = vol_xid (vw_volume w2);
  ve_nodes : same_nodes w1 w2;
}.

#[export] Instance view_equiv_equivalence : Equivalence view_equiv.
Proof.
  unfold same_nodes. split.
  - intros w. split; [done|done|]. unfold same_nodes. by destruct (view_omap w).
  - intros w1 w2 [Hr Hx Hn]. split; [done|done|]. unfold same_nodes in *. rewrite <-Hr.
    destruct (view_omap w1), (view_omap w2); try done; by symmetry.
  - intros w1 w2 w3 [Hr Hx Hn] [Hr' Hx' Hn']. split; [congruence|congruence|]. unfold same_nodes in *. rewrite <-Hr in Hn'.
    destruct (view_omap w1), (view_omap w2), (view_omap w3); try done; by etransitivity.
Qed.

Definition view_walk {St} (target : option Z) (visit : bytes -> bytes -> St -> St) (st : St) w : St * result unit :=
  walk_fs_tree (vw_reader w) (vw_volume w) block_size target visit st.

(** Every walk respects the equivalence. *)
#[export] Instance view_walk_proper {St} target (visit : bytes -> bytes -> St -> St) st :
  Proper (view_equiv ==> eq) (view_walk target visit st).
Proof.
  intros w1 w2 [Hr Hx Hn]. unfold view_walk, walk_fs_tree, same_nodes, view_omap in *.
  destruct (read_volume_omap (vw_reader w1) _ _) as [om1| |], (read_volume_omap (vw_reader w2) _ _) as [om2| |]; try done.
  - rewrite !descend_virtual_gwalk. fold (view_root w1) (view_root w2). rewrite <-Hr.
    by rewrite (gwalk_agree _ visit fstree_cycle (selected_children_subset target) (view_root w1) _ _ MAX_FSTREE_DEPTH
      (view_root w1) (∅, st) Hn (reach_root _ _)).
  - by rewrite Hn.
Qed.

(** The operations of dir.rs, extent.rs and xattr.rs on a view. *)
Definition view_list_dir (parent : Z) w := list_dir (vw_reader w) (vw_volume w) parent block_size.
Definition view_lookup (parent : Z) (name : bytes) w := lookup_child (vw_reader w) (vw_volume w) parent name block_size.
Definition view_inode (oid : Z) w := load_inode (vw_reader w) (vw_volume w) oid block_size.
Definition view_open (path : bytes) w := open_path (vw_reader w) (vw_volume w) path block_size.
Definition view_extents (stream : Z) w := list_extents (vw_reader w) (vw_volume w) stream block_size.
Definition view_xattrs (oid : Z) w := list_xattrs (vw_reader w) (vw_volume w) oid block_size.
Definition view_symlink (oid : Z) w := symlink_target (vw_reader w) (vw_volume w) oid block_size.
Definition view_stream (stream size : Z) w := read_stream (vw_reader w) (vw_volume w) stream size block_size.

#[export] Instance view_list_dir_proper parent : Proper (view_equiv ==> eq) (view_list_dir parent).
Proof.
  intros w1 w2 Hw. unfold view_list_dir, list_dir, for_each_fs_record_for_oid.
  by rewrite (view_walk_proper (Some parent) (list_dir_visit parent) [] w1 w2 Hw : walk_fs_tree _ _ _ _ _ _ = _).
Qed.

#[export] Instance view_lookup_proper parent name : Proper (view_equiv ==> eq) (view_lookup parent name).
Proof.
  intros w1 w2 Hw. unfold view_lookup, lookup_child, for_each_fs_record_for_oid.
  by rewrite (view_walk_proper (Some parent) (lookup_visit parent name) None w1 w2 Hw : walk_fs_tree _ _ _ _ _ _ = _).
Qed.

#[export] Instance view_inode_proper oid : Proper (view_equiv ==> eq) (view_inode oid).
Proof.
  intros w1 w2 Hw. unfold view_inode, load_inode, for_each_fs_record_for_oid. rewrite (ve_xid _ _ Hw).
  by rewrite (view_walk_proper (Some oid) (load_visit oid) None w1 w2 Hw : walk_fs_tree _ _ _ _ _ _ = _).
Qed.

#[export] Instance view_open_proper path : Proper (view_equiv ==> eq) (view_open path).
Proof.
  intros w1 w2 Hw. unfold view_open, open_path. rewrite <-(ve_xid _ _ Hw). generalize (components path) as names, ROOT_DIR_INO_NUM as current.
  induction names as [|name names IH]; intros current; cbn [fold_res].
  - cbn [mbind outcome_bind]. exact (view_inode_proper current w1 w2 Hw).
  - pose proof (view_lookup_proper current name w1 w2 Hw) as Hl. unfold view_lookup in Hl. rewrite Hl.
    destruct (lookup_child (vw_reader w2) (vw_volume w2) current name block_size) as [[child|]| |]; cbn [mbind outcome_bind].
    { exact (IH child). }
    all: reflexivity.
Qed.

#[export] Instance view_extents_proper stream : Proper (view_equiv ==> eq) (view_extents stream).
Proof.
  intros w1 w2 Hw. unfold view_extents, list_extents, for_each_fs_record_for_oid.
  by rewrite (view_walk_proper (Some stream) (extent_visit stream) [] w1 w2 Hw : walk_fs_tree _ _ _ _ _ _ = _).
Qed.

#[export] Instance view_xattrs_proper oid : Proper (view_equiv ==> eq) (view_xattrs oid).
Proof.
  intros w1 w2 Hw. unfold view_xattrs, list_xattrs, for_each_fs_record_for_oid.
  by rewrite (view_walk_proper (Some oid) (xattr_visit oid) [] w1 w2 Hw : walk_fs_tree _ _ _ _ _ _ = _).
Qed.

Lemma get_xattr_equiv oid name w1 w2 :
  view_equiv w1 w2 ->
  get_xattr (vw_reader w1) (vw_volume w1) oid name block_size = get_xattr (vw_reader w2) (vw_volume w2) oid name block_size.
Proof. intros Hw. unfold get_xattr. by rewrite (view_xattrs_proper oid w1 w2 Hw : list_xattrs _ _ _ _ = _). Qed.

#[export] Instance view_symlink_proper oid : Proper (view_equiv ==> eq) (view_symlink oid).
Proof. intros w1 w2 Hw. unfold view_symlink, symlink_target. by rewrite (get_xattr_equiv oid _ w1 w2 Hw). Qed.

(** ** Content *)

(** The extents of the stream are filled in alike, whatever the buffer. *)
Definition same_data w1 w2 (stream : Z) : Prop :=
  forall exts x size out, view_extents stream w1 = Ok exts -> x ∈ exts ->
    fill_extent (vw_reader w1) (vol_vek (vw_volume w1)) size block_size out x =
    fill_extent (vw_reader w2) (vol_vek (vw_volume w2)) size block_size out x.

Lemma view_stream_equiv stream size w1 w2 :
  view_equiv w1 w2 -> same_data w1 w2 stream -> view_stream stream size w1 = view_stream stream size w2.
Proof.
  intros Hw Hd. unfold view_stream, read_stream. destruct (_ <? _); [done|].
  change (list_extents (vw_reader w2) _ _ _) with (view_extents stream w2).
  change (list_extents (vw_reader w1) _ _ _) with (view_extents stream w1).
  rewrite <-(view_extents_proper stream w1 w2 Hw). pose proof Hd as Hfill. unfold same_data in Hfill.
  destruct (view_extents stream w1) as [exts| |]; [|done|done]. cbn [mbind outcome_bind].
  specialize (Hfill exts). assert (forall l out, (forall x, x ∈ l -> x ∈ exts) ->
    fold_res (fill_extent (vw_reader w1) (vol_vek (vw_volume w1)) size block_size) out l =
    fold_res (fill_extent (vw_reader w2) (vol_vek (vw_volume w2)) size block_size) out l) as Hl; [|by apply Hl].
  induction l as [|x l IH]; intros out Hin; cbn [fold_res]; [done|].
  rewrite (Hfill x size out eq_refl) by (apply Hin; by left).
  destruct (fill_extent _ _ _ _ _ _); [|done|done]. apply IH. intros y Hy. apply Hin. by right.
Qed.

(** The streams a file's content may come from: its own and that of its resource fork. *)
Definition same_content w1 w2 : Prop := forall stream, same_data w1 w2 stream.

Context `{DecmpfsFormat} `{Codecs}.
Definition view_data (inode : Inode) w := read_data (vw_reader w) (vw_volume w) inode block_size.

Lemma view_data_equiv inode w1 w2 :
  view_equiv w1 w2 -> same_content w1 w2 -> view_data inode w1 = view_data inode w2.
Proof.
  intros Hw Hd. unfold view_data, read_data, read_compressed, decmpfs_header, resource_fork.
  rewrite !(get_xattr_equiv (ino_oid inode) _ w1 w2 Hw).
  pose proof (fun stream size => view_stream_equiv stream size w1 w2 Hw (Hd stream)) as Hs. unfold view_stream in Hs.
  destruct (get_xattr _ _ _ XATTR_NAME_DECMPFS _) as [[[b|o z]|]| |]; cbn [mbind outcome_bind];
    [|rewrite Hs; reflexivity|rewrite Hs; reflexivity|reflexivity|reflexivity].
  destruct (cm_le_u32 b _) as [ty| |]; cbn [mbind outcome_bind]; [|reflexivity|reflexivity].
  destruct (match classify_type ty with Some _ => _ | None => _ end); cbn [mbind outcome_bind]; [|reflexivity].
  destruct (get_xattr _ _ _ XATTR_NAME_RESOURCE_FORK _) as [[[b'|o z]|]| |]; cbn [mbind outcome_bind];
    [reflexivity|rewrite Hs; reflexivity|reflexivity|reflexivity|reflexivity].
Qed.

(** One theorem's worth of reads: everything a caller can ask a view for. *)
Record reads_agree w1 w2 : Prop := {
  ra_list_dir : forall parent, view_list_dir parent w1 = view_list_dir parent w2;
  ra_lookup : forall parent name, view_lookup parent name w1 = view_lookup parent name w2;
  ra_inode : forall oid, view_inode oid w1 = view_inode oid w2;
  ra_open : forall path, view_open path w1 = view_open path w2;
  ra_extents : forall stream, view_extents stream w1 = view_extents stream w2;
  ra_xattrs : forall oid, view_xattrs oid w1 = view_xattrs oid w2;
  ra_symlink : forall oid, view_symlink oid w1 = view_symlink oid w2;
  ra_stream : forall stream size, view_stream stream size w1 = view_stream stream size w2;
  ra_data : forall inode, view_data inode w1 = view_data inode w2;
}.

Lemma views_reads_agree w1 w2 : view_equiv w1 w2 -> same_content w1 w2 -> reads_agree w1 w2.
Proof.
  intros Hw Hd. split; intros; try (rewrite Hw; reflexivity).
  - by apply view_stream_equiv.
  - by apply view_data_equiv.
Qed.
End Views.
