(* ===== verification/Locked.v ===== *)
(** Reading encrypted volumes: [set_vek] of volume.rs composed with the reads of dir.rs, xattr.rs and extent.rs.

    With its key an encrypted volume reads as the volume of its decrypted blocks ([decryption_transparent]); with no key, or a wrong one, nothing
    of it is read: the checksum of the root node stops every operation ([locked_volume_refused]). *)

From S2P Require Import Prelude Bytes Errors Reader Object Walk BTree NodeLayout Omap FsRecord Encryption Volume Inode Dir Extent Xattr Compression View DemoVolume.

(** ** With the key *)

Section Transparent.
Context `{XtsCipher} (c p : cursor) (v : ApfsVolume) (vek : bytes) (block_size : Z).

(** Block [n] of the encrypted image is block [n] of the plain one under [tweak]. *)
Definition block_deciphers (n tweak : Z) : Prop :=
  exists cb pb, get_range (cur_buf c) (n * block_size) (n * block_size + block_size) = Some cb /\
    get_range (cur_buf p) (n * block_size) (n * block_size + block_size) = Some pb /\
    decrypt_volume_area cb vek tweak block_size = Ok pb.

(** An extent with a tweak is deciphered block by block; one without is stored as it is. *)
Definition extent_deciphers (x : FileExtent) : Prop :=
  if fe_crypto_id x =? 0 then
    forall n, 0 <= n <= fe_len x ->
      read_at c (fe_phys_block_num x * block_size) n = read_at p (fe_phys_block_num x * block_size) n
  else
    forall i, 0 <= i -> i * block_size < fe_len x ->
      block_deciphers (fe_phys_block_num x + i) (saturating_add (fe_crypto_id x) i).

(** [p] is the image [c] with what [vek] encrypts of the volume deciphered: the object map is the same (it is not encrypted), the nodes its
    mappings flag are deciphered under their addresses, and the extents under their tweaks. *)
Record deciphered : Prop := {
  dc_len : blen (cur_buf c) = blen (cur_buf p);
  dc_omap : read_volume_omap c v block_size = read_volume_omap p v block_size;
  dc_resolve : forall om oid, read_volume_omap p v block_size = Ok om ->
    reachable (virt_node p v block_size om) (vol_root_tree_oid v) oid ->
    omap_resolve om c oid (vol_xid v) block_size = omap_resolve om p oid (vol_xid v) block_size;
  dc_node : forall om oid e, read_volume_omap p v block_size = Ok om ->
    reachable (virt_node p v block_size om) (vol_root_tree_oid v) oid ->
    omap_resolve om p oid (vol_xid v) block_size = Ok e ->
    read_at p (saturating_mul (oe_paddr e) block_size) block_size =
      (buf ← read_at c (saturating_mul (oe_paddr e) block_size) block_size;
       if negb (Z.land (oe_flags e) OMAP_VAL_ENCRYPTED =? 0)
       then decrypt_volume_area buf vek (oe_paddr e) block_size else Ok buf);
  dc_extent : forall stream exts x, list_extents p v stream block_size = Ok exts -> x ∈ exts -> extent_deciphers x;
}.

Context (Hbs : 0 < block_size) (Hv : vol_vek v = None).

Lemma deciphered_nodes om oid :
  deciphered -> read_volume_omap p v block_size = Ok om ->
  reachable (virt_node p v block_size om) (vol_root_tree_oid v) oid ->
  virt_node p v block_size om oid = virt_node c (set_vek v vek) block_size om oid.
Proof.
  intros D Ho Hr. unfold virt_node, read_virtual_node. cbn [set_vek vol_vek vol_xid]. rewrite Hv.
  rewrite (dc_resolve D _ _ Ho Hr). destruct (omap_resolve _ _ _ _ _) as [e| |] eqn:He; [|done|done]. cbn [mbind outcome_bind].
  rewrite (dc_node D _ _ _ Ho Hr He).
  destruct (read_at c _ _) as [buf| |]; [|done|done]. cbn [mbind outcome_bind].
  destruct (negb _); [|done]. destruct (decrypt_volume_area _ _ _ _); done.
Qed.

Lemma deciphered_view : deciphered -> view_equiv block_size (View p v) (View c (set_vek v vek)).
Proof.
  intros D. split; [done|done|]. unfold same_nodes, view_omap. cbn [vw_reader vw_volume].
  change (read_volume_omap c (set_vek v vek) block_size) with (read_volume_omap c v block_size). rewrite (dc_omap D).
  destruct (read_volume_omap p v block_size) as [om| |] eqn:Ho; [|done|done].
  intros oid Hr. by apply deciphered_nodes.
Qed.

(** A run of deciphered blocks, block by block. *)
Lemma decrypt_blocks_deciphered n : forall i b cid tmp,
  blen (cur_buf c) = blen (cur_buf p) ->
  (forall j, 0 <= j < Z.of_nat n -> block_deciphers (b + j) (saturating_add cid (i + j))) ->
  get_range (cur_buf c) (b * block_size) ((b + Z.of_nat n) * block_size) = Some tmp ->
  exists out, decrypt_blocks n i vek cid block_size tmp = Ok out /\
    get_range (cur_buf p) (b * block_size) ((b + Z.of_nat n) * block_size) = Some out.
Proof.
  induction n as [|n IH]; intros i b cid tmp Hl Hd Ht.
  { exists []. split; [done|]. rewrite Z.add_0_r in *. apply get_range_Some in Ht as ([] & ? & _).
    apply get_range_Some. split_and!; [lia..|by rewrite Z.sub_diag]. }
  destruct (Hd 0 ltac:(lia)) as (cb & pb & Hc & Hp & Hdec). rewrite !Z.add_0_r in *.
  apply get_range_len in Ht as Htl. apply get_range_len in Hc as Hcl.
  pose proof (get_range_prefix _ _ _ (b * block_size + block_size) _ Ht ltac:(nia)) as Ht1. rewrite Hc in Ht1.
  replace (b * block_size + block_size - b * block_size) with block_size in Ht1 by lia. injection Ht1 as Ht1.
  cbn [decrypt_blocks]. rewrite <-Ht1, Hdec. cbn [mbind outcome_bind].
  destruct (IH (i + 1) (b + 1) cid (drop (Z.to_nat block_size) tmp) Hl) as (out & -> & Hg).
  - intros j Hj. replace (b + 1 + j) with (b + (1 + j)) by lia. replace (i + 1 + j) with (i + (1 + j)) by lia. apply Hd. lia.
  - apply get_range_Some in Ht as ([] & ? & ->). apply get_range_Some. split_and!; [lia..|].
    rewrite skipn_firstn_comm, drop_drop. f_equal; [lia|]. f_equal. lia.
  - exists (pb ++ out). split; [done|]. eapply get_range_join; [exact Hp|]. rewrite <-Hg. f_equal; lia.
Qed.

Lemma deciphered_fill x size out :
  blen (cur_buf c) = blen (cur_buf p) -> extent_wf x -> extent_deciphers x ->
  fill_extent p None size block_size out x = fill_extent c (Some vek) size block_size out x.
Proof.
  intros Hl (Hlo & Hlen & Hph) Hd. unfold fill_extent. destruct (_ || _) eqn:Hg; [done|]. bool_cases.
  destruct (Z.eqb_spec block_size 0); [done|]. destruct (checked_mul _ _) as [off|] eqn:Ho; [|done].
  apply checked_mul_Some in Ho as [-> _]. cbn [ok_or mbind outcome_bind]. set (len := Z.min _ _).
  unfold extent_deciphers in Hd. destruct (fe_crypto_id x =? 0); cbn [negb].
  { rewrite Hd by lia. done. }
  assert (len <= fe_len x) by lia. pose proof (Z.div_mod (len + block_size - 1) block_size ltac:(lia)) as Hdm.
  pose proof (Z.mod_pos_bound (len + block_size - 1) block_size ltac:(lia)) as Hmb.
  assert (0 <= (len + block_size - 1) / block_size) as Hn by (apply Z.div_pos; lia).
  set (nb := (len + block_size - 1) / block_size) in *. clearbody nb. destruct (Z.eq_dec len 0) as [Hl0|Hl0].
  { assert (nb = 0) as -> by nia. rewrite Hl0, Z.mul_0_l, !read_at_cursor_0. done. }
  assert (0 < nb) by nia. rewrite !read_at_cursor by nia.
  destruct (get_range (cur_buf c) _ _) as [tmp|] eqn:Ht; cbn [mbind outcome_bind].
  - destruct (decrypt_blocks_deciphered (Z.to_nat nb) 0 (fe_phys_block_num x) (fe_crypto_id x) tmp Hl) as (dec & -> & Hp).
    + intros j Hj. apply Hd; nia.
    + rewrite <-Ht. f_equal. nia.
    + cbn [mbind outcome_bind]. rewrite (get_range_prefix _ _ _ (fe_phys_block_num x * block_size + len) _ Hp) by nia.
      cbn [mbind outcome_bind]. repeat f_equal. lia.
  - apply get_range_None in Ht; [|nia]. exfalso.
    destruct (Hd (nb - 1)) as (cb & pb & Hc & _ & _); [lia|nia|]. apply get_range_Some in Hc as (_ & Hc & _). nia.
Qed.

(** C9 (refinement): with its key set, an encrypted volume reads as the volume of its deciphered blocks: every listing, lookup, path, inode,
    attribute, link, extent list, stream and file is the one of the plain image, errors included. *)
Theorem decryption_transparent `{DecmpfsFormat} `{Codecs} :
  deciphered -> reads_agree block_size (View p v) (View c (set_vek v vek)).
Proof.
  intros D. apply views_reads_agree; [by apply deciphered_view|].
  intros stream exts x size out Hx Hin. cbn [vw_reader vw_volume set_vek vol_vek]. rewrite Hv.
  assert (extent_wf x) as Hwf.
  { unfold view_extents in Hx. apply list_extents_wf in Hx as [Hwf _]. rewrite Forall_forall in Hwf. exact (Hwf x Hin). }
  exact (deciphered_fill x size out (dc_len D) Hwf (dc_extent D stream exts x Hx Hin)).
Qed.
End Transparent.

(** ** Without it *)

Section Refused.
Context {R} `{ReadSeek R} `{XtsCipher} `{DecmpfsFormat} `{Codecs} (reader : R) (v : ApfsVolume) (block_size : Z).

(** Every read stops with [e], whatever it is for. *)
Record all_refused (e : ApfsError) : Prop := {
  ar_list_dir : forall parent, list_dir reader v parent block_size = Err e;
  ar_lookup : forall parent name, lookup_child reader v parent name block_size = Err e;
  ar_inode : forall oid, load_inode reader v oid block_size = Err e;
  ar_open : forall path, open_path reader v path block_size = Err e;
  ar_extents : forall stream, list_extents reader v stream block_size = Err e;
  ar_stream : forall stream size, size <= MAX_FILE_BYTES -> read_stream reader v stream size block_size = Err e;
  ar_xattrs : forall oid, list_xattrs reader v oid block_size = Err e;
  ar_symlink : forall oid, symlink_target reader v oid block_size = Err e;
  ar_data : forall inode, read_data reader v inode block_size = Err e;
}.

(** A walk that cannot read its root. *)
Lemma walk_root_unreadable {St} om e target (visit : bytes -> bytes -> St -> St) st :
  read_volume_omap reader v block_size = Ok om ->
  virt_node reader v block_size om (vol_root_tree_oid v) = Err e ->
  walk_fs_tree reader v block_size target visit st = (st, Err e).
Proof.
  intros Ho Hn. unfold walk_fs_tree. rewrite Ho, descend_virtual_gwalk. unfold MAX_FSTREE_DEPTH.
  rewrite gwalk_S, decide_False by (cbn; set_solver). by rewrite Hn.
Qed.

Lemma unreadable_root_refused om e :
  read_volume_omap reader v block_size = Ok om ->
  virt_node reader v block_size om (vol_root_tree_oid v) = Err e -> all_refused e.
Proof.
  intros Ho Hn.
  pose proof (fun St t vi st => @walk_root_unreadable St om e t vi st Ho Hn) as Hw.
  assert (forall oid, load_inode reader v oid block_size = Err e) as Hi
    by (intros oid; unfold load_inode, for_each_fs_record_for_oid; by rewrite Hw).
  assert (forall parent name, lookup_child reader v parent name block_size = Err e) as Hl
    by (intros parent name; unfold lookup_child, for_each_fs_record_for_oid; by rewrite Hw).
  assert (forall stream, list_extents reader v stream block_size = Err e) as Hx
    by (intros stream; unfold list_extents, for_each_fs_record_for_oid; by rewrite Hw).
  assert (forall oid, list_xattrs reader v oid block_size = Err e) as Ha
    by (intros oid; unfold list_xattrs, for_each_fs_record_for_oid; by rewrite Hw).
  split; try done.
  - intros parent. unfold list_dir, for_each_fs_record_for_oid. by rewrite Hw.
  - intros path. unfold open_path. destruct (components path) as [|name names]; cbn [fold_res mbind outcome_bind].
    + apply Hi.
    + by rewrite Hl.
  - intros stream size Hs. unfold read_stream. rewrite (proj2 (Z.ltb_ge _ _)) by lia. by rewrite Hx.
  - intros oid. unfold symlink_target, get_xattr. by rewrite Ha.
  - intros inode. unfold read_data, decmpfs_header, get_xattr. by rewrite Ha.
Qed.

(** C15 (safety): without its key, or with a wrong one, an encrypted volume gives nothing: when the root node as it comes out of decryption (or as it
    is stored, with no key) does not verify, every listing, lookup, path, attribute, extent list, stream and file is refused with that
    checksum mismatch; no operation returns content. *)
Theorem locked_volume_refused (om : ObjectMap) (e : OmapEntry) (cb buf : bytes) :
  read_volume_omap reader v block_size = Ok om ->
  omap_resolve om reader (vol_root_tree_oid v) (vol_xid v) block_size = Ok e ->
  Z.land (oe_flags e) OMAP_VAL_ENCRYPTED <> 0 ->
  read_at reader (saturating_mul (oe_paddr e) block_size) block_size = Ok cb ->
  match vol_vek v with
  | Some vek => decrypt_volume_area cb vek (oe_paddr e) block_size = Ok buf
  | None => buf = cb
  end ->
  fletcher64_stored buf <> fletcher64_checksum buf ->
  exists block, all_refused (ChecksumMismatch block (fletcher64_stored buf) (fletcher64_checksum buf)).
Proof.
  intros Ho He Hf Hc Hb Hck. eexists. eapply unreadable_root_refused; [exact Ho|].
  unfold virt_node, read_virtual_node. rewrite He. cbn [mbind outcome_bind]. rewrite Hc. cbn [mbind outcome_bind].
  rewrite (proj2 (Z.eqb_neq _ _) Hf). cbn [negb].
  destruct (vol_vek v) as [vek|]; [rewrite Hb|subst cb]; cbn [mbind outcome_bind];
    rewrite (proj2 (Z.eqb_neq _ _) Hck); cbn [negb mbind outcome_bind]; reflexivity.
Qed.
End Refused.

(** ** An encrypted volume *)

(** A cipher for the example: every byte xored with one that depends on the key and the sector. *)
Definition xor_pad (pad : Z) (data : bytes) : bytes :=
  map (fun b => z2b (Z.lxor (b2z b) (pad mod 256))) data.

#[local] Program Instance xor_cipher : XtsCipher := {|
  xts_decrypt_area k1 _ sector data := Ok (xor_pad (sector + from_le_bytes k1) data)
|}.
Next Obligation. intros. eexists. split; [reflexivity|]. unfold blen, xor_pad. by rewrite length_map. Qed.
Next Obligation. intros ? ? ? ? ? [= <-]. unfold blen, xor_pad. by rewrite length_map. Qed.
Next Obligation. done. Qed.

Definition sealed_vek : bytes := x17 :: replicate 31 x00.

Definition sealed_records : list Entry :=
  [ rec_root_inode; rec_dirent; rec_file_inode;
    {| key := jkey_bytes 8 19 ++ to_le_bytes 8 0; value := to_le_bytes 8 512 ++ to_le_bytes 8 3 ++ to_le_bytes 8 9 |} ].

(** Blocks of 512 bytes: the object map, its one leaf, the root node of the records and a block of data. *)
Definition sealed_plain : list bytes :=
  [ stamp (put (put (replicate 512 x00) 24 (to_le_bytes 4 OBJECT_TYPE_OMAP)) OFF_OM_TREE_OID (to_le_bytes 8 1));
    demo_node_of 512 3 0 [omap_kv 1024 4 OMAP_VAL_ENCRYPTED 512 2];
    demo_node_of 512 3 0 sealed_records;
    replicate 512 x5a ].
Definition sealed_tweaks : list (option Z) := [None; None; Some 2; Some 9].

Definition encipher (vek : bytes) (tweak : option Z) (block : bytes) : bytes :=
  match tweak with Some t => xor_pad (t + from_le_bytes (take 16 vek)) block | None => block end.

Definition plain_image : cursor := Eval vm_compute in image (concat sealed_plain).
Definition sealed_image : cursor := Eval vm_compute in image (concat (zip_with (encipher sealed_vek) sealed_tweaks sealed_plain)).

Definition sealed_omap : ObjectMap :=
  {| om_flags := 0; om_tree_type := 0; om_tree_oid := 1; om_snapshot_tree_oid := 0 |}.

Lemma sealed_omap_read : read_volume_omap plain_image demo_volume 512 = Ok sealed_omap.
Proof. vm_compute. reflexivity. Qed.

Lemma sealed_root : virt_node plain_image demo_volume 512 sealed_omap 1024 = Ok (Some (NLeaf sealed_records)).
Proof. vm_compute. reflexivity. Qed.

Lemma sealed_tree : volume_tree plain_image demo_volume 512 (TLeaf 1024 sealed_records).
Proof.
  exists sealed_omap. split_and!; [exact sealed_omap_read| |reflexivity]. split.
  - apply repr_leaf. exact sealed_root.
  - cbn. unfold MAX_FSTREE_DEPTH. lia.
  - apply NoDup_singleton.
  - intros x _. apply not_elem_of_empty.
Qed.

Lemma sealed_extents stream exts x :
  list_extents plain_image demo_volume stream 512 = Ok exts -> x ∈ exts ->
  x = {| fe_logical_offset := 0; fe_len := 512; fe_phys_block_num := 3; fe_crypto_id := 9 |}.
Proof.
  intros Hx Hin. destruct (list_extents_record plain_image demo_volume stream 512 (TLeaf 1024 sealed_records) exts x sealed_tree I Hx Hin)
    as (e & He & Hr). unfold leaf_entries, sealed_records in He. revert Hr. unfold extent_record, record_of.
  rewrite !elem_of_cons, elem_of_nil in He. destruct He as [->|[->|[->|[->|[]]]]].
  1-3: rewrite bool_decide_false by (vm_compute; discriminate); done.
  destruct (_ && _); [|done]. intros [= <-]. vm_compute. reflexivity.
Qed.

Lemma sealed_deciphered : deciphered sealed_image plain_image demo_volume sealed_vek 512.
Proof.
  assert (forall om, read_volume_omap plain_image demo_volume 512 = Ok om -> om = sealed_omap) as Hom.
  { intros om Ho. pose proof sealed_omap_read. congruence. }
  assert (forall om oid, om = sealed_omap -> reachable (virt_node plain_image demo_volume 512 om) 1024 oid -> oid = 1024) as Hre.
  { intros om oid -> Hr. exact (leaf_reachable _ _ _ _ sealed_root Hr). }
  split.
  - vm_compute. reflexivity.
  - vm_compute. reflexivity.
  - intros om oid ->%Hom ->%Hre; [|done]. vm_compute. reflexivity.
  - intros om oid e ->%Hom ->%Hre; [|done]. intros He.
    assert (e = omap_entry_of (key (omap_kv 1024 4 OMAP_VAL_ENCRYPTED 512 2)) (value (omap_kv 1024 4 OMAP_VAL_ENCRYPTED 512 2))) as ->.
    { apply (f_equal Some) in He. vm_compute in He. injection He as <-. vm_compute. reflexivity. }
    vm_compute. reflexivity.
  - intros stream exts x Hx Hin. rewrite (sealed_extents _ _ _ Hx Hin). intros i Hi Hlt. cbn in Hlt.
    assert (i = 0) as -> by lia. do 2 eexists. split_and!; vm_compute; reflexivity.
Qed.

Lemma decryption_transparent_witness :
  open_path sealed_image (set_vek demo_volume sealed_vek) demo_name 512 = Ok demo_inode /\
  read_stream sealed_image (set_vek demo_volume sealed_vek) 19 4 512 = Ok [x5a; x5a; x5a; x5a].
Proof.
  pose proof (@decryption_transparent xor_cipher sealed_image plain_image demo_volume sealed_vek 512 ltac:(lia) eq_refl
    demo_format demo_codecs sealed_deciphered) as D. split.
  - refine (eq_trans (eq_sym (ra_open _ _ _ D demo_name)) _). vm_compute. reflexivity.
  - refine (eq_trans (eq_sym (ra_stream _ _ _ D 19 4)) _). vm_compute. reflexivity.
Defined.

Definition sealed_mapping : OmapEntry :=
  {| oe_oid := 1024; oe_xid := 4; oe_paddr := 2; oe_size := 512; oe_flags := OMAP_VAL_ENCRYPTED |}.

(** The root node as it is stored, and as a wrong key leaves it. *)
Definition sealed_node : bytes := take 512 (drop 1024 (cur_buf sealed_image)).
Definition wrong_vek : bytes := x18 :: replicate 31 x00.

Lemma locked_volume_refused_witness :
  (exists block, open_path sealed_image demo_volume demo_name 512 =
     Err (ChecksumMismatch block (fletcher64_stored sealed_node) (fletcher64_checksum sealed_node))) /\
  (exists block stored computed, read_stream sealed_image (set_vek demo_volume wrong_vek) 19 4 512 =
     Err (ChecksumMismatch block stored computed)).
Proof.
  split.
  - destruct (@locked_volume_refused _ _ xor_cipher demo_format demo_codecs sealed_image demo_volume 512
      sealed_omap sealed_mapping sealed_node sealed_node) as (block & HR);
      try (vm_compute; reflexivity); try (vm_compute; discriminate).
    exists block. apply (ar_open _ _ _ _ HR).
  - destruct (@locked_volume_refused _ _ xor_cipher demo_format demo_codecs sealed_image (set_vek demo_volume wrong_vek) 512
      sealed_omap sealed_mapping sealed_node (xor_pad (2 + from_le_bytes (take 16 wrong_vek)) sealed_node)) as (block & HR);
      try (vm_compute; reflexivity); try (vm_compute; discriminate).
    exists block. do 2 eexists. apply (ar_stream _ _ _ _ HR). vm_compute. discriminate.
Defined.

(** On a volume without a key an extent's tweak is not looked at: where the nodes can be read, encrypted content comes back as it is stored,
    with no error. *)
Theorem locked_content_raw `{XtsCipher} (c : cursor) (v : ApfsVolume) (stream size block_size : Z) (exts : list FileExtent)
    (x : FileExtent) (out : bytes) (p : Z) :
  0 <= size -> 0 <= block_size -> vol_vek v = None ->
  list_extents c v stream block_size = Ok exts -> last (filter (covering p) exts) = Some x -> 0 <= p < size ->
  read_stream c v stream size block_size = Ok out ->
  get_index out p = get_index (cur_buf c) (fe_phys_block_num x * block_size + (p - fe_logical_offset x)).
Proof.
  intros Hs Hb Hk Hx Hl Hp Hr. rewrite (read_stream_byte c v stream size block_size exts out p) by done.
  unfold stream_byte. rewrite Hl, Hk. done.
Qed.

(** An extent with a tweak, read from a tree of records that is not encrypted: the stored bytes. *)
Example locked_content_example :
  let img := image (take 1536 (cur_buf plain_image) ++ drop 1536 (cur_buf sealed_image)) in
  read_stream img demo_volume 19 2 512 = Ok (take 2 (drop 1536 (cur_buf sealed_image))) /\
  read_stream img demo_volume 19 2 512 <> Ok [x5a; x5a].
Proof. split; vm_compute; [reflexivity|discriminate]. Qed.
