(* ===== verification/History.v ===== *)
(** Snapshots over time: [mount_snapshot] of snapshot.rs composed with the reads of a volume.

    A copy-on-write file system goes on writing after a snapshot: it adds mappings under later transactions, drops mappings that no snapshot
    needs, and reuses blocks that no snapshot reaches.  [retained] is that discipline between two states of an image.  The promise of [mount_snapshot]'s
    documentation is that the mounted volume reads exactly as it stood at snapshot time: [snapshot_unchanged]. *)

From S2P Require Import Prelude Bytes Errors Reader Object Walk BTree NodeLayout Omap FsRecord Encryption Volume Inode Dir Extent Xattr Compression Snapshot View DemoVolume.

(** ** Object maps over time *)

Section Resolve.
Context {R} `{ReadSeek R} (block_size xid : Z).

(** The object map [om] is stored as the tree [t], in key order. *)
Record omap_stored (reader : R) (om : ObjectMap) (t : tree) : Prop := {
  os_walkable : walkable (phys_node reader block_size SubtypeOmap) child_addrs MAX_BTREE_DEPTH ∅ t;
  os_root : addr t = om_tree_oid om;
  os_ordered : ordered t;
}.

(** [m] is the newest mapping of [oid] not after the transaction. *)
Definition newest (t : tree) (oid : Z) (m : Entry) : Prop :=
  m ∈ leaf_entries t /\ matching oid xid m /\
  forall m', m' ∈ leaf_entries t -> matching oid xid m' -> (okey m').2 <= (okey m).2.

Lemma omap_resolve_newest reader om t oid e :
  omap_stored reader om t -> omap_resolve om reader oid xid block_size = Ok e ->
  exists m, newest t oid m /\ e = entry_of m.
Proof.
  intros [Hw Ha Ho] He. pose proof (omap_resolve_best reader block_size oid xid om t Hw Ha Ho) as Hb. rewrite He in Hb.
  destruct Hb as (m & Hm & -> & Hoid & Hx & Hmax). exists m. split; [|done]. split_and!; [done|done|].
  intros m' Hm' [H1 H2]. by apply Hmax.
Qed.

(** What later transactions leave of an object map, as far as [oid] at this transaction goes: the mapping in force is kept, and no mapping
    is added under a transaction that has passed. *)
Record mapping_retained (t1 t2 : tree) (oid : Z) : Prop := {
  mr_kept : forall m, newest t1 oid m -> m ∈ leaf_entries t2;
  mr_not_backdated : forall m, m ∈ leaf_entries t2 -> matching oid xid m -> m ∈ leaf_entries t1;
}.

Lemma resolve_retained r1 r2 om1 om2 t1 t2 oid :
  omap_stored r1 om1 t1 -> omap_stored r2 om2 t2 -> NoDup (okey <$> leaf_entries t1) -> mapping_retained t1 t2 oid ->
  omap_resolve om1 r1 oid xid block_size = omap_resolve om2 r2 oid xid block_size.
Proof.
  intros S1 S2 Hnd [Hkept Hback].
  pose proof (omap_resolve_best r1 block_size oid xid om1 t1 (os_walkable _ _ _ S1) (os_root _ _ _ S1) (os_ordered _ _ _ S1)) as B1.
  pose proof (omap_resolve_best r2 block_size oid xid om2 t2 (os_walkable _ _ _ S2) (os_root _ _ _ S2) (os_ordered _ _ _ S2)) as B2.
  destruct (omap_resolve om1 r1 oid xid block_size) as [e1|err1|] eqn:H1; [| |done].
  - destruct (omap_resolve_newest _ _ _ _ _ S1 H1) as (m1 & N1 & ->). pose proof (Hkept _ N1) as K1. destruct N1 as (I1 & M1 & X1).
    destruct (omap_resolve om2 r2 oid xid block_size) as [e2|err2|] eqn:H2; [| |done].
    + destruct (omap_resolve_newest _ _ _ _ _ S2 H2) as (m2 & (I2 & M2 & X2) & ->). do 2 f_equal.
      pose proof (Hback _ I2 M2) as K2. specialize (X1 _ K2 M2). specialize (X2 _ K1 M1).
      assert (okey m1 = okey m2) as Hk by (destruct M1, M2; unfold okey in *; cbn in *; f_equal; lia).
      apply list_elem_of_lookup in I1 as [i Hi], K2 as [j Hj].
      assert (i = j) as <-; [|congruence].
      apply (NoDup_lookup _ i j (okey m1) Hnd); rewrite list_lookup_fmap; [by rewrite Hi|by rewrite Hj, Hk].
    + exfalso. destruct B2 as [_ Hno]. destruct M1 as [Ho Hx]. specialize (Hno _ K1 Ho). unfold okey in Hx. cbn in Hx. lia.
  - destruct B1 as [-> Hno1]. destruct (omap_resolve om2 r2 oid xid block_size) as [e2|err2|] eqn:H2; [| |done].
    + exfalso. destruct (omap_resolve_newest _ _ _ _ _ S2 H2) as (m2 & (I2 & M2 & _) & _). pose proof (Hback _ I2 M2) as K2.
      destruct M2 as [Ho Hx]. specialize (Hno1 _ K2 Ho). unfold okey in Hx. cbn in Hx. lia.
    + by destruct B2 as [-> _].
Qed.
End Resolve.

(** ** Mounted snapshots over time *)

(** [set_vek], where there is a key to set. *)
Definition with_key (key : option bytes) (v : ApfsVolume) : ApfsVolume :=
  match key with Some vek => set_vek v vek | None => v end.

Section History.
Context {R} `{ReadSeek R} `{XtsCipher} (block_size : Z).
(** The image and the live volume when the snapshot is first mounted, and later. *)
Context (r1 r2 : R) (live1 live2 : ApfsVolume) (sn : Snapshot) (key : option bytes).
Context (om1 om2 : ObjectMap) (t1 t2 : tree).

(** The nodes of the snapshot's records, through the first state. *)
Definition snapshot_node (v1 : ApfsVolume) : Z -> result (option node) := virt_node r1 (with_key key v1) block_size om1.

(** What the writes between the two states leave alone, for the snapshot mounted as [v1]. *)
Record retained (v1 : ApfsVolume) : Prop := {
  (** the frozen superblock *)
  rt_superblock : read_at r1 (saturating_mul (sn_sblock_oid sn) block_size) block_size =
                  read_at r2 (saturating_mul (sn_sblock_oid sn) block_size) block_size;
  (** the object maps: any trees, with the mappings the snapshot needs *)
  rt_omap1 : read_volume_omap r1 live1 block_size = Ok om1;
  rt_omap2 : read_volume_omap r2 live2 block_size = Ok om2;
  rt_stored1 : omap_stored block_size r1 om1 t1;
  rt_stored2 : omap_stored block_size r2 om2 t2;
  rt_unique : NoDup (okey <$> leaf_entries t1);
  rt_mappings : forall oid, reachable (snapshot_node v1) (vol_root_tree_oid v1) oid ->
    mapping_retained (vol_xid v1) t1 t2 oid;
  (** the blocks of the snapshot's records *)
  rt_nodes : forall oid e, reachable (snapshot_node v1) (vol_root_tree_oid v1) oid ->
    omap_resolve om1 r1 oid (vol_xid v1) block_size = Ok e ->
    read_at r1 (saturating_mul (oe_paddr e) block_size) block_size =
    read_at r2 (saturating_mul (oe_paddr e) block_size) block_size;
  (** the blocks of the snapshot's files *)
  rt_extents : forall stream exts x n, list_extents r1 (with_key key v1) stream block_size = Ok exts -> x ∈ exts ->
    0 <= n <= (fe_len x + block_size - 1) / block_size * block_size ->
    read_at r1 (fe_phys_block_num x * block_size) n = read_at r2 (fe_phys_block_num x * block_size) n;
}.

Lemma with_key_fields v omap_oid :
  let w := with_key key (with_omap_oid v omap_oid) in
  vol_root_tree_oid w = vol_root_tree_oid v /\ vol_xid w = vol_xid v /\ vol_omap_oid w = omap_oid /\
  vol_vek w = match key with Some k => Some k | None => vol_vek v end.
Proof. by destruct key. Qed.

Lemma fill_extent_same vek x size out :
  0 <= block_size -> extent_wf x ->
  (forall n, 0 <= n <= (fe_len x + block_size - 1) / block_size * block_size -> read_at r1 (fe_phys_block_num x * block_size) n = read_at r2 (fe_phys_block_num x * block_size) n) ->
  fill_extent r1 vek size block_size out x = fill_extent r2 vek size block_size out x.
Proof.
  intros Hbs (Hlo & Hlen & _) Hr. unfold fill_extent. destruct (_ || _) eqn:Hg; [reflexivity|]. bool_cases.
  destruct (Z.eqb_spec block_size 0); [reflexivity|].
  destruct (checked_mul _ _) as [off|] eqn:Ho; [|reflexivity]. apply checked_mul_Some in Ho as [-> _].
  cbn [ok_or mbind outcome_bind]. set (len := Z.min _ _).
  assert (forall k, 0 <= k -> k <= (k + block_size - 1) / block_size * block_size) as Hup.
  { intros k Hk. pose proof (Z.div_mod (k + block_size - 1) block_size ltac:(lia)).
    pose proof (Z.mod_pos_bound (k + block_size - 1) block_size ltac:(lia)). lia. }
  assert ((len + block_size - 1) / block_size <= (fe_len x + block_size - 1) / block_size) as Hmono
    by (apply Z.div_le_mono; lia).
  assert (0 <= len <= fe_len x) as Hle by lia. pose proof (Hup len ltac:(lia)). pose proof (Hup (fe_len x) ltac:(lia)).
  rewrite (Hr len) by lia. rewrite (Hr ((len + block_size - 1) / block_size * block_size)) by nia. reflexivity.
Qed.

(** The two mounts are equivalent views. *)
Lemma retained_view v :
  retained (with_omap_oid v (vol_omap_oid live1)) ->
  view_equiv block_size (View r1 (with_key key (with_omap_oid v (vol_omap_oid live1))))
    (View r2 (with_key key (with_omap_oid v (vol_omap_oid live2)))).
Proof.
  intros T. set (v1 := with_omap_oid v (vol_omap_oid live1)) in *. set (v2 := with_omap_oid v (vol_omap_oid live2)).
  destruct (with_key_fields v (vol_omap_oid live1)) as (Hr1 & Hx1 & Ho1 & Hk1).
  destruct (with_key_fields v (vol_omap_oid live2)) as (Hr2 & Hx2 & Ho2 & Hk2). fold v1 in Hr1, Hx1, Ho1, Hk1. fold v2 in Hr2, Hx2, Ho2, Hk2.
  split; cbn [vw_volume]; unfold view_root; cbn [vw_volume]; [congruence|congruence|].
  unfold same_nodes, view_omap, view_root, view_node. cbn [vw_volume vw_reader].
  assert (read_volume_omap r1 (with_key key v1) block_size = Ok om1) as ->
    by (rewrite <-(rt_omap1 _ T); unfold read_volume_omap; by rewrite Ho1).
  assert (read_volume_omap r2 (with_key key v2) block_size = Ok om2) as ->
    by (rewrite <-(rt_omap2 _ T); unfold read_volume_omap; by rewrite Ho2).
  intros oid Hre. rewrite Hr1 in Hre. change (vol_root_tree_oid v) with (vol_root_tree_oid v1) in Hre.
  pose proof (rt_mappings _ T oid Hre) as Hm. pose proof (fun e => rt_nodes _ T oid e Hre) as Hn.
  change (vol_xid v1) with (vol_xid v) in Hm, Hn.
  unfold virt_node, read_virtual_node. rewrite Hx1, Hx2, Hk1, Hk2.
  rewrite <-(resolve_retained block_size (vol_xid v) r1 r2 om1 om2 t1 t2 oid (rt_stored1 _ T) (rt_stored2 _ T) (rt_unique _ T) Hm).
  destruct (omap_resolve om1 r1 oid (vol_xid v) block_size) as [e| |]; cbn [mbind outcome_bind]; [|reflexivity|reflexivity].
  by rewrite (Hn e eq_refl).
Qed.

(** C10 (invariant): a snapshot stays as it is: mounted again after any writes that keep what it needs (the frozen superblock, the mapping in force of
    every object its tree reaches, those nodes and the blocks of its extents; anything else of the image, of the object map and of the live volume may
    have changed), it mounts, and every read of it, errors included, is what it was. *)
Theorem snapshot_unchanged `{DecmpfsFormat} `{Codecs} (v1 : ApfsVolume) :
  0 <= block_size -> mount_snapshot r1 live1 sn block_size = Ok v1 -> retained v1 ->
  exists v2, mount_snapshot r2 live2 sn block_size = Ok v2 /\
    reads_agree block_size (View r1 (with_key key v1)) (View r2 (with_key key v2)).
Proof.
  unfold mount_snapshot. intros Hbs Hm T. rewrite (rt_superblock _ T) in Hm. apply bind_Ok_iff in Hm as (buf & -> & Hm).
  cbn [mbind outcome_bind]. apply bind_Ok_iff in Hm as (v & -> & Hm). injection Hm as <-.
  eexists. split; [reflexivity|]. apply views_reads_agree; [by apply retained_view|].
  intros stream exts x size out Hx Hin. cbn [vw_reader vw_volume] in *.
  destruct (with_key_fields v (vol_omap_oid live1)) as (_ & _ & _ & ->).
  destruct (with_key_fields v (vol_omap_oid live2)) as (_ & _ & _ & ->).
  apply fill_extent_same; [done| |].
  - unfold view_extents in Hx. apply list_extents_wf in Hx as [Hwf _]. rewrite Forall_forall in Hwf. exact (Hwf x Hin).
  - intros n Hn. exact (rt_extents _ T stream exts x n Hx Hin Hn).
Qed.

(** A mount starts without a key, whatever key the live volume has: a snapshot of an unlocked volume is locked until the key is set on it
    again. *)
Theorem mount_forgets_key (vek : bytes) (v1 : ApfsVolume) :
  mount_snapshot r1 (set_vek live1 vek) sn block_size = mount_snapshot r1 live1 sn block_size /\
  (mount_snapshot r1 live1 sn block_size = Ok v1 -> vol_vek v1 = None).
Proof.
  split; [done|]. unfold mount_snapshot. intros Hm. apply bind_Ok_iff in Hm as (buf & _ & Hm).
  apply bind_Ok_iff in Hm as (v & Hv & Hm). injection Hm as <-. apply ApfsVolume_parse_gates in Hv. by destruct Hv as (_ & _ & _ & _ & _ & ? & _).
Qed.
End History.

(** ** A snapshot taken at transaction 5 and a file written over at transaction 6 *)

Definition hist_omap (tree : Z) : bytes :=
  stamp (put (put (replicate 1024 x00) 24 (to_le_bytes 4 OBJECT_TYPE_OMAP)) OFF_OM_TREE_OID (to_le_bytes 8 tree)).
Definition hist_extent (block : Z) : Entry :=
  {| key := jkey_bytes 8 19 ++ to_le_bytes 8 0; value := to_le_bytes 8 1024 ++ to_le_bytes 8 block ++ to_le_bytes 8 0 |}.
Definition hist_records (block : Z) : list Entry := [rec_root_inode; rec_dirent; rec_file_inode; hist_extent block].
Definition hist_map1 : list Entry := [omap_kv 1024 4 0 1024 3].
Definition hist_map2 : list Entry := [omap_kv 1024 4 0 1024 3; omap_kv 1024 6 0 1024 6].

(** The blocks both states share: the frozen superblock, the records at the snapshot, their data. *)
Definition hist_kept : bytes := frozen_block ++ demo_node_of 1024 3 0 (hist_records 4) ++ replicate 1024 x5a.

Definition hist_before : cursor := Eval vm_compute in image (hist_omap 1 ++ demo_node_of 1024 3 0 hist_map1 ++ hist_kept).
(** The old object-map node is reused, the new one maps new records, whose data is elsewhere. *)
Definition hist_after : cursor := Eval vm_compute in
  image (hist_omap 5 ++ replicate 1024 xa5 ++ hist_kept ++ demo_node_of 1024 3 0 hist_map2 ++ demo_node_of 1024 3 0 (hist_records 7) ++
         replicate 1024 x77).

Definition hist_om1 : ObjectMap := {| om_flags := 0; om_tree_type := 0; om_tree_oid := 1; om_snapshot_tree_oid := 0 |}.
Definition hist_om2 : ObjectMap := {| om_flags := 0; om_tree_type := 0; om_tree_oid := 5; om_snapshot_tree_oid := 0 |}.

Lemma hist_node : snapshot_node 1024 hist_before None hist_om1 mounted_volume 1024 = Ok (Some (NLeaf (hist_records 4))).
Proof. vm_compute. reflexivity. Qed.

Lemma hist_tree : volume_tree hist_before mounted_volume 1024 (TLeaf 1024 (hist_records 4)).
Proof.
  exists hist_om1. split_and!; [vm_compute; reflexivity| |reflexivity].
  split; [apply repr_leaf; exact hist_node|cbn; unfold MAX_FSTREE_DEPTH; lia|apply NoDup_singleton|].
  intros x _. apply not_elem_of_empty.
Qed.

Lemma hist_extents stream exts x :
  list_extents hist_before mounted_volume stream 1024 = Ok exts -> x ∈ exts ->
  x = {| fe_logical_offset := 0; fe_len := 1024; fe_phys_block_num := 4; fe_crypto_id := 0 |}.
Proof.
  intros Hx Hin. destruct (list_extents_record hist_before mounted_volume stream 1024 (TLeaf 1024 (hist_records 4)) exts x hist_tree I Hx Hin)
    as (e & He & Hr). unfold leaf_entries, hist_records in He. revert Hr. unfold extent_record, record_of.
  rewrite !elem_of_cons, elem_of_nil in He. destruct He as [->|[->|[->|[->|[]]]]].
  1-3: rewrite bool_decide_false by (vm_compute; discriminate); done.
  destruct (_ && _); [|done]. intros [= <-]. vm_compute. reflexivity.
Qed.

Lemma leaf_omap_stored r om a es :
  phys_node r 1024 SubtypeOmap a = Ok (Some (NLeaf es)) -> om_tree_oid om = a -> omap_stored (R := cursor) 1024 r om (TLeaf a es).
Proof.
  intros Hl Ha. split; [|done|constructor].
  split; [by apply repr_leaf|cbn; unfold MAX_BTREE_DEPTH; lia|apply NoDup_singleton|]. intros x _. apply not_elem_of_empty.
Qed.

Lemma hist_retained :
  retained 1024 hist_before hist_after demo_volume demo_volume mount_record None hist_om1 hist_om2
    (TLeaf 1 hist_map1) (TLeaf 5 hist_map2) mounted_volume.
Proof.
  assert (forall oid, reachable (snapshot_node 1024 hist_before None hist_om1 mounted_volume) 1024 oid -> oid = 1024) as Hre
    by (intros oid Hr; exact (leaf_reachable _ _ _ _ hist_node Hr)).
  split.
  - vm_compute. reflexivity.
  - vm_compute. reflexivity.
  - vm_compute. reflexivity.
  - apply leaf_omap_stored; [vm_compute; reflexivity|reflexivity].
  - apply leaf_omap_stored; [vm_compute; reflexivity|reflexivity].
  - apply NoDup_singleton.
  - intros oid ->%Hre. split.
    + intros m (Hm & _ & _). by apply list_elem_of_singleton in Hm as ->; left.
    + intros m [->|[->|[]%not_elem_of_nil]%elem_of_cons]%elem_of_cons [_ Hx]; [by left|]. vm_compute in Hx. by destruct Hx.
  - intros oid e ->%Hre He. assert (e = entry_of (omap_kv 1024 4 0 1024 3)) as ->.
    { apply (f_equal Some) in He. vm_compute in He. injection He as <-. vm_compute. reflexivity. }
    vm_compute. reflexivity.
  - intros stream exts x n Hx Hin. rewrite (hist_extents _ _ _ Hx Hin). cbn [fe_phys_block_num fe_len]. intros Hn.
    destruct (Z.eq_dec n 0) as [->|Hn0]; [done|]. rewrite !read_at_cursor by done. change ((1024 + 1024 - 1) / 1024 * 1024) with 1024 in Hn.
    assert (forall img, get_range img 4096 5120 = Some (replicate 1024 x5a) ->
      get_range img (4 * 1024) (4 * 1024 + n) = Some (take (Z.to_nat (4096 + n - 4096)) (replicate 1024 x5a))) as Hp
      by (intros img Hi; apply (get_range_prefix _ _ _ _ _ Hi); lia).
    rewrite (Hp (cur_buf hist_before)) by (vm_compute; reflexivity).
    by rewrite (Hp (cur_buf hist_after)) by (vm_compute; reflexivity).
Qed.

(** The live volume has the new content, the snapshot still the old. *)
Lemma snapshot_unchanged_witness :
  read_stream hist_after demo_volume 19 3 1024 = Ok [x77; x77; x77] /\
  exists v2, mount_snapshot hist_after demo_volume mount_record 1024 = Ok v2 /\
    read_stream hist_after v2 19 3 1024 = Ok [x5a; x5a; x5a].
Proof.
  split; [vm_compute; reflexivity|].
  assert (mount_snapshot hist_before demo_volume mount_record 1024 = Ok mounted_volume) as Hb by (vm_compute; reflexivity).
  destruct (@snapshot_unchanged cursor _ identity_cipher 1024 hist_before hist_after demo_volume demo_volume mount_record None hist_om1 hist_om2
    (TLeaf 1 hist_map1) (TLeaf 5 hist_map2) demo_format demo_codecs mounted_volume ltac:(lia) Hb hist_retained)
    as (v2 & Hm & HR). exists v2. split; [exact Hm|].
  refine (eq_trans (eq_sym (ra_stream _ _ _ HR 19 3)) _). vm_compute. reflexivity.
Defined.
