(* ===== verification/Format.v ===== *)
(** The text the code produces with [format!] and with the error enum's [Display]: decimal and hexadecimal integers
    between literal pieces.  A Rust [String] is the list of its UTF-8 bytes.

    [dec] is [{}] on an unsigned integer, [hex] is [{:#x}] and [hex0 w] is [{:#0wx}]: the prefix counts towards the width [w].  The lemmas
    say that a number can be read back out of its text wherever a byte that is no digit follows it; they carry the theorem that
    the findings of the analyzer lose no evidence. *)

From Stdlib Require Import Strings.String.
From S2P Require Import Prelude Bytes Errors.

Definition lit (s : string) : bytes := list_byte_of_string s.

Definition digit (d : Z) : byte := z2b (if d <? 10 then 48 + d else 87 + d).

(** The digits of [n] in front of [acc]; the bits of [n] are at least as many as its digits. *)
Fixpoint digits_from (fuel : nat) (base n : Z) (acc : bytes) : bytes :=
  match fuel with
  | O => acc
  | S fuel =>
      let acc := digit (n mod base) :: acc in
      if n / base =? 0 then acc else digits_from fuel base (n / base) acc
  end.
Definition digits (base n : Z) : bytes := digits_from (S (Z.to_nat (Z.log2 n))) base n [].

Definition dec (n : Z) : bytes := digits 10 n.
Definition hex (n : Z) : bytes := lit "0x" ++ digits 16 n.
Definition hex0 (w : nat) (n : Z) : bytes :=
  let d := digits 16 n in lit "0x" ++ replicate (w - 2 - length d) x30 ++ d.

Example dec_3405 : dec 3405 = lit "3405". Proof. reflexivity. Qed.
Example dec_0 : dec 0 = lit "0". Proof. reflexivity. Qed.
Example hex_beef : hex 0xbeef = lit "0xbeef". Proof. reflexivity. Qed.
Example hex0_55 : hex0 4 0x5 = lit "0x05" /\ hex0 10 0xbeef = lit "0x0000beef". Proof. split; reflexivity. Qed.

(** ** Reading numbers back *)

Definition digit_val (b : byte) : Z := if b2z b <? 58 then b2z b - 48 else b2z b - 87.
Definition is_digit (b : byte) : bool := ((48 <=? b2z b) && (b2z b <? 58)) || ((97 <=? b2z b) && (b2z b <? 103)).
Definition undigits (base : Z) (s : bytes) : Z := foldl (fun n b => n * base + digit_val b) 0 s.

Lemma b2z_digit d : 0 <= d < 16 -> b2z (digit d) = if d <? 10 then 48 + d else 87 + d.
Proof. intros Hd. unfold digit. rewrite b2z_z2b. apply Z.mod_small. destruct (Z.ltb_spec d 10); lia. Qed.

Lemma digit_val_digit d : 0 <= d < 16 -> digit_val (digit d) = d.
Proof.
  intros Hd. unfold digit_val. rewrite b2z_digit by done.
  destruct (Z.ltb_spec d 10); destruct (Z.ltb_spec (48 + d) 58), (Z.ltb_spec (87 + d) 58); lia.
Qed.

Lemma is_digit_digit d : 0 <= d < 16 -> is_digit (digit d) = true.
Proof. intros Hd. unfold is_digit. rewrite b2z_digit by done. destruct (Z.ltb_spec d 10); bool_cases; lia. Qed.

Section Digits.
Context (base : Z) (Hbase : 2 <= base <= 16).

Lemma digits_from_app fuel : forall n acc, digits_from fuel base n acc = digits_from fuel base n [] ++ acc.
Proof.
  induction fuel as [|fuel IH]; intros n acc; cbn [digits_from]; [done|].
  destruct (n / base =? 0); [done|]. rewrite IH, (IH _ [_]), <-app_assoc. done.
Qed.

Lemma undigits_from fuel : forall n,
  0 <= n < 2 ^ Z.of_nat fuel -> (fuel <> 0)%nat ->
  undigits base (digits_from fuel base n []) = n /\ Forall (fun b => is_digit b = true) (digits_from fuel base n []).
Proof.
  induction fuel as [|fuel IH]; intros n Hn Hf; [done|]. cbn [digits_from].
  pose proof (Z.mod_pos_bound n base ltac:(lia)) as Hm. pose proof (Z.div_mod n base ltac:(lia)) as Hd.
  assert (is_digit (digit (n mod base)) = true) as Hdig by (apply is_digit_digit; lia).
  destruct (Z.eqb_spec (n / base) 0) as [Hz|Hz].
  { split; [|by repeat constructor]. unfold undigits. cbn [foldl]. rewrite digit_val_digit by lia. lia. }
  assert (0 <= n / base) as Hp by (apply Z.div_pos; lia).
  assert (n / base < 2 ^ Z.of_nat fuel) as Hlt.
  { apply Z.div_lt_upper_bound; [lia|]. rewrite Nat2Z.inj_succ, Z.pow_succ_r in Hn by lia. nia. }
  destruct fuel as [|fuel]; [cbn in Hlt; lia|].
  destruct (IH (n / base) ltac:(lia) ltac:(done)) as [Hv Hds]. rewrite digits_from_app. split.
  - unfold undigits in *. rewrite foldl_app, Hv. cbn [foldl]. rewrite digit_val_digit by lia. lia.
  - apply Forall_app. split; [done|]. by repeat constructor.
Qed.

Lemma digits_spec n : 0 <= n -> undigits base (digits base n) = n /\ Forall (fun b => is_digit b = true) (digits base n).
Proof.
  intros Hn. apply undigits_from; [|done]. split; [done|].
  rewrite Nat2Z.inj_succ, Z2Nat.id by apply Z.log2_nonneg.
  destruct (decide (n = 0)) as [->|]; [done|]. apply Z.log2_spec. lia.
Qed.

End Digits.

(** A way of writing numbers: a fixed prefix, then digits that determine the number. *)
Class Numeral (text : Z -> bytes) := {
  num_prefix : bytes;
  num_value : bytes -> Z;
  num_spec : forall n, 0 <= n ->
    exists ds, text n = num_prefix ++ ds /\ num_value ds = n /\ Forall (fun b => is_digit b = true) ds;
}.

#[export] Program Instance dec_Numeral : Numeral dec := {| num_prefix := []; num_value := undigits 10 |}.
Next Obligation. intros n Hn. exists (dec n). by destruct (digits_spec 10 ltac:(lia) n Hn). Qed.

#[export] Program Instance hex_Numeral : Numeral hex := {| num_prefix := lit "0x"; num_value := undigits 16 |}.
Next Obligation. intros n Hn. exists (digits 16 n). by destruct (digits_spec 16 ltac:(lia) n Hn). Qed.

Lemma undigits_pad base k s : undigits base (replicate k x30 ++ s) = undigits base s.
Proof. unfold undigits. rewrite foldl_app. f_equal. induction k as [|k IH]; [done|]. exact IH. Qed.

#[export] Program Instance hex0_Numeral w : Numeral (hex0 w) := {| num_prefix := lit "0x"; num_value := undigits 16 |}.
Next Obligation.
  intros w n Hn. destruct (digits_spec 16 ltac:(lia) n Hn) as [Hv Hd]. eexists. split; [reflexivity|].
  rewrite undigits_pad. split; [done|]. apply Forall_app. split; [|done]. by apply Forall_replicate.
Qed.

Section Text.
Context (text : Z -> bytes) `{!Numeral text}.

(** A byte that is no digit ends a number. *)
Lemma text_sep a b c r s :
  0 <= a -> 0 <= b -> is_digit c = false -> text a ++ c :: r = text b ++ c :: s -> a = b /\ r = s.
Proof.
  intros Ha Hb Hc. destruct (num_spec a Ha) as (da & -> & Hva & Hda), (num_spec b Hb) as (db & -> & Hvb & Hdb).
  rewrite <-!app_assoc. intros Heq%app_inv_head. rewrite Forall_forall in Hda, Hdb.
  apply not_elem_of_app_cons_inv_l in Heq as (-> & _ & ->).
  - by rewrite <-Hva, <-Hvb.
  - intros Hi. by rewrite Hdb in Hc.
  - intros Hi. by rewrite Hda in Hc.
Qed.

Lemma text_lit a b (c : Ascii.ascii) (q : string) r s :
  0 <= a -> 0 <= b -> is_digit (Ascii.byte_of_ascii c) = false ->
  text a ++ lit (String c q) ++ r = text b ++ lit (String c q) ++ s -> a = b /\ r = s.
Proof.
  intros Ha Hb Hc Heq. cbn in Heq. apply text_sep in Heq as [-> Heq]; [|done..].
  split; [done|]. by apply app_inv_head in Heq.
Qed.

(** A number before the last literal. *)
Lemma text_last a b (c : Ascii.ascii) (q : string) :
  0 <= a -> 0 <= b -> is_digit (Ascii.byte_of_ascii c) = false ->
  text a ++ lit (String c q) = text b ++ lit (String c q) -> a = b.
Proof.
  intros Ha Hb Hc Heq. eapply (text_lit a b c q [] []); [done..|]. by rewrite !app_nil_r.
Qed.
End Text.

(** Equal texts with the same literals have the same numbers. *)
Ltac text_inj :=
  repeat match goal with
  | H : lit _ ++ _ = lit _ ++ _ |- _ => apply app_inv_head in H
  | H : ?f _ ++ lit _ ++ _ = ?f _ ++ lit _ ++ _ |- _ => apply (text_lit f) in H as [? H]; [|lia|lia|reflexivity]
  | H : ?f _ ++ lit _ = ?f _ ++ lit _ |- _ => apply (text_last f) in H; [|lia|lia|reflexivity]
  | H : _ ++ lit _ = _ ++ lit _ |- _ => apply app_inv_tail in H
  end.

(** ** [Display] of [ApfsError] *)

(** [Display] of the standard library's [io::Error]: outside this repository. *)
Class IoDisplay := io_display : io_error -> bytes.

Definition ApfsError_to_string `{IoDisplay} (e : ApfsError) : bytes :=
  match e with
  | Io e => lit "i/o error: " ++ io_display e
  | NoValidSuperblock checked last_magic =>
      lit "no valid NXSB superblock found (checked " ++ dec checked ++ lit " checkpoint slots; last magic seen: " ++
      hex0 10 last_magic ++ lit ")"
  | ChecksumMismatch block stored computed =>
      lit "object checksum mismatch at block " ++ dec block ++ lit ": stored " ++ hex0 18 stored ++ lit ", computed " ++
      hex0 18 computed
  | OmapUnresolved oid xid => lit "omap could not resolve virtual oid " ++ hex oid ++ lit " at xid " ++ dec xid
  | UnexpectedObjectType structure expected found =>
      lit "unexpected object type in " ++ lit structure ++ lit ": expected " ++ hex0 6 expected ++ lit ", found " ++
      hex0 10 found
  | UnsupportedFusion =>
      lit "unsupported Fusion container (tier-2 device present); Fusion addressing not yet implemented"
  | UnsupportedSpacemanCab count =>
      lit "unsupported space-manager CAB tier (sm_cab_count = " ++ dec count ++
      lit "); only inline CIB layout is implemented"
  | FieldOutOfRange structure field value cap =>
      lit "structural field out of range in " ++ lit structure ++ lit ": " ++ lit field ++ lit " = " ++ dec value ++
      lit " (cap " ++ dec cap ++ lit ")"
  | CycleGuard cap => lit "tree walk exceeded depth cap " ++ dec cap ++ lit " (possible cyclic object graph)"
  | CheckpointTreeUnsupported area =>
      lit "checkpoint " ++ lit area ++ lit " area is tree-backed; B-tree resolution not yet implemented"
  | SnapshotNotFound xid =>
      lit "no snapshot with transaction id " ++ dec xid ++ lit " (and it is not the live volume's xid)"
  | Decmpfs msg => lit "decmpfs decode failure: " ++ lit msg
  end.
