(* ===== verification/TestKit.v ===== *)
(** The vocabulary of the unit tests: assertions, [expect], the [Debug] text of errors.

    The test modules of the source are translated as the rest of it is: a helper that builds an image is a function, a test is the boolean of
    whether it passes ([assert!] false, [expect] on the wrong case and a panic inside a call all fail it).  The files [Tests*] hold them.  That every
    test that needs no stored image holds of this model ties the model to the expectations its authors wrote down; where a test
    follows from a property of all images, that property is the theorem. *)

From S2P Require Import Prelude Bytes Errors Format.

(** [m.expect(..)], then the rest of the test. *)
Definition expecting {A} (m : result A) (k : A -> bool) : bool := match m with Ok a => k a | _ => false end.
Definition expecting_some {A} (m : option A) (k : A -> bool) : bool := match m with Some a => k a | None => false end.
(** [m.expect_err(..)], [m.unwrap_err()]. *)
Definition expecting_err {A} (m : result A) (k : ApfsError -> bool) : bool := match m with Err e => k e | _ => false end.
Definition is_err {A} (m : result A) : bool := match m with Err _ => true | _ => false end.
Definition is_none {A} (m : option A) : bool := match m with None => true | _ => false end.

Notation "'let_ok' x := m 'in' k" := (expecting m (fun x => k)) (at level 10, x pattern, k at level 200) : apfs_scope.
Notation "'let_err' x := m 'in' k" := (expecting_err m (fun x => k)) (at level 10, x name, k at level 200) : apfs_scope.
Notation "'let_some' x := m 'in' k" := (expecting_some m (fun x => k)) (at level 10, x pattern, k at level 200) : apfs_scope.

(** [assert_eq!] and [assert_ne!]. *)
Definition assert_eq {A} `{EqDecision A} (a b : A) : bool := bool_decide (a = b).
Definition assert_ne {A} `{EqDecision A} (a b : A) : bool := negb (bool_decide (a = b)).
Definition elem {A} `{EqDecision A} (x : A) (l : list A) : bool := bool_decide (x ∈ l).

(** [hay.contains(needle)] on strings. *)
Fixpoint starts_with (needle hay : bytes) : bool :=
  match needle, hay with
  | [], _ => true
  | n :: needle, h :: hay => bool_decide (n = h) && starts_with needle hay
  | _, [] => false
  end.
Fixpoint contains (hay needle : bytes) : bool :=
  starts_with needle hay || match hay with [] => false | _ :: hay => contains hay needle end.

(** [Debug] of the standard library's [io::Error]: outside this repository. *)
Class IoDebug := io_debug : io_error -> bytes.

(** [#[derive(Debug)]] on [ApfsError]: the variant and its fields; the strings have no character that [Debug] escapes. *)
Definition quoted (s : string) : bytes := [x22] ++ lit s ++ [x22].
Definition ApfsError_debug `{IoDebug} (e : ApfsError) : bytes :=
  match e with
  | Io e => lit "Io(" ++ io_debug e ++ lit ")"
  | NoValidSuperblock checked last_magic =>
      lit "NoValidSuperblock { checked: " ++ dec checked ++ lit ", last_magic: " ++ dec last_magic ++ lit " }"
  | ChecksumMismatch block stored computed =>
      lit "ChecksumMismatch { block: " ++ dec block ++ lit ", stored: " ++ dec stored ++ lit ", computed: " ++ dec computed ++ lit " }"
  | OmapUnresolved oid xid => lit "OmapUnresolved { oid: " ++ dec oid ++ lit ", xid: " ++ dec xid ++ lit " }"
  | UnexpectedObjectType structure expected found =>
      lit "UnexpectedObjectType { structure: " ++ quoted structure ++ lit ", expected: " ++ dec expected ++ lit ", found: " ++ dec found ++ lit " }"
  | UnsupportedFusion => lit "UnsupportedFusion"
  | UnsupportedSpacemanCab count => lit "UnsupportedSpacemanCab { count: " ++ dec count ++ lit " }"
  | FieldOutOfRange structure field value cap =>
      lit "FieldOutOfRange { structure: " ++ quoted structure ++ lit ", field: " ++ quoted field ++ lit ", value: " ++ dec value ++
      lit ", cap: " ++ dec cap ++ lit " }"
  | CycleGuard cap => lit "CycleGuard { cap: " ++ dec cap ++ lit " }"
  | CheckpointTreeUnsupported area => lit "CheckpointTreeUnsupported { area: " ++ quoted area ++ lit " }"
  | SnapshotNotFound xid => lit "SnapshotNotFound { xid: " ++ dec xid ++ lit " }"
  | Decmpfs msg => lit "Decmpfs(" ++ quoted msg ++ lit ")"
  end.

(** [format!("{e:?}").contains(field)] *)
Definition debug_names `{IoDebug} (e : ApfsError) (field : string) : bool := contains (ApfsError_debug e) (lit field).

(** [vec![0u8; n]] *)
Definition zeroed (n : Z) : bytes := replicate (Z.to_nat n) x00.

(** [block[i] ^= 0xff] *)
Definition flip_byte (block : bytes) (i : Z) : bytes :=
  match get_index block i with Some b => put block i [z2b (Z.lxor (b2z b) 0xff)] | None => block end.

(** ** Lemmas on buffers built by writes *)

Lemma blen_zeroed n : 0 <= n -> blen (zeroed n) = n.
Proof. intros Hn. unfold zeroed, blen. rewrite length_replicate. lia. Qed.

Lemma zeroed_add a b : 0 <= a -> 0 <= b -> zeroed (a + b) = zeroed a ++ zeroed b.
Proof. intros Ha Hb. unfold zeroed. by rewrite Z2Nat.inj_add, replicate_add. Qed.

(** A write over the middle of a buffer. *)
Lemma put_app (p s q s' : bytes) off : off = blen p -> blen s' = blen s -> put (p ++ s ++ q) off s' = p ++ s' ++ q.
Proof.
  intros -> Hs. unfold put. rewrite Hs. unfold blen. rewrite <-Nat2Z.inj_add, !Nat2Z.id. rewrite take_app_length. do 2 f_equal.
  rewrite app_assoc, <-length_app. apply drop_app_length.
Qed.

Lemma blen_put_field data n off v (len : Z) :
  blen data = len -> 0 <= off -> off + Z.of_nat n <= len -> blen (put data off (to_le_bytes n v)) = len.
Proof. intros <- Ho Hn. apply blen_put; rewrite ?blen_to_le_bytes; lia. Qed.

Lemma arr_put_field data n off v (len : Z) :
  blen data = len -> 0 <= off -> off + Z.of_nat n <= len -> arr n (put data off (to_le_bytes n v)) off = to_le_bytes n v.
Proof. intros <- Ho Hn. apply arr_put; rewrite ?blen_to_le_bytes; lia. Qed.

Lemma arr_put_field_other data n off v (len : Z) k a :
  blen data = len -> 0 <= off -> off + Z.of_nat n <= len -> 0 <= a -> a + Z.of_nat k <= off \/ off + Z.of_nat n <= a ->
  arr k (put data off (to_le_bytes n v)) a = arr k data a.
Proof. intros <- Ho Hn Ha Hd. apply arr_put_other; rewrite ?blen_to_le_bytes; lia. Qed.

(** [fields_fit]: the length of a buffer under a stack of field writes. *)
Ltac fields_fit := repeat (apply blen_put_field; [|lia|lia]); apply blen_zeroed; lia.
(** [field_read len]: read a field through the writes above it, in a buffer of [len] bytes. *)
Ltac field_read len :=
  repeat (rewrite (arr_put_field_other _ _ _ _ len) by (lia || fields_fit));
  rewrite (arr_put_field _ _ _ _ len) by (lia || fields_fit); rewrite from_to_le_bytes; apply Z.mod_small; first [done | cbn; lia].

(** ** Lemmas on the text search *)

Lemma starts_with_app needle rest : starts_with needle (needle ++ rest) = true.
Proof. induction needle as [|n needle IH]; [done|]. cbn. by rewrite bool_decide_true, IH. Qed.

Lemma contains_app pre needle rest : contains (pre ++ needle ++ rest) needle = true.
Proof.
  induction pre as [|b pre IH]; cbn [app].
  - destruct (needle ++ rest) eqn:He; cbn [contains]; rewrite <-He, starts_with_app; done.
  - cbn [contains]. rewrite IH. apply orb_true_r.
Qed.

(** The error of a bad field names it. *)
Lemma debug_names_field `{IoDebug} structure field value cap : debug_names (FieldOutOfRange structure field value cap) field = true.
Proof.
  unfold debug_names.
  assert (ApfsError_debug (FieldOutOfRange structure field value cap) =
    (lit "FieldOutOfRange { structure: " ++ quoted structure ++ lit ", field: " ++ [x22]) ++ lit field ++
    ([x22] ++ lit ", value: " ++ dec value ++ lit ", cap: " ++ dec cap ++ lit " }")) as ->.
  { cbn [ApfsError_debug]. unfold quoted at 2. by rewrite <-!app_assoc. }
  apply contains_app.
Qed.
