(* ===== verification/Fixture.v ===== *)
(** Stored images as sources.

    The integration tests read images committed under tests/data, each over a megabyte and almost all zeros.  A [disk] holds such an image block by block, as a
    dump of what is not zero, and is a source in the sense of [ReadSeek]; [disk_read_at] says that reading it is reading the
    cursor over the whole file, byte for byte.  [FixtureData] has the images. *)

From S2P Require Import Prelude Bytes Errors Reader TestKit.

(** [run_suite]: evaluate the tests of a list, one by one. *)
Ltac run_suite := repeat (apply Forall_cons_2; [vm_refl|]); exact (Forall_nil_2 _).

(** ** Hexadecimal text *)

Record hex_text := Hex { hex_bytes : bytes }.

Definition hex_value (b : byte) : option Z :=
  let c := b2z b in
  if (48 <=? c) && (c <=? 57) then Some (c - 48) else if (97 <=? c) && (c <=? 102) then Some (c - 87) else None.
Fixpoint hex_decode (digits : bytes) : option bytes :=
  match digits with
  | [] => Some []
  | h :: l :: digits =>
      match hex_value h, hex_value l, hex_decode digits with
      | Some h, Some l, Some bs => Some (z2b (16 * h + l) :: bs)
      | _, _, _ => None
      end
  | [_] => None
  end.
Definition hex_digit (v : Z) : byte := z2b (if v <? 10 then 48 + v else 87 + v).
Definition hex_encode (bs : bytes) : bytes := concat (map (fun b => [hex_digit (b2z b / 16); hex_digit (b2z b mod 16)]) bs).

Definition hex_parse (digits : bytes) : option hex_text := option_map Hex (hex_decode digits).
Definition hex_print (h : hex_text) : bytes := hex_encode (hex_bytes h).

Declare Scope hex_scope.
Delimit Scope hex_scope with hex.
String Notation hex_text hex_parse hex_print : hex_scope.

(** ** Dumps and disks *)

Definition BLOCK_SIZE : Z := 4096.

(** A block as the runs of it that are not zero: where each starts, and its bytes. *)
Definition dump := list (Z * hex_text).
Fixpoint dumped (pos : Z) (d : dump) : bytes :=
  match d with
  | [] => []
  | (off, h) :: d => zeroed (off - pos) ++ hex_bytes h ++ dumped (off + blen (hex_bytes h)) d
  end.

Record disk := Disk { dk_count : Z; dk_block : Z -> bytes; dk_pos : Z }.

(** Block [i], filled up with zeros. *)
Definition disk_block (d : disk) (i : Z) : bytes := resize (Z.to_nat BLOCK_SIZE) x00 (dk_block d i).
(** The file the disk stands for. *)
Definition disk_bytes (d : disk) : bytes := concat (map (disk_block d) (seqZ 0 (dk_count d))).

(** A disk of [count] blocks, of which [blocks] are not zero. *)
Fixpoint find_dump (blocks : list (Z * dump)) (i : Z) : dump :=
  match blocks with
  | [] => []
  | (j, d) :: blocks => if i =? j then d else find_dump blocks i
  end.
Definition disk_of (count : Z) (blocks : list (Z * dump)) : disk := Disk count (fun i => dumped 0 (find_dump blocks i)) 0.

(** The blocks a read of [n] bytes at [pos] touches, cut to the read. *)
Definition disk_range (d : disk) (pos n : Z) : bytes :=
  let skip := pos mod BLOCK_SIZE in
  take (Z.to_nat n) (drop (Z.to_nat skip)
    (concat (map (disk_block d) (seqZ (pos / BLOCK_SIZE) ((skip + n + (BLOCK_SIZE - 1)) / BLOCK_SIZE))))).
Definition disk_read (d : disk) (pos n : Z) : option bytes :=
  if (0 <=? pos) && (0 <=? n) && (pos + n <=? dk_count d * BLOCK_SIZE) then Some (disk_range d pos n) else None.

(** [img[i..j]] of a whole block replaced. *)
Definition set_block (d : disk) (i : Z) (b : bytes) : disk := Disk (dk_count d) (fun j => if j =? i then b else dk_block d j) (dk_pos d).

(** ** The file behind a disk *)

Lemma blen_disk_block d i : blen (disk_block d i) = BLOCK_SIZE.
Proof. unfold disk_block, blen. rewrite length_resize. done. Qed.

Lemma seqZ_1 m : seqZ m 1 = [m].
Proof. rewrite seqZ_cons by lia. by rewrite seqZ_nil by lia. Qed.

Lemma blen_blocks d a n : 0 <= n -> blen (concat (map (disk_block d) (seqZ a n))) = n * BLOCK_SIZE.
Proof.
  intros Hn. revert a. pattern n. revert n Hn. apply natlike_ind; [intros a; by rewrite seqZ_nil by lia|].
  intros n Hn IH a. rewrite seqZ_cons by lia. cbn [map concat]. rewrite blen_app, blen_disk_block, Z.pred_succ, IH. lia.
Qed.

Lemma blen_disk_bytes d : 0 <= dk_count d -> blen (disk_bytes d) = dk_count d * BLOCK_SIZE.
Proof. apply blen_blocks. Qed.

(** Blocks [a .. a + k) of the file. *)
Lemma disk_bytes_blocks d a k :
  0 <= a -> 0 <= k -> a + k <= dk_count d ->
  get_range (disk_bytes d) (a * BLOCK_SIZE) ((a + k) * BLOCK_SIZE) = Some (concat (map (disk_block d) (seqZ a k))).
Proof.
  intros Ha Hk Hc. unfold disk_bytes.
  replace (dk_count d) with (a + (k + (dk_count d - (a + k)))) by lia.
  rewrite seqZ_app, seqZ_app, !map_app, !concat_app by lia. replace (0 + a) with a by lia.
  apply get_range_app; rewrite !blen_blocks; lia.
Qed.

Lemma disk_bytes_block d i : 0 <= i < dk_count d -> get_range (disk_bytes d) (i * BLOCK_SIZE) ((i + 1) * BLOCK_SIZE) = Some (disk_block d i).
Proof. intros Hi. rewrite disk_bytes_blocks by lia. rewrite seqZ_1. cbn [map concat]. by rewrite app_nil_r. Qed.

(** A read of the disk is the range of the file. *)
Lemma disk_read_range d pos n : 0 <= dk_count d -> disk_read d pos n = get_range (disk_bytes d) pos (pos + n).
Proof.
  intros Hc. unfold disk_read. destruct (Z.leb_spec 0 pos) as [Hp|Hp]; [|unfold get_range; by rewrite (proj2 (Z.leb_gt 0 pos) Hp)].
  destruct (Z.leb_spec 0 n) as [Hn|Hn]; [|unfold get_range; rewrite (proj2 (Z.leb_gt pos (pos + n))) by lia; cbn [andb]; by rewrite andb_false_r].
  cbn [andb]. destruct (Z.leb_spec (pos + n) (dk_count d * BLOCK_SIZE)) as [Hl|Hl].
  2: { symmetry. apply get_range_oob; [lia|]. by rewrite blen_disk_bytes. }
  set (a := pos / BLOCK_SIZE). set (skip := pos mod BLOCK_SIZE). set (k := (skip + n + (BLOCK_SIZE - 1)) / BLOCK_SIZE).
  assert (0 < BLOCK_SIZE) as HB by done.
  assert (0 <= skip < BLOCK_SIZE) as Hs by (by apply Z.mod_pos_bound).
  assert (pos = a * BLOCK_SIZE + skip) as Hpos by (unfold a, skip; rewrite (Z.div_mod pos BLOCK_SIZE) at 1 by done; lia).
  assert (0 <= a) as Ha by (by apply Z.div_pos).
  assert (k * BLOCK_SIZE <= skip + n + (BLOCK_SIZE - 1) < (k + 1) * BLOCK_SIZE) as Hk.
  { pose proof (Z.div_mod (skip + n + (BLOCK_SIZE - 1)) BLOCK_SIZE) as Hd. pose proof (Z.mod_pos_bound (skip + n + (BLOCK_SIZE - 1)) BLOCK_SIZE).
    fold k in Hd. lia. }
  assert (0 <= k) as Hk0 by (apply Z.div_pos; lia).
  assert (a + k <= dk_count d) as Hak by nia.
  pose proof (disk_bytes_blocks d a k Ha Hk0 Hak) as Hr.
  rewrite (get_range_within _ _ _ _ _ _ Hr) by lia. unfold disk_range. fold a skip.
  fold k. f_equal. f_equal; [lia|]. f_equal. lia.
Qed.

#[export] Program Instance disk_ReadSeek : ReadSeek disk := {|
  seek_start d off := inr (Disk (dk_count d) (dk_block d) off);
  read_exact d n := if n =? 0 then inr [] else match disk_read d (dk_pos d) n with Some bs => inr bs | None => inl UnexpectedEof end
|}.
Next Obligation.
  intros d n bs Hn Hr. cbn in Hr. destruct (Z.eqb_spec n 0) as [->|_]; [by injection Hr as <-|]. destruct (disk_read _ _ _) as [bs'|] eqn:Hd; [|done]. injection Hr as ->.
  destruct (Z_le_gt_dec 0 (dk_count d)) as [Hc|Hc]; [by rewrite disk_read_range in Hd by done; apply get_range_len in Hd; lia|].
  unfold disk_read in Hd. destruct (Z.leb_spec 0 (dk_pos d)) as [Hp|Hp]; [|done].
  rewrite (proj2 (Z.leb_gt (dk_pos d + n) _)), andb_false_r in Hd by (unfold BLOCK_SIZE; lia). done.
Qed.

(** Reading the disk is reading the file through a cursor. *)
Theorem disk_read_at d off n : 0 <= dk_count d -> read_at d off n = read_at (image (disk_bytes d)) off n.
Proof.
  intros Hc. destruct (Z.eqb_spec n 0) as [->|Hn]; [done|]. rewrite read_at_cursor by done. apply Z.eqb_neq in Hn. cbn [image cur_buf]. unfold read_at. cbn [seek_start read_exact disk_ReadSeek dk_pos]. rewrite Hn.
  rewrite disk_read_range by done. unfold disk_bytes, disk_block. cbn [dk_count dk_block]. by destruct (get_range _ off _).
Qed.

(** Replacing a block of the disk is overwriting its range of the file. *)
Lemma disk_block_set d i b j : disk_block (set_block d i b) j = if j =? i then resize (Z.to_nat BLOCK_SIZE) x00 b else disk_block d j.
Proof. unfold disk_block, set_block. cbn [dk_block]. by destruct (j =? i). Qed.

Theorem disk_bytes_set d i b :
  0 <= i < dk_count d -> blen b = BLOCK_SIZE -> disk_bytes (set_block d i b) = put (disk_bytes d) (i * BLOCK_SIZE) b.
Proof.
  intros Hi Hb. unfold disk_bytes. change (dk_count (set_block d i b)) with (dk_count d).
  replace (dk_count d) with (i + (1 + (dk_count d - (i + 1)))) by lia.
  rewrite !seqZ_app, !map_app, !concat_app by lia. rewrite seqZ_1. cbn [map concat]. rewrite !app_nil_r, Z.add_0_l.
  assert (forall a n, (forall j, a <= j < a + n -> j <> i) -> map (disk_block (set_block d i b)) (seqZ a n) = map (disk_block d) (seqZ a n)) as Ho.
  { intros a n Ha. apply map_ext_in. intros j Hj. rewrite disk_block_set. apply list_elem_of_In, elem_of_seqZ in Hj.
    specialize (Ha j Hj). by rewrite (proj2 (Z.eqb_neq j i) Ha). }
  rewrite !Ho by lia. rewrite disk_block_set, Z.eqb_refl, resize_all_alt by (rewrite <-Hb; unfold blen; by rewrite Nat2Z.id).
  symmetry. apply put_app; [by rewrite blen_blocks by lia|by rewrite blen_disk_block].
Qed.
