(* ===== verification/FixtureData.v ===== *)
(** The images the integration tests read: every byte of the files under tests/data that is not zero, by block. *)

From S2P Require Import Prelude Bytes Reader TestKit Fixture.

(** tests/data/apfs_nxsb_head.bin: the first 17 blocks of a container. *)
Definition HEAD_blocks : list (Z * dump) := [
  (0, [(0, "e6b53d5ef6fd032d01"%hex); (16, "02"%hex); (24, "01000080"%hex); (32, "4e58534200100000f67f"%hex); (64, "02"%hex);
    (72, "401150339523449696a20edadeeca5650604"%hex); (96, "03"%hex); (104, "080000003001000001"%hex); (120, "09"%hex);
    (128, "040000000600000002000000020000000200000004"%hex); (153, "04"%hex); (160, "5701"%hex); (168, "0104"%hex); (180, "010000000204"%hex);
    (984, "18"%hex); (1312, "0100040008"%hex); (1384, "a14315a9114908"%hex)]);
  (1, [(0, "96b2613f2d259e8001"%hex); (16, "01"%hex); (24, "0c000040"%hex); (32, "010000000200000005000080"%hex); (49, "10"%hex); (65, "04"%hex);
    (72, "09"%hex); (80, "11000080"%hex); (89, "10"%hex); (104, "0104"%hex); (112, "0a"%hex)]);
  (2, [(0, "d583a5ebe5c0b94801"%hex); (16, "01"%hex); (24, "01000080"%hex); (32, "4e58534200100000f67f"%hex); (64, "02"%hex);
    (72, "401150339523449696a20edadeeca5650204"%hex); (96, "02"%hex); (104, "080000003001000001"%hex); (120, "09"%hex); (128, "0200000002"%hex);
    (140, "02"%hex); (148, "02"%hex); (153, "04"%hex); (160, "4f01"%hex); (168, "0104"%hex); (180, "01"%hex); (984, "08"%hex);
    (1312, "0100040008"%hex)]);
  (3, [(0, "e06fc63ea03f398103"%hex); (16, "02"%hex); (24, "0c000040"%hex); (32, "010000000400000005000080"%hex); (49, "10"%hex); (65, "04"%hex);
    (72, "0b"%hex); (80, "11000080"%hex); (89, "10"%hex); (104, "0104"%hex); (112, "0c"%hex); (120, "0200008009"%hex); (129, "10"%hex);
    (144, "0304"%hex); (152, "0d"%hex); (160, "0200008009"%hex); (169, "10"%hex); (184, "0504"%hex); (192, "0e"%hex)]);
  (4, [(0, "07bf3d5ed8f4032d01"%hex); (16, "02"%hex); (24, "01000080"%hex); (32, "4e58534200100000f67f"%hex); (64, "02"%hex);
    (72, "401150339523449696a20edadeeca5650604"%hex); (96, "03"%hex); (104, "080000003001000001"%hex); (120, "09"%hex);
    (128, "040000000600000002000000020000000200000004"%hex); (153, "04"%hex); (160, "5701"%hex); (168, "0104"%hex); (180, "010000000204"%hex);
    (984, "15"%hex); (1312, "0100040008"%hex); (1384, "a14315a9114908"%hex)]);
  (9, [(0, "81a5c3ec9385f3920004"%hex); (16, "01"%hex); (24, "05000080"%hex); (33, "100000008000007e000000fb010000f67f"%hex); (56, "01"%hex);
    (64, "01"%hex); (72, "a57e"%hex); (80, "080a"%hex); (128, "100a"%hex); (144, "010000001000000006"%hex); (160, "01000000100000003901"%hex);
    (176, "4901"%hex); (224, "01"%hex); (264, "08"%hex); (320, "01000f00d8090000e0090000e809000001000000d809"%hex); (2520, "01"%hex);
    (2536, "ffff020003000400050006000700080009000a000b000c000d000e000f00ffff4901"%hex)]);
  (10, [(0, "1103b37f49e94c000104"%hex); (16, "01"%hex); (24, "11000080"%hex); (32, "01"%hex); (64, "01"%hex); (108, "900f"%hex)]);
  (11, [(0, "bd3a19274ae8ae580004"%hex); (16, "02"%hex); (24, "05000080"%hex); (33, "100000008000007e000000fb010000f67f"%hex); (56, "01"%hex);
    (64, "01"%hex); (72, "9d7e"%hex); (80, "080a"%hex); (128, "100a"%hex); (144, "010000001000000006"%hex); (160, "01000000100000003901"%hex);
    (176, "4901"%hex); (200, "02"%hex); (208, "0304"%hex); (216, "02"%hex); (224, "01"%hex); (240, "02"%hex); (248, "0504"%hex); (256, "02"%hex);
    (264, "08"%hex); (320, "02000000d8090000e0090000e809000001000000d809"%hex); (2520, "02"%hex); (2528, "01"%hex);
    (2536, "ffffffff03000400050006000700080009000a000b000c000d000e000f0000004b01"%hex)]);
  (12, [(0, "14ffb27f45ed4c000104"%hex); (16, "02"%hex); (24, "11000080"%hex); (32, "01"%hex); (64, "01"%hex); (108, "900f"%hex)]);
  (13, [(0, "346a79d11780f49e0304"%hex); (16, "02"%hex); (24, "02000080090000000700000001"%hex); (42, "40021000480dffff0000ffff"%hex); (58, "08"%hex);
    (632, "02"%hex); (640, "4901"%hex); (4048, "02"%hex); (4056, "0e"%hex); (4061, "1000001000000008000000100000000800000001"%hex);
    (4088, "01"%hex)]);
  (14, [(0, "f04d79d1539cf49e0504"%hex); (16, "02"%hex); (24, "02000080090000000700000001"%hex); (42, "40021000480dffff0000ffff"%hex); (58, "08"%hex);
    (632, "02"%hex); (640, "4f01"%hex); (4048, "02"%hex); (4056, "0e"%hex); (4061, "1000001000000008000000100000000800000001"%hex);
    (4088, "01"%hex)])].
Definition HEAD : disk := disk_of 17 HEAD_blocks.

(** tests/data/apfs_container_chain.bin: a freshly made container, up to its volume superblock. *)
Definition CHAIN_blocks : list (Z * dump) := [
  (0, [(0, "743cf7dcf345e42801"%hex); (16, "02"%hex); (24, "01000080"%hex); (32, "4e58534200100000f67f"%hex); (64, "02"%hex);
    (72, "c1ea5d3f05c644f8a95560464fefab100604"%hex); (96, "03"%hex); (104, "080000003001000001"%hex); (120, "09"%hex);
    (128, "040000000600000002000000020000000200000004"%hex); (153, "04"%hex); (160, "5701"%hex); (168, "0104"%hex); (180, "010000000204"%hex);
    (984, "18"%hex); (1312, "0100040008"%hex); (1384, "a14315a9114908"%hex)]);
  (1, [(0, "96b2613f2d259e8001"%hex); (16, "01"%hex); (24, "0c000040"%hex); (32, "010000000200000005000080"%hex); (49, "10"%hex); (65, "04"%hex);
    (72, "09"%hex); (80, "11000080"%hex); (89, "10"%hex); (104, "0104"%hex); (112, "0a"%hex)]);
  (2, [(0, "640a5f6ae2089a4401"%hex); (16, "01"%hex); (24, "01000080"%hex); (32, "4e58534200100000f67f"%hex); (64, "02"%hex);
    (72, "c1ea5d3f05c644f8a95560464fefab100204"%hex); (96, "02"%hex); (104, "080000003001000001"%hex); (120, "09"%hex); (128, "0200000002"%hex);
    (140, "02"%hex); (148, "02"%hex); (153, "04"%hex); (160, "4f01"%hex); (168, "0104"%hex); (180, "01"%hex); (984, "08"%hex);
    (1312, "0100040008"%hex)]);
  (3, [(0, "e06fc63ea03f398103"%hex); (16, "02"%hex); (24, "0c000040"%hex); (32, "010000000400000005000080"%hex); (49, "10"%hex); (65, "04"%hex);
    (72, "0b"%hex); (80, "11000080"%hex); (89, "10"%hex); (104, "0104"%hex); (112, "0c"%hex); (120, "0200008009"%hex); (129, "10"%hex);
    (144, "0304"%hex); (152, "0d"%hex); (160, "0200008009"%hex); (169, "10"%hex); (184, "0504"%hex); (192, "0e"%hex)]);
  (4, [(0, "9545f7dcd53ce42801"%hex); (16, "02"%hex); (24, "01000080"%hex); (32, "4e58534200100000f67f"%hex); (64, "02"%hex);
    (72, "c1ea5d3f05c644f8a95560464fefab100604"%hex); (96, "03"%hex); (104, "080000003001000001"%hex); (120, "09"%hex);
    (128, "040000000600000002000000020000000200000004"%hex); (153, "04"%hex); (160, "5701"%hex); (168, "0104"%hex); (180, "010000000204"%hex);
    (984, "15"%hex); (1312, "0100040008"%hex); (1384, "a14315a9114908"%hex)]);
  (9, [(0, "81a5c3ec9385f3920004"%hex); (16, "01"%hex); (24, "05000080"%hex); (33, "100000008000007e000000fb010000f67f"%hex); (56, "01"%hex);
    (64, "01"%hex); (72, "a57e"%hex); (80, "080a"%hex); (128, "100a"%hex); (144, "010000001000000006"%hex); (160, "01000000100000003901"%hex);
    (176, "4901"%hex); (224, "01"%hex); (264, "08"%hex); (320, "01000f00d8090000e0090000e809000001000000d809"%hex); (2520, "01"%hex);
    (2536, "ffff020003000400050006000700080009000a000b000c000d000e000f00ffff4901"%hex)]);
  (10, [(0, "1103b37f49e94c000104"%hex); (16, "01"%hex); (24, "11000080"%hex); (32, "01"%hex); (64, "01"%hex); (108, "900f"%hex)]);
  (11, [(0, "bd3a19274ae8ae580004"%hex); (16, "02"%hex); (24, "05000080"%hex); (33, "100000008000007e000000fb010000f67f"%hex); (56, "01"%hex);
    (64, "01"%hex); (72, "9d7e"%hex); (80, "080a"%hex); (128, "100a"%hex); (144, "010000001000000006"%hex); (160, "01000000100000003901"%hex);
    (176, "4901"%hex); (200, "02"%hex); (208, "0304"%hex); (216, "02"%hex); (224, "01"%hex); (240, "02"%hex); (248, "0504"%hex); (256, "02"%hex);
    (264, "08"%hex); (320, "02000000d8090000e0090000e809000001000000d809"%hex); (2520, "02"%hex); (2528, "01"%hex);
    (2536, "ffffffff03000400050006000700080009000a000b000c000d000e000f0000004b01"%hex)]);
  (12, [(0, "14ffb27f45ed4c000104"%hex); (16, "02"%hex); (24, "11000080"%hex); (32, "01"%hex); (64, "01"%hex); (108, "900f"%hex)]);
  (13, [(0, "346a79d11780f49e0304"%hex); (16, "02"%hex); (24, "02000080090000000700000001"%hex); (42, "40021000480dffff0000ffff"%hex); (58, "08"%hex);
    (632, "02"%hex); (640, "4901"%hex); (4048, "02"%hex); (4056, "0e"%hex); (4061, "1000001000000008000000100000000800000001"%hex);
    (4088, "01"%hex)]);
  (14, [(0, "f04d79d1539cf49e0504"%hex); (16, "02"%hex); (24, "02000080090000000700000001"%hex); (42, "40021000480dffff0000ffff"%hex); (58, "08"%hex);
    (632, "02"%hex); (640, "4f01"%hex); (4048, "02"%hex); (4056, "0e"%hex); (4061, "1000001000000008000000100000000800000001"%hex);
    (4088, "01"%hex)]);
  (313, [(0, "03"%hex)]);
  (314, [(0, "0f"%hex)]);
  (329, [(0, "5ba0083c6c5ef6834901"%hex); (16, "01"%hex); (24, "07000040"%hex); (36, "0100000001"%hex); (56, "f67f0000a57e00004a01"%hex)]);
  (330, [(0, "ffffffffffffffffffffffffffffffffffffffffffffffffffffffffffffffffffffffffffffffffffff01"%hex)]);
  (331, [(0, "17a8083cb256f6834b01"%hex); (16, "02"%hex); (24, "07000040"%hex); (36, "0100000002"%hex); (56, "f67f00009d7e00004c01"%hex)]);
  (332, [(0, "ffffffffffffffffffffffffffffffffffffffffffffffffffffffffffffffffffffffffffffffffffffff01"%hex)]);
  (335, [(0, "2b4df5ff23b00a404f01"%hex); (16, "01"%hex); (24, "0b000040"%hex); (32, "01"%hex); (40, "02000040020000405001"%hex)]);
  (336, [(0, "a3d29052c61bcd5d5001"%hex); (16, "01"%hex); (24, "020000400b00000007"%hex); (42, "c0010000e00dffff0000ffff"%hex); (4056, "12"%hex);
    (4061, "1000001000000010"%hex); (4088, "01"%hex)]);
  (337, [(0, "3f3df5ff0bc00a405101"%hex); (16, "02"%hex); (24, "0b000040"%hex); (40, "02000040020000405201"%hex)]);
  (338, [(0, "1c701192bd685c1e5201"%hex); (16, "02"%hex); (24, "020000400b0000000700000001"%hex); (42, "c0011000c00dffff0000ffff"%hex); (58, "10"%hex);
    (504, "0404"%hex); (512, "02"%hex); (4045, "1000005501"%hex); (4056, "12"%hex); (4061, "1000001000000010000000100000001000000001"%hex);
    (4088, "01"%hex)]);
  (339, [(0, "f5c01054502d4d5c5301"%hex); (16, "02"%hex); (24, "020000400f00000003"%hex); (42, "40000000600fffff0000ffff"%hex); (4056, "52"%hex);
    (4061, "10"%hex); (4088, "01"%hex)]);
  (340, [(0, "fcb8105447354d5c5401"%hex); (16, "02"%hex); (24, "020000401000000003"%hex); (42, "40000000600fffff0000ffff"%hex); (4056, "52"%hex);
    (4061, "10"%hex); (4088, "01"%hex)]);
  (341, [(0, "4e7e66defa7e49000404"%hex); (16, "02"%hex); (24, "020000000e0000000300000004"%hex);
    (42, "40003900230effff0000ffff000019001800900012000000110012001200110008007e006c0031000800040174"%hex); (120, "01"%hex);
    (127, "9005e471b6726f6f740002"%hex); (144, "3001"%hex); (152, "900c8ca6ac707269766174652d6469720003"%hex); (176, "30"%hex); (3796, "01"%hex);
    (3804, "03"%hex); (3812, "f1e0f43e2822bb18f1e0f43e2822bb18f1e0f43e2822bb18f1e0f43e2822bb180080"%hex); (3860, "01"%hex); (3876, "a441"%hex);
    (3888, "0100100004020c00707269766174652d646972"%hex); (3912, "03"%hex); (3920, "f1e0f43e2822bb18040001"%hex); (3938, "02"%hex);
    (3946, "2dd7f43e2822bb182dd7f43e2822bb182dd7f43e2822bb182dd7f43e2822bb180080"%hex); (3994, "01"%hex); (4002, "f501000014000000ed41"%hex);
    (4022, "0100080004020500726f6f74"%hex); (4038, "02"%hex); (4046, "2dd7f43e2822bb18040042"%hex); (4061, "10"%hex);
    (4072, "180000007400000004"%hex); (4088, "01"%hex)]);
  (342, [(0, "2a7b5cfe42a09dbe0204"%hex); (16, "02"%hex); (24, "0d"%hex); (32, "41505342"%hex); (40, "02"%hex); (56, "01"%hex); (88, "05"%hex);
    (96, "05"%hex); (104, "0600000029034718010000000200000002000040020000405101"%hex); (136, "0404"%hex); (144, "5301"%hex); (152, "5401"%hex);
    (176, "10"%hex); (240, "fa8b74aa4a8b439a9ea9db428f982f5d8ce3f43e2822bb1801"%hex);
    (272, "6e657766735f617066732028323333322e3134302e31332e3730302e3129000065f4f03e2822bb1802"%hex); (704, "415046534f5241434c45"%hex);
    (960, "03"%hex); (1040, "0200004002000040"%hex); (1056, "02"%hex); (1064, "1000000002"%hex); (1104, "02"%hex)]);
  (343, [(0, "8e09f5ffaff30a405701"%hex); (16, "02"%hex); (24, "0b000040"%hex); (32, "01"%hex); (40, "02000040020000405801"%hex)]);
  (344, [(0, "1b5f1192b9795c1e5801"%hex); (16, "02"%hex); (24, "020000400b0000000700000001"%hex); (42, "c0011000c00dffff0000ffff"%hex); (58, "10"%hex);
    (504, "0204"%hex); (512, "02"%hex); (4045, "1000005601"%hex); (4056, "12"%hex); (4061, "1000001000000010000000100000001000000001"%hex);
    (4088, "01"%hex)])].
Definition CHAIN : disk := disk_of 345 CHAIN_blocks.

(** tests/data/apfs_fstree.bin: a container with a small tree of files. *)
Definition FSTREE_blocks : list (Z * dump) := [
  (0, [(0, "06fa4ff03653c77801"%hex); (16, "06"%hex); (24, "01000080"%hex); (32, "4e58534200100000f67f"%hex); (64, "02"%hex);
    (72, "9f3bd8e43348466db14c1587ef593f520604"%hex); (96, "07"%hex); (104, "080000003001000001"%hex); (120, "09"%hex);
    (128, "040000001600000002000000020000001200000004"%hex); (153, "04"%hex); (160, "7401"%hex); (168, "0104"%hex); (180, "010000000204"%hex);
    (984, "49"%hex); (1312, "0100040008"%hex); (1384, "a14315a9114908"%hex)]);
  (1, [(0, "e7b1c53e68fd398101"%hex); (16, "05"%hex); (24, "0c000040"%hex); (32, "010000000400000005000080"%hex); (49, "10"%hex); (65, "04"%hex);
    (72, "17"%hex); (80, "11000080"%hex); (89, "10"%hex); (104, "0104"%hex); (112, "18"%hex); (120, "0200008009"%hex); (129, "10"%hex);
    (144, "0304"%hex); (152, "19"%hex); (160, "0200008009"%hex); (169, "10"%hex); (184, "0504"%hex); (192, "1a"%hex)]);
  (2, [(0, "7a6350f0e0e9c67801"%hex); (16, "05"%hex); (24, "01000080"%hex); (32, "4e58534200100000f67f"%hex); (64, "02"%hex);
    (72, "9f3bd8e43348466db14c1587ef593f520604"%hex); (96, "06"%hex); (104, "080000003001000001"%hex); (120, "09"%hex); (128, "0200000012"%hex);
    (140, "020000000e00000004"%hex); (153, "04"%hex); (160, "7101"%hex); (168, "0104"%hex); (180, "010000000204"%hex); (984, "3c"%hex);
    (1312, "0100040008"%hex); (1384, "a14315a9114908"%hex)]);
  (3, [(0, "ec67c53e50473a8103"%hex); (16, "06"%hex); (24, "0c000040"%hex); (32, "010000000400000005000080"%hex); (49, "10"%hex); (65, "04"%hex);
    (72, "1b"%hex); (80, "11000080"%hex); (89, "10"%hex); (104, "0104"%hex); (112, "1c"%hex); (120, "0200008009"%hex); (129, "10"%hex);
    (144, "0304"%hex); (152, "1d"%hex); (160, "0200008009"%hex); (169, "10"%hex); (184, "0504"%hex); (192, "1e"%hex)]);
  (4, [(0, "270350f0184ac77801"%hex); (16, "06"%hex); (24, "01000080"%hex); (32, "4e58534200100000f67f"%hex); (64, "02"%hex);
    (72, "9f3bd8e43348466db14c1587ef593f520604"%hex); (96, "07"%hex); (104, "080000003001000001"%hex); (120, "09"%hex);
    (128, "040000001600000002000000020000001200000004"%hex); (153, "04"%hex); (160, "7401"%hex); (168, "0104"%hex); (180, "010000000204"%hex);
    (984, "46"%hex); (1312, "0100040008"%hex); (1384, "a14315a9114908"%hex)]);
  (5, [(0, "e525c63e8889398105"%hex); (16, "03"%hex); (24, "0c000040"%hex); (32, "010000000400000005000080"%hex); (49, "10"%hex); (65, "04"%hex);
    (72, "0f"%hex); (80, "11000080"%hex); (89, "10"%hex); (104, "0104"%hex); (112, "10"%hex); (120, "0200008009"%hex); (129, "10"%hex);
    (144, "0304"%hex); (152, "11"%hex); (160, "0200008009"%hex); (169, "10"%hex); (184, "0504"%hex); (192, "12"%hex)]);
  (6, [(0, "0e1e51f0822fc67801"%hex); (16, "03"%hex); (24, "01000080"%hex); (32, "4e58534200100000f67f"%hex); (64, "02"%hex);
    (72, "9f3bd8e43348466db14c1587ef593f520604"%hex); (96, "04"%hex); (104, "080000003001000001"%hex); (120, "09"%hex);
    (128, "060000000a00000004000000020000000600000004"%hex); (153, "04"%hex); (160, "6201"%hex); (168, "0104"%hex); (180, "010000000204"%hex);
    (984, "21"%hex); (1312, "0100040008"%hex); (1384, "a14315a9114908"%hex)]);
  (7, [(0, "eadbc53e70d3398107"%hex); (16, "04"%hex); (24, "0c000040"%hex); (32, "010000000400000005000080"%hex); (49, "10"%hex); (65, "04"%hex);
    (72, "13"%hex); (80, "11000080"%hex); (89, "10"%hex); (104, "0104"%hex); (112, "14"%hex); (120, "0200008009"%hex); (129, "10"%hex);
    (144, "0304"%hex); (152, "15"%hex); (160, "0200008009"%hex); (169, "10"%hex); (184, "0504"%hex); (192, "16"%hex)]);
  (8, [(0, "81b950f0f293c67801"%hex); (16, "04"%hex); (24, "01000080"%hex); (32, "4e58534200100000f67f"%hex); (64, "02"%hex);
    (72, "9f3bd8e43348466db14c1587ef593f520604"%hex); (96, "05"%hex); (104, "080000003001000001"%hex); (120, "09"%hex);
    (132, "0e00000006000000020000000a00000004"%hex); (153, "04"%hex); (160, "6b01"%hex); (168, "0104"%hex); (180, "010000000204"%hex);
    (984, "2f"%hex); (1312, "0100040008"%hex); (1384, "a14315a9114908"%hex)]);
  (9, [(0, "81a5c3ec9385f3920004"%hex); (16, "01"%hex); (24, "05000080"%hex); (33, "100000008000007e000000fb010000f67f"%hex); (56, "01"%hex);
    (64, "01"%hex); (72, "a57e"%hex); (80, "080a"%hex); (128, "100a"%hex); (144, "010000001000000006"%hex); (160, "01000000100000003901"%hex);
    (176, "4901"%hex); (224, "01"%hex); (264, "08"%hex); (320, "01000f00d8090000e0090000e809000001000000d809"%hex); (2520, "01"%hex);
    (2536, "ffff020003000400050006000700080009000a000b000c000d000e000f00ffff4901"%hex)]);
  (10, [(0, "1103b37f49e94c000104"%hex); (16, "01"%hex); (24, "11000080"%hex); (32, "01"%hex); (64, "01"%hex); (108, "900f"%hex)]);
  (11, [(0, "bd3a19274ae8ae580004"%hex); (16, "02"%hex); (24, "05000080"%hex); (33, "100000008000007e000000fb010000f67f"%hex); (56, "01"%hex);
    (64, "01"%hex); (72, "9d7e"%hex); (80, "080a"%hex); (128, "100a"%hex); (144, "010000001000000006"%hex); (160, "01000000100000003901"%hex);
    (176, "4901"%hex); (200, "02"%hex); (208, "0304"%hex); (216, "02"%hex); (224, "01"%hex); (240, "02"%hex); (248, "0504"%hex); (256, "02"%hex);
    (264, "08"%hex); (320, "02000000d8090000e0090000e809000001000000d809"%hex); (2520, "02"%hex); (2528, "01"%hex);
    (2536, "ffffffff03000400050006000700080009000a000b000c000d000e000f0000004b01"%hex)]);
  (12, [(0, "14ffb27f45ed4c000104"%hex); (16, "02"%hex); (24, "11000080"%hex); (32, "01"%hex); (64, "01"%hex); (108, "900f"%hex)]);
  (13, [(0, "346a79d11780f49e0304"%hex); (16, "02"%hex); (24, "02000080090000000700000001"%hex); (42, "40021000480dffff0000ffff"%hex); (58, "08"%hex);
    (632, "02"%hex); (640, "4901"%hex); (4048, "02"%hex); (4056, "0e"%hex); (4061, "1000001000000008000000100000000800000001"%hex);
    (4088, "01"%hex)]);
  (14, [(0, "f04d79d1539cf49e0504"%hex); (16, "02"%hex); (24, "02000080090000000700000001"%hex); (42, "40021000480dffff0000ffff"%hex); (58, "08"%hex);
    (632, "02"%hex); (640, "4f01"%hex); (4048, "02"%hex); (4056, "0e"%hex); (4061, "1000001000000008000000100000000800000001"%hex);
    (4088, "01"%hex)]);
  (15, [(0, "4b396923bae95d5c0004"%hex); (16, "03"%hex); (24, "05000080"%hex); (33, "100000008000007e000000fb010000f67f"%hex); (56, "01"%hex);
    (64, "01"%hex); (72, "927e"%hex); (80, "080a"%hex); (128, "100a"%hex); (144, "010000001000000006"%hex); (160, "01000000100000003901"%hex);
    (176, "4901"%hex); (200, "04"%hex); (208, "0304"%hex); (216, "02"%hex); (224, "01"%hex); (240, "09"%hex); (248, "0504"%hex); (256, "02"%hex);
    (264, "08"%hex); (320, "03000100d8090000e0090000e809000001000000d809"%hex); (2520, "03"%hex); (2528, "02"%hex);
    (2536, "0100ffffffff0400050006000700080009000a000b000c000d000e000f0000004d01"%hex)]);
  (16, [(0, "17fbb27f41f14c000104"%hex); (16, "03"%hex); (24, "11000080"%hex); (32, "01"%hex); (64, "01"%hex); (108, "900f"%hex)]);
  (17, [(0, "408064f19868117f0304"%hex); (16, "03"%hex); (24, "02000080090000000700000002"%hex); (42, "40022000300dffff0000ffff"%hex);
    (58, "0800100010"%hex); (632, "02"%hex); (640, "4901"%hex); (648, "03"%hex); (656, "4b01"%hex); (4040, "02"%hex); (4048, "02"%hex);
    (4056, "0e"%hex); (4061, "1000001000000008000000100000000800000002"%hex); (4088, "01"%hex)]);
  (18, [(0, "a4797142b96bcc2d0504"%hex); (16, "03"%hex); (24, "02000080090000000700000003"%hex);
    (42, "40024000000d3000100018000800000008002000100010002000300018"%hex); (632, "02"%hex); (640, "4f01"%hex); (648, "03"%hex); (656, "5501"%hex);
    (664, "03"%hex); (672, "5101"%hex); (680, "ffff10"%hex); (688, "5701"%hex); (4024, "04"%hex); (4032, "ffff08"%hex); (4040, "03"%hex);
    (4048, "02"%hex); (4056, "0e"%hex); (4061, "1000001000000008000000100000000800000003"%hex); (4088, "01"%hex)]);
  (19, [(0, "bf39c12247e9065d0004"%hex); (16, "04"%hex); (24, "05000080"%hex); (33, "100000008000007e000000fb010000f67f"%hex); (56, "01"%hex);
    (64, "01"%hex); (72, "897e"%hex); (80, "080a"%hex); (128, "100a"%hex); (144, "010000001000000006"%hex); (160, "01000000100000003901"%hex);
    (176, "4901"%hex); (200, "04"%hex); (208, "0304"%hex); (216, "03"%hex); (224, "01"%hex); (240, "10"%hex); (248, "0504"%hex); (256, "02"%hex);
    (264, "08"%hex); (320, "04000200d8090000e0090000e809000001000000d809"%hex); (2520, "04"%hex); (2528, "03"%hex);
    (2536, "01000200ffffffff050006000700080009000a000b000c000d000e000f0000004901"%hex)]);
  (20, [(0, "1af7b27f3df54c000104"%hex); (16, "04"%hex); (24, "11000080"%hex); (32, "01"%hex); (64, "01"%hex); (108, "900f"%hex)]);
  (21, [(0, "e9675cf1e880197f0304"%hex); (16, "04"%hex); (24, "02000080090000000700000002"%hex);
    (42, "40022000300dffff0000ffff000010001000000008"%hex); (632, "04"%hex); (640, "4d01"%hex); (648, "03"%hex); (656, "4b01"%hex);
    (4040, "02"%hex); (4048, "02"%hex); (4056, "0e"%hex); (4061, "1000001000000008000000100000000800000002"%hex); (4088, "01"%hex)]);
  (22, [(0, "1c37e147aaaa5d280504"%hex); (16, "04"%hex); (24, "02000080090000000700000005"%hex);
    (42, "40026000d80c40001000180008000000080020001000100020003000ffff50002800400018"%hex); (632, "02"%hex); (640, "4f01"%hex); (648, "03"%hex);
    (656, "5501"%hex); (664, "03"%hex); (672, "5101"%hex); (680, "04"%hex); (688, "5a01"%hex); (696, "ffff10"%hex); (704, "6201"%hex);
    (712, "04"%hex); (720, "5e01"%hex); (4016, "06"%hex); (4024, "04"%hex); (4032, "ffff08"%hex); (4040, "03"%hex); (4048, "02"%hex);
    (4056, "0e"%hex); (4061, "1000001000000008000000100000000800000005"%hex); (4088, "01"%hex)]);
  (23, [(0, "362c111fcbf6b5600004"%hex); (16, "05"%hex); (24, "05000080"%hex); (33, "100000008000007e000000fb010000f67f"%hex); (56, "01"%hex);
    (64, "01"%hex); (72, "837e"%hex); (80, "080a"%hex); (128, "100a"%hex); (144, "010000001000000006"%hex); (160, "01000000100000003901"%hex);
    (176, "4901"%hex); (200, "04"%hex); (208, "0304"%hex); (216, "04"%hex); (224, "01"%hex); (240, "16"%hex); (248, "0504"%hex); (256, "02"%hex);
    (264, "08"%hex); (320, "05000300d8090000e0090000e809000001000000d809"%hex); (2520, "05"%hex); (2528, "04"%hex);
    (2536, "010002000300ffffffff06000700080009000a000b000c000d000e000f0000004b01"%hex)]);
  (24, [(0, "1df3b27f39f94c000104"%hex); (16, "05"%hex); (24, "11000080"%hex); (32, "01"%hex); (64, "01"%hex); (108, "900f"%hex)]);
  (25, [(0, "f86364f1d884117f0304"%hex); (16, "05"%hex); (24, "02000080090000000700000002"%hex); (42, "40022000300dffff0000ffff"%hex);
    (58, "0800100010"%hex); (632, "04"%hex); (640, "4d01"%hex); (648, "05"%hex); (656, "4901"%hex); (4040, "02"%hex); (4048, "02"%hex);
    (4056, "0e"%hex); (4061, "1000001000000008000000100000000800000002"%hex); (4088, "01"%hex)]);
  (26, [(0, "88ac62ea4f33c4850504"%hex); (16, "05"%hex); (24, "02000080090000000700000006"%hex);
    (42, "40027000c00c40001000180008000000080020001000100020003000ffff5000280060003000400018"%hex); (632, "02"%hex); (640, "4f01"%hex);
    (648, "03"%hex); (656, "5501"%hex); (664, "03"%hex); (672, "5101"%hex); (680, "04"%hex); (688, "5a01"%hex); (696, "ffff10"%hex);
    (704, "6b01"%hex); (712, "04"%hex); (720, "5e01"%hex); (728, "05"%hex); (736, "6701"%hex); (4008, "06"%hex); (4016, "06"%hex);
    (4024, "04"%hex); (4032, "ffff08"%hex); (4040, "03"%hex); (4048, "02"%hex); (4056, "0e"%hex);
    (4061, "1000001000000008000000100000000800000006"%hex); (4088, "01"%hex)]);
  (27, [(0, "2a1b651ed00763610004"%hex); (16, "06"%hex); (24, "05000080"%hex); (33, "100000008000007e000000fb010000f67f"%hex); (56, "01"%hex);
    (64, "01"%hex); (72, "807e"%hex); (80, "080a"%hex); (128, "100a"%hex); (144, "010000001000000006"%hex); (160, "01000000100000003901"%hex);
    (176, "4901"%hex); (200, "04"%hex); (208, "0304"%hex); (216, "05"%hex); (224, "01"%hex); (240, "19"%hex); (248, "0504"%hex); (256, "02"%hex);
    (264, "08"%hex); (320, "06000400d8090000e0090000e809000001000000d809"%hex); (2520, "06"%hex); (2528, "05"%hex);
    (2536, "0100020003000400ffffffff0700080009000a000b000c000d000e000f0000004d01"%hex)]);
  (28, [(0, "20efb27f35fd4c000104"%hex); (16, "06"%hex); (24, "11000080"%hex); (32, "01"%hex); (64, "01"%hex); (108, "900f"%hex)]);
  (29, [(0, "e75f5cf1e888197f0304"%hex); (16, "06"%hex); (24, "02000080090000000700000002"%hex);
    (42, "40022000300dffff0000ffff000010001000000008"%hex); (632, "06"%hex); (640, "4b01"%hex); (648, "05"%hex); (656, "4901"%hex);
    (4040, "02"%hex); (4048, "02"%hex); (4056, "0e"%hex); (4061, "1000001000000008000000100000000800000002"%hex); (4088, "01"%hex)]);
  (30, [(0, "b3d2ab6d230b5b020504"%hex); (16, "06"%hex); (24, "02000080090000000700000007"%hex);
    (42, "40028000a80c40001000180008000000080020001000100020003000ffff500028006000300070003800400018"%hex); (632, "02"%hex); (640, "4f01"%hex);
    (648, "03"%hex); (656, "5501"%hex); (664, "03"%hex); (672, "5101"%hex); (680, "04"%hex); (688, "5a01"%hex); (696, "ffff10"%hex);
    (704, "7101"%hex); (712, "04"%hex); (720, "5e01"%hex); (728, "05"%hex); (736, "6701"%hex); (744, "06"%hex); (752, "7001"%hex);
    (4000, "03"%hex); (4008, "06"%hex); (4016, "06"%hex); (4024, "04"%hex); (4032, "ffff08"%hex); (4040, "03"%hex); (4048, "02"%hex);
    (4056, "0e"%hex); (4061, "1000001000000008000000100000000800000007"%hex); (4088, "01"%hex)]);
  (313, [(0, "03"%hex)]);
  (314, [(0, "0f"%hex)]);
  (315, [(0, "3f"%hex)]);
  (316, [(0, "3f"%hex)]);
  (317, [(0, "3f"%hex)]);
  (318, [(0, "3f"%hex)]);
  (329, [(0, "f7f6083ce607f6834901"%hex); (16, "04"%hex); (24, "07000040"%hex); (36, "0100000004"%hex); (56, "f67f0000897e00004a01"%hex)]);
  (330, [(0, "ffffffffffffffffffffffffffffffffffffffffffffffffffffffffffffffffffffffffffffffffffffffffff1f"%hex)]);
  (331, [(0, "cff6083c0e08f6834b01"%hex); (16, "05"%hex); (24, "07000040"%hex); (36, "0100000005"%hex); (56, "f67f0000837e00004c01"%hex)]);
  (332, [(0, "ffffffffffffffffffffffffffffffffffffffffffffffffffffffffffffffffffffffffffffffffffffffffffff07"%hex)]);
  (333, [(0, "d1ea083c0914f6834d01"%hex); (16, "06"%hex); (24, "07000040"%hex); (36, "0100000006"%hex); (56, "f67f0000807e00004e01"%hex)]);
  (334, [(0, "ffffffffffffffffffffffffffffffffffffffffffffffffffffffffffffffffffffffffffffffffffffffffffff3f"%hex)]);
  (335, [(0, "2b4df5ff23b00a404f01"%hex); (16, "01"%hex); (24, "0b000040"%hex); (32, "01"%hex); (40, "02000040020000405001"%hex)]);
  (336, [(0, "a3d29052c61bcd5d5001"%hex); (16, "01"%hex); (24, "020000400b00000007"%hex); (42, "c0010000e00dffff0000ffff"%hex); (4056, "12"%hex);
    (4061, "1000001000000010"%hex); (4088, "01"%hex)]);
  (337, [(0, "3f3df5ff0bc00a405101"%hex); (16, "02"%hex); (24, "0b000040"%hex); (40, "02000040020000405201"%hex)]);
  (338, [(0, "1c701192bd685c1e5201"%hex); (16, "02"%hex); (24, "020000400b0000000700000001"%hex); (42, "c0011000c00dffff0000ffff"%hex); (58, "10"%hex);
    (504, "0404"%hex); (512, "02"%hex); (4045, "1000005501"%hex); (4056, "12"%hex); (4061, "1000001000000010000000100000001000000001"%hex);
    (4088, "01"%hex)]);
  (339, [(0, "f5c01054502d4d5c5301"%hex); (16, "02"%hex); (24, "020000400f00000003"%hex); (42, "40000000600fffff0000ffff"%hex); (4056, "52"%hex);
    (4061, "10"%hex); (4088, "01"%hex)]);
  (340, [(0, "fcb8105447354d5c5401"%hex); (16, "02"%hex); (24, "020000401000000003"%hex); (42, "40000000600fffff0000ffff"%hex); (4056, "52"%hex);
    (4061, "10"%hex); (4088, "01"%hex)]);
  (341, [(0, "8a3d248b83cda3680404"%hex); (16, "02"%hex); (24, "020000000e0000000300000004"%hex);
    (42, "40003900230effff0000ffff000019001800900012000000110012001200110008007e006c0031000800040174"%hex); (120, "01"%hex);
    (127, "9005e471b6726f6f740002"%hex); (144, "3001"%hex); (152, "900c8ca6ac707269766174652d6469720003"%hex); (176, "30"%hex); (3796, "01"%hex);
    (3804, "03"%hex); (3812, "db87dd2a2e26bb18db87dd2a2e26bb18db87dd2a2e26bb18db87dd2a2e26bb180080"%hex); (3860, "01"%hex); (3876, "a441"%hex);
    (3888, "0100100004020c00707269766174652d646972"%hex); (3912, "03"%hex); (3920, "db87dd2a2e26bb18040001"%hex); (3938, "02"%hex);
    (3946, "a07cdd2a2e26bb18a07cdd2a2e26bb18a07cdd2a2e26bb18a07cdd2a2e26bb180080"%hex); (3994, "01"%hex); (4002, "f501000014000000ed41"%hex);
    (4022, "0100080004020500726f6f74"%hex); (4038, "02"%hex); (4046, "a07cdd2a2e26bb18040042"%hex); (4061, "10"%hex);
    (4072, "180000007400000004"%hex); (4088, "01"%hex)]);
  (342, [(0, "9f9ef13cab9e562d0204"%hex); (16, "02"%hex); (24, "0d"%hex); (32, "41505342"%hex); (40, "02"%hex); (56, "01"%hex); (88, "05"%hex);
    (96, "05"%hex); (104, "0600000029034718010000000200000002000040020000405101"%hex); (136, "0404"%hex); (144, "5301"%hex); (152, "5401"%hex);
    (176, "10"%hex); (240, "5e3d4d6b1944490fbe9ce40ad2506a1d758add2a2e26bb1801"%hex);
    (272, "6e657766735f617066732028323333322e3134302e31332e3730302e312900004a72d92a2e26bb1802"%hex); (704, "415046535033"%hex); (960, "03"%hex);
    (1040, "0200004002000040"%hex); (1056, "02"%hex); (1064, "1000000002"%hex); (1104, "02"%hex)]);
  (343, [(0, "8e09f5ffaff30a405701"%hex); (16, "02"%hex); (24, "0b000040"%hex); (32, "01"%hex); (40, "02000040020000405801"%hex)]);
  (344, [(0, "1b5f1192b9795c1e5801"%hex); (16, "02"%hex); (24, "020000400b0000000700000001"%hex); (42, "c0011000c00dffff0000ffff"%hex); (58, "10"%hex);
    (504, "0204"%hex); (512, "02"%hex); (4045, "1000005601"%hex); (4056, "12"%hex); (4061, "1000001000000010000000100000001000000001"%hex);
    (4088, "01"%hex)]);
  (345, [(0, "41313536383235442d444233362d343143382d413136342d353731323239324141313339"%hex)]);
  (346, [(0, "2733e73614b476b95a01"%hex); (16, "03"%hex); (24, "020000400f0000000300000004"%hex); (42, "40002000f00effff0000ffff"%hex);
    (58, "0800140014000800080028001400100008003c00140018000800500014"%hex); (120, "5901"%hex); (127, "205b01"%hex); (135, "205c01"%hex);
    (143, "205d01"%hex); (151, "20"%hex); (3976, "01"%hex); (3983, "1016"%hex); (3992, "0100000001"%hex); (4003, "1015"%hex);
    (4012, "0100000001"%hex); (4023, "1014"%hex); (4032, "0100000001"%hex); (4043, "1011"%hex); (4052, "0100000052"%hex); (4061, "10"%hex);
    (4072, "080000001400000004"%hex); (4088, "01"%hex)]);
  (347, [(0, "426574682077617320686572652e2041504653205033206b6e6f776e20666978747572652e0a"%hex)]);
  (348, [(0, "544f505345435245542d30313233343536373839414243444546"%hex)]);
  (349, [(0, "746f70206c6576656c2066696c650a"%hex)]);
  (350, [(0, "70537a7162887edd0404"%hex); (16, "03"%hex); (24, "020000000e000000030000001b"%hex);
    (43, "0184011c06ffff00006806420119001800900012000000110012001200110008007e006c00930020003802080039001700160112005001140044051200b30011"%hex);
    (108, "100212003100080004017400500008008a01740058001b009c01120073000800d802a0007b00080014020400830010002c021800c400080044036c00e40015"%hex);
    (172, "ec011200cc001000fe011200dc000800b0036c001901170024041200f9000800d004a00001010800da01040009011000d601180030010800f005a000380108"%hex);
    (236, "30040400400110001204180064010800000798006c0108005005040074011000320518"%hex); (312, "01"%hex); (319, "9005e471b6726f6f740002"%hex);
    (336, "3001"%hex); (344, "900c8ca6ac707269766174652d6469720003"%hex); (368, "3002"%hex); (376, "900b14be9c2e66736576656e7473640010"%hex);
    (399, "3010"%hex); (407, "900f14121166736576656e7473642d757569640011"%hex); (434, "3011"%hex); (442, "6011"%hex); (450, "80"%hex);
    (459, "02"%hex); (466, "401600707572676561626c652d64726563732d66697865640002"%hex); (498, "900520ecca446972310012"%hex); (515, "3012"%hex);
    (523, "9004cc388c5375620013"%hex); (539, "3012"%hex); (547, "9009e8664f426574682e7478740014"%hex); (568, "3014"%hex); (576, "6014"%hex);
    (584, "80"%hex); (593, "13"%hex); (600, "900be45b8c7365637265742e62696e0015"%hex); (623, "3015"%hex); (631, "6015"%hex); (639, "80"%hex);
    (648, "02"%hex); (655, "90087841c7746f702e7478740016"%hex); (675, "3016"%hex); (683, "6016"%hex); (691, "80"%hex); (2264, "02"%hex);
    (2272, "16"%hex); (2280, "83204d103426bb18beaf4d103426bb18beaf4d103426bb1883204d103426bb180080"%hex); (2320, "01"%hex); (2328, "02"%hex);
    (2336, "6300000063000000a481"%hex); (2356, "020030000402080008202800746f702e747874000f"%hex); (2385, "10"%hex); (2400, "0f"%hex);
    (2416, "5c060c"%hex); (2428, "4c056c"%hex); (2436, "16"%hex);
    (2444, "83204d103426bb1883204d103426bb1883204d103426bb1883204d103426bb180080"%hex); (2484, "01"%hex); (2492, "01"%hex);
    (2500, "6300000063000000a481"%hex); (2520, "0100080004020800746f702e7478740013"%hex); (2544, "15"%hex);
    (2552, "aafd4b103426bb18935b4c103426bb18935b4c103426bb18aafd4b103426bb180080"%hex); (2592, "01"%hex); (2600, "02"%hex);
    (2608, "6300000063000000a481"%hex); (2628, "0200380004020b00082028007365637265742e62696e"%hex); (2656, "1a"%hex); (2665, "10"%hex);
    (2680, "1a"%hex); (2696, "010000001a0508"%hex); (2708, "16"%hex); (2716, "83204d103426bb1808000010"%hex); (2734, "5d01"%hex);
    (2750, "2c044a00bb180080"%hex); (2764, "01"%hex); (2772, "01"%hex); (2780, "6300000063000000a481"%hex);
    (2800, "0100100004020b007365637265742e62696e"%hex); (2824, "12"%hex); (2832, "14"%hex);
    (2840, "c6b24a103426bb1836474b103426bb1836474b103426bb18c6b24a103426bb180080"%hex); (2880, "01"%hex); (2888, "02"%hex);
    (2896, "6300000063000000a481"%hex); (2916, "020038000402090008202800426574682e747874"%hex); (2944, "26"%hex); (2953, "10"%hex);
    (2968, "26"%hex); (2984, "01000000fa0308"%hex); (2996, "15"%hex); (3004, "aafd4b103426bb1808000010"%hex); (3022, "5c01"%hex);
    (3038, "be014a00bb180080"%hex); (3052, "01"%hex); (3060, "01"%hex); (3068, "6300000063000000a481"%hex);
    (3088, "0100100004020900426574682e747874"%hex); (3112, "12"%hex); (3120, "13"%hex);
    (3128, "85f846103426bb186e004c103426bb186e004c103426bb1885f846103426bb180080"%hex); (3168, "01"%hex); (3176, "02"%hex);
    (3184, "6300000063000000ed41"%hex); (3204, "0100080004020400537562"%hex); (3220, "02"%hex); (3228, "12"%hex);
    (3236, "371246103426bb18aeb64a103426bb18aeb64a103426bb18371246103426bb180080"%hex); (3276, "02"%hex); (3284, "03"%hex);
    (3292, "6300000063000000ed41"%hex); (3312, "010008000402050044697231"%hex); (3328, "10"%hex); (3336, "11"%hex);
    (3344, "7b9ffc6e3126bb183bb977713126bb183bb977713126bb187b9ffc6e3126bb180080"%hex); (3384, "01"%hex); (3392, "02"%hex);
    (3400, "63000000630000008081"%hex); (3420, "0200380004020f000820280066736576656e7473642d75756964000024"%hex); (3457, "10"%hex);
    (3472, "24"%hex); (3488, "0200040002"%hex); (3501, "10"%hex); (3508, "5901"%hex); (3524, "0100000012"%hex);
    (3536, "371246103426bb18040013"%hex); (3554, "85f846103426bb18040014"%hex); (3572, "c6b24a103426bb18080001"%hex); (3587, "10"%hex);
    (3594, "5b01"%hex); (3610, "ffff22"%hex); (3620, "0100100004020f0066736576656e7473642d75756964000011"%hex);
    (3652, "7b9ffc6e3126bb18080002"%hex); (3670, "10"%hex); (3678, "57ceca6e3126bb1844b6fc6e3126bb1844b6fc6e3126bb1857ceca6e3126bb180080"%hex);
    (3718, "01"%hex); (3726, "02"%hex); (3734, "6300000063000000c041"%hex); (3754, "0100100004020b002e66736576656e747364"%hex); (3778, "10"%hex);
    (3786, "57ceca6e3126bb18040001"%hex); (3804, "03"%hex); (3812, "db87dd2a2e26bb18db87dd2a2e26bb18db87dd2a2e26bb18db87dd2a2e26bb180080"%hex);
    (3860, "01"%hex); (3876, "a441"%hex); (3888, "0100100004020c00707269766174652d646972"%hex); (3912, "03"%hex);
    (3920, "db87dd2a2e26bb18040001"%hex); (3938, "02"%hex); (3946, "a07cdd2a2e26bb1853284d103426bb1853284d103426bb18a07cdd2a2e26bb180080"%hex);
    (3986, "03"%hex); (3994, "04"%hex); (4002, "f501000014000000ed41"%hex); (4022, "0100080004020500726f6f74"%hex); (4038, "02"%hex);
    (4046, "a07cdd2a2e26bb18040042"%hex); (4061, "10"%hex); (4072, "20000000ac0000001b"%hex); (4088, "01"%hex)]);
  (351, [(0, "eac9f4ff43330b405f01"%hex); (16, "03"%hex); (24, "0b000040"%hex); (40, "02000040020000406001"%hex)]);
  (352, [(0, "400106a0e9c517106001"%hex); (16, "03"%hex); (24, "020000400b0000000700000001"%hex);
    (42, "c0012000a00d000010001000100010002000100020"%hex); (504, "ffff10"%hex); (512, "02"%hex); (520, "0404"%hex); (528, "03"%hex);
    (4029, "1000005e01"%hex); (4040, "ffff1000001000005501"%hex); (4056, "12"%hex); (4061, "1000001000000010000000100000001000000001"%hex);
    (4088, "01"%hex)]);
  (353, [(0, "ca9288f225684f920204"%hex); (16, "03"%hex); (24, "0d"%hex); (32, "41505342"%hex); (40, "02"%hex); (56, "01"%hex); (88, "09"%hex);
    (96, "05"%hex); (104, "0600000029034718010000000200000002000040020000405f01"%hex); (136, "0404"%hex); (144, "5a01"%hex); (152, "5401"%hex);
    (176, "17"%hex); (184, "04"%hex); (192, "03"%hex); (224, "04"%hex); (240, "5e3d4d6b1944490fbe9ce40ad2506a1d8ccc4d103426bb1801"%hex);
    (272, "6e657766735f617066732028323333322e3134302e31332e3730302e312900004a72d92a2e26bb1802"%hex); (704, "415046535033"%hex); (960, "03"%hex);
    (984, "10"%hex); (1040, "0200004002000040"%hex); (1056, "03"%hex); (1064, "1000000002"%hex); (1104, "02"%hex)]);
  (354, [(0, "15aef4ff114f0b406201"%hex); (16, "03"%hex); (24, "0b000040"%hex); (32, "01"%hex); (40, "02000040020000406301"%hex)]);
  (355, [(0, "01fc05a023cb17106301"%hex); (16, "03"%hex); (24, "020000400b0000000700000001"%hex);
    (42, "c0012000a00d000010001000100010002000100020"%hex); (504, "ffff10"%hex); (512, "02"%hex); (520, "0204"%hex); (528, "03"%hex);
    (4029, "1000006101"%hex); (4040, "ffff1000001000005601"%hex); (4056, "12"%hex); (4061, "1000001000000010000000100000001000000001"%hex);
    (4088, "01"%hex)]);
  (356, [(0, "1f8b08"%hex);
    (9, "13320ef671f1c8d95d76950108ae4f2995678000260624e0925964c8f0731144b281818151084d52df29b52443afa4a284816931449520509d08baaae0d22486"%hex);
    (73, "3f48c6086351a05f9c9a5c945aa2979499c7c08164982892da92fc02b0657c48f26248f2"%hex); (113, "ffff03005fee2cebd5"%hex)]);
  (357, [(0, "a67f9f495463be466501"%hex); (16, "04"%hex); (24, "020000400f0000000300000006"%hex); (42, "40003000b80effff0000ffff"%hex);
    (58, "0800140014000800080028001400100008003c0014001800080050001400200008006400140028000800780014"%hex); (120, "5901"%hex); (127, "205b01"%hex);
    (135, "205c01"%hex); (143, "205d01"%hex); (151, "206401"%hex); (159, "206601"%hex); (167, "20"%hex); (3936, "01"%hex); (3943, "1018"%hex);
    (3952, "0100000001"%hex); (3963, "1017"%hex); (3972, "0100000001"%hex); (3983, "1016"%hex); (3992, "0100000001"%hex); (4003, "1015"%hex);
    (4012, "0100000001"%hex); (4023, "1014"%hex); (4032, "0100000001"%hex); (4043, "1011"%hex); (4052, "0100000052"%hex); (4061, "10"%hex);
    (4072, "080000001400000006"%hex); (4088, "01"%hex)]);
  (358, [(0, "1f8b08"%hex);
    (9, "13320cf67159c0f0ea84150303835e5a716a596a5e49718a7e718e6e727e6e41620983eeba527906086064d043701401000000ffff0300be91447c3a"%hex)]);
  (359, [(0, "2f52490c1e29e77d0404"%hex); (16, "04"%hex); (24, "020000000e0000000300000023"%hex);
    (42, "4001fe010203ffff0000b808f60119001800900012000000110012001200110008007e006c00930020003802080039001700160112005001140044051200b3"%hex);
    (106, "1100100212003100080004017400500008008a01740058001b009c01120084011d005c061200c1011d007c07120073000800d802a0007b0008001402040083"%hex);
    (170, "10002c021800c400080044036c00e4001500ec011200cc001000fe011200dc000800b0036c001901170024041200f9000800d004a00001010800da0104000901"%hex);
    (234, "1000d601180030010800f005a0003801080030040400400110001204180064010800000798006c010800500504007401100032051800a10108003008a800a901"%hex);
    (298, "080068060400b10110004a061800de0108006009a800e601080088070400ee0110006a0718"%hex); (376, "01"%hex); (383, "9005e471b6726f6f740002"%hex);
    (400, "3001"%hex); (408, "900c8ca6ac707269766174652d6469720003"%hex); (432, "3002"%hex); (440, "900b14be9c2e66736576656e7473640010"%hex);
    (463, "3010"%hex); (471, "900f14121166736576656e7473642d757569640011"%hex); (498, "3011"%hex); (506, "6011"%hex); (514, "80"%hex);
    (523, "02"%hex); (530, "401600707572676561626c652d64726563732d66697865640002"%hex); (562, "900520ecca446972310012"%hex); (579, "3012"%hex);
    (587, "9004cc388c5375620013"%hex); (603, "3012"%hex); (611, "9009e8664f426574682e7478740014"%hex); (632, "3014"%hex); (640, "6014"%hex);
    (648, "80"%hex); (657, "13"%hex); (664, "900be45b8c7365637265742e62696e0015"%hex); (687, "3015"%hex); (695, "6015"%hex); (703, "80"%hex);
    (712, "02"%hex); (719, "90087841c7746f702e7478740016"%hex); (739, "3016"%hex); (747, "6016"%hex); (755, "80"%hex); (764, "10"%hex);
    (771, "9011b04033303030303030303031663735613330660017"%hex); (800, "3017"%hex); (808, "6017"%hex); (816, "80"%hex); (825, "10"%hex);
    (832, "90118c46dd303030303030303031663735613331300018"%hex); (861, "3018"%hex); (869, "6018"%hex); (877, "80"%hex); (1656, "10"%hex);
    (1664, "18"%hex); (1672, "36f18ce33626bb1816908ee33626bb1816908ee33626bb1836f18ce33626bb180080"%hex); (1712, "01"%hex); (1720, "03"%hex);
    (1728, "63000000630000008081"%hex); (1748, "02004000040211000820280030303030303030303166373561333130"%hex); (1784, "48"%hex); (1793, "10"%hex);
    (1808, "48"%hex); (1824, "ac080c"%hex); (1836, "84077c"%hex); (1844, "18"%hex);
    (1852, "36f18ce33626bb1836f18ce33626bb1836f18ce33626bb1836f18ce33626bb180080"%hex); (1892, "01"%hex); (1900, "01"%hex);
    (1908, "63000000630000008081"%hex); (1928, "010018000402110030303030303030303166373561333130"%hex); (1960, "10"%hex); (1968, "17"%hex);
    (1976, "d5ae85e33626bb18dd9c8ae33626bb18dd9c8ae33626bb18d5ae85e33626bb180080"%hex); (2016, "01"%hex); (2024, "03"%hex);
    (2032, "63000000630000008081"%hex); (2052, "02004000040211000820280030303030303030303166373561333066"%hex); (2088, "7d"%hex); (2097, "10"%hex);
    (2112, "7d"%hex); (2128, "01000000520708"%hex); (2140, "18"%hex); (2148, "36f18ce33626bb1808000010"%hex); (2166, "6601"%hex);
    (2182, "64065200bb180080"%hex); (2196, "01"%hex); (2204, "01"%hex); (2212, "63000000630000008081"%hex);
    (2232, "010018000402110030303030303030303166373561333066"%hex); (2264, "02"%hex); (2272, "16"%hex);
    (2280, "83204d103426bb18beaf4d103426bb18beaf4d103426bb1883204d103426bb180080"%hex); (2320, "01"%hex); (2328, "02"%hex);
    (2336, "6300000063000000a481"%hex); (2356, "020030000402080008202800746f702e747874000f"%hex); (2385, "10"%hex); (2400, "0f"%hex);
    (2416, "01000000320608"%hex); (2428, "17"%hex); (2436, "d5ae85e33626bb1808000010"%hex); (2454, "6401"%hex); (2470, "4c054200bb180080"%hex);
    (2484, "01"%hex); (2492, "01"%hex); (2500, "6300000063000000a481"%hex); (2520, "0100080004020800746f702e7478740013"%hex); (2544, "15"%hex);
    (2552, "aafd4b103426bb18935b4c103426bb18935b4c103426bb18aafd4b103426bb180080"%hex); (2592, "01"%hex); (2600, "02"%hex);
    (2608, "6300000063000000a481"%hex); (2628, "0200380004020b00082028007365637265742e62696e"%hex); (2656, "1a"%hex); (2665, "10"%hex);
    (2680, "1a"%hex); (2696, "010000001a0508"%hex); (2708, "16"%hex); (2716, "83204d103426bb1808000010"%hex); (2734, "5d01"%hex);
    (2750, "2c044a00bb180080"%hex); (2764, "01"%hex); (2772, "01"%hex); (2780, "6300000063000000a481"%hex);
    (2800, "0100100004020b007365637265742e62696e"%hex); (2824, "12"%hex); (2832, "14"%hex);
    (2840, "c6b24a103426bb1836474b103426bb1836474b103426bb18c6b24a103426bb180080"%hex); (2880, "01"%hex); (2888, "02"%hex);
    (2896, "6300000063000000a481"%hex); (2916, "020038000402090008202800426574682e747874"%hex); (2944, "26"%hex); (2953, "10"%hex);
    (2968, "26"%hex); (2984, "01000000fa0308"%hex); (2996, "15"%hex); (3004, "aafd4b103426bb1808000010"%hex); (3022, "5c01"%hex);
    (3038, "be014a00bb180080"%hex); (3052, "01"%hex); (3060, "01"%hex); (3068, "6300000063000000a481"%hex);
    (3088, "0100100004020900426574682e747874"%hex); (3112, "12"%hex); (3120, "13"%hex);
    (3128, "85f846103426bb186e004c103426bb186e004c103426bb1885f846103426bb180080"%hex); (3168, "01"%hex); (3176, "02"%hex);
    (3184, "6300000063000000ed41"%hex); (3204, "0100080004020400537562"%hex); (3220, "02"%hex); (3228, "12"%hex);
    (3236, "371246103426bb18aeb64a103426bb18aeb64a103426bb18371246103426bb180080"%hex); (3276, "02"%hex); (3284, "03"%hex);
    (3292, "6300000063000000ed41"%hex); (3312, "010008000402050044697231"%hex); (3328, "10"%hex); (3336, "11"%hex);
    (3344, "7b9ffc6e3126bb18c0aa8fe33626bb18b76990e33626bb18c0aa8fe33626bb180080"%hex); (3384, "01"%hex); (3392, "02"%hex);
    (3400, "63000000630000008081"%hex); (3420, "0200380004020f000820280066736576656e7473642d75756964000024"%hex); (3457, "10"%hex);
    (3472, "24"%hex); (3488, "0200040002"%hex); (3501, "10"%hex); (3508, "5901"%hex); (3524, "0100000012"%hex);
    (3536, "371246103426bb18040013"%hex); (3554, "85f846103426bb18040014"%hex); (3572, "c6b24a103426bb18080001"%hex); (3587, "10"%hex);
    (3594, "5b01"%hex); (3610, "ffff22"%hex); (3620, "0100100004020f0066736576656e7473642d75756964000011"%hex);
    (3652, "7b9ffc6e3126bb18080002"%hex); (3670, "10"%hex); (3678, "57ceca6e3126bb18b9fe8ce33626bb18b9fe8ce33626bb1857ceca6e3126bb180080"%hex);
    (3718, "03"%hex); (3726, "04"%hex); (3734, "6300000063000000c041"%hex); (3754, "0100100004020b002e66736576656e747364"%hex); (3778, "10"%hex);
    (3786, "57ceca6e3126bb18040001"%hex); (3804, "03"%hex); (3812, "db87dd2a2e26bb18db87dd2a2e26bb18db87dd2a2e26bb18db87dd2a2e26bb180080"%hex);
    (3860, "01"%hex); (3876, "a441"%hex); (3888, "0100100004020c00707269766174652d646972"%hex); (3912, "03"%hex);
    (3920, "db87dd2a2e26bb18040001"%hex); (3938, "02"%hex); (3946, "a07cdd2a2e26bb1853284d103426bb1853284d103426bb18a07cdd2a2e26bb180080"%hex);
    (3986, "03"%hex); (3994, "04"%hex); (4002, "f501000014000000ed41"%hex); (4022, "0100080004020500726f6f74"%hex); (4038, "02"%hex);
    (4046, "a07cdd2a2e26bb18040042"%hex); (4061, "10"%hex); (4072, "20000000b400000023"%hex); (4088, "01"%hex)]);
  (360, [(0, "597ef4ffc17e0b406801"%hex); (16, "04"%hex); (24, "0b000040"%hex); (40, "02000040020000406901"%hex)]);
  (361, [(0, "11c1551efa05e8916901"%hex); (16, "04"%hex); (24, "020000400b0000000700000001"%hex);
    (42, "c0012000a00d100010002000100000001000000010"%hex); (504, "0404"%hex); (512, "04"%hex); (520, "ffff10"%hex); (528, "03"%hex);
    (4024, "ffff1000001000005e01"%hex); (4045, "1000006701"%hex); (4056, "12"%hex); (4061, "1000001000000010000000100000001000000001"%hex);
    (4088, "01"%hex)]);
  (362, [(0, "96526ee5730827cc0204"%hex); (16, "04"%hex); (24, "0d"%hex); (32, "41505342"%hex); (40, "02"%hex); (56, "01"%hex); (88, "0b"%hex);
    (96, "05"%hex); (104, "0600000029034718010000000200000002000040020000406801"%hex); (136, "0404"%hex); (144, "6501"%hex); (152, "5401"%hex);
    (176, "19"%hex); (184, "06"%hex); (192, "03"%hex); (224, "06"%hex); (240, "5e3d4d6b1944490fbe9ce40ad2506a1d516c90e33626bb1801"%hex);
    (272, "6e657766735f617066732028323333322e3134302e31332e3730302e312900004a72d92a2e26bb1802"%hex); (704, "415046535033"%hex); (960, "03"%hex);
    (984, "10"%hex); (1040, "0200004002000040"%hex); (1056, "04"%hex); (1064, "1000000002"%hex); (1104, "02"%hex)]);
  (363, [(0, "8462f4ff8f9a0b406b01"%hex); (16, "04"%hex); (24, "0b000040"%hex); (32, "01"%hex); (40, "02000040020000406c01"%hex)]);
  (364, [(0, "c0bb551e440be8916c01"%hex); (16, "04"%hex); (24, "020000400b0000000700000001"%hex);
    (42, "c0012000a00d100010002000100000001000000010"%hex); (504, "0204"%hex); (512, "04"%hex); (520, "ffff10"%hex); (528, "03"%hex);
    (4024, "ffff1000001000006101"%hex); (4045, "1000006a01"%hex); (4056, "12"%hex); (4061, "1000001000000010000000100000001000000001"%hex);
    (4088, "01"%hex)]);
  (365, [(0, "c31647c511f37aae0404"%hex); (16, "05"%hex); (24, "020000000e0000000300000023"%hex);
    (42, "4001fe010203ffff0000b808f60119001800900012000000110012001200110008007e006c00930020003802080039001700160112005001140044051200b3"%hex);
    (106, "1100100212003100080004017400500008008a01740058001b009c01120084011d005c061200c1011d007c07120073000800d802a0007b0008001402040083"%hex);
    (170, "10002c021800c400080044036c00e4001500ec011200cc001000fe011200dc000800b0036c001901170024041200f9000800d004a00001010800da0104000901"%hex);
    (234, "1000d601180030010800f005a0003801080030040400400110001204180064010800000798006c010800500504007401100032051800a10108003008a800a901"%hex);
    (298, "080068060400b10110004a061800de0108006009a800e601080088070400ee0110006a0718"%hex); (376, "01"%hex); (383, "9005e471b6726f6f740002"%hex);
    (400, "3001"%hex); (408, "900c8ca6ac707269766174652d6469720003"%hex); (432, "3002"%hex); (440, "900b14be9c2e66736576656e7473640010"%hex);
    (463, "3010"%hex); (471, "900f14121166736576656e7473642d757569640011"%hex); (498, "3011"%hex); (506, "6011"%hex); (514, "80"%hex);
    (523, "02"%hex); (530, "401600707572676561626c652d64726563732d66697865640002"%hex); (562, "900520ecca446972310012"%hex); (579, "3012"%hex);
    (587, "9004cc388c5375620013"%hex); (603, "3012"%hex); (611, "9009e8664f426574682e7478740014"%hex); (632, "3014"%hex); (640, "6014"%hex);
    (648, "80"%hex); (657, "13"%hex); (664, "900be45b8c7365637265742e62696e0015"%hex); (687, "3015"%hex); (695, "6015"%hex); (703, "80"%hex);
    (712, "02"%hex); (719, "90087841c7746f702e7478740016"%hex); (739, "3016"%hex); (747, "6016"%hex); (755, "80"%hex); (764, "10"%hex);
    (771, "9011b04033303030303030303031663735613330660017"%hex); (800, "3017"%hex); (808, "6017"%hex); (816, "80"%hex); (825, "10"%hex);
    (832, "90118c46dd303030303030303031663735613331300018"%hex); (861, "3018"%hex); (869, "6018"%hex); (877, "80"%hex); (1656, "10"%hex);
    (1664, "18"%hex); (1672, "36f18ce33626bb1816908ee33626bb1816908ee33626bb1836f18ce33626bb180080"%hex); (1712, "01"%hex); (1720, "03"%hex);
    (1728, "63000000630000008081"%hex); (1748, "02004000040211000820280030303030303030303166373561333130"%hex); (1784, "48"%hex); (1793, "10"%hex);
    (1808, "48"%hex); (1824, "ac080c"%hex); (1836, "84077c"%hex); (1844, "18"%hex);
    (1852, "36f18ce33626bb1836f18ce33626bb1836f18ce33626bb1836f18ce33626bb180080"%hex); (1892, "01"%hex); (1900, "01"%hex);
    (1908, "63000000630000008081"%hex); (1928, "010018000402110030303030303030303166373561333130"%hex); (1960, "10"%hex); (1968, "17"%hex);
    (1976, "d5ae85e33626bb18dd9c8ae33626bb18dd9c8ae33626bb18d5ae85e33626bb180080"%hex); (2016, "01"%hex); (2024, "03"%hex);
    (2032, "63000000630000008081"%hex); (2052, "02004000040211000820280030303030303030303166373561333066"%hex); (2088, "7d"%hex); (2097, "10"%hex);
    (2112, "7d"%hex); (2128, "01000000520708"%hex); (2140, "18"%hex); (2148, "36f18ce33626bb1808000010"%hex); (2166, "6601"%hex);
    (2182, "64065200bb180080"%hex); (2196, "01"%hex); (2204, "01"%hex); (2212, "63000000630000008081"%hex);
    (2232, "010018000402110030303030303030303166373561333066"%hex); (2264, "02"%hex); (2272, "16"%hex);
    (2280, "83204d103426bb18beaf4d103426bb18beaf4d103426bb185038cb173426bb180080"%hex); (2320, "01"%hex); (2328, "02"%hex);
    (2336, "6300000063000000a481"%hex); (2356, "020030000402080008202800746f702e747874000f"%hex); (2385, "10"%hex); (2400, "0f"%hex);
    (2408, "0f"%hex); (2416, "01000000320608"%hex); (2428, "17"%hex); (2436, "d5ae85e33626bb1808000010"%hex); (2454, "6401"%hex);
    (2470, "4c054200bb180080"%hex); (2484, "01"%hex); (2492, "01"%hex); (2500, "6300000063000000a481"%hex);
    (2520, "0100080004020800746f702e7478740013"%hex); (2544, "15"%hex);
    (2552, "aafd4b103426bb18935b4c103426bb18935b4c103426bb188c85c7173426bb180080"%hex); (2592, "01"%hex); (2600, "02"%hex);
    (2608, "6300000063000000a481"%hex); (2628, "0200380004020b00082028007365637265742e62696e"%hex); (2656, "1a"%hex); (2665, "10"%hex);
    (2680, "1a"%hex); (2688, "1a"%hex); (2696, "010000001a0508"%hex); (2708, "16"%hex); (2716, "83204d103426bb1808000010"%hex); (2734, "5d01"%hex);
    (2750, "2c044a00bb180080"%hex); (2764, "01"%hex); (2772, "01"%hex); (2780, "6300000063000000a481"%hex);
    (2800, "0100100004020b007365637265742e62696e"%hex); (2824, "12"%hex); (2832, "14"%hex);
    (2840, "c6b24a103426bb1836474b103426bb1836474b103426bb183f84bf173426bb180080"%hex); (2880, "01"%hex); (2888, "02"%hex);
    (2896, "6300000063000000a481"%hex); (2916, "020038000402090008202800426574682e747874"%hex); (2944, "26"%hex); (2953, "10"%hex);
    (2968, "26"%hex); (2976, "26"%hex); (2984, "01000000fa0308"%hex); (2996, "15"%hex); (3004, "aafd4b103426bb1808000010"%hex); (3022, "5c01"%hex);
    (3038, "be014a00bb180080"%hex); (3052, "01"%hex); (3060, "01"%hex); (3068, "6300000063000000a481"%hex);
    (3088, "0100100004020900426574682e747874"%hex); (3112, "12"%hex); (3120, "13"%hex);
    (3128, "85f846103426bb186e004c103426bb186e004c103426bb1885f846103426bb180080"%hex); (3168, "01"%hex); (3176, "02"%hex);
    (3184, "6300000063000000ed41"%hex); (3204, "0100080004020400537562"%hex); (3220, "02"%hex); (3228, "12"%hex);
    (3236, "371246103426bb18aeb64a103426bb18aeb64a103426bb18371246103426bb180080"%hex); (3276, "02"%hex); (3284, "03"%hex);
    (3292, "6300000063000000ed41"%hex); (3312, "010008000402050044697231"%hex); (3328, "10"%hex); (3336, "11"%hex);
    (3344, "7b9ffc6e3126bb18c0aa8fe33626bb18b76990e33626bb18c0aa8fe33626bb180080"%hex); (3384, "01"%hex); (3392, "02"%hex);
    (3400, "63000000630000008081"%hex); (3420, "0200380004020f000820280066736576656e7473642d75756964000024"%hex); (3457, "10"%hex);
    (3472, "24"%hex); (3488, "0200040002"%hex); (3501, "10"%hex); (3508, "5901"%hex); (3524, "0100000012"%hex);
    (3536, "371246103426bb18040013"%hex); (3554, "85f846103426bb18040014"%hex); (3572, "c6b24a103426bb18080001"%hex); (3587, "10"%hex);
    (3594, "5b01"%hex); (3610, "ffff22"%hex); (3620, "0100100004020f0066736576656e7473642d75756964000011"%hex);
    (3652, "7b9ffc6e3126bb18080002"%hex); (3670, "10"%hex); (3678, "57ceca6e3126bb18b9fe8ce33626bb18b9fe8ce33626bb1857ceca6e3126bb180080"%hex);
    (3718, "03"%hex); (3726, "04"%hex); (3734, "6300000063000000c041"%hex); (3754, "0100100004020b002e66736576656e747364"%hex); (3778, "10"%hex);
    (3786, "57ceca6e3126bb18040001"%hex); (3804, "03"%hex); (3812, "db87dd2a2e26bb18db87dd2a2e26bb18db87dd2a2e26bb18db87dd2a2e26bb180080"%hex);
    (3860, "01"%hex); (3876, "a441"%hex); (3888, "0100100004020c00707269766174652d646972"%hex); (3912, "03"%hex);
    (3920, "db87dd2a2e26bb18040001"%hex); (3938, "02"%hex); (3946, "a07cdd2a2e26bb1853284d103426bb1853284d103426bb18a07cdd2a2e26bb180080"%hex);
    (3986, "03"%hex); (3994, "04"%hex); (4002, "f501000014000000ed41"%hex); (4022, "0100080004020500726f6f74"%hex); (4038, "02"%hex);
    (4046, "a07cdd2a2e26bb18040042"%hex); (4061, "10"%hex); (4072, "20000000b400000023"%hex); (4088, "01"%hex)]);
  (366, [(0, "a44af4ff69b20b406e01"%hex); (16, "05"%hex); (24, "0b000040"%hex); (40, "02000040020000406f01"%hex)]);
  (367, [(0, "70ad05a0831918106f01"%hex); (16, "05"%hex); (24, "020000400b0000000700000001"%hex);
    (42, "c0012000a00d000010001000100010002000100020"%hex); (504, "ffff10"%hex); (512, "04"%hex); (520, "0404"%hex); (528, "05"%hex);
    (4029, "1000006d01"%hex); (4040, "ffff1000001000006701"%hex); (4056, "12"%hex); (4061, "1000001000000010000000100000001000000001"%hex);
    (4088, "01"%hex)]);
  (368, [(0, "280f3c11ebe7dd5a0204"%hex); (16, "05"%hex); (24, "0d"%hex); (32, "41505342"%hex); (40, "02"%hex); (56, "01"%hex); (88, "0b"%hex);
    (96, "05"%hex); (104, "0600000029034718010000000200000002000040020000406e01"%hex); (136, "0404"%hex); (144, "6501"%hex); (152, "5401"%hex);
    (176, "19"%hex); (184, "06"%hex); (192, "03"%hex); (224, "06"%hex); (240, "5e3d4d6b1944490fbe9ce40ad2506a1d40d00b293726bb1801"%hex);
    (272, "6e657766735f617066732028323333322e3134302e31332e3730302e312900004a72d92a2e26bb1802"%hex); (704, "415046535033"%hex); (960, "03"%hex);
    (984, "10"%hex); (1040, "0200004002000040"%hex); (1056, "05"%hex); (1064, "1000000002"%hex); (1104, "02"%hex)]);
  (369, [(0, "cf2ef4ff37ce0b407101"%hex); (16, "05"%hex); (24, "0b000040"%hex); (32, "01"%hex); (40, "02000040020000407201"%hex)]);
  (370, [(0, "17a805a0d51e18107201"%hex); (16, "05"%hex); (24, "020000400b0000000700000001"%hex);
    (42, "c0012000a00d000010001000100010002000100020"%hex); (504, "ffff10"%hex); (512, "04"%hex); (520, "0204"%hex); (528, "05"%hex);
    (4029, "1000007001"%hex); (4040, "ffff1000001000006a01"%hex); (4056, "12"%hex); (4061, "1000001000000010000000100000001000000001"%hex);
    (4088, "01"%hex)]);
  (371, [(0, "b1a1dbbeb525ab450204"%hex); (16, "06"%hex); (24, "0d"%hex); (32, "41505342"%hex); (40, "02"%hex); (56, "01"%hex);
    (64, "8f13b5293726bb18"%hex); (88, "0b"%hex); (96, "05"%hex); (104, "0600000029034718010000000200000002000040020000406e01"%hex);
    (136, "0404"%hex); (144, "6501"%hex); (152, "5401"%hex); (176, "19"%hex); (184, "06"%hex); (192, "03"%hex); (224, "06"%hex);
    (240, "5e3d4d6b1944490fbe9ce40ad2506a1d40d00b293726bb1801"%hex);
    (272, "6e657766735f617066732028323333322e3134302e31332e3730302e312900004a72d92a2e26bb1802"%hex);
    (320, "617066735f6b6578742028323333322e3134302e31332e3730302e31290000007d08b5293726bb1806"%hex); (704, "415046535033"%hex); (960, "03"%hex);
    (984, "10"%hex); (992, "06"%hex); (1040, "0200004002000040"%hex); (1056, "06"%hex); (1064, "1000000002"%hex); (1104, "02"%hex)]);
  (372, [(0, "f612f4ff09ea0b407401"%hex); (16, "06"%hex); (24, "0b000040"%hex); (32, "01"%hex); (40, "02000040020000407501"%hex)]);
  (373, [(0, "5f80551e7e46e8917501"%hex); (16, "06"%hex); (24, "020000400b0000000700000001"%hex);
    (42, "c0012000a00d100010002000100000001000000010"%hex); (504, "0204"%hex); (512, "06"%hex); (520, "ffff10"%hex); (528, "05"%hex);
    (4024, "ffff1000001000007001"%hex); (4045, "1000007301"%hex); (4056, "12"%hex); (4061, "1000001000000010000000100000001000000001"%hex);
    (4088, "01"%hex)])].
Definition FSTREE : disk := disk_of 374 FSTREE_blocks.
