(* ===== verification/FixtureContent.v ===== *)
(** tests/data/apfs_content.bin, the image with file contents, attributes and a compressed file: every byte that is not zero, by block. *)

From S2P Require Import Prelude Bytes Reader TestKit Fixture.

(** tests/data/apfs_content.bin. *)
Definition CONTENT_blocks : list (Z * dump) := [
  (0, [(0, "a4c2990db211c4ca01"%hex); (16, "0e"%hex); (24, "01000080"%hex); (32, "4e58534200100000f67f"%hex); (64, "02"%hex);
    (72, "a3734c0601bc4e64a735f87f0c3d99d10604"%hex); (96, "0f"%hex); (104, "080000003001000001"%hex); (120, "09"%hex);
    (128, "040000003600000002000000020000003200000004"%hex); (153, "04"%hex); (160, "b701"%hex); (168, "0104"%hex); (180, "010000000204"%hex);
    (984, "b8"%hex); (1312, "0100040008"%hex); (1384, "a14315a9114908"%hex)]);
  (1, [(0, "ffa1c33ec80c3c8101"%hex); (16, "0d"%hex); (24, "0c000040"%hex); (32, "010000000400000005000080"%hex); (49, "10"%hex); (65, "04"%hex);
    (72, "37"%hex); (80, "11000080"%hex); (89, "10"%hex); (104, "0104"%hex); (112, "38"%hex); (120, "0200008009"%hex); (129, "10"%hex);
    (144, "0304"%hex); (152, "39"%hex); (160, "0200008009"%hex); (169, "10"%hex); (184, "0504"%hex); (192, "3a"%hex)]);
  (2, [(0, "182c9a0d5ca8c3ca01"%hex); (16, "0d"%hex); (24, "01000080"%hex); (32, "4e58534200100000f67f"%hex); (64, "02"%hex);
    (72, "a3734c0601bc4e64a735f87f0c3d99d10604"%hex); (96, "0e"%hex); (104, "080000003001000001"%hex); (120, "09"%hex); (128, "0200000032"%hex);
    (140, "020000002e00000004"%hex); (153, "04"%hex); (160, "b401"%hex); (168, "0104"%hex); (180, "010000000204"%hex); (984, "ab"%hex);
    (1312, "0100040008"%hex); (1384, "a14315a9114908"%hex)]);
  (3, [(0, "0458c33eb0563c8103"%hex); (16, "0e"%hex); (24, "0c000040"%hex); (32, "010000000400000005000080"%hex); (49, "10"%hex); (65, "04"%hex);
    (72, "3b"%hex); (80, "11000080"%hex); (89, "10"%hex); (104, "0104"%hex); (112, "3c"%hex); (120, "0200008009"%hex); (129, "10"%hex);
    (144, "0304"%hex); (152, "3d"%hex); (160, "0200008009"%hex); (169, "10"%hex); (184, "0504"%hex); (192, "3e"%hex)]);
  (4, [(0, "c5cb990d9408c4ca01"%hex); (16, "0e"%hex); (24, "01000080"%hex); (32, "4e58534200100000f67f"%hex); (64, "02"%hex);
    (72, "a3734c0601bc4e64a735f87f0c3d99d10604"%hex); (96, "0f"%hex); (104, "080000003001000001"%hex); (120, "09"%hex);
    (128, "040000003600000002000000020000003200000004"%hex); (153, "04"%hex); (160, "b701"%hex); (168, "0104"%hex); (180, "010000000204"%hex);
    (984, "b5"%hex); (1312, "0100040008"%hex); (1384, "a14315a9114908"%hex)]);
  (5, [(0, "fd15c43ee8983b8105"%hex); (16, "0b"%hex); (24, "0c000040"%hex); (32, "010000000400000005000080"%hex); (49, "10"%hex); (65, "04"%hex);
    (72, "2f"%hex); (80, "11000080"%hex); (89, "10"%hex); (104, "0104"%hex); (112, "30"%hex); (120, "0200008009"%hex); (129, "10"%hex);
    (144, "0304"%hex); (152, "31"%hex); (160, "0200008009"%hex); (169, "10"%hex); (184, "0504"%hex); (192, "32"%hex)]);
  (6, [(0, "ace69a0dfeedc2ca01"%hex); (16, "0b"%hex); (24, "01000080"%hex); (32, "4e58534200100000f67f"%hex); (64, "02"%hex);
    (72, "a3734c0601bc4e64a735f87f0c3d99d10604"%hex); (96, "0c"%hex); (104, "080000003001000001"%hex); (120, "09"%hex);
    (128, "060000002a00000004000000020000002600000004"%hex); (153, "04"%hex); (160, "a501"%hex); (168, "0104"%hex); (180, "010000000204"%hex);
    (984, "90"%hex); (1312, "0100040008"%hex); (1384, "a14315a9114908"%hex)]);
  (7, [(0, "02ccc33ed0e23b8107"%hex); (16, "0c"%hex); (24, "0c000040"%hex); (32, "010000000400000005000080"%hex); (49, "10"%hex); (65, "04"%hex);
    (72, "33"%hex); (80, "11000080"%hex); (89, "10"%hex); (104, "0104"%hex); (112, "34"%hex); (120, "0200008009"%hex); (129, "10"%hex);
    (144, "0304"%hex); (152, "35"%hex); (160, "0200008009"%hex); (169, "10"%hex); (184, "0504"%hex); (192, "36"%hex)]);
  (8, [(0, "1f829a0d6e52c3ca01"%hex); (16, "0c"%hex); (24, "01000080"%hex); (32, "4e58534200100000f67f"%hex); (64, "02"%hex);
    (72, "a3734c0601bc4e64a735f87f0c3d99d10604"%hex); (96, "0d"%hex); (104, "080000003001000001"%hex); (120, "09"%hex);
    (132, "2e00000006000000020000002a00000004"%hex); (153, "04"%hex); (160, "ae01"%hex); (168, "0104"%hex); (180, "010000000204"%hex);
    (984, "9e"%hex); (1312, "0100040008"%hex); (1384, "a14315a9114908"%hex)]);
  (9, [(0, "81a5c3ec9385f3920004"%hex); (16, "01"%hex); (24, "05000080"%hex); (33, "100000008000007e000000fb010000f67f"%hex); (56, "01"%hex);
    (64, "01"%hex); (72, "a57e"%hex); (80, "080a"%hex); (128, "100a"%hex); (144, "010000001000000006"%hex); (160, "01000000100000003901"%hex);
    (176, "4901"%hex); (224, "01"%hex); (264, "08"%hex); (320, "01000f00d8090000e0090000e809000001000000d809"%hex); (2520, "01"%hex);
    (2536, "ffff020003000400050006000700080009000a000b000c000d000e000f00ffff4901"%hex)]);
  (10, [(0, "1103b37f49e94c000104"%hex); (16, "01"%hex); (24, "11000080"%hex); (32, "01"%hex); (64, "01"%hex); (108, "900f"%hex)]);
  (11, [(0, "bd3a19274ae8ae580004"%hex); (16, "02"%hex); (24, "05000080"%hex); (33, "100000008000007e000000fb010000f67f"%hex); (56, "01"%hex);
    (64, "01"%hex); (72, "9d7e"%hex); (80, "080a"%hex); (128, "100a"%hex); (144, "010000001000000006"%hex); (160, "01000000100000003901"%hex);
    (176, "4901"%hex); (200, "02"%hex); (208, "0304"%hex); (216, "02"%hex); (224, "01"%hex); (240, "02"%hex); (248, "0504"%hex); (256, "02"%hex);
    (264, "08"%hex); (320, "02000000d8090000e0090000e809000001000000d809"%hex); (2520, "02"%hex); (2528, "01"%hex);
    (2536, "ffffffff03000400050006000700080009000a000b000c000d000e000f0000004b01"%hex)]);
  (12, [(0, "14ffb27f45ed4c000104"%hex); (16, "02"%hex); (24, "11000080"%hex); (32, "01"%hex); (64, "01"%hex); (108, "900f"%hex)]);
  (13, [(0, "346a79d11780f49e0304"%hex); (16, "02"%hex); (24, "02000080090000000700000001"%hex); (42, "40021000480dffff0000ffff"%hex); (58, "08"%hex);
    (632, "02"%hex); (640, "4901"%hex); (4048, "02"%hex); (4056, "0e"%hex); (4061, "1000001000000008000000100000000800000001"%hex);
    (4088, "01"%hex)]);
  (14, [(0, "f04d79d1539cf49e0504"%hex); (16, "02"%hex); (24, "02000080090000000700000001"%hex); (42, "40021000480dffff0000ffff"%hex); (58, "08"%hex);
    (632, "02"%hex); (640, "4f01"%hex); (4048, "02"%hex); (4056, "0e"%hex); (4061, "1000001000000008000000100000000800000001"%hex);
    (4088, "01"%hex)]);
  (15, [(0, "53416923b4e15d5c0004"%hex); (16, "03"%hex); (24, "05000080"%hex); (33, "100000008000007e000000fb010000f67f"%hex); (56, "01"%hex);
    (64, "01"%hex); (72, "8f7e"%hex); (80, "080a"%hex); (128, "100a"%hex); (144, "010000001000000006"%hex); (160, "01000000100000003901"%hex);
    (176, "4901"%hex); (200, "04"%hex); (208, "0304"%hex); (216, "02"%hex); (224, "01"%hex); (240, "0a"%hex); (248, "0504"%hex); (256, "02"%hex);
    (264, "08"%hex); (320, "03000100d8090000e0090000e809000001000000d809"%hex); (2520, "03"%hex); (2528, "02"%hex);
    (2536, "0100ffffffff0400050006000700080009000a000b000c000d000e000f0000004d01"%hex)]);
  (16, [(0, "17fbb27f41f14c000104"%hex); (16, "03"%hex); (24, "11000080"%hex); (32, "01"%hex); (64, "01"%hex); (108, "900f"%hex)]);
  (17, [(0, "408064f19868117f0304"%hex); (16, "03"%hex); (24, "02000080090000000700000002"%hex); (42, "40022000300dffff0000ffff"%hex);
    (58, "0800100010"%hex); (632, "02"%hex); (640, "4901"%hex); (648, "03"%hex); (656, "4b01"%hex); (4040, "02"%hex); (4048, "02"%hex);
    (4056, "0e"%hex); (4061, "1000001000000008000000100000000800000002"%hex); (4088, "01"%hex)]);
  (18, [(0, "b3e46ee806fff8870504"%hex); (16, "03"%hex); (24, "02000080090000000700000004"%hex);
    (42, "40025000f00c40001000180008000000080030001000100020002000ffff2000ffff"%hex); (632, "02"%hex); (640, "4f01"%hex); (648, "03"%hex);
    (656, "5501"%hex); (664, "03"%hex); (672, "5c01"%hex); (680, "03"%hex); (688, "5101"%hex); (696, "ffff10"%hex); (704, "5701"%hex);
    (4024, "04"%hex); (4032, "ffff08"%hex); (4040, "03"%hex); (4048, "02"%hex); (4056, "0e"%hex);
    (4061, "1000001000000008000000100000000800000004"%hex); (4088, "01"%hex)]);
  (19, [(0, "913ac12275e8065d0004"%hex); (16, "04"%hex); (24, "05000080"%hex); (33, "100000008000007e000000fb010000f67f"%hex); (56, "01"%hex);
    (64, "01"%hex); (72, "847e"%hex); (80, "080a"%hex); (128, "100a"%hex); (144, "010000001000000006"%hex); (160, "01000000100000003901"%hex);
    (176, "4901"%hex); (200, "04"%hex); (208, "0304"%hex); (216, "03"%hex); (224, "01"%hex); (240, "15"%hex); (248, "0504"%hex); (256, "02"%hex);
    (264, "08"%hex); (320, "04000200d8090000e0090000e809000001000000d809"%hex); (2520, "04"%hex); (2528, "03"%hex);
    (2536, "01000200ffffffff050006000700080009000a000b000c000d000e000f0000004901"%hex)]);
  (20, [(0, "1af7b27f3df54c000104"%hex); (16, "04"%hex); (24, "11000080"%hex); (32, "01"%hex); (64, "01"%hex); (108, "900f"%hex)]);
  (21, [(0, "e9675cf1e880197f0304"%hex); (16, "04"%hex); (24, "02000080090000000700000002"%hex);
    (42, "40022000300dffff0000ffff000010001000000008"%hex); (632, "04"%hex); (640, "4d01"%hex); (648, "03"%hex); (656, "4b01"%hex);
    (4040, "02"%hex); (4048, "02"%hex); (4056, "0e"%hex); (4061, "1000001000000008000000100000000800000002"%hex); (4088, "01"%hex)]);
  (22, [(0, "0d31dd8bb0ae72e40504"%hex); (16, "04"%hex); (24, "02000080090000000700000006"%hex);
    (42, "40027000c80c60001000280008000000080030001000100020002000ffff4000ffff50001800600028"%hex); (632, "02"%hex); (640, "4f01"%hex);
    (648, "03"%hex); (656, "5501"%hex); (664, "03"%hex); (672, "5c01"%hex); (680, "03"%hex); (688, "5101"%hex); (696, "04"%hex); (704, "5a01"%hex);
    (712, "04"%hex); (720, "5d01"%hex); (728, "ffff10"%hex); (736, "6501"%hex); (4016, "ffff08"%hex); (4024, "04"%hex); (4032, "0a"%hex);
    (4040, "03"%hex); (4048, "02"%hex); (4056, "0e"%hex); (4061, "1000001000000008000000100000000800000006"%hex); (4088, "01"%hex)]);
  (23, [(0, "0d22111ff100b6600004"%hex); (16, "05"%hex); (24, "05000080"%hex); (33, "100000008000007e000000fb010000f67f"%hex); (56, "01"%hex);
    (64, "01"%hex); (72, "7c7e"%hex); (80, "080a"%hex); (128, "100a"%hex); (144, "010000001000000006"%hex); (160, "01000000100000003901"%hex);
    (176, "4901"%hex); (200, "04"%hex); (208, "0304"%hex); (216, "04"%hex); (224, "01"%hex); (240, "20"%hex); (248, "0504"%hex); (256, "02"%hex);
    (264, "08"%hex); (320, "05000300d8090000e0090000e809000001000000d809"%hex); (2520, "05"%hex); (2528, "04"%hex);
    (2536, "010002000300ffffffff06000700080009000a000b000c000d000e000f0000004b01"%hex)]);
  (24, [(0, "1df3b27f39f94c000104"%hex); (16, "05"%hex); (24, "11000080"%hex); (32, "01"%hex); (64, "01"%hex); (108, "900f"%hex)]);
  (25, [(0, "f86364f1d884117f0304"%hex); (16, "05"%hex); (24, "02000080090000000700000002"%hex); (42, "40022000300dffff0000ffff"%hex);
    (58, "0800100010"%hex); (632, "04"%hex); (640, "4d01"%hex); (648, "05"%hex); (656, "4901"%hex); (4040, "02"%hex); (4048, "02"%hex);
    (4056, "0e"%hex); (4061, "1000001000000008000000100000000800000002"%hex); (4088, "01"%hex)]);
  (26, [(0, "6108d82e40d55f410504"%hex); (16, "05"%hex); (24, "02000080090000000700000007"%hex);
    (42, "40028000b00c70001000300008000000080030001000100020002000ffff4000ffff5000180060002800700030"%hex); (632, "02"%hex); (640, "4f01"%hex);
    (648, "03"%hex); (656, "5501"%hex); (664, "03"%hex); (672, "5c01"%hex); (680, "03"%hex); (688, "5101"%hex); (696, "04"%hex); (704, "5a01"%hex);
    (712, "04"%hex); (720, "5d01"%hex); (728, "05"%hex); (736, "6701"%hex); (744, "ffff10"%hex); (752, "7001"%hex); (4008, "ffff08"%hex);
    (4016, "0b"%hex); (4024, "04"%hex); (4032, "0a"%hex); (4040, "03"%hex); (4048, "02"%hex); (4056, "0e"%hex);
    (4061, "1000001000000008000000100000000800000007"%hex); (4088, "01"%hex)]);
  (27, [(0, "9815651e600d63610004"%hex); (16, "06"%hex); (24, "05000080"%hex); (33, "100000008000007e000000fb010000f67f"%hex); (56, "01"%hex);
    (64, "01"%hex); (72, "747e"%hex); (80, "080a"%hex); (128, "100a"%hex); (144, "010000001000000006"%hex); (160, "01000000100000003901"%hex);
    (176, "4901"%hex); (200, "04"%hex); (208, "0304"%hex); (216, "05"%hex); (224, "01"%hex); (240, "27"%hex); (248, "0504"%hex); (256, "02"%hex);
    (264, "08"%hex); (320, "06000400d8090000e0090000e809000001000000d809"%hex); (2520, "06"%hex); (2528, "05"%hex);
    (2536, "0100020003000400ffffffff0700080009000a000b000c000d000e000f0000004d01"%hex)]);
  (28, [(0, "20efb27f35fd4c000104"%hex); (16, "06"%hex); (24, "11000080"%hex); (32, "01"%hex); (64, "01"%hex); (108, "900f"%hex)]);
  (29, [(0, "e75f5cf1e888197f0304"%hex); (16, "06"%hex); (24, "02000080090000000700000002"%hex);
    (42, "40022000300dffff0000ffff000010001000000008"%hex); (632, "06"%hex); (640, "4b01"%hex); (648, "05"%hex); (656, "4901"%hex);
    (4040, "02"%hex); (4048, "02"%hex); (4056, "0e"%hex); (4061, "1000001000000008000000100000000800000002"%hex); (4088, "01"%hex)]);
  (30, [(0, "d96661f68172c7790504"%hex); (16, "06"%hex); (24, "02000080090000000700000009"%hex);
    (42, "4002a000880c80001000300008000000080030001000100020002000ffff4000ffff50001800600028007000ffff90003800800030"%hex); (632, "02"%hex);
    (640, "4f01"%hex); (648, "03"%hex); (656, "5501"%hex); (664, "03"%hex); (672, "5c01"%hex); (680, "03"%hex); (688, "5101"%hex); (696, "04"%hex);
    (704, "5a01"%hex); (712, "04"%hex); (720, "5d01"%hex); (728, "05"%hex); (736, "6701"%hex); (744, "06"%hex); (752, "7201"%hex);
    (760, "ffff10"%hex); (768, "7801"%hex); (776, "06"%hex); (784, "7401"%hex); (4000, "06"%hex); (4008, "ffff08"%hex); (4016, "0b"%hex);
    (4024, "04"%hex); (4032, "0a"%hex); (4040, "03"%hex); (4048, "02"%hex); (4056, "0e"%hex);
    (4061, "1000001000000008000000100000000800000009"%hex); (4088, "01"%hex)]);
  (31, [(0, "1e15b51adc0d12650004"%hex); (16, "07"%hex); (24, "05000080"%hex); (33, "100000008000007e000000fb010000f67f"%hex); (56, "01"%hex);
    (64, "01"%hex); (72, "6c7e"%hex); (80, "080a"%hex); (128, "100a"%hex); (144, "010000001000000006"%hex); (160, "01000000100000003901"%hex);
    (176, "4901"%hex); (200, "04"%hex); (208, "0304"%hex); (216, "06"%hex); (224, "01"%hex); (240, "2e"%hex); (248, "0504"%hex); (256, "02"%hex);
    (264, "08"%hex); (320, "07000500d8090000e0090000e809000001000000d809"%hex); (2520, "07"%hex); (2528, "06"%hex);
    (2536, "01000200030004000500ffffffff080009000a000b000c000d000e000f0000004901"%hex)]);
  (32, [(0, "23ebb27f31014d000104"%hex); (16, "07"%hex); (24, "11000080"%hex); (32, "01"%hex); (64, "01"%hex); (108, "900f"%hex)]);
  (33, [(0, "c84764f100a1117f0304"%hex); (16, "07"%hex); (24, "02000080090000000700000002"%hex); (42, "40022000300dffff0000ffff"%hex);
    (58, "0800100010"%hex); (632, "06"%hex); (640, "4b01"%hex); (648, "07"%hex); (656, "4d01"%hex); (4040, "02"%hex); (4048, "02"%hex);
    (4056, "0e"%hex); (4061, "1000001000000008000000100000000800000002"%hex); (4088, "01"%hex)]);
  (34, [(0, "6238a15b959e5f140504"%hex); (16, "07"%hex); (24, "0200008009000000070000000a"%hex);
    (42, "4002b000700ca0001000300008000000080030001000100020002000ffff4000ffff50001800600028007000ffff9000380080004000a00030"%hex);
    (632, "02"%hex); (640, "4f01"%hex); (648, "03"%hex); (656, "5501"%hex); (664, "03"%hex); (672, "5c01"%hex); (680, "03"%hex); (688, "5101"%hex);
    (696, "04"%hex); (704, "5a01"%hex); (712, "04"%hex); (720, "5d01"%hex); (728, "05"%hex); (736, "6701"%hex); (744, "06"%hex); (752, "7201"%hex);
    (760, "07"%hex); (768, "7b01"%hex); (776, "06"%hex); (784, "7401"%hex); (792, "ffff10"%hex); (800, "8001"%hex); (3992, "07"%hex);
    (4000, "06"%hex); (4008, "ffff08"%hex); (4016, "0b"%hex); (4024, "04"%hex); (4032, "0a"%hex); (4040, "03"%hex); (4048, "02"%hex);
    (4056, "0e"%hex); (4061, "100000100000000800000010000000080000000a"%hex); (4088, "01"%hex)]);
  (35, [(0, "9004051a631ec3650004"%hex); (16, "08"%hex); (24, "05000080"%hex); (33, "100000008000007e000000fb010000f67f"%hex); (56, "01"%hex);
    (64, "01"%hex); (72, "667e"%hex); (80, "080a"%hex); (128, "100a"%hex); (144, "010000001000000006"%hex); (160, "01000000100000003901"%hex);
    (176, "4901"%hex); (200, "04"%hex); (208, "0304"%hex); (216, "07"%hex); (224, "01"%hex); (240, "34"%hex); (248, "0504"%hex); (256, "02"%hex);
    (264, "08"%hex); (320, "08000600d8090000e0090000e809000001000000d809"%hex); (2520, "08"%hex); (2528, "07"%hex);
    (2536, "010002000300040005000600ffffffff09000a000b000c000d000e000f0000004b01"%hex)]);
  (36, [(0, "26e7b27f2d054d000104"%hex); (16, "08"%hex); (24, "11000080"%hex); (32, "01"%hex); (64, "01"%hex); (108, "900f"%hex)]);
  (37, [(0, "b7435cf110a5197f0304"%hex); (16, "08"%hex); (24, "02000080090000000700000002"%hex);
    (42, "40022000300dffff0000ffff000010001000000008"%hex); (632, "08"%hex); (640, "4901"%hex); (648, "07"%hex); (656, "4d01"%hex);
    (4040, "02"%hex); (4048, "02"%hex); (4056, "0e"%hex); (4061, "1000001000000008000000100000000800000002"%hex); (4088, "01"%hex)]);
  (38, [(0, "f53051a1a4a37fce0504"%hex); (16, "08"%hex); (24, "0200008009000000070000000b"%hex);
    (42, "4002c000580ca0001000300008000000080030001000100020002000ffff4000ffff50001800600028007000ffff9000380080004000b0004800a00030"%hex);
    (632, "02"%hex); (640, "4f01"%hex); (648, "03"%hex); (656, "5501"%hex); (664, "03"%hex); (672, "5c01"%hex); (680, "03"%hex); (688, "5101"%hex);
    (696, "04"%hex); (704, "5a01"%hex); (712, "04"%hex); (720, "5d01"%hex); (728, "05"%hex); (736, "6701"%hex); (744, "06"%hex); (752, "7201"%hex);
    (760, "07"%hex); (768, "7b01"%hex); (776, "06"%hex); (784, "7401"%hex); (792, "ffff10"%hex); (800, "8801"%hex); (808, "08"%hex);
    (816, "8401"%hex); (3984, "06"%hex); (3992, "07"%hex); (4000, "06"%hex); (4008, "ffff08"%hex); (4016, "0b"%hex); (4024, "04"%hex);
    (4032, "0a"%hex); (4040, "03"%hex); (4048, "02"%hex); (4056, "0e"%hex); (4061, "100000100000000800000010000000080000000b"%hex);
    (4088, "01"%hex)]);
  (39, [(0, "18fb5416d72772690004"%hex); (16, "09"%hex); (24, "05000080"%hex); (33, "100000008000007e000000fb010000f67f"%hex); (56, "01"%hex);
    (64, "01"%hex); (72, "5e7e"%hex); (80, "080a"%hex); (128, "100a"%hex); (144, "010000001000000006"%hex); (160, "01000000100000003901"%hex);
    (176, "4901"%hex); (200, "04"%hex); (208, "0304"%hex); (216, "08"%hex); (224, "01"%hex); (240, "3b"%hex); (248, "0504"%hex); (256, "02"%hex);
    (264, "08"%hex); (320, "09000700d8090000e0090000e809000001000000d809"%hex); (2520, "09"%hex); (2528, "08"%hex);
    (2536, "0100020003000400050006000700ffffffff0a000b000c000d000e000f0000004d01"%hex)]);
  (40, [(0, "29e3b27f29094d000104"%hex); (16, "09"%hex); (24, "11000080"%hex); (32, "01"%hex); (64, "01"%hex); (108, "900f"%hex)]);
  (41, [(0, "c63f64f100a9117f0304"%hex); (16, "09"%hex); (24, "02000080090000000700000002"%hex); (42, "40022000300dffff0000ffff"%hex);
    (58, "0800100010"%hex); (632, "08"%hex); (640, "4901"%hex); (648, "09"%hex); (656, "4b01"%hex); (4040, "02"%hex); (4048, "02"%hex);
    (4056, "0e"%hex); (4061, "1000001000000008000000100000000800000002"%hex); (4088, "01"%hex)]);
  (42, [(0, "b707500ce2c759630504"%hex); (16, "09"%hex); (24, "0200008009000000070000000d"%hex);
    (42, "4002e000300cc0001000300008000000080030001000100020002000ffff4000ffff50001800600028007000ffff9000380080004000b0004800a000ffffd0"%hex);
    (106, "5000c00030"%hex); (632, "02"%hex); (640, "4f01"%hex); (648, "03"%hex); (656, "5501"%hex); (664, "03"%hex); (672, "5c01"%hex);
    (680, "03"%hex); (688, "5101"%hex); (696, "04"%hex); (704, "5a01"%hex); (712, "04"%hex); (720, "5d01"%hex); (728, "05"%hex); (736, "6701"%hex);
    (744, "06"%hex); (752, "7201"%hex); (760, "07"%hex); (768, "7b01"%hex); (776, "06"%hex); (784, "7401"%hex); (792, "09"%hex); (800, "8301"%hex);
    (808, "08"%hex); (816, "8401"%hex); (824, "ffff10"%hex); (832, "8e01"%hex); (840, "09"%hex); (848, "8a01"%hex); (3976, "06"%hex);
    (3984, "06"%hex); (3992, "07"%hex); (4000, "06"%hex); (4008, "ffff08"%hex); (4016, "0b"%hex); (4024, "04"%hex); (4032, "0a"%hex);
    (4040, "03"%hex); (4048, "02"%hex); (4056, "0e"%hex); (4061, "100000100000000800000010000000080000000d"%hex); (4088, "01"%hex)]);
  (43, [(0, "9df7a015522b276a0004"%hex); (16, "0a"%hex); (24, "05000080"%hex); (33, "100000008000007e000000fb010000f67f"%hex); (56, "01"%hex);
    (64, "01"%hex); (72, "567e"%hex); (80, "080a"%hex); (128, "100a"%hex); (144, "010000001000000006"%hex); (160, "01000000100000003901"%hex);
    (176, "4901"%hex); (200, "04"%hex); (208, "0304"%hex); (216, "09"%hex); (224, "01"%hex); (240, "42"%hex); (248, "0504"%hex); (256, "02"%hex);
    (264, "08"%hex); (320, "0a000800d8090000e0090000e809000001000000d809"%hex); (2520, "0a"%hex); (2528, "09"%hex);
    (2536, "01000200030004000500060007000800ffffffff0b000c000d000e000f0000004901"%hex)]);
  (44, [(0, "2cdfb27f250d4d000104"%hex); (16, "0a"%hex); (24, "11000080"%hex); (32, "01"%hex); (64, "01"%hex); (108, "900f"%hex)]);
  (45, [(0, "6f275cf150c1197f0304"%hex); (16, "0a"%hex); (24, "02000080090000000700000002"%hex);
    (42, "40022000300dffff0000ffff000010001000000008"%hex); (632, "0a"%hex); (640, "4d01"%hex); (648, "09"%hex); (656, "4b01"%hex);
    (4040, "02"%hex); (4048, "02"%hex); (4056, "0e"%hex); (4061, "1000001000000008000000100000000800000002"%hex); (4088, "01"%hex)]);
  (46, [(0, "d6abfe1406216b5a0504"%hex); (16, "0a"%hex); (24, "0200008009000000070000000e"%hex);
    (42, "4002f000180ce0001000300008000000080030001000100020002000ffff4000ffff50001800600028007000ffff9000380080004000b0004800a000ffffd0"%hex);
    (106, "5000c0005800e00030"%hex); (632, "02"%hex); (640, "4f01"%hex); (648, "03"%hex); (656, "5501"%hex); (664, "03"%hex); (672, "5c01"%hex);
    (680, "03"%hex); (688, "5101"%hex); (696, "04"%hex); (704, "5a01"%hex); (712, "04"%hex); (720, "5d01"%hex); (728, "05"%hex); (736, "6701"%hex);
    (744, "06"%hex); (752, "7201"%hex); (760, "07"%hex); (768, "7b01"%hex); (776, "06"%hex); (784, "7401"%hex); (792, "09"%hex); (800, "8301"%hex);
    (808, "08"%hex); (816, "8401"%hex); (824, "0a"%hex); (832, "9101"%hex); (840, "09"%hex); (848, "8a01"%hex); (856, "ffff10"%hex);
    (864, "9601"%hex); (3968, "07"%hex); (3976, "06"%hex); (3984, "06"%hex); (3992, "07"%hex); (4000, "06"%hex); (4008, "ffff08"%hex);
    (4016, "0b"%hex); (4024, "04"%hex); (4032, "0a"%hex); (4040, "03"%hex); (4048, "02"%hex); (4056, "0e"%hex);
    (4061, "100000100000000800000010000000080000000e"%hex); (4088, "01"%hex)]);
  (47, [(0, "a8e2f0114040d66d0004"%hex); (16, "0b"%hex); (24, "05000080"%hex); (33, "100000008000007e000000fb010000f67f"%hex); (56, "01"%hex);
    (64, "01"%hex); (72, "4f7e"%hex); (80, "080a"%hex); (128, "100a"%hex); (144, "010000001000000006"%hex); (160, "01000000100000003901"%hex);
    (176, "4901"%hex); (200, "04"%hex); (208, "0304"%hex); (216, "0a"%hex); (224, "01"%hex); (240, "4b"%hex); (248, "0504"%hex); (256, "02"%hex);
    (264, "08"%hex); (320, "0b000900d8090000e0090000e809000001000000d809"%hex); (2520, "0b"%hex); (2528, "0a"%hex);
    (2536, "010002000300040005000600070008000900ffffffff0c000d000e000f0000004b01"%hex)]);
  (48, [(0, "2fdbb27f21114d000104"%hex); (16, "0b"%hex); (24, "11000080"%hex); (32, "01"%hex); (64, "01"%hex); (108, "900f"%hex)]);
  (49, [(0, "7e2364f140c5117f0304"%hex); (16, "0b"%hex); (24, "02000080090000000700000002"%hex); (42, "40022000300dffff0000ffff"%hex);
    (58, "0800100010"%hex); (632, "0a"%hex); (640, "4d01"%hex); (648, "0b"%hex); (656, "4901"%hex); (4040, "02"%hex); (4048, "02"%hex);
    (4056, "0e"%hex); (4061, "1000001000000008000000100000000800000002"%hex); (4088, "01"%hex)]);
  (50, [(0, "05bde441510a4e2d0504"%hex); (16, "0b"%hex); (24, "02000080090000000700000010"%hex);
    (42, "40021001f00be0001000600008000000080030001000100020002000ffff4000ffff50001800600028007000ffff9000380080004000b0004800a000ffffd0"%hex);
    (106, "5000c0005800f000ffff00013000e00060"%hex); (632, "02"%hex); (640, "4f01"%hex); (648, "03"%hex); (656, "5501"%hex); (664, "03"%hex);
    (672, "5c01"%hex); (680, "03"%hex); (688, "5101"%hex); (696, "04"%hex); (704, "5a01"%hex); (712, "04"%hex); (720, "5d01"%hex); (728, "05"%hex);
    (736, "6701"%hex); (744, "06"%hex); (752, "7201"%hex); (760, "07"%hex); (768, "7b01"%hex); (776, "06"%hex); (784, "7401"%hex); (792, "09"%hex);
    (800, "8301"%hex); (808, "08"%hex); (816, "8401"%hex); (824, "0a"%hex); (832, "9101"%hex); (840, "09"%hex); (848, "8a01"%hex);
    (856, "ffff10"%hex); (864, "9e01"%hex); (872, "0b"%hex); (880, "8201"%hex); (888, "0b"%hex); (896, "9801"%hex); (3960, "ffff08"%hex);
    (3968, "07"%hex); (3976, "06"%hex); (3984, "06"%hex); (3992, "07"%hex); (4000, "06"%hex); (4008, "08"%hex); (4016, "0b"%hex); (4024, "04"%hex);
    (4032, "0a"%hex); (4040, "03"%hex); (4048, "02"%hex); (4056, "0e"%hex); (4061, "1000001000000008000000100000000800000010"%hex);
    (4088, "01"%hex)]);
  (51, [(0, "22da3811c1488f6e0004"%hex); (16, "0c"%hex); (24, "05000080"%hex); (33, "100000008000007e000000fb010000f67f"%hex); (56, "01"%hex);
    (64, "01"%hex); (72, "467e"%hex); (80, "080a"%hex); (128, "100a"%hex); (144, "010000001000000006"%hex); (160, "01000000100000003901"%hex);
    (176, "4901"%hex); (200, "04"%hex); (208, "0304"%hex); (216, "0b"%hex); (224, "01"%hex); (240, "52"%hex); (248, "0504"%hex); (256, "02"%hex);
    (264, "08"%hex); (320, "0c000a00d8090000e0090000e809000001000000d809"%hex); (2520, "0c"%hex); (2528, "0b"%hex);
    (2536, "0100020003000400050006000700080009000a00ffffffff0d000e000f0000004d01"%hex)]);
  (52, [(0, "32d7b27f1d154d000104"%hex); (16, "0c"%hex); (24, "11000080"%hex); (32, "01"%hex); (64, "01"%hex); (108, "900f"%hex)]);
  (53, [(0, "6d1f5cf150c9197f0304"%hex); (16, "0c"%hex); (24, "02000080090000000700000002"%hex);
    (42, "40022000300dffff0000ffff000010001000000008"%hex); (632, "0c"%hex); (640, "4b01"%hex); (648, "0b"%hex); (656, "4901"%hex);
    (4040, "02"%hex); (4048, "02"%hex); (4056, "0e"%hex); (4061, "1000001000000008000000100000000800000002"%hex); (4088, "01"%hex)]);
  (54, [(0, "844bde0dc57804610504"%hex); (16, "0c"%hex); (24, "02000080090000000700000011"%hex);
    (42, "40022001d80b10011000600008000000080030001000100020002000ffff4000ffff50001800600028007000ffff9000380080004000b0004800a000ffffd0"%hex);
    (106, "5000c0005800f000ffff00013000e0006800100160"%hex); (632, "02"%hex); (640, "4f01"%hex); (648, "03"%hex); (656, "5501"%hex);
    (664, "03"%hex); (672, "5c01"%hex); (680, "03"%hex); (688, "5101"%hex); (696, "04"%hex); (704, "5a01"%hex); (712, "04"%hex); (720, "5d01"%hex);
    (728, "05"%hex); (736, "6701"%hex); (744, "06"%hex); (752, "7201"%hex); (760, "07"%hex); (768, "7b01"%hex); (776, "06"%hex); (784, "7401"%hex);
    (792, "09"%hex); (800, "8301"%hex); (808, "08"%hex); (816, "8401"%hex); (824, "0a"%hex); (832, "9101"%hex); (840, "09"%hex); (848, "8a01"%hex);
    (856, "0c"%hex); (864, "a001"%hex); (872, "0b"%hex); (880, "8201"%hex); (888, "0b"%hex); (896, "9801"%hex); (904, "ffff10"%hex);
    (912, "a501"%hex); (3952, "07"%hex); (3960, "ffff08"%hex); (3968, "07"%hex); (3976, "06"%hex); (3984, "06"%hex); (3992, "07"%hex);
    (4000, "06"%hex); (4008, "08"%hex); (4016, "0b"%hex); (4024, "04"%hex); (4032, "0a"%hex); (4040, "03"%hex); (4048, "02"%hex); (4056, "0e"%hex);
    (4061, "1000001000000008000000100000000800000011"%hex); (4088, "01"%hex)]);
  (55, [(0, "83d5880d614d3e720004"%hex); (16, "0d"%hex); (24, "05000080"%hex); (33, "100000008000007e000000fb010000f67f"%hex); (56, "01"%hex);
    (64, "01"%hex); (72, "407e"%hex); (80, "080a"%hex); (128, "100a"%hex); (144, "010000001000000006"%hex); (160, "01000000100000003901"%hex);
    (176, "4901"%hex); (200, "04"%hex); (208, "0304"%hex); (216, "0c"%hex); (224, "01"%hex); (240, "58"%hex); (248, "0504"%hex); (256, "02"%hex);
    (264, "08"%hex); (320, "0d000b00d8090000e0090000e809000001000000d809"%hex); (2520, "0d"%hex); (2528, "0c"%hex);
    (2536, "0100020003000400050006000700080009000a000b00ffffffff0e000f0000004901"%hex)]);
  (56, [(0, "35d3b27f19194d000104"%hex); (16, "0d"%hex); (24, "11000080"%hex); (32, "01"%hex); (64, "01"%hex); (108, "900f"%hex)]);
  (57, [(0, "4e0764f168e1117f0304"%hex); (16, "0d"%hex); (24, "02000080090000000700000002"%hex); (42, "40022000300dffff0000ffff"%hex);
    (58, "0800100010"%hex); (632, "0c"%hex); (640, "4b01"%hex); (648, "0d"%hex); (656, "4d01"%hex); (4040, "02"%hex); (4048, "02"%hex);
    (4056, "0e"%hex); (4061, "1000001000000008000000100000000800000002"%hex); (4088, "01"%hex)]);
  (58, [(0, "103a64ba3f8726b40504"%hex); (16, "0d"%hex); (24, "02000080090000000700000012"%hex);
    (42, "40023001c00b10011000600008000000080030001000100020002000ffff4000ffff50001800600028007000ffff9000380080004000b0004800a000ffffd0"%hex);
    (106, "5000c0005800f000ffff00013000e000680020017000100160"%hex); (632, "02"%hex); (640, "4f01"%hex); (648, "03"%hex); (656, "5501"%hex);
    (664, "03"%hex); (672, "5c01"%hex); (680, "03"%hex); (688, "5101"%hex); (696, "04"%hex); (704, "5a01"%hex); (712, "04"%hex); (720, "5d01"%hex);
    (728, "05"%hex); (736, "6701"%hex); (744, "06"%hex); (752, "7201"%hex); (760, "07"%hex); (768, "7b01"%hex); (776, "06"%hex); (784, "7401"%hex);
    (792, "09"%hex); (800, "8301"%hex); (808, "08"%hex); (816, "8401"%hex); (824, "0a"%hex); (832, "9101"%hex); (840, "09"%hex); (848, "8a01"%hex);
    (856, "0c"%hex); (864, "a001"%hex); (872, "0b"%hex); (880, "8201"%hex); (888, "0b"%hex); (896, "9801"%hex); (904, "ffff10"%hex);
    (912, "ae01"%hex); (920, "0d"%hex); (928, "aa01"%hex); (3944, "06"%hex); (3952, "07"%hex); (3960, "ffff08"%hex); (3968, "07"%hex);
    (3976, "06"%hex); (3984, "06"%hex); (3992, "07"%hex); (4000, "06"%hex); (4008, "08"%hex); (4016, "0b"%hex); (4024, "04"%hex); (4032, "0a"%hex);
    (4040, "03"%hex); (4048, "02"%hex); (4056, "0e"%hex); (4061, "1000001000000008000000100000000800000012"%hex); (4088, "01"%hex)]);
  (59, [(0, "77c4cc0c665efb720004"%hex); (16, "0e"%hex); (24, "05000080"%hex); (33, "100000008000007e000000fb010000f67f"%hex); (56, "01"%hex);
    (64, "01"%hex); (72, "3d7e"%hex); (80, "080a"%hex); (128, "100a"%hex); (144, "010000001000000006"%hex); (160, "01000000100000003901"%hex);
    (176, "4901"%hex); (200, "04"%hex); (208, "0304"%hex); (216, "0d"%hex); (224, "01"%hex); (240, "5b"%hex); (248, "0504"%hex); (256, "02"%hex);
    (264, "08"%hex); (320, "0e000c00d8090000e0090000e809000001000000d809"%hex); (2520, "0e"%hex); (2528, "0d"%hex);
    (2536, "0100020003000400050006000700080009000a000b000c00ffffffff0f0000004b01"%hex)]);
  (60, [(0, "38cfb27f151d4d000104"%hex); (16, "0e"%hex); (24, "11000080"%hex); (32, "01"%hex); (64, "01"%hex); (108, "900f"%hex)]);
  (61, [(0, "3d035cf178e5197f0304"%hex); (16, "0e"%hex); (24, "02000080090000000700000002"%hex);
    (42, "40022000300dffff0000ffff000010001000000008"%hex); (632, "0e"%hex); (640, "4901"%hex); (648, "0d"%hex); (656, "4d01"%hex);
    (4040, "02"%hex); (4048, "02"%hex); (4056, "0e"%hex); (4061, "1000001000000008000000100000000800000002"%hex); (4088, "01"%hex)]);
  (62, [(0, "7bdd5148c8e0d8250504"%hex); (16, "0e"%hex); (24, "02000080090000000700000013"%hex);
    (42, "40024001a80b10011000600008000000080030001000100020002000ffff4000ffff50001800600028007000ffff9000380080004000b0004800a000ffffd0"%hex);
    (106, "5000c0005800f000ffff00013000e00068002001700030017800100160"%hex); (632, "02"%hex); (640, "4f01"%hex); (648, "03"%hex);
    (656, "5501"%hex); (664, "03"%hex); (672, "5c01"%hex); (680, "03"%hex); (688, "5101"%hex); (696, "04"%hex); (704, "5a01"%hex); (712, "04"%hex);
    (720, "5d01"%hex); (728, "05"%hex); (736, "6701"%hex); (744, "06"%hex); (752, "7201"%hex); (760, "07"%hex); (768, "7b01"%hex); (776, "06"%hex);
    (784, "7401"%hex); (792, "09"%hex); (800, "8301"%hex); (808, "08"%hex); (816, "8401"%hex); (824, "0a"%hex); (832, "9101"%hex); (840, "09"%hex);
    (848, "8a01"%hex); (856, "0c"%hex); (864, "a001"%hex); (872, "0b"%hex); (880, "8201"%hex); (888, "0b"%hex); (896, "9801"%hex);
    (904, "ffff10"%hex); (912, "b401"%hex); (920, "0d"%hex); (928, "aa01"%hex); (936, "0e"%hex); (944, "b301"%hex); (3936, "03"%hex);
    (3944, "06"%hex); (3952, "07"%hex); (3960, "ffff08"%hex); (3968, "07"%hex); (3976, "06"%hex); (3984, "06"%hex); (3992, "07"%hex);
    (4000, "06"%hex); (4008, "08"%hex); (4016, "0b"%hex); (4024, "04"%hex); (4032, "0a"%hex); (4040, "03"%hex); (4048, "02"%hex); (4056, "0e"%hex);
    (4061, "1000001000000008000000100000000800000013"%hex); (4088, "01"%hex)]);
  (313, [(0, "03"%hex)]);
  (314, [(0, "0f"%hex)]);
  (315, [(0, "3f"%hex)]);
  (316, [(0, "3f"%hex)]);
  (317, [(0, "3f"%hex)]);
  (318, [(0, "3f"%hex)]);
  (319, [(0, "3f"%hex)]);
  (320, [(0, "3f"%hex)]);
  (321, [(0, "3f"%hex)]);
  (322, [(0, "3f"%hex)]);
  (323, [(0, "3f"%hex)]);
  (324, [(0, "3f"%hex)]);
  (325, [(0, "3f"%hex)]);
  (326, [(0, "3f"%hex)]);
  (329, [(0, "65cf093caf2ff5834901"%hex); (16, "0d"%hex); (24, "07000040"%hex); (36, "010000000d"%hex); (56, "f67f0000407e00004a01"%hex)]);
  (330, [(0, "ffffffffffffffffffffffffffffffffffffffffffffffffffffffffffffffffffffffffffffffffffffffffffffffffffffffffffff3f"%hex)]);
  (331, [(0, "67c3093caa3bf5834b01"%hex); (16, "0e"%hex); (24, "07000040"%hex); (36, "010000000e"%hex); (56, "f67f00003d7e00004c01"%hex)]);
  (332, [(0, "ffffffffffffffffffffffffffffffffffffffffffffffffffffffffffffffffffffffffffffffffffffffffffffffffffffffffffffff01"%hex)]);
  (333, [(0, "ed9f093c1b5ff5834d01"%hex); (16, "0c"%hex); (24, "07000040"%hex); (36, "010000000c"%hex); (56, "f67f0000467e00004e01"%hex)]);
  (334, [(0, "ffffffffffffffffffffffffffffffffffffffffffffffffffffffffffffffffffffffffffffffffffffffffffffffffffffffffffff"%hex)]);
  (335, [(0, "2b4df5ff23b00a404f01"%hex); (16, "01"%hex); (24, "0b000040"%hex); (32, "01"%hex); (40, "02000040020000405001"%hex)]);
  (336, [(0, "a3d29052c61bcd5d5001"%hex); (16, "01"%hex); (24, "020000400b00000007"%hex); (42, "c0010000e00dffff0000ffff"%hex); (4056, "12"%hex);
    (4061, "1000001000000010"%hex); (4088, "01"%hex)]);
  (337, [(0, "3f3df5ff0bc00a405101"%hex); (16, "02"%hex); (24, "0b000040"%hex); (40, "02000040020000405201"%hex)]);
  (338, [(0, "1c701192bd685c1e5201"%hex); (16, "02"%hex); (24, "020000400b0000000700000001"%hex); (42, "c0011000c00dffff0000ffff"%hex); (58, "10"%hex);
    (504, "0404"%hex); (512, "02"%hex); (4045, "1000005501"%hex); (4056, "12"%hex); (4061, "1000001000000010000000100000001000000001"%hex);
    (4088, "01"%hex)]);
  (339, [(0, "f5c01054502d4d5c5301"%hex); (16, "02"%hex); (24, "020000400f00000003"%hex); (42, "40000000600fffff0000ffff"%hex); (4056, "52"%hex);
    (4061, "10"%hex); (4088, "01"%hex)]);
  (340, [(0, "fcb8105447354d5c5401"%hex); (16, "02"%hex); (24, "020000401000000003"%hex); (42, "40000000600fffff0000ffff"%hex); (4056, "52"%hex);
    (4061, "10"%hex); (4088, "01"%hex)]);
  (341, [(0, "1c7f0eb3c7513e0c0404"%hex); (16, "02"%hex); (24, "020000000e0000000300000004"%hex);
    (42, "40003900230effff0000ffff000019001800900012000000110012001200110008007e006c0031000800040174"%hex); (120, "01"%hex);
    (127, "9005e471b6726f6f740002"%hex); (144, "3001"%hex); (152, "900c8ca6ac707269766174652d6469720003"%hex); (176, "30"%hex); (3796, "01"%hex);
    (3804, "03"%hex); (3812, "5ea972dc842bbb185ea972dc842bbb185ea972dc842bbb185ea972dc842bbb180080"%hex); (3860, "01"%hex); (3876, "a441"%hex);
    (3888, "0100100004020c00707269766174652d646972"%hex); (3912, "03"%hex); (3920, "5ea972dc842bbb18040001"%hex); (3938, "02"%hex);
    (3947, "9d72dc842bbb18009d72dc842bbb18009d72dc842bbb18009d72dc842bbb180080"%hex); (3994, "01"%hex); (4002, "f501000014000000ed41"%hex);
    (4022, "0100080004020500726f6f74"%hex); (4038, "02"%hex); (4047, "9d72dc842bbb18040042"%hex); (4061, "10"%hex);
    (4072, "180000007400000004"%hex); (4088, "01"%hex)]);
  (342, [(0, "44e6b0cef76aec0d0204"%hex); (16, "02"%hex); (24, "0d"%hex); (32, "41505342"%hex); (40, "02"%hex); (56, "01"%hex); (88, "05"%hex);
    (96, "05"%hex); (104, "0600000029034718010000000200000002000040020000405101"%hex); (136, "0404"%hex); (144, "5301"%hex); (152, "5401"%hex);
    (176, "10"%hex); (240, "643144d9795c4e95ab19007de4e8d4e1a0ac72dc842bbb1801"%hex);
    (272, "6e657766735f617066732028323333322e3134302e31332e3730302e31290000190f6ddc842bbb1802"%hex); (704, "415046535034"%hex); (960, "03"%hex);
    (1040, "0200004002000040"%hex); (1056, "02"%hex); (1064, "1000000002"%hex); (1104, "02"%hex)]);
  (343, [(0, "8e09f5ffaff30a405701"%hex); (16, "02"%hex); (24, "0b000040"%hex); (32, "01"%hex); (40, "02000040020000405801"%hex)]);
  (344, [(0, "1b5f1192b9795c1e5801"%hex); (16, "02"%hex); (24, "020000400b0000000700000001"%hex); (42, "c0011000c00dffff0000ffff"%hex); (58, "10"%hex);
    (504, "0204"%hex); (512, "02"%hex); (4045, "1000005601"%hex); (4056, "12"%hex); (4061, "1000001000000010000000100000001000000001"%hex);
    (4088, "01"%hex)]);
  (345, [(0, "33374445323438452d414631452d344146412d413141382d423430384635394139443244"%hex)]);
  (346, [(0, "14dc22ab210c03455a01"%hex); (16, "03"%hex); (24, "020000400f0000000300000003"%hex);
    (42, "40002000f00e100008003c00140000000800140014000800080028001400180008005000140018000800500014"%hex); (120, "5901"%hex); (127, "205b01"%hex);
    (135, "20ffff08"%hex); (143, "205d01"%hex); (151, "20"%hex); (3976, "04"%hex); (3983, "1014"%hex); (3992, "01000000ffff14"%hex);
    (4003, "1013"%hex); (4012, "0100000001"%hex); (4023, "1012"%hex); (4032, "0100000001"%hex); (4043, "1011"%hex); (4052, "0100000052"%hex);
    (4061, "10"%hex); (4072, "080000001400000003"%hex); (4088, "01"%hex)]);
  (347, [(0, "4150465320503420706c61696e2066696c652e2048656c6c6f20657874656e74732e0a"%hex)]);
  (348, [(0, "484541442d424c4f434b2d444154412d30313233343536373839"%hex)]);
  (349, [(0, "85494791e0b90a4b6a8a4c7a0afdb8c77d04e2e6a60fc2567810b6b0c0d29e1349fdd39eb17b7b1cba936903046cd35988f606495e5cbe2c86a91360e706a7b9"%hex);
    (64, "390f0cde78b5b0378a4bbf3439dfd11dbb815f912e6658a90a73aa66146d226e696da96f771eeee8787ed6236e8c4b95aeebe9e1d5cd579b636898013cf49655"%hex);
    (128, "722e8b7e4255d0268495e267c9cf53b6edce2c9df61bce68a8ae9653a89a66848d982f32719af410e47707faefb76c8dbcb454d943735fa502224c763ee731aa"%hex);
    (192, "9260ab71f18c6f3a864a353b7a340d36717d35de85d50612258cc0b18c16afac431c67b4360e94b841556da82b8ec1d7a401cf90a09ba802af6ed5b73c45887e"%hex);
    (256, "bc63adbb792da5e0f0373174be0e0d4f2dc7dbe1f50757f3293724ef15000c576415bec40ac9ce7b0c6c356a2d2eb83161e05956fc891d90a768c46cdf0f1595"%hex);
    (320, "cde832c64d4e8ade19911b9fd3bc8090d1e19b7cb482725df2aa0409d7dc6e5c011b93df7e4462248f12a8289f9d48ceacc84aa5f5b82dea010187bb381fc437"%hex);
    (384, "f9068677e3e096f7d3ab38c3f8cf0cb209636e7b3f8ab37e1487558d398479cc6a4ec51fe5474022f9e423e10df6fd521ddf33b51fc5c040aaff454a2dc3bb3b"%hex);
    (448, "1805c90b4cff005e25df8bfefb773505f4a04613895ad0540a1222a37c963e773022a47d42ad90186744a9f1c6acd98f2206162a58eb4e504c079f7021cb8c53"%hex);
    (512, "a043378c2dc1ca1716809c613ac141d0015c3f9891e0060a625b853fbd5f2784908aa84f6e7e4d34a67a3e99301814ddb7444f40cad5e2b499c3e1e1394e7fc9"%hex);
    (576, "e887d04d58953c79ff2c6f17725811ce334e3decd255d41617f158c8e4c7b0f652b6db67ce9e4b4e83a3f3b1b8f5d01c830c90d6165a0e2348699b92f95eabe6"%hex);
    (640, "15edf1eab9470d4f36eb1ddfe2eedfac770d8d7dd6eaab55c9821222ce42ac321a35ad159759f2b1c34ce64c3e9e085e01d5d39179546e83225309907ee9910d"%hex);
    (704, "cdf887067f32eec67b46949022ab0a945d9cb61c1a8fa81f43d8921d1894b8cea2591b572a48a0bd65dcf0fbfde1d4d45d8a65b8cbd7bd39c65c7c0653141ded"%hex);
    (768, "10a0b880f2e3fa8fed5439d07d989cb6e1c9453d0f767ebbdeeaa71b68069aab379aa4c4e0ff9ba2dd4c4cf2bde5d18957557a945058166b11e715baf120cd72"%hex);
    (832, "af8860c7f317309bfdd1588dd2786638a104adf65a4814be20d0c6f0f7510ce471de9b9632c1965fc7e15d9003fcb89df9196501cf76ca670f6a99964d0a3a3b"%hex);
    (896, "82d87ad5aa29ad1c5774a986d3ab46554499a24d738f3039b61c11a4c56e91371f9ee66e9a59cd0efd06a8c518913a840672758859eafefd72dcf1e3e13670b7"%hex);
    (960, "82827ec94bdfa8c70ac4f56be390f6ec8196f17b3114a86153338aa1110a00c289bde45d603b735043898831a0db88a94c5b28312301b32a8db218347ea91ef6"%hex);
    (1024, "5e9ebb3e013defd4aa5337abc96d863e5423325f46fecec9a7d2a0e427dd45074dc1b669f4f8aecfcbd4f279aeecb10b90e18f41976ab1333feb7622bf4504a7"%hex);
    (1088, "eddb3205b857659a0378d0e4e90d64d25de349d2f77ae6e49ad9389d6f9157848b1201f76148727de286428cba1a62805460e594c3b2c162da8e3dfbb5e5c4ff"%hex);
    (1152, "7e7bb3c397a3cc4ce1baf9b5671187bb545411cba72f615dd83aaa9d5718deabd6f122292adce2e701011e9a1d3f033312341d89af099e4c4baea2ddcd498e30"%hex);
    (1216, "6a69239e7c80f9caadbdec45f569133de04f8d34e0cc5e907f97b699a58a1fb9cbfb83e4abfcfc5f87bf59021f2f488218bf1a8a2714b56cc5977b4e8a11fde3"%hex);
    (1280, "1be6c05d04a26c5831839ff1460bb673f03200275a73a77c6fec1ef57700a0a1ee0908eccab698633dc72143c2dcaae7ed26ec699636c72821db3ad0f95af77a"%hex);
    (1344, "9e8eec839492c2e7d796ed7933058b990f78f47da7919a2afd4326e9282f4cb14c9322ca45306001c7f268d0c97154e1b3de5dff6f078e1923fa359a10dbb6a9"%hex);
    (1408, "e57f75b2805a9cc4a81b938083bce5629feda917d3fd3a6cbbf63dcb200a79d41debbf8cc6994b6771af901248bed006c6824c3f8beaf68395bb78c16a31417e"%hex);
    (1472, "e294d9daf89608ad86eafbab6437d1061a6ea22130ad1a8ae2a88908cf5705a64fcf2eccf701bd5083dcc1f6f313fc832139fd4975aadf1663730e411e2571d6"%hex);
    (1536, "5525b471823a8dfde6a424ea358a55c4083a35792f7754f66ab91f9d38f1ad17d817f3ab20257f96edfb5e905d3d7d09310fd973bdba17788d0deaba85bc0595"%hex);
    (1600, "b90af934c7c49402f128a0219c4f920a275bb5695c7ac577d990d8e47e3a11da957dff77492fdc9dd374d8b6c2d58cabb206fe3b4c777725b9be216e4d450442"%hex);
    (1664, "f1c21606fbc4ca632613b7280a240a56ee696d24c7af54d69241236935d95dcee95a4884d7b778b1887d07aae00bdbf66eee50bc06cb92cdba251e72179fae19"%hex);
    (1728, "087a15421f2373739ead2b8267585887f8182cf460af40e78585af83aa6217b1f3b2feb06caddc1198adc33d768271798085f31d1e4b04c29766ab770adbd4c4"%hex);
    (1792, "cacee64504901a4a685014b32831d959949ec1b8abb0dcd1c98a00010e74c00f1f38af0b067bd54ce4a1d05c3c5368c9df351cd7864f47e2f1b258915bd7e33a"%hex);
    (1856, "089d1288f3ec988b133752ebf656d76b72d75413defda2ce9d385a3043cd29dcad3beefcd7787be4dcab406aebc88d66131275c677a1b3f4d421ae7f00dea5c2"%hex);
    (1920, "646b2d57992f2ba10fcd32cd53ee23c2d26d38e04408790b4ec68c142451cc6419e730b08773f4192c33afcd7c2d82825c5df03d2fc1003ab907d69e85b36b5a"%hex);
    (1984, "ed65337d7b2f2ddd30deccb3a540da1373963e04a1b11834f04c51101729adc2bb3aeeb823210d0e53ba37054ac0f169b1942e22966fb885d05f9a2b2f47f339"%hex);
    (2048, "87feee12ab6264300b638e03ce90ffb943bbb6fee9563fbb8bb24ceaa1f7df1b0e5f085d976403de486b1def6335e05416cbebdfd596b52ee340b5126c9a6c9c"%hex);
    (2112, "55188de1e175ff403a66b4b5fb3043f72caafa51c8a08ef3729f03ebdedf7503b89bcb15e120031d785556448cc18175261bbbc6db89a90010db16c809fb01dc"%hex);
    (2176, "11925eac35b981127d61877f84601c6b76a1c71fceeba6d76962fa593377ce58c14546c5c39922647433717c723071f019cdd21b688e0631187ae3f43c88db8a"%hex);
    (2240, "e6f287dbfb3e87c9b381665b35ca70204b32763a4eb28a18b35dde91cb6d36dc0c144e24b8f08358c500ad764a2cc51807e60e1d8b10a0306caf7cacbef1de09"%hex);
    (2304, "b2302755450595dd7bee2679a8837e0af60d9a175dfc9c775106c04e521ddf44800c984e5f16b086304cdf2dcd81705cd767671dda69c71d3db85103dd93e56c"%hex);
    (2368, "7bc2f8025ce7d6be25ca7ee9f6383c9a316f5008e4504ad65eab26ba552261926b919c43b603d377e40a17a608d04082c9c93dcff3bd6617f9d1f6d6f6bc45d2"%hex);
    (2432, "ecfb764815d1d66ff2d4e560fb6684fdcd320c5f340ebe5278c0dbafb3de376b317547f4d87f60d32f620f2d855f433e820f32cac8b4520abc9a80d67a33663a"%hex);
    (2496, "6f1495f69b202a18acf4ba7671a23dd6c24529b83a2b9b5d9e646ceba738ccdae68867c5f8f46f51379ec0b5deaf6a234df2c2a19dad2b2daaa1a43f2697c468"%hex);
    (2560, "1e45d8e8287bb9f4f1963112d445e354e8fe36bf32c595383c8f39354c9feb8e998f5532b76b6af31f7538f46e6b6254a487e2dbc359a6de9548cf1b95f53f63"%hex);
    (2624, "e6964d4e5d1ef53d45d9751fc8cb3b1a3cf03187d4e807fa6d2ac3d58824a498560ff790061aa759f27b0334b520a550dc4854ba654d97bd240ccc9f54ed67e7"%hex);
    (2688, "66512cd723aa99bf3609e47de123f7e791006aaa360013833013cca862062f5f092ba9ceb523d72797da00dd2806f234970d9630ccafdaffd3ad5abc2ceab22b"%hex);
    (2752, "896b67ad91469656d99a20d7a9a3468573c2c3ef210339f0cc8f0b3195c2829f35a716575262d923bdd1c4c276dc60f15ec8eec131ac8420ea9d6310f664a69f"%hex);
    (2816, "a50be3ae1e1ea3b5c3922840730d5453499add6f3dccaa43fc9bb6d1b49031a98121c44d0fc737e544750001d542c92874001cbacc1005c744bb25117f3269e0"%hex);
    (2880, "a98f6c78048ff0e6c408c949e6dddce59a5367657d1f0ecd1eb1c816953d7b0667e074b50c175c0c03f23279459cc220638817cd405d8ca306c88571b719b258"%hex);
    (2944, "84f5b58ebdf3177b92d3525830ec15399fb2fcf3b4f67b68c8bcb44da18e654d287b5a62824af9bdf9364adbeb5dee46672dad17ae257d0195630e0aea571a0b"%hex);
    (3008, "7a8791a7b1a8e92bd689587d436eb08b87a18188a22e77d22741888c6ca1f9745fedd155f5957d7111e4b0361ebefc8edace37532fa44848de299fc5b1a6a45b"%hex);
    (3072, "f6f6f44fea90c6fd4082cbbc7903991181fd6f0abaf850597e7ab59bb0d6fc456bfe0b53df5578b657bb706e8173987c66906fab952ed96ce0171207c89ac0dc"%hex);
    (3136, "d4d35d550a6f02e9e39674f1c4a8f148ff6c21125ed6a3d1266fcbfcf3b22d7b7fe158a692adc669f0f4bd5c26069216185d5ec9155708e09ff1382cce677ac5"%hex);
    (3200, "bf19601bfcea89e7d0745f26450235bec9844b514a056d305751f33bfabee1f4cc43a591bf1e37d85da143d184de048f4cc1b325c6ffd94f08b4f05b148fe775"%hex);
    (3264, "3da7dc8721f4bcdbec360e3d183eca25c29f0b2add827a0c8da25800dcfa6e981c56d9704722ee8c721156d904e0826ed133bb6cc97920da9c05554cdd26253f"%hex);
    (3328, "69ddffafb9377bed690e80ddb04dc67c457a0532a8f8adee2a1463758927e13571170398b405dca779a699357bf6cc6c07a651e91bd1025767217b0848ed0916"%hex);
    (3392, "24aa217770106c237e61aedd86b2fd1df6bf32846617493422d436d917546b0e2951e2ab8747089bfbbea28a6381777f425b4d9d7745c89e0b0a8ce2d5d5b24e"%hex);
    (3456, "8f44fc185108eea12d286b61dea6d3eaee4173a3d05c5c227de00ddc0398489f7073dff412542f928a8cf52612a207e2a969b7744a0cb9b9959a9603b0fcbd52"%hex);
    (3520, "196b32ada48e251ef66c65ab427943bf46cf5d219b4c2bc197eb6d4901c832cac1afa090eb5c6a5a81c09ea07bf2fb48b1e45096a1f7ca39f16969f1025c9648"%hex);
    (3584, "cfcd7ec9b8d016488ed37ec522eb95dd0d931e5838389718bebb97f307b7e405fc99fb4e25a121afd0506cb35e36fd000295ff810b148a2e287843605ce8f1dd"%hex);
    (3648, "12feba6b22a5314fb0e86dbd3e28a8c127857c4c807e771b7a4968df17db652b891bc041666941d019bedf885dac4e052d642321006345f9a41f1d901e423bcc"%hex);
    (3712, "c3be52053989f6aa523b8c30b843c5b517eec4e4efec505a320e59731675323a165714ae5ea6a80bcf0e91546d53bdbbdbc57fac51f9933c6d41f2245e631eed"%hex);
    (3776, "74172498a1af0f961ef0ec59f68c9fe660c9a3576f940f4021d4e4b318394f8cd673ded57028a2052c0696a33b1053470013bfe174fece0066e4fe06ab0714aa"%hex);
    (3840, "be1253a73cf669081a5a23b58187c16ccd1f5b04ec3e315f5098b1199de73b74b52c219ee8596666c615c856a30d942352899529f379fde09d83b527153898a0"%hex);
    (3904, "5cf6a8774b66909c721e36a1d473e7a0326a7d144454941faebfd05e854e343671062db8c7e8836d6b029daa6b103d10af825035568cb6ce688341e00b03285f"%hex);
    (3968, "6ac8667ca498513befbe93ae753344c825bfdef013fb7a619f51a2b518c1b0a7859d3ff47db4b3e0d5b66d8aa7fd759c141fe975049b88bf9d7409ae55a78027"%hex);
    (4032, "2998701fd72d52d4f147834dac9ed636a3c423a88c6649f68e01f9d379d80c01f9dafd6711847e6a036a402cc72125a19294e33663850002e181372eef2fdf07"%hex)]);
  (352, [(0, "85494791e0b90a4b6a8a4c7a0afdb8c77d04e2e6a60fc2567810b6b0c0d29e1349fdd39eb17b7b1cba936903046cd35988f606495e5cbe2c86a91360e706a7b9"%hex);
    (64, "390f0cde78b5b0378a4bbf3439dfd11dbb815f912e6658a90a73aa66146d226e696da96f771eeee8787ed6236e8c4b95aeebe9e1d5cd579b636898013cf49655"%hex);
    (128, "722e8b7e4255d0268495e267c9cf53b6edce2c9df61bce68a8ae9653a89a66848d982f32719af410e47707faefb76c8dbcb454d943735fa502224c763ee731aa"%hex);
    (192, "9260ab71f18c6f3a864a353b7a340d36717d35de85d50612258cc0b18c16afac431c67b4360e94b841556da82b8ec1d7a401cf90a09ba802af6ed5b73c45887e"%hex);
    (256, "bc63adbb792da5e0f0373174be0e0d4f2dc7dbe1f50757f3293724ef15000c576415bec40ac9ce7b0c6c356a2d2eb83161e05956fc891d90a768c46cdf0f1595"%hex);
    (320, "cde832c64d4e8ade19911b9fd3bc8090d1e19b7cb482725df2aa0409d7dc6e5c011b93df7e4462248f12a8289f9d48ceacc84aa5f5b82dea010187bb381fc437"%hex);
    (384, "f9068677e3e096f7d3ab38c3f8cf0cb209636e7b3f8ab37e1487558d398479cc6a4ec51fe5474022f9e423e10df6fd521ddf33b51fc5c040aaff454a2dc3bb3b"%hex);
    (448, "1805c90b4cff005e25df8bfefb773505f4a04613895ad0540a1222a37c963e773022a47d42ad90186744a9f1c6acd98f2206162a58eb4e504c079f7021cb8c53"%hex);
    (512, "a043378c2dc1ca1716809c613ac141d0015c3f9891e0060a625b853fbd5f2784908aa84f6e7e4d34a67a3e99301814ddb7444f40cad5e2b499c3e1e1394e7fc9"%hex);
    (576, "e887d04d58953c79ff2c6f17725811ce334e3decd255d41617f158c8e4c7b0f652b6db67ce9e4b4e83a3f3b1b8f5d01c830c90d6165a0e2348699b92f95eabe6"%hex);
    (640, "15edf1eab9470d4f36eb1ddfe2eedfac770d8d7dd6eaab55c9821222ce42ac321a35ad159759f2b1c34ce64c3e9e085e01d5d39179546e83225309907ee9910d"%hex);
    (704, "cdf887067f32eec67b46949022ab0a945d9cb61c1a8fa81f43d8921d1894b8cea2591b572a48a0bd65dcf0fbfde1d4d45d8a65b8cbd7bd39c65c7c0653141ded"%hex);
    (768, "10a0b880f2e3fa8fed5439d07d989cb6e1c9453d0f767ebbdeeaa71b68069aab379aa4c4e0ff9ba2dd4c4cf2bde5d18957557a945058166b11e715baf120cd72"%hex);
    (832, "af8860c7f317309bfdd1588dd2786638a104adf65a4814be20d0c6f0f7510ce471de9b9632c1965fc7e15d9003fcb89df9196501cf76ca670f6a99964d0a3a3b"%hex);
    (896, "82d87ad5aa29ad1c5774a986d3ab46554499a24d738f3039b61c11a4c56e91371f9ee66e9a59cd0efd06a8c518913a840672758859eafefd72dcf1e3e13670b7"%hex);
    (960, "82827ec94bdfa8c70ac4f56be390f6ec8196f17b3114a86153338aa1110a00c289bde45d603b735043898831a0db88a94c5b28312301b32a8db218347ea91ef6"%hex);
    (1024, "5e9ebb3e013defd4aa5337abc96d863e5423325f46fecec9a7d2a0e427dd45074dc1b669f4f8aecfcbd4f279aeecb10b90e18f41976ab1333feb7622bf4504a7"%hex);
    (1088, "eddb3205b857659a0378d0e4e90d64d25de349d2f77ae6e49ad9389d6f9157848b1201f76148727de286428cba1a62805460e594c3b2c162da8e3dfbb5e5c4ff"%hex);
    (1152, "7e7bb3c397a3cc4ce1baf9b5671187bb545411cba72f615dd83aaa9d5718deabd6f122292adce2e701011e9a1d3f033312341d89af099e4c4baea2ddcd498e30"%hex);
    (1216, "6a69239e7c80f9caadbdec45f569133de04f8d34e0cc5e907f97b699a58a1fb9cbfb83e4abfcfc5f87bf59021f2f488218bf1a8a2714b56cc5977b4e8a11fde3"%hex);
    (1280, "1be6c05d04a26c5831839ff1460bb673f03200275a73a77c6fec1ef57700a0a1ee0908eccab698633dc72143c2dcaae7ed26ec699636c72821db3ad0f95af77a"%hex);
    (1344, "9e8eec839492c2e7d796ed7933058b990f78f47da7919a2afd4326e9282f4cb14c9322ca45306001c7f268d0c97154e1b3de5dff6f078e1923fa359a10dbb6a9"%hex);
    (1408, "e57f75b2805a9cc4a81b938083bce5629feda917d3fd3a6cbbf63dcb200a79d41debbf8cc6994b6771af901248bed006c6824c3f8beaf68395bb78c16a31417e"%hex);
    (1472, "e294d9daf89608ad86eafbab6437d1061a6ea22130ad1a8ae2a88908cf5705a64fcf2eccf701bd5083dcc1f6f313fc832139fd4975aadf1663730e411e2571d6"%hex);
    (1536, "5525b471823a8dfde6a424ea358a55c4083a35792f7754f66ab91f9d38f1ad17d817f3ab20257f96edfb5e905d3d7d09310fd973bdba17788d0deaba85bc0595"%hex);
    (1600, "b90af934c7c49402f128a0219c4f920a275bb5695c7ac577d990d8e47e3a11da957dff77492fdc9dd374d8b6c2d58cabb206fe3b4c777725b9be216e4d450442"%hex);
    (1664, "f1c21606fbc4ca632613b7280a240a56ee696d24c7af54d69241236935d95dcee95a4884d7b778b1887d07aae00bdbf66eee50bc06cb92cdba251e72179fae19"%hex);
    (1728, "087a15421f2373739ead2b8267585887f8182cf460af40e78585af83aa6217b1f3b2feb06caddc1198adc33d768271798085f31d1e4b04c29766ab770adbd4c4"%hex);
    (1792, "cacee64504901a4a685014b32831d959949ec1b8abb0dcd1c98a00010e74c00f1f38af0b067bd54ce4a1d05c3c5368c9df351cd7864f47e2f1b258915bd7e33a"%hex);
    (1856, "089d1288f3ec988b133752ebf656d76b72d75413defda2ce9d385a3043cd29dcad3beefcd7787be4dcab406aebc88d66131275c677a1b3f4d421ae7f00dea5c2"%hex);
    (1920, "646b2d57992f2ba10fcd32cd53ee23c2d26d38e04408790b4ec68c142451cc6419e730b08773f4192c33afcd7c2d82825c5df03d2fc1003ab907d69e85b36b5a"%hex);
    (1984, "ed65337d7b2f2ddd30deccb3a540da1373963e04a1b11834f04c51101729adc2bb3aeeb823210d0e53ba37054ac0f169b1942e22966fb885d05f9a2b2f47f339"%hex);
    (2048, "87feee12ab6264300b638e03ce90ffb943bbb6fee9563fbb8bb24ceaa1f7df1b0e5f085d976403de486b1def6335e05416cbebdfd596b52ee340b5126c9a6c9c"%hex);
    (2112, "55188de1e175ff403a66b4b5fb3043f72caafa51c8a08ef3729f03ebdedf7503b89bcb15e120031d785556448cc18175261bbbc6db89a90010db16c809fb01dc"%hex);
    (2176, "11925eac35b981127d61877f84601c6b76a1c71fceeba6d76962fa593377ce58c14546c5c39922647433717c723071f019cdd21b688e0631187ae3f43c88db8a"%hex);
    (2240, "e6f287dbfb3e87c9b381665b35ca70204b32763a4eb28a18b35dde91cb6d36dc0c144e24b8f08358c500ad764a2cc51807e60e1d8b10a0306caf7cacbef1de09"%hex);
    (2304, "b2302755450595dd7bee2679a8837e0af60d9a175dfc9c775106c04e521ddf44800c984e5f16b086304cdf2dcd81705cd767671dda69c71d3db85103dd93e56c"%hex);
    (2368, "7bc2f8025ce7d6be25ca7ee9f6383c9a316f5008e4504ad65eab26ba552261926b919c43b603d377e40a17a608d04082c9c93dcff3bd6617f9d1f6d6f6bc45d2"%hex);
    (2432, "ecfb764815d1d66ff2d4e560fb6684fdcd320c5f340ebe5278c0dbafb3de376b317547f4d87f60d32f620f2d855f433e820f32cac8b4520abc9a80d67a33663a"%hex);
    (2496, "6f1495f69b202a18acf4ba7671a23dd6c24529b83a2b9b5d9e646ceba738ccdae68867c5f8f46f51379ec0b5deaf6a234df2c2a19dad2b2daaa1a43f2697c468"%hex);
    (2560, "1e45d8e8287bb9f4f1963112d445e354e8fe36bf32c595383c8f39354c9feb8e998f5532b76b6af31f7538f46e6b6254a487e2dbc359a6de9548cf1b95f53f63"%hex);
    (2624, "e6964d4e5d1ef53d45d9751fc8cb3b1a3cf03187d4e807fa6d2ac3d58824a498560ff790061aa759f27b0334b520a550dc4854ba654d97bd240ccc9f54ed67e7"%hex);
    (2688, "66512cd723aa99bf3609e47de123f7e791006aaa360013833013cca862062f5f092ba9ceb523d72797da00dd2806f234970d9630ccafdaffd3ad5abc2ceab22b"%hex);
    (2752, "896b67ad91469656d99a20d7a9a3468573c2c3ef210339f0cc8f0b3195c2829f35a716575262d923bdd1c4c276dc60f15ec8eec131ac8420ea9d6310f664a69f"%hex);
    (2816, "a50be3ae1e1ea3b5c3922840730d5453499add6f3dccaa43fc9bb6d1b49031a98121c44d0fc737e544750001d542c92874001cbacc1005c744bb25117f3269e0"%hex);
    (2880, "a98f6c78048ff0e6c408c949e6dddce59a5367657d1f0ecd1eb1c816953d7b0667e074b50c175c0c03f23279459cc220638817cd405d8ca306c88571b719b258"%hex);
    (2944, "84f5b58ebdf3177b92d3525830ec15399fb2fcf3b4f67b68c8bcb44da18e654d287b5a62824af9bdf9364adbeb5dee46672dad17ae257d0195630e0aea571a0b"%hex);
    (3008, "7a8791a7b1a8e92bd689587d436eb08b87a18188a22e77d22741888c6ca1f9745fedd155f5957d7111e4b0361ebefc8edace37532fa44848de299fc5b1a6a45b"%hex);
    (3072, "f6f6f44fea90c6fd4082cbbc7903991181fd6f0abaf850597e7ab59bb0d6fc456bfe0b53df5578b657bb706e8173987c66906fab952ed96ce0171207c89ac0dc"%hex);
    (3136, "d4d35d550a6f02e9e39674f1c4a8f148ff6c21125ed6a3d1266fcbfcf3b22d7b7fe158a692adc669f0f4bd5c26069216185d5ec9155708e09ff1382cce677ac5"%hex);
    (3200, "bf19601bfcea89e7d0745f26450235bec9844b514a056d305751f33bfabee1f4cc43a591bf1e37d85da143d184de048f4cc1b325c6ffd94f08b4f05b148fe775"%hex);
    (3264, "3da7dc8721f4bcdbec360e3d183eca25c29f0b2add827a0c8da25800dcfa6e981c56d9704722ee8c721156d904e0826ed133bb6cc97920da9c05554cdd26253f"%hex);
    (3328, "69ddffafb9377bed690e80ddb04dc67c457a0532a8f8adee2a1463758927e13571170398b405dca779a699357bf6cc6c07a651e91bd1025767217b0848ed0916"%hex);
    (3392, "24aa217770106c237e61aedd86b2fd1df6bf32846617493422d436d917546b0e2951e2ab8747089bfbbea28a6381777f425b4d9d7745c89e0b0a8ce2d5d5b24e"%hex);
    (3456, "8f44fc185108eea12d286b61dea6d3eaee4173a3d05c5c227de00ddc0398489f7073dff412542f928a8cf52612a207e2a969b7744a0cb9b9959a9603b0fcbd52"%hex);
    (3520, "196b32ada48e251ef66c65ab427943bf46cf5d219b4c2bc197eb6d4901c832cac1afa090eb5c6a5a81c09ea07bf2fb48b1e45096a1f7ca39f16969f1025c9648"%hex);
    (3584, "cfcd7ec9b8d016488ed37ec522eb95dd0d931e5838389718bebb97f307b7e405fc99fb4e25a121afd0506cb35e36fd000295ff810b148a2e287843605ce8f1dd"%hex);
    (3648, "12feba6b22a5314fb0e86dbd3e28a8c127857c4c807e771b7a4968df17db652b891bc041666941d019bedf885dac4e052d642321006345f9a41f1d901e423bcc"%hex);
    (3712, "c3be52053989f6aa523b8c30b843c5b517eec4e4efec505a320e59731675323a165714ae5ea6a80bcf0e91546d53bdbbdbc57fac51f9933c6d41f2245e631eed"%hex);
    (3776, "74172498a1af0f961ef0ec59f68c9fe660c9a3576f940f4021d4e4b318394f8cd673ded57028a2052c0696a33b1053470013bfe174fece0066e4fe06ab0714aa"%hex);
    (3840, "be1253a73cf669081a5a23b58187c16ccd1f5b04ec3e315f5098b1199de73b74b52c219ee8596666c615c856a30d942352899529f379fde09d83b527153898a0"%hex);
    (3904, "5cf6a8774b66909c721e36a1d473e7a0326a7d144454941faebfd05e854e343671062db8c7e8836d6b029daa6b103d10af825035568cb6ce688341e00b03285f"%hex);
    (3968, "6ac8667ca498513befbe93ae753344c825bfdef013fb7a619f51a2b518c1b0a7859d3ff47db4b3e0d5b66d8aa7fd759c141fe975049b88bf9d7409ae55a78027"%hex);
    (4032, "2998701fd72d52d4f147834dac9ed636a3c423a88c6649f68e01f9d379d80c01f9dafd6711847e6a036a402cc72125a19294e33663850002e181372eef2fdf07"%hex)]);
  (353, [(0, "afb6328672c7bec80404"%hex); (16, "03"%hex); (24, "020000000e0000000300000013"%hex);
    (42, "c0006c01780605014c001805000319001800900012000000110012001200110008007e006c009300200038020800250117006c0412003900170016011200b3"%hex);
    (106, "1600100212003100080004017400500008008a01740058001b009c01120073000800d802a0007b00080014020400830010002c021800c9000800f803a000d1"%hex);
    (170, "0800fe010400d9001000fa0118003c0108004406a00044010800780404004c0110005a0418004c0110005a0418004c0110005a0418004c0110005a0418004c01"%hex);
    (234, "10005a0418005c0110008c05180001"%hex); (255, "9005e471b6726f6f740002"%hex); (272, "3001"%hex);
    (280, "900c8ca6ac707269766174652d6469720003"%hex); (304, "3002"%hex); (312, "900b14be9c2e66736576656e7473640010"%hex); (335, "3010"%hex);
    (343, "900f14121166736576656e7473642d757569640011"%hex); (370, "3011"%hex); (378, "6011"%hex); (386, "80"%hex); (395, "02"%hex);
    (402, "401600707572676561626c652d64726563732d66697865640002"%hex); (434, "900af844cd706c61696e2e7478740012"%hex); (456, "3012"%hex);
    (464, "6012"%hex); (472, "80"%hex); (481, "5c011c"%hex); (488, "9010b8cdba7370617273655f686561642e746d70000d0108"%hex); (516, "30150108"%hex);
    (524, "60e90010"%hex); (532, "80"%hex); (541, "02"%hex); (548, "900b0817637370617273652e62696e0014"%hex); (571, "3014"%hex); (579, "6014"%hex);
    (587, "80"%hex); (596, "ffff10"%hex); (603, "800030"%hex); (2268, "5006ac"%hex); (2276, "14"%hex);
    (2284, "4b8f6bf68a2bbb189fabe0f68a2bbb189fabe0f68a2bbb184b8f6bf68a2bbb180080"%hex); (2324, "01"%hex); (2332, "03"%hex);
    (2340, "6300000063000000a481"%hex); (2360, "0300400004020b0008202800050008007370617273652e62696e"%hex); (2393, "40"%hex); (2401, "40"%hex);
    (2417, "20"%hex); (2433, "10"%hex); (2440, "8c050c000010"%hex); (2452, "02"%hex); (2460, "14"%hex);
    (2468, "4b8f6bf68a2bbb189fabe0f68a2bbb189fabe0f68a2bbb184b8f6bf68a2bbb180080"%hex); (2508, "01"%hex); (2516, "03"%hex);
    (2524, "6300000063000000a481"%hex); (2544, "0200380004020b00082028007370617273652e62696e"%hex); (2573, "40"%hex); (2581, "40"%hex);
    (2597, "20"%hex); (2612, "98050c"%hex); (2624, "74050c"%hex); (2636, "a40518"%hex);
    (2660, "74045c008a2bbb1894f26bf68a2bbb184b8f6bf68a2bbb180080"%hex); (2692, "01"%hex); (2700, "01"%hex); (2708, "6300000063000000a481"%hex);
    (2728, "0100100004020b007370617273652e62696e"%hex); (2752, "5803a0"%hex); (2760, "13"%hex);
    (2768, "52901df68a2bbb187c0d1ef68a2bbb187af907f78a2bbb1852901df68a2bbb180080"%hex); (2816, "02"%hex); (2824, "6300000063000000a481"%hex);
    (2844, "0200380004021000082028007370617273655f686561642e746d70001a"%hex); (2896, "1a"%hex); (2912, "01000000420408"%hex); (2924, "14"%hex);
    (2932, "4b8f6bf68a2bbb1808000040"%hex); (2950, "5d01"%hex); (2966, "54034a00bb180080"%hex); (2980, "01"%hex); (2988, "01"%hex);
    (2996, "6300000063000000a481"%hex); (3016, "01001000040210007370617273655f686561642e746d700002"%hex); (3048, "12"%hex);
    (3056, "5e691bf68a2bbb188e771cf68a2bbb188e771cf68a2bbb185e691bf68a2bbb180080"%hex); (3096, "01"%hex); (3104, "02"%hex);
    (3112, "6300000063000000a481"%hex); (3132, "0200380004020a0008202800706c61696e2e747874"%hex); (3160, "23"%hex); (3169, "10"%hex);
    (3184, "23"%hex); (3200, "3a030400220308"%hex); (3212, "fc0612"%hex); (3220, "52901df68a2bbb1808004c0318"%hex); (3238, "5c01"%hex);
    (3254, "e2014a00bb180080"%hex); (3268, "01"%hex); (3276, "01"%hex); (3284, "6300000063000000a481"%hex);
    (3304, "0100100004020a00706c61696e2e747874"%hex); (3328, "10"%hex); (3336, "11"%hex);
    (3344, "ddcd5b47872bbb188bd76447872bbb188bd76447872bbb18ddcd5b47872bbb180080"%hex); (3384, "01"%hex); (3392, "02"%hex);
    (3400, "63000000630000008081"%hex); (3420, "0200380004020f000820280066736576656e7473642d75756964000024"%hex); (3457, "10"%hex);
    (3472, "24"%hex); (3488, "0200040002"%hex); (3501, "10"%hex); (3508, "5901"%hex); (3524, "0100000012"%hex);
    (3536, "5e691bf68a2bbb18080001"%hex); (3551, "10"%hex); (3558, "5b01"%hex); (3574, "ffff46"%hex); (3584, "01"%hex); (3592, "01"%hex);
    (3600, "63000000630000008081"%hex); (3620, "0100100004020f0066736576656e7473642d75756964000011"%hex); (3652, "ddcd5b47872bbb18080002"%hex);
    (3670, "10"%hex); (3678, "26465647872bbb1889e25b47872bbb1889e25b47872bbb1826465647872bbb180080"%hex); (3718, "01"%hex); (3726, "02"%hex);
    (3734, "6300000063000000c041"%hex); (3754, "0100100004020b002e66736576656e747364"%hex); (3778, "10"%hex); (3786, "26465647872bbb18040001"%hex);
    (3804, "03"%hex); (3812, "5ea972dc842bbb185ea972dc842bbb185ea972dc842bbb185ea972dc842bbb180080"%hex); (3860, "01"%hex); (3876, "a441"%hex);
    (3888, "0100100004020c00707269766174652d646972"%hex); (3912, "03"%hex); (3920, "5ea972dc842bbb18040001"%hex); (3938, "02"%hex);
    (3947, "9d72dc842bbb18e0f607f78a2bbb18e0f607f78a2bbb18009d72dc842bbb180080"%hex); (3986, "03"%hex); (3994, "06"%hex);
    (4002, "f501000014000000ed41"%hex); (4022, "0100080004020500726f6f74"%hex); (4038, "02"%hex); (4047, "9d72dc842bbb18040042"%hex);
    (4061, "10"%hex); (4072, "20000000b800000013"%hex); (4088, "01"%hex)]);
  (354, [(0, "0eb2f4ff194b0b406201"%hex); (16, "03"%hex); (24, "0b000040"%hex); (40, "02000040020000406301"%hex)]);
  (355, [(0, "10f505a013d217106301"%hex); (16, "03"%hex); (24, "020000400b0000000700000001"%hex);
    (42, "c0012000a00d000010001000100010002000100020"%hex); (504, "ffff10"%hex); (512, "02"%hex); (520, "0404"%hex); (528, "03"%hex);
    (4029, "1000006101"%hex); (4040, "ffff1000001000005501"%hex); (4056, "12"%hex); (4061, "1000001000000010000000100000001000000001"%hex);
    (4088, "01"%hex)]);
  (356, [(0, "d1f99203b0dd74be0204"%hex); (16, "03"%hex); (24, "0d"%hex); (32, "41505342"%hex); (40, "02"%hex); (56, "01"%hex); (88, "0b"%hex);
    (96, "05"%hex); (104, "0600000029034718010000000200000002000040020000406201"%hex); (136, "0404"%hex); (144, "5a01"%hex); (152, "5401"%hex);
    (176, "15"%hex); (184, "03"%hex); (192, "01"%hex); (224, "07"%hex); (232, "01"%hex);
    (240, "643144d9795c4e95ab19007de4e8d4e1132608f78a2bbb1801"%hex);
    (272, "6e657766735f617066732028323333322e3134302e31332e3730302e31290000190f6ddc842bbb1802"%hex); (704, "415046535034"%hex); (960, "03"%hex);
    (984, "10"%hex); (1040, "0200004002000040"%hex); (1056, "03"%hex); (1064, "1000000002"%hex); (1104, "02"%hex)]);
  (357, [(0, "3996f4ffe7660b406501"%hex); (16, "03"%hex); (24, "0b000040"%hex); (32, "01"%hex); (40, "02000040020000406601"%hex)]);
  (358, [(0, "d1ef05a04dd717106601"%hex); (16, "03"%hex); (24, "020000400b0000000700000001"%hex);
    (42, "c0012000a00d000010001000100010002000100020"%hex); (504, "ffff10"%hex); (512, "02"%hex); (520, "0204"%hex); (528, "03"%hex);
    (4029, "1000006401"%hex); (4040, "ffff1000001000005601"%hex); (4056, "12"%hex); (4061, "1000001000000010000000100000001000000001"%hex);
    (4088, "01"%hex)]);
  (359, [(0, "887922ab936e03456701"%hex); (16, "04"%hex); (24, "020000400f0000000300000003"%hex);
    (42, "40002000f00e100008003c00140000000800140014000800080028001400180008005000140018000800500014"%hex); (120, "5901"%hex); (127, "205b01"%hex);
    (135, "20ffff08"%hex); (143, "206801"%hex); (151, "20"%hex); (3976, "04"%hex); (3983, "1015"%hex); (3992, "01000000ffff14"%hex);
    (4003, "1013"%hex); (4012, "0100000001"%hex); (4023, "1012"%hex); (4032, "0100000001"%hex); (4043, "1011"%hex); (4052, "0100000052"%hex);
    (4061, "10"%hex); (4072, "080000001400000003"%hex); (4088, "01"%hex)]);
  (360, [(0, "85494791e0b90a4b6a8a4c7a0afdb8c77d04e2e6a60fc2567810b6b0c0d29e1349fdd39eb17b7b1cba936903046cd35988f606495e5cbe2c86a91360e706a7b9"%hex);
    (64, "390f0cde78b5b0378a4bbf3439dfd11dbb815f912e6658a90a73aa66146d226e696da96f771eeee8787ed6236e8c4b95aeebe9e1d5cd579b636898013cf49655"%hex);
    (128, "722e8b7e4255d0268495e267c9cf53b6edce2c9df61bce68a8ae9653a89a66848d982f32719af410e47707faefb76c8dbcb454d943735fa502224c763ee731aa"%hex);
    (192, "9260ab71f18c6f3a864a353b7a340d36717d35de85d50612258cc0b18c16afac431c67b4360e94b841556da82b8ec1d7a401cf90a09ba802af6ed5b73c45887e"%hex);
    (256, "bc63adbb792da5e0f0373174be0e0d4f2dc7dbe1f50757f3293724ef15000c576415bec40ac9ce7b0c6c356a2d2eb83161e05956fc891d90a768c46cdf0f1595"%hex);
    (320, "cde832c64d4e8ade19911b9fd3bc8090d1e19b7cb482725df2aa0409d7dc6e5c011b93df7e4462248f12a8289f9d48ceacc84aa5f5b82dea010187bb381fc437"%hex);
    (384, "f9068677e3e096f7d3ab38c3f8cf0cb209636e7b3f8ab37e1487558d398479cc6a4ec51fe5474022f9e423e10df6fd521ddf33b51fc5c040aaff454a2dc3bb3b"%hex);
    (448, "1805c90b4cff005e25df8bfefb773505f4a04613895ad0540a1222a37c963e773022a47d42ad90186744a9f1c6acd98f2206162a58eb4e504c079f7021cb8c53"%hex);
    (512, "a043378c2dc1ca1716809c613ac141d0015c3f9891e0060a625b853fbd5f2784908aa84f6e7e4d34a67a3e99301814ddb7444f40cad5e2b499c3e1e1394e7fc9"%hex);
    (576, "e887d04d58953c79ff2c6f17725811ce334e3decd255d41617f158c8e4c7b0f652b6db67ce9e4b4e83a3f3b1b8f5d01c830c90d6165a0e2348699b92f95eabe6"%hex);
    (640, "15edf1eab9470d4f36eb1ddfe2eedfac770d8d7dd6eaab55c9821222ce42ac321a35ad159759f2b1c34ce64c3e9e085e01d5d39179546e83225309907ee9910d"%hex);
    (704, "cdf887067f32eec67b46949022ab0a945d9cb61c1a8fa81f43d8921d1894b8cea2591b572a48a0bd65dcf0fbfde1d4d45d8a65b8cbd7bd39c65c7c0653141ded"%hex);
    (768, "10a0b880f2e3fa8fed5439d07d989cb6e1c9453d0f767ebbdeeaa71b68069aab379aa4c4e0ff9ba2dd4c4cf2bde5d18957557a945058166b11e715baf120cd72"%hex);
    (832, "af8860c7f317309bfdd1588dd2786638a104adf65a4814be20d0c6f0f7510ce471de9b9632c1965fc7e15d9003fcb89df9196501cf76ca670f6a99964d0a3a3b"%hex);
    (896, "82d87ad5aa29ad1c5774a986d3ab46554499a24d738f3039b61c11a4c56e91371f9ee66e9a59cd0efd06a8c518913a840672758859eafefd72dcf1e3e13670b7"%hex);
    (960, "82827ec94bdfa8c70ac4f56be390f6ec8196f17b3114a86153338aa1110a00c289bde45d603b735043898831a0db88a94c5b28312301b32a8db218347ea91ef6"%hex);
    (1024, "5e9ebb3e013defd4aa5337abc96d863e5423325f46fecec9a7d2a0e427dd45074dc1b669f4f8aecfcbd4f279aeecb10b90e18f41976ab1333feb7622bf4504a7"%hex);
    (1088, "eddb3205b857659a0378d0e4e90d64d25de349d2f77ae6e49ad9389d6f9157848b1201f76148727de286428cba1a62805460e594c3b2c162da8e3dfbb5e5c4ff"%hex);
    (1152, "7e7bb3c397a3cc4ce1baf9b5671187bb545411cba72f615dd83aaa9d5718deabd6f122292adce2e701011e9a1d3f033312341d89af099e4c4baea2ddcd498e30"%hex);
    (1216, "6a69239e7c80f9caadbdec45f569133de04f8d34e0cc5e907f97b699a58a1fb9cbfb83e4abfcfc5f87bf59021f2f488218bf1a8a2714b56cc5977b4e8a11fde3"%hex);
    (1280, "1be6c05d04a26c5831839ff1460bb673f03200275a73a77c6fec1ef57700a0a1ee0908eccab698633dc72143c2dcaae7ed26ec699636c72821db3ad0f95af77a"%hex);
    (1344, "9e8eec839492c2e7d796ed7933058b990f78f47da7919a2afd4326e9282f4cb14c9322ca45306001c7f268d0c97154e1b3de5dff6f078e1923fa359a10dbb6a9"%hex);
    (1408, "e57f75b2805a9cc4a81b938083bce5629feda917d3fd3a6cbbf63dcb200a79d41debbf8cc6994b6771af901248bed006c6824c3f8beaf68395bb78c16a31417e"%hex);
    (1472, "e294d9daf89608ad86eafbab6437d1061a6ea22130ad1a8ae2a88908cf5705a64fcf2eccf701bd5083dcc1f6f313fc832139fd4975aadf1663730e411e2571d6"%hex);
    (1536, "5525b471823a8dfde6a424ea358a55c4083a35792f7754f66ab91f9d38f1ad17d817f3ab20257f96edfb5e905d3d7d09310fd973bdba17788d0deaba85bc0595"%hex);
    (1600, "b90af934c7c49402f128a0219c4f920a275bb5695c7ac577d990d8e47e3a11da957dff77492fdc9dd374d8b6c2d58cabb206fe3b4c777725b9be216e4d450442"%hex);
    (1664, "f1c21606fbc4ca632613b7280a240a56ee696d24c7af54d69241236935d95dcee95a4884d7b778b1887d07aae00bdbf66eee50bc06cb92cdba251e72179fae19"%hex);
    (1728, "087a15421f2373739ead2b8267585887f8182cf460af40e78585af83aa6217b1f3b2feb06caddc1198adc33d768271798085f31d1e4b04c29766ab770adbd4c4"%hex);
    (1792, "cacee64504901a4a685014b32831d959949ec1b8abb0dcd1c98a00010e74c00f1f38af0b067bd54ce4a1d05c3c5368c9df351cd7864f47e2f1b258915bd7e33a"%hex);
    (1856, "089d1288f3ec988b133752ebf656d76b72d75413defda2ce9d385a3043cd29dcad3beefcd7787be4dcab406aebc88d66131275c677a1b3f4d421ae7f00dea5c2"%hex);
    (1920, "646b2d57992f2ba10fcd32cd53ee23c2d26d38e04408790b4ec68c142451cc6419e730b08773f4192c33afcd7c2d82825c5df03d2fc1003ab907d69e85b36b5a"%hex);
    (1984, "ed65337d7b2f2ddd30deccb3a540da1373963e04a1b11834f04c51101729adc2bb3aeeb823210d0e53ba37054ac0f169b1942e22966fb885d05f9a2b2f47f339"%hex);
    (2048, "87feee12ab6264300b638e03ce90ffb943bbb6fee9563fbb8bb24ceaa1f7df1b0e5f085d976403de486b1def6335e05416cbebdfd596b52ee340b5126c9a6c9c"%hex);
    (2112, "55188de1e175ff403a66b4b5fb3043f72caafa51c8a08ef3729f03ebdedf7503b89bcb15e120031d785556448cc18175261bbbc6db89a90010db16c809fb01dc"%hex);
    (2176, "11925eac35b981127d61877f84601c6b76a1c71fceeba6d76962fa593377ce58c14546c5c39922647433717c723071f019cdd21b688e0631187ae3f43c88db8a"%hex);
    (2240, "e6f287dbfb3e87c9b381665b35ca70204b32763a4eb28a18b35dde91cb6d36dc0c144e24b8f08358c500ad764a2cc51807e60e1d8b10a0306caf7cacbef1de09"%hex);
    (2304, "b2302755450595dd7bee2679a8837e0af60d9a175dfc9c775106c04e521ddf44800c984e5f16b086304cdf2dcd81705cd767671dda69c71d3db85103dd93e56c"%hex);
    (2368, "7bc2f8025ce7d6be25ca7ee9f6383c9a316f5008e4504ad65eab26ba552261926b919c43b603d377e40a17a608d04082c9c93dcff3bd6617f9d1f6d6f6bc45d2"%hex);
    (2432, "ecfb764815d1d66ff2d4e560fb6684fdcd320c5f340ebe5278c0dbafb3de376b317547f4d87f60d32f620f2d855f433e820f32cac8b4520abc9a80d67a33663a"%hex);
    (2496, "6f1495f69b202a18acf4ba7671a23dd6c24529b83a2b9b5d9e646ceba738ccdae68867c5f8f46f51379ec0b5deaf6a234df2c2a19dad2b2daaa1a43f2697c468"%hex);
    (2560, "1e45d8e8287bb9f4f1963112d445e354e8fe36bf32c595383c8f39354c9feb8e998f5532b76b6af31f7538f46e6b6254a487e2dbc359a6de9548cf1b95f53f63"%hex);
    (2624, "e6964d4e5d1ef53d45d9751fc8cb3b1a3cf03187d4e807fa6d2ac3d58824a498560ff790061aa759f27b0334b520a550dc4854ba654d97bd240ccc9f54ed67e7"%hex);
    (2688, "66512cd723aa99bf3609e47de123f7e791006aaa360013833013cca862062f5f092ba9ceb523d72797da00dd2806f234970d9630ccafdaffd3ad5abc2ceab22b"%hex);
    (2752, "896b67ad91469656d99a20d7a9a3468573c2c3ef210339f0cc8f0b3195c2829f35a716575262d923bdd1c4c276dc60f15ec8eec131ac8420ea9d6310f664a69f"%hex);
    (2816, "a50be3ae1e1ea3b5c3922840730d5453499add6f3dccaa43fc9bb6d1b49031a98121c44d0fc737e544750001d542c92874001cbacc1005c744bb25117f3269e0"%hex);
    (2880, "a98f6c78048ff0e6c408c949e6dddce59a5367657d1f0ecd1eb1c816953d7b0667e074b50c175c0c03f23279459cc220638817cd405d8ca306c88571b719b258"%hex);
    (2944, "84f5b58ebdf3177b92d3525830ec15399fb2fcf3b4f67b68c8bcb44da18e654d287b5a62824af9bdf9364adbeb5dee46672dad17ae257d0195630e0aea571a0b"%hex);
    (3008, "7a8791a7b1a8e92bd689587d436eb08b87a18188a22e77d22741888c6ca1f9745fedd155f5957d7111e4b0361ebefc8edace37532fa44848de299fc5b1a6a45b"%hex);
    (3072, "f6f6f44fea90c6fd4082cbbc7903991181fd6f0abaf850597e7ab59bb0d6fc456bfe0b53df5578b657bb706e8173987c66906fab952ed96ce0171207c89ac0dc"%hex);
    (3136, "d4d35d550a6f02e9e39674f1c4a8f148ff6c21125ed6a3d1266fcbfcf3b22d7b7fe158a692adc669f0f4bd5c26069216185d5ec9155708e09ff1382cce677ac5"%hex);
    (3200, "bf19601bfcea89e7d0745f26450235bec9844b514a056d305751f33bfabee1f4cc43a591bf1e37d85da143d184de048f4cc1b325c6ffd94f08b4f05b148fe775"%hex);
    (3264, "3da7dc8721f4bcdbec360e3d183eca25c29f0b2add827a0c8da25800dcfa6e981c56d9704722ee8c721156d904e0826ed133bb6cc97920da9c05554cdd26253f"%hex);
    (3328, "69ddffafb9377bed690e80ddb04dc67c457a0532a8f8adee2a1463758927e13571170398b405dca779a699357bf6cc6c07a651e91bd1025767217b0848ed0916"%hex);
    (3392, "24aa217770106c237e61aedd86b2fd1df6bf32846617493422d436d917546b0e2951e2ab8747089bfbbea28a6381777f425b4d9d7745c89e0b0a8ce2d5d5b24e"%hex);
    (3456, "8f44fc185108eea12d286b61dea6d3eaee4173a3d05c5c227de00ddc0398489f7073dff412542f928a8cf52612a207e2a969b7744a0cb9b9959a9603b0fcbd52"%hex);
    (3520, "196b32ada48e251ef66c65ab427943bf46cf5d219b4c2bc197eb6d4901c832cac1afa090eb5c6a5a81c09ea07bf2fb48b1e45096a1f7ca39f16969f1025c9648"%hex);
    (3584, "cfcd7ec9b8d016488ed37ec522eb95dd0d931e5838389718bebb97f307b7e405fc99fb4e25a121afd0506cb35e36fd000295ff810b148a2e287843605ce8f1dd"%hex);
    (3648, "12feba6b22a5314fb0e86dbd3e28a8c127857c4c807e771b7a4968df17db652b891bc041666941d019bedf885dac4e052d642321006345f9a41f1d901e423bcc"%hex);
    (3712, "c3be52053989f6aa523b8c30b843c5b517eec4e4efec505a320e59731675323a165714ae5ea6a80bcf0e91546d53bdbbdbc57fac51f9933c6d41f2245e631eed"%hex);
    (3776, "74172498a1af0f961ef0ec59f68c9fe660c9a3576f940f4021d4e4b318394f8cd673ded57028a2052c0696a33b1053470013bfe174fece0066e4fe06ab0714aa"%hex);
    (3840, "be1253a73cf669081a5a23b58187c16ccd1f5b04ec3e315f5098b1199de73b74b52c219ee8596666c615c856a30d942352899529f379fde09d83b527153898a0"%hex);
    (3904, "5cf6a8774b66909c721e36a1d473e7a0326a7d144454941faebfd05e854e343671062db8c7e8836d6b029daa6b103d10af825035568cb6ce688341e00b03285f"%hex);
    (3968, "6ac8667ca498513befbe93ae753344c825bfdef013fb7a619f51a2b518c1b0a7859d3ff47db4b3e0d5b66d8aa7fd759c141fe975049b88bf9d7409ae55a78027"%hex);
    (4032, "2998701fd72d52d4f147834dac9ed636a3c423a88c6649f68e01f9d379d80c01f9dafd6711847e6a036a402cc72125a19294e33663850002e181372eef2fdf07"%hex)]);
  (363, [(0, "85494791e0b90a4b6a8a4c7a0afdb8c77d04e2e6a60fc2567810b6b0c0d29e1349fdd39eb17b7b1cba936903046cd35988f606495e5cbe2c86a91360e706a7b9"%hex);
    (64, "390f0cde78b5b0378a4bbf3439dfd11dbb815f912e6658a90a73aa66146d226e696da96f771eeee8787ed6236e8c4b95aeebe9e1d5cd579b636898013cf49655"%hex);
    (128, "722e8b7e4255d0268495e267c9cf53b6edce2c9df61bce68a8ae9653a89a66848d982f32719af410e47707faefb76c8dbcb454d943735fa502224c763ee731aa"%hex);
    (192, "9260ab71f18c6f3a864a353b7a340d36717d35de85d50612258cc0b18c16afac431c67b4360e94b841556da82b8ec1d7a401cf90a09ba802af6ed5b73c45887e"%hex);
    (256, "bc63adbb792da5e0f0373174be0e0d4f2dc7dbe1f50757f3293724ef15000c576415bec40ac9ce7b0c6c356a2d2eb83161e05956fc891d90a768c46cdf0f1595"%hex);
    (320, "cde832c64d4e8ade19911b9fd3bc8090d1e19b7cb482725df2aa0409d7dc6e5c011b93df7e4462248f12a8289f9d48ceacc84aa5f5b82dea010187bb381fc437"%hex);
    (384, "f9068677e3e096f7d3ab38c3f8cf0cb209636e7b3f8ab37e1487558d398479cc6a4ec51fe5474022f9e423e10df6fd521ddf33b51fc5c040aaff454a2dc3bb3b"%hex);
    (448, "1805c90b4cff005e25df8bfefb773505f4a04613895ad0540a1222a37c963e773022a47d42ad90186744a9f1c6acd98f2206162a58eb4e504c079f7021cb8c53"%hex);
    (512, "a043378c2dc1ca1716809c613ac141d0015c3f9891e0060a625b853fbd5f2784908aa84f6e7e4d34a67a3e99301814ddb7444f40cad5e2b499c3e1e1394e7fc9"%hex);
    (576, "e887d04d58953c79ff2c6f17725811ce334e3decd255d41617f158c8e4c7b0f652b6db67ce9e4b4e83a3f3b1b8f5d01c830c90d6165a0e2348699b92f95eabe6"%hex);
    (640, "15edf1eab9470d4f36eb1ddfe2eedfac770d8d7dd6eaab55c9821222ce42ac321a35ad159759f2b1c34ce64c3e9e085e01d5d39179546e83225309907ee9910d"%hex);
    (704, "cdf887067f32eec67b46949022ab0a945d9cb61c1a8fa81f43d8921d1894b8cea2591b572a48a0bd65dcf0fbfde1d4d45d8a65b8cbd7bd39c65c7c0653141ded"%hex);
    (768, "10a0b880f2e3fa8fed5439d07d989cb6e1c9453d0f767ebbdeeaa71b68069aab379aa4c4e0ff9ba2dd4c4cf2bde5d18957557a945058166b11e715baf120cd72"%hex);
    (832, "af8860c7f317309bfdd1588dd2786638a104adf65a4814be20d0c6f0f7510ce471de9b9632c1965fc7e15d9003fcb89df9196501cf76ca670f6a99964d0a3a3b"%hex);
    (896, "82d87ad5aa29ad1c5774a986d3ab46554499a24d738f3039b61c11a4c56e91371f9ee66e9a59cd0efd06a8c518913a840672758859eafefd72dcf1e3e13670b7"%hex);
    (960, "82827ec94bdfa8c70ac4f56be390f6ec8196f17b3114a86153338aa1110a00c289bde45d603b735043898831a0db88a94c5b28312301b32a8db218347ea91ef6"%hex);
    (1024, "5e9ebb3e013defd4aa5337abc96d863e5423325f46fecec9a7d2a0e427dd45074dc1b669f4f8aecfcbd4f279aeecb10b90e18f41976ab1333feb7622bf4504a7"%hex);
    (1088, "eddb3205b857659a0378d0e4e90d64d25de349d2f77ae6e49ad9389d6f9157848b1201f76148727de286428cba1a62805460e594c3b2c162da8e3dfbb5e5c4ff"%hex);
    (1152, "7e7bb3c397a3cc4ce1baf9b5671187bb545411cba72f615dd83aaa9d5718deabd6f122292adce2e701011e9a1d3f033312341d89af099e4c4baea2ddcd498e30"%hex);
    (1216, "6a69239e7c80f9caadbdec45f569133de04f8d34e0cc5e907f97b699a58a1fb9cbfb83e4abfcfc5f87bf59021f2f488218bf1a8a2714b56cc5977b4e8a11fde3"%hex);
    (1280, "1be6c05d04a26c5831839ff1460bb673f03200275a73a77c6fec1ef57700a0a1ee0908eccab698633dc72143c2dcaae7ed26ec699636c72821db3ad0f95af77a"%hex);
    (1344, "9e8eec839492c2e7d796ed7933058b990f78f47da7919a2afd4326e9282f4cb14c9322ca45306001c7f268d0c97154e1b3de5dff6f078e1923fa359a10dbb6a9"%hex);
    (1408, "e57f75b2805a9cc4a81b938083bce5629feda917d3fd3a6cbbf63dcb200a79d41debbf8cc6994b6771af901248bed006c6824c3f8beaf68395bb78c16a31417e"%hex);
    (1472, "e294d9daf89608ad86eafbab6437d1061a6ea22130ad1a8ae2a88908cf5705a64fcf2eccf701bd5083dcc1f6f313fc832139fd4975aadf1663730e411e2571d6"%hex);
    (1536, "5525b471823a8dfde6a424ea358a55c4083a35792f7754f66ab91f9d38f1ad17d817f3ab20257f96edfb5e905d3d7d09310fd973bdba17788d0deaba85bc0595"%hex);
    (1600, "b90af934c7c49402f128a0219c4f920a275bb5695c7ac577d990d8e47e3a11da957dff77492fdc9dd374d8b6c2d58cabb206fe3b4c777725b9be216e4d450442"%hex);
    (1664, "f1c21606fbc4ca632613b7280a240a56ee696d24c7af54d69241236935d95dcee95a4884d7b778b1887d07aae00bdbf66eee50bc06cb92cdba251e72179fae19"%hex);
    (1728, "087a15421f2373739ead2b8267585887f8182cf460af40e78585af83aa6217b1f3b2feb06caddc1198adc33d768271798085f31d1e4b04c29766ab770adbd4c4"%hex);
    (1792, "cacee64504901a4a685014b32831d959949ec1b8abb0dcd1c98a00010e74c00f1f38af0b067bd54ce4a1d05c3c5368c9df351cd7864f47e2f1b258915bd7e33a"%hex);
    (1856, "089d1288f3ec988b133752ebf656d76b72d75413defda2ce9d385a3043cd29dcad3beefcd7787be4dcab406aebc88d66131275c677a1b3f4d421ae7f00dea5c2"%hex);
    (1920, "646b2d57992f2ba10fcd32cd53ee23c2d26d38e04408790b4ec68c142451cc6419e730b08773f4192c33afcd7c2d82825c5df03d2fc1003ab907d69e85b36b5a"%hex);
    (1984, "ed65337d7b2f2ddd30deccb3a540da1373963e04a1b11834f04c51101729adc2bb3aeeb823210d0e53ba37054ac0f169b1942e22966fb885d05f9a2b2f47f339"%hex);
    (2048, "87feee12ab6264300b638e03ce90ffb943bbb6fee9563fbb8bb24ceaa1f7df1b0e5f085d976403de486b1def6335e05416cbebdfd596b52ee340b5126c9a6c9c"%hex);
    (2112, "55188de1e175ff403a66b4b5fb3043f72caafa51c8a08ef3729f03ebdedf7503b89bcb15e120031d785556448cc18175261bbbc6db89a90010db16c809fb01dc"%hex);
    (2176, "11925eac35b981127d61877f84601c6b76a1c71fceeba6d76962fa593377ce58c14546c5c39922647433717c723071f019cdd21b688e0631187ae3f43c88db8a"%hex);
    (2240, "e6f287dbfb3e87c9b381665b35ca70204b32763a4eb28a18b35dde91cb6d36dc0c144e24b8f08358c500ad764a2cc51807e60e1d8b10a0306caf7cacbef1de09"%hex);
    (2304, "b2302755450595dd7bee2679a8837e0af60d9a175dfc9c775106c04e521ddf44800c984e5f16b086304cdf2dcd81705cd767671dda69c71d3db85103dd93e56c"%hex);
    (2368, "7bc2f8025ce7d6be25ca7ee9f6383c9a316f5008e4504ad65eab26ba552261926b919c43b603d377e40a17a608d04082c9c93dcff3bd6617f9d1f6d6f6bc45d2"%hex);
    (2432, "ecfb764815d1d66ff2d4e560fb6684fdcd320c5f340ebe5278c0dbafb3de376b317547f4d87f60d32f620f2d855f433e820f32cac8b4520abc9a80d67a33663a"%hex);
    (2496, "6f1495f69b202a18acf4ba7671a23dd6c24529b83a2b9b5d9e646ceba738ccdae68867c5f8f46f51379ec0b5deaf6a234df2c2a19dad2b2daaa1a43f2697c468"%hex);
    (2560, "1e45d8e8287bb9f4f1963112d445e354e8fe36bf32c595383c8f39354c9feb8e998f5532b76b6af31f7538f46e6b6254a487e2dbc359a6de9548cf1b95f53f63"%hex);
    (2624, "e6964d4e5d1ef53d45d9751fc8cb3b1a3cf03187d4e807fa6d2ac3d58824a498560ff790061aa759f27b0334b520a550dc4854ba654d97bd240ccc9f54ed67e7"%hex);
    (2688, "66512cd723aa99bf3609e47de123f7e791006aaa360013833013cca862062f5f092ba9ceb523d72797da00dd2806f234970d9630ccafdaffd3ad5abc2ceab22b"%hex);
    (2752, "896b67ad91469656d99a20d7a9a3468573c2c3ef210339f0cc8f0b3195c2829f35a716575262d923bdd1c4c276dc60f15ec8eec131ac8420ea9d6310f664a69f"%hex);
    (2816, "a50be3ae1e1ea3b5c3922840730d5453499add6f3dccaa43fc9bb6d1b49031a98121c44d0fc737e544750001d542c92874001cbacc1005c744bb25117f3269e0"%hex);
    (2880, "a98f6c78048ff0e6c408c949e6dddce59a5367657d1f0ecd1eb1c816953d7b0667e074b50c175c0c03f23279459cc220638817cd405d8ca306c88571b719b258"%hex);
    (2944, "84f5b58ebdf3177b92d3525830ec15399fb2fcf3b4f67b68c8bcb44da18e654d287b5a62824af9bdf9364adbeb5dee46672dad17ae257d0195630e0aea571a0b"%hex);
    (3008, "7a8791a7b1a8e92bd689587d436eb08b87a18188a22e77d22741888c6ca1f9745fedd155f5957d7111e4b0361ebefc8edace37532fa44848de299fc5b1a6a45b"%hex);
    (3072, "f6f6f44fea90c6fd4082cbbc7903991181fd6f0abaf850597e7ab59bb0d6fc456bfe0b53df5578b657bb706e8173987c66906fab952ed96ce0171207c89ac0dc"%hex);
    (3136, "d4d35d550a6f02e9e39674f1c4a8f148ff6c21125ed6a3d1266fcbfcf3b22d7b7fe158a692adc669f0f4bd5c26069216185d5ec9155708e09ff1382cce677ac5"%hex);
    (3200, "bf19601bfcea89e7d0745f26450235bec9844b514a056d305751f33bfabee1f4cc43a591bf1e37d85da143d184de048f4cc1b325c6ffd94f08b4f05b148fe775"%hex);
    (3264, "3da7dc8721f4bcdbec360e3d183eca25c29f0b2add827a0c8da25800dcfa6e981c56d9704722ee8c721156d904e0826ed133bb6cc97920da9c05554cdd26253f"%hex);
    (3328, "69ddffafb9377bed690e80ddb04dc67c457a0532a8f8adee2a1463758927e13571170398b405dca779a699357bf6cc6c07a651e91bd1025767217b0848ed0916"%hex);
    (3392, "24aa217770106c237e61aedd86b2fd1df6bf32846617493422d436d917546b0e2951e2ab8747089bfbbea28a6381777f425b4d9d7745c89e0b0a8ce2d5d5b24e"%hex);
    (3456, "8f44fc185108eea12d286b61dea6d3eaee4173a3d05c5c227de00ddc0398489f7073dff412542f928a8cf52612a207e2a969b7744a0cb9b9959a9603b0fcbd52"%hex);
    (3520, "196b32ada48e251ef66c65ab427943bf46cf5d219b4c2bc197eb6d4901c832cac1afa090eb5c6a5a81c09ea07bf2fb48b1e45096a1f7ca39f16969f1025c9648"%hex);
    (3584, "cfcd7ec9b8d016488ed37ec522eb95dd0d931e5838389718bebb97f307b7e405fc99fb4e25a121afd0506cb35e36fd000295ff810b148a2e287843605ce8f1dd"%hex);
    (3648, "12feba6b22a5314fb0e86dbd3e28a8c127857c4c807e771b7a4968df17db652b891bc041666941d019bedf885dac4e052d642321006345f9a41f1d901e423bcc"%hex);
    (3712, "c3be52053989f6aa523b8c30b843c5b517eec4e4efec505a320e59731675323a165714ae5ea6a80bcf0e91546d53bdbbdbc57fac51f9933c6d41f2245e631eed"%hex);
    (3776, "74172498a1af0f961ef0ec59f68c9fe660c9a3576f940f4021d4e4b318394f8cd673ded57028a2052c0696a33b1053470013bfe174fece0066e4fe06ab0714aa"%hex);
    (3840, "be1253a73cf669081a5a23b58187c16ccd1f5b04ec3e315f5098b1199de73b74b52c219ee8596666c615c856a30d942352899529f379fde09d83b527153898a0"%hex);
    (3904, "5cf6a8774b66909c721e36a1d473e7a0326a7d144454941faebfd05e854e343671062db8c7e8836d6b029daa6b103d10af825035568cb6ce688341e00b03285f"%hex);
    (3968, "6ac8667ca498513befbe93ae753344c825bfdef013fb7a619f51a2b518c1b0a7859d3ff47db4b3e0d5b66d8aa7fd759c141fe975049b88bf9d7409ae55a78027"%hex);
    (4032, "2998701fd72d52d4f147834dac9ed636a3c423a88c6649f68e01f9d379d80c01f9dafd6711847e6a036a402cc72125a19294e33663850002e181372eef2fdf07"%hex)]);
  (364, [(0, "87d5f7eb1cdc20ed0404"%hex); (16, "04"%hex); (24, "020000000e0000000300000013"%hex);
    (42, "c0006c01140515014c006008640419001800900012000000110012001200110008007e006c00930020003802080025011700440612003900170016011200b3"%hex);
    (106, "1600100212003100080004017400500008008a01740058001b009c01120073000800d802a0007b00080014020400830010002c021800c9000800f803a000d1"%hex);
    (170, "0800fe010400d9001000fa0118003c010800b407a00044010800be0504004c0110005a04180015011000fc0618004c0110005a0418004c0110005a0418004c01"%hex);
    (234, "10005a0418005c0110008c05180001"%hex); (255, "9005e471b6726f6f740002"%hex); (272, "3001"%hex);
    (280, "900c8ca6ac707269766174652d6469720003"%hex); (304, "3002"%hex); (312, "900b14be9c2e66736576656e7473640010"%hex); (335, "3010"%hex);
    (343, "900f14121166736576656e7473642d757569640011"%hex); (370, "3011"%hex); (378, "6011"%hex); (386, "80"%hex); (395, "02"%hex);
    (402, "401600707572676561626c652d64726563732d66697865640002"%hex); (434, "900af844cd706c61696e2e7478740012"%hex); (456, "3012"%hex);
    (464, "6012"%hex); (472, "80"%hex); (481, "5c011c"%hex); (488, "9010b8cdba7370617273655f686561642e746d70000d0108"%hex); (516, "30e90008"%hex);
    (524, "60050110"%hex); (532, "800030"%hex); (541, "02"%hex); (548, "900b0817637370617273652e62696e0015"%hex); (571, "3015"%hex);
    (579, "6015"%hex); (587, "80"%hex); (596, "ffff10"%hex); (603, "800030"%hex); (1912, "fc06ac"%hex); (1920, "15"%hex);
    (1928, "b6c119628e2bbb18cebce9628e2bbb18cebce9628e2bbb18b6c119628e2bbb180082"%hex); (1968, "01"%hex); (1976, "04"%hex);
    (1984, "6300000063000000a481"%hex); (2004, "0300400004020b00082028000d2808007370617273652e62696e"%hex); (2037, "40"%hex); (2045, "40"%hex);
    (2061, "20"%hex); (2077, "10"%hex); (2084, "02"%hex); (2092, "15"%hex);
    (2100, "b6c119628e2bbb18cebce9628e2bbb18cebce9628e2bbb18b6c119628e2bbb180080"%hex); (2140, "01"%hex); (2148, "04"%hex);
    (2156, "6300000063000000a481"%hex); (2176, "0200380004020b00082028007370617273652e62696e"%hex); (2205, "40"%hex); (2213, "40"%hex);
    (2229, "20"%hex); (2244, "320618"%hex); (2253, "10"%hex); (2268, "e40618"%hex);
    (2292, "140794008e2bbb18bfaa31628e2bbb18b6c119628e2bbb180080"%hex); (2324, "01"%hex); (2332, "02"%hex); (2340, "6300000063000000a481"%hex);
    (2360, "0300400004020b0008202800050008007370617273652e62696e"%hex); (2393, "10"%hex); (2401, "10"%hex); (2417, "10"%hex);
    (2440, "8c050c000010"%hex); (2452, "15"%hex); (2460, "b6c119628e2bbb180800ba0574"%hex); (2478, "15"%hex);
    (2486, "b6c119628e2bbb18b6c119628e2bbb18b6c119628e2bbb18b6c119628e2bbb180080"%hex); (2526, "01"%hex); (2534, "01"%hex);
    (2542, "6300000063000000a481"%hex); (2562, "0100100004020b007370617273652e62696e"%hex); (2586, "01000000780416"%hex); (2597, "20"%hex);
    (2605, "40"%hex); (2612, "98050c"%hex); (2624, "74050c"%hex); (2636, "a40518"%hex);
    (2660, "74045c008a2bbb1894f26bf68a2bbb184b8f6bf68a2bbb180080"%hex); (2692, "01"%hex); (2700, "01"%hex); (2708, "6300000063000000a481"%hex);
    (2728, "0100100004020b007370617273652e62696e"%hex); (2752, "5803a0"%hex); (2760, "13"%hex);
    (2768, "52901df68a2bbb187c0d1ef68a2bbb187af907f78a2bbb1852901df68a2bbb180080"%hex); (2816, "02"%hex); (2824, "6300000063000000a481"%hex);
    (2844, "0200380004021000082028007370617273655f686561642e746d70001a"%hex); (2896, "1a"%hex); (2912, "6c040400420408"%hex); (2924, "180512"%hex);
    (2932, "4b8f6bf68a2bbb1808000040"%hex); (2950, "6801"%hex); (2966, "54034a00bb180080"%hex); (2980, "01"%hex); (2988, "01"%hex);
    (2996, "6300000063000000a481"%hex); (3016, "01001000040210007370617273655f686561642e746d700002"%hex); (3048, "12"%hex);
    (3056, "5e691bf68a2bbb188e771cf68a2bbb188e771cf68a2bbb185e691bf68a2bbb180080"%hex); (3096, "01"%hex); (3104, "02"%hex);
    (3112, "6300000063000000a481"%hex); (3132, "0200380004020a0008202800706c61696e2e747874"%hex); (3160, "23"%hex); (3169, "10"%hex);
    (3184, "23"%hex); (3200, "3a030400220308"%hex); (3212, "500612"%hex); (3220, "52901df68a2bbb1808004c0318"%hex); (3238, "5c01"%hex);
    (3254, "e2014a00bb180080"%hex); (3268, "01"%hex); (3276, "01"%hex); (3284, "6300000063000000a481"%hex);
    (3304, "0100100004020a00706c61696e2e747874"%hex); (3328, "10"%hex); (3336, "11"%hex);
    (3344, "ddcd5b47872bbb188bd76447872bbb188bd76447872bbb18ddcd5b47872bbb180080"%hex); (3384, "01"%hex); (3392, "02"%hex);
    (3400, "63000000630000008081"%hex); (3420, "0200380004020f000820280066736576656e7473642d75756964000024"%hex); (3457, "10"%hex);
    (3472, "24"%hex); (3488, "0200040002"%hex); (3501, "10"%hex); (3508, "5901"%hex); (3524, "0100000012"%hex);
    (3536, "5e691bf68a2bbb18080001"%hex); (3551, "10"%hex); (3558, "5b01"%hex); (3574, "ffff46"%hex); (3584, "01"%hex); (3592, "01"%hex);
    (3600, "63000000630000008081"%hex); (3620, "0100100004020f0066736576656e7473642d75756964000011"%hex); (3652, "ddcd5b47872bbb18080002"%hex);
    (3670, "10"%hex); (3678, "26465647872bbb1889e25b47872bbb1889e25b47872bbb1826465647872bbb180080"%hex); (3718, "01"%hex); (3726, "02"%hex);
    (3734, "6300000063000000c041"%hex); (3754, "0100100004020b002e66736576656e747364"%hex); (3778, "10"%hex); (3786, "26465647872bbb18040001"%hex);
    (3804, "03"%hex); (3812, "5ea972dc842bbb185ea972dc842bbb185ea972dc842bbb185ea972dc842bbb180080"%hex); (3860, "01"%hex); (3876, "a441"%hex);
    (3888, "0100100004020c00707269766174652d646972"%hex); (3912, "03"%hex); (3920, "5ea972dc842bbb18040001"%hex); (3938, "02"%hex);
    (3947, "9d72dc842bbb1892ce19628e2bbb1892ce19628e2bbb18009d72dc842bbb180080"%hex); (3986, "03"%hex); (3994, "08"%hex);
    (4002, "f501000014000000ed41"%hex); (4022, "0100080004020500726f6f74"%hex); (4038, "02"%hex); (4047, "9d72dc842bbb18040042"%hex);
    (4061, "10"%hex); (4072, "20000000b800000013"%hex); (4088, "01"%hex)]);
  (365, [(0, "9556f4ff7ba60b406d01"%hex); (16, "04"%hex); (24, "0b000040"%hex); (40, "02000040020000406e01"%hex)]);
  (366, [(0, "a2ac551e5c1ae8916e01"%hex); (16, "04"%hex); (24, "020000400b0000000700000001"%hex);
    (42, "c0012000a00d100010002000100000001000000010"%hex); (504, "0404"%hex); (512, "04"%hex); (520, "ffff10"%hex); (528, "03"%hex);
    (4024, "ffff1000001000006101"%hex); (4045, "1000006c01"%hex); (4056, "12"%hex); (4061, "1000001000000010000000100000001000000001"%hex);
    (4088, "01"%hex)]);
  (367, [(0, "f9bc8d070def974e0204"%hex); (16, "04"%hex); (24, "0d"%hex); (32, "41505342"%hex); (40, "02"%hex); (56, "01"%hex); (88, "0b"%hex);
    (96, "05"%hex); (104, "0600000029034718010000000200000002000040020000406d01"%hex); (136, "0404"%hex); (144, "6701"%hex); (152, "5401"%hex);
    (176, "16"%hex); (184, "03"%hex); (192, "01"%hex); (224, "0b"%hex); (232, "05"%hex);
    (240, "643144d9795c4e95ab19007de4e8d4e16851ea628e2bbb1801"%hex);
    (272, "6e657766735f617066732028323333322e3134302e31332e3730302e31290000190f6ddc842bbb1802"%hex); (704, "415046535034"%hex); (960, "03"%hex);
    (984, "10"%hex); (1040, "0200004002000040"%hex); (1056, "04"%hex); (1064, "1000000002"%hex); (1104, "02"%hex)]);
  (368, [(0, "c03af4ff49c20b407001"%hex); (16, "04"%hex); (24, "0b000040"%hex); (32, "01"%hex); (40, "02000040020000407101"%hex)]);
  (369, [(0, "51a7551ea61fe8917101"%hex); (16, "04"%hex); (24, "020000400b0000000700000001"%hex);
    (42, "c0012000a00d100010002000100000001000000010"%hex); (504, "0204"%hex); (512, "04"%hex); (520, "ffff10"%hex); (528, "03"%hex);
    (4024, "ffff1000001000006401"%hex); (4045, "1000006f01"%hex); (4056, "12"%hex); (4061, "1000001000000010000000100000001000000001"%hex);
    (4088, "01"%hex)]);
  (370, [(0, "571f22abafc803457201"%hex); (16, "05"%hex); (24, "020000400f0000000300000003"%hex);
    (42, "40002000f00e100008003c00140000000800140014000800080028001400180008005000140018000800500014"%hex); (120, "5901"%hex); (127, "205b01"%hex);
    (135, "20ffff08"%hex); (143, "207301"%hex); (151, "20"%hex); (3976, "01"%hex); (3983, "1016"%hex); (3992, "01000000ffff14"%hex);
    (4003, "1013"%hex); (4012, "0100000001"%hex); (4023, "1012"%hex); (4032, "0100000001"%hex); (4043, "1011"%hex); (4052, "0100000052"%hex);
    (4061, "10"%hex); (4072, "080000001400000003"%hex); (4088, "01"%hex)]);
  (371, [(0, "85494791e0b90a4b6a8a4c7a0afdb8c77d04e2e6a60fc2567810b6b0c0d29e1349fdd39eb17b7b1cba936903046cd35988f606495e5cbe2c86a91360e706a7b9"%hex);
    (64, "390f0cde78b5b0378a4bbf3439dfd11dbb815f912e6658a90a73aa66146d226e696da96f771eeee8787ed6236e8c4b95aeebe9e1d5cd579b636898013cf49655"%hex);
    (128, "722e8b7e4255d0268495e267c9cf53b6edce2c9df61bce68a8ae9653a89a66848d982f32719af410e47707faefb76c8dbcb454d943735fa502224c763ee731aa"%hex);
    (192, "9260ab71f18c6f3a864a353b7a340d36717d35de85d50612258cc0b18c16afac431c67b4360e94b841556da82b8ec1d7a401cf90a09ba802af6ed5b73c45887e"%hex);
    (256, "bc63adbb792da5e0f0373174be0e0d4f2dc7dbe1f50757f3293724ef15000c576415bec40ac9ce7b0c6c356a2d2eb83161e05956fc891d90a768c46cdf0f1595"%hex);
    (320, "cde832c64d4e8ade19911b9fd3bc8090d1e19b7cb482725df2aa0409d7dc6e5c011b93df7e4462248f12a8289f9d48ceacc84aa5f5b82dea010187bb381fc437"%hex);
    (384, "f9068677e3e096f7d3ab38c3f8cf0cb209636e7b3f8ab37e1487558d398479cc6a4ec51fe5474022f9e423e10df6fd521ddf33b51fc5c040aaff454a2dc3bb3b"%hex);
    (448, "1805c90b4cff005e25df8bfefb773505f4a04613895ad0540a1222a37c963e773022a47d42ad90186744a9f1c6acd98f2206162a58eb4e504c079f7021cb8c53"%hex);
    (512, "a043378c2dc1ca1716809c613ac141d0015c3f9891e0060a625b853fbd5f2784908aa84f6e7e4d34a67a3e99301814ddb7444f40cad5e2b499c3e1e1394e7fc9"%hex);
    (576, "e887d04d58953c79ff2c6f17725811ce334e3decd255d41617f158c8e4c7b0f652b6db67ce9e4b4e83a3f3b1b8f5d01c830c90d6165a0e2348699b92f95eabe6"%hex);
    (640, "15edf1eab9470d4f36eb1ddfe2eedfac770d8d7dd6eaab55c9821222ce42ac321a35ad159759f2b1c34ce64c3e9e085e01d5d39179546e83225309907ee9910d"%hex);
    (704, "cdf887067f32eec67b46949022ab0a945d9cb61c1a8fa81f43d8921d1894b8cea2591b572a48a0bd65dcf0fbfde1d4d45d8a65b8cbd7bd39c65c7c0653141ded"%hex);
    (768, "10a0b880f2e3fa8fed5439d07d989cb6e1c9453d0f767ebbdeeaa71b68069aab379aa4c4e0ff9ba2dd4c4cf2bde5d18957557a945058166b11e715baf120cd72"%hex);
    (832, "af8860c7f317309bfdd1588dd2786638a104adf65a4814be20d0c6f0f7510ce471de9b9632c1965fc7e15d9003fcb89df9196501cf76ca670f6a99964d0a3a3b"%hex);
    (896, "82d87ad5aa29ad1c5774a986d3ab46554499a24d738f3039b61c11a4c56e91371f9ee66e9a59cd0efd06a8c518913a840672758859eafefd72dcf1e3e13670b7"%hex);
    (960, "82827ec94bdfa8c70ac4f56be390f6ec8196f17b3114a86153338aa1110a00c289bde45d603b735043898831a0db88a94c5b28312301b32a8db218347ea91ef6"%hex);
    (1024, "5e9ebb3e013defd4aa5337abc96d863e5423325f46fecec9a7d2a0e427dd45074dc1b669f4f8aecfcbd4f279aeecb10b90e18f41976ab1333feb7622bf4504a7"%hex);
    (1088, "eddb3205b857659a0378d0e4e90d64d25de349d2f77ae6e49ad9389d6f9157848b1201f76148727de286428cba1a62805460e594c3b2c162da8e3dfbb5e5c4ff"%hex);
    (1152, "7e7bb3c397a3cc4ce1baf9b5671187bb545411cba72f615dd83aaa9d5718deabd6f122292adce2e701011e9a1d3f033312341d89af099e4c4baea2ddcd498e30"%hex);
    (1216, "6a69239e7c80f9caadbdec45f569133de04f8d34e0cc5e907f97b699a58a1fb9cbfb83e4abfcfc5f87bf59021f2f488218bf1a8a2714b56cc5977b4e8a11fde3"%hex);
    (1280, "1be6c05d04a26c5831839ff1460bb673f03200275a73a77c6fec1ef57700a0a1ee0908eccab698633dc72143c2dcaae7ed26ec699636c72821db3ad0f95af77a"%hex);
    (1344, "9e8eec839492c2e7d796ed7933058b990f78f47da7919a2afd4326e9282f4cb14c9322ca45306001c7f268d0c97154e1b3de5dff6f078e1923fa359a10dbb6a9"%hex);
    (1408, "e57f75b2805a9cc4a81b938083bce5629feda917d3fd3a6cbbf63dcb200a79d41debbf8cc6994b6771af901248bed006c6824c3f8beaf68395bb78c16a31417e"%hex);
    (1472, "e294d9daf89608ad86eafbab6437d1061a6ea22130ad1a8ae2a88908cf5705a64fcf2eccf701bd5083dcc1f6f313fc832139fd4975aadf1663730e411e2571d6"%hex);
    (1536, "5525b471823a8dfde6a424ea358a55c4083a35792f7754f66ab91f9d38f1ad17d817f3ab20257f96edfb5e905d3d7d09310fd973bdba17788d0deaba85bc0595"%hex);
    (1600, "b90af934c7c49402f128a0219c4f920a275bb5695c7ac577d990d8e47e3a11da957dff77492fdc9dd374d8b6c2d58cabb206fe3b4c777725b9be216e4d450442"%hex);
    (1664, "f1c21606fbc4ca632613b7280a240a56ee696d24c7af54d69241236935d95dcee95a4884d7b778b1887d07aae00bdbf66eee50bc06cb92cdba251e72179fae19"%hex);
    (1728, "087a15421f2373739ead2b8267585887f8182cf460af40e78585af83aa6217b1f3b2feb06caddc1198adc33d768271798085f31d1e4b04c29766ab770adbd4c4"%hex);
    (1792, "cacee64504901a4a685014b32831d959949ec1b8abb0dcd1c98a00010e74c00f1f38af0b067bd54ce4a1d05c3c5368c9df351cd7864f47e2f1b258915bd7e33a"%hex);
    (1856, "089d1288f3ec988b133752ebf656d76b72d75413defda2ce9d385a3043cd29dcad3beefcd7787be4dcab406aebc88d66131275c677a1b3f4d421ae7f00dea5c2"%hex);
    (1920, "646b2d57992f2ba10fcd32cd53ee23c2d26d38e04408790b4ec68c142451cc6419e730b08773f4192c33afcd7c2d82825c5df03d2fc1003ab907d69e85b36b5a"%hex);
    (1984, "ed65337d7b2f2ddd30deccb3a540da1373963e04a1b11834f04c51101729adc2bb3aeeb823210d0e53ba37054ac0f169b1942e22966fb885d05f9a2b2f47f339"%hex);
    (2048, "87feee12ab6264300b638e03ce90ffb943bbb6fee9563fbb8bb24ceaa1f7df1b0e5f085d976403de486b1def6335e05416cbebdfd596b52ee340b5126c9a6c9c"%hex);
    (2112, "55188de1e175ff403a66b4b5fb3043f72caafa51c8a08ef3729f03ebdedf7503b89bcb15e120031d785556448cc18175261bbbc6db89a90010db16c809fb01dc"%hex);
    (2176, "11925eac35b981127d61877f84601c6b76a1c71fceeba6d76962fa593377ce58c14546c5c39922647433717c723071f019cdd21b688e0631187ae3f43c88db8a"%hex);
    (2240, "e6f287dbfb3e87c9b381665b35ca70204b32763a4eb28a18b35dde91cb6d36dc0c144e24b8f08358c500ad764a2cc51807e60e1d8b10a0306caf7cacbef1de09"%hex);
    (2304, "b2302755450595dd7bee2679a8837e0af60d9a175dfc9c775106c04e521ddf44800c984e5f16b086304cdf2dcd81705cd767671dda69c71d3db85103dd93e56c"%hex);
    (2368, "7bc2f8025ce7d6be25ca7ee9f6383c9a316f5008e4504ad65eab26ba552261926b919c43b603d377e40a17a608d04082c9c93dcff3bd6617f9d1f6d6f6bc45d2"%hex);
    (2432, "ecfb764815d1d66ff2d4e560fb6684fdcd320c5f340ebe5278c0dbafb3de376b317547f4d87f60d32f620f2d855f433e820f32cac8b4520abc9a80d67a33663a"%hex);
    (2496, "6f1495f69b202a18acf4ba7671a23dd6c24529b83a2b9b5d9e646ceba738ccdae68867c5f8f46f51379ec0b5deaf6a234df2c2a19dad2b2daaa1a43f2697c468"%hex);
    (2560, "1e45d8e8287bb9f4f1963112d445e354e8fe36bf32c595383c8f39354c9feb8e998f5532b76b6af31f7538f46e6b6254a487e2dbc359a6de9548cf1b95f53f63"%hex);
    (2624, "e6964d4e5d1ef53d45d9751fc8cb3b1a3cf03187d4e807fa6d2ac3d58824a498560ff790061aa759f27b0334b520a550dc4854ba654d97bd240ccc9f54ed67e7"%hex);
    (2688, "66512cd723aa99bf3609e47de123f7e791006aaa360013833013cca862062f5f092ba9ceb523d72797da00dd2806f234970d9630ccafdaffd3ad5abc2ceab22b"%hex);
    (2752, "896b67ad91469656d99a20d7a9a3468573c2c3ef210339f0cc8f0b3195c2829f35a716575262d923bdd1c4c276dc60f15ec8eec131ac8420ea9d6310f664a69f"%hex);
    (2816, "a50be3ae1e1ea3b5c3922840730d5453499add6f3dccaa43fc9bb6d1b49031a98121c44d0fc737e544750001d542c92874001cbacc1005c744bb25117f3269e0"%hex);
    (2880, "a98f6c78048ff0e6c408c949e6dddce59a5367657d1f0ecd1eb1c816953d7b0667e074b50c175c0c03f23279459cc220638817cd405d8ca306c88571b719b258"%hex);
    (2944, "84f5b58ebdf3177b92d3525830ec15399fb2fcf3b4f67b68c8bcb44da18e654d287b5a62824af9bdf9364adbeb5dee46672dad17ae257d0195630e0aea571a0b"%hex);
    (3008, "7a8791a7b1a8e92bd689587d436eb08b87a18188a22e77d22741888c6ca1f9745fedd155f5957d7111e4b0361ebefc8edace37532fa44848de299fc5b1a6a45b"%hex);
    (3072, "f6f6f44fea90c6fd4082cbbc7903991181fd6f0abaf850597e7ab59bb0d6fc456bfe0b53df5578b657bb706e8173987c66906fab952ed96ce0171207c89ac0dc"%hex);
    (3136, "d4d35d550a6f02e9e39674f1c4a8f148ff6c21125ed6a3d1266fcbfcf3b22d7b7fe158a692adc669f0f4bd5c26069216185d5ec9155708e09ff1382cce677ac5"%hex);
    (3200, "bf19601bfcea89e7d0745f26450235bec9844b514a056d305751f33bfabee1f4cc43a591bf1e37d85da143d184de048f4cc1b325c6ffd94f08b4f05b148fe775"%hex);
    (3264, "3da7dc8721f4bcdbec360e3d183eca25c29f0b2add827a0c8da25800dcfa6e981c56d9704722ee8c721156d904e0826ed133bb6cc97920da9c05554cdd26253f"%hex);
    (3328, "69ddffafb9377bed690e80ddb04dc67c457a0532a8f8adee2a1463758927e13571170398b405dca779a699357bf6cc6c07a651e91bd1025767217b0848ed0916"%hex);
    (3392, "24aa217770106c237e61aedd86b2fd1df6bf32846617493422d436d917546b0e2951e2ab8747089bfbbea28a6381777f425b4d9d7745c89e0b0a8ce2d5d5b24e"%hex);
    (3456, "8f44fc185108eea12d286b61dea6d3eaee4173a3d05c5c227de00ddc0398489f7073dff412542f928a8cf52612a207e2a969b7744a0cb9b9959a9603b0fcbd52"%hex);
    (3520, "196b32ada48e251ef66c65ab427943bf46cf5d219b4c2bc197eb6d4901c832cac1afa090eb5c6a5a81c09ea07bf2fb48b1e45096a1f7ca39f16969f1025c9648"%hex);
    (3584, "cfcd7ec9b8d016488ed37ec522eb95dd0d931e5838389718bebb97f307b7e405fc99fb4e25a121afd0506cb35e36fd000295ff810b148a2e287843605ce8f1dd"%hex);
    (3648, "12feba6b22a5314fb0e86dbd3e28a8c127857c4c807e771b7a4968df17db652b891bc041666941d019bedf885dac4e052d642321006345f9a41f1d901e423bcc"%hex);
    (3712, "c3be52053989f6aa523b8c30b843c5b517eec4e4efec505a320e59731675323a165714ae5ea6a80bcf0e91546d53bdbbdbc57fac51f9933c6d41f2245e631eed"%hex);
    (3776, "74172498a1af0f961ef0ec59f68c9fe660c9a3576f940f4021d4e4b318394f8cd673ded57028a2052c0696a33b1053470013bfe174fece0066e4fe06ab0714aa"%hex);
    (3840, "be1253a73cf669081a5a23b58187c16ccd1f5b04ec3e315f5098b1199de73b74b52c219ee8596666c615c856a30d942352899529f379fde09d83b527153898a0"%hex);
    (3904, "5cf6a8774b66909c721e36a1d473e7a0326a7d144454941faebfd05e854e343671062db8c7e8836d6b029daa6b103d10af825035568cb6ce688341e00b03285f"%hex);
    (3968, "6ac8667ca498513befbe93ae753344c825bfdef013fb7a619f51a2b518c1b0a7859d3ff47db4b3e0d5b66d8aa7fd759c141fe975049b88bf9d7409ae55a78027"%hex);
    (4032, "2998701fd72d52d4f147834dac9ed636a3c423a88c6649f68e01f9d379d80c01f9dafd6711847e6a036a402cc72125a19294e33663850002e181372eef2fdf07"%hex)]);
  (372, [(0, "3664aa685c3de4160404"%hex); (16, "05"%hex); (24, "020000000e0000000300000014"%hex);
    (42, "c0006c015c0405013c006c08f80419001800900012000000110012001200110008007e006c00930020003802080025011700b40712003900170016011200b3"%hex);
    (106, "1600100212003100080004017400500008008a01740058001b009c01120073000800d802a0007b00080014020400830010002c021800c9000800f803a000d1"%hex);
    (170, "0800fe010400d9001000fa0118003c0108001809ac00440108002e0704004c0110005a04180015011000600818004c0110005a0418004c0110005a0418004c01"%hex);
    (234, "10005a0418005c0110008c05180001"%hex); (255, "9005e471b6726f6f740002"%hex); (272, "3001"%hex);
    (280, "900c8ca6ac707269766174652d6469720003"%hex); (304, "3002"%hex); (312, "900b14be9c2e66736576656e7473640010"%hex); (335, "3010"%hex);
    (343, "900f14121166736576656e7473642d757569640011"%hex); (370, "3011"%hex); (378, "6011"%hex); (386, "80"%hex); (395, "02"%hex);
    (402, "401600707572676561626c652d64726563732d66697865640002"%hex); (434, "900af844cd706c61696e2e7478740012"%hex); (456, "3012"%hex);
    (464, "6012"%hex); (472, "80"%hex); (481, "5c011c"%hex); (488, "9010b8cdba7370617273655f686561642e746d70000d0108"%hex); (516, "30e90008"%hex);
    (524, "6016"%hex); (532, "80000001"%hex); (541, "02"%hex); (548, "900b0817637370617273652e62696e0016"%hex); (571, "3016"%hex);
    (579, "6016"%hex); (587, "80"%hex); (596, "ffff10"%hex); (603, "800030"%hex); (1728, "02"%hex); (1736, "16"%hex);
    (1744, "b0742c33912bbb18b0b62f33912bbb18b0b62f33912bbb18b0742c33912bbb180082"%hex); (1784, "01"%hex); (1792, "03"%hex);
    (1800, "6300000063000000a481"%hex); (1820, "0300400004020b00082028000d2808007370617273652e62696e"%hex); (1853, "1001"%hex); (1861, "1001"%hex);
    (1877, "10"%hex); (1894, "01"%hex); (1900, "48080c00000001"%hex); (1913, "10"%hex); (1920, "7301"%hex);
    (1936, "a2079400912bbb18372f2d33912bbb18b0742c33912bbb180082"%hex); (1968, "01"%hex); (1976, "02"%hex); (1984, "6300000063000000a481"%hex);
    (2004, "0300400004020b00082028000d2808007370617273652e62696e"%hex); (2038, "01"%hex); (2046, "01"%hex); (2078, "01"%hex); (2084, "16"%hex);
    (2092, "b0742c33912bbb1808002a0774"%hex); (2110, "16"%hex); (2118, "b0742c33912bbb18b0742c33912bbb18b0742c33912bbb18b0742c33912bbb180080"%hex);
    (2158, "01"%hex); (2166, "01"%hex); (2174, "6300000063000000a481"%hex); (2194, "0100100004020b007370617273652e62696e"%hex);
    (2218, "01000000be0516"%hex); (2229, "20"%hex); (2237, "40"%hex); (2244, "320618"%hex); (2253, "10"%hex); (2268, "e40618"%hex);
    (2292, "140794008e2bbb18bfaa31628e2bbb18b6c119628e2bbb180080"%hex); (2324, "01"%hex); (2332, "02"%hex); (2340, "6300000063000000a481"%hex);
    (2360, "0300400004020b0008202800050008007370617273652e62696e"%hex); (2393, "10"%hex); (2401, "10"%hex); (2417, "10"%hex);
    (2440, "8c050c000010"%hex); (2452, "fc0612"%hex); (2460, "b6c119628e2bbb180800ba0574"%hex); (2478, "15"%hex);
    (2486, "b6c119628e2bbb18b6c119628e2bbb18b6c119628e2bbb18b6c119628e2bbb180080"%hex); (2526, "01"%hex); (2534, "01"%hex);
    (2542, "6300000063000000a481"%hex); (2562, "0100100004020b007370617273652e62696e"%hex); (2586, "44060400780416"%hex); (2597, "20"%hex);
    (2605, "40"%hex); (2612, "98050c"%hex); (2624, "74050c"%hex); (2636, "a40518"%hex);
    (2660, "74045c008a2bbb1894f26bf68a2bbb184b8f6bf68a2bbb180080"%hex); (2692, "01"%hex); (2700, "01"%hex); (2708, "6300000063000000a481"%hex);
    (2728, "0100100004020b007370617273652e62696e"%hex); (2752, "5803a0"%hex); (2760, "13"%hex);
    (2768, "52901df68a2bbb187c0d1ef68a2bbb187af907f78a2bbb1852901df68a2bbb180080"%hex); (2816, "02"%hex); (2824, "6300000063000000a481"%hex);
    (2844, "0200380004021000082028007370617273655f686561642e746d70001a"%hex); (2896, "1a"%hex); (2912, "6c040400420408"%hex); (2924, "180512"%hex);
    (2932, "4b8f6bf68a2bbb180800000001"%hex); (2966, "54034a00bb180080"%hex); (2980, "01"%hex); (2988, "01"%hex);
    (2996, "6300000063000000a481"%hex); (3016, "01001000040210007370617273655f686561642e746d700002"%hex); (3048, "12"%hex);
    (3056, "5e691bf68a2bbb188e771cf68a2bbb188e771cf68a2bbb18eabae5048b2bbb180080"%hex); (3096, "01"%hex); (3104, "02"%hex);
    (3112, "6300000063000000a481"%hex); (3132, "0200380004020a0008202800706c61696e2e747874"%hex); (3160, "23"%hex); (3169, "10"%hex);
    (3184, "23"%hex); (3192, "23"%hex); (3200, "3a030400220308"%hex); (3212, "500612"%hex); (3220, "52901df68a2bbb1808004c0318"%hex);
    (3238, "5c01"%hex); (3254, "e2014a00bb180080"%hex); (3268, "01"%hex); (3276, "01"%hex); (3284, "6300000063000000a481"%hex);
    (3304, "0100100004020a00706c61696e2e747874"%hex); (3328, "10"%hex); (3336, "11"%hex);
    (3344, "ddcd5b47872bbb188bd76447872bbb188bd76447872bbb18ddcd5b47872bbb180080"%hex); (3384, "01"%hex); (3392, "02"%hex);
    (3400, "63000000630000008081"%hex); (3420, "0200380004020f000820280066736576656e7473642d75756964000024"%hex); (3457, "10"%hex);
    (3472, "24"%hex); (3488, "0200040002"%hex); (3501, "10"%hex); (3508, "5901"%hex); (3524, "0100000012"%hex);
    (3536, "5e691bf68a2bbb18080001"%hex); (3551, "10"%hex); (3558, "5b01"%hex); (3574, "ffff46"%hex); (3584, "01"%hex); (3592, "01"%hex);
    (3600, "63000000630000008081"%hex); (3620, "0100100004020f0066736576656e7473642d75756964000011"%hex); (3652, "ddcd5b47872bbb18080002"%hex);
    (3670, "10"%hex); (3678, "26465647872bbb1889e25b47872bbb1889e25b47872bbb1826465647872bbb180080"%hex); (3718, "01"%hex); (3726, "02"%hex);
    (3734, "6300000063000000c041"%hex); (3754, "0100100004020b002e66736576656e747364"%hex); (3778, "10"%hex); (3786, "26465647872bbb18040001"%hex);
    (3804, "03"%hex); (3812, "5ea972dc842bbb185ea972dc842bbb185ea972dc842bbb185ea972dc842bbb180080"%hex); (3860, "01"%hex); (3876, "a441"%hex);
    (3888, "0100100004020c00707269766174652d646972"%hex); (3912, "03"%hex); (3920, "5ea972dc842bbb18040001"%hex); (3938, "02"%hex);
    (3947, "9d72dc842bbb18a4842c33912bbb18a4842c33912bbb18009d72dc842bbb180080"%hex); (3986, "03"%hex); (3994, "0a"%hex);
    (4002, "f501000014000000ed41"%hex); (4022, "0100080004020500726f6f74"%hex); (4038, "02"%hex); (4047, "9d72dc842bbb18040042"%hex);
    (4061, "10"%hex); (4072, "20000000b800000014"%hex); (4088, "01"%hex)]);
  (373, [(0, "f812f4ff07ea0b407501"%hex); (16, "05"%hex); (24, "0b000040"%hex); (40, "02000040020000407601"%hex)]);
  (374, [(0, "bf9005a0213618107601"%hex); (16, "05"%hex); (24, "020000400b0000000700000001"%hex);
    (42, "c0012000a00d000010001000100010002000100020"%hex); (504, "ffff10"%hex); (512, "04"%hex); (520, "0404"%hex); (528, "05"%hex);
    (4029, "1000007401"%hex); (4040, "ffff1000001000006c01"%hex); (4056, "12"%hex); (4061, "1000001000000010000000100000001000000001"%hex);
    (4088, "01"%hex)]);
  (375, [(0, "f9627e31b57961540204"%hex); (16, "05"%hex); (24, "0d"%hex); (32, "41505342"%hex); (40, "02"%hex); (56, "01"%hex); (88, "08"%hex);
    (96, "05"%hex); (104, "0600000029034718010000000200000002000040020000407501"%hex); (136, "0404"%hex); (144, "7201"%hex); (152, "5401"%hex);
    (176, "17"%hex); (184, "03"%hex); (192, "01"%hex); (224, "0c"%hex); (232, "09"%hex);
    (240, "643144d9795c4e95ab19007de4e8d4e1a5203033912bbb1801"%hex);
    (272, "6e657766735f617066732028323333322e3134302e31332e3730302e31290000190f6ddc842bbb1802"%hex); (704, "415046535034"%hex); (960, "03"%hex);
    (984, "10"%hex); (1040, "0200004002000040"%hex); (1056, "05"%hex); (1064, "1000000002"%hex); (1104, "02"%hex)]);
  (376, [(0, "23f7f3ffd5050c407801"%hex); (16, "05"%hex); (24, "0b000040"%hex); (32, "01"%hex); (40, "02000040020000407901"%hex)]);
  (377, [(0, "668b05a0733b18107901"%hex); (16, "05"%hex); (24, "020000400b0000000700000001"%hex);
    (42, "c0012000a00d000010001000100010002000100020"%hex); (504, "ffff10"%hex); (512, "04"%hex); (520, "0204"%hex); (528, "05"%hex);
    (4029, "1000007701"%hex); (4040, "ffff1000001000006f01"%hex); (4056, "12"%hex); (4061, "1000001000000010000000100000001000000001"%hex);
    (4088, "01"%hex)]);
  (378, [(0, "100000003002000050040000f6050000e01054686520717569636b2062726f776e20666f78206a756d7073206f7665722074001fea6c617a7920646f672e2038"%hex);
    (64, "2df0fff0fff0fff0fff0fff0fff0fff0fff0fff0fff0fff0fff0fff0fff0fff0fff0fff0fff0fff0fff0fff0fff0fff0fff0fff0fff0fff0fff0fff0fff0fff0"%hex);
    (128, "fff0fff0fff0fff0fff0fff0fff0fff0fff0fff0fff0fff0fff0fff0fff0fff0fff0fff0fff0fff0fff0fff0fff0fff0fff0fff0fff0fff0fff0fff0fff0fff0"%hex);
    (192, "fff0fff0fff0fff0fff0fff0fff0fff0fff0fff0fff0fff0fff0fff0fff0fff0fff0fff0fff0fff0fff0fff0fff0fff0fff0fff0fff0fff0fff0fff0fff0fff0"%hex);
    (256, "fff0fff0fff0fff0fff0fff0fff0fff0fff0fff0fff0fff0fff0fff0fff0fff0fff0fff0fff0fff0fff0fff0fff0fff0fff0fff0fff0fff0fff0fff0fff0fff0"%hex);
    (320, "fff0fff0fff0fff0fff0fff0fff0fff0fff0fff0fff0fff0fff0fff0fff0fff0fff0fff0fff0fff0fff0fff0fff0fff0fff0fff0fff0fff0fff0fff0fff0fff0"%hex);
    (384, "fff0fff0fff0fff0fff0fff0fff0fff0fff0fff0fff0fff0fff0fff0fff0fff0fff0fff0fff0fff0fff0fff0fff0fff0fff0fff0fff0fff0fff0fff0fff0fff0"%hex);
    (448, "fff0fff0fff0fff0fff0fff0fff0fff0fff0fff0fff0fff0fff0fff0fff0fff0fff0fff0fff0fff0fff0fff0fff0fff0fff0fff0fff0fff0fff0fff0fff0fff0"%hex);
    (512, "fff0fff0fff0fff0fff0fff0fff0fff0fff0fff0fff0fff0fff0fff0fff0fff0fff0fff098e26e2006"%hex);
    (560, "e00e666f78206a756d7073206f76657220746865206c617a7920646f672e2054000eec717569636b2062726f776e20382df0fff0fff0fff0fff0fff0fff0fff0"%hex);
    (624, "fff0fff0fff0fff0fff0fff0fff0fff0fff0fff0fff0fff0fff0fff0fff0fff0fff0fff0fff0fff0fff0fff0fff0fff0fff0fff0fff0fff0fff0fff0fff0fff0"%hex);
    (688, "fff0fff0fff0fff0fff0fff0fff0fff0fff0fff0fff0fff0fff0fff0fff0fff0fff0fff0fff0fff0fff0fff0fff0fff0fff0fff0fff0fff0fff0fff0fff0fff0"%hex);
    (752, "fff0fff0fff0fff0fff0fff0fff0fff0fff0fff0fff0fff0fff0fff0fff0fff0fff0fff0fff0fff0fff0fff0fff0fff0fff0fff0fff0fff0fff0fff0fff0fff0"%hex);
    (816, "fff0fff0fff0fff0fff0fff0fff0fff0fff0fff0fff0fff0fff0fff0fff0fff0fff0fff0fff0fff0fff0fff0fff0fff0fff0fff0fff0fff0fff0fff0fff0fff0"%hex);
    (880, "fff0fff0fff0fff0fff0fff0fff0fff0fff0fff0fff0fff0fff0fff0fff0fff0fff0fff0fff0fff0fff0fff0fff0fff0fff0fff0fff0fff0fff0fff0fff0fff0"%hex);
    (944, "fff0fff0fff0fff0fff0fff0fff0fff0fff0fff0fff0fff0fff0fff0fff0fff0fff0fff0fff0fff0fff0fff0fff0fff0fff0fff0fff0fff0fff0fff0fff0fff0"%hex);
    (1008, "fff0fff0fff0fff0fff0fff0fff0fff0fff0fff0fff0fff0fff0fff0fff0fff0fff0fff0fff0fff0fff0fff0fff0fff0fff0fff0fff0fff0fff0fff0fff0fff0"%hex);
    (1072, "fff0fff0fff0fff0fff0fff0fff0fff0fff0fff098e2207406"%hex);
    (1104, "ee6865206c617a7920646f672e2054000ee00c717569636b2062726f776e20666f78206a756d7073206f7665722074382df0fff0fff0fff0fff0fff0fff0fff0"%hex);
    (1168, "fff0fff0fff0fff0fff0fff0fff0fff0fff0fff0fff0fff0fff0fff0fff0fff0fff0fff0fff0fff0fff0fff0fff0fff0fff0fff0fff0fff0fff0fff0fff0fff0"%hex);
    (1232, "fff0fff0fff0fff0fff0fff0fff0fff0fff0fff0fff0fff0fff0fff0fff0fff0fff0fff0fff0fff0fff0fff0fff0fff0fff0fff0fff0fff0fff0fff0fff0fff0"%hex);
    (1296, "fff0fff0fff0fff0fff0fff0fff0fff0fff0fff0fff0fff0fff0fff0fff0fff0fff0fff0fff0fff0fff0fff0fff0fff0fff0fff0fff0fff0fff0fff0fff0fff0"%hex);
    (1360, "fff0fff0fff0fff0fff0fff0fff0fff0fff0fff0fff0fff0fff0fff0fff0fff0fff0fff0fff0fff0fff0fff0fff0fff0fff0fff0fff0fff0fff0fff0fff0fff0"%hex);
    (1424, "fff0fff0fff0fff0fff0fff0fff0fff0fff0fff0fff0fff0fff0fff0fff0fff0fff0fff0fff0fff0fff0fff0fff0fff0fff0fff0fff0fff0fff0fff0fff0fff0"%hex);
    (1488, "fff0fff0fff0fff0fff0fff0fff0fff0fff0fff0fff0fff0fff04be22e2006"%hex)]);
  (379, [(0, "efd9e536f40c78b97b01"%hex); (16, "06"%hex); (24, "020000400f0000000300000004"%hex); (42, "40002000f00effff0000ffff"%hex);
    (58, "08001400140008000800280014001800080050001400100008003c0014"%hex); (120, "5901"%hex); (127, "205b01"%hex); (135, "207a01"%hex);
    (143, "207301"%hex); (151, "20"%hex); (3976, "01"%hex); (3983, "1016"%hex); (3992, "0100000001"%hex); (4003, "1017"%hex);
    (4012, "0100000001"%hex); (4023, "1012"%hex); (4032, "0100000001"%hex); (4043, "1011"%hex); (4052, "0100000052"%hex); (4061, "10"%hex);
    (4072, "080000001400000004"%hex); (4088, "01"%hex)]);
  (380, [(0, "aaf2473643687f320404"%hex); (16, "06"%hex); (24, "020000000e0000000300000019"%hex);
    (43, "01c401c403e90024006c08120419001800900012000000110012001200110008007e006c00930020003802080025011700b40712003900170016011200a9011b"%hex);
    (108, "48081200b3001600100212003100080004017400500008008a01740058001b009c01120073000800d802a0007b00080014020400830010002c021800c90008"%hex);
    (172, "f803a000d1000800fe010400d9001000fa0118003c0108001809ac00440108002e0704004c0110005a041800150110006008180005010800360874006c0121"%hex);
    (236, "a20734008d011c00560714005c0110006e0718"%hex); (312, "01"%hex); (319, "9005e471b6726f6f740002"%hex); (336, "3001"%hex);
    (344, "900c8ca6ac707269766174652d6469720003"%hex); (368, "3002"%hex); (376, "900b14be9c2e66736576656e7473640010"%hex); (399, "3010"%hex);
    (407, "900f14121166736576656e7473642d757569640011"%hex); (434, "3011"%hex); (442, "6011"%hex); (450, "80"%hex); (459, "02"%hex);
    (466, "401600707572676561626c652d64726563732d66697865640002"%hex); (498, "900af844cd706c61696e2e7478740012"%hex); (520, "3012"%hex);
    (528, "6012"%hex); (536, "80"%hex); (545, "0d0119"%hex); (552, "900ddcbfa52e42432e545f465572656f72006d700017"%hex); (580, "30ffff08"%hex);
    (588, "6016"%hex); (596, "80000001"%hex); (605, "02"%hex); (612, "900b0817637370617273652e62696e0016"%hex); (635, "3016"%hex);
    (643, "6016"%hex); (651, "80"%hex); (660, "18"%hex); (667, "80"%hex); (676, "17"%hex);
    (683, "401700636f6d2e6170706c652e5265736f75726365466f726b0017"%hex); (716, "401200636f6d2e6170706c652e6465636d7066730002"%hex);
    (744, "900f349aa4636f6d707265737365642e747874"%hex); (1728, "02"%hex); (1736, "16"%hex);
    (1744, "b0742c33912bbb18b0b62f33912bbb18b0b62f33912bbb1888cada47912bbb180082"%hex); (1784, "01"%hex); (1792, "03"%hex);
    (1800, "6300000063000000a481"%hex); (1820, "0300400004020b00082028000d2808007370617273652e62696e"%hex); (1853, "1001"%hex); (1861, "1001"%hex);
    (1877, "10"%hex); (1885, "1001"%hex); (1894, "01"%hex); (1900, "c2070c00000001"%hex); (1913, "10"%hex); (1920, "7301"%hex); (1936, "17"%hex);
    (1944, "8370b158942bbb18080002"%hex); (1962, "17"%hex); (1970, "57ab9f57942bbb1857ab9f57942bbb18c560bf58942bbb1887f49d57942bbb18004004"%hex);
    (2010, "01"%hex); (2018, "05000000200000006300000063000000a481000020bf02"%hex);
    (2046, "0100100004020f00636f6d707265737365642e747874000042070e"%hex); (2078, "01"%hex); (2084, "16"%hex);
    (2092, "b0742c33912bbb1808000100300018"%hex); (2114, "f605"%hex); (2123, "10"%hex); (2138, "f605"%hex); (2155, "10"%hex); (2162, "7a01"%hex);
    (2178, "0200100066706d630800000020bf02"%hex); (2198, "2a0714007370617273652e62696e"%hex); (2218, "01000000be0516"%hex); (2229, "20"%hex);
    (2237, "40"%hex); (2244, "320618"%hex); (2253, "10"%hex); (2268, "e40618"%hex);
    (2292, "140794008e2bbb18bfaa31628e2bbb18b6c119628e2bbb180080"%hex); (2324, "01"%hex); (2332, "02"%hex); (2340, "6300000063000000a481"%hex);
    (2360, "0300400004020b0008202800050008007370617273652e62696e"%hex); (2393, "10"%hex); (2401, "10"%hex); (2417, "10"%hex);
    (2440, "8c050c000010"%hex); (2452, "fc0612"%hex); (2460, "b6c119628e2bbb180800ba0574"%hex); (2478, "15"%hex);
    (2486, "b6c119628e2bbb18b6c119628e2bbb18b6c119628e2bbb18b6c119628e2bbb180080"%hex); (2526, "01"%hex); (2534, "01"%hex);
    (2542, "6300000063000000a481"%hex); (2562, "0100100004020b007370617273652e62696e"%hex); (2586, "44060400780416"%hex); (2597, "20"%hex);
    (2605, "40"%hex); (2612, "98050c"%hex); (2624, "74050c"%hex); (2636, "a40518"%hex);
    (2660, "74045c008a2bbb1894f26bf68a2bbb184b8f6bf68a2bbb180080"%hex); (2692, "01"%hex); (2700, "01"%hex); (2708, "6300000063000000a481"%hex);
    (2728, "0100100004020b007370617273652e62696e"%hex); (2752, "5803a0"%hex); (2760, "13"%hex);
    (2768, "52901df68a2bbb187c0d1ef68a2bbb187af907f78a2bbb1852901df68a2bbb180080"%hex); (2816, "02"%hex); (2824, "6300000063000000a481"%hex);
    (2844, "0200380004021000082028007370617273655f686561642e746d70001a"%hex); (2896, "1a"%hex); (2912, "6c040400420408"%hex); (2924, "180512"%hex);
    (2932, "4b8f6bf68a2bbb180800000001"%hex); (2966, "54034a00bb180080"%hex); (2980, "01"%hex); (2988, "01"%hex);
    (2996, "6300000063000000a481"%hex); (3016, "01001000040210007370617273655f686561642e746d700002"%hex); (3048, "12"%hex);
    (3056, "5e691bf68a2bbb188e771cf68a2bbb188e771cf68a2bbb18eabae5048b2bbb180080"%hex); (3096, "01"%hex); (3104, "02"%hex);
    (3112, "6300000063000000a481"%hex); (3132, "0200380004020a0008202800706c61696e2e747874"%hex); (3160, "23"%hex); (3169, "10"%hex);
    (3184, "23"%hex); (3192, "23"%hex); (3200, "3a030400220308"%hex); (3212, "500612"%hex); (3220, "52901df68a2bbb1808004c0318"%hex);
    (3238, "5c01"%hex); (3254, "e2014a00bb180080"%hex); (3268, "01"%hex); (3276, "01"%hex); (3284, "6300000063000000a481"%hex);
    (3304, "0100100004020a00706c61696e2e747874"%hex); (3328, "10"%hex); (3336, "11"%hex);
    (3344, "ddcd5b47872bbb188bd76447872bbb188bd76447872bbb18ddcd5b47872bbb180080"%hex); (3384, "01"%hex); (3392, "02"%hex);
    (3400, "63000000630000008081"%hex); (3420, "0200380004020f000820280066736576656e7473642d75756964000024"%hex); (3457, "10"%hex);
    (3472, "24"%hex); (3488, "0200040002"%hex); (3501, "10"%hex); (3508, "5901"%hex); (3524, "0100000012"%hex);
    (3536, "5e691bf68a2bbb18080001"%hex); (3551, "10"%hex); (3558, "5b01"%hex); (3574, "ffff46"%hex); (3584, "01"%hex); (3592, "01"%hex);
    (3600, "63000000630000008081"%hex); (3620, "0100100004020f0066736576656e7473642d75756964000011"%hex); (3652, "ddcd5b47872bbb18080002"%hex);
    (3670, "10"%hex); (3678, "26465647872bbb1889e25b47872bbb1889e25b47872bbb1826465647872bbb180080"%hex); (3718, "01"%hex); (3726, "02"%hex);
    (3734, "6300000063000000c041"%hex); (3754, "0100100004020b002e66736576656e747364"%hex); (3778, "10"%hex); (3786, "26465647872bbb18040001"%hex);
    (3804, "03"%hex); (3812, "5ea972dc842bbb185ea972dc842bbb185ea972dc842bbb185ea972dc842bbb180080"%hex); (3860, "01"%hex); (3876, "a441"%hex);
    (3888, "0100100004020c00707269766174652d646972"%hex); (3912, "03"%hex); (3920, "5ea972dc842bbb18040001"%hex); (3938, "02"%hex);
    (3947, "9d72dc842bbb18c560bf58942bbb18c560bf58942bbb18009d72dc842bbb180080"%hex); (3986, "04"%hex); (3994, "0c"%hex);
    (4002, "f501000014000000ed41"%hex); (4022, "0100080004020500726f6f74"%hex); (4038, "02"%hex); (4047, "9d72dc842bbb18040042"%hex);
    (4061, "10"%hex); (4072, "21000000b800000019"%hex); (4088, "01"%hex)]);
  (381, [(0, "5bcff3ff932d0c407d01"%hex); (16, "06"%hex); (24, "0b000040"%hex); (40, "02000040020000407e01"%hex)]);
  (382, [(0, "a954551e1c72e8917e01"%hex); (16, "06"%hex); (24, "020000400b0000000700000001"%hex);
    (42, "c0012000a00d100010002000100000001000000010"%hex); (504, "0404"%hex); (512, "06"%hex); (520, "ffff10"%hex); (528, "05"%hex);
    (4024, "ffff1000001000007401"%hex); (4045, "1000007c01"%hex); (4056, "12"%hex); (4061, "1000001000000010000000100000001000000001"%hex);
    (4088, "01"%hex)]);
  (383, [(0, "d51c4370dbb0d9ef0204"%hex); (16, "06"%hex); (24, "0d"%hex); (32, "41505342"%hex); (40, "02"%hex); (56, "01"%hex); (88, "09"%hex);
    (96, "05"%hex); (104, "0600000029034718010000000200000002000040020000407d01"%hex); (136, "0404"%hex); (144, "7b01"%hex); (152, "5401"%hex);
    (176, "19"%hex); (184, "04"%hex); (192, "01"%hex); (224, "0d"%hex); (232, "09"%hex);
    (240, "643144d9795c4e95ab19007de4e8d4e1872ff358942bbb1801"%hex);
    (272, "6e657766735f617066732028323333322e3134302e31332e3730302e31290000190f6ddc842bbb1802"%hex); (704, "415046535034"%hex); (960, "03"%hex);
    (984, "10"%hex); (1040, "0200004002000040"%hex); (1056, "06"%hex); (1064, "1000000002"%hex); (1104, "02"%hex)]);
  (384, [(0, "86b3f3ff61490c408001"%hex); (16, "06"%hex); (24, "0b000040"%hex); (32, "01"%hex); (40, "02000040020000408101"%hex)]);
  (385, [(0, "584f551e6677e8918101"%hex); (16, "06"%hex); (24, "020000400b0000000700000001"%hex);
    (42, "c0012000a00d100010002000100000001000000010"%hex); (504, "0204"%hex); (512, "06"%hex); (520, "ffff10"%hex); (528, "05"%hex);
    (4024, "ffff1000001000007701"%hex); (4045, "1000007f01"%hex); (4056, "12"%hex); (4061, "1000001000000010000000100000001000000001"%hex);
    (4088, "01"%hex)]);
  (386, [(0, "41414141414141414141414141414141414141414141414141414141414141414141414141414141414141414141414141414141414141414141414141414141"%hex);
    (64, "41414141414141414141414141414141414141414141414141414141414141414141414141414141414141414141414141414141414141414141414141414141"%hex);
    (128, "41414141414141414141414141414141414141414141414141414141414141414141414141414141414141414141414141414141414141414141414141414141"%hex);
    (192, "41414141414141414141414141414141414141414141414141414141414141414141414141414141414141414141414141414141414141414141414141414141"%hex)]);
  (387, [(0, "3bb925c8732b38f88301"%hex); (16, "07"%hex); (24, "020000400f0000000300000005"%hex); (42, "40002800d40effff0000ffff"%hex);
    (58, "08001400140008000800280014001800080050001400100008003c00140020000800640014"%hex); (120, "5901"%hex); (127, "205b01"%hex);
    (135, "207a01"%hex); (143, "207301"%hex); (151, "208201"%hex); (159, "20"%hex); (3956, "01"%hex); (3963, "1019"%hex); (3972, "0100000001"%hex);
    (3983, "1016"%hex); (3992, "0100000001"%hex); (4003, "1017"%hex); (4012, "0100000001"%hex); (4023, "1012"%hex); (4032, "0100000001"%hex);
    (4043, "1011"%hex); (4052, "0100000052"%hex); (4061, "10"%hex); (4072, "080000001400000005"%hex); (4088, "01"%hex)]);
  (388, [(0, "4177fcdfea94749b0404"%hex); (16, "07"%hex); (24, "020000000e000000030000001d"%hex);
    (43, "01fd01df02e9001c001805e80319001800900012000000110012001200110008007e006c009300200038020800dc0121004207120025011700b4071200390017"%hex);
    (108, "16011200a9011b0048081200b3001600100212003100080004017400500008008a01740058001b009c01120073000800d802a0007b00080014020400830010"%hex);
    (172, "2c021800c9000800f803a000d1000800fe010400d9001000fa0118003c0108001809ac00440108002e0704004c0110005a0418001501100060081800050108"%hex);
    (236, "360874006c012100a20734008d011c00560714005c0110006e0718000d010800c409a800c40108006c080400cc011000fc0618"%hex); (312, "01"%hex);
    (319, "9005e471b6726f6f740002"%hex); (336, "3001"%hex); (344, "900c8ca6ac707269766174652d6469720003"%hex); (368, "3002"%hex);
    (376, "900b14be9c2e66736576656e7473640010"%hex); (399, "3010"%hex); (407, "900f14121166736576656e7473642d757569640011"%hex); (434, "3011"%hex);
    (442, "6011"%hex); (450, "80"%hex); (459, "02"%hex); (466, "401600707572676561626c652d64726563732d66697865640002"%hex);
    (498, "900af844cd706c61696e2e7478740012"%hex); (520, "3012"%hex); (528, "6012"%hex); (536, "80"%hex); (545, "ffff19"%hex);
    (552, "900dcc57a32e42432e545f526878707034006d700017"%hex); (580, "3019"%hex); (588, "3016"%hex); (596, "80000001"%hex); (605, "02"%hex);
    (612, "900b0817637370617273652e62696e0016"%hex); (635, "3016"%hex); (643, "6016"%hex); (651, "80"%hex); (660, "18"%hex); (667, "80"%hex);
    (676, "17"%hex); (683, "401700636f6d2e6170706c652e5265736f75726365466f726b0017"%hex);
    (716, "401200636f6d2e6170706c652e6465636d7066730002"%hex); (744, "900f349aa4636f6d707265737365642e7478740019"%hex); (771, "6019"%hex);
    (779, "80"%hex); (788, "02"%hex); (795, "9015f82639636f6d707265737365645f736d616c6c2e747874"%hex); (1556, "02"%hex); (1564, "19"%hex);
    (1572, "d2ec4a429c2bbb18d2ec4a429c2bbb180f6ee5459c2bbb182c4449429c2bbb180080"%hex); (1612, "01"%hex); (1620, "02"%hex);
    (1628, "6300000063000000a481"%hex); (1648, "020040000402150008202800636f6d707265737365645f736d616c6c2e747874"%hex); (1685, "01"%hex);
    (1693, "10"%hex); (1709, "01"%hex); (1728, "02"%hex); (1736, "16"%hex);
    (1744, "b0742c33912bbb18b0b62f33912bbb18b0b62f33912bbb1888cada47912bbb180082"%hex); (1784, "01"%hex); (1792, "03"%hex);
    (1800, "6300000063000000a481"%hex); (1820, "0300400004020b00082028000d2808007370617273652e62696e"%hex); (1853, "1001"%hex); (1861, "1001"%hex);
    (1877, "10"%hex); (1885, "1001"%hex); (1894, "01"%hex); (1900, "01000000c20708"%hex); (1913, "10"%hex); (1920, "7301"%hex); (1936, "17"%hex);
    (1944, "8370b158942bbb18080002"%hex); (1962, "17"%hex); (1970, "57ab9f57942bbb1857ab9f57942bbb18c560bf58942bbb1887f49d57942bbb18004004"%hex);
    (2010, "01"%hex); (2018, "05000000200000006300000063000000a481000020bf02"%hex);
    (2046, "0100100004020f00636f6d707265737365642e74787400002a070e"%hex); (2078, "01"%hex); (2084, "16"%hex);
    (2092, "b0742c33912bbb1808000100300018"%hex); (2114, "f605"%hex); (2123, "10"%hex); (2138, "f605"%hex); (2155, "10"%hex); (2162, "7a01"%hex);
    (2178, "0200100066706d630800000020bf02"%hex); (2198, "19"%hex); (2206, "b5d313439c2bbb180800000001000000be0516"%hex); (2229, "20"%hex);
    (2237, "40"%hex); (2244, "320618"%hex); (2253, "10"%hex); (2269, "10"%hex); (2276, "8201"%hex); (2292, "680874"%hex); (2300, "19"%hex);
    (2308, "b5d313439c2bbb18b5d313439c2bbb18b5d313439c2bbb18b5d313439c2bbb180080"%hex); (2348, "01"%hex); (2356, "01"%hex);
    (2364, "63000000630000008081"%hex); (2384, "0100100004020d002e42432e545f526878707034"%hex); (2408, "140720"%hex); (2417, "10"%hex);
    (2440, "8c050c000010"%hex); (2452, "700612"%hex); (2460, "b6c119628e2bbb180800ba0574"%hex); (2478, "15"%hex);
    (2486, "b6c119628e2bbb18b6c119628e2bbb18b6c119628e2bbb18b6c119628e2bbb180080"%hex); (2526, "01"%hex); (2534, "01"%hex);
    (2542, "6300000063000000a481"%hex); (2562, "0100100004020b007370617273652e62696e"%hex); (2586, "44060400780416"%hex); (2597, "20"%hex);
    (2605, "40"%hex); (2612, "98050c"%hex); (2624, "74050c"%hex); (2636, "a40518"%hex);
    (2660, "74045c008a2bbb1894f26bf68a2bbb184b8f6bf68a2bbb180080"%hex); (2692, "01"%hex); (2700, "01"%hex); (2708, "6300000063000000a481"%hex);
    (2728, "0100100004020b007370617273652e62696e"%hex); (2752, "e406a0"%hex); (2760, "19"%hex);
    (2768, "d2ec4a429c2bbb18d2ec4a429c2bbb18bd2de4459c2bbb182c4449429c2bbb180080"%hex); (2808, "01"%hex); (2816, "02"%hex);
    (2824, "6300000063000000a481"%hex); (2844, "0200380004020d00082028002e42432e545f526878707034"%hex); (2873, "01"%hex); (2881, "10"%hex);
    (2897, "01"%hex); (2912, "6c040400420408"%hex); (2924, "580312"%hex); (2932, "4b8f6bf68a2bbb180800000001"%hex); (2966, "54034a00bb180080"%hex);
    (2980, "01"%hex); (2988, "01"%hex); (2996, "6300000063000000a481"%hex); (3016, "01001000040210007370617273655f686561642e746d700002"%hex);
    (3048, "12"%hex); (3056, "5e691bf68a2bbb188e771cf68a2bbb188e771cf68a2bbb18eabae5048b2bbb180080"%hex); (3096, "01"%hex); (3104, "02"%hex);
    (3112, "6300000063000000a481"%hex); (3132, "0200380004020a0008202800706c61696e2e747874"%hex); (3160, "23"%hex); (3169, "10"%hex);
    (3184, "23"%hex); (3192, "23"%hex); (3200, "3a030400220308"%hex); (3212, "500612"%hex); (3220, "52901df68a2bbb1808004c0318"%hex);
    (3238, "5c01"%hex); (3254, "e2014a00bb180080"%hex); (3268, "01"%hex); (3276, "01"%hex); (3284, "6300000063000000a481"%hex);
    (3304, "0100100004020a00706c61696e2e747874"%hex); (3328, "10"%hex); (3336, "11"%hex);
    (3344, "ddcd5b47872bbb188bd76447872bbb188bd76447872bbb18ddcd5b47872bbb180080"%hex); (3384, "01"%hex); (3392, "02"%hex);
    (3400, "63000000630000008081"%hex); (3420, "0200380004020f000820280066736576656e7473642d75756964000024"%hex); (3457, "10"%hex);
    (3472, "24"%hex); (3488, "0200040002"%hex); (3501, "10"%hex); (3508, "5901"%hex); (3524, "0100000012"%hex);
    (3536, "5e691bf68a2bbb18080001"%hex); (3551, "10"%hex); (3558, "5b01"%hex); (3574, "ffff46"%hex); (3584, "01"%hex); (3592, "01"%hex);
    (3600, "63000000630000008081"%hex); (3620, "0100100004020f0066736576656e7473642d75756964000011"%hex); (3652, "ddcd5b47872bbb18080002"%hex);
    (3670, "10"%hex); (3678, "26465647872bbb1889e25b47872bbb1889e25b47872bbb1826465647872bbb180080"%hex); (3718, "01"%hex); (3726, "02"%hex);
    (3734, "6300000063000000c041"%hex); (3754, "0100100004020b002e66736576656e747364"%hex); (3778, "10"%hex); (3786, "26465647872bbb18040001"%hex);
    (3804, "03"%hex); (3812, "5ea972dc842bbb185ea972dc842bbb185ea972dc842bbb185ea972dc842bbb180080"%hex); (3860, "01"%hex); (3876, "a441"%hex);
    (3888, "0100100004020c00707269766174652d646972"%hex); (3912, "03"%hex); (3920, "5ea972dc842bbb18040001"%hex); (3938, "02"%hex);
    (3947, "9d72dc842bbb18386ee5459c2bbb18386ee5459c2bbb18474923ba962bbb180080"%hex); (3986, "05"%hex); (3994, "0e"%hex);
    (4002, "f501000014000000ed41"%hex); (4022, "0100080004020500726f6f74"%hex); (4038, "02"%hex); (4047, "9d72dc842bbb18040042"%hex);
    (4061, "10"%hex); (4072, "21000000b80000001d"%hex); (4088, "01"%hex)]);
  (389, [(0, "be8bf3ff1f710c408501"%hex); (16, "07"%hex); (24, "0b000040"%hex); (40, "02000040020000408601"%hex)]);
  (390, [(0, "f93805a0b18d18108601"%hex); (16, "07"%hex); (24, "020000400b0000000700000001"%hex);
    (42, "c0012000a00d000010001000100010002000100020"%hex); (504, "ffff10"%hex); (512, "06"%hex); (520, "0404"%hex); (528, "07"%hex);
    (4029, "1000008401"%hex); (4040, "ffff1000001000007c01"%hex); (4056, "12"%hex); (4061, "1000001000000010000000100000001000000001"%hex);
    (4088, "01"%hex)]);
  (391, [(0, "79cde2a83b6366c90204"%hex); (16, "07"%hex); (24, "0d"%hex); (32, "41505342"%hex); (40, "02"%hex); (56, "01"%hex); (88, "0a"%hex);
    (96, "05"%hex); (104, "0600000029034718010000000200000002000040020000408501"%hex); (136, "0404"%hex); (144, "8301"%hex); (152, "5401"%hex);
    (176, "1a"%hex); (184, "05"%hex); (192, "01"%hex); (224, "0e"%hex); (232, "09"%hex);
    (240, "643144d9795c4e95ab19007de4e8d4e165ccc6469c2bbb1801"%hex);
    (272, "6e657766735f617066732028323333322e3134302e31332e3730302e31290000190f6ddc842bbb1802"%hex); (704, "415046535034"%hex); (960, "03"%hex);
    (984, "10"%hex); (1040, "0200004002000040"%hex); (1056, "07"%hex); (1064, "1000000002"%hex); (1104, "02"%hex)]);
  (392, [(0, "e96ff3ffed8c0c408801"%hex); (16, "07"%hex); (24, "0b000040"%hex); (32, "01"%hex); (40, "02000040020000408901"%hex)]);
  (393, [(0, "a03305a0039318108901"%hex); (16, "07"%hex); (24, "020000400b0000000700000001"%hex);
    (42, "c0012000a00d000010001000100010002000100020"%hex); (504, "ffff10"%hex); (512, "06"%hex); (520, "0204"%hex); (528, "07"%hex);
    (4029, "1000008701"%hex); (4040, "ffff1000001000007f01"%hex); (4056, "12"%hex); (4061, "1000001000000010000000100000001000000001"%hex);
    (4088, "01"%hex)]);
  (394, [(0, "bf236d7acb9d55980404"%hex); (16, "08"%hex); (24, "020000000e000000030000001f"%hex);
    (43, "011702c502fd000800ec04bc0319001800900012000000110012001200110008007e006c009300200038020800dc0121004207120025011700b4071200390017"%hex);
    (108, "16011200a9011b0048081200b3001600100212003100080004017400500008008a01740058001b009c01120073000800d802a0007b00080014020400830010"%hex);
    (172, "2c021800c9000800f803a000fd011a0018051600e900140002051600d1000800fe010400d9001000fa0118003c0108001809ac00440108002e0704004c0110"%hex);
    (236, "5a041800150110006008180005010800360874006c012100a20734008d011c00560714005c0110006e0718000d010800c409a800c40108006c080400cc0110"%hex);
    (300, "fc0618"%hex); (312, "01"%hex); (319, "9005e471b6726f6f740002"%hex); (336, "3001"%hex);
    (344, "900c8ca6ac707269766174652d6469720003"%hex); (368, "3002"%hex); (376, "900b14be9c2e66736576656e7473640010"%hex); (399, "3010"%hex);
    (407, "900f14121166736576656e7473642d757569640011"%hex); (434, "3011"%hex); (442, "6011"%hex); (450, "80"%hex); (459, "02"%hex);
    (466, "401600707572676561626c652d64726563732d66697865640002"%hex); (498, "900af844cd706c61696e2e7478740012"%hex); (520, "3012"%hex);
    (528, "6012"%hex); (536, "80"%hex); (545, "12"%hex); (552, "400a00757365722e6e6f746500ffff0500006d700017"%hex); (580, "3019"%hex);
    (588, "3016"%hex); (596, "80000001"%hex); (605, "02"%hex); (612, "900b0817637370617273652e62696e0016"%hex); (635, "3016"%hex);
    (643, "6016"%hex); (651, "80"%hex); (660, "18"%hex); (667, "80"%hex); (676, "17"%hex);
    (683, "401700636f6d2e6170706c652e5265736f75726365466f726b0017"%hex); (716, "401200636f6d2e6170706c652e6465636d7066730002"%hex);
    (744, "900f349aa4636f6d707265737365642e7478740019"%hex); (771, "6019"%hex); (779, "80"%hex); (788, "02"%hex);
    (795, "9015f82639636f6d707265737365645f736d616c6c2e7478740012"%hex); (828, "401000636f6d2e6578616d706c652e746167"%hex); (1556, "02"%hex);
    (1564, "19"%hex); (1572, "d2ec4a429c2bbb18d2ec4a429c2bbb180f6ee5459c2bbb182c4449429c2bbb180080"%hex); (1612, "01"%hex); (1620, "02"%hex);
    (1628, "6300000063000000a481"%hex); (1648, "020040000402150008202800636f6d707265737365645f736d616c6c2e747874"%hex); (1685, "01"%hex);
    (1693, "10"%hex); (1709, "01"%hex); (1728, "02"%hex); (1736, "16"%hex);
    (1744, "b0742c33912bbb18b0b62f33912bbb18b0b62f33912bbb1888cada47912bbb180082"%hex); (1784, "01"%hex); (1792, "03"%hex);
    (1800, "6300000063000000a481"%hex); (1820, "0300400004020b00082028000d2808007370617273652e62696e"%hex); (1853, "1001"%hex); (1861, "1001"%hex);
    (1877, "10"%hex); (1885, "1001"%hex); (1894, "01"%hex); (1900, "01000000c20708"%hex); (1913, "10"%hex); (1920, "7301"%hex); (1936, "17"%hex);
    (1944, "8370b158942bbb18080002"%hex); (1962, "17"%hex); (1970, "57ab9f57942bbb1857ab9f57942bbb18c560bf58942bbb1887f49d57942bbb18004004"%hex);
    (2010, "01"%hex); (2018, "05000000200000006300000063000000a481000020bf02"%hex);
    (2046, "0100100004020f00636f6d707265737365642e74787400002a070e"%hex); (2078, "01"%hex); (2084, "16"%hex);
    (2092, "b0742c33912bbb1808000100300018"%hex); (2114, "f605"%hex); (2123, "10"%hex); (2138, "f605"%hex); (2155, "10"%hex); (2162, "7a01"%hex);
    (2178, "0200100066706d630800000020bf02"%hex); (2198, "19"%hex); (2206, "b5d313439c2bbb180800000001000000be0516"%hex); (2229, "20"%hex);
    (2237, "40"%hex); (2244, "320618"%hex); (2253, "10"%hex); (2269, "10"%hex); (2276, "8201"%hex); (2292, "680874"%hex); (2300, "19"%hex);
    (2308, "b5d313439c2bbb18b5d313439c2bbb18b5d313439c2bbb18b5d313439c2bbb180080"%hex); (2348, "01"%hex); (2356, "01"%hex);
    (2364, "63000000630000008081"%hex); (2384, "0100100004020d002e42432e545f526878707034"%hex); (2408, "140720"%hex); (2417, "10"%hex);
    (2440, "8c050c000010"%hex); (2452, "700612"%hex); (2460, "b6c119628e2bbb180800ba0574"%hex); (2478, "15"%hex);
    (2486, "b6c119628e2bbb18b6c119628e2bbb18b6c119628e2bbb18b6c119628e2bbb180080"%hex); (2526, "01"%hex); (2534, "01"%hex);
    (2542, "6300000063000000a481"%hex); (2562, "0100100004020b007370617273652e62696e"%hex); (2586, "44060400780416"%hex); (2597, "20"%hex);
    (2605, "40"%hex); (2612, "98050c"%hex); (2624, "74050c"%hex); (2636, "a40518"%hex);
    (2660, "74045c008a2bbb1894f26bf68a2bbb184b8f6bf68a2bbb180080"%hex); (2692, "01"%hex); (2700, "01"%hex); (2708, "6300000063000000a481"%hex);
    (2728, "0100100004020b007370617273652e62696e"%hex);
    (2752, "02001200666f72656e7369632d6d61726b65722d5034020012007365636f6e6420637573746f6d2061747472e40674000080"%hex); (2808, "01"%hex);
    (2816, "02"%hex); (2824, "6300000063000000a481"%hex); (2844, "0200380004020d00082028002e42432e545f526878707034"%hex); (2873, "01"%hex);
    (2881, "10"%hex); (2897, "01"%hex); (2912, "6c040400420408"%hex); (2924, "580312"%hex); (2932, "4b8f6bf68a2bbb180800000001"%hex);
    (2966, "54034a00bb180080"%hex); (2980, "01"%hex); (2988, "01"%hex); (2996, "6300000063000000a481"%hex);
    (3016, "01001000040210007370617273655f686561642e746d700002"%hex); (3048, "12"%hex);
    (3056, "5e691bf68a2bbb188e771cf68a2bbb18ea68d6519c2bbb18eabae5048b2bbb180080"%hex); (3096, "01"%hex); (3104, "02"%hex);
    (3112, "6300000063000000a481"%hex); (3132, "0200380004020a0008202800706c61696e2e747874"%hex); (3160, "23"%hex); (3169, "10"%hex);
    (3184, "23"%hex); (3192, "23"%hex); (3200, "3a030400220308"%hex); (3212, "500612"%hex); (3220, "52901df68a2bbb1808004c0318"%hex);
    (3238, "5c01"%hex); (3254, "e2014a00bb180080"%hex); (3268, "01"%hex); (3276, "01"%hex); (3284, "6300000063000000a481"%hex);
    (3304, "0100100004020a00706c61696e2e747874"%hex); (3328, "10"%hex); (3336, "11"%hex);
    (3344, "ddcd5b47872bbb188bd76447872bbb188bd76447872bbb18ddcd5b47872bbb180080"%hex); (3384, "01"%hex); (3392, "02"%hex);
    (3400, "63000000630000008081"%hex); (3420, "0200380004020f000820280066736576656e7473642d75756964000024"%hex); (3457, "10"%hex);
    (3472, "24"%hex); (3488, "0200040002"%hex); (3501, "10"%hex); (3508, "5901"%hex); (3524, "0100000012"%hex);
    (3536, "5e691bf68a2bbb18080001"%hex); (3551, "10"%hex); (3558, "5b01"%hex); (3574, "ffff46"%hex); (3584, "01"%hex); (3592, "01"%hex);
    (3600, "63000000630000008081"%hex); (3620, "0100100004020f0066736576656e7473642d75756964000011"%hex); (3652, "ddcd5b47872bbb18080002"%hex);
    (3670, "10"%hex); (3678, "26465647872bbb1889e25b47872bbb1889e25b47872bbb1826465647872bbb180080"%hex); (3718, "01"%hex); (3726, "02"%hex);
    (3734, "6300000063000000c041"%hex); (3754, "0100100004020b002e66736576656e747364"%hex); (3778, "10"%hex); (3786, "26465647872bbb18040001"%hex);
    (3804, "03"%hex); (3812, "5ea972dc842bbb185ea972dc842bbb185ea972dc842bbb185ea972dc842bbb180080"%hex); (3860, "01"%hex); (3876, "a441"%hex);
    (3888, "0100100004020c00707269766174652d646972"%hex); (3912, "03"%hex); (3920, "5ea972dc842bbb18040001"%hex); (3938, "02"%hex);
    (3947, "9d72dc842bbb18386ee5459c2bbb18386ee5459c2bbb18474923ba962bbb180080"%hex); (3986, "05"%hex); (3994, "0e"%hex);
    (4002, "f501000014000000ed41"%hex); (4022, "0100080004020500726f6f74"%hex); (4038, "02"%hex); (4047, "9d72dc842bbb18040042"%hex);
    (4061, "10"%hex); (4072, "21000000b80000001f"%hex); (4088, "01"%hex)]);
  (395, [(0, "0958f3ffc7a40c408b01"%hex); (16, "08"%hex); (24, "0b000040"%hex); (40, "02000040020000408c01"%hex)]);
  (396, [(0, "fb04551e98c1e8918c01"%hex); (16, "08"%hex); (24, "020000400b0000000700000001"%hex);
    (42, "c0012000a00d100010002000100000001000000010"%hex); (504, "0404"%hex); (512, "08"%hex); (520, "ffff10"%hex); (528, "07"%hex);
    (4024, "ffff1000001000008401"%hex); (4045, "1000008a01"%hex); (4056, "12"%hex); (4061, "1000001000000010000000100000001000000001"%hex);
    (4088, "01"%hex)]);
  (397, [(0, "f3203223596d07440204"%hex); (16, "08"%hex); (24, "0d"%hex); (32, "41505342"%hex); (40, "02"%hex); (56, "01"%hex); (88, "0a"%hex);
    (96, "05"%hex); (104, "0600000029034718010000000200000002000040020000408b01"%hex); (136, "0404"%hex); (144, "8301"%hex); (152, "5401"%hex);
    (176, "1a"%hex); (184, "05"%hex); (192, "01"%hex); (224, "0e"%hex); (232, "09"%hex);
    (240, "643144d9795c4e95ab19007de4e8d4e1c66ed6519c2bbb1801"%hex);
    (272, "6e657766735f617066732028323333322e3134302e31332e3730302e31290000190f6ddc842bbb1802"%hex); (704, "415046535034"%hex); (960, "03"%hex);
    (984, "10"%hex); (1040, "0200004002000040"%hex); (1056, "08"%hex); (1064, "1000000002"%hex); (1104, "02"%hex)]);
  (398, [(0, "343cf3ff95c00c408e01"%hex); (16, "08"%hex); (24, "0b000040"%hex); (32, "01"%hex); (40, "02000040020000408f01"%hex)]);
  (399, [(0, "aaff541ee2c6e8918f01"%hex); (16, "08"%hex); (24, "020000400b0000000700000001"%hex);
    (42, "c0012000a00d100010002000100000001000000010"%hex); (504, "0204"%hex); (512, "08"%hex); (520, "ffff10"%hex); (528, "07"%hex);
    (4024, "ffff1000001000008701"%hex); (4045, "1000008d01"%hex); (4056, "12"%hex); (4061, "1000001000000010000000100000001000000001"%hex);
    (4088, "01"%hex)]);
  (400, [(0, "426574682074617267657420636f6e74656e7420666f722073796d6c696e6b2e0a"%hex)]);
  (401, [(0, "5bdc9c49ec05c1469101"%hex); (16, "09"%hex); (24, "020000400f0000000300000006"%hex); (42, "40003000b80effff0000ffff"%hex);
    (58, "08001400140008000800280014001800080050001400100008003c001400200008006400140028000800780014"%hex); (120, "5901"%hex); (127, "205b01"%hex);
    (135, "207a01"%hex); (143, "207301"%hex); (151, "208201"%hex); (159, "209001"%hex); (167, "20"%hex); (3936, "01"%hex); (3943, "101c"%hex);
    (3952, "0100000001"%hex); (3963, "1019"%hex); (3972, "0100000001"%hex); (3983, "1016"%hex); (3992, "0100000001"%hex); (4003, "1017"%hex);
    (4012, "0100000001"%hex); (4023, "1012"%hex); (4032, "0100000001"%hex); (4043, "1011"%hex); (4052, "0100000052"%hex); (4061, "10"%hex);
    (4072, "080000001400000006"%hex); (4088, "01"%hex)]);
  (402, [(0, "9357f880e42a576c0404"%hex); (16, "09"%hex); (24, "020000000e0000000300000028"%hex);
    (42, "4001c702b50017022700c006f80219001800900012000000110012001200110008007e006c009300200038020800dc0121004207120025011700b407120039"%hex);
    (106, "170016011200a9011b00480812005a021100c8041200b3001600100212003b021c00e40612003100080004017400500008008a01740058001b009c01120073"%hex);
    (170, "0800d802a0007b00080014020400830010002c021800c9000800f803a000fd011a0018051600e900140002051600d1000800fe010400d9001000fa0118003c01"%hex);
    (234, "08001809ac00440108002e0704004c0110005a041800150110006008180005010800360874006c012100a20734008d011c00560714005c0110006e0718000d01"%hex);
    (298, "0800c409a800c40108006c080400cc011000fc0618006b02080032066c0073021500b604120088020800e40aa00090020800a404040098021000a00418003302"%hex);
    (362, "0800380a7400a8021f00d206120001"%hex); (383, "9005e471b6726f6f740002"%hex); (400, "3001"%hex);
    (408, "900c8ca6ac707269766174652d6469720003"%hex); (432, "3002"%hex); (440, "900b14be9c2e66736576656e7473640010"%hex); (463, "3010"%hex);
    (471, "900f14121166736576656e7473642d757569640011"%hex); (498, "3011"%hex); (506, "6011"%hex); (514, "80"%hex); (523, "02"%hex);
    (530, "401600707572676561626c652d64726563732d66697865640002"%hex); (562, "900af844cd706c61696e2e7478740012"%hex); (584, "3012"%hex);
    (592, "6012"%hex); (600, "80"%hex); (609, "12"%hex); (616, "400a00757365722e6e6f746500ffff0500006d700017"%hex); (644, "3019"%hex);
    (652, "3016"%hex); (660, "80000001"%hex); (669, "02"%hex); (676, "900b0817637370617273652e62696e0016"%hex); (699, "3016"%hex);
    (707, "6016"%hex); (715, "80"%hex); (724, "18"%hex); (731, "80"%hex); (740, "17"%hex);
    (747, "401700636f6d2e6170706c652e5265736f75726365466f726b0017"%hex); (780, "401200636f6d2e6170706c652e6465636d7066730002"%hex);
    (808, "900f349aa4636f6d707265737365642e7478740019"%hex); (835, "6019"%hex); (843, "80"%hex); (852, "02"%hex);
    (859, "9015f82639636f6d707265737365645f736d616c6c2e7478740012"%hex); (892, "401000636f6d2e6578616d706c652e74616700fd001c"%hex);
    (918, "90104cf4df73796d6c696e6b5f746f5f62657468001d"%hex); (946, "3002"%hex); (954, "90104cf4df73796d6c696e6b5f746f5f62657468006e6b0002"%hex);
    (985, "900520ecca44697231001b"%hex); (1002, "301b"%hex); (1010, "9009e8664f426574682e747874001c"%hex); (1031, "301c"%hex); (1039, "601c"%hex);
    (1047, "80"%hex); (1056, "1d"%hex); (1063, "401500636f6d2e6170706c652e66732e73796d6c696e6b"%hex); (1268, "1b"%hex); (1276, "1c"%hex);
    (1284, "ad19055f9c2bbb1887d4055f9c2bbb1887d4055f9c2bbb18ad19055f9c2bbb180080"%hex); (1324, "01"%hex); (1332, "02"%hex);
    (1340, "6300000063000000a481"%hex); (1360, "020038000402090008202800426574682e747874"%hex); (1388, "21"%hex); (1397, "10"%hex);
    (1412, "21"%hex); (1428, "88040c"%hex); (1440, "02"%hex); (1448, "1d"%hex);
    (1456, "644e235f9c2bbb18644e235f9c2bbb18644e235f9c2bbb18644e235f9c2bbb180080"%hex); (1496, "01"%hex); (1504, "01"%hex);
    (1512, "6300000063000000eda1"%hex); (1532, "010010000402100073796d6c696e6b5f746f5f626574680002"%hex); (1564, "19"%hex);
    (1572, "d2ec4a429c2bbb18d2ec4a429c2bbb180f6ee5459c2bbb182c4449429c2bbb180080"%hex); (1612, "01"%hex); (1620, "02"%hex);
    (1628, "6300000063000000a481"%hex); (1648, "020040000402150008202800636f6d707265737365645f736d616c6c2e747874"%hex); (1685, "01"%hex);
    (1693, "10"%hex); (1709, "01"%hex); (1728, "02"%hex); (1736, "16"%hex);
    (1744, "b0742c33912bbb18b0b62f33912bbb18b0b62f33912bbb1888cada47912bbb180082"%hex); (1784, "01"%hex); (1792, "03"%hex);
    (1800, "6300000063000000a481"%hex); (1820, "0300400004020b00082028000d2808007370617273652e62696e"%hex); (1853, "1001"%hex); (1861, "1001"%hex);
    (1877, "10"%hex); (1885, "1001"%hex); (1894, "01"%hex); (1900, "01000000c20708"%hex); (1913, "10"%hex); (1920, "7301"%hex); (1936, "17"%hex);
    (1944, "8370b158942bbb18080002"%hex); (1962, "17"%hex); (1970, "57ab9f57942bbb1857ab9f57942bbb18c560bf58942bbb1887f49d57942bbb18004004"%hex);
    (2010, "01"%hex); (2018, "05000000200000006300000063000000a481000020bf02"%hex);
    (2046, "0100100004020f00636f6d707265737365642e74787400002a070e"%hex); (2078, "01"%hex); (2084, "16"%hex);
    (2092, "b0742c33912bbb1808000100300018"%hex); (2114, "f605"%hex); (2123, "10"%hex); (2138, "f605"%hex); (2155, "10"%hex); (2162, "7a01"%hex);
    (2178, "0200100066706d630800000020bf02"%hex); (2198, "19"%hex); (2206, "b5d313439c2bbb180800000001000000be0516"%hex); (2229, "20"%hex);
    (2237, "40"%hex); (2244, "c60518"%hex); (2253, "10"%hex); (2269, "10"%hex); (2276, "8201"%hex); (2292, "1d"%hex);
    (2300, "644e235f9c2bbb180a0006000e00446972312f426574682e74787400da0450008f3bdb5e9c2bbb180080"%hex); (2348, "01"%hex); (2356, "01"%hex);
    (2364, "6300000063000000eda1"%hex); (2384, "010010000402100073796d6c696e6b5f746f5f6265746800140720"%hex); (2417, "10"%hex);
    (2440, "8c050c000010"%hex); (2452, "700612"%hex); (2460, "b6c119628e2bbb18080002"%hex); (2478, "1b"%hex);
    (2486, "5e75015f9c2bbb18b91e055f9c2bbb18b91e055f9c2bbb185e75015f9c2bbb180080"%hex); (2526, "01"%hex); (2534, "02"%hex);
    (2542, "6300000063000000ed41"%hex); (2562, "010008000402050044697231"%hex); (2578, "ba0508"%hex); (2586, "44060400780416"%hex);
    (2597, "20"%hex); (2605, "40"%hex); (2612, "98050c"%hex); (2624, "74050c"%hex); (2636, "a40518"%hex);
    (2660, "74045c008a2bbb1894f26bf68a2bbb184b8f6bf68a2bbb180080"%hex); (2692, "01"%hex); (2700, "01"%hex); (2708, "6300000063000000a481"%hex);
    (2728, "0100100004020b007370617273652e62696e"%hex);
    (2752, "02001200666f72656e7369632d6d61726b65722d5034020012007365636f6e6420637573746f6d2061747472440a12"%hex);
    (2804, "8f3bdb5e9c2bbb180a00ec041200446972312f426574682e747874001b"%hex); (2840, "5e75015f9c2bbb1804001c"%hex);
    (2858, "ad19055f9c2bbb18080001"%hex); (2873, "10"%hex); (2880, "9001"%hex); (2896, "680810"%hex); (2912, "6c040400420408"%hex);
    (2924, "580312"%hex); (2932, "4b8f6bf68a2bbb180800000001"%hex); (2966, "54034a00bb180080"%hex); (2980, "01"%hex); (2988, "01"%hex);
    (2996, "6300000063000000a481"%hex); (3016, "01001000040210007370617273655f686561642e746d700002"%hex); (3048, "12"%hex);
    (3056, "5e691bf68a2bbb188e771cf68a2bbb18ea68d6519c2bbb18eabae5048b2bbb180080"%hex); (3096, "01"%hex); (3104, "02"%hex);
    (3112, "6300000063000000a481"%hex); (3132, "0200380004020a0008202800706c61696e2e747874"%hex); (3160, "23"%hex); (3169, "10"%hex);
    (3184, "23"%hex); (3192, "23"%hex); (3200, "3a030400220308"%hex); (3212, "500612"%hex); (3220, "52901df68a2bbb1808004c0318"%hex);
    (3238, "5c01"%hex); (3254, "e2014a00bb180080"%hex); (3268, "01"%hex); (3276, "01"%hex); (3284, "6300000063000000a481"%hex);
    (3304, "0100100004020a00706c61696e2e747874"%hex); (3328, "10"%hex); (3336, "11"%hex);
    (3344, "ddcd5b47872bbb188bd76447872bbb188bd76447872bbb18ddcd5b47872bbb180080"%hex); (3384, "01"%hex); (3392, "02"%hex);
    (3400, "63000000630000008081"%hex); (3420, "0200380004020f000820280066736576656e7473642d75756964000024"%hex); (3457, "10"%hex);
    (3472, "24"%hex); (3488, "0200040002"%hex); (3501, "10"%hex); (3508, "5901"%hex); (3524, "0100000012"%hex);
    (3536, "5e691bf68a2bbb18080001"%hex); (3551, "10"%hex); (3558, "5b01"%hex); (3574, "ffff46"%hex); (3584, "01"%hex); (3592, "01"%hex);
    (3600, "63000000630000008081"%hex); (3620, "0100100004020f0066736576656e7473642d75756964000011"%hex); (3652, "ddcd5b47872bbb18080002"%hex);
    (3670, "10"%hex); (3678, "26465647872bbb1889e25b47872bbb1889e25b47872bbb1826465647872bbb180080"%hex); (3718, "01"%hex); (3726, "02"%hex);
    (3734, "6300000063000000c041"%hex); (3754, "0100100004020b002e66736576656e747364"%hex); (3778, "10"%hex); (3786, "26465647872bbb18040001"%hex);
    (3804, "03"%hex); (3812, "5ea972dc842bbb185ea972dc842bbb185ea972dc842bbb185ea972dc842bbb180080"%hex); (3860, "01"%hex); (3876, "a441"%hex);
    (3888, "0100100004020c00707269766174652d646972"%hex); (3912, "03"%hex); (3920, "5ea972dc842bbb18040001"%hex); (3938, "02"%hex);
    (3947, "9d72dc842bbb18e155235f9c2bbb18e155235f9c2bbb183c39a3509c2bbb180080"%hex); (3986, "07"%hex); (3994, "12"%hex);
    (4002, "f501000014000000ed41"%hex); (4022, "0100080004020500726f6f74"%hex); (4038, "02"%hex); (4047, "9d72dc842bbb18040042"%hex);
    (4061, "10"%hex); (4072, "21000000b800000028"%hex); (4088, "01"%hex)]);
  (403, [(0, "6c14f3ff53e80c409301"%hex); (16, "09"%hex); (24, "0b000040"%hex); (40, "02000040020000409401"%hex)]);
  (404, [(0, "6de904a00ddd18109401"%hex); (16, "09"%hex); (24, "020000400b0000000700000001"%hex);
    (42, "c0012000a00d000010001000100010002000100020"%hex); (504, "ffff10"%hex); (512, "08"%hex); (520, "0404"%hex); (528, "09"%hex);
    (4029, "1000009201"%hex); (4040, "ffff1000001000008a01"%hex); (4056, "12"%hex); (4061, "1000001000000010000000100000001000000001"%hex);
    (4088, "01"%hex)]);
  (405, [(0, "2b0a6935399683240204"%hex); (16, "09"%hex); (24, "0d"%hex); (32, "41505342"%hex); (40, "02"%hex); (56, "01"%hex); (88, "0b"%hex);
    (96, "05"%hex); (104, "0600000029034718010000000200000002000040020000409301"%hex); (136, "0404"%hex); (144, "9101"%hex); (152, "5401"%hex);
    (176, "1e"%hex); (184, "06"%hex); (192, "02"%hex); (200, "01"%hex); (224, "0f"%hex); (232, "09"%hex);
    (240, "643144d9795c4e95ab19007de4e8d4e18d5c235f9c2bbb1801"%hex);
    (272, "6e657766735f617066732028323333322e3134302e31332e3730302e31290000190f6ddc842bbb1802"%hex); (704, "415046535034"%hex); (960, "03"%hex);
    (984, "10"%hex); (1040, "0200004002000040"%hex); (1056, "09"%hex); (1064, "1000000002"%hex); (1104, "02"%hex)]);
  (406, [(0, "97f8f2ff21040d409601"%hex); (16, "09"%hex); (24, "0b000040"%hex); (32, "01"%hex); (40, "02000040020000409701"%hex)]);
  (407, [(0, "14e404a05fe218109701"%hex); (16, "09"%hex); (24, "020000400b0000000700000001"%hex);
    (42, "c0012000a00d000010001000100010002000100020"%hex); (504, "ffff10"%hex); (512, "08"%hex); (520, "0204"%hex); (528, "09"%hex);
    (4029, "1000009501"%hex); (4040, "ffff1000001000008d01"%hex); (4056, "12"%hex); (4061, "1000001000000010000000100000001000000001"%hex);
    (4088, "01"%hex)]);
  (408, [(0, "436f6d7072657373206d6520696e6c696e652e20436f6d7072657373206d6520696e6c696e652e20436f6d7072657373206d6520696e6c696e652e20436f6d70"%hex);
    (64, "72657373206d6520696e6c696e652e20436f6d7072657373206d6520696e6c696e652e20436f6d7072657373206d6520696e6c696e652e20436f6d7072657373"%hex);
    (128, "206d6520696e6c696e652e20436f6d7072657373206d6520696e6c696e652e20436f6d7072657373206d6520696e6c696e652e20436f6d7072657373206d6520"%hex);
    (192, "696e6c696e652e20436f6d7072657373206d6520696e6c696e652e20436f6d7072657373206d6520696e6c696e652e20436f6d7072657373206d6520696e6c69"%hex);
    (256, "6e652e20436f6d7072657373206d6520696e6c696e652e20436f6d7072657373206d6520696e6c696e652e20436f6d7072657373206d6520696e6c696e652e20"%hex);
    (320, "436f6d7072657373206d6520696e6c696e652e20436f6d7072657373206d6520696e6c696e652e20436f6d7072657373206d6520696e6c696e652e20436f6d70"%hex);
    (384, "72657373206d6520696e6c696e652e20436f6d7072657373206d6520696e6c696e652e20436f6d7072657373206d6520696e6c696e652e20436f6d7072657373"%hex);
    (448, "206d6520696e6c696e652e20436f6d7072657373206d6520696e6c696e652e20436f6d7072657373206d6520696e6c696e652e20436f6d7072657373206d6520"%hex);
    (512, "696e6c696e652e20436f6d7072657373206d6520696e6c696e652e20436f6d7072657373206d6520696e6c696e652e20436f6d7072657373206d6520696e6c69"%hex);
    (576, "6e652e20436f6d7072657373206d6520696e6c696e652e20436f6d7072657373206d6520696e6c696e652e20436f6d7072657373206d6520696e6c696e652e20"%hex);
    (640, "436f6d7072657373206d6520696e6c696e652e20436f6d7072657373206d6520696e6c696e652e20436f6d7072657373206d6520696e6c696e652e20436f6d70"%hex);
    (704, "72657373206d6520696e6c696e652e20436f6d7072657373206d6520696e6c696e652e20436f6d7072657373206d6520696e6c696e652e20436f6d7072657373"%hex);
    (768, "206d6520696e6c696e652e20436f6d7072657373206d6520696e6c696e652e20436f6d7072657373206d6520696e6c696e652e20436f6d7072657373206d6520"%hex);
    (832, "696e6c696e652e20436f6d7072657373206d6520696e6c696e652e20436f6d7072657373206d6520696e6c696e652e20436f6d7072657373206d6520696e6c69"%hex);
    (896, "6e652e20436f6d7072657373206d6520696e6c696e652e20436f6d7072657373206d6520696e6c696e652e20436f6d7072657373206d6520696e6c696e652e20"%hex);
    (960, "436f6d7072657373206d6520696e6c696e652e20436f6d7072657373206d6520696e6c696e652e20436f6d7072657373206d6520696e6c696e652e20436f6d70"%hex);
    (1024, "72657373206d6520696e6c696e652e20436f6d7072657373206d6520696e6c696e652e20436f6d7072657373206d6520696e6c696e652e20436f6d7072657373"%hex);
    (1088, "206d6520696e6c696e652e20436f6d7072657373206d6520696e6c696e652e20436f6d7072657373206d6520696e6c696e652e20436f6d7072657373206d6520"%hex);
    (1152, "696e6c696e652e20436f6d7072657373206d6520696e6c696e652e20436f6d7072657373206d6520696e6c696e652e20436f6d7072657373206d6520696e6c69"%hex);
    (1216, "6e652e20436f6d7072657373206d6520696e6c696e652e20436f6d7072657373206d6520696e6c696e652e20436f6d7072657373206d6520696e6c696e652e20"%hex);
    (1280, "436f6d7072657373206d6520696e6c696e652e20436f6d7072657373206d6520696e6c696e652e20436f6d7072657373206d6520696e6c696e652e20436f6d70"%hex);
    (1344, "72657373206d6520696e6c696e652e20436f6d7072657373206d6520696e6c696e652e20436f6d7072657373206d6520696e6c696e652e20436f6d7072657373"%hex);
    (1408, "206d6520696e6c696e652e20436f6d7072657373206d6520696e6c696e652e20436f6d7072657373206d6520696e6c696e652e20436f6d7072657373206d6520"%hex);
    (1472, "696e6c696e652e20436f6d7072657373206d6520696e6c696e652e20436f6d7072657373206d6520696e6c696e652e20436f6d7072657373206d6520696e6c69"%hex);
    (1536, "6e652e20436f6d7072657373206d6520696e6c696e652e20436f6d7072657373206d6520696e6c696e652e20436f6d7072657373206d6520696e6c696e652e20"%hex);
    (1600, "436f6d7072657373206d6520696e6c696e652e20436f6d7072657373206d6520696e6c696e652e20436f6d7072657373206d6520696e6c696e652e20436f6d70"%hex);
    (1664, "72657373206d6520696e6c696e652e20436f6d7072657373206d6520696e6c696e652e20436f6d7072657373206d6520696e6c696e652e20436f6d7072657373"%hex);
    (1728, "206d6520696e6c696e652e20436f6d7072657373206d6520696e6c696e652e20436f6d7072657373206d6520696e6c696e652e20436f6d7072657373206d6520"%hex);
    (1792, "696e6c696e652e20436f6d7072657373206d6520696e6c696e652e20436f6d7072657373206d6520696e6c696e652e20436f6d7072657373206d6520696e6c69"%hex);
    (1856, "6e652e20436f6d7072657373206d6520696e6c696e652e20436f6d7072657373206d6520696e6c696e652e20436f6d7072657373206d6520696e6c696e652e20"%hex);
    (1920, "436f6d7072657373206d6520696e6c696e652e20436f6d7072657373206d6520696e6c696e652e20436f6d7072657373206d6520696e6c696e652e20436f6d70"%hex);
    (1984, "72657373206d6520696e6c696e652e20436f6d7072657373206d6520696e6c696e652e20436f6d7072657373206d6520696e6c696e652e20436f6d7072657373"%hex);
    (2048, "206d6520696e6c696e652e20436f6d7072657373206d6520696e6c696e652e20436f6d7072657373206d6520696e6c696e652e20436f6d7072657373206d6520"%hex);
    (2112, "696e6c696e652e20436f6d7072657373206d6520696e6c696e652e20436f6d7072657373206d6520696e6c696e652e20436f6d7072657373206d6520696e6c69"%hex);
    (2176, "6e652e20436f6d7072657373206d6520696e6c696e652e20436f6d7072657373206d6520696e6c696e652e20436f6d7072657373206d6520696e6c696e652e20"%hex);
    (2240, "436f6d7072657373206d6520696e6c696e652e20436f6d7072657373206d6520696e6c696e652e20436f6d7072657373206d6520696e6c696e652e20436f6d70"%hex);
    (2304, "72657373206d6520696e6c696e652e20436f6d7072657373206d6520696e6c696e652e20436f6d7072657373206d6520696e6c696e652e20436f6d7072657373"%hex);
    (2368, "206d6520696e6c696e652e20436f6d7072657373206d6520696e6c696e652e20436f6d7072657373206d6520696e6c696e652e20436f6d7072657373206d6520"%hex);
    (2432, "696e6c696e652e20436f6d7072657373206d6520696e6c696e652e20436f6d7072657373206d6520696e6c696e652e20436f6d7072657373206d6520696e6c69"%hex);
    (2496, "6e652e20436f6d7072657373206d6520696e6c696e652e20436f6d7072657373206d6520696e6c696e652e20436f6d7072657373206d6520696e6c696e652e20"%hex);
    (2560, "436f6d7072657373206d6520696e6c696e652e20436f6d7072657373206d6520696e6c696e652e20436f6d7072657373206d6520696e6c696e652e20436f6d70"%hex);
    (2624, "72657373206d6520696e6c696e652e20436f6d7072657373206d6520696e6c696e652e20436f6d7072657373206d6520696e6c696e652e20436f6d7072657373"%hex);
    (2688, "206d6520696e6c696e652e20436f6d7072657373206d6520696e6c696e652e20436f6d7072657373206d6520696e6c696e652e20436f6d7072657373206d6520"%hex);
    (2752, "696e6c696e652e20436f6d7072657373206d6520696e6c696e652e20436f6d7072657373206d6520696e6c696e652e20436f6d7072657373206d6520696e6c69"%hex);
    (2816, "6e652e20436f6d7072657373206d6520696e6c696e652e20436f6d7072657373206d6520696e6c696e652e20436f6d7072657373206d6520696e6c696e652e20"%hex);
    (2880, "436f6d7072657373206d6520696e6c696e652e20436f6d7072657373206d6520696e6c696e652e20436f6d7072657373206d6520696e6c696e652e20436f6d70"%hex);
    (2944, "72657373206d6520696e6c696e652e20436f6d7072657373206d6520696e6c696e652e20436f6d7072657373206d6520696e6c696e652e20436f6d7072657373"%hex);
    (3008, "206d6520696e6c696e652e20436f6d7072657373206d6520696e6c696e652e20436f6d7072657373206d6520696e6c696e652e20436f6d7072657373206d6520"%hex);
    (3072, "696e6c696e652e20436f6d7072657373206d6520696e6c696e652e20436f6d7072657373206d6520696e6c696e652e20436f6d7072657373206d6520696e6c69"%hex);
    (3136, "6e652e20436f6d7072657373206d6520696e6c696e652e20436f6d7072657373206d6520696e6c696e652e20436f6d7072657373206d6520696e6c696e652e20"%hex);
    (3200, "436f6d7072657373206d6520696e6c696e652e20436f6d7072657373206d6520696e6c696e652e20436f6d7072657373206d6520696e6c696e652e20436f6d70"%hex);
    (3264, "72657373206d6520696e6c696e652e20436f6d7072657373206d6520696e6c696e652e20436f6d7072657373206d6520696e6c696e652e20436f6d7072657373"%hex);
    (3328, "206d6520696e6c696e652e20436f6d7072657373206d6520696e6c696e652e20436f6d7072657373206d6520696e6c696e652e20436f6d7072657373206d6520"%hex);
    (3392, "696e6c696e652e20436f6d7072657373206d6520696e6c696e652e20436f6d7072657373206d6520696e6c696e652e20436f6d7072657373206d6520696e6c69"%hex);
    (3456, "6e652e20436f6d7072657373206d6520696e6c696e652e20436f6d7072657373206d6520696e6c696e652e20436f6d7072657373206d6520696e6c696e652e20"%hex);
    (3520, "436f6d7072657373206d6520696e6c696e652e20436f6d7072657373206d6520696e6c696e652e20436f6d7072657373206d6520696e6c696e652e20436f6d70"%hex);
    (3584, "72657373206d6520696e6c696e652e20"%hex)]);
  (409, [(0, "fb924bbbc44c12a59901"%hex); (16, "0a"%hex); (24, "020000400f0000000300000007"%hex); (42, "400038009c0effff0000ffff"%hex);
    (58, "08001400140008000800280014001800080050001400100008003c00140020000800640014002800080078001400300008008c0014"%hex); (120, "5901"%hex);
    (127, "205b01"%hex); (135, "207a01"%hex); (143, "207301"%hex); (151, "208201"%hex); (159, "209001"%hex); (167, "209801"%hex); (175, "20"%hex);
    (3916, "01"%hex); (3923, "101e"%hex); (3932, "0100000001"%hex); (3943, "101c"%hex); (3952, "0100000001"%hex); (3963, "1019"%hex);
    (3972, "0100000001"%hex); (3983, "1016"%hex); (3992, "0100000001"%hex); (4003, "1017"%hex); (4012, "0100000001"%hex); (4023, "1012"%hex);
    (4032, "0100000001"%hex); (4043, "1011"%hex); (4052, "0100000052"%hex); (4061, "10"%hex); (4072, "080000001400000007"%hex); (4088, "01"%hex)]);
  (410, [(0, "efd00d7c2b03228f0404"%hex); (16, "0a"%hex); (24, "020000000e000000030000002c"%hex);
    (42, "8001fb024b01e20019002e091801000018001200120018001100240012002900080090006c00310020009800080051002100aa00120072001700bc00120089"%hex);
    (106, "1700ce001200a0001b00e0001200d902220016011200bb001100f2001200cc00160004011200fb001c0028011200170108009c0174001f010800100274002701"%hex);
    (170, "1b002202120042010800c202a0004a010800c602040052011000de021800620108007e03a0006a011a009403160084011400aa03160098010800ae030400a001"%hex);
    (234, "1000c6031800b00108007204ac00b801080076040400c00110008e041800d0011000a6041800e00108001a057400e80121004e05340009021c00620514002502"%hex);
    (298, "10007a051800350208002206a8003d02080026060400450210003e06180055020800aa066c005d021500bc061200720208005c07a0007a020800600704008202"%hex);
    (362, "10007807180092020800ec0774009a021f00fe071200b9020800da09a800c102080076080400c90210008e0818"%hex); (440, "01"%hex);
    (447, "900c8ca6ac707269766174652d6469720001"%hex); (471, "9005e471b6726f6f740002"%hex); (488, "3002"%hex);
    (496, "401600707572676561626c652d64726563732d66697865640002"%hex); (528, "9015f82639636f6d707265737365645f736d616c6c2e7478740002"%hex);
    (561, "900b0817637370617273652e62696e0002"%hex); (584, "900b14be9c2e66736576656e7473640002"%hex);
    (607, "900f349aa4636f6d707265737365642e7478740002"%hex); (634, "900520ecca446972310002"%hex);
    (651, "900af844cd706c61696e2e74787400ffff19"%hex); (673, "900dc40ed62e42432e545f34556e7767610002"%hex);
    (698, "90104cf4df73796d6c696e6b5f746f5f626574680003"%hex); (726, "3010"%hex); (734, "3010"%hex);
    (742, "900f14121166736576656e7473642d757569640011"%hex); (769, "3011"%hex); (777, "6011"%hex); (785, "80"%hex); (794, "12"%hex);
    (801, "3012"%hex); (809, "401000636f6d2e6578616d706c652e7461670012"%hex); (835, "400a00757365722e6e6f74650012"%hex); (855, "6012"%hex);
    (863, "80"%hex); (872, "16"%hex); (879, "3016"%hex); (887, "6016"%hex); (895, "80"%hex); (904, "16"%hex); (911, "80000001"%hex);
    (920, "17"%hex); (927, "3017"%hex); (935, "401700636f6d2e6170706c652e5265736f75726365466f726b0017"%hex);
    (968, "401200636f6d2e6170706c652e6465636d7066730018"%hex); (996, "80"%hex); (1005, "19"%hex); (1012, "3019"%hex); (1020, "6019"%hex);
    (1028, "80"%hex); (1037, "1b"%hex); (1044, "301b"%hex); (1052, "9009e8664f426574682e747874001c"%hex); (1073, "301c"%hex); (1081, "601c"%hex);
    (1089, "80"%hex); (1098, "1d"%hex); (1105, "301d"%hex); (1113, "401500636f6d2e6170706c652e66732e73796d6c696e6b001e"%hex); (1144, "301e"%hex);
    (1152, "601e"%hex); (1160, "80"%hex); (1169, "02"%hex); (1176, "90168425b2636f6d707265737365645f696e6c696e652e747874"%hex); (1534, "02"%hex);
    (1542, "1e"%hex); (1550, "89b4baba9f2bbb1889b4baba9f2bbb1883d46fbb9f2bbb182931b9ba9f2bbb180080"%hex); (1590, "01"%hex); (1598, "02"%hex);
    (1606, "6300000063000000a481"%hex); (1626, "020040000402160008202800636f6d707265737365645f696e6c696e652e747874000000100e"%hex);
    (1671, "10"%hex); (1686, "100e"%hex); (1706, "7208a0"%hex); (1714, "1e"%hex);
    (1722, "89b4baba9f2bbb1889b4baba9f2bbb18fd0b6fbb9f2bbb182931b9ba9f2bbb180080"%hex); (1762, "01"%hex); (1770, "02"%hex);
    (1778, "6300000063000000a481"%hex); (1798, "0200380004020d00082028002e42432e545f34556e776761"%hex); (1826, "100e"%hex); (1835, "10"%hex);
    (1850, "100e"%hex); (1867, "10"%hex); (1874, "9801"%hex); (1890, "01000000ffff74"%hex); (1902, "1e"%hex);
    (1910, "19556abb9f2bbb1819556abb9f2bbb1819556abb9f2bbb1819556abb9f2bbb180080"%hex); (1950, "01"%hex); (1958, "01"%hex);
    (1966, "63000000630000008081"%hex); (1986, "0100100004020d002e42432e545f34556e776761"%hex);
    (2010, "06000e00446972312f426574682e7478740002"%hex); (2036, "1d"%hex);
    (2044, "644e235f9c2bbb18644e235f9c2bbb18644e235f9c2bbb18644e235f9c2bbb180080"%hex); (2084, "01"%hex); (2092, "01"%hex);
    (2100, "6300000063000000eda1"%hex); (2120, "010010000402100073796d6c696e6b5f746f5f62657468000010"%hex); (2152, "9001"%hex);
    (2168, "010000001b"%hex); (2180, "1c"%hex); (2188, "ad19055f9c2bbb1887d4055f9c2bbb1887d4055f9c2bbb18ad19055f9c2bbb180080"%hex);
    (2228, "01"%hex); (2236, "02"%hex); (2244, "6300000063000000a481"%hex); (2264, "020038000402090008202800426574682e747874"%hex);
    (2292, "21"%hex); (2301, "10"%hex); (2316, "21"%hex); (2332, "1c"%hex); (2340, "ad19055f9c2bbb18080002"%hex); (2358, "1b"%hex);
    (2366, "5e75015f9c2bbb18b91e055f9c2bbb18b91e055f9c2bbb185e75015f9c2bbb180080"%hex); (2406, "01"%hex); (2414, "02"%hex);
    (2422, "6300000063000000ed41"%hex); (2442, "010008000402050044697231"%hex); (2459, "10"%hex); (2466, "8201"%hex); (2482, "0100000002"%hex);
    (2494, "19"%hex); (2502, "d2ec4a429c2bbb18d2ec4a429c2bbb180f6ee5459c2bbb182c4449429c2bbb180080"%hex); (2542, "01"%hex); (2550, "02"%hex);
    (2558, "6300000063000000a481"%hex); (2578, "020040000402150008202800636f6d707265737365645f736d616c6c2e747874"%hex); (2615, "01"%hex);
    (2623, "10"%hex); (2639, "01"%hex); (2655, "10"%hex); (2662, "7a01"%hex); (2678, "0200100066706d630800000020bf02"%hex);
    (2698, "0100300018"%hex); (2710, "f605"%hex); (2719, "10"%hex); (2734, "f605"%hex); (2750, "02"%hex); (2758, "17"%hex);
    (2766, "57ab9f57942bbb1857ab9f57942bbb18c560bf58942bbb1887f49d57942bbb18004004"%hex); (2806, "01"%hex);
    (2814, "05000000200000006300000063000000a481000020bf02"%hex); (2842, "0100100004020f00636f6d707265737365642e74787400000010"%hex);
    (2874, "7301"%hex); (2892, "01"%hex); (2914, "0100000002"%hex); (2926, "16"%hex);
    (2934, "b0742c33912bbb18b0b62f33912bbb18b0b62f33912bbb1888cada47912bbb180082"%hex); (2974, "01"%hex); (2982, "03"%hex);
    (2990, "6300000063000000a481"%hex); (3010, "0300400004020b00082028000d2808007370617273652e62696e"%hex); (3043, "1001"%hex); (3051, "1001"%hex);
    (3067, "10"%hex); (3075, "1001"%hex); (3084, "01"%hex); (3091, "10"%hex); (3098, "5b01"%hex);
    (3114, "01000000020012007365636f6e6420637573746f6d206174747202001200666f72656e7369632d6d61726b65722d503402"%hex); (3170, "12"%hex);
    (3178, "5e691bf68a2bbb188e771cf68a2bbb18ea68d6519c2bbb18eabae5048b2bbb180080"%hex); (3218, "01"%hex); (3226, "02"%hex);
    (3234, "6300000063000000a481"%hex); (3254, "0200380004020a0008202800706c61696e2e747874"%hex); (3282, "23"%hex); (3291, "10"%hex);
    (3306, "23"%hex); (3314, "23"%hex); (3323, "10"%hex); (3330, "5901"%hex); (3346, "0100000010"%hex); (3358, "11"%hex);
    (3366, "ddcd5b47872bbb188bd76447872bbb188bd76447872bbb18ddcd5b47872bbb180080"%hex); (3406, "01"%hex); (3414, "02"%hex);
    (3422, "63000000630000008081"%hex); (3442, "0200380004020f000820280066736576656e7473642d75756964000024"%hex); (3479, "10"%hex);
    (3494, "24"%hex); (3510, "11"%hex); (3518, "ddcd5b47872bbb18080002"%hex); (3536, "10"%hex);
    (3544, "26465647872bbb1889e25b47872bbb1889e25b47872bbb1826465647872bbb180080"%hex); (3584, "01"%hex); (3592, "02"%hex);
    (3600, "6300000063000000c041"%hex); (3620, "0100100004020b002e66736576656e747364"%hex); (3644, "01"%hex); (3652, "03"%hex);
    (3660, "5ea972dc842bbb185ea972dc842bbb185ea972dc842bbb185ea972dc842bbb180080"%hex); (3708, "01"%hex); (3724, "a441"%hex);
    (3736, "0100100004020c00707269766174652d646972"%hex); (3760, "1d"%hex); (3768, "644e235f9c2bbb180a001e"%hex);
    (3786, "19556abb9f2bbb18080012"%hex); (3804, "5e691bf68a2bbb1808001b"%hex); (3822, "5e75015f9c2bbb18040017"%hex);
    (3840, "8370b158942bbb18080010"%hex); (3858, "26465647872bbb18040016"%hex); (3876, "b0742c33912bbb18080019"%hex);
    (3894, "b5d313439c2bbb180800020004000200000001"%hex); (3920, "02"%hex);
    (3929, "9d72dc842bbb18add46fbb9f2bbb18add46fbb9f2bbb183c39a3509c2bbb180080"%hex); (3968, "08"%hex); (3976, "14"%hex);
    (3984, "f501000014000000ed41"%hex); (4004, "0100080004020500726f6f74"%hex); (4020, "02"%hex); (4029, "9d72dc842bbb18040003"%hex);
    (4046, "5ea972dc842bbb18040042"%hex); (4061, "10"%hex); (4072, "22000000b80000002c"%hex); (4088, "01"%hex)]);
  (411, [(0, "cfd0f2ffdf2b0d409b01"%hex); (16, "0a"%hex); (24, "0b000040"%hex); (40, "02000040020000409c01"%hex)]);
  (412, [(0, "57ad541e0819e9919c01"%hex); (16, "0a"%hex); (24, "020000400b0000000700000001"%hex);
    (42, "c0012000a00d100010002000100000001000000010"%hex); (504, "0404"%hex); (512, "0a"%hex); (520, "ffff10"%hex); (528, "09"%hex);
    (4024, "ffff1000001000009201"%hex); (4045, "1000009a01"%hex); (4056, "12"%hex); (4061, "1000001000000010000000100000001000000001"%hex);
    (4088, "01"%hex)]);
  (413, [(0, "997dc114bc8db2e80204"%hex); (16, "0a"%hex); (24, "0d"%hex); (32, "41505342"%hex); (40, "02"%hex); (56, "01"%hex); (88, "0c"%hex);
    (96, "05"%hex); (104, "0600000029034718010000000200000002000040020000409b01"%hex); (136, "0404"%hex); (144, "9901"%hex); (152, "5401"%hex);
    (176, "1f"%hex); (184, "07"%hex); (192, "02"%hex); (200, "01"%hex); (224, "10"%hex); (232, "09"%hex);
    (240, "643144d9795c4e95ab19007de4e8d4e182f19bbb9f2bbb1801"%hex);
    (272, "6e657766735f617066732028323333322e3134302e31332e3730302e31290000190f6ddc842bbb1802"%hex); (704, "415046535034"%hex); (960, "03"%hex);
    (984, "10"%hex); (1040, "0200004002000040"%hex); (1056, "0a"%hex); (1064, "1000000002"%hex); (1104, "02"%hex)]);
  (414, [(0, "fab4f2ffad470d409e01"%hex); (16, "0a"%hex); (24, "0b000040"%hex); (32, "01"%hex); (40, "02000040020000409f01"%hex)]);
  (415, [(0, "06a8541e521ee9919f01"%hex); (16, "0a"%hex); (24, "020000400b0000000700000001"%hex);
    (42, "c0012000a00d100010002000100000001000000010"%hex); (504, "0204"%hex); (512, "0a"%hex); (520, "ffff10"%hex); (528, "09"%hex);
    (4024, "ffff1000001000009501"%hex); (4045, "1000009d01"%hex); (4056, "12"%hex); (4061, "1000001000000010000000100000001000000001"%hex);
    (4088, "01"%hex)]);
  (416, [(0, "0417d59d5bca18c2a001"%hex); (16, "0b"%hex); (24, "020000400f0000000300000005"%hex);
    (42, "400038009c0e300010008c002800000008001400140008000800280014001800080050001400100008003c0014002800080078001400300008008c00140030"%hex);
    (106, "08008c0014"%hex); (120, "5901"%hex); (127, "205b01"%hex); (135, "207a01"%hex); (143, "207301"%hex); (151, "20ffff08"%hex);
    (159, "209001"%hex); (167, "20200008"%hex); (175, "20"%hex); (3916, "640014"%hex); (3923, "101e"%hex); (3932, "0100000001"%hex);
    (3943, "101c"%hex); (3952, "01000000ffff14"%hex); (3963, "1019"%hex); (3972, "0100000001"%hex); (3983, "1016"%hex); (3992, "0100000001"%hex);
    (4003, "1017"%hex); (4012, "0100000001"%hex); (4023, "1012"%hex); (4032, "0100000001"%hex); (4043, "1011"%hex); (4052, "0100000052"%hex);
    (4061, "10"%hex); (4072, "080000001400000005"%hex); (4088, "01"%hex)]);
  (417, [(0, "5c7d2245946fe5610404"%hex); (16, "0b"%hex); (24, "020000000e0000000300000024"%hex);
    (42, "8001fb024b01b9029c00da09c402000018001200120018001100240012002900080090006c00310020009800080072001700bc00120089001700ce001200a0"%hex);
    (106, "1b00e0001200bb001100f2001200cc00160004011200fb001c0028011200170108009c0174001f0108001002740027011b002202120042010800c202a0004a01"%hex);
    (170, "0800c602040052011000de021800620108007e03a0006a011a009403160084011400aa03160098010800ae030400a0011000c6031800b00108007204ac00b801"%hex);
    (234, "080076040400c00110008e041800d0011000a6041800e00108001a057400e80121004e05340009021c0062051400250210007a05180055020800aa066c005d02"%hex);
    (298, "1500bc061200720208005c07a0007a02080060070400820210007807180092020800ec0774009a021f00fe071200b9020800da09a800c102080076080400c902"%hex);
    (362, "10008e081800c90210008e081800c90210008e081800c90210008e081800c90210008e081800c90210008e0818"%hex); (440, "01"%hex);
    (447, "900c8ca6ac707269766174652d6469720001"%hex); (471, "9005e471b6726f6f740002"%hex); (488, "3002"%hex);
    (496, "401600707572676561626c652d64726563732d666978656400e20021"%hex); (528, "9015f82639636f6d707265737365645f736d616c6c2e7478740002"%hex);
    (561, "900b0817637370617273652e62696e0002"%hex); (584, "900b14be9c2e66736576656e7473640002"%hex);
    (607, "900f349aa4636f6d707265737365642e7478740002"%hex); (634, "900520ecca446972310002"%hex);
    (651, "900af844cd706c61696e2e74787400ffff19"%hex); (673, "900dc40ed62e42432e545f34556e7767610002"%hex);
    (698, "90104cf4df73796d6c696e6b5f746f5f626574680003"%hex); (726, "3010"%hex); (734, "3010"%hex);
    (742, "900f14121166736576656e7473642d757569640011"%hex); (769, "3011"%hex); (777, "6011"%hex); (785, "80"%hex); (794, "12"%hex);
    (801, "3012"%hex); (809, "401000636f6d2e6578616d706c652e7461670012"%hex); (835, "400a00757365722e6e6f74650012"%hex); (855, "6012"%hex);
    (863, "80"%hex); (872, "16"%hex); (879, "3016"%hex); (887, "6016"%hex); (895, "80"%hex); (904, "16"%hex); (911, "80000001"%hex);
    (920, "17"%hex); (927, "3017"%hex); (935, "401700636f6d2e6170706c652e5265736f75726365466f726b0017"%hex);
    (968, "401200636f6d2e6170706c652e6465636d7066730018"%hex); (996, "80"%hex); (1005, "3d0208"%hex); (1012, "30450208"%hex);
    (1020, "60510010"%hex); (1028, "80"%hex); (1037, "1b"%hex); (1044, "301b"%hex); (1052, "9009e8664f426574682e747874001c"%hex);
    (1073, "301c"%hex); (1081, "601c"%hex); (1089, "80"%hex); (1098, "1d"%hex); (1105, "301d"%hex);
    (1113, "401500636f6d2e6170706c652e66732e73796d6c696e6b00c10208"%hex); (1144, "30c90208"%hex); (1152, "60d90210"%hex); (1160, "80"%hex);
    (1169, "350222"%hex); (1176, "90168425b2636f6d707265737365645f696e6c696e652e747874"%hex); (1534, "7608a8"%hex); (1542, "1e"%hex);
    (1550, "89b4baba9f2bbb1889b4baba9f2bbb188fbab6f9a22bbb188b8a92c79f2bbb180080"%hex); (1598, "02"%hex); (1606, "6300000063000000a481"%hex);
    (1626, "020040000402160008202800636f6d707265737365645f696e6c696e652e747874000000100e"%hex); (1686, "100e"%hex); (1694, "100e"%hex);
    (1706, "7208a0"%hex); (1714, "1e"%hex); (1722, "89b4baba9f2bbb1889b4baba9f2bbb18fd0b6fbb9f2bbb182931b9ba9f2bbb180080"%hex); (1762, "01"%hex);
    (1770, "02"%hex); (1778, "6300000063000000a481"%hex); (1798, "0200380004020d00082028002e42432e545f34556e776761"%hex); (1826, "100e"%hex);
    (1835, "10"%hex); (1850, "100e"%hex); (1866, "160118"%hex); (1874, "9801"%hex); (1890, "8e080400ffff74"%hex); (1902, "1e"%hex);
    (1910, "19556abb9f2bbb1819556abb9f2bbb1819556abb9f2bbb1819556abb9f2bbb180080"%hex); (1950, "01"%hex); (1958, "01"%hex);
    (1966, "63000000630000008081"%hex); (1986, "0100100004020d002e42432e545f34556e776761"%hex);
    (2010, "06000e00446972312f426574682e7478740002"%hex); (2036, "1d"%hex);
    (2044, "644e235f9c2bbb18644e235f9c2bbb18644e235f9c2bbb18644e235f9c2bbb180080"%hex); (2084, "01"%hex); (2092, "01"%hex);
    (2100, "6300000063000000eda1"%hex); (2120, "010010000402100073796d6c696e6b5f746f5f62657468000010"%hex); (2152, "9001"%hex);
    (2168, "010000001b"%hex); (2180, "1c"%hex); (2188, "ad19055f9c2bbb1887d4055f9c2bbb1887d4055f9c2bbb18ad19055f9c2bbb180080"%hex);
    (2228, "01"%hex); (2236, "02"%hex); (2244, "6300000063000000a481"%hex); (2264, "020038000402090008202800426574682e747874"%hex);
    (2292, "21"%hex); (2301, "10"%hex); (2316, "21"%hex); (2332, "1c"%hex); (2340, "ad19055f9c2bbb18080002"%hex); (2358, "1b"%hex);
    (2366, "5e75015f9c2bbb18b91e055f9c2bbb18b91e055f9c2bbb185e75015f9c2bbb180080"%hex); (2406, "01"%hex); (2414, "02"%hex);
    (2422, "6300000063000000ed41"%hex); (2442, "010008000402050044697231"%hex); (2458, "aa0018"%hex); (2466, "8201"%hex);
    (2482, "3e0604002606a8"%hex); (2494, "19"%hex); (2502, "d2ec4a429c2bbb18d2ec4a429c2bbb1829b5b5f9a22bbb18e2b2a0739c2bbb180080"%hex);
    (2550, "02"%hex); (2558, "6300000063000000a481"%hex); (2578, "020040000402150008202800636f6d707265737365645f736d616c6c2e747874"%hex);
    (2615, "01"%hex); (2639, "01"%hex); (2647, "01"%hex); (2655, "10"%hex); (2662, "7a01"%hex); (2678, "0200100066706d630800000020bf02"%hex);
    (2698, "0100300018"%hex); (2710, "f605"%hex); (2719, "10"%hex); (2734, "f605"%hex); (2750, "02"%hex); (2758, "17"%hex);
    (2766, "57ab9f57942bbb1857ab9f57942bbb18c560bf58942bbb1887f49d57942bbb18004004"%hex); (2806, "01"%hex);
    (2814, "05000000200000006300000063000000a481000020bf02"%hex); (2842, "0100100004020f00636f6d707265737365642e74787400000010"%hex);
    (2874, "7301"%hex); (2892, "01"%hex); (2914, "0100000002"%hex); (2926, "16"%hex);
    (2934, "b0742c33912bbb18b0b62f33912bbb18b0b62f33912bbb1888cada47912bbb180082"%hex); (2974, "01"%hex); (2982, "03"%hex);
    (2990, "6300000063000000a481"%hex); (3010, "0300400004020b00082028000d2808007370617273652e62696e"%hex); (3043, "1001"%hex); (3051, "1001"%hex);
    (3067, "10"%hex); (3075, "1001"%hex); (3084, "01"%hex); (3091, "10"%hex); (3098, "5b01"%hex);
    (3114, "01000000020012007365636f6e6420637573746f6d206174747202001200666f72656e7369632d6d61726b65722d503402"%hex); (3170, "12"%hex);
    (3178, "5e691bf68a2bbb188e771cf68a2bbb18ea68d6519c2bbb18eabae5048b2bbb180080"%hex); (3218, "01"%hex); (3226, "02"%hex);
    (3234, "6300000063000000a481"%hex); (3254, "0200380004020a0008202800706c61696e2e747874"%hex); (3282, "23"%hex); (3291, "10"%hex);
    (3306, "23"%hex); (3314, "23"%hex); (3323, "10"%hex); (3330, "5901"%hex); (3346, "0100000010"%hex); (3358, "11"%hex);
    (3366, "ddcd5b47872bbb188bd76447872bbb188bd76447872bbb18ddcd5b47872bbb180080"%hex); (3406, "01"%hex); (3414, "02"%hex);
    (3422, "63000000630000008081"%hex); (3442, "0200380004020f000820280066736576656e7473642d75756964000024"%hex); (3479, "10"%hex);
    (3494, "24"%hex); (3510, "11"%hex); (3518, "ddcd5b47872bbb18080002"%hex); (3536, "10"%hex);
    (3544, "26465647872bbb1889e25b47872bbb1889e25b47872bbb1826465647872bbb180080"%hex); (3584, "01"%hex); (3592, "02"%hex);
    (3600, "6300000063000000c041"%hex); (3620, "0100100004020b002e66736576656e747364"%hex); (3644, "01"%hex); (3652, "03"%hex);
    (3660, "5ea972dc842bbb185ea972dc842bbb185ea972dc842bbb185ea972dc842bbb180080"%hex); (3708, "01"%hex); (3724, "a441"%hex);
    (3736, "0100100004020c00707269766174652d646972"%hex); (3760, "1d"%hex); (3768, "644e235f9c2bbb180a00220612"%hex);
    (3786, "19556abb9f2bbb18080012"%hex); (3804, "5e691bf68a2bbb1808001b"%hex); (3822, "5e75015f9c2bbb18040017"%hex);
    (3840, "8370b158942bbb18080010"%hex); (3858, "26465647872bbb18040016"%hex); (3876, "b0742c33912bbb1808002e0912"%hex);
    (3894, "b5d313439c2bbb180800020004000200000001"%hex); (3920, "02"%hex);
    (3929, "9d72dc842bbb186bb9b6f9a22bbb186bb9b6f9a22bbb18ec63f0c09f2bbb180080"%hex); (3968, "06"%hex); (3976, "16"%hex);
    (3984, "f501000014000000ed41"%hex); (4004, "0100080004020500726f6f74"%hex); (4020, "02"%hex); (4029, "9d72dc842bbb18040003"%hex);
    (4046, "5ea972dc842bbb18040042"%hex); (4061, "10"%hex); (4072, "22000000b800000024"%hex); (4088, "01"%hex)]);
  (418, [(0, "2695f2ff79670d40a201"%hex); (16, "0b"%hex); (24, "0b000040"%hex); (40, "0200004002000040a301"%hex)]);
  (419, [(0, "b79504a08f301910a301"%hex); (16, "0b"%hex); (24, "020000400b0000000700000001"%hex);
    (42, "c0012000a00d000010001000100010002000100020"%hex); (504, "ffff10"%hex); (512, "0a"%hex); (520, "0404"%hex); (528, "0b"%hex);
    (4029, "100000a101"%hex); (4040, "ffff1000001000009a01"%hex); (4056, "12"%hex); (4061, "1000001000000010000000100000001000000001"%hex);
    (4088, "01"%hex)]);
  (420, [(0, "1d06edf10e296ccd0204"%hex); (16, "0b"%hex); (24, "0d"%hex); (32, "41505342"%hex); (40, "02"%hex); (56, "01"%hex); (88, "0a"%hex);
    (96, "05"%hex); (104, "060000002903471801000000020000000200004002000040a201"%hex); (136, "0404"%hex); (144, "a001"%hex); (152, "5401"%hex);
    (176, "1f"%hex); (184, "05"%hex); (192, "02"%hex); (200, "01"%hex); (224, "10"%hex); (232, "0b"%hex);
    (240, "643144d9795c4e95ab19007de4e8d4e19acdb6f9a22bbb1801"%hex);
    (272, "6e657766735f617066732028323333322e3134302e31332e3730302e31290000190f6ddc842bbb1802"%hex); (704, "415046535034"%hex); (960, "03"%hex);
    (984, "10"%hex); (1040, "0200004002000040"%hex); (1056, "0b"%hex); (1064, "1000000002"%hex); (1104, "02"%hex)]);
  (421, [(0, "5179f2ff47830d40a501"%hex); (16, "0b"%hex); (24, "0b000040"%hex); (32, "01"%hex); (40, "0200004002000040a601"%hex)]);
  (422, [(0, "5e9004a0e1351910a601"%hex); (16, "0b"%hex); (24, "020000400b0000000700000001"%hex);
    (42, "c0012000a00d000010001000100010002000100020"%hex); (504, "ffff10"%hex); (512, "0a"%hex); (520, "0204"%hex); (528, "0b"%hex);
    (4029, "100000a401"%hex); (4040, "ffff1000001000009d01"%hex); (4056, "12"%hex); (4061, "1000001000000010000000100000001000000001"%hex);
    (4088, "01"%hex)]);
  (423, [(0, "1f8b08"%hex);
    (9, "137cd03f4bc3401806f027e9525c44632dfea9ae821011fb01b4964ee250ed2684548fe630b91c77c1d42d1fa42eceed266efd1e7e0a2741e8e4919ce46a8aef"%hex);
    (73, "fafe7879dee7ece6aa3b9b87e99d0da0be3e394431368c713b97eeadd71eb074e4a33f7ac951cbca705041bd8120b1c093a3512d43b382fac198f336a6bdf2d2"%hex);
    (137, "8e81ba549ce2532f33c0dafbb33ce99024709371822fad3694db37d47d1c7141a4240f394b759c3a96e394cca32ca48ce4fa382ef41a963f34b48cfc30ccf191"%hex);
    (201, "81cd2778e853968bf7df8c76864d4348ee0b49dc2165785b14c537d591c66a72fd5192add564aeaf3414d9ae102f20be6a23e2b8782d9ca39c63bae74875f0e8"%hex);
    (265, "25b137540563a1835b3847eb1ff7ad5d4db95dc3fd000000ffff03002f1c76695c02"%hex)]);
  (424, [(0, "587d4abb186213a5a801"%hex); (16, "0c"%hex); (24, "020000400f0000000300000007"%hex); (42, "400038009c0effff0000ffff"%hex);
    (58, "08001400140008000800280014001800080050001400100008003c0014002800080078001400300008008c00140020000800640014"%hex); (120, "5901"%hex);
    (127, "205b01"%hex); (135, "207a01"%hex); (143, "207301"%hex); (151, "20a901"%hex); (159, "209001"%hex); (167, "20a701"%hex); (175, "20"%hex);
    (3916, "01"%hex); (3923, "101f"%hex); (3932, "0100000001"%hex); (3943, "101c"%hex); (3952, "0100000001"%hex); (3963, "1020"%hex);
    (3972, "0100000001"%hex); (3983, "1016"%hex); (3992, "0100000001"%hex); (4003, "1017"%hex); (4012, "0100000001"%hex); (4023, "1012"%hex);
    (4032, "0100000001"%hex); (4043, "1011"%hex); (4052, "0100000052"%hex); (4061, "10"%hex); (4072, "080000001400000007"%hex); (4088, "01"%hex)]);
  (425, [(0, "1f8b08"%hex); (9, "13320cf67169d1d55f6bc5c0c0a097569c5a969a57529ca25f9ca39b9c9f5b9058c2c05639579e01021819d8111c45"%hex);
    (60, "ffff03005466ac903a"%hex)]);
  (426, [(0, "0aebc216713ca5770404"%hex); (16, "0c"%hex); (24, "020000000e000000030000002c"%hex);
    (42, "8001d9027902ffff000026080c00000018001200120018001100240012002900080090006c00310020009800080051001700aa00120068001700bc0012007f"%hex);
    (106, "1b00ce0012009a001100e0001200ab001600f2001200c1001c0004011200dd00080078017400e5000800ec017400ed001b00fe01120008011d00100212002501"%hex);
    (170, "1d002202120042010800c202a0004a010800c602040052011000de021800620108007e03a0006a011a009403160084011400aa03160098010800ae030400a001"%hex);
    (234, "1000c6031800b00108007204ac00b801080076040400c00110008e041800d0011000a6041800e00108001a057400e80121004e05340009021c00620514002502"%hex);
    (298, "10007a05180035020800e6056c003d021500f8051200520208009806a0005a0208009c06040062021000b406180072020800280774007a021f003a0712009902"%hex);
    (362, "0800e207a800a1020800e6070400a9021000fe071800b9020800ce08a800c102080002080400c90210001a0818"%hex); (440, "01"%hex);
    (447, "900c8ca6ac707269766174652d6469720001"%hex); (471, "9005e471b6726f6f740002"%hex); (488, "3002"%hex);
    (496, "401600707572676561626c652d64726563732d66697865640002"%hex); (528, "900b0817637370617273652e62696e0002"%hex);
    (551, "900b14be9c2e66736576656e7473640002"%hex); (574, "900f349aa4636f6d707265737365642e7478740002"%hex); (601, "900520ecca446972310002"%hex);
    (618, "900af844cd706c61696e2e7478740002"%hex); (640, "90104cf4df73796d6c696e6b5f746f5f626574680003"%hex); (668, "3010"%hex); (676, "3010"%hex);
    (684, "900f14121166736576656e7473642d757569640010"%hex); (711, "901198f354303030303030303031663964366632640010"%hex);
    (740, "9011b01056303030303030303031663964366632630011"%hex); (769, "3011"%hex); (777, "6011"%hex); (785, "80"%hex); (794, "12"%hex);
    (801, "3012"%hex); (809, "401000636f6d2e6578616d706c652e7461670012"%hex); (835, "400a00757365722e6e6f74650012"%hex); (855, "6012"%hex);
    (863, "80"%hex); (872, "16"%hex); (879, "3016"%hex); (887, "6016"%hex); (895, "80"%hex); (904, "16"%hex); (911, "80000001"%hex);
    (920, "17"%hex); (927, "3017"%hex); (935, "401700636f6d2e6170706c652e5265736f75726365466f726b0017"%hex);
    (968, "401200636f6d2e6170706c652e6465636d7066730018"%hex); (996, "80"%hex); (1005, "1b"%hex); (1012, "301b"%hex);
    (1020, "9009e8664f426574682e747874001c"%hex); (1041, "301c"%hex); (1049, "601c"%hex); (1057, "80"%hex); (1066, "1d"%hex); (1073, "301d"%hex);
    (1081, "401500636f6d2e6170706c652e66732e73796d6c696e6b001f"%hex); (1112, "301f"%hex); (1120, "601f"%hex); (1128, "80"%hex); (1137, "20"%hex);
    (1144, "3020"%hex); (1152, "6020"%hex); (1160, "80"%hex); (1802, "10"%hex); (1810, "20"%hex);
    (1818, "d9c2fe2ba62bbb1870b3002ca62bbb1870b3002ca62bbb18d9c2fe2ba62bbb180080"%hex); (1858, "01"%hex); (1866, "03"%hex);
    (1874, "63000000630000008081"%hex); (1894, "02004000040211000820280030303030303030303166396436663264"%hex); (1930, "48"%hex); (1939, "10"%hex);
    (1954, "48"%hex); (1970, "ffff0c"%hex); (1983, "10"%hex); (1990, "a901"%hex); (2006, "01"%hex); (2011, "10"%hex); (2018, "a701"%hex);
    (2034, "0100000010"%hex); (2046, "1f"%hex); (2054, "aeecf82ba62bbb184a0efc2ba62bbb184a0efc2ba62bbb18aeecf82ba62bbb180080"%hex);
    (2094, "01"%hex); (2102, "03"%hex); (2110, "63000000630000008081"%hex); (2130, "02004000040211000820280030303030303030303166396436663263"%hex);
    (2166, "2d01"%hex); (2175, "10"%hex); (2190, "2d01"%hex); (2206, "06000e00446972312f426574682e7478740002"%hex); (2232, "1d"%hex);
    (2240, "644e235f9c2bbb18644e235f9c2bbb18644e235f9c2bbb18644e235f9c2bbb180080"%hex); (2280, "01"%hex); (2288, "01"%hex);
    (2296, "6300000063000000eda1"%hex); (2316, "010010000402100073796d6c696e6b5f746f5f62657468000010"%hex); (2348, "9001"%hex);
    (2364, "010000001b"%hex); (2376, "1c"%hex); (2384, "ad19055f9c2bbb1887d4055f9c2bbb1887d4055f9c2bbb18ad19055f9c2bbb180080"%hex);
    (2424, "01"%hex); (2432, "02"%hex); (2440, "6300000063000000a481"%hex); (2460, "020038000402090008202800426574682e747874"%hex);
    (2488, "21"%hex); (2497, "10"%hex); (2512, "21"%hex); (2528, "1c"%hex); (2536, "ad19055f9c2bbb18080002"%hex); (2554, "1b"%hex);
    (2562, "5e75015f9c2bbb18b91e055f9c2bbb18b91e055f9c2bbb185e75015f9c2bbb180080"%hex); (2602, "01"%hex); (2610, "02"%hex);
    (2618, "6300000063000000ed41"%hex); (2638, "010008000402050044697231"%hex); (2655, "10"%hex); (2662, "7a01"%hex);
    (2678, "0200100066706d630800000020bf02"%hex); (2698, "0100300018"%hex); (2710, "f605"%hex); (2719, "10"%hex); (2734, "f605"%hex);
    (2750, "02"%hex); (2758, "17"%hex); (2766, "57ab9f57942bbb1857ab9f57942bbb18c560bf58942bbb1887f49d57942bbb18004004"%hex); (2806, "01"%hex);
    (2814, "05000000200000006300000063000000a481000020bf02"%hex); (2842, "0100100004020f00636f6d707265737365642e74787400000010"%hex);
    (2874, "7301"%hex); (2892, "01"%hex); (2914, "0100000002"%hex); (2926, "16"%hex);
    (2934, "b0742c33912bbb18b0b62f33912bbb18b0b62f33912bbb1888cada47912bbb180082"%hex); (2974, "01"%hex); (2982, "03"%hex);
    (2990, "6300000063000000a481"%hex); (3010, "0300400004020b00082028000d2808007370617273652e62696e"%hex); (3043, "1001"%hex); (3051, "1001"%hex);
    (3067, "10"%hex); (3075, "1001"%hex); (3084, "01"%hex); (3091, "10"%hex); (3098, "5b01"%hex);
    (3114, "01000000020012007365636f6e6420637573746f6d206174747202001200666f72656e7369632d6d61726b65722d503402"%hex); (3170, "12"%hex);
    (3178, "5e691bf68a2bbb188e771cf68a2bbb18ea68d6519c2bbb18eabae5048b2bbb180080"%hex); (3218, "01"%hex); (3226, "02"%hex);
    (3234, "6300000063000000a481"%hex); (3254, "0200380004020a0008202800706c61696e2e747874"%hex); (3282, "23"%hex); (3291, "10"%hex);
    (3306, "23"%hex); (3314, "23"%hex); (3323, "10"%hex); (3330, "5901"%hex); (3346, "0100000010"%hex); (3358, "11"%hex);
    (3366, "ddcd5b47872bbb183057012ca62bbb188ce7012ca62bbb183057012ca62bbb180080"%hex); (3406, "01"%hex); (3414, "02"%hex);
    (3422, "63000000630000008081"%hex); (3442, "0200380004020f000820280066736576656e7473642d75756964000024"%hex); (3479, "10"%hex);
    (3494, "24"%hex); (3502, "24"%hex); (3510, "1f"%hex); (3518, "aeecf82ba62bbb18080020"%hex); (3536, "d9c2fe2ba62bbb18080011"%hex);
    (3554, "ddcd5b47872bbb18080002"%hex); (3572, "10"%hex); (3580, "26465647872bbb1891cefe2ba62bbb1891cefe2ba62bbb187fa123ba962bbb180080"%hex);
    (3620, "03"%hex); (3628, "04"%hex); (3636, "6300000063000000c041"%hex); (3656, "0100100004020b002e66736576656e747364"%hex); (3680, "01"%hex);
    (3688, "03"%hex); (3696, "5ea972dc842bbb185ea972dc842bbb185ea972dc842bbb185ea972dc842bbb180080"%hex); (3744, "01"%hex); (3760, "a441"%hex);
    (3772, "0100100004020c00707269766174652d646972"%hex); (3796, "1d"%hex); (3804, "644e235f9c2bbb180a0012"%hex);
    (3822, "5e691bf68a2bbb1808001b"%hex); (3840, "5e75015f9c2bbb18040017"%hex); (3858, "8370b158942bbb18080010"%hex);
    (3876, "26465647872bbb18040016"%hex); (3894, "b0742c33912bbb180800020004000200000001"%hex); (3920, "02"%hex);
    (3929, "9d72dc842bbb186bb9b6f9a22bbb186bb9b6f9a22bbb18ec63f0c09f2bbb180080"%hex); (3968, "06"%hex); (3976, "16"%hex);
    (3984, "f501000014000000ed41"%hex); (4004, "0100080004020500726f6f74"%hex); (4020, "02"%hex); (4029, "9d72dc842bbb18040003"%hex);
    (4046, "5ea972dc842bbb18040042"%hex); (4061, "10"%hex); (4072, "22000000b80000002c"%hex); (4088, "01"%hex)]);
  (427, [(0, "9549f2fff7b20d40ab01"%hex); (16, "0c"%hex); (24, "0b000040"%hex); (40, "0200004002000040ac01"%hex)]);
  (428, [(0, "a255541e8870e991ac01"%hex); (16, "0c"%hex); (24, "020000400b0000000700000001"%hex);
    (42, "c0012000a00d100010002000100000001000000010"%hex); (504, "0404"%hex); (512, "0c"%hex); (520, "ffff10"%hex); (528, "0b"%hex);
    (4024, "ffff100000100000a101"%hex); (4045, "100000aa01"%hex); (4056, "12"%hex); (4061, "1000001000000010000000100000001000000001"%hex);
    (4088, "01"%hex)]);
  (429, [(0, "8658f3252bb91a670204"%hex); (16, "0c"%hex); (24, "0d"%hex); (32, "41505342"%hex); (40, "02"%hex); (56, "01"%hex); (88, "0c"%hex);
    (96, "05"%hex); (104, "060000002903471801000000020000000200004002000040ab01"%hex); (136, "0404"%hex); (144, "a801"%hex); (152, "5401"%hex);
    (176, "21"%hex); (184, "07"%hex); (192, "02"%hex); (200, "01"%hex); (224, "12"%hex); (232, "0b"%hex);
    (240, "643144d9795c4e95ab19007de4e8d4e1f7ea012ca62bbb1801"%hex);
    (272, "6e657766735f617066732028323333322e3134302e31332e3730302e31290000190f6ddc842bbb1802"%hex); (704, "415046535034"%hex); (960, "03"%hex);
    (984, "10"%hex); (1040, "0200004002000040"%hex); (1056, "0c"%hex); (1064, "1000000002"%hex); (1104, "02"%hex)]);
  (430, [(0, "c02df2ffc5ce0d40ae01"%hex); (16, "0c"%hex); (24, "0b000040"%hex); (32, "01"%hex); (40, "0200004002000040af01"%hex)]);
  (431, [(0, "5150541ed275e991af01"%hex); (16, "0c"%hex); (24, "020000400b0000000700000001"%hex);
    (42, "c0012000a00d100010002000100000001000000010"%hex); (504, "0204"%hex); (512, "0c"%hex); (520, "ffff10"%hex); (528, "0b"%hex);
    (4024, "ffff100000100000a401"%hex); (4045, "100000ad01"%hex); (4056, "12"%hex); (4061, "1000001000000010000000100000001000000001"%hex);
    (4088, "01"%hex)]);
  (432, [(0, "f18d719ef0912afa0404"%hex); (16, "0d"%hex); (24, "020000000e000000030000002c"%hex);
    (42, "8001d9027902ffff000026080c00000018001200120018001100240012002900080090006c00310020009800080051001700aa00120068001700bc0012007f"%hex);
    (106, "1b00ce0012009a001100e0001200ab001600f2001200c1001c0004011200dd00080078017400e5000800ec017400ed001b00fe01120008011d00100212002501"%hex);
    (170, "1d002202120042010800c202a0004a010800c602040052011000de021800620108007e03a0006a011a009403160084011400aa03160098010800ae030400a001"%hex);
    (234, "1000c6031800b00108007204ac00b801080076040400c00110008e041800d0011000a6041800e00108001a057400e80121004e05340009021c00620514002502"%hex);
    (298, "10007a05180035020800e6056c003d021500f8051200520208009806a0005a0208009c06040062021000b406180072020800280774007a021f003a0712009902"%hex);
    (362, "0800e207a800a1020800e6070400a9021000fe071800b9020800ce08a800c102080002080400c90210001a0818"%hex); (440, "01"%hex);
    (447, "900c8ca6ac707269766174652d6469720001"%hex); (471, "9005e471b6726f6f740002"%hex); (488, "3002"%hex);
    (496, "401600707572676561626c652d64726563732d66697865640002"%hex); (528, "900b0817637370617273652e62696e0002"%hex);
    (551, "900b14be9c2e66736576656e7473640002"%hex); (574, "900f349aa4636f6d707265737365642e7478740002"%hex); (601, "900520ecca446972310002"%hex);
    (618, "900af844cd706c61696e2e7478740002"%hex); (640, "90104cf4df73796d6c696e6b5f746f5f626574680003"%hex); (668, "3010"%hex); (676, "3010"%hex);
    (684, "900f14121166736576656e7473642d757569640010"%hex); (711, "901198f354303030303030303031663964366632640010"%hex);
    (740, "9011b01056303030303030303031663964366632630011"%hex); (769, "3011"%hex); (777, "6011"%hex); (785, "80"%hex); (794, "12"%hex);
    (801, "3012"%hex); (809, "401000636f6d2e6578616d706c652e7461670012"%hex); (835, "400a00757365722e6e6f74650012"%hex); (855, "6012"%hex);
    (863, "80"%hex); (872, "16"%hex); (879, "3016"%hex); (887, "6016"%hex); (895, "80"%hex); (904, "16"%hex); (911, "80000001"%hex);
    (920, "17"%hex); (927, "3017"%hex); (935, "401700636f6d2e6170706c652e5265736f75726365466f726b0017"%hex);
    (968, "401200636f6d2e6170706c652e6465636d7066730018"%hex); (996, "80"%hex); (1005, "1b"%hex); (1012, "301b"%hex);
    (1020, "9009e8664f426574682e747874001c"%hex); (1041, "301c"%hex); (1049, "601c"%hex); (1057, "80"%hex); (1066, "1d"%hex); (1073, "301d"%hex);
    (1081, "401500636f6d2e6170706c652e66732e73796d6c696e6b001f"%hex); (1112, "301f"%hex); (1120, "601f"%hex); (1128, "80"%hex); (1137, "20"%hex);
    (1144, "3020"%hex); (1152, "6020"%hex); (1160, "80"%hex); (1802, "10"%hex); (1810, "20"%hex);
    (1818, "d9c2fe2ba62bbb1870b3002ca62bbb1870b3002ca62bbb18d9c2fe2ba62bbb180080"%hex); (1858, "01"%hex); (1866, "03"%hex);
    (1874, "63000000630000008081"%hex); (1894, "02004000040211000820280030303030303030303166396436663264"%hex); (1930, "48"%hex); (1939, "10"%hex);
    (1954, "48"%hex); (1970, "ffff0c"%hex); (1983, "10"%hex); (1990, "a901"%hex); (2006, "01"%hex); (2011, "10"%hex); (2018, "a701"%hex);
    (2034, "0100000010"%hex); (2046, "1f"%hex); (2054, "aeecf82ba62bbb184a0efc2ba62bbb184a0efc2ba62bbb18aeecf82ba62bbb180080"%hex);
    (2094, "01"%hex); (2102, "03"%hex); (2110, "63000000630000008081"%hex); (2130, "02004000040211000820280030303030303030303166396436663263"%hex);
    (2166, "2d01"%hex); (2175, "10"%hex); (2190, "2d01"%hex); (2206, "06000e00446972312f426574682e7478740002"%hex); (2232, "1d"%hex);
    (2240, "644e235f9c2bbb18644e235f9c2bbb18644e235f9c2bbb18644e235f9c2bbb180080"%hex); (2280, "01"%hex); (2288, "01"%hex);
    (2296, "6300000063000000eda1"%hex); (2316, "010010000402100073796d6c696e6b5f746f5f62657468000010"%hex); (2348, "9001"%hex);
    (2364, "010000001b"%hex); (2376, "1c"%hex); (2384, "ad19055f9c2bbb1887d4055f9c2bbb1887d4055f9c2bbb1883f184729c2bbb180080"%hex);
    (2424, "01"%hex); (2432, "02"%hex); (2440, "6300000063000000a481"%hex); (2460, "020038000402090008202800426574682e747874"%hex);
    (2488, "21"%hex); (2497, "10"%hex); (2512, "21"%hex); (2520, "42"%hex); (2528, "1c"%hex); (2536, "ad19055f9c2bbb18080002"%hex);
    (2554, "1b"%hex); (2562, "5e75015f9c2bbb18b91e055f9c2bbb18b91e055f9c2bbb18b4c375729c2bbb180080"%hex); (2602, "01"%hex); (2610, "02"%hex);
    (2618, "6300000063000000ed41"%hex); (2638, "010008000402050044697231"%hex); (2655, "10"%hex); (2662, "7a01"%hex);
    (2678, "0200100066706d630800000020bf02"%hex); (2698, "0100300018"%hex); (2710, "f605"%hex); (2719, "10"%hex); (2734, "f605"%hex);
    (2750, "02"%hex); (2758, "17"%hex); (2766, "57ab9f57942bbb1857ab9f57942bbb18c560bf58942bbb18864be086942bbb18004004"%hex); (2806, "01"%hex);
    (2814, "05000000200000006300000063000000a481000020bf02"%hex); (2842, "0100100004020f00636f6d707265737365642e74787400000010"%hex);
    (2874, "7301"%hex); (2892, "01"%hex); (2914, "0100000002"%hex); (2926, "16"%hex);
    (2934, "b0742c33912bbb18b0b62f33912bbb18b0b62f33912bbb1888cada47912bbb180082"%hex); (2974, "01"%hex); (2982, "03"%hex);
    (2990, "6300000063000000a481"%hex); (3010, "0300400004020b00082028000d2808007370617273652e62696e"%hex); (3043, "1001"%hex); (3051, "1001"%hex);
    (3067, "10"%hex); (3075, "1001"%hex); (3084, "01"%hex); (3091, "10"%hex); (3098, "5b01"%hex);
    (3114, "01000000020012007365636f6e6420637573746f6d206174747202001200666f72656e7369632d6d61726b65722d503402"%hex); (3170, "12"%hex);
    (3178, "5e691bf68a2bbb188e771cf68a2bbb18ea68d6519c2bbb18eabae5048b2bbb180080"%hex); (3218, "01"%hex); (3226, "02"%hex);
    (3234, "6300000063000000a481"%hex); (3254, "0200380004020a0008202800706c61696e2e747874"%hex); (3282, "23"%hex); (3291, "10"%hex);
    (3306, "23"%hex); (3314, "23"%hex); (3323, "10"%hex); (3330, "5901"%hex); (3346, "0100000010"%hex); (3358, "11"%hex);
    (3366, "ddcd5b47872bbb183057012ca62bbb188ce7012ca62bbb183057012ca62bbb180080"%hex); (3406, "01"%hex); (3414, "02"%hex);
    (3422, "63000000630000008081"%hex); (3442, "0200380004020f000820280066736576656e7473642d75756964000024"%hex); (3479, "10"%hex);
    (3494, "24"%hex); (3502, "24"%hex); (3510, "1f"%hex); (3518, "aeecf82ba62bbb18080020"%hex); (3536, "d9c2fe2ba62bbb18080011"%hex);
    (3554, "ddcd5b47872bbb18080002"%hex); (3572, "10"%hex); (3580, "26465647872bbb1891cefe2ba62bbb1891cefe2ba62bbb187fa123ba962bbb180080"%hex);
    (3620, "03"%hex); (3628, "04"%hex); (3636, "6300000063000000c041"%hex); (3656, "0100100004020b002e66736576656e747364"%hex); (3680, "01"%hex);
    (3688, "03"%hex); (3696, "5ea972dc842bbb185ea972dc842bbb185ea972dc842bbb185ea972dc842bbb180080"%hex); (3744, "01"%hex); (3760, "a441"%hex);
    (3772, "0100100004020c00707269766174652d646972"%hex); (3796, "1d"%hex); (3804, "644e235f9c2bbb180a0012"%hex);
    (3822, "5e691bf68a2bbb1808001b"%hex); (3840, "5e75015f9c2bbb18040017"%hex); (3858, "8370b158942bbb18080010"%hex);
    (3876, "26465647872bbb18040016"%hex); (3894, "b0742c33912bbb180800020004000200000001"%hex); (3920, "02"%hex);
    (3929, "9d72dc842bbb186bb9b6f9a22bbb186bb9b6f9a22bbb18b250e7fda22bbb180080"%hex); (3968, "06"%hex); (3976, "16"%hex);
    (3984, "f501000014000000ed41"%hex); (4004, "0100080004020500726f6f74"%hex); (4020, "02"%hex); (4029, "9d72dc842bbb18040003"%hex);
    (4046, "5ea972dc842bbb18040042"%hex); (4061, "10"%hex); (4072, "22000000b80000002c"%hex); (4088, "01"%hex)]);
  (433, [(0, "e015f2ff9fe60d40b101"%hex); (16, "0d"%hex); (24, "0b000040"%hex); (40, "0200004002000040b201"%hex)]);
  (434, [(0, "014204a011841910b201"%hex); (16, "0d"%hex); (24, "020000400b0000000700000001"%hex);
    (42, "c0012000a00d000010001000100010002000100020"%hex); (504, "ffff10"%hex); (512, "0c"%hex); (520, "0404"%hex); (528, "0d"%hex);
    (4029, "100000b001"%hex); (4040, "ffff100000100000aa01"%hex); (4056, "12"%hex); (4061, "1000001000000010000000100000001000000001"%hex);
    (4088, "01"%hex)]);
  (435, [(0, "cd3a736f228e6bd80204"%hex); (16, "0d"%hex); (24, "0d"%hex); (32, "41505342"%hex); (40, "02"%hex); (56, "01"%hex); (88, "0c"%hex);
    (96, "05"%hex); (104, "060000002903471801000000020000000200004002000040b101"%hex); (136, "0404"%hex); (144, "a801"%hex); (152, "5401"%hex);
    (176, "21"%hex); (184, "07"%hex); (192, "02"%hex); (200, "01"%hex); (224, "12"%hex); (232, "0b"%hex);
    (240, "643144d9795c4e95ab19007de4e8d4e1b0333171a62bbb1801"%hex);
    (272, "6e657766735f617066732028323333322e3134302e31332e3730302e31290000190f6ddc842bbb1802"%hex); (704, "415046535034"%hex); (960, "03"%hex);
    (984, "10"%hex); (1040, "0200004002000040"%hex); (1056, "0d"%hex); (1064, "1000000002"%hex); (1104, "02"%hex)]);
  (436, [(0, "0bfaf1ff6d020e40b401"%hex); (16, "0d"%hex); (24, "0b000040"%hex); (32, "01"%hex); (40, "0200004002000040b501"%hex)]);
  (437, [(0, "a83c04a063891910b501"%hex); (16, "0d"%hex); (24, "020000400b0000000700000001"%hex);
    (42, "c0012000a00d000010001000100010002000100020"%hex); (504, "ffff10"%hex); (512, "0c"%hex); (520, "0204"%hex); (528, "0d"%hex);
    (4029, "100000b301"%hex); (4040, "ffff100000100000ad01"%hex); (4056, "12"%hex); (4061, "1000001000000010000000100000001000000001"%hex);
    (4088, "01"%hex)]);
  (438, [(0, "37fc118a52a1e4c50204"%hex); (16, "0e"%hex); (24, "0d"%hex); (32, "41505342"%hex); (40, "02"%hex); (56, "01"%hex);
    (64, "718cdf71a62bbb18"%hex); (88, "0c"%hex); (96, "05"%hex); (104, "060000002903471801000000020000000200004002000040b101"%hex);
    (136, "0404"%hex); (144, "a801"%hex); (152, "5401"%hex); (176, "21"%hex); (184, "07"%hex); (192, "02"%hex); (200, "01"%hex); (224, "12"%hex);
    (232, "0b"%hex); (240, "643144d9795c4e95ab19007de4e8d4e1b0333171a62bbb1801"%hex);
    (272, "6e657766735f617066732028323333322e3134302e31332e3730302e31290000190f6ddc842bbb1802"%hex);
    (320, "617066735f6b6578742028323333322e3134302e31332e3730302e31290000006680df71a62bbb180e"%hex); (704, "415046535034"%hex); (960, "03"%hex);
    (984, "10"%hex); (992, "0e"%hex); (1040, "0200004002000040"%hex); (1056, "0e"%hex); (1064, "1000000002"%hex); (1104, "02"%hex)]);
  (439, [(0, "32def1ff3f1e0e40b701"%hex); (16, "0e"%hex); (24, "0b000040"%hex); (32, "01"%hex); (40, "0200004002000040b801"%hex)]);
  (440, [(0, "f014541e0cb1e991b801"%hex); (16, "0e"%hex); (24, "020000400b0000000700000001"%hex);
    (42, "c0012000a00d100010002000100000001000000010"%hex); (504, "0204"%hex); (512, "0e"%hex); (520, "ffff10"%hex); (528, "0d"%hex);
    (4024, "ffff100000100000b301"%hex); (4045, "100000b601"%hex); (4056, "12"%hex); (4061, "1000001000000010000000100000001000000001"%hex);
    (4088, "01"%hex)])].
Definition CONTENT : disk := disk_of 442 CONTENT_blocks.
