(* ===== verification/Report.v ===== *)
(** The analyzer's vocabulary (forensic/src/lib.rs): the anomalies, their published codes, their grades and the text of their notes.

    The trait [Observation] of forensicnomicon asks for a severity, a code and a note; those three are what this crate
    implements, and [finding_evidence] says that code and note together lose nothing of the anomaly. *)

From Stdlib Require Import Strings.String.
From S2P Require Import Prelude Bytes Errors Format.

Inductive AnomalyKind :=
| ObjectChecksumMismatch (block stored computed : Z)
| OmapInconsistent (oid xid : Z)
| OmapOrphanMapping (oid : Z)
| CheckpointRingMalformed (detail : string)
| CheckpointSupersededState (xid : Z)
| SnapshotXidDisorder (xid : Z)
| SnapshotMissingMetadata (name : bytes)
| SnapshotDivergence (inode : Z)
| SealedVolumeHashMismatch (inode : Z)
| SealedVolumeBroken (broken_xid : Z)
| DeletedInodeRecoverable (oid : Z)
| DeletedExtentCarveCandidate (block : Z)
| ReaperPendingObject (oid : Z)
| CloneSharedExtent (inode_a inode_b : Z)
| CloneFlagWithoutSharing (inode : Z)
| EncryptionLocked
| EncryptionState (detail : bytes)
| EncryptionKeybagAnomaly (raw_tag offset : Z)
| TimestampZeroed (inode : Z)
| TimestampOrder (inode : Z)
| XidReuse (oid xid : Z)
| OrphanInode (oid : Z)
| VolumeRoleMismatch (detail : bytes).
#[global] Instance AnomalyKind_eq_dec : EqDecision AnomalyKind.
Proof. solve_decision. Defined.

Inductive Severity := Info | Low | Medium | High.
#[global] Instance Severity_eq_dec : EqDecision Severity.
Proof. solve_decision. Defined.

Definition code (a : AnomalyKind) : string :=
  match a with
  | ObjectChecksumMismatch _ _ _ => "APFS-OBJECT-CKSUM-MISMATCH"
  | OmapInconsistent _ _ => "APFS-OMAP-INCONSISTENT"
  | OmapOrphanMapping _ => "APFS-OMAP-ORPHAN-MAPPING"
  | CheckpointRingMalformed _ => "APFS-CHECKPOINT-RING-MALFORMED"
  | CheckpointSupersededState _ => "APFS-CHECKPOINT-SUPERSEDED-STATE"
  | SnapshotXidDisorder _ => "APFS-SNAPSHOT-XID-DISORDER"
  | SnapshotMissingMetadata _ => "APFS-SNAPSHOT-MISSING-METADATA"
  | SnapshotDivergence _ => "APFS-SNAPSHOT-DIVERGENCE"
  | SealedVolumeHashMismatch _ => "APFS-SEALED-VOLUME-HASH-MISMATCH"
  | SealedVolumeBroken _ => "APFS-SEALED-VOLUME-BROKEN"
  | DeletedInodeRecoverable _ => "APFS-DELETED-INODE-RECOVERABLE"
  | DeletedExtentCarveCandidate _ => "APFS-DELETED-EXTENT-CARVE-CANDIDATE"
  | ReaperPendingObject _ => "APFS-REAPER-PENDING-OBJECT"
  | CloneSharedExtent _ _ => "APFS-CLONE-SHARED-EXTENT"
  | CloneFlagWithoutSharing _ => "APFS-CLONE-FLAG-WITHOUT-SHARING"
  | EncryptionLocked => "APFS-ENCRYPTION-LOCKED"
  | EncryptionState _ => "APFS-ENCRYPTION-STATE"
  | EncryptionKeybagAnomaly _ _ => "APFS-ENCRYPTION-KEYBAG-ANOMALY"
  | TimestampZeroed _ => "APFS-TIMESTAMP-ZEROED"
  | TimestampOrder _ => "APFS-TIMESTAMP-ORDER"
  | XidReuse _ _ => "APFS-XID-REUSE"
  | OrphanInode _ => "APFS-ORPHAN-INODE"
  | VolumeRoleMismatch _ => "APFS-VOLUME-ROLE-MISMATCH"
  end.

Definition severity (a : AnomalyKind) : option Severity :=
  Some
    match a with
    | ObjectChecksumMismatch _ _ _ | OmapInconsistent _ _ | CheckpointRingMalformed _
    | SealedVolumeHashMismatch _ | SealedVolumeBroken _ | XidReuse _ _ => High
    | SnapshotMissingMetadata _ | DeletedInodeRecoverable _ | EncryptionKeybagAnomaly _ _ => Medium
    | DeletedExtentCarveCandidate _ | ReaperPendingObject _ | CloneFlagWithoutSharing _ | OrphanInode _ => Low
    | OmapOrphanMapping _ | CheckpointSupersededState _ | SnapshotXidDisorder _ | SnapshotDivergence _
    | CloneSharedExtent _ _ | EncryptionLocked | EncryptionState _ | TimestampZeroed _ | TimestampOrder _
    | VolumeRoleMismatch _ => Info
    end.

Definition note (a : AnomalyKind) : bytes :=
  match a with
  | ObjectChecksumMismatch block stored computed =>
      lit "object at block " ++ dec block ++ lit " has stored Fletcher-64 " ++ hex0 18 stored ++
      lit " but its body computes " ++ hex0 18 computed ++ lit "; consistent with structural corruption or tampering"
  | OmapInconsistent oid xid =>
      lit "object-map entry for oid " ++ dec oid ++ lit " at xid " ++ dec xid ++
      lit " resolves to a block whose object oid/xid/type disagrees; consistent with omap inconsistency"
  | OmapOrphanMapping oid =>
      lit "object-map entry for oid " ++ dec oid ++
      lit " targets a block not reachable from any live tree examined; consistent with an orphaned mapping (reachability not exhaustively modelled)"
  | CheckpointRingMalformed detail =>
      lit "checkpoint ring is structurally invalid: " ++ lit detail ++
      lit "; consistent with a malformed or truncated checkpoint area"
  | CheckpointSupersededState xid =>
      lit "a non-latest checkpoint at xid " ++ dec xid ++
      lit " references objects absent from the latest; consistent with normal copy-on-write residue (a recovery lead)"
  | SnapshotXidDisorder xid =>
      lit "snapshot xid " ++ dec xid ++ lit " is not ordered consistently with its create_time; a lead for the examiner"
  | SnapshotMissingMetadata name =>
      lit "snapshot " ++ [x22] ++ name ++ [x22] ++
      lit " appears in one of the snap-metadata / snap-name trees but not the other; consistent with a structural snapshot inconsistency"
  | SnapshotDivergence inode =>
      lit "a snapshot's view of inode " ++ dec inode ++
      lit " differs from the live volume; a history lead, not an anomaly in itself"
  | SealedVolumeHashMismatch inode =>
      lit "sealed-volume file-info hash for inode " ++ dec inode ++
      lit " does not match the recomputed content hash; consistent with a hash-metadata mismatch (not a trust-chain verdict)"
  | SealedVolumeBroken broken_xid =>
      lit "integrity_meta_phys.im_broken_xid is set to " ++ dec broken_xid ++
      lit "; consistent with the seal having been broken at that transaction"
  | DeletedInodeRecoverable oid =>
      lit "inode/dir record for oid " ++ dec oid ++
      lit " is superseded but still present in an older checkpoint or unreaped block; consistent with recoverable residue"
  | DeletedExtentCarveCandidate block =>
      lit "a deleted file's extent block " ++ dec block ++
      lit " is marked free in the allocation bitmap; a carve candidate only (free does not guarantee recoverable content)"
  | ReaperPendingObject oid =>
      lit "object oid " ++ dec oid ++
      lit " is queued in the reaper (logically deleted, still physically present); a residue lead"
  | CloneSharedExtent inode_a inode_b =>
      lit "inodes " ++ dec inode_a ++ lit " and " ++ dec inode_b ++
      lit " share one or more physical extents; consistent with a clonefile/dedup provenance link"
  | CloneFlagWithoutSharing inode =>
      lit "inode " ++ dec inode ++
      lit " has INODE_WAS_CLONED set but no shared extent was found; consistent with a clone-flag inconsistency"
  | EncryptionLocked =>
      lit "volume is encrypted and no key is available; content is not readable (a state, not a verdict)"
  | EncryptionState detail =>
      lit "observed encryption state: " ++ detail ++ lit " (raw fields; software-vs-hardware not inferred)"
  | EncryptionKeybagAnomaly raw_tag offset =>
      lit "keybag entry at offset " ++ dec offset ++ lit " carries an unexpected or malformed tag " ++ hex0 4 raw_tag ++
      lit "; consistent with a keybag anomaly"
  | TimestampZeroed inode =>
      lit "inode " ++ dec inode ++
      lit " has one timestamp zeroed while its siblings are set; an Info lead (possible wipe)"
  | TimestampOrder inode =>
      lit "inode " ++ dec inode ++
      lit " has timestamps out of expected order (e.g. change_time before create_time); an FP-prone Info lead"
  | XidReuse oid xid =>
      lit "two distinct live objects claim the same (oid " ++ dec oid ++ lit ", xid " ++ dec xid ++
      lit "); impossible under copy-on-write, consistent with tampering"
  | OrphanInode oid =>
      lit "inode " ++ dec oid ++
      lit " has no DIR_REC referencing it and is not in the private directory; consistent with deleted-but-linked residue"
  | VolumeRoleMismatch detail =>
      lit "volume role flag is inconsistent with content: " ++ detail ++ lit "; a structural lead"
  end.

(** ** Findings lose no evidence *)

(** The numbers are unsigned. *)
Definition anomaly_wf (a : AnomalyKind) : Prop :=
  match a with
  | ObjectChecksumMismatch a b c => 0 <= a /\ 0 <= b /\ 0 <= c
  | OmapInconsistent a b | CloneSharedExtent a b | EncryptionKeybagAnomaly a b | XidReuse a b => 0 <= a /\ 0 <= b
  | OmapOrphanMapping a | CheckpointSupersededState a | SnapshotXidDisorder a | SnapshotDivergence a
  | SealedVolumeHashMismatch a | SealedVolumeBroken a | DeletedInodeRecoverable a | DeletedExtentCarveCandidate a
  | ReaperPendingObject a | CloneFlagWithoutSharing a | TimestampZeroed a | TimestampOrder a | OrphanInode a => 0 <= a
  | CheckpointRingMalformed _ | SnapshotMissingMetadata _ | EncryptionLocked | EncryptionState _
  | VolumeRoleMismatch _ => True
  end.

Lemma lit_inj s1 s2 : lit s1 = lit s2 -> s1 = s2.
Proof.
  unfold lit. intros Heq%(f_equal string_of_list_byte). by rewrite !string_of_list_byte_of_string in Heq.
Qed.

(** C28 (roundtrip): a finding's code and note determine the anomaly, whatever numbers, names and details it carries: the code tells the kind and
    every raw value can be read back out of the note. *)
Theorem finding_evidence (a b : AnomalyKind) :
  anomaly_wf a -> anomaly_wf b -> code a = code b -> note a = note b -> a = b.
Proof.
  intros Ha Hb Hc Hn. destruct a, b; try discriminate Hc; clear Hc; cbn [note anomaly_wf] in *; text_inj;
    try (subst; reflexivity).
  - apply lit_inj in Hn as ->. reflexivity.
  - apply app_inv_head, app_inv_tail in Hn as ->. reflexivity.
Qed.

(** Numbers do not run into each other. *)
Lemma finding_evidence_witness : note (XidReuse 1 23) <> note (XidReuse 12 3).
Proof.
  intros Heq. pose proof (finding_evidence (XidReuse 1 23) (XidReuse 12 3)) as Hf.
  discriminate Hf; [cbn; lia|cbn; lia|reflexivity|exact Heq].
Defined.
