(* ===== verification/Analyzer.v ===== *)
(** The audits (forensic/src): pure functions from parsed structures to anomalies, and the two drivers that read an image.

    Each audit module is a definition named after it ([integrity_audit] is [integrity::audit], and so on).  [audit_container] composes
    [ApfsContainer_open], the integrity audit of the checkpoint map, [audit_volume] for every volume of the table and the recovery
    audit of the reaper. *)

From S2P Require Import Prelude Bytes Errors Reader Object Container Checkpoint Walk BTree NodeLayout Omap ApfsContainer FsRecord Encryption Volume Ber Keybag Unlock Inode Dir Spaceman Reaper Sealed Snapshot DemoVolume Format Report.

(** ** integrity.rs *)

(** The body of [for i in 0..mappings.len()]. *)
Definition duplicate_at (mappings : list (Z * Z)) (live_xid : Z) (i : nat) : list AnomalyKind :=
  match mappings !! i with
  | None => []
  | Some (oid, paddr) =>
      let already := existsb (fun op => op.1 =? oid) (take i mappings) in
      let collides := existsb (fun op => (op.1 =? oid) && negb (op.2 =? paddr)) (drop (S i) mappings) in
      if negb already && collides then [XidReuse oid live_xid] else []
  end.

Definition duplicate_oid_anomalies (mappings : list (Z * Z)) (live_xid : Z) : list AnomalyKind :=
  mjoin (duplicate_at mappings live_xid <$> seq 0 (length mappings)).

Definition integrity_audit {R} (container : ApfsContainer R) : list AnomalyKind :=
  let live_xid := nx_xid (ac_superblock container) in
  let mappings := (fun m => (cpm_oid m, cpm_paddr m)) <$> ac_checkpoint_mappings container in
  duplicate_oid_anomalies mappings live_xid.

(** ** snapshots.rs *)

(** [sorted.windows(2)]. *)
Fixpoint windows2 {A} (l : list A) : list (A * A) :=
  match l with
  | a :: (b :: _) as r => (a, b) :: windows2 r
  | _ => []
  end.

Definition disorder_in (w : (Z * Z) * (Z * Z)) : list AnomalyKind :=
  let '((_, t0), (xid1, t1)) := w in
  if negb (t0 =? 0) && negb (t1 =? 0) && (t1 <? t0) then [SnapshotXidDisorder xid1] else [].

Definition snapshot_xid_disorder (snaps : list (Z * Z)) : list AnomalyKind :=
  let sorted := sort_by_key fst snaps in
  mjoin (disorder_in <$> windows2 sorted).

Section Snapshots.
Context {R} `{ReadSeek R} (reader : R) (volume : ApfsVolume) (block_size : Z).

Definition snapshot_step (out : list AnomalyKind) (s : Snapshot) : result (list AnomalyKind) :=
  x ← resolve_snapshot_xid reader volume (sn_name s) block_size;
  match x with
  | Some x => if x =? sn_xid s then Ok out else Ok (out ++ [SnapshotMissingMetadata (sn_name s)])
  | None => Ok (out ++ [SnapshotMissingMetadata (sn_name s)])
  end.

Definition snapshots_audit : result (list AnomalyKind) :=
  snaps ← list_snapshots reader volume block_size;
  out ← fold_res snapshot_step [] snaps;
  let by_xid := (fun s => (sn_xid s, sn_create_time s)) <$> snaps in
  Ok (out ++ snapshot_xid_disorder by_xid).

(** ** clones.rs *)

Definition clone_anomalies (shared : list (Z * Z)) (flagged_unshared : list Z) : list AnomalyKind :=
  ((fun ab => CloneSharedExtent ab.1 ab.2) <$> shared) ++ (CloneFlagWithoutSharing <$> flagged_unshared).

Definition clones_audit : list AnomalyKind := clone_anomalies [] [].

Definition audit_volume : result (list AnomalyKind) :=
  out ← snapshots_audit;
  Ok (out ++ clones_audit).
End Snapshots.

(** ** sealed.rs *)

Definition sealed_anomalies (broken_xid : Z) : list AnomalyKind :=
  if negb (broken_xid =? 0) then [SealedVolumeBroken broken_xid] else [].

Definition sealed_audit (meta : IntegrityMeta) : list AnomalyKind := sealed_anomalies (im_broken_xid meta).

(** ** crypto.rs *)

Definition debug_tag (t : KeybagTag) : bytes :=
  match t with
  | Unknown => lit "Unknown"
  | WrappingKey => lit "WrappingKey"
  | VolumeKey => lit "VolumeKey"
  | VolumeUnlockRecords => lit "VolumeUnlockRecords"
  | VolumePassphraseHint => lit "VolumePassphraseHint"
  | UserPayload => lit "UserPayload"
  end.
(** [{:?}] of a vector, and [{}] of a boolean. *)
Fixpoint debug_elems (l : list bytes) : bytes :=
  match l with
  | [] => []
  | [x] => x
  | x :: r => x ++ lit ", " ++ debug_elems r
  end.
Definition debug_list (l : list bytes) : bytes := lit "[" ++ debug_elems l ++ lit "]".
Definition show_bool (b : bool) : bytes := if b then lit "true" else lit "false".

Definition crypto_anomalies (encrypted : bool) (detail : bytes) (unknown_tags : list (Z * Z)) : list AnomalyKind :=
  (if encrypted then [EncryptionLocked; EncryptionState detail] else []) ++
  ((fun to => EncryptionKeybagAnomaly (Z.land to.1 0xff) to.2) <$> unknown_tags).

Definition crypto_audit (state : Keybag.EncryptionState) : list AnomalyKind :=
  let detail := lit "encrypted=" ++ show_bool (es_encrypted state) ++ lit ", tags=" ++
                debug_list (debug_tag <$> es_tags_present state) ++ lit ", passphrase_hint=" ++
                show_bool (es_has_passphrase_hint state) in
  crypto_anomalies (es_encrypted state) detail (es_unknown_tags state).

(** ** timestamps.rs *)

Definition timestamp_anomalies (oid create modify change access : Z) : list AnomalyKind :=
  let ts := [create; modify; change; access] in
  let zeroed := existsb (fun t => negb (t =? 0)) ts && existsb (fun t => t =? 0) ts in
  let order_broken := (negb (change =? 0) && negb (create =? 0) && (change <? create)) ||
                      (negb (access =? 0) && negb (create =? 0) && (access <? create)) in
  (if zeroed then [TimestampZeroed oid] else []) ++ (if order_broken then [TimestampOrder oid] else []).

Definition timestamps_audit (inode : Inode) : list AnomalyKind :=
  timestamp_anomalies (ino_oid inode) (ino_create_time inode) (ino_mod_time inode) (ino_change_time inode)
    (ino_access_time inode).

(** ** recovery.rs *)

Definition reaper_anomalies (pending_oids : list Z) : list AnomalyKind := ReaperPendingObject <$> pending_oids.

Section Drivers.
Context {R} `{ReadSeek R}.

Definition recovery_audit (reader : R) (reaper_paddr : Z) (mappings : list CheckpointMapping) (block_size : Z)
  : result (list AnomalyKind) :=
  pending ← pending_objects reader mappings block_size reaper_paddr;
  Ok (reaper_anomalies (rp_oid <$> pending)).

(** ** lib.rs *)

Definition audit_read_block (reader : R) (paddr block_size : Z) : result bytes :=
  read_at reader (saturating_mul paddr block_size) block_size.

(** The body of [for paddr in apsb_addrs]. *)
Definition audit_volume_at (reader : R) (block_size : Z) (out : list AnomalyKind) (paddr : Z)
  : result (list AnomalyKind) :=
  block ← audit_read_block reader paddr block_size;
  match ApfsVolume_parse block with
  | Ok volume =>
      more ← audit_volume reader volume block_size;
      Ok (out ++ more)
  | Err _ => Ok out
  | Panic => Panic
  end.

Definition audit_container (prof : profile) (reader : R) (block_size : Z) : result (list AnomalyKind) :=
  container ← ApfsContainer_open prof reader;
  let out := integrity_audit container in
  let mappings := ac_checkpoint_mappings container in
  let rp := reaper_paddr container in
  apsb_addrs ← volume_superblock_addrs container;
  out ← fold_res (audit_volume_at reader block_size) out apsb_addrs;
  match rp with
  | Some rp =>
      more ← recovery_audit reader rp mappings block_size;
      Ok (out ++ more)
  | None => Ok out
  end.
End Drivers.

(** ** Reuse of an object id *)

(** The checkpoint map gives [oid] two different blocks. *)
Definition contested (mappings : list (Z * Z)) (oid : Z) : Prop :=
  exists p q, (oid, p) ∈ mappings /\ (oid, q) ∈ mappings /\ p <> q.

(** The object ids the loop reports in [suf], having passed [pre]. *)
Fixpoint reported (pre suf : list (Z * Z)) : list Z :=
  match suf with
  | [] => []
  | (oid, paddr) :: r =>
      (if negb (existsb (fun op => op.1 =? oid) pre) && existsb (fun op => (op.1 =? oid) && negb (op.2 =? paddr)) r
       then [oid] else []) ++ reported (pre ++ [(oid, paddr)]) r
  end.

Lemma duplicate_reported x suf : forall pre,
  mjoin (duplicate_at (pre ++ suf) x <$> seq (length pre) (length suf)) =
    (fun oid => XidReuse oid x) <$> reported pre suf.
Proof.
  induction suf as [|[oid paddr] suf IH]; intros pre; [done|]. cbn [length seq fmap list_fmap mjoin list_join reported].
  specialize (IH (pre ++ [(oid, paddr)])). rewrite <-app_assoc in IH. cbn [app] in IH.
  rewrite length_app, Nat.add_comm in IH. cbn [length Nat.add] in IH.
  rewrite fmap_app, <-IH. f_equal. unfold duplicate_at. rewrite list_lookup_middle by done.
  rewrite take_app_length.
  assert (drop (S (length pre)) (pre ++ (oid, paddr) :: suf) = suf) as Hd.
  { change ((oid, paddr) :: suf) with ([(oid, paddr)] ++ suf). rewrite app_assoc.
    replace (S (length pre)) with (length (pre ++ [(oid, paddr)])) by (rewrite length_app; cbn; lia). apply drop_app_length. }
  rewrite Hd. by destruct (negb _ && _).
Qed.

Lemma existsb_oid (ms : list (Z * Z)) oid : existsb (fun op => op.1 =? oid) ms = true <-> oid ∈ ms.*1.
Proof.
  rewrite existsb_exists, list_elem_of_fmap. split.
  - intros ([o p] & Hin & Heq%Z.eqb_eq). exists (o, p). cbn in *. split; [done|]. by apply list_elem_of_In.
  - intros ([o p] & -> & Hin). exists (o, p). cbn. rewrite Z.eqb_refl. split; [by apply list_elem_of_In|done].
Qed.

Lemma existsb_other (ms : list (Z * Z)) oid p :
  existsb (fun op => (op.1 =? oid) && negb (op.2 =? p)) ms = true <-> exists q, (oid, q) ∈ ms /\ q <> p.
Proof.
  rewrite existsb_exists. split.
  - intros ([o q] & Hin & Heq). cbn in Heq. bool_cases. subst. exists q. by rewrite list_elem_of_In.
  - intros (q & Hin & Hne). exists (oid, q). cbn. rewrite Z.eqb_refl, list_elem_of_In in *. split; [done|].
    by apply Z.eqb_neq in Hne as ->.
Qed.

Lemma contested_cons oid p ms o :
  contested ((oid, p) :: ms) o <-> (o = oid /\ exists q, (oid, q) ∈ ms /\ q <> p) \/ contested ms o.
Proof.
  unfold contested. split.
  - intros (a & b & Ha & Hb & Hne). apply elem_of_cons in Ha, Hb.
    destruct Ha as [Ha|Ha], Hb as [Hb|Hb]; simplify_eq; [left; eauto..|right; eauto].
  - intros [(-> & q & Hq & Hne)|(a & b & Ha & Hb & Hne)].
    + exists q, p. by rewrite !elem_of_cons; eauto.
    + exists a, b. rewrite !elem_of_cons; eauto.
Qed.

#[export] Instance contested_dec ms oid : Decision (contested ms oid).
Proof.
  destruct (decide (Exists (fun a => Exists (fun b => a.1 = oid /\ b.1 = oid /\ a.2 <> b.2) ms) ms)) as [He|He]; [left|right].
  - apply Exists_exists in He as ([o p] & Ha & ([o' q] & Hb & Ho & Ho' & Hne)%Exists_exists). cbn in *. subst. by exists p, q.
  - intros (p & q & Hp & Hq & Hne). apply He, Exists_exists. exists (oid, p). split; [done|]. apply Exists_exists. by exists (oid, q).
Defined.

(** The elements of a list in the order of their first appearance. *)
Fixpoint first_seen (l : list Z) : list Z :=
  match l with
  | [] => []
  | x :: l => x :: filter (fun y => y <> x) (first_seen l)
  end.

Lemma elem_of_first_seen x l : x ∈ first_seen l <-> x ∈ l.
Proof.
  induction l as [|y l IH]; [done|]. cbn [first_seen]. rewrite !elem_of_cons, list_elem_of_filter, IH.
  destruct (decide (x = y)); naive_solver.
Qed.

Lemma NoDup_first_seen l : NoDup (first_seen l).
Proof.
  induction l as [|x l IH]; cbn [first_seen]; [constructor|]. constructor; [rewrite list_elem_of_filter; naive_solver|by apply NoDup_filter].
Qed.

(** The loop reports, among the ids it has not passed, the contested ones at their first appearance. *)
Lemma reported_first suf : forall pre, reported pre suf = filter (fun o => (o ∉ pre.*1) /\ contested suf o) (first_seen suf.*1).
Proof.
  induction suf as [|[oid p] suf IH]; intros pre; [done|]. cbn [reported fmap list_fmap fst first_seen].
  rewrite filter_cons, list_filter_filter, IH.
  assert ((oid ∉ pre.*1) /\ contested ((oid, p) :: suf) oid <->
    negb (existsb (fun op => op.1 =? oid) pre) && existsb (fun op => (op.1 =? oid) && negb (op.2 =? p)) suf = true) as Hhead.
  { rewrite andb_true_iff, negb_true_iff, existsb_other, contested_cons. rewrite <-not_true_iff_false, existsb_oid.
    split; [|naive_solver]. intros [Hn [[_ Hq]|(a & b & Ha & Hb & Hab)]]; [done|]. split; [done|]. destruct (decide (a = p)) as [->|]; eauto. }
  assert (filter (fun o => (o ∉ (pre ++ [(oid, p)]).*1) /\ contested suf o) (first_seen suf.*1) =
    filter (fun o => ((o ∉ pre.*1) /\ contested ((oid, p) :: suf) o) /\ o <> oid) (first_seen suf.*1)) as ->.
  { apply list_filter_iff. intros o. rewrite fmap_app, elem_of_app, contested_cons. cbn [fmap list_fmap fst]. rewrite list_elem_of_singleton. naive_solver. }
  destruct (_ && existsb _ suf); [by rewrite decide_True by (by apply Hhead)|]. rewrite decide_False; [done|]. by intros H%Hhead.
Qed.

(** The object ids the live checkpoint map gives two different blocks, in the order of first appearance. *)
Definition reused_ids {R} (c : ApfsContainer R) : list Z :=
  let mappings := (fun m => (cpm_oid m, cpm_paddr m)) <$> ac_checkpoint_mappings c in
  filter (contested mappings) (first_seen mappings.*1).

Lemma integrity_audit_reused {R} (c : ApfsContainer R) :
  integrity_audit c = (fun oid => XidReuse oid (nx_xid (ac_superblock c))) <$> reused_ids c.
Proof.
  unfold integrity_audit, duplicate_oid_anomalies, reused_ids. set (ms := _ <$> ac_checkpoint_mappings c).
  etransitivity; [apply (duplicate_reported _ ms [])|]. f_equal. rewrite reported_first. apply list_filter_iff.
  intros o. split; [by intros []|]. intros Hc. split; [apply not_elem_of_nil|done].
Qed.

(** C25 (functional): the integrity audit reports an object id exactly when the live checkpoint map gives it two different blocks, however
    many mappings lie between them, under the live transaction id: its findings are the ids of the map in the order of their first appearance, those
    kept that are mapped to two different blocks, so each is reported once. *)
Theorem integrity_audit_spec {R} (c : ApfsContainer R) :
  let mappings := (fun m => (cpm_oid m, cpm_paddr m)) <$> ac_checkpoint_mappings c in
  let oids := filter (contested mappings) (first_seen mappings.*1) in
  integrity_audit c = ((fun oid => XidReuse oid (nx_xid (ac_superblock c))) <$> oids) /\
  NoDup oids /\ (forall oid, oid ∈ oids <-> exists p q, (oid, p) ∈ mappings /\ (oid, q) ∈ mappings /\ p <> q).
Proof.
  intros mappings oids. split_and!; [apply integrity_audit_reused|apply NoDup_filter, NoDup_first_seen|].
  intros oid. unfold oids. rewrite list_elem_of_filter, elem_of_first_seen. split; [by intros []|]. intros Hc. split; [done|].
  destruct Hc as (p & _ & Hp & _). by apply (list_elem_of_fmap_2 fst) in Hp.
Qed.

(** The order tells first from last sightings. *)
Example reuse_order : duplicate_oid_anomalies [(1, 10); (2, 11); (2, 12); (1, 13)] 7 = [XidReuse 1 7; XidReuse 2 7].
Proof. reflexivity. Qed.

(** ** Snapshot order *)

(** Adjacent pairs decide a transitive order. *)
Lemma windows2_sorted {A} (P : A -> A -> Prop) `{!Transitive P} l :
  Forall (fun w => P w.1 w.2) (windows2 l) <-> StronglySorted P l.
Proof.
  split.
  - intros Hw. apply Sorted_StronglySorted; [done|]. induction l as [|a [|b l] IH]; [by repeat constructor..|].
    cbn [windows2] in Hw. apply Forall_cons in Hw as [Hab Hw]. constructor; [by apply IH|by constructor].
  - induction 1 as [|a l Hs IH Hf]; [constructor|]. destruct l as [|b l]; [constructor|]. cbn [windows2].
    constructor; [|done]. by apply Forall_cons in Hf as [? _].
Qed.

Lemma mjoin_nil_iff {A B} (f : A -> list B) l : mjoin (f <$> l) = [] <-> Forall (fun x => f x = []) l.
Proof.
  induction l as [|x l IH]; cbn; [by split|]. rewrite Forall_cons, <-IH.
  destruct (f x); cbn; naive_solver.
Qed.

Lemma windows2_elem {A} (l : list A) w : w ∈ windows2 l -> w.1 ∈ l /\ w.2 ∈ l.
Proof.
  induction l as [|a [|b l] IH]; cbn [windows2]; [by intros ?%elem_of_nil..|].
  intros [->|Hw]%elem_of_cons; [set_solver|]. apply IH in Hw. set_solver.
Qed.

(** Among snapshots with distinct transactions and set creation times, the order check is silent exactly when no snapshot was created before
    one of an earlier transaction. *)
Theorem snapshot_xid_disorder_spec (snaps : list (Z * Z)) :
  NoDup snaps.*1 -> Forall (fun s => s.2 <> 0) snaps ->
  snapshot_xid_disorder snaps = [] <->
  (forall a b, a ∈ snaps -> b ∈ snaps -> a.1 < b.1 -> a.2 <= b.2).
Proof.
  intros Hnd Hnz. unfold snapshot_xid_disorder. pose proof (sort_by_key_perm fst snaps) as Hperm.
  pose proof (sort_by_key_sorted fst snaps) as Hs. set (l := sort_by_key fst snaps) in *.
  assert (forall w, w ∈ windows2 l -> disorder_in w = [] <-> w.1.2 <= w.2.2) as Hw.
  { intros [[x0 t0] [x1 t1]] Hin. apply windows2_elem in Hin as [H0 H1]. rewrite Forall_forall in Hnz.
    rewrite Hperm in H0, H1. apply Hnz in H0, H1. cbn in *. apply Z.eqb_neq in H0 as ->, H1 as ->. cbn.
    destruct (Z.ltb_spec t1 t0); split; (done || lia). }
  rewrite mjoin_nil_iff. transitivity (StronglySorted (fun a b : Z * Z => a.2 <= b.2) l).
  { assert (Transitive (fun a b : Z * Z => a.2 <= b.2)) as Htr by (intros x y z ??; lia).
    rewrite <-(windows2_sorted _ l). rewrite !Forall_forall.
    split; intros Hf w Hin; by apply Hw, Hf. }
  split.
  - intros Ht a b Ha Hb Hlt. rewrite <-Hperm in Ha, Hb. clear -Hs Ht Ha Hb Hlt.
    induction l as [|c l IH]; [by apply elem_of_nil in Ha|].
    apply StronglySorted_inv in Hs as [Hs Hsf], Ht as [Ht Htf]. rewrite Forall_forall in Hsf, Htf.
    apply elem_of_cons in Ha as [->|Ha], Hb as [->|Hb]; [lia|by apply Htf| |by apply IH].
    specialize (Hsf a Ha). lia.
  - intros Hall. assert (forall a b, a ∈ l -> b ∈ l -> a.1 < b.1 -> a.2 <= b.2) as Hall'
      by (intros a b; rewrite !Hperm; apply Hall).
    assert (NoDup l.*1) as Hnd' by (by rewrite Hperm). clear -Hs Hall' Hnd'.
    induction Hs as [|c l Hs IH Hsf]; [constructor|]. cbn in Hnd'. apply NoDup_cons in Hnd' as [Hni Hnd].
    constructor; [apply IH; [|done]; intros a b Ha Hb; apply Hall'; by right|].
    rewrite Forall_forall in Hsf |- *. intros d Hd. apply Hall'; [by left|by right|]. specialize (Hsf d Hd).
    assert (c.1 <> d.1); [|lia]. intros He. apply Hni. rewrite He. by apply list_elem_of_fmap_2.
Qed.

(** A snapshot without a creation time hides the disorder of its neighbours. *)
Example disorder_hidden : snapshot_xid_disorder [(1, 300); (2, 0); (3, 200)] = [].
Proof. reflexivity. Qed.

(** The order leads, by neighbours in transaction order: the later of two snapshots with set creation times, when it was created before the other. *)
Definition order_leads (snaps : list Snapshot) : list AnomalyKind :=
  omap (fun ab => if decide (sn_create_time ab.1 <> 0 /\ sn_create_time ab.2 <> 0 /\ sn_create_time ab.2 < sn_create_time ab.1)
                  then Some (SnapshotXidDisorder (sn_xid ab.2)) else None) (zip snaps (tail snaps)).

Lemma sort_by_key_id {A} (k : A -> Z) l : StronglySorted (fun a b => k a <= k b) l -> sort_by_key k l = l.
Proof.
  intros Hs. apply (sorted_stable_unique k); [apply sort_by_key_sorted|done|]. intros v. apply sort_by_key_stable.
Qed.

Lemma windows2_fmap {A B} (f : A -> B) l : windows2 (f <$> l) = (fun ab => (f ab.1, f ab.2)) <$> zip l (tail l).
Proof.
  induction l as [|a l IH]; [done|]. destruct l as [|b l]; [done|].
  change (windows2 (f <$> a :: b :: l)) with ((f a, f b) :: windows2 (f <$> b :: l)). by rewrite IH.
Qed.

Lemma disorder_leads snaps :
  StronglySorted (fun a b => sn_xid a <= sn_xid b) snaps ->
  snapshot_xid_disorder ((fun s => (sn_xid s, sn_create_time s)) <$> snaps) = order_leads snaps.
Proof.
  intros Hs. unfold snapshot_xid_disorder. rewrite sort_by_key_id.
  - clear Hs. unfold order_leads. rewrite windows2_fmap. induction (zip snaps (tail snaps)) as [|[a b] l IH]; [done|].
    set (lead := fun ab : Snapshot * Snapshot => if decide _ then _ else _) in *.
    change (omap lead ((a, b) :: l)) with (match lead (a, b) with Some y => y :: omap lead l | None => omap lead l end).
    rewrite <-IH. rewrite !fmap_cons. unfold lead. cbn [mjoin list_join fst snd disorder_in].
    destruct (decide _) as [(H0 & H1 & Hlt)|Hno].
    + apply Z.eqb_neq in H0 as ->, H1 as ->. by rewrite (proj2 (Z.ltb_lt _ _) Hlt).
    + destruct (_ && _) eqn:Hb; [|done]. exfalso. apply Hno. bool_cases. done.
  - induction Hs as [|a l Hs IH Hf]; cbn; [constructor|]. constructor; [done|]. apply Forall_fmap. eapply Forall_impl; [exact Hf|]. done.
Qed.

(** ** The audit of a volume *)

Section SnapshotsAudit.
Context {R} `{ReadSeek R} (reader : R) (volume : ApfsVolume) (block_size : Z).

(** The name records do not lead back to the snapshot. *)
Definition name_lost (es : list Entry) (s : Snapshot) : Prop :=
  head (omap (snap_name_record (sn_name s)) es) <> Some (sn_xid s).
#[export] Instance name_lost_dec es s : Decision (name_lost es s).
Proof. unfold name_lost. apply _. Defined.

Lemma snapshot_step_tree t s out :
  snap_tree reader volume block_size t ->
  snapshot_step reader volume block_size out s =
    Ok (if decide (name_lost (leaf_entries t) s) then out ++ [SnapshotMissingMetadata (sn_name s)] else out).
Proof.
  intros Ht. unfold snapshot_step. rewrite (resolve_snapshot_xid_spec reader volume block_size (sn_name s) t Ht).
  cbn [mbind outcome_bind]. destruct (decide _) as [Hl|Hl]; unfold name_lost in Hl.
  - destruct (head _) as [x|]; [|done]. destruct (Z.eqb_spec x (sn_xid s)) as [->|Hne]; done.
  - destruct (head _) as [x|]; [|by destruct Hl]. destruct (Z.eqb_spec x (sn_xid s)) as [->|Hne]; [done|naive_solver].
Qed.

Lemma snapshot_steps t snaps out :
  snap_tree reader volume block_size t ->
  fold_res (snapshot_step reader volume block_size) out snaps =
    Ok (out ++ ((fun s => SnapshotMissingMetadata (sn_name s)) <$> filter (name_lost (leaf_entries t)) snaps)).
Proof.
  intros Ht. revert out; induction snaps as [|s snaps IH]; intros out; [by rewrite app_nil_r|].
  cbn [fold_res]. rewrite (snapshot_step_tree t s out Ht). cbn [mbind outcome_bind]. rewrite filter_cons, IH.
  destruct (decide _); [|done]. by rewrite <-app_assoc.
Qed.

Lemma snapshots_audit_tree t :
  snap_tree reader volume block_size t ->
  let snaps := sort_by_key sn_xid (omap snap_record (leaf_entries t)) in
  snapshots_audit reader volume block_size =
    Ok (((fun s => SnapshotMissingMetadata (sn_name s)) <$> filter (name_lost (leaf_entries t)) snaps) ++
        snapshot_xid_disorder ((fun s => (sn_xid s, sn_create_time s)) <$> snaps)).
Proof.
  intros Ht snaps. unfold snapshots_audit. rewrite (list_snapshots_tree _ _ _ t Ht). cbn [mbind outcome_bind].
  by rewrite (snapshot_steps t _ [] Ht).
Qed.

(** The findings on a volume with that tree of snapshot records. *)
Definition volume_leads (t : tree) : list AnomalyKind :=
  let snaps := sort_by_key sn_xid (omap snap_record (leaf_entries t)) in
  ((fun s => SnapshotMissingMetadata (sn_name s)) <$> filter (name_lost (leaf_entries t)) snaps) ++ order_leads snaps.

Lemma audit_volume_iff out :
  audit_volume reader volume block_size = Ok out <-> exists t, snap_tree reader volume block_size t /\ out = volume_leads t.
Proof.
  assert (forall t, snap_tree reader volume block_size t -> snapshots_audit reader volume block_size = Ok (volume_leads t)) as Ha.
  { intros t Ht. rewrite (snapshots_audit_tree t Ht). by rewrite (disorder_leads _ (sort_by_key_sorted _ _)). }
  unfold audit_volume. split.
  - intros Ho. apply bind_Ok_iff in Ho as (o & Hs & [= <-]).
    assert (exists t, snap_tree reader volume block_size t) as [t Ht].
    { unfold snapshots_audit in Hs. apply bind_Ok_iff in Hs as (snaps & Hl & _).
      apply list_snapshots_inv in Hl as (t & Ht & _). by exists t. }
    exists t. split; [done|]. rewrite (Ha t Ht) in Hs. injection Hs as <-. by rewrite app_nil_r.
  - intros (t & Ht & ->). rewrite (Ha t Ht). cbn [mbind outcome_bind]. by rewrite app_nil_r.
Qed.

(** C24 (functional): auditing a volume succeeds exactly when its snapshot tree can be read whole, never reporting a clean volume
    for an unreadable one; the findings are then one per snapshot, in transaction order, whose name does not lead back to its own
    transaction through the name records, followed by the order leads: the later of two neighbours in transaction order, both with a creation
    time, when it was created before the other. *)
Theorem audit_volume_spec (out : list AnomalyKind) :
  audit_volume reader volume block_size = Ok out <->
  exists t, snap_tree reader volume block_size t /\
    let snaps := sort_by_key sn_xid (omap snap_record (leaf_entries t)) in
    out = ((fun s => SnapshotMissingMetadata (sn_name s)) <$> filter (name_lost (leaf_entries t)) snaps) ++ order_leads snaps.
Proof. apply audit_volume_iff. Qed.

Lemma audit_volume_not_Panic : audit_volume reader volume block_size <> Panic.
Proof.
  unfold audit_volume, snapshots_audit. pose proof (list_snapshots_not_Panic reader volume block_size) as Hl.
  no_panic. apply fold_res_not_Panic. intros o s _. unfold snapshot_step.
  pose proof (resolve_snapshot_xid_not_Panic reader volume block_size (sn_name s)). no_panic.
Qed.
End SnapshotsAudit.

(** ** The audit of a container *)

Section ContainerAudit.
Context {R} `{ReadSeek R} (prof : profile) (reader : R) (block_size : Z).

(** What the loop adds for the volume superblock at [paddr]: the leads of its snapshot tree when it parses, nothing when it does not. *)
Definition volume_findings (paddr : Z) (found : list AnomalyKind) : Prop :=
  exists block, read_at reader (saturating_mul paddr block_size) block_size = Ok block /\
    ((exists e, ApfsVolume_parse block = Err e /\ found = []) \/
     (exists v t, ApfsVolume_parse block = Ok v /\ snap_tree reader v block_size t /\ found = volume_leads t)).

Lemma audit_volume_at_iff out paddr out' :
  audit_volume_at reader block_size out paddr = Ok out' <-> exists found, volume_findings paddr found /\ out' = out ++ found.
Proof.
  unfold audit_volume_at, volume_findings. split.
  - intros Ho. apply bind_Ok_iff in Ho as (block & Hb & Ho). destruct (ApfsVolume_parse block) as [v|e|] eqn:Hp; [| |done].
    + apply bind_Ok_iff in Ho as (more & Hm & [= <-]). apply audit_volume_iff in Hm as (t & Ht & ->). exists (volume_leads t). split; [|done]. eauto 12.
    + injection Ho as <-. exists []. rewrite app_nil_r. eauto 10.
  - intros (found & (block & Hb & [(e & He & ->)|(v & t & Hv & Hf)]) & ->); unfold audit_read_block; rewrite Hb; cbn [mbind outcome_bind].
    + by rewrite He, app_nil_r.
    + rewrite Hv, (proj2 (audit_volume_iff _ _ _ _) (ex_intro _ t Hf)). done.
Qed.

Lemma audit_volumes_iff addrs : forall out out',
  fold_res (audit_volume_at reader block_size) out addrs = Ok out' <->
  exists founds, Forall2 volume_findings addrs founds /\ out' = out ++ mjoin founds.
Proof.
  induction addrs as [|a addrs IH]; intros out out'; cbn [fold_res].
  - split; [intros [= <-]; exists []; by rewrite app_nil_r|]. intros (f & Hf & ->). inversion Hf. by rewrite app_nil_r.
  - rewrite bind_Ok_iff. split.
    + intros (o & (found & Hfd & ->)%audit_volume_at_iff & (fs & Hfs & ->)%IH). exists (found :: fs).
      split; [by constructor|]. cbn. by rewrite app_assoc.
    + intros (fs & Hfs & ->). inversion Hfs as [|? found ? fs' Hfd Hfs']; subst. exists (out ++ found).
      split; [apply audit_volume_at_iff; eauto|]. apply IH. exists fs'. split; [done|]. cbn. by rewrite app_assoc.
Qed.

(** What the reaper adds: one lead for the object in progress and one for each entry of the chain of reap lists, which has to end within the cap. *)
Definition reaper_findings (c : ApfsContainer R) (found : list AnomalyKind) : Prop :=
  match reaper_paddr c with
  | None => found = []
  | Some rp => exists reaper lists, read_obj_block reader block_size rp = Ok reaper /\
      reap_chain reader (ac_checkpoint_mappings c) block_size (le_u64 reaper NR_HEAD) lists /\ Z.of_nat (length lists) <= MAX_REAP_LISTS /\
      found = (fun p => ReaperPendingObject (rp_oid p)) <$> (in_progress reaper ++ chain_entries block_size lists)
  end.

Lemma reaper_findings_iff c found :
  reaper_findings c found <->
  match reaper_paddr c with
  | None => found = []
  | Some rp => recovery_audit reader rp (ac_checkpoint_mappings c) block_size = Ok found
  end.
Proof.
  unfold reaper_findings, recovery_audit, reaper_anomalies. destruct (reaper_paddr c) as [rp|]; [|done]. rewrite bind_Ok_iff. split.
  - intros (reaper & lists & Hr & Hc & Hl & ->). exists (in_progress reaper ++ chain_entries block_size lists).
    split; [apply pending_objects_iff; by exists reaper, lists|]. by rewrite <-list_fmap_compose.
  - intros (pending & (reaper & lists & Hr & Hc & Hl & ->)%pending_objects_iff & [= <-]). exists reaper, lists. by rewrite <-list_fmap_compose.
Qed.

(** C8 (functional): what auditing a container finds, in terms of what the image holds: first the object ids the live checkpoint map gives two different
    blocks, in order of first appearance; then, for every volume of the table in table order, the leads of its snapshot tree (lost names, then order); then
    one lead per object of the reaper's chain.  It succeeds exactly when the container opens, the volume table resolves, every volume superblock
    block can be read, every volume whose superblock parses has a snapshot tree that can be read whole, and the reaper's chain, if there is a reaper, can be read
    and ends.  A volume superblock that does not parse is no error: that volume adds nothing. *)
Theorem audit_container_spec (out : list AnomalyKind) :
  audit_container prof reader block_size = Ok out <->
  exists c addrs founds reaped,
    ApfsContainer_open prof reader = Ok c /\ volume_superblock_addrs c = Ok addrs /\
    Forall2 volume_findings addrs founds /\ reaper_findings c reaped /\
    out = ((fun oid => XidReuse oid (nx_xid (ac_superblock c))) <$> reused_ids c) ++ mjoin founds ++ reaped.
Proof.
  unfold audit_container. setoid_rewrite <-integrity_audit_reused. setoid_rewrite reaper_findings_iff. split.
  - intros Ho. apply bind_Ok_iff in Ho as (c & Hc & Ho). apply bind_Ok_iff in Ho as (addrs & Ha & Ho).
    apply bind_Ok_iff in Ho as (o & (founds & Hf & ->)%audit_volumes_iff & Ho).
    destruct (reaper_paddr c) as [rp|] eqn:Hrp.
    + apply bind_Ok_iff in Ho as (more & Hm & [= <-]). exists c, addrs, founds, more. rewrite Hrp, <-app_assoc. split_and!; eauto.
    + injection Ho as <-. exists c, addrs, founds, []. rewrite Hrp, app_nil_r. split_and!; eauto.
  - intros (c & addrs & founds & reaped & -> & Ha & Hf & Hr & ->). cbn [mbind outcome_bind]. rewrite Ha. cbn [mbind outcome_bind].
    rewrite (proj2 (audit_volumes_iff addrs _ _) (ex_intro _ founds (conj Hf eq_refl))). cbn [mbind outcome_bind].
    destruct (reaper_paddr c) as [rp|].
    + rewrite Hr. cbn [mbind outcome_bind]. by rewrite <-app_assoc.
    + subst. by rewrite app_nil_r.
Qed.

(** A volume superblock that does not parse is passed over in silence: when none of the volumes of the table parses and no reaper
    is mapped, the audit of the container succeeds with no finding about any volume, although its documentation promises that a failure
    to read an audited structure is surfaced. *)
Theorem unparsable_volumes_skipped (c : ApfsContainer R) (addrs : list Z) :
  ApfsContainer_open prof reader = Ok c -> volume_superblock_addrs c = Ok addrs -> reaper_paddr c = None ->
  Forall (fun paddr => exists block e, audit_read_block reader paddr block_size = Ok block /\ ApfsVolume_parse block = Err e) addrs ->
  audit_container prof reader block_size = Ok (integrity_audit c).
Proof.
  intros Hc Ha Hr Hbad. unfold audit_container. rewrite Hc. cbn [mbind outcome_bind]. rewrite Ha, Hr. cbn [mbind outcome_bind].
  assert (fold_res (audit_volume_at reader block_size) (integrity_audit c) addrs = Ok (integrity_audit c)) as ->; [|done].
  generalize (integrity_audit c) as out. intros out. clear Ha.
  induction Hbad as [|a addrs (b & e & Hb & He) _ IH]; [done|].
  cbn [fold_res]. assert (audit_volume_at reader block_size out a = Ok out) as ->; [|apply IH].
  unfold audit_volume_at. rewrite Hb. cbn [mbind outcome_bind]. by rewrite He.
Qed.
End ContainerAudit.

(** Auditing a container panics exactly when opening it does. *)
Lemma audit_container_Panic {R} `{ReadSeek R} (prof : profile) (reader : R) (block_size : Z) :
  audit_container prof reader block_size = Panic <-> ApfsContainer_open prof reader = Panic.
Proof.
  unfold audit_container. split; [|by intros ->]. intros [Hp|(c & _ & Hp)]%bind_Panic_iff; [done|].
  exfalso. revert Hp. change (?m = Panic -> False) with (m <> Panic). unfold recovery_audit.
  pose proof (volume_superblock_addrs_not_Panic c) as Ha.
  apply bind_not_Panic; [done|]. intros addrs _. apply bind_not_Panic.
  - apply fold_res_not_Panic. intros out paddr _. unfold audit_volume_at, audit_read_block.
    apply bind_not_Panic; [apply read_at_not_Panic|]. intros block _. pose proof (ApfsVolume_parse_not_Panic block) as Hp.
    destruct (ApfsVolume_parse block) as [v| |]; [|done|done]. apply bind_not_Panic; [apply audit_volume_not_Panic|done].
  - intros out _. destruct (reaper_paddr c) as [rp|]; [|done].
    pose proof (pending_objects_not_Panic reader (ac_checkpoint_mappings c) block_size rp). no_panic.
Qed.

(** In a build that wraps, auditing a container never panics, whatever the source and the block size the caller gives. *)
Theorem audit_container_never_panics {R} `{ReadSeek R} (reader : R) (block_size : Z) :
  audit_container OverflowWraps reader block_size <> Panic.
Proof. rewrite audit_container_Panic. apply ApfsContainer_open_not_Panic. Qed.

(** ** Unrecognised keybag tags *)

Definition low_byte (to : Z * Z) : Z * Z := (Z.land to.1 0xff, to.2).

(** The audit keeps only the low byte of an unrecognised tag: two keybags give the same findings exactly when their tags agree modulo 256, and an
    entry of tag 0x103 is reported with the value 0x03 of a recognised tag, where the documentation promises the raw value. *)
Theorem keybag_anomaly_truncates_tag :
  (forall encrypted detail l1 l2,
     crypto_anomalies encrypted detail l1 = crypto_anomalies encrypted detail l2 <-> low_byte <$> l1 = low_byte <$> l2) /\
  (exists kb st, read_keybag kb = Ok st /\ es_unknown_tags st = [(0x103, 48)] /\
     crypto_audit st = [EncryptionKeybagAnomaly 0x03 48] /\ from_u16 0x03 = VolumeUnlockRecords).
Proof.
  split.
  - intros enc d l1 l2. unfold crypto_anomalies, low_byte. split.
    + intros Heq%app_inv_head. revert l2 Heq. induction l1 as [|[t o] l1 IH]; intros [|[t2 o2] l2] Heq; try done.
      cbn in Heq |- *. injection Heq as -> -> Heq. f_equal. by apply IH.
    + intros Heq. f_equal. revert l2 Heq. induction l1 as [|[t o] l1 IH]; intros [|[t2 o2] l2] Heq; try done.
      cbn in Heq |- *. injection Heq as -> -> Heq. f_equal. by apply IH.
  - exists (encode_keybag 128 [encode_entry demo_vu 0x103 [x00]]). eexists. split; [vm_compute; reflexivity|].
    split_and!; vm_compute; reflexivity.
Qed.

(** ** Concrete containers *)

Lemma snapshot_xid_disorder_spec_witness :
  snapshot_xid_disorder [(3, 200); (1, 100)] = [] /\ snapshot_xid_disorder [(3, 100); (1, 200)] <> [].
Proof.
  split.
  - apply (snapshot_xid_disorder_spec [(3, 200); (1, 100)]).
    + apply (bool_decide_unpack _). vm_compute. exact I.
    + repeat constructor; cbn; lia.
    + intros a b Ha Hb. repeat setoid_rewrite elem_of_cons in Ha. repeat setoid_rewrite elem_of_cons in Hb.
      rewrite elem_of_nil in Ha, Hb. destruct Ha as [->|[->|[]]], Hb as [->|[->|[]]]; cbn; lia.
  - discriminate.
Defined.

(** A container of one volume whose superblock block is zeroed. *)
Definition demo_unparsable : cursor :=
  image (demo_nx 6 4096 ++ demo_nx 6 4096 ++ demo_omap_phys ++ demo_node_of 4096 2 0 [omap_kv 11 5 0 4096 4] ++
         replicate 4096 x00).
Definition demo_unparsable_opened : ApfsContainer cursor :=
  {| ac_reader := demo_unparsable; ac_superblock := demo_sb 4096; ac_live_superblock_paddr := 1; ac_checkpoint_mappings := [] |}.

Lemma demo_unparsable_open : ApfsContainer_open OverflowTraps demo_unparsable = Ok demo_unparsable_opened.
Proof. vm_refl. Qed.

Lemma demo_unparsable_addrs : volume_superblock_addrs demo_unparsable_opened = Ok [4].
Proof. vm_compute. reflexivity. Qed.

Lemma demo_unparsable_block :
  Forall (fun paddr => exists block e, audit_read_block demo_unparsable paddr 4096 = Ok block /\ ApfsVolume_parse block = Err e) [4].
Proof.
  constructor; [|constructor]. exists (replicate 4096 x00), (apsb_bad_type OBJECT_TYPE_FS 0). split.
  - vm_refl.
  - vm_compute. reflexivity.
Qed.

Lemma unparsable_volumes_skipped_witness :
  nx_fs_oids (ac_superblock demo_unparsable_opened) = [11] /\
  audit_container OverflowTraps demo_unparsable 4096 = Ok [].
Proof.
  split; [reflexivity|].
  exact (unparsable_volumes_skipped OverflowTraps demo_unparsable 4096 demo_unparsable_opened [4]
    demo_unparsable_open demo_unparsable_addrs eq_refl demo_unparsable_block).
Defined.

(** An object id mapped to two blocks is reported once. *)
Example demo_reuse :
  duplicate_oid_anomalies [(1, 10); (2, 11); (1, 10); (1, 99); (2, 11)] 7 = [XidReuse 1 7].
Proof. reflexivity. Qed.

Example demo_timestamps :
  timestamp_anomalies 7 0 200 300 400 = [TimestampZeroed 7] /\ timestamp_anomalies 7 300 300 100 300 = [TimestampOrder 7].
Proof. split; reflexivity. Qed.

Example demo_crypto_detail :
  match read_keybag demo_ckb with
  | Ok st => crypto_audit st =
      [EncryptionLocked; EncryptionState (lit "encrypted=true, tags=[VolumeKey, VolumeUnlockRecords], passphrase_hint=false")]
  | _ => False
  end.
Proof. vm_compute. reflexivity. Qed.
