(* ===== verification/Fuzz.v ===== *)
(** The fuzz targets (fuzz/fuzz_targets) as functions of their input.

    A target calls the crate on arbitrary bytes and drops the result; what a run observes is whether it panicked.  The definitions keep
    the dropped values so that a target is more than its absence of effects.  [fuzz_crash_inputs] gives, for the target that drives the whole
    pipeline, the inputs on which its stated invariant (must not panic) fails, in either build profile. *)

From S2P Require Import Prelude Bytes Errors Reader Object Container Checkpoint Walk BTree Omap ApfsContainer FsRecord Report Analyzer.

(** [data[i]]: out of range is a panic. *)
Definition index {A} (data : list A) (i : Z) : result A :=
  match get_index data i with Some b => Ok b | None => Panic end.

Definition fuzz_btree_node (data : bytes) : result (option BTreeNodeHeader * list Entry) :=
  let hdr := parse_node_header data in
  let subtype := match head data with
                 | Some b => if Z.land (b2z b) 1 =? 0 then SubtypeOmap else SubtypeFsTree
                 | None => SubtypeFsTree
                 end in
  Ok (hdr, node_entries data subtype).

Definition fuzz_fsrecord (data : bytes) : result (option (Z * option RecordType) * list (Z * bytes)) :=
  jk ← (if 8 <=? blen data then
          b0 ← index data 0; b1 ← index data 1; b2 ← index data 2; b3 ← index data 3;
          b4 ← index data 4; b5 ← index data 5; b6 ← index data 6; b7 ← index data 7;
          Ok (Some (decode_jkey (from_le_bytes [b0; b1; b2; b3; b4; b5; b6; b7])))
        else Ok None);
  xs ← parse_xfields data;
  Ok (jk, xs).

Definition fuzz_forensic (prof : profile) (data : bytes) : result (list AnomalyKind) :=
  let cur := image data in
  audit_container prof cur 4096.

Definition fuzz_nx_superblock (data : bytes) : result NxSuperblock := NxSuperblock_parse data.

Definition fuzz_object (data : bytes) : result (option ObjPhys * Z) :=
  Ok (ObjPhys_parse data, fletcher64_checksum data).

(** ** The parsers *)

Lemma index_Ok {A} (data : list A) i : 0 <= i < blen data -> exists b, index data i = Ok b.
Proof.
  intros Hi. unfold index, get_index. rewrite (proj2 (Z.leb_le _ _)) by lia.
  destruct (lookup_lt_is_Some_2 data (Z.to_nat i)) as [b ->]; [unfold blen in Hi; lia|]. eauto.
Qed.

(** The eight guarded indexings never leave the buffer, and make the word [le_u64] reads. *)
Lemma fuzz_fsrecord_total (data : bytes) :
  exists xs, parse_xfields data = Ok xs /\
    fuzz_fsrecord data = Ok (if 8 <=? blen data then Some (decode_jkey (le_u64 data 0)) else None, xs).
Proof.
  destruct (parse_xfields_total data) as (xs & Hx & _). exists xs. split; [done|]. unfold fuzz_fsrecord. rewrite Hx.
  destruct (Z.leb_spec 8 (blen data)) as [Hl|_]; [|done]. clear Hx.
  do 8 (destruct data as [|? data]; [by vm_compute in Hl|]). cbn [mbind outcome_bind index get_index Z.leb Z.compare Z.to_nat Pos.to_nat Pos.iter_op Nat.add lookup list_lookup].
  unfold le_u64, arr. change (?a :: ?b :: ?c :: ?d :: ?e :: ?f :: ?g :: ?h :: data) with ([] ++ [a; b; c; d; e; f; g; h] ++ data).
  by rewrite get_range_app.
Qed.

(** ** The pipeline *)

(** The bootstrap superblock of an image: block zero, when [open] gets past it. *)
Definition bootstraps (data : bytes) (sb : NxSuperblock) : Prop :=
  exists block0, read_block0 (image data) = Ok block0 /\ NxSuperblock_parse block0 = Ok sb /\ is_fusion sb = false.

(** The ring scan adds every slot number to the base: its last sum leaves 64 bits. *)
Definition ring_overflows (sb : NxSuperblock) : Prop :=
  desc_is_tree sb = false /\ NX_MINIMUM_BLOCK_SIZE <= nx_block_size sb <= NX_MAXIMUM_BLOCK_SIZE /\
  u64_limit < xp_desc_base sb + xp_desc_blocks sb.

Lemma resolve_panics_iff (data : bytes) sb :
  NxSuperblock_wf sb ->
  resolve_live_checkpoint OverflowTraps (image data) sb = Panic <-> ring_overflows sb.
Proof.
  intros Hwf. pose proof (wf_desc_base _ Hwf) as Hb. change (2 ^ 64) with u64_limit in Hb. unfold ring_overflows. split.
  - intros Hp. destruct (Z.lt_ge_cases u64_limit (xp_desc_base sb + xp_desc_blocks sb)) as [Hlt|Hge].
    + revert Hp. unfold resolve_live_checkpoint, xp_desc_is_tree. destruct (desc_is_tree sb); [done|].
      destruct (negb _) eqn:Hn; [done|]. intros _. bool_cases. split_and!; [done|lia|lia|lia].
    + exfalso. revert Hp. apply resolve_not_Panic. intros i Hi. apply elem_of_range in Hi. unfold add_u64.
      by rewrite (proj2 (Z.ltb_lt _ _)) by lia.
  - intros (Ht & Hbs & Ho). by apply live_checkpoint_overflow_panics; [| | |lia| |apply cursor_soft_reads].
Qed.

(** C38 (safety): the inputs on which the pipeline target breaks its invariant, exactly.  In a build that wraps on overflow there are none.  In one that
    traps (as fuzzing builds do) it panics precisely on the images whose block zero is a valid, non-Fusion superblock of a valid block size whose
    contiguous descriptor area does not fit below block 2^64, and on no other bytes: everything behind the ring scan (object maps, volumes,
    snapshots, the reap lists) is free of panics. *)
Theorem fuzz_crash_inputs (data : bytes) :
  fuzz_forensic OverflowWraps data <> Panic /\
  (fuzz_forensic OverflowTraps data = Panic <-> exists sb, bootstraps data sb /\ ring_overflows sb).
Proof.
  unfold fuzz_forensic. rewrite !audit_container_Panic. split; [apply ApfsContainer_open_not_Panic|]. split.
  - intros (block0 & sb & H0 & H1 & Hf & Hp)%open_Panic. exists sb. split; [by exists block0|].
    apply resolve_panics_iff in Hp; [done|]. by eapply NxSuperblock_parse_wf.
  - intros (sb & (block0 & H0 & H1 & Hf) & Ho). unfold ApfsContainer_open. rewrite H0. cbn [mbind outcome_bind]. rewrite H1.
    cbn [mbind outcome_bind]. rewrite Hf. rewrite (proj2 (resolve_panics_iff data sb (NxSuperblock_parse_wf _ _ H1)) Ho). done.
Qed.

(** The parser targets never panic, on any bytes and in any build. *)
Theorem fuzz_parsers_never_panic (data : bytes) :
  fuzz_btree_node data <> Panic /\ fuzz_fsrecord data <> Panic /\ fuzz_nx_superblock data <> Panic /\ fuzz_object data <> Panic.
Proof.
  split_and!; [done| |apply NxSuperblock_parse_not_Panic|done].
  by destruct (fuzz_fsrecord_total data) as (xs & _ & ->).
Qed.

(** A crashing input of one block. *)
Definition crash_input : bytes :=
  let p off n v b := put b off (to_le_bytes n v) in
  stamp (p 24 4%nat 1 (p OFF_MAGIC 4%nat NX_MAGIC (p OFF_BLOCK_SIZE 4%nat 4096
    (p OFF_XP_DESC_BASE 8%nat u64_max (p OFF_XP_DESC_BLOCKS 4%nat 2 (replicate 4096 x00)))))).

Example crash_input_panics :
  fuzz_forensic OverflowTraps crash_input = Panic /\ fuzz_forensic OverflowWraps crash_input = Err (unexpected_omap_type 1).
Proof. split; vm_refl. Qed.
