(* ===== verification/Utf8.v ===== *)
(** [std::str::from_utf8] and the validity of what [String::from_utf8_lossy] returns.

    Names decoded from the image go through the lossy decoder, names asked for by a client through the strict one; the lemma
    [decode_cstr_utf8] is why a query that is not UTF-8 cannot match any decoded name. *)

From S2P Require Import Prelude Bytes Errors.

Fixpoint utf8_valid (fuel : nat) (s : bytes) : bool :=
  match s, fuel with
  | [], _ => true
  | _, O => false
  | _, S fuel => match utf8_head s with inl n => utf8_valid fuel (drop n s) | inr _ => false end
  end.

Definition from_utf8 (s : bytes) : option bytes := if utf8_valid (length s) s then Some s else None.

Example utf8_euro : from_utf8 [xe2; x82; xac] = Some [xe2; x82; xac]. Proof. reflexivity. Qed.
Example utf8_overlong : from_utf8 [xc0; x80] = None. Proof. reflexivity. Qed.
Example utf8_surrogate : from_utf8 [xed; xa0; x80] = None. Proof. reflexivity. Qed.

(** A well-formed scalar is recognised whatever follows it. *)
Lemma utf8_head_prefix s n r :
  utf8_head s = inl n -> (1 <= n <= length s)%nat /\ utf8_head (take n s ++ r) = inl n.
Proof.
  destruct s as [|b [|c1 [|c2 [|c3 s]]]]; unfold utf8_head; cbn beta zeta iota delta [lookup list_lookup]; intros Hh;
    repeat match goal with
    | H : context [if ?c then _ else _] |- _ => destruct c eqn:?; try discriminate H
    end; try discriminate Hh; injection Hh as <-; (split; [cbn [length]; lia|]); cbn beta zeta iota delta [take app lookup list_lookup];
    repeat match goal with H : ?c = _ |- context [?c] => rewrite H end; done.
Qed.

Lemma utf8_lossy_valid fuel : forall s f,
  (length (utf8_lossy fuel s) <= f)%nat -> utf8_valid f (utf8_lossy fuel s) = true.
Proof.
  induction fuel as [|fuel IH]; intros s f Hf; [by destruct f|].
  destruct s as [|b s]; [by destruct f|]. cbn [utf8_lossy] in *. destruct (utf8_head (b :: s)) as [n|n] eqn:Hh.
  - set (rest := utf8_lossy fuel (drop n (b :: s))) in *. destruct (utf8_head_prefix _ _ rest Hh) as [Hn Hh'].
    assert (length (take n (b :: s)) = n) as Hl by (rewrite length_take; lia).
    rewrite length_app, Hl in Hf. destruct f as [|f]; [lia|].
    destruct (take n (b :: s) ++ rest) as [|c l] eqn:Ht; [done|]. cbn [utf8_valid]. rewrite Hh', <-Ht.
    rewrite drop_app_length' by done. apply IH. unfold rest in Hf. lia.
  - rewrite length_app in Hf. cbn [length replacement_character] in Hf. destruct f as [|f]; [lia|].
    unfold replacement_character. cbn [app utf8_valid]. change (utf8_head _) with (inl (B := nat) 3%nat). cbn iota.
    cbn [drop]. apply IH. lia.
Qed.

(** A decoded name is valid UTF-8. *)
Lemma decode_cstr_utf8 data : from_utf8 (decode_cstr data) = Some (decode_cstr data).
Proof. unfold from_utf8, decode_cstr, from_utf8_lossy. by rewrite utf8_lossy_valid. Qed.
