(* ===== verification/Vfs.v ===== *)
(** The forensic-vfs adapter (core/src/vfs.rs): a mounted volume behind a mutex.

    [ApfsFs] keeps the reader in a [Mutex]; every method of the [FileSystem] trait takes the lock for one call of the core and releases
    it.  A panic under the lock poisons it, and every later call then fails with [poisoned]: [call] is that state machine, [session] a
    sequence of calls by any number of workers in the order in which they took the lock.

    The types of the trait are forensic-vfs's, an external crate: the variants and fields the adapter names are written out, what it does not name stands in
    [ForensicVfs].  A [DirStream] or [ExtentStream] is the list of its items. *)

From S2P Require Import Prelude Bytes Errors Reader Object Container Checkpoint Walk BTree Omap ApfsContainer FsRecord Encryption Volume Inode Dir Spaceman Extent Xattr Compression Snapshot Format Utf8.

Definition S_IFMT : Z := 0xf000.
Definition S_IFDIR : Z := 0x4000.
Definition S_IFREG : Z := 0x8000.
Definition S_IFLNK : Z := 0xa000.
Definition DT_MASK : Z := 0x0f.
Definition DT_DIR : Z := 4.
Definition DT_REG : Z := 8.
Definition DT_LNK : Z := 10.

(** What the adapter takes from forensic-vfs without looking inside: identity and stream kinds of other file systems, their
    [Debug] text, run flags, and the hexadecimal excerpt of an error. *)
Class ForensicVfs := {
  OtherId : Type;
  OtherStream : Type;
  debug_id : OtherId -> bytes;
  debug_xattr_stream : Z -> bytes;
  debug_stream : OtherStream -> bytes;
  RunFlags : Type;
  run_flags_default : RunFlags;
  set_sparse : bool -> RunFlags -> RunFlags;
  SmallHex : Type;
  SmallHex_new : bytes -> SmallHex;
  NodeStream : Type;
  NodeStream_empty : NodeStream;
}.

Section Types.
Context `{ForensicVfs}.

Inductive FileId := ApfsOid (oid xid : Z) | ForeignId (x : OtherId).
Inductive StreamId := DefaultStream | XattrStream (idx : Z) | ForeignStream (x : OtherStream).

Inductive VfsError :=
| VfsUnsupported (layer : string) (scheme : bytes)
| VfsIo (op : string) (source : io_error)
| VfsDecode (layer : string) (offset : Z) (detail : bytes) (excerpt : SmallHex)
| VfsBootstrap (stage detail : string).
End Types.

Abbreviation vfs_result := (outcome VfsError).

Inductive NodeKind := NodeDir | NodeFile | NodeSymlink | NodeOther.
Inductive Residency := NonResident | Resident (inline_len : Z).
Inductive StreamKind := ApfsNamed | XattrKind.
Inductive RunAlloc := RunAllocated | RunUnallocated.
Inductive Allocation := Allocated.
Inductive TimeSource := InodeTable.
Inductive TimeResolution := Nanos.
Inductive FsKind := APFS.
Inductive TimeZonePolicy := Utc.

Record TimeStamp := { unix_nanos : Z; ts_source : TimeSource; ts_resolution : TimeResolution }.
Record MacbTimes := {
  born : option TimeStamp;
  modified : option TimeStamp;
  changed : option TimeStamp;
  accessed : option TimeStamp;
}.
Record SectorSizes := { logical : Z; physical : Z; cluster_or_block : Z }.

Section Records.
Context `{ForensicVfs}.

Record VfsDirEntry := { vde_kind : NodeKind; vde_name : bytes; vde_id : FileId }.
Record ByteRun := { image_offset : Z; run_len : Z; run_flags : RunFlags }.
Record RunInfo := { ri_run : ByteRun; ri_alloc : RunAlloc }.
Record StreamInfo := {
  si_id : StreamId;
  si_name : option bytes;
  si_size : Z;
  si_residency : Residency;
  si_kind : StreamKind;
}.
Record FsMeta := {
  fm_ino : Z;
  fm_kind : NodeKind;
  fm_allocated : Allocation;
  fm_size : Z;
  fm_nlink : Z;
  fm_uid : option Z;
  fm_gid : option Z;
  fm_mode : option Z;
  fm_times : MacbTimes;
  fm_streams : list StreamInfo;
  fm_residency : Residency;
  fm_link_target : option bytes;
}.
End Records.

(** ** Conversions *)

Definition dt_to_kind (flags : Z) : NodeKind :=
  let ty := Z.land flags DT_MASK in
  if ty =? DT_DIR then NodeDir else if ty =? DT_REG then NodeFile else if ty =? DT_LNK then NodeSymlink else NodeOther.

Definition mode_to_kind (mode : Z) : NodeKind :=
  let ty := Z.land mode S_IFMT in
  if ty =? S_IFDIR then NodeDir else if ty =? S_IFREG then NodeFile else if ty =? S_IFLNK then NodeSymlink else NodeOther.

Section Conversions.
Context `{ForensicVfs} `{IoDisplay}.

Definition oid_of (id : FileId) : vfs_result Z :=
  match id with
  | ApfsOid oid _ => Ok oid
  | ForeignId x => Err (VfsUnsupported "apfs file-id" (debug_id x))
  end.

Definition require_default_stream (stream : StreamId) : vfs_result unit :=
  match stream with
  | DefaultStream => Ok tt
  | XattrStream idx => Err (VfsUnsupported "apfs stream" (debug_xattr_stream idx))
  | ForeignStream x => Err (VfsUnsupported "apfs stream" (debug_stream x))
  end.

Definition map_err (e : ApfsError) : VfsError :=
  match e with
  | Io source => VfsIo "apfs read" source
  | other => VfsDecode "apfs" 0 (ApfsError_to_string other) (SmallHex_new [])
  end.

(** [.map_err(map_err)]. *)
Definition vfs {A} (m : result A) : vfs_result A :=
  match m with
  | Ok a => Ok a
  | Err e => Err (map_err e)
  | Panic => Panic
  end.

Definition poisoned : VfsError := VfsBootstrap "apfs reader lock" "interior reader mutex poisoned".

Definition unallocated_runs (runs : list (Z * Z)) (block_size : Z) : list RunInfo :=
  (fun r => {| ri_run := {| image_offset := saturating_mul r.1 block_size;
                            run_len := saturating_mul r.2 block_size;
                            run_flags := run_flags_default |};
               ri_alloc := RunUnallocated |}) <$> runs.

Definition build_meta (inode : Inode) : FsMeta :=
  let ts ns := {| unix_nanos := ns; ts_source := InodeTable; ts_resolution := Nanos |} in
  {| fm_ino := ino_oid inode;
     fm_kind := mode_to_kind (ino_mode inode);
     fm_allocated := Allocated;
     fm_size := default 0 (ino_size inode);
     fm_nlink := Z.max (ino_nlink_or_nchildren inode) 0;
     fm_uid := Some (ino_uid inode);
     fm_gid := Some (ino_gid inode);
     fm_mode := Some (ino_mode inode);
     fm_times := {| born := Some (ts (ino_create_time inode)); modified := Some (ts (ino_mod_time inode));
                    changed := Some (ts (ino_change_time inode)); accessed := Some (ts (ino_access_time inode)) |};
     fm_streams := [];
     fm_residency := NonResident;
     fm_link_target := None |}.

(** The stream listing entry of the attribute at position [i]; ids are 16 bits wide and saturate. *)
Definition xattr_stream (i : Z) (x : Xattr) : StreamInfo :=
  let '(len, residency) :=
    match xa_value x with
    | Embedded b => (blen b, Resident (if blen b <? 2 ^ 32 then blen b else 2 ^ 32 - 1))
    | Stream _ size => (size, NonResident)
    end in
  {| si_id := XattrStream (if i <? 2 ^ 16 then i else 2 ^ 16 - 1);
     si_name := Some (xa_name x);
     si_size := len;
     si_residency := residency;
     si_kind := XattrKind |}.

Definition default_stream (size : Z) : StreamInfo :=
  {| si_id := DefaultStream; si_name := None; si_size := size; si_residency := NonResident; si_kind := ApfsNamed |}.

(** The copy at the end of both reads: how many bytes, and the caller's buffer after it. *)
Definition copy_window (data : bytes) (off : Z) (buf : bytes) : Z * bytes :=
  let start := off in
  if blen data <=? start then (0, buf)
  else
    let n := Z.min (blen buf) (blen data - start) in
    match get_range buf 0 n, get_range data start (start + n) with
    | Some _, Some src => (n, put buf 0 src)
    | _, _ => (0, buf)
    end.
End Conversions.

(** ** The mounted volume *)

Record Mutex (R : Type) := { mx_poisoned : bool; mx_inner : R }.
Arguments mx_poisoned {R}.
Arguments mx_inner {R}.

Record ApfsFs (R : Type) := {
  fs_reader : Mutex R;
  fs_volume : ApfsVolume;
  fs_block_size : Z;
  fs_root_xid : Z;
  fs_spaceman_paddr : option Z;
}.
Arguments fs_reader {R}.
Arguments fs_volume {R}.
Arguments fs_block_size {R}.
Arguments fs_root_xid {R}.
Arguments fs_spaceman_paddr {R}.
Arguments Build_ApfsFs {R}.

Section Open.
Context {R} `{ReadSeek R} (prof : profile).

Definition new_mutex (r : R) : Mutex R := {| mx_poisoned := false; mx_inner := r |}.

Definition open_first_volume (reader : R) : result (R * ApfsVolume * Z * option Z) :=
  container ← ApfsContainer_open prof reader;
  let block_size := nx_block_size (ac_superblock container) in
  addrs ← volume_superblock_addrs container;
  vaddr ← ok_or (head addrs) (NoValidSuperblock 0 0);
  let sm := spaceman_paddr container in
  let reader := ac_reader container in
  let offset := saturating_mul vaddr block_size in
  buf ← read_at reader offset block_size;
  volume ← ApfsVolume_parse buf;
  Ok (reader, volume, block_size, sm).

Definition ApfsFs_open (reader : R) : result (ApfsFs R) :=
  '(reader, volume, block_size, sm) ← open_first_volume reader;
  Ok {| fs_reader := new_mutex reader; fs_volume := volume; fs_block_size := block_size;
        fs_root_xid := vol_xid volume; fs_spaceman_paddr := sm |}.

Definition ApfsFs_open_snapshot (reader : R) (xid : Z) : result (ApfsFs R) :=
  '(reader, live, block_size, sm) ← open_first_volume reader;
  if xid =? vol_xid live then
    Ok {| fs_reader := new_mutex reader; fs_volume := live; fs_block_size := block_size;
          fs_root_xid := xid; fs_spaceman_paddr := sm |}
  else
    snaps ← list_snapshots reader live block_size;
    snapshot ← ok_or (snd <$> list_find (fun s => sn_xid s = xid) snaps) (SnapshotNotFound xid);
    volume ← mount_snapshot reader live snapshot block_size;
    Ok {| fs_reader := new_mutex reader; fs_volume := volume; fs_block_size := block_size;
          fs_root_xid := xid; fs_spaceman_paddr := sm |}.

Definition ApfsFs_snapshots (reader : R) : result (list Snapshot) :=
  '(reader, volume, block_size, _) ← open_first_volume reader;
  list_snapshots reader volume block_size.
End Open.

Section Methods.
Context `{ForensicVfs} `{IoDisplay} `{DecmpfsFormat} `{Codecs} {R} `{ReadSeek R} `{XtsCipher}.

(** [self.reader.lock().map_err(|_| poisoned())?]. *)
Definition lock (fs : ApfsFs R) : vfs_result R :=
  if mx_poisoned (fs_reader fs) then Err poisoned else Ok (mx_inner (fs_reader fs)).

Definition vfs_kind (fs : ApfsFs R) : FsKind := APFS.
Definition vfs_root (fs : ApfsFs R) : FileId := ApfsOid ROOT_DIR_INO_NUM (fs_root_xid fs).
Definition vfs_sector_sizes (fs : ApfsFs R) : SectorSizes :=
  let bs := fs_block_size fs mod 2 ^ 32 in
  {| logical := bs; physical := bs; cluster_or_block := bs |}.
Definition vfs_timestamp_zone (fs : ApfsFs R) : TimeZonePolicy := Utc.

Definition vfs_read_dir (fs : ApfsFs R) (ino : FileId) : vfs_result (list (vfs_result VfsDirEntry)) :=
  parent ← oid_of ino;
  let xid := fs_root_xid fs in
  guard ← lock fs;
  entries ← vfs (list_dir guard (fs_volume fs) parent (fs_block_size fs));
  Ok (map (fun e => Ok {| vde_kind := dt_to_kind (de_flags e); vde_name := de_name e; vde_id := ApfsOid (de_file_id e) xid |})
        entries).

Definition vfs_extents (fs : ApfsFs R) (ino : FileId) (stream : StreamId) : vfs_result (list (vfs_result RunInfo)) :=
  node ← oid_of ino;
  let bs := fs_block_size fs in
  _ ← require_default_stream stream;
  guard ← lock fs;
  inode ← vfs (load_inode guard (fs_volume fs) node bs);
  exts ← vfs (list_extents guard (fs_volume fs) (ino_private_id inode) bs);
  Ok (map (fun x =>
         let sparse := fe_phys_block_num x =? 0 in
         Ok {| ri_run := {| image_offset := saturating_mul (fe_phys_block_num x) bs; run_len := fe_len x;
                            run_flags := set_sparse sparse run_flags_default |};
               ri_alloc := RunAllocated |}) exts).

Definition vfs_lookup (fs : ApfsFs R) (parent : FileId) (name : bytes) : vfs_result (option FileId) :=
  parent ← oid_of parent;
  let xid := fs_root_xid fs in
  match from_utf8 name with
  | None => Ok None
  | Some name =>
      guard ← lock fs;
      found ← vfs (lookup_child guard (fs_volume fs) parent name (fs_block_size fs));
      Ok (option_map (fun oid => ApfsOid oid xid) found)
  end.

Definition vfs_meta (fs : ApfsFs R) (ino : FileId) : vfs_result FsMeta :=
  node ← oid_of ino;
  guard ← lock fs;
  inode ← vfs (load_inode guard (fs_volume fs) node (fs_block_size fs));
  Ok (build_meta inode).

Definition vfs_data_streams (fs : ApfsFs R) (ino : FileId) : vfs_result (list StreamInfo) :=
  node ← oid_of ino;
  let bs := fs_block_size fs in
  guard ← lock fs;
  inode ← vfs (load_inode guard (fs_volume fs) node bs);
  let size := default 0 (ino_size inode) in
  xs ← vfs (list_xattrs guard (fs_volume fs) node bs);
  Ok (default_stream size :: imap (fun i x => xattr_stream (Z.of_nat i) x) xs).

Definition read_xattr_at (fs : ApfsFs R) (node idx off : Z) (buf : bytes) : vfs_result (Z * bytes) :=
  let bs := fs_block_size fs in
  guard ← lock fs;
  xs ← vfs (list_xattrs guard (fs_volume fs) node bs);
  match xs !! Z.to_nat idx with
  | None => Ok (0, buf)
  | Some x =>
      data ← match xa_value x with
             | Embedded b => Ok b
             | Stream dstream_oid size => vfs (read_stream guard (fs_volume fs) dstream_oid size bs)
             end;
      Ok (copy_window data off buf)
  end.

Definition vfs_read_at (fs : ApfsFs R) (ino : FileId) (stream : StreamId) (off : Z) (buf : bytes)
  : vfs_result (Z * bytes) :=
  node ← oid_of ino;
  match stream with
  | XattrStream idx => read_xattr_at fs node idx off buf
  | _ =>
      _ ← require_default_stream stream;
      let bs := fs_block_size fs in
      guard ← lock fs;
      inode ← vfs (load_inode guard (fs_volume fs) node bs);
      data ← vfs (read_data guard (fs_volume fs) inode bs);
      Ok (copy_window data off buf)
  end.

Definition vfs_read_link (fs : ApfsFs R) (ino : FileId) (cap : Z) : vfs_result bytes := Ok [].

Definition vfs_deleted (fs : ApfsFs R) : vfs_result NodeStream := Ok NodeStream_empty.

Definition vfs_unallocated (fs : ApfsFs R) : vfs_result (list (vfs_result RunInfo)) :=
  sm_paddr ← ok_or (fs_spaceman_paddr fs)
               (VfsBootstrap "apfs spaceman" "nx_spaceman_oid did not resolve through the checkpoint map");
  let bs := fs_block_size fs in
  guard ← lock fs;
  runs ← vfs (free_block_runs guard bs sm_paddr);
  Ok (map Ok (unallocated_runs runs bs)).

(** ** Calls *)

Inductive request :=
| ReadDir (ino : FileId)
| Extents (ino : FileId) (stream : StreamId)
| Lookup (parent : FileId) (name : bytes)
| Meta (ino : FileId)
| DataStreams (ino : FileId)
| ReadAt (ino : FileId) (stream : StreamId) (off : Z) (buf : bytes)
| ReadLink (ino : FileId) (cap : Z)
| Deleted
| Unallocated.

Inductive response :=
| DirStream (l : list (vfs_result VfsDirEntry))
| ExtentStream (l : list (vfs_result RunInfo))
| Found (id : option FileId)
| MetaIs (m : FsMeta)
| Streams (l : list StreamInfo)
| Copied (n : Z) (buf : bytes)
| LinkTarget (t : bytes)
| Nodes (l : NodeStream).

Definition serve (fs : ApfsFs R) (req : request) : vfs_result response :=
  match req with
  | ReadDir ino => DirStream <$> vfs_read_dir fs ino
  | Extents ino stream => ExtentStream <$> vfs_extents fs ino stream
  | Lookup parent name => Found <$> vfs_lookup fs parent name
  | Meta ino => MetaIs <$> vfs_meta fs ino
  | DataStreams ino => Streams <$> vfs_data_streams fs ino
  | ReadAt ino stream off buf => (fun nb => Copied nb.1 nb.2) <$> vfs_read_at fs ino stream off buf
  | ReadLink ino cap => LinkTarget <$> vfs_read_link fs ino cap
  | Deleted => Nodes <$> vfs_deleted fs
  | Unallocated => ExtentStream <$> vfs_unallocated fs
  end.

Definition poison (fs : ApfsFs R) : ApfsFs R :=
  {| fs_reader := {| mx_poisoned := true; mx_inner := mx_inner (fs_reader fs) |}; fs_volume := fs_volume fs;
     fs_block_size := fs_block_size fs; fs_root_xid := fs_root_xid fs; fs_spaceman_paddr := fs_spaceman_paddr fs |}.

(** One call: a panic while the guard is alive poisons the mutex as the guard is dropped. *)
Definition call (fs : ApfsFs R) (req : request) : ApfsFs R * vfs_result response :=
  let res := serve fs req in
  (match res with Panic => poison fs | _ => fs end, res).

(** Calls in the order in which they were served, with their answers. *)
Inductive session : ApfsFs R -> list (request * vfs_result response) -> ApfsFs R -> Prop :=
| session_nil fs : session fs [] fs
| session_cons fs req fs' res log fs'' :
    call fs req = (fs', res) -> session fs' log fs'' -> session fs ((req, res) :: log) fs''.
End Methods.
