(* ===== verification/VfsSpec.v ===== *)
(** What the adapter of [Vfs] promises its clients: mounts are well formed and stay usable whatever the calls, names and listings agree, windows are
    slices of the file, listed streams have their listed length, free space is the space manager's; and where it falls short:
    identities are not checked against the mounted transaction, compressed files are listed as empty, stream ids collide past 65536. *)

From S2P Require Import Prelude Bytes Errors Reader Object Container Checkpoint Walk BTree NodeLayout Omap ApfsContainer FsRecord Encryption Volume Inode Dir Spaceman Extent Xattr Compression Snapshot DemoVolume Format Utf8 Vfs.

(** ** Mounting *)

Section Mounting.
Context {R} `{ReadSeek R} (prof : profile).

(** A usable mount: the lock is free, the block size is one of the format, and no key is set. *)
Record fs_wf (fs : ApfsFs R) : Prop := {
  wf_lock : mx_poisoned (fs_reader fs) = false;
  wf_block_size : NX_MINIMUM_BLOCK_SIZE <= fs_block_size fs <= NX_MAXIMUM_BLOCK_SIZE;
  wf_no_key : vol_vek (fs_volume fs) = None;
}.

Lemma open_first_volume_wf reader r v bs sm :
  open_first_volume prof reader = Ok (r, v, bs, sm) ->
  r = reader /\ NX_MINIMUM_BLOCK_SIZE <= bs <= NX_MAXIMUM_BLOCK_SIZE /\ vol_vek v = None /\
  exists c addr addrs buf,
    ApfsContainer_open prof reader = Ok c /\ volume_superblock_addrs c = Ok (addr :: addrs) /\
    bs = nx_block_size (ac_superblock c) /\ sm = spaceman_paddr c /\
    read_at reader (saturating_mul addr bs) bs = Ok buf /\ ApfsVolume_parse buf = Ok v.
Proof.
  unfold open_first_volume. intros Ho. apply bind_Ok_iff in Ho as (c & Hc & Ho).
  apply bind_Ok_iff in Ho as (addrs & Ha & Ho). apply bind_Ok_iff in Ho as (a & Hhd & Ho).
  apply bind_Ok_iff in Ho as (buf & Hb & Ho). apply bind_Ok_iff in Ho as (v' & Hv & Ho). injection Ho as <- <- <- <-.
  apply ok_or_Ok_iff in Hhd. destruct addrs as [|a' addrs]; [done|]. injection Hhd as ->.
  assert (ac_reader c = reader) as Hr.
  { unfold ApfsContainer_open in Hc. apply bind_Ok_iff in Hc as (b0 & _ & Hc). apply bind_Ok_iff in Hc as (sb & _ & Hc).
    destruct (is_fusion sb); [done|]. apply bind_Ok_iff in Hc as (lc & _ & Hc). apply bind_Ok_iff in Hc as (bf & _ & Hc).
    apply bind_Ok_iff in Hc as (s & _ & Hc). injection Hc as <-. done. }
  rewrite Hr in Hb |- *. split; [done|]. split.
  { unfold volume_superblock_addrs in Ha. destruct (negb _) eqn:Hn; [done|]. apply negb_false_iff in Hn. bool_cases. lia. }
  split; [by apply ApfsVolume_parse_gates in Hv as (_ & _ & _ & _ & _ & ? & _)|].
  exists c, a, addrs, buf. by split_and!.
Qed.

Lemma ApfsFs_open_wf reader fs : ApfsFs_open prof reader = Ok fs -> fs_wf fs.
Proof.
  intros Ho. apply bind_Ok_iff in Ho as ([[[r v] bs] sm] & Hf & [= <-]).
  apply open_first_volume_wf in Hf as (-> & Hb & Hk & _). by split.
Qed.

Lemma ApfsFs_open_snapshot_wf reader xid fs : ApfsFs_open_snapshot prof reader xid = Ok fs -> fs_wf fs.
Proof.
  intros Ho. apply bind_Ok_iff in Ho as ([[[r v] bs] sm] & Hf & Ho).
  apply open_first_volume_wf in Hf as (-> & Hb & Hk & _). destruct (_ =? _); [injection Ho as <-; by split|].
  apply bind_Ok_iff in Ho as (snaps & _ & Ho). apply bind_Ok_iff in Ho as (sn & _ & Ho).
  apply bind_Ok_iff in Ho as (v' & Hm & [= <-]). split; [done|done|]. cbn [fs_volume].
  unfold mount_snapshot in Hm. apply bind_Ok_iff in Hm as (buf & _ & Hm). apply bind_Ok_iff in Hm as (v0 & Hv & [= <-]).
  by apply ApfsVolume_parse_gates in Hv as (_ & _ & _ & _ & _ & ? & _).
Qed.

(** C23 (functional): mounting at a transaction: the live transaction gives exactly the live mount; any other gives the frozen volume of the first retained
    snapshot of that transaction, stamped with it; and a transaction that is neither is refused by name. *)
Theorem open_snapshot_spec (reader : R) (live : ApfsFs R) (snaps : list Snapshot) (xid : Z) :
  ApfsFs_open prof reader = Ok live -> ApfsFs_snapshots prof reader = Ok snaps ->
  ApfsFs_open_snapshot prof reader xid =
    (if decide (xid = fs_root_xid live) then Ok live
     else match list_find (fun s => sn_xid s = xid) snaps with
          | None => Err (SnapshotNotFound xid)
          | Some (_, s) =>
              v ← mount_snapshot reader (fs_volume live) s (fs_block_size live);
              Ok {| fs_reader := fs_reader live; fs_volume := v; fs_block_size := fs_block_size live;
                    fs_root_xid := xid; fs_spaceman_paddr := fs_spaceman_paddr live |}
          end).
Proof.
  unfold ApfsFs_open, ApfsFs_snapshots, ApfsFs_open_snapshot. intros Ho Hs.
  apply bind_Ok_iff in Ho as ([[[r v] bs] sm] & Hf & [= <-]). rewrite Hf in Hs |- *. cbn [mbind outcome_bind] in Hs |- *.
  apply open_first_volume_wf in Hf as (-> & _). cbn [fs_root_xid fs_volume fs_block_size fs_reader fs_spaceman_paddr].
  destruct (Z.eqb_spec xid (vol_xid v)) as [->|Hne]; [by rewrite decide_True|]. rewrite decide_False by done.
  rewrite Hs. cbn [mbind outcome_bind]. by destruct (list_find _ _) as [[i s]|].
Qed.
End Mounting.

(** ** Sessions *)

Section Sessions.
Context `{ForensicVfs} `{IoDisplay} `{DecmpfsFormat} `{Codecs} {R} `{ReadSeek R} `{XtsCipher}.

Lemma vfs_not_Panic {A} (m : result A) : m <> Panic -> vfs m <> Panic.
Proof. by destruct m. Qed.

Lemma lock_not_Panic (fs : ApfsFs R) : lock fs <> Panic.
Proof. unfold lock. by destruct (mx_poisoned _). Qed.

Lemma oid_of_not_Panic id : oid_of id <> Panic.
Proof. by destruct id. Qed.

Lemma require_not_Panic s : require_default_stream s <> Panic.
Proof. by destruct s. Qed.

Lemma lock_Ok (fs : ApfsFs R) : mx_poisoned (fs_reader fs) = false -> lock fs = Ok (mx_inner (fs_reader fs)).
Proof. unfold lock. by intros ->. Qed.

#[local] Hint Resolve lock_not_Panic oid_of_not_Panic require_not_Panic vfs_not_Panic list_dir_not_Panic list_extents_not_Panic
  load_inode_not_Panic lookup_child_not_Panic list_xattrs_not_Panic read_stream_not_Panic read_data_not_Panic free_block_runs_not_Panic : apfs.

Lemma serve_not_Panic `{!CodecsReturn} (fs : ApfsFs R) req :
  0 < fs_block_size fs -> decryptable (vol_vek (fs_volume fs)) (fs_block_size fs) -> serve fs req <> Panic.
Proof.
  intros Hb Hd. assert (0 <= fs_block_size fs) as Hb0 by lia.
  destruct req; cbn [serve]; apply fmap_not_Panic;
    unfold vfs_read_dir, vfs_extents, vfs_lookup, vfs_meta, vfs_data_streams, vfs_read_at, read_xattr_at, vfs_read_link, vfs_deleted, vfs_unallocated;
    no_panic.
Qed.

(** Calls that were answered as by a handle [fs], without a panic. *)
Definition answered (fs : ApfsFs R) : list (request * vfs_result response) -> Prop :=
  Forall (fun qr => qr.2 = serve fs qr.1 /\ qr.2 <> Panic).

(** C6 (safety): a mounted volume, live or snapshot, is never poisoned: whatever is asked of it, in whatever order, no call panics, every call is answered as if it were
    the only one, and the handle stays as it was mounted; provided the codecs of compressed files return on every stream. *)
Theorem mounted_session_safe `{!CodecsReturn} (prof : profile) (reader : R) (fs fs' : ApfsFs R) (log : list (request * vfs_result response)) :
  ApfsFs_open prof reader = Ok fs \/ (exists xid, ApfsFs_open_snapshot prof reader xid = Ok fs) ->
  session fs log fs' -> fs' = fs /\ lock fs' = Ok (mx_inner (fs_reader fs)) /\ answered fs log.
Proof.
  intros Ho Hs. assert (fs_wf fs) as [Hl Hb Hk].
  { destruct Ho as [Ho|[xid Ho]]; [by eapply ApfsFs_open_wf|by eapply ApfsFs_open_snapshot_wf]. }
  assert (forall req, serve fs req <> Panic) as Hn.
  { intros req. apply serve_not_Panic; [unfold NX_MINIMUM_BLOCK_SIZE in Hb; lia|by left]. }
  clear Ho. rewrite <-(lock_Ok fs Hl). induction Hs as [fs|fs req fs1 res log fs' Hc _ IH]; [by split_and!; [..|constructor]|].
  injection Hc as <- <-. specialize (Hn req) as Hq.
  destruct (serve fs req) as [a|e|] eqn:Hsv; [| |done]; (destruct (IH Hl Hb Hk Hn) as (-> & ? & ?); split_and!; [done|done|by constructor]).
Qed.
End Sessions.

(** ** Windows *)

Section Windows.
Context `{ForensicVfs} `{IoDisplay} `{DecmpfsFormat} `{Codecs} {R} `{ReadSeek R} `{XtsCipher}.

Lemma copy_window_spec data off buf :
  0 <= off ->
  let n := Z.to_nat (Z.min (blen buf) (Z.max 0 (blen data - off))) in
  copy_window data off buf = (Z.of_nat n, take n (drop (Z.to_nat off) data) ++ drop n buf).
Proof.
  intros Ho n. unfold copy_window. destruct (Z.leb_spec (blen data) off).
  { assert (n = 0%nat) as -> by (unfold n; pose proof (blen_nonneg buf); lia). done. }
  pose proof (blen_nonneg buf). set (m := Z.min (blen buf) (blen data - off)).
  assert (0 <= m) as Hm by lia. assert (Z.of_nat n = m) as Hn by lia.
  assert (get_range buf 0 m = Some (take n buf)) as ->.
  { apply get_range_Some. split_and!; [lia|lia|lia|]. rewrite Z.sub_0_r. f_equal. lia. }
  assert (get_range data off (off + m) = Some (take n (drop (Z.to_nat off) data))) as ->.
  { apply get_range_Some. split_and!; [lia|lia|lia|]. f_equal. lia. }
  rewrite <-Hn. f_equal. unfold put. change (Z.to_nat 0) with 0%nat. cbn [take app].
  assert (Z.to_nat (0 + blen (take n (drop (Z.to_nat off) data))) = n) as ->; [|done].
  unfold blen in *. rewrite length_take, length_drop. lia.
Qed.

(** The window a read of the default stream copies, once the inode and its content are read. *)
Lemma vfs_read_at_default (fs : ApfsFs R) oid x off buf inode data :
  mx_poisoned (fs_reader fs) = false ->
  load_inode (mx_inner (fs_reader fs)) (fs_volume fs) oid (fs_block_size fs) = Ok inode ->
  read_data (mx_inner (fs_reader fs)) (fs_volume fs) inode (fs_block_size fs) = Ok data ->
  vfs_read_at fs (ApfsOid oid x) DefaultStream off buf = Ok (copy_window data off buf).
Proof.
  intros Hp Hi Hd. unfold vfs_read_at. cbn [oid_of require_default_stream mbind outcome_bind].
  rewrite (lock_Ok fs Hp). cbn [mbind outcome_bind]. rewrite Hi. cbn [vfs mbind outcome_bind]. by rewrite Hd.
Qed.

(** A client that reads windows of [chunk] bytes until it gets none. *)
Fixpoint read_to_end (fuel : nat) (fs : ApfsFs R) (ino : FileId) (chunk : nat) (off : Z) : vfs_result bytes :=
  match fuel with
  | O => Panic
  | S fuel =>
      '(n, buf) ← vfs_read_at fs ino DefaultStream off (replicate chunk x00);
      if n =? 0 then Ok []
      else rest ← read_to_end fuel fs ino chunk (off + n); Ok (take (Z.to_nat n) buf ++ rest)
  end.

Lemma read_to_end_from (fs : ApfsFs R) oid x inode data chunk fuel : forall off,
  mx_poisoned (fs_reader fs) = false ->
  load_inode (mx_inner (fs_reader fs)) (fs_volume fs) oid (fs_block_size fs) = Ok inode ->
  read_data (mx_inner (fs_reader fs)) (fs_volume fs) inode (fs_block_size fs) = Ok data ->
  (0 < chunk)%nat -> 0 <= off -> (length data - Z.to_nat off < fuel)%nat ->
  read_to_end fuel fs (ApfsOid oid x) chunk off = Ok (drop (Z.to_nat off) data).
Proof.
  induction fuel as [|fuel IH]; intros off Hp Hi Hd Hc Ho Hf; cbn [read_to_end].
  { lia. }
  rewrite (vfs_read_at_default fs oid x off (replicate chunk x00) inode data Hp Hi Hd).
  rewrite copy_window_spec by done. set (n := Z.to_nat _). cbn [mbind outcome_bind].
  assert (n = Nat.min chunk (length data - Z.to_nat off))%nat as Hn.
  { unfold n, blen. rewrite length_replicate. lia. }
  destruct (Z.eqb_spec (Z.of_nat n) 0) as [Hz|Hz].
  { rewrite drop_ge by lia. done. }
  rewrite IH by (done || lia). cbn [mbind outcome_bind]. f_equal. rewrite Nat2Z.id.
  rewrite take_app_length' by (rewrite length_take, length_drop; lia).
  replace (Z.to_nat (off + Z.of_nat n)) with (Z.to_nat off + n)%nat by lia.
  rewrite <-drop_drop. apply take_drop.
Qed.

(** C22 (termination): a client that reads a file window by window, with any window size and advancing by what it got, ends, and the windows it got
    put together are exactly the file: [read_data] of its inode. *)
Theorem read_to_end_whole (fs : ApfsFs R) (oid x : Z) (inode : Inode) (data : bytes) (chunk fuel : nat) :
  mx_poisoned (fs_reader fs) = false ->
  load_inode (mx_inner (fs_reader fs)) (fs_volume fs) oid (fs_block_size fs) = Ok inode ->
  read_data (mx_inner (fs_reader fs)) (fs_volume fs) inode (fs_block_size fs) = Ok data ->
  (0 < chunk)%nat -> (length data < fuel)%nat ->
  read_to_end fuel fs (ApfsOid oid x) chunk 0 = Ok data.
Proof.
  intros Hp Hi Hd Hc Hf. rewrite (read_to_end_from fs oid x inode data) by (done || lia). by rewrite drop_0.
Qed.

End Windows.

(** C7 (functional): bytes served through the adapter: a window of an uncompressed file on an image gets as many bytes as the buffer takes and the file has
    from the offset on, each the byte its extent maps it to on the image, zero in a hole; the rest of the caller's buffer is left alone. *)
Theorem vfs_read_at_content `{ForensicVfs} `{IoDisplay} `{DecmpfsFormat} `{Codecs} `{XtsCipher}
    (fs : ApfsFs cursor) (oid x off n : Z) (buf buf' : bytes) (inode : Inode) (exts : list FileExtent) :
  let c := mx_inner (fs_reader fs) in
  let size := default 0 (ino_size inode) in
  0 <= off -> 0 <= fs_block_size fs ->
  load_inode c (fs_volume fs) oid (fs_block_size fs) = Ok inode ->
  decmpfs_header c (fs_volume fs) (ino_oid inode) (fs_block_size fs) = Ok None ->
  list_extents c (fs_volume fs) (ino_private_id inode) (fs_block_size fs) = Ok exts ->
  vfs_read_at fs (ApfsOid oid x) DefaultStream off buf = Ok (n, buf') ->
  n = Z.min (blen buf) (Z.max 0 (size - off)) /\ drop (Z.to_nat n) buf' = drop (Z.to_nat n) buf /\
  (forall k, 0 <= k < n ->
     get_index buf' k = stream_byte c (vol_vek (fs_volume fs)) (fs_block_size fs) exts (off + k)).
Proof.
  intros c size Ho Hb Hi Hh Hx Hr. assert (mx_poisoned (fs_reader fs) = false) as Hp.
  { revert Hr. unfold vfs_read_at, lock. cbn [oid_of require_default_stream mbind outcome_bind].
    by destruct (mx_poisoned (fs_reader fs)). }
  assert (exists data, read_data c (fs_volume fs) inode (fs_block_size fs) = Ok data) as [data Hd].
  { revert Hr. unfold vfs_read_at. cbn [oid_of require_default_stream mbind outcome_bind]. rewrite (lock_Ok fs Hp).
    cbn [mbind outcome_bind]. fold c. rewrite Hi. cbn [vfs mbind outcome_bind].
    destruct (read_data c (fs_volume fs) inode (fs_block_size fs)) as [data| |]; [eauto|done|done]. }
  rewrite (vfs_read_at_default fs oid x off buf inode data Hp Hi Hd) in Hr. injection Hr as Hr.
  rewrite copy_window_spec in Hr by done. apply load_inode_typed in Hi as [(Hq & _) _].
  rewrite !Forall_cons in Hq. destruct Hq as (_ & _ & _ & _ & _ & _ & _ & [Hs _] & _). fold size in Hs.
  unfold read_data in Hd. rewrite Hh in Hd. cbn [mbind outcome_bind] in Hd. fold size in Hd.
  assert (blen data = size) as Hl.
  { apply (read_stream_blen c (fs_volume fs) (ino_private_id inode) size (fs_block_size fs)); [lia|done|done]. }
  rewrite Hl in Hr.
  pose proof (blen_nonneg buf) as Hbn. injection Hr as <- <-. set (m := Z.min _ _). rewrite !Z2Nat.id by lia.
  set (win := take (Z.to_nat m) (drop (Z.to_nat off) data)).
  assert (length win = Z.to_nat m) as Hw by (unfold win, blen in *; rewrite length_take, length_drop; lia).
  split_and!; [done|by rewrite drop_app_length'|]. intros k Hk.
  rewrite get_index_app_l by (unfold blen; lia).
  rewrite <-(read_stream_byte c (fs_volume fs) (ino_private_id inode) size (fs_block_size fs) exts data (off + k)) by (done || lia).
  unfold get_index. rewrite !(proj2 (Z.leb_le _ _)) by lia. unfold win. rewrite lookup_take_lt, lookup_drop by lia. f_equal. lia.
Qed.

(** ** Metadata *)

Lemma file_type_bits m : 0 <= m < 2 ^ 16 -> Z.land m S_IFMT = m / 4096 * 4096.
Proof.
  intros Hm. change 4096 with (2 ^ 12). rewrite <-Z.shiftl_mul_pow2, <-Z.shiftr_div_pow2 by lia. apply Z.bits_inj'. intros n Hn.
  rewrite Z.land_spec, Z.shiftl_spec by done. destruct (Z.ltb_spec n 12) as [H12|H12].
  - rewrite (Z.testbit_neg_r _ (n - 12)) by lia. change S_IFMT with (Z.shiftl 15 12). rewrite Z.shiftl_spec_low by lia. apply andb_false_r.
  - rewrite Z.shiftr_spec by lia. replace (n - 12 + 12) with n by lia. destruct (Z.ltb_spec n 16) as [H16|H16].
    + change S_IFMT with (Z.shiftl (Z.ones 4) 12). rewrite Z.shiftl_spec, Z.ones_spec_low by lia. apply andb_true_r.
    + rewrite <-(Z.mod_small m (2 ^ 16)) by done. by rewrite !Z.mod_pow2_bits_high by lia.
Qed.

Section Metadata.
Context `{ForensicVfs} `{IoDisplay} {R} `{ReadSeek R} `{XtsCipher}.

(** C27 (round trip): the metadata the adapter serves is what the volume stores.  On a volume whose tree is stored in key order, the node whose
    first inode record holds [i] in the on-disk layout is served with [i]'s number, owner, group, mode and size (zero without a data stream),
    its type from the top four bits of the mode, its link count with a negative one shown as zero, and its four times each in its own place, in
    nanoseconds; a node without an inode record is an error that names it. *)
Theorem vfs_meta_stored (fs : ApfsFs R) (x : Z) (t : tree) (i : Inode) :
  mx_poisoned (fs_reader fs) = false ->
  volume_tree (mx_inner (fs_reader fs)) (fs_volume fs) (fs_block_size fs) t -> oid_ordered t -> inode_wf i ->
  let time ns := Some {| unix_nanos := ns; ts_source := InodeTable; ts_resolution := Nanos |} in
  (find_inode (ino_oid i) (leaf_entries t) = Some (encode_inode i) ->
   exists m, vfs_meta fs (ApfsOid (ino_oid i) x) = Ok m /\
     fm_ino m = ino_oid i /\ fm_uid m = Some (ino_uid i) /\ fm_gid m = Some (ino_gid i) /\ fm_mode m = Some (ino_mode i) /\
     fm_size m = default 0 (ino_size i) /\
     (fm_kind m = NodeDir <-> ino_mode i / 4096 = 4) /\ (fm_kind m = NodeFile <-> ino_mode i / 4096 = 8) /\
     (fm_kind m = NodeSymlink <-> ino_mode i / 4096 = 10) /\
     fm_nlink m = (if ino_nlink_or_nchildren i <? 0 then 0 else ino_nlink_or_nchildren i) /\
     born (fm_times m) = time (ino_create_time i) /\ modified (fm_times m) = time (ino_mod_time i) /\
     changed (fm_times m) = time (ino_change_time i) /\ accessed (fm_times m) = time (ino_access_time i)) /\
  (find_inode (ino_oid i) (leaf_entries t) = None ->
   vfs_meta fs (ApfsOid (ino_oid i) x) = Err (map_err (OmapUnresolved (ino_oid i) (vol_xid (fs_volume fs))))).
Proof.
  intros Hp Ht Ho Hw time. unfold vfs_meta. cbn [oid_of mbind outcome_bind]. rewrite (lock_Ok fs Hp). cbn [mbind outcome_bind].
  rewrite (load_inode_tree _ _ _ (ino_oid i) t Ht Ho). split; intros Hf; rewrite Hf; cbn [ok_or mbind outcome_bind]; [|done].
  rewrite (parse_encode_inode i Hw). cbn [vfs mbind outcome_bind]. exists (build_meta i). split; [done|].
  unfold build_meta. cbn [fm_ino fm_uid fm_gid fm_mode fm_size fm_kind fm_nlink fm_times born modified changed accessed].
  unfold mode_to_kind. rewrite (file_type_bits _ (iwf_mode i Hw)). unfold S_IFDIR, S_IFREG, S_IFLNK.
  split_and!; try done.
  1-3: set (q := ino_mode i / 4096); clearbody q; destruct (Z.eqb_spec (q * 4096) 0x4000), (Z.eqb_spec (q * 4096) 0x8000),
    (Z.eqb_spec (q * 4096) 0xa000); split; intros; (done || (exfalso; lia) || lia).
  destruct (Z.ltb_spec (ino_nlink_or_nchildren i) 0); lia.
Qed.
End Metadata.

(** ** Names *)

Lemma parse_dir_entry_utf8 k v d : parse_dir_entry k v = Some d -> from_utf8 (de_name d) = Some (de_name d).
Proof.
  unfold parse_dir_entry. destruct (decode_drec_name k) as [name|] eqn:Hn; [|done]. intros [= <-]. cbn [de_name].
  unfold decode_drec_name in Hn.
  destruct (if 0 <? _ then get_range k 12 _ else None); [injection Hn as <-; apply decode_cstr_utf8|].
  destruct (if 0 <? _ then get_range k 10 _ else None); [injection Hn as <-; apply decode_cstr_utf8|done].
Qed.

Lemma dir_records_utf8 parent (es : list Entry) d : d ∈ omap (dir_record parent) es -> from_utf8 (de_name d) = Some (de_name d).
Proof.
  intros (e & _ & He)%list_elem_of_omap. revert He. unfold dir_record, record_of. destruct (_ && _); [|done].
  apply parse_dir_entry_utf8.
Qed.

Section Names.
Context `{ForensicVfs} `{IoDisplay} {R} `{ReadSeek R} `{XtsCipher}.

(** C21 (equivalence): on a volume whose tree is stored in key order, looking a name up is searching the directory listing, for every sequence of bytes: the
    answer is the identity in the first entry with that name, stamped with the mounted transaction; a query that is not UTF-8
    is answered with nothing, and indeed no listed name equals it. *)
Theorem vfs_lookup_searches_listing (fs : ApfsFs R) (parent x : Z) (name : bytes) (t : tree) :
  mx_poisoned (fs_reader fs) = false ->
  volume_tree (mx_inner (fs_reader fs)) (fs_volume fs) (fs_block_size fs) t -> oid_ordered t ->
  exists entries, vfs_read_dir fs (ApfsOid parent x) = Ok (map Ok entries) /\
    vfs_lookup fs (ApfsOid parent x) name =
      Ok (option_map (fun ie => vde_id ie.2) (list_find (fun e => vde_name e = name) entries)) /\
    Forall (fun e => exists oid, vde_id e = ApfsOid oid (fs_root_xid fs)) entries.
Proof.
  intros Hp Ht Ho. set (ds := omap (dir_record parent) (leaf_entries t)).
  set (conv := fun e : DirEntry => {| vde_kind := dt_to_kind (de_flags e); vde_name := de_name e;
                                       vde_id := ApfsOid (de_file_id e) (fs_root_xid fs) |}).
  exists (map conv ds).
  assert (option_map (fun ie : nat * VfsDirEntry => vde_id ie.2) (list_find (fun e => vde_name e = name) (map conv ds)) =
          option_map (fun oid => ApfsOid oid (fs_root_xid fs)) (find_name name ds)) as Hf.
  { unfold find_name. generalize ds as l. intros l. induction l as [|d l IH]; [done|]. cbn [map list_find conv vde_name].
    destruct (decide (de_name d = name)); [done|].
    destruct (list_find _ (map conv l)) as [[i e]|], (list_find _ l) as [[j e']|]; cbn in *; congruence. }
  split_and!.
  - unfold vfs_read_dir. cbn [oid_of mbind outcome_bind]. rewrite (lock_Ok fs Hp). cbn [mbind outcome_bind].
    rewrite (list_dir_tree _ _ _ parent t Ht Ho). cbn [vfs mbind outcome_bind]. by rewrite map_map.
  - rewrite Hf. unfold vfs_lookup. cbn [oid_of mbind outcome_bind]. destruct (from_utf8 name) as [u|] eqn:Hu.
    + assert (u = name) as -> by (revert Hu; unfold from_utf8; destruct (utf8_valid _ _); naive_solver).
      rewrite (lock_Ok fs Hp). cbn [mbind outcome_bind]. by rewrite (lookup_child_tree _ _ _ parent name t Ht Ho).
    + assert (find_name name ds = None) as ->; [|done]. unfold find_name. apply fmap_None, list_find_None.
      apply Forall_forall. intros d Hd <-. rewrite (dir_records_utf8 _ _ _ Hd) in Hu. done.
  - apply Forall_forall. intros e (d & -> & _)%list_elem_of_fmap. by eexists.
Qed.
End Names.

(** ** Streams *)

Section Streams.
Context `{ForensicVfs} `{IoDisplay} `{DecmpfsFormat} `{Codecs} {R} `{ReadSeek R} `{XtsCipher}.

Lemma vfs_data_streams_inv (fs : ApfsFs R) oid x streams :
  vfs_data_streams fs (ApfsOid oid x) = Ok streams ->
  mx_poisoned (fs_reader fs) = false /\
  exists inode xs, load_inode (mx_inner (fs_reader fs)) (fs_volume fs) oid (fs_block_size fs) = Ok inode /\
    list_xattrs (mx_inner (fs_reader fs)) (fs_volume fs) oid (fs_block_size fs) = Ok xs /\
    streams = default_stream (default 0 (ino_size inode)) :: imap (fun i x => xattr_stream (Z.of_nat i) x) xs.
Proof.
  unfold vfs_data_streams. cbn [oid_of mbind outcome_bind]. intros Hd. apply bind_Ok_iff in Hd as (g & Hg & Hd).
  assert (mx_poisoned (fs_reader fs) = false /\ g = mx_inner (fs_reader fs)) as [Hp ->].
  { revert Hg. unfold lock. destruct (mx_poisoned _); naive_solver. }
  split; [done|]. apply bind_Ok_iff in Hd as (i & Hi & Hd). apply bind_Ok_iff in Hd as (xs & Hx & [= <-]). exists i, xs.
  split_and!; [by destruct (load_inode _ _ _ _); naive_solver|by destruct (list_xattrs _ _ _ _); naive_solver|done].
Qed.

(** The size of a stored attribute is a 64-bit field. *)
Lemma xattr_size_nonneg k v xa dstream size : parse_xattr k v = Some xa -> xa_value xa = Stream dstream size -> 0 <= size.
Proof.
  unfold parse_xattr. destruct (_ =? 0); [done|]. intros (nb & _ & [= <-])%bind_Some. cbn [xa_value].
  destruct (negb _); [|done]. intros [= _ <-]. apply le_u64_bound.
Qed.

Lemma list_xattrs_sizes (r : R) v oid bs xs xa dstream size :
  list_xattrs r v oid bs = Ok xs -> xa ∈ xs -> xa_value xa = Stream dstream size -> 0 <= size.
Proof.
  unfold list_xattrs, for_each_fs_record_for_oid. destruct (walk_fs_tree _ _ _ _ _ _) as [out [[]| |]] eqn:Hw; [|done|done].
  intros [= <-] Hin Hv. apply walk_fs_tree_run in Hw as [es ->]. rewrite (run_collects _ _ _ _ (xattr_collects oid)) in Hin.
  cbn [app] in Hin. apply list_elem_of_omap in Hin as (e & _ & He). revert He. unfold xattr_record, record_of.
  destruct (_ && _); [|done]. intros Hp. by eapply xattr_size_nonneg.
Qed.

(** The attribute streams a listing names can be read, and have the length it gives: addressed by the id in the listing, a read of the first
    65536 attributes of a node that succeeds copies from the stream exactly what lies between the offset and the listed size. *)
Theorem listed_xattr_lengths (fs : ApfsFs R) (oid x : Z) (streams : list StreamInfo) (i : nat) (si : StreamInfo) (off n : Z) (buf buf' : bytes) :
  vfs_data_streams fs (ApfsOid oid x) = Ok streams -> streams !! S i = Some si -> Z.of_nat i < 2 ^ 16 ->
  0 <= fs_block_size fs -> 0 <= off ->
  vfs_read_at fs (ApfsOid oid x) (si_id si) off buf = Ok (n, buf') ->
  n = Z.min (blen buf) (Z.max 0 (si_size si - off)).
Proof.
  intros (Hp & inode & xs & _ & Hx & ->)%vfs_data_streams_inv Hi Hlt Hb Ho Hr.
  change (imap (fun i x => xattr_stream (Z.of_nat i) x) xs !! i = Some si) in Hi. rewrite list_lookup_imap in Hi. destruct (xs !! i) as [xa|] eqn:Hxi; [|done]. cbn in Hi. injection Hi as <-.
  revert Hr. unfold vfs_read_at. cbn [oid_of mbind outcome_bind].
  assert (si_id (xattr_stream (Z.of_nat i) xa) = XattrStream (Z.of_nat i)) as ->.
  { unfold xattr_stream. destruct (xa_value xa); cbn [si_id]; by rewrite (proj2 (Z.ltb_lt _ _)). }
  unfold read_xattr_at. rewrite (lock_Ok fs Hp). cbn [mbind outcome_bind]. rewrite Hx. cbn [vfs mbind outcome_bind].
  rewrite Nat2Z.id, Hxi. intros Hr. apply bind_Ok_iff in Hr as (data & Hd & [= Hr]).
  assert (blen data = si_size (xattr_stream (Z.of_nat i) xa)) as Hl.
  { unfold xattr_stream. destruct (xa_value xa) as [b|dstream size] eqn:Hv; cbn [si_size]; [by injection Hd as <-|].
    apply (read_stream_blen (mx_inner (fs_reader fs)) (fs_volume fs) dstream size (fs_block_size fs)); [|done|].
    - eapply list_xattrs_sizes; [exact Hx|by eapply list_elem_of_lookup_2|exact Hv].
    - destruct (read_stream _ _ _ _ _); naive_solver. }
  rewrite copy_window_spec in Hr by done. injection Hr as <- _. rewrite Hl. pose proof (blen_nonneg buf). lia.
Qed.

(** Stream ids are 16 bits wide: the ids of a listing tell the streams apart exactly as long as the node has at most 65536 attributes; past
    that, the last id names one attribute and is listed for others. *)
Theorem stream_ids_distinct (size : Z) (xs : list Xattr) :
  NoDup (si_id <$> default_stream size :: imap (fun i x => xattr_stream (Z.of_nat i) x) xs) <-> blen xs <= 2 ^ 16.
Proof.
  assert (forall i xa, si_id (xattr_stream (Z.of_nat i) xa) = XattrStream (Z.min (Z.of_nat i) (2 ^ 16 - 1))) as Hid.
  { intros i xa. unfold xattr_stream. destruct (xa_value xa); cbn [si_id]; destruct (Z.ltb_spec (Z.of_nat i) (2 ^ 16)); f_equal; lia. }
  assert (forall i, (si_id <$> imap (fun i x => xattr_stream (Z.of_nat i) x) xs) !! i =
                    (fun _ => XattrStream (Z.min (Z.of_nat i) (2 ^ 16 - 1))) <$> xs !! i) as Hlk.
  { intros i. rewrite list_lookup_fmap, list_lookup_imap. destruct (xs !! i); cbn; [by rewrite Hid|done]. }
  rewrite fmap_cons, NoDup_cons. split.
  - intros [_ Hnd]. destruct (Z.le_gt_cases (blen xs) (2 ^ 16)) as [|Hgt]; [done|]. exfalso. unfold blen in Hgt.
    destruct (Z_of_nat_complete (2 ^ 16 - 1) ltac:(lia)) as [i Hi]. destruct (Z_of_nat_complete (2 ^ 16) ltac:(lia)) as [j Hj].
    destruct (lookup_lt_is_Some_2 xs i ltac:(lia)) as [a Ha]. destruct (lookup_lt_is_Some_2 xs j ltac:(lia)) as [b Hb].
    assert (i = j); [|lia]. eapply NoDup_lookup; [exact Hnd|rewrite Hlk, Ha; reflexivity|].
    rewrite Hlk, Hb. cbn [fmap option_fmap option_map]. do 2 f_equal. lia.
  - intros Hle. split.
    + intros (i & Hi)%list_elem_of_lookup. rewrite Hlk in Hi. destruct (xs !! i); done.
    + apply NoDup_alt. intros i j y Hi Hj. rewrite Hlk in Hi, Hj.
      destruct (xs !! i) eqn:Hxi; [|done]. destruct (xs !! j) eqn:Hxj; [|done]. cbn in Hi, Hj. simplify_eq.
      apply lookup_lt_Some in Hxi, Hxj. unfold blen in Hle. lia.
Qed.

(** The length of a compressed file is not what is listed: the inode of a file whose bytes are in its decmpfs attribute has no data stream, so its
    metadata and its default stream give the length 0 while reading the stream yields the decompressed bytes. *)
Theorem compressed_listed_empty (fs : ApfsFs R) (oid x : Z) (inode : Inode) (data : bytes) (streams : list StreamInfo) :
  mx_poisoned (fs_reader fs) = false ->
  load_inode (mx_inner (fs_reader fs)) (fs_volume fs) oid (fs_block_size fs) = Ok inode -> ino_size inode = None ->
  read_data (mx_inner (fs_reader fs)) (fs_volume fs) inode (fs_block_size fs) = Ok data ->
  vfs_data_streams fs (ApfsOid oid x) = Ok streams ->
  (exists m, vfs_meta fs (ApfsOid oid x) = Ok m /\ fm_size m = 0) /\
  (exists si, head streams = Some si /\ si_id si = DefaultStream /\ si_size si = 0) /\
  vfs_read_at fs (ApfsOid oid x) DefaultStream 0 (replicate (length data) x00) = Ok (blen data, data).
Proof.
  intros Hp Hi Hz Hd Hs. split_and!.
  - exists (build_meta inode). unfold vfs_meta. cbn [oid_of mbind outcome_bind]. rewrite (lock_Ok fs Hp). cbn [mbind outcome_bind].
    rewrite Hi. split; [done|]. cbn [build_meta fm_size]. by rewrite Hz.
  - apply vfs_data_streams_inv in Hs as (_ & inode' & xs & Hi' & _ & ->). assert (inode' = inode) as -> by congruence.
    rewrite Hz. eexists. by split_and!.
  - rewrite (vfs_read_at_default fs oid x 0 _ inode data Hp Hi Hd), copy_window_spec by done. f_equal.
    rewrite blen_replicate. fold (blen data). rewrite Z.sub_0_r. pose proof (blen_nonneg data).
    replace (Z.min (blen data) (Z.max 0 (blen data))) with (blen data) by lia. unfold blen. rewrite Nat2Z.id.
    change (Z.to_nat 0) with 0%nat. rewrite drop_0, firstn_all, drop_replicate, Nat.sub_diag. cbn [replicate]. by rewrite app_nil_r.
Qed.
End Streams.

(** ** Free space *)

Section FreeSpace.
Context `{ForensicVfs} `{IoDisplay} {R} `{ReadSeek R}.

(** The byte [b] of the image is in the run. *)
Definition in_run (r : RunInfo) (b : Z) : Prop :=
  image_offset (ri_run r) <= b < image_offset (ri_run r) + run_len (ri_run r).

Lemma in_unallocated_runs runs bs limit b :
  0 < bs -> limit * bs < u64_limit -> Forall (fun r => 0 <= r.1 /\ 0 < r.2 /\ r.1 + r.2 <= limit) runs -> 0 <= b ->
  (exists r, r ∈ unallocated_runs runs bs /\ in_run r b) <-> covers runs (b / bs).
Proof.
  intros Hbs Hlim Hall Hb. unfold unallocated_runs, covers.
  assert (forall r, r ∈ runs -> (saturating_mul r.1 bs <= b < saturating_mul r.1 bs + saturating_mul r.2 bs) <->
            r.1 <= b / bs < r.1 + r.2) as Hr.
  { intros r Hin. rewrite Forall_forall in Hall. specialize (Hall r Hin). rewrite !saturating_mul_exact by nia.
    pose proof (Z.div_mod b bs ltac:(lia)). pose proof (Z.mod_pos_bound b bs ltac:(lia)). nia. }
  split.
  - intros (ri & (r & -> & Hin)%list_elem_of_fmap & Hb'). unfold in_run in Hb'. cbn in Hb'. exists r. split; [done|]. by apply Hr.
  - intros (r & Hin & Hc). eexists. split; [apply list_elem_of_fmap; exists r; split; [reflexivity|done]|].
    unfold in_run. cbn. by apply Hr.
Qed.

(** The unallocated runs the adapter reports, in bytes of the image, are the free blocks of the space manager: on a device laid out as the
    format says and smaller than 2^64 bytes, a byte is in one of the runs exactly when [is_block_free] says yes of the block it is in. *)
Theorem vfs_unallocated_spec (fs : ApfsFs R) (sp : Z) (sm : bytes) (items : list (vfs_result RunInfo)) :
  let r := mx_inner (fs_reader fs) in
  let bs := fs_block_size fs in
  fs_spaceman_paddr fs = Some sp -> 0 < bs ->
  read_obj_block r bs sp = Ok sm -> geometry_ok r bs sm -> block_count sm * bs < 2 ^ 64 ->
  vfs_unallocated fs = Ok items ->
  exists runs, items = map Ok runs /\ Forall (fun x => ri_alloc x = RunUnallocated) runs /\
    forall b, 0 <= b -> (exists x, x ∈ runs /\ in_run x b) <-> is_block_free r bs sp (b / bs) = Ok true.
Proof.
  intros r bs Hsp Hbs Hsm Hg Hlim Hu. unfold vfs_unallocated in Hu. rewrite Hsp in Hu. cbn [ok_or mbind outcome_bind] in Hu.
  apply bind_Ok_iff in Hu as (g & Hl & Hu). assert (g = r) as ->.
  { revert Hl. unfold lock. destruct (mx_poisoned _); [done|]. by intros [= <-]. }
  apply bind_Ok_iff in Hu as (runs & Hr & [= <-]). fold bs in Hr |- *.
  assert (free_block_runs r bs sp = Ok runs) as Hf by (destruct (free_block_runs r bs sp); naive_solver).
  exists (unallocated_runs runs bs). split_and!; [done| |].
  { apply Forall_forall. intros x (y & -> & _)%list_elem_of_fmap. done. }
  intros b Hb. pose proof (free_block_runs_bounds r bs sp sm runs Hsm Hg Hf) as Hbd.
  rewrite (in_unallocated_runs runs bs (block_count sm) b) by done.
  destruct (free_block_runs_covers r bs sp sm runs Hsm Hg Hf) as (Hz1 & Hz2 & Hz3 & _ & Hcov).
  rewrite Hcov, (is_block_free_iff r bs sp sm) by (done || lia || (apply Z.div_pos; lia)). done.
Qed.
End FreeSpace.

(** ** Identities *)

Section Identities.
Context `{ForensicVfs} `{IoDisplay} `{DecmpfsFormat} `{Codecs} {R} `{ReadSeek R} `{XtsCipher}.

(** The same identity under another transaction. *)
Definition restamp (x : Z) (id : FileId) : FileId :=
  match id with
  | ApfsOid oid _ => ApfsOid oid x
  | ForeignId y => ForeignId y
  end.
Definition restamp_request (x : Z) (req : request) : request :=
  match req with
  | ReadDir id => ReadDir (restamp x id)
  | Extents id s => Extents (restamp x id) s
  | Lookup id name => Lookup (restamp x id) name
  | Meta id => Meta (restamp x id)
  | DataStreams id => DataStreams (restamp x id)
  | ReadAt id s off buf => ReadAt (restamp x id) s off buf
  | ReadLink id cap => ReadLink (restamp x id) cap
  | Deleted => Deleted
  | Unallocated => Unallocated
  end.

(** The transaction in an identity is never looked at: every request is answered the same under any transaction stamp, so an identity obtained from a
    mount of another snapshot is silently taken as this volume's object of that number, which the stamp is documented to prevent. *)
Theorem identity_stamp_ignored (fs : ApfsFs R) (req : request) (x : Z) : serve fs (restamp_request x req) = serve fs req.
Proof. destruct req as [[]|[]|[]|[]|[]|[]|[]| |]; reflexivity. Qed.
End Identities.
