(* ===== verification/DemoMount.v ===== *)
(** Mounted volumes, on which the theorems about the adapter are instantiated: the small volume of [DemoVolume], a variant of it with a compressed file, the space
    manager of [Spaceman], and a whole container of eleven blocks that mounts live and at a snapshot. *)

From S2P Require Import Prelude Bytes Errors Reader Object Container Checkpoint Walk BTree NodeLayout Omap ApfsContainer FsRecord Encryption Volume Inode Dir Spaceman Extent Xattr Compression Snapshot DemoVolume Format Utf8 Vfs VfsSpec.

(** A client with no other file systems. *)
#[local] Instance demo_vfs : ForensicVfs :=
  {| OtherId := Empty_set; OtherStream := Empty_set; debug_id x := match x with end; debug_xattr_stream n := dec n;
     debug_stream x := match x with end; RunFlags := bool; run_flags_default := false; set_sparse b _ := b;
     SmallHex := bytes; SmallHex_new b := b; NodeStream := unit; NodeStream_empty := tt |}.
#[local] Instance demo_io : IoDisplay := fun _ => [].
#[local] Existing Instance demo_format.
#[local] Existing Instance demo_codecs.

Definition demo_fs : ApfsFs cursor :=
  {| fs_reader := new_mutex demo_reader; fs_volume := demo_volume; fs_block_size := demo_bs; fs_root_xid := 9;
     fs_spaceman_paddr := None |}.

Lemma vfs_lookup_searches_listing_witness :
  vfs_lookup demo_fs (ApfsOid 2 9) demo_name = Ok (Some (ApfsOid 18 9)) /\
  vfs_lookup demo_fs (ApfsOid 2 9) [xc0; x80] = Ok None.
Proof.
  split.
  - destruct (vfs_lookup_searches_listing demo_fs 2 9 demo_name demo_volume_tree eq_refl demo_is_volume_tree demo_oid_ordered)
      as (entries & Hd & -> & _).
    assert (vfs_read_dir demo_fs (ApfsOid 2 9) =
      Ok (map Ok [ {| vde_kind := NodeFile; vde_name := demo_name; vde_id := ApfsOid 18 9 |} ])) as He by (vm_refl).
    rewrite He in Hd. injection Hd as Hd. destruct entries as [|e [|]]; [discriminate Hd| |discriminate Hd].
    injection Hd as <-. vm_refl.
  - vm_refl.
Defined.

Lemma demo_load : load_inode demo_reader demo_volume 18 demo_bs = Ok demo_inode.
Proof. vm_refl. Qed.

Lemma read_to_end_whole_witness :
  read_to_end (Z.to_nat 4098) demo_fs (ApfsOid 18 9) 1000 0 = Ok demo_content.
Proof.
  apply (read_to_end_whole demo_fs 18 9 demo_inode demo_content 1000 (Z.to_nat 4098) eq_refl demo_load demo_read_data).
  - lia.
  - vm_compute. lia.
Defined.

Lemma demo_inode_wf : inode_wf demo_inode.
Proof.
  split; cbn [demo_inode ino_parent_id ino_private_id ino_create_time ino_mod_time ino_change_time ino_access_time ino_internal_flags
    ino_nlink_or_nchildren ino_bsd_flags ino_uid ino_gid ino_mode ino_name ino_size]; try lia.
  - intros n [= <-]. split; [repeat constructor; vm_compute; reflexivity|vm_compute; reflexivity].
  - intros z [= <-]. lia.
Qed.

(** The owner and the change time of the stored file, and its negative link count. *)
Lemma vfs_meta_stored_witness :
  exists m, vfs_meta demo_fs (ApfsOid 18 9) = Ok m /\ fm_uid m = Some 501 /\ fm_gid m = Some 20 /\ fm_kind m = NodeFile /\ fm_nlink m = 0 /\
    changed (fm_times m) = Some {| unix_nanos := 3; ts_source := InodeTable; ts_resolution := Nanos |}.
Proof.
  destruct (vfs_meta_stored demo_fs 9 demo_volume_tree demo_inode eq_refl demo_is_volume_tree demo_oid_ordered demo_inode_wf) as [Hm _].
  destruct Hm as (m & Hm & _ & Hu & Hg & _ & _ & _ & Hk & _ & Hn & _ & _ & Hc & _); [vm_refl|].
  exists m. split; [exact Hm|]. split; [exact Hu|]. split; [exact Hg|]. split; [exact (proj2 Hk eq_refl)|]. split; [exact Hn|exact Hc].
Defined.

(** Four bytes across the end of the extent: two stored, two of the hole behind it. *)
Lemma vfs_read_at_content_witness :
  get_index ([x5a; x5a; x00; x00] ++ [xee]) 3 = stream_byte demo_reader None demo_bs demo_extents 641.
Proof.
  assert (vfs_read_at demo_fs (ApfsOid 18 9) DefaultStream 638 (replicate 4 xff) = Ok (4, [x5a; x5a; x00; x00])) as Hr
    by (vm_refl).
  destruct (vfs_read_at_content demo_fs 18 9 638 4 (replicate 4 xff) [x5a; x5a; x00; x00] demo_inode demo_extents) as (_ & _ & Hk).
  - lia.
  - vm_compute. discriminate.
  - exact demo_load.
  - vm_refl.
  - exact demo_list_extents.
  - exact Hr.
  - exact (Hk 3 ltac:(lia)).
Defined.

Definition demo_link : StreamInfo :=
  xattr_stream 0 {| xa_name := XATTR_NAME_SYMLINK; xa_flags := 6; xa_value := Embedded [x62; x2f; x63; x00] |}.

Lemma demo_streams : vfs_data_streams demo_fs (ApfsOid 18 9) = Ok [default_stream 4097; demo_link].
Proof. vm_refl. Qed.

Lemma listed_xattr_lengths_witness : si_size demo_link = 4 /\ 2 = Z.min 8 (Z.max 0 (si_size demo_link - 2)).
Proof.
  split; [reflexivity|].
  apply (listed_xattr_lengths demo_fs 18 9 [default_stream 4097; demo_link] 0%nat demo_link 2 2 (replicate 8 xff)
    ([x63; x00] ++ replicate 6 xff) demo_streams eq_refl).
  - lia.
  - vm_compute. discriminate.
  - lia.
  - vm_refl.
Defined.

(** ** A compressed file *)

Definition packed_inode : Inode :=
  {| ino_oid := 18; ino_parent_id := 2; ino_private_id := 19; ino_create_time := 1; ino_mod_time := 2;
     ino_change_time := 3; ino_access_time := 4; ino_internal_flags := 0; ino_nlink_or_nchildren := 1;
     ino_bsd_flags := 32; ino_uid := 501; ino_gid := 20; ino_mode := 0x81a4; ino_name := None; ino_size := None |}.
Definition rec_decmpfs : Entry :=
  {| key := xattr_key (encode_jkey 4 18) XATTR_NAME_DECMPFS;
     value := xattr_embedded 2 (to_le_bytes 4 0x636d7066 ++ to_le_bytes 4 1 ++ to_le_bytes 8 3 ++ [x61; x62; x63]) |}.
Definition packed_reader : cursor := image (
  demo_volume_omap ++
  demo_node 3 0 [omap_kv 1024 4 0 320 2; omap_kv 1025 4 0 320 3; omap_kv 1026 4 0 320 4] ++
  demo_node 1 1 fs_seps ++ demo_node 2 0 fs_leaf1 ++
  demo_node 2 0 [ {| key := jkey_bytes 3 18; value := encode_inode packed_inode |}; rec_decmpfs]).
Definition packed_fs : ApfsFs cursor :=
  {| fs_reader := new_mutex packed_reader; fs_volume := demo_volume; fs_block_size := demo_bs; fs_root_xid := 9;
     fs_spaceman_paddr := None |}.

Lemma compressed_listed_empty_witness :
  (exists m, vfs_meta packed_fs (ApfsOid 18 9) = Ok m /\ fm_size m = 0) /\
  vfs_read_at packed_fs (ApfsOid 18 9) DefaultStream 0 (replicate 3 x00) = Ok (3, [x61; x62; x63]).
Proof.
  destruct (compressed_listed_empty packed_fs 18 9 packed_inode [x61; x62; x63]
    [default_stream 0; xattr_stream 0 {| xa_name := XATTR_NAME_DECMPFS; xa_flags := 2;
       xa_value := Embedded (to_le_bytes 4 0x636d7066 ++ to_le_bytes 4 1 ++ to_le_bytes 8 3 ++ [x61; x62; x63]) |}])
    as (Hm & _ & Hr).
  - reflexivity.
  - vm_refl.
  - reflexivity.
  - vm_refl.
  - vm_refl.
  - split; [exact Hm|exact Hr].
Defined.

(** ** Free space *)

Definition spaceman_fs : ApfsFs cursor :=
  {| fs_reader := new_mutex (demo_device 1024 20 demo_bitmap); fs_volume := demo_volume; fs_block_size := 128; fs_root_xid := 9;
     fs_spaceman_paddr := Some 0 |}.

Lemma vfs_unallocated_spec_witness :
  exists runs, vfs_unallocated spaceman_fs = Ok (map Ok runs) /\
    forall b, 0 <= b -> (exists x, x ∈ runs /\ in_run x b) <-> is_block_free (demo_device 1024 20 demo_bitmap) 128 0 (b / 128) = Ok true.
Proof.
  destruct (vfs_unallocated_spec spaceman_fs 0 (demo_spaceman 1024 20)
    (map Ok (unallocated_runs [(4, 12)] 128))) as (runs & Hi & _ & Hb).
  - reflexivity.
  - reflexivity.
  - vm_refl.
  - exact demo_geometry.
  - vm_compute. reflexivity.
  - vm_refl.
  - exists runs. split; [|exact Hb]. rewrite <-Hi. vm_refl.
Defined.

(** ** A container of eleven blocks *)

Definition demo_apsb (xid snap_root : Z) : bytes :=
  let p off n v b := put b off (to_le_bytes n v) in
  stamp (p 16 8%nat xid (p 24 4%nat OBJECT_TYPE_FS (p APSB_OFF_MAGIC 4%nat APFS_MAGIC (p APSB_OFF_OMAP_OID 8%nat 5
    (p APSB_OFF_ROOT_TREE_OID 8%nat 1024 (p APSB_OFF_SNAP_META_TREE_OID 8%nat snap_root (replicate 4096 x00))))))).

(** Block zero, the ring, the container's object map and its tree; the live volume at block 4, its object map and tree, its snapshots
    (block 7), its records at transaction 4 (block 8) and since transaction 8 (block 9), and the frozen superblock (block 10). *)
Definition demo_disk : cursor := image (
  demo_nx 6 4096 ++ demo_nx 6 4096 ++ demo_omap_phys ++ demo_node_of 4096 2 0 [omap_kv 11 5 0 4096 4] ++
  demo_apsb 9 7 ++
  stamp (put (put (replicate 4096 x00) 24 (to_le_bytes 4 OBJECT_TYPE_OMAP)) OFF_OM_TREE_OID (to_le_bytes 8 6)) ++
  demo_node_of 4096 3 0 [omap_kv 1024 4 0 4096 8; omap_kv 1024 8 0 4096 9] ++
  demo_node_of 4096 3 0 [rec_snap 5 10 [x61]; rec_snap_name 5 [x61]] ++
  demo_node_of 4096 3 0 fs_leaf1 ++ demo_node_of 4096 3 0 [rec_root_inode] ++
  demo_apsb 5 0).

Definition demo_apsb_volume (xid snap_root : Z) : ApfsVolume :=
  {| vol_oid := 0; vol_xid := xid; vol_fs_index := 0; vol_features := 0; vol_readonly_compatible_features := 0;
     vol_incompatible_features := 0; vol_root_tree_type := 0; vol_omap_oid := 5; vol_root_tree_oid := 1024;
     vol_extentref_tree_oid := 0; vol_snap_meta_tree_oid := snap_root; vol_uuid := replicate 16 x00;
     vol_fs_flags := 0; vol_name := []; vol_vek := None |}.

Definition mounted (xid snap_root : Z) : ApfsFs cursor :=
  {| fs_reader := new_mutex demo_disk; fs_volume := demo_apsb_volume xid snap_root; fs_block_size := 4096; fs_root_xid := xid;
     fs_spaceman_paddr := None |}.

Lemma demo_mounts : ApfsFs_open OverflowTraps demo_disk = Ok (mounted 9 7).
Proof. vm_refl. Qed.

Definition demo_snapshot : Snapshot :=
  {| sn_xid := 5; sn_name := [x61]; sn_create_time := 0; sn_change_time := 0; sn_sblock_oid := 10; sn_extentref_tree_oid := 0;
     sn_inum := 0; sn_flags := 0 |}.

Lemma demo_disk_snapshots : ApfsFs_snapshots OverflowTraps demo_disk = Ok [demo_snapshot].
Proof. vm_refl. Qed.

Lemma demo_disk_frozen : mount_snapshot demo_disk (demo_apsb_volume 9 7) demo_snapshot 4096 = Ok (demo_apsb_volume 5 0).
Proof. vm_refl. Qed.

Lemma open_snapshot_spec_witness :
  ApfsFs_open_snapshot OverflowTraps demo_disk 9 = Ok (mounted 9 7) /\
  ApfsFs_open_snapshot OverflowTraps demo_disk 5 = Ok (mounted 5 0) /\
  ApfsFs_open_snapshot OverflowTraps demo_disk 8 = Err (SnapshotNotFound 8).
Proof.
  split; [exact (open_snapshot_spec OverflowTraps demo_disk (mounted 9 7) [demo_snapshot] 9 demo_mounts demo_disk_snapshots)|].
  split; [|exact (open_snapshot_spec OverflowTraps demo_disk (mounted 9 7) [demo_snapshot] 8 demo_mounts demo_disk_snapshots)].
  rewrite (open_snapshot_spec OverflowTraps demo_disk (mounted 9 7) [demo_snapshot] 5 demo_mounts demo_disk_snapshots).
  cbn [decide mounted fs_root_xid fs_volume fs_block_size list_find demo_snapshot sn_xid].
  change ((v ← mount_snapshot demo_disk (demo_apsb_volume 9 7) demo_snapshot 4096;
           Ok {| fs_reader := new_mutex demo_disk; fs_volume := v; fs_block_size := 4096; fs_root_xid := 5; fs_spaceman_paddr := None |})
          = Ok (mounted 5 0)).
  rewrite demo_disk_frozen. reflexivity.
Defined.

Lemma demo_mounts_frozen : ApfsFs_open_snapshot OverflowTraps demo_disk 5 = Ok (mounted 5 0).
Proof. vm_refl. Qed.

(** A worker looks a name up in the snapshot, where it still is, another asks for the metadata of an object that is not there. *)
Lemma demo_calls :
  call (mounted 5 0) (Lookup (ApfsOid 2 5) demo_name) = (mounted 5 0, Ok (Found (Some (ApfsOid 18 5)))) /\
  call (mounted 5 0) (Meta (ApfsOid 77 5)) =
    (mounted 5 0, Err (VfsDecode "apfs" 0 (ApfsError_to_string (OmapUnresolved 77 5)) [])) /\
  call (mounted 9 7) (Lookup (ApfsOid 2 9) demo_name) = (mounted 9 7, Ok (Found None)).
Proof. split_and!; vm_refl. Qed.

Definition demo_log : list (request * vfs_result response) :=
  [ (Lookup (ApfsOid 2 5) demo_name, Ok (Found (Some (ApfsOid 18 5))));
    (Meta (ApfsOid 77 5), Err (VfsDecode "apfs" 0 (ApfsError_to_string (OmapUnresolved 77 5)) [])) ].

Lemma demo_session : session (mounted 5 0) demo_log (mounted 5 0).
Proof.
  destruct demo_calls as (H1 & H2 & _). eapply session_cons; [exact H1|]. eapply session_cons; [exact H2|]. constructor.
Qed.

Lemma mounted_session_safe_witness : lock (mounted 5 0) = Ok demo_disk /\ answered (mounted 5 0) demo_log.
Proof.
  exact (proj2 (mounted_session_safe OverflowTraps demo_disk (mounted 5 0) (mounted 5 0) demo_log
    (or_intror (ex_intro _ 5 demo_mounts_frozen)) demo_session)).
Defined.
