(* ===== verification/VfsPaths.v ===== *)
(** Paths through the mount: the adapter's [lookup], [meta] and [read_at] (vfs.rs) composed as a client of the trait composes them, against
    [open_path] of dir.rs, which the library offers for the same purpose. *)

From S2P Require Import Prelude Bytes Errors Reader Object Walk BTree FsRecord Encryption Volume Inode Dir Extent Xattr Compression Snapshot Format Utf8 Vfs VfsSpec DemoVolume DemoMount.

Section Paths.
Context `{ForensicVfs} `{IoDisplay} `{DecmpfsFormat} `{Codecs} {R} `{ReadSeek R} `{XtsCipher}.

(** A client that follows names from a node; nothing where a name is not there. *)
Fixpoint vfs_resolve (fs : ApfsFs R) (id : FileId) (names : list bytes) : vfs_result (option FileId) :=
  match names with
  | [] => Ok (Some id)
  | name :: names =>
      child ← vfs_lookup fs id name;
      match child with
      | Some child => vfs_resolve fs child names
      | None => Ok None
      end
  end.

Local Abbreviation open fs path := (open_path (mx_inner (fs_reader fs)) (fs_volume fs) path (fs_block_size fs)).

(** [open_path] from a directory on. *)
Definition open_from (fs : ApfsFs R) (current : Z) (names : list bytes) : result Inode :=
  let reader := mx_inner (fs_reader fs) in
  current ← fold_res (fun current component =>
                child ← lookup_child reader (fs_volume fs) current component (fs_block_size fs);
                match child with
                | Some child => Ok child
                | None => Err (OmapUnresolved current (vol_xid (fs_volume fs)))
                end)
              current names;
  load_inode reader (fs_volume fs) current (fs_block_size fs).

(** Where the client ends up. *)
Definition resolves_as (fs : ApfsFs R) (r : vfs_result (option FileId)) (opened : result Inode) : Prop :=
  match r with
  | Ok (Some id) => exists oid x, id = ApfsOid oid x /\
      opened = load_inode (mx_inner (fs_reader fs)) (fs_volume fs) oid (fs_block_size fs) /\
      vfs_meta fs id = vfs (build_meta <$> opened)
  | Ok None => exists dir, opened = Err (OmapUnresolved dir (vol_xid (fs_volume fs)))
  | Err e => exists e', opened = Err e' /\ e = map_err e'
  | Panic => opened = Panic
  end.

Lemma vfs_meta_open (fs : ApfsFs R) oid x :
  mx_poisoned (fs_reader fs) = false ->
  vfs_meta fs (ApfsOid oid x) =
    vfs (build_meta <$> load_inode (mx_inner (fs_reader fs)) (fs_volume fs) oid (fs_block_size fs)).
Proof.
  intros Hp. unfold vfs_meta. rewrite (lock_Ok fs Hp). cbn [oid_of mbind outcome_bind].
  by destruct (load_inode _ _ _ _).
Qed.

Lemma vfs_resolve_from (fs : ApfsFs R) names : forall oid x,
  mx_poisoned (fs_reader fs) = false -> Forall (fun n => from_utf8 n = Some n) names ->
  resolves_as fs (vfs_resolve fs (ApfsOid oid x) names) (open_from fs oid names).
Proof.
  intros oid x Hp Hu. revert oid x. induction Hu as [|name names Hn _ IH]; intros oid x; cbn [vfs_resolve].
  - exists oid, x. split_and!; [reflexivity|reflexivity|by apply vfs_meta_open].
  - unfold open_from. cbn [fold_res]. unfold vfs_lookup. rewrite Hn, (lock_Ok fs Hp). cbn [oid_of mbind outcome_bind].
    destruct (lookup_child _ _ _ _ _) as [[child|]|e|]; cbn [vfs mbind outcome_bind option_map].
    + exact (IH child (fs_root_xid fs)).
    + exists oid. reflexivity.
    + exists e. split; reflexivity.
    + reflexivity.
Qed.

(** C14 (equivalence): following the components of a path from the mount's root with [lookup] is [open_path]: it ends at the node whose metadata are those of the
    opened inode, finds nothing exactly where [open_path] names the directory that lacks the component, and fails or panics exactly as it does.  The names are
    UTF-8, as those of a [&str] path are. *)
Theorem vfs_path_is_open_path (fs : ApfsFs R) (path : bytes) :
  mx_poisoned (fs_reader fs) = false -> Forall (fun n => from_utf8 n = Some n) (components path) ->
  resolves_as fs (vfs_resolve fs (vfs_root fs) (components path)) (open fs path).
Proof. intros Hp Hu. exact (vfs_resolve_from fs (components path) ROOT_DIR_INO_NUM (fs_root_xid fs) Hp Hu). Qed.

(** A file read by its path through the mount, window by window, is [read_data] of the inode [open_path] gives. *)
Theorem vfs_path_read (fs : ApfsFs R) (path : bytes) (inode : Inode) (data : bytes) (chunk fuel : nat) :
  mx_poisoned (fs_reader fs) = false -> Forall (fun n => from_utf8 n = Some n) (components path) ->
  open fs path = Ok inode ->
  read_data (mx_inner (fs_reader fs)) (fs_volume fs) inode (fs_block_size fs) = Ok data ->
  (0 < chunk)%nat -> (length data < fuel)%nat ->
  exists id, vfs_resolve fs (vfs_root fs) (components path) = Ok (Some id) /\
    vfs_meta fs id = Ok (build_meta inode) /\ read_to_end fuel fs id chunk 0 = Ok data.
Proof.
  intros Hp Hu Ho Hd Hc Hf.
  pose proof (vfs_resolve_from fs (components path) ROOT_DIR_INO_NUM (fs_root_xid fs) Hp Hu) as Hr.
  change (open_from fs ROOT_DIR_INO_NUM (components path)) with (open fs path) in Hr. rewrite Ho in Hr.
  change (ApfsOid ROOT_DIR_INO_NUM (fs_root_xid fs)) with (vfs_root fs) in Hr.
  destruct (vfs_resolve _ _ _) as [[id|]|e|]; cbn [resolves_as] in Hr.
  - destruct Hr as (oid & x & -> & Hi & Hm). eexists. split_and!; [reflexivity|exact Hm|].
    rewrite (read_to_end_from fs oid x inode data) by (done || lia). by rewrite drop_0.
  - by destruct Hr as (dir & ?).
  - by destruct Hr as (e' & ? & _).
  - done.
Qed.
End Paths.

(** [//a.t/] on the small volume, and a name that is not there. *)
Lemma vfs_path_is_open_path_witness :
  resolves_as (H := demo_vfs) (H0 := demo_io) demo_fs (Ok (Some (ApfsOid 18 9)))
    (open_path demo_reader demo_volume ([x2f; x2f] ++ demo_name ++ [x2f]) demo_bs) /\
  resolves_as (H := demo_vfs) (H0 := demo_io) demo_fs (Ok None) (open_path demo_reader demo_volume [x62] demo_bs).
Proof.
  assert (forall path id, Forall (fun n => from_utf8 n = Some n) (components path) ->
    vfs_resolve (H := demo_vfs) (H0 := demo_io) demo_fs (vfs_root (H := demo_vfs) demo_fs) (components path) = Ok id ->
    resolves_as (H := demo_vfs) (H0 := demo_io) demo_fs (Ok id) (open_path demo_reader demo_volume path demo_bs)) as Hr.
  { intros path id Hu <-. exact (vfs_path_is_open_path (H := demo_vfs) (H0 := demo_io) demo_fs path eq_refl Hu). }
  split; apply Hr; try (repeat constructor; fail); vm_compute; try reflexivity; repeat constructor.
Defined.
