(* ===== verification/UnlockCheck.v ===== *)
(** The password checker (core/examples/unlock_check.rs): a client of the keybag functions that reads the areas it needs out of an image
    instead of holding the image, tries a password on every volume the container keybag names, and reports a verdict and an exit code.

    The image is a [ReadSeek] source; the SHA-256 of the fingerprint is the crate sha2, [Sha256] here.  The byte readers and the field
    offsets of the example are those of the library ([Bytes], [Keybag]).  A run's printed lines and its exit code are values. *)

From S2P Require Import Prelude Bytes Errors Reader Encryption Ber Keybag Unlock Format Utf8.

(** The crate sha2. *)
Class Sha256 := {
  sha256 : bytes -> bytes;
  sha256_len : forall data, blen (sha256 data) = 32;
}.

Definition MAX_KEYBAG_BYTES : Z := Z.shiftl 1 20.

(** [std::io::Error] as the tool uses it: the system's, or [err(m)]. *)
Inductive check_error :=
| CheckIo (e : io_error)
| CheckOther (m : string).
#[global] Instance check_error_eq_dec : EqDecision check_error.
Proof. solve_decision. Defined.

Abbreviation io_result := (outcome check_error).

Record Outcome := {
  volumes_found : Z;
  volumes_tried : Z;
  bytes_read : Z;
  unlocked : option (bytes * bytes * Z);
}.

(** ** The UUIDs a keybag names *)

(** [if u.iter().any(|&b| b != 0) && !out.contains(&u) { out.push(u) }]. *)
Definition push_uuid (out : list bytes) (u : bytes) : list bytes :=
  if existsb (fun b => negb (bool_decide (b = x00))) u && negb (bool_decide (u ∈ out)) then out ++ [u] else out.

Fixpoint keybag_uuids_loop (n : nat) (kb : bytes) (off : Z) (out : list bytes) : list bytes :=
  match n with
  | O => out
  | S n =>
      if blen kb <? off + 24 then out
      else
        let out := match get_range kb off (off + 16) with Some u => push_uuid out u | None => out end in
        let keylen := le_u16 kb (off + 18) in
        keybag_uuids_loop n kb (off + Z.max (Z.land (24 + keylen + 15) (Z.lnot 15)) 16) out
  end.

Definition keybag_uuids (kb : bytes) : list bytes :=
  let nkeys := Z.min (le_u16 kb (32 + 2)) 4096 in
  keybag_uuids_loop (Z.to_nat nkeys) kb (32 + 16) [].

(** ** Reading, trying, reporting *)

Section Run.
Context {R : Type} `{ReadSeek R} `{XtsCipher} `{KeyCrypto} `{Sha256}.

(** The running total grows by what was read, and only then. *)
Definition check_read_at (f : R) (off len total : Z) : io_result (bytes * Z) :=
  match seek_start f off with
  | inl e => Err (CheckIo e)
  | inr f =>
      match read_exact f len with
      | inl e => Err (CheckIo e)
      | inr buf => Ok (buf, total + len)
      end
  end.

(** [decrypt_keybag_area] has no error case; a panic of the cipher is one of the tool. *)
Definition decrypt_area (ct uuid : bytes) (first_sector : Z) : io_result bytes :=
  match decrypt_keybag_area ct uuid first_sector with
  | Ok kb => Ok kb
  | _ => Panic
  end.

(** The loop over the UUIDs. *)
Fixpoint try_volumes (f : R) (block_size : Z) (container_kb password : bytes) (uuids : list bytes) (found tried total : Z)
  : io_result Outcome :=
  match uuids with
  | [] => Ok {| volumes_found := found; volumes_tried := tried; bytes_read := total; unlocked := None |}
  | uuid :: uuids =>
      let continue := try_volumes f block_size container_kb password uuids in
      match volume_records container_kb uuid with
      | Panic => Panic
      | Err _ => continue found tried total
      | Ok rec =>
          let found := found + 1 in
          let vs := saturating_mul (vr_volume_keybag_block rec) block_size in
          let vlen := saturating_mul (vr_volume_keybag_blocks rec) block_size in
          if (vs =? 0) || (vlen =? 0) || (MAX_KEYBAG_BYTES <? vlen) then continue found tried total
          else
            match check_read_at f vs vlen total with
            | Panic => Panic
            | Err _ => continue found tried total
            | Ok (vct, total) =>
                vkb ← decrypt_area vct uuid (vs / KEYBAG_SECTOR);
                if negb (bool_decide (get_range vkb 24 28 = Some (lit "scer"))) then continue found tried total
                else
                  let tried := tried + 1 in
                  match unlock_with_volume_keybag vkb rec password with
                  | Ok u =>
                      Ok {| volumes_found := found; volumes_tried := tried; bytes_read := total;
                            unlocked := Some (uuid, take 8 (sha256 (uv_vek u)), blen (uv_vek u)) |}
                  | Err _ => continue found tried total
                  | Panic => Panic
                  end
            end
      end
  end.

(** The container keybag in plain, with the block size and the total read so far. *)
Definition open_keybag (f : R) : io_result (bytes * Z * Z) :=
  '(sb, total) ← check_read_at f 0 4096 0;
  if negb (bool_decide (get_range sb 32 36 = Some (lit "NXSB"))) then Err (CheckOther "no NXSB container superblock at offset 0")
  else
    let block_size := le_u32 sb NX_BLOCK_SIZE in
    if (block_size =? 0) || (MAX_KEYBAG_BYTES <? block_size)
    then Err (CheckOther "container block size is not a usable value")
    else
      container_uuid ← (match get_range sb NX_CONTAINER_UUID (NX_CONTAINER_UUID + 16) with Some u => Ok u | None => Panic end);
      kb_start ← ok_or (checked_mul (le_u64 sb NX_KEYBAG_BLOCK) block_size) (CheckOther "keybag offset overflows");
      kb_len ← ok_or (checked_mul (le_u64 sb NX_KEYBAG_BLOCKS) block_size) (CheckOther "keybag length overflows");
      if (kb_start =? 0) || (kb_len =? 0)
      then Err (CheckOther "this container declares no keybag: it is not encrypted")
      else if MAX_KEYBAG_BYTES <? kb_len then Err (CheckOther "declared keybag length is implausible")
      else
        '(ct, total) ← check_read_at f kb_start kb_len total;
        container_kb ← decrypt_area ct container_uuid (kb_start / KEYBAG_SECTOR);
        if negb (bool_decide (get_range container_kb 24 28 = Some (lit "syek")))
        then Err (CheckOther
               "the container keybag did not decrypt — the area is damaged, or this is not an APFS-native encrypted container")
        else Ok (container_kb, block_size, total).

(** [run], on an image that opened. *)
Definition run (f : R) (password : bytes) : io_result Outcome :=
  '(container_kb, block_size, total) ← open_keybag f;
  try_volumes f block_size container_kb password (keybag_uuids container_kb) 0 0 total.
End Run.

(** ** The command *)

(** [trim_end_matches(['\n', '\r'])]. *)
Definition is_newline (b : byte) : bool := bool_decide (b = x0a) || bool_decide (b = x0d).
Fixpoint skip_newlines (s : bytes) : bytes :=
  match s with
  | b :: r => if is_newline b then skip_newlines r else s
  | [] => []
  end.
Definition trim_end_matches (s : bytes) : bytes := reverse (skip_newlines (reverse s)).

(** [write!(s, "{x:02x}")] over the bytes. *)
Definition hex_bytes (b : bytes) : bytes := concat (map (fun x => [digit (b2z x / 16); digit (b2z x mod 16)]) b).

(** [&h[a..b]]: 32 digits are enough for every slice. *)
Definition slice (h : bytes) (a b : Z) : bytes := default [] (get_range h a b).
Definition uuid_str (u : bytes) : bytes :=
  let h := hex_bytes u in
  slice h 0 8 ++ lit "-" ++ slice h 8 12 ++ lit "-" ++ slice h 12 16 ++ lit "-" ++ slice h 16 20 ++ lit "-" ++ slice h 20 32.

(** Exit code, standard output and standard error. *)
Record verdict := { exit_code : Z; out : list bytes; err_out : list bytes }.

Definition report (o : Outcome) : verdict :=
  match unlocked o with
  | Some (uuid, fp, len) =>
      {| exit_code := 0; err_out := [];
         out := [ lit "UNLOCKED";
                  lit "  volume          : " ++ uuid_str uuid;
                  lit "  key length      : " ++ dec len ++ lit " bytes";
                  lit "  key fingerprint : " ++ hex_bytes fp ++ lit "  (sha256, first 8 bytes)";
                  lit "  image bytes read: " ++ dec (bytes_read o) ] |}
  | None =>
      if volumes_tried o =? 0 then
        {| exit_code := 3; err_out := [];
           out := [ lit "NO VOLUME KEYBAG READABLE";
                    lit "  volumes named by the container keybag : " ++ dec (volumes_found o);
                    lit "  volumes whose own keybag decrypted    : 0";
                    lit "  the password was never tested: there was nothing to test it";
                    lit "  against. This is an image-completeness result, not a password one.";
                    lit "  image bytes read: " ++ dec (bytes_read o) ] |}
      else
        {| exit_code := 1; err_out := [];
           out := [ lit "REFUSED";
                    lit "  volumes named by the container keybag : " ++ dec (volumes_found o);
                    lit "  volumes the password was tried against: " ++ dec (volumes_tried o);
                    lit "  every one refused it at the AES-KW integrity check, so the";
                    lit "  structures are intact and the password did not match.";
                    lit "  image bytes read: " ++ dec (bytes_read o) ] |}
  end.

Section Main.
Context {R P : Type} `{ReadSeek R} `{XtsCipher} `{KeyCrypto} `{Sha256} `{IoDisplay}.

Definition check_display (e : check_error) : bytes :=
  match e with CheckIo e => io_display e | CheckOther m => lit m end.

(** [main], given the first argument, what standard input holds and how files open; [None] when it panics.  [read_to_string]
    fails where reading does and on text that is not UTF-8. *)
Definition main (path : option P) (stdin : io_error + bytes) (file_open : P -> io_error + R) : option verdict :=
  match path with
  | None =>
      Some {| exit_code := 2; out := []; err_out := [lit "usage: unlock_check <image>   (password on stdin)"] |}
  | Some path =>
      match (match stdin with inl _ => None | inr s => from_utf8 s end) with
      | None => Some {| exit_code := 2; out := []; err_out := [lit "could not read the password from stdin"] |}
      | Some password =>
          let password := trim_end_matches password in
          let result := match file_open path with inl e => Err (CheckIo e) | inr f => run f password end in
          match result with
          | Ok o => Some (report o)
          | Err e =>
              Some {| exit_code := 2; out := []; err_out := [lit "could not read the image structures: " ++ check_display e] |}
          | Panic => None
          end
      end
  end.
End Main.

(** ** What the enumeration sees *)

Lemma keybag_uuids_loop_entries n kb : forall off out,
  0 <= off -> keybag_uuids_loop n kb off out = foldl push_uuid out (map ke_uuid (keybag_entries_from n kb off)).
Proof.
  induction n as [|n IH]; intros off out Hoff; cbn [keybag_uuids_loop keybag_entries_from]; [done|].
  change KE_HEADER_LEN with 24. destruct (Z.ltb_spec (blen kb) (off + 24)); [done|]. cbn [map foldl ke_uuid].
  rewrite IH by (unfold KE_KEYLEN; lia). destruct (get_range kb off (off + 16)) eqn:Hg; [done|]. apply get_range_None in Hg; lia.
Qed.

Lemma keybag_uuids_entries kb : keybag_uuids kb = foldl push_uuid [] (map ke_uuid (keybag_entries kb)).
Proof. unfold keybag_uuids. by rewrite keybag_uuids_loop_entries. Qed.

Definition zero_uuid : bytes := replicate 16 x00.

Lemma any_nonzero u : blen u = 16 -> existsb (fun b => negb (bool_decide (b = x00))) u = true <-> u <> zero_uuid.
Proof.
  intros Hl. rewrite existsb_exists. split.
  - intros (b & Hb & Hn) ->. apply list_elem_of_In, elem_of_replicate in Hb as [-> _]. done.
  - intros Hne. destruct (decide (Forall (eq x00) u)) as [Hf|Hf].
    { exfalso. apply Hne. unfold zero_uuid. replace 16%nat with (length u) by (unfold blen in Hl; lia).
      by apply replicate_as_Forall_2 with (n := length u) in Hf. }
    apply not_Forall_Exists in Hf; [|apply _]. apply Exists_exists in Hf as (b & Hb & Hn). exists b.
    split; [by apply list_elem_of_In|]. by rewrite bool_decide_false by congruence.
Qed.

Lemma push_uuids_spec us : forall out,
  NoDup out -> Forall (fun u => blen u = 16) us ->
  NoDup (foldl push_uuid out us) /\ forall u, u ∈ foldl push_uuid out us <-> u ∈ out \/ (u ∈ us /\ u <> zero_uuid).
Proof.
  induction us as [|v us IH]; intros out Hnd Hus; cbn [foldl]; [set_solver|]. apply Forall_cons in Hus as [Hv Hus].
  apply any_nonzero in Hv.
  assert (NoDup (push_uuid out v) /\ forall u, u ∈ push_uuid out v <-> u ∈ out \/ (u = v /\ u <> zero_uuid)) as [Hnd' Hin].
  { unfold push_uuid. destruct (existsb _ v); [|split; [done|set_solver]]. case_bool_decide as Hb; [split; [done|set_solver]|].
    cbn [negb andb]. split; [|set_solver]. apply NoDup_app. split_and!; [done|set_solver|apply NoDup_singleton]. }
  destruct (IH _ Hnd' Hus) as [H1 H2]. split; [done|]. intros u. rewrite H2, Hin. set_solver.
Qed.

Lemma entry_uuid_len kb : Forall (fun e => blen (ke_uuid e) = 16) (keybag_entries kb).
Proof.
  unfold keybag_entries. assert (0 <= KL_ENTRIES_OFF) as Hoff by done. revert Hoff. generalize KL_ENTRIES_OFF as off.
  induction (nkeys kb) as [|n IH]; intros off Hoff; cbn [keybag_entries_from]; [constructor|].
  change KE_HEADER_LEN with 24. destruct (Z.ltb_spec (blen kb) (off + 24)); constructor; [|apply IH; unfold next_entry; lia].
  cbn [ke_uuid]. destruct (get_range kb off (off + 16)) eqn:Hg; [apply get_range_len in Hg; cbn; lia|].
  apply get_range_None in Hg; lia.
Qed.

Lemma keybag_uuids_spec kb :
  NoDup (keybag_uuids kb) /\
  forall u, u ∈ keybag_uuids kb <-> (exists e, e ∈ keybag_entries kb /\ ke_uuid e = u) /\ u <> zero_uuid.
Proof.
  rewrite keybag_uuids_entries. destruct (push_uuids_spec (map ke_uuid (keybag_entries kb)) [] NoDup_nil_2) as [Hnd Hin].
  { apply Forall_map. apply entry_uuid_len. }
  split; [done|]. intros u. rewrite Hin. split.
  - intros [Hu|[Hu Hz]]; [set_solver|]. split; [|done]. apply list_elem_of_fmap in Hu as (e & -> & He). eauto.
  - intros [(e & He & <-) Hz]. right. split; [|done]. by apply list_elem_of_fmap_2.
Qed.

(** A volume with records has an entry. *)
Lemma records_have_entry kb u rec : volume_records kb u = Ok rec -> exists e, e ∈ keybag_entries kb /\ ke_uuid e = u.
Proof.
  unfold volume_records. rewrite records_loop_entries. fold (keybag_entries kb).
  destruct (of_volume u (keybag_entries kb)) as [|e es] eqn:Hes; [done|]. intros _. exists e.
  assert (e ∈ of_volume u (keybag_entries kb)) as He by (rewrite Hes; set_solver). unfold of_volume in He.
  by apply list_elem_of_filter in He as [? ?].
Qed.

(** The volumes the checker goes through are the distinct UUIDs of the keybag's entries, each once, the all-zero one left out,
    and no more than 4096; in particular every volume whose records the library finds in the container keybag is tried. *)
Theorem keybag_uuids_exact (kb : bytes) :
  NoDup (keybag_uuids kb) /\ blen (keybag_uuids kb) <= 4096 /\
  (forall u, u ∈ keybag_uuids kb <-> (exists e, e ∈ keybag_entries kb /\ ke_uuid e = u) /\ u <> zero_uuid) /\
  (forall u rec, volume_records kb u = Ok rec -> u ∈ keybag_uuids kb \/ u = zero_uuid).
Proof.
  destruct (keybag_uuids_spec kb) as [Hnd Hin]. split_and!; [done| |done|].
  - destruct (keybag_entries_in_bounds kb) as [_ Hn]. unfold MAX_KEYBAG_ENTRIES in Hn.
    assert (length (keybag_uuids kb) <= length (map ke_uuid (keybag_entries kb)))%nat as Hle.
    { apply submseteq_length, NoDup_submseteq; [done|]. intros u Hu. apply Hin in Hu as [(e & He & <-) _].
      by apply list_elem_of_fmap_2. }
    rewrite length_map in Hle. unfold blen in *. lia.
  - intros u rec Hr. destruct (decide (u = zero_uuid)); [by right|left]. apply Hin. split; [|done]. by eapply records_have_entry.
Qed.

(** The extent of a volume's keybag is a pair of 64-bit numbers. *)
Lemma volume_records_pos kb u rec :
  volume_records kb u = Ok rec -> 0 <= vr_volume_keybag_block rec /\ 0 <= vr_volume_keybag_blocks rec.
Proof.
  unfold volume_records. rewrite records_loop_entries. intros ([w x] & Hf & Hr)%bind_Ok_iff.
  assert (match x with Some (b, n) => 0 <= b /\ 0 <= n | None => True end) as Hx.
  { revert Hf. apply (fold_res_inv (fun st => match st.2 with Some (b, n) => 0 <= b /\ 0 <= n | None => True end)); [|done].
    intros st e st' _ Hst. unfold records_entry. destruct (from_u16 (ke_tag e)); try (by intros [= <-]).
    - intros (? & _ & (? & _ & Hi)%bind_Ok_iff)%bind_Ok_iff. destruct (negb _); [done|]. by injection Hi as <-.
    - destruct (_ <? _); [done|]. intros [= <-]. cbn [snd]. split; apply le_u64_bound. }
  destruct x as [[b n]|]; [|done]. destruct w; [|done]. by injection Hr as <-.
Qed.

(** ** The checker and the library *)

(** The records and the plain keybag of a volume, as [unlock_volume] finds them before it looks at the password. *)
Definition volume_keybag `{XtsCipher} (image volume_uuid : bytes) : result (VolumeRecords * bytes) :=
  container_kb ← decrypt_container_keybag image;
  rec ← volume_records container_kb volume_uuid;
  let block_size := le_u32 image NX_BLOCK_SIZE in
  start ← ok_or (checked_mul (vr_volume_keybag_block rec) block_size)
            (unlock_bad "vkb_offset" (vr_volume_keybag_block rec) block_size);
  len ← ok_or (checked_mul (vr_volume_keybag_blocks rec) block_size)
          (unlock_bad "vkb_length" (vr_volume_keybag_blocks rec) block_size);
  end_ ← ok_or (checked_add start len) (unlock_bad "vkb_end" start len);
  ct ← ok_or (get_range image start end_) (unlock_bad "vkb_past_image" end_ (blen image));
  volume_kb ← decrypt_keybag_area ct volume_uuid (start / KEYBAG_SECTOR);
  Ok (rec, volume_kb).

Section Agreement.
Context `{XtsCipher} `{KeyCrypto} `{Sha256}.

Lemma unlock_volume_keybag img u pw :
  unlock_volume img u pw = ('(rec, vkb) ← volume_keybag img u; unlock_with_volume_keybag vkb rec pw).
Proof.
  unfold unlock_volume, volume_keybag.
  repeat match goal with
  | |- (?m ≫= _) = ((?m ≫= _) ≫= _) => destruct m; cbn [mbind outcome_bind]; [|done|done]; cbv zeta
  end. done.
Qed.

(** A volume the password can be tested against: its keybag is found, is not at block 0, is no larger than the tool reads, and
    carries the type of a volume keybag. *)
Definition testable (img u : bytes) : Prop :=
  exists rec vkb, volume_keybag img u = Ok (rec, vkb) /\
    vr_volume_keybag_block rec <> 0 /\ blen vkb <= 2 ^ 20 /\ get_range vkb 24 28 = Some (lit "scer").

#[export] Instance testable_dec img u : Decision (testable img u).
Proof.
  destruct (volume_keybag img u) as [[rec vkb]|e|] eqn:Hv.
  2,3: right; intros (r & k & Hk & _); congruence.
  destruct (decide (vr_volume_keybag_block rec <> 0 /\ blen vkb <= 2 ^ 20 /\ get_range vkb 24 28 = Some (lit "scer"))) as [Hd|Hd].
  - left. by exists rec, vkb.
  - right. intros (r & k & Hk & Ht). rewrite Hv in Hk. injection Hk as -> ->. done.
Defined.

(** A volume with records in the container keybag. *)
Definition named (kb u : bytes) : Prop := exists rec, volume_records kb u = Ok rec.
#[export] Instance named_dec kb u : Decision (named kb u).
Proof. unfold named. destruct (volume_records kb u) as [rec|e|]; [left; by exists rec|right..]; by intros [r Hr]. Defined.

(** What is read of the image for a volume: the area of its keybag, when it can be read, is not at block 0 and is no larger than a mebibyte. *)
Definition area_bytes (img u : bytes) : Z :=
  match volume_keybag img u with
  | Ok (rec, vkb) => if (vr_volume_keybag_block rec =? 0) || (2 ^ 20 <? blen vkb) then 0 else blen vkb
  | _ => 0
  end.
Definition areas_bytes (img : bytes) (us : list bytes) : Z := foldr (fun u n => area_bytes img u + n) 0 us.

Section Image.
Context (img : bytes) (Hsize : blen img < u64_limit) (Hsectors : le_u32 img NX_BLOCK_SIZE mod 512 = 0).

Lemma check_read_at_image off len total :
  len <> 0 ->
  check_read_at (image img) off len total =
    match get_range img off (off + len) with Some ct => Ok (ct, total + len) | None => Err (CheckIo UnexpectedEof) end.
Proof. intros Hl. unfold check_read_at. cbn. apply Z.eqb_neq in Hl as ->. by destruct (get_range _ _ _). Qed.

(** Fields of the first 4096 bytes are fields of the image. *)
Lemma superblock_prefix sb : get_range img 0 (0 + 4096) = Some sb ->
  blen sb = 4096 /\ forall a b, 0 <= a <= b -> b <= 4096 -> get_range sb a b = get_range img a b.
Proof.
  intros Hsb. apply get_range_len in Hsb as Hl. split; [lia|]. intros a b Hab Hb.
  apply get_range_split in Hsb as (p & q & -> & Hp). destruct p; [|rewrite blen_cons in Hp; pose proof (blen_nonneg p); lia].
  cbn [app]. symmetry. apply get_range_app_l; lia.
Qed.

Lemma decrypt_area_Ok ct uuid sector kb :
  decrypt_area ct uuid sector = Ok kb <-> decrypt_keybag_area ct uuid sector = Ok kb.
Proof. unfold decrypt_area. destruct (decrypt_keybag_area _ _ _); split; first [done | by intros [= ->]]. Qed.

(** A read and decrypted area, as the library computes it. *)
Lemma area_decrypts start blocks ct uuid sector :
  get_range img start (start + blocks * le_u32 img NX_BLOCK_SIZE) = Some ct ->
  exists kb, decrypt_area ct uuid sector = Ok kb /\ decrypt_keybag_area ct uuid sector = Ok kb /\
    blen kb = blocks * le_u32 img NX_BLOCK_SIZE.
Proof.
  intros Hct. apply get_range_len in Hct. destruct (xts_whole_sectors uuid uuid sector ct) as (kb & Hkb & Hl).
  { replace (blen ct) with (blocks * le_u32 img NX_BLOCK_SIZE) by lia. change APFS_CRYPTO_SECTOR with 512.
    by rewrite Z.mul_mod, Hsectors, Z.mul_0_r by lia. }
  exists kb. unfold decrypt_area, decrypt_keybag_area, keybag_xts_decrypt_area. rewrite Hkb. split_and!; [done..|lia].
Qed.

Lemma shiftl_mib : MAX_KEYBAG_BYTES = 2 ^ 20.
Proof. done. Qed.

(** The tool reads the container keybag exactly where the library does, and returns it when it has the type of one and neither the block
    size nor the area is beyond what it accepts. *)
Lemma open_keybag_library kb bs total :
  open_keybag (image img) = Ok (kb, bs, total) <->
  decrypt_container_keybag img = Ok kb /\ bs = le_u32 img NX_BLOCK_SIZE /\ total = 4096 + blen kb /\
  4096 <= blen img /\ bs <= 2 ^ 20 /\ blen kb <= 2 ^ 20 /\ get_range kb 24 28 = Some (lit "syek").
Proof.
  unfold open_keybag. rewrite check_read_at_image by done. destruct (get_range img 0 (0 + 4096)) as [sb|] eqn:Hsb.
  2: { split; [done|]. intros (_ & _ & _ & Hl & _). apply get_range_None in Hsb; lia. }
  apply get_range_Some in Hsb as Hl. destruct Hl as (_ & Hl & _). destruct (superblock_prefix sb Hsb) as [Hsbl Hf].
  cbn [mbind outcome_bind]. unfold decrypt_container_keybag, decrypt_container_keybag_with_uuid.
  assert (le_u32 sb NX_BLOCK_SIZE = le_u32 img NX_BLOCK_SIZE) as -> by (unfold le_u32, arr; by rewrite Hf).
  assert (le_u64 sb NX_KEYBAG_BLOCK = le_u64 img NX_KEYBAG_BLOCK) as -> by (unfold le_u64, arr; by rewrite Hf).
  assert (le_u64 sb NX_KEYBAG_BLOCKS = le_u64 img NX_KEYBAG_BLOCKS) as -> by (unfold le_u64, arr; by rewrite Hf).
  rewrite !Hf by done. change (lit "NXSB") with NXSB_MAGIC.
  destruct (get_range img NX_CONTAINER_UUID (NX_CONTAINER_UUID + 16)) as [cu|] eqn:Hcu; cbn [ok_or mbind outcome_bind].
  2: { apply get_range_None in Hcu; [|done]. change (NX_CONTAINER_UUID + 16) with 88 in Hcu. lia. }
  destruct (negb (bool_decide (get_range img 32 36 = _))); [by split; [|intros [? _]]|]. cbv zeta.
  change KEYBAG_SECTOR with 512 at 2. rewrite Hsectors. cbn [Z.eqb negb]. rewrite orb_false_r, shiftl_mib.
  pose proof (le_u32_bound img NX_BLOCK_SIZE) as Hbs. pose proof (le_u64_bound img NX_KEYBAG_BLOCK) as Hp.
  pose proof (le_u64_bound img NX_KEYBAG_BLOCKS) as Hb.
  set (b := le_u32 img NX_BLOCK_SIZE) in *. set (p := le_u64 img NX_KEYBAG_BLOCK) in *. set (n := le_u64 img NX_KEYBAG_BLOCKS) in *.
  destruct (Z.eqb_spec b 0); [by split; [|intros [? _]]|]. cbn [orb].
  destruct (Z.ltb_spec (2 ^ 20) b); [split; [done|intros (_ & -> & _ & _ & ? & _); lia]|].
  assert ((p * b =? 0) || (n * b =? 0) = (p =? 0) || (n =? 0)) as Hzero by (f_equal; bool_cases; nia).
  unfold checked_mul. destruct (Z.ltb_spec (p * b) u64_limit); cbn [ok_or mbind outcome_bind].
  2: { destruct ((p =? 0) || _); by split; [|intros [? _]]. }
  destruct (Z.ltb_spec (n * b) u64_limit); cbn [ok_or mbind outcome_bind].
  2: { destruct ((p =? 0) || _); by split; [|intros [? _]]. }
  rewrite Hzero. destruct ((p =? 0) || (n =? 0)) eqn:Hnz; [by split; [|intros [? _]]|]. bool_cases.
  rewrite check_read_at_image by nia. unfold checked_add.
  destruct (get_range img (p * b) (p * b + n * b)) as [ct|] eqn:Hct.
  - apply get_range_Some in Hct as Hr. destruct Hr as (_ & Hr & _). rewrite (proj2 (Z.ltb_lt _ u64_limit)) by lia.
    cbn [ok_or mbind outcome_bind]. rewrite Hct. cbn [ok_or mbind outcome_bind].
    destruct (area_decrypts (p * b) n ct cu (p * b / KEYBAG_SECTOR) Hct) as (k & -> & -> & Hk). cbn [mbind outcome_bind].
    destruct (Z.ltb_spec (2 ^ 20) (n * b)); [split; [done|intros ([= <-] & _ & _ & _ & _ & ? & _); lia]|].
    case_bool_decide as Hm; cbn [negb]; [|split; [done|intros ([= <-] & _ & _ & _ & _ & _ & ?); done]].
    split; [intros [= <- <- <-]; split_and!; (done || lia)|intros ([= <-] & -> & -> & _)]. f_equal. f_equal. lia.
  - split; [by destruct (_ <? _)|]. intros [Hd _]. destruct (_ <? _) in Hd; [|done]. cbn [ok_or mbind outcome_bind] in Hd.
    by rewrite Hct in Hd.
Qed.

Section Volumes.
Context (kb : bytes) (Hkb : decrypt_container_keybag img = Ok kb) (Hpos : 0 < le_u32 img NX_BLOCK_SIZE).
Let bs := le_u32 img NX_BLOCK_SIZE.

Lemma volume_keybag_Ok u rec vkb :
  volume_keybag img u = Ok (rec, vkb) <->
  volume_records kb u = Ok rec /\ exists ct,
    get_range img (vr_volume_keybag_block rec * bs) (vr_volume_keybag_block rec * bs + vr_volume_keybag_blocks rec * bs) = Some ct /\
    decrypt_keybag_area ct u (vr_volume_keybag_block rec * bs / KEYBAG_SECTOR) = Ok vkb.
Proof.
  unfold volume_keybag. rewrite Hkb. cbn [mbind outcome_bind]. cbv zeta. fold bs. rewrite bind_Ok_iff. split.
  - intros (r & Hr & Hv). rewrite !bind_Ok_iff in Hv. destruct Hv as (start & Hs & Hv). rewrite bind_Ok_iff in Hv.
    destruct Hv as (len & Hl & Hv). rewrite bind_Ok_iff in Hv. destruct Hv as (end_ & He & Hv). rewrite bind_Ok_iff in Hv.
    destruct Hv as (ct & Hct & Hv). rewrite bind_Ok_iff in Hv. destruct Hv as (k & Hk & [= -> ->]).
    apply ok_or_Ok_iff in Hs, Hl, He, Hct. apply checked_mul_Some in Hs as [-> _], Hl as [-> _]. apply checked_add_Some in He as [-> _].
    split; [done|]. eauto.
  - intros (Hr & ct & Hct & Hd). exists rec. split; [done|]. pose proof (volume_records_pos _ _ _ Hr) as [Hb Hn].
    apply get_range_Some in Hct as Hg. destruct Hg as ([Hg0 Hg1] & Hg & _).
    rewrite (proj2 (checked_mul_Some _ _ _)) by (split; [reflexivity|nia]). cbn [ok_or mbind outcome_bind].
    rewrite (proj2 (checked_mul_Some _ _ _)) by (split; [reflexivity|nia]). cbn [ok_or mbind outcome_bind].
    rewrite (proj2 (checked_add_Some _ _ _)) by (split; [reflexivity|nia]). cbn [ok_or mbind outcome_bind].
    rewrite Hct. cbn [ok_or mbind outcome_bind]. by rewrite Hd.
Qed.

(** What the library's view of a volume says about its extent. *)
Lemma volume_keybag_extent u rec rec' vkb :
  volume_records kb u = Ok rec -> volume_keybag img u = Ok (rec', vkb) ->
  rec' = rec /\ vr_volume_keybag_block rec * bs + vr_volume_keybag_blocks rec * bs < u64_limit /\
  blen vkb = vr_volume_keybag_blocks rec * bs /\
  is_Some (get_range img (vr_volume_keybag_block rec * bs) (vr_volume_keybag_block rec * bs + vr_volume_keybag_blocks rec * bs)).
Proof.
  intros Hr (Hr' & ct & Hct & Hd)%volume_keybag_Ok. assert (rec' = rec) as -> by congruence. split; [done|].
  apply get_range_Some in Hct as Hg. apply get_range_len in Hct as Hl. split; [lia|]. apply xts_length in Hd. split; [lia|by eexists].
Qed.

(** The gates of the loop let every testable volume through. *)
Lemma gate_not_testable u rec :
  volume_records kb u = Ok rec ->
  let vs := saturating_mul (vr_volume_keybag_block rec) bs in
  let vlen := saturating_mul (vr_volume_keybag_blocks rec) bs in
  (vs =? 0) || (vlen =? 0) || (2 ^ 20 <? vlen) = true \/ get_range img vs (vs + vlen) = None -> ~ testable img u.
Proof.
  intros Hr vs vlen Hgate (r & k & Hv & Hb0 & Hk20 & Hm).
  pose proof (volume_records_pos _ _ _ Hr) as [Hb Hn]. fold bs in Hpos.
  destruct (volume_keybag_extent _ _ _ _ Hr Hv) as (-> & Hl & Hkl & [ct Hct]). apply get_range_Some in Hm as (_ & Hm & _).
  unfold vs, vlen in Hgate. rewrite !saturating_mul_exact in Hgate by nia. destruct Hgate as [Hg|Hg]; [|congruence].
  apply orb_true_iff in Hg as [[Hg|Hg]%orb_true_iff|Hg];
    [apply Z.eqb_eq in Hg; nia|apply Z.eqb_eq in Hg; lia|apply Z.ltb_lt in Hg; lia].
Qed.

(** Past the gates and the read, the extent is exact and the area decrypts as in the library. *)
Lemma gate_passed u rec ct :
  volume_records kb u = Ok rec ->
  let vs := saturating_mul (vr_volume_keybag_block rec) bs in
  let vlen := saturating_mul (vr_volume_keybag_blocks rec) bs in
  (vs =? 0) || (vlen =? 0) || (2 ^ 20 <? vlen) = false -> get_range img vs (vs + vlen) = Some ct ->
  exists vkb, decrypt_area ct u (vs / KEYBAG_SECTOR) = Ok vkb /\ volume_keybag img u = Ok (rec, vkb) /\
    vr_volume_keybag_block rec <> 0 /\ blen vkb = vlen /\ vlen <= 2 ^ 20.
Proof.
  intros Hr vs vlen Hgate Hct. pose proof (volume_records_pos _ _ _ Hr) as [Hb Hn]. fold bs in Hpos. bool_cases.
  apply get_range_Some in Hct as Hg. destruct Hg as (Hg0 & Hg & _).
  assert (vlen = vr_volume_keybag_blocks rec * bs) as Hvlen by (unfold vlen, saturating_mul, u64_max, u64_limit in *; lia).
  assert (vs = vr_volume_keybag_block rec * bs) as Hvs by (unfold vs, saturating_mul, u64_max, u64_limit in *; nia).
  rewrite Hvs, Hvlen in *. destruct (area_decrypts _ _ ct u (vr_volume_keybag_block rec * bs / KEYBAG_SECTOR) Hct) as (k & Hd & Hd' & Hk).
  exists k. split_and!; [done| |intros Hz; rewrite Hz in *; lia|done|lia]. apply volume_keybag_Ok. eauto.
Qed.

Lemma area_bytes_not_named u : ~ named kb u -> area_bytes img u = 0.
Proof.
  intros Hn. unfold area_bytes. destruct (volume_keybag img u) as [[rec vkb]| |] eqn:Hv; [|done|done].
  apply volume_keybag_Ok in Hv as [Hr _]. by destruct Hn; exists rec.
Qed.

(** A volume the loop passes over without reading its area. *)
Lemma gate_no_area u rec :
  volume_records kb u = Ok rec ->
  let vs := saturating_mul (vr_volume_keybag_block rec) bs in
  let vlen := saturating_mul (vr_volume_keybag_blocks rec) bs in
  (vs =? 0) || (vlen =? 0) || (2 ^ 20 <? vlen) = true \/ get_range img vs (vs + vlen) = None -> area_bytes img u = 0.
Proof.
  intros Hr vs vlen Hgate. unfold area_bytes. destruct (volume_keybag img u) as [[r k]| |] eqn:Hv; [|done|done].
  pose proof (volume_records_pos _ _ _ Hr) as [Hb Hn]. fold bs in Hpos.
  destruct (volume_keybag_extent _ _ _ _ Hr Hv) as (-> & Hl & Hkl & [ct Hct]).
  unfold vs, vlen in Hgate. rewrite !saturating_mul_exact in Hgate by nia. destruct Hgate as [Hg|Hg]; [|congruence].
  rewrite Hkl. destruct (Z.eqb_spec (vr_volume_keybag_block rec) 0); [done|]. cbn [orb].
  destruct (Z.ltb_spec (2 ^ 20) (vr_volume_keybag_blocks rec * bs)); [done|].
  apply orb_true_iff in Hg as [[Hg|Hg]%orb_true_iff|Hg]; bool_cases; nia.
Qed.

(** One round of the loop: the volume is counted when it has records, its area when it was read, and the password is tested when it can be. *)
Lemma try_volumes_step pw u us f t tot :
  let go := try_volumes (image img) bs kb pw in
  let f' := f + (if decide (named kb u) then 1 else 0) in
  let tot' := tot + area_bytes img u in
  go (u :: us) f t tot =
    if decide (testable img u) then
      match unlock_volume img u pw with
      | Ok v => Ok {| volumes_found := f'; volumes_tried := t + 1; bytes_read := tot';
                      unlocked := Some (u, take 8 (sha256 (uv_vek v)), blen (uv_vek v)) |}
      | Err _ => go us f' (t + 1) tot'
      | Panic => Panic
      end
    else go us f' t tot'.
Proof.
  intros go f' tot'. unfold go, f', tot'. cbn [try_volumes]. destruct (volume_records kb u) as [rec|e|] eqn:Hr.
  2: { assert (~ named kb u) as Hn by (intros [r Hr']; congruence). rewrite (decide_False _ _ Hn), (area_bytes_not_named u Hn), !Z.add_0_r.
       rewrite decide_False; [done|]. intros (r & k & Hv & _). apply volume_keybag_Ok in Hv as [Hv _]. by destruct Hn; exists r. }
  2: { by apply volume_records_not_Panic in Hr. }
  rewrite (decide_True _ _ (ex_intro _ rec Hr : named kb u)). cbv zeta. rewrite shiftl_mib.
  pose proof (gate_not_testable u rec Hr) as Hnot. pose proof (gate_no_area u rec Hr) as Hno. pose proof (gate_passed u rec) as Hpass.
  cbv zeta in Hnot, Hno, Hpass. set (vs := saturating_mul _ bs) in *. set (vlen := saturating_mul (vr_volume_keybag_blocks rec) bs) in *.
  destruct (_ || _ || _) eqn:Hgate.
  { rewrite decide_False by (apply Hnot; by left). by rewrite Hno, Z.add_0_r by (by left). }
  rewrite check_read_at_image by (bool_cases; done). destruct (get_range img vs (vs + vlen)) as [ct|] eqn:Hct.
  2: { rewrite decide_False by (apply Hnot; by right). by rewrite Hno, Z.add_0_r by (by right). }
  destruct (Hpass ct Hr eq_refl eq_refl) as (vkb & -> & Hv & Hb0 & Hl & H20). cbn [mbind outcome_bind].
  assert (area_bytes img u = vlen) as ->.
  { unfold area_bytes. rewrite Hv, (proj2 (Z.eqb_neq _ _) Hb0), (proj2 (Z.ltb_ge _ _)) by lia. done. }
  case_bool_decide as Hm; cbn [negb].
  - rewrite decide_True by (exists rec, vkb; split_and!; (done || lia)). by rewrite unlock_volume_keybag, Hv.
  - rewrite decide_False; [done|]. intros (r & k & Hv' & _ & _ & Hm'). congruence.
Qed.

Lemma unlock_testable_not_Panic u pw : testable img u -> unlock_volume img u pw <> Panic.
Proof. intros (rec & vkb & Hv & _). rewrite unlock_volume_keybag, Hv. apply unlock_with_not_Panic. Qed.

(** What an outcome says of the volumes it came from: the first [seen] of them were gone through. *)
Definition outcome_of (pw : bytes) (us : list bytes) (o : Outcome) (found tried total : Z) : Prop :=
  exists seen rest, us = seen ++ rest /\
    volumes_found o = found + blen (filter (named kb) seen) /\
    volumes_tried o = tried + blen (filter (testable img) seen) /\
    bytes_read o = total + areas_bytes img seen /\
    match unlocked o with
    | Some (u, fp, len) =>
        exists before vek, seen = before ++ [u] /\ testable img u /\
          unlock_volume img u pw = Ok {| uv_vek := vek |} /\ fp = take 8 (sha256 vek) /\ len = blen vek /\
          forall v, v ∈ before -> testable img v -> exists e, unlock_volume img v pw = Err e
    | None => rest = [] /\ forall v, v ∈ us -> testable img v -> exists e, unlock_volume img v pw = Err e
    end.

Lemma outcome_of_cons pw u us o f t tot :
  (testable img u -> exists e, unlock_volume img u pw = Err e) ->
  outcome_of pw us o (f + (if decide (named kb u) then 1 else 0)) (t + (if decide (testable img u) then 1 else 0)) (tot + area_bytes img u) ->
  outcome_of pw (u :: us) o f t tot.
Proof.
  intros Hu (seen & rest & -> & Hf & Ht & Hb & Ho). exists (u :: seen), rest. rewrite !filter_cons. cbn [areas_bytes foldr].
  fold (areas_bytes img seen). split; [done|]. split_and!.
  - rewrite Hf. destruct (decide (named kb u)); rewrite ?blen_cons; lia.
  - rewrite Ht. destruct (decide (testable img u)); rewrite ?blen_cons; lia.
  - lia.
  - destruct (unlocked o) as [[[v fp] len]|].
    + destruct Ho as (before & vek & -> & Htv & Hv & Hfp & Hl & Hall). exists (u :: before), vek. split_and!; try done.
      intros w [->|Hw]%elem_of_cons; [done|by apply Hall].
    + destruct Ho as [-> Hall]. split; [done|]. intros w [->|Hw]%elem_of_cons; [done|by apply Hall].
Qed.

Lemma try_volumes_spec pw us : forall f t tot, exists o,
  try_volumes (image img) bs kb pw us f t tot = Ok o /\ outcome_of pw us o f t tot.
Proof.
  induction us as [|u us IH]; intros f t tot.
  { eexists. split; [reflexivity|]. exists [], []. cbn. split_and!; first [done|rewrite ?blen_nil; lia|set_solver]. }
  rewrite try_volumes_step. destruct (decide (testable img u)) as [Ht|Ht].
  - pose proof (unlock_testable_not_Panic u pw Ht) as Hnp. destruct (unlock_volume img u pw) as [[vek]|e|] eqn:Hu; [| |done].
    + eexists. split; [reflexivity|]. exists [u], us. cbn [unlocked volumes_tried volumes_found bytes_read uv_vek areas_bytes foldr].
      rewrite !filter_cons, !filter_nil. rewrite (decide_True (P := testable img u) _ _ Ht). split; [done|]. split_and!.
      * by destruct (decide (named kb u)).
      * done.
      * lia.
      * exists [], vek. split_and!; try done. set_solver.
    + destruct (IH (f + (if decide (named kb u) then 1 else 0)) (t + 1) (tot + area_bytes img u)) as (o & Heq & Ho). exists o.
      split; [exact Heq|]. apply outcome_of_cons; [by exists e|]. by rewrite (decide_True (P := testable img u) _ _ Ht).
  - destruct (IH (f + (if decide (named kb u) then 1 else 0)) t (tot + area_bytes img u)) as (o & Heq & Ho). exists o.
    split; [exact Heq|]. apply outcome_of_cons; [done|]. by rewrite (decide_False (P := testable img u) _ _ Ht), Z.add_0_r.
Qed.
End Volumes.

Lemma open_keybag_not_Panic : open_keybag (image img) <> Panic.
Proof.
  unfold open_keybag. rewrite check_read_at_image by done. destruct (get_range img 0 (0 + 4096)) as [sb|] eqn:Hsb; [|done].
  destruct (superblock_prefix sb Hsb) as [Hsbl Hf]. cbn [mbind outcome_bind]. destruct (negb _); [done|]. cbv zeta.
  destruct (_ || _); [done|]. destruct (get_range sb NX_CONTAINER_UUID _) as [cu|] eqn:Hcu.
  2: { apply get_range_None in Hcu; [|done]. change (NX_CONTAINER_UUID + 16) with 88 in Hcu. lia. }
  cbn [mbind outcome_bind]. apply bind_not_Panic; [apply ok_or_not_Panic|]. intros start _.
  apply bind_not_Panic; [apply ok_or_not_Panic|]. intros len Hlen%ok_or_Ok_iff. apply checked_mul_Some in Hlen as [-> _].
  destruct ((start =? 0) || _) eqn:Hz; [done|]. destruct (_ <? _); [done|]. bool_cases. rewrite check_read_at_image by done.
  assert (le_u32 sb NX_BLOCK_SIZE = le_u32 img NX_BLOCK_SIZE) as -> by (unfold le_u32, arr; by rewrite Hf).
  destruct (get_range img start _) as [ct|] eqn:Hct; [|done]. cbn [mbind outcome_bind].
  destruct (area_decrypts start _ ct cu (start / KEYBAG_SECTOR) Hct) as (k & -> & _). cbn [mbind outcome_bind]. by destruct (negb _).
Qed.
End Image.

(** An image whose container keybag the checker accepts. *)
Definition accepted (img kb : bytes) : Prop :=
  decrypt_container_keybag img = Ok kb /\ 4096 <= blen img /\ le_u32 img NX_BLOCK_SIZE <= 2 ^ 20 /\ blen kb <= 2 ^ 20 /\
  get_range kb 24 28 = Some (lit "syek").

(** C11 (refinement): on an image of whole sectors the checker does what the library does, without holding the image.  It returns, without a
    panic; it gives a verdict exactly on the images whose container keybag decrypts and carries its type.  It goes through the UUIDs of that keybag in
    order: a volume it reports unlocked is one [unlock_volume] opens with the same password, the first of them, and the fingerprint and length are of that
    key; when it reports none it went through all, and [unlock_volume] refuses the password on every volume whose keybag could be tested, so no password that
    fits is turned down.  Of the volumes gone through, "found" is the number of those with records, "tried" of those whose keybag could be tested, and
    the bytes read are those of the superblock, the container keybag and each volume keybag area that was read. *)
Theorem run_agrees_with_library (img pw : bytes) :
  blen img < u64_limit -> le_u32 img NX_BLOCK_SIZE mod 512 = 0 ->
  (forall kb, accepted img kb -> exists o seen rest,
     run (image img) pw = Ok o /\ keybag_uuids kb = seen ++ rest /\
     volumes_found o = blen (filter (named kb) seen) /\
     volumes_tried o = blen (filter (testable img) seen) /\
     bytes_read o = 4096 + blen kb + areas_bytes img seen /\
     match unlocked o with
     | Some (u, fp, len) =>
         exists before vek, seen = before ++ [u] /\ testable img u /\
           unlock_volume img u pw = Ok {| uv_vek := vek |} /\ fp = take 8 (sha256 vek) /\ len = blen vek /\
           forall v, v ∈ before -> testable img v -> exists e, unlock_volume img v pw = Err e
     | None => rest = [] /\ forall v, v ∈ keybag_uuids kb -> testable img v -> exists e, unlock_volume img v pw = Err e
     end) /\
  ((forall kb, ~ accepted img kb) -> exists e, run (image img) pw = Err e).
Proof.
  intros Hsize Hsec. split.
  - intros kb (Hkb & Himg & Hbs & Hlen & Hm). assert (0 < le_u32 img NX_BLOCK_SIZE) as Hpos.
    { pose proof (le_u32_bound img NX_BLOCK_SIZE). destruct (decide (le_u32 img NX_BLOCK_SIZE = 0)) as [Hz|]; [|lia].
      exfalso. revert Hkb. unfold decrypt_container_keybag, decrypt_container_keybag_with_uuid. intros (cu & _ & Hd)%bind_Ok_iff.
      destruct (negb _); [done|]. cbv zeta in Hd. by rewrite Hz in Hd. }
    assert (open_keybag (image img) = Ok (kb, le_u32 img NX_BLOCK_SIZE, 4096 + blen kb)) as Hopen
      by (apply open_keybag_library; [done|done|split_and!; done]).
    unfold run. rewrite Hopen. cbn [mbind outcome_bind].
    destruct (try_volumes_spec img Hsize Hsec kb Hkb Hpos pw (keybag_uuids kb) 0 0 (4096 + blen kb))
      as (o & -> & seen & rest & Hus & Ho). exists o, seen, rest. split; [done|]. split; [done|exact Ho].
  - intros Hno. unfold run. pose proof (open_keybag_not_Panic img Hsize Hsec) as Hnp.
    destruct (open_keybag (image img)) as [[[kb bs] total]|e|] eqn:Hopen; [|by exists e|done].
    apply open_keybag_library in Hopen as (Hd & -> & _ & Hl & Hb & Hk & Hm); [|done|done]. by destruct (Hno kb).
Qed.
End Agreement.

(** ** Runs on a small image *)

(** Any function with results of 32 bytes will do for the runs below. *)
#[export] Program Instance demo_sha : Sha256 := {| sha256 data := resize 32 x00 data |}.
Next Obligation. intros data. unfold blen. by rewrite length_resize. Qed.
#[export] Instance demo_display : IoDisplay := fun _ => lit "i/o".

(** Keybags with the object type a keybag carries on disk. *)
Definition typed (ty : string) (kb : bytes) : bytes := put kb 24 (lit ty).

(** An image of blocks of [bs] bytes: the superblock, the container keybag at block [8] and a volume keybag at block [9]. *)
Definition check_image (bs : Z) (ckb vkb : bytes) : bytes :=
  put (put (put (put (put (put (put (replicate (Z.to_nat (10 * bs)) x00) 32 (lit "NXSB")) NX_BLOCK_SIZE (to_le_bytes 4 bs))
    NX_CONTAINER_UUID demo_cu) NX_KEYBAG_BLOCK (to_le_bytes 8 8)) NX_KEYBAG_BLOCKS (to_le_bytes 8 1)) (8 * bs) ckb) (9 * bs) vkb.

Definition check_ckb (size : nat) : bytes :=
  typed "syek" (encode_keybag size
    [ encode_entry demo_cu 2 (demo_packed (encode_tlvs [(TAG_WRAPPED_KEY, replicate 40 xee)]));
      encode_entry demo_vu 2 (demo_packed (encode_tlvs [(TAG_WRAPPED_KEY, demo_wrap demo_kek demo_vek)]));
      encode_entry demo_vu 3 (to_le_bytes 8 9 ++ to_le_bytes 8 1) ]).
Definition check_vkb : bytes := typed "scer" (demo_vkb [demo_password]).
Definition check_locked : bytes := check_image 512 (check_ckb 512) check_vkb.

Definition checked (img : bytes) (password : bytes) : option verdict :=
  main (Some tt) (inr password) (fun _ => inr (image img)).

Lemma check_accepted : accepted check_locked (check_ckb 512).
Proof. split_and!; [vm_compute; reflexivity|vm_compute; discriminate..|vm_compute; reflexivity]. Qed.

(** The image has two UUIDs: the container's, whose entry has no keybag extent, and the volume's. *)
Lemma run_agrees_with_library_witness :
  exists o seen rest, run (image check_locked) demo_password = Ok o /\ keybag_uuids (check_ckb 512) = seen ++ rest /\
    volumes_found o = blen (filter (named (check_ckb 512)) seen) /\ volumes_tried o = blen (filter (testable check_locked) seen) /\
    bytes_read o = 4096 + blen (check_ckb 512) + areas_bytes check_locked seen /\
    volumes_found o = 1 /\ volumes_tried o = 1 /\ bytes_read o = 4096 + 512 + 512.
Proof.
  destruct (proj1 (run_agrees_with_library check_locked demo_password ltac:(vm_compute; reflexivity) ltac:(vm_compute; reflexivity))
    (check_ckb 512) check_accepted) as (o & seen & rest & Hr & Hus & Hf & Ht & Hb & _).
  exists o, seen, rest. split; [exact Hr|]. split; [exact Hus|]. split; [exact Hf|]. split; [exact Ht|]. split; [exact Hb|].
  clear Hus Hf Ht Hb. vm_compute in Hr. injection Hr as <-. split; [reflexivity|]. split; reflexivity.
Defined.

Example check_unlocked :
  exit_code <$> checked check_locked (demo_password ++ [x0d; x0a]) = Some 0 /\
  (out <$> checked check_locked demo_password) ≫= head ∘ drop 1 =
    Some (lit "  volume          : aaaaaaaa-aaaa-aaaa-aaaa-aaaaaaaaaaaa").
Proof. split; vm_refl. Qed.
Example check_refused : exit_code <$> checked check_locked other_password = Some 1. Proof. vm_refl. Qed.
(** A volume keybag that was not recovered is a result of its own. *)
Example check_unreadable : exit_code <$> checked (check_image 512 (check_ckb 512) (replicate 512 x00)) demo_password = Some 3.
Proof. vm_refl. Qed.
Example check_no_password : exit_code <$> checked check_locked [xff] = Some 2. Proof. vm_refl. Qed.

(** The verdict REFUSED does not mean what its text says, that every volume refused the password at the key-wrap integrity check and
    that the structures are intact: on this image the volume keybag holds no key object at all, no password is ever put to a check, and the
    right one is reported as not matching. *)
Theorem refused_without_check :
  let vkb := typed "scer" (encode_keybag 512 []) in
  let img := check_image 512 (check_ckb 512) vkb in
  volume_keybag img demo_vu = Ok ({| vr_wrapped_vek := demo_wrap demo_kek demo_vek; vr_volume_keybag_block := 9;
                                     vr_volume_keybag_blocks := 1 |}, vkb) /\
  find_kek_object vkb = None /\
  unlock_volume img demo_vu demo_password = Err (FieldOutOfRange "unlock_with_volume_keybag" "kek_object_absent" 512 1) /\
  exists v, checked img demo_password = Some v /\ exit_code v = 1 /\ head (out v) = Some (lit "REFUSED") /\
    lit "  every one refused it at the AES-KW integrity check, so the" ∈ out v.
Proof.
  split_and!; [vm_refl|vm_refl|vm_refl|]. destruct (checked _ _) as [v|] eqn:Hv; [|by vm_compute in Hv].
  exists v. vm_compute in Hv. injection Hv as <-. split_and!; [done|done|done|]. vm_compute. set_solver.
Qed.

(** A cipher that leaves data as it is and panics as xts-mode documents, on a last sector shorter than one cipher block. *)
#[local] Program Instance strict_cipher : XtsCipher := {|
  xts_decrypt_area _ _ _ data :=
    let rest := blen data mod 512 in if (0 <? rest) && (rest <? 16) then Panic else Ok data
|}.
Next Obligation. intros k1 k2 sector data Hm. cbn. change APFS_CRYPTO_SECTOR with 512 in Hm. rewrite Hm. cbn. eauto. Qed.
Next Obligation. intros k1 k2 sector data o. cbn. destruct (_ && _); [done|]. by intros [= <-]. Qed.
Next Obligation. intros k1 k2 sector data e. cbn. by destruct (_ && _). Qed.

(** The checker does not ask, as the library does, that blocks be whole sectors: on an image with blocks of 520 bytes the library
    names the bad field, and the checker panics inside the cipher instead of exiting with an error. *)
Theorem odd_block_size_panics :
  let img := check_image 520 (check_ckb 520) (resize 520 x00 check_vkb) in
  decrypt_container_keybag (H := strict_cipher) img = Err (FieldOutOfRange "nx_keylocker" "block_size" 520 512) /\
  run (H0 := strict_cipher) (image img) demo_password = Panic.
Proof. split; vm_refl. Qed.
