(* ===== verification/TestsKeybag.v ===== *)
(** The unit tests of core/src/encryption.rs: the two keybag builders, the ranged unlock chain, and the tests that need no stored image.

    The builders lay a keybag out as the disk has it; [builder_entries] says that the parser reads exactly the entries they were given, for
    every list of entries.  The tests over the two committed images compare the chain over ranged reads with the one over the
    whole image: [ranged_unlock_agrees] is that comparison for every image. *)

From Stdlib Require Import Strings.String.
From S2P Require Import Prelude Bytes Errors Reader Object Container Walk BTree Omap Volume Encryption Ber Keybag Unlock Format TestKit.

Set Warnings "-register-all".

(** ** Builders *)

(** [(n + 15) & !15] *)
Definition align16 (n : Z) : Z := Z.land (n + 15) (Z.lnot 15).

(** One entry of [keybag]: a tag and a key of [keylen] zero bytes, no UUID. *)
Definition keybag_entry (tag keylen : Z) : bytes :=
  let e := replicate (Z.to_nat (24 + keylen)) x00 in
  let e := put e 16 (to_le_bytes 2 tag) in
  let e := put e 18 (to_le_bytes 2 keylen) in
  let padded := align16 (blen e) in
  resize (Z.to_nat padded) x00 e.

Definition keybag (entries : list (Z * Z)) : bytes :=
  let data := replicate (Z.to_nat (KB_OBJ_PHYS_LEN + 16)) x00 in
  let data := put data 24 (lit "keys") in
  let data := put data KB_OBJ_PHYS_LEN (to_le_bytes 2 1) in
  let data := put data (KB_OBJ_PHYS_LEN + 2) (to_le_bytes 2 (blen entries)) in
  let data := foldl (fun data '(tag, keylen) => data ++ keybag_entry tag keylen) data entries in
  let nbytes := blen data in
  put data 4 (to_le_bytes 4 nbytes).

(** One entry of [container_keybag_for]. *)
Definition container_entry (uuid : bytes) (tag : Z) (payload : bytes) : bytes :=
  let e := replicate (Z.to_nat (KE_HEADER_LEN + blen payload)) x00 in
  let e := put e 0 uuid in
  let e := put e KE_TAG (to_le_bytes 2 tag) in
  let e := put e KE_KEYLEN (to_le_bytes 2 (blen payload)) in
  let e := put e KE_HEADER_LEN payload in
  let padded := align16 (blen e) in
  resize (Z.to_nat padded) x00 e.

Definition container_keybag_for (uuid : bytes) (entries : list (Z * bytes)) : bytes :=
  let data := replicate (Z.to_nat (KB_OBJ_PHYS_LEN + 16)) x00 in
  let data := put data 24 (lit "syek") in
  let data := put data KB_OBJ_PHYS_LEN (to_le_bytes 2 1) in
  let data := put data KL_NKEYS (to_le_bytes 2 (blen entries)) in
  foldl (fun data '(tag, payload) => data ++ container_entry uuid tag payload) data entries.

(** ** Tests of the keybag reader *)

Definition reads_volume_key_and_hint_tags : bool :=
  let kb := keybag [(0x02, 32); (0x04, 8)] in
  let_ok st := read_keybag kb in
  es_encrypted st && elem VolumeKey (es_tags_present st) && elem VolumePassphraseHint (es_tags_present st) && es_has_passphrase_hint st.

Definition from_u16_maps_every_known_tag : bool :=
  assert_eq (from_u16 0x01) WrappingKey && assert_eq (from_u16 0x02) VolumeKey && assert_eq (from_u16 0x03) VolumeUnlockRecords &&
  assert_eq (from_u16 0x04) VolumePassphraseHint && assert_eq (from_u16 0xf8) UserPayload && assert_eq (from_u16 0x99) Unknown.

Definition wrapping_key_and_unlock_records_are_encrypted : bool :=
  let kb := keybag [(0x01, 32); (0x03, 16)] in
  let_ok st := read_keybag kb in
  es_encrypted st && elem WrappingKey (es_tags_present st) && elem VolumeUnlockRecords (es_tags_present st).

Definition empty_keybag_reports_not_encrypted : bool :=
  let kb := keybag [] in
  let_ok st := read_keybag kb in
  negb (es_encrypted st) && assert_eq (es_tags_present st) [] && negb (es_has_passphrase_hint st).

Definition unknown_tag_maps_to_unknown_and_records_raw_value : bool :=
  let kb := keybag [(0x55, 4)] in
  let_ok st := read_keybag kb in
  elem Unknown (es_tags_present st) && assert_eq (es_unknown_tags st) [(0x55, KL_ENTRIES_OFF)].

Definition header_claiming_more_entries_than_the_blob_stops_early : bool :=
  let data := replicate 24 x00 in
  let data := put data 0 (to_le_bytes 2 1) in
  let data := put data 2 (to_le_bytes 2 4) in
  let_ok st := read_keybag data in
  assert_eq (es_tags_present st) [].

(** ** Tests of the wrapped-KEK parser *)

Definition kek_wrapped : bytes := map (fun i => z2b (i * 7 + 3)) (range 40).
Definition kek_salt : bytes := map (fun i => z2b (Z.lxor i 0x5a)) (range 16).

Definition wrapped_kek_object_yields_salt_iterations_and_wrapped_key : bool :=
  let blob := [x82; x08; x02; x00; x00; x00; x00; x00; x00; x00] in
  let blob := blob ++ [x83; x81; z2b 40] ++ kek_wrapped in
  let blob := blob ++ [x84; x03; x01; xe8; x48] in
  let blob := blob ++ [x85; x10] ++ kek_salt in
  let_ok kek := parse_wrapped_kek blob in
  assert_eq (wk_wrapped_key kek) kek_wrapped && assert_eq (wk_iterations kek) 125000 && assert_eq (wk_salt kek) kek_salt.

Definition wrapped_kek_object_rejects_a_wrong_sized_wrapped_key `{IoDisplay} : bool :=
  let blob := [x83; x20] ++ replicate 32 x00 in
  let blob := blob ++ [x84; x02; x27; x10] in
  let blob := blob ++ [x85; x10] ++ replicate 16 x00 in
  let_err err := parse_wrapped_kek blob in
  contains (ApfsError_to_string err) (lit "wrapped_kek_len").

Definition wrapped_kek_accepts_a_two_byte_ber_length : bool :=
  let blob := [x83; x82; x00; z2b 40] ++ replicate 40 xaa in
  let blob := blob ++ [x84; x01; x0a] in
  let blob := blob ++ [x85; x10] ++ replicate 16 xbb in
  let_ok k := parse_wrapped_kek blob in
  assert_eq (blen (wk_wrapped_key k)) 40 && assert_eq (wk_iterations k) 10 && assert_eq (blen (wk_salt k)) 16.

Definition wrapped_kek_rejects_an_unsupported_ber_length_form `{IoDebug} : bool :=
  let_err e := parse_wrapped_kek [x83; x84; x00; x00; x00; z2b 40] in
  debug_names e "ber_length_form".

Definition wrapped_kek_rejects_a_truncated_two_byte_length : bool := is_err (parse_wrapped_kek [x83; x82; x00]).

(** ** Tests of the unlock chain *)

(** [a * b] and [a + b] on [usize] in the test profile, which traps on overflow; [&img[a..b]]; [m.expect(..)] inside a helper. *)
Definition mul_usize (a b : Z) : result Z := if a * b <? u64_limit then Ok (a * b) else Panic.
Definition add_usize (a b : Z) : result Z := if a + b <? u64_limit then Ok (a + b) else Panic.
Definition slice {A} (img : list A) (a b : Z) : result (list A) := match get_range img a b with Some s => Ok s | None => Panic end.
Definition expect {A} (m : result A) : result A := match m with Ok a => Ok a | _ => Panic end.

Section Chain.
Context `{XtsCipher} `{KeyCrypto} `{IoDebug}.

Definition nxsb_image (block_size : Z) : bytes :=
  put (put (zeroed 8192) 32 NXSB_MAGIC) NX_BLOCK_SIZE (to_le_bytes 4 block_size).

Definition container_keybag_rejects_a_non_apfs_image : bool :=
  let_err e := decrypt_container_keybag (zeroed 4096) in
  debug_names e "magic".

Definition container_keybag_rejects_an_unusable_block_size : bool :=
  let_err e := decrypt_container_keybag (nxsb_image 777) in
  debug_names e "block_size".

Definition container_keybag_rejects_an_absent_keylocker : bool :=
  let_err e := decrypt_container_keybag (nxsb_image 4096) in
  debug_names e "keylocker_extent".

Definition container_keybag_rejects_an_extent_past_the_image : bool :=
  let img := put (put (nxsb_image 4096) NX_KEYBAG_BLOCK (to_le_bytes 8 9999)) NX_KEYBAG_BLOCKS (to_le_bytes 8 1) in
  is_err (decrypt_container_keybag img).

Definition volume_area_decryption_is_a_no_op_for_the_sentinel_and_short_blocks : bool :=
  let original := replicate (Z.to_nat 4096) x5a in
  let_ok a := decrypt_volume_area original (replicate 32 x07) 0 4096 in
  let_ok b := decrypt_volume_area original (replicate 32 x07) 5 256 in
  assert_eq a original && assert_eq b original.

Definition volume_records_stops_at_the_end_of_a_short_keybag : bool :=
  let kb := put (zeroed (KB_OBJ_PHYS_LEN + 16)) KL_NKEYS (to_le_bytes 2 50) in
  is_err (volume_records kb (replicate 16 x11)).

Definition test_records : VolumeRecords :=
  {| vr_wrapped_vek := replicate 40 x00; vr_volume_keybag_block := 1; vr_volume_keybag_blocks := 1 |}.

Definition unlock_with_volume_keybag_reports_a_missing_kek_object : bool :=
  let empty := zeroed (KB_OBJ_PHYS_LEN + 16) in
  let_err e := unlock_with_volume_keybag empty test_records (lit "pw") in
  debug_names e "kek_object_absent".

Definition unlock_volume_rejects_an_unparseable_image : bool :=
  is_err (unlock_volume (zeroed 4096) (replicate 16 x22) (lit "pw")).

(** [vec![tag, inner.len() as u8]] followed by [inner]. *)
Definition boxed (tag : byte) (inner : bytes) : bytes := [tag; z2b (blen inner)] ++ inner.

Definition volume_records_rejects_a_wrong_sized_wrapped_vek : bool :=
  let uuid := replicate 16 x33 in
  let inner := [x83; x08; x00; x00; x00; x00; x00; x00; x00; x00] in
  let seq := boxed x30 (boxed xa3 inner) in
  let kb := container_keybag_for uuid [(0x02, seq)] in
  let_err e := volume_records kb uuid in
  debug_names e "wrapped_vek_len".

Definition volume_records_rejects_short_unlock_records : bool :=
  let uuid := replicate 16 x44 in
  let kb := container_keybag_for uuid [(0x03, replicate 4 x00)] in
  let_err e := volume_records kb uuid in
  debug_names e "unlock_records_len".

Definition volume_records_rejects_a_volume_key_entry_with_no_wrapped_key : bool :=
  let uuid := replicate 16 x55 in
  let a3 := [xa3; x02; x99; x00] in
  let seq := boxed x30 a3 in
  let kb := container_keybag_for uuid [(0x02, seq)] in
  is_err (volume_records kb uuid).

Definition a_volume_keybag_with_an_unsupported_ber_length_yields_no_kek : bool :=
  let uuid := replicate 16 x66 in
  let seq := [x30; x84; x00; x00; x00; x04; xa3; x02; x83; x00] in
  let kb := container_keybag_for uuid [(0x01, seq)] in
  let_err e := unlock_with_volume_keybag kb test_records (lit "pw") in
  debug_names e "kek_object_absent".

Definition a_volume_keybag_with_a_two_byte_ber_length_is_walked : bool :=
  let uuid := replicate 16 x77 in
  let a3 := [xa3; x81; z2b 44] ++ [x83; z2b 40] ++ replicate 40 xcc ++ [x84; x01; x05] in
  let seq := [x30; x82; x00; z2b (blen a3)] ++ a3 in
  let kb := container_keybag_for uuid [(0x01, seq)] in
  let_err e := unlock_with_volume_keybag kb test_records (lit "pw") in
  negb (debug_names e "kek_object_absent").

(** ** Helpers over an image *)

(** The unlock chain over ranged reads, with the number of bytes it reads. *)
Definition ranged_unlock (img volume_uuid password : bytes) : result (bytes * Z) :=
  sb ← slice img 0 4096;
  let bytes_read := blen sb in
  let block_size := le_u32 sb NX_BLOCK_SIZE in
  uuid ← slice sb NX_CONTAINER_UUID (NX_CONTAINER_UUID + 16);
  cs ← mul_usize (le_u64 sb NX_KEYBAG_BLOCK) block_size;
  clen ← mul_usize (le_u64 sb NX_KEYBAG_BLOCKS) block_size;
  ce ← add_usize cs clen;
  let bytes_read := bytes_read + (ce - cs) in
  carea ← slice img cs ce;
  ckb ← decrypt_keybag_area carea uuid (cs / KEYBAG_SECTOR);
  rec ← expect (volume_records ckb volume_uuid);
  vs ← mul_usize (vr_volume_keybag_block rec) block_size;
  vlen ← mul_usize (vr_volume_keybag_blocks rec) block_size;
  ve ← add_usize vs vlen;
  let bytes_read := bytes_read + (ve - vs) in
  varea ← slice img vs ve;
  vkb ← decrypt_keybag_area varea volume_uuid (vs / KEYBAG_SECTOR);
  match unlock_with_volume_keybag vkb rec password with
  | Ok u => Ok (uv_vek u, bytes_read)
  | Err _ => Ok ([], bytes_read)
  | Panic => Panic
  end.

Definition read_block_at (img : bytes) (paddr block_size : Z) : result bytes :=
  start ← mul_usize paddr block_size;
  end_ ← add_usize start block_size;
  slice img start end_.

Definition fs_tree_root (img : bytes) (cur : cursor) (block_size : Z) : result (OmapEntry * ApfsVolume) :=
  block0 ← slice img 0 block_size;
  nx ← expect (NxSuperblock_parse block0);
  b ← read_block_at img (nx_omap_oid nx) block_size;
  nx_omap ← expect (ObjectMap_parse b);
  fs_oid ← match head (nx_fs_oids nx) with Some oid => Ok oid | None => Panic end;
  vol_entry ← expect (omap_resolve nx_omap cur fs_oid u64_max block_size);
  b ← read_block_at img (oe_paddr vol_entry) block_size;
  vol ← expect (ApfsVolume_parse b);
  b ← read_block_at img (vol_omap_oid vol) block_size;
  vol_omap ← expect (ObjectMap_parse b);
  entry ← expect (omap_resolve vol_omap cur (vol_root_tree_oid vol) u64_max block_size);
  Ok (entry, vol).
End Chain.

(** ** The suite *)

(** The tests that need no stored image, in the order of the source. *)
Definition keybag_suite `{XtsCipher} `{KeyCrypto} `{IoDisplay} `{IoDebug} : list bool :=
  [ reads_volume_key_and_hint_tags;
    from_u16_maps_every_known_tag;
    wrapping_key_and_unlock_records_are_encrypted;
    empty_keybag_reports_not_encrypted;
    unknown_tag_maps_to_unknown_and_records_raw_value;
    header_claiming_more_entries_than_the_blob_stops_early;
    wrapped_kek_object_yields_salt_iterations_and_wrapped_key;
    wrapped_kek_object_rejects_a_wrong_sized_wrapped_key;
    wrapped_kek_accepts_a_two_byte_ber_length;
    wrapped_kek_rejects_an_unsupported_ber_length_form;
    wrapped_kek_rejects_a_truncated_two_byte_length;
    container_keybag_rejects_a_non_apfs_image;
    container_keybag_rejects_an_unusable_block_size;
    container_keybag_rejects_an_absent_keylocker;
    container_keybag_rejects_an_extent_past_the_image;
    volume_area_decryption_is_a_no_op_for_the_sentinel_and_short_blocks;
    volume_records_stops_at_the_end_of_a_short_keybag;
    unlock_with_volume_keybag_reports_a_missing_kek_object;
    unlock_volume_rejects_an_unparseable_image;
    volume_records_rejects_a_wrong_sized_wrapped_vek;
    volume_records_rejects_short_unlock_records;
    volume_records_rejects_a_volume_key_entry_with_no_wrapped_key;
    a_volume_keybag_with_an_unsupported_ber_length_yields_no_kek;
    a_volume_keybag_with_a_two_byte_ber_length_is_walked ].

(** Every one of them passes, whatever the cipher and the key-derivation crates do. *)
Theorem keybag_suite_passes `{XtsCipher} `{KeyCrypto} `{IoDisplay} `{IoDebug} : Forall (eq true) keybag_suite.
Proof. repeat (apply Forall_cons; split; [vm_refl|]). constructor. Qed.

(** ** What the builders build *)

(** [e] is stored as an entry of the volume [uuid]. *)
Record entry_image (e uuid : bytes) (tag : Z) (payload : bytes) : Prop := {
  ei_len : blen e = next_entry 0 (blen payload);
  ei_head : KE_HEADER_LEN + blen payload <= blen e;
  ei_uuid : get_range e 0 16 = Some uuid;
  ei_tag : le_u16 e KE_TAG = tag;
  ei_keylen : le_u16 e KE_KEYLEN = blen payload;
  ei_data : get_range e KE_HEADER_LEN (KE_HEADER_LEN + blen payload) = Some payload;
}.

(** The entries at [off] and on, for these contents. *)
Fixpoint laid_out (off : Z) (es : list (bytes * Z * bytes)) : list KeyEntry :=
  match es with
  | [] => []
  | (uuid, tag, payload) :: es =>
      {| ke_off := off; ke_uuid := uuid; ke_tag := tag; ke_data := Some payload |} :: laid_out (next_entry off (blen payload)) es
  end.

Lemma get_range_window {A} (p e q : list A) a b :
  0 <= a <= b -> b <= blen e -> get_range (p ++ e ++ q) (blen p + a) (blen p + b) = get_range e a b.
Proof.
  intros Ha Hb. rewrite get_range_app_r by lia. rewrite get_range_app_l by lia. f_equal; lia.
Qed.

Lemma le_u16_window (p e q : bytes) a : 0 <= a -> a + 2 <= blen e -> le_u16 (p ++ e ++ q) (blen p + a) = le_u16 e a.
Proof.
  intros Ha He. unfold le_u16, arr. change (Z.of_nat 2) with 2. replace (blen p + a + 2) with (blen p + (a + 2)) by lia.
  by rewrite get_range_window by lia.
Qed.

(** The walk over stored entries sees their contents. *)
Lemma entries_laid_out (es : list (bytes * (bytes * Z * bytes))) : forall p,
  Forall (fun ec => entry_image ec.1 ec.2.1.1 ec.2.1.2 ec.2.2) es ->
  keybag_entries_from (length es) (p ++ concat (map fst es)) (blen p) = laid_out (blen p) (map snd es).
Proof.
  induction es as [|[e [[uuid tag] payload]] es IH]; intros p Hes; [done|].
  apply Forall_cons in Hes as [He Hes]. cbn [fst snd] in He. destruct He as [Hl Hh Hu Ht Hk Hd].
  pose proof (blen_nonneg payload) as H0. unfold KE_HEADER_LEN, KE_TAG, KE_KEYLEN in *.
  cbn [length map concat keybag_entries_from laid_out fst snd].
  rewrite (proj2 (Z.ltb_ge _ _)) by (rewrite !blen_app; pose proof (blen_nonneg (concat (map fst es))); unfold KE_HEADER_LEN; lia).
  unfold KE_TAG, KE_KEYLEN, KE_HEADER_LEN. rewrite !le_u16_window by lia. rewrite Ht, Hk.
  rewrite <-(Z.add_0_r (blen p)) at 2. rewrite get_range_window, Hu by lia.
  rewrite <-Z.add_assoc, get_range_window, Hd by lia. cbn [default]. f_equal.
  assert (next_entry (blen p) (blen payload) = blen (p ++ e)) as -> by (rewrite blen_app, Hl; unfold next_entry; lia).
  rewrite app_assoc. by apply IH.
Qed.

Lemma align16_bound n : n <= align16 n < n + 16.
Proof.
  unfold align16. change (Z.lnot 15) with (Z.lnot (Z.ones 4)). rewrite <-Z.ldiff_land, Z.ldiff_ones_r by lia.
  rewrite Z.shiftr_div_pow2, Z.shiftl_mul_pow2 by lia. change (2 ^ 4) with 16.
  pose proof (Z.div_mod (n + 15) 16 ltac:(lia)). pose proof (Z.mod_pos_bound (n + 15) 16 ltac:(lia)). lia.
Qed.

(** An unpadded entry, padded with zeros to the stride of the walk. *)
Lemma padded_entry e uuid tag payload :
  blen e = KE_HEADER_LEN + blen payload -> get_range e 0 16 = Some uuid -> le_u16 e KE_TAG = tag ->
  le_u16 e KE_KEYLEN = blen payload -> get_range e KE_HEADER_LEN (KE_HEADER_LEN + blen payload) = Some payload ->
  entry_image (resize (Z.to_nat (align16 (blen e))) x00 e) uuid tag payload.
Proof.
  intros Hl Hu Ht Hk Hd. pose proof (align16_bound (blen e)) as Ha. pose proof (blen_nonneg payload) as H0.
  unfold KE_HEADER_LEN, KE_TAG, KE_KEYLEN in *.
  assert (resize (Z.to_nat (align16 (blen e))) x00 e = e ++ replicate (Z.to_nat (align16 (blen e)) - length e) x00) as ->
    by (apply resize_ge; unfold blen in *; lia).
  assert (forall a, 0 <= a -> a + 2 <= blen e -> le_u16 (e ++ replicate (Z.to_nat (align16 (blen e)) - length e) x00) a = le_u16 e a) as Hw.
  { intros a H1 H2. exact (le_u16_window [] e _ a H1 H2). }
  split; unfold KE_HEADER_LEN, KE_TAG, KE_KEYLEN.
  - rewrite blen_app, blen_replicate. unfold next_entry, KE_HEADER_LEN. fold (align16 (24 + blen payload)). rewrite Hl in *.
    unfold blen in *. lia.
  - rewrite blen_app. pose proof (blen_nonneg (replicate (Z.to_nat (align16 (blen e)) - length e) x00)). lia.
  - rewrite get_range_app_l by lia. exact Hu.
  - rewrite Hw by lia. exact Ht.
  - rewrite Hw by lia. exact Hk.
  - rewrite get_range_app_l by lia. exact Hd.
Qed.

(** Fields through writes elsewhere. *)
Lemma le_u16_put (data : bytes) off v :
  0 <= off -> off + 2 <= blen data -> 0 <= v < 2 ^ 16 -> le_u16 (put data off (to_le_bytes 2 v)) off = v.
Proof.
  intros Ho Hf Hv. unfold le_u16. rewrite arr_put by (rewrite ?blen_to_le_bytes; lia).
  rewrite from_to_le_bytes. by apply Z.mod_small.
Qed.

Lemma le_u16_put_other (data s : bytes) off a :
  0 <= off -> off + blen s <= blen data -> 0 <= a -> a + 2 <= off \/ off + blen s <= a -> le_u16 (put data off s) a = le_u16 data a.
Proof. intros. unfold le_u16. by rewrite arr_put_other by (done || lia). Qed.

Lemma container_entry_image uuid tag payload :
  blen uuid = 16 -> 0 <= tag < 2 ^ 16 -> blen payload < 2 ^ 16 -> entry_image (container_entry uuid tag payload) uuid tag payload.
Proof.
  intros Hu Ht Hp. pose proof (blen_nonneg payload) as H0. unfold container_entry, KE_HEADER_LEN, KE_TAG, KE_KEYLEN.
  set (e0 := replicate _ x00). assert (blen e0 = 24 + blen payload) as L0 by (unfold e0; rewrite blen_replicate; lia).
  set (e1 := put e0 0 uuid). assert (blen e1 = 24 + blen payload) as L1 by (unfold e1; rewrite blen_put; lia).
  set (e2 := put e1 16 _). assert (blen e2 = 24 + blen payload) as L2 by (unfold e2; rewrite blen_put; rewrite ?blen_to_le_bytes; lia).
  set (e3 := put e2 18 _). assert (blen e3 = 24 + blen payload) as L3 by (unfold e3; rewrite blen_put; rewrite ?blen_to_le_bytes; lia).
  set (e4 := put e3 24 payload). assert (blen e4 = 24 + blen payload) as L4 by (unfold e4; rewrite blen_put; lia).
  apply padded_entry; unfold KE_HEADER_LEN, KE_TAG, KE_KEYLEN; [exact L4| | | |].
  - unfold e4. rewrite get_range_put_other by lia. unfold e3. rewrite get_range_put_other by (rewrite ?blen_to_le_bytes; lia).
    unfold e2. rewrite get_range_put_other by (rewrite ?blen_to_le_bytes; lia). unfold e1. rewrite <-Hu. apply get_range_put; lia.
  - unfold e4. rewrite le_u16_put_other by lia. unfold e3. rewrite le_u16_put_other by (rewrite ?blen_to_le_bytes; lia).
    unfold e2. apply le_u16_put; lia.
  - unfold e4. rewrite le_u16_put_other by lia. unfold e3. apply le_u16_put; lia.
  - unfold e4. apply get_range_put; lia.
Qed.

Lemma keybag_entry_image tag keylen :
  0 <= tag < 2 ^ 16 -> 0 <= keylen < 2 ^ 16 ->
  entry_image (keybag_entry tag keylen) (replicate 16 x00) tag (replicate (Z.to_nat keylen) x00).
Proof.
  intros Ht Hk. unfold keybag_entry. set (e0 := replicate _ x00). assert (blen e0 = 24 + keylen) as L0 by (unfold e0; rewrite blen_replicate; lia).
  set (e1 := put e0 16 _). assert (blen e1 = 24 + keylen) as L1 by (unfold e1; rewrite blen_put; rewrite ?blen_to_le_bytes; lia).
  set (e2 := put e1 18 _). assert (blen e2 = 24 + keylen) as L2 by (unfold e2; rewrite blen_put; rewrite ?blen_to_le_bytes; lia).
  assert (blen (replicate (Z.to_nat keylen) x00) = keylen) as Lp by (rewrite blen_replicate; lia).
  assert (forall a b, 0 <= a <= b -> b <= 24 + keylen -> get_range e0 a b = Some (replicate (Z.to_nat (b - a)) x00)) as Hz.
  { intros a b Hab Hb. apply get_range_Some. split_and!; [lia..|]. unfold e0. rewrite drop_replicate, take_replicate. f_equal. lia. }
  apply padded_entry; rewrite ?Lp; unfold KE_HEADER_LEN, KE_TAG, KE_KEYLEN; [exact L2| | | |].
  - unfold e2, e1. rewrite !get_range_put_other by (rewrite ?blen_to_le_bytes; fold e1; lia). by rewrite Hz by lia.
  - unfold e2. rewrite le_u16_put_other by (rewrite ?blen_to_le_bytes; lia). unfold e1. apply le_u16_put; lia.
  - unfold e2. apply le_u16_put; lia.
  - unfold e2, e1. rewrite !get_range_put_other by (rewrite ?blen_to_le_bytes; fold e1; lia). rewrite Hz by lia. do 2 f_equal. lia.
Qed.

(** A header of 48 bytes with the count, and the entries after it. *)
Lemma counted_entries hdr (es : list (bytes * (bytes * Z * bytes))) :
  blen hdr = 48 -> le_u16 hdr KL_NKEYS = blen es -> blen es <= MAX_KEYBAG_ENTRIES ->
  Forall (fun ec => entry_image ec.1 ec.2.1.1 ec.2.1.2 ec.2.2) es ->
  keybag_entries (hdr ++ concat (map fst es)) = laid_out KL_ENTRIES_OFF (map snd es).
Proof.
  intros Hh Hn Hc Hes. unfold keybag_entries, nkeys.
  assert (le_u16 (hdr ++ concat (map fst es)) KL_NKEYS = blen es) as ->.
  { rewrite <-Hn. apply (le_u16_window [] hdr); unfold KL_NKEYS, KB_OBJ_PHYS_LEN; lia. }
  rewrite Z.min_l by done. unfold blen. rewrite Nat2Z.id.
  change KL_ENTRIES_OFF with 48. rewrite <-Hh. by apply entries_laid_out.
Qed.

Lemma foldl_app_concat {A B} (f : A -> list B) l : forall acc,
  foldl (fun acc x => acc ++ f x) acc l = acc ++ concat (map f l).
Proof. induction l as [|x l IH]; intros acc; cbn; [by rewrite app_nil_r|]. by rewrite IH, <-app_assoc. Qed.

(** The two headers. *)
Lemma keybag_header (magic : bytes) n :
  blen magic = 4 -> 0 <= n < 2 ^ 16 ->
  let hdr := put (put (put (replicate (Z.to_nat (KB_OBJ_PHYS_LEN + 16)) x00) 24 magic) KB_OBJ_PHYS_LEN (to_le_bytes 2 1))
               KL_NKEYS (to_le_bytes 2 n) in
  blen hdr = 48 /\ le_u16 hdr KL_NKEYS = n.
Proof.
  intros Hm Hn hdr. change (Z.to_nat (KB_OBJ_PHYS_LEN + 16)) with 48%nat in hdr. unfold KL_NKEYS, KB_OBJ_PHYS_LEN in *.
  assert (blen (replicate 48 x00) = 48) as L0 by (rewrite blen_replicate; lia).
  assert (blen (put (replicate 48 x00) 24 magic) = 48) as L1 by (rewrite blen_put; lia).
  assert (blen (put (put (replicate 48 x00) 24 magic) 32 (to_le_bytes 2 1)) = 48) as L2
    by (rewrite blen_put; rewrite ?blen_to_le_bytes; lia).
  split; unfold hdr; [rewrite blen_put; rewrite ?blen_to_le_bytes; lia|apply le_u16_put; lia].
Qed.

(** The keybags the tests build are keybags: for any UUID, any tags and any payloads that fit their fields, the walk all three readers share sees
    exactly the entries that were put in, each at its offset; so a test that puts an entry in exercises the path it names. *)
Theorem builder_entries (uuid : bytes) (entries : list (Z * bytes)) :
  blen uuid = 16 -> blen entries <= MAX_KEYBAG_ENTRIES -> Forall (fun e => 0 <= e.1 < 2 ^ 16 /\ blen e.2 < 2 ^ 16) entries ->
  keybag_entries (container_keybag_for uuid entries) =
    laid_out KL_ENTRIES_OFF (map (fun e => (uuid, e.1, e.2)) entries).
Proof.
  intros Hu Hc Hok. unfold container_keybag_for.
  assert (forall acc, foldl (fun data '(tag, payload) => data ++ container_entry uuid tag payload) acc entries =
    acc ++ concat (map fst (map (fun e => (container_entry uuid e.1 e.2, (uuid, e.1, e.2))) entries))) as ->.
  { intros acc. rewrite map_map. cbn [fst]. rewrite <-(foldl_app_concat (fun e => container_entry uuid e.1 e.2)).
    revert acc. induction entries as [|[t p] es IH]; intros acc; [done|]. cbn [foldl]. apply IH; [|by apply Forall_cons in Hok as [_ ?]].
    revert Hc. rewrite blen_cons. lia. }
  destruct (keybag_header (lit "syek") (blen entries)) as [Hl Hn]; [done|pose proof (blen_nonneg entries); unfold MAX_KEYBAG_ENTRIES in Hc; lia|].
  rewrite counted_entries; [rewrite map_map; done|exact Hl| | |].
  - rewrite Hn. unfold blen. by rewrite length_map.
  - unfold blen in *. by rewrite length_map.
  - apply Forall_map. eapply Forall_impl; [exact Hok|]. intros [t p] [Ht Hp]. by apply container_entry_image.
Qed.

Lemma put_app_l (p q s : bytes) off : 0 <= off -> off + blen s <= blen p -> put (p ++ q) off s = put p off s ++ q.
Proof.
  intros Ho Hf. unfold put. unfold blen in *. rewrite take_app_le, drop_app_le by lia. by rewrite <-!app_assoc.
Qed.

(** The other builder: [kl_nbytes] goes to offset 4 of the block, into the object header, which no reader of the keybag looks at. *)
Theorem keybag_builder_entries (entries : list (Z * Z)) :
  blen entries <= MAX_KEYBAG_ENTRIES -> Forall (fun e => 0 <= e.1 < 2 ^ 16 /\ 0 <= e.2 < 2 ^ 16) entries ->
  keybag_entries (keybag entries) =
    laid_out KL_ENTRIES_OFF (map (fun e => (replicate 16 x00, e.1, replicate (Z.to_nat e.2) x00)) entries).
Proof.
  intros Hc Hok. unfold keybag.
  set (cs := map (fun e => (keybag_entry e.1 e.2, (replicate 16 x00, e.1, replicate (Z.to_nat e.2) x00))) entries).
  assert (forall acc, foldl (fun data '(tag, keylen) => data ++ keybag_entry tag keylen) acc entries = acc ++ concat (map fst cs)) as Hfold.
  { intros acc. unfold cs. rewrite map_map. cbn [fst]. rewrite <-(foldl_app_concat (fun e => keybag_entry e.1 e.2)).
    clear Hc cs. revert acc. induction entries as [|[t k] es IH]; intros acc; [done|]. cbn [foldl]. apply IH. by apply Forall_cons in Hok as [_ ?]. }
  rewrite !Hfold. change (KB_OBJ_PHYS_LEN + 2) with KL_NKEYS.
  destruct (keybag_header (lit "keys") (blen entries)) as [Hl Hn]; [done|pose proof (blen_nonneg entries); unfold MAX_KEYBAG_ENTRIES in Hc; lia|].
  set (hdr := put (put (put _ 24 _) _ _) _ _) in *. rewrite put_app_l by (rewrite ?blen_to_le_bytes; lia).
  rewrite counted_entries; [unfold cs; rewrite map_map; done| | | |].
  - rewrite blen_put; rewrite ?blen_to_le_bytes; lia.
  - rewrite le_u16_put_other; rewrite ?blen_to_le_bytes; unfold KL_NKEYS, KB_OBJ_PHYS_LEN in *; [|lia..]. rewrite Hn.
    unfold cs, blen. by rewrite length_map.
  - unfold cs, blen in *. by rewrite length_map.
  - unfold cs. apply Forall_map. eapply Forall_impl; [exact Hok|]. intros [t k] [Ht Hk]. by apply keybag_entry_image.
Qed.

Lemma builder_entries_witness :
  keybag_entries (container_keybag_for (replicate 16 x33) [(0x02, [x30; x00]); (0x03, replicate 16 x01)]) =
    [ {| ke_off := 48; ke_uuid := replicate 16 x33; ke_tag := 2; ke_data := Some [x30; x00] |};
      {| ke_off := 80; ke_uuid := replicate 16 x33; ke_tag := 3; ke_data := Some (replicate 16 x01) |} ].
Proof.
  rewrite (builder_entries (replicate 16 x33) [(0x02, [x30; x00]); (0x03, replicate 16 x01)]).
  - reflexivity.
  - reflexivity.
  - vm_compute; discriminate.
  - repeat constructor; vm_compute; congruence.
Defined.

(** The blob of [header_claiming_more_entries_than_the_blob_stops_early] is shorter than the offset the count is read from: the reader sees no count
    and the early stop is never reached; the count the test writes is in the object header. *)
Example short_blob_has_no_count :
  let data := put (put (replicate 24 x00) 0 (to_le_bytes 2 1)) 2 (to_le_bytes 2 4) in
  le_u16 data KL_NKEYS = 0 /\ nkeys data = 0%nat.
Proof. split; reflexivity. Qed.

(** ** Ranged reads *)

Section Ranged.
Context `{XtsCipher} `{KeyCrypto}.

(** Fields and slices of the first 4096 bytes are those of the image. *)
Lemma prefix_range (img sb : bytes) a b :
  get_range img 0 4096 = Some sb -> 0 <= a <= b -> b <= 4096 -> get_range sb a b = get_range img a b.
Proof. intros Hs Ha Hb. by rewrite (get_range_range _ _ _ _ _ _ Hs) by lia. Qed.

Lemma prefix_arr (img sb : bytes) n a :
  get_range img 0 4096 = Some sb -> 0 <= a -> a + Z.of_nat n <= 4096 -> arr n sb a = arr n img a.
Proof. intros Hs Ha Hb. unfold arr. by rewrite (prefix_range _ _ _ _ Hs) by lia. Qed.

(** The unchecked arithmetic of the helper where the checked one of the library succeeds. *)
Lemma mul_usize_checked a b c : checked_mul a b = Some c -> mul_usize a b = Ok c.
Proof. intros [-> Hlt]%checked_mul_Some. unfold mul_usize. by rewrite (proj2 (Z.ltb_lt _ _)). Qed.
Lemma add_usize_checked a b c : checked_add a b = Some c -> add_usize a b = Ok c.
Proof. intros [-> Hlt]%checked_add_Some. unfold add_usize. by rewrite (proj2 (Z.ltb_lt _ _)). Qed.
Lemma slice_in {A} (img s : list A) a b : get_range img a b = Some s -> slice img a b = Ok s.
Proof. unfold slice. by intros ->. Qed.

Lemma whole_blocks_decrypt (ct uuid : bytes) (sector blocks bs : Z) :
  bs mod KEYBAG_SECTOR = 0 -> blen ct = blocks * bs -> exists out, decrypt_keybag_area ct uuid sector = Ok out.
Proof.
  intros Hm Hl. unfold decrypt_keybag_area, keybag_xts_decrypt_area.
  destruct (xts_whole_sectors uuid uuid sector ct) as (out & Ho & _); [|eauto].
  unfold KEYBAG_SECTOR in Hm. change APFS_CRYPTO_SECTOR with 512. by rewrite Hl, Z.mul_mod, Hm, Z.mul_0_r by lia.
Qed.

Lemma container_keybag_area image ckb :
  decrypt_container_keybag image = Ok ckb ->
  exists uuid start len end_ ct,
    let bs := le_u32 image NX_BLOCK_SIZE in
    get_range image NX_CONTAINER_UUID (NX_CONTAINER_UUID + 16) = Some uuid /\
    checked_mul (le_u64 image NX_KEYBAG_BLOCK) bs = Some start /\ checked_mul (le_u64 image NX_KEYBAG_BLOCKS) bs = Some len /\
    checked_add start len = Some end_ /\ get_range image start end_ = Some ct /\
    decrypt_keybag_area ct uuid (start / KEYBAG_SECTOR) = Ok ckb.
Proof.
  unfold decrypt_container_keybag, decrypt_container_keybag_with_uuid. intros (uuid & Hu & Hd)%bind_Ok_iff. apply ok_or_Ok_iff in Hu.
  destruct (negb _); [done|]. cbv zeta in Hd. destruct (_ || _); [done|]. destruct (_ || _); [done|].
  apply bind_Ok_iff in Hd as (start & Hs & Hd). apply bind_Ok_iff in Hd as (len & Hl & Hd).
  apply bind_Ok_iff in Hd as (end_ & He & Hd). apply bind_Ok_iff in Hd as (ct & Hc & Hd).
  apply ok_or_Ok_iff in Hs, Hl, He, Hc. exists uuid, start, len, end_, ct. by split_and!.
Qed.

(** What the whole-image path answers, where it gets to the password. *)
Definition chain_answer (r : result UnlockedVolume) : bytes := match r with Ok u => uv_vek u | _ => [] end.

(** The unlock chain over ranged reads, the form a caller with an image too large for memory uses, is the chain over the whole image: wherever
    the image holds the two keybags, it recovers the same key, or none where the whole-image path refuses, and it reads the
    superblock block and the blocks of the two keybags and nothing else. *)
Theorem ranged_unlock_agrees (img volume_uuid password ckb : bytes) (rec : VolumeRecords) (start len end_ : Z) (ct : bytes) :
  let bs := le_u32 img NX_BLOCK_SIZE in
  4096 <= blen img ->
  decrypt_container_keybag img = Ok ckb -> volume_records ckb volume_uuid = Ok rec ->
  checked_mul (vr_volume_keybag_block rec) bs = Some start -> checked_mul (vr_volume_keybag_blocks rec) bs = Some len ->
  checked_add start len = Some end_ -> get_range img start end_ = Some ct ->
  ranged_unlock img volume_uuid password =
    Ok (chain_answer (unlock_volume img volume_uuid password),
        4096 + le_u64 img NX_KEYBAG_BLOCKS * bs + vr_volume_keybag_blocks rec * bs).
Proof.
  intros bs Hlen Hckb Hrec Hs Hl He Hct.
  destruct (container_keybag_area _ _ Hckb) as (uuid & s1 & l1 & e1 & c1 & Hu & H1 & H2 & H3 & H4 & H5). fold bs in H1, H2.
  assert (exists sb, get_range img 0 4096 = Some sb) as [sb Hsb].
  { destruct (get_range img 0 4096) eqn:Hg; [eauto|]. apply get_range_None in Hg; lia. }
  assert (le_u32 sb NX_BLOCK_SIZE = bs) as Hbs
    by (unfold bs, le_u32; by rewrite (prefix_arr _ _ _ _ Hsb) by (unfold NX_BLOCK_SIZE; lia)).
  assert (forall o, 0 <= o -> o + 8 <= 4096 -> le_u64 sb o = le_u64 img o) as Hw
    by (intros o ? ?; unfold le_u64; by rewrite (prefix_arr _ _ _ _ Hsb) by lia).
  rewrite <-(prefix_range _ _ _ _ Hsb) in Hu by (unfold NX_CONTAINER_UUID; lia).
  unfold ranged_unlock. rewrite (slice_in _ _ _ _ Hsb). cbn [mbind outcome_bind]. rewrite Hbs.
  rewrite !Hw by (unfold NX_KEYBAG_BLOCK, NX_KEYBAG_BLOCKS; lia).
  rewrite (slice_in _ _ _ _ Hu), (mul_usize_checked _ _ _ H1), (mul_usize_checked _ _ _ H2). cbn [mbind outcome_bind].
  rewrite (add_usize_checked _ _ _ H3). cbn [mbind outcome_bind]. rewrite (slice_in _ _ _ _ H4). cbn [mbind outcome_bind].
  rewrite H5. cbn [mbind outcome_bind]. rewrite Hrec. cbn [expect mbind outcome_bind].
  rewrite (mul_usize_checked _ _ _ Hs), (mul_usize_checked _ _ _ Hl). cbn [mbind outcome_bind].
  rewrite (add_usize_checked _ _ _ He). cbn [mbind outcome_bind]. rewrite (slice_in _ _ _ _ Hct). cbn [mbind outcome_bind].
  unfold unlock_volume. rewrite Hckb. cbn [mbind outcome_bind]. rewrite Hrec. cbn [mbind outcome_bind]. fold bs.
  rewrite Hs, Hl. cbn [ok_or mbind outcome_bind]. rewrite He. cbn [ok_or mbind outcome_bind]. rewrite Hct. cbn [ok_or mbind outcome_bind].
  apply checked_mul_Some in H2 as [-> _], Hl as [-> _]. apply checked_add_Some in H3 as [-> _], He as [-> _].
  apply get_range_len in Hsb, Hct.
  destruct (whole_blocks_decrypt ct volume_uuid (start / KEYBAG_SECTOR) (vr_volume_keybag_blocks rec) bs) as [vkb ->];
    [exact (decrypt_container_gates _ _ Hckb)|lia|]. cbn [mbind outcome_bind].
  pose proof (unlock_with_not_Panic vkb rec password) as Hnp.
  replace (blen sb + (s1 + le_u64 img NX_KEYBAG_BLOCKS * bs - s1) + (start + vr_volume_keybag_blocks rec * bs - start))
    with (4096 + le_u64 img NX_KEYBAG_BLOCKS * bs + vr_volume_keybag_blocks rec * bs) by lia.
  by destruct (unlock_with_volume_keybag vkb rec password).
Qed.
End Ranged.

(** The locked image of the unlock chain, with blocks after it: its password, and another. *)
Definition ranged_image : bytes := demo_locked ++ zeroed 1536.

Lemma ranged_unlock_agrees_witness :
  ranged_unlock ranged_image demo_vu demo_password = Ok (demo_vek, 5120) /\ ranged_unlock ranged_image demo_vu other_password = Ok ([], 5120).
Proof.
  assert (4096 <= blen ranged_image) as Hl by (vm_compute; discriminate).
  assert (decrypt_container_keybag ranged_image = Ok demo_ckb) as Hc by vm_refl.
  assert (volume_records demo_ckb demo_vu = Ok demo_records) as Hr by vm_refl.
  assert (get_range ranged_image 2048 2560 = Some (demo_vkb [demo_password])) as Hk by vm_refl.
  assert (le_u32 ranged_image NX_BLOCK_SIZE = 512) as Hb by vm_refl.
  pose proof (fun pw => ranged_unlock_agrees ranged_image demo_vu pw demo_ckb demo_records 2048 512 2560 (demo_vkb [demo_password])) as Hag.
  cbv zeta in Hag. rewrite Hb in Hag.
  split; rewrite (Hag _ Hl Hc Hr eq_refl eq_refl eq_refl Hk); vm_refl.
Defined.

(** ** The descent to the root of the records *)

(** The helper that finds the root of the records of a volume, key or no key, resolves at the largest transaction there is: the mapping it returns is the newest
    of the root, whatever transaction the volume is at. *)
Theorem fs_tree_root_newest (img : bytes) (block_size : Z) (entry : OmapEntry) (vol : ApfsVolume) :
  fs_tree_root img (image img) block_size = Ok (entry, vol) ->
  vol_vek vol = None /\
  exists om, omap_resolve om (image img) (vol_root_tree_oid vol) u64_max block_size = Ok entry /\
    forall t, walkable (phys_node (image img) block_size SubtypeOmap) child_addrs MAX_BTREE_DEPTH ∅ t ->
      addr t = om_tree_oid om -> ordered t ->
      (exists m, m ∈ leaf_entries t /\ entry = omap_entry_of (key m) (value m) /\ le_u64 (key m) 0 = vol_root_tree_oid vol) /\
      forall m, m ∈ leaf_entries t -> le_u64 (key m) 0 = vol_root_tree_oid vol -> le_u64 (key m) 8 <= oe_xid entry.
Proof.
  assert (forall A (m : result A) a, expect m = Ok a -> m = Ok a) as Hx by (intros A m a; by destruct m).
  unfold fs_tree_root. intros (b0 & _ & Hr)%bind_Ok_iff.
  do 6 (apply bind_Ok_iff in Hr as (? & _ & Hr)). apply bind_Ok_iff in Hr as (v & Hv%Hx & Hr).
  apply bind_Ok_iff in Hr as (? & _ & Hr). apply bind_Ok_iff in Hr as (om & _ & Hr).
  apply bind_Ok_iff in Hr as (e & He%Hx & Hr). injection Hr as -> ->. apply ApfsVolume_parse_gates in Hv.
  split; [by destruct Hv as (_ & _ & _ & _ & _ & ? & _)|]. exists om. split; [done|]. intros t Hw Ha Ho.
  pose proof (omap_resolve_best (image img) block_size (vol_root_tree_oid vol) u64_max om t Hw Ha Ho) as Hb. rewrite He in Hb.
  destruct Hb as (m & Hm & Hem & Hoid & _ & Hmax). split; [exists m; split_and!; [done|done|by rewrite <-Hoid, Hem]|].
  intros m' Hm' Ho'. apply Hmax; [done|done|]. pose proof (le_u64_bound (key m') 8) as Hbd. change u64_max with (2 ^ 64 - 1). lia.
Qed.
