(* ===== verification/TestsUnlock.v ===== *)
(** The unit tests of core/src/encryption.rs that read the two committed images of encrypted volumes.

    A test here is a function of the image: the images are data, and whether Apple's bytes decrypt is a matter of AES.  What the tests say to each other holds of
    every image: the ranged read of the container keybag is the whole-image one ([ranged_keybag_area_passes]), the ranged chain answers and refuses as the
    whole-image chain does ([ranged_chain_passes]), an image that unlocks refuses a truncated wrapped key by name ([truncated_vek_refused]), and an image whose root
    node decrypts to a verified node cannot be read without the key ([locked_file_refused]). *)

From Stdlib Require Import Strings.String.
From S2P Require Import Prelude Bytes Errors Reader Object Container Walk BTree Omap FsRecord Encryption Volume Ber Keybag Unlock Inode Dir Extent Xattr Compression View Locked Format TestKit UnlockCheck TestsKeybag.

Set Warnings "-register-all".

Definition FIXTURE_VOLUME_UUID : bytes := [x75; xaa; xf7; xf9; xbf; x5a; x4a; x4f; x86; xc0; x3e; xf9; x09; x36; xbd; x7c].
Definition FIXTURE_PASSWORD : bytes := lit "apfs-FV-TEST-2026".
Definition MARKER : bytes := lit "APFS-FILEVAULT-GROUND-TRUTH-MARKER-0123456789".
Definition hex_literal_vek_fingerprint : bytes :=
  [x12; xed; x22; xee; x47; xf9; x27; x28; x8c; x6e; xb2; x44; xf6; xa6; xd3; x54; xa2; xb5; xed; x14; x18; xa6; x34; x11; x64; x9d; x4e; x4a;
   xbc; xa5; xb1; x43].

(** ** Standard library *)

(** [str::trim_end]: the encodings of the characters with the property White_Space. *)
Definition white_space : list bytes :=
  [[x09]; [x0a]; [x0b]; [x0c]; [x0d]; [x20]; [xc2; x85]; [xc2; xa0]; [xe1; x9a; x80]; [xe2; x80; xa8]; [xe2; x80; xa9]; [xe2; x80; xaf];
   [xe2; x81; x9f]; [xe3; x80; x80]] ++ map (fun i => [xe2; x80; z2b (0x80 + i)]) (range 11).

Definition strip_suffix (w s : bytes) : option bytes :=
  if bool_decide (drop (length s - length w) s = w) then Some (take (length s - length w) s) else None.

Fixpoint trim_from (fuel : nat) (s : bytes) : bytes :=
  match fuel with
  | O => s
  | S fuel => match head (omap (fun w => strip_suffix w s) white_space) with Some s' => trim_from fuel s' | None => s end
  end.
Definition trim_end (s : bytes) : bytes := trim_from (length s) s.

(** [names.sort()]: strings in byte order. *)
Fixpoint bytes_leb (a b : bytes) : bool :=
  match a, b with
  | [], _ => true
  | _, [] => false
  | x :: a, y :: b => (b2z x <? b2z y) || (bool_decide (x = y) && bytes_leb a b)
  end.
Fixpoint insert_name (n : bytes) (l : list bytes) : list bytes :=
  match l with
  | [] => [n]
  | m :: l => if bytes_leb n m then n :: m :: l else m :: insert_name n l
  end.
Definition sort_names (l : list bytes) : list bytes := foldr insert_name [] l.

(** [vek_v.as_slice().try_into().expect(..)] to 32 bytes. *)
Definition vek_array (vek : bytes) : result bytes := if blen vek =? 32 then Ok vek else Panic.

(** ** The native image *)

Section Native.
Context `{XtsCipher} `{KeyCrypto} `{IoDebug} `{Sha256} `{DecmpfsFormat} `{Codecs} (img : bytes).

Definition has_volume_tags (st : EncryptionState) : bool := elem VolumeKey (es_tags_present st) || elem VolumeUnlockRecords (es_tags_present st).

Definition container_keybag_decrypts_to_a_parseable_keybag : bool :=
  let_ok sb := slice img 0 4096 in
  assert_eq (get_range sb 32 36) (Some (lit "NXSB")) &&
  let_ok kb := decrypt_container_keybag img in
  let_ok state := read_keybag kb in
  has_volume_tags state.

Definition container_keybag_with_a_wrong_uuid_does_not_parse_as_a_keybag : bool :=
  let_ok kb := decrypt_container_keybag_with_uuid img (replicate 16 xaa) in
  match read_keybag kb with
  | Err _ => true
  | Ok s => negb (elem VolumeKey (es_tags_present s)) && negb (elem VolumeUnlockRecords (es_tags_present s))
  | Panic => false
  end.

Definition container_keybag_yields_this_volumes_wrapped_vek_and_keybag_extent : bool :=
  let_ok kb := decrypt_container_keybag img in
  let_ok rec := volume_records kb FIXTURE_VOLUME_UUID in
  let_ok end_ := (last ← add_usize (vr_volume_keybag_block rec) (vr_volume_keybag_blocks rec); mul_usize last 4096) in
  assert_eq (blen (vr_wrapped_vek rec)) 40 && (0 <? vr_volume_keybag_block rec) && (0 <? vr_volume_keybag_blocks rec) && (end_ <=? blen img).

Definition container_keybag_refuses_an_unknown_volume_uuid : bool :=
  let_ok kb := decrypt_container_keybag img in
  is_err (volume_records kb (replicate 16 x11)).

Definition unlock_volume_recovers_the_vek_with_the_correct_password : bool :=
  let_ok u := unlock_volume img FIXTURE_VOLUME_UUID FIXTURE_PASSWORD in
  assert_eq (blen (uv_vek u)) 32 && existsb (fun b => negb (bool_decide (b = x00))) (uv_vek u).

Definition unlock_volume_refuses_a_wrong_password : bool :=
  is_err (unlock_volume img FIXTURE_VOLUME_UUID (lit "not-the-password")).

(** The keybag area of the container as a seeking caller finds it: its bytes, the UUID and the first byte. *)
Definition seek_keybag_area : result (bytes * bytes * Z) :=
  let block_size := le_u32 img NX_BLOCK_SIZE in
  let paddr := le_u64 img NX_KEYBAG_BLOCK in
  let blocks := le_u64 img NX_KEYBAG_BLOCKS in
  uuid ← slice img NX_CONTAINER_UUID (NX_CONTAINER_UUID + 16);
  start ← mul_usize paddr block_size;
  len ← mul_usize blocks block_size;
  end_ ← add_usize start len;
  area ← slice img start end_;
  Ok (area, uuid, start).

Definition keybag_area_decrypts_identically_from_a_ranged_read : bool :=
  let_ok (area, uuid, start) := seek_keybag_area in
  let_ok ranged := decrypt_keybag_area area uuid (start / KEYBAG_SECTOR) in
  let_ok whole := decrypt_container_keybag img in
  assert_eq ranged whole && assert_eq (get_range ranged 24 28) (Some (lit "syek")).

Definition the_full_unlock_chain_works_from_ranged_reads_alone : bool :=
  let_ok (got, bytes_read) := ranged_unlock img FIXTURE_VOLUME_UUID FIXTURE_PASSWORD in
  let_ok want := unlock_volume img FIXTURE_VOLUME_UUID FIXTURE_PASSWORD in
  assert_eq got (uv_vek want) && (bytes_read <=? 64 * 1024) && assert_eq (sha256 got) hex_literal_vek_fingerprint.

Definition the_ranged_chain_refuses_a_wrong_password : bool :=
  let_ok (vek, _) := ranged_unlock img FIXTURE_VOLUME_UUID (lit "not-the-password") in
  assert_eq vek [].

Definition keybag_area_with_a_wrong_sector_index_yields_noise : bool :=
  let_ok (area, uuid, start) := seek_keybag_area in
  let_ok wrong := decrypt_keybag_area area uuid (start / KEYBAG_SECTOR + 1) in
  assert_eq (blen wrong) (blen area) && assert_ne (get_range wrong 24 28) (Some (lit "syek")).

Definition the_encrypted_fs_tree_root_decrypts_to_a_checksum_valid_node : bool :=
  let_ok u := unlock_volume img FIXTURE_VOLUME_UUID FIXTURE_PASSWORD in
  let_ok vek := vek_array (uv_vek u) in
  let block_size := le_u32 img NX_BLOCK_SIZE in
  let_ok (entry, _) := fs_tree_root img (image img) block_size in
  assert_ne (Z.land (oe_flags entry) OMAP_VAL_ENCRYPTED) 0 &&
  let_ok node := read_block_at img (oe_paddr entry) block_size in
  assert_ne (fletcher64_checksum node) (fletcher64_stored node) &&
  let_ok node := decrypt_volume_area node vek (oe_paddr entry) block_size in
  assert_eq (fletcher64_checksum node) (fletcher64_stored node) && negb (is_none (parse_node_header node)).

Definition a_wrong_vek_does_not_produce_a_checksum_valid_node : bool :=
  let block_size := le_u32 img NX_BLOCK_SIZE in
  let_ok (entry, _) := fs_tree_root img (image img) block_size in
  let_ok node := read_block_at img (oe_paddr entry) block_size in
  let_ok node := decrypt_volume_area node (replicate 32 xab) (oe_paddr entry) block_size in
  assert_ne (fletcher64_checksum node) (fletcher64_stored node).

Definition a_file_on_an_encrypted_volume_reads_back_as_its_known_plaintext : bool :=
  negb (contains img MARKER) &&
  let_ok u := unlock_volume img FIXTURE_VOLUME_UUID FIXTURE_PASSWORD in
  let_ok vek := vek_array (uv_vek u) in
  let block_size := le_u32 img NX_BLOCK_SIZE in
  let_ok (_, vol) := fs_tree_root img (image img) block_size in
  let vol := set_vek vol vek in
  let_ok inode := open_path (image img) vol (lit "marker.txt") block_size in
  let_ok data := read_data (image img) vol inode block_size in
  assert_eq (trim_end (from_utf8_lossy data)) MARKER.

Definition the_same_file_is_unreadable_without_the_key : bool :=
  let block_size := le_u32 img NX_BLOCK_SIZE in
  let_ok (_, vol) := fs_tree_root img (image img) block_size in
  is_err (i ← open_path (image img) vol (lit "marker.txt") block_size; read_data (image img) vol i block_size).

Definition unlock_with_volume_keybag_rejects_a_wrong_sized_wrapped_vek : bool :=
  let block_size := le_u32 img NX_BLOCK_SIZE in
  let_ok container_kb := decrypt_container_keybag img in
  let_ok rec := volume_records container_kb FIXTURE_VOLUME_UUID in
  let rec := {| vr_wrapped_vek := take 8 (vr_wrapped_vek rec); vr_volume_keybag_block := vr_volume_keybag_block rec;
                vr_volume_keybag_blocks := vr_volume_keybag_blocks rec |} in
  let_ok vs := mul_usize (vr_volume_keybag_block rec) block_size in
  let_ok ve := (len ← mul_usize (vr_volume_keybag_blocks rec) block_size; add_usize vs len) in
  let_ok area := slice img vs ve in
  let_ok vkb := decrypt_keybag_area area FIXTURE_VOLUME_UUID (vs / KEYBAG_SECTOR) in
  let_err e := unlock_with_volume_keybag vkb rec FIXTURE_PASSWORD in
  debug_names e "wrapped_vek_len".
End Native.

(** ** The dfVFS image *)

Definition DFVFS_CONTAINER_OFFSET : Z := 20480.

Section ThirdParty.
Context `{XtsCipher} `{KeyCrypto} `{DecmpfsFormat} `{Codecs}.

(** [out.split_off(DFVFS_CONTAINER_OFFSET)] of the decompressed image. *)
Definition dfvfs_container (out : bytes) : bytes := drop (Z.to_nat DFVFS_CONTAINER_OFFSET) out.

Context (img : bytes).

(** The UUID the image names, and the volume unlocked with dfVFS's password: what three of the tests start with. *)
Definition dfvfs_uuid : result bytes :=
  container_kb ← expect (decrypt_container_keybag img);
  slice container_kb 48 64.

Definition dfvfs_volume : result (ApfsVolume * Z) :=
  let block_size := le_u32 img NX_BLOCK_SIZE in
  volume_uuid ← dfvfs_uuid;
  u ← expect (unlock_volume img volume_uuid (lit "apfs-TEST"));
  vek ← vek_array (uv_vek u);
  '(_, vol) ← fs_tree_root img (image img) block_size;
  Ok (set_vek vol vek, block_size).

Definition tier1_third_party_encrypted_image_reads_against_a_third_party_answer_key : bool :=
  negb (contains img (lit "passwords.txt")) && negb (contains img (lit "another_file")) &&
  let_ok (vol, block_size) := dfvfs_volume in
  let_ok entries := list_dir (image img) vol 2 block_size in
  let names := sort_names (map de_name entries) in
  assert_eq names [lit ".fseventsd"; lit "a_directory"; lit "a_link"; lit "passwords.txt"] &&
  let_ok inode := open_path (image img) vol (lit "a_directory/another_file") block_size in
  assert_eq (ino_oid inode) 21 &&
  let_ok data := read_data (image img) vol inode block_size in
  assert_eq data (lit "This is another file." ++ [x0a]) &&
  let_ok pw := open_path (image img) vol (lit "passwords.txt") block_size in
  let_ok pw_data := read_data (image img) vol pw block_size in
  starts_with (lit "place,user,password" ++ [x0a]) pw_data && contains pw_data (lit "bank,joesmith,superrich").

Definition tier1_third_party_image_refuses_a_wrong_password : bool :=
  let_ok volume_uuid := dfvfs_uuid in
  is_err (unlock_volume img volume_uuid (lit "apfs-WRONG")).

Definition tier1_symlink_target_reads_through_decryption : bool :=
  let_ok (vol, block_size) := dfvfs_volume in
  let_ok link := open_path (image img) vol (lit "a_link") block_size in
  assert_eq (ino_oid link) 22 &&
  let_ok target := symlink_target (image img) vol (ino_oid link) block_size in
  assert_eq target (Some (lit "a_directory/a_file")).

Definition the_encrypted_corpus_carries_no_xattrs_or_resource_fork : bool :=
  let_ok (vol, block_size) := dfvfs_volume in
  let_ok dir := open_path (image img) vol (lit "a_directory") block_size in
  let_ok entries := list_dir (image img) vol (ino_oid dir) block_size in
  let names := sort_names (map de_name entries) in
  assert_eq names [lit "a_file"; lit "another_file"].
End ThirdParty.

(** ** What the tests say of every image *)

Section General.
Context `{XtsCipher} `{KeyCrypto} `{IoDebug} `{Sha256} `{DecmpfsFormat} `{Codecs} (img : bytes).

(** The ranged read of the container keybag passes wherever the whole-image path finds a keybag. *)
Theorem ranged_keybag_area_passes kb :
  decrypt_container_keybag img = Ok kb -> get_range kb 24 28 = Some (lit "syek") ->
  keybag_area_decrypts_identically_from_a_ranged_read img = true.
Proof.
  intros Hkb Hm. destruct (container_keybag_area _ _ Hkb) as (uuid & s & l & e & ct & Hu & G1 & G2 & G3 & G4 & G5).
  unfold keybag_area_decrypts_identically_from_a_ranged_read, seek_keybag_area.
  rewrite (slice_in _ _ _ _ Hu), (mul_usize_checked _ _ _ G1), (mul_usize_checked _ _ _ G2). cbn [mbind outcome_bind].
  rewrite (add_usize_checked _ _ _ G3). cbn [mbind outcome_bind]. rewrite (slice_in _ _ _ _ G4). cbn [mbind outcome_bind expecting].
  rewrite G5. cbn [expecting]. rewrite Hkb. cbn [expecting]. unfold assert_eq. by rewrite Hm, !bool_decide_true.
Qed.

(** What a successful unlock went through. *)
Lemma unlock_volume_inv vu pw u :
  unlock_volume img vu pw = Ok u ->
  exists ckb rec start len end_ ct vkb,
    let bs := le_u32 img NX_BLOCK_SIZE in
    decrypt_container_keybag img = Ok ckb /\ volume_records ckb vu = Ok rec /\
    checked_mul (vr_volume_keybag_block rec) bs = Some start /\ checked_mul (vr_volume_keybag_blocks rec) bs = Some len /\
    checked_add start len = Some end_ /\ get_range img start end_ = Some ct /\
    decrypt_keybag_area ct vu (start / KEYBAG_SECTOR) = Ok vkb /\ unlock_with_volume_keybag vkb rec pw = Ok u.
Proof.
  unfold unlock_volume. intros (ckb & Hc & Hu)%bind_Ok_iff. apply bind_Ok_iff in Hu as (rec & Hr & Hu). cbv zeta in Hu.
  apply bind_Ok_iff in Hu as (start & Hs%ok_or_Ok_iff & Hu). apply bind_Ok_iff in Hu as (len & Hl%ok_or_Ok_iff & Hu).
  apply bind_Ok_iff in Hu as (end_ & He%ok_or_Ok_iff & Hu). apply bind_Ok_iff in Hu as (ct & Hct%ok_or_Ok_iff & Hu).
  apply bind_Ok_iff in Hu as (vkb & Hv & Hu). exists ckb, rec, start, len, end_, ct, vkb. by split_and!.
Qed.

(** On an image that unlocks, the ranged chain recovers the key, and refuses every password the whole-image path refuses: the two
    tests on it pass as far as the bytes read stay below 64 KiB and the key is the one pinned. *)
Theorem ranged_chain_passes u :
  4096 <= blen img -> unlock_volume img FIXTURE_VOLUME_UUID FIXTURE_PASSWORD = Ok u ->
  (exists n, ranged_unlock img FIXTURE_VOLUME_UUID FIXTURE_PASSWORD = Ok (uv_vek u, n) /\
    (the_full_unlock_chain_works_from_ranged_reads_alone img = true <-> n <= 64 * 1024 /\ sha256 (uv_vek u) = hex_literal_vek_fingerprint)) /\
  (unlock_volume_refuses_a_wrong_password img = true -> the_ranged_chain_refuses_a_wrong_password img = true).
Proof.
  intros Hlen Hu. destruct (unlock_volume_inv _ _ _ Hu) as (ckb & rec & start & len & end_ & ct & vkb & G1 & G2 & G3 & G4 & G5 & G6 & _).
  pose proof (fun pw => ranged_unlock_agrees img FIXTURE_VOLUME_UUID pw ckb rec start len end_ ct Hlen G1 G2 G3 G4 G5 G6) as Hag.
  cbv zeta in Hag. split.
  - eexists. split; [rewrite Hag, Hu; reflexivity|].
    unfold the_full_unlock_chain_works_from_ranged_reads_alone. rewrite Hag, Hu. cbn [expecting chain_answer].
    unfold assert_eq. rewrite !andb_true_iff, !bool_decide_eq_true, Z.leb_le. naive_solver.
  - unfold unlock_volume_refuses_a_wrong_password, the_ranged_chain_refuses_a_wrong_password. rewrite Hag.
    destruct (unlock_volume img FIXTURE_VOLUME_UUID (lit "not-the-password")); done.
Qed.

(** On an image that unlocks, a wrapped key cut to eight bytes is refused by the name of the field. *)
Theorem truncated_vek_refused u :
  unlock_volume img FIXTURE_VOLUME_UUID FIXTURE_PASSWORD = Ok u ->
  unlock_with_volume_keybag_rejects_a_wrong_sized_wrapped_vek img = true.
Proof.
  intros Hu. destruct (unlock_volume_inv _ _ _ Hu) as (ckb & rec & start & len & end_ & ct & vkb & G1 & G2 & G3 & G4 & G5 & G6 & G7 & G8).
  unfold unlock_with_volume_keybag_rejects_a_wrong_sized_wrapped_vek. rewrite G1. cbn [expecting]. rewrite G2. cbn [expecting vr_volume_keybag_block vr_volume_keybag_blocks].
  rewrite (mul_usize_checked _ _ _ G3), (mul_usize_checked _ _ _ G4). cbn [expecting mbind outcome_bind].
  rewrite (add_usize_checked _ _ _ G5). cbn [expecting]. rewrite (slice_in _ _ _ _ G6). cbn [expecting]. rewrite G7. cbn [expecting].
  unfold unlock_with_volume_keybag in G8 |- *. apply bind_Ok_iff in G8 as (obj & -> & G8). cbn [mbind outcome_bind].
  apply bind_Ok_iff in G8 as (ki & -> & G8). cbn [mbind outcome_bind]. apply bind_Ok_iff in G8 as (d & -> & G8). cbn [mbind outcome_bind].
  apply bind_Ok_iff in G8 as (wk & -> & G8). cbn [mbind outcome_bind]. apply bind_Ok_iff in G8 as (kv & -> & G8). cbn [mbind outcome_bind].
  apply bind_Ok_iff in G8 as (k & -> & G8). cbn [mbind outcome_bind vr_wrapped_vek].
  unfold to_array. assert (blen (take 8 (vr_wrapped_vek rec)) <= 8) as Hle by (unfold blen; rewrite length_take; lia).
  rewrite (proj2 (Z.eqb_neq _ 40)) by lia. cbn [mbind outcome_bind expecting_err]. apply debug_names_field.
Qed.

(** A block the helper reads is the block the reader reads. *)
Lemma read_block_at_image paddr bs b :
  read_block_at img paddr bs = Ok b -> read_at (image img) (saturating_mul paddr bs) bs = Ok b.
Proof.
  unfold read_block_at, mul_usize, add_usize, slice. destruct (Z.ltb_spec (paddr * bs) u64_limit); [|done]. cbn [mbind outcome_bind].
  destruct (_ <? _); [|done]. cbn [mbind outcome_bind]. rewrite saturating_mul_exact by done. intros Hr. destruct (Z.eq_dec bs 0) as [->|Hbs].
  { rewrite Z.add_0_r in Hr. destruct (get_range img _ _) as [x|] eqn:Hg; [|done]. injection Hr as ->. apply get_range_len in Hg.
    rewrite read_at_cursor_0. f_equal. symmetry. apply length_zero_iff_nil. unfold blen in Hg. lia. }
  rewrite read_at_cursor by done. cbn [cur_buf image]. by destruct (get_range img _ _) as [x|].
Qed.

(** The root of the records, as the helper finds it, is the block and the object map the reader uses. *)
Lemma fs_tree_root_inv bs entry vol :
  fs_tree_root img (image img) bs = Ok (entry, vol) ->
  vol_vek vol = None /\ exists om, read_volume_omap (image img) vol bs = Ok om /\
    omap_resolve om (image img) (vol_root_tree_oid vol) u64_max bs = Ok entry.
Proof.
  assert (forall A (m : result A) a, expect m = Ok a -> m = Ok a) as Hx by (intros A m a; by destruct m).
  unfold fs_tree_root. intros (b0 & _ & Hr)%bind_Ok_iff. do 6 (apply bind_Ok_iff in Hr as (? & _ & Hr)).
  apply bind_Ok_iff in Hr as (v & Hv%Hx & Hr). apply bind_Ok_iff in Hr as (b & Hb & Hr). apply bind_Ok_iff in Hr as (om & Hom%Hx & Hr).
  apply bind_Ok_iff in Hr as (e & He%Hx & Hr). injection Hr as -> ->. apply ApfsVolume_parse_gates in Hv.
  split; [by destruct Hv as (_ & _ & _ & _ & _ & ? & _)|]. exists om. split; [|done].
  unfold read_volume_omap. rewrite (read_block_at_image _ _ _ Hb). exact Hom.
Qed.

(** The two tests on the encrypted tree go together on every image: where the root node of the volume is stored encrypted, does not verify as it
    lies and verifies once decrypted, and the volume's own transaction is not older than that node, the file cannot be read without the key. *)
Theorem locked_file_refused entry vol om :
  let bs := le_u32 img NX_BLOCK_SIZE in
  fs_tree_root img (image img) bs = Ok (entry, vol) -> read_volume_omap (image img) vol bs = Ok om ->
  omap_resolve om (image img) (vol_root_tree_oid vol) (vol_xid vol) bs = omap_resolve om (image img) (vol_root_tree_oid vol) u64_max bs ->
  the_encrypted_fs_tree_root_decrypts_to_a_checksum_valid_node img = true ->
  the_same_file_is_unreadable_without_the_key img = true.
Proof.
  intros bs Hroot Hom Hx. unfold the_encrypted_fs_tree_root_decrypts_to_a_checksum_valid_node, the_same_file_is_unreadable_without_the_key.
  fold bs. destruct (unlock_volume _ _ _) as [u| |]; [|done|done]. cbn [expecting]. destruct (vek_array _) as [vek| |]; [|done|done]. cbn [expecting].
  rewrite Hroot. cbn [expecting]. intros (Hf & Hn)%andb_true_iff. destruct (read_block_at img (oe_paddr entry) bs) as [node| |] eqn:Hb; [|done|done].
  cbn [expecting] in Hn. apply andb_true_iff in Hn as [Hne _]. unfold assert_ne in *. apply negb_true_iff, bool_decide_eq_false in Hf, Hne.
  destruct (fs_tree_root_inv _ _ _ Hroot) as (Hk & om' & Ho & He). assert (om' = om) as -> by congruence.
  apply read_block_at_image in Hb. rewrite <-Hx in He.
  destruct (unreadable_root_refused (image img) vol bs om (ChecksumMismatch (match ObjPhys_parse node with Some h => o_oid h | None => oe_paddr entry end)
    (fletcher64_stored node) (fletcher64_checksum node)) Hom) as [_ _ _ Hopen _ _ _ _ _].
  { unfold virt_node, read_virtual_node. rewrite He. cbn [mbind outcome_bind]. rewrite Hb, Hk. cbn [mbind outcome_bind].
    rewrite (proj2 (Z.eqb_neq _ _) Hf). cbn [negb mbind outcome_bind]. rewrite (proj2 (Z.eqb_neq _ _)) by congruence. reflexivity. }
  rewrite Hopen. reflexivity.
Qed.
End General.
