(* ===== verification/TestsSpace.v ===== *)
(** The unit tests of core/src/spaceman.rs, reaper.rs, sealed.rs, bytes.rs and fusion.rs, with the image builders they share.

    The tests are evaluated on the images their builders lay out.  [spaceman_image_fields] is the builder's contract for every geometry: the
    reader trusts the block and reads every field back as it was given. *)

From Stdlib Require Import Strings.String.
From S2P Require Import Prelude Bytes Errors Reader Object Container Checkpoint Spaceman Reaper Sealed Format TestKit.

Set Warnings "-register-all".

Definition BS : Z := 4096.

(** [&mut img[b * BS..(b + 1) * BS]] written through [f]. *)
Definition edit_block (img : bytes) (b : Z) (f : bytes -> bytes) : bytes :=
  put img (b * BS) (f (default [] (get_range img (b * BS) ((b + 1) * BS)))).

(** [matches!(got, Err(FieldOutOfRange { .. }))] *)
Definition out_of_range {A} (m : result A) : bool := match m with Err (FieldOutOfRange _ _ _ _) => true | _ => false end.
(** The field such an error names. *)
Definition out_of_range_field {A} (m : result A) : option (string * Z) :=
  match m with Err (FieldOutOfRange _ field value _) => Some (field, value) | _ => None end.

(** ** spaceman.rs *)

(** The main-device geometry in block 0 of [sm], before the checksum. *)
Definition spaceman_block (bpc cpc blocks chunks cibs cabs addr cib0 : Z) : bytes :=
  let sm := zeroed BS in
  let sm := put sm 24 (to_le_bytes 4 5) in
  let sm := put sm SM_BLOCKS_PER_CHUNK (to_le_bytes 4 bpc) in
  let sm := put sm SM_CHUNKS_PER_CIB (to_le_bytes 4 cpc) in
  let d := SM_DEV0 in
  let sm := put sm (d + DEV_BLOCK_COUNT) (to_le_bytes 8 blocks) in
  let sm := put sm (d + DEV_CHUNK_COUNT) (to_le_bytes 8 chunks) in
  let sm := put sm (d + DEV_CIB_COUNT) (to_le_bytes 4 cibs) in
  let sm := put sm (d + DEV_CAB_COUNT) (to_le_bytes 4 cabs) in
  let sm := put sm (d + DEV_ADDR_OFFSET) (to_le_bytes 4 addr) in
  put sm addr (to_le_bytes 8 cib0).

(** A four-block image: the space manager, and room for a chunk-info block and a bitmap. *)
Definition spaceman_image (bpc cpc blocks chunks cibs cabs addr cib0 : Z) : bytes :=
  stamp (spaceman_block bpc cpc blocks chunks cibs cabs addr cib0) ++ zeroed (BS * 3).

Definition read_obj_block_rejects_a_bad_checksum : bool :=
  let img := put (zeroed BS) 8 (to_le_bytes 8 0x1234) in
  match read_obj_block (image img) BS 0 with
  | Err (ChecksumMismatch block _ _) => assert_eq block 0x1234
  | _ => false
  end.

Definition zero_geometry_is_out_of_range : bool :=
  let img := spaceman_image 0 0 100 10 1 0 256 0 in
  out_of_range (is_block_free (image img) BS 0 0).

Definition block_past_device_is_out_of_range : bool :=
  let img := spaceman_image 8 4 100 10 1 0 256 0 in
  let_some (field, value) := out_of_range_field (is_block_free (image img) BS 0 999) in
  assert_eq field "block"%string && assert_eq value 999.

Definition cab_tier_is_unsupported_and_loud : bool :=
  let img := spaceman_image 8 4 100 10 1 3 256 0 in
  match is_block_free (image img) BS 0 0 with
  | Err (UnsupportedSpacemanCab count) => assert_eq count 3
  | _ => false
  end.

Definition chunk_index_past_chunk_count_is_out_of_range : bool :=
  let img := spaceman_image 8 4 1000 2 1 0 256 0 in
  let_some (field, _) := out_of_range_field (is_block_free (image img) BS 0 64) in
  assert_eq field "chunk_index"%string.

Definition cib_index_past_cib_count_is_out_of_range : bool :=
  let img := spaceman_image 8 4 1000 100 1 0 256 0 in
  let_some (field, _) := out_of_range_field (is_block_free (image img) BS 0 32) in
  assert_eq field "cib_index"%string.

Definition zero_bitmap_addr_means_whole_chunk_free : bool :=
  let img := spaceman_image 8 4 1000 10 1 0 256 1 in
  let img := edit_block img 1 (fun cib => stamp (put cib CIB_CHUNK_INFO_COUNT (to_le_bytes 4 1))) in
  let_ok free := is_block_free (image img) BS 0 0 in
  free.

Definition chunk_info_index_past_count_is_out_of_range : bool :=
  let img := spaceman_image 8 4 1000 10 1 0 256 1 in
  let img := edit_block img 1 (fun cib => stamp cib) in
  let_some (field, _) := out_of_range_field (is_block_free (image img) BS 0 0) in
  assert_eq field "chunk_info_index"%string.

Definition free_runs_apfs_polarity_clear_bit_is_free : bool := assert_eq (free_runs [x1e] 8 false) [(0, 1); (5, 3)].

Definition free_runs_inverse_polarity_set_bit_is_free : bool := assert_eq (free_runs [x1e] 8 true) [(1, 4)].

Definition free_runs_honors_blocks_cap_and_ignores_padding : bool := assert_eq (free_runs [x00; x00] 3 false) [(0, 3)].

Definition free_runs_missing_bytes_are_allocated_never_fabricated : bool :=
  assert_eq (free_runs [x00] 16 false) [(0, 8)] && assert_eq (free_runs [xff] 16 true) [(0, 8)].

Definition free_runs_empty_when_all_allocated : bool := assert_eq (free_runs [xff; xff] 16 false) [].

(** Two chunks in one chunk-info block: chunk 0 has the bitmap at block 2, chunk 1 none. *)
Definition two_chunk_image (chunk0_bitmap_byte : byte) : bytes :=
  let img := spaceman_image 8 4 16 2 1 0 256 1 in
  let img := edit_block img 1 (fun cib =>
    let cib := put cib CIB_CHUNK_INFO_COUNT (to_le_bytes 4 2) in
    let ci0 := CIB_CHUNK_INFO + CI_BITMAP_ADDR in
    stamp (put cib ci0 (to_le_bytes 8 2))) in
  put img (2 * BS) [chunk0_bitmap_byte].

Definition free_block_runs_merges_across_chunk_boundary : bool :=
  let_ok runs := free_block_runs (image (two_chunk_image x1e)) BS 0 in
  assert_eq runs [(0, 1); (5, 11)].

Definition free_block_runs_all_allocated_chunk0_keeps_chunk1_free : bool :=
  let_ok runs := free_block_runs (image (two_chunk_image xff)) BS 0 in
  assert_eq runs [(8, 8)].

Definition free_block_runs_rejects_cab_tier_loud : bool :=
  let img := spaceman_image 8 4 16 2 1 3 256 1 in
  match free_block_runs (image img) BS 0 with
  | Err (UnsupportedSpacemanCab count) => assert_eq count 3
  | _ => false
  end.

Definition free_block_runs_rejects_zero_geometry_loud : bool :=
  let img := spaceman_image 0 0 16 2 1 0 256 1 in
  out_of_range (free_block_runs (image img) BS 0).

Definition overcounted_cib_image (blocks chunks chunk_info_count : Z) : bytes :=
  let img := spaceman_image 8 4 blocks chunks 1 0 256 1 in
  let img := edit_block img 1 (fun cib =>
    let cib := put cib CIB_CHUNK_INFO_COUNT (to_le_bytes 4 chunk_info_count) in
    let ci0 := CIB_CHUNK_INFO + CI_BITMAP_ADDR in
    stamp (put cib ci0 (to_le_bytes 8 2))) in
  put img (2 * BS) [x00].

Definition free_block_runs_stops_when_cib_overcounts_chunks : bool :=
  let_ok runs := free_block_runs (image (overcounted_cib_image 8 1 2)) BS 0 in
  assert_eq runs [(0, 8)].

Definition free_block_runs_stops_when_chunk_base_exceeds_block_count : bool :=
  let_ok runs := free_block_runs (image (overcounted_cib_image 8 2 2)) BS 0 in
  assert_eq runs [(0, 8)].

(** ** reaper.rs *)

(** [stamp(&mut img, b)] of the reaper tests. *)
Definition stamp_block (img : bytes) (b : Z) : bytes := edit_block img b stamp.
Definition put_u64 (img : bytes) (b off v : Z) : bytes := put img (b * BS + off) (to_le_bytes 8 v).
Definition put_u32 (img : bytes) (b off v : Z) : bytes := put img (b * BS + off) (to_le_bytes 4 v).

Definition walks_reap_list_entries_via_mappings : bool :=
  let img := zeroed (BS * 4) in
  let reaper_b := 1 in
  let list_b := 2 in
  let list_oid := 0x4001 in
  let img := put_u64 img reaper_b 48 list_oid in
  let img := put_u64 img reaper_b 56 list_oid in
  let img := stamp_block img reaper_b in
  let img := put_u64 img list_b 32 0 in
  let img := put_u32 img list_b 48 2 in
  let img := put_u32 img list_b (64 + 8) 0x4000000d in
  let img := put_u64 img list_b (64 + 24) 500 in
  let img := put_u32 img list_b (104 + 8) 0x40000002 in
  let img := put_u64 img list_b (104 + 24) 600 in
  let img := stamp_block img list_b in
  let mappings := [{| cpm_oid := list_oid; cpm_paddr := list_b; cpm_type := 0x80000012; cpm_subtype := 0 |}] in
  let_ok pending := pending_objects (image img) mappings BS reaper_b in
  let got := map (fun p => (rp_oid p, rp_obj_type p)) pending in
  assert_eq got [(500, 0x4000000d); (600, 0x40000002)].

Definition cyclic_reap_list_chain_is_caught : bool :=
  let img := zeroed (BS * 3) in
  let reaper_b := 1 in
  let list_b := 2 in
  let list_oid := 0x4001 in
  let img := put_u64 img reaper_b 48 list_oid in
  let img := stamp_block img reaper_b in
  let img := put_u64 img list_b 32 list_oid in
  let img := put_u32 img list_b 48 0 in
  let img := stamp_block img list_b in
  let mappings := [{| cpm_oid := list_oid; cpm_paddr := list_b; cpm_type := 0x80000012; cpm_subtype := 0 |}] in
  match pending_objects (image img) mappings BS reaper_b with
  | Err (CycleGuard cap) => assert_eq cap 4096
  | _ => false
  end.

Definition reports_in_progress_object : bool :=
  let img := zeroed (BS * 2) in
  let reaper_b := 1 in
  let img := put_u64 img reaper_b 48 0 in
  let img := put_u32 img reaper_b 72 0x4000000d in
  let img := put_u64 img reaper_b 88 777 in
  let img := stamp_block img reaper_b in
  let_ok pending := pending_objects (image img) [] BS reaper_b in
  assert_eq (blen pending) 1 &&
  match pending with p :: _ => assert_eq (rp_oid p, rp_obj_type p) (777, 0x4000000d) | [] => false end.

(** ** sealed.rs *)

Definition integrity_block (version flags hash_type broken_xid : Z) : bytes :=
  let b := zeroed 4096 in
  let b := put b 32 (to_le_bytes 4 version) in
  let b := put b 36 (to_le_bytes 4 flags) in
  let b := put b 40 (to_le_bytes 4 hash_type) in
  let b := put b 48 (to_le_bytes 8 broken_xid) in
  let cks := fletcher64_checksum b in
  put b 0 (to_le_bytes 8 cks).

Definition parses_fields_including_broken_xid : bool :=
  let block := integrity_block 1 0 1 42 in
  let_ok im := IntegrityMeta_parse block in
  assert_eq (im_version im) 1 && assert_eq (im_hash_type im) 1 && assert_eq (im_broken_xid im) 42.

Definition unbroken_seal_has_zero_broken_xid : bool :=
  let block := integrity_block 1 0 1 0 in
  let_ok im := IntegrityMeta_parse block in
  assert_eq (im_broken_xid im) 0.

Definition rejects_corrupted_block : bool :=
  let block := flip_byte (integrity_block 1 0 1 0) 100 in
  is_err (IntegrityMeta_parse block).

Definition rejects_a_block_too_short_for_the_structure : bool :=
  let_some (field, value) := out_of_range_field (IntegrityMeta_parse (zeroed 16)) in
  assert_eq field "block.len"%string && assert_eq value 16.

(** ** bytes.rs *)

Definition le_reads_in_bounds : bool :=
  let d := [x01; x02; x03; x04; x05; x06; x07; x08] in
  assert_eq (le_u32 d 0) 0x04030201 && assert_eq (le_u64 d 0) 0x0807060504030201 && assert_eq (arr 4 d 2) [x03; x04; x05; x06].

Definition out_of_range_yields_zero : bool :=
  let d := replicate 3 xaa in
  assert_eq (le_u32 d 0) 0 && assert_eq (le_u64 d 0) 0 && assert_eq (arr 8 d 0) (replicate 8 x00).

Definition offset_past_end_yields_zero : bool :=
  let d := [x11; x22] in
  assert_eq (le_u32 d 100) 0 && assert_eq (arr 2 d 100) (replicate 2 x00).

(** ** fusion.rs *)

Definition FUSION_TIER2_DEVICE_BYTE_ADDR : Z := 0x4000000000000000.

Definition translate_address_fails_loud_not_panics : bool :=
  let tier2 := Z.shiftr FUSION_TIER2_DEVICE_BYTE_ADDR 12 in
  match translate_address tier2 with Err UnsupportedFusion => true | _ => false end &&
  match translate_address 5 with Err UnsupportedFusion => true | _ => false end.

Definition space_suite : list bool :=
  [ read_obj_block_rejects_a_bad_checksum; zero_geometry_is_out_of_range; block_past_device_is_out_of_range;
    cab_tier_is_unsupported_and_loud; chunk_index_past_chunk_count_is_out_of_range; cib_index_past_cib_count_is_out_of_range;
    zero_bitmap_addr_means_whole_chunk_free; chunk_info_index_past_count_is_out_of_range;
    free_runs_apfs_polarity_clear_bit_is_free; free_runs_inverse_polarity_set_bit_is_free;
    free_runs_honors_blocks_cap_and_ignores_padding; free_runs_missing_bytes_are_allocated_never_fabricated;
    free_runs_empty_when_all_allocated; free_block_runs_merges_across_chunk_boundary;
    free_block_runs_all_allocated_chunk0_keeps_chunk1_free; free_block_runs_rejects_cab_tier_loud;
    free_block_runs_rejects_zero_geometry_loud; free_block_runs_stops_when_cib_overcounts_chunks;
    free_block_runs_stops_when_chunk_base_exceeds_block_count;
    walks_reap_list_entries_via_mappings; cyclic_reap_list_chain_is_caught; reports_in_progress_object;
    parses_fields_including_broken_xid; unbroken_seal_has_zero_broken_xid; rejects_corrupted_block;
    rejects_a_block_too_short_for_the_structure; le_reads_in_bounds; out_of_range_yields_zero; offset_past_end_yields_zero;
    translate_address_fails_loud_not_panics ].

(** ** The space-manager builder *)

Ltac unfold_sm := unfold SM_BLOCKS_PER_CHUNK, SM_CHUNKS_PER_CIB, SM_DEV0, DEV_BLOCK_COUNT, DEV_CHUNK_COUNT, DEV_CIB_COUNT,
  DEV_CAB_COUNT, DEV_ADDR_OFFSET in *.

Section Geometry.
Context (bpc cpc blocks chunks cibs cabs addr cib0 : Z).
Context (Hbpc : 0 <= bpc < 2 ^ 32) (Hcpc : 0 <= cpc < 2 ^ 32) (Hcibs : 0 <= cibs < 2 ^ 32) (Hcabs : 0 <= cabs < 2 ^ 32).
Context (Hblocks : 0 <= blocks < 2 ^ 64) (Hchunks : 0 <= chunks < 2 ^ 64) (Hcib0 : 0 <= cib0 < 2 ^ 64).
(** The address array lies behind the device's fields. *)
Context (Haddr : 84 <= addr <= BS - 8).

Let sm := spaceman_block bpc cpc blocks chunks cibs cabs addr cib0.

Lemma blen_spaceman_block : blen sm = BS.
Proof. unfold sm, spaceman_block, BS in *. cbn zeta. unfold_sm. fields_fit. Qed.

Lemma spaceman_block_fields :
  blocks_per_chunk sm = bpc /\ chunks_per_cib sm = cpc /\ block_count sm = blocks /\ chunk_count sm = chunks /\
  cib_count sm = cibs /\ cab_count sm = cabs /\ addr_offset sm = addr /\ cib_paddr sm 0 = cib0.
Proof.
  assert (addr_offset sm = addr) as Ha.
  { unfold addr_offset, le_u32, sm, spaceman_block, BS in *. cbn zeta. unfold_sm. field_read 4096. }
  unfold cib_paddr. rewrite Ha.
  unfold blocks_per_chunk, chunks_per_cib, block_count, chunk_count, cib_count, cab_count, le_u32, le_u64, sm, spaceman_block, BS in *.
  cbn zeta. unfold_sm. split_and!; [..|done|replace (addr + 0 * 8) with addr by lia]; field_read 4096.
Qed.

Lemma spaceman_block_stamped :
  blocks_per_chunk (stamp sm) = bpc /\ chunks_per_cib (stamp sm) = cpc /\ block_count (stamp sm) = blocks /\
  chunk_count (stamp sm) = chunks /\ cib_count (stamp sm) = cibs /\ cab_count (stamp sm) = cabs /\ cib_paddr (stamp sm) 0 = cib0.
Proof.
  pose proof blen_spaceman_block as Hl. destruct spaceman_block_fields as (F1 & F2 & F3 & F4 & F5 & F6 & F7 & F8).
  assert (addr_offset (stamp sm) = addr) as Ha.
  { unfold addr_offset in *. unfold BS in Hl. rewrite le_u32_stamp by (unfold_sm; lia). done. }
  unfold cib_paddr, blocks_per_chunk, chunks_per_cib, block_count, chunk_count, cib_count, cab_count in *.
  rewrite Ha. rewrite F7 in F8. unfold BS in *.
  rewrite !le_u32_stamp, !le_u64_stamp by (unfold_sm; lia). done.
Qed.
End Geometry.

(** A stamped block is read back wherever it lies. *)
Lemma read_obj_block_stamped pre b post n :
  blen b = BS -> blen pre = n * BS -> 0 <= n * BS < u64_limit -> read_obj_block (image (pre ++ stamp b ++ post)) BS n = Ok (stamp b).
Proof.
  intros Hb Hp Hn. unfold read_obj_block. rewrite saturating_mul_exact by lia. rewrite read_at_cursor by done. cbn [cur_buf image].
  assert (blen (stamp b) = BS) as Hs by (unfold stamp; apply blen_put_field; [done|lia|unfold BS; lia]).
  rewrite (get_range_app pre (stamp b) post) by lia. cbn [mbind outcome_bind].
  assert (cksum_ok (stamp b) = true) as Hc by (apply cksum_ok_stamp; rewrite Hb; unfold BS; lia).
  unfold cksum_ok in Hc. by rewrite Hc.
Qed.

(** The tests' space-manager image, for every geometry whose fields fit their widths and whose address array lies behind the
    device's fields: the reader accepts the block's checksum and reads each field as it was given.  A device with the second address tier ([cabs] not zero) is therefore refused with that count by
    the enumeration and by every query for a block of the device, and a query past the device is refused first. *)
Theorem spaceman_image_fields bpc cpc blocks chunks cibs cabs addr cib0 :
  0 <= bpc < 2 ^ 32 -> 0 <= cpc < 2 ^ 32 -> 0 <= cibs < 2 ^ 32 -> 0 <= cabs < 2 ^ 32 ->
  0 <= blocks < 2 ^ 64 -> 0 <= chunks < 2 ^ 64 -> 0 <= cib0 < 2 ^ 64 -> 84 <= addr <= BS - 8 ->
  let img := image (spaceman_image bpc cpc blocks chunks cibs cabs addr cib0) in
  (exists sm, read_obj_block img BS 0 = Ok sm /\
    blocks_per_chunk sm = bpc /\ chunks_per_cib sm = cpc /\ block_count sm = blocks /\ chunk_count sm = chunks /\
    cib_count sm = cibs /\ cab_count sm = cabs /\ cib_paddr sm 0 = cib0) /\
  (bpc <> 0 -> cpc <> 0 -> cabs <> 0 ->
    free_block_runs img BS 0 = Err (UnsupportedSpacemanCab cabs) /\
    (forall b, b < blocks -> is_block_free img BS 0 b = Err (UnsupportedSpacemanCab cabs)) /\
    (forall b, blocks <= b -> is_block_free img BS 0 b = Err (sm_range "block" b blocks))).
Proof.
  intros H1 H2 H3 H4 H5 H6 H7 H8 img.
  assert (read_obj_block img BS 0 = Ok (stamp (spaceman_block bpc cpc blocks chunks cibs cabs addr cib0))) as Hr.
  { apply (read_obj_block_stamped []); [by apply blen_spaceman_block|done|done]. }
  destruct (spaceman_block_stamped bpc cpc blocks chunks cibs cabs addr cib0) as (F1 & F2 & F3 & F4 & F5 & F6 & F7); [done..|].
  split; [by eexists|]. intros Hb Hc Hcab. unfold free_block_runs, is_block_free. rewrite Hr. cbn [mbind outcome_bind].
  rewrite F1, F2, F3, F6, (proj2 (Z.eqb_neq _ _) Hb), (proj2 (Z.eqb_neq _ _) Hc), (proj2 (Z.eqb_neq _ _) Hcab). cbn [orb negb].
  split_and!; [done| |]; intros b Hlt; [by rewrite (proj2 (Z.leb_gt _ _)) by lia|by rewrite (proj2 (Z.leb_le _ _)) by lia].
Qed.

Lemma spaceman_image_fields_witness :
  free_block_runs (image (spaceman_image 8 4 16 2 1 3 256 1)) BS 0 = Err (UnsupportedSpacemanCab 3).
Proof.
  destruct (spaceman_image_fields 8 4 16 2 1 3 256 1) as [_ H]; [lia..|unfold BS; lia|].
  apply H; lia.
Defined.

(** ** The suite *)

(** Every one of these tests holds of the model. *)
Lemma space_suite_passes : Forall (fun passed => passed = true) space_suite.
Proof. repeat (apply Forall_cons; split; [vm_compute; reflexivity|]). apply Forall_nil_2. Qed.
