(* ===== verification/TestsSnapshot.v ===== *)
(** The unit tests of core/src/snapshot.rs and the micro-image builders they share.

    The builders write objects, B-tree nodes and whole images byte by byte.  [btree_node_layout] shows that the node builder produces the layout of
    [NodeLayout.encode_node] for every list of records that fits, and [image_block] that the image
    holds each block at its index.  From the two, [single_leaf_listing] gives what the listing and the name lookup return on the
    tests' volume for every list of records, and the tests over populated trees are its instances: the four-megabyte images are never
    evaluated.  The tests over the committed image take it as an argument ([mount_tests_pass]); [TestsMount] gives it. *)

From Stdlib Require Import Strings.String.
From S2P Require Import Prelude Bytes Errors Reader Object Walk BTree NodeLayout Omap FsRecord Encryption Volume Inode Dir Snapshot Format TestKit.

Set Warnings "-register-all".

(** ** Decoding *)

Definition parse_snap_metadata_value_decodes_all_fields : bool :=
  let v := [] in
  let v := v ++ to_le_bytes 8 0x11 in
  let v := v ++ to_le_bytes 8 0x22 in
  let v := v ++ to_le_bytes 8 1000 in
  let v := v ++ to_le_bytes 8 2000 in
  let v := v ++ to_le_bytes 8 99 in
  let v := v ++ to_le_bytes 4 0x40000002 in
  let v := v ++ to_le_bytes 4 0x1 in
  let v := v ++ to_le_bytes 2 6 in
  let v := v ++ lit "snap1" ++ [x00] in
  let s := parse_snap_metadata 42 v in
  assert_eq (sn_xid s) 42 && assert_eq (sn_extentref_tree_oid s) 0x11 && assert_eq (sn_sblock_oid s) 0x22 &&
  assert_eq (sn_create_time s) 1000 && assert_eq (sn_change_time s) 2000 && assert_eq (sn_inum s) 99 &&
  assert_eq (sn_flags s) 0x1 && assert_eq (sn_name s) (lit "snap1").

Definition parse_snap_metadata_clamps_overlong_name : bool :=
  let v := zeroed OFF_SNAP_NAME in
  let v := put v OFF_SNAP_NAME_LEN (to_le_bytes 2 50000) in
  let s := parse_snap_metadata 1 v in
  assert_eq (sn_name s) [].

Definition parse_snap_metadata_truncated_value_reads_zero : bool :=
  let s := parse_snap_metadata 7 (zeroed 4) in
  assert_eq (sn_sblock_oid s) 0 && assert_eq (sn_create_time s) 0 && assert_eq (sn_name s) [].

Definition snap_meta_tree_subtype_is_snapmetatree : bool := assert_eq snap_meta_tree_subtype 0x10.

(** [((ty << 60) | oid).to_le_bytes()]: the [jkey] of the tests, and [snap_jkey]. *)
Definition jkey_bytes (ty oid : Z) : bytes := to_le_bytes 8 (Z.lor (Z.shiftl ty 60) oid).
Definition snap_jkey (ty id : Z) : bytes := jkey_bytes ty id.

Definition decode_snap_name_key_reads_name : bool :=
  let key := jkey_bytes 11 0 in
  let key := key ++ to_le_bytes 2 6 in
  let key := key ++ lit "snap1" ++ [x00] in
  assert_eq (decode_snap_name_key key) (Some (lit "snap1")).

Definition decode_snap_name_key_rejects_zero_and_overlong : bool :=
  let zero := jkey_bytes 11 0 ++ to_le_bytes 2 0 in
  let overlong := jkey_bytes 11 0 ++ to_le_bytes 2 200 ++ lit "z" in
  assert_eq (decode_snap_name_key zero) None && assert_eq (decode_snap_name_key overlong) None.

Definition snapshot_pointing_at (sblock_oid : Z) : Snapshot :=
  {| sn_xid := 0; sn_name := lit "synthetic-pointer"; sn_create_time := 0; sn_change_time := 0; sn_sblock_oid := sblock_oid;
     sn_extentref_tree_oid := 0; sn_inum := 0; sn_flags := 0 |}.

(** ** Mounting, over the committed image *)

Section P4.
Context (P4_CONTENT : bytes).

Definition P4_BLOCK_SIZE : Z := 4096.
Definition P4_APSB_BLOCK : Z := 438.

(** [ApfsVolume::parse(&P4_CONTENT[start..start + P4_BLOCK_SIZE]).expect(..)] *)
Definition p4_volume : result ApfsVolume :=
  let start := P4_APSB_BLOCK * P4_BLOCK_SIZE in
  match get_range P4_CONTENT start (start + P4_BLOCK_SIZE) with Some b => ApfsVolume_parse b | None => Panic end.

Definition mount_snapshot_reads_sblock_as_volume : bool :=
  let_ok live := p4_volume in
  let snap := snapshot_pointing_at P4_APSB_BLOCK in
  let_ok mounted := mount_snapshot (image P4_CONTENT) live snap P4_BLOCK_SIZE in
  assert_eq (vol_oid mounted) (vol_oid live) && assert_eq (vol_xid mounted) (vol_xid live) &&
  assert_eq (vol_omap_oid mounted) (vol_omap_oid live) && assert_eq (vol_root_tree_oid mounted) (vol_root_tree_oid live) &&
  assert_eq (vol_name mounted) (vol_name live) && assert_eq (vol_name mounted) (lit "APFSP4").

Definition mount_snapshot_grafts_live_omap_over_snapshot_zero : bool :=
  let_ok block438 := p4_volume in
  let live := with_omap_oid block438 999111 in
  let snap := snapshot_pointing_at P4_APSB_BLOCK in
  let_ok mounted := mount_snapshot (image P4_CONTENT) live snap P4_BLOCK_SIZE in
  assert_eq (vol_omap_oid mounted) 999111 && assert_eq (vol_xid mounted) (vol_xid block438) &&
  assert_eq (vol_root_tree_oid mounted) (vol_root_tree_oid block438).

Definition mount_snapshot_rejects_non_apsb_block : bool :=
  let_ok live := p4_volume in
  let snap := snapshot_pointing_at 0 in
  match mount_snapshot (image P4_CONTENT) live snap P4_BLOCK_SIZE with Err (UnexpectedObjectType _ _ _) => true | _ => false end.

(** The three pass on every image with a volume of that name at that block and something that is not a volume at block zero. *)
Theorem mount_tests_pass live block0 structure expected found :
  p4_volume = Ok live -> vol_name live = lit "APFSP4" ->
  get_range P4_CONTENT 0 P4_BLOCK_SIZE = Some block0 -> ApfsVolume_parse block0 = Err (UnexpectedObjectType structure expected found) ->
  mount_snapshot_reads_sblock_as_volume = true /\ mount_snapshot_grafts_live_omap_over_snapshot_zero = true /\
  mount_snapshot_rejects_non_apsb_block = true.
Proof.
  intros Hv Hn H0 Hp.
  assert (forall l, mount_snapshot (image P4_CONTENT) l (snapshot_pointing_at P4_APSB_BLOCK) P4_BLOCK_SIZE =
                    Ok (with_omap_oid live (vol_omap_oid l))) as Hm.
  { intros l. unfold mount_snapshot. cbn [sn_sblock_oid snapshot_pointing_at]. rewrite saturating_mul_exact by done.
    rewrite read_at_cursor by done. cbn [cur_buf image]. unfold p4_volume in Hv. cbv zeta in Hv.
    destruct (get_range P4_CONTENT _ _); [|done]. cbn [mbind outcome_bind]. by rewrite Hv. }
  assert (forall l, mount_snapshot (image P4_CONTENT) l (snapshot_pointing_at 0) P4_BLOCK_SIZE =
                    Err (UnexpectedObjectType structure expected found)) as Hz.
  { intros l. unfold mount_snapshot. cbn [sn_sblock_oid snapshot_pointing_at]. change (saturating_mul 0 P4_BLOCK_SIZE) with 0.
    rewrite read_at_cursor by done. cbn [cur_buf image]. rewrite Z.add_0_l, H0. cbn [mbind outcome_bind]. by rewrite Hp. }
  unfold mount_snapshot_reads_sblock_as_volume, mount_snapshot_grafts_live_omap_over_snapshot_zero, mount_snapshot_rejects_non_apsb_block.
  rewrite Hv. cbn [expecting]. rewrite !Hm, Hz. cbn [expecting with_omap_oid vol_oid vol_xid vol_omap_oid vol_root_tree_oid vol_name].
  unfold assert_eq. rewrite !andb_true_iff, !bool_decide_eq_true. by split_and!.
Qed.
End P4.

(** ** Builders *)

Definition BS : Z := 4096.

(** [seal] stamps the checksum as [Object.stamp] does. *)
Definition seal (block : bytes) : bytes :=
  let c := fletcher64_checksum block in
  put block 0 (to_le_bytes 8 c).

Definition obj_hdr (block : bytes) (oid xid o_type o_subtype : Z) : bytes :=
  let block := put block 8 (to_le_bytes 8 oid) in
  let block := put block 16 (to_le_bytes 8 xid) in
  let block := put block 24 (to_le_bytes 4 o_type) in
  put block 28 (to_le_bytes 4 o_subtype).

(** The loop of [btree_node] over the records; the writes stay inside the block for records that fit ([fits] below). *)
Fixpoint put_records (toc_start key_area val_base i key_off val_off : Z) (records : list (bytes * bytes)) (b : bytes) : bytes :=
  match records with
  | [] => b
  | (k, v) :: records =>
      let e := toc_start + i * 8 in
      let b := put b e (to_le_bytes 2 key_off) in
      let b := put b (e + 2) (to_le_bytes 2 (blen k)) in
      let this_val := blen v in
      let v_reversed := val_off + this_val in
      let b := put b (e + 4) (to_le_bytes 2 v_reversed) in
      let b := put b (e + 6) (to_le_bytes 2 this_val) in
      let ks := key_area + key_off in
      let b := put b ks k in
      let vs := val_base - v_reversed in
      let b := put b vs v in
      put_records toc_start key_area val_base (i + 1) (key_off + blen k) (val_off + this_val) records b
  end.

Definition FOOTER : Z := 40.

Definition btree_node (oid xid : Z) (is_leaf : bool) (records : list (bytes * bytes)) : bytes :=
  let b := zeroed BS in
  let flags := Z.lor 0x1 (if is_leaf then 0x2 else 0) in
  let b := put b 32 (to_le_bytes 2 flags) in
  let level := if negb is_leaf then 1 else 0 in
  let b := put b 34 (to_le_bytes 2 level) in
  let b := put b 36 (to_le_bytes 4 (blen records)) in
  let toc_len := blen records * 8 in
  let b := put b 40 (to_le_bytes 2 0) in
  let b := put b 42 (to_le_bytes 2 toc_len) in
  let toc_start := 56 in
  let key_area := toc_start + toc_len in
  let val_base := BS - FOOTER in
  let b := put_records toc_start key_area val_base 0 0 0 records b in
  let b := obj_hdr b oid xid 0x40000002 0x10 in
  seal b.

Definition snap_meta_val (sblock create : Z) (name : bytes) : bytes :=
  let v := zeroed OFF_SNAP_NAME in
  let v := put v OFF_SNAP_SBLOCK_OID (to_le_bytes 8 sblock) in
  let v := put v OFF_SNAP_CREATE_TIME (to_le_bytes 8 create) in
  let name_b := name ++ [x00] in
  let v := put v OFF_SNAP_NAME_LEN (to_le_bytes 2 (blen name_b)) in
  v ++ name_b.

Definition snap_name_key (name : bytes) : bytes :=
  let k := snap_jkey 11 0 in
  let name_b := name ++ [x00] in
  let k := k ++ to_le_bytes 2 (blen name_b) in
  k ++ name_b.

Definition apsb (oid xid omap_oid snap_meta_oid : Z) : bytes :=
  let b := zeroed BS in
  let b := put b 32 (to_le_bytes 4 0x42535041) in
  let b := put b 128 (to_le_bytes 8 omap_oid) in
  let b := put b 152 (to_le_bytes 8 snap_meta_oid) in
  let b := obj_hdr b oid xid 0x0d 0 in
  seal b.

Definition omap_block (oid tree_block : Z) : bytes :=
  let b := zeroed BS in
  let b := put b 40 (to_le_bytes 4 0x40000002) in
  let b := put b 48 (to_le_bytes 8 tree_block) in
  let b := obj_hdr b oid 0 0x0b 0 in
  seal b.

(** The loop of [omap_leaf]. *)
Fixpoint put_mappings (toc_start key_area val_base i key_off val_off : Z) (entries : list (Z * Z * Z)) (b : bytes) : bytes :=
  match entries with
  | [] => b
  | (virt, xid, phys) :: entries =>
      let e := toc_start + i * 4 in
      let b := put b e (to_le_bytes 2 key_off) in
      let k := zeroed 16 in
      let k := put k 0 (to_le_bytes 8 virt) in
      let k := put k 8 (to_le_bytes 8 xid) in
      let ks := key_area + key_off in
      let b := put b ks k in
      let v := zeroed 16 in
      let v := put v 8 (to_le_bytes 8 phys) in
      let v_reversed := val_off + 16 in
      let b := put b (e + 2) (to_le_bytes 2 v_reversed) in
      let vs := val_base - v_reversed in
      let b := put b vs v in
      put_mappings toc_start key_area val_base (i + 1) (key_off + 16) (val_off + 16) entries b
  end.

Definition omap_leaf (oid : Z) (entries : list (Z * Z * Z)) : bytes :=
  let b := zeroed BS in
  let flags := Z.lor (Z.lor 0x1 0x2) 0x4 in
  let b := put b 32 (to_le_bytes 2 flags) in
  let b := put b 36 (to_le_bytes 4 (blen entries)) in
  let toc_len := blen entries * 4 in
  let b := put b 40 (to_le_bytes 2 0) in
  let b := put b 42 (to_le_bytes 2 toc_len) in
  let toc_start := 56 in
  let key_area := toc_start + toc_len in
  let val_base := BS - FOOTER in
  let b := put_mappings toc_start key_area val_base 0 0 0 entries b in
  let b := obj_hdr b oid 0 0x40000002 0x0b in
  seal b.

(** [image(&blocks)]: the blocks in one buffer, zeros elsewhere. *)
Definition image_of (blocks : list (Z * bytes)) : bytes :=
  let max := foldr Z.max 0 (map fst blocks) in
  let buf := zeroed ((max + 1) * BS) in
  foldl (fun buf '(i, b) => let off := i * BS in put buf off b) buf blocks.

(** [ApfsVolume::parse(&buf[1026 * BS..1027 * BS])] *)
Definition parse_volume_at (buf : bytes) (i : Z) : result ApfsVolume :=
  match get_range buf (i * BS) ((i + 1) * BS) with Some b => ApfsVolume_parse b | None => Panic end.

(** The blocks of a volume whose snapshot tree is the node [root] at block 50, with the object-map leaf [maps]. *)
Definition volume_blocks (maps : list (Z * Z * Z)) (root : bytes) (more : list (Z * bytes)) : list (Z * bytes) :=
  [(40, omap_block 40 41); (41, omap_leaf 41 maps); (50, root)] ++ more ++ [(1026, apsb 1026 7 40 50)].

Definition single_leaf_volume (snap_records : list (bytes * bytes)) : bytes * result ApfsVolume :=
  let snap_leaf := btree_node 50 7 true snap_records in
  let buf := image_of (volume_blocks [] snap_leaf []) in
  (buf, parse_volume_at buf 1026).

(** ** The tests over synthetic images *)

Definition lists_snapshots_from_populated_leaf : bool :=
  let records := [ (snap_jkey 1 5, snap_meta_val 0x200 1000 (lit "snapA")); (snap_jkey 1 9, snap_meta_val 0x300 2000 (lit "snapB"));
                   (snap_name_key (lit "snapA"), to_le_bytes 8 5) ] in
  let '(buf, vol) := single_leaf_volume records in
  let_ok vol := vol in
  let_ok snaps := list_snapshots (image buf) vol BS in
  match snaps with
  | [s0; s1] =>
      assert_eq (sn_xid s0) 5 && assert_eq (sn_name s0) (lit "snapA") && assert_eq (sn_sblock_oid s0) 0x200 &&
      assert_eq (sn_create_time s0) 1000 && assert_eq (sn_xid s1) 9 && assert_eq (sn_name s1) (lit "snapB")
  | _ => false
  end.

Definition resolves_snap_name_from_populated_leaf : bool :=
  let records := [ (snap_jkey 1 5, snap_meta_val 0x200 1000 (lit "snapA")); (snap_name_key (lit "snapA"), to_le_bytes 8 5);
                   (snap_name_key (lit "snapB"), to_le_bytes 8 9) ] in
  let '(buf, vol) := single_leaf_volume records in
  let_ok vol := vol in
  let_ok b := resolve_snapshot_xid (image buf) vol (lit "snapB") BS in
  let_ok a := resolve_snapshot_xid (image buf) vol (lit "snapA") BS in
  let_ok n := resolve_snapshot_xid (image buf) vol (lit "absent") BS in
  assert_eq b (Some 9) && assert_eq a (Some 5) && assert_eq n None.

Definition index_root : bytes := btree_node 50 7 false [(snap_jkey 1 3, to_le_bytes 8 1500)].

Definition walks_index_node_resolving_child_virtually : bool :=
  let leaf := btree_node 60 7 true [(snap_jkey 1 3, snap_meta_val 0x99 500 (lit "s"))] in
  let buf := image_of (volume_blocks [(1500, 7, 60)] index_root [(60, leaf)]) in
  let_ok vol := parse_volume_at buf 1026 in
  let_ok snaps := list_snapshots (image buf) vol BS in
  match snaps with
  | [s] => assert_eq (sn_xid s) 3 && assert_eq (sn_sblock_oid s) 0x99
  | _ => false
  end.

Definition snap_tree_checksum_mismatch_is_loud : bool :=
  let records := [(snap_jkey 1 5, snap_meta_val 0x200 1000 (lit "snapA"))] in
  let '(buf, vol) := single_leaf_volume records in
  let_ok vol := vol in
  let buf := flip_byte buf (50 * BS + 100) in
  match list_snapshots (image buf) vol BS with Err (ChecksumMismatch _ _ _) => true | _ => false end.

Definition snap_tree_cycle_is_rejected : bool :=
  let buf := image_of (volume_blocks [(1500, 7, 50)] index_root []) in
  let_ok vol := parse_volume_at buf 1026 in
  match list_snapshots (image buf) vol BS with Err (CycleGuard _) => true | _ => false end.

(** ** The node builder *)

Definition entry_of (kv : bytes * bytes) : Entry := {| key := kv.1; value := kv.2 |}.
Definition entries_of (records : list (bytes * bytes)) : list Entry := map entry_of records.

(** The room the records leave in a root node. *)
Definition free_room (records : list (bytes * bytes)) : Z :=
  BS - FOOTER - 56 - 8 * blen records - blen (keys_area (entries_of records)) - blen (vals_area (entries_of records)).
Definition fits (records : list (bytes * bytes)) : Prop := 0 <= free_room records.

(** The four fields of one table entry, written over zeros. *)
Lemma put_toc_entry (p q f1 f2 f3 f4 : bytes) e :
  e = blen p -> blen f1 = 2 -> blen f2 = 2 -> blen f3 = 2 -> blen f4 = 2 ->
  put (put (put (put (p ++ zeroed 8 ++ q) e f1) (e + 2) f2) (e + 4) f3) (e + 6) f4 = (p ++ f1 ++ f2 ++ f3 ++ f4) ++ q.
Proof.
  intros He H1 H2 H3 H4. change (zeroed 8) with (zeroed 2 ++ zeroed 2 ++ zeroed 2 ++ zeroed 2). rewrite <-!app_assoc.
  assert (blen (zeroed 2) = 2) as Hz by done.
  rewrite (put_app p (zeroed 2)) by (rewrite ?Hz; lia).
  rewrite (app_assoc p f1), (put_app (p ++ f1) (zeroed 2)) by (rewrite ?blen_app, ?Hz; lia).
  rewrite (app_assoc (p ++ f1) f2), (put_app _ (zeroed 2)) by (rewrite ?blen_app, ?Hz; lia).
  rewrite (app_assoc (_ ++ f2) f3), (put_app _ (zeroed 2)) by (rewrite ?blen_app, ?Hz; lia).
  by rewrite <-!app_assoc.
Qed.

(** The loop: the table, the keys and the values written so far, zeros where the rest goes. *)
Lemma put_records_layout records : forall h T K V F m i ts ka vb ko vo,
  let es := entries_of records in
  ts = blen h -> blen T = 8 * i -> ka = ts + 8 * i + 8 * blen records -> ko = blen K -> vo = blen V -> vb = ka + ko + m + vo ->
  0 <= m - blen (keys_area es) - blen (vals_area es) ->
  put_records ts ka vb i ko vo records (h ++ T ++ zeroed (8 * blen records) ++ K ++ zeroed m ++ V ++ F) =
  h ++ (T ++ toc false ko vo es) ++ (K ++ keys_area es) ++ zeroed (m - blen (keys_area es) - blen (vals_area es)) ++ (vals_area es ++ V) ++ F.
Proof.
  induction records as [|[k v] records IH]; intros h T K V F m i ts ka vb ko vo es Hts HT Hka Hko Hvo Hvb Hm.
  { cbn [put_records]. unfold es, entries_of, keys_area. cbn [map toc concat vals_area]. rewrite !app_nil_r.
    change (blen (@nil byte)) with 0. by rewrite !Z.sub_0_r. }
  pose proof (blen_nonneg records). pose proof (blen_nonneg k). pose proof (blen_nonneg v).
  pose proof (blen_nonneg (keys_area (entries_of records))). pose proof (blen_nonneg (vals_area (entries_of records))).
  assert (keys_area es = k ++ keys_area (entries_of records)) as Hk by done.
  assert (vals_area es = vals_area (entries_of records) ++ v) as Hv by done.
  rewrite Hk, Hv, !blen_app in Hm |- *. rewrite blen_cons in *. cbn [put_records].
  replace (8 * (1 + blen records)) with (8 + 8 * blen records) by lia. rewrite zeroed_add, <-app_assoc by lia.
  rewrite (app_assoc h T). rewrite put_toc_entry by (rewrite ?blen_to_le_bytes, ?blen_app; lia).
  set (ent := _ ++ _ ++ _ ++ to_le_bytes 2 (blen v)).
  assert (blen ent = 8) as Hent by (unfold ent; by rewrite !blen_app, !blen_to_le_bytes).
  replace m with (blen k + (m - blen k - blen v) + blen v) by lia. rewrite !zeroed_add, <-!app_assoc by lia.
  rewrite (app_assoc h), (app_assoc (h ++ T)), (app_assoc _ (zeroed (8 * _))), (app_assoc _ K).
  rewrite (put_app _ (zeroed (blen k))) by (rewrite ?blen_app, ?blen_zeroed; lia).
  rewrite (app_assoc _ k), (app_assoc _ (zeroed (m - _ - _))).
  rewrite (put_app _ (zeroed (blen v))) by (rewrite ?blen_app, ?blen_zeroed; lia). rewrite <-!app_assoc.
  rewrite (app_assoc T ent), (app_assoc K k), (app_assoc v V).
  rewrite (IH h (T ++ ent) (K ++ k) (v ++ V) F (m - blen k - blen v)); rewrite ?blen_app; try lia.
  unfold es, entries_of. cbn [map toc]. fold (entries_of records). cbn [entry_of key value fst snd].
  unfold ent, toc_fields. cbn [entry_of key value fst snd]. rewrite <-!app_assoc. do 12 f_equal. lia.
Qed.

Definition node_flags (is_leaf : bool) : Z := if is_leaf then 3 else 1.
Definition node_level (is_leaf : bool) : Z := if is_leaf then 0 else 1.

(** The object header the builder writes, its checksum still zero. *)
Definition node_obj (oid xid : Z) : bytes :=
  zeroed 8 ++ to_le_bytes 8 oid ++ to_le_bytes 8 xid ++ to_le_bytes 4 0x40000002 ++ to_le_bytes 4 0x10.

Lemma obj_hdr_layout oid xid ty sub rest :
  obj_hdr (zeroed 32 ++ rest) oid xid ty sub =
  (zeroed 8 ++ to_le_bytes 8 oid ++ to_le_bytes 8 xid ++ to_le_bytes 4 ty ++ to_le_bytes 4 sub) ++ rest.
Proof.
  unfold obj_hdr. change (zeroed 32) with (zeroed 8 ++ zeroed 8 ++ zeroed 8 ++ zeroed 4 ++ zeroed 4). rewrite <-!app_assoc.
  rewrite (put_app (zeroed 8) (zeroed 8)) by done.
  rewrite (app_assoc (zeroed 8)), (put_app _ (zeroed 8)) by done.
  rewrite (app_assoc (zeroed 8 ++ _)), (put_app _ (zeroed 4)) by done.
  rewrite (app_assoc ((zeroed 8 ++ _) ++ _)), (put_app _ (zeroed 4)) by done. by rewrite <-!app_assoc.
Qed.

(** The header fields of the node, written over zeros. *)
Lemma node_header_layout f1 f2 f3 f4 f5 rest :
  blen f1 = 2 -> blen f2 = 2 -> blen f3 = 4 -> blen f4 = 2 -> blen f5 = 2 ->
  put (put (put (put (put (zeroed 56 ++ rest) 32 f1) 34 f2) 36 f3) 40 f4) 42 f5 =
  (zeroed 32 ++ f1 ++ f2 ++ f3 ++ f4 ++ f5 ++ zeroed 12) ++ rest.
Proof.
  intros H1 H2 H3 H4 H5.
  change (zeroed 56) with (zeroed 32 ++ zeroed 2 ++ zeroed 2 ++ zeroed 4 ++ zeroed 2 ++ zeroed 2 ++ zeroed 12).
  assert (blen (zeroed 32) = 32) as Hz by done. assert (blen (zeroed 2) = 2) as Hz2 by done. assert (blen (zeroed 4) = 4) as Hz4 by done.
  rewrite <-!app_assoc. rewrite (put_app (zeroed 32) (zeroed 2)) by lia.
  rewrite (app_assoc (zeroed 32)), (put_app _ (zeroed 2)) by (rewrite ?blen_app; lia).
  rewrite (app_assoc (_ ++ f1)), (put_app _ (zeroed 4)) by (rewrite ?blen_app; lia).
  rewrite (app_assoc (_ ++ f2)), (put_app _ (zeroed 2)) by (rewrite ?blen_app; lia).
  rewrite (app_assoc (_ ++ f3)), (put_app _ (zeroed 2)) by (rewrite ?blen_app; lia).
  by rewrite <-!app_assoc.
Qed.

(** The builder writes the documented layout. *)
Lemma btree_node_layout oid xid is_leaf records :
  fits records ->
  btree_node oid xid is_leaf records =
  stamp (encode_node (node_obj oid xid) (node_flags is_leaf) (node_level is_leaf) (entries_of records)
           (Z.to_nat (free_room records)) (zeroed FOOTER)).
Proof.
  unfold fits. set (es := entries_of records). set (n := blen records). intros Hfit.
  assert (blen es = n) as Hn by (unfold es, entries_of, blen; by rewrite length_map).
  assert (0 <= n) as Hn0 by apply blen_nonneg. pose proof (blen_nonneg (keys_area es)). pose proof (blen_nonneg (vals_area es)).
  set (m := BS - FOOTER - 56 - 8 * n). assert (free_room records = m - blen (keys_area es) - blen (vals_area es)) as Hroom by done.
  assert (0 <= m) as Hm by lia. unfold btree_node, encode_node, encode_header. fold n. rewrite Hn.
  assert (zeroed BS = zeroed 56 ++ [] ++ zeroed (8 * n) ++ [] ++ zeroed m ++ [] ++ zeroed FOOTER) as ->.
  { cbn [app]. rewrite <-!zeroed_add by (unfold FOOTER; lia). f_equal. unfold m. lia. }
  rewrite node_header_layout by apply blen_to_le_bytes. set (h := zeroed 32 ++ _ ++ _ ++ _ ++ _ ++ _ ++ zeroed 12).
  assert (blen h = 56) as Hh by (unfold h; by rewrite !blen_app, !blen_to_le_bytes).
  rewrite (put_records_layout records h [] [] [] (zeroed FOOTER) m 0); try done; try lia;
    try (change (blen (@nil byte)) with 0; fold n; unfold m; lia).
  cbn [app]. fold es. rewrite app_nil_r, <-Hroom. unfold h. rewrite <-app_assoc, obj_hdr_layout.
  change (seal ?b) with (stamp b). f_equal. unfold node_obj. rewrite <-!app_assoc. unfold node_flags, node_level.
  replace (n * 8) with (8 * n) by lia. by destruct is_leaf.
Qed.

(** A checksum over a node changes its object header only. *)
Lemma stamp_encode_node obj flags level es free footer :
  8 <= blen obj ->
  stamp (encode_node obj flags level es free footer) =
  encode_node (to_le_bytes 8 (fletcher64_checksum (encode_node obj flags level es free footer)) ++ drop 8 obj) flags level es free footer.
Proof.
  intros Ho. rewrite stamp_split by (unfold encode_node, encode_header; rewrite !blen_app; pose proof (blen_nonneg (toc (fixed_kv flags) 0 0 es));
    pose proof (blen_nonneg (keys_area es)); pose proof (blen_nonneg (vals_area es)); pose proof (blen_nonneg footer);
    rewrite !blen_to_le_bytes; unfold blen; lia).
  generalize (to_le_bytes 8 (fletcher64_checksum (encode_node obj flags level es free footer))) as c. intros c.
  unfold encode_node, encode_header. rewrite <-!app_assoc, drop_app_le; [done|]. unfold blen in Ho. lia.
Qed.

Section Node.
Context (oid xid : Z) (leaf : bool) (records : list (bytes * bytes)) (Hfits : fits records).

Lemma blen_entries_of : blen (entries_of records) = blen records.
Proof. unfold entries_of, blen. by rewrite length_map. Qed.

Lemma fits_encodable subtype obj : blen obj = 32 -> encodable subtype obj (node_flags leaf) (node_level leaf) (entries_of records) (zeroed FOOTER).
Proof.
  intros Ho. pose proof blen_entries_of as Hn. pose proof (blen_nonneg records).
  pose proof (blen_nonneg (keys_area (entries_of records))). pose proof (blen_nonneg (vals_area (entries_of records))).
  unfold fits, free_room, BS, FOOTER in Hfits. assert (fixed_kv (node_flags leaf) = false) as Hv by (by destruct leaf).
  split; rewrite ?Hv; [done|by destruct leaf|by destruct leaf|done|by destruct leaf|unfold toc_size, TOC_VAR_LEN; lia|lia|lia].
Qed.

(** A stamped node with these records, whatever its object header. *)
Definition stamped_node (obj : bytes) : bytes :=
  stamp (encode_node obj (node_flags leaf) (node_level leaf) (entries_of records) (Z.to_nat (free_room records)) (zeroed FOOTER)).

Section Stamped.
Context (obj : bytes) (Hobj : blen obj = 32).

Lemma blen_unstamped :
  blen (encode_node obj (node_flags leaf) (node_level leaf) (entries_of records) (Z.to_nat (free_room records)) (zeroed FOOTER)) = BS.
Proof.
  rewrite (blen_block _ _ _ _ _ (Z.to_nat (free_room records)) _ (fits_encodable SubtypeFsTree obj Hobj)), blen_entries_of, Z2Nat.id by done.
  change (blen (zeroed FOOTER)) with FOOTER. assert (toc_size (fixed_kv (node_flags leaf)) = 8) as -> by (by destruct leaf). unfold free_room. lia.
Qed.

Lemma blen_stamped_node : blen (stamped_node obj) = BS.
Proof. unfold stamped_node, stamp. rewrite blen_put; [apply blen_unstamped|done|]. rewrite blen_to_le_bytes, blen_unstamped. unfold BS. lia. Qed.

Lemma cksum_stamped_node : cksum_ok (stamped_node obj) = true.
Proof. unfold stamped_node. apply cksum_ok_stamp. rewrite blen_unstamped. unfold BS. lia. Qed.

Lemma classify_stamped_node subtype :
  classify subtype (stamped_node obj) = Some (if leaf then NLeaf (entries_of records) else NIndex (entries_of records)).
Proof.
  unfold stamped_node. rewrite stamp_encode_node by lia.
  rewrite classify_encoded by (apply fits_encodable; rewrite blen_app, blen_to_le_bytes; unfold blen in *; rewrite length_drop; lia).
  unfold is_leaf, enc_hdr. cbn [btn_flags btn_level]. by destruct leaf.
Qed.
End Stamped.

Lemma btree_node_stamped : btree_node oid xid leaf records = stamped_node (node_obj oid xid).
Proof. by apply btree_node_layout. Qed.
Lemma blen_btree_node : blen (btree_node oid xid leaf records) = BS.
Proof. rewrite btree_node_stamped. by apply blen_stamped_node. Qed.
Lemma cksum_btree_node : cksum_ok (btree_node oid xid leaf records) = true.
Proof. rewrite btree_node_stamped. by apply cksum_stamped_node. Qed.
Lemma classify_btree_node :
  classify SubtypeFsTree (btree_node oid xid leaf records) =
  Some (if leaf then NLeaf (entries_of records) else NIndex (entries_of records)).
Proof. rewrite btree_node_stamped. by apply classify_stamped_node. Qed.
End Node.

(** ** The image builder *)

(** What one block read finds in the image. *)
Definition block_at (buf : bytes) (i : Z) : option bytes := get_range buf (i * BS) (i * BS + BS).

Lemma block_at_put buf i j b :
  0 <= i -> 0 <= j -> blen b = BS -> (i + 1) * BS <= blen buf ->
  block_at (put buf (i * BS) b) j = if decide (i = j) then Some b else block_at buf j.
Proof.
  intros Hi Hj Hb Hlen. unfold block_at, BS in *. destruct (decide (i = j)) as [<-|Hne].
  - rewrite <-Hb. apply get_range_put; lia.
  - apply get_range_put_other; lia.
Qed.

(** A block of the image: inside the buffer of [n] blocks, and whole. *)
Definition block_of (n : Z) (ib : Z * bytes) : Prop := 0 <= ib.1 < n /\ blen ib.2 = BS.

Lemma image_fold n blocks : forall buf,
  Forall (block_of n) blocks -> NoDup (map fst blocks) -> blen buf = n * BS ->
  let buf' := foldl (fun buf '(i, b) => put buf (i * BS) b) buf blocks in
  blen buf' = n * BS /\
  (forall i b, (i, b) ∈ blocks -> block_at buf' i = Some b) /\
  (forall i, 0 <= i -> i ∉ map fst blocks -> block_at buf' i = block_at buf i).
Proof.
  induction blocks as [|[i0 b0] blocks IH]; intros buf Hbl Hnd Hlen; cbn [foldl].
  { split_and!; [done| |done]. intros i b Hin. by apply not_elem_of_nil in Hin. }
  apply Forall_cons in Hbl as [[Hi0 Hb0] Hbl]. cbn [fst snd] in *. cbn [map fst] in Hnd. apply NoDup_cons in Hnd as [Hni Hnd].
  assert (blen (put buf (i0 * BS) b0) = n * BS) as Hput by (rewrite blen_put; unfold BS in *; lia).
  destruct (IH _ Hbl Hnd Hput) as (I1 & I2 & I3). split_and!; [done| |].
  - intros i b [[= -> ->]|Hin]%elem_of_cons; [|by apply I2]. rewrite I3 by (done || lia).
    rewrite block_at_put by (unfold BS in *; lia). by rewrite decide_True.
  - intros i Hi [Hne Hni']%not_elem_of_cons. rewrite I3 by done. rewrite block_at_put by (unfold BS in *; lia). by rewrite decide_False.
Qed.

Lemma foldr_max_le l x : x ∈ l -> x <= foldr Z.max 0 l.
Proof. induction l as [|y l IH]; [by intros ?%not_elem_of_nil|]. intros [->|Hx]%elem_of_cons; cbn [foldr]; [lia|]. specialize (IH Hx). lia. Qed.

(** The image holds each block at its index. *)
Lemma image_block blocks i b :
  Forall (fun ib => 0 <= ib.1 /\ blen ib.2 = BS) blocks -> NoDup (map fst blocks) -> (i, b) ∈ blocks ->
  block_at (image_of blocks) i = Some b.
Proof.
  intros Hbl Hnd Hin. unfold image_of. cbn zeta. set (mx := foldr Z.max 0 _). assert (0 <= mx) as Hmx.
  { unfold mx. clear. induction (map fst blocks); cbn [foldr]; lia. }
  destruct (image_fold (mx + 1) blocks (zeroed ((mx + 1) * BS))) as (_ & H & _); [|done|apply blen_zeroed; unfold BS; lia|by apply H].
  rewrite Forall_forall in Hbl |- *. intros [j c] Hj. destruct (Hbl _ Hj) as [Hj0 Hc]. split; [|done]. cbn [fst] in *.
  assert (j <= mx); [|lia]. apply foldr_max_le, list_elem_of_fmap. by exists (j, c).
Qed.

Lemma read_block buf i b : block_at buf i = Some b -> i * BS < u64_limit -> read_at (image buf) (saturating_mul i BS) BS = Ok b.
Proof. intros Hb Hi. rewrite saturating_mul_exact by done. rewrite read_at_cursor by done. cbn [cur_buf image]. unfold block_at in Hb. by rewrite Hb. Qed.

(** ** The tests' volume *)

Lemma apsb_parsed : exists v,
  ApfsVolume_parse (apsb 1026 7 40 50) = Ok v /\ vol_xid v = 7 /\ vol_omap_oid v = 40 /\ vol_snap_meta_tree_oid v = 50.
Proof. eexists. split; [vm_compute; reflexivity|done]. Qed.

Lemma omap_block_parsed : exists om, ObjectMap_parse (omap_block 40 41) = Ok om /\ om_tree_oid om = 41.
Proof. eexists. split; [vm_compute; reflexivity|done]. Qed.

Lemma blen_fixed_blocks : blen (apsb 1026 7 40 50) = BS /\ blen (omap_block 40 41) = BS.
Proof. split; vm_compute; reflexivity. Qed.

Section Volume.
Context (maps : list (Z * Z * Z)) (root : bytes) (more : list (Z * bytes)).
Context (Hmaps : blen (omap_leaf 41 maps) = BS) (Hroot : blen root = BS).
Context (Hmore : Forall (fun ib => 0 <= ib.1 /\ blen ib.2 = BS) more).
Context (Hnd : NoDup (map fst (volume_blocks maps root more))).

Local Abbreviation buf := (image_of (volume_blocks maps root more)).

Lemma volume_block i b : (i, b) ∈ volume_blocks maps root more -> block_at buf i = Some b.
Proof.
  apply image_block; [|done]. destruct blen_fixed_blocks as [H1 H2]. unfold volume_blocks.
  rewrite !Forall_app, !Forall_cons. cbn [fst snd]. split_and!; try done; apply Forall_nil_2.
Qed.

Lemma volume_parsed : exists v om,
  parse_volume_at buf 1026 = Ok v /\ vol_xid v = 7 /\ vol_snap_meta_tree_oid v = 50 /\
  read_volume_omap (image buf) v BS = Ok om /\ om_tree_oid om = 41 /\
  vol_omap_oid v = 40 /\ ObjectMap_parse (omap_block 40 41) = Ok om.
Proof.
  destruct apsb_parsed as (v & Hv & Hx & Ho & Hs), omap_block_parsed as (om & Hom & Ht). exists v, om.
  assert (block_at buf 1026 = Some (apsb 1026 7 40 50)) as Hb.
  { apply volume_block. unfold volume_blocks. rewrite !elem_of_app. right; right. by left. }
  split_and!; [|exact Hx|exact Hs| |exact Ht|exact Ho|exact Hom].
  - unfold parse_volume_at. unfold block_at in Hb. change ((1026 + 1) * BS) with (1026 * BS + BS). by rewrite Hb.
  - unfold read_volume_omap. rewrite Ho, (read_block _ 40 (omap_block 40 41)); [done| |done].
    apply volume_block. by left.
Qed.

(** The root of the snapshot tree, whatever the object map says. *)
Lemma volume_root om : cksum_ok root = true -> read_snap_node (image buf) om 50 true 7 BS = Ok root.
Proof.
  intros Hc. unfold read_snap_node. cbn [mbind outcome_bind].
  rewrite (read_block _ 50 root); [|apply volume_block; by right; right; left|done]. cbn [mbind outcome_bind].
  unfold cksum_ok in Hc. by rewrite Hc.
Qed.
End Volume.

Lemma nodup_fixed : NoDup [40; 41; 50; 1026].
Proof. apply (bool_decide_unpack _). vm_compute. exact I. Qed.

(** The listing and the name lookup over a leaf with any records. *)
Lemma single_leaf_listing records :
  fits records ->
  let '(buf, vol) := single_leaf_volume records in
  exists v, vol = Ok v /\
    list_snapshots (image buf) v BS = Ok (sort_by_key sn_xid (omap snap_record (entries_of records))) /\
    forall name, resolve_snapshot_xid (image buf) v name BS = Ok (head (omap (snap_name_record name) (entries_of records))).
Proof.
  intros Hf. unfold single_leaf_volume. cbn zeta.
  assert (blen (omap_leaf 41 []) = BS) as Hm by (vm_compute; reflexivity). pose proof (blen_btree_node 50 7 true records Hf) as Hr.
  assert (NoDup (map fst (volume_blocks [] (btree_node 50 7 true records) []))) as Hnd by exact nodup_fixed.
  destruct (volume_parsed [] (btree_node 50 7 true records) [] Hm Hr (Forall_nil_2 _) Hnd) as (v & om & Hv & Hx & Hs & Ho & _).
  exists v. split; [exact Hv|]. clear Hv. set (buf := image_of _) in *.
  assert (snap_tree (image buf) v BS (TLeaf 50 (entries_of records))) as Ht.
  { exists om. rewrite Hs. split; [exact Ho|]. split; [|reflexivity]. clear Ho. split.
    - constructor. unfold snap_node. rewrite Z.eqb_refl, Hx. unfold buf.
      rewrite (volume_root [] (btree_node 50 7 true records) [] Hm Hr (Forall_nil_2 _) Hnd om) by exact (cksum_btree_node 50 7 true records Hf).
      cbn [mbind outcome_bind]. rewrite classify_btree_node by exact Hf. reflexivity.
    - cbn. unfold MAX_SNAP_TREE_DEPTH. lia.
    - cbn. apply NoDup_singleton.
    - cbn. set_solver. }
  split; [exact (list_snapshots_tree (image buf) v BS _ Ht)|].
  intros name. exact (resolve_snapshot_xid_spec (image buf) v BS name _ Ht).
Qed.

(** ** Records of the tests, in general *)

(** A snapshot as the builders describe it: transaction, superblock, creation time, name. *)
Record snap_spec := { ss_xid : Z; ss_sblock : Z; ss_create : Z; ss_name : bytes }.

Definition meta_record (s : snap_spec) : bytes * bytes := (snap_jkey 1 (ss_xid s), snap_meta_val (ss_sblock s) (ss_create s) (ss_name s)).
Definition name_record (s : snap_spec) : bytes * bytes := (snap_name_key (ss_name s), to_le_bytes 8 (ss_xid s)).

(** The fields fit their widths, and the name is printable text that the reader does not cut. *)
Record spec_wf (s : snap_spec) : Prop := {
  sw_xid : 0 <= ss_xid s < 2 ^ 60;
  sw_sblock : 0 <= ss_sblock s < 2 ^ 64;
  sw_create : 0 <= ss_create s < 2 ^ 64;
  sw_name : Forall ascii_byte (ss_name s);
  sw_len : blen (ss_name s) < MAX_SNAP_NAME_LEN;
}.

Definition snapshot_of (s : snap_spec) : Snapshot :=
  {| sn_xid := ss_xid s; sn_name := ss_name s; sn_create_time := ss_create s; sn_change_time := 0; sn_sblock_oid := ss_sblock s;
     sn_extentref_tree_oid := 0; sn_inum := 0; sn_flags := 0 |}.

Lemma le_u64_jkey_bytes ty oid rest : 0 <= ty < 16 -> 0 <= oid < 2 ^ 60 -> le_u64 (jkey_bytes ty oid ++ rest) 0 = encode_jkey ty oid.
Proof.
  intros Ht Ho. change (jkey_bytes ty oid ++ rest) with ([] ++ to_le_bytes 8 (encode_jkey ty oid) ++ rest). apply le_u64_app; [done|].
  rewrite encode_jkey_sum by done. lia.
Qed.

Lemma jkey_jkey_bytes ty oid rest : 0 <= ty < 16 -> 0 <= oid < 2 ^ 60 -> jkey (jkey_bytes ty oid ++ rest) = (oid, from_u4 ty).
Proof. intros Ht Ho. unfold jkey. rewrite le_u64_jkey_bytes by done. by apply decode_encode_jkey. Qed.

(** The fixed part of a metadata value. *)
Definition meta_fields (sblock create len : Z) : bytes :=
  put (put (put (zeroed 50) 8 (to_le_bytes 8 sblock)) 16 (to_le_bytes 8 create)) 48 (to_le_bytes 2 len).

Lemma meta_fields_read sblock create len :
  0 <= sblock < 2 ^ 64 -> 0 <= create < 2 ^ 64 -> 0 <= len < 2 ^ 16 ->
  let v := meta_fields sblock create len in
  blen v = 50 /\ from_le_bytes (arr 8 v 8) = sblock /\ from_le_bytes (arr 8 v 16) = create /\ from_le_bytes (arr 2 v 48) = len /\
  from_le_bytes (arr 8 v 0) = 0 /\ from_le_bytes (arr 8 v 24) = 0 /\ from_le_bytes (arr 8 v 32) = 0 /\ from_le_bytes (arr 4 v 44) = 0.
Proof.
  intros Hs Hc Hl v. unfold v, meta_fields. split; [fields_fit|]. do 3 (split; [field_read 50|]).
  split_and!; rewrite !(arr_put_field_other _ _ _ _ 50) by (lia || fields_fit); reflexivity.
Qed.

Lemma parse_snap_meta_val s : spec_wf s -> parse_snap_metadata (ss_xid s) (snap_meta_val (ss_sblock s) (ss_create s) (ss_name s)) = snapshot_of s.
Proof.
  intros [Hx Hb Hc Hn Hl]. pose proof (blen_nonneg (ss_name s)) as H0. set (nb := ss_name s ++ [x00]).
  change (snap_meta_val _ _ _) with (meta_fields (ss_sblock s) (ss_create s) (blen nb) ++ nb).
  assert (blen nb = blen (ss_name s) + 1) as Hnb by (unfold nb; by rewrite blen_app). unfold MAX_SNAP_NAME_LEN in Hl.
  destruct (meta_fields_read (ss_sblock s) (ss_create s) (blen nb)) as (Hv & R1 & R2 & R3 & R4 & R5 & R6 & R7); [done|done|lia|].
  set (v0 := meta_fields _ _ _) in *. clearbody v0.
  assert (forall k a, 0 <= a -> a + Z.of_nat k <= 50 -> arr k (v0 ++ nb) a = arr k v0 a) as Harr.
  { intros k a Ha Hk. unfold arr. by rewrite get_range_app_l by lia. }
  unfold parse_snap_metadata, snapshot_of, le_u16, le_u32, le_u64, OFF_SNAP_NAME_LEN, OFF_SNAP_CREATE_TIME, OFF_SNAP_CHANGE_TIME,
    OFF_SNAP_SBLOCK_OID, OFF_SNAP_EXTENTREF_TREE_OID, OFF_SNAP_INUM, OFF_SNAP_FLAGS, OFF_SNAP_NAME, MAX_SNAP_NAME_LEN.
  rewrite !Harr, R1, R2, R3, R4, R5, R6, R7, Z.min_l by lia.
  rewrite <-(app_nil_r nb) at 1. rewrite (get_range_app v0 nb []) by lia. f_equal. by apply decode_cstr_ascii.
Qed.

Lemma snap_record_meta s : spec_wf s -> snap_record (entry_of (meta_record s)) = Some (snapshot_of s).
Proof.
  intros Hs. pose proof (parse_snap_meta_val s Hs) as Hp. destruct Hs as [Hx _ _ _ _]. unfold snap_record, meta_record, entry_of.
  cbn [key value fst snd]. rewrite <-(app_nil_r (snap_jkey 1 (ss_xid s))), jkey_jkey_bytes by lia. cbn [from_u4].
  rewrite bool_decide_true by done. by rewrite Hp.
Qed.

Lemma snap_name_key_decoded s : spec_wf s ->
  jkey (snap_name_key (ss_name s)) = (0, Some SnapName) /\ decode_snap_name_key (snap_name_key (ss_name s)) = Some (ss_name s).
Proof.
  intros [Hx Hb Hc Hn Hl]. pose proof (blen_nonneg (ss_name s)) as H0. unfold MAX_SNAP_NAME_LEN in Hl. unfold snap_name_key. cbn zeta.
  set (nb := ss_name s ++ [x00]). assert (blen nb = blen (ss_name s) + 1) as Hnb by (unfold nb; by rewrite blen_app). rewrite <-app_assoc. split.
  { unfold snap_jkey. by rewrite jkey_jkey_bytes by lia. }
  unfold decode_snap_name_key, OFF_SNAP_NAME_KEY_LEN, OFF_SNAP_NAME_KEY_NAME, MAX_SNAP_NAME_LEN.
  rewrite le_u16_app by (done || lia). rewrite Z.min_l by lia. rewrite (proj2 (Z.eqb_neq _ _)) by lia.
  replace (snap_jkey 11 0 ++ to_le_bytes 2 (blen nb) ++ nb) with ((snap_jkey 11 0 ++ to_le_bytes 2 (blen nb)) ++ nb ++ [])
    by (by rewrite app_nil_r, <-app_assoc).
  rewrite (get_range_app (snap_jkey 11 0 ++ to_le_bytes 2 (blen nb)) nb []) by (rewrite ?blen_app, ?blen_to_le_bytes; change (blen (snap_jkey 11 0)) with 8; lia).
  cbn [fmap option_fmap option_map]. f_equal. by apply decode_cstr_ascii.
Qed.

Lemma snap_record_name s : spec_wf s -> snap_record (entry_of (name_record s)) = None.
Proof.
  intros Hs. unfold snap_record, name_record, entry_of. cbn [key value fst snd].
  destruct (snap_name_key_decoded s Hs) as [-> _]. by rewrite bool_decide_false.
Qed.

Lemma snap_name_record_meta name s : spec_wf s -> snap_name_record name (entry_of (meta_record s)) = None.
Proof.
  intros [Hx _ _ _ _]. unfold snap_name_record, meta_record, entry_of. cbn [key value fst snd].
  rewrite <-(app_nil_r (snap_jkey 1 (ss_xid s))), jkey_jkey_bytes by lia. cbn [from_u4 snd]. by rewrite bool_decide_false.
Qed.

(** The transaction of a description, if it has the name. *)
Definition named (name : bytes) (s : snap_spec) : option Z := if bool_decide (ss_name s = name) then Some (ss_xid s) else None.

Lemma snap_name_record_name name s : spec_wf s -> snap_name_record name (entry_of (name_record s)) = named name s.
Proof.
  intros Hs. unfold snap_name_record, name_record, entry_of, named. cbn [key value fst snd].
  destruct (snap_name_key_decoded s Hs) as [-> ->]. cbn [snd]. rewrite bool_decide_true by done. cbn [andb].
  pose proof (le_u64_app [] [] 0 (ss_xid s) eq_refl ltac:(destruct Hs; lia)) as Hr. rewrite app_nil_r in Hr. cbn [app] in Hr. rewrite Hr.
  case_bool_decide as H1; case_bool_decide as H2; naive_solver.
Qed.

(** A projection of described records is the projection of the descriptions. *)
Lemma omap_described {A} (f : Entry -> option A) (g : snap_spec -> option A) r specs :
  Forall spec_wf specs -> (forall s, spec_wf s -> f (entry_of (r s)) = g s) -> omap f (entries_of (map r specs)) = omap g specs.
Proof.
  intros Hs Hf. induction Hs as [|s specs Hs _ IH]; [done|]. unfold entries_of in *. cbn [map omap list_omap]. rewrite (Hf s Hs). by rewrite IH.
Qed.

Lemma omap_none {A} (specs : list snap_spec) : omap (fun _ => None : option A) specs = [].
Proof. by induction specs. Qed.

(** C30 (roundtrip): snapshots written into an image read back.  For every list of snapshots and every list of name records that fit a
    root node, the volume built around them parses, the listing returns exactly the snapshots, every field as
    written, in ascending transaction order and in record order within a transaction, and a name resolves to the transaction of
    its first name record, or to nothing when no record has it. *)
Theorem snapshot_volume_roundtrip (snaps names : list snap_spec) :
  Forall spec_wf snaps -> Forall spec_wf names -> fits (map meta_record snaps ++ map name_record names) ->
  let '(buf, vol) := single_leaf_volume (map meta_record snaps ++ map name_record names) in
  exists v, vol = Ok v /\
    list_snapshots (image buf) v BS = Ok (sort_by_key sn_xid (map snapshot_of snaps)) /\
    forall name, resolve_snapshot_xid (image buf) v name BS = Ok (head (omap (named name) names)).
Proof.
  intros Hs Hn Hf. pose proof (single_leaf_listing _ Hf) as Hl. destruct (single_leaf_volume _) as [buf vol].
  destruct Hl as (v & Hv & Hlist & Hname). exists v. split; [exact Hv|].
  unfold entries_of in Hlist, Hname. rewrite map_app in Hlist, Hname. fold (entries_of (map meta_record snaps)) (entries_of (map name_record names)) in Hlist, Hname.
  split.
  - rewrite Hlist, omap_app. do 2 f_equal.
    rewrite (omap_described _ (fun s => Some (snapshot_of s)) meta_record), (omap_described _ (fun _ => None) name_record), omap_none, app_nil_r;
      [|done|apply snap_record_name|done|apply snap_record_meta].
    clear. induction snaps as [|s snaps IH]; [done|]. cbn. by rewrite <-IH.
  - intros name. rewrite Hname, omap_app. do 2 f_equal.
    rewrite (omap_described _ (fun _ => None) meta_record), (omap_described _ (named name) name_record), omap_none;
      [done|done|apply snap_name_record_name|done|apply snap_name_record_meta].
Qed.

Definition demo_specs : list snap_spec :=
  [ {| ss_xid := 9; ss_sblock := 0x300; ss_create := 2000; ss_name := lit "snapB" |};
    {| ss_xid := 5; ss_sblock := 0x200; ss_create := 1000; ss_name := lit "snapA" |} ].

Lemma demo_specs_wf : Forall spec_wf demo_specs.
Proof.
  repeat (apply Forall_cons; split); [..|apply Forall_nil_2].
  all: split; cbn [ss_xid ss_sblock ss_create ss_name demo_specs]; try lia; [|vm_compute; reflexivity].
  all: apply (bool_decide_unpack _); vm_compute; exact I.
Qed.

Lemma snapshot_volume_roundtrip_witness :
  let '(buf, vol) := single_leaf_volume (map meta_record demo_specs ++ map name_record demo_specs) in
  exists v, vol = Ok v /\
    list_snapshots (image buf) v BS = Ok (sort_by_key sn_xid (map snapshot_of demo_specs)) /\
    forall name, resolve_snapshot_xid (image buf) v name BS = Ok (head (omap (named name) demo_specs)).
Proof.
  assert (fits (map meta_record demo_specs ++ map name_record demo_specs)) as Hf by (vm_compute; discriminate).
  exact (snapshot_volume_roundtrip demo_specs demo_specs demo_specs_wf demo_specs_wf Hf).
Defined.

(** ** The suite *)

Lemma lists_snapshots_passes : lists_snapshots_from_populated_leaf = true.
Proof.
  unfold lists_snapshots_from_populated_leaf. set (records := [_; _; _]). assert (fits records) as Hf by (vm_compute; discriminate).
  pose proof (single_leaf_listing records Hf) as Hl. destruct (single_leaf_volume records) as [buf vol].
  destruct Hl as (v & -> & Hl & _). cbn [expecting]. rewrite Hl. vm_compute. reflexivity.
Qed.

Lemma resolves_snap_name_passes : resolves_snap_name_from_populated_leaf = true.
Proof.
  unfold resolves_snap_name_from_populated_leaf. set (records := [_; _; _]). assert (fits records) as Hf by (vm_compute; discriminate).
  pose proof (single_leaf_listing records Hf) as Hl. destruct (single_leaf_volume records) as [buf vol].
  destruct Hl as (v & -> & _ & Hn). cbn [expecting]. rewrite !Hn. vm_compute. reflexivity.
Qed.

(** An object map whose tree is one leaf, at block [a]. *)
Lemma omap_single_leaf a buf leaf es om oid xid e :
  0 <= a * BS < u64_limit -> block_at buf a = Some leaf -> cksum_ok leaf = true -> classify SubtypeOmap leaf = Some (NLeaf es) ->
  run_visitor (omap_visit oid xid) None es = Some e -> om_tree_oid om = a ->
  omap_resolve om (image buf) oid xid BS = Ok e.
Proof.
  intros Ha Hb Hck Hcl He Ht. unfold omap_resolve, find_leaf. rewrite Ht. unfold MAX_BTREE_DEPTH.
  rewrite find_leaf_S. rewrite decide_False by apply not_elem_of_empty. unfold phys_node, read_verified_node.
  assert (checked_mul a BS = Some (a * BS)) as -> by (apply checked_mul_Some; lia).
  pose proof (read_block _ _ _ Hb (proj2 Ha)) as Hr. rewrite saturating_mul_exact in Hr by apply Ha. rewrite Hr.
  unfold cksum_ok in Hck. cbn [mbind outcome_bind]. rewrite Hck. cbn [negb mbind outcome_bind option_bind]. rewrite Hcl.
  cbn [visited_by fst snd mbind outcome_bind]. unfold run_visitor in He. by rewrite He.
Qed.

(** A child of the snapshot tree is read at the block the object map gives. *)
Lemma snap_child_read buf b om oid xid e :
  omap_resolve om (image buf) oid xid BS = Ok e -> block_at buf (oe_paddr e) = Some b -> oe_paddr e * BS < u64_limit -> cksum_ok b = true ->
  read_snap_node (image buf) om oid false xid BS = Ok b.
Proof.
  intros Hr Hb Hp Hc. unfold read_snap_node. rewrite Hr. cbn [mbind outcome_bind]. rewrite (read_block _ _ b Hb Hp).
  cbn [mbind outcome_bind]. unfold cksum_ok in Hc. by rewrite Hc.
Qed.

Section IndexVolume.
Context (buf : bytes) (v : ApfsVolume) (om : ObjectMap).
Context (Hx : vol_xid v = 7) (Hs : vol_snap_meta_tree_oid v = 50) (Ho : read_volume_omap (image buf) v BS = Ok om).

(** An index root over one leaf, and an index root that is its own child. *)
Lemma index_over_leaf root child er ec :
  read_snap_node (image buf) om 50 true 7 BS = Ok root -> classify SubtypeFsTree root = Some (NIndex er) -> child_addrs er = [1500] ->
  read_snap_node (image buf) om 1500 false 7 BS = Ok child -> classify SubtypeFsTree child = Some (NLeaf ec) ->
  list_snapshots (image buf) v BS = Ok (sort_by_key sn_xid (omap snap_record ec)).
Proof.
  intros Hr Hcr Hch Hc Hcc. rewrite (list_snapshots_tree (image buf) v BS (TNode 50 er [TLeaf 1500 ec])).
  { cbn [leaf_entries map concat]. by rewrite app_nil_r. }
  exists om. rewrite Hs, Hx. split; [done|]. split; [|done]. split.
  - constructor; [|done|].
    + unfold snap_node. rewrite Z.eqb_refl, Hr. cbn [mbind outcome_bind]. by rewrite Hcr.
    + apply Forall_singleton. constructor. unfold snap_node. change (1500 =? 50) with false. rewrite Hc.
      cbn [mbind outcome_bind]. by rewrite Hcc.
  - cbn. unfold MAX_SNAP_TREE_DEPTH. lia.
  - apply (bool_decide_unpack _). vm_compute. exact I.
  - intros x _. apply not_elem_of_empty.
Qed.

Lemma index_over_itself root er :
  read_snap_node (image buf) om 50 true 7 BS = Ok root -> classify SubtypeFsTree root = Some (NIndex er) -> child_addrs er = [1500] ->
  read_snap_node (image buf) om 1500 false 7 BS = Ok root ->
  list_snapshots (image buf) v BS = Err snap_cycle.
Proof.
  intros Hr Hcr Hch Hc. unfold list_snapshots, for_each_snap_record. rewrite Ho, Hs, Hx. unfold MAX_SNAP_TREE_DEPTH.
  rewrite descend_snap_root, gwalk_S. rewrite decide_False by apply not_elem_of_empty.
  unfold snap_node at 1. rewrite Z.eqb_refl, Hr. cbn [mbind outcome_bind]. rewrite Hcr, Hch. cbn zeta.
  rewrite for_each_cons, gwalk_S. rewrite decide_False by (unfold visited_by; cbn; set_solver).
  unfold snap_node at 1. change (1500 =? 50) with false. rewrite Hc. cbn [mbind outcome_bind]. rewrite Hcr, Hch. cbn zeta.
  rewrite for_each_cons, gwalk_S. rewrite decide_True by (unfold visited_by; cbn; set_solver). done.
Qed.
End IndexVolume.

Lemma index_fits : fits [(snap_jkey 1 3, to_le_bytes 8 1500)].
Proof. vm_compute. discriminate. Qed.

(** The blocks of the two volumes with an index root, and their object map's leaf. *)
Lemma index_volume_blocks paddr more :
  (paddr = 50 /\ more = []) \/ (exists leaf, paddr = 60 /\ more = [(60, leaf)] /\ blen leaf = BS) ->
  let blocks := volume_blocks [(1500, 7, paddr)] index_root more in
  exists v om e,
    parse_volume_at (image_of blocks) 1026 = Ok v /\ vol_xid v = 7 /\ vol_snap_meta_tree_oid v = 50 /\
    read_volume_omap (image (image_of blocks)) v BS = Ok om /\
    read_snap_node (image (image_of blocks)) om 50 true 7 BS = Ok index_root /\
    omap_resolve om (image (image_of blocks)) 1500 7 BS = Ok e /\ oe_paddr e = paddr /\
    (forall i b, (i, b) ∈ blocks -> block_at (image_of blocks) i = Some b).
Proof.
  intros Hp blocks. set (tb := omap_leaf 41 [(1500, 7, paddr)]).
  assert (blen tb = BS /\ cksum_ok tb = true /\ exists es e, classify SubtypeOmap tb = Some (NLeaf es) /\
    run_visitor (omap_visit 1500 7) None es = Some e /\ oe_paddr e = paddr) as (Hlen & Hck & es & e & Hcl & Hrun & He).
  { unfold tb. destruct Hp as [[-> _]|(leaf & -> & _)];
      (split; [vm_compute; reflexivity|]; split; [vm_compute; reflexivity|]; do 2 eexists; split; [vm_compute; reflexivity|];
       split; vm_compute; reflexivity). }
  assert (Forall (fun ib => 0 <= ib.1 /\ blen ib.2 = BS) more) as Hmore.
  { destruct Hp as [[_ ->]|(leaf & _ & -> & Hl)]; [apply Forall_nil_2|]. apply Forall_singleton. split; [cbn; lia|exact Hl]. }
  assert (NoDup (map fst blocks)) as Hnd.
  { destruct Hp as [[_ Hm]|(leaf & _ & Hm & _)]; unfold blocks; rewrite Hm; [exact nodup_fixed|].
    change (NoDup [40; 41; 50; 60; 1026]). apply (bool_decide_unpack _). vm_compute. exact I. }
  pose proof (blen_btree_node 50 7 false _ index_fits) as Hroot.
  pose proof (volume_block _ index_root more Hlen Hroot Hmore Hnd) as Hb.
  destruct (volume_parsed _ index_root more Hlen Hroot Hmore Hnd) as (v & om & Hv & Hx & Hs & Ho & Ht & _).
  pose proof (volume_root _ index_root more Hlen Hroot Hmore Hnd om (cksum_btree_node 50 7 false _ index_fits)) as Hr.
  exists v, om, e. repeat (split; [eassumption|]). split; [|split; [exact He|exact Hb]].
  apply (omap_single_leaf 41 _ tb es om 1500 7 e); [unfold BS, u64_limit; lia| |exact Hck|exact Hcl|exact Hrun|exact Ht]. apply Hb. right. left.
Qed.

Lemma index_root_node : exists er, classify SubtypeFsTree index_root = Some (NIndex er) /\ child_addrs er = [1500].
Proof. eexists. split; [exact (classify_btree_node 50 7 false _ index_fits)|]. vm_compute. reflexivity. Qed.

Lemma walks_index_passes : walks_index_node_resolving_child_virtually = true.
Proof.
  unfold walks_index_node_resolving_child_virtually. set (records := [(_, snap_meta_val _ _ _)]). set (leaf := btree_node 60 7 true records).
  assert (fits records) as Hf by (vm_compute; discriminate).
  destruct (index_volume_blocks 60 [(60, leaf)]) as (v & om & e & Hv & Hx & Hs & Ho & Hr & He & Hp & Hb).
  { right. exists leaf. split; [reflexivity|]. split; [reflexivity|]. exact (blen_btree_node 60 7 true records Hf). }
  cbn zeta. specialize (Hb 60 leaf ltac:(unfold volume_blocks; right; right; right; left)).
  set (buf := image_of _) in *. clearbody buf. rewrite Hv. cbn [expecting]. destruct index_root_node as (er & Hcr & Hch).
  rewrite <-Hp in Hb. assert (oe_paddr e * BS < u64_limit) as Hlt by (rewrite Hp; reflexivity).
  pose proof (snap_child_read buf leaf om 1500 7 e He Hb Hlt (cksum_btree_node 60 7 true records Hf)) as Hc.
  rewrite (index_over_leaf buf v om Hx Hs Ho index_root leaf er _ Hr Hcr Hch Hc (classify_btree_node 60 7 true records Hf)).
  vm_compute. reflexivity.
Qed.

Lemma cycle_passes : snap_tree_cycle_is_rejected = true.
Proof.
  unfold snap_tree_cycle_is_rejected.
  destruct (index_volume_blocks 50 []) as (v & om & e & Hv & Hx & Hs & Ho & Hr & He & Hp & Hb); [left; split; reflexivity|].
  cbn zeta. specialize (Hb 50 index_root ltac:(unfold volume_blocks; right; right; left)).
  set (buf := image_of _) in *. clearbody buf. rewrite Hv. cbn [expecting]. destruct index_root_node as (er & Hcr & Hch).
  rewrite <-Hp in Hb. assert (oe_paddr e * BS < u64_limit) as Hlt by (rewrite Hp; reflexivity).
  pose proof (snap_child_read buf index_root om 1500 7 e He Hb Hlt (cksum_btree_node 50 7 false _ index_fits)) as Hc.
  rewrite (index_over_itself buf v om Hx Hs Ho index_root er Hr Hcr Hch Hc). reflexivity.
Qed.

(** A flipped byte of the image is a flipped byte of its block. *)
Lemma flip_byte_at (p q : bytes) x i : i = blen p -> flip_byte (p ++ [x] ++ q) i = p ++ [z2b (Z.lxor (b2z x) 0xff)] ++ q.
Proof.
  intros ->. unfold flip_byte.
  assert (get_index (p ++ [x] ++ q) (blen p) = Some x) as ->; [|by apply put_app].
  rewrite get_index_app_r by lia. by rewrite Z.sub_diag.
Qed.

Lemma block_at_flip buf i k b :
  0 <= i -> 0 <= k < BS -> block_at buf i = Some b ->
  block_at (flip_byte buf (i * BS + k)) i = Some (flip_byte b k) /\
  forall j, 0 <= j -> j <> i -> block_at (flip_byte buf (i * BS + k)) j = block_at buf j.
Proof.
  intros Hi Hk Hb. unfold block_at in *. pose proof (get_range_len _ _ _ _ Hb) as Hl.
  destruct (get_range_split _ _ _ _ Hb) as (p & q & -> & Hp). destruct (get_index_lt b k) as [x Hx]; [lia|].
  apply get_index_range in Hx. destruct (get_range_split _ _ _ _ Hx) as (b1 & b2 & -> & Hb1).
  rewrite (flip_byte_at b1 b2) by done. rewrite !blen_app in Hl.
  replace (p ++ (b1 ++ [x] ++ b2) ++ q) with ((p ++ b1) ++ [x] ++ (b2 ++ q)) by by rewrite <-!app_assoc.
  rewrite (flip_byte_at (p ++ b1)) by (rewrite blen_app; lia). set (y := z2b _).
  change (blen [x]) with 1 in Hl. split.
  - replace ((p ++ b1) ++ [y] ++ b2 ++ q) with (p ++ (b1 ++ [y] ++ b2) ++ q) by by rewrite <-!app_assoc.
    apply get_range_app; [lia|]. rewrite !blen_app. change (blen [y]) with 1. lia.
  - intros j Hj Hne. destruct (decide (j < i)).
    + rewrite !get_range_app_l by (rewrite ?blen_app; unfold BS in *; lia). done.
    + rewrite !(app_assoc _ _ (b2 ++ q)), !(app_assoc _ b2 q).
      rewrite !(get_range_app_r _ q) by (rewrite ?blen_app; change (blen [x]) with 1; change (blen [y]) with 1; unfold BS in *; lia).
      by rewrite !blen_app.
Qed.

(** A root whose checksum fails stops the listing. *)
Lemma damaged_root_refused buf v om damaged :
  vol_xid v = 7 -> vol_snap_meta_tree_oid v = 50 -> read_volume_omap (image buf) v BS = Ok om ->
  block_at buf 50 = Some damaged -> cksum_ok damaged = false ->
  list_snapshots (image buf) v BS = Err (ChecksumMismatch (match ObjPhys_parse damaged with Some h => o_oid h | None => 50 end)
    (fletcher64_stored damaged) (fletcher64_checksum damaged)).
Proof.
  intros Hx Hs Ho Hb Hc. unfold list_snapshots, for_each_snap_record. rewrite Ho, Hs, Hx. unfold MAX_SNAP_TREE_DEPTH.
  rewrite descend_snap_root, gwalk_S. rewrite decide_False by apply not_elem_of_empty.
  unfold snap_node, read_snap_node. rewrite Z.eqb_refl. cbn [mbind outcome_bind]. rewrite (read_block _ 50 damaged Hb) by reflexivity.
  cbn [mbind outcome_bind]. unfold cksum_ok in Hc. by rewrite Hc.
Qed.

Lemma checksum_mismatch_passes : snap_tree_checksum_mismatch_is_loud = true.
Proof.
  unfold snap_tree_checksum_mismatch_is_loud. set (records := [_]). assert (fits records) as Hf by (vm_compute; discriminate).
  assert (blen (omap_leaf 41 []) = BS) as Hm by (vm_compute; reflexivity). pose proof (blen_btree_node 50 7 true records Hf) as Hr.
  unfold single_leaf_volume. cbn zeta. set (leaf := btree_node 50 7 true records) in *.
  destruct (volume_parsed [] leaf [] Hm Hr (Forall_nil_2 _) nodup_fixed) as (v & om & Hv & Hx & Hs & _ & _ & Hoid & Hom).
  pose proof (volume_block [] leaf [] Hm Hr (Forall_nil_2 _) nodup_fixed) as Hb.
  pose proof (Hb 50 leaf ltac:(unfold volume_blocks; right; right; left)) as H50.
  assert (block_at (image_of (volume_blocks [] leaf [])) 40 = Some (omap_block 40 41)) as H40 by (apply Hb; left). clear Hb.
  set (buf := image_of _) in *. clearbody buf. rewrite Hv. cbn [expecting].
  destruct (block_at_flip buf 50 100 leaf) as [F50 Fj]; [lia|unfold BS; lia|exact H50|].
  assert (cksum_ok (flip_byte leaf 100) = false) as Hck by (vm_compute; reflexivity).
  set (buf' := flip_byte buf _) in *. assert (block_at buf' 40 = Some (omap_block 40 41)) as F40.
  { rewrite <-H40. apply Fj; lia. }
  clearbody buf'. clear Fj H40 H50 Hv. generalize dependent (flip_byte leaf 100). intros damaged F50 Hck.
  rewrite (damaged_root_refused buf' v om damaged); [reflexivity|exact Hx|exact Hs| |exact F50|exact Hck].
  unfold read_volume_omap. rewrite Hoid, (read_block _ 40 _ F40) by reflexivity. exact Hom.
Qed.

(** *** All tests *)

Definition snapshot_suite : list bool :=
  [ parse_snap_metadata_value_decodes_all_fields; parse_snap_metadata_clamps_overlong_name; parse_snap_metadata_truncated_value_reads_zero;
    snap_meta_tree_subtype_is_snapmetatree; decode_snap_name_key_reads_name; decode_snap_name_key_rejects_zero_and_overlong;
    lists_snapshots_from_populated_leaf; resolves_snap_name_from_populated_leaf; walks_index_node_resolving_child_virtually;
    snap_tree_checksum_mismatch_is_loud; snap_tree_cycle_is_rejected ].

(** Every one of these tests holds of the model. *)
Lemma snapshot_suite_passes : Forall (fun passed => passed = true) snapshot_suite.
Proof.
  do 6 (apply Forall_cons; split; [vm_compute; reflexivity|]).
  repeat (apply Forall_cons; split); [exact lists_snapshots_passes|exact resolves_snap_name_passes|exact walks_index_passes|
    exact checksum_mismatch_passes|exact cycle_passes|apply Forall_nil_2].
Qed.
