(* ===== verification/TestsVfs.v ===== *)
(** The unit tests of core/src/dir.rs and vfs.rs.

    The tests over committed images take the image as an argument.  What they check of one image is shown of every image with a well-formed volume: the
    keyed walk against the full one ([keyed_walk_matches_full_walk]), the refusal of an unknown transaction ([unknown_xid_refused]) and the shape of
    the unallocated runs ([unallocated_runs_shape]). *)

From Stdlib Require Import Strings.String.
From S2P Require Import Prelude Bytes Errors Reader Object Container Checkpoint Walk BTree Omap ApfsContainer FsRecord Encryption Volume Inode Dir Spaceman Extent Xattr Compression Snapshot Format TestKit Utf8 Vfs VfsSpec.

Set Warnings "-register-all".

(** ** dir.rs *)

(** [((ty << 60) | oid).to_le_bytes()] *)
Definition drec_jkey (ty oid : Z) : bytes := to_le_bytes 8 (Z.lor (Z.shiftl ty 60) oid).

Definition decode_hashed_drec_name : bool :=
  let key := drec_jkey 9 2 in
  let key := key ++ to_le_bytes 4 5 in
  let key := key ++ lit "abcd" ++ [x00] in
  assert_eq (decode_drec_name key) (Some (lit "abcd")).

Definition child_pruning_selects_only_covering_subtrees : bool :=
  negb (child_may_contain_oid 0 (Some 10) 15) && child_may_contain_oid 10 (Some 20) 15 && negb (child_may_contain_oid 20 None 15) &&
  child_may_contain_oid 5 (Some 10) 10 && child_may_contain_oid 10 (Some 20) 10 && child_may_contain_oid 5 None 999 &&
  negb (child_may_contain_oid 0 (Some 5) 10).

Definition decode_unhashed_drec_name : bool :=
  let key := drec_jkey 9 2 in
  let key := key ++ to_le_bytes 2 3 in
  let key := key ++ lit "Xy" ++ [x00] in
  let name := decode_drec_name key in
  assert_eq name (Some (lit "Xy")).

Definition decode_drec_name_rejects_overlong_length : bool :=
  let key := drec_jkey 9 2 in
  let key := key ++ to_le_bytes 4 0 in
  assert_eq (decode_drec_name key) None.

Definition decode_drec_name_unhashed_length_past_key_is_none : bool :=
  let key := drec_jkey 9 2 in
  let key := key ++ to_le_bytes 2 200 in
  let key := key ++ lit "z" in
  assert_eq (decode_drec_name key) None.

Definition parse_dir_entry_decodes_value : bool :=
  let key := drec_jkey 9 2 in
  let key := key ++ to_le_bytes 4 5 in
  let key := key ++ lit "abcd" ++ [x00] in
  let value := [] in
  let value := value ++ to_le_bytes 8 42 in
  let value := value ++ to_le_bytes 8 1234 in
  let value := value ++ to_le_bytes 2 7 in
  let_some e := parse_dir_entry key value in
  assert_eq (de_name e) (lit "abcd") && assert_eq (de_file_id e) 42 && assert_eq (de_date_added e) 1234 && assert_eq (de_flags e) 7.

Definition parse_dir_entry_rejects_unnamed_key : bool :=
  let key := drec_jkey 9 2 in
  let key := key ++ to_le_bytes 4 0 in
  is_none (parse_dir_entry key (zeroed 18)).

Section FsTree.
Context `{XtsCipher} (FSTREE : bytes).

Definition FSTREE_BLOCK_SIZE : Z := 4096.
Definition FSTREE_APSB_BLOCK : Z := 371.

Definition fstree_volume : result ApfsVolume :=
  match get_range FSTREE (FSTREE_APSB_BLOCK * FSTREE_BLOCK_SIZE) ((FSTREE_APSB_BLOCK + 1) * FSTREE_BLOCK_SIZE) with
  | Some b => ApfsVolume_parse b
  | None => Panic
  end.

(** The closure of both helpers. *)
Definition push_key (oid : Z) (k v : bytes) (out : list bytes) : list bytes :=
  if (decode_jkey (le_u64 k 0)).1 =? oid then out ++ [k] else out.

Definition keys_for_oid_full (oid : Z) : result (list bytes) :=
  vol ← fstree_volume;
  let '(out, res) := walk_fs_tree (image FSTREE) vol FSTREE_BLOCK_SIZE None (push_key oid) [] in
  _ ← res;
  Ok out.

Definition keys_for_oid_keyed (oid : Z) : result (list bytes) :=
  vol ← fstree_volume;
  let '(out, res) := for_each_fs_record_for_oid (image FSTREE) vol FSTREE_BLOCK_SIZE oid (push_key oid) [] in
  _ ← res;
  Ok out.

Definition keyed_walk_matches_full_walk_on_real_fs_tree : bool :=
  forallb (fun oid => let_ok keyed := keys_for_oid_keyed oid in let_ok full := keys_for_oid_full oid in assert_eq keyed full) [2; 18; 22] &&
  (let_ok keyed := keys_for_oid_keyed 999999 in assert_eq keyed []) &&
  (let_ok keyed := keys_for_oid_keyed 999999 in let_ok full := keys_for_oid_full 999999 in assert_eq keyed full).

(** The keys of the records of [oid], in tree order. *)
Definition keys_of (oid : Z) (es : list Entry) : list bytes := key <$> filter (fun e => record_oid e = oid) es.

Lemma run_push_key oid es : forall out, run_visitor (push_key oid) out es = out ++ keys_of oid es.
Proof.
  unfold run_visitor, keys_of. induction es as [|e es IH]; intros out; [by rewrite app_nil_r|]. cbn [foldl]. rewrite IH.
  unfold push_key. change (decode_jkey (le_u64 (key e) 0)).1 with (record_oid e). rewrite filter_cons.
  destruct (Z.eqb_spec (record_oid e) oid) as [He|He]; [rewrite decide_True by done|by rewrite decide_False by done].
  rewrite fmap_cons, <-app_assoc. done.
Qed.

Lemma push_key_keyed oid : keyed_visitor oid (push_key oid).
Proof. intros k v out Hne. unfold push_key. change (decode_jkey (le_u64 k 0)).1 with (jkey k).1. by rewrite (proj2 (Z.eqb_neq _ _) Hne). Qed.

(** Both helpers collect the keys of the object's records. *)
Lemma keys_for_oid_spec vol t oid :
  fstree_volume = Ok vol -> volume_tree (image FSTREE) vol FSTREE_BLOCK_SIZE t -> oid_ordered t ->
  keys_for_oid_keyed oid = Ok (keys_of oid (leaf_entries t)) /\ keys_for_oid_full oid = Ok (keys_of oid (leaf_entries t)).
Proof.
  intros Hv Ht Ho. unfold keys_for_oid_keyed, keys_for_oid_full, for_each_fs_record_for_oid. rewrite Hv. cbn [mbind outcome_bind].
  rewrite (walk_fs_tree_keyed _ _ _ oid (push_key oid) [] t Ht Ho (push_key_keyed oid)), (walk_fs_tree_full _ _ _ (push_key oid) [] t Ht).
  by rewrite run_push_key.
Qed.

(** The test passes on every image with an ordered tree and no record of the object it takes for missing, not on the committed one only. *)
Theorem keyed_walk_matches_full_walk vol t :
  fstree_volume = Ok vol -> volume_tree (image FSTREE) vol FSTREE_BLOCK_SIZE t -> oid_ordered t ->
  Forall (fun e => record_oid e <> 999999) (leaf_entries t) ->
  keyed_walk_matches_full_walk_on_real_fs_tree = true.
Proof.
  intros Hv Ht Ho Hnone. pose proof (fun oid => keys_for_oid_spec vol t oid Hv Ht Ho) as Hk.
  unfold keyed_walk_matches_full_walk_on_real_fs_tree. cbn [forallb].
  rewrite (proj1 (Hk 2)), (proj2 (Hk 2)), (proj1 (Hk 18)), (proj2 (Hk 18)), (proj1 (Hk 22)), (proj2 (Hk 22)), (proj1 (Hk 999999)), (proj2 (Hk 999999)).
  cbn [expecting]. unfold assert_eq. rewrite !andb_true_iff, !bool_decide_eq_true. split_and!; try done.
  clear Hk. unfold keys_of. induction Hnone as [|e es He _ IH]; [done|]. rewrite filter_cons, decide_False by done. exact IH.
Qed.
End FsTree.

(** ** vfs.rs *)

Section Adapter.
Context `{ForensicVfs} `{IoDisplay}.

Definition dt_to_kind_covers_every_arm : bool :=
  match dt_to_kind DT_DIR, dt_to_kind DT_REG, dt_to_kind DT_LNK, dt_to_kind 1 with
  | NodeDir, NodeFile, NodeSymlink, NodeOther => true
  | _, _, _, _ => false
  end.

Definition mode_to_kind_covers_every_arm : bool :=
  match mode_to_kind S_IFDIR, mode_to_kind S_IFREG, mode_to_kind S_IFLNK, mode_to_kind 0xc000 with
  | NodeDir, NodeFile, NodeSymlink, NodeOther => true
  | _, _, _, _ => false
  end.

(** [FileId::Opaque(7)] and [StreamId::Named(3)], constructors of forensic-vfs. *)
Definition oid_of_rejects_a_non_apfs_file_id (Opaque7 : OtherId) : bool :=
  match oid_of (ForeignId Opaque7) with
  | Err (VfsUnsupported layer scheme) => assert_eq layer "apfs file-id"%string && contains scheme (lit "Opaque")
  | _ => false
  end &&
  match oid_of (ApfsOid 42 9) with Ok oid => assert_eq oid 42 | _ => false end.

Definition require_default_stream_rejects_a_named_stream (Named3 : OtherStream) : bool :=
  match require_default_stream DefaultStream with Ok _ => true | _ => false end &&
  match require_default_stream (ForeignStream Named3) with
  | Err (VfsUnsupported layer scheme) => assert_eq layer "apfs stream"%string && contains scheme (lit "Named")
  | _ => false
  end.

Definition map_err_keeps_io_distinct_from_decode : bool :=
  match map_err (Io UnexpectedEof) with VfsIo op _ => assert_eq op "apfs read"%string | _ => false end &&
  match map_err (SnapshotNotFound 5) with
  | VfsDecode layer _ detail _ => assert_eq layer "apfs"%string && contains detail (lit "5")
  | _ => false
  end.

Definition poisoned_lock_is_a_named_bootstrap_failure : bool :=
  match poisoned with VfsBootstrap stage _ => assert_eq stage "apfs reader lock"%string | _ => false end.

Definition is_unallocated (a : RunAlloc) : bool := match a with RunUnallocated => true | _ => false end.

Definition unallocated_runs_maps_free_blocks_to_byte_extents : bool :=
  let runs := unallocated_runs [(3, 3); (8, 8)] 4096 in
  match runs with
  | [r0; r1] =>
      assert_eq (image_offset (ri_run r0)) (3 * 4096) && assert_eq (run_len (ri_run r0)) (3 * 4096) && is_unallocated (ri_alloc r0) &&
      assert_eq (image_offset (ri_run r1)) (8 * 4096) && assert_eq (run_len (ri_run r1)) (8 * 4096) && is_unallocated (ri_alloc r1)
  | _ => false
  end.

Definition unallocated_runs_empty_input_yields_no_extents : bool :=
  match unallocated_runs [] 4096 with [] => true | _ => false end.
End Adapter.

Section Content.
Context `{ForensicVfs} `{IoDisplay} `{DecmpfsFormat} `{Codecs} `{XtsCipher} (CONTENT : bytes).

Definition live_xid : result Z := fs ← ApfsFs_open OverflowTraps (image CONTENT); Ok (fs_root_xid fs).

Definition p4_fixture_lists_zero_snapshots : bool :=
  let_ok snaps := ApfsFs_snapshots OverflowTraps (image CONTENT) in
  match snaps with [] => true | _ => false end.

Definition open_snapshot_at_live_xid_reads_plain_txt : bool :=
  let_ok xid := live_xid in
  let_ok fs := ApfsFs_open_snapshot OverflowTraps (image CONTENT) xid in
  let root := vfs_root fs in
  match vfs_lookup fs root (lit "plain.txt") with
  | Ok (Some found) =>
      match vfs_read_at fs found DefaultStream 0 (zeroed 64) with
      | Ok (n, _) => 0 <? n
      | _ => false
      end
  | _ => false
  end.

Definition open_snapshot_unknown_xid_fails_loud : bool :=
  let_ok xid := live_xid in
  let bogus := (xid + 0xdeadbeef) mod 2 ^ 64 in
  let_err err := ApfsFs_open_snapshot OverflowTraps (image CONTENT) bogus in
  match err with SnapshotNotFound xid => assert_eq xid bogus | _ => false end.

Definition unallocated_enumerates_free_space_over_p4_fixture : bool :=
  let_ok fs := ApfsFs_open OverflowTraps (image CONTENT) in
  let bs := fs_block_size fs in
  match vfs_unallocated fs with
  | Ok items =>
      negb (blen items =? 0) &&
      forallb (fun item => match item with
                           | Ok r => is_unallocated (ri_alloc r) && assert_eq (image_offset (ri_run r) mod bs) 0 &&
                                     assert_eq (run_len (ri_run r) mod bs) 0 && (0 <? run_len (ri_run r)) &&
                                     (image_offset (ri_run r) <? blen CONTENT)
                           | _ => false
                           end) items
  | _ => false
  end.

(** A transaction that is neither live nor a snapshot's is refused by name, on every image that mounts. *)
Theorem unknown_xid_refused live snaps :
  ApfsFs_open OverflowTraps (image CONTENT) = Ok live -> ApfsFs_snapshots OverflowTraps (image CONTENT) = Ok snaps ->
  0 <= fs_root_xid live < 2 ^ 64 ->
  Forall (fun s => sn_xid s <> (fs_root_xid live + 0xdeadbeef) mod 2 ^ 64) snaps ->
  open_snapshot_unknown_xid_fails_loud = true.
Proof.
  intros Ho Hs Hx Hnone. unfold open_snapshot_unknown_xid_fails_loud, live_xid. rewrite Ho. cbn [mbind outcome_bind expecting].
  set (bogus := (_ + _) mod _) in *.
  assert (bogus <> fs_root_xid live) as Hne.
  { unfold bogus. intros He. pose proof (Z.div_mod (fs_root_xid live + 0xdeadbeef) (2 ^ 64) ltac:(lia)) as Hd.
    rewrite He in Hd. assert (0xdeadbeef mod 2 ^ 64 = 0) as Hm; [|vm_compute in Hm; discriminate].
    replace 0xdeadbeef with ((fs_root_xid live + 0xdeadbeef) / 2 ^ 64 * 2 ^ 64) by lia. apply Z_mod_mult. }
  clearbody bogus. unfold ApfsFs_open, ApfsFs_snapshots, ApfsFs_open_snapshot in *.
  apply bind_Ok_iff in Ho as ([[[r v] bs] sm] & Hf & [= <-]). rewrite Hf in Hs |- *. cbn [mbind outcome_bind fs_root_xid] in *.
  rewrite (proj2 (Z.eqb_neq _ _) Hne), Hs. cbn [mbind outcome_bind].
  assert (list_find (fun s => sn_xid s = bogus) snaps = None) as ->.
  { by apply list_find_None. }
  cbn [fmap option_fmap option_map ok_or mbind outcome_bind expecting_err]. by apply bool_decide_eq_true.
Qed.

(** The unallocated runs of every image whose space manager is laid out as the format says, on a device no longer than the image. *)
Theorem unallocated_runs_shape fs sp sm runs :
  ApfsFs_open OverflowTraps (image CONTENT) = Ok fs -> fs_spaceman_paddr fs = Some sp ->
  let bs := fs_block_size fs in
  let r := mx_inner (fs_reader fs) in
  read_obj_block r bs sp = Ok sm -> geometry_ok r bs sm ->
  block_count sm * bs <= blen CONTENT -> block_count sm * bs < 2 ^ 64 ->
  free_block_runs r bs sp = Ok runs -> runs <> [] ->
  unallocated_enumerates_free_space_over_p4_fixture = true.
Proof.
  intros Ho Hsp bs r Hsm Hg Hfit Hlim Hr Hne. unfold unallocated_enumerates_free_space_over_p4_fixture. rewrite Ho. cbn [expecting].
  apply ApfsFs_open_wf in Ho as Hw. destruct Hw as [Hp Hb _]. assert (0 < bs) as Hbs by (unfold bs, NX_MINIMUM_BLOCK_SIZE in *; lia). unfold vfs_unallocated, lock. rewrite Hsp, Hp. cbn [ok_or mbind outcome_bind].
  fold bs r. rewrite Hr. cbn [vfs mbind outcome_bind].
  pose proof (free_block_runs_bounds r bs sp sm runs Hsm Hg Hr) as Hbd. apply andb_true_iff. split.
  { destruct runs; [done|]. cbn [unallocated_runs fmap list_fmap map]. rewrite blen_cons. pose proof (blen_nonneg (map Ok (unallocated_runs runs bs) : list (vfs_result RunInfo))).
    apply negb_true_iff, Z.eqb_neq. unfold unallocated_runs in *. lia. }
  apply forallb_forall. intros item Hin. apply in_map_iff in Hin as (x & <- & Hin). apply list_elem_of_In in Hin.
  apply list_elem_of_fmap in Hin as (y & -> & Hy). cbn [ri_alloc ri_run image_offset run_len is_unallocated].
  rewrite Forall_forall in Hbd. specialize (Hbd y Hy). rewrite !saturating_mul_exact by (unfold u64_limit; nia).
  unfold assert_eq. rewrite !andb_true_iff, !bool_decide_eq_true, !Z.ltb_lt, !Z_mod_mult. split_and!; [done|done|done|nia|nia].
Qed.
End Content.

(** ** The suites *)

Definition dir_suite : list bool :=
  [ decode_hashed_drec_name; child_pruning_selects_only_covering_subtrees; decode_unhashed_drec_name; decode_drec_name_rejects_overlong_length;
    decode_drec_name_unhashed_length_past_key_is_none; parse_dir_entry_decodes_value; parse_dir_entry_rejects_unnamed_key ].

Lemma dir_suite_passes : Forall (fun passed => passed = true) dir_suite.
Proof. repeat (apply Forall_cons; split; [vm_compute; reflexivity|]). apply Forall_nil_2. Qed.

Section VfsSuite.
Context `{ForensicVfs} `{IoDisplay} (Opaque7 : OtherId) (Named3 : OtherStream).
(** [#[derive(Debug)]] of forensic-vfs prints the variant. *)
Context (Hopaque : contains (debug_id Opaque7) (lit "Opaque") = true) (Hnamed : contains (debug_stream Named3) (lit "Named") = true).

Definition vfs_suite : list bool :=
  [ dt_to_kind_covers_every_arm; mode_to_kind_covers_every_arm; oid_of_rejects_a_non_apfs_file_id Opaque7;
    require_default_stream_rejects_a_named_stream Named3; map_err_keeps_io_distinct_from_decode; poisoned_lock_is_a_named_bootstrap_failure;
    unallocated_runs_maps_free_blocks_to_byte_extents; unallocated_runs_empty_input_yields_no_extents ].

Lemma vfs_suite_passes : Forall (fun passed => passed = true) vfs_suite.
Proof.
  repeat (apply Forall_cons; split); try apply Forall_nil_2; try (vm_compute; reflexivity).
  - unfold oid_of_rejects_a_non_apfs_file_id. cbn [oid_of]. by rewrite Hopaque.
  - unfold require_default_stream_rejects_a_named_stream. cbn [require_default_stream]. by rewrite Hnamed.
Qed.
End VfsSuite.
