(* ===== verification/TestsForensic.v ===== *)
(** The unit tests of the forensic crate: forensic/src/lib.rs and the seven analyzers beside it.

    The table of grades in [severity_matches_design_table] has one row per variant; [design_table_complete] says that the rows
    settle every anomaly, whatever its values. *)

From Stdlib Require Import Strings.String.
From S2P Require Import Prelude Bytes Errors Format TestKit Report Analyzer.

Set Warnings "-register-all".

Definition is_empty {A} (l : list A) : bool := match l with [] => true | _ => false end.

(** [v.len() == 1 && v[0].code() == c] *)
Definition single_code (v : list AnomalyKind) (c : string) : bool :=
  match v with [a] => assert_eq (code a) c | _ => false end.

Definition codes (v : list AnomalyKind) : list string := map code v.

(** ** clones.rs *)

Definition no_sharing_no_flags_is_clean : bool := is_empty (clone_anomalies [] []).

Definition shared_extent_is_a_provenance_link : bool :=
  let v := clone_anomalies [(10, 20)] [] in
  single_code v "APFS-CLONE-SHARED-EXTENT".

Definition clone_flag_without_sharing_is_inconsistency : bool :=
  let v := clone_anomalies [] [7] in
  single_code v "APFS-CLONE-FLAG-WITHOUT-SHARING".

(** ** crypto.rs *)

Definition unencrypted_clean_keybag_has_no_findings : bool := is_empty (crypto_anomalies false (lit "encrypted=false") []).

Definition encrypted_volume_is_locked_and_reported : bool :=
  let v := crypto_anomalies true (lit "encrypted=true, tags=[VolumeKey]") [] in
  let c := codes v in
  elem "APFS-ENCRYPTION-LOCKED"%string c && elem "APFS-ENCRYPTION-STATE"%string c.

Definition unknown_tag_yields_keybag_anomaly_with_value : bool :=
  let v := crypto_anomalies true (lit "d") [(0x55, 16)] in
  let_some (_, anomaly) := list_find (fun a => code a = "APFS-ENCRYPTION-KEYBAG-ANOMALY"%string) v in
  contains (note anomaly) (lit "0x55") && contains (note anomaly) (lit "16").

(** ** integrity.rs *)

Definition unique_oids_are_clean : bool :=
  let maps := [(1, 10); (2, 11); (3, 12)] in
  is_empty (duplicate_oid_anomalies maps 5).

Definition same_oid_two_blocks_is_xid_reuse : bool :=
  let maps := [(1, 10); (2, 11); (1, 99)] in
  let v := duplicate_oid_anomalies maps 7 in
  single_code v "APFS-XID-REUSE".

Definition same_oid_same_block_is_not_flagged : bool :=
  let maps := [(1, 10); (1, 10)] in
  is_empty (duplicate_oid_anomalies maps 7).

(** ** recovery.rs *)

Definition no_pending_objects_is_clean : bool := is_empty (reaper_anomalies []).

Definition pending_objects_become_residue_leads : bool :=
  let v := reaper_anomalies [500; 600] in
  assert_eq (blen v) 2 && forallb (fun a => assert_eq (code a) "APFS-REAPER-PENDING-OBJECT"%string) v.

(** ** sealed.rs *)

Definition intact_seal_has_no_findings : bool := is_empty (sealed_anomalies 0).

Definition broken_xid_is_flagged_with_value : bool :=
  let v := sealed_anomalies 42 in
  single_code v "APFS-SEALED-VOLUME-BROKEN" &&
  match v with a :: _ => contains (note a) (lit "42") | [] => false end.

(** ** snapshots.rs *)

Definition ascending_xid_and_time_is_clean : bool := is_empty (snapshot_xid_disorder [(1, 100); (2, 200); (3, 300)]).

Definition later_xid_older_time_is_disorder : bool :=
  let v := snapshot_xid_disorder [(1, 100); (2, 300); (3, 200)] in
  single_code v "APFS-SNAPSHOT-XID-DISORDER".

Definition zero_create_times_are_not_disorder : bool := is_empty (snapshot_xid_disorder [(1, 0); (2, 0)]).

(** ** timestamps.rs *)

Definition all_set_and_ordered_is_clean : bool := is_empty (timestamp_anomalies 7 100 200 300 400).

Definition zeroed_among_siblings_is_flagged : bool :=
  let v := timestamp_anomalies 7 0 200 300 400 in
  assert_eq (codes v) ["APFS-TIMESTAMP-ZEROED"%string].

Definition all_zero_is_not_flagged : bool := is_empty (timestamp_anomalies 7 0 0 0 0).

Definition change_before_create_is_order_lead : bool :=
  let v := timestamp_anomalies 7 300 300 100 300 in
  elem "APFS-TIMESTAMP-ORDER"%string (codes v).

(** ** lib.rs *)

Definition cases : list (AnomalyKind * Severity) :=
  [ (ObjectChecksumMismatch 1 2 3, High);
    (OmapInconsistent 1 2, High);
    (OmapOrphanMapping 1, Info);
    (CheckpointRingMalformed "x", High);
    (CheckpointSupersededState 1, Info);
    (SnapshotXidDisorder 1, Info);
    (SnapshotMissingMetadata (lit "s"), Medium);
    (SnapshotDivergence 1, Info);
    (SealedVolumeHashMismatch 1, High);
    (SealedVolumeBroken 1, High);
    (DeletedInodeRecoverable 1, Medium);
    (DeletedExtentCarveCandidate 1, Low);
    (ReaperPendingObject 1, Low);
    (CloneSharedExtent 1 2, Info);
    (CloneFlagWithoutSharing 1, Low);
    (EncryptionLocked, Info);
    (EncryptionState (lit "d"), Info);
    (EncryptionKeybagAnomaly 0x99 16, Medium);
    (TimestampZeroed 1, Info);
    (TimestampOrder 1, Info);
    (XidReuse 1 2, High);
    (OrphanInode 1, Low);
    (VolumeRoleMismatch (lit "r"), Info) ].

(** [<AnomalyKind as Observation>::code] *)
Definition Observation_code (a : AnomalyKind) : string := code a.

Definition severity_matches_design_table : bool :=
  forallb (fun '(k, want) =>
    let inherent := code k in
    let observed := Observation_code k in
    assert_eq inherent observed && String.prefix "APFS-" inherent && negb (is_empty (note k)) && assert_eq (severity k) (Some want)) cases.

Definition note_carries_raw_offending_values : bool :=
  let n := note (ObjectChecksumMismatch 4660 0xaa 0xbb) in
  (contains n (lit "4660") && contains n (lit "aa") && contains n (lit "bb")) &&
  (let n := note (EncryptionKeybagAnomaly 0x7f 64) in contains n (lit "0x7f") && contains n (lit "64")) &&
  contains (note (SnapshotMissingMetadata (lit "APFSP5.snap1"))) (lit "APFSP5.snap1").

(** [str::to_lowercase] of ASCII text. *)
Definition to_lowercase (s : bytes) : bytes :=
  map (fun b => if (65 <=? b2z b) && (b2z b <=? 90) then z2b (b2z b + 32) else b) s.

Definition notes_are_observations_not_verdicts : bool :=
  let n := to_lowercase (note (SealedVolumeHashMismatch 5)) in
  negb (contains n (lit "proves")) && negb (contains n (lit "confirms")) && negb (contains n (lit "modified by")).

Definition forensic_suite : list bool :=
  [ no_sharing_no_flags_is_clean; shared_extent_is_a_provenance_link; clone_flag_without_sharing_is_inconsistency;
    unencrypted_clean_keybag_has_no_findings; encrypted_volume_is_locked_and_reported; unknown_tag_yields_keybag_anomaly_with_value;
    unique_oids_are_clean; same_oid_two_blocks_is_xid_reuse; same_oid_same_block_is_not_flagged;
    no_pending_objects_is_clean; pending_objects_become_residue_leads;
    intact_seal_has_no_findings; broken_xid_is_flagged_with_value;
    ascending_xid_and_time_is_clean; later_xid_older_time_is_disorder; zero_create_times_are_not_disorder;
    all_set_and_ordered_is_clean; zeroed_among_siblings_is_flagged; all_zero_is_not_flagged; change_before_create_is_order_lead;
    severity_matches_design_table; note_carries_raw_offending_values; notes_are_observations_not_verdicts ].

(** Every one of these tests holds of the model. *)
Lemma forensic_suite_passes : Forall (fun passed => passed = true) forensic_suite.
Proof. repeat (apply Forall_cons; split; [vm_compute; reflexivity|]). apply Forall_nil_2. Qed.

(** ** The table of grades *)

(** The table settles every anomaly: exactly one row has its code, the row's grade is the anomaly's, the code carries the scheme's prefix, and
    the note is not empty, whatever values the anomaly holds. *)
Theorem design_table_complete (a : AnomalyKind) :
  severity a = snd <$> (snd <$> list_find (fun row => code row.1 = code a) cases) /\
  length (filter (fun row => code row.1 = code a) cases) = 1%nat /\
  String.prefix "APFS-" (code a) = true /\ note a <> [].
Proof. split_and!; [by destruct a..|]. destruct a; cbn [note]; discriminate. Qed.
