(* ===== verification/TestsContainer.v ===== *)
(** The integration tests over the stored containers: core/tests/object.rs, container.rs, checkpoint.rs, container_open.rs, omap.rs, btree.rs,
    btree_descend.rs, volume_resolve.rs, reaper.rs, spaceman.rs and forensic/tests/audit.rs.

    The images were written by Apple's own tools, and the expected values checked by their authors against independent readers of the format: that the model
    computes them is evidence about its definitions that no theorem between them can give.  The tests run in a debug build, where
    arithmetic traps.  The container is opened once ([chain_opens]) and the count over every block of the device follows from the shape of its bitmap
    ([chain_block_free]) instead of thirty thousand queries. *)

From Stdlib Require Import Strings.String.
From S2P Require Import Prelude Bytes Errors Reader Object Container Checkpoint Walk BTree Omap ApfsContainer Spaceman Reaper Format TestKit Fixture FixtureData Report Analyzer.

Set Warnings "-register-all".

(** ** object.rs *)

Definition head_block (n : Z) : bytes := disk_block HEAD n.

Definition obj_phys_header_decodes_real_nxsb_block0 : bool :=
  let_some h := ObjPhys_parse (head_block 0) in
  assert_eq (o_cksum h) 0x2d03fdf65e3db5e6 && assert_eq (o_oid h) 1 && assert_eq (o_xid h) 2 &&
  assert_eq (o_type_raw h) 0x80000001 && assert_eq (o_subtype h) 0 && assert_eq (obj_type h) 1.

Definition obj_phys_parse_rejects_short_slice : bool := is_none (ObjPhys_parse (zeroed (OBJ_PHYS_LEN - 1))) && is_none (ObjPhys_parse []).

Definition fletcher64_recomputes_real_stored_checksum_block0 : bool :=
  let blk := head_block 0 in
  let stored := le_u64 blk 0 in
  assert_eq stored 0x2d03fdf65e3db5e6 && assert_eq (fletcher64_checksum blk) stored.

(** The loop over the blocks: [None] once an assertion fails, else how many objects were checked. *)
Definition check_object (checked : option Z) (n : Z) : option Z :=
  match checked with
  | None => None
  | Some checked =>
      let blk := head_block n in
      let stored := le_u64 blk 0 in
      let oid := le_u64 blk 8 in
      if (stored =? 0) && (oid =? 0) then Some checked
      else if fletcher64_checksum blk =? stored then Some (checked + 1) else None
  end.
Definition fletcher64_validates_every_real_object_in_the_descriptor_ring : bool :=
  let_some checked := foldl check_object (Some 0) (range (dk_count HEAD)) in 10 <=? checked.

Definition fletcher64_detects_a_corrupted_object : bool :=
  let blk := head_block 0 in
  let stored := le_u64 blk 0 in
  assert_ne (fletcher64_checksum (flip_byte blk 100)) stored.

(** ** container.rs *)

Definition head_uuid : bytes := [x40; x11; x50; x33; x95; x23; x44; x96; x96; xa2; x0e; xda; xde; xec; xa5; x65].

Definition nxsb_magic_constant_is_nxsb_little_endian : bool :=
  assert_eq NX_MAGIC 0x4253584E && assert_eq (to_le_bytes 4 NX_MAGIC) (lit "NXSB").

Definition parse_decodes_real_container_geometry : bool :=
  let_ok nx := NxSuperblock_parse (head_block 0) in
  assert_eq (nx_block_size nx) 4096 && assert_eq (nx_block_count nx) 32758 && assert_eq (nx_xid nx) 2 &&
  assert_eq (nx_omap_oid nx) 343 && assert_eq (nx_fs_oids nx) [1026] && assert_eq (nx_uuid nx) head_uuid.

Definition parse_decodes_checkpoint_area_fields : bool :=
  let_ok nx := NxSuperblock_parse (head_block 0) in
  assert_eq (xp_desc_base nx) 1 && assert_eq (xp_desc_blocks nx) 8 && assert_eq (xp_data_base nx) 9 && assert_eq (xp_data_blocks nx) 304 &&
  negb (xp_desc_is_tree nx) && negb (xp_data_is_tree nx).

Definition parse_rejects_bad_magic_loudly : bool :=
  match NxSuperblock_parse (flip_byte (head_block 0) 32) with
  | Err (NoValidSuperblock _ last_magic) => assert_ne last_magic NX_MAGIC
  | _ => false
  end.

Definition parse_rejects_bad_checksum_loudly : bool :=
  match NxSuperblock_parse (flip_byte (head_block 0) 200) with
  | Err (ChecksumMismatch _ stored computed) => assert_ne stored computed
  | _ => false
  end.

Definition parse_rejects_short_block_without_panicking : bool := is_err (NxSuperblock_parse (zeroed 64)) && is_err (NxSuperblock_parse []).

(** ** checkpoint.rs *)

Definition resolve_picks_highest_valid_xid_superblock : bool :=
  let_ok bootstrap := NxSuperblock_parse (head_block 0) in
  let_ok live := resolve_live_checkpoint OverflowTraps HEAD bootstrap in
  assert_eq (live_xid live) 2 && assert_eq (superblock_paddr live) 4.

Definition resolved_superblock_reparses_consistently : bool :=
  let_ok bootstrap := NxSuperblock_parse (head_block 0) in
  let_ok live := resolve_live_checkpoint OverflowTraps HEAD bootstrap in
  let off := superblock_paddr live * BLOCK_SIZE in
  let_some block := disk_read HEAD off BLOCK_SIZE in
  let_ok chosen := NxSuperblock_parse block in
  assert_eq (nx_xid chosen) (live_xid live) && assert_eq (nx_omap_oid chosen) 343 && assert_eq (nx_fs_oids chosen) [1026] &&
  assert_eq (nx_block_size chosen) 4096.

(** [blk[104..108]] and [blk[112..120]] set and the checksum recomputed. *)
Definition with_ring (blocks base : Z) : bytes := stamp (put (put (head_block 0) 104 (to_le_bytes 4 blocks)) 112 (to_le_bytes 8 base)).

Definition empty_descriptor_ring_fails_loud_not_empty_ok : bool :=
  let_ok bootstrap := NxSuperblock_parse (with_ring 1 15) in
  match resolve_live_checkpoint OverflowTraps HEAD bootstrap with
  | Err (NoValidSuperblock checked _) => 1 <=? checked
  | _ => false
  end.

Definition tree_backed_descriptor_area_is_rejected_loudly : bool :=
  let blk := head_block 0 in
  let raw := Z.lor (le_u32 blk 104) 0x80000000 in
  let_ok bootstrap := NxSuperblock_parse (stamp (put blk 104 (to_le_bytes 4 raw))) in
  xp_desc_is_tree bootstrap && is_err (resolve_live_checkpoint OverflowTraps HEAD bootstrap).

Definition descriptor_blocks_past_the_image_end_are_skipped_not_fatal : bool :=
  let_ok bootstrap := NxSuperblock_parse (with_ring 2 10000) in
  match resolve_live_checkpoint OverflowTraps HEAD bootstrap with Err (NoValidSuperblock _ _) => true | _ => false end.

Definition out_of_range_block_size_is_rejected_loudly : bool :=
  let_ok bootstrap := NxSuperblock_parse (stamp (put (head_block 0) 36 (to_le_bytes 4 131072))) in
  assert_eq (nx_block_size bootstrap) 131072 &&
  match resolve_live_checkpoint OverflowTraps HEAD bootstrap with
  | Err (FieldOutOfRange _ field value _) => assert_eq field "nx_block_size"%string && assert_eq value 131072
  | _ => false
  end.

(** ** container_open.rs *)

Definition FUSION_BIT : Z := 0x100.
Definition OFF_INCOMPAT : Z := 64.
Definition with_fusion_bit (image : disk) : disk :=
  let img := disk_block image 0 in
  let feats := Z.lor (le_u64 img OFF_INCOMPAT) FUSION_BIT in
  let img := put img OFF_INCOMPAT (to_le_bytes 8 feats) in
  set_block image 0 (stamp img).

Definition open_resolves_live_superblock_geometry : bool :=
  let_ok container := ApfsContainer_open OverflowTraps HEAD in
  let nx := ac_superblock container in
  assert_eq (nx_block_size nx) 4096 && assert_eq (nx_block_count nx) 32758 && assert_eq (nx_xid nx) 2 && assert_eq (nx_omap_oid nx) 343 &&
  assert_eq (nx_fs_oids nx) [1026] && assert_eq (nx_uuid nx) head_uuid && assert_eq (ac_live_superblock_paddr container) 4.

Definition open_fails_loud_on_fusion_container : bool :=
  match ApfsContainer_open OverflowTraps (with_fusion_bit HEAD) with Err UnsupportedFusion => true | _ => false end.

Definition open_does_not_flag_real_non_fusion_container : bool :=
  match ApfsContainer_open OverflowTraps HEAD with Ok _ => true | _ => false end.

Definition resolves_ephemeral_spaceman_and_reaper_paddrs : bool :=
  let_ok container := ApfsContainer_open OverflowTraps CHAIN in
  assert_eq (spaceman_paddr container) (Some 11) && assert_eq (reaper_paddr container) (Some 12) &&
  let maps := ac_checkpoint_mappings container in
  existsb (fun m => cpm_paddr m =? 11) maps && existsb (fun m => cpm_paddr m =? 12) maps.

Definition open_fails_loud_on_garbage_source : bool :=
  let garbage := zeroed (4096 * 2) in is_err (ApfsContainer_open OverflowTraps (image garbage)).
Definition open_fails_loud_on_truncated_source : bool :=
  let tiny := zeroed 16 in is_err (ApfsContainer_open OverflowTraps (image tiny)).

(** ** omap.rs *)

Definition chain_block (idx : Z) : bytes := disk_block CHAIN idx.

Definition parse_container_omap_phys_header : bool :=
  let_ok omap := ObjectMap_parse (chain_block 343) in
  assert_eq (om_tree_oid omap) 344 && assert_eq (Z.land (om_tree_type omap) 0xffff) 2 && assert_eq (om_flags omap) 1 &&
  assert_eq (om_snapshot_tree_oid omap) 0.
Definition parse_rejects_non_omap_block : bool := is_err (ObjectMap_parse (chain_block 342)).
Definition omap_parse_rejects_short_block : bool := is_err (ObjectMap_parse (zeroed 16)).
Definition omap_parse_rejects_checksum_mismatch : bool := is_err (ObjectMap_parse (flip_byte (chain_block 343) 100)).

(** ** btree.rs *)

Definition parse_omap_root_node_header : bool :=
  let_some hdr := parse_node_header (chain_block 344) in
  assert_eq (btn_nkeys hdr) 1 && assert_eq (btn_level hdr) 0 && is_leaf hdr && is_root hdr && is_fixed_kv hdr.

(** The closures of the tests index their sixteen-byte keys and values; the readers of [Bytes] agree with them there. *)
Definition iterate_omap_root_entries_fixed_layout : bool :=
  match node_entries (chain_block 344) SubtypeOmap with
  | [e] =>
      assert_eq (blen (key e)) 16 && assert_eq (blen (value e)) 16 && assert_eq (le_u64 (key e) 0) 1026 &&
      assert_eq (le_u64 (key e) 8) 2 && assert_eq (le_u64 (value e) 8) 342
  | _ => false
  end.
Definition parse_node_header_rejects_short_block : bool := is_none (parse_node_header (zeroed 16)).
Definition node_entries_on_garbage_is_empty_not_panic : bool :=
  let blk := put (zeroed BLOCK_SIZE) 32 (to_le_bytes 2 0x4) in
  let blk := put blk 36 (to_le_bytes 4 0xffffffff) in
  blen (node_entries blk SubtypeOmap) <? BLOCK_SIZE.

(** ** btree_descend.rs *)

Definition see_mapping (k v : bytes) (seen : list (Z * Z * Z)) : list (Z * Z * Z) := seen ++ [(le_u64 k 0, le_u64 k 8, le_u64 v 8)].
Definition descend_real_omap_tree_visits_single_leaf_entry : bool :=
  match for_each_leaf_entry CHAIN BLOCK_SIZE SubtypeOmap see_mapping 344 [] with
  | (seen, Ok _) => assert_eq seen [(1026, 2, 342)]
  | _ => false
  end.

(** [img[344 * BLOCK_SIZE + 100] ^= 0xff] *)
Definition ignore_entry (k v : bytes) (st : unit) : unit := st.
Definition descend_rejects_checksum_mismatch_node : bool :=
  let img := set_block CHAIN 344 (flip_byte (chain_block 344) 100) in
  match (for_each_leaf_entry img BLOCK_SIZE SubtypeOmap ignore_entry 344 tt).2 with Err (ChecksumMismatch _ _ _) => true | _ => false end.

Definition ROOT : Z := 0x1.
Definition LEAF : Z := 0x2.
Definition FIXED : Z := 0x4.

(** The loop of [fixed_node]. *)
Fixpoint put_fixed (toc_start key_area val_base i koff voff : Z) (entries : list (bytes * bytes)) (node : bytes) : bytes :=
  match entries with
  | [] => node
  | (key, val) :: entries =>
      let voff := voff + blen val in
      let e := toc_start + i * 4 in
      let node := put node e (to_le_bytes 2 koff) in
      let node := put node (e + 2) (to_le_bytes 2 voff) in
      let node := put node (key_area + koff) key in
      let node := put node (val_base - voff) val in
      put_fixed toc_start key_area val_base (i + 1) (koff + blen key) voff entries node
  end.
Definition fixed_node (flags level : Z) (entries : list (bytes * bytes)) : bytes :=
  let node := zeroed BLOCK_SIZE in
  let nkeys := blen entries in
  let node := put node 32 (to_le_bytes 2 flags) in
  let node := put node 34 (to_le_bytes 2 level) in
  let node := put node 36 (to_le_bytes 4 nkeys) in
  let toc_len := nkeys * 4 in
  let node := put node 40 (to_le_bytes 2 0) in
  let node := put node 42 (to_le_bytes 2 toc_len) in
  let toc_start := 56 in
  let key_area := toc_start + toc_len in
  let val_base := if negb (Z.land flags ROOT =? 0) then BLOCK_SIZE - 40 else BLOCK_SIZE in
  let node := put_fixed toc_start key_area val_base 0 0 0 entries node in
  stamp node.

Definition omap_key (oid xid : Z) : bytes := to_le_bytes 8 oid ++ to_le_bytes 8 xid.
Definition omap_leaf_val (paddr : Z) : bytes := zeroed 8 ++ to_le_bytes 8 paddr.

Definition multilevel_image : bytes :=
  let leaf1 := fixed_node (Z.lor LEAF FIXED) 0 [(omap_key 10 1, omap_leaf_val 111)] in
  let leaf2 := fixed_node (Z.lor LEAF FIXED) 0 [(omap_key 20 1, omap_leaf_val 222)] in
  let root := fixed_node (Z.lor ROOT FIXED) 1 [(omap_key 10 1, to_le_bytes 8 1); (omap_key 20 1, to_le_bytes 8 2)] in
  root ++ leaf1 ++ leaf2.

(** [(oid, xid).cmp(&target)] on pairs. *)
Definition pair_cmp (a b : Z * Z) : comparison := match a.1 ?= b.1 with Eq => a.2 ?= b.2 | c => c end.
Definition probe (img : bytes) (target : Z * Z) : list (Z * Z) * result unit :=
  find_leaf (image img) BLOCK_SIZE SubtypeOmap (fun k v seen => seen ++ [(le_u64 k 0, le_u64 v 8)])
    (fun k => pair_cmp (le_u64 k 0, le_u64 k 8) target) 0 [].
Definition find_leaf_descends_to_the_correct_child_in_a_multilevel_tree : bool :=
  let seen20 := probe multilevel_image (20, 1) in
  let seen10 := probe multilevel_image (10, 1) in
  let_ok _ := seen20.2 in let_ok _ := seen10.2 in assert_eq seen20.1 [(20, 222)] && assert_eq seen10.1 [(10, 111)].

(** An index node whose only child is itself. *)
Definition self_cycle_image : bytes :=
  let node := zeroed BLOCK_SIZE in
  let node := put node 32 (to_le_bytes 2 (Z.lor 0x1 0x4)) in
  let node := put node 34 (to_le_bytes 2 1) in
  let node := put node 36 (to_le_bytes 4 1) in
  let node := put node 40 (to_le_bytes 2 0) in
  let node := put node 42 (to_le_bytes 2 4) in
  let node := put node 56 (to_le_bytes 2 0) in
  let node := put node 58 (to_le_bytes 2 8) in
  let val_base := BLOCK_SIZE - 40 in
  let node := put node (val_base - 8) (to_le_bytes 8 0) in
  stamp node ++ zeroed BLOCK_SIZE.
Definition descend_guards_against_self_cycle : bool :=
  match (for_each_leaf_entry (image self_cycle_image) BLOCK_SIZE SubtypeOmap ignore_entry 0 tt).2 with Err (CycleGuard _) => true | _ => false end.
Definition find_leaf_guards_against_self_cycle : bool :=
  match (find_leaf (image self_cycle_image) BLOCK_SIZE SubtypeOmap ignore_entry (fun _ => Eq) 0 tt).2 with Err (CycleGuard _) => true | _ => false end.

Definition multilevel_omap : bytes :=
  let om := zeroed BLOCK_SIZE in
  let om := put om 24 (to_le_bytes 4 0xb) in
  let om := put om 48 (to_le_bytes 8 1) in
  let leaf_lo := fixed_node (Z.lor LEAF FIXED) 0 [(omap_key 10 5, omap_leaf_val 111)] in
  let leaf_hi := fixed_node (Z.lor LEAF FIXED) 0 [(omap_key 20 5, omap_leaf_val 222)] in
  let root := fixed_node (Z.lor ROOT FIXED) 1 [(omap_key 10 5, to_le_bytes 8 2); (omap_key 20 5, to_le_bytes 8 3)] in
  stamp om ++ root ++ leaf_lo ++ leaf_hi.
Definition object_map_resolve_descends_a_multilevel_tree : bool :=
  let img := multilevel_omap in
  let_some block0 := get_range img 0 BLOCK_SIZE in
  let_ok omap := ObjectMap_parse block0 in
  let_ok entry := omap_resolve omap (image img) 20 5 BLOCK_SIZE in
  assert_eq (oe_paddr entry) 222 && assert_eq (oe_oid entry, oe_xid entry) (20, 5) &&
  match omap_resolve omap (image img) 99 5 BLOCK_SIZE with Err (OmapUnresolved oid _) => assert_eq oid 99 | _ => false end.

(** ** volume_resolve.rs *)

Definition resolve_single_volume_superblock_address : bool :=
  let_ok container := ApfsContainer_open OverflowTraps CHAIN in
  let_ok addrs := volume_superblock_addrs container in assert_eq addrs [342].

Definition resolved_block_carries_apsb_magic_and_valid_checksum : bool :=
  let_ok container := ApfsContainer_open OverflowTraps CHAIN in
  let_ok addrs := volume_superblock_addrs container in
  match addrs with
  | [paddr] =>
      let_some block := disk_read CHAIN (paddr * BLOCK_SIZE) BLOCK_SIZE in
      assert_eq (le_u32 block 32) 0x42535041 && assert_eq (le_u64 block 0) (fletcher64_checksum block)
  | _ => false
  end.

Definition resolve_is_consistent_across_calls : bool :=
  let_ok container := ApfsContainer_open OverflowTraps CHAIN in
  let_ok a := volume_superblock_addrs container in
  let_ok b := volume_superblock_addrs container in assert_eq a b.

(** ** reaper.rs *)

Definition REAPER_BLOCK : Z := 12.
Definition empty_reaper_has_no_pending_objects : bool :=
  let_ok pending := pending_objects CHAIN [] BLOCK_SIZE REAPER_BLOCK in match pending with [] => true | _ => false end.

(** ** spaceman.rs *)

Definition SPACEMAN_BLOCK : Z := 11.
Definition allocated_blocks_report_not_free : bool :=
  forallb (fun b => let_ok free := is_block_free CHAIN BLOCK_SIZE SPACEMAN_BLOCK b in negb free) [0; 11; 12; 331; 332; 342; 343; 344].
Definition free_blocks_report_free : bool :=
  forallb (fun b => let_ok free := is_block_free CHAIN BLOCK_SIZE SPACEMAN_BLOCK b in free) [345; 346; 1000; 30000; 32757].

(** The loop counts; [None] when a query fails. *)
Definition count_allocated (allocated : option Z) (b : Z) : option Z :=
  match allocated, is_block_free CHAIN BLOCK_SIZE SPACEMAN_BLOCK b with
  | Some allocated, Ok free => Some (if negb free then allocated + 1 else allocated)
  | _, _ => None
  end.
Definition free_count_matches_spaceman_accounting : bool :=
  let block_count := 32758 in
  let_some allocated := foldl count_allocated (Some 0) (range block_count) in assert_eq allocated 345.

(** ** forensic/tests/audit.rs *)

Definition audit_container_on_clean_fixture_has_no_high_anomalies : bool :=
  let_ok findings := audit_container OverflowTraps CHAIN BLOCK_SIZE in
  match List.filter (fun f => bool_decide (severity f = Some High)) findings with [] => true | _ => false end.

(** ** The stored containers *)

Definition head_superblock : NxSuperblock :=
  {| nx_xid := 2; nx_uuid := head_uuid; nx_block_size := 4096;
     nx_block_count := 32758; nx_incompatible_features := 2; xp_desc_base := 1; xp_desc_blocks := 8; xp_data_base := 9; xp_data_blocks := 304;
     nx_omap_oid := 343; nx_spaceman_oid := 1024; nx_reaper_oid := 1025; nx_fs_oids := [1026]; desc_is_tree := false; data_is_tree := false |}.
Definition head_live : LiveCheckpoint :=
  {| superblock_paddr := 4; live_xid := 2; mappings :=
    [ {| cpm_oid := 1024; cpm_paddr := 11; cpm_type := 0x80000005; cpm_subtype := 0 |};
      {| cpm_oid := 1025; cpm_paddr := 12; cpm_type := 0x80000011; cpm_subtype := 0 |};
      {| cpm_oid := 1027; cpm_paddr := 13; cpm_type := 0x80000002; cpm_subtype := 9 |};
      {| cpm_oid := 1029; cpm_paddr := 14; cpm_type := 0x80000002; cpm_subtype := 9 |} ] |}.

Lemma head_parses : NxSuperblock_parse (head_block 0) = Ok head_superblock.
Proof. vm_refl. Qed.
Lemma head_resolves : resolve_live_checkpoint OverflowTraps HEAD head_superblock = Ok head_live.
Proof. vm_refl. Qed.
Lemma head_live_parses : disk_read HEAD (4 * BLOCK_SIZE) BLOCK_SIZE = Some (head_block 4) /\ NxSuperblock_parse (head_block 4) = Ok head_superblock.
Proof. split; vm_refl. Qed.
Lemma head_opens :
  ApfsContainer_open OverflowTraps HEAD =
  Ok {| ac_reader := HEAD; ac_superblock := head_superblock; ac_live_superblock_paddr := 4; ac_checkpoint_mappings := mappings head_live |}.
Proof. vm_refl. Qed.

Definition chain_superblock : NxSuperblock :=
  {| nx_xid := 2; nx_uuid := [xc1; xea; x5d; x3f; x05; xc6; x44; xf8; xa9; x55; x60; x46; x4f; xef; xab; x10]; nx_block_size := 4096;
     nx_block_count := 32758; nx_incompatible_features := 2; xp_desc_base := 1; xp_desc_blocks := 8; xp_data_base := 9; xp_data_blocks := 304;
     nx_omap_oid := 343; nx_spaceman_oid := 1024; nx_reaper_oid := 1025; nx_fs_oids := [1026]; desc_is_tree := false; data_is_tree := false |}.
Definition chain_mappings : list CheckpointMapping :=
  [ {| cpm_oid := 1024; cpm_paddr := 11; cpm_type := 0x80000005; cpm_subtype := 0 |};
    {| cpm_oid := 1025; cpm_paddr := 12; cpm_type := 0x80000011; cpm_subtype := 0 |};
    {| cpm_oid := 1027; cpm_paddr := 13; cpm_type := 0x80000002; cpm_subtype := 9 |};
    {| cpm_oid := 1029; cpm_paddr := 14; cpm_type := 0x80000002; cpm_subtype := 9 |} ].
Definition chain_container : ApfsContainer disk :=
  {| ac_reader := CHAIN; ac_superblock := chain_superblock; ac_live_superblock_paddr := 4; ac_checkpoint_mappings := chain_mappings |}.

Lemma chain_opens : ApfsContainer_open OverflowTraps CHAIN = Ok chain_container.
Proof. vm_refl. Qed.

Lemma chain_volumes : volume_superblock_addrs chain_container = Ok [342].
Proof. vm_refl. Qed.

(** *** Its space manager *)

Lemma chain_spaceman : read_obj_block CHAIN BLOCK_SIZE SPACEMAN_BLOCK = Ok (chain_block 11).
Proof. vm_refl. Qed.
Lemma chain_cib : read_obj_block CHAIN BLOCK_SIZE 331 = Ok (chain_block 331).
Proof. vm_refl. Qed.
Lemma chain_geometry :
  blocks_per_chunk (chain_block 11) = 32768 /\ chunks_per_cib (chain_block 11) = 126 /\ block_count (chain_block 11) = 32758 /\
  cab_count (chain_block 11) = 0 /\ chunk_count (chain_block 11) = 1 /\ cib_count (chain_block 11) = 1 /\
  cib_paddr (chain_block 11) 0 = 331 /\ ci_count (chain_block 331) = 1 /\ bitmap_addr (chain_block 331) 0 = 332.
Proof. split_and!; vm_refl. Qed.

(** The bitmap: 345 ones. *)
Definition chain_bitmap : bytes := replicate 43 xff ++ [x01] ++ replicate (Z.to_nat 4052) x00.
Lemma chain_bitmap_read : read_at CHAIN (saturating_mul 332 BLOCK_SIZE) BLOCK_SIZE = Ok chain_bitmap.
Proof. vm_refl. Qed.

Lemma bit_set_ones k : 0 <= k < 8 -> bit_set xff k = true.
Proof. intros Hk. assert (k ∈ seqZ 0 8) as Hin by (apply elem_of_seqZ; lia). repeat (apply elem_of_cons in Hin as [->|Hin]; [done|]). by apply not_elem_of_nil in Hin. Qed.
Lemma bit_set_one k : 0 <= k < 8 -> bit_set x01 k = (k =? 0).
Proof. intros Hk. assert (k ∈ seqZ 0 8) as Hin by (apply elem_of_seqZ; lia). repeat (apply elem_of_cons in Hin as [->|Hin]; [done|]). by apply not_elem_of_nil in Hin. Qed.

Lemma chain_bit b : 0 <= b < 32768 ->
  match get_index chain_bitmap (b / 8) with Some x => bit_set x (b mod 8) | None => false end = (b <? 345).
Proof.
  intros Hb. assert (b = 8 * (b / 8) + b mod 8) as He by (apply Z.div_mod; lia). pose proof (Z.mod_pos_bound b 8) as Hm.
  assert (0 <= b / 8 < 4096) as Hq by lia. set (q := b / 8) in *. set (k := b mod 8) in *. unfold get_index.
  rewrite (proj2 (Z.leb_le 0 q)) by lia. unfold chain_bitmap.
  destruct (Z.lt_ge_cases q 43) as [Hlt|Hge].
  - rewrite lookup_app_l by (rewrite length_replicate; lia). rewrite lookup_replicate_2 by lia. rewrite bit_set_ones by lia. lia.
  - rewrite lookup_app_r by (rewrite length_replicate; lia). rewrite length_replicate.
    destruct (decide (q = 43)) as [Hq'|Hne].
    + replace (Z.to_nat q - 43)%nat with 0%nat by lia. cbn [lookup list_lookup app]. rewrite bit_set_one by lia. lia.
    + replace (Z.to_nat q - 43)%nat with (S (Z.to_nat (q - 44))) by lia. cbn [app lookup list_lookup].
      change (match replicate (Z.to_nat 4052) x00 !! Z.to_nat (q - 44) with Some x => bit_set x k | None => false end = (b <? 345)).
      rewrite lookup_replicate_2 by lia. transitivity false; [|lia]. unfold bit_set. cbn [b2z]. by rewrite Z.land_0_l.
Qed.

(** What the device says of every block. *)
Lemma chain_block_free b : 0 <= b < 32758 -> is_block_free CHAIN BLOCK_SIZE SPACEMAN_BLOCK b = Ok (345 <=? b).
Proof.
  intros Hb. unfold is_block_free. rewrite chain_spaceman. cbn [mbind outcome_bind].
  destruct chain_geometry as (-> & -> & -> & -> & -> & -> & E1 & E2 & E3).
  change ((32768 =? 0) || (126 =? 0)) with false. cbn iota. rewrite (proj2 (Z.leb_gt 32758 b)) by lia. cbn [negb Z.eqb].
  rewrite (Z.div_small b 32768) by lia. cbn [Z.leb Z.compare]. change (0 / 126) with 0. change (0 mod 126) with 0. cbn [Z.leb Z.compare].
  rewrite E1, chain_cib. cbn [mbind outcome_bind]. rewrite E2, E3. cbn [Z.leb Z.compare Z.eqb].
  rewrite chain_bitmap_read. cbn [mbind outcome_bind]. rewrite (Z.mod_small b 32768) by lia. rewrite chain_bit by lia. f_equal. lia.
Qed.

(** The count over the whole device. *)
Lemma count_allocated_upto n :
  0 <= n <= 32758 -> foldl count_allocated (Some 0) (range n) = Some (Z.min n 345).
Proof.
  intros [Hn Hl]. revert Hl. pattern n. revert n Hn. apply natlike_ind; [done|]. intros n Hn IH Hl.
  unfold range. rewrite <-Z.add_1_r, seqZ_app, foldl_app by lia. fold (range n). rewrite IH by lia.
  rewrite seqZ_1. cbn [foldl]. unfold count_allocated. rewrite chain_block_free by lia.
  f_equal. destruct (Z.leb_spec 345 (0 + n)); cbn [negb]; lia.
Qed.

(** ** The suites *)

Definition head_suite : list bool :=
  [ obj_phys_header_decodes_real_nxsb_block0; obj_phys_parse_rejects_short_slice; fletcher64_recomputes_real_stored_checksum_block0;
    fletcher64_validates_every_real_object_in_the_descriptor_ring; fletcher64_detects_a_corrupted_object;
    nxsb_magic_constant_is_nxsb_little_endian; parse_decodes_real_container_geometry; parse_decodes_checkpoint_area_fields;
    parse_rejects_bad_magic_loudly; parse_rejects_bad_checksum_loudly; parse_rejects_short_block_without_panicking;
    resolve_picks_highest_valid_xid_superblock; resolved_superblock_reparses_consistently; empty_descriptor_ring_fails_loud_not_empty_ok;
    tree_backed_descriptor_area_is_rejected_loudly; descriptor_blocks_past_the_image_end_are_skipped_not_fatal;
    out_of_range_block_size_is_rejected_loudly; open_resolves_live_superblock_geometry; open_fails_loud_on_fusion_container;
    open_does_not_flag_real_non_fusion_container; open_fails_loud_on_garbage_source; open_fails_loud_on_truncated_source ].
Lemma head_suite_passes : Forall (fun passed => passed = true) head_suite.
Proof.
  unfold head_suite, parse_decodes_real_container_geometry, parse_decodes_checkpoint_area_fields, resolve_picks_highest_valid_xid_superblock,
    resolved_superblock_reparses_consistently, open_resolves_live_superblock_geometry, open_does_not_flag_real_non_fusion_container.
  rewrite head_opens, head_parses. cbn [expecting]. rewrite head_resolves. cbn [expecting superblock_paddr head_live].
  destruct head_live_parses as [-> H4]. cbn [expecting_some]. rewrite H4. run_suite.
Qed.

Definition node_suite : list bool :=
  [ parse_container_omap_phys_header; parse_rejects_non_omap_block; omap_parse_rejects_short_block; omap_parse_rejects_checksum_mismatch;
    parse_omap_root_node_header; iterate_omap_root_entries_fixed_layout; parse_node_header_rejects_short_block;
    node_entries_on_garbage_is_empty_not_panic; descend_real_omap_tree_visits_single_leaf_entry; descend_rejects_checksum_mismatch_node;
    find_leaf_descends_to_the_correct_child_in_a_multilevel_tree; descend_guards_against_self_cycle; find_leaf_guards_against_self_cycle;
    object_map_resolve_descends_a_multilevel_tree ].

(** The loop over the claimed keys ends at its first entry: evaluated by need, since the range of the claimed keys is never built. *)
Lemma garbage_node_passes : node_entries_on_garbage_is_empty_not_panic = true.
Proof. lazy. reflexivity. Qed.
Lemma node_suite_passes : Forall (fun passed => passed = true) node_suite.
Proof. unfold node_suite. rewrite garbage_node_passes. run_suite. Qed.

Definition chain_suite : list bool :=
  [ resolves_ephemeral_spaceman_and_reaper_paddrs; resolve_single_volume_superblock_address;
    resolved_block_carries_apsb_magic_and_valid_checksum; resolve_is_consistent_across_calls; empty_reaper_has_no_pending_objects;
    allocated_blocks_report_not_free; free_blocks_report_free; free_count_matches_spaceman_accounting;
    audit_container_on_clean_fixture_has_no_high_anomalies ].
Lemma chain_suite_passes : Forall (fun passed => passed = true) chain_suite.
Proof.
  unfold chain_suite, resolves_ephemeral_spaceman_and_reaper_paddrs, resolve_single_volume_superblock_address,
    resolved_block_carries_apsb_magic_and_valid_checksum, resolve_is_consistent_across_calls, allocated_blocks_report_not_free,
    free_blocks_report_free, free_count_matches_spaceman_accounting.
  rewrite chain_opens. cbn [expecting]. rewrite chain_volumes. cbn [expecting forallb]. rewrite !chain_block_free by lia.
  rewrite count_allocated_upto by lia. run_suite.
Qed.
