(* ===== verification/TestsTree.v ===== *)
(** The integration tests over the stored file tree (core/tests/volume.rs, dir.rs, inode.rs) and over hand-built trees and records (dir.rs, fsrecord.rs).

    The stored volume is decoded once: [fstree_is_tree] says that its file-system tree is the one leaf of [fstree_records], and the tests follow from
    what [Dir] proves of listings, lookups and paths on any tree.  [fs_flags_is_a_time] is what the image says of the field the parser calls the volume's flags. *)

From Stdlib Require Import Strings.String.
From S2P Require Import Prelude Bytes Errors Reader Object Walk BTree NodeLayout Omap FsRecord Encryption Volume Inode Dir Format TestKit Fixture FixtureData.

Set Warnings "-register-all".

Definition fstree_block (idx : Z) : bytes := disk_block FSTREE idx.

(** ** volume.rs *)

Definition parse_apsb_magic_and_tree_oids : bool :=
  let_ok v := ApfsVolume_parse (fstree_block 371) in
  assert_eq APFS_MAGIC 0x42535041 && assert_eq (vol_omap_oid v) 366 && assert_eq (vol_root_tree_oid v) 1028.
Definition parse_apsb_name_and_role : bool :=
  let_ok v := ApfsVolume_parse (fstree_block 371) in assert_eq (vol_name v) (lit "APFSP3").
Definition parse_apsb_fs_index : bool :=
  let_ok v := ApfsVolume_parse (fstree_block 371) in assert_eq (vol_fs_index v) 0.

Definition parse_apsb_rejects_wrong_magic : bool :=
  let b := put (fstree_block 371) 32 (lit "XXXX") in
  match ApfsVolume_parse (stamp b) with
  | Err (UnexpectedObjectType _ _ found) => assert_eq found (from_le_bytes (lit "XXXX"))
  | _ => false
  end.
Definition parse_apsb_rejects_checksum_mismatch : bool :=
  match ApfsVolume_parse (flip_byte (fstree_block 371) 200) with Err (ChecksumMismatch _ _ _) => true | _ => false end.
Definition parse_apsb_rejects_short_block : bool := is_err (ApfsVolume_parse (zeroed 16)).
Definition parse_apsb_rejects_wrong_object_type : bool :=
  let b := fstree_block 371 in
  let ot := Z.lor (Z.land (le_u32 b 24) 0xffff0000) 0x000b in
  match ApfsVolume_parse (stamp (put b 24 (to_le_bytes 4 ot))) with
  | Err (UnexpectedObjectType _ _ found) => assert_eq found ot
  | _ => false
  end.
Definition apsb_accessors_expose_all_fields : bool :=
  let_ok v := ApfsVolume_parse (fstree_block 371) in
  assert_eq (vol_oid v) 1026 && assert_eq (vol_xid v) 6 && assert_eq (vol_features v) 2 && assert_eq (vol_readonly_compatible_features v) 0 &&
  assert_eq (vol_incompatible_features v) 1 && assert_eq (vol_root_tree_type v) 2 && assert_eq (vol_extentref_tree_oid v) 357 &&
  assert_eq (vol_snap_meta_tree_oid v) 340 && assert_ne (vol_uuid v) (zeroed 16).

(** ** dir.rs: the stored tree *)

Definition APSB_BLOCK : Z := 371.
(** [volume()] and the rest of a test. *)
Definition with_volume (k : ApfsVolume -> bool) : bool := let_ok v := ApfsVolume_parse (fstree_block APSB_BLOCK) in k v.

(** [sort_by(|a, b| a.name.cmp(&b.name))] of the source does not change what the listing contains. *)
Definition list_root_directory : bool :=
  with_volume (fun vol =>
    let_ok entries := list_dir FSTREE vol ROOT_DIR_INO_NUM BLOCK_SIZE in
    let named := map (fun e => (de_name e, de_file_id e)) entries in
    elem (lit "top.txt", 22) named && elem (lit "Dir1", 18) named && elem (lit ".fseventsd", 16) named).
Definition list_dir1_children : bool :=
  with_volume (fun vol =>
    let_ok entries := list_dir FSTREE vol 18 BLOCK_SIZE in
    let named := map (fun e => (de_name e, de_file_id e)) entries in
    elem (lit "Beth.txt", 20) named && elem (lit "Sub", 19) named && assert_eq (blen entries) 2).
Definition lookup_child_resolves_single_component : bool :=
  with_volume (fun vol =>
    let_ok a := lookup_child FSTREE vol ROOT_DIR_INO_NUM (lit "Dir1") BLOCK_SIZE in
    let_ok b := lookup_child FSTREE vol 18 (lit "Beth.txt") BLOCK_SIZE in assert_eq a (Some 18) && assert_eq b (Some 20)).
Definition lookup_child_missing_is_none : bool :=
  with_volume (fun vol => let_ok a := lookup_child FSTREE vol ROOT_DIR_INO_NUM (lit "nope") BLOCK_SIZE in assert_eq a None).
Definition open_path_resolves_top_level_file : bool :=
  with_volume (fun vol =>
    let_ok inode := open_path FSTREE vol (lit "/top.txt") BLOCK_SIZE in
    assert_eq (ino_oid inode) 22 && assert_eq (ino_size inode) (Some 15) && assert_eq (ino_name inode) (Some (lit "top.txt")) &&
    assert_eq (ino_parent_id inode) ROOT_DIR_INO_NUM).
Definition open_path_resolves_nested_file : bool :=
  with_volume (fun vol =>
    let_ok inode := open_path FSTREE vol (lit "/Dir1/Beth.txt") BLOCK_SIZE in
    assert_eq (ino_oid inode) 20 && assert_eq (ino_size inode) (Some 38) && assert_eq (ino_parent_id inode) 18).
Definition open_path_resolves_deeply_nested_file : bool :=
  with_volume (fun vol =>
    let_ok inode := open_path FSTREE vol (lit "/Dir1/Sub/secret.bin") BLOCK_SIZE in
    assert_eq (ino_oid inode) 21 && assert_eq (ino_size inode) (Some 26) && assert_eq (ino_parent_id inode) 19).
Definition open_path_root_returns_root_inode : bool :=
  with_volume (fun vol => let_ok inode := open_path FSTREE vol (lit "/") BLOCK_SIZE in assert_eq (ino_oid inode) ROOT_DIR_INO_NUM).
Definition open_path_missing_component_errors : bool :=
  with_volume (fun vol =>
    is_err (open_path FSTREE vol (lit "/Dir1/missing.txt") BLOCK_SIZE) && is_err (open_path FSTREE vol (lit "/nope/Beth.txt") BLOCK_SIZE)).
Definition open_path_handles_trailing_and_double_slashes : bool :=
  with_volume (fun vol =>
    let_ok a := open_path FSTREE vol (lit "/Dir1/") BLOCK_SIZE in
    let_ok b := open_path FSTREE vol (lit "/Dir1//Sub") BLOCK_SIZE in assert_eq (ino_oid a) 18 && assert_eq (ino_oid b) 19).
Definition fs_tree_node_checksum_mismatch_errors : bool :=
  let img := set_block FSTREE 365 (flip_byte (fstree_block 365) 200) in
  with_volume (fun vol =>
    match list_dir img vol ROOT_DIR_INO_NUM BLOCK_SIZE with Err (ChecksumMismatch _ _ _) => true | _ => false end).

(** ** inode.rs *)

Definition FSTREE_NODE : Z := 365.

(** The test's own decoder of the leaf: the value of the inode record of [oid]; [None] where the indexing would panic or the record is missing. *)
Fixpoint find_inode_value (node : bytes) (toc_start key_area val_base oid : Z) (idx : list Z) : option bytes :=
  match idx with
  | [] => None
  | i :: idx =>
      let e := toc_start + i * 8 in
      let koff := le_u16 node e in
      let klen := le_u16 node (e + 2) in
      let voff := le_u16 node (e + 4) in
      let vlen := le_u16 node (e + 6) in
      match get_range node (key_area + koff) (key_area + koff + klen) with
      | None => None
      | Some key =>
          let '(k_oid, ty) := decode_jkey (le_u64 key 0) in
          if bool_decide (ty = Some FsRecord.Inode) && (k_oid =? oid)
          then get_range node (val_base - voff) (val_base - voff + vlen)
          else find_inode_value node toc_start key_area val_base oid idx
      end
  end.
Definition inode_value (oid : Z) : option bytes :=
  let node := fstree_block FSTREE_NODE in
  let nkeys := le_u32 node 36 in
  let toc_start := 56 + le_u16 node 40 in
  let key_area := toc_start + le_u16 node 42 in
  let val_base := blen node - 40 in
  find_inode_value node toc_start key_area val_base oid (range nkeys).

Definition with_inode (oid : Z) (k : Inode -> bool) : bool :=
  let_some v := inode_value oid in let_ok inode := Inode_parse oid v in k inode.

Definition parse_beth_txt_inode_metadata : bool :=
  with_inode 20 (fun inode =>
    assert_eq (ino_oid inode) 20 && assert_eq (ino_parent_id inode) 18 && assert_eq (ino_name inode) (Some (lit "Beth.txt")) &&
    assert_eq (ino_size inode) (Some 38) && assert_eq (ino_mode inode) 0x81a4 && assert_eq (ino_uid inode) 99 && assert_eq (ino_gid inode) 99 &&
    assert_eq (ino_nlink_or_nchildren inode) 1).
Definition parse_root_dir_inode_metadata : bool :=
  with_inode 2 (fun inode =>
    assert_eq (ino_mode inode) 0x41ed && assert_eq (ino_uid inode) 501 && assert_eq (ino_gid inode) 20 &&
    assert_eq (ino_nlink_or_nchildren inode) 3 && assert_eq (ino_size inode) None).
Definition parse_inode_timestamps_match_istat : bool :=
  with_inode 20 (fun inode =>
    assert_eq (ino_create_time inode) 1782060082608648902 && assert_eq (ino_mod_time inode) 1782060082608686902 &&
    assert_eq (ino_change_time inode) 1782060082608686902 && assert_eq (ino_access_time inode) 1782060082733745215).
Definition parse_inode_with_unknown_xfield_is_ignored : bool :=
  let v := zeroed 92 ++ to_le_bytes 2 1 ++ to_le_bytes 2 8 ++ [z2b 99; x00] ++ to_le_bytes 2 8 ++ zeroed 8 in
  let_ok inode := Inode_parse 7 v in assert_eq (ino_name inode) None && assert_eq (ino_size inode) None.
Definition parse_short_inode_value_is_bounded : bool :=
  let_ok inode := Inode_parse 99 (zeroed 8) in
  assert_eq (ino_oid inode) 99 && assert_eq (ino_parent_id inode) 0 && assert_eq (ino_name inode) None.

(** What the tests use of chrono: a moment is built from its seconds and nanoseconds and gives them back. *)
Class Chrono := {
  DateTime : Type;
  from_timestamp : Z -> Z -> option DateTime;
  timestamp : DateTime -> Z;
  timestamp_subsec_nanos : DateTime -> Z;
}.

Section Times.
Context `{Chrono}.
Definition created_datetime_round_trips : bool :=
  with_inode 20 (fun inode =>
    let_some dt := created from_timestamp inode in
    assert_eq (timestamp dt) 1782060082 && assert_eq (timestamp_subsec_nanos dt) 608648902).
Definition ns_to_datetime_zero_is_epoch : bool :=
  let_some dt := ns_to_datetime from_timestamp 0 in assert_eq (timestamp dt) 0.
Definition ns_to_datetime_handles_huge_value : bool :=
  let_some dt := ns_to_datetime from_timestamp u64_max in 0 <? timestamp dt.
Definition inode_datetime_accessors_round_trip : bool :=
  with_inode 20 (fun inode =>
    let_some m := modified from_timestamp inode in
    let_some c := changed from_timestamp inode in
    let_some a := accessed from_timestamp inode in
    assert_eq (timestamp_subsec_nanos m) 608686902 && assert_eq (timestamp_subsec_nanos c) 608686902 &&
    assert_eq (timestamp_subsec_nanos a) 733745215).
End Times.

(** ** fsrecord.rs *)

(** [(ty << 60) | oid] *)
Definition test_jkey (ty oid : Z) : Z := Z.lor (Z.shiftl ty 60) oid.

Definition decode_jkey_splits_type_and_oid : bool :=
  assert_eq (decode_jkey (test_jkey 3 20)) (20, Some FsRecord.Inode) && assert_eq (decode_jkey (test_jkey 9 2)) (2, Some DirRec).
Definition decode_jkey_masks_full_60_bit_oid : bool :=
  let oid_max := 0x0fffffffffffffff in assert_eq (decode_jkey (test_jkey 8 oid_max)) (oid_max, Some FileExtent).
Definition decode_jkey_unknown_type_is_none : bool :=
  assert_eq (decode_jkey (test_jkey 0 7)) (7, None) && assert_eq (decode_jkey (test_jkey 15 7)) (7, None).
Definition decode_jkey_all_defined_types : bool :=
  let cases := [ (1, SnapMetadata); (2, FsRecord.Extent); (3, FsRecord.Inode); (4, Xattr); (5, SiblingLink); (6, DstreamId); (7, CryptoState);
                 (8, FileExtent); (9, DirRec); (10, DirStats); (11, SnapName); (12, SiblingMap); (13, FileInfo) ] in
  forallb (fun '(n, expect) => assert_eq (decode_jkey (test_jkey n 0x42)) (0x42, Some expect)) cases.
Definition parse_xfields_decodes_name_tlv : bool :=
  let blob := to_le_bytes 2 1 ++ to_le_bytes 2 3 ++ [x04; x00] ++ to_le_bytes 2 3 ++ [x48; x69; x00] ++ zeroed 5 in
  let_ok fields := parse_xfields blob in assert_eq fields [(4, [x48; x69; x00])].
Definition parse_xfields_two_fields_aligned : bool :=
  let blob := to_le_bytes 2 2 ++ to_le_bytes 2 0 ++ [x04; x00] ++ to_le_bytes 2 2 ++ [x08; x00] ++ to_le_bytes 2 40 ++ [x41; x00] ++ zeroed 6 ++
              replicate 40 xcd in
  let_ok fields := parse_xfields blob in
  match fields with [f0; f1] => assert_eq f0 (4, [x41; x00]) && assert_eq f1.1 8 && assert_eq (blen f1.2) 40 | _ => false end.
Definition parse_xfields_rejects_out_of_bounds : bool :=
  let_ok fields := parse_xfields (to_le_bytes 2 0xffff ++ to_le_bytes 2 0) in assert_eq fields [].
Definition parse_xfields_empty_blob : bool :=
  let_ok a := parse_xfields [] in let_ok b := parse_xfields [x00; x00; x00; x00] in assert_eq a [] && assert_eq b [].
Definition parse_xfields_value_running_past_blob_is_dropped : bool :=
  let blob := to_le_bytes 2 1 ++ to_le_bytes 2 0 ++ [x04; x00] ++ to_le_bytes 2 64 in
  let_ok fields := parse_xfields blob in assert_eq fields [].

(** ** The stored volume *)

Definition stored_volume : ApfsVolume :=
  {| vol_oid := 1026; vol_xid := 6; vol_fs_index := 0; vol_features := 2; vol_readonly_compatible_features := 0;
     vol_incompatible_features := 1; vol_root_tree_type := 2; vol_omap_oid := 366; vol_root_tree_oid := 1028;
     vol_extentref_tree_oid := 357; vol_snap_meta_tree_oid := 340;
     vol_uuid := hex_bytes "5e3d4d6b1944490fbe9ce40ad2506a1d"%hex; vol_fs_flags := 1782060095908859968; vol_name := lit "APFSP3"; vol_vek := None |}.
Definition fstree_omap : ObjectMap := {| om_flags := 0; om_tree_type := 0x40000002; om_tree_oid := 367; om_snapshot_tree_oid := 0 |}.

Lemma fstree_parses : ApfsVolume_parse (fstree_block APSB_BLOCK) = Ok stored_volume.
Proof. vm_refl. Qed.

(** The records of the volume, as its one leaf has them. *)
Definition fstree_records : list Entry := Eval vm_compute in node_entries (fstree_block 365) SubtypeFsTree.
Definition fstree_tree : tree := TLeaf 1028 fstree_records.

Lemma fstree_root : virt_node FSTREE stored_volume BLOCK_SIZE fstree_omap 1028 = Ok (Some (NLeaf fstree_records)).
Proof. vm_refl. Qed.

Lemma fstree_is_tree : volume_tree FSTREE stored_volume BLOCK_SIZE fstree_tree.
Proof.
  exists fstree_omap. split; [vm_refl|]. split; [|reflexivity]. split.
  - apply repr_leaf. exact fstree_root.
  - cbn. unfold MAX_FSTREE_DEPTH. lia.
  - apply NoDup_singleton.
  - intros x _. apply not_elem_of_empty.
Qed.
Lemma fstree_ordered : oid_ordered fstree_tree.
Proof. exact I. Qed.

(** The word the parser takes for the volume's flags holds a time, later than the last change of any file by seconds; the word after it is the one bit
    [APFS_FS_UNENCRYPTED]. *)
Theorem fs_flags_is_a_time :
  (let_ok v := ApfsVolume_parse (fstree_block 371) in vol_fs_flags v =? 1782060095908859968) = true /\
  le_u64 (fstree_block 371) 264 = 1 /\
  1782060095908859968 - 1782060082733745215 < 14 * 10 ^ 9.
Proof. split; [vm_refl|]. split; [vm_refl|lia]. Qed.

(** ** The suites *)

Definition volume_suite : list bool :=
  [ parse_apsb_magic_and_tree_oids; parse_apsb_name_and_role; parse_apsb_fs_index; parse_apsb_rejects_wrong_magic;
    parse_apsb_rejects_checksum_mismatch; parse_apsb_rejects_short_block; parse_apsb_rejects_wrong_object_type; apsb_accessors_expose_all_fields ].
Lemma volume_suite_passes : Forall (fun passed => passed = true) volume_suite.
Proof.
  unfold volume_suite, parse_apsb_magic_and_tree_oids, parse_apsb_name_and_role, parse_apsb_fs_index, apsb_accessors_expose_all_fields.
  change 371 with APSB_BLOCK. rewrite fstree_parses. run_suite.
Qed.

(** [in_tree]: replace the operations on the stored volume by what they are of its records. *)
Ltac in_tree :=
  repeat match goal with
  | |- context [list_dir FSTREE stored_volume ?p BLOCK_SIZE] =>
      rewrite (list_dir_tree FSTREE stored_volume BLOCK_SIZE p fstree_tree fstree_is_tree fstree_ordered)
  | |- context [lookup_child FSTREE stored_volume ?p ?n BLOCK_SIZE] =>
      rewrite (lookup_child_tree FSTREE stored_volume BLOCK_SIZE p n fstree_tree fstree_is_tree fstree_ordered)
  | |- context [open_path FSTREE stored_volume ?p BLOCK_SIZE] =>
      rewrite (open_path_tree FSTREE stored_volume BLOCK_SIZE p fstree_tree fstree_is_tree fstree_ordered)
  end.

Definition path_suite : list bool :=
  [ list_root_directory; list_dir1_children; lookup_child_resolves_single_component; lookup_child_missing_is_none;
    open_path_resolves_top_level_file; open_path_resolves_nested_file; open_path_resolves_deeply_nested_file; open_path_root_returns_root_inode;
    open_path_missing_component_errors; open_path_handles_trailing_and_double_slashes ].
Lemma path_suite_passes : Forall (fun passed => passed = true) path_suite.
Proof.
  unfold path_suite, list_root_directory, list_dir1_children, lookup_child_resolves_single_component, lookup_child_missing_is_none,
    open_path_resolves_top_level_file, open_path_resolves_nested_file, open_path_resolves_deeply_nested_file, open_path_root_returns_root_inode,
    open_path_missing_component_errors, open_path_handles_trailing_and_double_slashes, with_volume.
  rewrite fstree_parses. cbn [expecting]. in_tree. run_suite.
Qed.

Lemma damaged_leaf_passes : fs_tree_node_checksum_mismatch_errors = true.
Proof. unfold fs_tree_node_checksum_mismatch_errors, with_volume. rewrite fstree_parses. vm_refl. Qed.

Definition record_suite : list bool :=
  [ parse_beth_txt_inode_metadata; parse_root_dir_inode_metadata; parse_inode_timestamps_match_istat; parse_inode_with_unknown_xfield_is_ignored;
    parse_short_inode_value_is_bounded; decode_jkey_splits_type_and_oid; decode_jkey_masks_full_60_bit_oid; decode_jkey_unknown_type_is_none;
    decode_jkey_all_defined_types; parse_xfields_decodes_name_tlv; parse_xfields_two_fields_aligned; parse_xfields_rejects_out_of_bounds;
    parse_xfields_empty_blob; parse_xfields_value_running_past_blob_is_dropped ].
Lemma record_suite_passes : Forall (fun passed => passed = true) record_suite.
Proof. run_suite. Qed.

(** The tests of times pass under any calendar that keeps the seconds and nanoseconds it is given. *)
Section Calendar.
Context `{Chrono} (Hchrono : forall s n, 0 <= s < 2 ^ 40 -> 0 <= n < 10 ^ 9 ->
  exists dt, from_timestamp s n = Some dt /\ timestamp dt = s /\ timestamp_subsec_nanos dt = n).

Lemma ns_to_datetime_parts ns : 0 <= ns <= u64_max ->
  exists dt, ns_to_datetime from_timestamp ns = Some dt /\ timestamp dt = ns / 10 ^ 9 /\ timestamp_subsec_nanos dt = ns mod 10 ^ 9.
Proof.
  intros Hn. unfold ns_to_datetime. change NS_PER_SEC with (10 ^ 9). apply Hchrono.
  - split; [apply Z.div_pos; lia|]. apply Z.div_lt_upper_bound; [lia|]. unfold u64_max, u64_limit in Hn. lia.
  - apply Z.mod_pos_bound. lia.
Qed.

Definition time_suite : list bool :=
  [ created_datetime_round_trips; ns_to_datetime_zero_is_epoch; ns_to_datetime_handles_huge_value; inode_datetime_accessors_round_trip ].
Lemma time_suite_passes : Forall (fun passed => passed = true) time_suite.
Proof.
  assert (exists i, match inode_value 20 with Some v => Inode_parse 20 v | None => Panic end = Ok i /\
    (ino_create_time i, ino_mod_time i, ino_change_time i, ino_access_time i) =
    (1782060082608648902, 1782060082608686902, 1782060082608686902, 1782060082733745215)) as (i & Hi & Ht) by (eexists; split; vm_compute; reflexivity).
  assert (forall k, with_inode 20 k = k i) as Hw.
  { intros k. unfold with_inode. destruct (inode_value 20) as [v|]; [|done]. cbn [expecting_some]. by rewrite Hi. }
  unfold time_suite, created_datetime_round_trips, inode_datetime_accessors_round_trip, ns_to_datetime_zero_is_epoch, ns_to_datetime_handles_huge_value.
  rewrite !Hw. unfold created, modified, changed, accessed. injection Ht as -> -> -> ->.
  destruct (ns_to_datetime_parts 1782060082608648902) as (a & -> & Ha & Ha'); [unfold u64_max, u64_limit; lia|].
  destruct (ns_to_datetime_parts 0) as (b & -> & Hb & _); [unfold u64_max, u64_limit; lia|]. destruct (ns_to_datetime_parts u64_max) as (c & -> & Hc & _); [unfold u64_max, u64_limit; lia|].
  destruct (ns_to_datetime_parts 1782060082608686902) as (d & -> & _ & Hd); [unfold u64_max, u64_limit; lia|].
  destruct (ns_to_datetime_parts 1782060082733745215) as (e & -> & _ & He); [unfold u64_max, u64_limit; lia|].
  cbn [expecting_some]. rewrite Ha, Ha', Hb, Hc, Hd, He. run_suite.
Qed.
End Calendar.
