(* ===== verification/TestsRecords.v ===== *)
(** The integration tests over hand-built volumes (the synthetic parts of core/tests/dir.rs, extent.rs and xattr.rs).

    extent.rs and xattr.rs build the same image: a volume superblock, its object map and one leaf of records.  [built_tree] shows that the file-system tree of
    that volume is the leaf, for every list of records that fits in a node and whatever follows the image; every listing, path, attribute and extent is then that of
    the records, and the tests are instances.  [StoredTree] stores whole trees of files in such volumes. *)

From Stdlib Require Import Strings.String.
From S2P Require Import Prelude Bytes Errors Reader Object Walk BTree NodeLayout Omap FsRecord Encryption Volume Inode Dir Extent Xattr Compression Decmpfs Snapshot Format TestKit Fixture TestsSnapshot.

Set Warnings "-register-all".

(** ** The writers of extent.rs and xattr.rs *)

Definition seal_as (block : bytes) (obj_type : Z) : bytes := stamp (put block 24 (to_le_bytes 4 obj_type)).

(** The loop of [write_omap_tree]. *)
Fixpoint put_maps (toc key_area val_base i : Z) (maps : list (Z * Z)) (block : bytes) : bytes :=
  match maps with
  | [] => block
  | (oid, paddr) :: maps =>
      let voff := (i + 1) * 16 in
      let block := put block (toc + i * 4) (to_le_bytes 2 (i * 16)) in
      let block := put block (toc + i * 4 + 2) (to_le_bytes 2 voff) in
      let block := put block (key_area + i * 16) (to_le_bytes 8 oid) in
      let block := put block (key_area + i * 16 + 8) (to_le_bytes 8 1) in
      let vs := val_base - voff in
      let block := put block (vs + 4) (to_le_bytes 4 BLOCK_SIZE) in
      let block := put block (vs + 8) (to_le_bytes 8 paddr) in
      put_maps toc key_area val_base (i + 1) maps block
  end.
Definition write_omap_tree (maps : list (Z * Z)) : bytes :=
  let block := zeroed BLOCK_SIZE in
  let block := put block 32 (to_le_bytes 2 0x7) in
  let block := put block 36 (to_le_bytes 4 (blen maps)) in
  let block := put block 42 (to_le_bytes 2 (blen maps * 4)) in
  let toc := 56 in
  let key_area := toc + blen maps * 4 in
  let val_base := BLOCK_SIZE - 40 in
  seal_as (put_maps toc key_area val_base 0 maps block) 0xb.

Definition write_omap_header (tree_paddr : Z) : bytes := seal_as (put (zeroed BLOCK_SIZE) 48 (to_le_bytes 8 tree_paddr)) 0xb.

(** [put_records] is the loop of the snapshot tests' builder, which this one repeats. *)
Definition write_fs_leaf (entries : list (bytes * bytes)) : bytes :=
  let block := zeroed BLOCK_SIZE in
  let block := put block 32 (to_le_bytes 2 0x3) in
  let block := put block 36 (to_le_bytes 4 (blen entries)) in
  let block := put block 42 (to_le_bytes 2 (blen entries * 8)) in
  let toc := 56 in
  let key_area := toc + blen entries * 8 in
  let val_base := BLOCK_SIZE - 40 in
  seal_as (put_records toc key_area val_base 0 0 0 entries block) 0xe.

Definition write_apsb (omap_oid root_tree_oid xid : Z) : bytes :=
  let block := zeroed BLOCK_SIZE in
  let block := put block 16 (to_le_bytes 8 xid) in
  let block := put block 32 (to_le_bytes 4 0x42535041) in
  let block := put block 128 (to_le_bytes 8 omap_oid) in
  let block := put block 136 (to_le_bytes 8 root_tree_oid) in
  let block := put block 704 (lit "SYN") in
  seal_as block 0xd.

(** [build] of xattr.rs: four blocks; that of extent.rs has a spare block behind them. *)
Definition build (records : list (bytes * bytes)) : bytes :=
  write_apsb 1 100 1 ++ write_omap_header 2 ++ write_omap_tree [(100, 3)] ++ write_fs_leaf records.
Definition build_spare (records : list (bytes * bytes)) : bytes := build records ++ zeroed BLOCK_SIZE.

(** ** extent.rs *)

Definition inode_value_with_size (size : Z) : bytes :=
  zeroed 92 ++ to_le_bytes 2 1 ++ to_le_bytes 2 8 ++ [x08; x00] ++ to_le_bytes 2 8 ++ to_le_bytes 8 size.
Definition file_extent (oid logical len phys : Z) : bytes * bytes :=
  (to_le_bytes 8 (encode_jkey 8 oid) ++ to_le_bytes 8 logical,
   to_le_bytes 8 (Z.land len 0x00ffffffffffffff) ++ to_le_bytes 8 phys ++ to_le_bytes 8 0).

(** [ApfsVolume::parse(&img[0..BLOCK_SIZE]).expect(..)] and the rest of a test. *)
Definition with_built (img : bytes) (k : ApfsVolume -> bool) : bool :=
  let_some block0 := get_range img 0 BLOCK_SIZE in let_ok vol := ApfsVolume_parse block0 in k vol.

Definition read_stream_rejects_oversize_dstream : bool :=
  let img := build_spare [] in
  with_built img (fun vol =>
    let huge := 2 ^ 34 + 1 in
    match read_stream (image img) vol 50 huge BLOCK_SIZE with
    | Err (FieldOutOfRange _ field _ _) => assert_eq field "size"%string
    | _ => false
    end).

Definition read_stream_rejects_overflowing_phys_block : bool :=
  let inode_oid := 50 in
  let ext := file_extent inode_oid 0 BLOCK_SIZE u64_max in
  let img := build_spare [ext] in
  with_built img (fun vol =>
    match read_stream (image img) vol inode_oid BLOCK_SIZE BLOCK_SIZE with
    | Err (FieldOutOfRange _ field _ _) => assert_eq field "phys_block_num"%string
    | _ => false
    end).

(** The inode record and the attribute record of an inline compressed file. *)
Definition inode_rec (inode_oid : Z) : bytes * bytes := (to_le_bytes 8 (encode_jkey 3 inode_oid), inode_value_with_size 0).
Definition decmpfs_rec (inode_oid : Z) (content : bytes) : bytes * bytes :=
  let name := lit "com.apple.decmpfs" ++ [x00] in
  let xattr_key := to_le_bytes 8 (encode_jkey 4 inode_oid) ++ to_le_bytes 2 (blen name) ++ name in
  let hdr := to_le_bytes 4 0x636d7066 ++ to_le_bytes 4 1 ++ to_le_bytes 8 (blen content) ++ content in
  let xattr_val := to_le_bytes 2 0x0002 ++ to_le_bytes 2 (blen hdr) ++ hdr in
  (xattr_key, xattr_val).

Definition read_data_decodes_inline_compressed_end_to_end `{DecmpfsFormat} `{Codecs} : bool :=
  let inode_oid := 50 in
  let content := lit "inline decmpfs content via read_data" in
  let img := build_spare [inode_rec inode_oid; decmpfs_rec inode_oid content] in
  with_built img (fun vol =>
    let_ok inode := load_inode (image img) vol inode_oid BLOCK_SIZE in
    let_ok out := read_data (image img) vol inode BLOCK_SIZE in assert_eq out content).

(** ** xattr.rs *)

Definition embedded_xattr (oid : Z) (name data : bytes) : bytes * bytes :=
  (to_le_bytes 8 (encode_jkey 4 oid) ++ to_le_bytes 2 (blen name) ++ name, to_le_bytes 2 0x0002 ++ to_le_bytes 2 (blen data) ++ data).

Definition resource_fork_embedded_is_returned_inline : bool :=
  let oid := 60 in
  let fork_bytes := lit "embedded resource fork payload" in
  let rec := embedded_xattr oid (lit "com.apple.ResourceFork" ++ [x00]) fork_bytes in
  let img := build [rec] in
  with_built img (fun vol =>
    let_ok fork := resource_fork (image img) vol oid BLOCK_SIZE in let_some fork := fork in assert_eq fork fork_bytes).

Definition zero_length_name_xattr_is_skipped : bool :=
  let oid := 60 in
  let bad_key := to_le_bytes 8 (encode_jkey 4 oid) ++ to_le_bytes 2 0 in
  let bad_val := to_le_bytes 2 0x0002 ++ to_le_bytes 2 0 in
  let good := embedded_xattr oid (lit "user.ok" ++ [x00]) (lit "value") in
  let img := build [(bad_key, bad_val); good] in
  with_built img (fun vol =>
    let_ok xattrs := list_xattrs (image img) vol oid BLOCK_SIZE in
    match xattrs with
    | [x] => assert_eq (xa_name x) (lit "user.ok") && match xa_value x with Embedded b => assert_eq b (lit "value") | _ => false end
    | _ => false
    end).

(** ** dir.rs *)

Definition write_fs_node (level : Z) (entries : list (bytes * bytes)) (root : bool) : bytes :=
  let flags := if level =? 0 then 0x2 else 0x0 in
  let flags := if root then Z.lor flags 0x1 else flags in
  let block := zeroed BLOCK_SIZE in
  let block := put block 32 (to_le_bytes 2 flags) in
  let block := put block 34 (to_le_bytes 2 level) in
  let block := put block 36 (to_le_bytes 4 (blen entries)) in
  let block := put block 42 (to_le_bytes 2 (blen entries * 8)) in
  let toc := 56 in
  let key_area := toc + blen entries * 8 in
  let val_base := if root then BLOCK_SIZE - 40 else BLOCK_SIZE in
  seal_as (put_records toc key_area val_base 0 0 0 entries block) 0xe.

(** An index node with one child. *)
Definition index_to (oid : Z) : bytes := write_fs_node 1 [(to_le_bytes 8 (Z.shiftl 9 60), to_le_bytes 8 oid)] true.

Definition build_index_image : bytes :=
  let k := to_le_bytes 8 (Z.lor (Z.shiftl 9 60) 2) ++ to_le_bytes 4 5 ++ lit "leaf" ++ [x00] in
  let v := to_le_bytes 8 55 ++ to_le_bytes 8 0 ++ to_le_bytes 2 0 in
  write_apsb 1 100 1 ++ write_omap_header 2 ++ write_omap_tree [(100, 3); (101, 4)] ++ index_to 101 ++ write_fs_node 0 [(k, v)] false ++ zeroed BLOCK_SIZE.

Definition descends_index_node_to_leaf : bool :=
  let img := build_index_image in
  with_built img (fun vol =>
    let_ok entries := list_dir (image img) vol ROOT_DIR_INO_NUM BLOCK_SIZE in
    match entries with
    | [e] => assert_eq (de_name e) (lit "leaf") && assert_eq (de_file_id e) 55
    | _ => false
    end &&
    (let_ok child := lookup_child (image img) vol ROOT_DIR_INO_NUM (lit "leaf") BLOCK_SIZE in assert_eq child (Some 55))).

Definition cycle_guard_fires_on_self_referential_node : bool :=
  let img := write_apsb 1 100 1 ++ write_omap_header 2 ++ write_omap_tree [(100, 3)] ++ index_to 100 in
  with_built img (fun vol =>
    match list_dir (image img) vol ROOT_DIR_INO_NUM BLOCK_SIZE with Err (CycleGuard _) => true | _ => false end).

(** ** The built leaf *)

Definition leaf_obj : bytes := zeroed 24 ++ to_le_bytes 4 0xe ++ zeroed 4.

(** The three header fields the writer sets, over zeros. *)
Lemma leaf_header_layout f1 f3 f5 rest :
  blen f1 = 2 -> blen f3 = 4 -> blen f5 = 2 ->
  put (put (put (zeroed 56 ++ rest) 32 f1) 36 f3) 42 f5 = (zeroed 32 ++ f1 ++ zeroed 2 ++ f3 ++ zeroed 2 ++ f5 ++ zeroed 12) ++ rest.
Proof.
  intros H1 H3 H5.
  change (zeroed 56) with (zeroed 32 ++ zeroed 2 ++ zeroed 2 ++ zeroed 4 ++ zeroed 2 ++ zeroed 2 ++ zeroed 12).
  assert (blen (zeroed 32) = 32) as Hz by done. assert (blen (zeroed 2) = 2) as Hz2 by done. assert (blen (zeroed 4) = 4) as Hz4 by done.
  rewrite <-!app_assoc. rewrite (put_app (zeroed 32) (zeroed 2)) by lia.
  rewrite (app_assoc (zeroed 32)), (app_assoc (_ ++ f1)), (put_app _ (zeroed 4)) by (rewrite ?blen_app; lia).
  rewrite (app_assoc (_ ++ zeroed 2) f3), (app_assoc (_ ++ f3)), (put_app _ (zeroed 2)) by (rewrite ?blen_app; lia).
  by rewrite <-!app_assoc.
Qed.

Lemma put_type_layout t rest : blen t = 4 -> put (zeroed 32 ++ rest) 24 t = (zeroed 24 ++ t ++ zeroed 4) ++ rest.
Proof.
  intros Ht. change (zeroed 32) with (zeroed 24 ++ zeroed 4 ++ zeroed 4). rewrite <-!app_assoc.
  rewrite (put_app (zeroed 24) (zeroed 4)) by (by rewrite ?Ht). done.
Qed.

(** The writer produces the documented layout. *)
Lemma write_fs_leaf_layout records :
  fits records ->
  write_fs_leaf records = stamp (encode_node leaf_obj 3 0 (entries_of records) (Z.to_nat (free_room records)) (zeroed FOOTER)).
Proof.
  unfold fits. set (es := entries_of records). set (n := blen records). intros Hfit.
  assert (blen es = n) as Hn by (unfold es, entries_of, blen; by rewrite length_map).
  assert (0 <= n) as Hn0 by apply blen_nonneg. pose proof (blen_nonneg (keys_area es)). pose proof (blen_nonneg (vals_area es)).
  set (m := BS - FOOTER - 56 - 8 * n). assert (free_room records = m - blen (keys_area es) - blen (vals_area es)) as Hroom by done.
  assert (0 <= m) as Hm by lia. unfold write_fs_leaf, seal_as, encode_node, encode_header. fold n. rewrite Hn.
  assert (zeroed BLOCK_SIZE = zeroed 56 ++ [] ++ zeroed (8 * n) ++ [] ++ zeroed m ++ [] ++ zeroed FOOTER) as ->.
  { cbn [app]. rewrite <-!zeroed_add by (unfold FOOTER; lia). f_equal. unfold m. change BLOCK_SIZE with BS. lia. }
  rewrite leaf_header_layout by apply blen_to_le_bytes. set (h := zeroed 32 ++ _ ++ _ ++ _ ++ _ ++ _ ++ zeroed 12).
  assert (blen h = 56) as Hh by (unfold h; by rewrite !blen_app, !blen_to_le_bytes).
  rewrite (put_records_layout records h [] [] [] (zeroed FOOTER) m 0); try done; try lia;
    try (change (blen (@nil byte)) with 0; change BLOCK_SIZE with BS; fold n; unfold m, FOOTER; lia).
  cbn [app]. fold es. rewrite app_nil_r, <-Hroom. unfold h. rewrite <-app_assoc, put_type_layout by done.
  f_equal. unfold leaf_obj. rewrite <-!app_assoc. replace (n * 8) with (8 * n) by lia. reflexivity.
Qed.

Lemma write_fs_leaf_stamped records : fits records -> write_fs_leaf records = stamped_node true records leaf_obj.
Proof. intros Hf. by rewrite write_fs_leaf_layout. Qed.

(** ** The built volume *)

Definition built_volume : ApfsVolume :=
  {| vol_oid := 0; vol_xid := 1; vol_fs_index := 0; vol_features := 0; vol_readonly_compatible_features := 0;
     vol_incompatible_features := 0; vol_root_tree_type := 0; vol_omap_oid := 1; vol_root_tree_oid := 100;
     vol_extentref_tree_oid := 0; vol_snap_meta_tree_oid := 0; vol_uuid := zeroed 16; vol_fs_flags := 0; vol_name := lit "SYN"; vol_vek := None |}.
Definition built_omap : ObjectMap := {| om_flags := 0; om_tree_type := 0; om_tree_oid := 2; om_snapshot_tree_oid := 0 |}.
Definition built_mapping : OmapEntry := {| oe_oid := 100; oe_xid := 1; oe_paddr := 3; oe_size := 4096; oe_flags := 0 |}.

Lemma built_fixed_blocks :
  blen (write_apsb 1 100 1) = BS /\ blen (write_omap_header 2) = BS /\ blen (write_omap_tree [(100, 3)]) = BS /\
  ApfsVolume_parse (write_apsb 1 100 1) = Ok built_volume /\ ObjectMap_parse (write_omap_header 2) = Ok built_omap /\
  cksum_ok (write_omap_tree [(100, 3)]) = true.
Proof. split_and!; vm_refl. Qed.

Lemma built_map_leaf : exists es,
  classify SubtypeOmap (write_omap_tree [(100, 3)]) = Some (NLeaf es) /\ run_visitor (omap_visit 100 1) None es = Some built_mapping.
Proof. eexists. split; vm_compute; reflexivity. Qed.

Section Built.
Context (records : list (bytes * bytes)) (Hfits : fits records) (tail : bytes).

Local Abbreviation img := (build records ++ tail).

Lemma blen_write_fs_leaf : blen (write_fs_leaf records) = BS.
Proof. rewrite write_fs_leaf_stamped by done. by apply blen_stamped_node. Qed.

Lemma built_blocks :
  block_at img 0 = Some (write_apsb 1 100 1) /\ block_at img 1 = Some (write_omap_header 2) /\
  block_at img 2 = Some (write_omap_tree [(100, 3)]) /\ block_at img 3 = Some (write_fs_leaf records).
Proof.
  destruct built_fixed_blocks as (B0 & B1 & B2 & _). pose proof blen_write_fs_leaf as B3. unfold build, block_at.
  generalize dependent (write_apsb 1 100 1). generalize dependent (write_omap_header 2). generalize dependent (write_omap_tree [(100, 3)]).
  generalize dependent (write_fs_leaf records). intros b3 H3 b2 H2 b1 H1 b0 H0. rewrite <-!app_assoc. split_and!.
  - apply (get_range_app []); change (blen (@nil byte)) with 0; lia.
  - apply get_range_app; lia.
  - rewrite (app_assoc b0). apply get_range_app; rewrite blen_app; lia.
  - rewrite (app_assoc b0), (app_assoc (b0 ++ b1)). apply get_range_app; rewrite !blen_app; lia.
Qed.

Lemma built_root : virt_node (image img) built_volume BLOCK_SIZE built_omap 100 = Ok (Some (NLeaf (entries_of records))).
Proof.
  destruct built_blocks as (_ & _ & H2 & H3), built_fixed_blocks as (_ & _ & _ & _ & _ & Hck), built_map_leaf as (es & Hcl & He).
  unfold virt_node, read_virtual_node. change BLOCK_SIZE with BS. change (vol_xid built_volume) with 1. change (vol_vek built_volume) with (@None bytes).
  rewrite (omap_single_leaf 2 _ _ es built_omap 100 1 built_mapping ltac:(unfold BS, u64_limit; lia) H2 Hck Hcl He eq_refl). cbn [mbind outcome_bind].
  change (oe_paddr built_mapping) with 3. rewrite (read_block _ 3 _ H3) by (unfold BS, u64_limit; lia). cbn [mbind outcome_bind].
  change (negb (Z.land (oe_flags built_mapping) OMAP_VAL_ENCRYPTED =? 0)) with false. cbn iota. cbn [mbind outcome_bind].
  rewrite write_fs_leaf_stamped by done. pose proof (cksum_stamped_node true records Hfits leaf_obj eq_refl) as Hc. unfold cksum_ok in Hc.
  rewrite Hc. cbn [negb mbind outcome_bind]. by rewrite classify_stamped_node.
Qed.

(** The file-system tree of the built volume is the leaf of its records. *)
Lemma built_tree : volume_tree (image img) built_volume BLOCK_SIZE (TLeaf 100 (entries_of records)).
Proof.
  destruct built_blocks as (_ & H1 & _ & _), built_fixed_blocks as (_ & _ & _ & _ & Hom & _).
  exists built_omap. split_and!; [|split|reflexivity].
  - unfold read_volume_omap. change BLOCK_SIZE with BS. change (vol_omap_oid built_volume) with 1. by rewrite (read_block _ 1 _ H1) by (unfold BS, u64_limit; lia).
  - apply repr_leaf. exact built_root.
  - cbn. unfold MAX_FSTREE_DEPTH. lia.
  - apply NoDup_singleton.
  - intros x _. apply not_elem_of_empty.
Qed.

Lemma built_parses k : with_built img k = k built_volume.
Proof.
  destruct built_blocks as (H0 & _), built_fixed_blocks as (_ & _ & _ & Hv & _). unfold with_built.
  unfold block_at in H0. change (0 * BS + BS) with BLOCK_SIZE in H0. change (0 * BS) with 0 in H0. rewrite H0. cbn [expecting_some]. by rewrite Hv.
Qed.
End Built.

(** [in_built]: replace the operations on a built volume by what they are of its records. *)
Ltac in_built records tail Hf :=
  rewrite (built_parses records Hf tail);
  repeat match goal with
  | |- context [list_xattrs (image ?i) built_volume ?o BLOCK_SIZE] =>
      rewrite (list_xattrs_tree (image i) built_volume o BLOCK_SIZE _ (built_tree records Hf tail) I); cbn [mbind outcome_bind]
  | |- context [list_extents (image ?i) built_volume ?o BLOCK_SIZE] =>
      rewrite (list_extents_tree (image i) built_volume o BLOCK_SIZE _ (built_tree records Hf tail) I); cbn [mbind outcome_bind]
  | |- context [load_inode (image ?i) built_volume ?o BLOCK_SIZE] =>
      rewrite (load_inode_tree (image i) built_volume BLOCK_SIZE o _ (built_tree records Hf tail) I); cbn [mbind outcome_bind]
  end.

(** ** The tests pass *)

Lemma oversize_dstream_passes : read_stream_rejects_oversize_dstream = true.
Proof. unfold read_stream_rejects_oversize_dstream, build_spare. assert (fits []) as Hf by (vm_compute; discriminate). in_built (@nil (bytes * bytes)) (zeroed BLOCK_SIZE) Hf. reflexivity. Qed.

Lemma overflowing_phys_passes : read_stream_rejects_overflowing_phys_block = true.
Proof.
  unfold read_stream_rejects_overflowing_phys_block, build_spare. cbn zeta. set (records := [file_extent 50 0 BLOCK_SIZE u64_max]).
  assert (fits records) as Hf by (vm_compute; discriminate). unfold read_stream. in_built records (zeroed BLOCK_SIZE) Hf.
  assert (sort_by_key fe_logical_offset (omap (extent_record 50) (leaf_entries (TLeaf 100 (entries_of records)))) =
    [{| fe_logical_offset := 0; fe_len := BLOCK_SIZE; fe_phys_block_num := u64_max; fe_crypto_id := 0 |}]) as -> by (vm_compute; reflexivity).
  generalize (build records ++ zeroed BLOCK_SIZE). intros img. vm_compute. reflexivity.
Qed.

Lemma embedded_fork_passes : resource_fork_embedded_is_returned_inline = true.
Proof.
  unfold resource_fork_embedded_is_returned_inline. cbn zeta. set (records := [embedded_xattr _ _ _]).
  assert (fits records) as Hf by (vm_compute; discriminate). rewrite <-(app_nil_r (build records)). unfold resource_fork, get_xattr. in_built records (@nil byte) Hf.
  generalize (build records ++ []). intros img. vm_compute. reflexivity.
Qed.

Lemma zero_length_name_passes : zero_length_name_xattr_is_skipped = true.
Proof.
  unfold zero_length_name_xattr_is_skipped. cbn zeta. set (records := [_; _]).
  assert (fits records) as Hf by (vm_compute; discriminate). rewrite <-(app_nil_r (build records)). in_built records (@nil byte) Hf.
  vm_compute. reflexivity.
Qed.

(** ** A compressed file in a built volume *)

Definition inline_content : bytes := lit "inline decmpfs content via read_data".
Local Abbreviation inline_records := ([inode_rec 50; decmpfs_rec 50 inline_content]).

Lemma inline_fits : fits inline_records.
Proof. vm_compute. discriminate. Qed.

(** The attributes of the file, and what they make of its header and fork. *)
Lemma inline_attributes tail :
  let disk := image (build inline_records ++ tail) in
  decmpfs_header disk built_volume 50 BLOCK_SIZE = Ok (Some (decmpfs_prefix 1 (blen inline_content) ++ inline_content)) /\
  resource_fork disk built_volume 50 BLOCK_SIZE = Ok None.
Proof.
  intros disk. unfold decmpfs_header, resource_fork, get_xattr. unfold disk.
  rewrite (list_xattrs_tree _ built_volume 50 BLOCK_SIZE _ (built_tree inline_records inline_fits tail) I). cbn [mbind outcome_bind].
  generalize (build inline_records ++ tail). intros img. split; vm_compute; reflexivity.
Qed.

Lemma inline_compressed_passes `{DocumentedFormat} `{Codecs} : read_data_decodes_inline_compressed_end_to_end = true.
Proof.
  unfold read_data_decodes_inline_compressed_end_to_end, build_spare. fold inline_content. cbn zeta. in_built constr:(inline_records) (zeroed BLOCK_SIZE) inline_fits.
  destruct (ok_or (find_inode 50 (leaf_entries (TLeaf 100 (entries_of inline_records)))) (OmapUnresolved 50 (vol_xid built_volume))) as [v| |] eqn:Hv;
    [|vm_compute in Hv; discriminate..]. cbn [mbind outcome_bind]. destruct (Inode_parse_total 50 v) as (i & Hi & Ho). rewrite Hi. cbn [expecting].
  destruct (inline_attributes (zeroed BLOCK_SIZE)) as [Hh Hf].
  set (disk := image (build inline_records ++ zeroed BLOCK_SIZE)) in *. clearbody disk. rewrite <-Ho in Hh, Hf.
  rewrite (compressed_read_data disk built_volume i BLOCK_SIZE inline_content 1 inline_content None (st_plain _ _) eq_refl Hh Hf).
  apply bool_decide_eq_true_2. reflexivity.
Qed.

Lemma decmpfs_decodes_witness :
  @decompress_decmpfs documented_format sample_codecs (decmpfs_prefix 4 4)
    (Some (encode_zlib_fork [x00; x00; x00; x04] (zeroed 4) [[x78; x9c; x61; x62]; [x78; x9c; x63; x64]])) = Ok [x61; x62; x63; x64] /\
  exists i, ino_oid i = 50 /\
    @read_data documented_format sample_codecs _ _ _ (image (build inline_records ++ [])) built_volume i BLOCK_SIZE = Ok inline_content.
Proof.
  destruct (inline_attributes []) as [Hh Hf]. destruct (Inode_parse_total 50 (inode_value_with_size 0)) as (i & _ & Ho). split.
  - refine (proj1 (@decmpfs_decodes documented_format documented_is_documented sample_codecs _ _ _ (image []) built_volume i BLOCK_SIZE [x61; x62; x63; x64] 4 []
      (Some (encode_zlib_fork [x00; x00; x00; x04] (zeroed 4) [[x78; x9c; x61; x62]; [x78; x9c; x63; x64]])) _ _)); [|vm_compute; reflexivity].
    apply (@st_zlib_fork documented_format sample_codecs [x00; x00; x00; x04] (zeroed 4) [([x61; x62], [x78; x9c; x61; x62]); ([x63; x64], [x78; x9c; x63; x64])]);
      [vm_compute; reflexivity|reflexivity| |vm_compute; reflexivity]. repeat apply Forall_cons_2; [reflexivity|reflexivity|apply Forall_nil_2].
  - exists i. split; [exact Ho|].
    apply (proj2 (@decmpfs_decodes documented_format documented_is_documented sample_codecs _ _ _ (image (build inline_records ++ [])) built_volume i BLOCK_SIZE
      inline_content 1 inline_content None (@st_plain documented_format sample_codecs _ _) eq_refl)); rewrite Ho; [exact Hh|exact Hf].
Defined.

(** ** All of them *)

Definition records_suite `{DecmpfsFormat} `{Codecs} : list bool :=
  [ descends_index_node_to_leaf; cycle_guard_fires_on_self_referential_node; read_stream_rejects_oversize_dstream; read_stream_rejects_overflowing_phys_block;
    read_data_decodes_inline_compressed_end_to_end; resource_fork_embedded_is_returned_inline; zero_length_name_xattr_is_skipped ].

Lemma descends_index_passes : descends_index_node_to_leaf = true.
Proof. vm_refl. Qed.
Lemma cycle_guard_passes : cycle_guard_fires_on_self_referential_node = true.
Proof. vm_refl. Qed.

Lemma records_suite_passes `{DocumentedFormat} `{Codecs} : Forall (fun passed => passed = true) records_suite.
Proof.
  repeat (apply Forall_cons; split); [exact descends_index_passes|exact cycle_guard_passes|exact oversize_dstream_passes|exact overflowing_phys_passes|exact inline_compressed_passes|exact embedded_fork_passes|
    exact zero_length_name_passes|apply Forall_nil_2].
Qed.
