(* ===== verification/TestsCompression.v ===== *)
(** The integration tests of the decmpfs decoder (core/tests/compression.rs).

    Every form the tests build is one of [Decmpfs.stores], so the decoding tests are instances of the round trip and the refusals of the decoder's dispatch; a
    seventy-thousand-byte fork is never evaluated.  The encoders the tests call (flate2's and lzfse_rust's) are parameters with the law their documentation states: the
    decoder inverts them.  The three tests that decode an LZVN stream of the committed image depend on the bytes of that stream and are left out. *)

From Stdlib Require Import Strings.String.
From S2P Require Import Prelude Bytes Errors Reader Object Encryption Extent Xattr Compression Format TestKit Decmpfs.

Set Warnings "-register-all".

(** [flate2::write::ZlibEncoder] and [lzfse_rust::encode_bytes]. *)
Class Encoders := {
  zlib_encode : bytes -> bytes;
  lzfse_encode : bytes -> bytes;
}.

(** What their documentation promises: the decoders invert them, a zlib stream starts with the method byte (whose low half is 8), and neither more
    than doubles its input and a page. *)
Class EncoderLaws `{Codecs} `{Encoders} : Prop := {
  zlib_inverse d : zlib_read_to_end (zlib_encode d) = Ok d;
  zlib_method d : exists cmf rest, zlib_encode d = cmf :: rest /\ Z.land (b2z cmf) 0xf = 8;
  zlib_bound d : blen (zlib_encode d) <= 2 * blen d + 4096;
  lzfse_inverse d : lzfse_decode_bytes (lzfse_encode d) = Ok d;
  lzfse_bound d : blen (lzfse_encode d) <= 2 * blen d + 4096;
}.

Section Tests.
Context `{DecmpfsFormat} `{Codecs} `{Encoders}.

Definition header (compression_type uncompressed_size : Z) : bytes :=
  let h := [] in
  let h := h ++ to_le_bytes 4 0x636d7066 in
  let h := h ++ to_le_bytes 4 compression_type in
  let h := h ++ to_le_bytes 8 uncompressed_size in
  h.
Definition xattr (compression_type uncompressed_size : Z) (payload : bytes) : bytes :=
  let x := header compression_type uncompressed_size in
  let x := x ++ payload in
  x.

(** [assert_eq!(decompress_decmpfs(..).expect(..), data)] and [assert!(matches!(.., Err(Decmpfs(_))))]. *)
Definition decodes_to (r : result bytes) (data : bytes) : bool := let_ok out := r in assert_eq out data.
Definition is_decmpfs {A} (r : result A) : bool := match r with Err (Decmpfs _) => true | _ => false end.

Definition decodes_inline_uncompressed_type1 : bool :=
  let data := lit "the quick brown fox jumps over the lazy dog" in
  let x := xattr 1 (blen data) data in
  decodes_to (decompress_decmpfs x None) data.

Definition decodes_inline_uncompressed_type9_marker : bool :=
  let content := lit "type 9 is uncompressed-inline, a variant of type 1" in
  let payload := [xcc] in
  let payload := payload ++ content in
  let x := xattr 9 (blen content) payload in
  decodes_to (decompress_decmpfs x None) content.

Definition decodes_inline_zlib_type3 : bool :=
  let data := lit "compress this with zlib inline, type 3, the quick brown fox" in
  let payload := zlib_encode data in
  let x := xattr 3 (blen data) payload in
  decodes_to (decompress_decmpfs x None) data.

Definition decodes_inline_zlib_type3_stored_marker : bool :=
  let data := lit "stored verbatim after the 0xFF marker" in
  let payload := [xff] in
  let payload := payload ++ data in
  let x := xattr 3 (blen data) payload in
  decodes_to (decompress_decmpfs x None) data.

Definition decodes_inline_lzvn_type7_stored_marker : bool :=
  let data := lit "raw stored after 0x06 marker" in
  let payload := [x06] in
  let payload := payload ++ data in
  let x := xattr 7 (blen data) payload in
  decodes_to (decompress_decmpfs x None) data.

Definition decodes_inline_lzfse_type11 : bool :=
  let data := lit "lzfse inline type 11 payload, the quick brown fox jumps high" in
  let encoded := lzfse_encode data in
  let x := xattr 11 (blen data) encoded in
  decodes_to (decompress_decmpfs x None) data.

(** The two loops of [chunked_fork]: the end offsets, then the chunks. *)
Fixpoint push_ends (chunks : list bytes) (end_ : Z) (fork : bytes) : bytes :=
  match chunks with
  | [] => fork
  | c :: chunks => let end_ := end_ + blen c in push_ends chunks end_ (fork ++ to_le_bytes 4 end_)
  end.
Definition chunked_fork (chunks : list bytes) : bytes :=
  let header_size := 4 * (blen chunks + 1) in
  let fork := to_le_bytes 4 header_size in
  let fork := push_ends chunks header_size fork in
  foldl (fun fork c => fork ++ c) fork chunks.

(** [(i % m) as u8] for [i] below [n]. *)
Definition pattern (n m : Z) : bytes := map (fun i => z2b (i mod m)) (range n).

Definition decodes_uncompressed_resource_fork_type10 : bool :=
  let data := pattern (65536 + 5000) 251 in
  let c0 := take (Z.to_nat 65536) data in
  let c1 := drop (Z.to_nat 65536) data in
  let fork := chunked_fork [c0; c1] in
  let hdr := header 10 (blen data) in
  decodes_to (decompress_decmpfs hdr (Some fork)) data.

Definition decodes_lzfse_resource_fork_type12 : bool :=
  let data := pattern 50000 64 in
  let chunk := lzfse_encode data in
  let fork := chunked_fork [chunk] in
  let hdr := header 12 (blen data) in
  decodes_to (decompress_decmpfs hdr (Some fork)) data.

Definition chunked_fork_stops_at_uncompressed_size_with_padding_slots : bool :=
  let data := pattern 30000 97 in
  let chunk := lzfse_encode data in
  let header_size := 4 * 3 in
  let fork := to_le_bytes 4 header_size in
  let end_ := header_size + blen chunk in
  let fork := fork ++ to_le_bytes 4 end_ in
  let fork := fork ++ to_le_bytes 4 0 in
  let fork := fork ++ chunk in
  let hdr := header 12 (blen data) in
  decodes_to (decompress_decmpfs hdr (Some fork)) data.

Definition rejects_chunked_fork_backward_offset : bool :=
  let header_size := 4 * 2 in
  let fork := to_le_bytes 4 header_size in
  let fork := fork ++ to_le_bytes 4 0 in
  let hdr := header 8 100 in
  is_decmpfs (decompress_decmpfs hdr (Some fork)).

Definition decodes_zlib_resource_fork_type4 : bool :=
  let block_data := lit "zlib resource fork type 4 content block zero" in
  let comp := zlib_encode block_data in
  let header_size := 256 in
  let fork := zeroed header_size in
  let fork := put fork 0 (reverse (to_le_bytes 4 header_size)) in
  let fork := fork ++ reverse (to_le_bytes 4 0) in
  let fork := fork ++ to_le_bytes 4 1 in
  let fork := fork ++ to_le_bytes 4 12 in
  let fork := fork ++ to_le_bytes 4 (blen comp) in
  let fork := fork ++ comp in
  let hdr := header 4 (blen block_data) in
  decodes_to (decompress_decmpfs hdr (Some fork)) block_data.

Definition rejects_bad_magic : bool :=
  let x := xattr 1 0 [] in
  let x := flip_byte x 0 in
  is_decmpfs (decompress_decmpfs x None).

Definition rejects_truncated_header : bool := is_decmpfs (decompress_decmpfs (zeroed 8) None).
Definition rejects_unknown_type : bool := let x := xattr 99 0 [] in is_decmpfs (decompress_decmpfs x None).
Definition rejects_dedup_type5 : bool := let x := xattr 5 0 [] in is_decmpfs (decompress_decmpfs x None).
Definition rejects_lzbitmap_type13 : bool := let x := xattr 13 0 [] in is_decmpfs (decompress_decmpfs x None).
Definition rejects_resource_fork_type_without_fork : bool := let hdr := header 8 100 in is_decmpfs (decompress_decmpfs hdr None).

Definition rejects_length_mismatch : bool :=
  let data := lit "the quick brown fox" in
  let x := xattr 1 999 data in
  is_decmpfs (decompress_decmpfs x None).

(** ** They hold of the model *)

Context `{!DocumentedFormat} `{!EncoderLaws}.

Lemma header_prefix ty size : header ty size = decmpfs_prefix ty size.
Proof. unfold header, decmpfs_prefix. cbn zeta. by rewrite <-!app_assoc. Qed.
Lemma xattr_prefix ty size payload : xattr ty size payload = decmpfs_prefix ty size ++ payload.
Proof. unfold xattr. by rewrite header_prefix. Qed.

(** A test that decodes a stored form. *)
Lemma decodes_stored d ty payload fork :
  stores d ty payload fork -> blen d < 2 ^ 64 -> decodes_to (decompress_decmpfs (decmpfs_prefix ty (blen d) ++ payload) fork) d = true.
Proof. intros Hs Hd. unfold decodes_to. rewrite stores_decodes by done. by apply bool_decide_eq_true_2. Qed.

Lemma inline_form d ty payload : stores d ty payload None -> blen d < 2 ^ 64 -> decodes_to (decompress_decmpfs (xattr ty (blen d) payload) None) d = true.
Proof. rewrite xattr_prefix. apply decodes_stored. Qed.
Lemma fork_form d ty fork : stores d ty [] (Some fork) -> blen d < 2 ^ 64 -> decodes_to (decompress_decmpfs (header ty (blen d)) (Some fork)) d = true.
Proof. intros Hs Hd. rewrite header_prefix, <-(app_nil_r (decmpfs_prefix _ _)). by apply decodes_stored. Qed.

Lemma zlib_no_marker d : head (zlib_encode d) <> Some xff.
Proof. destruct (zlib_method d) as (cmf & rest & -> & Hm). cbn. intros [= ->]. by vm_compute in Hm. Qed.

Lemma blen_pattern n m : 0 <= n -> blen (pattern n m) = n.
Proof. intros Hn. unfold pattern, range, blen. rewrite length_map, length_seqZ. lia. Qed.

Lemma push_ends_layout chunks : forall end_ fork, push_ends chunks end_ fork = fork ++ chunk_ends end_ chunks.
Proof. induction chunks as [|c chunks IH]; intros end_ fork; cbn; [by rewrite app_nil_r|]. by rewrite IH, <-app_assoc. Qed.
Lemma push_chunks (chunks : list bytes) : forall fork, foldl (fun fork c => fork ++ c) fork chunks = fork ++ concat chunks.
Proof. induction chunks as [|c chunks IH]; intros fork; cbn; [by rewrite app_nil_r|]. by rewrite IH, <-app_assoc. Qed.

(** The tests' fork is the encoder's. *)
Lemma chunked_fork_layout chunks : chunked_fork chunks = encode_chunked chunks 0.
Proof.
  unfold chunked_fork, encode_chunked. cbn zeta. rewrite push_ends_layout, push_chunks, <-app_assoc. cbn [app Nat.mul replicate].
  replace (4 * (1 + blen chunks + Z.of_nat 0)) with (4 * (blen chunks + 1)) by lia. done.
Qed.

Lemma blen_encode_chunked (chunks : list bytes) pad : blen (encode_chunked chunks pad) = 4 * (1 + blen chunks + Z.of_nat pad) + blen (concat chunks).
Proof. unfold encode_chunked. rewrite !blen_app, blen_to_le_bytes, blen_chunk_ends, blen_replicate. lia. Qed.

Lemma type10_passes : decodes_uncompressed_resource_fork_type10 = true.
Proof.
  unfold decodes_uncompressed_resource_fork_type10. cbn zeta. pose proof (blen_pattern (65536 + 5000) 251 ltac:(lia)) as Hl.
  generalize dependent (pattern (65536 + 5000) 251). intros data Hl. rewrite chunked_fork_layout.
  assert (blen (take (Z.to_nat 65536) data) = 65536) as Hc0 by (unfold blen in *; rewrite length_take; lia).
  assert (blen (drop (Z.to_nat 65536) data) = 5000) as Hc1 by (unfold blen in *; rewrite length_drop; lia).
  pose proof (take_drop (Z.to_nat 65536) data) as Hd. generalize dependent (take (Z.to_nat 65536) data). intros c0 Hc0 Hd.
  generalize dependent (drop (Z.to_nat 65536) data). intros c1 Hc1 Hd. pose proof (st_chunked 10 Uncompressed [(c0, c0); (c1, c1)] 0 []) as Hs.
  cbn [map fst snd concat] in Hs. rewrite app_nil_r, Hd in Hs. apply fork_form; [|lia]. apply Hs.
  - apply list_elem_of_In. cbn. auto.
  - cbn [chunk_sizes]. rewrite df_chunk. lia.
  - repeat apply Forall_cons_2; [done|done|apply Forall_nil_2].
  - rewrite blen_encode_chunked. cbn [concat]. rewrite app_nil_r, Hd. change (blen [c0; c1]) with 2. lia.
Qed.

(** One LZFSE chunk, with unused slots behind it. *)
Lemma lzfse_chunk_form data pad : 0 < blen data <= 65536 -> (pad < 10)%nat -> stores data 12 [] (Some (encode_chunked [lzfse_encode data] pad)).
Proof.
  intros Hl Hp. pose proof (lzfse_bound data). pose proof (st_chunked 12 Lzfse [(data, lzfse_encode data)] pad []) as Hs.
  cbn [map fst snd concat] in Hs. rewrite app_nil_r in Hs. apply Hs.
  - apply list_elem_of_In. cbn. auto.
  - cbn. rewrite df_chunk. lia.
  - apply Forall_singleton. cbn. unfold lzfse_decode. by rewrite lzfse_inverse.
  - rewrite blen_encode_chunked. cbn [concat]. rewrite app_nil_r. change (blen [lzfse_encode data]) with 1. lia.
Qed.

Lemma type12_passes : decodes_lzfse_resource_fork_type12 = true.
Proof.
  unfold decodes_lzfse_resource_fork_type12. cbn zeta. pose proof (blen_pattern 50000 64 ltac:(lia)) as Hl.
  generalize dependent (pattern 50000 64). intros data Hl. rewrite chunked_fork_layout. apply fork_form; [|lia]. apply lzfse_chunk_form; lia.
Qed.

Lemma padding_slots_pass : chunked_fork_stops_at_uncompressed_size_with_padding_slots = true.
Proof.
  unfold chunked_fork_stops_at_uncompressed_size_with_padding_slots. cbn zeta. pose proof (blen_pattern 30000 97 ltac:(lia)) as Hl.
  generalize dependent (pattern 30000 97). intros data Hl. pose proof (lzfse_chunk_form data 1 ltac:(lia) ltac:(lia)) as Hs.
  unfold encode_chunked in Hs. cbn [chunk_ends concat] in Hs. rewrite !app_nil_r in Hs. change (blen [lzfse_encode data]) with 1 in Hs.
  change (4 * (1 + 1 + Z.of_nat 1)) with 12 in Hs. change (replicate (4 * 1) x00) with (to_le_bytes 4 0) in Hs. change (4 * 3) with 12.
  rewrite <-!app_assoc. apply fork_form; [exact Hs|lia].
Qed.

Lemma type4_passes : decodes_zlib_resource_fork_type4 = true.
Proof.
  unfold decodes_zlib_resource_fork_type4. cbn zeta. set (data := lit _). pose proof (zlib_bound data) as Hb. assert (blen data = 44) as Hl by done.
  set (h := put (zeroed 256) 0 _). assert (cm_be_u32 h 0 = Ok (blen h) /\ blen h = 256) as [Hh Hn] by (split; vm_compute; reflexivity).
  pose proof (st_zlib_fork h (reverse (to_le_bytes 4 0)) [(data, zlib_encode data)] [] Hh eq_refl) as Hs.
  cbn [map fst snd concat] in Hs. rewrite app_nil_r in Hs. unfold encode_zlib_fork in Hs. cbn [block_table concat] in Hs. rewrite !app_nil_r in Hs.
  change (blen [zlib_encode data]) with 1 in Hs. change (4 + 8 * 1) with 12 in Hs. rewrite <-!app_assoc in Hs |- *.
  apply fork_form; [|lia]. apply Hs.
  - apply Forall_singleton. apply zlib_inverse.
  - rewrite !blen_app, !blen_to_le_bytes. change (blen (reverse (to_le_bytes 4 0))) with 4. lia.
Qed.

(** What the dispatch refuses. *)
Lemma refused ty size payload fork :
  0 <= ty < 2 ^ 32 -> 0 <= size < 2 ^ 64 ->
  (classify_type ty = None \/ fst <$> classify_type ty = Some LzBitmap \/ (exists alg, classify_type ty = Some (alg, ResourceFork)) /\ fork = None) ->
  is_decmpfs (decompress_decmpfs (xattr ty size payload) fork) = true.
Proof.
  intros Ht Hs Hc. rewrite xattr_prefix, decode_header by done. destruct Hc as [->|[Hc|[[alg ->] ->]]].
  - by destruct (ty =? 5).
  - destruct (classify_type ty) as [[alg st]|]; [|done]. cbn in Hc. injection Hc as ->. done.
  - by destruct (bool_decide _).
Qed.

Lemma bad_magic_passes : rejects_bad_magic = true.
Proof.
  unfold rejects_bad_magic, decompress_decmpfs. cbn zeta. rewrite df_header, df_magic, df_type, df_size.
  change (xattr 1 0 []) with (decmpfs_prefix 1 0). set (x := flip_byte _ _). assert (blen x = 16 /\ cm_le_u32 x 0 = Ok (Z.lxor 0x636d7066 0xff)) as [-> ->]
    by (split; vm_compute; reflexivity). reflexivity.
Qed.

Lemma truncated_header_passes : rejects_truncated_header = true.
Proof. unfold rejects_truncated_header, decompress_decmpfs. by rewrite df_header. Qed.

Lemma backward_offset_passes : rejects_chunked_fork_backward_offset = true.
Proof.
  unfold rejects_chunked_fork_backward_offset. cbn zeta. rewrite header_prefix, <-(app_nil_r (decmpfs_prefix _ _)), decode_header, df_8 by lia.
  vm_compute. reflexivity.
Qed.

Lemma length_mismatch_passes : rejects_length_mismatch = true.
Proof. unfold rejects_length_mismatch. cbn zeta. by rewrite xattr_prefix, decode_header, df_1 by lia. Qed.

Definition compression_suite : list bool :=
  [ decodes_inline_uncompressed_type1; decodes_inline_uncompressed_type9_marker; decodes_inline_zlib_type3; decodes_inline_zlib_type3_stored_marker;
    decodes_inline_lzvn_type7_stored_marker; decodes_inline_lzfse_type11; decodes_uncompressed_resource_fork_type10; decodes_lzfse_resource_fork_type12;
    chunked_fork_stops_at_uncompressed_size_with_padding_slots; rejects_chunked_fork_backward_offset; decodes_zlib_resource_fork_type4; rejects_bad_magic;
    rejects_truncated_header; rejects_unknown_type; rejects_dedup_type5; rejects_lzbitmap_type13; rejects_resource_fork_type_without_fork;
    rejects_length_mismatch ].

(** Every one of these tests holds of the model, whatever the codecs are. *)
Lemma compression_suite_passes : Forall (fun passed => passed = true) compression_suite.
Proof.
  apply Forall_cons; split; [apply inline_form; [apply st_plain|done]|].
  apply Forall_cons; split; [apply inline_form; [apply st_marked|done]|].
  apply Forall_cons; split; [apply inline_form; [apply st_zlib; [apply zlib_inverse|apply zlib_no_marker]|done]|].
  apply Forall_cons; split; [apply inline_form; [apply st_zlib_raw|done]|].
  apply Forall_cons; split; [apply inline_form; [apply st_lzvn_raw|done]|].
  apply Forall_cons; split; [apply inline_form; [apply st_lzfse, lzfse_inverse|done]|].
  repeat (apply Forall_cons; split); [exact type10_passes|exact type12_passes|exact padding_slots_pass|exact backward_offset_passes|exact type4_passes|
    exact bad_magic_passes|exact truncated_header_passes|..|exact length_mismatch_passes|apply Forall_nil_2].
  - apply refused; [lia|lia|left; apply df_99].
  - apply refused; [lia|lia|left; apply df_5].
  - apply refused; [lia|lia|right; left; apply df_13].
  - unfold rejects_resource_fork_type_without_fork. cbn zeta. rewrite <-(app_nil_r (header 8 100)). apply (refused 8 100 []); [lia|lia|right; right]. split; [exists Lzvn; apply df_8|done].
Qed.
End Tests.
