(* ===== verification/TestsContent.v ===== *)
(** The integration tests over the stored contents: core/tests/extent.rs, xattr.rs and snapshot.rs, and forensic/tests/analyzers.rs.

    As in [TestsTree], the live volume of the image is decoded once ([content_is_tree]) and every test over it follows from what the components prove of any volume;
    the contents are then read from the blocks of the image.  SHA-256 is a parameter: the tests that compare digests hold for every digest
    that gives the recorded value on the recorded content. *)

From Stdlib Require Import Strings.String.
From S2P Require Import Prelude Bytes Errors Reader Object Walk BTree NodeLayout Omap FsRecord Encryption Volume Keybag Inode Dir Sealed Extent Xattr Compression Snapshot Format TestKit Fixture FixtureContent Report Analyzer.

Set Warnings "-register-all".

Definition LIVE_APSB : Z := 438.
Definition content_block (i : Z) : bytes := disk_block CONTENT i.
(** [volume()], [p4_volume()] and the rest of a test. *)
Definition with_live (k : ApfsVolume -> bool) : bool := let_ok v := ApfsVolume_parse (content_block LIVE_APSB) in k v.

(** ** extent.rs *)

Definition plain_text : bytes := lit "APFS P4 plain file. Hello extents." ++ [x0a].
Definition beth_text : bytes := lit "Beth target content for symlink." ++ [x0a].

Section Digest.
Context (sha256_hex : bytes -> bytes) `{DecmpfsFormat} `{Codecs}.

(** [open_path(..).expect(..)] and [read_data(..).expect(..)]. *)
Definition with_file (path : bytes) (k : bytes -> bool) : bool :=
  with_live (fun vol =>
    let_ok inode := open_path CONTENT vol path BLOCK_SIZE in let_ok bytes := read_data CONTENT vol inode BLOCK_SIZE in k bytes).

Definition reads_plain_file_byte_identical : bool :=
  with_file (lit "/plain.txt") (fun bytes =>
    assert_eq (blen bytes) 35 && assert_eq bytes plain_text &&
    assert_eq (sha256_hex bytes) (lit "289af0a0b21ede77675f1173c65cc2388d3b26570dbaaa7f2506444e05abf86b")).
Definition reads_sparse_file_with_hole_byte_identical : bool :=
  with_file (lit "/sparse.bin") (fun bytes =>
    assert_eq (blen bytes) 69632 && forallb (fun b => b2z b =? 0) (take (Z.to_nat 65536) bytes) &&
    existsb (fun b => negb (b2z b =? 0)) (drop (Z.to_nat 65536) bytes) &&
    assert_eq (sha256_hex bytes) (lit "fe0fc4fa9e8465dd74086a9e37d21d1a69c0f4d08cf6b9abbb288886d4cc822a")).
Definition reads_nested_file_byte_identical : bool :=
  with_file (lit "/Dir1/Beth.txt") (fun bytes =>
    assert_eq (blen bytes) 33 && assert_eq (sha256_hex bytes) (lit "ee7c26829909d9c7ea1bcb444908fff35c1254f3c51894bd49b8b175becfeb96")).
End Digest.

(** [extents.iter().find(..).unwrap()] *)
Definition extent_at (off : Z) (extents : list FileExtent) : option FileExtent := snd <$> list_find (fun e => fe_logical_offset e = off) extents.
Definition list_extents_reports_hole_and_tail : bool :=
  with_live (fun vol =>
    let_ok inode := open_path CONTENT vol (lit "/sparse.bin") BLOCK_SIZE in
    let_ok extents := list_extents CONTENT vol (ino_private_id inode) BLOCK_SIZE in
    assert_eq (blen extents) 2 &&
    (let_some hole := extent_at 0 extents in assert_eq (fe_phys_block_num hole) 0 && assert_eq (fe_len hole) 65536) &&
    (let_some tail := extent_at 65536 extents in assert_ne (fe_phys_block_num tail) 0 && assert_eq (fe_len tail) 4096)).

(** ** xattr.rs *)

(** [inode_oid(path)] and the rest of a test. *)
Definition with_oid (path : bytes) (k : ApfsVolume -> Z -> bool) : bool :=
  with_live (fun vol => let_ok inode := open_path CONTENT vol path BLOCK_SIZE in k vol (ino_oid inode)).

Definition lists_custom_xattrs_matching_xattr_l : bool :=
  with_oid (lit "/plain.txt") (fun vol oid =>
    let_ok xattrs := list_xattrs CONTENT vol oid BLOCK_SIZE in
    let named := map (fun x => (xa_name x, match xa_value x with Embedded b => b | _ => [] end)) xattrs in
    elem (lit "com.example.tag", lit "forensic-marker-P4") named && elem (lit "user.note", lit "second custom attr") named).
Definition get_xattr_returns_embedded_value : bool :=
  with_oid (lit "/plain.txt") (fun vol oid =>
    let_ok v := get_xattr CONTENT vol oid (lit "com.example.tag") BLOCK_SIZE in
    let_some v := v in match v with Embedded b => assert_eq b (lit "forensic-marker-P4") | _ => false end).
Definition get_xattr_absent_is_none : bool :=
  with_oid (lit "/plain.txt") (fun vol oid => let_ok v := get_xattr CONTENT vol oid (lit "no.such.attr") BLOCK_SIZE in is_none v).
Definition compressed_file_carries_decmpfs_and_resource_fork : bool :=
  with_oid (lit "/compressed.txt") (fun vol oid =>
    (let_ok decmpfs := get_xattr CONTENT vol oid XATTR_NAME_DECMPFS BLOCK_SIZE in
     let_some decmpfs := decmpfs in
     match decmpfs with
     | Embedded b =>
         assert_eq (get_range b 0 4) (Some (to_le_bytes 4 0x636d7066)) && assert_eq (from_le_bytes <$> get_range b 4 8) (Some 8) &&
         assert_eq (from_le_bytes <$> get_range b 8 16) (Some 180000)
     | _ => false
     end) &&
    (let_ok fork := get_xattr CONTENT vol oid XATTR_NAME_RESOURCE_FORK BLOCK_SIZE in
     let_some fork := fork in
     match fork with Stream dstream_oid size => assert_eq dstream_oid 24 && assert_eq size 1526 | _ => false end)).
Definition resource_fork_reads_back_the_stream_bytes : bool :=
  with_oid (lit "/compressed.txt") (fun vol oid =>
    let_ok fork := resource_fork CONTENT vol oid BLOCK_SIZE in
    let_some fork := fork in assert_eq (blen fork) 1526 && assert_eq (from_le_bytes <$> get_range fork 0 4) (Some 16)).
Definition resolves_symlink_target_matching_readlink : bool :=
  with_oid (lit "/symlink_to_beth") (fun vol oid =>
    let_ok target := symlink_target CONTENT vol oid BLOCK_SIZE in let_some target := target in assert_eq target (lit "Dir1/Beth.txt")).
Definition non_symlink_has_no_symlink_target : bool :=
  with_oid (lit "/plain.txt") (fun vol oid => let_ok target := symlink_target CONTENT vol oid BLOCK_SIZE in is_none target).
Definition file_without_resource_fork_yields_none : bool :=
  with_oid (lit "/plain.txt") (fun vol oid => let_ok fork := resource_fork CONTENT vol oid BLOCK_SIZE in is_none fork).

(** ** snapshot.rs *)

Definition real_unsnapshotted_volume_lists_zero_snapshots : bool :=
  with_live (fun vol => let_ok snaps := list_snapshots CONTENT vol BLOCK_SIZE in match snaps with [] => true | _ => false end).
Definition real_volume_exposes_snap_meta_tree_oid : bool := with_live (fun vol => assert_eq (vol_snap_meta_tree_oid vol) 340).
Definition real_unsnapshotted_volume_resolves_no_name : bool :=
  with_live (fun vol => let_ok xid := resolve_snapshot_xid CONTENT vol (lit "nonexistent") BLOCK_SIZE in assert_eq xid None).

(** ** analyzers.rs *)

(** One entry of the test's keybag, and the builder; it writes [kl_nbytes] at 4, which the reader does not look at. *)
Definition put_keybag_entry (st : bytes * Z * Z) (entry : Z * Z) : bytes * Z * Z :=
  let '(data, off, nbytes) := st in
  let '(tag, keylen) := entry in
  let e := zeroed (Z.land (24 + keylen + 15) (Z.lnot 15)) in
  let e := put e 16 (to_le_bytes 2 tag) in
  let e := put e 18 (to_le_bytes 2 keylen) in
  (put data off e, off + blen e, nbytes + blen e).
Definition analyzer_keybag (entries : list (Z * Z)) : bytes :=
  let data := zeroed 4096 in
  let data := put data 24 (lit "keys") in
  let data := put data 32 (to_le_bytes 2 1) in
  let data := put data (32 + 2) (to_le_bytes 2 (blen entries)) in
  let '(data, _, nbytes) := foldl put_keybag_entry (data, 32 + 16, 16) entries in
  put data 4 (to_le_bytes 4 nbytes).

Definition audit_codes (v : list AnomalyKind) : list string := map code v.
Definition clean (findings : list AnomalyKind) : bool := match findings with [] => true | _ => false end.

Definition timestamps_audit_on_a_real_inode_is_clean : bool :=
  with_live (fun vol => let_ok inode := load_inode CONTENT vol 18 BLOCK_SIZE in clean (timestamps_audit inode)).
Definition crypto_audit_on_an_unencrypted_state_is_clean : bool :=
  let_ok state := read_keybag (analyzer_keybag []) in negb (es_encrypted state) && clean (crypto_audit state).
Definition crypto_audit_on_a_locked_state_with_unknown_tag_flags_both : bool :=
  let_ok state := read_keybag (analyzer_keybag [(0x02, 32); (0x04, 8); (0x55, 4)]) in
  let audit_codes := audit_codes (crypto_audit state) in
  es_encrypted state && elem "APFS-ENCRYPTION-LOCKED"%string audit_codes && elem "APFS-ENCRYPTION-STATE"%string audit_codes &&
  elem "APFS-ENCRYPTION-KEYBAG-ANOMALY"%string audit_codes.

(** The integrity block of the two seal tests. *)
Definition seal_block (broken_xid : option Z) : bytes :=
  let block := zeroed BLOCK_SIZE in
  let block := put block 32 (to_le_bytes 4 1) in
  let block := put block 40 (to_le_bytes 4 1) in
  let block := match broken_xid with Some x => put block 48 (to_le_bytes 8 x) | None => block end in
  stamp block.
Definition sealed_audit_on_an_unbroken_seal_is_clean : bool :=
  let_ok meta := IntegrityMeta_parse (seal_block None) in assert_eq (im_broken_xid meta) 0 && clean (sealed_audit meta).
Definition sealed_audit_on_a_broken_seal_flags_it : bool :=
  let_ok meta := IntegrityMeta_parse (seal_block (Some 4242)) in assert_eq (audit_codes (sealed_audit meta)) ["APFS-SEALED-VOLUME-BROKEN"%string].
Definition snapshots_audit_on_the_unsnapshotted_fixture_is_clean : bool :=
  with_live (fun vol => let_ok findings := snapshots_audit CONTENT vol BLOCK_SIZE in clean findings).

(** ** The stored volume *)

Definition content_volume : ApfsVolume :=
  {| vol_oid := 1026; vol_xid := 14; vol_fs_index := 0; vol_features := 2; vol_readonly_compatible_features := 0;
     vol_incompatible_features := 1; vol_root_tree_type := 2; vol_omap_oid := 433; vol_root_tree_oid := 1028;
     vol_extentref_tree_oid := 424; vol_snap_meta_tree_oid := 340;
     vol_uuid := hex_bytes "643144d9795c4e95ab19007de4e8d4e1"%hex; vol_fs_flags := 1782066071418778544; vol_name := lit "APFSP4"; vol_vek := None |}.
Definition content_omap : ObjectMap := {| om_flags := 0; om_tree_type := 0x40000002; om_tree_oid := 434; om_snapshot_tree_oid := 0 |}.

Lemma content_parses : ApfsVolume_parse (content_block LIVE_APSB) = Ok content_volume.
Proof. vm_refl. Qed.
Lemma in_live k : with_live k = k content_volume.
Proof. unfold with_live. by rewrite content_parses. Qed.

(** The records of the volume, as its one leaf has them. *)
Definition content_records : list Entry := Eval vm_compute in node_entries (content_block 432) SubtypeFsTree.
Definition content_tree : tree := TLeaf 1028 content_records.

Lemma content_root : virt_node CONTENT content_volume BLOCK_SIZE content_omap 1028 = Ok (Some (NLeaf content_records)).
Proof. vm_refl. Qed.

Lemma content_is_tree : volume_tree CONTENT content_volume BLOCK_SIZE content_tree.
Proof.
  exists content_omap. split; [vm_refl|]. split; [|reflexivity]. split.
  - apply repr_leaf. exact content_root.
  - cbn. unfold MAX_FSTREE_DEPTH. lia.
  - apply NoDup_singleton.
  - intros x _. apply not_elem_of_empty.
Qed.
Lemma content_ordered : oid_ordered content_tree.
Proof. exact I. Qed.

(** [in_content]: replace the operations on the live volume by what they are of its records. *)
Ltac in_content :=
  rewrite ?in_live;
  repeat match goal with
  | |- context [open_path CONTENT content_volume ?p BLOCK_SIZE] =>
      rewrite (open_path_tree CONTENT content_volume BLOCK_SIZE p content_tree content_is_tree content_ordered)
  | |- context [load_inode CONTENT content_volume ?o BLOCK_SIZE] =>
      rewrite (load_inode_tree CONTENT content_volume BLOCK_SIZE o content_tree content_is_tree content_ordered)
  end.

(** The inode a path leads to, by its id, its stream and its size. *)
Definition opens (path : bytes) (oid stream : Z) (size : option Z) : Prop :=
  exists i, open_path CONTENT content_volume path BLOCK_SIZE = Ok i /\ ino_oid i = oid /\ ino_private_id i = stream /\ ino_size i = size.
Ltac opened := unfold opens; in_content; eexists; split; [vm_compute; reflexivity|]; split_and!; vm_compute; reflexivity.

Lemma plain_opens : opens (lit "/plain.txt") 18 18 (Some 35).
Proof. opened. Qed.
Lemma sparse_opens : opens (lit "/sparse.bin") 22 22 (Some 69632).
Proof. opened. Qed.
Lemma beth_opens : opens (lit "/Dir1/Beth.txt") 28 28 (Some 33).
Proof. opened. Qed.
Lemma compressed_opens : opens (lit "/compressed.txt") 23 23 None.
Proof. opened. Qed.
Lemma link_opens : opens (lit "/symlink_to_beth") 29 29 None.
Proof. opened. Qed.

Lemma with_oid_opens path oid stream size k : opens path oid stream size -> with_oid path k = k content_volume oid.
Proof. intros (i & Hi & Ho & _). unfold with_oid. rewrite in_live, Hi. cbn [expecting]. by rewrite Ho. Qed.

(** A file that is not compressed, from its extents. *)
Lemma content_read_data `{DecmpfsFormat} `{Codecs} i size exts out :
  ino_size i = Some size -> (size <=? MAX_FILE_BYTES) = true ->
  find_xattr XATTR_NAME_DECMPFS (omap (xattr_record (ino_oid i)) content_records) = None ->
  sort_by_key fe_logical_offset (omap (extent_record (ino_private_id i)) content_records) = exts ->
  fold_res (fill_extent CONTENT None size BLOCK_SIZE) (replicate (Z.to_nat size) x00) exts = Ok out ->
  read_data CONTENT content_volume i BLOCK_SIZE = Ok out.
Proof.
  intros Hz Hle Hx He Hf. unfold read_data, decmpfs_header, get_xattr.
  rewrite (list_xattrs_tree CONTENT content_volume (ino_oid i) BLOCK_SIZE content_tree content_is_tree content_ordered). cbn [mbind outcome_bind].
  change (leaf_entries content_tree) with content_records. rewrite Hx, Hz. cbn [default from_option id mbind outcome_bind]. unfold id, read_stream.
  apply Z.leb_le in Hle. rewrite (proj2 (Z.ltb_ge MAX_FILE_BYTES size) Hle).
  rewrite (list_extents_tree CONTENT content_volume (ino_private_id i) BLOCK_SIZE content_tree content_is_tree content_ordered). cbn [mbind outcome_bind].
  change (leaf_entries content_tree) with content_records. rewrite He. change (vol_vek content_volume) with (@None bytes). exact Hf.
Qed.

Lemma content_file `{DecmpfsFormat} `{Codecs} path oid stream size exts out k :
  opens path oid stream (Some size) -> (size <=? MAX_FILE_BYTES) = true ->
  find_xattr XATTR_NAME_DECMPFS (omap (xattr_record oid) content_records) = None ->
  sort_by_key fe_logical_offset (omap (extent_record stream) content_records) = exts ->
  fold_res (fill_extent CONTENT None size BLOCK_SIZE) (replicate (Z.to_nat size) x00) exts = Ok out ->
  with_file path k = k out.
Proof.
  intros (i & Hi & Ho & Hs & Hz) Hle Hx He Hf. rewrite <-Ho in Hx. rewrite <-Hs in He. unfold with_file. rewrite in_live, Hi. cbn [expecting].
  pose proof (content_read_data i size exts out Hz Hle Hx He Hf) as Hd.
  unfold expecting at 1. destruct (read_data CONTENT content_volume i BLOCK_SIZE) as [b| |]; [|discriminate..]. by injection Hd as ->.
Qed.

Definition data_run (logical len phys : Z) : FileExtent :=
  {| fe_logical_offset := logical; fe_len := len; fe_phys_block_num := phys; fe_crypto_id := 0 |}.
Definition sparse_content : bytes := zeroed 65536 ++ content_block 371.

Section Digests.
Context `{DecmpfsFormat} `{Codecs} (sha256_hex : bytes -> bytes).
Context (plain_digest : sha256_hex plain_text = lit "289af0a0b21ede77675f1173c65cc2388d3b26570dbaaa7f2506444e05abf86b").
Context (sparse_digest : sha256_hex sparse_content = lit "fe0fc4fa9e8465dd74086a9e37d21d1a69c0f4d08cf6b9abbb288886d4cc822a").
Context (beth_digest : sha256_hex beth_text = lit "ee7c26829909d9c7ea1bcb444908fff35c1254f3c51894bd49b8b175becfeb96").

Lemma plain_passes : reads_plain_file_byte_identical sha256_hex = true.
Proof.
  unfold reads_plain_file_byte_identical. rewrite (content_file _ 18 18 35 [data_run 0 4096 347] plain_text _ plain_opens eq_refl);
    [rewrite plain_digest; vm_refl|vm_refl|vm_compute; reflexivity|vm_compute; reflexivity].
Qed.
Lemma beth_passes : reads_nested_file_byte_identical sha256_hex = true.
Proof.
  unfold reads_nested_file_byte_identical. rewrite (content_file _ 28 28 33 [data_run 0 4096 400] beth_text _ beth_opens eq_refl);
    [rewrite beth_digest; vm_refl|vm_refl|vm_compute; reflexivity|vm_compute; reflexivity].
Qed.
Lemma sparse_passes : reads_sparse_file_with_hole_byte_identical sha256_hex = true.
Proof.
  unfold reads_sparse_file_with_hole_byte_identical. rewrite (content_file _ 22 22 69632 [data_run 0 65536 0; data_run 65536 4096 371] sparse_content _ sparse_opens eq_refl);
    [rewrite sparse_digest; vm_refl|vm_refl|vm_compute; reflexivity|vm_refl].
Qed.
End Digests.

Lemma hole_and_tail_passes : list_extents_reports_hole_and_tail = true.
Proof.
  unfold list_extents_reports_hole_and_tail. rewrite in_live. destruct sparse_opens as (i & -> & _ & Hs & _). cbn [expecting].
  rewrite Hs, (list_extents_tree CONTENT content_volume 22 BLOCK_SIZE content_tree content_is_tree content_ordered). vm_refl.
Qed.

(** ** Attributes *)

(** [on_file opened o]: a test of the attributes of the file [opened] says is object [o], by its records. *)
Ltac on_file opened o :=
  match goal with |- with_oid ?p ?k = _ => rewrite (with_oid_opens p _ _ _ k opened) end; cbn beta;
  unfold resource_fork, symlink_target, get_xattr;
  rewrite ?(list_xattrs_tree CONTENT content_volume o BLOCK_SIZE content_tree content_is_tree content_ordered).

Lemma lists_custom_passes : lists_custom_xattrs_matching_xattr_l = true.
Proof. unfold lists_custom_xattrs_matching_xattr_l. on_file plain_opens 18. vm_refl. Qed.
Lemma embedded_value_passes : get_xattr_returns_embedded_value = true.
Proof. unfold get_xattr_returns_embedded_value. on_file plain_opens 18. vm_refl. Qed.
Lemma absent_passes : get_xattr_absent_is_none = true.
Proof. unfold get_xattr_absent_is_none. on_file plain_opens 18. vm_refl. Qed.
Lemma carries_both_passes : compressed_file_carries_decmpfs_and_resource_fork = true.
Proof. unfold compressed_file_carries_decmpfs_and_resource_fork. on_file compressed_opens 23. vm_refl. Qed.
Lemma readlink_passes : resolves_symlink_target_matching_readlink = true.
Proof. unfold resolves_symlink_target_matching_readlink. on_file link_opens 29. vm_refl. Qed.
Lemma no_target_passes : non_symlink_has_no_symlink_target = true.
Proof. unfold non_symlink_has_no_symlink_target. on_file plain_opens 18. vm_refl. Qed.
Lemma no_fork_passes : file_without_resource_fork_yields_none = true.
Proof. unfold file_without_resource_fork_yields_none. on_file plain_opens 18. vm_refl. Qed.

Lemma fork_stream_passes : resource_fork_reads_back_the_stream_bytes = true.
Proof.
  unfold resource_fork_reads_back_the_stream_bytes. on_file compressed_opens 23. change (leaf_entries content_tree) with content_records.
  assert (find_xattr XATTR_NAME_RESOURCE_FORK (omap (xattr_record 23) content_records) = Some (Stream 24 1526)) as Hx by vm_refl.
  cbn [mbind outcome_bind]. rewrite Hx. cbn iota. unfold read_stream.
  rewrite (list_extents_tree CONTENT content_volume 24 BLOCK_SIZE content_tree content_is_tree content_ordered). vm_refl.
Qed.

(** ** Snapshots and findings *)

Lemma content_snapshots : list_snapshots CONTENT content_volume BLOCK_SIZE = Ok [].
Proof. vm_refl. Qed.

Definition snapshot_content_suite : list bool :=
  [ real_unsnapshotted_volume_lists_zero_snapshots; real_volume_exposes_snap_meta_tree_oid; real_unsnapshotted_volume_resolves_no_name ].
Lemma snapshot_content_suite_passes : Forall (fun passed => passed = true) snapshot_content_suite.
Proof.
  unfold snapshot_content_suite, real_unsnapshotted_volume_lists_zero_snapshots, real_volume_exposes_snap_meta_tree_oid,
    real_unsnapshotted_volume_resolves_no_name. rewrite !in_live, content_snapshots. run_suite.
Qed.

Definition analyzers_suite : list bool :=
  [ timestamps_audit_on_a_real_inode_is_clean; crypto_audit_on_an_unencrypted_state_is_clean;
    crypto_audit_on_a_locked_state_with_unknown_tag_flags_both; sealed_audit_on_an_unbroken_seal_is_clean; sealed_audit_on_a_broken_seal_flags_it;
    snapshots_audit_on_the_unsnapshotted_fixture_is_clean ].
Lemma analyzers_suite_passes : Forall (fun passed => passed = true) analyzers_suite.
Proof.
  unfold analyzers_suite, timestamps_audit_on_a_real_inode_is_clean, snapshots_audit_on_the_unsnapshotted_fixture_is_clean, snapshots_audit.
  in_content. rewrite content_snapshots. run_suite.
Qed.

(** *** All of them *)

Definition content_suite (sha256_hex : bytes -> bytes) `{DecmpfsFormat} `{Codecs} : list bool :=
  [ reads_plain_file_byte_identical sha256_hex; reads_sparse_file_with_hole_byte_identical sha256_hex; reads_nested_file_byte_identical sha256_hex;
    list_extents_reports_hole_and_tail; lists_custom_xattrs_matching_xattr_l; get_xattr_returns_embedded_value; get_xattr_absent_is_none;
    compressed_file_carries_decmpfs_and_resource_fork; resource_fork_reads_back_the_stream_bytes; resolves_symlink_target_matching_readlink;
    non_symlink_has_no_symlink_target; file_without_resource_fork_yields_none ] ++ snapshot_content_suite ++ analyzers_suite.

(** What the repository records of SHA-256: the digests of the three files. *)
Record recorded_digests (sha256_hex : bytes -> bytes) : Prop := {
  rd_plain : sha256_hex plain_text = lit "289af0a0b21ede77675f1173c65cc2388d3b26570dbaaa7f2506444e05abf86b";
  rd_sparse : sha256_hex sparse_content = lit "fe0fc4fa9e8465dd74086a9e37d21d1a69c0f4d08cf6b9abbb288886d4cc822a";
  rd_beth : sha256_hex beth_text = lit "ee7c26829909d9c7ea1bcb444908fff35c1254f3c51894bd49b8b175becfeb96";
}.

Lemma content_suite_passes `{DecmpfsFormat} `{Codecs} sha256_hex :
  recorded_digests sha256_hex -> Forall (fun passed => passed = true) (content_suite sha256_hex).
Proof.
  intros [Hp Hs Hb]. unfold content_suite. apply Forall_app. split; [|apply Forall_app; split; [exact snapshot_content_suite_passes|exact analyzers_suite_passes]].
  repeat (apply Forall_cons_2); [exact (plain_passes sha256_hex Hp)|exact (sparse_passes sha256_hex Hs)|exact (beth_passes sha256_hex Hb)|exact hole_and_tail_passes|
    exact lists_custom_passes|exact embedded_value_passes|exact absent_passes|exact carries_both_passes|exact fork_stream_passes|exact readlink_passes|
    exact no_target_passes|exact no_fork_passes|apply Forall_nil_2].
Qed.
