(* ===== verification/TestsMount.v ===== *)
(** The integration tests of the mounted file system (core/tests/vfs_apfs.rs) over the stored contents, and the tests of core/src over stored images that [TestsSnapshot]
    and [TestsVfs] state for any image.

    [content_mounts] is what mounting the image gives; each call on the mounted file system is then a call on the live volume, decoded in [TestsContent].
    [same_volume_tree] carries a decoded volume from a stored disk to the cursor over its file, where the tests of core/src read it. *)

From Stdlib Require Import Strings.String.
From S2P Require Import Prelude Bytes Errors Reader Object Container Checkpoint Walk BTree Omap ApfsContainer FsRecord Encryption Volume Inode Dir Extent Xattr Compression Decmpfs Snapshot Source Format TestKit Fixture FixtureData FixtureContent Utf8 Vfs TestsSnapshot TestsVfs TestsTree TestsContent.

Set Warnings "-register-all".

(** ** Mounting a decoded volume *)

(** Mounting keeps the source it is given. *)
Lemma open_first_volume_reader {R} `{ReadSeek R} prof (r r' : R) v bs sm : open_first_volume prof r = Ok (r', v, bs, sm) -> r' = r.
Proof.
  unfold open_first_volume, ApfsContainer_open. intros Ho. apply bind_Ok_iff in Ho as (c & Hc & Ho).
  apply bind_Ok_iff in Hc as (b0 & _ & Hc). apply bind_Ok_iff in Hc as (bp & _ & Hc). destruct (is_fusion bp); [done|].
  apply bind_Ok_iff in Hc as (live & _ & Hc). apply bind_Ok_iff in Hc as (buf & _ & Hc). apply bind_Ok_iff in Hc as (sb & _ & [= <-]).
  apply bind_Ok_iff in Ho as (addrs & _ & Ho). apply bind_Ok_iff in Ho as (a & _ & Ho). apply bind_Ok_iff in Ho as (b & _ & Ho).
  apply bind_Ok_iff in Ho as (v' & _ & Ho). by injection Ho as <-.
Qed.

Lemma opens_as {R} `{ReadSeek R} prof (r : R) v bs sm :
  match open_first_volume prof r with Ok (_, v, bs, sm) => Some (v, bs, sm) | _ => None end = Some (v, bs, sm) ->
  open_first_volume prof r = Ok (r, v, bs, sm).
Proof.
  intros Hv. destruct (open_first_volume prof r) as [[[[r' v'] bs'] sm']| |] eqn:Ho; [|discriminate..].
  pose proof (open_first_volume_reader _ _ _ _ _ _ Ho) as ->. by injection Hv as -> -> ->.
Qed.

(** Mounting over two sources that answer alike. *)
Lemma same_open_first {R1 R2} `{ReadSeek R1} `{ReadSeek R2} prof (r1 : R1) (r2 : R2) v bs sm :
  same_source r1 r2 -> open_first_volume prof r1 = Ok (r1, v, bs, sm) -> open_first_volume prof r2 = Ok (r2, v, bs, sm).
Proof.
  intros Hs. unfold open_first_volume. pose proof (same_open r1 r2 Hs prof) as Ho.
  destruct (ApfsContainer_open prof r1) as [c1| |], (ApfsContainer_open prof r2) as [c2| |]; try done. cbn [mbind outcome_bind].
  pose proof (same_addrs r1 r2 c1 c2 Hs Ho) as Ha. rewrite Ha. destruct Ho as (H1 & H2 & Hsb & _ & Hm).
  assert (spaceman_paddr c1 = spaceman_paddr c2) as Hsp by (unfold spaceman_paddr, resolve_ephemeral; by rewrite Hsb, Hm).
  rewrite Hsb, H1, H2, Hsp. clear Ha H1 H2 Hsb Hm Hsp. destruct (volume_superblock_addrs c2) as [addrs| |]; cbn [mbind outcome_bind]; [|discriminate..].
  destruct (ok_or (head addrs) _) as [a| |]; cbn [mbind outcome_bind]; [|discriminate..]. rewrite (Hsame r1 r2 Hs).
  destruct (read_at r2 _ _) as [b| |]; cbn [mbind outcome_bind]; [|discriminate..]. destruct (ApfsVolume_parse b); cbn [mbind outcome_bind]; [|discriminate..].
  intros Hok. injection Hok as -> <- <-. reflexivity.
Qed.

(** The calls on a mounted volume whose tree is known. *)
Section Mounted.
Context `{ForensicVfs} `{IoDisplay} `{DecmpfsFormat} `{Codecs} {R} `{ReadSeek R} `{XtsCipher}.
Context (r : R) (volume : ApfsVolume) (bs xid : Z) (sm : option Z) (t : tree) (Ht : volume_tree r volume bs t) (Hord : oid_ordered t).

Definition mounted_over : ApfsFs R :=
  {| fs_reader := new_mutex r; fs_volume := volume; fs_block_size := bs; fs_root_xid := xid; fs_spaceman_paddr := sm |}.
Local Abbreviation records := (leaf_entries t).

(** The inode the records give for an object. *)
Definition inode_in (oid : Z) : result Inode := v ← ok_or (find_inode oid records) (OmapUnresolved oid (vol_xid volume)); Inode_parse oid v.

Ltac on_mount := unfold lock; cbn [oid_of require_default_stream mounted_over fs_reader fs_volume fs_block_size fs_root_xid new_mutex mx_poisoned mx_inner mbind outcome_bind].

Lemma mount_lookup p x name n :
  from_utf8 name = Some n ->
  vfs_lookup mounted_over (ApfsOid p x) name = Ok (option_map (fun o => ApfsOid o xid) (find_name n (omap (dir_record p) records))).
Proof. intros Hn. unfold vfs_lookup. on_mount. rewrite Hn. by rewrite (lookup_child_tree r volume bs p n t Ht Hord). Qed.

Lemma mount_read_dir p x :
  vfs_read_dir mounted_over (ApfsOid p x) =
  Ok (map (fun e => Ok {| vde_kind := dt_to_kind (de_flags e); vde_name := de_name e; vde_id := ApfsOid (de_file_id e) xid |}) (omap (dir_record p) records)).
Proof. unfold vfs_read_dir. on_mount. by rewrite (list_dir_tree r volume bs p t Ht Hord). Qed.

Lemma mount_meta oid x : vfs_meta mounted_over (ApfsOid oid x) = (i ← vfs (inode_in oid); Ok (build_meta i)).
Proof. unfold vfs_meta. on_mount. by rewrite (load_inode_tree r volume bs oid t Ht Hord). Qed.

Lemma mount_extents oid x i :
  inode_in oid = Ok i ->
  vfs_extents mounted_over (ApfsOid oid x) DefaultStream =
  Ok (map (fun x => Ok {| ri_run := {| image_offset := saturating_mul (fe_phys_block_num x) bs; run_len := fe_len x;
                                       run_flags := set_sparse (fe_phys_block_num x =? 0) run_flags_default |}; ri_alloc := RunAllocated |})
        (sort_by_key fe_logical_offset (omap (extent_record (ino_private_id i)) records))).
Proof.
  intros Hi. unfold vfs_extents. on_mount. rewrite (load_inode_tree r volume bs oid t Ht Hord). unfold inode_in in Hi. rewrite Hi. cbn [vfs mbind outcome_bind].
  by rewrite (list_extents_tree r volume (ino_private_id i) bs t Ht Hord).
Qed.

Lemma mount_read_at oid x i data off buf :
  inode_in oid = Ok i -> read_data r volume i bs = Ok data ->
  vfs_read_at mounted_over (ApfsOid oid x) DefaultStream off buf = Ok (copy_window data off buf).
Proof.
  intros Hi Hd. unfold vfs_read_at. on_mount. rewrite (load_inode_tree r volume bs oid t Ht Hord). unfold inode_in in Hi. rewrite Hi. cbn [vfs mbind outcome_bind].
  by rewrite Hd.
Qed.
End Mounted.

(** ** vfs_apfs.rs *)

Section Tests.
Context `{ForensicVfs} `{IoDisplay} `{DecmpfsFormat} `{Codecs}.

(** [m.unwrap()] on a call, and the rest of the test. *)
Definition unwrapped {A} (m : vfs_result A) (k : A -> bool) : bool := match m with Ok a => k a | _ => false end.
(** [open()] and the rest of the test. *)
Definition with_mount (k : ApfsFs disk -> bool) : bool := let_ok fs := ApfsFs_open OverflowTraps CONTENT in k fs.
(** [oid(&*fs, n)] *)
Definition oid_in (fs : ApfsFs disk) (n : Z) : option FileId := match vfs_root fs with ApfsOid _ xid => Some (ApfsOid n xid) | _ => None end.
(** [assert_eq!] on identities: those of this file system. *)
Definition same_id (a b : FileId) : bool := match a, b with ApfsOid x y, ApfsOid x' y' => (x =? x') && (y =? y') | _, _ => false end.
Definition same_id_opt (a b : option FileId) : bool := match a, b with Some a, Some b => same_id a b | None, None => true | _, _ => false end.
Definition is_dir (k : NodeKind) : bool := match k with NodeDir => true | _ => false end.
Definition is_file (k : NodeKind) : bool := match k with NodeFile => true | _ => false end.
Definition is_symlink (k : NodeKind) : bool := match k with NodeSymlink => true | _ => false end.

Definition identity_is_apfs_and_root_is_inode_2 : bool :=
  with_mount (fun fs =>
    match vfs_kind fs with APFS => true end && match vfs_timestamp_zone fs with Utc => true end &&
    match vfs_root fs with ApfsOid oid _ => assert_eq oid 2 | _ => false end).

(** [.map(Result::unwrap).collect()] *)
Fixpoint all_ok {A} (l : list (vfs_result A)) : option (list A) :=
  match l with
  | [] => Some []
  | Ok a :: l => cons a <$> all_ok l
  | _ => None
  end.
Definition entry_named (name : bytes) (entries : list VfsDirEntry) : option VfsDirEntry := snd <$> list_find (fun e => vde_name e = name) entries.

Definition read_dir_lists_real_root_entries : bool :=
  with_mount (fun fs =>
    unwrapped (vfs_read_dir fs (vfs_root fs)) (fun stream =>
    let_some entries := all_ok stream in
    (let_some plain := entry_named (lit "plain.txt") entries in same_id_opt (Some (vde_id plain)) (oid_in fs 18) && is_file (vde_kind plain)) &&
    (let_some dir1 := entry_named (lit "Dir1") entries in is_dir (vde_kind dir1)) &&
    forallb (fun name => existsb (fun e => assert_eq (vde_name e) name) entries) [lit "sparse.bin"; lit "compressed.txt"; lit "symlink_to_beth"])).

Definition lookup_finds_a_known_file : bool :=
  with_mount (fun fs =>
    unwrapped (vfs_lookup fs (vfs_root fs) (lit "plain.txt")) (fun id => same_id_opt id (oid_in fs 18)) &&
    unwrapped (vfs_lookup fs (vfs_root fs) (lit "no-such")) (fun id => same_id_opt id None)).

Definition meta_matches_istat_for_plain_file : bool :=
  with_mount (fun fs =>
    let_some id := oid_in fs 18 in
    unwrapped (vfs_meta fs id) (fun m => assert_eq (fm_ino m) 18 && is_file (fm_kind m) && assert_eq (fm_size m) 35)).

Definition read_at_returns_plain_file_bytes : bool :=
  with_mount (fun fs =>
    let_some id := oid_in fs 18 in
    unwrapped (vfs_read_at fs id DefaultStream 0 (zeroed 1024)) (fun '(n, buf) =>
      assert_eq n 35 && assert_eq (take 35 buf) plain_text && starts_with (lit "APFS P4 plain file.") (take (Z.to_nat n) buf)) &&
    unwrapped (vfs_read_at fs id DefaultStream 5 (zeroed 16)) (fun '(n, win) => assert_eq (take (Z.to_nat n) win) (lit "P4 plain file. H")) &&
    unwrapped (vfs_read_at fs id DefaultStream 10000 (zeroed 1024)) (fun '(n, _) => assert_eq n 0)).

Definition nested_path_resolves_beth_via_dir1 : bool :=
  with_mount (fun fs =>
    unwrapped (vfs_lookup fs (vfs_root fs) (lit "Dir1")) (fun dir1 => let_some dir1 := dir1 in
    unwrapped (vfs_lookup fs dir1 (lit "Beth.txt")) (fun beth => let_some beth := beth in
    same_id_opt (Some beth) (oid_in fs 28) &&
    unwrapped (vfs_meta fs beth) (fun m => assert_eq (fm_size m) 33 && is_file (fm_kind m)) &&
    unwrapped (vfs_read_at fs beth DefaultStream 0 (zeroed 64)) (fun '(n, buf) => assert_eq (take (Z.to_nat n) buf) beth_text)))).

Definition sector_sizes_report_the_container_block_size : bool :=
  with_mount (fun fs =>
    let s := vfs_sector_sizes fs in assert_eq (logical s) 4096 && assert_eq (physical s) 4096 && assert_eq (cluster_or_block s) 4096).

Definition extents_enumerate_plain_file_runs (Named1 : OtherStream) : bool :=
  with_mount (fun fs =>
    let_some id := oid_in fs 18 in
    unwrapped (vfs_extents fs id DefaultStream) (fun stream =>
      let_some runs := all_ok stream in negb (blen runs =? 0) && existsb (fun r => 0 <? run_len (ri_run r)) runs) &&
    match vfs_extents fs id (ForeignStream Named1) with Err _ => true | _ => false end).

Definition meta_classifies_dir_and_symlink_kinds : bool :=
  with_mount (fun fs =>
    unwrapped (vfs_lookup fs (vfs_root fs) (lit "Dir1")) (fun dir1 => let_some dir1 := dir1 in unwrapped (vfs_meta fs dir1) (fun m => is_dir (fm_kind m))) &&
    unwrapped (vfs_lookup fs (vfs_root fs) (lit "symlink_to_beth")) (fun link =>
      let_some link := link in unwrapped (vfs_meta fs link) (fun m => is_symlink (fm_kind m)))).

(** The count of the empty stream is forensic-vfs's. *)
Definition read_link_returns_empty_and_deleted_is_an_empty_stream (count : NodeStream -> Z) : bool :=
  with_mount (fun fs =>
    unwrapped (vfs_lookup fs (vfs_root fs) (lit "symlink_to_beth")) (fun link =>
      let_some link := link in unwrapped (vfs_read_link fs link 4096) (fun t => assert_eq (blen t) 0)) &&
    unwrapped (vfs_deleted fs) (fun nodes => assert_eq (count nodes) 0)).

Definition lookup_of_non_utf8_name_matches_nothing : bool :=
  with_mount (fun fs => unwrapped (vfs_lookup fs (vfs_root fs) [xff; xfe; x00]) (fun id => same_id_opt id None)).

Definition read_at_rejects_a_named_stream (Named2 : OtherStream) : bool :=
  with_mount (fun fs =>
    let_some id := oid_in fs 18 in match vfs_read_at fs id (ForeignStream Named2) 0 (zeroed 8) with Err _ => true | _ => false end).

(** ** The mounted image *)

Definition content_fs : ApfsFs disk := mounted_over CONTENT content_volume BLOCK_SIZE 14 (Some 59).

Lemma content_opens : open_first_volume OverflowTraps CONTENT = Ok (CONTENT, content_volume, BLOCK_SIZE, Some 59).
Proof. apply opens_as. vm_refl. Qed.

Lemma content_mounts : ApfsFs_open OverflowTraps CONTENT = Ok content_fs.
Proof. unfold ApfsFs_open. rewrite content_opens. reflexivity. Qed.
Lemma in_mount k : with_mount k = k content_fs.
Proof. unfold with_mount. rewrite content_mounts. reflexivity. Qed.

(** The calls on the mounted image, by its records. *)
Lemma content_lookup p x name n :
  from_utf8 name = Some n ->
  vfs_lookup content_fs (ApfsOid p x) name = Ok (option_map (fun o => ApfsOid o 14) (find_name n (omap (dir_record p) (leaf_entries content_tree)))).
Proof. exact (mount_lookup CONTENT content_volume BLOCK_SIZE 14 (Some 59) content_tree content_is_tree content_ordered p x name n). Qed.
Lemma content_read_dir p x :
  vfs_read_dir content_fs (ApfsOid p x) =
  Ok (map (fun e => Ok {| vde_kind := dt_to_kind (de_flags e); vde_name := de_name e; vde_id := ApfsOid (de_file_id e) 14 |})
        (omap (dir_record p) (leaf_entries content_tree))).
Proof. exact (mount_read_dir CONTENT content_volume BLOCK_SIZE 14 (Some 59) content_tree content_is_tree content_ordered p x). Qed.
Lemma content_meta oid x : vfs_meta content_fs (ApfsOid oid x) = (i ← vfs (inode_in content_volume content_tree oid); Ok (build_meta i)).
Proof. exact (mount_meta CONTENT content_volume BLOCK_SIZE 14 (Some 59) content_tree content_is_tree content_ordered oid x). Qed.

(** [on_root]: the root of the mounted image, and the calls on it that only list, look up and describe. *)
Ltac on_root :=
  rewrite in_mount; cbn beta; change (vfs_root content_fs) with (ApfsOid 2 14);
  repeat match goal with
  | |- context [vfs_lookup content_fs (ApfsOid ?p ?x) (lit ?n)] =>
      rewrite (content_lookup p x (lit n) (lit n) eq_refl); let id := eval vm_compute in (find_name (lit n) (omap (dir_record p) (leaf_entries content_tree))) in
      assert (find_name (lit n) (omap (dir_record p) (leaf_entries content_tree)) = id) as -> by vm_refl; cbn [option_map unwrapped expecting_some]
  | |- context [vfs_read_dir content_fs (ApfsOid ?p ?x)] => rewrite (content_read_dir p x)
  | |- context [vfs_meta content_fs (ApfsOid ?o ?x)] => rewrite (content_meta o x)
  end.

Lemma identity_passes : identity_is_apfs_and_root_is_inode_2 = true.
Proof. unfold identity_is_apfs_and_root_is_inode_2. on_root. reflexivity. Qed.
Lemma read_dir_passes : read_dir_lists_real_root_entries = true.
Proof. unfold read_dir_lists_real_root_entries. on_root. vm_refl. Qed.
Lemma lookup_passes : lookup_finds_a_known_file = true.
Proof. unfold lookup_finds_a_known_file. on_root. vm_refl. Qed.
Lemma meta_passes : meta_matches_istat_for_plain_file = true.
Proof. unfold meta_matches_istat_for_plain_file. rewrite in_mount. change (oid_in content_fs 18) with (Some (ApfsOid 18 14)). cbn [expecting_some]. rewrite content_meta. vm_refl. Qed.
Lemma sector_sizes_pass : sector_sizes_report_the_container_block_size = true.
Proof. unfold sector_sizes_report_the_container_block_size. on_root. reflexivity. Qed.
Lemma kinds_pass : meta_classifies_dir_and_symlink_kinds = true.
Proof. unfold meta_classifies_dir_and_symlink_kinds. on_root. vm_refl. Qed.

(** The two files the tests read. *)
Lemma plain_in : exists i, inode_in content_volume content_tree 18 = Ok i /\ read_data CONTENT content_volume i BLOCK_SIZE = Ok plain_text.
Proof.
  eexists. split; [vm_compute; reflexivity|].
  apply (content_read_data _ 35 [data_run 0 4096 347]); [reflexivity|reflexivity|vm_compute; reflexivity|vm_compute; reflexivity|vm_compute; reflexivity].
Qed.
Lemma beth_in : exists i, inode_in content_volume content_tree 28 = Ok i /\ read_data CONTENT content_volume i BLOCK_SIZE = Ok beth_text.
Proof.
  eexists. split; [vm_compute; reflexivity|].
  apply (content_read_data _ 33 [data_run 0 4096 400]); [reflexivity|reflexivity|vm_compute; reflexivity|vm_compute; reflexivity|vm_compute; reflexivity].
Qed.

Lemma content_reads oid x data off buf :
  (exists i, inode_in content_volume content_tree oid = Ok i /\ read_data CONTENT content_volume i BLOCK_SIZE = Ok data) ->
  vfs_read_at content_fs (ApfsOid oid x) DefaultStream off buf = Ok (copy_window data off buf).
Proof.
  intros (i & Hi & Hd). exact (mount_read_at CONTENT content_volume BLOCK_SIZE 14 (Some 59) content_tree content_is_tree content_ordered oid x i data off buf Hi Hd).
Qed.

(** [reading o data file]: the reads of object [o]. *)
Ltac reading o data file :=
  repeat match goal with |- context [vfs_read_at content_fs (ApfsOid o ?x) DefaultStream ?off ?buf] => rewrite (content_reads o x data off buf file) end.

Lemma read_at_passes : read_at_returns_plain_file_bytes = true.
Proof.
  unfold read_at_returns_plain_file_bytes. rewrite in_mount. change (oid_in content_fs 18) with (Some (ApfsOid 18 14)). cbn [expecting_some].
  reading 18 plain_text plain_in. vm_refl.
Qed.
Lemma nested_passes : nested_path_resolves_beth_via_dir1 = true.
Proof. unfold nested_path_resolves_beth_via_dir1. on_root. reading 28 beth_text beth_in. vm_refl. Qed.
Lemma content_runs oid x i :
  inode_in content_volume content_tree oid = Ok i ->
  vfs_extents content_fs (ApfsOid oid x) DefaultStream =
  Ok (map (fun x => Ok {| ri_run := {| image_offset := saturating_mul (fe_phys_block_num x) BLOCK_SIZE; run_len := fe_len x;
                                       run_flags := set_sparse (fe_phys_block_num x =? 0) run_flags_default |}; ri_alloc := RunAllocated |})
        (sort_by_key fe_logical_offset (omap (extent_record (ino_private_id i)) (leaf_entries content_tree)))).
Proof. exact (mount_extents CONTENT content_volume BLOCK_SIZE 14 (Some 59) content_tree content_is_tree content_ordered oid x i). Qed.

Lemma extents_pass Named1 : extents_enumerate_plain_file_runs Named1 = true.
Proof.
  unfold extents_enumerate_plain_file_runs. rewrite in_mount. change (oid_in content_fs 18) with (Some (ApfsOid 18 14)). cbn [expecting_some].
  assert (exists i, inode_in content_volume content_tree 18 = Ok i /\ ino_private_id i = 18) as (i & Hi & Hp) by (eexists; split; vm_compute; reflexivity).
  match goal with |- context [vfs_extents content_fs (ApfsOid 18 14) DefaultStream] => rewrite (content_runs 18 14 i Hi) end. rewrite Hp. vm_refl.
Qed.
Lemma read_link_passes count : count NodeStream_empty = 0 -> read_link_returns_empty_and_deleted_is_an_empty_stream count = true.
Proof. intros Hc. unfold read_link_returns_empty_and_deleted_is_an_empty_stream. on_root. cbn. by rewrite Hc. Qed.
Lemma non_utf8_passes : lookup_of_non_utf8_name_matches_nothing = true.
Proof. unfold lookup_of_non_utf8_name_matches_nothing. on_root. reflexivity. Qed.
Lemma named_stream_passes Named2 : read_at_rejects_a_named_stream Named2 = true.
Proof. unfold read_at_rejects_a_named_stream. on_root. reflexivity. Qed.
End Tests.

(** ** The tests of core/src over stored images *)

(** A stored disk and the cursor over its file answer alike. *)
Lemma disk_source d : 0 <= dk_count d -> same_source d (image (disk_bytes d)).
Proof.
  intros Hc. apply seeking_source; [by eexists|by eexists|]. intros off n. by apply disk_read_at.
Qed.

Lemma content_source : same_source CONTENT (image (disk_bytes CONTENT)).
Proof. apply disk_source. vm_compute. discriminate. Qed.
Lemma fstree_source : same_source FSTREE (image (disk_bytes FSTREE)).
Proof. apply disk_source. vm_compute. discriminate. Qed.

Lemma block_in_file d i : 0 <= i < dk_count d -> get_range (disk_bytes d) (i * 4096) ((i + 1) * 4096) = Some (disk_block d i).
Proof. apply disk_bytes_block. Qed.

(** snapshot.rs: mounting a snapshot that points at the live superblock, with another object map, and at a block that is not a volume. *)
Lemma mount_tests_hold :
  mount_snapshot_reads_sblock_as_volume (disk_bytes CONTENT) = true /\ mount_snapshot_grafts_live_omap_over_snapshot_zero (disk_bytes CONTENT) = true /\
  mount_snapshot_rejects_non_apsb_block (disk_bytes CONTENT) = true.
Proof.
  assert (exists s e f, ApfsVolume_parse (content_block 0) = Err (UnexpectedObjectType s e f)) as (s & e & f & Hp) by (do 3 eexists; vm_compute; reflexivity).
  pose proof (block_in_file CONTENT 0 ltac:(vm_compute; split; [discriminate|reflexivity])) as H0.
  pose proof (block_in_file CONTENT 438 ltac:(vm_compute; split; [discriminate|reflexivity])) as H438.
  pose proof content_parses as Hv. unfold content_block in *. change LIVE_APSB with 438 in Hv. change (0 * 4096) with 0 in H0. change ((0 + 1) * 4096) with 4096 in H0.
  change (438 * 4096) with 1794048 in H438. change ((438 + 1) * 4096) with 1798144 in H438.
  generalize dependent (disk_bytes CONTENT). generalize dependent (disk_block CONTENT 0). generalize dependent (disk_block CONTENT 438). intros b Hv b0 Hp img H0 Hb.
  apply (mount_tests_pass img content_volume b0 s e f); [|reflexivity|exact H0|exact Hp].
  unfold p4_volume. cbn zeta. change (P4_APSB_BLOCK * P4_BLOCK_SIZE) with 1794048. change (1794048 + P4_BLOCK_SIZE) with 1798144. rewrite Hb. exact Hv.
Qed.

(** dir.rs: the keyed walk against the full walk. *)
Lemma keyed_walk_test_holds : keyed_walk_matches_full_walk_on_real_fs_tree (disk_bytes FSTREE) = true.
Proof.
  pose proof (same_volume_tree _ _ _ _ _ fstree_source fstree_is_tree) as Ht.
  pose proof (block_in_file FSTREE 371 ltac:(vm_compute; split; [discriminate|reflexivity])) as Hb.
  pose proof fstree_parses as Hv. unfold fstree_block in Hv. change APSB_BLOCK with 371 in Hv.
  apply (keyed_walk_matches_full_walk (disk_bytes FSTREE) stored_volume fstree_tree); [|exact Ht|exact fstree_ordered|].
  - unfold TestsVfs.fstree_volume. change (FSTREE_APSB_BLOCK * FSTREE_BLOCK_SIZE) with (371 * 4096). change ((FSTREE_APSB_BLOCK + 1) * FSTREE_BLOCK_SIZE) with ((371 + 1) * 4096).
    rewrite Hb. exact Hv.
  - apply (bool_decide_unpack _). vm_compute. exact I.
Qed.

(** vfs.rs: mounting at a transaction. *)
Section Cursor.
Context `{ForensicVfs} `{IoDisplay} `{DecmpfsFormat} `{Codecs}.

Local Abbreviation file := (image (disk_bytes CONTENT)).

Lemma file_opens : open_first_volume OverflowTraps file = Ok (file, content_volume, BLOCK_SIZE, Some 59).
Proof. exact (same_open_first OverflowTraps CONTENT file _ _ _ content_source content_opens). Qed.
Lemma file_mounts : ApfsFs_open OverflowTraps file = Ok (mounted_over file content_volume BLOCK_SIZE 14 (Some 59)).
Proof. unfold ApfsFs_open. rewrite file_opens. reflexivity. Qed.
Lemma file_tree : volume_tree file content_volume BLOCK_SIZE content_tree.
Proof. exact (same_volume_tree CONTENT file _ _ _ content_source content_is_tree). Qed.
Lemma file_snapshots : ApfsFs_snapshots OverflowTraps file = Ok [].
Proof.
  unfold ApfsFs_snapshots. rewrite file_opens. cbn [mbind outcome_bind]. rewrite <-(same_list_snapshots CONTENT file content_source). exact content_snapshots.
Qed.

Lemma zero_snapshots_hold : p4_fixture_lists_zero_snapshots (disk_bytes CONTENT) = true.
Proof. unfold p4_fixture_lists_zero_snapshots. rewrite file_snapshots. reflexivity. Qed.

Lemma unknown_xid_holds : open_snapshot_unknown_xid_fails_loud (disk_bytes CONTENT) = true.
Proof.
  apply (unknown_xid_refused (disk_bytes CONTENT) _ [] file_mounts file_snapshots); [cbn [fs_root_xid mounted_over]; lia|apply Forall_nil_2].
Qed.

Lemma live_xid_reads_plain : open_snapshot_at_live_xid_reads_plain_txt (disk_bytes CONTENT) = true.
Proof.
  unfold open_snapshot_at_live_xid_reads_plain_txt, TestsVfs.live_xid. rewrite file_mounts. cbn [mbind outcome_bind expecting fs_root_xid mounted_over].
  unfold ApfsFs_open_snapshot. rewrite file_opens. cbn [mbind outcome_bind]. change (14 =? vol_xid content_volume) with true. cbn [expecting].
  change (vfs_root _) with (ApfsOid 2 14).
  pose proof (mount_lookup file content_volume BLOCK_SIZE 14 (Some 59) content_tree file_tree content_ordered 2 14 (lit "plain.txt") (lit "plain.txt") eq_refl) as Hl.
  unfold mounted_over in Hl. rewrite Hl. assert (find_name (lit "plain.txt") (omap (dir_record 2) (leaf_entries content_tree)) = Some 18) as -> by vm_refl.
  cbn [option_map]. destruct plain_in as (i & Hi & Hd). pose proof (same_read_data CONTENT file content_source BLOCK_SIZE content_volume i) as Hs. rewrite Hd in Hs.
  pose proof (mount_read_at file content_volume BLOCK_SIZE 14 (Some 59) content_tree file_tree content_ordered 18 14 i plain_text 0 (zeroed 64) Hi (eq_sym Hs)) as Hr.
  unfold mounted_over in Hr. rewrite Hr. vm_refl.
Qed.
End Cursor.

Lemma source_reads_witness :
  same_source CONTENT (image (disk_bytes CONTENT)) /\
  exists i, open_path (image (disk_bytes CONTENT)) content_volume (lit "/Dir1/Beth.txt") BLOCK_SIZE = Ok i /\ ino_oid i = 28 /\
    @read_data documented_format sample_codecs _ _ _ (image (disk_bytes CONTENT)) content_volume i BLOCK_SIZE =
    @read_data documented_format sample_codecs _ _ _ CONTENT content_volume i BLOCK_SIZE.
Proof.
  split; [exact content_source|].
  destruct (@source_reads _ _ _ _ _ documented_format sample_codecs CONTENT (image (disk_bytes CONTENT)) content_volume BLOCK_SIZE content_source)
    as (_ & Hp & _ & Hd & _).
  destruct beth_opens as (i & Hi & Ho & _). exists i. split; [exact (eq_trans (eq_sym (Hp (lit "/Dir1/Beth.txt"))) Hi)|]. split; [exact Ho|].
  exact (eq_sym (Hd i)).
Defined.

(** ** All of them *)

Definition mount_suite `{ForensicVfs} `{IoDisplay} `{DecmpfsFormat} `{Codecs} (Named : OtherStream) (count : NodeStream -> Z) : list bool :=
  [ identity_is_apfs_and_root_is_inode_2; read_dir_lists_real_root_entries; lookup_finds_a_known_file; meta_matches_istat_for_plain_file;
    read_at_returns_plain_file_bytes; nested_path_resolves_beth_via_dir1; sector_sizes_report_the_container_block_size;
    extents_enumerate_plain_file_runs Named; meta_classifies_dir_and_symlink_kinds; read_link_returns_empty_and_deleted_is_an_empty_stream count;
    lookup_of_non_utf8_name_matches_nothing; read_at_rejects_a_named_stream Named;
    mount_snapshot_reads_sblock_as_volume (disk_bytes CONTENT); mount_snapshot_grafts_live_omap_over_snapshot_zero (disk_bytes CONTENT);
    mount_snapshot_rejects_non_apsb_block (disk_bytes CONTENT); p4_fixture_lists_zero_snapshots (disk_bytes CONTENT);
    open_snapshot_unknown_xid_fails_loud (disk_bytes CONTENT); open_snapshot_at_live_xid_reads_plain_txt (disk_bytes CONTENT) ].

(** Read from the image that macOS wrote and the repository keeps, the model gives what macOS and TSK recorded of it: the listings, inode numbers,
    sizes and kinds; the content of the plain file, of the sparse file with its hole, and of a file in a directory; the attributes, the decmpfs header, the
    resource fork and the link target; no snapshots, clean audits; the same through the mounted file system; and the named refusals the tests expect. *)
Theorem stored_image_suite `{ForensicVfs} `{IoDisplay} `{DecmpfsFormat} `{Codecs} (sha256_hex : bytes -> bytes) (Named : OtherStream) (count : NodeStream -> Z) :
  recorded_digests sha256_hex -> count NodeStream_empty = 0 ->
  Forall (fun passed => passed = true) (content_suite sha256_hex ++ mount_suite Named count).
Proof.
  intros Hd Hc. apply Forall_app. split; [exact (content_suite_passes sha256_hex Hd)|]. unfold mount_suite. destruct mount_tests_hold as (H1' & H2' & H3').
  repeat (apply Forall_cons_2); [exact identity_passes|exact read_dir_passes|exact lookup_passes|exact meta_passes|exact read_at_passes|exact nested_passes|
    exact sector_sizes_pass|exact (extents_pass Named)|exact kinds_pass|exact (read_link_passes count Hc)|exact non_utf8_passes|exact (named_stream_passes Named)|
    exact H1'|exact H2'|exact H3'|exact zero_snapshots_hold|exact unknown_xid_holds|exact live_xid_reads_plain|apply Forall_nil_2].
Qed.

(** A client with one other stream, and a digest that tells the three files apart by their first bytes. *)
Definition sample_vfs : ForensicVfs :=
  {| OtherId := unit; OtherStream := unit; debug_id _ := []; debug_xattr_stream n := dec n; debug_stream _ := []; RunFlags := bool; run_flags_default := false;
     set_sparse b _ := b; SmallHex := bytes; SmallHex_new b := b; NodeStream := unit; NodeStream_empty := tt |}.
Definition sample_io : IoDisplay := fun _ => [].
Definition sample_digest (b : bytes) : bytes :=
  match b with
  | x41 :: _ => lit "289af0a0b21ede77675f1173c65cc2388d3b26570dbaaa7f2506444e05abf86b"
  | x42 :: _ => lit "ee7c26829909d9c7ea1bcb444908fff35c1254f3c51894bd49b8b175becfeb96"
  | _ => lit "fe0fc4fa9e8465dd74086a9e37d21d1a69c0f4d08cf6b9abbb288886d4cc822a"
  end.

Lemma sample_digests : recorded_digests sample_digest.
Proof. split; vm_refl. Qed.

Lemma stored_image_suite_witness :
  Forall (fun passed => passed = true) (@content_suite sample_digest documented_format sample_codecs ++
    @mount_suite sample_vfs sample_io documented_format sample_codecs tt (fun _ => 0)).
Proof. exact (@stored_image_suite sample_vfs sample_io documented_format sample_codecs sample_digest tt (fun _ => 0) sample_digests eq_refl). Defined.
