(* ===== verification/StoredTree.v ===== *)
(** Trees of files, stored and read back.

    The other theorems say what the reader makes of a volume that is there.  Here a volume is made from what it should contain: [object] is a file or directory with
    its inode, its entries, its attributes and its content, and [stored_image] lays a list of them out as the format does: one leaf of records in the image of
    [TestsRecords.build], the contents in the blocks behind it.  [stored_tree_reads] is the refinement: opened by path, listed and read through the reader, the
    volume gives back exactly those objects, and the lookups of the abstract tree decide which. *)

From S2P Require Import Prelude Bytes Errors Reader Object Walk BTree NodeLayout Omap FsRecord Encryption Volume Inode Dir Extent Xattr Compression DemoVolume TestKit Fixture TestsSnapshot TestsRecords.

(** ** The abstract tree *)

Record object := {
  ob_inode : Inode;
  ob_children : list DirEntry;
  ob_xattrs : list (bytes * bytes);
  ob_content : bytes;
}.

Definition ob_oid (o : object) : Z := ino_oid (ob_inode o).

Fixpoint find_object (objs : list object) (oid : Z) : option object :=
  match objs with
  | [] => None
  | o :: objs => if ob_oid o =? oid then Some o else find_object objs oid
  end.

Definition children_of (objs : list object) (oid : Z) : list DirEntry :=
  match find_object objs oid with Some o => ob_children o | None => [] end.

(** Following names from a directory: [inl] the directory that lacks the next one. *)
Fixpoint follow_names (objs : list object) (current : Z) (names : list bytes) : Z + Z :=
  match names with
  | [] => inr current
  | name :: names =>
      match find_name name (children_of objs current) with
      | Some child => follow_names objs child names
      | None => inl current
      end
  end.

(** ** Its layout *)

Definition record_key (ty oid : Z) : bytes := to_le_bytes 8 (encode_jkey ty oid).

Definition stored_inode (o : object) : bytes * bytes := (record_key 3 (ob_oid o), encode_inode (ob_inode o)).
Definition stored_child (parent : Z) (d : DirEntry) : bytes * bytes :=
  (hashed_drec_key (encode_jkey 9 parent) 0 (de_name d), to_le_bytes 8 (de_file_id d) ++ to_le_bytes 8 (de_date_added d) ++ to_le_bytes 2 (de_flags d)).
Definition stored_xattr (oid : Z) (x : bytes * bytes) : bytes * bytes := embedded_xattr oid (x.1 ++ [x00]) x.2.

Definition blocks_of (content : bytes) : Z := (blen content + (BLOCK_SIZE - 1)) / BLOCK_SIZE.
Definition padded (content : bytes) : bytes := content ++ zeroed (blocks_of content * BLOCK_SIZE - blen content).

(** The records of one object whose content starts at block [phys]. *)
Definition object_records (phys : Z) (o : object) : list (bytes * bytes) :=
  [stored_inode o] ++ map (stored_child (ob_oid o)) (ob_children o) ++ map (stored_xattr (ob_oid o)) (ob_xattrs o) ++
  match ob_content o with
  | [] => []
  | content => [file_extent (ob_oid o) 0 (blocks_of content * BLOCK_SIZE) phys]
  end.

Fixpoint stored_records (phys : Z) (objs : list object) : list (bytes * bytes) :=
  match objs with
  | [] => []
  | o :: objs => object_records phys o ++ stored_records (phys + blocks_of (ob_content o)) objs
  end.

Definition stored_data (objs : list object) : bytes := concat (map (fun o => padded (ob_content o)) objs).
Definition stored_image (objs : list object) : bytes := build (stored_records 4 objs) ++ stored_data objs.

(** What fits: fields within their widths, names of ASCII, attributes short enough to embed. *)
Record child_wf (d : DirEntry) : Prop := {
  cw_ascii : Forall ascii_byte (de_name d);
  cw_len : blen (de_name d) + 1 < 2 ^ 10;
  cw_id : 0 <= de_file_id d < 2 ^ 64;
  cw_date : 0 <= de_date_added d < 2 ^ 64;
  cw_flags : 0 <= de_flags d < 2 ^ 16;
}.
Record xattr_wf (x : bytes * bytes) : Prop := {
  xw_ascii : Forall ascii_byte x.1;
  xw_len : blen x.1 + 1 < 2 ^ 16;
  xw_data : blen x.2 < 2 ^ 16;
  xw_plain : x.1 <> XATTR_NAME_DECMPFS;
}.
Record object_wf (o : object) : Prop := {
  ow_inode : inode_wf (ob_inode o);
  ow_oid : 0 <= ob_oid o < 2 ^ 60;
  ow_stream : ino_private_id (ob_inode o) = ob_oid o;
  ow_size : default 0 (ino_size (ob_inode o)) = blen (ob_content o);
  ow_cap : blen (ob_content o) <= MAX_FILE_BYTES;
  ow_children : Forall child_wf (ob_children o);
  ow_xattrs : Forall xattr_wf (ob_xattrs o);
}.
Record tree_wf (objs : list object) : Prop := {
  tw_objects : Forall object_wf objs;
  tw_distinct : NoDup (map ob_oid objs);
  tw_fits : fits (stored_records 4 objs);
  tw_room : 4 * BLOCK_SIZE + blen (stored_data objs) < u64_limit;
}.

(** ** Keys *)

Lemma jkey_stored ty oid ty' rest :
  0 <= ty < 16 -> 0 <= oid < 2 ^ 60 -> from_u4 ty = Some ty' -> jkey (to_le_bytes 8 (encode_jkey ty oid) ++ rest) = (oid, Some ty').
Proof.
  intros Ht Ho Hf. unfold jkey.
  assert (0 <= encode_jkey ty oid < 2 ^ 64) as Hb by (rewrite encode_jkey_sum by done; lia).
  change (to_le_bytes 8 (encode_jkey ty oid) ++ rest) with ([] ++ to_le_bytes 8 (encode_jkey ty oid) ++ rest).
  rewrite le_u64_app by done. rewrite decode_encode_jkey by done. by rewrite Hf.
Qed.

Lemma record_of_key {A} ty p (f : bytes -> bytes -> option A) (r : bytes * bytes) oid ty' :
  jkey r.1 = (oid, Some ty') -> record_of ty p f (entry_of r) = if bool_decide (ty' = ty) && (oid =? p) then f r.1 r.2 else None.
Proof.
  intros Hk. unfold record_of, record_oid, entry_of. cbn [key value]. rewrite Hk. cbn [fst snd].
  by rewrite (bool_decide_ext (Some ty' = Some ty) (ty' = ty)) by naive_solver.
Qed.

Section Keys.
Context (o : object) (Hoid : 0 <= ob_oid o < 2 ^ 60).

Lemma inode_key : jkey (stored_inode o).1 = (ob_oid o, Some FsRecord.Inode).
Proof. unfold stored_inode, record_key. cbn [fst]. rewrite <-(app_nil_r (to_le_bytes 8 _)). by apply jkey_stored. Qed.
Lemma child_key d : jkey (stored_child (ob_oid o) d).1 = (ob_oid o, Some DirRec).
Proof. unfold stored_child, hashed_drec_key. cbn [fst]. by apply jkey_stored. Qed.
Lemma xattr_stored_key x : jkey (stored_xattr (ob_oid o) x).1 = (ob_oid o, Some FsRecord.Xattr).
Proof. unfold stored_xattr, embedded_xattr. cbn [fst]. by apply jkey_stored. Qed.
Lemma extent_key len phys : jkey (file_extent (ob_oid o) 0 len phys).1 = (ob_oid o, Some FsRecord.FileExtent).
Proof. unfold file_extent. cbn [fst]. by apply jkey_stored. Qed.

(** The records of a list, by what the decoder makes of each. *)
Lemma omap_skips {A B} (rec : Entry -> option B) (g : A -> bytes * bytes) (l : list A) :
  (forall a, a ∈ l -> rec (entry_of (g a)) = None) -> omap rec (entries_of (map g l)) = [].
Proof.
  induction l as [|a l IH]; [done|]. intros Hn. cbn. rewrite Hn by left. apply IH. intros b Hb. apply Hn. by right.
Qed.
Lemma omap_some {A B} (rec : Entry -> option B) (g : A -> bytes * bytes) (h : A -> B) (l : list A) :
  (forall a, a ∈ l -> rec (entry_of (g a)) = Some (h a)) -> omap rec (entries_of (map g l)) = map h l.
Proof.
  induction l as [|a l IH]; [done|]. intros Hn. cbn. rewrite Hn by left. cbn. f_equal. apply IH. intros b Hb. apply Hn. by right.
Qed.

Lemma entries_of_app (a b : list (bytes * bytes)) : entries_of (a ++ b) = entries_of a ++ entries_of b.
Proof. apply map_app. Qed.

(** Decoding by type picks one of the four parts. *)
Lemma omap_object {A} ty (f : bytes -> bytes -> option A) phys :
  let rec := record_of ty (ob_oid o) f in
  omap rec (entries_of (object_records phys o)) =
  omap rec (entries_of [stored_inode o]) ++ omap rec (entries_of (map (stored_child (ob_oid o)) (ob_children o))) ++
  omap rec (entries_of (map (stored_xattr (ob_oid o)) (ob_xattrs o))) ++
  omap rec (entries_of match ob_content o with [] => [] | content => [file_extent (ob_oid o) 0 (blocks_of content * BLOCK_SIZE) phys] end).
Proof. intros rec. unfold object_records. by rewrite !entries_of_app, !omap_app. Qed.

(** An object has no records of another. *)
Lemma omap_other {A} ty p (f : bytes -> bytes -> option A) phys :
  ob_oid o <> p -> omap (record_of ty p f) (entries_of (object_records phys o)) = [].
Proof.
  intros Hne. assert (forall r ty', jkey r.1 = (ob_oid o, Some ty') -> record_of ty p f (entry_of r) = None) as Hn.
  { intros r ty' Hk. rewrite (record_of_key _ _ _ _ _ _ Hk), (proj2 (Z.eqb_neq _ _) Hne). by rewrite andb_false_r. }
  unfold object_records. rewrite !entries_of_app, !omap_app. rewrite (omap_skips _ (stored_child (ob_oid o))) by (intros d _; exact (Hn _ _ (child_key d))).
  rewrite (omap_skips _ (stored_xattr (ob_oid o))) by (intros x _; exact (Hn _ _ (xattr_stored_key x))).
  cbn [app entries_of map omap list_omap]. rewrite (Hn _ _ inode_key). cbn [app].
  destruct (ob_content o); [done|]. cbn [entries_of map omap list_omap]. by rewrite (Hn _ _ (extent_key _ _)).
Qed.
End Keys.

(** ** Values *)

Lemma parse_stored_child parent d : child_wf d -> parse_dir_entry (stored_child parent d).1 (stored_child parent d).2 = Some d.
Proof.
  intros [Ha Hl Hi Hd Hf]. unfold parse_dir_entry, stored_child. cbn [fst snd].
  rewrite (proj1 (drec_name_roundtrip (encode_jkey 9 parent) 0 (de_name d) Ha Hl ltac:(lia))). cbn [mbind option_bind].
  unfold OFF_DREC_FILE_ID, OFF_DREC_DATE_ADDED, OFF_DREC_FLAGS. destruct d as [n i a f]. cbn [de_name de_file_id de_date_added de_flags] in *.
  f_equal. rewrite <-(app_nil_r (to_le_bytes 2 f)), <-(app_nil_l (to_le_bytes 8 i ++ _)). f_equal.
  - read_field le_u64_app; reflexivity.
  - read_field le_u64_app; reflexivity.
  - read_field le_u16_app; reflexivity.
Qed.

(** The attribute an embedded record holds. *)
Definition plain_xattr (x : bytes * bytes) : Xattr := {| xa_name := x.1; xa_flags := 2; xa_value := Embedded x.2 |}.

Lemma parse_stored_xattr oid x :
  Forall ascii_byte x.1 -> blen x.1 + 1 < 2 ^ 16 -> blen x.2 < 2 ^ 16 ->
  parse_xattr (stored_xattr oid x).1 (stored_xattr oid x).2 = Some (plain_xattr x).
Proof.
  destruct x as [name data]. unfold stored_xattr, embedded_xattr, plain_xattr. cbn [fst snd]. intros Ha Hl Hd.
  pose proof (blen_nonneg name) as Hn. pose proof (blen_nonneg data) as Hdn.
  assert (blen (name ++ [x00]) = blen name + 1) as Hz by (rewrite blen_app; done). unfold parse_xattr.
  unfold OFF_XATTR_KEY_NAME_LEN, OFF_XATTR_KEY_NAME, OFF_XATTR_VAL_FLAGS, OFF_XATTR_VAL_XDATA_LEN, OFF_XATTR_VAL_XDATA. rewrite Hz.
  rewrite (le_u16_app (to_le_bytes 8 (encode_jkey 4 oid))) by (rewrite ?blen_to_le_bytes; lia).
  rewrite (proj2 (Z.eqb_neq _ _)) by lia.
  assert (get_range (to_le_bytes 8 (encode_jkey 4 oid) ++ to_le_bytes 2 (blen name + 1) ++ name ++ [x00]) 10 (10 + (blen name + 1)) =
    Some (name ++ [x00])) as ->.
  { rewrite (app_assoc (to_le_bytes 8 _)). set (s := name ++ [x00]) in *. rewrite <-(app_nil_r s) at 1.
    apply get_range_app; rewrite blen_app, !blen_to_le_bytes; lia. }
  cbn [mbind option_bind]. rewrite decode_cstr_ascii by done.
  assert (le_u16 (to_le_bytes 2 2 ++ to_le_bytes 2 (blen data) ++ data) 2 = blen data) as -> by (apply le_u16_app; [done|lia]).
  assert (le_u16 (to_le_bytes 2 2 ++ to_le_bytes 2 (blen data) ++ data) 0 = 2) as -> by (by apply (le_u16_app [])).
  change (negb (Z.land 2 XATTR_DATA_STREAM =? 0)) with false. cbn iota.
  assert (get_range (to_le_bytes 2 2 ++ to_le_bytes 2 (blen data) ++ data) 4 (4 + blen data) = Some data) as ->; [|done].
  pose proof (get_range_app (to_le_bytes 2 2 ++ to_le_bytes 2 (blen data)) data [] 4 (4 + blen data)) as Hg.
  rewrite app_nil_r, <-app_assoc in Hg. apply Hg; rewrite blen_app, !blen_to_le_bytes; lia.
Qed.

(** The extent of a content that starts at block [phys]. *)
Definition content_extent (content : bytes) (phys : Z) : FileExtent :=
  {| fe_logical_offset := 0; fe_len := blocks_of content * BLOCK_SIZE; fe_phys_block_num := phys; fe_crypto_id := 0 |}.

Lemma blocks_of_bounds content :
  blen content <= blocks_of content * BLOCK_SIZE < blen content + BLOCK_SIZE /\ 0 <= blocks_of content.
Proof.
  unfold blocks_of. pose proof (blen_nonneg content). assert (0 < BLOCK_SIZE) as HB by done.
  pose proof (Z.div_mod (blen content + (BLOCK_SIZE - 1)) BLOCK_SIZE ltac:(lia)) as Hd.
  pose proof (Z.mod_pos_bound (blen content + (BLOCK_SIZE - 1)) BLOCK_SIZE HB). split; [lia|apply Z.div_pos; lia].
Qed.

Lemma parse_stored_extent oid content phys :
  blen content <= MAX_FILE_BYTES -> 0 <= phys < 2 ^ 64 ->
  let r := file_extent oid 0 (blocks_of content * BLOCK_SIZE) phys in parse_extent r.1 r.2 = content_extent content phys.
Proof.
  intros Hc Hp r. pose proof (blocks_of_bounds content) as [Hb H0]. pose proof (blen_nonneg content).
  assert (0 <= blocks_of content * BLOCK_SIZE < 2 ^ 56) as Hl.
  { split; [lia|]. change MAX_FILE_BYTES with (2 ^ 34) in Hc. unfold BLOCK_SIZE in *. lia. }
  assert (forall z, 0 <= z < 2 ^ 56 -> Z.land z 0xffffffffffffff = z) as Hm.
  { intros z Hz. change 0xffffffffffffff with (Z.ones 56). rewrite Z.land_ones by lia. by apply Z.mod_small. }
  unfold r, file_extent, parse_extent, content_extent, OFF_FEXT_KEY_LOGICAL, OFF_FEXT_LEN_AND_FLAGS, OFF_FEXT_PHYS_BLOCK, OFF_FEXT_CRYPTO_ID,
    J_FILE_EXTENT_LEN_MASK. cbn [fst snd]. rewrite (Hm _ Hl). f_equal.
  - rewrite <-(Hm _ Hl) at 2. f_equal. apply (le_u64_app []); [done|lia].
  - by apply le_u64_app.
Qed.

(** ** One object's records *)

Section Object.
Context (o : object) (Hw : object_wf o) (phys : Z) (Hphys : 0 <= phys < 2 ^ 64).

(** A record decoded under its own type, and under another. *)
Lemma own_record {A} ty (f : bytes -> bytes -> option A) (r : bytes * bytes) :
  jkey r.1 = (ob_oid o, Some ty) -> record_of ty (ob_oid o) f (entry_of r) = f r.1 r.2.
Proof. intros Hk. rewrite (record_of_key _ _ _ _ _ _ Hk), bool_decide_eq_true_2, Z.eqb_refl by done. done. Qed.
Lemma other_record {A} ty ty' (f : bytes -> bytes -> option A) (r : bytes * bytes) :
  jkey r.1 = (ob_oid o, Some ty') -> ty' <> ty -> record_of ty (ob_oid o) f (entry_of r) = None.
Proof. intros Hk Hne. by rewrite (record_of_key _ _ _ _ _ _ Hk), bool_decide_eq_false_2. Qed.

Lemma skip_inode {A} ty (f : bytes -> bytes -> option A) :
  FsRecord.Inode <> ty -> omap (record_of ty (ob_oid o) f) (entries_of [stored_inode o]) = [].
Proof. intros Hne. cbn. by rewrite (other_record _ _ _ _ (inode_key o (ow_oid o Hw)) Hne). Qed.
Lemma skip_children {A} ty (f : bytes -> bytes -> option A) :
  DirRec <> ty -> omap (record_of ty (ob_oid o) f) (entries_of (map (stored_child (ob_oid o)) (ob_children o))) = [].
Proof. intros Hne. apply omap_skips. intros d _. exact (other_record _ _ _ _ (child_key o (ow_oid o Hw) d) Hne). Qed.
Lemma skip_xattrs {A} ty (f : bytes -> bytes -> option A) :
  FsRecord.Xattr <> ty -> omap (record_of ty (ob_oid o) f) (entries_of (map (stored_xattr (ob_oid o)) (ob_xattrs o))) = [].
Proof. intros Hne. apply omap_skips. intros x _. exact (other_record _ _ _ _ (xattr_stored_key o (ow_oid o Hw) x) Hne). Qed.
Lemma skip_extent {A} ty (f : bytes -> bytes -> option A) :
  FsRecord.FileExtent <> ty ->
  omap (record_of ty (ob_oid o) f)
    (entries_of match ob_content o with [] => [] | content => [file_extent (ob_oid o) 0 (blocks_of content * BLOCK_SIZE) phys] end) = [].
Proof. intros Hne. destruct (ob_content o); [done|]. cbn. by rewrite (other_record _ _ _ _ (extent_key o (ow_oid o Hw) _ _) Hne). Qed.

Lemma object_inode : omap (inode_record (ob_oid o)) (entries_of (object_records phys o)) = [encode_inode (ob_inode o)].
Proof.
  unfold inode_record. rewrite omap_object, skip_children, skip_xattrs, skip_extent by done.
  cbn. by rewrite (own_record _ _ _ (inode_key o (ow_oid o Hw))).
Qed.

Lemma object_children : omap (dir_record (ob_oid o)) (entries_of (object_records phys o)) = ob_children o.
Proof.
  unfold dir_record. rewrite omap_object, skip_inode, skip_xattrs, skip_extent by done. rewrite !app_nil_r. cbn [app].
  rewrite (omap_some _ _ id), map_id; [done|]. intros d Hd. rewrite (own_record _ _ _ (child_key o (ow_oid o Hw) d)).
  apply parse_stored_child. pose proof (ow_children o Hw) as Hc. rewrite Forall_forall in Hc. by apply Hc.
Qed.

Lemma object_xattrs : omap (xattr_record (ob_oid o)) (entries_of (object_records phys o)) = map plain_xattr (ob_xattrs o).
Proof.
  unfold xattr_record. rewrite omap_object, skip_inode, skip_children, skip_extent by done. rewrite !app_nil_r. cbn [app].
  apply omap_some. intros x Hx. rewrite (own_record _ _ _ (xattr_stored_key o (ow_oid o Hw) x)).
  pose proof (ow_xattrs o Hw) as Hc. rewrite Forall_forall in Hc. destruct (Hc x Hx). by apply parse_stored_xattr.
Qed.

Lemma object_extents :
  omap (extent_record (ob_oid o)) (entries_of (object_records phys o)) =
  match ob_content o with [] => [] | content => [content_extent content phys] end.
Proof.
  unfold extent_record. rewrite omap_object, skip_inode, skip_children, skip_xattrs by done. cbn [app].
  pose proof (ow_cap o Hw) as Hcap. destruct (ob_content o) as [|b content] eqn:Hc; [done|]. rewrite <-Hc in *.
  cbn [entries_of map omap list_omap]. rewrite (own_record _ _ _ (extent_key o (ow_oid o Hw) _ _)). by rewrite parse_stored_extent.
Qed.
End Object.

(** ** The tree's records *)

(** An object and the block its content starts at. *)
Fixpoint locate (phys : Z) (objs : list object) (oid : Z) : option (Z * object) :=
  match objs with
  | [] => None
  | o :: objs => if ob_oid o =? oid then Some (phys, o) else locate (phys + blocks_of (ob_content o)) objs oid
  end.

Lemma locate_find phys objs oid : snd <$> locate phys objs oid = find_object objs oid.
Proof. revert phys; induction objs as [|o objs IH]; intros phys; [done|]. cbn. destruct (ob_oid o =? oid); [done|apply IH]. Qed.

Lemma locate_in phys objs oid a o : locate phys objs oid = Some (a, o) -> o ∈ objs /\ ob_oid o = oid.
Proof.
  revert phys; induction objs as [|o' objs IH]; intros phys; [done|]. cbn. destruct (Z.eqb_spec (ob_oid o') oid) as [He|].
  - intros [= <- <-]. split; [left|done].
  - intros Hl. destruct (IH _ Hl). split; [by right|done].
Qed.

Lemma omap_absent {A} ty p (f : bytes -> bytes -> option A) phys objs :
  Forall object_wf objs -> p ∉ map ob_oid objs -> omap (record_of ty p f) (entries_of (stored_records phys objs)) = [].
Proof.
  intros Hw. revert phys; induction Hw as [|o objs Ho _ IH]; intros phys Hp; [done|]. cbn in Hp. apply not_elem_of_cons in Hp as [Hne Hp].
  cbn [stored_records]. rewrite entries_of_app, omap_app, omap_other by (apply Ho || congruence). by apply IH.
Qed.

Lemma omap_stored {A} ty p (f : bytes -> bytes -> option A) phys objs :
  Forall object_wf objs -> NoDup (map ob_oid objs) ->
  omap (record_of ty p f) (entries_of (stored_records phys objs)) =
  match locate phys objs p with Some (a, o) => omap (record_of ty p f) (entries_of (object_records a o)) | None => [] end.
Proof.
  intros Hw. revert phys; induction Hw as [|o objs Ho Hw IH]; intros phys Hnd; [done|]. cbn in Hnd. apply NoDup_cons in Hnd as [Hni Hnd].
  cbn [stored_records locate]. rewrite entries_of_app, omap_app. destruct (Z.eqb_spec (ob_oid o) p) as [<-|Hne].
  - by rewrite (omap_absent _ _ _ _ objs Hw Hni), app_nil_r.
  - rewrite omap_other by (apply Ho || done). by apply IH.
Qed.

Lemma blen_padded content : blen (padded content) = blocks_of content * BLOCK_SIZE.
Proof. unfold padded. destruct (blocks_of_bounds content) as [? _]. rewrite blen_app, blen_zeroed; lia. Qed.

(** The content of a located object, in the data behind the tree. *)
Lemma locate_data phys objs oid a o :
  locate phys objs oid = Some (a, o) ->
  exists p q, stored_data objs = p ++ ob_content o ++ q /\ blen p = (a - phys) * BLOCK_SIZE /\ phys <= a /\ a * BLOCK_SIZE + blen (ob_content o) <= phys * BLOCK_SIZE + blen (stored_data objs).
Proof.
  revert phys; induction objs as [|o' objs IH]; intros phys; [done|]. cbn [locate].
  unfold stored_data. cbn [map concat]. fold (stored_data objs). pose proof (blen_nonneg (stored_data objs)) as Hn.
  pose proof (blen_padded (ob_content o')) as Hp. destruct (blocks_of_bounds (ob_content o')) as [Hb H0].
  destruct (Z.eqb_spec (ob_oid o') oid) as [_|_].
  - intros [= <- <-]. unfold padded in *. eexists [], _. rewrite <-app_assoc. split; [reflexivity|]. rewrite !blen_app in *. change (blen (@nil byte)) with 0. lia.
  - intros Hl. destruct (IH _ Hl) as (p & q & -> & Hlp & Hle & Hr). exists (padded (ob_content o') ++ p), q.
    rewrite <-app_assoc. split; [done|]. rewrite !blen_app in *. lia.
Qed.

(** ** Reading the stored tree *)

(** What the abstract tree says of a path: the object, or the id the walk fails at. *)
Definition tree_open (objs : list object) (path : bytes) : Z + object :=
  match follow_names objs ROOT_DIR_INO_NUM (components path) with
  | inl current => inl current
  | inr oid => match find_object objs oid with Some o => inr o | None => inl oid end
  end.

Lemma blen_build records : fits records -> blen (build records) = 4 * BLOCK_SIZE.
Proof.
  intros Hf. destruct built_fixed_blocks as (B0 & B1 & B2 & _). pose proof (blen_write_fs_leaf records Hf) as B3. unfold build.
  rewrite !blen_app, B0, B1, B2, B3. done.
Qed.

Section Stored.
Context `{XtsCipher} `{DecmpfsFormat} `{Codecs} (objs : list object) (Hwf : tree_wf objs).

Local Abbreviation disk := (image (stored_image objs)).
Local Abbreviation leaf := (TLeaf 100 (entries_of (stored_records 4 objs))).

Lemma stored_tree : volume_tree disk built_volume BLOCK_SIZE leaf.
Proof. exact (built_tree (stored_records 4 objs) (tw_fits objs Hwf) (stored_data objs)). Qed.

Lemma located oid a o : locate 4 objs oid = Some (a, o) -> object_wf o /\ ob_oid o = oid /\ 0 <= a < 2 ^ 64.
Proof.
  intros Hl. destruct (locate_in _ _ _ _ _ Hl) as [Hin Ho]. destruct Hwf as [Hw _ _ Hroom]. rewrite Forall_forall in Hw. split; [by apply Hw|].
  split; [done|]. destruct (locate_data _ _ _ _ _ Hl) as (p & q & _ & _ & Hle & Hr). pose proof (blen_nonneg (ob_content o)).
  unfold BLOCK_SIZE, u64_limit in *. lia.
Qed.

(** Any kind of record of any object, by the abstract lookup. *)
Lemma stored_lookup {A} ty p (f : bytes -> bytes -> option A) (g : object -> list A) :
  (forall a o, object_wf o -> ob_oid o = p -> 0 <= a < 2 ^ 64 -> omap (record_of ty p f) (entries_of (object_records a o)) = g o) ->
  omap (record_of ty p f) (leaf_entries leaf) = match find_object objs p with Some o => g o | None => [] end.
Proof.
  intros Hg. cbn [leaf_entries]. rewrite omap_stored by apply Hwf. rewrite <-(locate_find 4). destruct (locate 4 objs p) as [[a o]|] eqn:Hl; [|done].
  destruct (located _ _ _ Hl) as (Ho & Hp & Ha). by apply Hg.
Qed.

Lemma stored_dir p : omap (dir_record p) (leaf_entries leaf) = children_of objs p.
Proof. unfold dir_record, children_of. apply (stored_lookup _ _ _ ob_children). intros a o Ho <- Ha. by apply object_children. Qed.

Lemma stored_list_dir p : list_dir disk built_volume p BLOCK_SIZE = Ok (children_of objs p).
Proof. by rewrite (list_dir_tree disk built_volume BLOCK_SIZE p leaf stored_tree I), stored_dir. Qed.

Lemma stored_list_xattrs o : find_object objs (ob_oid o) = Some o -> list_xattrs disk built_volume (ob_oid o) BLOCK_SIZE = Ok (map plain_xattr (ob_xattrs o)).
Proof.
  intros Hf. rewrite (list_xattrs_tree disk built_volume (ob_oid o) BLOCK_SIZE leaf stored_tree I). f_equal.
  unfold xattr_record. rewrite (stored_lookup _ _ _ (fun o => map plain_xattr (ob_xattrs o))); [by rewrite Hf|].
  intros a o' Ho <- Ha. by apply object_xattrs.
Qed.

Lemma stored_find_inode p : find_inode p (leaf_entries leaf) = (fun o => encode_inode (ob_inode o)) <$> find_object objs p.
Proof.
  unfold find_inode, inode_record.
  rewrite (stored_lookup _ _ _ (fun o => [encode_inode (ob_inode o)])); [by destruct (find_object objs p)|]. intros a o Ho <- Ha. by apply object_inode.
Qed.

Lemma find_object_wf p o : find_object objs p = Some o -> object_wf o /\ ob_oid o = p.
Proof.
  rewrite <-(locate_find 4). destruct (locate 4 objs p) as [[a o']|] eqn:Hl; [|done]. intros [= <-]. by destruct (located _ _ _ Hl) as (? & ? & _).
Qed.

Lemma stored_resolve names : forall current, resolve_names (leaf_entries leaf) current names = follow_names objs current names.
Proof.
  induction names as [|name names IH]; intros current; [done|]. cbn [resolve_names follow_names]. rewrite stored_dir.
  destruct (find_name _ _); [apply IH|done].
Qed.

Lemma stored_open path :
  open_path disk built_volume path BLOCK_SIZE =
  match tree_open objs path with inl oid => Err (OmapUnresolved oid 1) | inr o => Ok (ob_inode o) end.
Proof.
  rewrite (open_path_tree disk built_volume BLOCK_SIZE path leaf stored_tree I), stored_resolve. unfold tree_open.
  destruct (follow_names _ _ _) as [current|oid]; [done|]. rewrite stored_find_inode.
  destruct (find_object objs oid) as [o|] eqn:Ho; [|done]. cbn [fmap option_fmap option_map].
  destruct (find_object_wf _ _ Ho) as [Hw <-]. apply parse_encode_inode. apply Hw.
Qed.

(** No attribute of a stored object hides its content. *)
Lemma no_header xs : Forall xattr_wf xs -> find_xattr XATTR_NAME_DECMPFS (map plain_xattr xs) = None.
Proof.
  intros Hx. unfold find_xattr. rewrite (proj2 (list_find_None _ _)); [done|]. apply Forall_map. eapply Forall_impl; [exact Hx|].
  intros x [_ _ _ Hn]. exact Hn.
Qed.

Lemma stored_extents o a :
  locate 4 objs (ob_oid o) = Some (a, o) -> object_wf o -> 0 <= a < 2 ^ 64 ->
  list_extents disk built_volume (ob_oid o) BLOCK_SIZE = Ok match ob_content o with [] => [] | content => [content_extent content a] end.
Proof.
  intros Hl Hw Ha. rewrite (list_extents_tree disk built_volume (ob_oid o) BLOCK_SIZE leaf stored_tree I). f_equal.
  unfold extent_record. cbn [leaf_entries]. rewrite omap_stored by apply Hwf. rewrite Hl. pose proof (object_extents o Hw a Ha) as He.
  unfold extent_record in He. rewrite He. by destruct (ob_content o).
Qed.

(** The bytes behind the tree, at the block of the object. *)
Lemma stored_content o a :
  locate 4 objs (ob_oid o) = Some (a, o) ->
  read_at disk (a * BLOCK_SIZE) (blen (ob_content o)) = Ok (ob_content o).
Proof.
  intros Hl. destruct (locate_data _ _ _ _ _ Hl) as (p & q & Hd & Hp & Hle & _).
  destruct (Z.eq_dec (blen (ob_content o)) 0) as [Hz|Hz]; [rewrite Hz, read_at_cursor_0; f_equal; symmetry; apply length_zero_iff_nil; unfold blen in Hz; lia|].
  rewrite read_at_cursor by done. unfold stored_image. cbn [image cur_buf].
  rewrite Hd, (app_assoc (build _)). pose proof (blen_build _ (tw_fits objs Hwf)) as Hb.
  rewrite get_range_app; [done|rewrite blen_app; lia..].
Qed.

Lemma stored_read_data p o : find_object objs p = Some o -> read_data disk built_volume (ob_inode o) BLOCK_SIZE = Ok (ob_content o).
Proof.
  intros Hf. destruct (find_object_wf _ _ Hf) as [Hw Ho]. rewrite <-(locate_find 4) in Hf. destruct (locate 4 objs p) as [[a o']|] eqn:Hl; [|done].
  injection Hf as ->. rewrite <-Ho in Hl. destruct (located _ _ _ Hl) as (_ & _ & Ha). unfold read_data, decmpfs_header, get_xattr.
  change (ino_oid (ob_inode o)) with (ob_oid o). rewrite stored_list_xattrs by (rewrite <-(locate_find 4), Hl; done).
  cbn [mbind outcome_bind]. rewrite no_header by apply Hw. rewrite (ow_stream o Hw), (ow_size o Hw). unfold read_stream.
  rewrite (proj2 (Z.ltb_ge _ _)) by apply Hw. rewrite (stored_extents o a Hl Hw Ha). cbn [mbind outcome_bind].
  pose proof (stored_content o a Hl) as Hc. destruct (locate_data _ _ _ _ _ Hl) as (_ & _ & _ & _ & Hle & Hr). pose proof (tw_room objs Hwf) as Hroom.
  destruct (blocks_of_bounds (ob_content o)) as [Hb _].
  destruct (ob_content o) as [|b content] eqn:He; [done|]. rewrite <-He in *. assert (0 < blen (ob_content o)) as Hpos by (rewrite He; unfold blen; cbn; lia).
  cbn [fold_res]. unfold fill_extent, content_extent. cbn [fe_logical_offset fe_len fe_phys_block_num fe_crypto_id vol_vek built_volume].
  rewrite (proj2 (Z.leb_gt _ _)), (proj2 (Z.eqb_neq _ _)) by lia. change (BLOCK_SIZE =? 0) with false. cbn [orb].
  assert (checked_mul a BLOCK_SIZE = Some (a * BLOCK_SIZE)) as -> by (apply checked_mul_Some; unfold BLOCK_SIZE in *; lia). cbn [ok_or mbind outcome_bind].
  rewrite Z.sub_0_r, Z.min_r by lia. rewrite Hc. cbn [mbind outcome_bind]. f_equal.
  pose proof (put_app [] (replicate (Z.to_nat (blen (ob_content o))) x00) [] (ob_content o) 0 eq_refl) as Hput. cbn [app] in Hput.
  rewrite !app_nil_r in Hput. apply Hput. rewrite blen_replicate. lia.
Qed.
End Stored.

(** C26 (refinement): a tree of files and directories laid out in the format is read back exactly.  The superblock parses, and every path opened in
    the volume gives what the abstract tree says: the inode of the object its names lead to, whose directory listing, attributes and content are those that were
    stored; or, where the names lead nowhere, the loud error with the id of the directory or object that is missing. *)
Theorem stored_tree_reads `{XtsCipher} `{DecmpfsFormat} `{Codecs} (objs : list object) :
  tree_wf objs ->
  let disk := image (stored_image objs) in
  exists block vol, read_at disk 0 BLOCK_SIZE = Ok block /\ ApfsVolume_parse block = Ok vol /\
    forall path,
      match tree_open objs path with
      | inl oid => open_path disk vol path BLOCK_SIZE = Err (OmapUnresolved oid (vol_xid vol))
      | inr o =>
          open_path disk vol path BLOCK_SIZE = Ok (ob_inode o) /\
          list_dir disk vol (ob_oid o) BLOCK_SIZE = Ok (ob_children o) /\
          list_xattrs disk vol (ob_oid o) BLOCK_SIZE = Ok (map plain_xattr (ob_xattrs o)) /\
          read_data disk vol (ob_inode o) BLOCK_SIZE = Ok (ob_content o)
      end.
Proof.
  intros Hwf disk. destruct (built_blocks (stored_records 4 objs) (tw_fits objs Hwf) (stored_data objs)) as (Hb & _).
  destruct built_fixed_blocks as (_ & _ & _ & Hv & _). exists (write_apsb 1 100 1), built_volume. split; [|split; [exact Hv|]].
  { unfold disk. rewrite read_at_cursor by done. unfold block_at in Hb. cbn [image cur_buf]. unfold stored_image. change (0 + BLOCK_SIZE) with (0 * BS + BS).
    change (get_range (build (stored_records 4 objs) ++ stored_data objs) (0 * BS) (0 * BS + BS)) with
      (get_range (build (stored_records 4 objs) ++ stored_data objs) 0 (0 * BS + BS)) in Hb. by rewrite Hb. }
  intros path. unfold disk. rewrite (stored_open objs Hwf). change (vol_xid built_volume) with 1.
  destruct (tree_open objs path) as [oid|o] eqn:Ht; [done|]. unfold tree_open in Ht.
  destruct (follow_names _ _ _) as [|oid]; [done|]. destruct (find_object objs oid) as [o'|] eqn:Hf; [|done]. injection Ht as ->.
  destruct (find_object_wf objs Hwf _ _ Hf) as [_ Ho]. split; [done|]. rewrite Ho. split_and!.
  - rewrite (stored_list_dir objs Hwf). unfold children_of. by rewrite Hf.
  - rewrite <-Ho. apply stored_list_xattrs; [done|by rewrite Ho].
  - by apply (stored_read_data objs Hwf oid).
Qed.

(** ** A small tree *)

Definition sample_object (oid parent mode : Z) (children : list DirEntry) (xattrs : list (bytes * bytes)) (content : bytes) : object :=
  {| ob_inode :=
       {| ino_oid := oid; ino_parent_id := parent; ino_private_id := oid; ino_create_time := 1; ino_mod_time := 2; ino_change_time := 3; ino_access_time := 4;
          ino_internal_flags := 0; ino_nlink_or_nchildren := blen children; ino_bsd_flags := 0; ino_uid := 501; ino_gid := 20; ino_mode := mode;
          ino_name := None; ino_size := Some (blen content) |};
     ob_children := children; ob_xattrs := xattrs; ob_content := content |}.
Definition sample_entry (name : bytes) (oid flags : Z) : DirEntry := {| de_name := name; de_file_id := oid; de_date_added := 5; de_flags := flags |}.

(** [/docs/b.txt] of two blocks, [/a.txt] with an attribute, and [/gone], an entry without an inode. *)
Definition sample_tree : list object :=
  [ sample_object 2 1 0x41ed [sample_entry [x61; x2e; x74; x78; x74] 17 8; sample_entry [x64; x6f; x63; x73] 16 4; sample_entry [x67; x6f; x6e; x65] 99 8] [] [];
    sample_object 16 2 0x41ed [sample_entry [x62; x2e; x74; x78; x74] 18 8] [] [];
    sample_object 17 2 0x81a4 [] [([x75; x73; x65; x72], [x76; x61; x6c])] [x68; x69];
    sample_object 18 16 0x81a4 [] [] (replicate 5000 x62) ].

Lemma ascii_by_test n : forallb (fun b => bool_decide (ascii_byte b)) n = true -> Forall ascii_byte n.
Proof. intros Hn. apply Forall_forall. intros b Hb. eapply bool_decide_eq_true_1, (proj1 (forallb_forall _ _) Hn), list_elem_of_In, Hb. Qed.

Lemma sample_object_wf oid parent mode children xattrs content :
  0 <= oid < 2 ^ 60 -> 0 <= parent < 2 ^ 64 -> 0 <= mode < 2 ^ 16 -> blen children < 2 ^ 31 -> blen content <= MAX_FILE_BYTES ->
  Forall child_wf children -> Forall xattr_wf xattrs -> object_wf (sample_object oid parent mode children xattrs content).
Proof.
  intros Ho Hp Hm Hc Hb Hcs Hxs. pose proof (blen_nonneg children). pose proof (blen_nonneg content). change MAX_FILE_BYTES with (2 ^ 34) in *.
  split; [split|..]; cbn; try done; try lia. intros z [= <-]. lia.
Qed.

Lemma sample_entry_wf name oid flags :
  forallb (fun b => bool_decide (ascii_byte b)) name = true -> blen name + 1 < 2 ^ 10 -> 0 <= oid < 2 ^ 64 -> 0 <= flags < 2 ^ 16 -> child_wf (sample_entry name oid flags).
Proof. intros Hn%ascii_by_test ? ? ?. split; try done. Qed.

Lemma sample_wf : tree_wf sample_tree.
Proof.
  split.
  - unfold sample_tree. repeat (apply Forall_cons; split); [..|apply Forall_nil_2].
    all: apply sample_object_wf; [lia..|vm_compute; congruence|vm_compute; congruence| |].
    all: repeat (apply Forall_cons; split); try apply Forall_nil_2; try (apply sample_entry_wf; [vm_compute; reflexivity|vm_compute; reflexivity|lia|lia]).
    split; [apply ascii_by_test; vm_compute; reflexivity|vm_compute; reflexivity|vm_compute; reflexivity|discriminate].
  - apply (bool_decide_unpack _). vm_compute. exact I.
  - vm_compute. discriminate.
  - vm_compute. reflexivity.
Qed.

Lemma stored_tree_reads_witness :
  let disk := image (stored_image sample_tree) in
  exists block vol, read_at disk 0 BLOCK_SIZE = Ok block /\ ApfsVolume_parse block = Ok vol /\
    open_path disk vol [x2f; x67; x6f; x6e; x65] BLOCK_SIZE = Err (OmapUnresolved 99 (vol_xid vol)) /\
    exists i, open_path disk vol [x2f; x64; x6f; x63; x73; x2f; x62; x2e; x74; x78; x74] BLOCK_SIZE = Ok i /\ ino_oid i = 18 /\
      @read_data demo_format demo_codecs _ _ _ disk vol i BLOCK_SIZE = Ok (replicate 5000 x62).
Proof.
  destruct (@stored_tree_reads _ demo_format demo_codecs sample_tree sample_wf) as (block & vol & Hb & Hv & Hp). exists block, vol.
  split; [exact Hb|]. split; [exact Hv|]. split; [exact (Hp [x2f; x67; x6f; x6e; x65])|].
  destruct (Hp [x2f; x64; x6f; x63; x73; x2f; x62; x2e; x74; x78; x74]) as (Ho & _ & _ & Hd).
  eexists. split; [exact Ho|]. split; [reflexivity|exact Hd].
Defined.
